(* ===== verification/_CoqProject ===== *)
-Q . S2P
Prelude.v
DataFrame.v
FrameTransport.v
SerialPort.v
HostApi.v
Crc16.v
TransportService.v
EncodedValue.v
CommandClasses.v
S2Codec.v
S2SpanManager.v
S2Transport.v
S2KeyInstall.v
S2Bootstrap.v
S2BootstrapRun.v
S2Primitives.v
S0Codec.v
S0Traffic.v
Sqlite.v
NodeRegistry.v
Schema.v
PendingQueue.v
PolicyRegister.v
PolicyBlob.v
SceneStore.v
NodeStores.v
SpanStore.v
ProtocolThread.v
ProtocolSession.v
ProtocolMain.v
InterviewOrchestrator.v
InclusionOrchestrator.v
S0Interview.v
ThermostatOrchestrator.v
Multicast.v
MessageBus.v
Config.v
StoreStartup.v
StoreLocks.v
KeyFiles.v
Logger.v
DongleMonitor.v
ExternalApi.v
Daemon.v
ExternalStores.v
BackendRun.v
TerminalText.v
TerminalConsole.v
TerminalFormat.v
TerminalHandlers.v
TerminalPolicy.v
TerminalRender.v
TerminalScenes.v
TerminalSignals.v
TerminalMain.v
TerminalLogic.v
TerminalNodes.v
TerminalSafety.v
TerminalMenus.v
TerminalSession.v
TerminalDaemon.v
