(* ===== verification/Prelude.v ===== *)
(** * zwaved: a Z-Wave controller daemon

    zwaved drives a Z-Wave USB dongle.  Its parts, from the wire up (paths are
    under [src/src/]):

    - a serial link to the dongle: one-byte ACK/NAK/CAN and checksummed data frames
      ([zwave-protocol/ZwaveDataFrame.cpp]), a byte-fed parser, and a sender with
      acknowledgement, time-outs and retries ([FrameTransport.cpp]);
    - the Host API: requests, responses and callbacks carried in those frames
      ([HostApi.cpp], [HostApiSession.cpp]);
    - command classes: the application frames of the radio network
      ([zwave-protocol/application/]), with the CRC-16 and Transport Service
      wrappers around them;
    - Security S0 and S2 ([zwave-protocol/security/]), and the orchestrators
      ([orchestrator/]) that run inclusion, key exchange and encrypted traffic over a
      synchronous message bus;
    - the protocol thread ([zwave-protocol/ProtocolThread.cpp]): commands from the bus
      become requests for the dongle, frames from the dongle become bus events;
    - stores in one SQLite file: node registry, pending queue for sleeping nodes,
      policies, scenes, node metadata and values, S2 generators;
    - orchestrators on the bus: set-up and interview of a new node, wake-up, scenes,
      logical thermostats;
    - a D-Bus API, and a terminal client ([src/utils/zwave-terminal/]).

    ** Files

    - [Prelude]: machine integers kept in [Z] and narrowed where the C++ narrows;
      reads and copies of a byte buffer, whose out-of-range value is the parameter
      [Oob], so that "in bounds" is "the same for every [Oob]"; tactics and hint
      databases.
    - [DataFrame]: [ZwaveDataFrame], record for object, [parseFromBuffer] and
      [toBuffer].
    - [FrameTransport]: the parser state machine [feed], the dispatcher [pumpOnce]
      and the sender [sendRequest], against the class [SerialIO] of a port and a
      clock with its laws; the abstract send protocol it refines.
    - [SerialPort] (Module [Port]): the port over the system calls of [Posix]; an open
      port, [OpenPort], is an instance of [SerialIO] that satisfies its laws.
    - [HostApi]: every encoder and decoder of [HostApi.cpp], and the session tracker.
    - [Crc16], [TransportService]: the two wrappers; the reassembler's buffers are
      lists, an access past their end is a distinguished result.
    - [EncodedValue], [CommandClasses]: the precision/scale/size format, and one
      Module per command class with its hand-written encoders and decoders.
    - [S2Codec]: Modules [Span] (the CTR_DRBG nonce generator), [NonceSync],
      [Encap], [Kex]; AES is the class [S2Crypto] with its laws, and [Toy] a
      concrete instance of them.
    - [S2SpanManager]: the per-peer nonce state machine of [SpanManager.cpp], peers
      in a [gmap]; two managers in conversation; [SpanTable], the table of [Span.cpp].
    - [S2Transport]: key derivation and the inbound and outbound orchestrators, each
      handler a function from its state to the bus messages it publishes and the new
      state; the node registry is the class [NodeSecurity].
    - [S2KeyInstall]: Modules [PublicKey] (with the DSK and its PIN) and
      [KeyInstall].
    - [S2Bootstrap]: Module [Boot], the inclusion handshake as a step function on
      sessions and phases; the runs it reaches.
    - [S2BootstrapRun]: a node that follows the protocol, run against [Boot].
    - [S2Primitives] (Module [Primitives]): the primitives behind [S2Crypto] and [Ecdh],
      as sequences of the calls of [Evp], OpenSSL, whose manual is [EvpLaws].
    - [S0Codec]: Module [S0], the S0 frames and the table of issued nonces; the AES
      modes are the class [S0Crypto], with the instance [S0Toy].
    - [S0Traffic]: Modules [Unwrap] (nonce responder and the unwrapping of CRC-16,
      Transport Service and S0 frames), [Outbound] and [S0Boot].
    - [Sqlite]: the database handle of the stores.  A table is a value of the store's
      own type, a statement a function on it; whether a statement can be prepared and
      how far its steps get is the class [SqliteEnv], asked once per statement.
    - [NodeRegistry] (Module [Registry]): the nodes in memory and in the table, every
      operation; [Schema]: the versions of the table and their migration.
    - [PendingQueue] (Module [Queue]): commands for sleeping nodes and the wake-up
      cycle, against the abstract priority queues of [Queue.Spec].
    - [PolicyRegister] (Modules [Policy], [Register]): the policy blobs, their merge and
      the register; [PolicyBlob] (Module [Blob]): the same codec in the terminal client.
    - [SceneStore] (Module [Scene]): scenes, triggers and the scene orchestrator,
      against the maps of [SceneSpec].
    - [NodeStores] (Modules [Metadata], [Values]): tags and last values of nodes.
    - [SpanStore] (Modules [Store], [SpanService]): the S2 generators across restarts.
    - [ProtocolThread] (Module [Thread]): the bus handlers, the request queue and the
      handler of every frame from the dongle, on one record of the daemon's state.
    - [ProtocolSession] (Module [Session]): the dispatch of requests with its waits, the
      introspection of a dongle and the bring-up of its network, on a world of port,
      clock and daemon that is itself a [SerialIO].
    - [ProtocolMain] (Module [Main]): the thread's outer loop over [SerialPort], turn by
      turn, with what other threads publish in between.
    - [InterviewOrchestrator] (Module [Interview]), [InclusionOrchestrator] (Modules
      [Inclusion], and [Setup] for the two with the policy register),
      [ThermostatOrchestrator] (Module [Climate]): one step function each on the events
      they subscribe to.
    - [S0Interview] (Module [S0Join]): one frame followed through the unwrapper, the
      interview, the S0 inclusion and the protocol thread.
    - [Multicast]: Modules [MPAN] (group nonces, their table and extensions) and
      [Multicast] (the sender's rounds); the repository has no receiver.
    - [MessageBus]: topics, subscriptions, retained events and nested dispatch, a
      handler being a program over the bus; the callback lists are the class
      [CallbackLists] with its laws.
    - [Config] (Module [Config]): the parser of the configuration file and the events
      it becomes, against the format written down in [Spec]; [KeyFiles] (Modules
      [S2Keys], [S0Key]): the key files, over a [Host] whose calls may fail or stop
      short; [Logger]: producers, consumer and captured streams as a step relation;
      [DongleMonitor] (Module [Monitor]): hot-plug events over what [Udev] answers.
    - [StoreStartup] (Module [Startup]): how the seven stores find, make and open the
      one database file at their first use, over an [Os] and the tables of [Schema];
      Module [RegistryReports]: the reports the registry then hears.  [StoreLocks]
      (Modules [Locks], [StoreUse]): threads taking the mutex of the bus, the flags of
      [call_once] and the mutexes of the stores, interleaved.
    - [Daemon] (Module [Daemon]): options, signals and the main loop.
    - The terminal client.  [TerminalText] (Modules [Text], [Parse]): numbers in lines,
      both ways, and the parsers of [prompts.cpp]; [TerminalConsole]: its world, the
      monad [M] of programs that wait for the operator and may throw, the class [Daemon]
      that answers each call, the log and the node list; [TerminalFormat] (Module
      [Format]): names of codes; [TerminalHandlers], [TerminalPolicy],
      [TerminalScenes]: one program per handler of [handlers.cpp], [Form] being what an
      action on a node promises; [TerminalRender] (Module [Render]): panes and
      dialogues; [TerminalSignals]: the signals and their handlers; [TerminalMain]: the
      menus and the turns of the loop.  [TerminalLogic]: invariants of programs
      ([safe]), which [TerminalSafety], [TerminalMenus] and [TerminalSession] establish
      for the whole client; [TerminalNodes]: the node list after a signal.
    - The D-Bus API ([external-api/]).  [ExternalApi] (Module [Dbus]): what the backend
      keeps and every method handler, as programs over the stores; [ExternalStores]
      (Module [ApiSpec]): the maps its methods implement; [BackendRun] (Module
      [Backend]): the backend's life as programs of [MessageBus]; [TerminalDaemon]
      (Module [Wire]): calls of the client served by the backend.

    ** What the theorems show

    - Serial link: the parser decodes any stream of control bytes, frames and junk to
      exactly its frames, whatever the read boundaries, and stays within its buffer;
      parsing accepts exactly what serialising yields and detects corruption; the
      sender always returns, refines the abstract protocol, and is bounded in writes
      and waiting.  It loses bytes that follow an ACK in the same read.  On the port of
      the system, whatever is interrupted or cut short, what it reports as sent is on
      the line in one piece; a hang-up reads as a time-out.
    - Host API and command classes: layouts are read back field by field, decoders
      never read past the frame and accept disjoint sets of commands, values survive
      their round trips within their field widths.
    - Wrappers: CRC-16 detects every single-byte change; a split datagram is
      reassembled from its segments in any order.  A malformed first segment in
      mid-datagram makes the reassembler overrun its buffers.
    - S2 traffic: a frame is accepted exactly when it was sealed under the key, the
      nonce and the identity, or is a bare tag, taken for an empty command; after one
      nonce exchange two peers stay in step in both directions and across restarts;
      queued sends leave in order and open at the node; the inbound path republishes
      only what is so accepted.  A peer that lost its generator is never brought back.
    - S2 inclusion: nothing the bus delivers makes a node secure without the ritual,
      the class keys flow only to the answer of a granted request, sealed under the
      temporary key of the ritual, and a node that follows the protocol completes.
    - Primitives: whatever OpenSSL fails at, what is returned is the sealing, the
      opening, the code or the secret; a tag alone is taken for an authentic message
      where an empty vector's data is null.
    - S0: frames are accepted exactly when sealed under the derived keys and the
      nonce; nonces are fresh and used once; queued sends go out one per nonce.  The
      S0 inclusion takes a plaintext verification for an encrypted one.
    - Protocol thread: no command or frame makes it send application data in the clear
      to a node the registry has as secure; it returns from every wait; a request that
      cannot be sent is answered, except the start and the stop of an inclusion or
      exclusion; an
      inclusion is announced once, a failed one too; overlapping removals of failed
      nodes are confused.  It owns one descriptor while connected and none otherwise, and
      ends when the daemon stops; it misses a dongle that is replaced within a turn.
    - Stores: what the registry knows survives restarts and changes of network, and the
      types hold whatever the database does; the queue and the scenes refine maps and
      priority lists; what a failing statement loses is stated.  Two stores stamp the
      same version number and disable each other, in whatever order the stores are
      opened.  The terminal's policy codec agrees with the daemon's.  Peers stay in step
      over a restart, but a first start keeps no generators.  Threads that use the
      stores never wait for each other for ever when each store is opened before they
      start or used by bus handlers only; a first use on another thread can.
    - New nodes: the interview asks in order and ends exactly when it was answered in
      order; lifeline and policy follow, the policy exactly the entries the node can
      take.  A class the node only controls can hold that up for ever, and the first
      question to an S0 node travels in the clear.
    - Thermostats: what clients see of a group is the rollup of its members' last
      reports.
    - Multicast: every frame of a group opens for whoever holds the state of the group
      that the session hands out before it, and no state serves two frames.
    - Bus: dispatch returns as long as handlers publish what ranks lower, and then every
      subscriber was last given the retained value; a handler that publishes its own
      event never returns.
    - Process: a configuration file means what its documented format says, for modules
      that subscribe before or after it is read; keys that were announced are the keys
      of every later start; every log entry past the gate is written, in order; what the
      daemon knows of the dongle is right while ttys appear in time and their paths
      tell the devices apart; the daemon ends
      when it is asked to, unless asked within its start-up.
    - Terminal client: what is chosen and typed is what is called, once, with the values
      typed; every call fits its D-Bus types whatever is typed and signalled, and the
      selection and the log keep their bounds; an edit of an override writes back the
      stored policy with that entry merged in; a scene is stored as it was entered; the
      list follows the daemon's signals and keeps its selection; the panes of the screen
      stay apart.  A report of 255 association groups makes it ask for ever, and a
      selection below the list's last row is not shown.
    - D-Bus API: replies about policies, metadata, scenes and triggers are those of
      plain maps per network; the views of the nodes agree with each other and with the
      registry; what was published before the backend started is there to be read; an
      entry edited in the client comes into force in the daemon, unless the stored
      policy has its slot twice and the device has a default for it, or has no room
      for a 256th entry.

    ** Bounds and fuel

    The loops that are not structural carry fuel that provably suffices: the ACK wait
    of [sendRequest] is bounded by its 1.5 s budget in nanoseconds, the segmenting
    loop by the datagram's length, the extension walks by the chain's length, and the
    waits of the protocol thread by the longest of their deadlines, 5 s in nanoseconds,
    since every read of the port lets the clock advance.  The loop of a write takes a
    turn per byte and per interruption, refusal or empty write, whose number the class
    [Patience] gives; a system that takes nothing for ever holds
    it for ever.  The entry of a scene takes a
    line per turn, and the question for each group of a report 256 turns at most when
    it ends at all.

    ** Not modelled

    System calls (those of the serial port are the class [Posix]), threads and condition
    variables, locks other than those around the stores ([StoreLocks]), and what is
    written to the log; the D-Bus library, the bindings generated for it
    (names and types of methods are in [Wire]) and the emission of signals; in the
    terminal client the time stamps of its log, the set-up of ncurses, and signals that
    arrive within a turn; SQLite itself, behind [SqliteEnv]; the generated encoders and
    event structs, which are not in the repository (the encoders the protocol thread
    calls are the class [GeneratedEncoders]).  OpenSSL is behind [S0Crypto], [Evp] (and
    [S2Crypto], [Ecdh]) and [Entropy], the file system behind [Files], [Host] and [Os],
    udev behind [Udev], eventpp behind [CallbackLists].  In the component files the bus is the
    order in which handlers return what they publish; [MessageBus] models the bus
    itself. *)

From Stdlib Require Export ZArith Lia Bool.
From stdpp Require Export base list list_numbers option numbers sets.

#[global] Open Scope Z_scope.

(** ** Machine integers: values kept in [Z], narrowed where the C++ narrows *)

Definition u8 (z : Z) : Z := z `mod` 256.
Definition u16 (z : Z) : Z := z `mod` 65536.
Definition u32 (z : Z) : Z := z `mod` 4294967296.

(** Two's-complement reading of a [w]-bit pattern. *)
Definition signed (w : Z) (z : Z) : Z :=
  let m := z `mod` 2 ^ w in if m <? 2 ^ (w - 1) then m else m - 2 ^ w.
Definition i8 (z : Z) : Z := signed 8 z.
Definition i32 (z : Z) : Z := signed 32 z.

Definition byte_ok (b : Z) : Prop := 0 <= b < 256.
Abbreviation bytes_ok := (Forall byte_ok).
#[global] Instance byte_ok_dec b : Decision (byte_ok b).
Proof. unfold byte_ok. apply _. Defined.

(** [size()] of a byte vector as an integer. *)
Abbreviation zlen l := (Z.of_nat (length l)).

(** ** Reads of a byte buffer

    [buffer[i]] past the end is undefined behaviour in the C++.  A read
    therefore takes its out-of-range value from the class [Oob]: a theorem
    quantified over the instance holds whatever such a read returns, and a
    function that computes the same under two instances never relies on one. *)

Class Oob := oob : Z.

Definition byteAt `{Oob} (l : list Z) (i : nat) : Z := default oob (l !! i).

(** [std::vector(first, last)] of [len] bytes from offset [off]. *)
Definition slice (off len : nat) (l : list Z) : list Z := take len (drop off l).

(** The same through a [std::span] or a pair of iterators, where leaving the buffer is
    undefined: [subspan(off, len)] copied out, and the bytes from [off] to the end. *)
Definition copyRange `{Oob} (off len : nat) (l : list Z) : list Z := (fun i => byteAt l (off + i)) <$> seq 0 len.
Definition copyFrom `{Oob} (off : nat) (l : list Z) : list Z := if (off <=? length l)%nat then drop off l else [oob].

Declare Scope zwave_scope.
Delimit Scope zwave_scope with zw.
Notation "l '.[' i ']'" := (byteAt l i)
  (at level 1, left associativity, format "l .[ i ]") : zwave_scope.
#[global] Open Scope zwave_scope.

(** ** Tactics and hint databases *)

Create HintDb bytes discriminated.
Create HintDb zw discriminated.

(** Splits the first boolean test the goal is stuck on, turning it into a
    proposition on integers. *)
Ltac zcase :=
  match goal with
  | |- context [ if ?a <? ?b then _ else _ ] => destruct (Z.ltb_spec a b)
  | |- context [ if ?a <=? ?b then _ else _ ] => destruct (Z.leb_spec a b)
  | |- context [ if ?a =? ?b then _ else _ ] => destruct (Z.eqb_spec a b)
  | |- context [ if ?a >? ?b then _ else _ ] =>
      rewrite (Z.gtb_ltb a b); destruct (Z.ltb_spec b a)
  | |- context [ if ?a >=? ?b then _ else _ ] =>
      rewrite (Z.geb_leb a b); destruct (Z.leb_spec b a)
  | |- context [ if (?a <? ?b)%nat then _ else _ ] => destruct (Nat.ltb_spec a b)
  | |- context [ if (?a <=? ?b)%nat then _ else _ ] => destruct (Nat.leb_spec a b)
  | |- context [ if (?a =? ?b)%nat then _ else _ ] => destruct (Nat.eqb_spec a b)
  end.

(** The same in a hypothesis. *)
Ltac zcase_in H :=
  match type of H with
  | context [ if ?a <? ?b then _ else _ ] => destruct (Z.ltb_spec a b)
  | context [ if ?a <=? ?b then _ else _ ] => destruct (Z.leb_spec a b)
  | context [ if ?a =? ?b then _ else _ ] => destruct (Z.eqb_spec a b)
  | context [ if (?a <? ?b)%nat then _ else _ ] => destruct (Nat.ltb_spec a b)
  | context [ if (?a <=? ?b)%nat then _ else _ ] => destruct (Nat.leb_spec a b)
  | context [ if (?a =? ?b)%nat then _ else _ ] => destruct (Nat.eqb_spec a b)
  | context [ if ?c then _ else _ ] => destruct c eqn:?
  end.

(** Turns boolean facts about integers into propositions. *)
Ltac zbool :=
  repeat match goal with
  | H : (_ && _) = true |- _ => apply andb_prop in H as [? ?]
  | H : (_ || _) = false |- _ => apply orb_false_elim in H as [? ?]
  | H : negb _ = true |- _ => apply negb_true_iff in H
  | H : negb _ = false |- _ => apply negb_false_iff in H
  | H : (_ <? _) = true |- _ => apply Z.ltb_lt in H
  | H : (_ <? _) = false |- _ => apply Z.ltb_ge in H
  | H : (_ <=? _) = true |- _ => apply Z.leb_le in H
  | H : (_ <=? _) = false |- _ => apply Z.leb_gt in H
  | H : (_ =? _) = true |- _ => apply Z.eqb_eq in H
  | H : (_ =? _) = false |- _ => apply Z.eqb_neq in H
  | H : (_ <? _)%nat = true |- _ => apply Nat.ltb_lt in H
  | H : (_ <? _)%nat = false |- _ => apply Nat.ltb_ge in H
  | H : (_ <=? _)%nat = true |- _ => apply Nat.leb_le in H
  | H : (_ <=? _)%nat = false |- _ => apply Nat.leb_gt in H
  | H : (_ =? _)%nat = true |- _ => apply Nat.eqb_eq in H
  | H : (_ =? _)%nat = false |- _ => apply Nat.eqb_neq in H
  end.

(** ** Integers *)

Lemma u8_range z : byte_ok (u8 z).
Proof. unfold u8, byte_ok. apply Z.mod_pos_bound. lia. Qed.

Lemma u8_id z : byte_ok z -> u8 z = z.
Proof. intros H. apply Z.mod_small. exact H. Qed.

Lemma u16_range z : 0 <= u16 z < 65536.
Proof. apply Z.mod_pos_bound. lia. Qed.

Lemma u16_id z : 0 <= z < 65536 -> u16 z = z.
Proof. intros H. apply Z.mod_small. exact H. Qed.

Lemma u32_range z : 0 <= u32 z < 4294967296.
Proof. apply Z.mod_pos_bound. lia. Qed.

Lemma u32_id z : 0 <= z < 4294967296 -> u32 z = z.
Proof. intros H. apply Z.mod_small. exact H. Qed.

(** Closes [byte_ok] of a named constant, or by arithmetic. *)
Ltac byte_lit :=
  match goal with
  | |- byte_ok ?c => first [ is_const c; by vm_compute | unfold byte_ok in *; lia ]
  end.

#[export] Hint Resolve u8_range : bytes.
#[export] Hint Extern 5 (byte_ok _) => byte_lit : bytes.

(** A natural number below [2^n] is one without bits from [n] up. *)
Lemma bits_bounded n z :
  0 <= n -> 0 <= z -> (forall i, n <= i -> Z.testbit z i = false) -> z < 2 ^ n.
Proof. intros Hn Hz Hb. apply Z.bounded_iff_bits_nonneg; auto. Qed.

Lemma bits_above n z i : 0 <= z < 2 ^ n -> n <= i -> Z.testbit z i = false.
Proof.
  intros [H0 H1] Hi. destruct (Z.lt_ge_cases n 0) as [Hn|Hn].
  - rewrite Z.pow_neg_r in H1 by lia. lia.
  - apply (proj1 (Z.bounded_iff_bits_nonneg n z Hn H0) H1 i Hi).
Qed.

Lemma lxor_bound n a b :
  0 <= n -> 0 <= a < 2 ^ n -> 0 <= b < 2 ^ n -> 0 <= Z.lxor a b < 2 ^ n.
Proof.
  intros Hn Ha Hb. assert (0 <= Z.lxor a b) by (apply Z.lxor_nonneg; lia).
  split; [done|]. apply bits_bounded; auto. intros i Hi.
  rewrite Z.lxor_spec, (bits_above n a), (bits_above n b); auto.
Qed.

Lemma lor_bound n a b :
  0 <= n -> 0 <= a < 2 ^ n -> 0 <= b < 2 ^ n -> 0 <= Z.lor a b < 2 ^ n.
Proof.
  intros Hn Ha Hb. assert (0 <= Z.lor a b) by (apply Z.lor_nonneg; lia).
  split; [done|]. apply bits_bounded; auto. intros i Hi.
  rewrite Z.lor_spec, (bits_above n a), (bits_above n b); auto.
Qed.

Lemma land_bound n a b : 0 <= n -> 0 <= b < 2 ^ n -> 0 <= Z.land a b < 2 ^ n.
Proof.
  intros Hn Hb. assert (0 <= Z.land a b) by (apply Z.land_nonneg; lia).
  split; [done|]. apply bits_bounded; auto. intros i Hi.
  rewrite Z.land_spec, (bits_above n b) by auto. apply andb_false_r.
Qed.

Lemma lxor_byte a b : byte_ok a -> byte_ok b -> byte_ok (Z.lxor a b).
Proof. apply (lxor_bound 8); lia. Qed.

Lemma lor_byte a b : byte_ok a -> byte_ok b -> byte_ok (Z.lor a b).
Proof. apply (lor_bound 8); lia. Qed.

Lemma land_byte a b : byte_ok b -> byte_ok (Z.land a b).
Proof. apply (land_bound 8); lia. Qed.

#[export] Hint Resolve lxor_byte lor_byte land_byte : bytes.

Lemma lxor_cancel_l a b c : Z.lxor a b = Z.lxor a c -> b = c.
Proof.
  intros H. apply (f_equal (Z.lxor a)) in H.
  by rewrite <-!Z.lxor_assoc, Z.lxor_nilpotent, !Z.lxor_0_l in H.
Qed.

Lemma lxor_cancel_r a b c : Z.lxor b a = Z.lxor c a -> b = c.
Proof. rewrite !(Z.lxor_comm _ a). apply lxor_cancel_l. Qed.

(** [a << n | b] for a value [b] of [n] bits is [a * 2^n + b]. *)
Lemma lor_shiftl_add a b n :
  0 <= n -> 0 <= b < 2 ^ n -> Z.lor (Z.shiftl a n) b = a * 2 ^ n + b.
Proof.
  intros Hn Hb. rewrite <-Z.shiftl_mul_pow2 by lia.
  rewrite <-Z.add_lor_land.
  enough (Z.land (Z.shiftl a n) b = 0) by lia. apply Z.bits_inj'. intros i Hi.
  rewrite Z.land_spec, Z.bits_0. destruct (Z.lt_ge_cases i n).
  - by rewrite Z.shiftl_spec_low.
  - by rewrite (bits_above n b), andb_false_r.
Qed.

(** [x & (2^n - 1)] is [x mod 2^n]. *)
Lemma land_mask x n : 0 <= n -> Z.land x (2 ^ n - 1) = x `mod` 2 ^ n.
Proof. intros. rewrite <-Z.land_ones by done. by rewrite Z.ones_equiv, Z.sub_1_r. Qed.

(** [x & (1 << n)] tests bit [n]. *)
Lemma land_bit_zero x n : 0 <= n -> (Z.land x (Z.shiftl 1 n) =? 0) = negb (Z.testbit x n).
Proof.
  intros Hn. rewrite Z.shiftl_1_l. destruct (Z.testbit x n) eqn:Hb; cbn.
  - apply Z.eqb_neq. intros H0. apply (f_equal (fun z => Z.testbit z n)) in H0.
    rewrite Z.land_spec, Hb, Z.pow2_bits_true, Z.bits_0 in H0 by done. done.
  - apply Z.eqb_eq. apply Z.bits_inj'. intros i Hi. rewrite Z.land_spec, Z.bits_0, Z.pow2_bits_eqb by done.
    destruct (Z.eqb_spec n i) as [->|]; [by rewrite Hb|apply andb_false_r].
Qed.

(** ** Lists and reads *)

Lemma byteAt_lookup `{Oob} l i b : l !! i = Some b -> l.[i] = b.
Proof. unfold byteAt. by intros ->. Qed.

Lemma byteAt_indep (o1 o2 : Oob) l i :
  (i < length l)%nat -> byteAt (H := o1) l i = byteAt (H := o2) l i.
Proof. intros [b Hb]%lookup_lt_is_Some. unfold byteAt. by rewrite Hb. Qed.

(** Two runs of a decoder under different out-of-range values take the same
    branches and read the same bytes: rewrites every in-range read of the first
    into one of the second, splitting the guards as they come up. *)
Ltac oob_indep o1 o2 :=
  repeat first
    [ reflexivity
    | progress (rewrite (byteAt_indep o1 o2) by (zbool; lia))
    | match goal with
      | |- context [ if ?c then _ else _ ] =>
          lazymatch c with
          | context [ if _ then _ else _ ] => fail
          | _ => destruct c eqn:?; cbn [negb andb orb]
          end
      end ].

Lemma byteAt_app_l `{Oob} l k i : (i < length l)%nat -> (l ++ k).[i] = l.[i].
Proof. intros. unfold byteAt. by rewrite lookup_app_l. Qed.

Lemma byteAt_app_r `{Oob} l k i :
  (length l <= i)%nat -> (l ++ k).[i] = k.[(i - length l)%nat].
Proof. intros. unfold byteAt. by rewrite lookup_app_r. Qed.

Lemma byteAt_pre `{Oob} pre l i : (pre ++ l).[(length pre + i)%nat] = l.[i].
Proof. rewrite byteAt_app_r by lia. f_equal. lia. Qed.

Lemma byteAt_pre0 `{Oob} pre l : (pre ++ l).[length pre] = l.[0%nat].
Proof. rewrite <-(byteAt_pre pre l 0). f_equal. lia. Qed.

Lemma byteAt_ok `{Oob} l i : bytes_ok l -> (i < length l)%nat -> byte_ok l.[i].
Proof.
  intros Hl [b Hb]%lookup_lt_is_Some. rewrite (byteAt_lookup _ _ _ Hb).
  by eapply Forall_lookup_1.
Qed.

Lemma slice_length off len l :
  (off + len <= length l)%nat -> length (slice off len l) = len.
Proof. intros. unfold slice. rewrite length_take, length_drop. lia. Qed.

Lemma slice_ok off len l : bytes_ok l -> bytes_ok (slice off len l).
Proof. intros. unfold slice. by apply Forall_take, Forall_drop. Qed.

Lemma slice_app_skip off len l k :
  (length l <= off)%nat -> slice off len (l ++ k) = slice (off - length l) len k.
Proof. intros. unfold slice. by rewrite drop_app_ge. Qed.

Lemma slice_app_exact l k n : n = length l -> slice 0 n (l ++ k) = l.
Proof. intros ->. unfold slice. by rewrite drop_0, take_app_length. Qed.

(** Inside the buffer they are the total versions. *)
Lemma copyRange_slice `{Oob} off len l : (off + len <= length l)%nat -> copyRange off len l = slice off len l.
Proof.
  intros Hl. apply list_eq_same_length with len;
    [by rewrite slice_length|by unfold copyRange; rewrite length_fmap, length_seq|].
  intros i x y Hi. unfold copyRange, slice. rewrite list_lookup_fmap, lookup_seq_lt by done.
  rewrite lookup_take_lt, lookup_drop by done. cbn. intros [= <-] Hy. by apply byteAt_lookup.
Qed.

Lemma copyFrom_drop `{Oob} off l : (off <= length l)%nat -> copyFrom off l = drop off l.
Proof. intros Hl. unfold copyFrom. by rewrite (proj2 (Nat.leb_le off (length l)) Hl). Qed.

Lemma slice_all n l : (length l <= n)%nat -> slice 0 n l = l.
Proof. intros. unfold slice. by rewrite drop_0, take_ge. Qed.

#[export] Hint Resolve byteAt_ok slice_ok Forall_app_2 Forall_nil_2 Forall_cons_2 : bytes.

Lemma foldl_lxor_acc l a b :
  foldl Z.lxor (Z.lxor a b) l = Z.lxor a (foldl Z.lxor b l).
Proof.
  revert b. induction l as [|x l IH]; intros b; [done|].
  simpl. by rewrite <-IH, Z.lxor_assoc.
Qed.

Lemma foldl_lxor_byte l a : byte_ok a -> bytes_ok l -> byte_ok (foldl Z.lxor a l).
Proof.
  intros Ha Hl. revert a Ha. induction Hl; intros; simpl; auto with bytes.
Qed.

#[export] Hint Resolve foldl_lxor_byte : bytes.

(** Replacing one element changes an XOR sum by the difference of the two. *)
Lemma foldl_lxor_insert l i a b old :
  l !! i = Some old ->
  foldl Z.lxor a (<[i:=b]> l) = Z.lxor (Z.lxor old b) (foldl Z.lxor a l).
Proof.
  revert i a. induction l as [|x l IH]; intros [|i] a Hi; simplify_eq/=.
  - rewrite <-foldl_lxor_acc. f_equal.
    rewrite (Z.lxor_comm a old), <-Z.lxor_assoc, (Z.lxor_comm old b), (Z.lxor_assoc b old old).
    by rewrite Z.lxor_nilpotent, Z.lxor_0_r, Z.lxor_comm.
  - by apply IH.
Qed.

Lemma foldl_lxor_insert_ne l i a b old :
  l !! i = Some old -> b <> old -> foldl Z.lxor a (<[i:=b]> l) <> foldl Z.lxor a l.
Proof.
  intros Hi Hb Heq. rewrite (foldl_lxor_insert _ _ _ _ _ Hi) in Heq. apply Hb. symmetry.
  apply Z.lxor_eq. apply (lxor_cancel_r (foldl Z.lxor a l)). by rewrite Z.lxor_0_l.
Qed.

Lemma Forall_filter {A} (P Q : A -> Prop) `{forall x, Decision (Q x)} l :
  Forall P l -> Forall P (filter Q l).
Proof.
  intros Hl. apply Forall_forall. intros x [_ Hx]%list_elem_of_filter. by eapply Forall_forall.
Qed.

(** ** Finite case analysis by computation *)

Lemma range_forall (P : Z -> bool) n :
  forallb P (seqZ 0 n) = true -> forall z, 0 <= z < n -> P z = true.
Proof.
  intros Hall z Hz. rewrite forallb_forall in Hall. apply Hall, list_elem_of_In, elem_of_seqZ. lia.
Qed.

Lemma range_forall2 (P : Z -> Z -> bool) n m :
  forallb (fun x => forallb (P x) (seqZ 0 m)) (seqZ 0 n) = true ->
  forall x y, 0 <= x < n -> 0 <= y < m -> P x y = true.
Proof.
  intros Hall x y Hx Hy. apply (range_forall (P x) m); [|done].
  by apply (range_forall (fun x => forallb (P x) (seqZ 0 m)) n).
Qed.
