(* ===== verification/DataFrame.v ===== *)
(** * Serial API frames

    [ZwaveDataFrame] of [zwave-protocol/ZwaveDataFrame.{hpp,cpp}] and the three
    one-byte control frames: the constants, the mutable frame object as a
    record, [parseFromBuffer] and [toBuffer] with the XOR checksum.  The
    theorems say that the two are inverse to each other on the frames the
    format can carry, and that one corrupted byte is always detected. *)

From S2P Require Import Prelude.

(** ** Constants *)

Definition SOF : Z := 0x01.
Definition CHECKSUM_SEED : Z := 0xFF.
Definition MIN_FRAME_SIZE : nat := 5.
Definition MAX_PAYLOAD_SIZE : nat := 250.
Definition MAX_FRAME_SIZE : nat := MAX_PAYLOAD_SIZE + 5.
Definition ACK : Z := 0x06.
Definition NAK : Z := 0x15.
Definition CAN : Z := 0x18.

(** ** The frame object *)

Inductive FrameType := REQUEST | RESPONSE.

#[global] Instance FrameType_eq_dec : EqDecision FrameType.
Proof. solve_decision. Defined.

Definition FrameType_code (t : FrameType) : Z :=
  match t with REQUEST => 0x00 | RESPONSE => 0x01 end.

Record ZwaveDataFrame := mkFrame {
  frameType : FrameType;
  commandId : Z;
  payload : list Z;
  valid : bool
}.

#[global] Instance ZwaveDataFrame_eq_dec : EqDecision ZwaveDataFrame.
Proof. solve_decision. Defined.

(** The value-initialised object, [ZwaveDataFrame{}]. *)
Definition emptyFrame : ZwaveDataFrame := mkFrame REQUEST 0 [] false.

Definition setValid (f : ZwaveDataFrame) (v : bool) : ZwaveDataFrame :=
  mkFrame (frameType f) (commandId f) (payload f) v.

(** [2 + payload.size() + 1] narrowed to a byte. *)
Definition frameLengthOf (f : ZwaveDataFrame) : Z := u8 (2 + zlen (payload f) + 1).

Definition calculateChecksum (f : ZwaveDataFrame) : Z :=
  let checksum := CHECKSUM_SEED in
  let checksum := Z.lxor checksum (frameLengthOf f) in
  let checksum := Z.lxor checksum (FrameType_code (frameType f)) in
  let checksum := Z.lxor checksum (commandId f) in
  foldl Z.lxor checksum (payload f).

Definition validateChecksum (f : ZwaveDataFrame) (checksum : Z) : bool :=
  checksum =? calculateChecksum f.

Definition toBuffer (f : ZwaveDataFrame) : list Z :=
  [SOF; frameLengthOf f; FrameType_code (frameType f); commandId f]
    ++ payload f ++ [calculateChecksum f].

(** [parseFromBuffer] mutates the object as it goes: type, command and payload
    are stored before the checksum is looked at.  A null pointer is [None]. *)
Definition parseFromBuffer `{Oob} (self : ZwaveDataFrame) (buffer : option (list Z))
    : ZwaveDataFrame * bool :=
  let fail f := (setValid f false, false) in
  match buffer with
  | None => fail self
  | Some buf =>
    if (length buf <? MIN_FRAME_SIZE)%nat then fail self else
    if negb (buf.[0%nat] =? SOF) then fail self else
    let frameLength := buf.[1%nat] in
    if (frameLength <? 3) || (Z.of_nat MAX_PAYLOAD_SIZE + 3 <? frameLength) then fail self else
    if (length buf <? Z.to_nat frameLength + 2)%nat then fail self else
    let typeRaw := buf.[2%nat] in
    if FrameType_code RESPONSE <? typeRaw then fail self else
    let ft := if typeRaw =? 0 then REQUEST else RESPONSE in
    let payloadSize := (Z.to_nat frameLength - 3)%nat in
    let self' := mkFrame ft buf.[3%nat]
                   (if (0 <? payloadSize)%nat then slice 4 payloadSize buf else [])
                   (valid self) in
    let receivedChecksum := buf.[(1 + Z.to_nat frameLength)%nat] in
    if negb (validateChecksum self' receivedChecksum) then fail self'
    else (setValid self' true, true)
  end.

Definition setHeader (f : ZwaveDataFrame) (t : FrameType) (cmd : Z) : ZwaveDataFrame :=
  mkFrame t cmd (payload f) true.

(** [setPayload(data, size)] on a vector; the null pointer with size 0 is [[]]. *)
Definition setPayload (f : ZwaveDataFrame) (data : list Z) : ZwaveDataFrame * bool :=
  if (MAX_PAYLOAD_SIZE <? length data)%nat then (f, false)
  else (mkFrame (frameType f) (commandId f) data true, true).

#[global] Arguments parseFromBuffer : simpl never.
#[global] Arguments toBuffer : simpl never.

(** What the wire format can carry. *)
Record frame_ok (f : ZwaveDataFrame) : Prop := {
  fok_cmd : byte_ok (commandId f);
  fok_payload : bytes_ok (payload f);
  fok_size : (length (payload f) <= MAX_PAYLOAD_SIZE)%nat
}.

(** ** Lemmas *)

Lemma FrameType_code_range t : 0 <= FrameType_code t <= 1.
Proof. destruct t; simpl; lia. Qed.

Lemma FrameType_code_byte t : byte_ok (FrameType_code t).
Proof. pose proof (FrameType_code_range t). unfold byte_ok. lia. Qed.

Lemma FrameType_code_inv t :
  (if FrameType_code t =? 0 then REQUEST else RESPONSE) = t.
Proof. by destruct t. Qed.

Lemma FrameType_code_decode z :
  0 <= z <= 1 -> FrameType_code (if z =? 0 then REQUEST else RESPONSE) = z.
Proof. intros. destruct (Z.eqb_spec z 0); simpl; lia. Qed.

Lemma frameLengthOf_small f :
  (length (payload f) <= MAX_PAYLOAD_SIZE)%nat -> frameLengthOf f = zlen (payload f) + 3.
Proof.
  unfold frameLengthOf, MAX_PAYLOAD_SIZE. intros. rewrite u8_id; unfold byte_ok; lia.
Qed.

Lemma frameLengthOf_byte f : byte_ok (frameLengthOf f).
Proof. apply u8_range. Qed.

Lemma calculateChecksum_byte f :
  byte_ok (commandId f) -> bytes_ok (payload f) -> byte_ok (calculateChecksum f).
Proof.
  intros. unfold calculateChecksum.
  auto 10 using FrameType_code_byte, frameLengthOf_byte with bytes.
Qed.

Lemma toBuffer_length f : length (toBuffer f) = (length (payload f) + 5)%nat.
Proof. unfold toBuffer. simpl. rewrite length_app. simpl. lia. Qed.

Lemma toBuffer_ok f : frame_ok f -> bytes_ok (toBuffer f).
Proof.
  intros [Hc Hp _]. unfold toBuffer.
  auto 10 using FrameType_code_byte, frameLengthOf_byte, calculateChecksum_byte with bytes.
Qed.

(** The checksum ignores the [valid] flag, the only field outside the wire. *)
Lemma calculateChecksum_setValid f v :
  calculateChecksum (setValid f v) = calculateChecksum f.
Proof. done. Qed.

Lemma toBuffer_setValid f v : toBuffer (setValid f v) = toBuffer f.
Proof. done. Qed.

(** Reads of a buffer whose four header bytes are known. *)
Lemma parse_header `{Oob} self len t c rest :
  3 <= len <= 253 -> 0 <= t <= 1 ->
  (Z.to_nat len - 2 <= length rest)%nat ->
  parseFromBuffer self (Some (SOF :: len :: t :: c :: rest)) =
    let f := mkFrame (if t =? 0 then REQUEST else RESPONSE) c
               (take (Z.to_nat len - 3) rest) (valid self) in
    if validateChecksum f rest.[(Z.to_nat len - 3)%nat]
    then (setValid f true, true) else (setValid f false, false).
Proof.
  intros Hlen Ht Hrest. unfold parseFromBuffer.
  change (byteAt _ 0) with SOF. change (byteAt _ 1) with len. change (byteAt _ 2) with t.
  change (byteAt _ 3) with c. cbn [length].
  replace (S (S (S (S (length rest)))) <? MIN_FRAME_SIZE)%nat with false
    by (symmetry; apply Nat.ltb_ge; unfold MIN_FRAME_SIZE; lia).
  rewrite Z.eqb_refl. cbn [negb].
  replace (len <? 3) with false by lia.
  change (Z.of_nat MAX_PAYLOAD_SIZE + 3) with 253. replace (253 <? len) with false by lia.
  cbn [orb].
  replace (S (S (S (S (length rest)))) <? Z.to_nat len + 2)%nat with false
    by (symmetry; apply Nat.ltb_ge; lia).
  replace (FrameType_code RESPONSE <? t) with false by (simpl; lia).
  replace (byteAt _ (1 + Z.to_nat len)) with (byteAt rest (Z.to_nat len - 3)); last first.
  { unfold byteAt. replace (1 + Z.to_nat len)%nat with (S (S (S (S (Z.to_nat len - 3))))) by lia.
    done. }
  replace (if (0 <? Z.to_nat len - 3)%nat then _ else []) with (take (Z.to_nat len - 3) rest).
  - cbv zeta. by destruct (validateChecksum _ _).
  - destruct (Nat.ltb_spec 0 (Z.to_nat len - 3)) as [?|Hz]; [done|].
    by replace (Z.to_nat len - 3)%nat with 0%nat by lia.
Qed.

(** Every accepted buffer starts with a complete frame header. *)
Lemma parse_true_shape `{Oob} self buf f :
  bytes_ok buf -> parseFromBuffer self (Some buf) = (f, true) ->
  exists len t c rest, buf = SOF :: len :: t :: c :: rest /\ 3 <= len <= 253 /\
    0 <= t <= 1 /\ (Z.to_nat len - 2 <= length rest)%nat.
Proof.
  intros Hok. unfold parseFromBuffer, MIN_FRAME_SIZE.
  change (Z.of_nat MAX_PAYLOAD_SIZE + 3) with 253.
  destruct (Nat.ltb_spec (length buf) 5) as [|H5]; [by intros [=]|].
  destruct buf as [|s [|len [|t [|c rest]]]]; cbn [length] in H5; try lia.
  change (byteAt _ 0) with s. change (byteAt _ 1) with len. change (byteAt _ 2) with t.
  pose proof (Forall_lookup_1 _ _ 2 t Hok eq_refl) as [Ht _].
  intros Hp. repeat zcase_in Hp; try discriminate Hp; zbool; subst s.
  all: exists len, t, c, rest; cbn [length FrameType_code] in *; split_and!; auto; lia.
Qed.

Lemma take_drop_last (l : list Z) n d :
  (n < length l)%nat -> take (S n) l = take n l ++ [default d (l !! n)].
Proof. intros [x Hx]%lookup_lt_is_Some. rewrite Hx. by apply take_S_r. Qed.

(** The XOR of a whole serialised frame is a constant. *)
Lemma toBuffer_xor f : foldl Z.lxor 0 (toBuffer f) = Z.lxor SOF CHECKSUM_SEED.
Proof.
  unfold toBuffer. rewrite !foldl_app. cbn [foldl].
  assert (Hrw : forall l s c t x, foldl Z.lxor (Z.lxor (Z.lxor (Z.lxor (Z.lxor 0 s) l) t) c) x =
    Z.lxor s (foldl Z.lxor (Z.lxor (Z.lxor l t) c) x)).
  { intros. by rewrite Z.lxor_0_l, <-foldl_lxor_acc, <-!Z.lxor_assoc. }
  rewrite Hrw. unfold calculateChecksum. cbv zeta.
  rewrite !Z.lxor_assoc, (foldl_lxor_acc _ CHECKSUM_SEED).
  rewrite <-(Z.lxor_assoc (foldl _ _ _) CHECKSUM_SEED), (Z.lxor_comm _ CHECKSUM_SEED).
  by rewrite Z.lxor_assoc, Z.lxor_nilpotent, Z.lxor_0_r.
Qed.

(** ** Parsing inverts serialisation *)

Lemma parse_of_toBuffer `{Oob} self f junk :
  frame_ok f ->
  parseFromBuffer self (Some (toBuffer f ++ junk)) = (setValid f true, true).
Proof.
  intros Hf. pose proof (fok_size _ Hf) as Hs. pose proof (frameLengthOf_small f Hs) as Hl.
  unfold MAX_PAYLOAD_SIZE in Hs. unfold toBuffer. cbn [app].
  rewrite parse_header; rewrite ?Hl.
  - cbv zeta. replace (Z.to_nat (zlen (payload f) + 3) - 3)%nat with (length (payload f)) by lia.
    rewrite <-app_assoc, take_app_length, FrameType_code_inv, byteAt_app_r, Nat.sub_diag by done.
    change (byteAt _ 0) with (calculateChecksum f).
    unfold validateChecksum. destruct f as [t c p v]. unfold setValid. simpl.
    change (calculateChecksum (mkFrame t c p v)) with (calculateChecksum (mkFrame t c p (valid self))).
    by rewrite Z.eqb_refl.
  - lia.
  - apply FrameType_code_range.
  - rewrite !length_app. simpl. lia.
Qed.

Lemma parse_inv `{Oob} self buf f :
  bytes_ok buf -> parseFromBuffer self (Some buf) = (f, true) ->
  exists junk, buf = toBuffer f ++ junk /\ frame_ok f /\ valid f = true.
Proof.
  intros Hok Hp. destruct (parse_true_shape _ _ _ Hok Hp) as (len&t&c&rest&->&Hlen&Ht&Hr).
  rewrite parse_header in Hp by done. cbv zeta in Hp. set (n := (Z.to_nat len - 3)%nat) in *.
  destruct (validateChecksum _ _) eqn:Hv; [|discriminate]. injection Hp as <-.
  unfold validateChecksum in Hv. apply Z.eqb_eq in Hv.
  assert (length (take n rest) = n) as Hn by (rewrite length_take; lia).
  exists (drop (S n) rest). split_and!; [|split|done].
  - unfold toBuffer. rewrite calculateChecksum_setValid, <-Hv. unfold frameLengthOf, setValid.
    cbn [payload frameType commandId app]. rewrite FrameType_code_decode by done.
    rewrite Hn, u8_id by (unfold byte_ok; lia).
    replace (2 + Z.of_nat n + 1) with len by lia. do 4 f_equal.
    unfold byteAt. rewrite <-(take_drop_last rest n oob) by lia. by rewrite take_drop.
  - apply (Forall_lookup_1 _ _ 3 c Hok eq_refl).
  - cbn. apply Forall_take. by do 4 apply Forall_inv_tail in Hok.
  - cbn [payload setValid]. rewrite Hn. unfold MAX_PAYLOAD_SIZE. lia.
Qed.

Lemma setValid_id f : valid f = true -> setValid f true = f.
Proof. destruct f. by intros [= ->]. Qed.

(** ** Properties *)

(** C33: the parser accepts exactly the serialisations of legal frames, followed
    by bytes it does not look at, and returns the frame that was serialised. *)
Theorem parse_iff_toBuffer `{Oob} self buf f :
  bytes_ok buf ->
  parseFromBuffer self (Some buf) = (f, true) <->
  valid f = true /\ frame_ok f /\ exists junk, buf = toBuffer f ++ junk.
Proof.
  intros Hok. split.
  - intros (junk & ? & ? & ?)%parse_inv; eauto.
  - intros (Hv & Hf & junk & ->). by rewrite parse_of_toBuffer, setValid_id.
Qed.

Definition frame_get_version : ZwaveDataFrame := mkFrame REQUEST 0x15 [1; 2; 3] true.

Lemma parse_iff_toBuffer_witness :
  let buf := [1; 6; 0; 21; 1; 2; 3; 236; 6] in
  bytes_ok buf /\ @parseFromBuffer 0 emptyFrame (Some buf) = (frame_get_version, true).
Proof.
  intros buf. assert (bytes_ok buf) as Hok by (repeat constructor; vm_compute; congruence).
  split; [exact Hok|]. apply (@parse_iff_toBuffer 0 emptyFrame buf frame_get_version Hok).
  split; [reflexivity|]. split.
  - split; [vm_compute; split; congruence| |vm_compute; lia].
    repeat constructor; vm_compute; congruence.
  - exists [6]. reflexivity.
Defined.

(** A received buffer that differs from a serialised frame in exactly one
    byte other than the length byte is rejected. *)
Theorem parse_detects_corruption `{Oob} self f i b old :
  frame_ok f -> i <> 1%nat -> toBuffer f !! i = Some old -> byte_ok b -> b <> old ->
  (parseFromBuffer self (Some (<[i:=b]> (toBuffer f)))).2 = false.
Proof.
  intros Hf Hi Hold Hb Hne.
  destruct (parseFromBuffer _ _) as [g []] eqn:Hp; [exfalso|done].
  apply parse_inv in Hp as (junk & Heq & Hg & _); last by apply Forall_insert; auto using toBuffer_ok.
  assert (frameLengthOf g = frameLengthOf f) as Hlen.
  { apply (f_equal (.!! 1%nat)) in Heq. rewrite list_lookup_insert_ne in Heq by done.
    by injection Heq as ->. }
  rewrite !frameLengthOf_small in Hlen by (by apply fok_size).
  assert (junk = []) as ->.
  { apply (f_equal length) in Heq.
    rewrite length_insert, length_app, !toBuffer_length in Heq. apply nil_length_inv. lia. }
  rewrite app_nil_r in Heq. apply (f_equal (foldl Z.lxor 0)) in Heq.
  rewrite toBuffer_xor, <-(toBuffer_xor f) in Heq. by eapply foldl_lxor_insert_ne in Heq.
Qed.

Lemma parse_detects_corruption_witness :
  toBuffer frame_get_version !! 5%nat = Some 2 /\
  (@parseFromBuffer 0 emptyFrame (Some (<[5%nat:=66]> (toBuffer frame_get_version)))).2 = false.
Proof.
  split; [reflexivity|].
  apply (@parse_detects_corruption 0 emptyFrame frame_get_version 5 66 2);
    [|lia|reflexivity|unfold byte_ok; lia|lia].
  split; [vm_compute; split; congruence| |vm_compute; lia].
  repeat constructor; vm_compute; congruence.
Defined.
