(* ===== verification/FrameTransport.v ===== *)
(** * The serial transport layer

    [FrameTransport] of [zwave-protocol/FrameTransport.{hpp,cpp}]: the byte-fed
    parser state machine, the acknowledging dispatcher [pumpOnce] and the
    retrying [sendRequest].  The serial port and the clock are the interface
    [SerialIO] over a world type; its laws are what the theorems need of them. *)

From S2P Require Import Prelude DataFrame.

(** ** The serial port and the clock *)

(** [readBytes n timeoutMs] returns the bytes read; a timeout or an error, which
    both callers treat alike ([got <= 0]), is the empty list.  Times are in
    nanoseconds, as [steady_clock] counts them. *)
Class SerialIO (W : Type) := {
  writeAll : list Z -> W -> bool * W;
  readBytes : nat -> Z -> W -> list Z * W;
  flushInput : W -> W;
  sleep_for : Z -> W -> W;
  clock_now : W -> Z * W
}.

(** The documented behaviour of the port and the clock: a read returns at most
    what the buffer holds, the clock never runs backwards and a read into a
    buffer takes time. *)
Class SerialLaws (W : Type) `{SerialIO W} := {
  clock : W -> Z;
  readBytes_size n ms w : (length (readBytes n ms w).1 <= n)%nat;
  readBytes_bytes n ms w : bytes_ok (readBytes n ms w).1;
  clock_read n ms w : (0 < n)%nat -> clock w < clock (readBytes n ms w).2;
  clock_write l w : clock w <= clock (writeAll l w).2;
  clock_observed w : clock w <= (clock_now w).1 <= clock (clock_now w).2
}.

(** ** Constants and state *)

Definition READ_CHUNK_SIZE : nat := 64.
Definition RETRY_BACKOFF_BASE_MS : Z := 100.
Definition RETRY_BACKOFF_PER_ATTEMPT_MS : Z := 1000.
Definition ACK_TIMEOUT_MS : Z := 1500.
Definition MAX_SEND_RETRIES : Z := 3.
Definition NS_PER_MS : Z := 1000000.

Inductive ParseState := WaitFrameStart | WaitLength | WaitPayload.
Inductive TransportEvent := EvNone | EvAck | EvNak | EvCan | EvDataFrame.

#[global] Instance TransportEvent_eq_dec : EqDecision TransportEvent.
Proof. solve_decision. Defined.

Record Transport := mkTransport {
  parseState : ParseState;
  expectedLength : nat;
  frameBytes : list Z;
  lastParsedFrame : ZwaveDataFrame;
  lastParsedValid : bool
}.

(** The state the constructor leaves. *)
Definition initTransport : Transport := mkTransport WaitFrameStart 0 [] emptyFrame false.

Definition resetParser (t : Transport) : Transport :=
  mkTransport WaitFrameStart 0 [] (lastParsedFrame t) false.

(** ** The byte-fed parser *)

Definition feed `{Oob} (t : Transport) (byte : Z) : Transport * TransportEvent :=
  match parseState t with
  | WaitFrameStart =>
      if byte =? ACK then (t, EvAck) else
      if byte =? NAK then (t, EvNak) else
      if byte =? CAN then (t, EvCan) else
      if byte =? SOF then
        (mkTransport WaitLength (expectedLength t) [byte] (lastParsedFrame t) (lastParsedValid t),
         EvNone)
      else (t, EvNone)
  | WaitLength =>
      let fb := frameBytes t ++ [byte] in
      let el := (2 + Z.to_nat byte)%nat in
      let t' := mkTransport WaitLength el fb (lastParsedFrame t) (lastParsedValid t) in
      if (byte <? 3) || (MAX_FRAME_SIZE <? el)%nat then (resetParser t', EvNone)
      else (mkTransport WaitPayload el fb (lastParsedFrame t) (lastParsedValid t), EvNone)
  | WaitPayload =>
      let fb := frameBytes t ++ [byte] in
      let t' := mkTransport WaitPayload (expectedLength t) fb (lastParsedFrame t) (lastParsedValid t) in
      if (length fb <? expectedLength t)%nat then (t', EvNone) else
      let '(parsed, parseOk) := parseFromBuffer emptyFrame (Some fb) in
      let t'' := resetParser t' in
      if negb parseOk then (t'', EvNone)
      else (mkTransport (parseState t'') (expectedLength t'') (frameBytes t'') parsed true, EvDataFrame)
  end.

(** ** Dispatch and sending *)

Section Sending.
Context `{Oob} {W : Type} `{SerialIO W}.
Variable incomingHandler : option (ZwaveDataFrame -> W -> W).

Definition sendAck (w : W) : W := (writeAll [ACK] w).2.

Definition handleParsedDataFrame (t : Transport) (w : W) : Transport * W :=
  if negb (lastParsedValid t) then (t, w) else
  let w := sendAck w in
  let w := match incomingHandler with
           | Some h => h (lastParsedFrame t) w
           | None => w
           end in
  (mkTransport (parseState t) (expectedLength t) (frameBytes t) (lastParsedFrame t) false, w).

(** The body of [pumpOnce]'s loop over the bytes read. *)
Fixpoint pumpBytes (chunk : list Z) (t : Transport) (w : W) : Transport * W :=
  match chunk with
  | [] => (t, w)
  | byte :: rest =>
      let '(t, ev) := feed t byte in
      let '(t, w) := match ev with
                     | EvDataFrame => handleParsedDataFrame t w
                     | _ => (t, w)
                     end in
      pumpBytes rest t w
  end.

Definition pumpOnce (timeoutMs : Z) (t : Transport) (w : W) : bool * Transport * W :=
  let '(chunk, w) := readBytes READ_CHUNK_SIZE timeoutMs w in
  if (length chunk <=? 0)%nat then (false, t, w) else
  let '(t, w) := pumpBytes chunk t w in (true, t, w).

Definition remainingMs (deadline : Z) (w : W) : Z * W :=
  let '(now, w) := clock_now w in
  if now >=? deadline then (0, w) else ((deadline - now) `quot` NS_PER_MS, w).

(** How the inner loop leaves: [return true], [retryOuter], or a timeout. *)
Inductive AckWait := AckSeen | RetryOuter | AckTimeout.

#[global] Instance AckWait_eq_dec : EqDecision AckWait.
Proof. solve_decision. Defined.

(** The loop over one chunk: stops at the first ACK, NAK or CAN. *)
Fixpoint feedUntilAck (chunk : list Z) (t : Transport) (w : W) : option AckWait * Transport * W :=
  match chunk with
  | [] => (None, t, w)
  | byte :: rest =>
      let '(t, ev) := feed t byte in
      match ev with
      | EvAck => (Some AckSeen, t, w)
      | EvNak | EvCan => (Some RetryOuter, t, w)
      | EvDataFrame => let '(t, w) := handleParsedDataFrame t w in feedUntilAck rest t w
      | EvNone => feedUntilAck rest t w
      end
  end.

(** The [while (!retryOuter)] loop; [None] when the fuel runs out. *)
Fixpoint awaitAck (fuel : nat) (deadline : Z) (t : Transport) (w : W)
    : option (AckWait * Transport * W) :=
  match fuel with
  | O => None
  | S fuel =>
      let '(wait, w) := remainingMs deadline w in
      if wait <=? 0 then Some (AckTimeout, t, w) else
      let '(chunk, w) := readBytes READ_CHUNK_SIZE wait w in
      if (length chunk <=? 0)%nat then awaitAck fuel deadline t w else
      let '(r, t, w) := feedUntilAck chunk t w in
      match r with
      | Some out => Some (out, t, w)
      | None => awaitAck fuel deadline t w
      end
  end.

(** The [for (attempt ...)] loop, counting the [remaining] attempts down. *)
Fixpoint sendAttempts (fuel : nat) (bytes : list Z) (remaining : nat) (attempt : Z)
    (t : Transport) (w : W) : option (bool * Transport * W) :=
  match remaining with
  | O => Some (false, t, w)
  | S remaining =>
      let '(t, w) :=
        if 0 <? attempt then
          let backoff := RETRY_BACKOFF_BASE_MS + attempt * RETRY_BACKOFF_PER_ATTEMPT_MS in
          (resetParser t, flushInput (sleep_for backoff w))
        else (t, w) in
      let '(written, w) := writeAll bytes w in
      if negb written then sendAttempts fuel bytes remaining (attempt + 1) t w else
      let '(now, w) := clock_now w in
      match awaitAck fuel (now + ACK_TIMEOUT_MS * NS_PER_MS) t w with
      | None => None
      | Some (AckSeen, t, w) => Some (true, t, w)
      | Some (_, t, w) => sendAttempts fuel bytes remaining (attempt + 1) t w
      end
  end.

Definition sendRequest (fuel : nat) (frame : ZwaveDataFrame) (t : Transport) (w : W)
    : option (bool * Transport * W) :=
  let bytes := toBuffer frame in
  if (length bytes =? 0)%nat then Some (false, t, w)
  else sendAttempts fuel bytes (Z.to_nat MAX_SEND_RETRIES) 0 t w.

End Sending.

(** ** The parser: invariant and decoding of byte streams *)

(** What the receive buffer holds in each parser state. *)
Definition parser_inv (t : Transport) : Prop :=
  match parseState t with
  | WaitFrameStart => frameBytes t = []
  | WaitLength => frameBytes t = [SOF]
  | WaitPayload =>
      exists len rest, frameBytes t = SOF :: len :: rest /\ 3 <= len <= 253 /\
        expectedLength t = (2 + Z.to_nat len)%nat /\ (length (frameBytes t) < expectedLength t)%nat
  end.

Lemma resetParser_inv t : parser_inv (resetParser t).
Proof. done. Qed.

Lemma feed_inv `{Oob} t b : parser_inv t -> parser_inv (feed t b).1.
Proof.
  unfold parser_inv at 1, feed. destruct (parseState t) eqn:Hs.
  - intros Hfb. repeat zcase; unfold parser_inv; cbn; rewrite ?Hs; try done. by subst b.
  - intros Hfb. destruct (_ || _) eqn:Hb; [apply resetParser_inv|]. zbool.
    exists b, []. cbn. rewrite Hfb. cbn. unfold MAX_FRAME_SIZE, MAX_PAYLOAD_SIZE in *. split_and!; try done; lia.
  - intros (len & rest & Hfb & Hlen & He & Hlt). zcase.
    + exists len, (rest ++ [b]). cbn. rewrite Hfb. cbn. rewrite Hfb in *. split_and!; try done; lia.
    + destruct (parseFromBuffer _ _) as [p []]; done.
Qed.

(** What the peer can put on the line: the control bytes, legal data frames and
    bytes that mean nothing outside a frame. *)
Inductive Item := IAck | INak | ICan | IData (f : ZwaveDataFrame) | IJunk (b : Z).

Definition encodeItem (i : Item) : list Z :=
  match i with
  | IAck => [ACK] | INak => [NAK] | ICan => [CAN]
  | IData f => toBuffer f
  | IJunk b => [b]
  end.

Definition item_ok (i : Item) : Prop :=
  match i with
  | IData f => frame_ok f /\ valid f = true
  | IJunk b => b <> ACK /\ b <> NAK /\ b <> CAN /\ b <> SOF
  | _ => True
  end.

Definition not_junk (i : Item) : bool := match i with IJunk _ => false | _ => true end.

(** The items an event stands for. *)
Definition eventItems (t : Transport) (ev : TransportEvent) : list Item :=
  match ev with
  | EvNone => []
  | EvAck => [IAck] | EvNak => [INak] | EvCan => [ICan]
  | EvDataFrame => [IData (lastParsedFrame t)]
  end.

Fixpoint feedAll `{Oob} (t : Transport) (l : list Z) : Transport * list Item :=
  match l with
  | [] => (t, [])
  | b :: l =>
      let '(t, ev) := feed t b in
      let '(t', items) := feedAll t l in
      (t', eventItems t ev ++ items)
  end.

Lemma feedAll_cons `{Oob} t b l :
  feedAll t (b :: l) =
    let '(t1, ev) := feed t b in
    let '(t2, items) := feedAll t1 l in (t2, eventItems t1 ev ++ items).
Proof. done. Qed.

Lemma feedAll_app `{Oob} t l k :
  feedAll t (l ++ k) =
    let '(t1, i1) := feedAll t l in let '(t2, i2) := feedAll t1 k in (t2, i1 ++ i2).
Proof.
  revert t. induction l as [|b l IH]; intros t; simpl; [by destruct (feedAll t k)|].
  destruct (feed t b) as [t1 ev]. rewrite IH. destruct (feedAll t1 l) as [t2 i1].
  destruct (feedAll t2 k). by rewrite app_assoc.
Qed.

Lemma feedAll_inv `{Oob} t l : parser_inv t -> parser_inv (feedAll t l).1.
Proof.
  revert t. induction l as [|b l IH]; intros t Ht; [done|]. simpl.
  pose proof (feed_inv t b Ht) as Hf. destruct (feed t b) as [t1 ev]. cbn in Hf.
  specialize (IH t1 Hf). by destruct (feedAll t1 l).
Qed.

(** Feeding the tail of a frame, its head being already buffered. *)
Lemma feedAll_payload `{Oob} f pre rest lf lv :
  frame_ok f -> valid f = true -> toBuffer f = pre ++ rest -> rest <> [] ->
  feedAll (mkTransport WaitPayload (length (toBuffer f)) pre lf lv) rest =
    (mkTransport WaitFrameStart 0 [] f true, [IData f]).
Proof.
  intros Hf Hv. revert pre. induction rest as [|b rest IH]; intros pre Heq Hne; [done|].
  rewrite feedAll_cons. unfold feed at 1. cbn [parseState frameBytes expectedLength].
  assert (toBuffer f = (pre ++ [b]) ++ rest) as Heq' by (by rewrite <-app_assoc).
  destruct rest as [|b' rest].
  - rewrite app_nil_r in Heq'. rewrite <-Heq', Nat.ltb_irrefl.
    rewrite <-(app_nil_r (toBuffer f)), parse_of_toBuffer, setValid_id by done.
    by destruct f.
  - replace (length (pre ++ [b]) <? length (toBuffer f))%nat with true.
    + by rewrite IH.
    + symmetry. apply Nat.ltb_lt. rewrite Heq', (length_app _ (b' :: rest)). simpl. lia.
Qed.

Lemma feedAll_item `{Oob} t i :
  parser_inv t -> parseState t = WaitFrameStart -> item_ok i ->
  exists t', feedAll t (encodeItem i) = (t', filter (fun i => not_junk i) [i]) /\
             parser_inv t' /\ parseState t' = WaitFrameStart.
Proof.
  intros Hinv Hs Hi. destruct t as [st el fb lf lv]. cbn in Hs, Hinv. subst st.
  destruct i as [| | |f|b]; cbn [encodeItem item_ok] in Hi |- *;
    try (eexists; split_and!; done).
  - destruct Hi as [Hf Hv]. exists (mkTransport WaitFrameStart 0 [] f true). split; [|by split].
    pose proof (frameLengthOf_small f (fok_size _ Hf)) as Hl.
    pose proof (fok_size _ Hf) as Hsz. unfold MAX_PAYLOAD_SIZE in Hsz.
    rewrite <-(take_drop 2 (toBuffer f)) at 1. change (take 2 (toBuffer f)) with [SOF; frameLengthOf f].
    cbn [app]. rewrite feedAll_cons. unfold feed at 1. cbn [parseState Z.eqb SOF ACK NAK CAN Pos.eqb].
    rewrite feedAll_cons. unfold feed at 1. cbn [parseState frameBytes].
    replace (_ || _) with false; last first.
    { symmetry. apply orb_false_intro; [lia|]. apply Nat.ltb_ge. rewrite Hl.
      unfold MAX_FRAME_SIZE, MAX_PAYLOAD_SIZE. lia. }
    rewrite Hl.
    replace (2 + Z.to_nat (zlen (payload f) + 3))%nat with (length (toBuffer f))
      by (rewrite toBuffer_length; lia).
    rewrite feedAll_payload; [done..|by rewrite <-Hl|done].
  - destruct Hi as (?&?&?&?). unfold feed. cbn.
    repeat (rewrite (proj2 (Z.eqb_neq b _)) by done). eexists. by split_and!.
Qed.

Lemma feedAll_items `{Oob} t items :
  parser_inv t -> parseState t = WaitFrameStart -> Forall item_ok items ->
  exists t', feedAll t (concat (encodeItem <$> items)) = (t', filter (fun i => not_junk i) items) /\
             parser_inv t' /\ parseState t' = WaitFrameStart.
Proof.
  intros Hinv Hs Hok. revert t Hinv Hs.
  induction Hok as [|i items Hi Hok IH]; intros t Hinv Hs; [by exists t|].
  destruct (feedAll_item t i Hinv Hs Hi) as (t1 & Hf1 & Hi1 & Hs1).
  destruct (IH t1 Hi1 Hs1) as (t2 & Hf2 & Hi2 & Hs2).
  exists t2. split; [|done]. change (i :: items) with ([i] ++ items).
  rewrite fmap_app, concat_app. cbn [fmap list_fmap concat]. rewrite app_nil_r, feedAll_app, Hf1, Hf2.
  by rewrite list.filter_app.
Qed.

(** A frame is reported only for a buffer that serialises it. *)
Lemma feed_frame_sound `{Oob} t b t' :
  parser_inv t -> bytes_ok (frameBytes t) -> byte_ok b -> feed t b = (t', EvDataFrame) ->
  frameBytes t ++ [b] = toBuffer (lastParsedFrame t') /\ frame_ok (lastParsedFrame t') /\
  lastParsedValid t' = true.
Proof.
  intros Hinv Hok Hb. unfold parser_inv in Hinv. unfold feed.
  destruct (parseState t); [by repeat zcase|by destruct (_ || _)|].
  destruct Hinv as (len & rest & Hfb & Hlen & He & Hlt). zcase; [done|].
  destruct (parseFromBuffer _ _) as [p []] eqn:Hp; intros [= <-]. cbn.
  apply parse_inv in Hp as (junk & Heq & Hfok & _); [|by auto with bytes].
  assert (frameLengthOf p = len) as Hl.
  { rewrite Hfb in Heq. cbn in Heq. by injection Heq. }
  rewrite frameLengthOf_small in Hl by apply Hfok.
  assert (junk = []) as ->; [|by rewrite app_nil_r in Heq].
  apply nil_length_inv. apply (f_equal length) in Heq.
  rewrite !length_app, toBuffer_length in Heq. cbn in Heq. lia.
Qed.

(** ** Termination of the acknowledgement wait *)

Section Termination.
Context `{Oob} {W : Type} `{SerialLaws W}.
Variable handler : option (ZwaveDataFrame -> W -> W).
Hypothesis handler_clock :
  forall h f w, handler = Some h -> clock w <= clock (h f w).

Lemma handleParsedDataFrame_clock t w :
  clock w <= clock (handleParsedDataFrame handler t w).2.
Proof.
  unfold handleParsedDataFrame, sendAck. destruct (lastParsedValid t); cbn; [|lia].
  pose proof (clock_write [ACK] w). destruct handler as [h|]; [|done].
  pose proof (handler_clock h (lastParsedFrame t) (writeAll [ACK] w).2 eq_refl). lia.
Qed.

Lemma feedUntilAck_clock chunk t w :
  clock w <= clock (feedUntilAck handler chunk t w).2.
Proof.
  revert t w. induction chunk as [|b chunk IH]; intros t w; cbn; [lia|].
  destruct (feed t b) as [t1 []]; cbn; try lia; [apply IH|].
  pose proof (handleParsedDataFrame_clock t1 w) as Hh.
  destruct (handleParsedDataFrame handler t1 w) as [t2 w2]. cbn in Hh.
  specialize (IH t2 w2). lia.
Qed.

(** The loop leaves after at most one iteration per nanosecond to the deadline. *)
Lemma awaitAck_terminates fuel deadline t w :
  deadline - clock w < Z.of_nat fuel -> 0 < Z.of_nat fuel ->
  is_Some (awaitAck handler fuel deadline t w).
Proof.
  revert t w. induction fuel as [|fuel IH]; intros t w Hf Hpos; [lia|]. cbn.
  unfold remainingMs. pose proof (clock_observed w) as Hnow.
  destruct (clock_now w) as [now w1]. cbn in Hnow.
  destruct (Z.geb_spec now deadline); [by eexists|].
  destruct (_ <=? 0); [by eexists|]. set (wait := _ `quot` _).
  pose proof (clock_read READ_CHUNK_SIZE wait w1 ltac:(unfold READ_CHUNK_SIZE; lia)) as Hr.
  destruct (readBytes READ_CHUNK_SIZE wait w1) as [chunk w2]. cbn in Hr.
  assert (Hnext : forall t3 w3, clock w2 <= clock w3 ->
    is_Some (awaitAck handler fuel deadline t3 w3)) by (intros; apply IH; lia).
  destruct (_ <=? 0)%nat; [by apply Hnext|].
  pose proof (feedUntilAck_clock chunk t w2) as Hc.
  destruct (feedUntilAck handler chunk t w2) as [[[out|] t3] w3]; [by eexists|].
  by apply Hnext.
Qed.

Definition sendFuel : nat := S (Z.to_nat (ACK_TIMEOUT_MS * NS_PER_MS)).

Lemma sendAttempts_terminates fuel bytes remaining attempt t w :
  (sendFuel <= fuel)%nat ->
  is_Some (sendAttempts handler fuel bytes remaining attempt t w).
Proof.
  intros Hfuel. revert attempt t w. induction remaining as [|remaining IH]; intros attempt t w; cbn.
  { by eexists. }
  destruct (if 0 <? attempt then _ else _) as [t1 w1].
  destruct (writeAll bytes w1) as [[] w2]; cbn; [|apply IH].
  pose proof (clock_observed w2) as Hn. destruct (clock_now w2) as [now w3]. cbn in Hn.
  destruct (awaitAck_terminates fuel (now + ACK_TIMEOUT_MS * NS_PER_MS) t1 w3) as [[[[] t2] w4] Ha].
  - unfold sendFuel in Hfuel. lia.
  - unfold sendFuel in Hfuel. lia.
  - rewrite Ha. by eexists.
  - rewrite Ha. apply IH.
  - rewrite Ha. apply IH.
Qed.
End Termination.

(** ** Invariants of the world

    What every call of the port and the handler preserve, the transport preserves. *)

Section Preserved.
Context `{Oob} {W : Type} `{SerialIO W} (h : ZwaveDataFrame -> W -> W) (I : W -> Prop).
Hypothesis I_write : forall l w, l <> [] -> I w -> I (writeAll l w).2.
Hypothesis I_read : forall n ms w, I w -> I (readBytes n ms w).2.
Hypothesis I_flush : forall w, I w -> I (flushInput w).
Hypothesis I_sleep : forall ms w, I w -> I (sleep_for ms w).
Hypothesis I_clock : forall w, I w -> I (clock_now w).2.
Hypothesis I_handler : forall f w, I w -> I (h f w).

Lemma handleParsedDataFrame_keeps t w : I w -> I (handleParsedDataFrame (Some h) t w).2.
Proof. intros Hw. unfold handleParsedDataFrame, sendAck. destruct (lastParsedValid t); cbn; auto. Qed.

Lemma feedUntilAck_keeps chunk t w : I w -> I (feedUntilAck (Some h) chunk t w).2.
Proof.
  revert t w. induction chunk as [|b chunk IH]; intros t w Hw; cbn; [done|].
  destruct (feed t b) as [t1 []]; cbn; auto. pose proof (handleParsedDataFrame_keeps t1 w Hw) as Hk.
  destruct (handleParsedDataFrame _ t1 w) as [t2 w2]. by apply IH.
Qed.

Lemma pumpBytes_keeps chunk t w : I w -> I (pumpBytes (Some h) chunk t w).2.
Proof.
  revert t w. induction chunk as [|b chunk IH]; intros t w Hw; cbn; [done|].
  destruct (feed t b) as [t1 []]; cbn; auto. pose proof (handleParsedDataFrame_keeps t1 w Hw) as Hk.
  destruct (handleParsedDataFrame _ t1 w) as [t2 w2]. by apply IH.
Qed.

Lemma pumpOnce_keeps ms t w : I w -> I (pumpOnce (Some h) ms t w).2.
Proof.
  intros Hw. unfold pumpOnce. pose proof (I_read READ_CHUNK_SIZE ms w Hw) as Hr.
  destruct (readBytes READ_CHUNK_SIZE ms w) as [chunk w1]. cbn in Hr. destruct (_ <=? 0)%nat; [done|].
  pose proof (pumpBytes_keeps chunk t w1 Hr). by destruct (pumpBytes _ chunk t w1).
Qed.

Lemma awaitAck_keeps fuel deadline t w r t' w' :
  I w -> awaitAck (Some h) fuel deadline t w = Some (r, t', w') -> I w'.
Proof.
  revert t w. induction fuel as [|fuel IH]; intros t w Hw; cbn; [done|]. unfold remainingMs.
  pose proof (I_clock w Hw) as Hc. destruct (clock_now w) as [now w1]. cbn in Hc.
  destruct (now >=? deadline); [by intros [= _ _ <-]|]. destruct (_ <=? 0); [by intros [= _ _ <-]|].
  set (wait := _ `quot` _). pose proof (I_read READ_CHUNK_SIZE wait w1 Hc) as Hr.
  destruct (readBytes READ_CHUNK_SIZE wait w1) as [chunk w2]. cbn in Hr.
  destruct (_ <=? 0)%nat; [by apply IH|]. pose proof (feedUntilAck_keeps chunk t w2 Hr) as Hf.
  destruct (feedUntilAck _ chunk t w2) as [[[out|] t3] w3]; [by intros [= _ _ <-]|by apply IH].
Qed.

Lemma sendAttempts_keeps fuel bytes remaining attempt t w r t' w' :
  bytes <> [] -> I w -> sendAttempts (Some h) fuel bytes remaining attempt t w = Some (r, t', w') -> I w'.
Proof.
  intros Hb. revert attempt t w. induction remaining as [|remaining IH]; intros attempt t w Hw; cbn.
  { by intros [= _ _ <-]. }
  assert (Hback : I (if 0 <? attempt
    then (resetParser t, flushInput (sleep_for (RETRY_BACKOFF_BASE_MS + attempt * RETRY_BACKOFF_PER_ATTEMPT_MS) w))
    else (t, w)).2) by (destruct (0 <? attempt); cbn; auto).
  destruct (if 0 <? attempt then _ else _) as [t1 w1]. cbn in Hback.
  pose proof (I_write bytes w1 Hb Hback) as Hwr. destruct (writeAll bytes w1) as [[] w2]; cbn in *; [|by apply IH].
  pose proof (I_clock w2 Hwr) as Hc. destruct (clock_now w2) as [now w3]. cbn in Hc.
  destruct (awaitAck _ fuel _ t1 w3) as [[[[] t2] w4]|] eqn:Ha; [..|done];
    apply (awaitAck_keeps _ _ _ _ _ _ _ Hc) in Ha; [by intros [= _ _ <-]|by apply IH..].
Qed.

Lemma sendRequest_keeps fuel frame t w r t' w' :
  I w -> sendRequest (Some h) fuel frame t w = Some (r, t', w') -> I w'.
Proof.
  intros Hw. unfold sendRequest. destruct (toBuffer frame) as [|b bytes] eqn:E; cbn [length Nat.eqb].
  - by intros [= _ _ <-].
  - by apply sendAttempts_keeps.
Qed.
End Preserved.

(** ** The send protocol: an abstract specification of [sendRequest]

    The traced world records what the transport does to the port. *)

Inductive Act :=
  | AWrite (bytes : list Z) (ok : bool)
  | ARead (chunk : list Z)
  | AFlush
  | ASleep (ms : Z)
  | AHandle (f : ZwaveDataFrame).

#[global] Instance Act_eq_dec : EqDecision Act.
Proof. solve_decision. Defined.

Definition tracedIO {W} (io : SerialIO W) : SerialIO (W * list Act) := {|
  writeAll l w := let '(ok, w') := writeAll l w.1 in (ok, (w', w.2 ++ [AWrite l ok]));
  readBytes n ms w := let '(c, w') := readBytes n ms w.1 in (c, (w', w.2 ++ [ARead c]));
  flushInput w := (flushInput w.1, w.2 ++ [AFlush]);
  sleep_for ms w := (sleep_for ms w.1, w.2 ++ [ASleep ms]);
  clock_now w := let '(t, w') := clock_now w.1 in (t, (w', w.2))
|}.

Definition tracedHandler {W} (h : ZwaveDataFrame -> W -> W)
    : option (ZwaveDataFrame -> W * list Act -> W * list Act) :=
  Some (fun f w => (h f w.1, w.2 ++ [AHandle f])).

Definition tracedLaws {W} (io : SerialIO W) (laws : SerialLaws W)
    : @SerialLaws (W * list Act) (tracedIO io).
Proof.
  refine (@Build_SerialLaws _ (tracedIO io) (fun w => clock w.1) _ _ _ _ _); cbn.
  - intros n ms w. pose proof (readBytes_size n ms w.1). by destruct (readBytes n ms w.1).
  - intros n ms w. pose proof (readBytes_bytes n ms w.1). by destruct (readBytes n ms w.1).
  - intros n ms w Hn. pose proof (clock_read n ms w.1 Hn). by destruct (readBytes n ms w.1).
  - intros l w. pose proof (clock_write l w.1). by destruct (writeAll l w.1).
  - intros w. pose proof (clock_observed w.1). by destruct (clock_now w.1).
Defined.

(** Each data frame that arrives is acknowledged, then handled. *)
Definition responses (fs : list (ZwaveDataFrame * bool)) : list Act :=
  concat ((fun '(f, ok) => [AWrite [ACK] ok; AHandle f]) <$> fs).

(** Waiting for the acknowledgement of one attempt. *)
Inductive await_trace : AckWait -> list Act -> Prop :=
  | at_timeout : await_trace AckTimeout []
  | at_chunk c fs out tr :
      await_trace out tr -> await_trace out (ARead c :: responses fs ++ tr)
  | at_ack c fs : ACK ∈ c -> await_trace AckSeen (ARead c :: responses fs)
  | at_retry c fs : NAK ∈ c \/ CAN ∈ c -> await_trace RetryOuter (ARead c :: responses fs).

(** The back-off before a repeated attempt. *)
Definition backoff_trace (attempt : Z) : list Act :=
  if 0 <? attempt then [ASleep (100 + attempt * 1000); AFlush] else [].

(** From attempt [n] on, with the outcome reported to the caller. *)
Inductive send_trace (bytes : list Z) : Z -> bool -> list Act -> Prop :=
  | st_exhausted n : n = MAX_SEND_RETRIES -> send_trace bytes n false []
  | st_write_failed n r tr :
      n < MAX_SEND_RETRIES -> send_trace bytes (n + 1) r tr ->
      send_trace bytes n r (backoff_trace n ++ AWrite bytes false :: tr)
  | st_acked n tr :
      n < MAX_SEND_RETRIES -> await_trace AckSeen tr ->
      send_trace bytes n true (backoff_trace n ++ AWrite bytes true :: tr)
  | st_retry n out r tr tr' :
      n < MAX_SEND_RETRIES -> out <> AckSeen -> await_trace out tr ->
      send_trace bytes (n + 1) r tr' ->
      send_trace bytes n r (backoff_trace n ++ AWrite bytes true :: tr ++ tr').

Section Refinement.
Context `{Oob} {W : Type} (io : SerialIO W).
Variable h : ZwaveDataFrame -> W -> W.
#[local] Existing Instance tracedIO.

Lemma feed_event_byte t b t' ev :
  feed t b = (t', ev) ->
  match ev with EvAck => b = ACK | EvNak => b = NAK | EvCan => b = CAN | _ => True end.
Proof.
  unfold feed. destruct (parseState t).
  - repeat zcase; by intros [= <- <-].
  - destruct (_ || _); by intros [= <- <-].
  - zcase; [by intros [= <- <-]|].
    destruct (parseFromBuffer _ _) as [p []]; by intros [= <- <-].
Qed.

Lemma handle_traced t w log :
  exists t' w' fs, handleParsedDataFrame (tracedHandler h) t (w, log) = (t', (w', log ++ responses fs)).
Proof.
  unfold handleParsedDataFrame, tracedHandler, sendAck. destruct (lastParsedValid t); cbn.
  - destruct (writeAll [ACK] w) as [ok w1]. cbn. eexists _, _, [(_, ok)]. cbn. by rewrite <-app_assoc.
  - exists t, w, []. by rewrite app_nil_r.
Qed.

Lemma responses_app fs gs : responses (fs ++ gs) = responses fs ++ responses gs.
Proof. unfold responses. by rewrite fmap_app, concat_app. Qed.

Lemma feedUntilAck_traced chunk t w log :
  exists out t' w' fs,
    feedUntilAck (tracedHandler h) chunk t (w, log) = (out, t', (w', log ++ responses fs)) /\
    match out with
    | Some AckSeen => ACK ∈ chunk
    | Some RetryOuter => NAK ∈ chunk \/ CAN ∈ chunk
    | Some AckTimeout => False
    | None => True
    end.
Proof.
  revert t w log. induction chunk as [|b chunk IH]; intros t w log; cbn.
  { exists None, t, w, []. by rewrite app_nil_r. }
  destruct (feed t b) as [t1 ev] eqn:Hf. apply feed_event_byte in Hf.
  assert (Hstep : forall t2 w2 log2, exists out t' w' fs,
    feedUntilAck (tracedHandler h) chunk t2 (w2, log2) = (out, t', (w', log2 ++ responses fs)) /\
    match out with Some AckSeen => ACK ∈ b :: chunk
      | Some RetryOuter => NAK ∈ b :: chunk \/ CAN ∈ b :: chunk
      | Some AckTimeout => False | None => True end).
  { intros t2 w2 log2. destruct (IH t2 w2 log2) as (out & t' & w' & fs & -> & Ho).
    exists out, t', w', fs. split; [done|]. destruct out as [[]|]; [by right| |done|done].
    destruct Ho; [left|right]; by right. }
  destruct ev; subst; try (eexists _, t1, w, []; rewrite app_nil_r; split; [done|set_solver]).
  - apply Hstep.
  - destruct (handle_traced t1 w log) as (t2 & w2 & fs1 & ->).
    destruct (Hstep t2 w2 (log ++ responses fs1)) as (out & t' & w' & fs & -> & Ho).
    exists out, t', w', (fs1 ++ fs). by rewrite responses_app, app_assoc.
Qed.

Lemma awaitAck_traced fuel deadline t w log out t' w' :
  awaitAck (tracedHandler h) fuel deadline t (w, log) = Some (out, t', w') ->
  exists tr, w'.2 = log ++ tr /\ await_trace out tr.
Proof.
  revert t w log. induction fuel as [|fuel IH]; intros t w log; cbn; [done|].
  unfold remainingMs. cbn. destruct (clock_now w) as [now w1].
  destruct (if now >=? deadline then _ else _) as [wait w2] eqn:Hw2.
  assert (w2 = (w1, log)) as -> by (by destruct (now >=? deadline); injection Hw2).
  destruct (wait <=? 0).
  { intros [= <- <- <-]. exists []. rewrite app_nil_r. split; [done|constructor]. }
  cbn. destruct (readBytes READ_CHUNK_SIZE wait w1) as [c w3].
  assert (Hmore : forall fs t3 w4, awaitAck (tracedHandler h) fuel deadline t3
      (w4, (log ++ [ARead c]) ++ responses fs) = Some (out, t', w') ->
      exists tr, w'.2 = log ++ tr /\ await_trace out tr).
  { intros fs t3 w4 (tr & -> & Htr)%IH. exists (ARead c :: responses fs ++ tr).
    rewrite <-!app_assoc. split; [done|by constructor]. }
  destruct (length c <=? 0)%nat.
  { intros Ha. apply (Hmore [] t w3). by rewrite app_nil_r. }
  destruct (feedUntilAck_traced c t w3 (log ++ [ARead c])) as (o & t3 & w4 & fs & -> & Ho).
  destruct o as [o|]; [|apply Hmore]. intros [= <- <- <-]. exists (ARead c :: responses fs).
  cbn. rewrite <-app_assoc. split; [done|].
  destruct o; [by apply at_ack|by apply at_retry|done].
Qed.

Lemma sendAttempts_traced fuel bytes remaining n t w log r t' w' :
  n + Z.of_nat remaining = MAX_SEND_RETRIES ->
  sendAttempts (tracedHandler h) fuel bytes remaining n t (w, log) = Some (r, t', w') ->
  exists tr, w'.2 = log ++ tr /\ send_trace bytes n r tr.
Proof.
  revert n t w log. induction remaining as [|remaining IH]; intros n t w log Hn; cbn.
  { intros [= <- <- <-]. exists []. rewrite app_nil_r. split; [done|]. constructor. lia. }
  destruct (if 0 <? n then _ else _) as [t1 w1] eqn:Hpre.
  assert (exists w0, w1 = (w0, log ++ backoff_trace n)) as [w0 ->].
  { unfold backoff_trace. destruct (0 <? n); injection Hpre as _ <-; cbn; eexists.
    - by rewrite <-app_assoc.
    - by rewrite app_nil_r. }
  clear Hpre. cbn. destruct (writeAll bytes w0) as [[] w2]; cbn.
  - destruct (clock_now w2) as [now w3]. cbn.
    match goal with |- context [match ?a with Some _ => _ | None => None end = _] =>
      destruct a as [[[out t2] [w4 log4]]|] eqn:Ha; [|done] end.
    apply awaitAck_traced in Ha as (tr & Hlog & Htr). cbn in Hlog. subst log4.
    rewrite <-!app_assoc. destruct (decide (out = AckSeen)) as [->|Hout].
    + intros [= <- <- <-]. eexists. split; [done|]. constructor; [lia|done].
    + intros Hs. assert (Hs' : sendAttempts (tracedHandler h) fuel bytes remaining (n + 1) t2
        (w4, log ++ backoff_trace n ++ [AWrite bytes true] ++ tr) = Some (r, t', w'))
        by (by destruct out). clear Hs.
      apply IH in Hs' as (tr' & -> & Htr'); [|lia]. rewrite <-!app_assoc.
      exists (backoff_trace n ++ AWrite bytes true :: tr ++ tr'). split; [done|].
      apply (st_retry _ _ out); [lia|done..].
  - intros (tr & -> & Htr)%IH; [|lia]. rewrite <-!app_assoc. eexists. split; [done|].
    constructor; [lia|done].
Qed.
End Refinement.

(** ** Consequences of the send protocol *)

Definition is_frame_write (bytes : list Z) (a : Act) : bool :=
  match a with AWrite l _ => bool_decide (l = bytes) | _ => false end.
Definition is_ack_read (a : Act) : bool :=
  match a with ARead c => bool_decide (ACK ∈ c) | _ => false end.

Definition frameWrites (bytes : list Z) (tr : list Act) : nat :=
  length (filter (fun a => is_frame_write bytes a) tr).
Definition slept (tr : list Act) : Z :=
  Z.of_nat (sum_list_with (fun a => match a with ASleep ms => Z.to_nat ms | _ => 0%nat end) tr).

Lemma frameWrites_app bytes tr tr' :
  frameWrites bytes (tr ++ tr') = (frameWrites bytes tr + frameWrites bytes tr')%nat.
Proof. unfold frameWrites. by rewrite list.filter_app, length_app. Qed.

Lemma slept_app tr tr' : slept (tr ++ tr') = slept tr + slept tr'.
Proof. unfold slept. rewrite sum_list_with_app. lia. Qed.

Lemma responses_quiet bytes fs :
  bytes <> [ACK] -> frameWrites bytes (responses fs) = 0%nat /\ slept (responses fs) = 0.
Proof.
  intros Hb. induction fs as [|[f ok] fs [IH1 IH2]]; [done|].
  change (responses ((f, ok) :: fs)) with ([AWrite [ACK] ok; AHandle f] ++ responses fs).
  rewrite frameWrites_app, slept_app, IH1, IH2. split; [|done].
  unfold frameWrites. simpl. rewrite filter_cons_False, filter_cons_False; [done|..]; cbn;
    rewrite ?bool_decide_eq_false_2 by done; auto.
Qed.

Lemma await_quiet bytes out tr :
  bytes <> [ACK] -> await_trace out tr -> frameWrites bytes tr = 0%nat /\ slept tr = 0.
Proof.
  intros Hb. induction 1 as [|c fs out tr _ [IH1 IH2]|c fs _|c fs _]; [done|..];
    destruct (responses_quiet bytes fs Hb) as [Hf Hsl];
    change (ARead c :: ?l) with ([ARead c] ++ l);
    rewrite ?frameWrites_app, ?slept_app, ?IH1, ?IH2, ?Hf, ?Hsl; done.
Qed.

Lemma backoff_quiet bytes n : frameWrites bytes (backoff_trace n) = 0%nat.
Proof. unfold backoff_trace. by destruct (0 <? n). Qed.

Lemma frameWrites_self bytes ok tr : frameWrites bytes (AWrite bytes ok :: tr) = S (frameWrites bytes tr).
Proof.
  unfold frameWrites. rewrite filter_cons_True; [done|]. cbn. by rewrite bool_decide_eq_true_2.
Qed.

Lemma await_acked_reads tr : await_trace AckSeen tr -> existsb is_ack_read tr = true.
Proof.
  intros Ht. remember AckSeen as out eqn:Ho. induction Ht as [|c fs out tr Ht IH|c fs Hc|c fs Hc];
    subst; try done.
  - cbn. apply orb_true_iff. right. rewrite existsb_app. by rewrite IH, orb_true_r.
  - cbn. by rewrite bool_decide_eq_true_2.
Qed.

(** The bound and the outcome of a protocol run from attempt [n]. *)
Lemma send_trace_bounds bytes n r tr :
  bytes <> [ACK] -> 0 <= n -> send_trace bytes n r tr ->
  Z.of_nat (frameWrites bytes tr) <= 3 - n /\
  (r = false -> Z.of_nat (frameWrites bytes tr) = 3 - n) /\
  (r = true -> existsb is_ack_read tr = true).
Proof.
  intros Hb Hn Ht. induction Ht as [n ->|n r tr Hlt _ IH|n tr Hlt Ha|n out r tr tr' Hlt _ Ha _ IH];
    unfold MAX_SEND_RETRIES in *.
  - split_and!; done.
  - destruct IH as (IH1 & IH2 & IH3); [lia|]. rewrite frameWrites_app, backoff_quiet, frameWrites_self.
    split_and!; [lia|intros ->; specialize (IH2 eq_refl); lia|].
    intros ->. rewrite existsb_app. cbn. by rewrite IH3, orb_true_r.
  - destruct (await_quiet _ _ _ Hb Ha) as [Hq _].
    rewrite frameWrites_app, backoff_quiet, frameWrites_self, Hq. split_and!; [lia|done|].
    intros _. rewrite existsb_app. cbn. by rewrite (await_acked_reads _ Ha), orb_true_r.
  - destruct IH as (IH1 & IH2 & IH3); [lia|]. destruct (await_quiet _ _ _ Hb Ha) as [Hq _].
    rewrite frameWrites_app, backoff_quiet, frameWrites_self, frameWrites_app, Hq.
    split_and!; [lia|intros ->; specialize (IH2 eq_refl); lia|].
    intros ->. rewrite existsb_app. cbn. rewrite existsb_app, IH3 by done. by rewrite !orb_true_r.
Qed.

Lemma slept_backoff n : 0 <= n -> slept (backoff_trace n) = if 0 <? n then 100 + n * 1000 else 0.
Proof. intros. unfold backoff_trace, slept. zcase; cbn [sum_list_with]; lia. Qed.

Lemma send_trace_slept bytes n r tr :
  bytes <> [ACK] -> 0 <= n <= 3 -> send_trace bytes n r tr ->
  slept tr <= (if n <=? 1 then 3200 else if n =? 2 then 2100 else 0).
Proof.
  intros Hb Hn Ht.
  induction Ht as [n ->|n r tr Hlt _ IH|n tr Hlt Ha|n out r tr tr' Hlt _ Ha _ IH];
    unfold MAX_SEND_RETRIES in *; [done|..];
    try destruct (await_quiet _ _ _ Hb Ha) as [_ Hq];
    try specialize (IH ltac:(lia)); try (repeat zcase_in IH);
    rewrite slept_app; change (AWrite ?b ?k :: ?l) with ([AWrite b k] ++ l);
    rewrite ?slept_app, ?Hq, slept_backoff by lia; change (slept [AWrite _ _]) with 0;
    repeat zcase; lia.
Qed.

Lemma toBuffer_not_ack f : toBuffer f <> [ACK].
Proof. by intros [=]. Qed.

(** ** Every reported frame was on the line *)

Lemma feed_suffix `{Oob} t b consumed :
  parser_inv t -> frameBytes t `suffix_of` consumed ->
  frameBytes (feed t b).1 `suffix_of` consumed ++ [b].
Proof.
  unfold parser_inv, feed. intros Hinv [pre Hpre]. destruct (parseState t) eqn:Hs.
  - repeat zcase; cbn; rewrite ?Hinv; try apply suffix_nil. by exists consumed.
  - destruct (_ || _); cbn; [apply suffix_nil|]. exists pre. by rewrite Hpre, app_assoc.
  - zcase; cbn; [exists pre; by rewrite Hpre, app_assoc|].
    destruct (parseFromBuffer _ _) as [p []]; apply suffix_nil.
Qed.

Lemma feedAll_sound `{Oob} t consumed l f :
  parser_inv t -> bytes_ok (consumed ++ l) -> frameBytes t `suffix_of` consumed ->
  IData f ∈ (feedAll t l).2 ->
  frame_ok f /\ exists pre post, consumed ++ l = pre ++ toBuffer f ++ post.
Proof.
  revert t consumed. induction l as [|b l IH]; intros t consumed Hinv Hok Hsuf Hin.
  { by apply not_elem_of_nil in Hin. }
  pose proof (feed_inv t b Hinv) as Hinv'. pose proof (feed_suffix t b consumed Hinv Hsuf) as Hsuf'.
  rewrite feedAll_cons in Hin. destruct (feed t b) as [t1 ev] eqn:Hfeed. cbn in Hinv', Hsuf'.
  specialize (IH t1 (consumed ++ [b]) Hinv'). rewrite <-app_assoc in IH. cbn in IH.
  destruct (feedAll t1 l) as [t2 items]. cbn in Hin, IH.
  apply elem_of_app in Hin as [Hev|Hin]; [|by apply IH].
  apply list_elem_of_In in Hev.
  destruct ev; cbn in Hev; try done; destruct Hev as [Hev|[]]; try discriminate Hev.
  injection Hev as <-.
  destruct Hsuf as [pre Hpre]. apply Forall_app in Hok as [Hok1 [Hb _]%Forall_cons].
  assert (bytes_ok (frameBytes t)) as Hfb by (rewrite Hpre in Hok1; by apply Forall_app in Hok1 as [_ ?]).
  destruct (feed_frame_sound t b t1 Hinv Hfb Hb Hfeed) as (Heq & Hfr & _).
  split; [done|]. exists pre, l. rewrite <-Heq, Hpre, <-!app_assoc. done.
Qed.

(** ** Dispatch of a chunk *)

Definition itemFrames (items : list Item) : list ZwaveDataFrame :=
  omap (fun i => match i with IData f => Some f | _ => None end) items.

Section Pump.
Context `{Oob} {W : Type} (io : SerialIO W).
Variable h : ZwaveDataFrame -> W -> W.
#[local] Existing Instance tracedIO.

(** Dispatching leaves the parser state alone. *)
Lemma handle_traced_frame t w log :
  lastParsedValid t = true ->
  exists w' ok, handleParsedDataFrame (tracedHandler h) t (w, log) =
    (mkTransport (parseState t) (expectedLength t) (frameBytes t) (lastParsedFrame t) false,
     (w', log ++ responses [(lastParsedFrame t, ok)])).
Proof.
  intros Hv. unfold handleParsedDataFrame, tracedHandler, sendAck. rewrite Hv. cbn.
  destruct (writeAll [ACK] w) as [ok w1]. cbn. exists (h (lastParsedFrame t) w1), ok.
  by rewrite <-app_assoc.
Qed.

(** Two transports that differ at most in the pending-frame flag. *)
Definition same_parser (t1 t2 : Transport) : Prop :=
  parseState t1 = parseState t2 /\ expectedLength t1 = expectedLength t2 /\
  frameBytes t1 = frameBytes t2 /\ lastParsedFrame t1 = lastParsedFrame t2.

Lemma feed_same_parser t1 t2 b :
  same_parser t1 t2 ->
  same_parser (feed t1 b).1 (feed t2 b).1 /\ (feed t1 b).2 = (feed t2 b).2 /\
  ((feed t1 b).2 = EvDataFrame -> lastParsedValid (feed t1 b).1 = true).
Proof.
  destruct t1 as [s el fb lf v1], t2 as [s2 el2 fb2 lf2 v2]. unfold same_parser. cbn.
  intros (<- & <- & <- & <-). unfold feed.
  destruct s; cbn [parseState frameBytes expectedLength lastParsedFrame lastParsedValid].
  - by repeat (zcase; [done|]).
  - by destruct (_ || _).
  - zcase; [done|]. by destruct (parseFromBuffer _ _) as [p []].
Qed.

Lemma pumpBytes_traced chunk t1 t2 w log :
  same_parser t1 t2 ->
  exists t' w' fs, pumpBytes (tracedHandler h) chunk t1 (w, log) = (t', (w', log ++ responses fs)) /\
    fs.*1 = itemFrames (feedAll t2 chunk).2 /\ same_parser t' (feedAll t2 chunk).1.
Proof.
  revert t1 t2 w log. induction chunk as [|b chunk IH]; intros t1 t2 w log Hsame.
  { exists t1, w, []. by rewrite app_nil_r. }
  rewrite feedAll_cons. cbn [pumpBytes]. destruct (feed_same_parser t1 t2 b Hsame) as (Hs & He & Hv).
  destruct (feed t1 b) as [u1 ev]. destruct (feed t2 b) as [u2 ev2]. cbn in Hs, He, Hv. subst ev2.
  destruct (decide (ev = EvDataFrame)) as [->|Hne].
  - destruct (handle_traced_frame u1 w log (Hv eq_refl)) as (w1 & ok & ->).
    destruct (IH (mkTransport (parseState u1) (expectedLength u1) (frameBytes u1) (lastParsedFrame u1) false)
      u2 w1 (log ++ responses [(lastParsedFrame u1, ok)])) as (t' & w' & fs & -> & Hfs & Hs'); [done|].
    destruct (feedAll u2 chunk) as [t3 items]. cbn in *.
    exists t', w', ((lastParsedFrame u1, ok) :: fs). rewrite <-app_assoc. split_and!; [done| |done].
    cbn. rewrite Hfs. f_equal. by apply Hs.
  - destruct (IH u1 u2 w log Hs) as (t' & w' & fs & Hp & Hfs & Hs').
    destruct (feedAll u2 chunk) as [t3 items]. cbn in *.
    exists t', w', fs. destruct ev; try done; by rewrite Hp.
Qed.
End Pump.

(** ** A port whose reads are scripted, for the witnesses *)

Record Script := mkScript { script : list (list Z); scriptTime : Z; handled : list ZwaveDataFrame }.

#[global] Instance scriptIO : SerialIO Script := {
  writeAll _ w := (true, w);
  readBytes n ms w :=
    match script w with
    | [] => ([], mkScript [] (scriptTime w + Z.max 1 (ms * NS_PER_MS)) (handled w))
    | c :: s => (take n (u8 <$> c), mkScript s (scriptTime w + 1000) (handled w))
    end;
  flushInput w := w;
  sleep_for ms w := mkScript (script w) (scriptTime w + Z.max 0 (ms * NS_PER_MS)) (handled w);
  clock_now w := (scriptTime w, w)
}.

#[global] Instance scriptLaws : SerialLaws Script.
Proof.
  refine (@Build_SerialLaws _ _ scriptTime _ _ _ _ _); cbn.
  - intros n ms [[|c s] tm hd]; cbn; [lia|]. rewrite length_take. lia.
  - intros n ms [[|c s] tm hd]; cbn; [constructor|]. apply Forall_take, Forall_fmap, Forall_true.
    intros. apply u8_range.
  - intros n ms [[|c s] tm hd]; cbn; lia.
  - intros. lia.
  - intros. lia.
Defined.

Definition scriptHandler (f : ZwaveDataFrame) (w : Script) : Script :=
  mkScript (script w) (scriptTime w) (handled w ++ [f]).

(** ** Properties *)

(** Feeding read chunks one after the other. *)
Fixpoint feedChunks `{Oob} (t : Transport) (chunks : list (list Z)) : Transport * list Item :=
  match chunks with
  | [] => (t, [])
  | c :: chunks =>
      let '(t, items) := feedAll t c in
      let '(t, items') := feedChunks t chunks in (t, items ++ items')
  end.

Lemma feedChunks_concat `{Oob} t chunks : feedChunks t chunks = feedAll t (concat chunks).
Proof.
  revert t. induction chunks as [|c chunks IH]; intros t; [done|]. cbn.
  rewrite feedAll_app. destruct (feedAll t c) as [t1 i1]. by rewrite IH.
Qed.

(** C2: whatever the boundaries at which the line is read, a stream of control
    bytes, legal frames and junk bytes is decoded to exactly its control bytes
    and frames, in order, and the parser is ready for the next frame. *)
Theorem feed_decodes_stream `{Oob} chunks items :
  Forall item_ok items -> concat chunks = concat (encodeItem <$> items) ->
  exists t, feedChunks initTransport chunks = (t, filter (fun i => not_junk i) items) /\
            parseState t = WaitFrameStart.
Proof.
  intros Hok Heq. rewrite feedChunks_concat, Heq.
  destruct (feedAll_items initTransport items) as (t & -> & _ & Hs); eauto; done.
Qed.

Lemma frame_get_version_ok : frame_ok frame_get_version /\ valid frame_get_version = true.
Proof. split; [|done]. split; [by vm_compute| |vm_compute; lia]. repeat constructor; by vm_compute. Qed.

Lemma feed_decodes_stream_witness :
  let items := [IJunk 0x77; IAck; IData frame_get_version; ICan] in
  let chunks := [[0x77; 0x06; 0x01]; [6; 0; 0x15; 1; 2]; [3; 236; 0x18]] in
  exists t, @feedChunks 0 initTransport chunks = (t, [IAck; IData frame_get_version; ICan]) /\
            parseState t = WaitFrameStart.
Proof.
  intros items chunks. apply (@feed_decodes_stream 0 chunks items); [|reflexivity].
  repeat constructor; try discriminate; apply frame_get_version_ok.
Defined.

(** On any bytes at all, the receive buffer stays within a legal frame
    ([parser_inv], so fewer than 255 bytes) and every frame reported is a legal
    frame whose serialisation arrived as a contiguous run of the input. *)
Theorem feed_safe `{Oob} l :
  bytes_ok l ->
  parser_inv (feedAll initTransport l).1 /\
  (length (frameBytes (feedAll initTransport l).1) < MAX_FRAME_SIZE)%nat /\
  forall f, IData f ∈ (feedAll initTransport l).2 ->
    frame_ok f /\ exists pre post, l = pre ++ toBuffer f ++ post.
Proof.
  intros Hok. assert (Hinv : parser_inv (feedAll initTransport l).1) by (by apply feedAll_inv).
  split_and!; [done| |].
  - unfold parser_inv in Hinv. unfold MAX_FRAME_SIZE, MAX_PAYLOAD_SIZE.
    destruct (parseState _); [rewrite Hinv; simpl; lia..|].
    destruct Hinv as (len & rest & _ & Hlen & He & Hlt). lia.
  - intros f Hf. by apply (feedAll_sound initTransport [] l f).
Qed.

Lemma feed_safe_witness :
  let l := [0x01; 0x01; 6; 1; 6; 0; 0x15; 1; 2; 3; 236] in
  bytes_ok l /\ parser_inv (@feedAll 0 initTransport l).1.
Proof.
  intros l. assert (bytes_ok l) as Hl by (repeat constructor; vm_compute; congruence).
  split; [exact Hl|]. apply (@feed_safe 0 l Hl).
Defined.

(** [pumpOnce] on a chunk acknowledges and dispatches every data frame the
    parser reports for it, each ACK before its dispatch and in arrival order,
    and does nothing else to the port; with no bytes it reports false. *)
Theorem pumpOnce_spec `{Oob} {W} (io : SerialIO W) (h : ZwaveDataFrame -> W -> W) ms t w log :
  let c := (readBytes READ_CHUNK_SIZE ms w).1 in
  exists w' t' fs,
    @pumpOnce _ _ (tracedIO io) (tracedHandler h) ms t (w, log) =
      (bool_decide (c <> []), t', (w', log ++ ARead c :: responses fs)) /\
    fs.*1 = itemFrames (feedAll t c).2 /\ same_parser t' (feedAll t c).1.
Proof.
  unfold pumpOnce. cbn. destruct (readBytes READ_CHUNK_SIZE ms w) as [c w1]. cbn.
  destruct c as [|b c]; [exists w1, t, []; split_and!; done|].
  destruct (pumpBytes_traced io h (b :: c) t t w1 (log ++ [ARead (b :: c)])) as (t' & w' & fs & Hp & ? & ?);
    [done|]. exists w', t', fs. split; [|done]. cbn [length Nat.leb]. rewrite Hp.
  by rewrite <-app_assoc.
Qed.

(** [sendRequest] always returns, and what it does to the port is a run of
    the send protocol [send_trace] with the outcome it returns. *)
Lemma sendRequest_traced `{Oob} {W} (io : SerialIO W) (laws : SerialLaws W)
    (h : ZwaveDataFrame -> W -> W) fuel frame t w log :
  (forall f w, clock w <= clock (h f w)) -> (sendFuel <= fuel)%nat ->
  exists r t' w' tr,
    @sendRequest _ _ (tracedIO io) (tracedHandler h) fuel frame t (w, log) =
      Some (r, t', (w', log ++ tr)) /\
    send_trace (toBuffer frame) 0 r tr.
Proof.
  intros Hh Hfuel. unfold sendRequest. rewrite toBuffer_length, Nat.add_comm. cbn [Nat.add Nat.eqb].
  destruct (@sendAttempts_terminates _ _ (tracedIO io) (tracedLaws io laws) (tracedHandler h)
    ltac:(intros ? f w0 [= <-]; apply Hh) fuel (toBuffer frame) (Z.to_nat MAX_SEND_RETRIES) 0 t (w, log) Hfuel)
    as [[[r t'] [w' log']] Hs].
  rewrite Hs. apply sendAttempts_traced in Hs as (tr & Hlog & Htr); [|done]. cbn in Hlog. subst log'.
  by exists r, t', w', tr.
Qed.

Example sendRequest_traced_script :
  let w := mkScript [[]; [0x15]; [0x06]] 0 [] in
  exists r t' w' tr,
    @sendRequest 0 _ (tracedIO scriptIO) (tracedHandler scriptHandler) sendFuel frame_get_version
      initTransport (w, []) = Some (r, t', (w', [] ++ tr)) /\
    send_trace (toBuffer frame_get_version) 0 r tr.
Proof.
  intros w. apply (@sendRequest_traced 0 Script scriptIO scriptLaws scriptHandler).
  - intros f w0. apply Z.le_refl.
  - apply le_n.
Defined.

(** C39: [sendRequest] always returns, and within its bounds: on a port whose clock does
    not go back, with fuel for one acknowledgement time-out, it ends; it has then
    written the frame at most three times and slept at most 3.2 s; it reports
    success only after reading an ACK byte, and failure only when all three attempts
    were used up. *)
Theorem sendRequest_bounds `{Oob} {W} (io : SerialIO W) (laws : SerialLaws W) (h : ZwaveDataFrame -> W -> W)
    fuel frame t w log :
  (forall f w, clock w <= clock (h f w)) -> (sendFuel <= fuel)%nat ->
  exists r t' w' tr,
    @sendRequest _ _ (tracedIO io) (tracedHandler h) fuel frame t (w, log) = Some (r, t', (w', log ++ tr)) /\
    (frameWrites (toBuffer frame) tr <= 3)%nat /\ slept tr <= 3200 /\
    (r = true -> existsb is_ack_read tr = true) /\
    (r = false -> frameWrites (toBuffer frame) tr = 3%nat).
Proof.
  intros Hh Hfuel. destruct (sendRequest_traced io laws h fuel frame t w log Hh Hfuel) as (r & t' & w' & tr & Hs & Htr).
  exists r, t', w', tr. split; [done|].
  destruct (send_trace_bounds _ 0 r tr (toBuffer_not_ack frame) ltac:(lia) Htr) as (Hb & Hf & Ha).
  pose proof (send_trace_slept _ 0 r tr (toBuffer_not_ack frame) ltac:(lia) Htr) as Hsl. cbn in Hsl.
  split_and!; [lia|lia|done|]. intros ->. specialize (Hf eq_refl). lia.
Qed.

Lemma sendRequest_bounds_witness :
  let w := mkScript [[0x15]; [0x18]; [0x77; 0x15]] 0 [] in
  exists r t' w' tr,
    @sendRequest 0 _ (tracedIO scriptIO) (tracedHandler scriptHandler) sendFuel frame_get_version
      initTransport (w, []) = Some (r, t', (w', [] ++ tr)) /\
    (frameWrites (toBuffer frame_get_version) tr <= 3)%nat /\ slept tr <= 3200 /\
    (r = true -> existsb is_ack_read tr = true) /\
    (r = false -> frameWrites (toBuffer frame_get_version) tr = 3%nat).
Proof.
  intros w. apply (@sendRequest_bounds 0 Script scriptIO scriptLaws scriptHandler).
  - intros f w0. apply Z.le_refl.
  - apply le_n.
Defined.

(** When the first read after the write returns an ACK followed by more
    bytes, [sendRequest] succeeds and those bytes are lost: they are neither
    parsed nor dispatched, and the parser state is what it was before. *)
Theorem sendRequest_drops_bytes_after_ack `{Oob} {W} (io : SerialIO W) (h : ZwaveDataFrame -> W -> W)
    fuel frame t w w1 now w2 now2 w3 rest w4 log :
  parseState t = WaitFrameStart ->
  writeAll (toBuffer frame) w = (true, w1) ->
  clock_now w1 = (now, w2) -> clock_now w2 = (now2, w3) ->
  now <= now2 <= now + (ACK_TIMEOUT_MS - 1) * NS_PER_MS ->
  readBytes READ_CHUNK_SIZE
    ((now + ACK_TIMEOUT_MS * NS_PER_MS - now2) `quot` NS_PER_MS) w3 = (ACK :: rest, w4) ->
  @sendRequest _ _ (tracedIO io) (tracedHandler h) (S fuel) frame t (w, log) =
    Some (true, t, (w4, log ++ [AWrite (toBuffer frame) true; ARead (ACK :: rest)])).
Proof.
  intros Hs Hw Hn Hn2 Hnow Hr. unfold sendRequest. rewrite toBuffer_length, Nat.add_comm.
  cbn [Nat.add Nat.eqb]. change (Z.to_nat MAX_SEND_RETRIES) with 3%nat. cbn [sendAttempts].
  cbn. rewrite Hw. cbn. rewrite Hn. cbn. unfold remainingMs. cbn. rewrite Hn2.
  destruct (Z.geb_spec now2 (now + ACK_TIMEOUT_MS * NS_PER_MS)) as [Hge|Hlt];
    [unfold ACK_TIMEOUT_MS, NS_PER_MS in *; lia|].
  set (q := _ `quot` _) in *.
  assert (1 <= q) as Hq.
  { unfold q. rewrite Z.quot_div_nonneg by (unfold ACK_TIMEOUT_MS, NS_PER_MS in *; lia).
    apply Z.div_le_lower_bound; unfold ACK_TIMEOUT_MS, NS_PER_MS in *; lia. }
  destruct (Z.leb_spec q 0); [lia|]. cbn. rewrite Hr. cbn. unfold feed. rewrite Hs. cbn.
  by rewrite <-app_assoc.
Qed.

Lemma sendRequest_drops_bytes_after_ack_witness :
  let w := mkScript [ACK :: toBuffer frame_get_version] 0 [] in
  @sendRequest 0 _ (tracedIO scriptIO) (tracedHandler scriptHandler) 1 frame_get_version initTransport (w, []) =
    Some (true, initTransport, (mkScript [] 1000 [],
      [] ++ [AWrite (toBuffer frame_get_version) true; ARead (ACK :: toBuffer frame_get_version)])).
Proof.
  intros w. apply (@sendRequest_drops_bytes_after_ack 0 Script scriptIO scriptHandler 0 frame_get_version
    initTransport w w 0 w 0 w (toBuffer frame_get_version)); try reflexivity.
  vm_compute. split; congruence.
Defined.
