(* ===== verification/SerialPort.v ===== *)
(** * The serial port

    [zwave-protocol/SerialPort.cpp]: the owner of a descriptor, its reads and writes
    over the calls of the operating system, which are the class [Posix] with laws for
    time, data and descriptors.  An open port is a [SerialIO] of [FrameTransport]. *)

From S2P Require Import Prelude DataFrame FrameTransport.
From stdpp Require Import gmap.
#[local] Open Scope Z_scope.

Module Port.

Definition INVALID_FD : Z := -1.
Definition WRITE_POLL_TIMEOUT_MS : Z := 1000.

(** ** The operating system *)

(** The values of [errno] the code tells apart; [EWOULDBLOCK] is [EAGAIN]. *)
Inductive Errno := EINTR | EAGAIN | EOther (code : Z).

(** What [poll] answers on one descriptor, [ready] when the event asked for is set. *)
Inductive Polled := PollFails (e : Errno) | PollNothing | PollReady (ready : bool).

Record Termios := mkTermios {
  c_iflag : Z; c_oflag : Z; c_cflag : Z; c_lflag : Z; VMIN : Z; VTIME : Z }.

(** [termios.h]: the masks, and the calls that change a [termios]. *)
Class TermiosLib := {
  CLOCAL : Z; CREAD : Z; PARENB : Z; CSTOPB : Z; CSIZE : Z; CS8 : Z; CRTSCTS : Z;
  cfmakeraw : Termios -> Termios;
  cfsetispeed115200 : Termios -> bool * Termios;
  cfsetospeed115200 : Termios -> bool * Termios }.

Class Posix (W : Type) := {
  O_NONBLOCK : Z;
  sys_open : list Z -> W -> Z * W;
  sys_close : Z -> W -> W;
  tcgetattr : Z -> W -> option Termios * W;
  tcsetattr : Z -> Termios -> W -> bool * W;
  tcflush : Z -> W -> W;
  fcntl_getfl : Z -> W -> Z * W;
  fcntl_setfl : Z -> Z -> W -> W;
  poll_in : Z -> Z -> W -> Polled * W;
  poll_out : Z -> Z -> W -> Polled * W;
  sys_read : Z -> nat -> W -> (Errno + list Z) * W;
  sys_write : Z -> list Z -> W -> (Errno + nat) * W;
  steady_clock : W -> Z * W;
  sleep_ms : Z -> W -> W }.

(** ** The port *)

Record SerialPort := mkPort { descriptor : Z; devicePath : list Z }.
Definition newPort : SerialPort := mkPort INVALID_FD [].

Section Operations.
Context {W : Type} `{TermiosLib} `{Posix W}.

Definition configureTermios (fd : Z) (w : W) : bool * W :=
  let (got, w) := tcgetattr fd w in
  match got with
  | None => (false, w)
  | Some tio =>
      let (okIn, tio) := cfsetispeed115200 (cfmakeraw tio) in
      if negb okIn then (false, w) else
      let (okOut, tio) := cfsetospeed115200 tio in
      if negb okOut then (false, w) else
      let flags := Z.lor (c_cflag tio) (Z.lor CLOCAL CREAD) in
      let flags := Z.land flags (Z.lnot PARENB) in
      let flags := Z.land flags (Z.lnot CSTOPB) in
      let flags := Z.land flags (Z.lnot CSIZE) in
      let flags := Z.lor flags CS8 in
      let flags := Z.land flags (Z.lnot CRTSCTS) in
      tcsetattr fd (mkTermios (c_iflag tio) (c_oflag tio) flags (c_lflag tio) 0 0) w
  end.

Definition close (p : SerialPort) (w : W) : SerialPort * W :=
  if negb (descriptor p =? INVALID_FD) then (newPort, sys_close (descriptor p) w) else (p, w).

Definition open (path : list Z) (p : SerialPort) (w : W) : bool * SerialPort * W :=
  let (p, w) := close p w in
  let (newFd, w) := sys_open path w in
  if newFd <? 0 then (false, p, w) else
  let (configured, w) := configureTermios newFd w in
  if negb configured then (false, p, sys_close newFd w) else (true, mkPort newFd path, w).

Definition adoptFd (newFd : Z) (label : list Z) (p : SerialPort) (w : W) : SerialPort * W :=
  let (p, w) := close p w in
  let (flags, w) := fcntl_getfl newFd w in
  let w := if flags >=? 0 then fcntl_setfl newFd (Z.lor flags O_NONBLOCK) w else w in
  (mkPort newFd label, w).

Definition isOpen (p : SerialPort) : bool := negb (descriptor p =? INVALID_FD).
Definition fd (p : SerialPort) : Z := descriptor p.
Definition path (p : SerialPort) : list Z := devicePath p.

(** A new port from another, and what the other is then; a string that was moved from
    is some string, [left]. *)
Definition moveConstruct (left : list Z) (other : SerialPort) : SerialPort * SerialPort :=
  (mkPort (descriptor other) (devicePath other), mkPort INVALID_FD left).

(** The assignment of another port to [p]; to itself it does nothing. *)
Definition moveAssign (left : list Z) (p other : SerialPort) (w : W) : SerialPort * SerialPort * W :=
  let (_, w) := close p w in
  (mkPort (descriptor other) (devicePath other), mkPort INVALID_FD left, w).

(** The result, and the bytes it put into a buffer of size [n]. *)
Definition readBytes (n : nat) (timeoutMs : Z) (p : SerialPort) (w : W) : Z * list Z * W :=
  if (descriptor p =? INVALID_FD) || (n =? 0)%nat then (-1, [], w) else
  let (polled, w) := poll_in (descriptor p) timeoutMs w in
  match polled with
  | PollFails EINTR => (0, [], w)
  | PollFails _ => (-1, [], w)
  | PollNothing | PollReady false => (0, [], w)
  | PollReady true =>
      let (got, w) := sys_read (descriptor p) n w in
      match got with
      | inl (EAGAIN | EINTR) => (0, [], w)
      | inl _ => (-1, [], w)
      | inr bytes => (zlen bytes, bytes, w)
      end
  end.

(** The loop over what is still to be written; [None] when the fuel runs out. *)
Fixpoint writeLoop (fuel : nat) (fd : Z) (rest : list Z) (w : W) : option (bool * W) :=
  match fuel with
  | O => None
  | S fuel =>
      match rest with
      | [] => Some (true, w)
      | _ =>
          let (sent, w) := sys_write fd rest w in
          match sent with
          | inl EINTR => writeLoop fuel fd rest w
          | inl EAGAIN =>
              let (polled, w) := poll_out fd WRITE_POLL_TIMEOUT_MS w in
              match polled with
              | PollReady _ => writeLoop fuel fd rest w
              | _ => Some (false, w)
              end
          | inl _ => Some (false, w)
          | inr count => writeLoop fuel fd (drop count rest) w
          end
      end
  end.

Definition writeAll (fuel : nat) (buffer : list Z) (p : SerialPort) (w : W) : option (bool * W) :=
  if (descriptor p =? INVALID_FD) || bool_decide (buffer = []) then Some (false, w)
  else writeLoop fuel (descriptor p) buffer w.

Definition flushInput (p : SerialPort) (w : W) : W :=
  if negb (descriptor p =? INVALID_FD) then tcflush (descriptor p) w else w.
End Operations.
End Port.

Import Port.

(** ** What the system's calls are relied on for *)

(** How many more times a write may be interrupted, refused or take nothing, before
    one takes a byte or fails. *)
Class Patience (W : Type) := patience : W -> nat.

(** Time, and the bytes a descriptor was given and has given. *)
Class PosixLaws (W : Type) `{Posix W} `{Patience W} := {
  now : W -> Z;
  line : Z -> W -> list Z;
  taken : Z -> W -> list Z;
  steady_now w : now w <= (steady_clock w).1 <= now (steady_clock w).2;
  steady_line fd w : line fd (steady_clock w).2 = line fd w;
  sleep_line fd ms w : line fd (sleep_ms ms w) = line fd w;
  flush_line fd fd' w : line fd (tcflush fd' w) = line fd w;
  poll_in_now fd ms w : now w < now (poll_in fd ms w).2;
  poll_in_line fd fd' ms w : line fd (poll_in fd' ms w).2 = line fd w;
  poll_in_taken fd fd' ms w : taken fd (poll_in fd' ms w).2 = taken fd w;
  read_now fd n w : now w <= now (sys_read fd n w).2;
  read_line fd fd' n w : line fd (sys_read fd' n w).2 = line fd w;
  read_taken fd n w : taken fd (sys_read fd n w).2
    = taken fd w ++ match (sys_read fd n w).1 with inr bytes => bytes | inl _ => [] end;
  read_bytes fd n w bytes : (sys_read fd n w).1 = inr bytes -> bytes_ok bytes /\ (length bytes <= n)%nat;
  poll_out_now fd ms w : now w <= now (poll_out fd ms w).2;
  poll_out_line fd fd' ms w : line fd (poll_out fd' ms w).2 = line fd w;
  poll_out_patience fd ms w : (patience (poll_out fd ms w).2 <= patience w)%nat;
  write_now fd l w : now w <= now (sys_write fd l w).2;
  write_line fd l w : line fd (sys_write fd l w).2
    = line fd w ++ match (sys_write fd l w).1 with inr count => take count l | inl _ => [] end;
  write_patience fd l w : l <> [] ->
    match (sys_write fd l w).1 with
    | inr (S _) => (patience (sys_write fd l w).2 <= patience w)%nat
    | inr O | inl (EINTR | EAGAIN) => (patience (sys_write fd l w).2 < patience w)%nat
    | inl (EOther _) => True
    end }.

(** The open descriptors of the process: only [open] and [close] change them. *)
Class DescriptorLaws (W : Type) `{Posix W} := {
  descriptors : W -> gset Z;
  open_fails path w : (sys_open path w).1 < 0 -> descriptors (sys_open path w).2 = descriptors w;
  open_fresh path w : 0 <= (sys_open path w).1 ->
    ((sys_open path w).1 ∉ descriptors w) /\
    descriptors (sys_open path w).2 = {[(sys_open path w).1]} ∪ descriptors w;
  close_fd fd w : descriptors (sys_close fd w) = descriptors w ∖ {[fd]};
  tcgetattr_fds fd w : descriptors (tcgetattr fd w).2 = descriptors w;
  tcsetattr_fds fd t w : descriptors (tcsetattr fd t w).2 = descriptors w;
  flush_fds fd w : descriptors (tcflush fd w) = descriptors w;
  poll_in_fds fd ms w : descriptors (poll_in fd ms w).2 = descriptors w;
  poll_out_fds fd ms w : descriptors (poll_out fd ms w).2 = descriptors w;
  read_fds fd n w : descriptors (sys_read fd n w).2 = descriptors w;
  write_fds fd l w : descriptors (sys_write fd l w).2 = descriptors w;
  steady_fds w : descriptors (steady_clock w).2 = descriptors w;
  sleep_fds ms w : descriptors (sleep_ms ms w) = descriptors w }.

(** ** Reads and writes *)

Section Bytes.
Context {W : Type} `{PosixLaws W}.

(** What a write leaves on the line: everything, or less than that and a failure. *)
Definition wrote (bytes : list Z) (ok : bool) (onLine : list Z) : Prop :=
  if ok then onLine = bytes else exists n, (n < length bytes)%nat /\ onLine = take n bytes.

Lemma wrote_after k bytes ok rest :
  (k <= length bytes)%nat -> wrote (drop k bytes) ok rest -> wrote bytes ok (take k bytes ++ rest).
Proof.
  intros Hk. destruct ok; cbn; [intros ->; apply take_drop|]. intros (n & Hn & ->).
  rewrite length_drop in Hn. exists (k + n)%nat. split; [lia|]. by rewrite take_take_drop.
Qed.

Lemma writeLoop_spec fuel fd bytes w :
  (length bytes + patience w < fuel)%nat ->
  exists ok w' sent, writeLoop fuel fd bytes w = Some (ok, w') /\ now w <= now w' /\
    line fd w' = line fd w ++ sent /\ wrote bytes ok sent.
Proof.
  revert bytes w. induction fuel as [|fuel IH]; intros bytes w Hf; [lia|]. cbn [writeLoop].
  destruct bytes as [|b bytes]; [by exists true, w, []; rewrite app_nil_r; split_and!|].
  set (l := b :: bytes) in *. pose proof (write_now fd l w) as Hn. pose proof (write_line fd l w) as Hl.
  pose proof (write_patience fd l w ltac:(done)) as Hp.
  destruct (sys_write fd l w) as [sent w1]. cbn [fst snd] in *.
  assert (Hagain : forall w2, now w1 <= now w2 -> line fd w2 = line fd w -> (patience w2 < patience w)%nat ->
    exists ok w' sent, writeLoop fuel fd l w2 = Some (ok, w') /\ now w <= now w' /\
      line fd w' = line fd w ++ sent /\ wrote l ok sent).
  { intros w2 Ha <- Hb. destruct (IH l w2 ltac:(lia)) as (ok & w' & s & E & ? & ? & ?).
    exists ok, w', s. split_and!; [done|lia|done..]. }
  assert (Hfail : forall w2, now w1 <= now w2 -> line fd w2 = line fd w ->
    exists ok w' sent, Some (false, w2) = Some (ok, w') /\ now w <= now w' /\
      line fd w' = line fd w ++ sent /\ wrote l ok sent).
  { intros w2 Ha Hb. exists false, w2, []. rewrite app_nil_r. split_and!; [done|lia|done|]. exists 0%nat.
    split; [cbn; lia|done]. }
  destruct sent as [[| |c]|count].
  - apply Hagain; [lia|by rewrite Hl, app_nil_r|done].
  - pose proof (poll_out_now fd WRITE_POLL_TIMEOUT_MS w1). pose proof (poll_out_line fd fd WRITE_POLL_TIMEOUT_MS w1).
    pose proof (poll_out_patience fd WRITE_POLL_TIMEOUT_MS w1).
    destruct (poll_out fd _ w1) as [polled w2]. cbn [fst snd] in *. rewrite Hl, app_nil_r in *.
    destruct polled; [by apply Hfail..|apply Hagain; [done..|lia]].
  - apply Hfail; [done|]. by rewrite Hl, app_nil_r.
  - assert (Hm : (length (drop count l) + patience w1 < fuel)%nat).
    { rewrite length_drop. cbn [length] in *. subst l. cbn [length] in *. destruct count; lia. }
    destruct (IH (drop count l) w1 Hm) as (ok & w' & s & E & ? & Hl2 & Hw).
    exists ok, w', (take (min count (length l)) l ++ s). rewrite E, Hl2, Hl, <-app_assoc.
    assert (take (min count (length l)) l = take count l) as Ht
      by (destruct (Nat.le_ge_cases count (length l)); [by rewrite Nat.min_l|rewrite Nat.min_r, !take_ge; lia || done]).
    split_and!; [done|lia|by rewrite Ht|]. apply wrote_after; [lia|].
    destruct (Nat.le_ge_cases count (length l)) as [Hc|Hc]; [by rewrite Nat.min_l|].
    rewrite Nat.min_r by lia. by rewrite drop_ge in Hw |- * by lia.
Qed.

(** A read returns what the descriptor gave, no more than asked for, and no byte is
    lost; where nothing was read it is a time-out or an error. *)
Lemma readBytes_spec n ms p w :
  isOpen p = true -> (0 < n)%nat ->
  let '(result, bytes, w') := readBytes n ms p w in
  now w < now w' /\ line (descriptor p) w' = line (descriptor p) w /\
  taken (descriptor p) w' = taken (descriptor p) w ++ bytes /\ bytes_ok bytes /\ (length bytes <= n)%nat /\
  (result = zlen bytes \/ result = -1 /\ bytes = []).
Proof.
  unfold isOpen, readBytes. intros ->%negb_true_iff Hn. rewrite orb_false_l, (proj2 (Nat.eqb_neq n 0)) by lia.
  set (fd := descriptor p). pose proof (poll_in_now fd ms w). pose proof (poll_in_line fd fd ms w) as Hl.
  pose proof (poll_in_taken fd fd ms w) as Ht. destruct (poll_in fd ms w) as [polled w1]. cbn [fst snd] in *.
  assert (Hnone : forall result, result = 0 \/ result = -1 ->
    now w < now w1 /\ line fd w1 = line fd w /\ taken fd w1 = taken fd w ++ [] /\ bytes_ok [] /\ (0 <= n)%nat /\
    (result = zlen (@nil Z) \/ result = -1 /\ @nil Z = [])).
  { intros r Hr. rewrite app_nil_r. split_and!; [done..|constructor|lia|]. destruct Hr; auto. }
  destruct polled as [[]| |[]]; try (by apply Hnone; auto).
  pose proof (read_now fd n w1). pose proof (read_line fd fd n w1) as Hl2. pose proof (read_taken fd n w1) as Ht2.
  pose proof (read_bytes fd n w1) as Hb. destruct (sys_read fd n w1) as [got w2]. cbn [fst snd] in *.
  destruct got as [[]|bytes]; rewrite ?app_nil_r in *;
    [..|destruct (Hb bytes eq_refl); split_and!; [lia|congruence|congruence|done|done|by left]];
    (split_and!; [lia|congruence|congruence|constructor|cbn; lia|auto]).
Qed.
End Bytes.

(** ** Descriptors *)

Section Descriptors.
Context {W : Type} `{TermiosLib} `{DescriptorLaws W}.

Lemma configureTermios_fds fd w : descriptors (configureTermios fd w).2 = descriptors w.
Proof.
  unfold configureTermios. pose proof (tcgetattr_fds fd w) as Hg. destruct (tcgetattr fd w) as [[tio|] w1]; cbn in *; [|done].
  destruct (cfsetispeed115200 _) as [[] tio1]; cbn; [|done]. destruct (cfsetospeed115200 _) as [[] tio2]; cbn; [|done].
  by rewrite tcsetattr_fds.
Qed.

Lemma close_fds p w :
  descriptors (close p w).2 = (if isOpen p then descriptors w ∖ {[descriptor p]} else descriptors w).
Proof. unfold close, isOpen. destruct (negb _); [apply close_fd|done]. Qed.

(** A port that was opened owns a new descriptor; one that was not left none behind. *)
Lemma open_fds path w :
  let '(ok, p, w') := open path newPort w in
  if ok then isOpen p = true /\ (descriptor p ∉ descriptors w) /\ descriptors w' = {[descriptor p]} ∪ descriptors w
  else descriptors w' = descriptors w.
Proof.
  unfold open, close. cbn.
  pose proof (open_fails path w) as Hf. pose proof (open_fresh path w) as Hn.
  destruct (sys_open path w) as [fd w1]. cbn [fst snd] in *. destruct (Z.ltb_spec fd 0) as [Hlt|Hge]; [by apply Hf|].
  destruct (Hn Hge) as [Hnew Hfds]. pose proof (configureTermios_fds fd w1) as Hc.
  destruct (configureTermios fd w1) as [[] w2]; cbn [negb snd] in *.
  - split_and!; [|done|by rewrite Hc]. unfold isOpen, INVALID_FD. cbn. destruct (Z.eqb_spec fd (-1)); [lia|done].
  - rewrite close_fd, Hc, Hfds. set_solver.
Qed.

Lemma readBytes_fds n ms p w : descriptors (readBytes n ms p w).2 = descriptors w.
Proof.
  unfold readBytes. destruct (_ || _); [done|]. pose proof (poll_in_fds (descriptor p) ms w) as Hp.
  destruct (poll_in _ ms w) as [polled w1]. cbn [snd] in Hp. pose proof (read_fds (descriptor p) n w1) as Hr.
  destruct polled as [[]| |[]]; try done. destruct (sys_read _ n w1) as [[[]|] w2]; cbn in *; congruence.
Qed.

Lemma writeLoop_fds fuel fd l w ok w' : writeLoop fuel fd l w = Some (ok, w') -> descriptors w' = descriptors w.
Proof.
  revert l w. induction fuel as [|fuel IH]; intros l w; [done|]. destruct l as [|b l]; [by intros [= _ <-]|].
  cbn [writeLoop]. pose proof (write_fds fd (b :: l) w) as Hw.
  destruct (sys_write fd (b :: l) w) as [sent w1]. cbn [snd] in Hw.
  destruct sent as [[| |]|]; rewrite <-?Hw; [by intros ?%IH| |by intros [= _ <-]|by intros ?%IH].
  pose proof (poll_out_fds fd WRITE_POLL_TIMEOUT_MS w1) as Hp.
  destruct (poll_out fd _ w1) as [[]  w2]; cbn [snd] in Hp; rewrite <-Hp; [by intros [= _ <-]..|by intros ?%IH].
Qed.
End Descriptors.

(** ** An open port carries the frame transport *)

Record OpenPort := mkOpen { openPort : SerialPort; opened : isOpen openPort = true }.

Section Transport.
Context {W : Type} `{TermiosLib} `{PosixLaws W}.

Definition portFd (p : OpenPort) : Z := descriptor (openPort p).
Definition writeFuel (bytes : list Z) (w : W) : nat := S (length bytes + patience w).

#[global] Instance portIO : SerialIO (OpenPort * W) := {
  FrameTransport.writeAll l x :=
    let (ok, w) := default (false, x.2) (writeAll (writeFuel l x.2) l (openPort x.1) x.2) in (ok, (x.1, w));
  FrameTransport.readBytes n ms x := let '(_, bytes, w) := readBytes n ms (openPort x.1) x.2 in (bytes, (x.1, w));
  FrameTransport.flushInput x := (x.1, flushInput (openPort x.1) x.2);
  sleep_for ms x := (x.1, sleep_ms ms x.2);
  clock_now x := let (t, w) := steady_clock x.2 in (t, (x.1, w)) }.

(** The fuel of a write is enough, and it is everything or a beginning and a failure. *)
Lemma port_write l p w :
  l <> [] -> exists ok w' sent,
    writeAll (writeFuel l w) l (openPort p) w = Some (ok, w') /\
    FrameTransport.writeAll l (p, w) = (ok, (p, w')) /\ now w <= now w' /\
    line (portFd p) w' = line (portFd p) w ++ sent /\ wrote l ok sent.
Proof.
  intros Hl. destruct (writeLoop_spec (writeFuel l w) (portFd p) l w) as (ok & w' & sent & E & ?);
    [unfold writeFuel; lia|]. exists ok, w', sent.
  assert (writeAll (writeFuel l w) l (openPort p) w = Some (ok, w')) as Hw.
  { unfold writeAll. rewrite bool_decide_eq_false_2, orb_false_r by done.
    pose proof (opened p) as ->%negb_true_iff. exact E. }
  split; [done|]. cbn. by rewrite Hw.
Qed.

#[global] Instance portLaws : SerialLaws (OpenPort * W).
Proof.
  refine (@Build_SerialLaws _ _ (fun x => now x.2) _ _ _ _ _).
  - intros [|n] ms [p w]; cbn; [unfold readBytes; rewrite orb_true_r; cbn; lia|].
    pose proof (readBytes_spec (S n) ms (openPort p) w (opened p) ltac:(lia)) as Hs.
    destruct (readBytes _ _ _ _) as [[r bytes] w']. apply Hs.
  - intros [|n] ms [p w]; cbn; [unfold readBytes; rewrite orb_true_r; constructor|].
    pose proof (readBytes_spec (S n) ms (openPort p) w (opened p) ltac:(lia)) as Hs.
    destruct (readBytes _ _ _ _) as [[r bytes] w']. apply Hs.
  - intros n ms [p w] Hn. cbn. pose proof (readBytes_spec n ms (openPort p) w (opened p) Hn) as Hs.
    destruct (readBytes _ _ _ _) as [[r bytes] w']. apply Hs.
  - intros l [p w]. destruct (decide (l = [])) as [->|Hl].
    + cbn. unfold writeAll. rewrite orb_true_r. done.
    + destruct (port_write l p w Hl) as (ok & w' & sent & _ & -> & ? & _). done.
  - intros [p w]. cbn. pose proof (steady_now w). by destruct (steady_clock w).
Defined.
End Transport.

(** A write of [SerialIO] with its fuel keeps the descriptors as well. *)
Lemma portIO_fds {W} `{DescriptorLaws W} `{Patience W} D :
  (forall l (x : OpenPort * W), descriptors x.2 = D -> descriptors (FrameTransport.writeAll l x).2.2 = D) /\
  (forall n ms (x : OpenPort * W), descriptors x.2 = D -> descriptors (FrameTransport.readBytes n ms x).2.2 = D) /\
  (forall x : OpenPort * W, descriptors x.2 = D -> descriptors (FrameTransport.flushInput x).2 = D) /\
  (forall ms (x : OpenPort * W), descriptors x.2 = D -> descriptors (sleep_for ms x).2 = D) /\
  (forall x : OpenPort * W, descriptors x.2 = D -> descriptors (clock_now x).2.2 = D).
Proof.
  split_and!; intros.
  - destruct x as [p w]. cbn in *. destruct (writeAll _ l (openPort p) w) as [[ok w']|] eqn:E; [|done]. cbn.
    unfold writeAll in E. destruct (_ || _); [by injection E as <- <-|]. apply writeLoop_fds in E. congruence.
  - destruct x as [p w]. cbn in *. pose proof (readBytes_fds n ms (openPort p) w) as Hr.
    destruct (readBytes _ _ _ _) as [[r bytes] w']. cbn in *. congruence.
  - destruct x as [p w]. cbn in *. unfold flushInput. destruct (negb _); [by rewrite flush_fds|done].
  - destruct x as [p w]. cbn in *. by rewrite sleep_fds.
  - destruct x as [p w]. cbn in *. pose proof (steady_fds w). destruct (steady_clock w). cbn in *. congruence.
Qed.

(** ** What a request leaves on the line *)

Definition writesOf (tr : list Act) : list (list Z * bool) :=
  omap (fun a => match a with AWrite l ok => Some (l, ok) | _ => None end) tr.

(** The line got, write by write, all of what succeeded and less of what failed. *)
Definition carried (tr : list Act) (onLine : list Z) : Prop :=
  exists parts, Forall2 (fun x part => wrote x.1 x.2 part) (writesOf tr) parts /\ onLine = concat parts.

Lemma carried_app tr tr' d d' : carried tr d -> carried tr' d' -> carried (tr ++ tr') (d ++ d').
Proof.
  intros (ps & Hp & ->) (ps' & Hp' & ->). exists (ps ++ ps'). rewrite concat_app. split; [|done].
  unfold writesOf. rewrite omap_app. by apply Forall2_app.
Qed.

Lemma carried_silent a : (forall l ok, a <> AWrite l ok) -> carried [a] [].
Proof. exists []. by destruct a; [edestruct H|..]. Qed.

Lemma carried_write l ok sent : wrote l ok sent -> carried [AWrite l ok] sent.
Proof. intros Hw. exists [sent]. cbn. rewrite app_nil_r. split; [|done]. repeat constructor. exact Hw. Qed.

(** A frame whose write succeeded is on the line, uninterrupted. *)
Lemma carried_whole tr d l : carried tr d -> AWrite l true ∈ tr -> exists before after, d = before ++ l ++ after.
Proof.
  intros (parts & Hp & ->) Hin.
  assert ((l, true) ∈ writesOf tr) as Hw by (apply list_elem_of_omap; by exists (AWrite l true)).
  apply list_elem_of_split in Hw as (xs & ys & E). rewrite E in Hp.
  apply Forall2_app_inv_l in Hp as (p1 & p2 & _ & H2 & ->).
  apply Forall2_cons_inv_l in H2 as (q & p3 & Hq & _ & ->). cbn in Hq. subst q.
  exists (concat p1), (concat p3). by rewrite concat_app.
Qed.

Lemma send_trace_written bytes n tr : send_trace bytes n true tr -> AWrite bytes true ∈ tr.
Proof.
  remember true as r eqn:Hr. intros Ht. induction Ht as [| | |]; try done; set_solver.
Qed.

Section OnLine.
Context `{Oob} {W : Type} `{TermiosLib} `{PosixLaws W}.

(** Since [w] the descriptor was given what the log accounts for. *)
Definition accounted (p : OpenPort) (w : W) (x : (OpenPort * W) * list Act) : Prop :=
  x.1.1 = p /\ exists d, carried x.2 d /\ line (portFd p) x.1.2 = line (portFd p) w ++ d.

Lemma accounted_push p w w1 w2 tr a d :
  carried [a] d -> line (portFd p) w2 = line (portFd p) w1 ++ d ->
  accounted p w ((p, w1), tr) -> accounted p w ((p, w2), tr ++ [a]).
Proof.
  intros Ha Hl2 [_ (d1 & Hc & Hl)]. split; [done|]. exists (d1 ++ d). cbn in *.
  split; [by apply carried_app|]. by rewrite Hl2, Hl, app_assoc.
Qed.

Lemma accounted_silent p w w1 w2 tr a :
  (forall l ok, a <> AWrite l ok) -> line (portFd p) w2 = line (portFd p) w1 ->
  accounted p w ((p, w1), tr) -> accounted p w ((p, w2), tr ++ [a]).
Proof.
  intros Ha Hl. apply accounted_push with (d := []); [by apply carried_silent|]. by rewrite app_nil_r.
Qed.

Lemma accounted_write p w l x :
  l <> [] -> accounted p w x -> accounted p w (@FrameTransport.writeAll _ (tracedIO portIO) l x).2.
Proof.
  destruct x as [[q w1] tr]. intros Hl Hx. assert (q = p) as -> by apply Hx.
  destruct (port_write l p w1 Hl) as (ok & w2 & sent & _ & Hw & _ & Hs & Hwr).
  cbn [FrameTransport.writeAll tracedIO fst snd]. rewrite Hw. cbn [snd].
  by apply (accounted_push p w w1 w2 tr _ sent); [apply carried_write|..].
Qed.

Lemma accounted_read p w n ms x :
  accounted p w x -> accounted p w (@FrameTransport.readBytes _ (tracedIO portIO) n ms x).2.
Proof.
  destruct x as [[q w1] tr]. intros Hx. assert (q = p) as -> by apply Hx.
  cbn [FrameTransport.readBytes tracedIO portIO fst snd]. destruct n as [|n].
  { unfold readBytes. rewrite orb_true_r. by apply accounted_silent with w1. }
  pose proof (readBytes_spec (S n) ms (openPort p) w1 (opened p) ltac:(lia)) as Hs.
  destruct (readBytes _ _ _ _) as [[res bytes] w2]. by apply accounted_silent with w1; [..|apply Hs|].
Qed.

(** C1: requests reach the wire.  On an open port, whatever the system interrupts,
    refuses or cuts short, [sendRequest] returns, its calls are a run of the send
    protocol, and what the descriptor was given is, write by write, all of what was
    written or less and a failure; so after a success the frame is on the line in one
    piece. *)
Theorem request_on_line (h : ZwaveDataFrame -> OpenPort * W -> OpenPort * W) fuel frame t p w :
  (forall f x, (h f x).1 = x.1 /\ line (portFd x.1) (h f x).2 = line (portFd x.1) x.2 /\ now x.2 <= now (h f x).2) ->
  (sendFuel <= fuel)%nat ->
  exists r t' w' tr onLine,
    @sendRequest _ _ (tracedIO portIO) (tracedHandler h) fuel frame t ((p, w), []) = Some (r, t', ((p, w'), tr)) /\
    send_trace (toBuffer frame) 0 r tr /\ carried tr onLine /\ line (portFd p) w' = line (portFd p) w ++ onLine /\
    (r = true -> exists before after, onLine = before ++ toBuffer frame ++ after).
Proof.
  intros Hh Hf.
  destruct (sendRequest_traced portIO portLaws h fuel frame t (p, w) []) as (r & t' & x & tr & E & Ht);
    [by intros f y; apply Hh|done|].
  assert (accounted p w (x, [] ++ tr)) as [Hq (d & Hc & Hl)].
  { eapply (@sendRequest_keeps _ _ (tracedIO portIO) (fun f y => (h f y.1, y.2 ++ [AHandle f])) (accounted p w)); [..|exact E].
    - apply accounted_write.
    - apply accounted_read.
    - intros [[q w1] tr1] Hx. assert (q = p) as -> by apply Hx. apply accounted_silent with w1; [done| |done].
      unfold flushInput. by case_match; rewrite ?flush_line.
    - intros ms [[q w1] tr1] Hx. assert (q = p) as -> by apply Hx. apply accounted_silent with w1; [done|apply sleep_line|done].
    - intros [[q w1] tr1] [Hq (d & Hc & Hl)]. cbn in *. subst q. pose proof (steady_line (portFd p) w1) as Hs.
      destruct (steady_clock w1) as [tm w2]. split; [done|]. exists d. cbn in *. by rewrite Hs.
    - intros f [[q w1] tr1] Hx. assert (q = p) as -> by apply Hx. destruct (Hh f (p, w1)) as (Hp & Hl & _).
      cbn [fst snd]. destruct (h f (p, w1)) as [q w2]. cbn in Hp, Hl. subst q. by apply accounted_silent with w1.
    - split; [done|]. exists []. rewrite app_nil_r. split; [|done]. by exists []. }
  destruct x as [q w']. cbn in Hq, Hc, Hl. subst q.
  exists r, t', w', tr, d. split_and!; try done. intros ->.
  apply (carried_whole tr d (toBuffer frame) Hc). by eapply send_trace_written.
Qed.
End OnLine.

(** ** A terminal for the witnesses *)

(** Replies to reads, verdicts on writes (none left: everything is taken), what was
    written and read, the open descriptors. *)
Record Tty := mkTty {
  ttyTime : Z; replies : list (Errno + list Z); verdicts : list (Errno + nat);
  written : list Z; given : list Z; openFds : list Z }.

Definition tick (ns : Z) (w : Tty) : Tty :=
  mkTty (ttyTime w + Z.max 1 ns) (replies w) (verdicts w) (written w) (given w) (openFds w).
Definition withFds l (w : Tty) : Tty := mkTty (ttyTime w) (replies w) (verdicts w) (written w) (given w) l.
Definition freshFd (w : Tty) : Z := 1 + foldr Z.max 2 (openFds w).

(** The masks of Linux. *)
#[global] Instance linuxTermios : TermiosLib := {
  CLOCAL := 0x800; CREAD := 0x80; PARENB := 0x100; CSTOPB := 0x40; CSIZE := 0x30; CS8 := 0x30; CRTSCTS := 0x80000000;
  cfmakeraw t := t; cfsetispeed115200 t := (true, t); cfsetospeed115200 t := (true, t) }.

#[global] Instance ttyPosix : Posix Tty := {
  O_NONBLOCK := 0x800;
  sys_open path w := if bool_decide (path = []) then (-1, w) else (freshFd w, withFds (freshFd w :: openFds w) w);
  sys_close fd w := withFds (filter (fun f => f <> fd) (openFds w)) w;
  tcgetattr _ w := (Some (mkTermios 0 0 0 0 0 0), w);
  tcsetattr _ _ w := (true, w);
  tcflush _ w := w;
  fcntl_getfl _ w := (0, w);
  fcntl_setfl _ _ w := w;
  poll_in _ ms w := match replies w with
                    | [] => (PollNothing, tick (ms * NS_PER_MS) w)
                    | _ => (PollReady true, tick 1 w)
                    end;
  poll_out _ _ w := (PollReady true, tick 1 w);
  sys_read _ n w := match replies w with
                    | [] => (inl EAGAIN, w)
                    | inl e :: rs => (inl e, mkTty (ttyTime w) rs (verdicts w) (written w) (given w) (openFds w))
                    | inr l :: rs => let l := take n (u8 <$> l) in
                        (inr l, mkTty (ttyTime w) rs (verdicts w) (written w) (given w ++ l) (openFds w))
                    end;
  sys_write _ l w := match verdicts w with
                     | [] => (inr (length l), mkTty (ttyTime w) (replies w) [] (written w ++ l) (given w) (openFds w))
                     | inl e :: vs => (inl e, mkTty (ttyTime w) (replies w) vs (written w) (given w) (openFds w))
                     | inr n :: vs => (inr n, mkTty (ttyTime w) (replies w) vs (written w ++ take n l) (given w) (openFds w))
                     end;
  steady_clock w := (ttyTime w, w);
  sleep_ms ms w := tick (ms * NS_PER_MS) w }.

#[global] Instance ttyPatience : Patience Tty := fun w => length (verdicts w).

#[global] Instance ttyLaws : PosixLaws Tty.
Proof.
  refine {| now := ttyTime; line := fun _ => written; taken := fun _ => given |}; try done; cbn.
  - intros _ ms w. destruct (replies w); cbn; lia.
  - intros _ _ ms w. by destruct (replies w).
  - intros _ _ ms w. by destruct (replies w).
  - intros _ n w. destruct (replies w) as [|[] ?]; cbn; lia.
  - intros _ _ n w. by destruct (replies w) as [|[] ?].
  - intros _ n w. destruct (replies w) as [|[] ?]; cbn; by rewrite ?app_nil_r.
  - intros _ n w bytes. destruct (replies w) as [|[e|l] rs]; cbn; [done..|]. intros [= <-].
    rewrite length_take. split; [|lia]. apply Forall_take, Forall_fmap, Forall_true. intros. apply u8_range.
  - intros _ ms w. lia.
  - intros _ l w. destruct (verdicts w) as [|[] ?]; cbn; lia.
  - intros _ l w. destruct (verdicts w) as [|[] ?]; cbn; by rewrite ?firstn_all, ?app_nil_r.
  - intros _ l w Hl. unfold patience, ttyPatience. destruct (verdicts w) as [|[[]|[]] ?] eqn:E; cbn; try lia.
    destruct l; [done|cbn; lia].
Defined.

Lemma freshFd_new w : freshFd w ∉ openFds w.
Proof.
  assert (forall l x, x ∈ l -> x <= foldr Z.max 2 l) as Hm.
  { induction l as [|y l IH]; intros x; [by intros ?%elem_of_nil|]. cbn. intros [->|Hx]%elem_of_cons; [lia|].
    specialize (IH x Hx). lia. }
  unfold freshFd. intros Hin%Hm. lia.
Qed.

#[global] Instance ttyDescriptors : DescriptorLaws Tty.
Proof.
  refine {| descriptors := fun w => list_to_set (openFds w) |}; try done; cbn.
  - intros path w. case_bool_decide; [done|]. cbn. unfold freshFd.
    assert (2 <= foldr Z.max 2 (openFds w)) by (induction (openFds w); cbn; lia). lia.
  - intros path w. case_bool_decide; [done|]. cbn. intros _. split; [|done].
    intros Hin%elem_of_list_to_set. by apply (freshFd_new w).
  - intros fd w. apply set_eq. intros x. rewrite elem_of_difference, !elem_of_list_to_set, list_elem_of_filter. set_solver.
  - intros _ ms w. by destruct (replies w).
  - intros _ n w. by destruct (replies w) as [|[] ?].
  - intros _ l w. by destruct (verdicts w) as [|[] ?].
Defined.

Definition someTty : OpenPort := mkOpen (mkPort 3 [0x74]) eq_refl.

(** The terminal refuses, takes two bytes, is interrupted, then takes the rest; the
    dongle answers with an ACK. *)
Lemma request_on_line_witness :
  let w := mkTty 0 [inl EINTR; inr [0x06]] [inl EAGAIN; inr 2%nat; inl EINTR] [] [] [3] in
  exists r t' w' tr onLine,
    @sendRequest 0 _ (tracedIO portIO) (tracedHandler (fun _ x => x)) sendFuel frame_get_version initTransport ((someTty, w), [])
      = Some (r, t', ((someTty, w'), tr)) /\
    send_trace (toBuffer frame_get_version) 0 r tr /\ carried tr onLine /\ line 3 w' = [] ++ onLine /\
    (r = true -> exists before after, onLine = before ++ toBuffer frame_get_version ++ after).
Proof.
  intros w.
  destruct (request_on_line (H := 0) (W := Tty) (fun _ x => x) sendFuel frame_get_version initTransport someTty w)
    as (r & t' & w' & tr & onLine & Hx).
  - intros f x. split_and!; [done|done|apply Z.le_refl].
  - apply le_n.
  - exists r, t', w', tr, onLine. exact Hx.
Defined.

(** The same, computed: the frame is on the line once, in one piece. *)
Example write_in_pieces :
  let w := mkTty 0 [] [inl EAGAIN; inr 2%nat; inl EINTR] [] [] [3] in
  (fun x => (x.1, written x.2)) <$> writeAll (W := Tty) (writeFuel (toBuffer frame_get_version) w) (toBuffer frame_get_version)
    (openPort someTty) w = Some (true, toBuffer frame_get_version).
Proof. by vm_compute. Qed.

(** ** Limits *)

Section Limits.
Context {W : Type} `{Posix W}.

(** A line that is gone: [poll] reports its hang-up at once, without [POLLIN], and the
    read says what it says after a time-out.  Whatever the time-out asked for, no more
    time passes than in that call. *)
Lemma hangup_reads_as_timeout n ms p w w' :
  isOpen p = true -> (0 < n)%nat -> poll_in (descriptor p) ms w = (PollReady false, w') ->
  readBytes n ms p w = (0, [], w').
Proof.
  unfold isOpen, readBytes. intros ->%negb_true_iff Hn Hp.
  by rewrite orb_false_l, (proj2 (Nat.eqb_neq n 0)), Hp by lia.
Qed.

(** A signal during the wait for a full line fails the write, though one during the
    write itself does not. *)
Lemma interrupted_wait_fails fuel fd l w w1 w2 :
  l <> [] -> sys_write fd l w = (inl EAGAIN, w1) -> poll_out fd WRITE_POLL_TIMEOUT_MS w1 = (PollFails EINTR, w2) ->
  writeLoop (S fuel) fd l w = Some (false, w2).
Proof. intros Hl Hw Hp. destruct l; [done|]. cbn [writeLoop]. by rewrite Hw, Hp. Qed.

(** A system that takes nothing of a write, without an error, holds the loop for ever. *)
Lemma empty_writes_hang fuel fd l w :
  l <> [] -> (forall w, (sys_write fd l w).1 = inr 0%nat) -> writeLoop fuel fd l w = None.
Proof.
  intros Hl Hw. revert w. induction fuel as [|fuel IH]; intros w; [done|]. destruct l as [|b l]; [done|].
  cbn [writeLoop]. specialize (Hw w). destruct (sys_write fd (b :: l) w) as [s w1]. cbn in Hw. subst s. apply IH.
Qed.
End Limits.
