(* ===== verification/HostApi.v ===== *)
(** * Host API frames and the inclusion session

    [zwave-protocol/HostApi.{hpp,cpp}] and [HostApiSession.{hpp,cpp}]: the
    request encoders, the response and callback decoders, and the tracker of
    the one add/remove session.  Field names carry a prefix per struct; array
    members of fixed size are lists. *)

From Stdlib Require Import String.
From stdpp Require Import sorting.
From S2P Require Import Prelude DataFrame.

(** ** Constants *)

Definition CMD_SERIAL_API_GET_INIT_DATA : Z := 0x02.
Definition CMD_APPLICATION_COMMAND : Z := 0x04.
Definition CMD_SEND_DATA : Z := 0x13.
Definition CMD_SEND_DATA_MULTI : Z := 0x14.
Definition CMD_GET_VERSION : Z := 0x15.
Definition CMD_MEMORY_GET_ID : Z := 0x20.
Definition CMD_GET_NODE_PROTOCOL_INFO : Z := 0x41.
Definition CMD_ADD_NODE_TO_NETWORK : Z := 0x4A.
Definition CMD_REMOVE_NODE_FROM_NETWORK : Z := 0x4B.
Definition CMD_APPLICATION_UPDATE : Z := 0x49.
Definition CMD_REQUEST_NODE_INFO : Z := 0x60.
Definition CMD_REMOVE_FAILED_NODE_ID : Z := 0x61.

Definition TRANSMIT_OPTION_DEFAULT : Z := Z.lor (Z.lor 0x01 0x04) 0x20.
Definition TRANSMIT_COMPLETE_OK : Z := 0x00.
Definition TRANSMIT_COMPLETE_FAIL : Z := 0x02.
Definition ADD_MODE_ANY_NODE : Z := 0x01.
Definition ADD_MODE_STOP : Z := 0x05.
Definition ADD_MODE_SMART_START_INCLUDE : Z := 0x08.
Definition STATUS_NODE_INFO_REQ_FAILED : Z := 0x81.
Definition STATUS_NODE_INFO_RECEIVED : Z := 0x84.

Definition MODE_MASK : Z := 0x0F.
Definition FLAG_POWER_BIT : Z := 7.
Definition FLAG_NWI_BIT : Z := 6.
Definition FLAG_PROTOCOL_BIT : Z := 5.
Definition FLAG_SFLND_BIT : Z := 4.
Definition FLAG_NWE_BIT : Z := 6.
Definition HOMEID_LEN : nat := 4.
Definition VERSION_STRING_LEN : nat := 12.
Definition DEVICE_CLASS_BYTES : nat := 3.
Definition INIT_DATA_HEADER : nat := 3.
Definition INIT_DATA_TRAILER : nat := 2.
Definition MAX_VALID_NODE_ID : nat := 232.

(** ** Requests *)

Record AddNodeRequest := mkAddNode {
  an_mode : Z; an_power : bool; an_nwi : bool; an_protocolLongRange : bool;
  an_skipFlNeighbors : bool; an_sessionId : Z; an_includeHomeIds : bool;
  an_nwiHomeId : list Z; an_authHomeId : list Z
}.

Record RemoveNodeRequest := mkRemoveNode {
  rn_mode : Z; rn_power : bool; rn_nwe : bool; rn_sessionId : Z
}.

Record SendDataRequest := mkSendData {
  sd_nodeId : Z; sd_data : list Z; sd_txOptions : Z; sd_callbackId : Z
}.

Record SendDataMultiRequest := mkSendDataMulti {
  sm_nodeIds : list Z; sm_data : list Z; sm_txOptions : Z; sm_callbackId : Z
}.

Record RemoveFailedNodeRequest := mkRemoveFailed { rf_nodeId : Z; rf_sessionId : Z }.
Record RequestNodeInfoRequest := mkRequestNodeInfo { ri_nodeId : Z; ri_sessionId : Z }.

(** [out | (1U << bit)] narrowed to a byte. *)
Definition setBit8 (out bit : Z) : Z := u8 (Z.lor out (Z.shiftl 1 bit)).

Definition makeFlagByte (mode : Z) (power : bool) (bitB : Z) (valB : bool)
    (bitC : Z) (valC : bool) (bitD : Z) (valD : bool) : Z :=
  let out := Z.land mode MODE_MASK in
  let out := if power then setBit8 out FLAG_POWER_BIT else out in
  let out := if valB then setBit8 out bitB else out in
  let out := if valC then setBit8 out bitC else out in
  if valD then setBit8 out bitD else out.

(** [setHeader] then [setPayload], whose result every encoder ignores. *)
Definition requestFrame (cmd : Z) (pl : list Z) : ZwaveDataFrame :=
  (setPayload (setHeader emptyFrame REQUEST cmd) pl).1.

Definition addNodePayload (r : AddNodeRequest) : list Z :=
  [makeFlagByte (an_mode r) (an_power r) FLAG_NWI_BIT (an_nwi r)
     FLAG_PROTOCOL_BIT (an_protocolLongRange r) FLAG_SFLND_BIT (an_skipFlNeighbors r);
   an_sessionId r] ++
  (if an_includeHomeIds r then
     an_nwiHomeId r ++
     (if an_mode r =? ADD_MODE_SMART_START_INCLUDE then an_authHomeId r else [])
   else []).

Definition encodeAddNode (r : AddNodeRequest) : ZwaveDataFrame :=
  requestFrame CMD_ADD_NODE_TO_NETWORK (addNodePayload r).

Definition encodeRemoveNode (r : RemoveNodeRequest) : ZwaveDataFrame :=
  let flags := Z.land (rn_mode r) MODE_MASK in
  let flags := if rn_power r then setBit8 flags FLAG_POWER_BIT else flags in
  let flags := if rn_nwe r then setBit8 flags FLAG_NWE_BIT else flags in
  requestFrame CMD_REMOVE_NODE_FROM_NETWORK [flags; rn_sessionId r].

Definition encodeRemoveFailedNode (r : RemoveFailedNodeRequest) : ZwaveDataFrame :=
  requestFrame CMD_REMOVE_FAILED_NODE_ID [rf_nodeId r; rf_sessionId r].

Definition encodeGetNodeProtocolInfo (nodeId : Z) : ZwaveDataFrame :=
  requestFrame CMD_GET_NODE_PROTOCOL_INFO [nodeId].

Definition encodeRequestNodeInfo (r : RequestNodeInfoRequest) : ZwaveDataFrame :=
  requestFrame CMD_REQUEST_NODE_INFO [ri_nodeId r].

Definition encodeSendData (r : SendDataRequest) : ZwaveDataFrame :=
  requestFrame CMD_SEND_DATA
    ([sd_nodeId r; u8 (zlen (sd_data r))] ++ sd_data r ++ [sd_txOptions r; sd_callbackId r]).

Definition encodeSendDataMulti (r : SendDataMultiRequest) : ZwaveDataFrame :=
  requestFrame CMD_SEND_DATA_MULTI
    ([u8 (zlen (sm_nodeIds r))] ++ sm_nodeIds r ++ [u8 (zlen (sm_data r))] ++ sm_data r
       ++ [sm_txOptions r; sm_callbackId r]).

(** ** Responses and callbacks *)

Record SendDataCallback := mkSendDataCb { cb_callbackId : Z; cb_txStatus : Z }.
Record ApplicationCommand := mkAppCommand {
  ac_rxStatus : Z; ac_sourceNodeId : Z; ac_ccData : list Z }.
Record VersionResponse := mkVersion { vr_version : list Z; vr_libraryType : Z }.
Record MemoryIdResponse := mkMemoryId { mi_homeId : list Z; mi_controllerNodeId : Z }.
Record InitDataResponse := mkInitData {
  id_serialApiVersion : Z; id_capabilities : Z; id_chipType : Z; id_chipVersion : Z;
  id_nodeIds : list Z }.
Record NodeProtocolInfoResponse := mkNPI {
  npi_capabilities : Z; npi_security : Z; npi_reserved : Z;
  npi_basic : Z; npi_generic : Z; npi_specific : Z }.
Record RemoveFailedNodeCallback := mkRemoveFailedCb { rfc_sessionId : Z; rfc_status : Z }.
Record ApplicationUpdate := mkAppUpdate {
  au_status : Z; au_nodeId : Z; au_basic : Z; au_generic : Z; au_specific : Z;
  au_commandClasses : list Z }.
Record NodeStatusCallback := mkNodeStatus {
  ns_commandId : Z; ns_sessionId : Z; ns_status : Z; ns_nodeId : Z;
  ns_basic : Z; ns_generic : Z; ns_specific : Z; ns_commandClasses : list Z }.

(** The guards the decoders share: a valid frame of the command, of the type. *)
Definition isCmd (f : ZwaveDataFrame) (cmd : Z) : bool := valid f && (commandId f =? cmd).
Definition isTyped (f : ZwaveDataFrame) (t : FrameType) : bool := bool_decide (frameType f = t).

Section Decoders.
Context `{Oob}.

Definition decodeTxCallback (cmd : Z) (f : ZwaveDataFrame) : option SendDataCallback :=
  if negb (isCmd f cmd) then None else
  let p := payload f in
  if (length p <? 2)%nat then None else Some (mkSendDataCb p.[0%nat] p.[1%nat]).

Definition decodeSendDataMultiCallback := decodeTxCallback CMD_SEND_DATA_MULTI.
Definition decodeSendDataCallback := decodeTxCallback CMD_SEND_DATA.

Definition decodeApplicationCommand (f : ZwaveDataFrame) : option ApplicationCommand :=
  if negb (isCmd f CMD_APPLICATION_COMMAND) then None else
  let p := payload f in
  if (length p <? 3)%nat then None else
  let ccLen := Z.to_nat p.[2%nat] in
  if (ccLen =? 0)%nat || (length p <? 3 + ccLen)%nat then None else
  Some (mkAppCommand p.[0%nat] p.[1%nat] (slice 3 ccLen p)).

(** [while (len < 12 && payload[len] != 0) ++len], from [len] with [n] to go. *)
Fixpoint versionLength (p : list Z) (len n : nat) : nat :=
  match n with
  | O => len
  | S n => if p.[len] =? 0 then len else versionLength p (S len) n
  end.

Definition decodeVersion (f : ZwaveDataFrame) : option VersionResponse :=
  if negb (isCmd f CMD_GET_VERSION) || negb (isTyped f RESPONSE) then None else
  let p := payload f in
  if (length p <? VERSION_STRING_LEN + 1)%nat then None else
  let len := versionLength p 0 VERSION_STRING_LEN in
  Some (mkVersion (take len p) p.[VERSION_STRING_LEN]).

(** The two nested loops over the node bitmap. *)
Definition expandBitmap (p : list Z) (bitmapLen : nat) : list Z :=
  flat_map (fun byteIdx =>
    let bits := p.[(INIT_DATA_HEADER + byteIdx)%nat] in
    flat_map (fun bit =>
      if Z.land bits (Z.shiftl 1 (Z.of_nat bit)) =? 0 then [] else
      let nodeId := (byteIdx * 8 + bit + 1)%nat in
      if (nodeId <=? MAX_VALID_NODE_ID)%nat then [u8 (Z.of_nat nodeId)] else [])
      (seq 0 8))
    (seq 0 bitmapLen).

Definition decodeInitData (f : ZwaveDataFrame) : option InitDataResponse :=
  if negb (isCmd f CMD_SERIAL_API_GET_INIT_DATA) || negb (isTyped f RESPONSE) then None else
  let p := payload f in
  if (length p <? INIT_DATA_HEADER)%nat then None else
  let bitmapLen := Z.to_nat p.[2%nat] in
  if (length p <? INIT_DATA_HEADER + bitmapLen + INIT_DATA_TRAILER)%nat then None else
  Some (mkInitData p.[0%nat] p.[1%nat] p.[(INIT_DATA_HEADER + bitmapLen)%nat]
          p.[(INIT_DATA_HEADER + bitmapLen + 1)%nat] (expandBitmap p bitmapLen)).

Definition decodeNodeProtocolInfo (f : ZwaveDataFrame) : option NodeProtocolInfoResponse :=
  if negb (isCmd f CMD_GET_NODE_PROTOCOL_INFO) || negb (isTyped f RESPONSE) then None else
  let p := payload f in
  if (length p <? 6)%nat then None else
  Some (mkNPI p.[0%nat] p.[1%nat] p.[2%nat] p.[3%nat] p.[4%nat] p.[5%nat]).

Definition decodeMemoryId (f : ZwaveDataFrame) : option MemoryIdResponse :=
  if negb (isCmd f CMD_MEMORY_GET_ID) || negb (isTyped f RESPONSE) then None else
  let p := payload f in
  if (length p <? HOMEID_LEN + 1)%nat then None else
  Some (mkMemoryId (byteAt p <$> seq 0 HOMEID_LEN) p.[HOMEID_LEN]).

Definition decodeRemoveFailedNodeResponse (f : ZwaveDataFrame) : option Z :=
  if negb (isCmd f CMD_REMOVE_FAILED_NODE_ID) || negb (isTyped f RESPONSE) then None else
  let p := payload f in
  if (length p <? 1)%nat then None else Some p.[0%nat].

Definition decodeRemoveFailedNodeCallback (f : ZwaveDataFrame) : option RemoveFailedNodeCallback :=
  if negb (isCmd f CMD_REMOVE_FAILED_NODE_ID) || negb (isTyped f REQUEST) then None else
  let p := payload f in
  if (length p <? 2)%nat then None else Some (mkRemoveFailedCb p.[0%nat] p.[1%nat]).

Definition decodeRequestNodeInfoResponse (f : ZwaveDataFrame) : option bool :=
  if negb (isCmd f CMD_REQUEST_NODE_INFO) || negb (isTyped f RESPONSE) then None else
  let p := payload f in
  if (length p <? 1)%nat then None else Some (negb (p.[0%nat] =? 0)).

Definition decodeApplicationUpdate (f : ZwaveDataFrame) : option ApplicationUpdate :=
  if negb (isCmd f CMD_APPLICATION_UPDATE) || negb (isTyped f REQUEST) then None else
  let p := payload f in
  if (length p <? 3)%nat then None else
  let status := p.[0%nat] in
  let nodeId := p.[1%nat] in
  let end_ := Nat.min (length p) (3 + Z.to_nat p.[2%nat]) in
  if (status =? STATUS_NODE_INFO_RECEIVED) && (6 <=? end_)%nat then
    Some (mkAppUpdate status nodeId p.[3%nat] p.[4%nat] p.[5%nat]
            (if (6 <? end_)%nat then slice 6 (end_ - 6) p else []))
  else Some (mkAppUpdate status nodeId 0 0 0 []).

Definition decodeNodeCallback (f : ZwaveDataFrame) (nodeId16Bit : bool) : option NodeStatusCallback :=
  if negb (valid f) then None else
  let cmd := commandId f in
  if negb (cmd =? CMD_ADD_NODE_TO_NETWORK) && negb (cmd =? CMD_REMOVE_NODE_FROM_NETWORK) then None else
  let p := payload f in
  let total := length p in
  if (total <? 3)%nat then None else
  let sid := p.[0%nat] in
  let status := p.[1%nat] in
  if nodeId16Bit && (total <? 4)%nat then Some (mkNodeStatus cmd sid status 0 0 0 0 []) else
  let '(nodeId, offset) :=
    if nodeId16Bit then (u16 (Z.lor (Z.shiftl p.[2%nat] 8) p.[3%nat]), 4%nat)
    else (p.[2%nat], 3%nat) in
  if (total <=? offset)%nat then Some (mkNodeStatus cmd sid status nodeId 0 0 0 []) else
  let bLen := Z.to_nat p.[offset] in
  let ccLen := if (DEVICE_CLASS_BYTES <=? bLen)%nat then (bLen - DEVICE_CLASS_BYTES)%nat else 0%nat in
  let offset := (offset + 1)%nat in
  let '(basic, generic, specific, offset) :=
    if (DEVICE_CLASS_BYTES <=? bLen)%nat && (offset + DEVICE_CLASS_BYTES <=? total)%nat
    then (p.[offset], p.[(offset + 1)%nat], p.[(offset + 2)%nat], (offset + DEVICE_CLASS_BYTES)%nat)
    else (0, 0, 0, offset) in
  Some (mkNodeStatus cmd sid status nodeId basic generic specific
          (if (0 <? ccLen)%nat && (offset + ccLen <=? total)%nat then slice offset ccLen p else [])).

End Decoders.

Definition libraryTypeName (t : Z) : string :=
  if t =? 1 then "Static Controller" else
  if t =? 2 then "Controller" else
  if t =? 3 then "Enhanced Slave" else
  if t =? 4 then "Slave" else
  if t =? 5 then "Installer" else
  if t =? 6 then "Routing Slave" else
  if t =? 7 then "Bridge Controller" else
  if t =? 8 then "DUT" else "unknown".

(** ** The session tracker *)

Definition STATUS_DONE : Z := 0x06.
Definition STATUS_FAILED : Z := 0x07.
Definition STATUS_NOT_PRIMARY : Z := 0x23.

Record ActiveSession := mkSession { as_commandId : Z; as_sessionId : Z }.
Abbreviation SessionTracker := (option ActiveSession).

Definition isTerminalStatus (cmd status : Z) : bool :=
  if status =? STATUS_NOT_PRIMARY then true else
  if cmd =? CMD_ADD_NODE_TO_NETWORK then (status =? STATUS_DONE) || (status =? STATUS_FAILED) else
  if cmd =? CMD_REMOVE_NODE_FROM_NETWORK then (status =? STATUS_DONE) || (status =? STATUS_FAILED) else
  false.

Definition session_active (s : SessionTracker) : option ActiveSession := s.
Definition session_begin (s : SessionTracker) (cmd sid : Z) : SessionTracker := Some (mkSession cmd sid).
Definition session_end (s : SessionTracker) : SessionTracker := None.

(** ** Lemmas *)

Lemma requestFrame_fits cmd pl :
  (length pl <= MAX_PAYLOAD_SIZE)%nat -> requestFrame cmd pl = mkFrame REQUEST cmd pl true.
Proof.
  intros Hl. unfold requestFrame, setPayload.
  by rewrite (proj2 (Nat.ltb_ge _ _) Hl).
Qed.

(** An oversized payload is dropped, not truncated: the frame keeps none. *)
Lemma requestFrame_oversize cmd pl :
  (MAX_PAYLOAD_SIZE < length pl)%nat -> requestFrame cmd pl = mkFrame REQUEST cmd [] true.
Proof.
  intros Hl. unfold requestFrame, setPayload.
  by rewrite (proj2 (Nat.ltb_lt _ _) Hl).
Qed.

(** A natural below 16 is one of sixteen values. *)
Lemma nibble_cases m : 0 <= m < 16 -> m ∈ seqZ 0 16.
Proof. intros. apply elem_of_seqZ. lia. Qed.

Lemma makeFlagByte_fields mode a b c d :
  let f := makeFlagByte mode a FLAG_NWI_BIT b FLAG_PROTOCOL_BIT c FLAG_SFLND_BIT d in
  Z.land f MODE_MASK = Z.land mode MODE_MASK /\ byte_ok f /\
  Z.testbit f 7 = a /\ Z.testbit f 6 = b /\ Z.testbit f 5 = c /\ Z.testbit f 4 = d.
Proof.
  unfold makeFlagByte. pose proof (land_bound 4 mode MODE_MASK ltac:(lia) ltac:(by vm_compute)) as Hm.
  apply nibble_cases in Hm. apply list_elem_of_In in Hm. revert Hm.
  generalize (Z.land mode MODE_MASK) as m. intros m Hm.
  repeat (destruct Hm as [<-|Hm]; [by destruct a, b, c, d; vm_compute|]). destruct Hm.
Qed.

Section BitmapLemmas.
Context `{Oob}.

(** Bit [i] of the bitmap that starts at the header's end. *)
Definition bitmapBit (p : list Z) (i : nat) : bool :=
  Z.testbit p.[(INIT_DATA_HEADER + i / 8)%nat] (Z.of_nat (i `mod` 8)).

Lemma flat_map_select {A B} (c : A -> bool) (g : A -> B) l :
  flat_map (fun x => if c x then [g x] else []) l = g <$> filter (fun x => c x) l.
Proof.
  induction l as [|x l IH]; [done|]. cbn [flat_map]. rewrite IH.
  destruct (c x) eqn:Hc.
  - by rewrite filter_cons_True by (by rewrite Hc).
  - by rewrite filter_cons_False by (rewrite Hc; intros []).
Qed.

Lemma flat_map_fmap {A B C} (f : B -> list C) (g : A -> B) l :
  flat_map f (g <$> l) = flat_map (fun x => f (g x)) l.
Proof. induction l as [|x l IH]; cbn [flat_map fmap list_fmap]; [done|by f_equal]. Qed.

Lemma flat_map_ext_in {A B} (f g : A -> list B) l :
  (forall x, x ∈ l -> f x = g x) -> flat_map f l = flat_map g l.
Proof.
  induction l as [|x l IH]; intros He; [done|]. cbn [flat_map].
  rewrite (He x) by set_solver. f_equal. apply IH. set_solver.
Qed.

Definition nodePresent (p : list Z) (i : nat) : bool :=
  bitmapBit p i && (i + 1 <=? MAX_VALID_NODE_ID)%nat.

(** The nested loops are one pass over the bit indices. *)
Lemma expandBitmap_seq p n :
  expandBitmap p n =
    (fun i => Z.of_nat (i + 1)) <$> filter (fun i => nodePresent p i) (seq 0 (8 * n)).
Proof.
  unfold expandBitmap. induction n as [|n IH]; [done|].
  rewrite (seq_S n), flat_map_app, IH. replace (8 * S n)%nat with (8 * n + 8)%nat by lia.
  rewrite seq_app, list.filter_app, fmap_app. f_equal. cbn [flat_map Nat.add].
  rewrite app_nil_r. rewrite <-flat_map_select.
  replace (seq (8 * n) 8) with ((fun bit => 8 * n + bit)%nat <$> seq 0 8)
    by (rewrite fmap_add_seq; f_equal; lia).
  rewrite flat_map_fmap. apply flat_map_ext_in.
  intros bit Hbit%elem_of_seq. rewrite land_bit_zero by lia. unfold nodePresent, bitmapBit.
  replace ((8 * n + bit) / 8)%nat with n by (apply (Nat.div_unique _ 8 n bit); lia).
  replace ((8 * n + bit) `mod` 8)%nat with bit by (apply (Nat.mod_unique _ 8 n bit); lia).
  destruct (Z.testbit _ _); cbn [negb andb]; [|done].
  replace (n * 8 + bit + 1)%nat with (8 * n + bit + 1)%nat by lia.
  destruct (Nat.leb_spec (8 * n + bit + 1) MAX_VALID_NODE_ID) as [Hle|]; [|done].
  f_equal. apply u8_id. unfold MAX_VALID_NODE_ID, byte_ok in *. lia.
Qed.

Lemma StronglySorted_seq_filter (c : nat -> bool) n m :
  StronglySorted Nat.lt (filter (fun i => c i) (seq n m)).
Proof.
  revert n. induction m as [|m IH]; intros n; [constructor|]. cbn [seq].
  destruct (c n) eqn:Hc.
  - rewrite filter_cons_True by (by rewrite Hc). constructor; [apply IH|].
    apply Forall_forall. intros i [_ [? _]%elem_of_seq]%list_elem_of_filter. lia.
  - rewrite filter_cons_False by (rewrite Hc; intros []). apply IH.
Qed.
End BitmapLemmas.

(** ** No decoder reads past its payload *)

Lemma versionLength_indep (o1 o2 : Oob) p len n :
  (len + n <= length p)%nat ->
  versionLength (H := o1) p len n = versionLength (H := o2) p len n.
Proof.
  revert len. induction n as [|n IH]; intros len Hl; [done|]. cbn [versionLength].
  rewrite (byteAt_indep o1 o2) by lia. zcase; [done|]. apply IH. lia.
Qed.

Lemma expandBitmap_indep (o1 o2 : Oob) p n :
  (INIT_DATA_HEADER + n <= length p)%nat ->
  expandBitmap (H := o1) p n = expandBitmap (H := o2) p n.
Proof.
  intros Hl. unfold expandBitmap. apply flat_map_ext_in. intros i Hi%elem_of_seq.
  by rewrite (byteAt_indep o1 o2) by lia.
Qed.

Lemma decodeVersion_indep (o1 o2 : Oob) f : decodeVersion (H := o1) f = decodeVersion (H := o2) f.
Proof.
  unfold decodeVersion, VERSION_STRING_LEN. destruct (_ || _); [done|]. zcase; [done|].
  by rewrite (byteAt_indep o1 o2), (versionLength_indep o1 o2) by lia.
Qed.

Lemma decodeInitData_indep (o1 o2 : Oob) f : decodeInitData (H := o1) f = decodeInitData (H := o2) f.
Proof.
  unfold decodeInitData, INIT_DATA_HEADER, INIT_DATA_TRAILER.
  destruct (_ || _); [done|]. zcase; [done|].
  rewrite (byteAt_indep o1 o2 _ 2) by lia. zcase; [done|].
  rewrite (expandBitmap_indep o1 o2) by (unfold INIT_DATA_HEADER; lia).
  by oob_indep o1 o2.
Qed.

Lemma decodeMemoryId_indep (o1 o2 : Oob) f : decodeMemoryId (H := o1) f = decodeMemoryId (H := o2) f.
Proof. unfold decodeMemoryId, HOMEID_LEN. cbn. by oob_indep o1 o2. Qed.

Lemma decodeNodeCallback_indep (o1 o2 : Oob) f wide :
  decodeNodeCallback (H := o1) f wide = decodeNodeCallback (H := o2) f wide.
Proof.
  unfold decodeNodeCallback, DEVICE_CLASS_BYTES. destruct wide; cbn [andb]; by oob_indep o1 o2.
Qed.

(** ** Properties *)

(** Every field of an Add Node request can be read back from the frame: the
    low nibble of the flag byte is the mode, each option has its own bit, the
    session id follows, and the home ids are present exactly when asked for. *)
Theorem encodeAddNode_fields r :
  length (an_nwiHomeId r) = HOMEID_LEN -> length (an_authHomeId r) = HOMEID_LEN ->
  exists flags homeIds,
    encodeAddNode r =
      mkFrame REQUEST CMD_ADD_NODE_TO_NETWORK (flags :: an_sessionId r :: homeIds) true /\
    byte_ok flags /\ Z.land flags MODE_MASK = Z.land (an_mode r) MODE_MASK /\
    Z.testbit flags 7 = an_power r /\ Z.testbit flags 6 = an_nwi r /\
    Z.testbit flags 5 = an_protocolLongRange r /\ Z.testbit flags 4 = an_skipFlNeighbors r /\
    (an_includeHomeIds r = false -> homeIds = []) /\
    (an_includeHomeIds r = true -> take 4 homeIds = an_nwiHomeId r /\
       drop 4 homeIds = if an_mode r =? ADD_MODE_SMART_START_INCLUDE then an_authHomeId r else []).
Proof.
  unfold HOMEID_LEN. intros H1 H2. unfold encodeAddNode. eexists _, _.
  destruct (makeFlagByte_fields (an_mode r) (an_power r) (an_nwi r) (an_protocolLongRange r)
    (an_skipFlNeighbors r)) as (Hm & Hb & H7 & H6 & H5 & H4).
  split.
  { rewrite requestFrame_fits; [unfold addNodePayload; reflexivity|].
    unfold addNodePayload, MAX_PAYLOAD_SIZE. cbn. destruct (an_includeHomeIds r), (an_mode r =? ADD_MODE_SMART_START_INCLUDE);
      rewrite ?length_app, ?H1, ?H2; cbn; lia. }
  split_and!; try done.
  - by intros ->.
  - intros ->. by rewrite <-H1, take_app_length, drop_app_length.
Qed.

Definition sample_add_node : AddNodeRequest :=
  mkAddNode ADD_MODE_SMART_START_INCLUDE true false true false 7 true [1; 2; 3; 4] [5; 6; 7; 8].

Lemma encodeAddNode_fields_witness :
  exists flags homeIds, encodeAddNode sample_add_node =
    mkFrame REQUEST CMD_ADD_NODE_TO_NETWORK (flags :: 7 :: homeIds) true /\
    drop 4 homeIds = [5; 6; 7; 8].
Proof.
  destruct (encodeAddNode_fields sample_add_node eq_refl eq_refl)
    as (fl & ids & Hf & _ & _ & _ & _ & _ & _ & _ & Hids).
  exists fl, ids. split; [exact Hf|]. exact (proj2 (Hids eq_refl)).
Defined.

(** The node list of an init-data response is strictly ascending and holds
    exactly the ids between 1 and 232 whose bit is set in the bitmap. *)
Theorem decodeInitData_nodes `{Oob} f r :
  decodeInitData f = Some r ->
  StronglySorted Z.lt (id_nodeIds r) /\
  forall n, n ∈ id_nodeIds r <->
    1 <= n <= 232 /\ n <= 8 * (payload f).[2%nat] /\
    bitmapBit (payload f) (Z.to_nat (n - 1)) = true.
Proof.
  unfold decodeInitData. destruct (_ || _); [done|]. zcase; [done|].
  set (p := payload f) in *. set (bl := Z.to_nat p.[2%nat]).
  zcase; [done|]. intros [= <-]. cbn [id_nodeIds]. rewrite expandBitmap_seq. split.
  - eapply StronglySorted_fmap, StronglySorted_seq_filter. intros x y Hxy. cbn. lia.
  - intros n. rewrite list_elem_of_fmap. split.
    + intros (i & -> & [Hp%Is_true_eq_true [_ Hi]%elem_of_seq]%list_elem_of_filter).
      apply andb_prop in Hp as [Hb Hm%Nat.leb_le]. unfold MAX_VALID_NODE_ID in Hm.
      replace (Z.to_nat (Z.of_nat (i + 1) - 1)) with i by lia. split_and!; [lia..|done].
    + intros (Hn & Hl & Hb). exists (Z.to_nat (n - 1)). split; [lia|].
      apply list_elem_of_filter. split.
      * apply Is_true_eq_left. unfold nodePresent. rewrite Hb. apply Nat.leb_le.
        unfold MAX_VALID_NODE_ID. lia.
      * apply elem_of_seq. lia.
Qed.

Definition sample_init_data : ZwaveDataFrame :=
  mkFrame RESPONSE CMD_SERIAL_API_GET_INIT_DATA [5; 8; 2; 0x81; 0x10; 7; 0] true.

Lemma decodeInitData_nodes_witness :
  @decodeInitData 0 sample_init_data = Some (mkInitData 5 8 7 0 [1; 8; 13]) /\
  StronglySorted Z.lt [1; 8; 13].
Proof.
  split; [reflexivity|].
  exact (proj1 (@decodeInitData_nodes 0 sample_init_data (mkInitData 5 8 7 0 [1; 8; 13]) eq_refl)).
Defined.

(** A SendData frame carries its payload with the true length up to 246
    bytes; beyond that the refused [setPayload] goes unnoticed and the frame
    goes out with an empty payload, without even the destination. *)
Theorem encodeSendData_payload r :
  ((length (sd_data r) <= 246)%nat ->
     encodeSendData r = mkFrame REQUEST CMD_SEND_DATA
       (sd_nodeId r :: zlen (sd_data r) :: sd_data r ++ [sd_txOptions r; sd_callbackId r]) true) /\
  ((246 < length (sd_data r))%nat ->
     encodeSendData r = mkFrame REQUEST CMD_SEND_DATA [] true).
Proof.
  unfold encodeSendData. split; intros Hl.
  - rewrite requestFrame_fits, u8_id; [done|unfold byte_ok; lia|].
    cbn. rewrite length_app. unfold MAX_PAYLOAD_SIZE. cbn. lia.
  - apply requestFrame_oversize. cbn. rewrite length_app. unfold MAX_PAYLOAD_SIZE. cbn. lia.
Qed.

(** The callback layout of the Serial API, for ids of one or two bytes. *)
Definition nodeCallbackPayload (wide : bool) (c : NodeStatusCallback) : list Z :=
  [ns_sessionId c; ns_status c] ++
  (if wide then [ns_nodeId c `div` 256; ns_nodeId c `mod` 256] else [ns_nodeId c]) ++
  [3 + zlen (ns_commandClasses c); ns_basic c; ns_generic c; ns_specific c] ++
  ns_commandClasses c.

(** A node callback laid out as the Serial API defines it is decoded to all
    of its fields, with 8-bit and with 16-bit node ids, trailing bytes ignored. *)
Theorem decodeNodeCallback_layout `{Oob} wide c t trailer :
  ns_commandId c = CMD_ADD_NODE_TO_NETWORK \/ ns_commandId c = CMD_REMOVE_NODE_FROM_NETWORK ->
  0 <= ns_nodeId c < 65536 ->
  decodeNodeCallback (mkFrame t (ns_commandId c) (nodeCallbackPayload wide c ++ trailer) true) wide
    = Some c.
Proof.
  intros Hcmd Hid. destruct c as [cmd sid st nid b g s ccs]. cbn [ns_commandId ns_nodeId] in *.
  assert (Hnid : u16 (Z.lor (Z.shiftl (nid `div` 256) 8) (nid `mod` 256)) = nid).
  { pose proof (Z.mod_pos_bound nid 256 ltac:(lia)). pose proof (Z.div_mod nid 256 ltac:(lia)).
    rewrite lor_shiftl_add; change (2 ^ 8) with 256; [|lia|lia]. rewrite u16_id; lia. }
  assert (Hc : negb (cmd =? CMD_ADD_NODE_TO_NETWORK) && negb (cmd =? CMD_REMOVE_NODE_FROM_NETWORK) = false).
  { by destruct Hcmd as [-> | ->]. }
  assert (Hslice : (if (0 <? length ccs)%nat then slice 0 (length ccs) (ccs ++ trailer) else []) = ccs).
  { destruct ccs; [done|]. by rewrite slice_app_exact. }
  unfold decodeNodeCallback, nodeCallbackPayload, DEVICE_CLASS_BYTES.
  cbn [valid negb commandId payload]. rewrite Hc.
  destruct wide; cbn [app ns_sessionId ns_status ns_nodeId ns_basic ns_generic ns_specific ns_commandClasses].
  - cbn [length Nat.ltb Nat.leb andb]. change (byteAt (_ :: _) 2) with (nid `div` 256).
    change (byteAt (_ :: _) 3) with (nid `mod` 256). change (byteAt (_ :: _) 4) with (3 + zlen ccs).
    rewrite Hnid. replace (Z.to_nat (3 + zlen ccs)) with (3 + length ccs)%nat by lia.
    replace (3 <=? 3 + length ccs)%nat with true by (symmetry; apply Nat.leb_le; lia).
    cbn [Nat.add Nat.sub Nat.leb andb]. rewrite Nat.sub_0_r.
    rewrite length_app, (proj2 (Nat.leb_le (length ccs) _)) by lia. rewrite andb_true_r.
    change (slice 8 ?n (?a :: ?b :: ?c :: ?d :: ?e :: ?f :: ?g :: ?h :: ?l)) with (slice 0 n l).
    do 2 f_equal. exact Hslice.
  - cbn [length Nat.ltb Nat.leb andb]. change (byteAt (_ :: _) 2) with nid.
    change (byteAt (_ :: _) 3) with (3 + zlen ccs).
    replace (Z.to_nat (3 + zlen ccs)) with (3 + length ccs)%nat by lia.
    replace (3 <=? 3 + length ccs)%nat with true by (symmetry; apply Nat.leb_le; lia).
    cbn [Nat.add Nat.sub Nat.leb andb]. rewrite Nat.sub_0_r.
    rewrite length_app, (proj2 (Nat.leb_le (length ccs) _)) by lia. rewrite andb_true_r.
    change (slice 7 ?n (?a :: ?b :: ?c :: ?d :: ?e :: ?f :: ?g :: ?l)) with (slice 0 n l).
    do 2 f_equal. exact Hslice.
Qed.

Lemma decodeNodeCallback_layout_witness :
  let c := mkNodeStatus CMD_ADD_NODE_TO_NETWORK 7 6 300 4 0x10 1 [0x25; 0x86] in
  @decodeNodeCallback 0 (mkFrame REQUEST CMD_ADD_NODE_TO_NETWORK
    (nodeCallbackPayload true c ++ []) true) true = Some c.
Proof.
  intros c. apply (@decodeNodeCallback_layout 0 true c REQUEST []); [left; reflexivity|vm_compute; split; congruence].
Defined.

(** No Host API decoder ever reads past the end of the payload it is given:
    its result does not depend on what such a read would return. *)
Theorem hostapi_decoders_in_bounds (o1 o2 : Oob) f cmd wide :
  decodeTxCallback (H := o1) cmd f = decodeTxCallback (H := o2) cmd f /\
  decodeApplicationCommand (H := o1) f = decodeApplicationCommand (H := o2) f /\
  decodeVersion (H := o1) f = decodeVersion (H := o2) f /\
  decodeInitData (H := o1) f = decodeInitData (H := o2) f /\
  decodeNodeProtocolInfo (H := o1) f = decodeNodeProtocolInfo (H := o2) f /\
  decodeMemoryId (H := o1) f = decodeMemoryId (H := o2) f /\
  decodeRemoveFailedNodeResponse (H := o1) f = decodeRemoveFailedNodeResponse (H := o2) f /\
  decodeRemoveFailedNodeCallback (H := o1) f = decodeRemoveFailedNodeCallback (H := o2) f /\
  decodeRequestNodeInfoResponse (H := o1) f = decodeRequestNodeInfoResponse (H := o2) f /\
  decodeApplicationUpdate (H := o1) f = decodeApplicationUpdate (H := o2) f /\
  decodeNodeCallback (H := o1) f wide = decodeNodeCallback (H := o2) f wide.
Proof.
  split_and!; try solve [apply decodeVersion_indep | apply decodeInitData_indep
    | apply decodeMemoryId_indep | apply decodeNodeCallback_indep].
  - unfold decodeTxCallback. by oob_indep o1 o2.
  - unfold decodeApplicationCommand. by oob_indep o1 o2.
  - unfold decodeNodeProtocolInfo. by oob_indep o1 o2.
  - unfold decodeRemoveFailedNodeResponse. by oob_indep o1 o2.
  - unfold decodeRemoveFailedNodeCallback. by oob_indep o1 o2.
  - unfold decodeRequestNodeInfoResponse. by oob_indep o1 o2.
  - unfold decodeApplicationUpdate. by oob_indep o1 o2.
Qed.
