(* ===== verification/Crc16.v ===== *)
(** * CRC-16 and its encapsulation

    The CRC-16/AUG-CCITT register of [zwave-protocol/application/Crc16Encap.cpp]
    (and, with the same parameters, of [TransportService.cpp]), the wrapper
    built on it, and why it detects errors: one register step is injective. *)

From S2P Require Import Prelude.

(** ** The register *)

Definition MSB_MASK : Z := 0x8000.

(** One round of the inner loop. *)
Definition crcBit (poly crc : Z) : Z :=
  if negb (Z.land crc MSB_MASK =? 0) then u16 (Z.lxor (Z.shiftl crc 1) poly)
  else u16 (Z.shiftl crc 1).

(** One round of the outer loop. *)
Definition crcByte (poly crc byte : Z) : Z :=
  Nat.iter 8 (crcBit poly) (u16 (Z.lxor crc (Z.shiftl byte 8))).

Definition crc16_ok (c : Z) : Prop := 0 <= c < 65536.

(** ** One step is injective *)

Lemma u16_testbit x i : 0 <= i -> Z.testbit (u16 x) i = (i <? 16) && Z.testbit x i.
Proof.
  intros Hi. unfold u16. change 65536 with (2 ^ 16). destruct (Z.ltb_spec i 16).
  - by rewrite Z.mod_pow2_bits_low.
  - by rewrite Z.mod_pow2_bits_high by lia.
Qed.

(** The step as one expression: the bit shifted out selects the polynomial. *)
Lemma crcBit_eq poly c :
  crcBit poly c = u16 (Z.lxor (Z.shiftl c 1) (if Z.testbit c 15 then poly else 0)).
Proof.
  unfold crcBit. change MSB_MASK with (Z.shiftl 1 15). rewrite land_bit_zero, negb_involutive by lia.
  destruct (Z.testbit c 15); [done|]. by rewrite Z.lxor_0_r.
Qed.

Lemma crcBit_testbit poly c i :
  0 <= i < 16 ->
  Z.testbit (crcBit poly c) i =
    xorb (if i =? 0 then false else Z.testbit c (i - 1)) (Z.testbit c 15 && Z.testbit poly i).
Proof.
  intros Hi. rewrite crcBit_eq, u16_testbit, Z.lxor_spec, Z.shiftl_spec by lia.
  rewrite (proj2 (Z.ltb_lt i 16)) by lia. cbn [andb]. f_equal.
  - destruct (Z.eqb_spec i 0) as [->|]; [|done]. by rewrite Z.testbit_neg_r.
  - destruct (Z.testbit c 15); [done|apply Z.bits_0].
Qed.

Lemma crcBit_ok poly c : crc16_ok (crcBit poly c).
Proof. rewrite crcBit_eq. apply u16_range. Qed.

Lemma crcBit_inj poly c1 c2 :
  Z.testbit poly 0 = true -> crc16_ok c1 -> crc16_ok c2 -> crcBit poly c1 = crcBit poly c2 -> c1 = c2.
Proof.
  intros Hp H1 H2 Heq.
  assert (H15 : Z.testbit c1 15 = Z.testbit c2 15).
  { apply (f_equal (fun z => Z.testbit z 0)) in Heq.
    rewrite !crcBit_testbit, Hp, !andb_true_r in Heq by lia. by destruct (Z.testbit c1 15), (Z.testbit c2 15). }
  apply Z.bits_inj'. intros i Hi. destruct (Z.lt_ge_cases i 15).
  - apply (f_equal (fun z => Z.testbit z (i + 1))) in Heq.
    rewrite !crcBit_testbit, H15, (proj2 (Z.eqb_neq (i + 1) 0)), Z.add_simpl_r in Heq by lia.
    by destruct (Z.testbit c1 i), (Z.testbit c2 i), (Z.testbit c2 15 && Z.testbit poly (i + 1)).
  - destruct (Z.eq_dec i 15) as [->|]; [done|]. rewrite !(bits_above 16); auto; lia.
Qed.

Lemma iter_inj {A} (P : A -> Prop) (f : A -> A) n x y :
  (forall a, P (f a)) -> (forall a b, P a -> P b -> f a = f b -> a = b) ->
  P x -> P y -> Nat.iter n f x = Nat.iter n f y -> x = y.
Proof.
  intros HP Hinj Hx Hy. induction n as [|n IH]; [done|]. cbn. intros Heq. apply IH.
  apply Hinj in Heq; [done|..]; destruct n; cbn; auto.
Qed.

Section Register.
Variable poly : Z.
Hypothesis poly_odd : Z.testbit poly 0 = true.

Lemma crcByte_ok c b : crc16_ok (crcByte poly c b).
Proof. apply crcBit_ok. Qed.

Lemma crcByte_inj c1 c2 b1 b2 :
  crcByte poly c1 b1 = crcByte poly c2 b2 ->
  u16 (Z.lxor c1 (Z.shiftl b1 8)) = u16 (Z.lxor c2 (Z.shiftl b2 8)).
Proof.
  apply (iter_inj crc16_ok); try apply u16_range; [apply crcBit_ok|]. intros. by eapply crcBit_inj.
Qed.

Lemma shiftl8_ok b : byte_ok b -> crc16_ok (Z.shiftl b 8).
Proof. unfold byte_ok, crc16_ok. intros. rewrite Z.shiftl_mul_pow2 by lia. lia. Qed.

Lemma crcByte_inj_crc c1 c2 b :
  byte_ok b -> crc16_ok c1 -> crc16_ok c2 -> crcByte poly c1 b = crcByte poly c2 b -> c1 = c2.
Proof.
  intros Hb H1 H2 Heq%crcByte_inj. pose proof (shiftl8_ok b Hb).
  rewrite !u16_id in Heq by (by apply (lxor_bound 16)). by apply lxor_cancel_r in Heq.
Qed.

Lemma crcByte_inj_byte c b1 b2 :
  byte_ok b1 -> byte_ok b2 -> crc16_ok c -> crcByte poly c b1 = crcByte poly c b2 -> b1 = b2.
Proof.
  intros H1 H2 Hc Heq%crcByte_inj. pose proof (shiftl8_ok b1 H1). pose proof (shiftl8_ok b2 H2).
  rewrite !u16_id in Heq by (by apply (lxor_bound 16)). apply lxor_cancel_l in Heq.
  rewrite !Z.shiftl_mul_pow2 in Heq by lia. lia.
Qed.

Lemma foldl_crc_ok c l : crc16_ok c -> crc16_ok (foldl (crcByte poly) c l).
Proof. revert c. induction l as [|b l IH]; intros c Hc; [done|]. apply IH, crcByte_ok. Qed.

Lemma foldl_crc_inj c1 c2 l :
  bytes_ok l -> crc16_ok c1 -> crc16_ok c2 ->
  foldl (crcByte poly) c1 l = foldl (crcByte poly) c2 l -> c1 = c2.
Proof.
  intros Hl. revert c1 c2. induction Hl as [|b l Hb Hl IH]; intros c1 c2 H1 H2 Heq; [done|].
  apply (crcByte_inj_crc c1 c2 b); auto. apply IH; auto using crcByte_ok.
Qed.

(** Changing one byte of the input changes the register. *)
Lemma foldl_crc_insert c l i b old :
  crc16_ok c -> bytes_ok l -> l !! i = Some old -> byte_ok b -> b <> old ->
  foldl (crcByte poly) c (<[i:=b]> l) <> foldl (crcByte poly) c l.
Proof.
  intros Hc Hl. revert i c Hc. induction Hl as [|x l Hx Hl IH]; intros [|i] c Hc Hi Hb Hne; simplify_eq/=.
  - intros Heq%foldl_crc_inj; auto using crcByte_ok. by apply crcByte_inj_byte in Heq.
  - apply IH; auto using crcByte_ok.
Qed.
End Register.

(** ** Big-endian 16-bit trailers *)

Definition beHigh (c : Z) : Z := u8 (Z.land (Z.shiftr c 8) 0x00FF).
Definition beLow (c : Z) : Z := u8 (Z.land c 0x00FF).
Definition beJoin (hi lo : Z) : Z := u16 (Z.lor (Z.shiftl hi 8) (Z.land lo 0x00FF)).

Lemma beHigh_eq c : crc16_ok c -> beHigh c = c `div` 256.
Proof.
  unfold crc16_ok. intros. unfold beHigh. change 0x00FF with (2 ^ 8 - 1). rewrite land_mask by lia.
  rewrite Z.shiftr_div_pow2 by lia. change (2 ^ 8) with 256.
  assert (byte_ok (c `div` 256)) by (unfold byte_ok; split; [apply Z.div_pos|apply Z.div_lt_upper_bound]; lia).
  rewrite Z.mod_small by done. by apply u8_id.
Qed.

Lemma beLow_eq c : beLow c = c `mod` 256.
Proof.
  unfold beLow. change 0x00FF with (2 ^ 8 - 1). rewrite land_mask by lia. change (2 ^ 8) with 256.
  apply u8_id, Z.mod_pos_bound. lia.
Qed.

Lemma beJoin_eq hi lo : byte_ok hi -> byte_ok lo -> beJoin hi lo = hi * 256 + lo.
Proof.
  unfold byte_ok. intros Hh Hl. unfold beJoin. change 0x00FF with (2 ^ 8 - 1).
  rewrite land_mask, (Z.mod_small lo) by lia. rewrite lor_shiftl_add by lia. apply u16_id. lia.
Qed.

Lemma beHigh_byte c : byte_ok (beHigh c).
Proof. apply u8_range. Qed.
Lemma beLow_byte c : byte_ok (beLow c).
Proof. apply u8_range. Qed.
#[export] Hint Resolve beHigh_byte beLow_byte : bytes.

Lemma beJoin_split c : crc16_ok c -> beJoin (beHigh c) (beLow c) = c.
Proof.
  intros Hc. rewrite beJoin_eq by auto with bytes. rewrite beHigh_eq, beLow_eq by done.
  pose proof (Z.div_mod c 256 ltac:(lia)). lia.
Qed.

Lemma beJoin_inj h1 l1 h2 l2 :
  byte_ok h1 -> byte_ok l1 -> byte_ok h2 -> byte_ok l2 ->
  beJoin h1 l1 = beJoin h2 l2 -> h1 = h2 /\ l1 = l2.
Proof. intros. rewrite !beJoin_eq in * by done. unfold byte_ok in *. lia. Qed.

(** ** Trailed bodies: the shape CRC-16 encapsulation and transport segments share *)

Section Trailer.
Variables (poly init : Z).
Hypothesis poly_odd : Z.testbit poly 0 = true.
Hypothesis init_ok : crc16_ok init.

Definition appendCrc (body : list Z) : list Z :=
  let crc := foldl (crcByte poly) init body in body ++ [beHigh crc; beLow crc].

(** [checksum(subspan(0, n - 2)) == be16(last two)] *)
Definition crcMatches `{Oob} (l : list Z) : bool :=
  let bodyLen := (length l - 2)%nat in
  foldl (crcByte poly) init (take bodyLen l) =? beJoin l.[bodyLen] l.[(bodyLen + 1)%nat].

Lemma appendCrc_length body : length (appendCrc body) = (length body + 2)%nat.
Proof. unfold appendCrc. by rewrite length_app. Qed.

Lemma appendCrc_ok body : bytes_ok body -> bytes_ok (appendCrc body).
Proof. intros. unfold appendCrc. auto 8 with bytes. Qed.

Lemma crcMatches_parts `{Oob} body hi lo :
  crcMatches (body ++ [hi; lo]) = (foldl (crcByte poly) init body =? beJoin hi lo).
Proof.
  unfold crcMatches. rewrite length_app. cbn [length].
  replace (length body + 2 - 2)%nat with (length body) by lia.
  rewrite take_app_length, !byteAt_app_r, Nat.sub_diag by lia.
  by replace (length body + 1 - length body)%nat with 1%nat by lia.
Qed.

Lemma crcMatches_append `{Oob} body : crcMatches (appendCrc body) = true.
Proof.
  unfold appendCrc. rewrite crcMatches_parts. rewrite beJoin_split by (by apply foldl_crc_ok).
  apply Z.eqb_refl.
Qed.

(** One changed byte, in the body or in the trailer, breaks the match. *)
Lemma crcMatches_corrupt `{Oob} body i b old :
  bytes_ok body -> appendCrc body !! i = Some old -> byte_ok b -> b <> old ->
  crcMatches (<[i:=b]> (appendCrc body)) = false.
Proof.
  intros Hbody Hi Hb Hne. unfold appendCrc in *. set (crc := foldl _ _ body) in *.
  assert (Hcrc : crc16_ok crc) by (by apply foldl_crc_ok).
  destruct (Nat.lt_ge_cases i (length body)) as [Hlt|Hge].
  - rewrite lookup_app_l in Hi by done. rewrite insert_app_l, crcMatches_parts by done.
    rewrite beJoin_split by done. apply Z.eqb_neq. by eapply foldl_crc_insert.
  - rewrite lookup_app_r in Hi by done. rewrite insert_app_r_alt by done.
    destruct (i - length body)%nat as [|[|k]]; simplify_eq/=; rewrite crcMatches_parts;
      fold crc; apply Z.eqb_neq; rewrite <-(beJoin_split crc Hcrc) at 1;
      intros [? ?]%beJoin_inj; auto with bytes.
Qed.
End Trailer.

(** ** CRC-16 Encapsulation, command class 0x56 *)

Module Crc16Encap.

Definition COMMAND_CLASS : Z := 0x56.
Definition CRC16_ENCAP : Z := 0x01.
Definition CRC_INIT : Z := 0x1D0F.
Definition CRC_POLY : Z := 0x1021.
Definition MIN_BYTES : nat := 5.

Definition checksum (data : list Z) : Z := foldl (crcByte CRC_POLY) CRC_INIT data.

Definition verifyAndUnwrap `{Oob} (p : list Z) : option (list Z) :=
  if (length p <? MIN_BYTES)%nat || negb (p.[0%nat] =? COMMAND_CLASS) || negb (p.[1%nat] =? CRC16_ENCAP)
  then None else
  let bodyLen := (length p - 2)%nat in
  let expected := checksum (take bodyLen p) in
  let actual := beJoin p.[bodyLen] p.[(bodyLen + 1)%nat] in
  if negb (expected =? actual) then None
  else Some (slice 2 (bodyLen - 2) p).

Definition encode (inner : list Z) : list Z :=
  let out := [COMMAND_CLASS; CRC16_ENCAP] ++ inner in
  let crc := checksum out in
  out ++ [beHigh crc; beLow crc].

Lemma encode_append inner :
  encode inner = appendCrc CRC_POLY CRC_INIT (COMMAND_CLASS :: CRC16_ENCAP :: inner).
Proof. done. Qed.

Lemma crc_init_ok : crc16_ok CRC_INIT.
Proof. by vm_compute. Qed.

(** Unwrapping an encapsulated command gives the command back, for every
    command of at least one byte. *)
Theorem unwrap_encode `{Oob} inner : inner <> [] -> verifyAndUnwrap (encode inner) = Some inner.
Proof.
  intros Hne. unfold verifyAndUnwrap, MIN_BYTES.
  assert (1 <= length inner)%nat by (destruct inner; [done|cbn; lia]).
  assert (Hlen : length (encode inner) = (length inner + 4)%nat)
    by (rewrite encode_append, appendCrc_length; cbn; lia).
  rewrite Hlen. replace (length inner + 4 <? 5)%nat with false by (symmetry; apply Nat.ltb_ge; lia).
  change (byteAt _ 0) with COMMAND_CLASS. change (byteAt _ 1) with CRC16_ENCAP. cbn [negb orb Z.eqb].
  pose proof (crcMatches_append CRC_POLY CRC_INIT crc_init_ok (COMMAND_CLASS :: CRC16_ENCAP :: inner)) as Hm.
  rewrite <-encode_append in Hm. unfold crcMatches in Hm. rewrite Hlen in Hm. unfold checksum.
  rewrite Hm. cbn [negb]. f_equal. unfold encode. cbn [app].
  change (slice 2 ?n (?a :: ?b :: ?l)) with (slice 0 n l). apply slice_app_exact. lia.
Qed.

Lemma unwrap_encode_witness :
  [0x25; 0x03; 0xFF] <> [] /\ @verifyAndUnwrap 0 (encode [0x25; 0x03; 0xFF]) = Some [0x25; 0x03; 0xFF].
Proof. split; [discriminate|]. apply (@unwrap_encode 0). discriminate. Defined.

(** An encapsulated command received with exactly one byte changed, header,
    command or checksum, is dropped. *)
Theorem unwrap_detects_corruption `{Oob} inner i b old :
  bytes_ok inner -> encode inner !! i = Some old -> byte_ok b -> b <> old ->
  verifyAndUnwrap (<[i:=b]> (encode inner)) = None.
Proof.
  intros Hin Hi Hb Hne. unfold verifyAndUnwrap. destruct (_ || _); [done|].
  rewrite encode_append in *.
  pose proof (crcMatches_corrupt CRC_POLY CRC_INIT eq_refl crc_init_ok (COMMAND_CLASS :: CRC16_ENCAP :: inner) i b old
    ltac:(auto with bytes) Hi Hb Hne) as Hm.
  unfold crcMatches in Hm. unfold checksum. by rewrite Hm.
Qed.

Lemma unwrap_detects_corruption_witness :
  encode [0x25; 0x03; 0xFF] !! 4%nat = Some 0xFF /\
  @verifyAndUnwrap 0 (<[4%nat:=0x00]> (encode [0x25; 0x03; 0xFF])) = None.
Proof.
  split; [vm_compute; reflexivity|].
  apply (@unwrap_detects_corruption 0 [0x25; 0x03; 0xFF] 4 0x00 0xFF);
    [repeat constructor; vm_compute; congruence|vm_compute; reflexivity|vm_compute; split; congruence|discriminate].
Defined.

End Crc16Encap.
