(* ===== verification/TransportService.v ===== *)
(** * Transport Service, command class 0x55

    [zwave-protocol/application/TransportService.{hpp,cpp}]: splitting a datagram
    into segments and the stateful reassembler.  An access outside the
    reassembly buffers is undefined behaviour in the C++; the operations return
    [None] there, so that a result [Some _] says the access was in range. *)

From S2P Require Import Prelude Crc16.

(** ** Constants *)

Definition TS_COMMAND_CLASS : Z := 0x55.
Definition FIRST_SEGMENT : Z := 0xC0.
Definition SUBSEQUENT_SEGMENT : Z := 0xE0.
Definition COMMAND_MASK : Z := 0xF8.
Definition DATAGRAM_SIZE_MASK : Z := 0x07.
Definition SESSION_ID_MASK : Z := 0xF0.
Definition SESSION_ID_SHIFT : Z := 4.
Definition EXT_FLAG : Z := 0x08.
Definition OFFSET_HIGH_MASK : Z := 0x07.
Definition SEGMENT_PAYLOAD_MAX : nat := 39.
Definition FCS_INIT : Z := 0x1D0F.
Definition FCS_POLY : Z := 0x1021.
Definition FCS_LEN : nat := 2.

(** ** Splitting *)

Definition fcs (data : list Z) : Z := foldl (crcByte FCS_POLY) FCS_INIT data.

Definition appendFcs (seg : list Z) : list Z :=
  let crc := fcs seg in seg ++ [beHigh crc; beLow crc].

Definition sizeHigh (size : nat) : Z := u8 (Z.land (Z.shiftr (Z.of_nat size) 8) DATAGRAM_SIZE_MASK).
Definition sizeLow (size : nat) : Z := u8 (Z.land (Z.of_nat size) 0x00FF).
Definition sessionByte (sid : Z) : Z := u8 (Z.land (Z.shiftl sid SESSION_ID_SHIFT) SESSION_ID_MASK).

(** One round of the loop: the segment for the bytes from [offset]. *)
Definition makeSegment (datagram : list Z) (sid : Z) (offset : nat) (first : bool) : list Z :=
  let size := length datagram in
  let header :=
    if first then [u8 (Z.lor FIRST_SEGMENT (sizeHigh size)); sizeLow size; sessionByte sid]
    else [u8 (Z.lor SUBSEQUENT_SEGMENT (sizeHigh size)); sizeLow size;
          u8 (Z.lor (sessionByte sid) (Z.land (Z.shiftr (Z.of_nat offset) 8) OFFSET_HIGH_MASK));
          u8 (Z.land (Z.of_nat offset) 0x00FF)] in
  let chunk := Nat.min SEGMENT_PAYLOAD_MAX (size - offset) in
  appendFcs (TS_COMMAND_CLASS :: header ++ slice offset chunk datagram).

(** The [while (offset < size)] loop; every round adds at least one byte to the
    offset, so [size] rounds are enough. *)
Fixpoint splitLoop (fuel : nat) (datagram : list Z) (sid : Z) (offset : nat) (first : bool)
    : list (list Z) :=
  match fuel with
  | O => []
  | S fuel =>
      let size := length datagram in
      if (size <=? offset)%nat then [] else
      let chunk := Nat.min SEGMENT_PAYLOAD_MAX (size - offset) in
      makeSegment datagram sid offset first :: splitLoop fuel datagram sid (offset + chunk) false
  end.

Definition splitOutbound (datagram : list Z) (sid : Z) : list (list Z) :=
  if (length datagram =? 0)%nat then [] else splitLoop (length datagram) datagram sid 0 true.

(** ** Reassembly *)

Record Assembler := mkAssembler {
  asm_active : bool;
  asm_sessionId : Z;
  asm_datagramSize : nat;
  asm_receivedCount : nat;
  asm_buffer : list Z;
  asm_received : list bool
}.

Definition freshAssembler : Assembler := mkAssembler false 0 0 0 [] [].

Definition asm_reset (a : Assembler) : Assembler :=
  mkAssembler false (asm_sessionId a) (asm_datagramSize a) 0 [] [].

(** The loop of [place]: buffer, received flags and count, or [None] on an
    access past the end of one of the two vectors. *)
Fixpoint placeLoop (size pos : nat) (pl : list Z) (st : list Z * list bool * nat)
    : option (list Z * list bool * nat) :=
  match pl with
  | [] => Some st
  | b :: pl =>
      if (size <=? pos)%nat then Some st else
      let '(buf, rcv, cnt) := st in
      match rcv !! pos with
      | None => None
      | Some true => placeLoop size (S pos) pl st
      | Some false =>
          match buf !! pos with
          | None => None
          | Some _ => placeLoop size (S pos) pl (<[pos:=b]> buf, <[pos:=true]> rcv, S cnt)
          end
      end
  end.

Definition place (a : Assembler) (offset : nat) (pl : list Z) : option (Assembler * option (list Z)) :=
  match placeLoop (asm_datagramSize a) offset pl (asm_buffer a, asm_received a, asm_receivedCount a) with
  | None => None
  | Some (buf, rcv, cnt) =>
      if (cnt =? asm_datagramSize a)%nat then
        Some (mkAssembler false (asm_sessionId a) (asm_datagramSize a) 0 [] [], Some buf)
      else Some (mkAssembler (asm_active a) (asm_sessionId a) (asm_datagramSize a) cnt buf rcv, None)
  end.

Section Reassembly.
Context `{Oob}.

Definition payloadStart (segment : list Z) (bodyLen baseHeader : nat) : option nat :=
  let start :=
    if negb (Z.land segment.[3%nat] EXT_FLAG =? 0) then
      if (bodyLen <? baseHeader + 1)%nat then None
      else Some (baseHeader + 1 + Z.to_nat segment.[baseHeader])%nat
    else Some baseHeader in
  match start with
  | None => None
  | Some start => if (bodyLen <? start)%nat then None else Some start
  end.

Definition segmentSession (segment : list Z) : Z :=
  u8 (Z.shiftr (Z.land segment.[3%nat] SESSION_ID_MASK) SESSION_ID_SHIFT).

Definition segmentSize (segment : list Z) : nat :=
  Z.to_nat (Z.lor (Z.shiftl (Z.land segment.[1%nat] DATAGRAM_SIZE_MASK) 8) segment.[2%nat]).

(** The size and the session are stored before the segment is validated. *)
Definition handleFirst (a : Assembler) (segment : list Z) (bodyLen : nat)
    : option (Assembler * option (list Z)) :=
  if (bodyLen <? 4)%nat then Some (a, None) else
  let size := segmentSize segment in
  let a1 := mkAssembler (asm_active a) (segmentSession segment) size (asm_receivedCount a)
              (asm_buffer a) (asm_received a) in
  match payloadStart segment bodyLen 4 with
  | Some start =>
      if (size =? 0)%nat then Some (a1, None) else
      place (mkAssembler true (asm_sessionId a1) size 0 (replicate size 0) (replicate size false))
        0 (slice start (bodyLen - start) segment)
  | None => Some (a1, None)
  end.

Definition handleSubsequent (a : Assembler) (segment : list Z) (bodyLen : nat)
    : option (Assembler * option (list Z)) :=
  if negb (asm_active a) || (bodyLen <? 5)%nat then Some (a, None) else
  if negb (segmentSession segment =? asm_sessionId a) then Some (a, None) else
  let offset := Z.to_nat (Z.lor (Z.shiftl (Z.land segment.[3%nat] OFFSET_HIGH_MASK) 8) segment.[4%nat]) in
  match payloadStart segment bodyLen 5 with
  | None => Some (a, None)
  | Some start => place a offset (slice start (bodyLen - start) segment)
  end.

Definition feedSegment (a : Assembler) (segment : list Z) : option (Assembler * option (list Z)) :=
  if (length segment <? FCS_LEN + 1)%nat || negb (segment.[0%nat] =? TS_COMMAND_CLASS) then Some (a, None) else
  let bodyLen := (length segment - FCS_LEN)%nat in
  let expected := fcs (take bodyLen segment) in
  let actual := beJoin segment.[bodyLen] segment.[(bodyLen + 1)%nat] in
  if negb (expected =? actual) then Some (a, None) else
  let command := u8 (Z.land segment.[1%nat] COMMAND_MASK) in
  if command =? FIRST_SEGMENT then handleFirst a segment bodyLen else
  if command =? SUBSEQUENT_SEGMENT then handleSubsequent a segment bodyLen else
  Some (a, None).

(** Feeding a sequence of segments, collecting what each call returned. *)
Fixpoint feedSegments (a : Assembler) (segs : list (list Z)) : option (Assembler * list (option (list Z))) :=
  match segs with
  | [] => Some (a, [])
  | seg :: segs =>
      '(a, out) ← feedSegment a seg;
      '(a, outs) ← feedSegments a segs;
      Some (a, out :: outs)
  end.
End Reassembly.

Lemma feedSegments_cons `{Oob} a seg segs :
  feedSegments a (seg :: segs) =
    ('(a, out) ← feedSegment a seg; '(a, outs) ← feedSegments a segs; Some (a, out :: outs)).
Proof. done. Qed.

(** ** Header fields *)

Lemma fcs_init_ok : crc16_ok FCS_INIT.
Proof. by vm_compute. Qed.

Lemma appendFcs_append seg : appendFcs seg = appendCrc FCS_POLY FCS_INIT seg.
Proof. done. Qed.

(** [sizeHigh] and [sizeLow] are the two digits of an 11-bit size. *)
Lemma size_digits n : (n < 2048)%nat ->
  sizeHigh n = Z.of_nat n `div` 256 /\ sizeLow n = Z.of_nat n `mod` 256 /\ 0 <= sizeHigh n < 8.
Proof.
  intros Hn. unfold sizeHigh, sizeLow, DATAGRAM_SIZE_MASK.
  change 0x07 with (2 ^ 3 - 1). change 0x00FF with (2 ^ 8 - 1).
  rewrite !land_mask, Z.shiftr_div_pow2 by lia. change (2 ^ 8) with 256. change (2 ^ 3) with 8.
  assert (0 <= Z.of_nat n `div` 256 < 8) by (split; [apply Z.div_pos|apply Z.div_lt_upper_bound]; lia).
  rewrite (Z.mod_small (Z.of_nat n `div` 256) 8) by done.
  pose proof (Z.mod_pos_bound (Z.of_nat n) 256 ltac:(lia)).
  rewrite !u8_id by (unfold byte_ok; lia). split_and!; done || lia.
Qed.

Lemma offset_digits n : (n < 2048)%nat ->
  Z.land (Z.shiftr (Z.of_nat n) 8) OFFSET_HIGH_MASK = Z.of_nat n `div` 256 /\
  u8 (Z.land (Z.of_nat n) 0x00FF) = Z.of_nat n `mod` 256 /\ 0 <= Z.of_nat n `div` 256 < 8.
Proof.
  intros Hn. destruct (size_digits n Hn) as (Hh & Hl & Hr). rewrite Hh in Hr.
  split_and!; [|exact Hl|lia..].
  unfold OFFSET_HIGH_MASK. change 0x07 with (2 ^ 3 - 1). rewrite land_mask, Z.shiftr_div_pow2 by lia.
  change (2 ^ 8) with 256. apply Z.mod_small. change (2 ^ 3) with 8. done.
Qed.

Lemma lor_digits n : (n < 2048)%nat ->
  Z.to_nat (Z.lor (Z.shiftl (Z.of_nat n `div` 256) 8) (Z.of_nat n `mod` 256)) = n.
Proof.
  intros Hn. pose proof (Z.mod_pos_bound (Z.of_nat n) 256 ltac:(lia)).
  pose proof (Z.div_mod (Z.of_nat n) 256 ltac:(lia)).
  rewrite lor_shiftl_add; change (2 ^ 8) with 256; lia.
Qed.

(** The command byte: the command survives the mask, so do the size bits. *)
Lemma command_byte h : 0 <= h < 8 ->
  let cf := u8 (Z.lor FIRST_SEGMENT h) in let cs := u8 (Z.lor SUBSEQUENT_SEGMENT h) in
  u8 (Z.land cf COMMAND_MASK) = FIRST_SEGMENT /\ Z.land cf DATAGRAM_SIZE_MASK = h /\
  u8 (Z.land cs COMMAND_MASK) = SUBSEQUENT_SEGMENT.
Proof.
  intros Hh cf cs. subst cf cs.
  pose proof (range_forall (fun h =>
    (u8 (Z.land (u8 (Z.lor FIRST_SEGMENT h)) COMMAND_MASK) =? FIRST_SEGMENT) &&
    (Z.land (u8 (Z.lor FIRST_SEGMENT h)) DATAGRAM_SIZE_MASK =? h) &&
    (u8 (Z.land (u8 (Z.lor SUBSEQUENT_SEGMENT h)) COMMAND_MASK) =? SUBSEQUENT_SEGMENT)) 8
    ltac:(by vm_compute) h Hh) as Hc. cbv beta in Hc. zbool. done.
Qed.

(** The properties byte: session id, no extension, offset bits. *)
Lemma properties_byte sid h : byte_ok sid -> 0 <= h < 8 ->
  let p := u8 (Z.lor (sessionByte sid) h) in
  u8 (Z.shiftr (Z.land p SESSION_ID_MASK) SESSION_ID_SHIFT) = sid `mod` 16 /\
  Z.land p EXT_FLAG = 0 /\ Z.land p OFFSET_HIGH_MASK = h.
Proof.
  intros Hs Hh p. subst p.
  pose proof (range_forall2 (fun sid h =>
    let p := u8 (Z.lor (sessionByte sid) h) in
    (u8 (Z.shiftr (Z.land p SESSION_ID_MASK) SESSION_ID_SHIFT) =? sid `mod` 16) &&
    (Z.land p EXT_FLAG =? 0) && (Z.land p OFFSET_HIGH_MASK =? h)) 256 8
    ltac:(by vm_compute) sid h Hs Hh) as Hc. cbv beta zeta in Hc. zbool. done.
Qed.

Lemma sessionByte_first sid : byte_ok sid -> u8 (Z.lor (sessionByte sid) 0) = sessionByte sid.
Proof. intros. rewrite Z.lor_0_r. apply u8_id, u8_range. Qed.

(** The bytes a segment at [off] carries. *)
Definition chunkAt (d : list Z) (off : nat) : list Z :=
  slice off (Nat.min SEGMENT_PAYLOAD_MAX (length d - off)) d.

(** ** What one of our own segments does to a reassembler *)

Section OwnSegments.
Context `{Oob}.
Variables (d : list Z) (sid : Z).
Hypothesis size_ok : (0 < length d < 2048)%nat.
Hypothesis sid_ok : byte_ok sid.

(** A segment that passes the length, class and FCS checks. *)
Lemma feedSegment_body a c p l :
  feedSegment a (appendFcs (TS_COMMAND_CLASS :: c :: p :: l)) =
    let seg := appendFcs (TS_COMMAND_CLASS :: c :: p :: l) in
    let bodyLen := length (TS_COMMAND_CLASS :: c :: p :: l) in
    let command := u8 (Z.land c COMMAND_MASK) in
    if command =? FIRST_SEGMENT then handleFirst a seg bodyLen else
    if command =? SUBSEQUENT_SEGMENT then handleSubsequent a seg bodyLen else Some (a, None).
Proof.
  unfold feedSegment. set (body := TS_COMMAND_CLASS :: c :: p :: l).
  assert (Hlen : (length (appendFcs body) - FCS_LEN)%nat = length body).
  { rewrite appendFcs_append, appendCrc_length. unfold FCS_LEN. lia. }
  replace (length (appendFcs body) <? FCS_LEN + 1)%nat with false
    by (symmetry; apply Nat.ltb_ge; rewrite appendFcs_append, appendCrc_length; cbn; lia).
  change ((appendFcs body).[0%nat]) with TS_COMMAND_CLASS. rewrite Z.eqb_refl. cbn [orb negb].
  pose proof (crcMatches_append FCS_POLY FCS_INIT fcs_init_ok body) as Hm.
  rewrite <-appendFcs_append in Hm. unfold crcMatches in Hm. unfold FCS_LEN in *.
  unfold fcs. rewrite Hm. cbn [negb]. by rewrite Hlen.
Qed.

Lemma slice_body off k body crc2 :
  (off + k = length body)%nat -> slice off (length body - off) (body ++ crc2) = drop off body.
Proof.
  intros Hk. unfold slice. rewrite drop_app_le by lia. rewrite take_app_le, take_ge; [done|rewrite length_drop; lia..].
Qed.

Lemma feed_first a :
  feedSegment a (makeSegment d sid 0 true) =
    place (mkAssembler true (sid `mod` 16) (length d) 0 (replicate (length d) 0)
             (replicate (length d) false)) 0 (chunkAt d 0).
Proof.
  unfold makeSegment. cbn [app]. rewrite feedSegment_body. cbv zeta.
  destruct (size_digits (length d)) as (Hh & Hl & Hr); [lia|].
  destruct (command_byte _ Hr) as (Hc1 & Hc2 & _). rewrite Hc1, Z.eqb_refl.
  destruct (properties_byte sid 0 sid_ok) as (Hp1 & Hp2 & _); [lia|].
  rewrite sessionByte_first in Hp1, Hp2 by done.
  unfold handleFirst. replace (_ <? 4)%nat with false by (symmetry; apply Nat.ltb_ge; cbn; lia).
  unfold segmentSize, segmentSession, payloadStart.
  change ((appendFcs (?a :: ?b :: ?c :: ?e :: ?l)).[1%nat]) with b.
  change ((appendFcs (?a :: ?b :: ?c :: ?e :: ?l)).[2%nat]) with c.
  change ((appendFcs (?a :: ?b :: ?c :: ?e :: ?l)).[3%nat]) with e.
  rewrite Hp1, Hp2, Hc2, Hh, Hl, lor_digits by lia. cbn [Z.eqb negb].
  rewrite (proj2 (Nat.ltb_ge _ 4)) by (cbn; lia).
  rewrite (proj2 (Nat.eqb_neq (length d) 0)) by lia. cbn [asm_sessionId]. f_equal.
  unfold appendFcs. rewrite (slice_body 4 (length (chunkAt d 0))); [done|]. reflexivity.
Qed.

Lemma feed_subsequent a off :
  (off < length d)%nat -> asm_active a = true -> asm_sessionId a = sid `mod` 16 ->
  feedSegment a (makeSegment d sid off false) = place a off (chunkAt d off).
Proof.
  intros Hoff Hact Hsid. unfold makeSegment. cbn [app]. rewrite feedSegment_body. cbv zeta.
  destruct (size_digits (length d)) as (_ & _ & Hr); [lia|].
  destruct (offset_digits off) as (Ho1 & Ho2 & Ho3); [lia|].
  destruct (command_byte _ Hr) as (_ & _ & Hc3). rewrite Hc3. cbn [Z.eqb SUBSEQUENT_SEGMENT FIRST_SEGMENT Pos.eqb].
  rewrite Ho1. destruct (properties_byte sid _ sid_ok Ho3) as (Hp1 & Hp2 & Hp3).
  unfold handleSubsequent. rewrite Hact.
  replace (_ <? 5)%nat with false by (symmetry; apply Nat.ltb_ge; cbn; lia).
  unfold segmentSession, payloadStart.
  change ((appendFcs (?a :: ?b :: ?c :: ?e :: ?f :: ?l)).[3%nat]) with e.
  change ((appendFcs (?a :: ?b :: ?c :: ?e :: ?f :: ?l)).[4%nat]) with f.
  rewrite Hp1, Hp2, Hp3, Hsid, Z.eqb_refl, Ho2, lor_digits by lia. cbn [orb negb Z.eqb].
  rewrite (proj2 (Nat.ltb_ge _ 5)) by (cbn; lia). f_equal.
  unfold appendFcs. rewrite (slice_body 5 (length (chunkAt d off))); [done|]. reflexivity.
Qed.
End OwnSegments.

(** ** Placing bytes *)

Definition count_true (l : list bool) : nat := foldr (fun (b : bool) c => if b then S c else c) 0%nat l.

Lemma count_true_insert l i : l !! i = Some false -> count_true (<[i:=true]> l) = S (count_true l).
Proof.
  revert i. induction l as [|b l IH]; intros [|i] Hi; simplify_eq/=; [done|].
  unfold count_true in *. rewrite (IH i Hi). by destruct b.
Qed.

Lemma count_true_le l : (count_true l <= length l)%nat.
Proof. unfold count_true. induction l as [|[] l IH]; cbn; lia. Qed.

Lemma count_true_full l : count_true l = length l <-> Forall (fun b => b = true) l.
Proof.
  induction l as [|b l IH]; [by split|]. rewrite Forall_cons, <-IH.
  pose proof (count_true_le l) as Hle. unfold count_true in *. destruct b; cbn.
  - split; [intros; split; [done|lia]|intros [_ ->]; done].
  - split; [lia|by intros [? _]].
Qed.

Lemma count_true_replicate n : count_true (replicate n false) = 0%nat.
Proof. unfold count_true. by induction n. Qed.

Lemma replicate_seq {A} (f : nat -> A) v m n : (forall i, f i = v) -> replicate n v = f <$> seq m n.
Proof. intros Hf. revert m. induction n as [|n IH]; intros m; cbn; [done|by rewrite Hf, (IH (S m))]. Qed.

(** With both vectors as long as the datagram no access is out of range, and the
    count stays the number of flags set. *)
Lemma placeLoop_safe size pos pl buf rcv cnt :
  length buf = size -> length rcv = size -> cnt = count_true rcv ->
  exists buf' rcv', placeLoop size pos pl (buf, rcv, cnt) = Some (buf', rcv', count_true rcv') /\
    length buf' = size /\ length rcv' = size.
Proof.
  revert pos buf rcv cnt. induction pl as [|b pl IH]; intros pos buf rcv cnt Hb Hr ->.
  { by exists buf, rcv. }
  cbn. destruct (Nat.leb_spec size pos) as [|Hlt]; [by exists buf, rcv|].
  destruct (lookup_lt_is_Some_2 rcv pos) as [v Hv]; [lia|]. rewrite Hv. destruct v; [by apply IH|].
  destruct (lookup_lt_is_Some_2 buf pos) as [x Hx]; [lia|]. rewrite Hx.
  apply IH; rewrite ?length_insert, ?count_true_insert; done.
Qed.

(** Bytes that were all missing are stored as one block. *)
Lemma placeLoop_fresh size pos pl buf rcv cnt :
  length buf = size -> length rcv = size -> (pos + length pl <= size)%nat ->
  (forall q, (pos <= q < pos + length pl)%nat -> rcv !! q = Some false) ->
  exists cnt', placeLoop size pos pl (buf, rcv, cnt) =
    Some (list_inserts pos pl buf, list_inserts pos (replicate (length pl) true) rcv, cnt').
Proof.
  revert pos buf rcv cnt. induction pl as [|b pl IH]; intros pos buf rcv cnt Hb Hr Hle Hf.
  { by exists cnt. }
  cbn. cbn in Hle. rewrite (proj2 (Nat.leb_gt size pos)) by lia. rewrite (Hf pos) by (cbn; lia).
  destruct (lookup_lt_is_Some_2 buf pos) as [x ->]; [lia|].
  destruct (IH (S pos) (<[pos:=b]> buf) (<[pos:=true]> rcv) (S cnt)) as [cnt' ->];
    rewrite ?length_insert; try done; try lia.
  - intros q Hq. rewrite list_lookup_insert_ne by lia. apply Hf. cbn. lia.
  - exists cnt'. by rewrite !list_insert_inserts_lt by lia.
Qed.

(** ** Reassembling our own segments *)

Section RoundTrip.
Context `{Oob}.
Variables (d : list Z) (sid : Z).
Hypothesis size_ok : (0 < length d < 2048)%nat.
Hypothesis sid_ok : byte_ok sid.

Abbreviation n := (length d).

(** The state after the chunks with the indices [K] have arrived. *)
Record asm_inv (K : list nat) (a : Assembler) : Prop := {
  ai_active : asm_active a = true;
  ai_session : asm_sessionId a = sid `mod` 16;
  ai_size : asm_datagramSize a = n;
  ai_received : asm_received a = (fun pos => bool_decide ((pos / 39)%nat ∈ K)) <$> seq 0 n;
  ai_buffer_size : length (asm_buffer a) = n;
  ai_buffer : forall pos, (pos < n)%nat -> (pos / 39)%nat ∈ K -> asm_buffer a !! pos = d !! pos;
  ai_count : asm_receivedCount a = count_true (asm_received a)
}.

Lemma ai_lookup K a pos : asm_inv K a -> (pos < n)%nat ->
  asm_received a !! pos = Some (bool_decide ((pos / 39)%nat ∈ K)).
Proof. intros Ha Hp. by rewrite (ai_received _ _ Ha), list_lookup_fmap, lookup_seq_lt. Qed.

Lemma chunkAt_length off : (off < n)%nat -> length (chunkAt d off) = Nat.min 39 (n - off).
Proof. intros. unfold chunkAt. apply slice_length. unfold SEGMENT_PAYLOAD_MAX. lia. Qed.

(** The chunk [k] is exactly the positions whose quotient by 39 is [k]. *)
Lemma chunk_positions k off pos : off = (39 * k)%nat -> (pos < n)%nat ->
  (off <= pos < off + Nat.min 39 (n - off))%nat <-> (pos / 39 = k)%nat.
Proof.
  intros Ho Hp. pose proof (Nat.div_mod_eq pos 39). pose proof (Nat.mod_upper_bound pos 39). lia.
Qed.

Lemma chunk_outside k off pos : off = (39 * k)%nat -> (pos < n)%nat -> (pos / 39)%nat <> k ->
  (pos < off \/ off + Nat.min 39 (n - off) <= pos)%nat.
Proof.
  intros Ho Hp Hk. pose proof (Nat.div_mod_eq pos 39). pose proof (Nat.mod_upper_bound pos 39). lia.
Qed.

Lemma chunk_other k j (K : list nat) : j <> k -> j ∈ k :: K <-> j ∈ K.
Proof. intros. rewrite elem_of_cons. tauto. Qed.

Lemma chunk_lookup off pos : (off <= pos < off + Nat.min 39 (n - off))%nat ->
  chunkAt d off !! (pos - off)%nat = d !! pos.
Proof.
  intros Hp. unfold chunkAt, slice, SEGMENT_PAYLOAD_MAX. rewrite lookup_take_lt by lia.
  rewrite lookup_drop. f_equal. lia.
Qed.

Lemma place_inv K a k off : off = (39 * k)%nat -> asm_inv K a -> k ∉ K -> (off < n)%nat ->
  exists a', place a off (chunkAt d off) =
    Some (a', if bool_decide (Forall (fun j => (j / 39)%nat ∈ k :: K) (seq 0 n)) then Some d else None) /\
    (~ Forall (fun j => (j / 39)%nat ∈ k :: K) (seq 0 n) -> asm_inv (k :: K) a').
Proof.
  intros Ho Ha Hk Hlt. pose proof (chunkAt_length off Hlt) as Hlen. unfold place.
  pose proof (ai_size _ _ Ha) as Hsize. rewrite Hsize.
  assert (Hrl : length (asm_received a) = n) by (rewrite (ai_received _ _ Ha), length_fmap; apply length_seq).
  pose proof (ai_buffer_size _ _ Ha) as Hbl.
  destruct (placeLoop_fresh n off (chunkAt d off) (asm_buffer a) (asm_received a) (asm_receivedCount a))
    as [cnt' Hp]; try done; [lia| |].
  { intros q Hq. rewrite (ai_lookup K) by (done || lia). f_equal. apply bool_decide_eq_false.
    rewrite Hlen in Hq. apply (chunk_positions k) in Hq as ->; [done..|lia]. }
  destruct (placeLoop_safe n off (chunkAt d off) (asm_buffer a) (asm_received a) (asm_receivedCount a))
    as (buf' & rcv' & Hs & Hbl' & Hrl'); [done..|by apply ai_count with K|].
  rewrite Hs in Hp. rewrite Hs. injection Hp as Hbuf Hrcv Hcnt. clear Hs Hcnt cnt'.
  assert (Hrcv' : rcv' = (fun pos => bool_decide ((pos / 39)%nat ∈ k :: K)) <$> seq 0 n).
  { apply list_eq. intros pos. destruct (Nat.lt_ge_cases pos n) as [Hpos|];
      [|by rewrite !lookup_ge_None_2 by (rewrite ?length_fmap, ?length_seq; lia)].
    rewrite list_lookup_fmap, lookup_seq_lt by done. cbn [fmap option_fmap option_map Nat.add]. subst rcv'.
    destruct (decide (pos / 39 = k)%nat) as [Hpk|Hpk].
    - rewrite bool_decide_eq_true_2 by (rewrite Hpk; by left). apply (chunk_positions k off) in Hpk; [|done..].
      rewrite list_lookup_inserts by (rewrite ?length_replicate, ?Hlen; lia).
      apply lookup_replicate. split; [done|lia].
    - rewrite (bool_decide_ext _ ((pos / 39)%nat ∈ K)) by (by apply chunk_other).
      destruct (chunk_outside k off pos Ho Hpos Hpk) as [?|?].
      + rewrite list_lookup_inserts_lt by done. by apply ai_lookup.
      + rewrite list_lookup_inserts_ge by (rewrite length_replicate, Hlen; lia). by apply ai_lookup. }
  assert (Hbuf' : forall pos, (pos < n)%nat -> (pos / 39)%nat ∈ k :: K -> buf' !! pos = d !! pos).
  { intros pos Hpos Hin. subst buf'. destruct (decide (pos / 39 = k)%nat) as [Hpk|Hpk].
    - apply (chunk_positions k off) in Hpk; [|done..]. rewrite list_lookup_inserts by lia. apply chunk_lookup. lia.
    - rewrite chunk_other in Hin by done. destruct (chunk_outside k off pos Ho Hpos Hpk) as [?|?].
      + rewrite list_lookup_inserts_lt by done. by apply (ai_buffer _ _ Ha).
      + rewrite list_lookup_inserts_ge by lia. by apply (ai_buffer _ _ Ha). }
  assert (Hfull : (count_true rcv' =? n)%nat = bool_decide (Forall (fun j => (j / 39)%nat ∈ k :: K) (seq 0 n))).
  { rewrite <-Hrl' at 1. destruct (Nat.eqb_spec (count_true rcv') (length rcv')) as [He|He].
    - symmetry. apply bool_decide_eq_true. apply count_true_full in He. rewrite Hrcv', Forall_fmap in He.
      eapply Forall_impl; [exact He|]. cbn. intros j Hj%bool_decide_eq_true. done.
    - symmetry. apply bool_decide_eq_false. intros Hall. apply He, count_true_full.
      rewrite Hrcv', Forall_fmap. eapply Forall_impl; [exact Hall|]. cbn. intros j Hj. by apply bool_decide_eq_true. }
  rewrite Hfull. case_bool_decide as Hall.
  - eexists. split; [|done]. do 2 f_equal. f_equal. apply list_eq. intros pos.
    destruct (Nat.lt_ge_cases pos n) as [Hpos|]; [|by rewrite !lookup_ge_None_2 by lia].
    apply Hbuf'; [done|]. rewrite Forall_forall in Hall. apply Hall, elem_of_seq. lia.
  - eexists. split; [done|]. intros _. split; cbn; try done; [apply Ha|apply Ha].
Qed.

Lemma all_covered (K : list nat) : (forall k, (39 * k < n)%nat -> k ∈ K) -> Forall (fun j => (j / 39)%nat ∈ K) (seq 0 n).
Proof.
  intros HK. apply Forall_forall. intros j [_ Hj]%elem_of_seq. apply HK.
  pose proof (Nat.div_mod_eq j 39). lia.
Qed.

Lemma not_covered (K : list nat) k : (39 * k < n)%nat -> k ∉ K -> ~ Forall (fun j => (j / 39)%nat ∈ K) (seq 0 n).
Proof.
  intros Hk Hin Hall. rewrite Forall_forall in Hall. apply Hin.
  replace k with ((39 * k) / 39)%nat by (rewrite Nat.mul_comm; by apply Nat.div_mul).
  apply Hall, elem_of_seq. lia.
Qed.

Definition subSegment (k : nat) : list Z := makeSegment d sid (39 * k) false.

(** The missing chunks [ks], in any order, complete the datagram with the last. *)
Lemma feed_remaining ks K a :
  asm_inv K a -> NoDup ks -> (forall k, k ∈ ks -> (k ∉ K) /\ (39 * k < n)%nat) -> ks <> [] ->
  (forall k, (39 * k < n)%nat -> k ∈ ks \/ k ∈ K) ->
  exists a', feedSegments a (subSegment <$> ks) =
    Some (a', replicate (length ks - 1) None ++ [Some d]).
Proof.
  revert K a. induction ks as [|k ks IH]; intros K a Ha Hnd Hks Hne Hcov; [done|].
  destruct (Hks k ltac:(by left)) as [HkK Hk]. apply NoDup_cons in Hnd as [Hkks Hnd].
  destruct (place_inv K a k (39 * k) eq_refl Ha HkK Hk) as (a1 & Hp & Hinv).
  change (subSegment <$> (k :: ks)) with (subSegment k :: (subSegment <$> ks)).
  rewrite feedSegments_cons. change (subSegment k) with (makeSegment d sid (39 * k) false).
  rewrite (feed_subsequent d sid size_ok sid_ok a (39 * k) Hk (ai_active _ _ Ha) (ai_session _ _ Ha)), Hp.
  cbn [mbind option_bind]. destruct ks as [|k2 ks].
  - rewrite bool_decide_eq_true_2; [by exists a1|]. apply all_covered. intros j Hj.
    destruct (Hcov j Hj) as [->%list_elem_of_singleton|?]; [by left|by right].
  - assert (k2 ∉ k :: K) as Hk2.
    { apply not_elem_of_cons. split; [|apply Hks; right; left]. intros ->. apply Hkks. by left. }
    assert (Hnc : ~ Forall (fun j => (j / 39)%nat ∈ k :: K) (seq 0 n))
      by (apply (not_covered _ k2); [apply Hks; right; left|done]).
    rewrite bool_decide_eq_false_2 by done.
    destruct (IH (k :: K) a1 (Hinv Hnc) Hnd) as (a2 & ->); try done.
    + intros j Hj. destruct (Hks j ltac:(by right)) as [HjK Hjn]. split; [|done].
      apply not_elem_of_cons. split; [|done]. by intros ->.
    + intros j Hj. destruct (Hcov j Hj) as [[->|?]%elem_of_cons|?]; [right; by left|by left|right; by right].
    + exists a2. cbn [mbind option_bind length Nat.sub]. by rewrite Nat.sub_0_r.
Qed.

(** The first segment (re)starts the datagram whatever the reassembler held. *)
Lemma feed_first_inv a :
  exists a1, feedSegment a (makeSegment d sid 0 true) =
    Some (a1, if bool_decide (n <= 39)%nat then Some d else None) /\
    ((39 < n)%nat -> asm_inv [0%nat] a1).
Proof.
  rewrite (feed_first d sid size_ok sid_ok).
  set (a0 := mkAssembler true _ _ _ _ _).
  assert (Ha0 : asm_inv [] a0).
  { split; unfold a0; try done.
    - by apply replicate_seq.
    - apply length_replicate.
    - by intros pos _ ?%elem_of_nil.
    - cbn [asm_receivedCount asm_received]. by rewrite count_true_replicate. }
  destruct (place_inv [] a0 0 0 eq_refl Ha0) as (a1 & Hp & Hinv); [set_solver|lia|].
  exists a1. rewrite Hp. split.
  - do 2 f_equal. case_bool_decide as H1; case_bool_decide as H2; try done; exfalso.
    + apply (not_covered [0%nat] 1) in H1; [done|lia|by intros ?%list_elem_of_singleton].
    + apply H1, all_covered. intros k Hk. replace k with 0%nat by lia. by left.
  - intros Hn. apply Hinv, (not_covered _ 1); [lia|by intros ?%list_elem_of_singleton].
Qed.

(** Number of segments. *)
Definition segmentCount : nat := ((n + 38) / 39)%nat.

Lemma segmentCount_spec k : (39 * k < n)%nat <-> (k < segmentCount)%nat.
Proof.
  unfold segmentCount. pose proof (Nat.div_mod_eq (n + 38) 39). pose proof (Nat.mod_upper_bound (n + 38) 39). lia.
Qed.

Lemma splitLoop_spec fuel k :
  (n - 39 * k <= fuel)%nat ->
  splitLoop fuel d sid (Nat.min (39 * k) n) false = subSegment <$> seq k (segmentCount - k).
Proof.
  revert k. induction fuel as [|fuel IH]; intros k Hf.
  - replace (segmentCount - k)%nat with 0%nat; [done|]. pose proof (segmentCount_spec k). lia.
  - cbn [splitLoop].  pose proof (segmentCount_spec k) as Hk.
    destruct (Nat.leb_spec n (Nat.min (39 * k) n)).
    + by replace (segmentCount - k)%nat with 0%nat by lia.
    + rewrite Nat.min_l by lia. replace (39 * k + Nat.min SEGMENT_PAYLOAD_MAX (n - 39 * k))%nat
        with (Nat.min (39 * S k) n) by (unfold SEGMENT_PAYLOAD_MAX; lia).
      rewrite IH by lia. by replace (segmentCount - k)%nat with (S (segmentCount - S k)) by lia.
Qed.

Lemma splitOutbound_spec :
  splitOutbound d sid = makeSegment d sid 0 true :: (subSegment <$> seq 1 (segmentCount - 1)).
Proof.
  unfold splitOutbound. rewrite (proj2 (Nat.eqb_neq _ _)) by lia.
  assert (exists fuel, n = S fuel) as [fuel Hd] by (exists (pred n); lia). rewrite Hd at 1.
  cbn [splitLoop]. rewrite (proj2 (Nat.leb_gt n 0)) by lia. f_equal.
  rewrite <-(splitLoop_spec fuel 1) by lia. f_equal. unfold SEGMENT_PAYLOAD_MAX. lia.
Qed.

End RoundTrip.

Lemma fmap_map {A B} (f : A -> B) l : f <$> l = List.map f l.
Proof. induction l as [|x l IH]; cbn; [done|by f_equal]. Qed.

Lemma Permutation_fmap_inv {A B} (f : A -> B) l k :
  k ≡ₚ (f <$> l) -> exists l', k = f <$> l' /\ l ≡ₚ l'.
Proof.
  rewrite fmap_map. intros (l' & -> & Hp)%Permutation_map_inv. exists l'. split; [symmetry; apply fmap_map|done].
Qed.

(** ** Properties *)

(** C34: a datagram of up to 2047 bytes is recovered from its segments whatever
    the reassembler held before and in whatever order the segments after the
    first arrive; nothing is delivered before the last of them. *)
Theorem reassemble_split `{Oob} d sid a first rest rest' :
  (0 < length d < 2048)%nat -> byte_ok sid ->
  splitOutbound d sid = first :: rest -> rest' ≡ₚ rest ->
  exists a', feedSegments a (first :: rest') = Some (a', replicate (length rest) None ++ [Some d]).
Proof.
  intros Hd Hsid Hsplit Hperm. rewrite splitOutbound_spec in Hsplit by done. injection Hsplit as <- <-.
  apply Permutation_fmap_inv in Hperm as (ks & -> & Hks).
  destruct (feed_first_inv d sid Hd Hsid a) as (a1 & Hf & Hinv). rewrite feedSegments_cons, Hf.
  cbn [mbind option_bind]. pose proof (segmentCount_spec d Hd 1) as H1. rewrite length_fmap, length_seq.
  case_bool_decide as Hn.
  - replace (segmentCount d - 1)%nat with 0%nat in * by lia. cbn in Hks. apply Permutation_nil in Hks as ->.
    by exists a1.
  - destruct (feed_remaining d sid Hd Hsid ks [0%nat] a1) as (a2 & ->).
    + apply Hinv. lia.
    + rewrite <-Hks. apply NoDup_seq.
    + intros k. rewrite <-Hks, elem_of_seq, (segmentCount_spec d Hd). intros Hk.
      split; [intros ->%list_elem_of_singleton; lia|lia].
    + intros ->. apply Permutation_length in Hks. rewrite length_seq in Hks. cbn [length] in Hks. lia.
    + intros k Hk. rewrite <-Hks, elem_of_seq. apply (segmentCount_spec d Hd) in Hk.
      destruct k; [right; by left|left; lia].
    + cbn [mbind option_bind]. exists a2. rewrite <-(Permutation_length Hks), length_seq.
      assert (exists m, segmentCount d - 1 = S m)%nat as [m ->] by (exists (segmentCount d - 2)%nat; lia).
      cbn [Nat.sub]. by rewrite Nat.sub_0_r.
Qed.

Definition sample_datagram : list Z := Z.of_nat <$> seq 0 100.

Lemma reassemble_split_witness :
  exists first s1 s2 a',
    splitOutbound sample_datagram 5 = [first; s1; s2] /\
    @feedSegments 0 freshAssembler [first; s2; s1] = Some (a', [None; None; Some sample_datagram]).
Proof.
  eexists _, _, _.
  destruct (@reassemble_split 0 sample_datagram 5 freshAssembler _ _ _
    ltac:(vm_compute; lia) ltac:(vm_compute; split; congruence) ltac:(vm_compute; reflexivity)
    (Permutation_swap _ _ [])) as [a' Ha'].
  exists a'. split; [vm_compute; reflexivity|exact Ha'].
Defined.

(** ** Memory safety of the reassembler *)

Definition asm_ok (a : Assembler) : Prop :=
  asm_active a = true ->
  length (asm_buffer a) = asm_datagramSize a /\ length (asm_received a) = asm_datagramSize a /\
  asm_receivedCount a = count_true (asm_received a).

(** A FIRST segment with a good checksum that [handleFirst] gives up on, after
    it has stored the segment's size. *)
Definition rejectedFirst `{Oob} (seg : list Z) : bool :=
  let bodyLen := (length seg - FCS_LEN)%nat in
  (u8 (Z.land seg.[1%nat] COMMAND_MASK) =? FIRST_SEGMENT) && (4 <=? bodyLen)%nat &&
  ((segmentSize seg =? 0)%nat || bool_decide (payloadStart seg bodyLen 4 = None)).

Lemma place_safe a off pl :
  asm_active a = true -> asm_ok a ->
  exists a' out, place a off pl = Some (a', out) /\ asm_ok a' /\
    (forall dgram, out = Some dgram -> length dgram = asm_datagramSize a).
Proof.
  intros Hact Hok. destruct (Hok Hact) as (Hb & Hr & Hc). unfold place.
  destruct (placeLoop_safe (asm_datagramSize a) off pl (asm_buffer a) (asm_received a) (asm_receivedCount a))
    as (buf & rcv & -> & Hb' & Hr'); [done..|].
  destruct (_ =? _)%nat; eexists _, _; (split; [done|]); (split; [done|]).
  - by intros ? [= <-].
  - done.
Qed.

(** C35: no segment makes the reassembler access memory outside its buffers, and
    what it delivers has the announced size, as long as no FIRST segment that
    fails validation arrives while a datagram is in progress. *)
Theorem feedSegment_safe `{Oob} a seg :
  asm_ok a -> (asm_active a = true -> rejectedFirst seg = false) ->
  exists a' out, feedSegment a seg = Some (a', out) /\ asm_ok a' /\
    (forall dgram, out = Some dgram -> length dgram = asm_datagramSize a').
Proof.
  intros Hok Hrej. unfold feedSegment.
  assert (Hstay : exists a' out, Some (a, None) = Some (a', out) /\ asm_ok a' /\
    (forall dgram : list Z, out = Some dgram -> length dgram = asm_datagramSize a'))
    by (by exists a, None).
  assert (Hplace : forall b off pl, asm_active b = true -> asm_ok b -> exists a' out,
    place b off pl = Some (a', out) /\ asm_ok a' /\
    (forall dgram, out = Some dgram -> length dgram = asm_datagramSize a')).
  { intros b off pl Hact Hb. destruct (place_safe b off pl Hact Hb) as (a' & out & Hp & Hok' & Hlen).
    exists a', out. split_and!; [done..|]. intros dgram Hd. rewrite (Hlen dgram Hd).
    unfold place in Hp. destruct (placeLoop _ _ _ _) as [[[??]?]|]; [|done].
    by destruct (_ =? _)%nat; injection Hp as <- _. }
  destruct (_ || _); [done|]. destruct (negb _); [done|].
  unfold rejectedFirst in Hrej. destruct (_ =? FIRST_SEGMENT) eqn:Hfirst.
  - unfold handleFirst. destruct (Nat.ltb_spec (length seg - FCS_LEN) 4) as [|Hlen]; [done|].
    rewrite (proj2 (Nat.leb_le 4 _) Hlen) in Hrej. cbn [andb] in Hrej.
    destruct (payloadStart seg _ 4) as [start|].
    + destruct (Nat.eqb_spec (segmentSize seg) 0) as [Hz|Hz].
      * eexists _, None. split; [done|]. split; [|done]. intros Hact. by specialize (Hrej Hact).
      * apply Hplace; [done|]. intros _. cbn. rewrite !length_replicate, count_true_replicate. done.
    + eexists _, None. split; [done|]. split; [|done]. intros Hact. specialize (Hrej Hact).
      by rewrite orb_true_r in Hrej.
  - destruct (_ =? SUBSEQUENT_SEGMENT); [|done]. unfold handleSubsequent.
    destruct (asm_active a) eqn:Hact; cbn [negb orb]; [|done]. destruct (_ <? 5)%nat; [done|].
    destruct (negb _); [done|]. destruct (payloadStart seg _ 5); [|done]. by apply Hplace.
Qed.

Lemma feedSegment_safe_witness :
  exists a' out, @feedSegment 0 freshAssembler (makeSegment sample_datagram 5 0 true) = Some (a', out) /\ asm_ok a'.
Proof.
  destruct (@feedSegment_safe 0 freshAssembler (makeSegment sample_datagram 5 0 true)) as (a' & out & Hf & Hok & _).
  - intros Hact. discriminate Hact.
  - intros Hact. discriminate Hact.
  - exists a', out. split; [exact Hf|exact Hok].
Defined.

(** A FIRST segment of a ten-byte datagram, one that announces 1024 bytes with an
    empty extension it does not have room for, and a SUBSEQUENT at offset 100. *)
Definition seg_start : list Z := appendFcs [0x55; 0xC0; 10; 0x50; 1; 2; 3].
Definition seg_malformed_first : list Z := appendFcs [0x55; 0xC4; 0; 0x58; 9].
Definition seg_far : list Z := appendFcs [0x55; 0xE4; 0; 0x50; 100; 7].

(** The guard is needed: after a valid FIRST segment, a malformed FIRST one
    raises the stored size without resizing the buffers, and the next SUBSEQUENT
    segment of that session is written past their end. *)
Theorem malformed_first_overruns `{Oob} :
  (exists a, feedSegments freshAssembler [seg_start; seg_malformed_first] = Some (a, [None; None]) /\
     asm_active a = true /\ asm_datagramSize a = 1024%nat /\ length (asm_buffer a) = 10%nat) /\
  feedSegments freshAssembler [seg_start; seg_malformed_first; seg_far] = None.
Proof. split; [eexists; vm_compute; by repeat split|by vm_compute]. Qed.
