(* ===== verification/EncodedValue.v ===== *)
(** * Signed fields of 1, 2 or 4 bytes

    The codec of [zwave-protocol/application/EncodedValue.cpp] (precision, scale
    and size packed in a flag byte, then a signed big-endian value) and the field
    reader that [Configuration.cpp] and [Meter.cpp] repeat.  Registers are the
    C++ [uint32_t]s, wrapped to 32 bits at every step. *)

From S2P Require Import Prelude.

(** ** Registers *)

Definition FLAG_SIZE_MASK : Z := 0x07.
Definition FLAG_SCALE_MASK : Z := 0x18.
Definition FLAG_SCALE_SHIFT : Z := 3.
Definition FLAG_PRECISION_MASK : Z := 0xE0.
Definition FLAG_PRECISION_SHIFT : Z := 5.
Definition SCALE_FIELD_MASK : Z := 0x03.
Definition PRECISION_FIELD_MASK : Z := 0x07.

Definition isValidSize (size : Z) : bool := (size =? 1) || (size =? 2) || (size =? 4).

Definition signBit (size : Z) : Z := u32 (Z.shiftl 1 (size * 8 - 1)).

Definition valueMask (size : Z) : Z :=
  if size =? 4 then u32 (Z.lnot 0) else u32 (Z.shiftl 1 (size * 8) - 1).

(** [raw = (raw << 8) | byte] over [size] bytes from [off]. *)
Definition readRaw `{Oob} (p : list Z) (off : nat) (size : Z) : Z :=
  foldl (fun raw i => u32 (Z.lor (Z.shiftl raw 8) p.[(off + i)%nat])) 0 (seq 0 (Z.to_nat size)).

Definition signExtend (raw size : Z) : Z :=
  i32 (if negb (Z.land raw (signBit size) =? 0) then Z.lor raw (u32 (Z.lnot (valueMask size))) else raw).

Definition readSigned `{Oob} (p : list Z) (off : nat) (size : Z) : Z := signExtend (readRaw p off size) size.

(** The low [size] bytes of [value], most significant first. *)
Definition writeBytes (value size : Z) : list Z :=
  let raw := u32 value in
  (fun i => u8 (Z.land (Z.shiftr raw ((size - 1 - Z.of_nat i) * 8)) 0xFF)) <$> seq 0 (Z.to_nat size).

(** ** The flag-byte codec *)

Record EncodedDecoded := mkDecoded { ev_size : Z; ev_scale : Z; ev_precision : Z; ev_value : Z }.

Definition ev_decode `{Oob} (flags : Z) (valueBytes : list Z) : option EncodedDecoded :=
  let size := u8 (Z.land flags FLAG_SIZE_MASK) in
  if negb (isValidSize size) || (zlen valueBytes <? size) then None else
  Some (mkDecoded size
          (u8 (Z.shiftr (Z.land flags FLAG_SCALE_MASK) FLAG_SCALE_SHIFT))
          (u8 (Z.shiftr (Z.land flags FLAG_PRECISION_MASK) FLAG_PRECISION_SHIFT))
          (readSigned valueBytes 0 size)).

Definition chooseSize (value : Z) : Z :=
  if (-128 <=? value) && (value <=? 127) then 1 else
  if (-32768 <=? value) && (value <=? 32767) then 2 else 4.

Definition packFlags (precision scale size : Z) : Z :=
  u8 (Z.lor (Z.lor (Z.shiftl (Z.land precision PRECISION_FIELD_MASK) FLAG_PRECISION_SHIFT)
                   (Z.shiftl (Z.land scale SCALE_FIELD_MASK) FLAG_SCALE_SHIFT)) size).

Definition ev_encode (precision scale value : Z) : list Z :=
  let size := chooseSize value in packFlags precision scale size :: writeBytes value size.

(** ** Reading what was written *)

Lemma validSize_cases size : isValidSize size = true -> size = 1 \/ size = 2 \/ size = 4.
Proof. unfold isValidSize. lia. Qed.

Lemma writeBytes_length value size : 0 <= size -> zlen (writeBytes value size) = size.
Proof. intros. unfold writeBytes. rewrite length_fmap, length_seq. lia. Qed.

Lemma writeBytes_ok value size : bytes_ok (writeBytes value size).
Proof. unfold writeBytes. apply Forall_fmap, Forall_true. intros. apply u8_range. Qed.

Lemma byte_of x k : 0 <= k -> u8 (Z.land (Z.shiftr x k) 0xFF) = (x `div` 2 ^ k) `mod` 256.
Proof.
  intros Hk. change 0xFF with (2 ^ 8 - 1). rewrite land_mask, Z.shiftr_div_pow2 by lia.
  apply u8_id. apply Z.mod_pos_bound. lia.
Qed.

(** One step of the reader appends a base-256 digit. *)
Lemma read_step raw b :
  0 <= raw < 2 ^ 24 -> byte_ok b -> u32 (Z.lor (Z.shiftl raw 8) b) = raw * 256 + b.
Proof.
  unfold byte_ok. intros Hr Hb. rewrite lor_shiftl_add by lia. apply u32_id. lia.
Qed.

Lemma readRaw_write `{Oob} value size pre post :
  isValidSize size = true ->
  readRaw (pre ++ writeBytes value size ++ post) (length pre) size = value `mod` 2 ^ (8 * size).
Proof.
  intros Hs. set (p := pre ++ _).
  assert (Hrd : forall i, (i < Z.to_nat size)%nat ->
    p.[(length pre + i)%nat] = (u32 value `div` 2 ^ ((size - 1 - Z.of_nat i) * 8)) `mod` 256).
  { intros i Hi. unfold p. rewrite byteAt_app_r by lia. rewrite byteAt_app_l
      by (unfold writeBytes; rewrite length_fmap, length_seq; lia).
    apply byteAt_lookup. unfold writeBytes.
    replace (length pre + i - length pre)%nat with i by lia.
    rewrite list_lookup_fmap, lookup_seq_lt by done. cbn [fmap option_fmap option_map]. f_equal.
    apply byte_of. lia. }
  assert (Hb : forall k, byte_ok ((u32 value `div` 2 ^ k) `mod` 256))
    by (intros; apply Z.mod_pos_bound; lia).
  unfold readRaw. apply validSize_cases in Hs as [->|[->| ->]].
  - change (seq 0 (Z.to_nat 1)) with [0%nat]. cbn [foldl].
    rewrite Hrd, read_step by (done || lia). cbn [Z.sub Z.mul Z.of_nat Z.add Z.opp].
    unfold u32. change (2 ^ (8 * 1)) with 256. Z.to_euclidean_division_equations. lia.
  - change (seq 0 (Z.to_nat 2)) with [0%nat; 1%nat]. cbn [foldl].
    rewrite !Hrd by lia. pose proof (Hb ((2 - 1 - Z.of_nat 0) * 8)). pose proof (Hb ((2 - 1 - Z.of_nat 1) * 8)).
    unfold byte_ok in *. rewrite !read_step by (rewrite ?read_step by (unfold byte_ok; lia); unfold byte_ok; lia).
    change (2 ^ (8 * 2)) with 65536. change (2 ^ ((2 - 1 - Z.of_nat 0) * 8)) with 256.
    change (2 ^ ((2 - 1 - Z.of_nat 1) * 8)) with 1. unfold u32. Z.to_euclidean_division_equations. lia.
  - change (seq 0 (Z.to_nat 4)) with [0%nat; 1%nat; 2%nat; 3%nat]. cbn [foldl]. rewrite !Hrd by lia.
    change (2 ^ (8 * 4)) with 4294967296. change (2 ^ ((4 - 1 - Z.of_nat 0) * 8)) with 16777216.
    change (2 ^ ((4 - 1 - Z.of_nat 1) * 8)) with 65536. change (2 ^ ((4 - 1 - Z.of_nat 2) * 8)) with 256.
    change (2 ^ ((4 - 1 - Z.of_nat 3) * 8)) with 1.
    pose proof (Hb 24) as H0. pose proof (Hb 16) as H1. pose proof (Hb 8) as H2. pose proof (Hb 0) as H3.
    change (2 ^ 24) with 16777216 in H0. change (2 ^ 16) with 65536 in H1. change (2 ^ 8) with 256 in H2.
    change (2 ^ 0) with 1 in H3. unfold byte_ok in H0, H1, H2, H3.
    rewrite (read_step 0) by (unfold byte_ok; lia).
    rewrite (read_step (0 * 256 + _)) by (unfold byte_ok; lia).
    rewrite (read_step ((0 * 256 + _) * 256 + _)) by (unfold byte_ok; lia).
    rewrite (read_step (((0 * 256 + _) * 256 + _) * 256 + _)) by (unfold byte_ok; lia).
    pose proof (u32_range value) as Hv. unfold u32 in Hv |- *. clear - Hv.
    generalize dependent (value `mod` 4294967296). intros r Hr. Z.to_euclidean_division_equations. lia.
Qed.

Lemma testbit_top x n : 0 <= n -> 0 <= x < 2 ^ (n + 1) -> Z.testbit x n = (2 ^ n <=? x).
Proof.
  intros Hn Hx. rewrite Z.pow_add_r in Hx by lia. rewrite Z.testbit_odd, Z.shiftr_div_pow2 by done.
  assert (0 < 2 ^ n) by lia. destruct (Z.leb_spec (2 ^ n) x).
  - replace (x / 2 ^ n) with 1; [done|]. apply Z.div_unique with (x - 2 ^ n); lia.
  - by rewrite Z.div_small by lia.
Qed.

(** Sign extension is the two's-complement reading of the field. *)
Lemma signExtend_signed raw size :
  isValidSize size = true -> 0 <= raw < 2 ^ (8 * size) ->
  signExtend raw size = signed (8 * size) raw.
Proof.
  intros Hs Hr. unfold signExtend, signed. rewrite (Z.mod_small raw) by done.
  assert (Hsb : signBit size = Z.shiftl 1 (8 * size - 1)).
  { apply validSize_cases in Hs as [->|[->| ->]]; done. }
  rewrite Hsb, land_bit_zero, negb_involutive, testbit_top
    by (try rewrite Z.sub_add; apply validSize_cases in Hs; lia).
  unfold i32, signed.
  replace (raw <? 2 ^ (8 * size - 1)) with (negb (2 ^ (8 * size - 1) <=? raw)) by (symmetry; apply Z.ltb_antisym).
  destruct (Z.leb_spec (2 ^ (8 * size - 1)) raw) as [Hle|Hlt]; cbn [negb].
  - change (2 ^ 32) with 4294967296. change (2 ^ (32 - 1)) with 2147483648.
    apply validSize_cases in Hs as [->|[->| ->]].
    + change (u32 (Z.lnot (valueMask 1))) with (Z.shiftl 16777215 8).
      change (2 ^ (8 * 1)) with 256 in *. change (2 ^ (8 * 1 - 1)) with 128 in *.
      rewrite Z.lor_comm, lor_shiftl_add; change (2 ^ 8) with 256; [|lia..].
      rewrite Z.mod_small by lia. zcase; lia.
    + change (u32 (Z.lnot (valueMask 2))) with (Z.shiftl 65535 16).
      change (2 ^ (8 * 2)) with 65536 in *. change (2 ^ (8 * 2 - 1)) with 32768 in *.
      rewrite Z.lor_comm, lor_shiftl_add; change (2 ^ 16) with 65536; [|lia..].
      rewrite Z.mod_small by lia. zcase; lia.
    + change (u32 (Z.lnot (valueMask 4))) with 0. rewrite Z.lor_0_r.
      change (2 ^ (8 * 4)) with 4294967296 in *. change (2 ^ (8 * 4 - 1)) with 2147483648 in *.
      rewrite Z.mod_small by lia. zcase; lia.
  - assert (raw < 2147483648 /\ 0 <= raw < 4294967296) as [? ?].
    { apply validSize_cases in Hs as [->|[->| ->]]; [change (2 ^ (8 * 1 - 1)) with 128 in *
        |change (2 ^ (8 * 2 - 1)) with 32768 in *|change (2 ^ (8 * 4 - 1)) with 2147483648 in *]; lia. }
    change (2 ^ 32) with 4294967296. change (2 ^ (32 - 1)) with 2147483648.
    rewrite Z.mod_small by lia. zcase; lia.
Qed.

Lemma signed_mod w v : 0 <= w -> signed w (v `mod` 2 ^ w) = signed w v.
Proof. intros. unfold signed. by rewrite Z.mod_mod by lia. Qed.

Lemma signed_fits w v : 0 < w -> - 2 ^ (w - 1) <= v < 2 ^ (w - 1) -> signed w v = v.
Proof.
  intros Hw Hv. unfold signed. assert (H2 : 2 ^ w = 2 * 2 ^ (w - 1)) by (rewrite <-Z.pow_succ_r by lia; f_equal; lia).
  destruct (Z.lt_ge_cases v 0).
  - replace (v `mod` 2 ^ w) with (v + 2 ^ w); [zcase; lia|]. apply Z.mod_unique with (-1); lia.
  - rewrite Z.mod_small by lia. zcase; lia.
Qed.

Lemma readSigned_write `{Oob} value size pre post :
  isValidSize size = true ->
  readSigned (pre ++ writeBytes value size ++ post) (length pre) size = signed (8 * size) value.
Proof.
  intros Hs. unfold readSigned. rewrite readRaw_write by done.
  assert (0 < size) by (apply validSize_cases in Hs; lia).
  rewrite signExtend_signed by (done || apply Z.mod_pos_bound; lia). apply signed_mod. lia.
Qed.

Lemma readSigned_write0 `{Oob} value size post :
  isValidSize size = true -> readSigned (writeBytes value size ++ post) 0 size = signed (8 * size) value.
Proof. apply (readSigned_write value size []). Qed.

Lemma readSigned_indep (o1 o2 : Oob) p off size :
  (off + Z.to_nat size <= length p)%nat ->
  readSigned (H := o1) p off size = readSigned (H := o2) p off size.
Proof.
  intros Hl. unfold readSigned, readRaw. f_equal.
  assert (Hall : Forall (fun i => off + i < length p)%nat (seq 0 (Z.to_nat size)))
    by (apply Forall_forall; intros i [_ Hi]%elem_of_seq; lia).
  generalize 0 as acc. induction Hall as [|i l Hi Hall IH]; intros acc; [done|]. cbn.
  rewrite (byteAt_indep o1 o2) by done. apply IH.
Qed.

(** ** The flag byte *)

Lemma chooseSize_valid v : isValidSize (chooseSize v) = true.
Proof. unfold chooseSize. destruct (_ && _); [done|]. by destruct (_ && _). Qed.

Lemma chooseSize_fits v : - 2 ^ 31 <= v < 2 ^ 31 ->
  - 2 ^ (8 * chooseSize v - 1) <= v < 2 ^ (8 * chooseSize v - 1).
Proof.
  intros Hv. unfold chooseSize.
  destruct ((-128 <=? v) && (v <=? 127)) eqn:H1; [zbool; change (2 ^ (8 * 1 - 1)) with 128; lia|].
  destruct ((-32768 <=? v) && (v <=? 32767)) eqn:H2; [zbool; change (2 ^ (8 * 2 - 1)) with 32768; lia|]. exact Hv.
Qed.

Lemma packFlags_fields precision scale size :
  0 <= precision < 8 -> 0 <= scale < 4 -> isValidSize size = true ->
  let f := packFlags precision scale size in
  u8 (Z.land f FLAG_SIZE_MASK) = size /\
  u8 (Z.shiftr (Z.land f FLAG_SCALE_MASK) FLAG_SCALE_SHIFT) = scale /\
  u8 (Z.shiftr (Z.land f FLAG_PRECISION_MASK) FLAG_PRECISION_SHIFT) = precision.
Proof.
  intros Hp Hsc Hs f. subst f.
  pose proof (range_forall2 (fun precision scale => forallb (fun size =>
    let f := packFlags precision scale size in
    (u8 (Z.land f FLAG_SIZE_MASK) =? size) &&
    (u8 (Z.shiftr (Z.land f FLAG_SCALE_MASK) FLAG_SCALE_SHIFT) =? scale) &&
    (u8 (Z.shiftr (Z.land f FLAG_PRECISION_MASK) FLAG_PRECISION_SHIFT) =? precision)) [1; 2; 4]) 8 4
    ltac:(by vm_compute) precision scale Hp Hsc) as Hc. cbv beta in Hc. rewrite forallb_forall in Hc.
  specialize (Hc size). cbv zeta in Hc. apply validSize_cases in Hs.
  assert (In size [1; 2; 4]) as Hin by (cbn; intuition). specialize (Hc Hin). zbool. done.
Qed.

(** Every 32-bit signed reading survives encoding and decoding with its
    precision and scale, in the smallest field that holds it. *)
Theorem ev_roundtrip `{Oob} precision scale value post :
  0 <= precision < 8 -> 0 <= scale < 4 -> - 2 ^ 31 <= value < 2 ^ 31 ->
  exists flags bytes, ev_encode precision scale value = flags :: bytes /\
    zlen bytes = chooseSize value /\
    ev_decode flags (bytes ++ post) = Some (mkDecoded (chooseSize value) scale precision value).
Proof.
  intros Hp Hs Hv. eexists _, _. split; [reflexivity|].
  pose proof (chooseSize_valid value) as Hsz. pose proof (validSize_cases _ Hsz) as Hc.
  destruct (packFlags_fields precision scale _ Hp Hs Hsz) as (H1 & H2 & H3).
  split; [apply writeBytes_length; lia|]. unfold ev_decode. rewrite H1, H2, H3, Hsz, length_app.
  pose proof (writeBytes_length value (chooseSize value) ltac:(lia)).
  rewrite (proj2 (Z.ltb_ge _ (chooseSize value))) by lia. cbn [negb orb].
  rewrite readSigned_write0, signed_fits by (done || lia || by apply chooseSize_fits). done.
Qed.

Lemma ev_roundtrip_witness :
  exists flags bytes, ev_encode 2 1 (-2150) = flags :: bytes /\ zlen bytes = chooseSize (-2150) /\
    @ev_decode 0 flags (bytes ++ [7]) = Some (mkDecoded (chooseSize (-2150)) 1 2 (-2150)).
Proof. apply (@ev_roundtrip 0 2 1 (-2150) [7]); lia. Defined.
