(* ===== verification/CommandClasses.v ===== *)
(** * Application command classes

    The codecs of [zwave-protocol/application/]: one module per command class
    with its report decoder(s) and the hand-written encoders.  The class and
    command bytes are those [InterfaceManifest.yml] feeds the code generator. *)

From Stdlib Require Import String.
From S2P Require Import Prelude EncodedValue.

(** The check every decoder starts with: enough bytes, the class, the command. *)
Definition isFrame `{Oob} (p : list Z) (n : nat) (cc cmd : Z) : bool :=
  negb ((length p <? n)%nat || negb (p.[0%nat] =? cc) || negb (p.[1%nat] =? cmd)).

(** [(payload[offset] << 8) | payload[offset + 1]] *)
Definition readBeU16 `{Oob} (p : list Z) (off : nat) : Z :=
  u16 (Z.lor (Z.shiftl p.[off] 8) p.[(off + 1)%nat]).

Definition flagSet (b mask : Z) : bool := negb (Z.land b mask =? 0).

Module Association.
Definition COMMAND_CLASS : Z := 0x85.
Definition encodeMemberList (command groupId : Z) (members : list Z) : list Z :=
  [COMMAND_CLASS; command; groupId] ++ members.
Definition encodeSet (groupId : Z) (members : list Z) : list Z := encodeMemberList 0x01 groupId members.
Definition encodeRemove (groupId : Z) (members : list Z) : list Z := encodeMemberList 0x04 groupId members.
Definition encodeGet (groupId : Z) : list Z := [COMMAND_CLASS; 0x02; groupId].
Definition encodeGroupingsGet : list Z := [COMMAND_CLASS; 0x05].
Record Report := mkReport { groupId : Z; maxSupported : Z; reportsToFollow : Z; members : list Z }.
Definition decodeReport `{Oob} (p : list Z) : option Report :=
  if negb (isFrame p 5 COMMAND_CLASS 0x03) then None else
  Some (mkReport p.[2%nat] p.[3%nat] p.[4%nat] (if (5 <? length p)%nat then copyFrom 5 p else [])).
Definition decodeGroupingsReport `{Oob} (p : list Z) : option Z :=
  if negb (isFrame p 3 COMMAND_CLASS 0x06) then None else Some p.[2%nat].
End Association.

Module Basic.
Definition COMMAND_CLASS : Z := 0x20.
Record Report := mkReport { currentValue : Z; targetValue : Z; duration : Z; wireFormatV2 : bool }.
Definition decodeReport `{Oob} (p : list Z) : option Report :=
  if negb (isFrame p 3 COMMAND_CLASS 0x03) then None else
  Some (if (5 <=? length p)%nat then mkReport p.[2%nat] p.[3%nat] p.[4%nat] true
        else mkReport p.[2%nat] p.[2%nat] 0 false).
Definition decodeSet `{Oob} (p : list Z) : option Z :=
  if negb (isFrame p 3 COMMAND_CLASS 0x01) then None else Some p.[2%nat].
End Basic.

Module Battery.
Definition COMMAND_CLASS : Z := 0x80.
Definition LEVEL_LOW_WARNING : Z := 0xFF.
Record Report := mkReport { level : Z; lowBattery : bool }.
Definition decodeReport `{Oob} (p : list Z) : option Report :=
  if negb (isFrame p 3 COMMAND_CLASS 0x03) then None else
  Some (mkReport p.[2%nat] (p.[2%nat] =? LEVEL_LOW_WARNING)).
End Battery.

Module BinarySwitch.
Definition COMMAND_CLASS : Z := 0x25.
Inductive State := Off | On | Unknown.
Record Report := mkReport { rawValue : Z; state : State }.
Definition decodeReport `{Oob} (p : list Z) : option Report :=
  if negb (isFrame p 3 COMMAND_CLASS 0x03) then None else
  let raw := p.[2%nat] in
  Some (mkReport raw (if raw =? 0x00 then Off else if raw =? 0xFE then Unknown else On)).
End BinarySwitch.

Module CentralScene.
Definition COMMAND_CLASS : Z := 0x5B.
Record Notification := mkNotification {
  sequenceNumber : Z; keyAttribute : Z; sceneNumber : Z; slowRefresh : bool }.
Definition decodeNotification `{Oob} (p : list Z) : option Notification :=
  if negb (isFrame p 5 COMMAND_CLASS 0x03) then None else
  let properties := p.[3%nat] in
  Some (mkNotification p.[2%nat] (u8 (Z.land properties 0x07)) p.[4%nat] (flagSet properties 0x80)).
End CentralScene.

Module ColorSwitch.
Definition COMMAND_CLASS : Z := 0x33.
Record Report := mkReport { componentId : Z; value : Z; targetValue : Z; duration : Z }.
Definition encodeGet (componentId : Z) : list Z := [COMMAND_CLASS; 0x03; componentId].
(** The loop over whole pairs; an odd trailing byte is left out. *)
Fixpoint pairBytes (components : list Z) : list Z :=
  match components with a :: b :: rest => a :: b :: pairBytes rest | _ => [] end.
Definition encodeSet (components : list Z) (duration : Z) : list Z :=
  [COMMAND_CLASS; 0x05; u8 (zlen components `div` 2)] ++ pairBytes components ++ [duration].
Definition decodeReport `{Oob} (p : list Z) : option Report :=
  if negb (isFrame p 4 COMMAND_CLASS 0x04) then None else
  Some (if (6 <=? length p)%nat then mkReport p.[2%nat] p.[3%nat] p.[4%nat] p.[5%nat]
        else mkReport p.[2%nat] p.[3%nat] p.[3%nat] 0).
End ColorSwitch.

Module Configuration.
Definition COMMAND_CLASS : Z := 0x70.
Record Report := mkReport { parameter : Z; size : Z; value : Z }.
Definition encodeSet (parameter size value : Z) : list Z :=
  if negb (isValidSize size) then [] else
  [COMMAND_CLASS; 0x04; parameter; size] ++ writeBytes value size.
Definition encodeGet (parameter : Z) : list Z := [COMMAND_CLASS; 0x05; parameter].
Definition decodeReport `{Oob} (p : list Z) : option Report :=
  if negb (isFrame p 4 COMMAND_CLASS 0x06) then None else
  let size := p.[3%nat] in
  if negb (isValidSize size) then None else
  if (length p <? 4 + Z.to_nat size)%nat then None else
  Some (mkReport p.[2%nat] size (readSigned p 4 size)).
End Configuration.

Module DoorLock.
Definition COMMAND_CLASS : Z := 0x62.
Record OperationReport := mkReport {
  currentMode : Z; handlesMode : Z; condition : Z; lockTimeoutMinutes : Z;
  lockTimeoutSeconds : Z; targetMode : Z; duration : Z }.
Definition decodeOperationReport `{Oob} (p : list Z) : option OperationReport :=
  if negb (isFrame p 7 COMMAND_CLASS 0x03) then None else
  let '(target, dur) := if (9 <=? length p)%nat then (p.[7%nat], p.[8%nat]) else (0, 0) in
  Some (mkReport p.[2%nat] p.[3%nat] p.[4%nat] p.[5%nat] p.[6%nat] target dur).
End DoorLock.

Module Indicator.
Definition COMMAND_CLASS : Z := 0x87.
Definition decodeReport `{Oob} (p : list Z) : option Z :=
  if negb (isFrame p 3 COMMAND_CLASS 0x03) then None else Some p.[2%nat].
End Indicator.

Module ManufacturerSpecific.
Definition COMMAND_CLASS : Z := 0x72.
Record Report := mkReport { manufacturerId : Z; productTypeId : Z; productId : Z }.
Definition decodeReport `{Oob} (p : list Z) : option Report :=
  if negb (isFrame p 8 COMMAND_CLASS 0x05) then None else
  Some (mkReport (readBeU16 p 2) (readBeU16 p 4) (readBeU16 p 6)).
End ManufacturerSpecific.

Module Meter.
Definition COMMAND_CLASS : Z := 0x32.
Record Report := mkReport {
  meterType : Z; rateType : Z; scale : Z; precision : Z; value : Z; deltaTime : Z;
  previousValue : Z; hasPrevious : bool }.
Definition encodeGet (scale : Z) : list Z :=
  [COMMAND_CLASS; 0x01; u8 (Z.shiftl (Z.land scale 0x03) 3)].
Definition decodeReport `{Oob} (p : list Z) : option Report :=
  if negb (isFrame p 4 COMMAND_CLASS 0x02) then None else
  let properties1 := p.[2%nat] in
  let flags := p.[3%nat] in
  let size := u8 (Z.land flags FLAG_SIZE_MASK) in
  if negb (isValidSize size) || (length p <? 4 + Z.to_nat size + 2)%nat then None else
  let scaleLow := u8 (Z.shiftr (Z.land flags FLAG_SCALE_MASK) FLAG_SCALE_SHIFT) in
  let scaleBit2 := if flagSet properties1 0x80 then 1 else 0 in
  let deltaOffset := (4 + Z.to_nat size)%nat in
  let deltaTime := readBeU16 p deltaOffset in
  let report := mkReport (u8 (Z.land properties1 0x1F)) (u8 (Z.shiftr (Z.land properties1 0x60) 5))
    (u8 (Z.lor (Z.shiftl scaleBit2 2) scaleLow))
    (u8 (Z.shiftr (Z.land flags FLAG_PRECISION_MASK) FLAG_PRECISION_SHIFT))
    (readSigned p 4 size) deltaTime in
  if negb (deltaTime =? 0) then
    let prevOffset := (deltaOffset + 2)%nat in
    if (length p <? prevOffset + Z.to_nat size)%nat then None
    else Some (report (readSigned p prevOffset size) true)
  else Some (report 0 false).
Definition meterTypeName (meterType : Z) : option string :=
  if meterType =? 1 then Some "electric"%string else
  if meterType =? 2 then Some "gas"%string else
  if meterType =? 3 then Some "water"%string else None.
Definition scaleUnit (meterType scale : Z) : string :=
  (if meterType =? 1 then
     if scale =? 0 then "kWh"%string else if scale =? 1 then "kVAh"%string else if scale =? 2 then "W"%string else
     if scale =? 3 then "pulses"%string else if scale =? 4 then "V"%string else if scale =? 5 then "A"%string else
     if scale =? 6 then "power factor"%string else ""%string
   else if meterType =? 2 then
     if scale =? 0 then "m^3"%string else if scale =? 1 then "ft^3"%string else if scale =? 3 then "pulses"%string else ""%string
   else if meterType =? 3 then
     if scale =? 0 then "m^3"%string else if scale =? 1 then "ft^3"%string else if scale =? 2 then "gal"%string else
     if scale =? 3 then "pulses"%string else ""%string
   else ""%string).
End Meter.

Module MultiChannel.
Definition COMMAND_CLASS : Z := 0x60.
Definition ENDPOINT_MASK : Z := 0x7F.
Record Encap := mkEncap {
  sourceEndpoint : Z; destinationEndpoint : Z; bitAddress : bool; innerCommand : list Z }.
Definition decodeEncap `{Oob} (p : list Z) : option Encap :=
  if negb (isFrame p 5 COMMAND_CLASS 0x0D) then None else
  Some (mkEncap (u8 (Z.land p.[2%nat] ENDPOINT_MASK)) (u8 (Z.land p.[3%nat] ENDPOINT_MASK))
          (flagSet p.[3%nat] 0x80) (copyFrom 4 p)).
Definition encodeEncap (src dst : Z) (inner : list Z) : list Z :=
  [COMMAND_CLASS; 0x0D; u8 (Z.land src ENDPOINT_MASK); u8 (Z.land dst ENDPOINT_MASK)] ++ inner.
Definition encodeEndpointGet : list Z := [COMMAND_CLASS; 0x07].
Record EndpointReport := mkEndpointReport { endpointCount : Z; dynamic : bool; identical : bool }.
Definition decodeEndpointReport `{Oob} (p : list Z) : option EndpointReport :=
  if negb (isFrame p 4 COMMAND_CLASS 0x08) then None else
  Some (mkEndpointReport (u8 (Z.land p.[3%nat] ENDPOINT_MASK)) (flagSet p.[2%nat] 0x80) (flagSet p.[2%nat] 0x40)).
Definition encodeCapabilityGet (endpoint : Z) : list Z :=
  [COMMAND_CLASS; 0x09; u8 (Z.land endpoint ENDPOINT_MASK)].
Record CapabilityReport := mkCapability {
  endpoint : Z; generic : Z; specific : Z; commandClasses : list Z }.
Definition decodeCapabilityReport `{Oob} (p : list Z) : option CapabilityReport :=
  if negb (isFrame p 5 COMMAND_CLASS 0x0A) then None else
  Some (mkCapability (u8 (Z.land p.[2%nat] ENDPOINT_MASK)) p.[3%nat] p.[4%nat] (copyFrom 5 p)).
End MultiChannel.

Module MultichannelAssociation.
Definition COMMAND_CLASS : Z := 0x8E.
Definition MARKER : Z := 0x00.
Record EndpointMember := mkMember { nodeId : Z; endpoint : Z }.
Record Report := mkReport {
  groupId : Z; maxSupported : Z; reportsToFollow : Z;
  nodeMembers : list Z; endpointMembers : list EndpointMember }.
Definition memberBytes (ms : list EndpointMember) : list Z :=
  flat_map (fun m => [nodeId m; endpoint m]) ms.
Definition encodeMembers (command groupId : Z) (nodes : list Z) (eps : list EndpointMember)
    (emitMarker : bool) : list Z :=
  [COMMAND_CLASS; command; groupId] ++ nodes ++ (if emitMarker then MARKER :: memberBytes eps else []).
Definition encodeSet (groupId : Z) (nodes : list Z) (eps : list EndpointMember) : list Z :=
  encodeMembers 0x01 groupId nodes eps true.
Definition encodeRemove (groupId : Z) (nodes : list Z) (eps : list EndpointMember) : list Z :=
  let removeAll := bool_decide (nodes = []) && match eps with [] => true | _ => false end in
  encodeMembers 0x04 groupId nodes eps (negb removeAll).
Definition encodeGet (groupId : Z) : list Z := [COMMAND_CLASS; 0x02; groupId].
Definition encodeGroupingsGet : list Z := [COMMAND_CLASS; 0x05].
(** [std::find(remaining, MARKER)]: the bytes before it, and those after it. *)
Fixpoint splitMarker (l : list Z) : list Z * option (list Z) :=
  match l with
  | [] => ([], None)
  | b :: l => if b =? MARKER then ([], Some l) else let '(pre, post) := splitMarker l in (b :: pre, post)
  end.
(** The loop over (node, endpoint) pairs: [*iter] and [*(iter + 1)] until [iter] is the
    end.  From a single byte the second read is behind the end. *)
Fixpoint readMembers `{Oob} (l : list Z) : list EndpointMember :=
  match l with
  | a :: b :: l => mkMember a b :: readMembers l
  | [a] => [mkMember a oob]
  | [] => []
  end.
Definition decodeReport `{Oob} (p : list Z) : option Report :=
  if negb (isFrame p 5 COMMAND_CLASS 0x03) then None else
  let '(nodes, post) := splitMarker (copyFrom 5 p) in
  match post with
  | None => Some (mkReport p.[2%nat] p.[3%nat] p.[4%nat] nodes [])
  | Some eps =>
      if negb (length eps `mod` 2 =? 0)%nat then None
      else Some (mkReport p.[2%nat] p.[3%nat] p.[4%nat] nodes (readMembers eps))
  end.
Definition decodeGroupingsReport `{Oob} (p : list Z) : option Z :=
  if negb (isFrame p 3 COMMAND_CLASS 0x06) then None else Some p.[2%nat].
End MultichannelAssociation.

Module MultilevelSwitch.
Definition COMMAND_CLASS : Z := 0x26.
Record Report := mkReport { currentValue : Z; targetValue : Z; duration : Z; wireFormatV2 : bool }.
Definition decodeReport `{Oob} (p : list Z) : option Report :=
  if negb (isFrame p 3 COMMAND_CLASS 0x03) then None else
  Some (if (5 <=? length p)%nat then mkReport p.[2%nat] p.[3%nat] p.[4%nat] true
        else mkReport p.[2%nat] p.[2%nat] 0 false).
End MultilevelSwitch.

Module NodeVersion.
Definition COMMAND_CLASS : Z := 0x86.
Record Report := mkReport {
  libraryType : Z; protocolVersion : Z; protocolSubVersion : Z;
  applicationVersion : Z; applicationSubVersion : Z }.
Definition decodeReport `{Oob} (p : list Z) : option Report :=
  if negb (isFrame p 7 COMMAND_CLASS 0x12) then None else
  Some (mkReport p.[2%nat] p.[3%nat] p.[4%nat] p.[5%nat] p.[6%nat]).
End NodeVersion.

Module Notification.
Definition COMMAND_CLASS : Z := 0x71.
Record Report := mkReport { status : Z; notificationType : Z; event : Z; parameters : list Z }.
Definition encodeGet (notificationType : Z) : list Z := [COMMAND_CLASS; 0x04; 0x00; notificationType; 0x00].
Definition decodeReport `{Oob} (p : list Z) : option Report :=
  if negb (isFrame p 9 COMMAND_CLASS 0x05) then None else
  let paramLength := Z.to_nat (Z.land p.[8%nat] 0x1F) in
  if (length p <? 9 + paramLength)%nat then None else
  Some (mkReport p.[5%nat] p.[6%nat] p.[7%nat] (copyRange 9 paramLength p)).
End Notification.

Module SceneActivation.
Definition COMMAND_CLASS : Z := 0x2B.
Record Set_ := mkSet { sceneId : Z; dimmingDuration : Z }.
Definition decodeSet `{Oob} (p : list Z) : option Set_ :=
  if negb (isFrame p 3 COMMAND_CLASS 0x01) then None else
  Some (mkSet p.[2%nat] (if (3 <? length p)%nat then p.[3%nat] else 0)).
End SceneActivation.

Module SensorBinary.
Definition COMMAND_CLASS : Z := 0x30.
Record Report := mkReport { value : Z; sensorType : Z }.
Definition decodeReport `{Oob} (p : list Z) : option Report :=
  if negb (isFrame p 3 COMMAND_CLASS 0x03) then None else
  Some (mkReport p.[2%nat] (if (3 <? length p)%nat then p.[3%nat] else 0)).
End SensorBinary.

Module SensorMultilevel.
Definition COMMAND_CLASS : Z := 0x31.
Record Report := mkReport { sensorType : Z; scale : Z; precision : Z; value : Z }.
Definition decodeReport `{Oob} (p : list Z) : option Report :=
  if negb (isFrame p 4 COMMAND_CLASS 0x05) then None else
  match ev_decode p.[3%nat] (copyFrom 4 p) with
  | None => None
  | Some d => Some (mkReport p.[2%nat] (ev_scale d) (ev_precision d) (ev_value d))
  end.
End SensorMultilevel.

Module Supervision.
Definition COMMAND_CLASS : Z := 0x6C.
Definition SESSION_ID_MASK : Z := 0x3F.
Definition MORE_UPDATES_FLAG : Z := 0x80.
Record Report := mkReport { sessionId : Z; moreStatusUpdates : bool; status : Z; duration : Z }.
Definition encodeGet (sessionId : Z) (requestUpdates : bool) (inner : list Z) : list Z :=
  let properties := u8 (Z.lor (if requestUpdates then MORE_UPDATES_FLAG else 0) (Z.land sessionId SESSION_ID_MASK)) in
  [COMMAND_CLASS; 0x01; properties; u8 (zlen inner)] ++ inner.
Definition decodeReport `{Oob} (p : list Z) : option Report :=
  if negb (isFrame p 5 COMMAND_CLASS 0x02) then None else
  let properties := p.[2%nat] in
  Some (mkReport (u8 (Z.land properties SESSION_ID_MASK)) (flagSet properties MORE_UPDATES_FLAG)
          p.[3%nat] p.[4%nat]).
End Supervision.

Module Thermostat.
Definition FAN_MODE_CC : Z := 0x44.
Definition MODE_CC : Z := 0x40.
Definition OPERATING_STATE_CC : Z := 0x42.
Definition SETPOINT_CC : Z := 0x43.
Record FanModeReport := mkFanMode { fanMode : Z; fanOff : bool }.
Definition decodeFanModeReport `{Oob} (p : list Z) : option FanModeReport :=
  if negb (isFrame p 3 FAN_MODE_CC 0x03) then None else
  Some (mkFanMode (u8 (Z.land p.[2%nat] 0x0F)) (flagSet p.[2%nat] 0x80)).
Definition decodeModeReport `{Oob} (p : list Z) : option Z :=
  if negb (isFrame p 3 MODE_CC 0x03) then None else Some (u8 (Z.land p.[2%nat] 0x1F)).
Definition decodeOperatingStateReport `{Oob} (p : list Z) : option Z :=
  if negb (isFrame p 3 OPERATING_STATE_CC 0x03) then None else Some (u8 (Z.land p.[2%nat] 0x0F)).
Record SetpointReport := mkSetpoint { setpointType : Z; spScale : Z; spPrecision : Z; spValue : Z }.
Definition encodeSetpointSet (setpointType precision scale value : Z) : list Z :=
  [SETPOINT_CC; 0x01; u8 (Z.land setpointType 0x0F)] ++ ev_encode precision scale value.
Definition encodeSetpointGet (setpointType : Z) : list Z := [SETPOINT_CC; 0x02; u8 (Z.land setpointType 0x0F)].
Definition decodeSetpointReport `{Oob} (p : list Z) : option SetpointReport :=
  if negb (isFrame p 4 SETPOINT_CC 0x03) then None else
  match ev_decode p.[3%nat] (copyFrom 4 p) with
  | None => None
  | Some d => Some (mkSetpoint (u8 (Z.land p.[2%nat] 0x0F)) (ev_scale d) (ev_precision d) (ev_value d))
  end.
End Thermostat.

Module UserCode.
Definition COMMAND_CLASS : Z := 0x63.
Record Report := mkReport { userIdentifier : Z; userIdStatus : Z; userCode : list Z }.
Definition encodeSet (userIdentifier userIdStatus : Z) (code : list Z) : list Z :=
  [COMMAND_CLASS; 0x01; userIdentifier; userIdStatus] ++ code.
Definition decodeReport `{Oob} (p : list Z) : option Report :=
  if negb (isFrame p 4 COMMAND_CLASS 0x03) then None else Some (mkReport p.[2%nat] p.[3%nat] (copyFrom 4 p)).
Definition decodeUsersNumberReport `{Oob} (p : list Z) : option Z :=
  if negb (isFrame p 3 COMMAND_CLASS 0x05) then None else Some p.[2%nat].
End UserCode.

Module WakeUp.
Definition COMMAND_CLASS : Z := 0x84.
Definition INTERVAL_MAX : Z := 0x00FFFFFF.
Record IntervalReport := mkInterval { seconds : Z; controllerNodeId : Z }.
Definition encodeIntervalSet (seconds controllerNodeId : Z) : list Z :=
  let clamped := Z.min seconds INTERVAL_MAX in
  [COMMAND_CLASS; 0x04; u8 (Z.land (Z.shiftr clamped 16) 0xFF); u8 (Z.land (Z.shiftr clamped 8) 0xFF);
   u8 (Z.land clamped 0xFF); controllerNodeId].
Definition decodeIntervalReport `{Oob} (p : list Z) : option IntervalReport :=
  if negb (isFrame p 6 COMMAND_CLASS 0x06) then None else
  Some (mkInterval (Z.lor (Z.lor (Z.shiftl p.[2%nat] 16) (Z.shiftl p.[3%nat] 8)) p.[4%nat]) p.[5%nat]).
Definition decodeNotification `{Oob} (p : list Z) : option unit :=
  if negb (isFrame p 2 COMMAND_CLASS 0x07) then None else Some tt.
End WakeUp.

Module ZWavePlusInfo.
Definition COMMAND_CLASS : Z := 0x5E.
Record Report := mkReport {
  zwavePlusVersion : Z; roleType : Z; nodeType : Z; installerIconType : Z; userIconType : Z }.
Definition decodeReport `{Oob} (p : list Z) : option Report :=
  if negb (isFrame p 9 COMMAND_CLASS 0x02) then None else
  Some (mkReport p.[2%nat] p.[3%nat] p.[4%nat] (readBeU16 p 5) (readBeU16 p 7)).
End ZWavePlusInfo.

(** ** Memory safety of the decoders *)

Lemma isFrame_indep (o1 o2 : Oob) p n cc cmd :
  (2 <= n)%nat -> isFrame (H := o1) p n cc cmd = isFrame (H := o2) p n cc cmd.
Proof. intros Hn. unfold isFrame. destruct (Nat.ltb_spec (length p) n); [done|]. by oob_indep o1 o2. Qed.

(** An accepted header: the length and the two first bytes. *)
Lemma isFrame_true `{Oob} p n cc cmd :
  isFrame p n cc cmd = true -> (n <= length p)%nat /\ p.[0%nat] = cc /\ p.[1%nat] = cmd.
Proof. unfold isFrame. intros Hf. zbool. done. Qed.

Lemma readBeU16_indep (o1 o2 : Oob) p off :
  (off + 1 < length p)%nat -> readBeU16 (H := o1) p off = readBeU16 (H := o2) p off.
Proof. intros. unfold readBeU16. by rewrite !(byteAt_indep o1 o2) by lia. Qed.

Lemma ev_decode_indep (o1 o2 : Oob) flags l :
  ev_decode (H := o1) flags l = ev_decode (H := o2) flags l.
Proof.
  unfold ev_decode. destruct (_ || _) eqn:Hg; [done|]. zbool.
  pose proof (u8_range (Z.land flags FLAG_SIZE_MASK)) as [? ?].
  by rewrite (readSigned_indep o1 o2) by lia.
Qed.

(** Both runs of a decoder: the header check agrees, and after it the length is
    known, so that every later read can be moved from one run to the other. *)
Ltac head_of t := lazymatch t with ?f _ => head_of f | ?f => constr:(f) end.
Ltac cc_indep o1 o2 :=
  let p := fresh "p" in intros p;
  match goal with |- ?d p = _ => let h := head_of d in unfold h end;
  rewrite (isFrame_indep o1 o2) by lia;
  match goal with
  | |- context [negb (@isFrame _ p ?n ?cc ?cmd)] =>
      let Hf := fresh "Hf" in
      destruct (@isFrame o2 p n cc cmd) eqn:Hf; cbn [negb]; [|reflexivity];
      apply isFrame_true in Hf as (? & _ & _)
  end;
  rewrite ?copyFrom_drop by lia; rewrite ?(ev_decode_indep o1 o2), ?(readBeU16_indep o1 o2) by lia;
  oob_indep o1 o2.

Lemma Configuration_indep (o1 o2 : Oob) p :
  Configuration.decodeReport (H := o1) p = Configuration.decodeReport (H := o2) p.
Proof.
  unfold Configuration.decodeReport. rewrite (isFrame_indep o1 o2) by lia.
  destruct (isFrame _ _ _ _) eqn:Hf; cbn [negb]; [|done]. apply isFrame_true in Hf as (? & _ & _).
  rewrite !(byteAt_indep o1 o2) by lia. destruct (negb _); [done|]. zcase; [done|].
  by rewrite (readSigned_indep o1 o2) by lia.
Qed.

Lemma Meter_indep (o1 o2 : Oob) p : Meter.decodeReport (H := o1) p = Meter.decodeReport (H := o2) p.
Proof.
  unfold Meter.decodeReport. rewrite (isFrame_indep o1 o2) by lia.
  destruct (isFrame _ _ _ _) eqn:Hf; cbn [negb]; [|done]. apply isFrame_true in Hf as (? & _ & _).
  rewrite !(byteAt_indep o1 o2) by lia. cbv zeta. destruct (_ || _) eqn:Hg; [done|]. zbool.
  rewrite (readBeU16_indep o1 o2) by lia. rewrite (readSigned_indep o1 o2 p 4) by lia.
  destruct (negb _); [|done]. zcase; [done|]. by rewrite (readSigned_indep o1 o2) by lia.
Qed.

Lemma Notification_indep (o1 o2 : Oob) p :
  Notification.decodeReport (H := o1) p = Notification.decodeReport (H := o2) p.
Proof.
  unfold Notification.decodeReport. rewrite (isFrame_indep o1 o2) by lia.
  destruct (isFrame _ _ _ _) eqn:Hf; cbn [negb]; [|done]. apply isFrame_true in Hf as (? & _ & _).
  rewrite !(byteAt_indep o1 o2) by lia. cbv zeta. zcase; [done|]. by rewrite !copyRange_slice by lia.
Qed.

(** Pairs of an even number of bytes are read inside the list. *)
Lemma readMembers_indep (o1 o2 : Oob) l :
  (length l `mod` 2)%nat = 0%nat ->
  MultichannelAssociation.readMembers (H := o1) l = MultichannelAssociation.readMembers (H := o2) l.
Proof.
  intros [k Hk]%Nat.Lcm0.mod_divide. revert l Hk. induction k as [|k IH]; intros l Hk.
  - by destruct l.
  - destruct l as [|a [|b l]]; [done|cbn in Hk; lia|]. cbn in *. f_equal. apply IH. lia.
Qed.

Lemma MultichannelAssociation_indep (o1 o2 : Oob) p :
  MultichannelAssociation.decodeReport (H := o1) p = MultichannelAssociation.decodeReport (H := o2) p.
Proof.
  unfold MultichannelAssociation.decodeReport. rewrite (isFrame_indep o1 o2) by lia.
  destruct (isFrame _ _ _ _) eqn:Hf; cbn [negb]; [|done]. apply isFrame_true in Hf as (? & _ & _).
  rewrite !copyFrom_drop by lia. rewrite !(byteAt_indep o1 o2) by lia.
  destruct (MultichannelAssociation.splitMarker _) as [nodes [eps|]]; [|done].
  destruct (Nat.eqb_spec (length eps `mod` 2) 0) as [He|]; cbn [negb]; [|done].
  by rewrite (readMembers_indep o1 o2).
Qed.

Lemma unit_indep (o1 o2 : Oob) p : WakeUp.decodeNotification (H := o1) p = WakeUp.decodeNotification (H := o2) p.
Proof. unfold WakeUp.decodeNotification. by rewrite (isFrame_indep o1 o2) by lia. Qed.

(** ** One decoder per frame *)

Definition accepts {A} (d : list Z -> option A) (p : list Z) : bool :=
  match d p with Some _ => true | None => false end.

(** Every report decoder with the class and the command it answers for. *)
Definition ccTable `{Oob} : list (Z * Z * (list Z -> bool)) :=
  [ (0x85, 0x03, accepts Association.decodeReport);
    (0x85, 0x06, accepts Association.decodeGroupingsReport);
    (0x20, 0x03, accepts Basic.decodeReport);
    (0x20, 0x01, accepts Basic.decodeSet);
    (0x80, 0x03, accepts Battery.decodeReport);
    (0x25, 0x03, accepts BinarySwitch.decodeReport);
    (0x5B, 0x03, accepts CentralScene.decodeNotification);
    (0x33, 0x04, accepts ColorSwitch.decodeReport);
    (0x70, 0x06, accepts Configuration.decodeReport);
    (0x62, 0x03, accepts DoorLock.decodeOperationReport);
    (0x87, 0x03, accepts Indicator.decodeReport);
    (0x72, 0x05, accepts ManufacturerSpecific.decodeReport);
    (0x32, 0x02, accepts Meter.decodeReport);
    (0x60, 0x0D, accepts MultiChannel.decodeEncap);
    (0x60, 0x08, accepts MultiChannel.decodeEndpointReport);
    (0x60, 0x0A, accepts MultiChannel.decodeCapabilityReport);
    (0x8E, 0x03, accepts MultichannelAssociation.decodeReport);
    (0x8E, 0x06, accepts MultichannelAssociation.decodeGroupingsReport);
    (0x26, 0x03, accepts MultilevelSwitch.decodeReport);
    (0x86, 0x12, accepts NodeVersion.decodeReport);
    (0x71, 0x05, accepts Notification.decodeReport);
    (0x2B, 0x01, accepts SceneActivation.decodeSet);
    (0x30, 0x03, accepts SensorBinary.decodeReport);
    (0x31, 0x05, accepts SensorMultilevel.decodeReport);
    (0x6C, 0x02, accepts Supervision.decodeReport);
    (0x44, 0x03, accepts Thermostat.decodeFanModeReport);
    (0x40, 0x03, accepts Thermostat.decodeModeReport);
    (0x42, 0x03, accepts Thermostat.decodeOperatingStateReport);
    (0x43, 0x03, accepts Thermostat.decodeSetpointReport);
    (0x63, 0x03, accepts UserCode.decodeReport);
    (0x63, 0x05, accepts UserCode.decodeUsersNumberReport);
    (0x84, 0x06, accepts WakeUp.decodeIntervalReport);
    (0x84, 0x07, accepts WakeUp.decodeNotification);
    (0x5E, 0x02, accepts ZWavePlusInfo.decodeReport) ].

Definition answersFor `{Oob} (e : Z * Z * (list Z -> bool)) : Prop :=
  forall p, e.2 p = true -> (2 <= length p)%nat /\ p.[0%nat] = e.1.1 /\ p.[1%nat] = e.1.2.

(** A decoder that starts with the header check answers for that header. *)
Lemma answersFor_guard `{Oob} {A} cc cmd n (d : list Z -> option A) :
  (2 <= n)%nat -> (forall p, isFrame p n cc cmd = false -> d p = None) -> answersFor (cc, cmd, accepts d).
Proof.
  intros Hn Hg p. unfold accepts. cbn. destruct (isFrame p n cc cmd) eqn:Hf; [|by rewrite (Hg p Hf)].
  intros _. apply isFrame_true in Hf as (? & ? & ?). split_and!; [lia|done|done].
Qed.

Ltac cc_guard :=
  eapply answersFor_guard; [|intros p Hp;
    match goal with |- ?d p = None => let h := head_of d in unfold h end; rewrite Hp; reflexivity]; lia.

Lemma ccTable_answers `{Oob} : Forall answersFor ccTable.
Proof. unfold ccTable. repeat (apply Forall_cons_2; [cc_guard|]). apply Forall_nil_2. Qed.

(** A received command is accepted by at most one of the 34 report decoders,
    the one registered for its class and command bytes. *)
Theorem cc_dispatch_unique `{Oob} p e1 e2 :
  e1 ∈ ccTable -> e2 ∈ ccTable -> e1.2 p = true -> e2.2 p = true ->
  e1.1 = e2.1 /\ e1.1 = (p.[0%nat], p.[1%nat]) /\ NoDup (fst <$> ccTable).
Proof.
  intros H1 H2 Ha1 Ha2. pose proof ccTable_answers as Hall. rewrite Forall_forall in Hall.
  destruct (Hall e1 H1 p Ha1) as (_ & Hc1 & Hd1). destruct (Hall e2 H2 p Ha2) as (_ & Hc2 & Hd2).
  destruct e1 as [[c1 d1] ?], e2 as [[c2 d2] ?]. cbn in *. subst. split_and!; [done|done|].
  apply (bool_decide_unpack _). by vm_compute.
Qed.

Lemma cc_dispatch_unique_witness :
  let p := [0x80; 0x03; 0xFF] in
  accepts (@Battery.decodeReport 0) p = true /\ (0x80, 0x03) = (0x80, 0x03).
Proof.
  intros p. split; [reflexivity|].
  refine (proj1 (@cc_dispatch_unique 0 p (0x80, 0x03, accepts Battery.decodeReport)
    (0x80, 0x03, accepts Battery.decodeReport) _ _ eq_refl eq_refl)); unfold ccTable; do 4 right; left.
Defined.

(** C40: no command-class decoder reads past the end of the frame it is given, byte by
    byte or through a span or an iterator, whatever the frame holds. *)
Theorem cc_decoders_in_bounds (o1 o2 : Oob) :
  (forall p, Association.decodeReport (H := o1) p = Association.decodeReport (H := o2) p) /\
  (forall p, Association.decodeGroupingsReport (H := o1) p = Association.decodeGroupingsReport (H := o2) p) /\
  (forall p, Basic.decodeReport (H := o1) p = Basic.decodeReport (H := o2) p) /\
  (forall p, Basic.decodeSet (H := o1) p = Basic.decodeSet (H := o2) p) /\
  (forall p, Battery.decodeReport (H := o1) p = Battery.decodeReport (H := o2) p) /\
  (forall p, BinarySwitch.decodeReport (H := o1) p = BinarySwitch.decodeReport (H := o2) p) /\
  (forall p, CentralScene.decodeNotification (H := o1) p = CentralScene.decodeNotification (H := o2) p) /\
  (forall p, ColorSwitch.decodeReport (H := o1) p = ColorSwitch.decodeReport (H := o2) p) /\
  (forall p, Configuration.decodeReport (H := o1) p = Configuration.decodeReport (H := o2) p) /\
  (forall p, DoorLock.decodeOperationReport (H := o1) p = DoorLock.decodeOperationReport (H := o2) p) /\
  (forall p, Indicator.decodeReport (H := o1) p = Indicator.decodeReport (H := o2) p) /\
  (forall p, ManufacturerSpecific.decodeReport (H := o1) p = ManufacturerSpecific.decodeReport (H := o2) p) /\
  (forall p, Meter.decodeReport (H := o1) p = Meter.decodeReport (H := o2) p) /\
  (forall p, MultiChannel.decodeEncap (H := o1) p = MultiChannel.decodeEncap (H := o2) p) /\
  (forall p, MultiChannel.decodeEndpointReport (H := o1) p = MultiChannel.decodeEndpointReport (H := o2) p) /\
  (forall p, MultiChannel.decodeCapabilityReport (H := o1) p = MultiChannel.decodeCapabilityReport (H := o2) p) /\
  (forall p, MultichannelAssociation.decodeReport (H := o1) p = MultichannelAssociation.decodeReport (H := o2) p) /\
  (forall p, MultichannelAssociation.decodeGroupingsReport (H := o1) p
             = MultichannelAssociation.decodeGroupingsReport (H := o2) p) /\
  (forall p, MultilevelSwitch.decodeReport (H := o1) p = MultilevelSwitch.decodeReport (H := o2) p) /\
  (forall p, NodeVersion.decodeReport (H := o1) p = NodeVersion.decodeReport (H := o2) p) /\
  (forall p, Notification.decodeReport (H := o1) p = Notification.decodeReport (H := o2) p) /\
  (forall p, SceneActivation.decodeSet (H := o1) p = SceneActivation.decodeSet (H := o2) p) /\
  (forall p, SensorBinary.decodeReport (H := o1) p = SensorBinary.decodeReport (H := o2) p) /\
  (forall p, SensorMultilevel.decodeReport (H := o1) p = SensorMultilevel.decodeReport (H := o2) p) /\
  (forall p, Supervision.decodeReport (H := o1) p = Supervision.decodeReport (H := o2) p) /\
  (forall p, Thermostat.decodeFanModeReport (H := o1) p = Thermostat.decodeFanModeReport (H := o2) p) /\
  (forall p, Thermostat.decodeModeReport (H := o1) p = Thermostat.decodeModeReport (H := o2) p) /\
  (forall p, Thermostat.decodeOperatingStateReport (H := o1) p
             = Thermostat.decodeOperatingStateReport (H := o2) p) /\
  (forall p, Thermostat.decodeSetpointReport (H := o1) p = Thermostat.decodeSetpointReport (H := o2) p) /\
  (forall p, UserCode.decodeReport (H := o1) p = UserCode.decodeReport (H := o2) p) /\
  (forall p, UserCode.decodeUsersNumberReport (H := o1) p = UserCode.decodeUsersNumberReport (H := o2) p) /\
  (forall p, WakeUp.decodeIntervalReport (H := o1) p = WakeUp.decodeIntervalReport (H := o2) p) /\
  (forall p, WakeUp.decodeNotification (H := o1) p = WakeUp.decodeNotification (H := o2) p) /\
  (forall p, ZWavePlusInfo.decodeReport (H := o1) p = ZWavePlusInfo.decodeReport (H := o2) p).
Proof.
  split_and!; first
    [ apply Configuration_indep | apply Meter_indep | apply Notification_indep
    | apply MultichannelAssociation_indep | apply unit_indep
    | cc_indep o1 o2 ].
Qed.

(** ** Round trips *)

(** A report as a node answers a SET: the same bytes under the report command. *)
Definition asReport (cmd : Z) (frame : list Z) : list Z := <[1%nat := cmd]> frame.

(** The value of a configuration parameter a node reports back after a SET is
    the value set, truncated to the field's size and read as signed; the encoder
    refuses sizes other than 1, 2 and 4 by sending nothing. *)
Theorem configuration_roundtrip `{Oob} parameter size value :
  Configuration.decodeReport (asReport 0x06 (Configuration.encodeSet parameter size value)) =
    (if isValidSize size then Some (Configuration.mkReport parameter size (signed (8 * size) value)) else None)
  /\ (isValidSize size = false -> Configuration.encodeSet parameter size value = []).
Proof.
  unfold Configuration.encodeSet. destruct (isValidSize size) eqn:Hs; cbn [negb]; [split; [|done]|by split].
  unfold asReport. cbn [app insert list_insert].
  assert (Hl : length (writeBytes value size) = Z.to_nat size)
    by (unfold writeBytes; rewrite length_fmap; apply length_seq).
  unfold Configuration.decodeReport, isFrame. cbn [length].
  replace (_ <? 4)%nat with false by (symmetry; apply Nat.ltb_ge; lia).
  change (byteAt (?x :: _) 0) with x. change (byteAt (?x :: ?y :: _) 1) with y. cbn [Z.eqb Pos.eqb negb orb].
  change (byteAt (?x :: ?y :: ?z :: ?t :: _) 3) with t. change (byteAt (?x :: ?y :: ?z :: _) 2) with z.
  rewrite Hs. cbn [negb]. rewrite Hl.
  rewrite (proj2 (Nat.ltb_ge _ _)) by lia. do 2 f_equal.
  rewrite <-(readSigned_write value size [Configuration.COMMAND_CLASS; 0x06; parameter; size] []) by done.
  by rewrite app_nil_r.
Qed.

Section Members.
Import MultichannelAssociation.

Lemma splitMarker_members nodes rest :
  Forall (fun n => n <> MARKER) nodes -> splitMarker (nodes ++ MARKER :: rest) = (nodes, Some rest).
Proof.
  induction 1 as [|n nodes Hn _ IH]; [done|]. cbn [splitMarker app].
  by rewrite (proj2 (Z.eqb_neq n MARKER) Hn), IH.
Qed.

Lemma splitMarker_none nodes : Forall (fun n => n <> MARKER) nodes -> splitMarker nodes = (nodes, None).
Proof. induction 1 as [|n nodes Hn _ IH]; [done|]. cbn. by rewrite (proj2 (Z.eqb_neq n MARKER) Hn), IH. Qed.

Lemma memberBytes_length ms : length (memberBytes ms) = (2 * length ms)%nat.
Proof. induction ms as [|m ms IH]; cbn; [done|]. unfold memberBytes in IH. rewrite IH. lia. Qed.

Lemma readMembers_bytes `{Oob} ms : readMembers (memberBytes ms) = ms.
Proof. induction ms as [|[n e] ms IH]; cbn; [done|]. by f_equal. Qed.

Lemma decodeReport_header `{Oob} group maxs follow l :
  decodeReport ([COMMAND_CLASS; 0x03; group; maxs; follow] ++ l) =
    let '(nodes, post) := splitMarker l in
    match post with
    | None => Some (mkReport group maxs follow nodes [])
    | Some eps => if negb (length eps `mod` 2 =? 0)%nat then None
                  else Some (mkReport group maxs follow nodes (readMembers eps))
    end.
Proof. reflexivity. Qed.
End Members.

(** The members of a multichannel association group, whole nodes and
    endpoints, are recovered from a report laid out with the marker, for all
    node ids but 0, the marker itself; an incomplete last pair is refused. *)
Theorem multichannel_members_roundtrip `{Oob} group maxSupported follow nodes eps b :
  Forall (fun n => n <> MultichannelAssociation.MARKER) nodes ->
  let header := [MultichannelAssociation.COMMAND_CLASS; 0x03; group; maxSupported; follow] in
  let members := nodes ++ MultichannelAssociation.MARKER :: MultichannelAssociation.memberBytes eps in
  MultichannelAssociation.encodeSet group nodes eps = [MultichannelAssociation.COMMAND_CLASS; 0x01; group] ++ members /\
  MultichannelAssociation.decodeReport (header ++ members) =
    Some (MultichannelAssociation.mkReport group maxSupported follow nodes eps) /\
  MultichannelAssociation.decodeReport (header ++ members ++ [b]) = None.
Proof.
  intros Hn header members. split; [done|]. unfold header, members. rewrite !decodeReport_header.
  rewrite <-app_assoc. cbn [app]. rewrite !splitMarker_members by done.
  rewrite length_app, memberBytes_length, readMembers_bytes. cbn [length]. split.
  - replace (2 * length eps)%nat with (length eps * 2)%nat by lia. by rewrite Nat.Div0.mod_mul.
  - replace ((2 * length eps + 1) `mod` 2)%nat with 1%nat; [done|].
    apply (Nat.mod_unique _ 2 (length eps) 1); lia.
Qed.

Lemma multichannel_members_roundtrip_witness :
  let eps := [MultichannelAssociation.mkMember 9 1; MultichannelAssociation.mkMember 0 2] in
  @MultichannelAssociation.decodeReport 0 ([0x8E; 0x03; 1; 5; 0] ++ ([3; 4] ++ 0 :: MultichannelAssociation.memberBytes eps)) =
    Some (MultichannelAssociation.mkReport 1 5 0 [3; 4] eps).
Proof.
  intros eps. refine (proj1 (proj2 (@multichannel_members_roundtrip 0 1 5 0 [3; 4] eps 7 _))).
  repeat constructor; discriminate.
Defined.

(** The wake-up interval a node reports back is the one set, clamped to the
    24 bits of the field rather than truncated. *)
Theorem wakeup_interval_roundtrip `{Oob} seconds controller :
  0 <= seconds ->
  WakeUp.decodeIntervalReport (asReport 0x06 (WakeUp.encodeIntervalSet seconds controller)) =
    Some (WakeUp.mkInterval (Z.min seconds WakeUp.INTERVAL_MAX) controller).
Proof.
  intros Hs. unfold WakeUp.encodeIntervalSet. cbv zeta. set (c := Z.min seconds WakeUp.INTERVAL_MAX).
  assert (Hc : 0 <= c < 16777216) by (unfold c, WakeUp.INTERVAL_MAX; lia).
  assert (H0 : u8 (Z.land c 0xFF) = c `mod` 256).
  { rewrite <-(Z.shiftr_0_r c) at 1. rewrite byte_of by lia. change (2 ^ 0) with 1. by rewrite Z.div_1_r. }
  rewrite !byte_of, H0 by lia. change (2 ^ 16) with 65536. change (2 ^ 8) with 256.
  unfold asReport, WakeUp.decodeIntervalReport, isFrame. cbn [insert list_insert length Nat.ltb Nat.leb].
  change (byteAt (?x :: _) 0) with x. change (byteAt (?x :: ?y :: _) 1) with y.
  cbn [Z.eqb Pos.eqb negb orb WakeUp.COMMAND_CLASS]. do 2 f_equal.
  change (byteAt _ 2) with ((c `div` 65536) `mod` 256). change (byteAt _ 3) with ((c `div` 256) `mod` 256).
  change (byteAt _ 4) with (c `mod` 256).
  pose proof (Z.mod_pos_bound c 256 ltac:(lia)). pose proof (Z.mod_pos_bound (c `div` 256) 256 ltac:(lia)).
  rewrite <-Z.lor_assoc, (lor_shiftl_add ((c `div` 256) `mod` 256)) by lia.
  rewrite lor_shiftl_add by lia. change (2 ^ 16) with 65536. change (2 ^ 8) with 256.
  Z.to_euclidean_division_equations. lia.
Qed.

Lemma wakeup_interval_roundtrip_witness :
  @WakeUp.decodeIntervalReport 0 (asReport 0x06 (WakeUp.encodeIntervalSet 20000000 1)) =
    Some (WakeUp.mkInterval (Z.min 20000000 WakeUp.INTERVAL_MAX) 1).
Proof. apply (@wakeup_interval_roundtrip 0). lia. Defined.
