(* ===== verification/S2Codec.v ===== *)
(** * Security S2: nonce generator, message encapsulation, nonce synchronisation

    [zwave-protocol/security/s2/]: [Span.cpp] (the CTR_DRBG that yields the
    pre-agreed nonces), [NonceSync.cpp] and [Encapsulation.cpp] (the frames) and
    the key-exchange frames of [Kex.cpp].  The OpenSSL primitives behind
    [Crypto.hpp] are the class [S2Crypto]; what is used of them is its laws. *)

From S2P Require Import Prelude.

(** ** The cryptographic primitives *)

Class S2Crypto := {
  ccmEncrypt : list Z -> list Z -> list Z -> list Z -> nat -> list Z;
  ccmDecrypt : list Z -> list Z -> list Z -> list Z -> nat -> option (list Z);
  cmac : list Z -> list Z -> list Z;
  aesEcbEncrypt : list Z -> list Z -> list Z
}.

(** AES-CCM as RFC 3610 defines it for 13-byte nonces (messages below [2^16]
    bytes) and the 8-byte tag the sources use: the ciphertext is the plaintext's
    length plus the tag, decryption inverts encryption, and a ciphertext that
    verifies to a non-empty plaintext is the encryption of that plaintext, and a
    decrypted plaintext is the ciphertext's length less the tag.  CMAC and the block cipher return 16 bytes. *)
Class S2CryptoLaws `{S2Crypto} := {
  ccm_length k n a p : length n = 13%nat -> zlen p < 65536 ->
    length (ccmEncrypt k n a p 8) = (length p + 8)%nat;
  ccm_correct k n a p : length n = 13%nat -> zlen p < 65536 ->
    ccmDecrypt k n a (ccmEncrypt k n a p 8) 8 = Some p;
  ccm_sound k n a c p : length n = 13%nat -> p <> [] ->
    ccmDecrypt k n a c 8 = Some p -> c = ccmEncrypt k n a p 8;
  ccm_plain_length k n a c p :
    ccmDecrypt k n a c 8 = Some p -> length c = (length p + 8)%nat;
  cmac_length k m : length (cmac k m) = 16%nat;
  aes_length k b : length (aesEcbEncrypt k b) = 16%nat
}.

(** ** The pre-agreed nonce generator *)

Module Span.

Definition CONST_NONCE_BYTE : Z := 0x26.
Definition CONST_EI_BYTE : Z := 0x88.
Definition EI_SIZE : nat := 16.

Record t := mk { key : list Z; value : list Z }.

#[global] Instance t_eq_dec : EqDecision t.
Proof. solve_decision. Defined.

(** The loop of [incrementCounter], from the last byte on. *)
Fixpoint carry (rev_bytes : list Z) : list Z :=
  match rev_bytes with
  | [] => []
  | b :: rest => let b' := u8 (b + 1) in if negb (b' =? 0) then b' :: rest else b' :: carry rest
  end.

Definition incrementCounter (counter : list Z) : list Z := reverse (carry (reverse counter)).

Section Drbg.
Context `{S2Crypto}.

Definition xorBytes (a b : list Z) : list Z := zip_with Z.lxor a b.

Definition drbgUpdate (provided : list Z) (s : t) : t :=
  let v1 := incrementCounter (value s) in
  let out1 := aesEcbEncrypt (key s) v1 in
  let v2 := incrementCounter v1 in
  let out2 := aesEcbEncrypt (key s) v2 in
  let temp := xorBytes (out1 ++ out2) provided in
  mk (take 16 temp) (drop 16 temp).

Definition mixEntropy (senderEI receiverEI : list Z) : list Z :=
  let noncePrk := cmac (replicate 16 CONST_NONCE_BYTE) (senderEI ++ receiverEI) in
  let expandSeed := replicate 15 CONST_EI_BYTE ++ [0x00] in
  let expandBlock prev counter := cmac noncePrk (prev ++ replicate 15 CONST_EI_BYTE ++ [counter]) in
  let meiLow := expandBlock expandSeed 0x01 in
  let meiHigh := expandBlock meiLow 0x02 in
  meiLow ++ meiHigh.

Definition instantiate (senderEI receiverEI personalization : list Z) : t :=
  let mei := mixEntropy senderEI receiverEI in
  drbgUpdate (xorBytes mei personalization) (mk (replicate 16 0) (replicate 16 0)).

Definition nextNonce (s : t) : list Z * t :=
  let v := incrementCounter (value s) in
  let out := aesEcbEncrypt (key s) v in
  (out, drbgUpdate (replicate 32 0) (mk (key s) v)).
End Drbg.

Definition serialize (s : t) : list Z := key s ++ value s.
Definition deserialize (state : list Z) : t := mk (take 16 state) (drop 16 state).

End Span.

(** ** Nonce synchronisation frames *)

Module NonceSync.

Definition COMMAND_CLASS : Z := 0x9F.
Definition NONCE_GET : Z := 0x01.
Definition NONCE_REPORT : Z := 0x02.
Definition FLAG_SOS : Z := 0x01.
Definition FLAG_MOS : Z := 0x02.
Definition SPAN_EXTENSION_TYPE : Z := 0x01.
Definition SPAN_EXTENSION_LENGTH : Z := 18.
Definition SPAN_EXTENSION_FLAGS : Z := 0x41.
Definition EXT_TYPE_MASK : Z := 0x3F.
Definition EXT_MORE_FOLLOW_BIT : Z := 0x80.

Record Report := mkReport { sequenceNumber : Z; sos : bool; mos : bool; rei : option (list Z) }.

Definition encodeNonceGet (seq : Z) : list Z := [COMMAND_CLASS; NONCE_GET; seq].

Definition encodeNonceReport (r : Report) : list Z :=
  let flags := u8 (Z.lor (if sos r then FLAG_SOS else 0) (if mos r then FLAG_MOS else 0)) in
  [COMMAND_CLASS; NONCE_REPORT; sequenceNumber r; flags] ++
  (if sos r then default [] (rei r) else []).

Definition decodeNonceReport `{Oob} (p : list Z) : option Report :=
  if (length p <? 4)%nat || negb (p.[0%nat] =? COMMAND_CLASS) || negb (p.[1%nat] =? NONCE_REPORT) then None else
  let isSos := negb (Z.land p.[3%nat] FLAG_SOS =? 0) in
  let isMos := negb (Z.land p.[3%nat] FLAG_MOS =? 0) in
  if isSos then
    if (length p <? 4 + Span.EI_SIZE)%nat then None
    else Some (mkReport p.[2%nat] isSos isMos (Some (slice 4 Span.EI_SIZE p)))
  else Some (mkReport p.[2%nat] isSos isMos None).

Definition encodeSpanExtension (sei : list Z) : list Z := [SPAN_EXTENSION_LENGTH; SPAN_EXTENSION_FLAGS] ++ sei.

(** The loop over the extension objects, with the bytes from [offset] on as its
    argument; an object has at least two bytes, so the length bounds the rounds. *)
Fixpoint findLoop `{Oob} (fuel : nat) (ext : list Z) : option (list Z) :=
  match fuel with
  | O => None
  | S fuel =>
      if (length ext <? 2)%nat then None else
      let len := ext.[0%nat] in
      if (len <? 2) || (zlen ext <? len) then None else
      let flags := ext.[1%nat] in
      let moreToFollow := negb (Z.land flags EXT_MORE_FOLLOW_BIT =? 0) in
      if (Z.land flags EXT_TYPE_MASK =? SPAN_EXTENSION_TYPE) && (len =? SPAN_EXTENSION_LENGTH)
      then Some (slice 2 Span.EI_SIZE ext)
      else if negb moreToFollow then None
      else findLoop fuel (drop (Z.to_nat len) ext)
  end.

Definition findSpanExtension `{Oob} (ext : list Z) : option (list Z) := findLoop (S (length ext)) ext.

Definition commandByte `{Oob} (p : list Z) : option Z :=
  if (length p <? 2)%nat || negb (p.[0%nat] =? COMMAND_CLASS) then None else Some p.[1%nat].

End NonceSync.

(** ** Message encapsulation *)

Module Encap.

Definition CC_SECURITY_2 : Z := 0x9F.
Definition CMD_ENCAP : Z := 0x03.
Definition PROP_EXT : Z := 0x01.
Definition PROP_ENC_EXT : Z := 0x02.
Definition EXT_MORE_TO_FOLLOW : Z := 0x80.
Definition HEADER_SIZE : nat := 4.
Definition TAG_SIZE : nat := 8.
Definition CCM_NONCE_SIZE : nat := 13.

Record Context := mkContext {
  senderNodeId : Z; receiverNodeId : Z; homeId : list Z; sequenceNumber : Z }.

(** Length of the chain of extension objects at the head of [data]. *)
Fixpoint extLoop `{Oob} (fuel : nat) (data : list Z) : option nat :=
  match fuel with
  | O => None
  | S fuel =>
      if (length data <? 2)%nat then None else
      let extLen := data.[0%nat] in
      if (extLen <? 2) || (zlen data <? extLen) then None else
      let moreToFollow := negb (Z.land data.[1%nat] EXT_MORE_TO_FOLLOW =? 0) in
      if negb moreToFollow then Some (Z.to_nat extLen)
      else match extLoop fuel (drop (Z.to_nat extLen) data) with
           | Some n => Some (Z.to_nat extLen + n)%nat
           | None => None
           end
  end.

Definition extensionsLength `{Oob} (data : list Z) : option nat := extLoop (S (length data)) data.

Definition buildAad (ctx : Context) (seq props : Z) (extensions : list Z) (frameLength : nat) : list Z :=
  [senderNodeId ctx; receiverNodeId ctx] ++ homeId ctx ++
  [u8 (Z.land (Z.shiftr (Z.of_nat frameLength) 8) 0x00FF); u8 (Z.land (Z.of_nat frameLength) 0x00FF);
   seq; props] ++ extensions.

Definition encrypt `{S2Crypto} (inner : list Z) (ctx : Context) (classKey nonce plainExt encExt : list Z) : list Z :=
  let props := if bool_decide (plainExt = []) then 0x00 else PROP_EXT in
  let props := if bool_decide (encExt = []) then props else Z.lor props PROP_ENC_EXT in
  let plaintext := encExt ++ inner in
  let frameLength := (HEADER_SIZE + length plainExt + length plaintext + TAG_SIZE)%nat in
  let aad := buildAad ctx (sequenceNumber ctx) props plainExt frameLength in
  [CC_SECURITY_2; CMD_ENCAP; sequenceNumber ctx; props] ++ plainExt
    ++ ccmEncrypt classKey nonce aad plaintext TAG_SIZE.

Definition decrypt `{Oob} `{S2Crypto} (frame : list Z) (ctx : Context) (classKey nonce : list Z)
    : option (list Z) :=
  if (length frame <? HEADER_SIZE + TAG_SIZE)%nat || negb (frame.[0%nat] =? CC_SECURITY_2)
     || negb (frame.[1%nat] =? CMD_ENCAP) then None else
  let seq := frame.[2%nat] in
  let props := frame.[3%nat] in
  let ext :=
    if negb (Z.land props PROP_EXT =? 0) then extensionsLength (drop HEADER_SIZE frame) else Some 0%nat in
  match ext with
  | None => None
  | Some extBytes =>
      let cipherStart := (HEADER_SIZE + extBytes)%nat in
      if (length frame <? cipherStart + TAG_SIZE)%nat then None else
      let aad := buildAad ctx seq props (slice HEADER_SIZE extBytes frame) (length frame) in
      match ccmDecrypt classKey nonce aad (drop cipherStart frame) TAG_SIZE with
      | None => None
      | Some plaintext =>
          if negb (Z.land props PROP_ENC_EXT =? 0) then
            match extensionsLength plaintext with
            | None => None
            | Some n => if (length plaintext <? n)%nat then None else Some (drop n plaintext)
            end
          else Some plaintext
      end
  end.

End Encap.

(** ** Key exchange frames and the grant policy *)

Module Kex.

Definition KEX_GET : Z := 0x04.
Definition KEX_REPORT : Z := 0x05.
Definition KEX_SET : Z := 0x06.
Definition KEX_FAIL : Z := 0x07.
Definition PROP_ECHO : Z := 0x01.
Definition PROP_REQUEST_CSA : Z := 0x02.
Definition KEX_SCHEME_1 : Z := 0x02.
Definition ECDH_CURVE25519 : Z := 0x01.
Definition KEY_S2_UNAUTHENTICATED : Z := 0x01.
Definition KEY_S2_AUTHENTICATED : Z := 0x02.
Definition KEY_S2_ACCESS_CONTROL : Z := 0x04.
Definition KEY_S0 : Z := 0x80.

Record Report := mkReport {
  r_echo : bool; r_requestCsa : bool; supportedSchemes : Z; supportedCurves : Z; requestedKeys : Z }.
Record Set_ := mkSet {
  s_echo : bool; s_requestCsa : bool; selectedScheme : Z; selectedCurve : Z; grantedKeys : Z }.

#[global] Instance Report_eq_dec : EqDecision Report.
Proof. solve_decision. Defined.
#[global] Instance Set_eq_dec : EqDecision Set_.
Proof. solve_decision. Defined.

Definition kexProps (echo csa : bool) : Z :=
  u8 (Z.lor (if echo then PROP_ECHO else 0) (if csa then PROP_REQUEST_CSA else 0)).

Definition encodeGet : list Z := [NonceSync.COMMAND_CLASS; KEX_GET].
Definition encodeReport (r : Report) : list Z :=
  [NonceSync.COMMAND_CLASS; KEX_REPORT; kexProps (r_echo r) (r_requestCsa r);
   supportedSchemes r; supportedCurves r; requestedKeys r].
Definition encodeSet (s : Set_) : list Z :=
  [NonceSync.COMMAND_CLASS; KEX_SET; kexProps (s_echo s) (s_requestCsa s);
   selectedScheme s; selectedCurve s; grantedKeys s].
Definition encodeFail (failType : Z) : list Z := [NonceSync.COMMAND_CLASS; KEX_FAIL; failType].

Definition kexFrame `{Oob} (p : list Z) (n : nat) (cmd : Z) : bool :=
  negb ((length p <? n)%nat || negb (p.[0%nat] =? NonceSync.COMMAND_CLASS) || negb (p.[1%nat] =? cmd)).

Definition decodeReport `{Oob} (p : list Z) : option Report :=
  if negb (kexFrame p 6 KEX_REPORT) then None else
  Some (mkReport (negb (Z.land p.[2%nat] PROP_ECHO =? 0)) (negb (Z.land p.[2%nat] PROP_REQUEST_CSA =? 0))
          p.[3%nat] p.[4%nat] p.[5%nat]).
Definition decodeSet `{Oob} (p : list Z) : option Set_ :=
  if negb (kexFrame p 6 KEX_SET) then None else
  Some (mkSet (negb (Z.land p.[2%nat] PROP_ECHO =? 0)) (negb (Z.land p.[2%nat] PROP_REQUEST_CSA =? 0))
          p.[3%nat] p.[4%nat] p.[5%nat]).
Definition decodeFail `{Oob} (p : list Z) : option Z :=
  if negb (kexFrame p 3 KEX_FAIL) then None else Some p.[2%nat].

Definition grantKeys (r : Report) (controllerSupportedKeys : Z) : Z :=
  let granted := Z.land (requestedKeys r) controllerSupportedKeys in
  if r_requestCsa r then u8 (Z.land granted (Z.lnot KEY_S2_ACCESS_CONTROL)) else granted.

End Kex.

(** ** A concrete instance: a keyed checksum in place of AES

    It meets the laws, so that theorems stated from them can be evaluated. *)

Module Toy.

Definition mac (n : nat) (l : list Z) : list Z :=
  (fun i => u8 (foldl (fun acc b => acc * 31 + b + Z.of_nat i) 7 l)) <$> seq 0 n.

#[global] Instance crypto : S2Crypto := {
  ccmEncrypt k n a p t := p ++ mac t (k ++ n ++ a ++ p);
  ccmDecrypt k n a c t :=
    if (length c <? t)%nat then None else
    let p := take (length c - t) c in
    if decide (drop (length c - t) c = mac t (k ++ n ++ a ++ p)) then Some p else None;
  cmac k m := mac 16 (k ++ m);
  aesEcbEncrypt k b := mac 16 (k ++ b)
}.

Lemma mac_length n l : length (mac n l) = n.
Proof. unfold mac. by rewrite length_fmap, length_seq. Qed.

#[global] Instance laws : S2CryptoLaws.
Proof.
  split; intros; cbn [ccmEncrypt ccmDecrypt cmac aesEcbEncrypt crypto].
  - by rewrite length_app, mac_length.
  - rewrite length_app, mac_length.
    replace (_ <? _)%nat with false by (symmetry; apply Nat.ltb_ge; lia).
    replace (length p + 8 - 8)%nat with (length p) by lia.
    rewrite take_app_length, drop_app_length. by rewrite decide_True.
  - cbn [ccmDecrypt crypto] in *. destruct (length c <? 8)%nat eqn:?; [done|].
    case_decide as Hd; [|done]. simplify_eq. rewrite <-Hd. by rewrite take_drop.
  - cbn [ccmDecrypt crypto] in *. destruct (length c <? 8)%nat eqn:?; [done|]. zbool.
    case_decide; [|done]. simplify_eq. rewrite length_take. lia.
  - apply mac_length.
  - apply mac_length.
Qed.

End Toy.

(** ** The counter of the generator *)

(** Value of a big-endian byte string. *)
Definition beVal (l : list Z) : Z := foldl (fun acc b => acc * 256 + b) 0 l.

Fixpoint leVal (l : list Z) : Z :=
  match l with [] => 0 | b :: r => b + 256 * leVal r end.

Lemma beVal_reverse l : beVal l = leVal (reverse l).
Proof.
  unfold beVal. induction l as [|b l IH] using rev_ind; [done|].
  rewrite foldl_app, reverse_app, reverse_singleton. cbn. rewrite IH. lia.
Qed.

Lemma leVal_range l : bytes_ok l -> 0 <= leVal l < 256 ^ zlen l.
Proof.
  induction 1 as [|b l Hb Hl IH]; [cbn; lia|]. cbn [leVal length].
  rewrite Nat2Z.inj_succ, Z.pow_succ_r by lia. unfold byte_ok in Hb. lia.
Qed.

Lemma carry_length l : length (Span.carry l) = length l.
Proof. induction l as [|b l IH]; [done|]. cbn. case_match; cbn; lia. Qed.

Lemma carry_ok l : bytes_ok l -> bytes_ok (Span.carry l).
Proof. induction 1; cbn; [constructor|]. case_match; eauto with bytes. Qed.

Lemma carry_val l : bytes_ok l -> leVal (Span.carry l) = (leVal l + 1) `mod` 256 ^ zlen l.
Proof.
  induction 1 as [|b l Hb Hl IH]; [done|]. cbn [Span.carry leVal length].
  rewrite Nat2Z.inj_succ, Z.pow_succ_r by lia. pose proof (leVal_range l Hl) as Hr.
  unfold byte_ok in Hb. destruct (decide (b = 255)) as [->|Hne].
  - change (u8 (255 + 1)) with 0. cbn [Z.eqb negb leVal]. rewrite IH.
    replace (255 + 256 * leVal l + 1) with (256 * (leVal l + 1)) by lia.
    rewrite Zmult_mod_distr_l. lia.
  - replace (u8 (b + 1)) with (b + 1) by (symmetry; apply u8_id; unfold byte_ok; lia).
    destruct (Z.eqb_spec (b + 1) 0); [lia|]. cbn [negb leVal].
    rewrite Z.mod_small; lia.
Qed.

(** [incrementCounter] adds one, modulo [256^n], to the [n]-byte big-endian
    counter, and keeps its size. *)
Theorem incrementCounter_spec c :
  bytes_ok c ->
  length (Span.incrementCounter c) = length c /\ bytes_ok (Span.incrementCounter c) /\
  beVal (Span.incrementCounter c) = (beVal c + 1) `mod` 256 ^ zlen c.
Proof.
  intros Hc. unfold Span.incrementCounter. split_and!.
  - by rewrite length_reverse, carry_length, length_reverse.
  - apply Forall_reverse, carry_ok, Forall_reverse, Hc.
  - rewrite !beVal_reverse, reverse_involutive, carry_val by (by apply Forall_reverse).
    by rewrite length_reverse.
Qed.

Lemma incrementCounter_spec_witness :
  length (Span.incrementCounter [0; 255; 255]) = 3%nat /\
  bytes_ok (Span.incrementCounter [0; 255; 255]) /\
  beVal (Span.incrementCounter [0; 255; 255]) = (beVal [0; 255; 255] + 1) `mod` 256 ^ 3.
Proof. apply (incrementCounter_spec [0; 255; 255]). by repeat constructor. Defined.

(** ** The generator's state *)

Definition span_ok (s : Span.t) : Prop :=
  length (Span.key s) = 16%nat /\ length (Span.value s) = 16%nat.

Lemma incrementCounter_length c : length (Span.incrementCounter c) = length c.
Proof. unfold Span.incrementCounter. by rewrite length_reverse, carry_length, length_reverse. Qed.

Lemma serialize_deserialize s : span_ok s -> Span.deserialize (Span.serialize s) = s.
Proof.
  destruct s as [k v]. intros [Hk _]. unfold Span.deserialize, Span.serialize. cbn in *.
  by rewrite <-Hk, take_app_length, drop_app_length.
Qed.

Section Generator.
Context `{S2CryptoLaws}.

Lemma drbgUpdate_ok provided s : length provided = 32%nat -> span_ok (Span.drbgUpdate provided s).
Proof.
  intros Hp. unfold Span.drbgUpdate, span_ok, Span.xorBytes. cbn.
  rewrite length_take, length_drop, length_zip_with, length_app, !aes_length. lia.
Qed.

Lemma mixEntropy_length a b : length (Span.mixEntropy a b) = 32%nat.
Proof. unfold Span.mixEntropy. by rewrite length_app, !cmac_length. Qed.

Lemma instantiate_ok a b p : length p = 32%nat -> span_ok (Span.instantiate a b p).
Proof.
  intros Hp. apply drbgUpdate_ok. unfold Span.xorBytes.
  rewrite length_zip_with, mixEntropy_length. lia.
Qed.

Lemma nextNonce_ok s : length (Span.nextNonce s).1 = 16%nat /\ span_ok (Span.nextNonce s).2.
Proof. split; [apply aes_length|by apply drbgUpdate_ok]. Qed.

End Generator.

(** ** Encapsulation *)

(** A chain of extension objects, or none. *)
Definition extensions (o : Oob) (e : list Z) : Prop :=
  e = [] \/ Encap.extensionsLength e = Some (length e).

Section Extensions.
Context `{Oob}.

Lemma extLoop_S fuel d n :
  Encap.extLoop (S fuel) d = Some n <->
  (2 <= length d)%nat /\ 2 <= d.[0%nat] <= zlen d /\
  exists r, n = (Z.to_nat d.[0%nat] + r)%nat /\
    if Z.land d.[1%nat] Encap.EXT_MORE_TO_FOLLOW =? 0 then r = 0%nat
    else Encap.extLoop fuel (drop (Z.to_nat d.[0%nat]) d) = Some r.
Proof.
  cbn [Encap.extLoop]. destruct (Nat.ltb_spec (length d) 2); [split; [done|lia]|].
  destruct ((_ <? 2) || _) eqn:Hb; [apply orb_true_iff in Hb as [?|?]; zbool; (split; [done|lia])|].
  zbool. zcase; cbn [negb]; split.
  - intros [= <-]. split_and!; [lia..|]. exists 0%nat. split; [lia|done].
  - intros (?&?&r&->&->). f_equal. lia.
  - destruct (Encap.extLoop fuel _) as [r|]; [|done]. intros [= <-]. split_and!; [lia..|]. eauto.
  - by intros (?&?&r&->&->).
Qed.

Lemma extLoop_le fuel d n : Encap.extLoop fuel d = Some n -> (2 <= n <= length d)%nat.
Proof.
  revert d n. induction fuel as [|fuel IH]; intros d n; [done|].
  intros (?&?&r&->&He)%extLoop_S. case_match; [lia|]. apply IH in He.
  rewrite length_drop in He. lia.
Qed.

(** The loop reads only the bytes of the chain, and a longer bound changes
    nothing. *)
Lemma extLoop_prefix fuel d n d' fuel' :
  Encap.extLoop fuel d = Some n -> take n d' = take n d -> (n <= fuel')%nat ->
  Encap.extLoop fuel' d' = Some n.
Proof.
  revert d n d' fuel'. induction fuel as [|fuel IH]; intros d n d' fuel' He Hp Hf; [done|].
  pose proof (extLoop_le _ _ _ He). destruct fuel' as [|fuel']; [lia|]. apply extLoop_S in He as (?&?&r&Hn&He).
  assert (Hl : (n <= length d')%nat).
  { apply (f_equal length) in Hp. rewrite !length_take in Hp. lia. }
  assert (Hr : forall i, (i < n)%nat -> d'.[i] = d.[i]).
  { intros i Hi. unfold byteAt. by rewrite <-(lookup_take_lt d' n), Hp, lookup_take_lt. }
  apply extLoop_S. rewrite !Hr by lia. split_and!; [lia..|]. exists r. split; [done|].
  case_match; [done|]. eapply IH; [exact He| |lia].
  apply (f_equal (drop (Z.to_nat d.[0%nat]))) in Hp. rewrite !skipn_firstn_comm in Hp.
  by replace (n - _)%nat with r in Hp by lia.
Qed.

(** The chain is cut off where it ends, whatever follows it. *)
Lemma extensionsLength_app d n k :
  Encap.extensionsLength d = Some n -> Encap.extensionsLength (d ++ k) = Some n.
Proof.
  intros He. pose proof (extLoop_le _ _ _ He).
  eapply extLoop_prefix; [exact He| |rewrite length_app; lia]. by rewrite take_app_le by lia.
Qed.

Lemma extensionsLength_le d n : Encap.extensionsLength d = Some n -> (2 <= n <= length d)%nat.
Proof. apply extLoop_le. Qed.

Lemma extensionsLength_take d n :
  Encap.extensionsLength d = Some n -> Encap.extensionsLength (take n d) = Some n.
Proof.
  intros He. pose proof (extLoop_le _ _ _ He).
  eapply extLoop_prefix; [exact He| |rewrite length_take; lia]. by rewrite take_take, Nat.min_id.
Qed.

End Extensions.

(** Two contexts that agree on the identity fields; the sequence number of the
    receiver's context is not used. *)
Definition same_identity (c1 c2 : Encap.Context) : Prop :=
  Encap.senderNodeId c1 = Encap.senderNodeId c2 /\
  Encap.receiverNodeId c1 = Encap.receiverNodeId c2 /\ Encap.homeId c1 = Encap.homeId c2.

Section Encapsulation.
Context `{O : Oob} `{L : S2CryptoLaws}.

Lemma buildAad_identity c1 c2 seq props e n :
  same_identity c1 c2 -> Encap.buildAad c1 seq props e n = Encap.buildAad c2 seq props e n.
Proof. intros (H1&H2&H3). unfold Encap.buildAad. by rewrite H1, H2, H3. Qed.

(** What [decrypt] does with a frame whose parts are known. *)
Lemma decrypt_parts seq props ext cipher ctx k n :
  (if Z.land props Encap.PROP_EXT =? 0 then ext = []
   else Encap.extensionsLength ext = Some (length ext)) ->
  (8 <= length cipher)%nat ->
  let frame := [Encap.CC_SECURITY_2; Encap.CMD_ENCAP; seq; props] ++ ext ++ cipher in
  Encap.decrypt frame ctx k n =
    match ccmDecrypt k n (Encap.buildAad ctx seq props ext (length frame)) cipher 8 with
    | None => None
    | Some plaintext =>
        if Z.land props Encap.PROP_ENC_EXT =? 0 then Some plaintext else
        match Encap.extensionsLength plaintext with
        | None => None
        | Some e => Some (drop e plaintext)
        end
    end.
Proof.
  intros Hext Hc frame. unfold Encap.decrypt.
  change (frame.[0%nat]) with Encap.CC_SECURITY_2. change (frame.[1%nat]) with Encap.CMD_ENCAP.
  change (frame.[2%nat]) with seq. change (frame.[3%nat]) with props.
  assert (Hl : length frame = (4 + length ext + length cipher)%nat).
  { subst frame. rewrite !length_app. cbn. lia. }
  replace (length frame <? _)%nat with false
    by (symmetry; apply Nat.ltb_ge; rewrite Hl; unfold Encap.HEADER_SIZE, Encap.TAG_SIZE; lia).
  cbn [orb negb Z.eqb]. change (drop Encap.HEADER_SIZE frame) with (ext ++ cipher).
  assert (He : (if negb (Z.land props Encap.PROP_EXT =? 0)
                then Encap.extensionsLength (ext ++ cipher) else Some 0%nat) = Some (length ext)).
  { destruct (_ =? 0); cbn [negb]; [by subst|by apply extensionsLength_app]. }
  rewrite He. replace (length frame <? _)%nat with false
    by (symmetry; apply Nat.ltb_ge; rewrite Hl; unfold Encap.HEADER_SIZE, Encap.TAG_SIZE; lia).
  unfold slice. rewrite <-drop_drop. change (drop Encap.HEADER_SIZE frame) with (ext ++ cipher).
  rewrite take_app_length, drop_app_length. change Encap.TAG_SIZE with 8%nat.
  destruct (ccmDecrypt _ _ _ _ _) as [pt|]; [|done].
  destruct (Z.land props Encap.PROP_ENC_EXT =? 0); cbn [negb]; [done|].
  destruct (Encap.extensionsLength pt) as [e|] eqn:Ee; [|done].
  apply extensionsLength_le in Ee.
  by replace (length pt <? e)%nat with false by (symmetry; apply Nat.ltb_ge; lia).
Qed.

Lemma decrypt_encrypt inner ctx ctx' k n plainExt encExt :
  length n = 13%nat -> zlen (encExt ++ inner) < 65536 ->
  extensions O plainExt -> extensions O encExt -> same_identity ctx ctx' ->
  Encap.decrypt (Encap.encrypt inner ctx k n plainExt encExt) ctx' k n = Some inner.
Proof.
  intros Hn Hl Hp He Hid. unfold Encap.encrypt.
  rewrite decrypt_parts.
  - rewrite (buildAad_identity ctx ctx') by done. change Encap.TAG_SIZE with 8%nat.
    match goal with |- context [ ccmDecrypt _ _ (Encap.buildAad _ _ _ _ ?m) _ _ ] =>
      replace m with (Encap.HEADER_SIZE + length plainExt + length (encExt ++ inner) + 8)%nat
        by (rewrite !length_app, ccm_length, length_app by done; cbn; lia) end.
    rewrite ccm_correct by done.
    do 2 case_bool_decide; subst; cbn -[Encap.extensionsLength]; try done.
    all: destruct He as [->|He]; [done|].
    all: rewrite (extensionsLength_app _ _ inner He); by rewrite drop_app_length.
  - do 2 case_bool_decide; subst; cbn; try done; by destruct Hp.
  - change Encap.TAG_SIZE with 8%nat. rewrite ccm_length by done. lia.
Qed.

(** A frame [decrypt] accepts has the parts it looked at. *)
Lemma decrypt_inv frame ctx k n inner :
  Encap.decrypt frame ctx k n = Some inner ->
  exists seq props ext cipher,
    frame = [Encap.CC_SECURITY_2; Encap.CMD_ENCAP; seq; props] ++ ext ++ cipher /\
    (8 <= length cipher)%nat /\
    (if Z.land props Encap.PROP_EXT =? 0 then ext = []
     else Encap.extensionsLength ext = Some (length ext)).
Proof.
  intros Hd. destruct frame as [|b0 [|b1 [|seq [|props rest]]]]; [done..|].
  unfold Encap.decrypt in Hd.
  match type of Hd with (if ?c then _ else _) = _ => destruct c eqn:Hg; [done|] end. zbool.
  change ((b0 :: b1 :: seq :: props :: rest).[0%nat]) with b0 in *.
  change ((b0 :: b1 :: seq :: props :: rest).[1%nat]) with b1 in *.
  change ((b0 :: b1 :: seq :: props :: rest).[3%nat]) with props in *.
  change (drop Encap.HEADER_SIZE (b0 :: b1 :: seq :: props :: rest)) with rest in Hd.
  match type of Hd with match ?e with _ => _ end = _ => destruct e as [m|] eqn:He; [|done] end.
  match type of Hd with (if ?c then _ else _) = _ => destruct c eqn:Hl; [done|] end. zbool.
  cbn [length] in Hl. unfold Encap.HEADER_SIZE, Encap.TAG_SIZE in Hl.
  exists seq, props, (take m rest), (drop m rest). split_and!.
  - rewrite take_drop. cbn. by subst.
  - rewrite length_drop. lia.
  - destruct (Z.land props Encap.PROP_EXT =? 0); cbn [negb] in He; [by injection He as <-|].
    rewrite (extensionsLength_take _ _ He). pose proof (extensionsLength_le _ _ He).
    rewrite length_take. f_equal. lia.
Qed.

(** What [decrypt] accepts was sealed under the key, the nonce and the identity. *)
Definition sealed (frame : list Z) (ctx : Encap.Context) (k n inner : list Z) : Prop :=
  exists seq props ext encExt,
    frame = [Encap.CC_SECURITY_2; Encap.CMD_ENCAP; seq; props] ++ ext ++
            ccmEncrypt k n (Encap.buildAad ctx seq props ext (length frame)) (encExt ++ inner) 8 /\
    (if Z.land props Encap.PROP_EXT =? 0 then ext = []
     else Encap.extensionsLength ext = Some (length ext)) /\
    (if Z.land props Encap.PROP_ENC_EXT =? 0 then encExt = []
     else Encap.extensionsLength encExt = Some (length encExt)) /\
    (length (encExt ++ inner) + 8 <= length frame)%nat.

(** A frame without a ciphertext: header, announced extensions and a bare tag, which the
    primitive takes for the tag of the empty message.  What the tag is worth is the
    primitive's: the law [ccm_sound] speaks of non-empty messages only, since the code's
    [ccmDecrypt] does not verify a bare tag ([S2Primitives.lone_tag_accepted]). *)
Definition bareTag (frame : list Z) (ctx : Encap.Context) (k n : list Z) : Prop :=
  exists seq props ext tag,
    frame = [Encap.CC_SECURITY_2; Encap.CMD_ENCAP; seq; props] ++ ext ++ tag /\ length tag = 8%nat /\
    (if Z.land props Encap.PROP_EXT =? 0 then ext = []
     else Encap.extensionsLength ext = Some (length ext)) /\
    Z.land props Encap.PROP_ENC_EXT = 0 /\
    ccmDecrypt k n (Encap.buildAad ctx seq props ext (length frame)) tag 8 = Some [].

Definition accepted (frame : list Z) (ctx : Encap.Context) (k n inner : list Z) : Prop :=
  sealed frame ctx k n inner \/ (inner = [] /\ bareTag frame ctx k n).

Lemma decrypt_accepted frame ctx k n inner :
  length n = 13%nat -> Encap.decrypt frame ctx k n = Some inner -> accepted frame ctx k n inner.
Proof.
  intros Hn Hd. destruct (decrypt_inv _ _ _ _ _ Hd) as (seq&props&ext&cipher&->&Hc&He).
  rewrite decrypt_parts in Hd by done.
  destruct (ccmDecrypt _ _ _ _ _) as [pt|] eqn:Hpt; [|done].
  pose proof (ccm_plain_length _ _ _ _ _ Hpt) as Hlen.
  destruct (Z.eqb_spec (Z.land props Encap.PROP_ENC_EXT) 0) as [Hx|Hx]; simplify_eq.
  - destruct inner as [|b0 inner].
    { right. split; [done|]. by exists seq, props, ext, cipher. }
    left. exists seq, props, ext, []. apply ccm_sound in Hpt as Hs; [|done..]. cbn [app] in *. rewrite <-Hs.
    rewrite (proj2 (Z.eqb_eq _ _) Hx). split_and!; [done..|]. cbn in *. rewrite length_app. lia.
  - destruct (Encap.extensionsLength pt) as [e|] eqn:Ee; simplify_eq.
    left. exists seq, props, ext, (take e pt). rewrite take_drop. pose proof (extensionsLength_le _ _ Ee).
    apply ccm_sound in Hpt as Hs; [|done|by intros ->].
    rewrite (proj2 (Z.eqb_neq _ _) Hx). cbn [app] in *.
    rewrite <-Hs. split_and!; [done..| |cbn; rewrite length_app; lia].
    rewrite (extensionsLength_take _ _ Ee), length_take. f_equal. lia.
Qed.

Lemma accepted_decrypt frame ctx k n inner :
  length n = 13%nat -> zlen frame < 65536 -> accepted frame ctx k n inner -> Encap.decrypt frame ctx k n = Some inner.
Proof.
  intros Hn Hf [(seq&props&ext&encExt&Hfr&He&Hx&Hlen)|(->&seq&props&ext&tag&Hfr&Ht&He&Hx&Hd)]; rewrite Hfr.
  - rewrite decrypt_parts; [|done|rewrite ccm_length by (done || lia); lia].
    rewrite <-Hfr, ccm_correct by (done || lia).
    destruct (Z.land props Encap.PROP_ENC_EXT =? 0); [by subst|].
    by rewrite (extensionsLength_app _ _ inner Hx), drop_app_length.
  - rewrite decrypt_parts by (done || lia). by rewrite <-Hfr, Hd, Hx.
Qed.

(** C18: [decrypt], with a nonce of 13 bytes and a frame below [2^16] bytes, accepts
    exactly two kinds of frames.  One is [encrypt]'s layout: the header, the extension
    chain the flags announce and the AES-CCM encryption, under the key, the nonce and
    the associated data that binds sender, receiver, home id, frame length, sequence
    number, flags and extensions, of a chain of encrypted extensions (if announced)
    followed by the command it returns.  The other is a frame without a ciphertext,
    whose bare tag the primitive accepts for the empty message: it is returned as an
    empty command. *)
Theorem decrypt_iff frame ctx k n inner :
  length n = 13%nat -> zlen frame < 65536 ->
  Encap.decrypt frame ctx k n = Some inner <->
  sealed frame ctx k n inner \/ (inner = [] /\ bareTag frame ctx k n).
Proof. intros Hn Hf. split; [by apply decrypt_accepted|by apply accepted_decrypt]. Qed.

End Encapsulation.

Lemma decrypt_iff_witness :
  let o : Oob := 0 in let ctx := Encap.mkContext 1 9 [1;2;3;4] 7 in
  let k := replicate 16 5 in let n := replicate 13 6 in
  let frame := Encap.encrypt [0x25; 1; 255] ctx k n (NonceSync.encodeSpanExtension (replicate 16 3)) [] in
  let sealedOne inner := sealed (H := Toy.crypto) frame ctx k n inner \/ (inner = [] /\ bareTag (H := Toy.crypto) frame ctx k n) in
  sealedOne [0x25; 1; 255] /\ ~ sealedOne [].
Proof.
  intros o ctx k n frame sealedOne. split.
  - apply (decrypt_iff (L := Toy.laws) frame ctx k n [0x25; 1; 255]); [reflexivity|vm_compute; reflexivity..].
  - intros Hs. apply (decrypt_iff (L := Toy.laws) frame ctx k n []) in Hs; [|reflexivity|vm_compute; reflexivity].
    revert Hs. vm_compute. discriminate.
Defined.

(** ** Nonce synchronisation frames *)

Section Sync.
Context `{Oob}.

Lemma span_extension_found sei k :
  length sei = 16%nat -> NonceSync.findSpanExtension (NonceSync.encodeSpanExtension sei ++ k) = Some sei.
Proof.
  intros Hs. unfold NonceSync.findSpanExtension.
  set (e := NonceSync.encodeSpanExtension sei ++ k).
  assert (Hl : length e = (18 + length k)%nat) by (subst e; cbn; rewrite length_app; lia).
  cbn [NonceSync.findLoop]. change (e.[0%nat]) with 18. change (e.[1%nat]) with 0x41.
  replace (length e <? 2)%nat with false by (symmetry; apply Nat.ltb_ge; lia).
  replace (zlen e <? 18) with false by (symmetry; apply Z.ltb_ge; lia).
  cbn [Z.ltb Z.compare Pos.compare Pos.compare_cont orb].
  change (_ && _) with true. cbn iota. f_equal. unfold slice.
  change (drop 2 e) with (sei ++ k). by rewrite take_app_le, take_ge by (rewrite Hs; done).
Qed.

Lemma span_extension_chain sei :
  length sei = 16%nat ->
  Encap.extensionsLength (NonceSync.encodeSpanExtension sei) = Some (length (NonceSync.encodeSpanExtension sei)).
Proof.
  intros Hs. assert (Hl : length (NonceSync.encodeSpanExtension sei) = 18%nat) by (cbn; lia).
  apply extLoop_S. rewrite Hl. change (NonceSync.encodeSpanExtension sei).[0%nat] with 18.
  split_and!; [lia..|]. exists 0%nat. split; [lia|]. reflexivity.
Qed.

(** A report whose REI is there exactly when the SOS flag is. *)
Definition report_ok (r : NonceSync.Report) : Prop :=
  match NonceSync.rei r with Some e => NonceSync.sos r = true /\ length e = 16%nat
                           | None => NonceSync.sos r = false end.

Lemma nonceReport_decode r : report_ok r -> NonceSync.decodeNonceReport (NonceSync.encodeNonceReport r) = Some r.
Proof.
  destruct r as [seq [] mos [e|]]; unfold report_ok; cbn [NonceSync.rei NonceSync.sos]; intros Hr;
    try discriminate; try (destruct Hr; discriminate); destruct mos; try reflexivity.
  all: destruct Hr as [_ He]; unfold NonceSync.decodeNonceReport, NonceSync.encodeNonceReport;
    cbn [NonceSync.rei NonceSync.sos NonceSync.mos NonceSync.sequenceNumber default from_option id app];
    cbn [length]; rewrite He; cbn -[slice]; unfold slice, Span.EI_SIZE; cbn [drop];
    rewrite drop_0, take_ge by lia; reflexivity.
Qed.

End Sync.

(** ** Key exchange *)

(** KEX_REPORT and KEX_SET survive encoding and decoding, a KEX_FAIL gives
    back its failure type, and the three decoders accept no other frame of the
    class: no frame is accepted by two of them. *)
Lemma kex_roundtrip (o : Oob) r s f p :
  Kex.decodeReport (Kex.encodeReport r) = Some r /\ Kex.decodeSet (Kex.encodeSet s) = Some s /\
  Kex.decodeFail (Kex.encodeFail f) = Some f /\
  (is_Some (Kex.decodeReport p) -> Kex.decodeSet p = None /\ Kex.decodeFail p = None) /\
  (is_Some (Kex.decodeSet p) -> Kex.decodeReport p = None /\ Kex.decodeFail p = None).
Proof.
  split_and!.
  - destruct r as [[] [] ? ? ?]; reflexivity.
  - destruct s as [[] [] ? ? ?]; reflexivity.
  - reflexivity.
  - unfold Kex.decodeReport, Kex.decodeSet, Kex.decodeFail, Kex.kexFrame. intros [x Hx].
    repeat case_match; try done; zbool; simplify_eq; unfold Kex.KEX_REPORT, Kex.KEX_SET, Kex.KEX_FAIL in *; lia.
  - unfold Kex.decodeReport, Kex.decodeSet, Kex.decodeFail, Kex.kexFrame. intros [x Hx].
    repeat case_match; try done; zbool; simplify_eq; unfold Kex.KEX_REPORT, Kex.KEX_SET, Kex.KEX_FAIL in *; lia.
Qed.

(** The grant policy: a key class is granted exactly when the node requests it
    and the controller supports it, except that Access Control is never granted to
    a node that asks for client-side authentication. *)
Theorem grantKeys_spec r supported i :
  byte_ok (Kex.requestedKeys r) -> 0 <= i ->
  Z.testbit (Kex.grantKeys r supported) i =
    Z.testbit (Kex.requestedKeys r) i && Z.testbit supported i && negb (Kex.r_requestCsa r && (i =? 2)).
Proof.
  intros Hr Hi. unfold Kex.grantKeys.
  destruct (Kex.r_requestCsa r); cbn [andb negb]; [|by rewrite Z.land_spec, andb_true_r].
  rewrite u8_id.
  - rewrite !Z.land_spec, Z.lnot_spec by done. f_equal. f_equal.
    change Kex.KEY_S2_ACCESS_CONTROL with (2 ^ 2). by rewrite Z.pow2_bits_eqb, Z.eqb_sym.
  - rewrite <-Z.land_assoc, Z.land_comm. by apply land_byte.
Qed.

Lemma grantKeys_spec_witness :
  Z.testbit (Kex.grantKeys (Kex.mkReport false true 2 1 0x87) 0x87) 2 = false.
Proof. rewrite grantKeys_spec; [reflexivity|vm_compute; split; [discriminate|reflexivity]|lia]. Defined.
