(* ===== verification/S2SpanManager.v ===== *)
(** * Security S2: the nonce state machine per peer

    [zwave-protocol/security/s2/SpanManager.cpp]: who holds which entropy input,
    when a generator is instantiated and which nonce seals or opens a frame.
    The generators and frame formats come from [S2Codec]. *)

From S2P Require Import Prelude S2Codec.
From stdpp Require Import gmap countable.
#[local] Open Scope Z_scope.

(** The entropy source: the [n]-th call returns [entropy n].  The default,
    OpenSSL's generator, returns 16 bytes. *)
Class Entropy := entropy : nat -> list Z.
Class EntropyLaws `{Entropy} := entropy_length n : length (entropy n) = 16%nat.

Module SpanManager.

Record PeerConfig := mkConfig {
  classKey : list Z; personalization : list Z; homeId : list Z; ourNodeId : Z; peerNodeId : Z }.

Record Peer := mkPeer {
  config : PeerConfig;
  span : option Span.t;
  ourRei : option (list Z);
  peerRei : option (list Z);
  txSequence : Z }.

(** [entropy_] has been called [draws] times. *)
Record t := mk { peers : gmap Z Peer; draws : nat }.

Definition defaultPeer : Peer :=
  mkPeer (mkConfig (replicate 16 0) (replicate 32 0) (replicate 4 0) 0 0) None None None 0.

(** [peers_[peer]] creates the entry when there is none. *)
Definition peerState (m : t) (peer : Z) : Peer := default defaultPeer (peers m !! peer).
Definition setPeer (m : t) (peer : Z) (p : Peer) : t := mk (<[peer := p]> (peers m)) (draws m).

Definition configurePeer (peer : Z) (c : PeerConfig) (m : t) : t :=
  let p := peerState m peer in
  setPeer m peer (mkPeer c (span p) (ourRei p) (peerRei p) (txSequence p)).

Definition hasSpan (peer : Z) (m : t) : bool :=
  match peers m !! peer with
  | Some p => bool_decide (is_Some (span p))
  | None => false
  end.

Definition nonceGet (peer : Z) (m : t) : list Z * t :=
  let p := peerState m peer in
  (NonceSync.encodeNonceGet (txSequence p),
   setPeer m peer (mkPeer (config p) (span p) (ourRei p) (peerRei p) (u8 (txSequence p + 1)))).

Definition acceptNonceReport (peer : Z) (r : NonceSync.Report) (m : t) : t :=
  match NonceSync.rei r with
  | Some rei =>
      if NonceSync.sos r then
        let p := peerState m peer in
        setPeer m peer (mkPeer (config p) (span p) (ourRei p) (Some rei) (txSequence p))
      else m
  | None => m
  end.

Definition exportSpan (peer : Z) (m : t) : option (list Z) :=
  match peers m !! peer with
  | None => None
  | Some p => match span p with None => None | Some s => Some (Span.serialize s) end
  end.

Definition importSpan (peer : Z) (state : list Z) (m : t) : t :=
  let p := peerState m peer in
  setPeer m peer (mkPeer (config p) (Some (Span.deserialize state)) (ourRei p) (peerRei p) (txSequence p)).

Definition exportAll (m : t) : gmap Z (list Z) := omap (fun p => Span.serialize <$> span p) (peers m).

Section Operations.
Context `{Entropy} `{S2Crypto}.

Definition truncatedNonce (s : Span.t) : list Z * Span.t :=
  let (full, s') := Span.nextNonce s in (take Encap.CCM_NONCE_SIZE full, s').

Definition respondToNonceGet (peer : Z) (m : t) : list Z * t :=
  let p := peerState m peer in
  let rei := entropy (draws m) in
  (NonceSync.encodeNonceReport (NonceSync.mkReport (txSequence p) true false (Some rei)),
   mk (<[peer := mkPeer (config p) (span p) (Some rei) (peerRei p) (u8 (txSequence p + 1))]> (peers m))
      (S (draws m))).

(** The generator [encrypt] will draw from, with the extension to send along. *)
Definition encryptSpan (p : Peer) (draw : nat) : option (Span.t * list Z * option (list Z) * nat) :=
  match span p with
  | Some s => Some (s, [], peerRei p, draw)
  | None =>
      match peerRei p with
      | None => None
      | Some rei =>
          let sei := entropy draw in
          Some (Span.instantiate sei rei (personalization (config p)),
                NonceSync.encodeSpanExtension sei, None, S draw)
      end
  end.

Definition encrypt (peer : Z) (inner : list Z) (m : t) : option (list Z) * t :=
  let p := peerState m peer in
  match encryptSpan p (draws m) with
  | None => (None, setPeer m peer p)
  | Some (s, ext, rei, d) =>
      let context := Encap.mkContext (ourNodeId (config p)) (peerNodeId (config p)) (homeId (config p)) (txSequence p) in
      let (nonce, s') := truncatedNonce s in
      (Some (Encap.encrypt inner context (classKey (config p)) nonce ext []),
       mk (<[peer := mkPeer (config p) (Some s') (ourRei p) rei (u8 (txSequence p + 1))]> (peers m)) d)
  end.

(** The peer after [receiveNonce] has looked for a SPAN extension in the frame. *)
Definition establishFrom `{Oob} (p : Peer) (frame : list Z) : Peer :=
  let isEncap := (4 <=? length frame)%nat && (frame.[0%nat] =? NonceSync.COMMAND_CLASS)
                 && (frame.[1%nat] =? Encap.CMD_ENCAP) in
  if isEncap && negb (Z.land frame.[3%nat] Encap.PROP_EXT =? 0) then
    match ourRei p with
    | None => p
    | Some rei =>
        match NonceSync.findSpanExtension (drop 4 frame) with
        | None => p
        | Some sei => mkPeer (config p) (Some (Span.instantiate sei rei (personalization (config p))))
                        None (peerRei p) (txSequence p)
        end
    end
  else p.

Definition receiveNonce `{Oob} (peer : Z) (frame : list Z) (m : t) : option (list Z) * t :=
  let p := establishFrom (peerState m peer) frame in
  match span p with
  | None => (None, setPeer m peer p)
  | Some s =>
      let (nonce, s') := truncatedNonce s in
      (Some nonce, setPeer m peer (mkPeer (config p) (Some s') (ourRei p) (peerRei p) (txSequence p)))
  end.

End Operations.

End SpanManager.

(** ** Two peers *)

Section Session.
Context `{O : Oob} `{C : S2Crypto}.
Import SpanManager.

(** What the inbound path does with an encapsulated frame from [peer]. *)
Definition openFrame (peer : Z) (frame : list Z) (m : SpanManager.t) : option (list Z) * SpanManager.t :=
  let c := config (peerState m peer) in
  let (nonce, m') := receiveNonce peer frame m in
  match nonce with
  | None => (None, m')
  | Some n => (Encap.decrypt frame (Encap.mkContext (peerNodeId c) (ourNodeId c) (homeId c) frame.[2%nat])
                 (classKey c) n, m')
  end.

(** A daemon that restarts keeps what [exportSpan] gave it, and configures the
    peer again. *)
Definition restart (peer : Z) (m : SpanManager.t) : SpanManager.t :=
  let m0 := SpanManager.mk ∅ (draws m) in
  configurePeer peer (config (peerState m peer))
    match exportSpan peer m with Some st => importSpan peer st m0 | None => m0 end.

(** A conversation between node [a] (with manager [A] and entropy [eA]) and node
    [b]: each round a message one way, or a restart of [a]. *)
Inductive Round := AtoB (inner : list Z) | BtoA (inner : list Z) | RestartA.

Definition deliver (e : Entropy) (from to : Z) (inner : list Z) (S R : SpanManager.t)
    : option (list Z) * SpanManager.t * SpanManager.t :=
  let (f, S') := encrypt to inner S in
  match f with
  | None => (None, S', R)
  | Some frame => let (r, R') := openFrame from frame R in (r, S', R')
  end.

Fixpoint converse (eA eB : Entropy) (a b : Z) (rounds : list Round) (A B : SpanManager.t) : list (option (list Z)) :=
  match rounds with
  | [] => []
  | AtoB p :: rest => let '(r, A', B') := deliver eA a b p A B in r :: converse eA eB a b rest A' B'
  | BtoA p :: rest => let '(r, B', A') := deliver eB b a p B A in r :: converse eA eB a b rest A' B'
  | RestartA :: rest => converse eA eB a b rest (restart b A) B
  end.

Definition messages (rounds : list Round) : list (list Z) :=
  omap (fun r => match r with AtoB p | BtoA p => Some p | RestartA => None end) rounds.

(** The two ends agree on key, personalization, home id and node ids. *)
Definition mirrored (c d : PeerConfig) : Prop :=
  classKey c = classKey d /\ personalization c = personalization d /\ homeId c = homeId d /\
  ourNodeId c = peerNodeId d /\ peerNodeId c = ourNodeId d.

(** Both ends hold the same generator. *)
Definition synced (a b : Z) (A B : SpanManager.t) : Prop :=
  exists s pA pB, peers A !! b = Some pA /\ peers B !! a = Some pB /\
    span pA = Some s /\ span pB = Some s /\ span_ok s /\ mirrored (config pA) (config pB).

End Session.

Section SessionProofs.
Context `{O : Oob} `{L : S2CryptoLaws}.
Import SpanManager.

Lemma peerState_lookup m k p : peers m !! k = Some p -> peerState m k = p.
Proof. unfold peerState. by intros ->. Qed.

Lemma mirrored_sym c d : mirrored c d -> mirrored d c.
Proof. intros (?&?&?&?&?). by split_and!. Qed.

Lemma synced_sym a b A B : synced a b A B -> synced b a B A.
Proof.
  intros (s&pA&pB&?&?&?&?&?&?). exists s, pB, pA. split_and!; try done. by apply mirrored_sym.
Qed.

Lemma truncatedNonce_length s : length (truncatedNonce s).1 = 13%nat.
Proof.
  unfold truncatedNonce. destruct (Span.nextNonce s) as [full s'] eqn:E.
  pose proof (nextNonce_ok s) as [Hl _]. rewrite E in Hl. cbn in *. rewrite length_take, Hl. done.
Qed.

Lemma truncatedNonce_ok s : span_ok (truncatedNonce s).2.
Proof.
  unfold truncatedNonce. destruct (Span.nextNonce s) as [full s'] eqn:E.
  pose proof (nextNonce_ok s) as [_ Hs]. by rewrite E in Hs.
Qed.

(** Without an extension nothing is looked up in the frame. *)
Lemma establishFrom_plain p inner ctx k n :
  establishFrom p (Encap.encrypt inner ctx k n [] []) = p.
Proof. reflexivity. Qed.

Lemma establishFrom_extension p inner ctx k n sei rei :
  length sei = 16%nat -> ourRei p = Some rei ->
  establishFrom p (Encap.encrypt inner ctx k n (NonceSync.encodeSpanExtension sei) []) =
    mkPeer (config p) (Some (Span.instantiate sei rei (personalization (config p)))) None (peerRei p) (txSequence p).
Proof.
  intros Hs Hr. unfold establishFrom.
  change (_ && _) with true. cbn iota. rewrite Hr.
  assert (exists c, drop 4 (Encap.encrypt inner ctx k n (NonceSync.encodeSpanExtension sei) [])
                    = NonceSync.encodeSpanExtension sei ++ c) as [c ->] by (eexists; reflexivity).
  by rewrite span_extension_found.
Qed.

(** A frame sealed with the nonce [receiveNonce] arrives at opens. *)
Lemma openFrame_opens peer inner (m : SpanManager.t) p s ctx ext :
  peers m !! peer = Some p ->
  let frame := Encap.encrypt inner ctx (classKey (config p)) (truncatedNonce s).1 ext [] in
  span (establishFrom p frame) = Some s -> config (establishFrom p frame) = config p ->
  extensions O ext -> zlen inner < 65536 ->
  same_identity ctx (Encap.mkContext (peerNodeId (config p)) (ourNodeId (config p)) (homeId (config p)) 0) ->
  exists p', openFrame peer frame m = (Some inner, setPeer m peer p') /\
    span p' = Some (truncatedNonce s).2 /\ config p' = config p.
Proof.
  intros Hp frame Hs Hc He Hl Hid. unfold openFrame, receiveNonce.
  rewrite (peerState_lookup _ _ _ Hp), Hs.
  pose proof (truncatedNonce_length s) as Hn.
  destruct (truncatedNonce s) as [nonce s'] eqn:E. cbn [fst snd] in *.
  exists (mkPeer (config (establishFrom p frame)) (Some s') (ourRei (establishFrom p frame))
            (peerRei (establishFrom p frame)) (txSequence (establishFrom p frame))).
  split; [|done]. f_equal. subst frame. apply decrypt_encrypt; try done. by left.
Qed.

Lemma deliver_synced e a b p A B :
  synced a b A B -> zlen p < 65536 ->
  exists A' B', deliver e a b p A B = (Some p, A', B') /\ synced a b A' B'.
Proof.
  intros (s&pA&pB&HA&HB&HsA&HsB&Hok&Hm) Hl. pose proof Hm as (Hk&Hp&Hh&Ho&Hn).
  unfold deliver, encrypt, encryptSpan. rewrite (peerState_lookup _ _ _ HA), HsA.
  destruct (openFrame_opens a p B pB s
    (Encap.mkContext (ourNodeId (config pA)) (peerNodeId (config pA)) (homeId (config pA)) (txSequence pA))
    [] HB) as (pB'&Hopen&Hs'&Hc').
  - by rewrite establishFrom_plain.
  - by rewrite establishFrom_plain.
  - by left.
  - done.
  - by split_and!.
  - rewrite Hk. pose proof (truncatedNonce_ok s) as Hok'.
    destruct (truncatedNonce s) as [nonce s']. cbn [fst snd] in *. rewrite Hopen.
    do 2 eexists. split; [reflexivity|]. exists s'. cbn.
    do 2 eexists. split_and!; [apply lookup_insert_eq|apply lookup_insert_eq|..]; try done.
    cbn. by rewrite Hc'.
Qed.

Lemma restart_synced a b A B : synced a b A B -> synced a b (restart b A) B.
Proof.
  intros (s&pA&pB&HA&HB&HsA&HsB&Hok&Hm). unfold restart, exportSpan.
  rewrite HA, HsA, (peerState_lookup _ _ _ HA). exists s.
  do 2 eexists. cbn. split_and!; [apply lookup_insert_eq|exact HB|..]; try done.
  cbn. unfold peerState. cbn. rewrite lookup_insert_eq. cbn. f_equal. by apply serialize_deserialize.
Qed.

Lemma converse_synced eA eB a b rounds A B :
  synced a b A B -> Forall (fun p => zlen p < 65536) (messages rounds) ->
  converse eA eB a b rounds A B = Some <$> messages rounds.
Proof.
  revert A B. induction rounds as [|[p|p|] rounds IH]; intros A B Hs Hm; [done|..]; cbn in *.
  - inv Hm. destruct (deliver_synced eA a b p A B) as (A'&B'&->&?); [done..|]. cbn. f_equal. auto.
  - inv Hm. destruct (deliver_synced eB b a p B A) as (B'&A'&->&?); [by apply synced_sym|done|].
    cbn. f_equal. apply IH; [by apply synced_sym|done].
  - apply IH; [by apply restart_synced|done].
Qed.

Lemma respond_report e (El : EntropyLaws (H := e)) a (B : SpanManager.t) pB :
  peers B !! a = Some pB ->
  NonceSync.decodeNonceReport (respondToNonceGet a B).1
    = Some (NonceSync.mkReport (txSequence pB) true false (Some (entropy (draws B)))).
Proof.
  intros HB. unfold respondToNonceGet. cbn [fst]. rewrite (peerState_lookup _ _ _ HB).
  apply nonceReport_decode. split; [done|apply El].
Qed.

(** The first message after the exchange carries the extension, opens, and leaves
    both ends with the same generator. *)
Lemma deliver_first e (El : EntropyLaws (H := e)) a b p (A B : SpanManager.t) pA pB rei :
  peers A !! b = Some pA -> span pA = None -> peerRei pA = Some rei ->
  peers B !! a = Some pB -> ourRei pB = Some rei -> mirrored (config pA) (config pB) ->
  length (personalization (config pA)) = 32%nat -> zlen p < 65536 ->
  exists A' B', deliver e a b p A B = (Some p, A', B') /\ synced a b A' B'.
Proof.
  intros HA HsA HrA HB HrB Hm Hpl Hl. pose proof Hm as (Hk&Hp&Hh&Ho&Hn).
  unfold deliver, encrypt, encryptSpan. rewrite (peerState_lookup _ _ _ HA), HsA, HrA.
  set (sei := entropy (draws A)). assert (Hsei : length sei = 16%nat) by apply El.
  set (s := Span.instantiate sei rei (personalization (config pA))).
  destruct (openFrame_opens a p B pB s
    (Encap.mkContext (ourNodeId (config pA)) (peerNodeId (config pA)) (homeId (config pA)) (txSequence pA))
    (NonceSync.encodeSpanExtension sei) HB) as (pB'&Hopen&Hs'&Hc').
  - erewrite establishFrom_extension by done. cbn. by rewrite <-Hp.
  - by erewrite establishFrom_extension by done.
  - right. by apply span_extension_chain.
  - done.
  - by split_and!.
  - rewrite Hk. pose proof (truncatedNonce_ok s) as Hok'.
    destruct (truncatedNonce s) as [nonce s']. cbn [fst snd] in *. rewrite Hopen.
    do 2 eexists. split; [reflexivity|]. exists s'. cbn.
    do 2 eexists. split_and!; [apply lookup_insert_eq|apply lookup_insert_eq|..]; try done.
    cbn. by rewrite Hc'.
Qed.

(** The requesting end once the report is in. *)
Lemma requested_peer (b : Z) (A : SpanManager.t) pA seq mos rei :
  peers A !! b = Some pA ->
  peers (acceptNonceReport b (NonceSync.mkReport seq true mos (Some rei)) (nonceGet b A).2) !! b
    = Some (mkPeer (config pA) (span pA) (ourRei pA) (Some rei) (u8 (txSequence pA + 1))).
Proof.
  intros HA. unfold acceptNonceReport, nonceGet. rewrite (peerState_lookup _ _ _ HA).
  cbn. rewrite lookup_insert_eq. f_equal. unfold peerState. cbn. by rewrite lookup_insert_eq.
Qed.

(** C7: lockstep.  When [a] has no generator for [b], the exchange NONCE_GET,
    NONCE_REPORT makes the first message [a] sends open at [b], and with it every
    message of any later conversation, in both directions and across restarts of
    [a], whatever generator [b] held before. *)
Theorem span_lockstep (eA eB : Entropy) (LA : EntropyLaws (H := eA)) (LB : EntropyLaws (H := eB))
    (a b : Z) (A B : SpanManager.t) pA pB first rounds :
  peers A !! b = Some pA -> span pA = None -> peers B !! a = Some pB ->
  mirrored (config pA) (config pB) -> length (personalization (config pA)) = 32%nat ->
  Forall (fun p => zlen p < 65536) (first :: messages rounds) ->
  let A1 := (nonceGet b A).2 in
  let (report, B1) := respondToNonceGet (H := eB) a B in
  match NonceSync.decodeNonceReport report with
  | None => False
  | Some r => converse eA eB a b (AtoB first :: rounds) (acceptNonceReport b r A1) B1
              = Some <$> (first :: messages rounds)
  end.
Proof.
  intros HA HsA HB Hm Hpl Hlen A1. pose proof (respond_report eB LB a B pB HB) as Hr.
  destruct (respondToNonceGet (H := eB) a B) as [report B1] eqn:EB. cbn [fst] in Hr. rewrite Hr.
  unfold respondToNonceGet in EB. rewrite (peerState_lookup _ _ _ HB) in EB.
  injection EB as <- <-. inv Hlen. subst A1. cbn [converse].
  destruct (deliver_first eA LA a b first _
    (SpanManager.mk (<[a:=mkPeer (config pB) (span pB) (Some (@entropy eB (draws B))) (peerRei pB)
       (u8 (txSequence pB + 1))]> (peers B)) (S (draws B))) _ _ (@entropy eB (draws B))
    (requested_peer b A pA (txSequence pB) false (@entropy eB (draws B)) HA) HsA eq_refl
    (lookup_insert_eq _ _ _) eq_refl Hm Hpl) as (A'&B'&->&Hs); [done|].
  cbn. f_equal. by apply converse_synced.
Qed.

End SessionProofs.

Definition toyEntropy : Entropy := fun n => (fun i => u8 (Z.of_nat (n * 17 + i))) <$> seq 0 16.

Lemma toyEntropy_laws : EntropyLaws (H := toyEntropy).
Proof. intros n. unfold entropy, toyEntropy. by rewrite length_fmap, length_seq. Qed.

Definition toyConfig (our peer : Z) : SpanManager.PeerConfig :=
  SpanManager.mkConfig (replicate 16 0xA5) (replicate 32 0x5A) [1; 2; 3; 4] our peer.
Definition toyManager (our peer : Z) (s : option Span.t) : SpanManager.t :=
  SpanManager.mk {[ peer := SpanManager.mkPeer (toyConfig our peer) s None None 250 ]} 3.

Lemma span_lockstep_witness :
  let o : Oob := 0 in
  let r := SpanManager.respondToNonceGet (H := toyEntropy) 1 (toyManager 9 1 None) in
  match NonceSync.decodeNonceReport r.1 with
  | None => False
  | Some rep =>
      converse (C := Toy.crypto) toyEntropy toyEntropy 1 9 [AtoB [0x25; 1; 255]; BtoA [0x25; 3; 0]; RestartA; AtoB [0x20; 2]]
        (SpanManager.acceptNonceReport 9 rep (SpanManager.nonceGet 9 (toyManager 1 9 None)).2) r.2
      = [Some [0x25; 1; 255]; Some [0x25; 3; 0]; Some [0x20; 2]]
  end.
Proof.
  intros o. apply (span_lockstep (O := o) (L := Toy.laws) toyEntropy toyEntropy toyEntropy_laws toyEntropy_laws 1 9
    (toyManager 1 9 None) (toyManager 9 1 None) _ _ [0x25; 1; 255] [BtoA [0x25; 3; 0]; RestartA; AtoB [0x20; 2]]
    eq_refl eq_refl eq_refl).
  - by vm_compute.
  - reflexivity.
  - by repeat constructor.
Defined.

(** ** A peer that lost its generator

    Each round [b] answers the frame it cannot open with a NONCE_REPORT, [a]
    accepts it and sends again. *)
Fixpoint resyncRounds `{Oob} `{S2Crypto} (eA eB : Entropy) (a b : Z) (inners : list (list Z)) (A B : SpanManager.t)
    : list (option (list Z)) :=
  match inners with
  | [] => []
  | p :: rest =>
      let (report, B1) := SpanManager.respondToNonceGet (H := eB) a B in
      let A1 := match NonceSync.decodeNonceReport report with
                | Some r => SpanManager.acceptNonceReport b r A
                | None => A
                end in
      let '(r, A2, B2) := deliver eA a b p A1 B1 in
      r :: resyncRounds eA eB a b rest A2 B2
  end.

Section Resync.
Context `{O : Oob} `{C : S2Crypto}.
Import SpanManager.

Definition has_span (m : SpanManager.t) (peer : Z) : Prop := exists p s, peers m !! peer = Some p /\ span p = Some s.
Definition no_span (m : SpanManager.t) (peer : Z) : Prop := span (peerState m peer) = None.

Lemma accept_has_span m peer r : has_span m peer -> has_span (acceptNonceReport peer r m) peer.
Proof.
  intros (p&s&Hp&Hs). unfold acceptNonceReport. repeat case_match; [|by exists p, s..].
  rewrite (peerState_lookup _ _ _ Hp). do 2 eexists. split; [apply lookup_insert_eq|done].
Qed.

(** With a generator at hand, [encrypt] sends no extension; the receiver without
    one finds nothing to build it from. *)
Lemma deliver_desynced e a b p A B :
  has_span A b -> no_span B a ->
  exists A' B', deliver e a b p A B = (None, A', B') /\ has_span A' b /\ no_span B' a.
Proof.
  intros (pA&s&HA&Hs) HB. unfold deliver, encrypt, encryptSpan.
  rewrite (peerState_lookup _ _ _ HA), Hs. destruct (truncatedNonce s) as [nonce s'].
  unfold openFrame, receiveNonce. rewrite establishFrom_plain, HB.
  do 2 eexists. split_and!; [reflexivity|..].
  - do 2 eexists. split; [apply lookup_insert_eq|done].
  - unfold no_span, peerState. cbn. by rewrite lookup_insert_eq.
Qed.

(** [encrypt] prefers an established generator over a fresh REI, so a peer that
    has lost its own never gets a SPAN extension to rebuild it from: however often
    it answers with NONCE_REPORT(SOS) and the report is accepted, no message is
    delivered. *)
Theorem resync_never_recovers eA eB a b inners A B :
  has_span A b -> no_span B a ->
  resyncRounds eA eB a b inners A B = replicate (length inners) None.
Proof.
  revert A B. induction inners as [|p inners IH]; intros A B HA HB; [done|].
  cbn [resyncRounds]. destruct (respondToNonceGet a B) as [report B1] eqn:EB.
  assert (no_span B1 a) as HB1.
  { unfold respondToNonceGet in EB. injection EB as <- <-.
    unfold no_span, peerState. cbn. by rewrite lookup_insert_eq. }
  assert (has_span (match NonceSync.decodeNonceReport report with
                    | Some r => acceptNonceReport b r A | None => A end) b) as HA1.
  { case_match; [by apply accept_has_span|done]. }
  destruct (deliver_desynced eA a b p _ _ HA1 HB1) as (A2&B2&->&HA2&HB2).
  cbn. f_equal. by apply IH.
Qed.

End Resync.

Lemma resync_never_recovers_witness :
  let o : Oob := 0 in
  resyncRounds (H0 := Toy.crypto) toyEntropy toyEntropy 1 9 [[0x25; 1; 255]; [0x25; 1; 0]]
    (toyManager 1 9 (Some (Span.mk (replicate 16 0) (replicate 16 0)))) (toyManager 9 1 None) = [None; None].
Proof.
  intros o. apply (resync_never_recovers (O := o)).
  - do 2 eexists. split; reflexivity.
  - reflexivity.
Defined.

(** ** The table of generators

    [S2::SPAN::Table] of [Span.cpp] keeps a generator per peer; no other file uses it. *)
Module SpanTable.

Abbreviation Table := (gmap Z Span.t).

Section Operations.
Context `{S2Crypto}.

Definition establish (peer : Z) (senderEI receiverEI personalization : list Z) (spans : Table) : Table :=
  <[peer := Span.instantiate senderEI receiverEI personalization]> spans.

Definition has (peer : Z) (spans : Table) : bool := bool_decide (is_Some (spans !! peer)).

Definition nextNonce (peer : Z) (spans : Table) : option (list Z) * Table :=
  match spans !! peer with
  | None => (None, spans)
  | Some span => let (nonce, span) := Span.nextNonce span in (Some nonce, <[peer := span]> spans)
  end.

Definition remove (peer : Z) (spans : Table) : Table := delete peer spans.

Inductive Op :=
| Establish (peer : Z) (senderEI receiverEI personalization : list Z)
| NextNonce (peer : Z)
| Remove (peer : Z).

Definition peerOf (op : Op) : Z := match op with Establish peer _ _ _ | NextNonce peer | Remove peer => peer end.

(** The answers of [nextNonce], with the peer that asked. *)
Definition step (op : Op) (spans : Table) : list (Z * option (list Z)) * Table :=
  match op with
  | Establish peer sei rei pers => ([], establish peer sei rei pers spans)
  | NextNonce peer => let (nonce, spans) := nextNonce peer spans in ([(peer, nonce)], spans)
  | Remove peer => ([], remove peer spans)
  end.

Fixpoint run (ops : list Op) (spans : Table) : list (Z * option (list Z)) :=
  match ops with
  | [] => []
  | op :: ops => let (answers, spans) := step op spans in answers ++ run ops spans
  end.

Definition answersOf (peer : Z) (answers : list (Z * option (list Z))) : list (Z * option (list Z)) :=
  filter (fun a => a.1 = peer) answers.

Lemma answersOf_one peer q nonce : answersOf peer [(q, nonce)] = if decide (q = peer) then [(q, nonce)] else [].
Proof. done. Qed.

Lemma step_other op peer spans :
  peerOf op <> peer -> (step op spans).2 !! peer = spans !! peer /\ answersOf peer (step op spans).1 = [].
Proof.
  intros Hne. destruct op as [q sei rei pers|q|q]; cbn [step peerOf fst snd] in *.
  - split; [|done]. unfold establish. by rewrite lookup_insert_ne.
  - unfold nextNonce. destruct (spans !! q) as [sp|] eqn:Hq.
    + destruct (Span.nextNonce sp) as [nonce sp']. cbn [fst snd]. split; [by rewrite lookup_insert_ne|].
      rewrite answersOf_one. by destruct (decide (q = peer)).
    + cbn [fst snd]. split; [done|]. rewrite answersOf_one. by destruct (decide (q = peer)).
  - split; [|done]. unfold remove. by rewrite lookup_delete_ne.
Qed.

Lemma step_same op spans spans' :
  spans !! peerOf op = spans' !! peerOf op ->
  (step op spans).1 = (step op spans').1 /\ (step op spans).2 !! peerOf op = (step op spans').2 !! peerOf op.
Proof.
  intros Heq. destruct op as [q sei rei pers|q|q]; cbn in *.
  - unfold establish. by rewrite !lookup_insert_eq.
  - unfold nextNonce. rewrite Heq. destruct (spans' !! q) as [sp|] eqn:Hq; [|cbn; by rewrite Heq, Hq].
    destruct (Span.nextNonce sp) as [nonce sp']. cbn. by rewrite !lookup_insert_eq.
  - unfold remove. by rewrite !lookup_delete_eq.
Qed.

(** The nonces of a peer are those its own operations alone would have drawn. *)
Theorem peers_independent peer ops spans spans' :
  spans !! peer = spans' !! peer ->
  answersOf peer (run ops spans) = run (filter (fun op => peerOf op = peer) ops) spans'.
Proof.
  revert spans spans'. induction ops as [|op ops IH]; intros spans spans' Heq; [done|].
  cbn [run]. rewrite list.filter_cons. destruct (step op spans) as [answers s] eqn:E.
  unfold answersOf. rewrite list.filter_app. fold (answersOf peer answers) (answersOf peer (run ops s)).
  destruct (decide (peerOf op = peer)) as [Hp|Hp].
  - cbn [run]. destruct (step_same op spans spans') as [H1 H2]; [by rewrite Hp|].
    rewrite E in H1, H2. destruct (step op spans') as [answers' s']. cbn in *. subst answers'. rewrite Hp in H2.
    f_equal; [|by apply IH].
    destruct op as [q sei rei pers|q|q]; cbn [step peerOf] in E, Hp; subst peer.
    + by injection E as <- _.
    + cbn [step] in E. unfold nextNonce in E. destruct (spans !! q); [destruct (Span.nextNonce _)|]; injection E as <- _;
        rewrite answersOf_one; by destruct (decide (q = q)).
    + by injection E as <- _.
  - destruct (step_other op peer spans Hp) as [H1 H2]. rewrite E in H1, H2. cbn [fst snd] in H1, H2. rewrite H2.
    apply IH. by rewrite H1.
Qed.

End Operations.
End SpanTable.
