(* ===== verification/S2Transport.v ===== *)
(** * Security S2: class keys and the inbound and outbound traffic paths

    [KeyDerivation.cpp], [NetworkKeys.cpp] ([keyFor]) and [Transport.cpp] of
    [zwave-protocol/security/s2/], and the handlers of
    [orchestrator/SecurityS2InboundOrchestrator.cpp] and
    [orchestrator/SecurityS2OutboundOrchestrator.cpp].  A handler takes the state
    it works on and returns the bus messages it publishes, in order. *)

From S2P Require Import Prelude S2Codec S2SpanManager.
From stdpp Require Import gmap countable.
#[local] Open Scope Z_scope.

(** ** Key derivation *)

Module KeyDerivation.

Definition CONST_PRK_BYTE : Z := 0x33.
Definition CONST_TE_BYTE : Z := 0x88.
Definition CONST_NK_BYTE : Z := 0x55.
Definition CONST_EXPAND_LEN : nat := 15.

Record TempKeys := mkTemp { t_keyCcm : list Z; t_personalization : list Z }.
Record NetworkKeys := mkKeys { keyCcm : list Z; personalization : list Z; keyMpan : list Z }.

Section Ckdf.
Context `{S2Crypto}.

(** The blocks from [index] on; [prev] is the block before, absent for the first. *)
Fixpoint ckdfLoop (prk : list Z) (constByte : Z) (prev : list Z) (index : Z) (blocks : nat) : list (list Z) :=
  match blocks with
  | O => []
  | S blocks =>
      let msg := (if 1 <? index then prev else []) ++ replicate CONST_EXPAND_LEN constByte ++ [u8 index] in
      let block := cmac prk msg in
      block :: ckdfLoop prk constByte block (index + 1) blocks
  end.

Definition ckdfExpand (prk : list Z) (constByte : Z) (blocks : nat) : list (list Z) :=
  ckdfLoop prk constByte [] 1 blocks.

Definition join (low high : list Z) : list Z := low ++ high.

Definition block (chain : list (list Z)) (i : nat) : list Z := default [] (chain !! i).

Definition tempExtract (sharedSecret controllerPublicKey nodePublicKey : list Z) : list Z :=
  cmac (replicate 16 CONST_PRK_BYTE) (sharedSecret ++ controllerPublicKey ++ nodePublicKey).

Definition tempExpand (prk : list Z) : TempKeys :=
  let chain := ckdfExpand prk CONST_TE_BYTE 3 in
  mkTemp (block chain 0) (join (block chain 1) (block chain 2)).

Definition deriveTempKeys (sharedSecret controllerPublicKey nodePublicKey : list Z) : TempKeys :=
  tempExpand (tempExtract sharedSecret controllerPublicKey nodePublicKey).

Definition networkKeyExpand (networkKey : list Z) : NetworkKeys :=
  let chain := ckdfExpand networkKey CONST_NK_BYTE 4 in
  mkKeys (block chain 0) (join (block chain 1) (block chain 2)) (block chain 3).
End Ckdf.

End KeyDerivation.

(** ** Class keys *)

Module Transport.

Inductive KeyClass := Unauthenticated | Authenticated | AccessControl | S0Compat.

Definition classIndex (c : KeyClass) : nat :=
  match c with Unauthenticated => 0 | Authenticated => 1 | AccessControl => 2 | S0Compat => 3 end.

(** [KeySet] is an array of four keys. *)
Definition keyFor (keys : list (list Z)) (c : KeyClass) : list Z := default [] (keys !! classIndex c).

Definition SCHEME_S2_UNAUTHENTICATED : Z := 2.
Definition SCHEME_S2_AUTHENTICATED : Z := 3.
Definition SCHEME_S2_ACCESS_CONTROL : Z := 4.

Definition classForScheme (securityScheme : Z) : option KeyClass :=
  if securityScheme =? SCHEME_S2_UNAUTHENTICATED then Some Unauthenticated
  else if securityScheme =? SCHEME_S2_AUTHENTICATED then Some Authenticated
  else if securityScheme =? SCHEME_S2_ACCESS_CONTROL then Some AccessControl
  else None.

Definition resolveClassKeys `{S2Crypto} (current : option (list (list Z))) (securityScheme : Z)
    : option KeyDerivation.NetworkKeys :=
  match classForScheme securityScheme with
  | None => None
  | Some cls =>
      match current with
      | None => None
      | Some keys => Some (KeyDerivation.networkKeyExpand (keyFor keys cls))
      end
  end.

End Transport.

(** ** What the two paths use of the node registry *)

Class NodeSecurity := { isSecure : Z -> bool; securityScheme : Z -> Z }.

(** The bus messages the two paths publish. *)
Inductive BusMessage :=
| SendDataCommand (nodeId : Z) (payload : list Z) (callbackId : Z)
| ApplicationCommand (sourceNodeId : Z) (ccData : list Z).

Definition NO_CALLBACK : Z := 0x00.

Record Pending := mkPending { payload : list Z; callbackId : Z }.

(** Per-node queues of what waits for a generator. *)
Abbreviation Queues := (gmap Z (list Pending)).

Section Paths.
Context `{Oob} `{S2Crypto} `{Entropy} `{NodeSecurity}.

(** The keys of the process, [NetworkKeys::current()]. *)
Context (current : option (list (list Z))).

(** The dongle's identity as each path has last seen it. *)
Record Identity := mkIdentity { homeId : list Z; controllerNodeId : Z }.

(** [std::copy_n] over the four bytes of [homeId]. *)
Definition onDongleInfo (infoHomeId : list Z) (infoNodeId : Z) (st : Identity) : Identity :=
  let n := Nat.min (length infoHomeId) (length (homeId st)) in
  mkIdentity (take n infoHomeId ++ drop n (homeId st)) infoNodeId.

(** [configurePeer] of both files: the keys when the node is S2-secure and they
    are loaded. *)
Definition configurePeer (st : Identity) (nodeId : Z) (m : SpanManager.t) : option (list Z) * SpanManager.t :=
  if negb (isSecure nodeId) then (None, m) else
  match Transport.resolveClassKeys current (securityScheme nodeId) with
  | None => (None, m)
  | Some derived =>
      (Some (KeyDerivation.keyCcm derived),
       SpanManager.configurePeer nodeId
         (SpanManager.mkConfig (KeyDerivation.keyCcm derived) (KeyDerivation.personalization derived)
            (homeId st) (controllerNodeId st) nodeId) m)
  end.

(** *** Inbound *)

Definition resync (nodeId : Z) (m : SpanManager.t) : list BusMessage * SpanManager.t :=
  let (report, m') := SpanManager.respondToNonceGet nodeId m in
  ([SendDataCommand nodeId report NO_CALLBACK], m').

Definition onInbound (st : Identity) (nodeId : Z) (data : list Z) (m : SpanManager.t)
    : list BusMessage * SpanManager.t :=
  if (length data <? 2)%nat || negb (data.[0%nat] =? NonceSync.COMMAND_CLASS) then ([], m) else
  let (classKeyCcm, m) := configurePeer st nodeId m in
  match classKeyCcm with
  | None => ([], m)
  | Some key =>
      if data.[1%nat] =? NonceSync.NONCE_GET then resync nodeId m
      else if negb (data.[1%nat] =? Encap.CMD_ENCAP) then ([], m) else
      let (nonce, m) := SpanManager.receiveNonce nodeId data m in
      match nonce with
      | None => resync nodeId m
      | Some n =>
          let context := Encap.mkContext nodeId (controllerNodeId st) (homeId st) data.[2%nat] in
          match Encap.decrypt data context key n with
          | None => resync nodeId m
          | Some inner => ([ApplicationCommand nodeId inner], m)
          end
      end
  end.

(** *** Outbound *)

Definition sendEncrypted (nodeId : Z) (p : Pending) (m : SpanManager.t) : option BusMessage * SpanManager.t :=
  let (frame, m') := SpanManager.encrypt nodeId (payload p) m in
  match frame with
  | None => (None, m')
  | Some f => (Some (SendDataCommand nodeId f (callbackId p)), m')
  end.

Definition onSecureS2SendRequest (st : Identity) (nodeId : Z) (pl : list Z) (cb : Z) (q : Queues) (m : SpanManager.t)
    : list BusMessage * Queues * SpanManager.t :=
  let (configured, m) := configurePeer st nodeId m in
  match configured with
  | None => ([], q, m)
  | Some _ =>
      let pending := mkPending pl cb in
      let (sent, m) := sendEncrypted nodeId pending m in
      match sent with
      | Some msg => ([msg], q, m)
      | None =>
          let queue := default [] (q !! nodeId) in
          let wasIdle := bool_decide (queue = []) in
          let q := <[nodeId := queue ++ [pending]]> q in
          if wasIdle then
            let (get, m) := SpanManager.nonceGet nodeId m in
            ([SendDataCommand nodeId get NO_CALLBACK], q, m)
          else ([], q, m)
      end
  end.

(** The loop that drains a queue: it stops at the first payload that cannot be
    encrypted, and the queue is erased either way. *)
Fixpoint drain (nodeId : Z) (queue : list Pending) (m : SpanManager.t) : list BusMessage * SpanManager.t :=
  match queue with
  | [] => ([], m)
  | p :: rest =>
      let (sent, m) := sendEncrypted nodeId p m in
      match sent with
      | None => ([], m)
      | Some msg => let (msgs, m) := drain nodeId rest m in (msg :: msgs, m)
      end
  end.

Definition onOutboundCommand (src : Z) (ccData : list Z) (q : Queues) (m : SpanManager.t)
    : list BusMessage * Queues * SpanManager.t :=
  match NonceSync.commandByte ccData with
  | None => ([], q, m)
  | Some command =>
      if negb (command =? NonceSync.NONCE_REPORT) then ([], q, m) else
      match q !! src with
      | None | Some [] => ([], q, m)
      | Some queue =>
          match NonceSync.decodeNonceReport ccData with
          | None => ([], q, m)
          | Some report =>
              let (msgs, m) := drain src queue (SpanManager.acceptNonceReport src report m) in
              (msgs, delete src q, m)
          end
      end
  end.

End Paths.

(** ** Key sizes *)

Section KeySizes.
Context `{S2CryptoLaws}.

Lemma ckdfLoop_blocks prk c prev i n k : (k < n)%nat ->
  length (KeyDerivation.block (KeyDerivation.ckdfLoop prk c prev i n) k) = 16%nat.
Proof.
  revert prev i k. induction n as [|n IH]; intros prev i k Hk; [lia|].
  destruct k as [|k]; [apply cmac_length|]. apply IH. lia.
Qed.

Lemma networkKeyExpand_lengths k :
  length (KeyDerivation.keyCcm (KeyDerivation.networkKeyExpand k)) = 16%nat /\
  length (KeyDerivation.personalization (KeyDerivation.networkKeyExpand k)) = 32%nat.
Proof.
  unfold KeyDerivation.networkKeyExpand, KeyDerivation.join. cbn [KeyDerivation.keyCcm KeyDerivation.personalization].
  rewrite length_app. unfold KeyDerivation.ckdfExpand. by rewrite !ckdfLoop_blocks by lia.
Qed.

Lemma tempExpand_length shared a b :
  length (KeyDerivation.t_personalization (KeyDerivation.deriveTempKeys shared a b)) = 32%nat.
Proof.
  unfold KeyDerivation.deriveTempKeys, KeyDerivation.tempExpand, KeyDerivation.join. cbn [KeyDerivation.t_personalization].
  rewrite length_app. unfold KeyDerivation.ckdfExpand. by rewrite !ckdfLoop_blocks by lia.
Qed.

Lemma resolveClassKeys_length cur sch d :
  Transport.resolveClassKeys cur sch = Some d -> length (KeyDerivation.personalization d) = 32%nat.
Proof.
  unfold Transport.resolveClassKeys. intros Hd. repeat case_match; simplify_eq.
  apply networkKeyExpand_lengths.
Qed.

End KeySizes.

(** ** A burst of secure sends to a node without a generator *)

Section Burst.
Context `{O : Oob} `{L : S2CryptoLaws} {eA : Entropy} {LA : EntropyLaws (H := eA)} `{N : NodeSecurity}.
Context (current : option (list (list Z))) (st : Identity).

Fixpoint requestAll (nodeId : Z) (ps : list Pending) (q : Queues) (m : SpanManager.t)
    : list BusMessage * Queues * SpanManager.t :=
  match ps with
  | [] => ([], q, m)
  | p :: rest =>
      let '(ev, q, m) := onSecureS2SendRequest current st nodeId (payload p) (callbackId p) q m in
      let '(evs, q, m) := requestAll nodeId rest q m in
      (ev ++ evs, q, m)
  end.

(** What the node makes of the frames sent to it, in order. *)
Fixpoint openAll (from : Z) (msgs : list BusMessage) (B : SpanManager.t) : list (option (list Z)) :=
  match msgs with
  | SendDataCommand _ f _ :: rest => let (r, B') := openFrame from f B in r :: openAll from rest B'
  | _ => []
  end.

Definition envelope (msg : BusMessage) : option (Z * Z) :=
  match msg with SendDataCommand n _ cb => Some (n, cb) | _ => None end.

Definition sessionConfig (d : KeyDerivation.NetworkKeys) (nodeId : Z) : SpanManager.PeerConfig :=
  SpanManager.mkConfig (KeyDerivation.keyCcm d) (KeyDerivation.personalization d) (homeId st) (controllerNodeId st) nodeId.

(** The peer has neither a generator nor an entropy input to build one. *)
Definition waiting (m : SpanManager.t) (b : Z) : Prop :=
  SpanManager.span (SpanManager.peerState m b) = None /\ SpanManager.peerRei (SpanManager.peerState m b) = None.

Lemma peerState_insert m k p d : SpanManager.peerState (SpanManager.mk (<[k:=p]> m) d) k = p.
Proof. unfold SpanManager.peerState. cbn. by rewrite lookup_insert_eq. Qed.

Lemma request_waiting b d p q m :
  isSecure b = true -> Transport.resolveClassKeys current (securityScheme b) = Some d -> waiting m b ->
  exists m', onSecureS2SendRequest current st b (payload p) (callbackId p) q m =
    (if bool_decide (default [] (q !! b) = [])
     then [SendDataCommand b (NonceSync.encodeNonceGet (SpanManager.txSequence (SpanManager.peerState m b))) NO_CALLBACK]
     else [], <[b := default [] (q !! b) ++ [p]]> q, m') /\
    waiting m' b /\ SpanManager.config (SpanManager.peerState m' b) = sessionConfig d b /\
    is_Some (SpanManager.peers m' !! b).
Proof.
  intros Hs Hk [Hw1 Hw2]. unfold onSecureS2SendRequest, configurePeer. rewrite Hs, Hk. cbn [negb].
  unfold sendEncrypted, SpanManager.encrypt, SpanManager.configurePeer, SpanManager.setPeer.
  rewrite peerState_insert. unfold SpanManager.encryptSpan. cbn [SpanManager.span SpanManager.peerRei].
  rewrite Hw1, Hw2. unfold SpanManager.nonceGet. rewrite peerState_insert.
  destruct p as [pl cb]. case_bool_decide; eexists; (split; [reflexivity|]);
    unfold waiting, SpanManager.setPeer; rewrite peerState_insert; cbn; rewrite lookup_insert_eq; eauto.
Qed.

Lemma requestAll_waiting b d ps q m :
  isSecure b = true -> Transport.resolveClassKeys current (securityScheme b) = Some d -> waiting m b ->
  default [] (q !! b) <> [] ->
  exists m', requestAll b ps q m = ([], <[b := default [] (q !! b) ++ ps]> q, m') /\ waiting m' b /\
    (SpanManager.config (SpanManager.peerState m b) = sessionConfig d b ->
     SpanManager.config (SpanManager.peerState m' b) = sessionConfig d b) /\
    (is_Some (SpanManager.peers m !! b) -> is_Some (SpanManager.peers m' !! b)).
Proof.
  intros Hs Hk. revert q m. induction ps as [|p ps IH]; intros q m Hw Hq.
  - exists m. cbn. rewrite app_nil_r. split_and!; try done. f_equal. f_equal.
    destruct (q !! b) eqn:E; [|done]. cbn. symmetry. by apply insert_id.
  - destruct (request_waiting b d p q m Hs Hk Hw) as (m1&Hr&Hw1&Hc1&Hp1).
    cbn [requestAll]. rewrite Hr, bool_decide_eq_false_2 by done.
    destruct (IH (<[b:=default [] (q !! b) ++ [p]]> q) m1 Hw1) as (m2&Hr2&Hw2&Hc2&Hp2).
    { rewrite lookup_insert_eq. cbn. by destruct (default [] (q !! b)). }
    rewrite Hr2. exists m2. split_and!; [|done|by intros _; auto|by intros _; auto].
    rewrite lookup_insert_eq. cbn. by rewrite insert_insert_eq, <-app_assoc.
Qed.

Lemma deliver_inv (e : Entropy) a b p A B A' B' r :
  deliver e a b p A B = (Some r, A', B') ->
  exists f, SpanManager.encrypt b p A = (Some f, A') /\ openFrame a f B = (Some r, B').
Proof.
  unfold deliver. intros Hd. destruct (SpanManager.encrypt b p A) as [[f|] A1]; [|done].
  destruct (openFrame a f B) as [r' B1] eqn:E. simplify_eq. eauto.
Qed.

(** One payload that opens at the other end, then the rest of the queue. *)
Lemma drain_step a b p ps A B A' B' :
  deliver eA a b (payload p) A B = (Some (payload p), A', B') ->
  exists f, (drain b (p :: ps) A).1 = SendDataCommand b f (callbackId p) :: (drain b ps A').1 /\
    openAll a (drain b (p :: ps) A).1 B = Some (payload p) :: openAll a (drain b ps A').1 B'.
Proof.
  intros (f&He&Ho)%deliver_inv. exists f. cbn [drain]. unfold sendEncrypted. rewrite He.
  destruct (drain b ps A') as [msgs A2] eqn:E. cbn. by rewrite Ho.
Qed.

Lemma drain_synced a b ps A B :
  synced a b A B -> Forall (fun p => zlen (payload p) < 65536) ps ->
  envelope <$> (drain b ps A).1 = (fun p => Some (b, callbackId p)) <$> ps /\
  openAll a (drain b ps A).1 B = (fun p => Some (payload p)) <$> ps.
Proof.
  revert A B. induction ps as [|p ps IH]; intros A B Hs Hl; [done|]. inv Hl.
  destruct (deliver_synced eA a b (payload p) A B) as (A'&B'&Hd&Hs'); [done..|].
  destruct (drain_step a b p ps A B A' B' Hd) as (f&Hf&Ho). rewrite Ho, Hf.
  destruct (IH A' B') as [IH1 IH2]; [done..|]. cbn. by rewrite IH1, IH2.
Qed.

(** The node's REI is in: the queue goes out and opens at the node. *)
Lemma drain_first a b ps m (B : SpanManager.t) pA pB rei :
  SpanManager.peers m !! b = Some pA -> SpanManager.span pA = None -> SpanManager.peerRei pA = Some rei ->
  SpanManager.peers B !! a = Some pB -> SpanManager.ourRei pB = Some rei ->
  mirrored (SpanManager.config pA) (SpanManager.config pB) ->
  length (SpanManager.personalization (SpanManager.config pA)) = 32%nat ->
  Forall (fun p => zlen (payload p) < 65536) ps ->
  envelope <$> (drain b ps m).1 = (fun p => Some (b, callbackId p)) <$> ps /\
  openAll a (drain b ps m).1 B = (fun p => Some (payload p)) <$> ps.
Proof.
  intros HA HsA HrA HB HrB Hm Hpl Hl. destruct ps as [|p ps]; [done|]. inv Hl.
  destruct (deliver_first eA LA a b (payload p) m B pA pB rei) as (A'&B'&Hd&Hs); [done..|].
  destruct (drain_step a b p ps m B A' B' Hd) as (f&Hf&Ho). rewrite Ho, Hf.
  destruct (drain_synced a b ps A' B') as [Hz1 Hz2]; [done..|]. cbn. by rewrite Hz1, Hz2.
Qed.

Lemma requestAll_burst b d p ps q m :
  isSecure b = true -> Transport.resolveClassKeys current (securityScheme b) = Some d -> waiting m b ->
  q !! b = None ->
  exists m', requestAll b (p :: ps) q m =
    ([SendDataCommand b (NonceSync.encodeNonceGet (SpanManager.txSequence (SpanManager.peerState m b))) NO_CALLBACK],
     <[b := p :: ps]> q, m') /\ waiting m' b /\
    exists pA, SpanManager.peers m' !! b = Some pA /\ SpanManager.config pA = sessionConfig d b.
Proof.
  intros Hs Hk Hw Hq. destruct (request_waiting b d p q m Hs Hk Hw) as (m1&Hr&Hw1&Hc1&Hp1).
  cbn [requestAll]. rewrite Hr, Hq. cbn [default from_option app]. rewrite bool_decide_eq_true_2 by done.
  destruct (requestAll_waiting b d ps (<[b:=[p]]> q) m1 Hs Hk Hw1) as (m2&Hr2&Hw2&Hc2&Hp2).
  { by rewrite lookup_insert_eq. }
  rewrite Hr2, lookup_insert_eq. cbn. rewrite insert_insert_eq. exists m2. split_and!; [done..|].
  destruct (Hp2 Hp1) as [pA HpA]. exists pA. split; [done|].
  rewrite <-(Hc2 Hc1). by rewrite (peerState_lookup _ _ _ HpA).
Qed.

(** C16: a burst of sends to an S2-secure node for which there is no generator: all
    are queued behind a single NONCE_GET; the node's NONCE_REPORT releases them
    in order, each with its own callback id, and the node opens every frame to
    the payload that was asked to be sent. *)
Theorem secure_burst_delivered (eB : nat -> list Z) (LB : EntropyLaws (H := eB)) b d p ps q m (B : SpanManager.t) pB :
  isSecure b = true -> Transport.resolveClassKeys current (securityScheme b) = Some d ->
  waiting m b -> q !! b = None -> Forall (fun p => zlen (payload p) < 65536) (p :: ps) ->
  SpanManager.peers B !! controllerNodeId st = Some pB ->
  mirrored (sessionConfig d b) (SpanManager.config pB) ->
  let '(ev, q1, m1) := requestAll b (p :: ps) q m in
  let (report, B1) := SpanManager.respondToNonceGet (H := eB) (controllerNodeId st) B in
  let '(msgs, q2, m2) := onOutboundCommand b report q1 m1 in
  ev = [SendDataCommand b (NonceSync.encodeNonceGet (SpanManager.txSequence (SpanManager.peerState m b))) NO_CALLBACK] /\
  q1 !! b = Some (p :: ps) /\ q2 !! b = None /\
  envelope <$> msgs = (fun p => Some (b, callbackId p)) <$> p :: ps /\
  openAll (controllerNodeId st) msgs B1 = (fun p => Some (payload p)) <$> p :: ps.
Proof.
  intros Hs Hk Hw Hq Hl HB Hm.
  destruct (requestAll_burst b d p ps q m Hs Hk Hw Hq) as (m1&->&[Hw1 Hw2]&pA&HA&Hc).
  pose proof (respond_report eB LB _ B pB HB) as Hr.
  destruct (SpanManager.respondToNonceGet _ B) as [report B1] eqn:EB. cbn [fst] in Hr.
  unfold onOutboundCommand. rewrite Hr, lookup_insert_eq.
  unfold SpanManager.respondToNonceGet in EB. injection EB as <- <-.
  rewrite (peerState_lookup _ _ _ HB). rewrite (peerState_lookup _ _ _ HA) in Hw1, Hw2.
  change (NonceSync.commandByte _) with (Some NonceSync.NONCE_REPORT). cbn [negb Z.eqb].
  change (negb _) with false. cbn iota.
  match goal with |- context [ drain b ?ps' ?m' ] => set (mA := m') end.
  assert (HmA : SpanManager.peers mA !! b = Some (SpanManager.mkPeer (SpanManager.config pA) None
    (SpanManager.ourRei pA) (Some (@entropy eB (SpanManager.draws B))) (SpanManager.txSequence pA))).
  { unfold mA, SpanManager.acceptNonceReport. cbn. rewrite lookup_insert_eq.
    by rewrite (peerState_lookup _ _ _ HA), Hw1. }
  destruct (drain b (p :: ps) mA) as [msgs m2] eqn:Ed.
  match goal with |- context [ openAll _ msgs ?B' ] => set (B1 := B') end.
  destruct (drain_first (controllerNodeId st) b (p :: ps) mA B1 _
    (SpanManager.mkPeer (SpanManager.config pB) (SpanManager.span pB) (Some (@entropy eB (SpanManager.draws B)))
      (SpanManager.peerRei pB) (u8 (SpanManager.txSequence pB + 1))) (@entropy eB (SpanManager.draws B)) HmA)
    as [He Ho]; cbn; rewrite ?Hc; try done.
  - apply lookup_insert_eq.
  - by eapply resolveClassKeys_length.
  - rewrite Ed in *. cbn in *. split_and!; try done.
    apply lookup_delete_eq.
Qed.

End Burst.

Definition toyNodes : NodeSecurity :=
  {| isSecure := fun n => n =? 9; securityScheme := fun n => if n =? 9 then 3 else 0 |}.
Definition toyKeys : list (list Z) := (fun i => replicate 16 (Z.of_nat i)) <$> seq 1 4.

Lemma secure_burst_delivered_witness :
  let o : Oob := 0 in let st := mkIdentity [1; 2; 3; 4] 1 in
  let d := KeyDerivation.networkKeyExpand (H := Toy.crypto) (replicate 16 2) in
  let ps := [mkPending [0x25; 1; 255] 7; mkPending [0x25; 2] 8] in
  let B := SpanManager.configurePeer 1
    (SpanManager.mkConfig (KeyDerivation.keyCcm d) (KeyDerivation.personalization d) [1; 2; 3; 4] 9 1)
    (toyManager 9 1 None) in
  let '(ev, q1, m1) := requestAll (H := Toy.crypto) (eA := toyEntropy) (N := toyNodes) (Some toyKeys) st 9 ps ∅ (toyManager 1 9 None) in
  let (report, B1) := SpanManager.respondToNonceGet (H := toyEntropy) 1 B in
  let '(msgs, q2, m2) := onOutboundCommand (H0 := Toy.crypto) (H1 := toyEntropy) 9 report q1 m1 in
  ev = [SendDataCommand 9 (NonceSync.encodeNonceGet 250) NO_CALLBACK] /\
  q1 !! 9 = Some ps /\ q2 !! 9 = None /\
  envelope <$> msgs = [Some (9, 7); Some (9, 8)] /\
  openAll (H := Toy.crypto) 1 msgs B1 = [Some [0x25; 1; 255]; Some [0x25; 2]].
Proof.
  intros o st d ps B.
  apply (secure_burst_delivered (O := o) (L := Toy.laws) (eA := toyEntropy) (LA := toyEntropy_laws) (N := toyNodes)
    (Some toyKeys) st toyEntropy toyEntropy_laws 9 d (mkPending [0x25; 1; 255] 7) [mkPending [0x25; 2] 8] ∅
    (toyManager 1 9 None) B
    (SpanManager.mkPeer (SpanManager.mkConfig (KeyDerivation.keyCcm d) (KeyDerivation.personalization d) [1; 2; 3; 4] 9 1)
       None None None 250)).
  - reflexivity.
  - reflexivity.
  - by vm_compute.
  - reflexivity.
  - by repeat constructor.
  - by vm_compute.
  - by split_and!.
Defined.

(** ** The inbound path *)

Section Inbound.
Context `{O : Oob} `{L : S2CryptoLaws} {e : Entropy} {Le : EntropyLaws (H := e)} `{N : NodeSecurity}.
Context (current : option (list (list Z))) (st : Identity).

(** The answer that asks a node to start over: a NONCE_REPORT with the SOS flag and
    the REI the manager now holds for the node. *)
Definition asks_resync (nodeId : Z) (r : list BusMessage * SpanManager.t) : Prop :=
  exists report seq rei, r.1 = [SendDataCommand nodeId report NO_CALLBACK] /\
    NonceSync.decodeNonceReport report = Some (NonceSync.mkReport seq true false (Some rei)) /\
    SpanManager.ourRei (SpanManager.peerState r.2 nodeId) = Some rei.

Lemma resync_asks nodeId m : asks_resync nodeId (resync nodeId m).
Proof.
  unfold asks_resync, resync, SpanManager.respondToNonceGet. do 3 eexists. split_and!; [reflexivity|..].
  - apply nonceReport_decode. split; [done|apply Le].
  - cbn [snd]. by rewrite peerState_insert.
Qed.

Lemma receiveNonce_length peer frame m n : (SpanManager.receiveNonce peer frame m).1 = Some n -> length n = 13%nat.
Proof.
  unfold SpanManager.receiveNonce. destruct (SpanManager.span _) as [s|]; [|done].
  pose proof (truncatedNonce_length s) as Hn. destruct (SpanManager.truncatedNonce s). cbn in *.
  by intros [= <-].
Qed.

(** C17: the inbound path, on any S2 frame.  A frame from a node that is not
    S2-secure, or while the keys are not loaded, changes nothing and publishes
    nothing.  Otherwise a NONCE_GET is answered by a resync request and a command that
    is neither that nor encapsulated by nothing.  An encapsulated frame is republished,
    under the node's own id, exactly as the command it carries, if with the nonce drawn
    for the frame it is the sealing of that command under the node's class key for
    this controller and home id; all others are answered by a resync request, except
    that a frame without a ciphertext whose bare tag the primitive accepts is
    republished as an empty command. *)
Theorem inbound_outcomes nodeId data m :
  (2 <= length data)%nat -> zlen data < 65536 -> data.[0%nat] = NonceSync.COMMAND_CLASS ->
  let r := onInbound current st nodeId data m in
  match (if isSecure nodeId then Transport.resolveClassKeys current (securityScheme nodeId) else None) with
  | None => r = ([], m)
  | Some d =>
      let m1 := SpanManager.configurePeer nodeId (sessionConfig st d nodeId) m in
      if data.[1%nat] =? NonceSync.NONCE_GET then asks_resync nodeId r
      else if data.[1%nat] =? Encap.CMD_ENCAP then
        let ctx := Encap.mkContext nodeId (controllerNodeId st) (homeId st) data.[2%nat] in
        let carries n inner := sealed data ctx (KeyDerivation.keyCcm d) n inner \/
                               (inner = [] /\ bareTag data ctx (KeyDerivation.keyCcm d) n) in
        match (SpanManager.receiveNonce nodeId data m1).1 with
        | None => asks_resync nodeId r
        | Some n =>
            (asks_resync nodeId r /\ forall inner, ~ carries n inner) \/
            exists inner, carries n inner /\
              r = ([ApplicationCommand nodeId inner], (SpanManager.receiveNonce nodeId data m1).2)
        end
      else r = ([], m1)
  end.
Proof.
  intros Hl Hz H0 r. subst r. unfold onInbound, configurePeer.
  replace (length data <? 2)%nat with false by (symmetry; apply Nat.ltb_ge; lia).
  rewrite H0, Z.eqb_refl. cbn [negb orb].
  destruct (isSecure nodeId); cbn [negb]; [|done].
  destruct (Transport.resolveClassKeys _ _) as [d|]; [|done]. fold (sessionConfig st d nodeId).
  destruct (_ =? NonceSync.NONCE_GET); [apply resync_asks|].
  destruct (_ =? Encap.CMD_ENCAP); cbn [negb]; [|done].
  set (m1 := SpanManager.configurePeer _ _ _).
  pose proof (receiveNonce_length nodeId data m1) as Hn.
  destruct (SpanManager.receiveNonce nodeId data m1) as [[n|] m2]; cbn [fst snd] in *; [|apply resync_asks].
  destruct (Encap.decrypt _ _ _ _) as [inner|] eqn:Hd.
  - right. exists inner. split; [|done]. by apply decrypt_accepted; [apply Hn|].
  - left. split; [apply resync_asks|]. intros inner Hc. enough (None = Some inner) by done.
    rewrite <-Hd. by apply accepted_decrypt; [apply Hn| |].
Qed.

End Inbound.

(** A manager that shares a generator with the node 9, and a frame of that node. *)
Definition inboundKeys : KeyDerivation.NetworkKeys := KeyDerivation.networkKeyExpand (H := Toy.crypto) (replicate 16 2).
Definition inboundConfig : SpanManager.PeerConfig :=
  SpanManager.mkConfig (KeyDerivation.keyCcm inboundKeys) (KeyDerivation.personalization inboundKeys) [1; 2; 3; 4] 9 1.
Definition sharedSpan : Span.t := Span.mk (replicate 16 3) (replicate 16 4).
Definition inboundFrame : list Z :=
  default [] (SpanManager.encrypt (H := toyEntropy) (H0 := Toy.crypto) 1 [0x25; 3; 255]
    (SpanManager.mk {[1 := SpanManager.mkPeer inboundConfig (Some sharedSpan) None None 5]} 0)).1.
Definition inboundManager : SpanManager.t :=
  SpanManager.mk {[9 := SpanManager.mkPeer inboundConfig (Some sharedSpan) None None 5]} 0.

Lemma inbound_outcomes_witness :
  let o : Oob := 0 in
  let r data := onInbound (H0 := Toy.crypto) (H1 := toyEntropy) (H2 := toyNodes) (Some toyKeys)
                  (mkIdentity [1; 2; 3; 4] 1) 9 data inboundManager in
  asks_resync 9 (r [0x9F; 0x01; 5]) /\
  exists inner, (r inboundFrame).1 = [ApplicationCommand 9 inner].
Proof.
  intros o r.
  pose proof (fun data => inbound_outcomes (O := o) (L := Toy.laws) (e := toyEntropy) (Le := toyEntropy_laws) (N := toyNodes)
    (Some toyKeys) (mkIdentity [1; 2; 3; 4] 1) 9 data inboundManager) as Hin. split.
  - apply (Hin [0x9F; 0x01; 5]); [cbn; lia|cbn; lia|reflexivity].
  - assert (2 <= length inboundFrame)%nat as H1 by (apply (bool_decide_unpack _); vm_compute; exact I).
    assert (zlen inboundFrame < 65536) as H2 by (vm_compute; reflexivity).
    specialize (Hin inboundFrame H1 H2 eq_refl). fold (r inboundFrame) in Hin. cbv zeta in Hin.
    match type of Hin with match ?m with _ => _ end => destruct m as [d|] eqn:Hd; [|revert Hd; by vm_compute] end.
    replace (inboundFrame.[1%nat] =? NonceSync.NONCE_GET) with false in Hin by (vm_compute; reflexivity).
    replace (inboundFrame.[1%nat] =? Encap.CMD_ENCAP) with true in Hin by (vm_compute; reflexivity). cbn iota in Hin.
    assert (~ asks_resync 9 (r inboundFrame)) as Hno.
    { intros (report & seq & rei & Hr & _). revert Hr. vm_compute. discriminate. }
    match type of Hin with match ?m with _ => _ end => destruct m; [|done] end.
    destruct Hin as [[? _]|(inner & _ & ->)]; [done|]. by exists inner.
Defined.
