(* ===== verification/S2KeyInstall.v ===== *)
(** * Security S2: public keys, the device-specific key, and key installation

    [zwave-protocol/security/s2/PublicKey.cpp] and [KeyInstall.cpp]: the frames
    that carry the Curve25519 public keys and the class keys, and the five-digit
    PIN by which an operator confirms a device.  Text is a list of character
    codes. *)

From S2P Require Import Prelude S2Codec S2Transport.

Module PublicKey.

Definition PUBLIC_KEY_REPORT : Z := 0x08.
Definition PROP_INCLUDING_NODE : Z := 0x01.
Definition OBFUSCATE_NONE : nat := 0.
Definition OBFUSCATE_DSK : nat := 2.
Definition HEADER_SIZE : nat := 3.
Definition CURVE25519_KEY_SIZE : nat := 32.
Definition DSK_GROUPS : nat := 8.
Definition PIN_DIGITS : nat := 5.

Record Report := mkReport { includingNode : bool; key : list Z }.

(** Big-endian value of the byte pair at [index * 2]; [at] is in range for a key. *)
Definition groupValue `{Oob} (k : list Z) (index : nat) : Z :=
  u16 (Z.lor (Z.shiftl k.[(index * 2)%nat] 8) k.[(index * 2 + 1)%nat]).

Definition encode (including : bool) (k : list Z) (obfuscateLeading : nat) : list Z :=
  let n := Nat.min obfuscateLeading (length k) in
  [NonceSync.COMMAND_CLASS; PUBLIC_KEY_REPORT; if including then PROP_INCLUDING_NODE else 0x00]
    ++ replicate n 0x00 ++ drop n k.

Definition decode `{Oob} (p : list Z) : option Report :=
  if negb (length p =? HEADER_SIZE + CURVE25519_KEY_SIZE)%nat || negb (p.[0%nat] =? NonceSync.COMMAND_CLASS)
     || negb (p.[1%nat] =? PUBLIC_KEY_REPORT) then None
  else Some (mkReport (negb (Z.land p.[2%nat] PROP_INCLUDING_NODE =? 0)) (slice HEADER_SIZE CURVE25519_KEY_SIZE p)).

(** [std::format("{:05}")] of a 16-bit value: five digits, zero-padded. *)
Definition digit (v : Z) : Z := 48 + v `mod` 10.
Definition format05 (v : Z) : list Z :=
  [digit (v / 10000); digit (v / 1000); digit (v / 100); digit (v / 10); digit v].

Definition dskString `{Oob} (k : list Z) : list Z :=
  mjoin ((fun g => (if (g =? 0)%nat then [] else [45]) ++ format05 (groupValue k g)) <$> seq 0 DSK_GROUPS).

Definition dskPin `{Oob} (k : list Z) : list Z := format05 (groupValue k 0).

Fixpoint pinValue (pin : list Z) (value : Z) : option Z :=
  match pin with
  | [] => Some value
  | d :: rest => if (d <? 48) || (57 <? d) then None else pinValue rest (u32 (value * 10 + (d - 48)))
  end.

Definition parsePin (pin : list Z) : option Z :=
  if negb (length pin =? PIN_DIGITS)%nat then None else
  match pinValue pin 0 with
  | None => None
  | Some v => if 0xFFFF <? v then None else Some (u16 v)
  end.

Definition applyPin (obfuscatedKey : list Z) (pin : Z) : list Z :=
  <[1%nat := u8 (Z.land pin 0xFF)]> (<[0%nat := u8 (Z.land (Z.shiftr pin 8) 0xFF)]> obfuscatedKey).

End PublicKey.

Module KeyInstall.

Definition NETWORK_KEY_GET : Z := 0x09.
Definition NETWORK_KEY_REPORT : Z := 0x0A.
Definition NETWORK_KEY_VERIFY : Z := 0x0B.
Definition TRANSFER_END : Z := 0x0C.
Definition TRANSFER_KEY_REQUEST_COMPLETE : Z := 0x01.
Definition TRANSFER_KEY_VERIFIED : Z := 0x02.

Record KeyReport := mkKeyReport { grantedKey : Z; key : list Z }.
Record TransferEnd := mkTransferEnd { keyVerified : bool; keyRequestComplete : bool }.

Definition encodeKeyGet (requestedKeyBit : Z) : list Z := [NonceSync.COMMAND_CLASS; NETWORK_KEY_GET; requestedKeyBit].
Definition encodeKeyReport (grantedKeyBit : Z) (k : list Z) : list Z :=
  [NonceSync.COMMAND_CLASS; NETWORK_KEY_REPORT; grantedKeyBit] ++ k.
Definition encodeKeyVerify : list Z := [NonceSync.COMMAND_CLASS; NETWORK_KEY_VERIFY].
Definition encodeTransferEnd (verified complete : bool) : list Z :=
  [NonceSync.COMMAND_CLASS; TRANSFER_END;
   u8 (Z.lor (if verified then TRANSFER_KEY_VERIFIED else 0) (if complete then TRANSFER_KEY_REQUEST_COMPLETE else 0))].

Definition decodeKeyGet `{Oob} (p : list Z) : option Z :=
  if (length p <? 3)%nat || negb (p.[0%nat] =? NonceSync.COMMAND_CLASS) || negb (p.[1%nat] =? NETWORK_KEY_GET)
  then None else Some p.[2%nat].
Definition decodeKeyReport `{Oob} (p : list Z) : option KeyReport :=
  if negb (length p =? 19)%nat || negb (p.[0%nat] =? NonceSync.COMMAND_CLASS) || negb (p.[1%nat] =? NETWORK_KEY_REPORT)
  then None else Some (mkKeyReport p.[2%nat] (slice 3 16 p)).
Definition decodeTransferEnd `{Oob} (p : list Z) : option TransferEnd :=
  if (length p <? 3)%nat || negb (p.[0%nat] =? NonceSync.COMMAND_CLASS) || negb (p.[1%nat] =? TRANSFER_END)
  then None else
  Some (mkTransferEnd (negb (Z.land p.[2%nat] TRANSFER_KEY_VERIFIED =? 0))
          (negb (Z.land p.[2%nat] TRANSFER_KEY_REQUEST_COMPLETE =? 0))).

Definition classForKeyBit (keyBit : Z) : option Transport.KeyClass :=
  if keyBit =? Kex.KEY_S2_UNAUTHENTICATED then Some Transport.Unauthenticated
  else if keyBit =? Kex.KEY_S2_AUTHENTICATED then Some Transport.Authenticated
  else if keyBit =? Kex.KEY_S2_ACCESS_CONTROL then Some Transport.AccessControl
  else if keyBit =? Kex.KEY_S0 then Some Transport.S0Compat
  else None.

End KeyInstall.

(** ** The PIN *)

Lemma pinValue_digit v rest acc :
  PublicKey.pinValue (PublicKey.digit v :: rest) acc = PublicKey.pinValue rest (u32 (acc * 10 + v `mod` 10)).
Proof.
  cbn. unfold PublicKey.digit. pose proof (Z.mod_pos_bound v 10 ltac:(lia)).
  destruct (Z.ltb_spec (48 + v `mod` 10) 48); [lia|]. destruct (Z.ltb_spec 57 (48 + v `mod` 10)); [lia|].
  cbn. f_equal. f_equal. lia.
Qed.

(** Five digits spell every 16-bit value. *)
Lemma parsePin_format05 v : 0 <= v < 65536 -> PublicKey.parsePin (PublicKey.format05 v) = Some v.
Proof.
  intros Hv. unfold PublicKey.parsePin, PublicKey.format05. cbn [length Nat.eqb negb PublicKey.PIN_DIGITS].
  rewrite !pinValue_digit. cbn [PublicKey.pinValue].
  assert (Hd : exists a b c d e, v = a * 10000 + b * 1000 + c * 100 + d * 10 + e /\ 0 <= a < 10 /\
    0 <= b < 10 /\ 0 <= c < 10 /\ 0 <= d < 10 /\ 0 <= e < 10 /\ (v / 10000) `mod` 10 = a /\
    (v / 1000) `mod` 10 = b /\ (v / 100) `mod` 10 = c /\ (v / 10) `mod` 10 = d /\ v `mod` 10 = e).
  { do 5 eexists. split_and!; [|..|reflexivity|reflexivity|reflexivity|reflexivity|reflexivity];
      Z.to_euclidean_division_equations; lia. }
  destruct Hd as (a&b&c&d&e&Hv'&?&?&?&?&?&->&->&->&->&->).
  rewrite (u32_id (0 * 10 + a)), (u32_id (_ * 10 + b)), (u32_id (_ * 10 + c)), (u32_id (_ * 10 + d)),
    (u32_id (_ * 10 + e)) by lia.
  replace (_ * 10 + e) with v by lia.
  destruct (Z.ltb_spec 65535 v); [lia|]. by rewrite u16_id.
Qed.

Lemma groupValue_range `{Oob} k i : 0 <= PublicKey.groupValue k i < 65536.
Proof. apply u16_range. Qed.

Lemma applyPin_pair a b rest pin :
  0 <= pin < 65536 -> PublicKey.applyPin (a :: b :: rest) pin = pin / 256 :: pin `mod` 256 :: rest.
Proof.
  intros Hp. unfold PublicKey.applyPin. cbn -[Z.land Z.shiftr u8].
  change 0xFF with (2 ^ 8 - 1). rewrite !land_mask, Z.shiftr_div_pow2 by lia.
  change (2 ^ 8) with 256. unfold u8. rewrite !Z.mod_mod by lia.
  rewrite (Z.mod_small (pin / 256)); [done|]. split; [apply Z.div_pos|apply Z.div_lt_upper_bound]; lia.
Qed.

Lemma groupValue_pair `{Oob} a b rest :
  byte_ok a -> byte_ok b -> PublicKey.groupValue (a :: b :: rest) 0 = a * 256 + b.
Proof.
  intros Ha Hb. unfold PublicKey.groupValue, byteAt. cbn -[Z.lor Z.shiftl u16].
  unfold byte_ok in *. rewrite (lor_shiftl_add _ _ 8) by lia. apply u16_id. lia.
Qed.

(** A public key report decodes to the key as it was sent. *)
Lemma publicKey_decode (o : Oob) including k leading :
  length k = 32%nat -> (leading <= 32)%nat ->
  PublicKey.decode (PublicKey.encode including k leading)
    = Some (PublicKey.mkReport including (replicate leading 0 ++ drop leading k)).
Proof.
  intros Hl Hn. unfold PublicKey.decode, PublicKey.encode. rewrite Hl, Nat.min_l by done.
  set (body := replicate leading 0 ++ drop leading k).
  assert (Hb : length body = 32%nat) by (unfold body; rewrite length_app, length_replicate, length_drop; lia).
  cbn [app length]. rewrite Hb. unfold slice, PublicKey.HEADER_SIZE, PublicKey.CURVE25519_KEY_SIZE.
  destruct including; cbn -[take]; rewrite ?drop_0; by rewrite take_ge by (rewrite Hb; lia).
Qed.

(** The printed PIN completes a key whose first two bytes are blank. *)
Lemma dsk_pin_applied (o : Oob) k :
  length k = 32%nat -> bytes_ok k ->
  PublicKey.parsePin (PublicKey.dskPin k) = Some (PublicKey.groupValue k 0) /\
  PublicKey.applyPin (replicate 2 0 ++ drop 2 k) (PublicKey.groupValue k 0) = k.
Proof.
  intros Hl Hk. destruct k as [|a [|b rest]]; [done..|].
  inversion_clear Hk as [|? ? Ha Hk']. inversion_clear Hk' as [|? ? Hb Hr].
  pose proof (groupValue_range (a :: b :: rest) 0) as Hg. split; [by apply parsePin_format05|].
  cbn [replicate app drop]. rewrite drop_0, applyPin_pair by done. rewrite groupValue_pair by done.
  unfold byte_ok in *. f_equal; [|f_equal]; Z.to_euclidean_division_equations; lia.
Qed.

(** The DSK ritual.  The PIN printed for a public key is accepted, and applied
    to the key a device sends with its first two bytes blanked it gives the
    device's true key back; any other PIN that is accepted gives a different key. *)
Theorem dsk_pin_restores (o : Oob) k including :
  length k = 32%nat -> bytes_ok k ->
  exists pin r,
    PublicKey.parsePin (PublicKey.dskPin k) = Some pin /\
    PublicKey.decode (PublicKey.encode including k PublicKey.OBFUSCATE_DSK) = Some r /\
    PublicKey.includingNode r = including /\ PublicKey.applyPin (PublicKey.key r) pin = k /\
    forall text pin', PublicKey.parsePin text = Some pin' -> pin' <> pin ->
      PublicKey.applyPin (PublicKey.key r) pin' <> k.
Proof.
  intros Hl Hk. destruct (dsk_pin_applied o k Hl Hk) as [Hp Ha].
  eexists _, _. split_and!; [exact Hp|apply publicKey_decode; [done|unfold PublicKey.OBFUSCATE_DSK; lia]|done|exact Ha|].
  intros text pin' Ht Hne Heq. apply Hne.
  assert (0 <= pin' < 65536).
  { unfold PublicKey.parsePin in Ht. repeat case_match; simplify_eq. apply u16_range. }
  cbn [PublicKey.key] in Heq. rewrite <-Ha in Heq. unfold PublicKey.OBFUSCATE_DSK in Heq.
  pose proof (groupValue_range k 0). cbn [replicate app] in Heq. rewrite !applyPin_pair in Heq by done.
  injection Heq as H1 H2. rewrite (Z.div_mod pin' 256), (Z.div_mod (PublicKey.groupValue k 0) 256) by lia. congruence.
Qed.

Lemma dsk_pin_restores_witness :
  let o : Oob := 0 in let k := (fun i => Z.of_nat (i * 7 + 3)) <$> seq 0 32 in
  exists pin r,
    PublicKey.parsePin (PublicKey.dskPin k) = Some pin /\
    PublicKey.decode (PublicKey.encode true k PublicKey.OBFUSCATE_DSK) = Some r /\
    PublicKey.includingNode r = true /\ PublicKey.applyPin (PublicKey.key r) pin = k /\
    forall text pin', PublicKey.parsePin text = Some pin' -> pin' <> pin ->
      PublicKey.applyPin (PublicKey.key r) pin' <> k.
Proof.
  intros o k. apply (dsk_pin_restores o k true); [reflexivity|].
  unfold k. vm_compute. repeat constructor; discriminate.
Defined.
