(* ===== verification/S2Bootstrap.v ===== *)
(** * Security S2: the inclusion handshake

    [orchestrator/SecurityS2BootstrapOrchestrator.cpp]: one session per node that
    is being included, its phases, and the handlers of the bus messages that move
    it.  A handler returns the calls and messages it makes, in order. *)

From S2P Require Import Prelude S2Codec S2SpanManager S2Transport S2KeyInstall.
From stdpp Require Import gmap countable.
#[local] Open Scope Z_scope.

(** The Curve25519 primitives of [Crypto.cpp]: the [n]-th key pair generated
    (private and public key), and the shared secret, absent for a bad key. *)
Class Ecdh := { generateKeyPair : nat -> list Z * list Z; ecdh : list Z -> list Z -> option (list Z) }.

Module Boot.

Definition CONTROLLER_SUPPORTED_KEYS : Z :=
  Z.lor (Z.lor Kex.KEY_S2_UNAUTHENTICATED Kex.KEY_S2_AUTHENTICATED) Kex.KEY_S2_ACCESS_CONTROL.
Definition DSK_REQUIRED_KEYS : Z := Z.lor Kex.KEY_S2_AUTHENTICATED Kex.KEY_S2_ACCESS_CONTROL.

Definition FAIL_KEY : Z := 0x01.
Definition FAIL_DECRYPT : Z := 0x05.
Definition FAIL_AUTH : Z := 0x07.
Definition FAIL_KEY_GET : Z := 0x08.
Definition FAIL_KEY_VERIFY : Z := 0x09.

Inductive Phase :=
| AwaitKexReport | AwaitPublicKey | AwaitDsk | AwaitTempChannel | AwaitKexSetEcho
| AwaitNetworkKeyGet | AwaitClassNonceGet | AwaitKeyVerify.

#[global] Instance Phase_eq_dec : EqDecision Phase.
Proof. solve_decision. Defined.

Record Session := mkSession {
  phase : Phase;
  privateKey : list Z; publicKey : list Z;
  grantedKeys : Z;
  nodePublicKey : list Z;
  tempKeys : KeyDerivation.TempKeys;
  sentKexSet : Kex.Set_;
  receivedKexReport : Kex.Report;
  installingKeyBit : Z;
  installingClassKeys : KeyDerivation.NetworkKeys }.

Definition freshSession (keyPair : list Z * list Z) : Session :=
  mkSession AwaitKexReport keyPair.1 keyPair.2 0 (replicate 32 0)
    (KeyDerivation.mkTemp (replicate 16 0) (replicate 32 0))
    (Kex.mkSet false false 0 0 0) (Kex.mkReport false false 0 0 0) 0
    (KeyDerivation.mkKeys (replicate 16 0) (replicate 32 0) (replicate 16 0)).

Definition withPhase (p : Phase) (s : Session) : Session :=
  mkSession p (privateKey s) (publicKey s) (grantedKeys s) (nodePublicKey s) (tempKeys s)
    (sentKexSet s) (receivedKexReport s) (installingKeyBit s) (installingClassKeys s).
Definition withNodeKey (k : list Z) (s : Session) : Session :=
  mkSession (phase s) (privateKey s) (publicKey s) (grantedKeys s) k (tempKeys s)
    (sentKexSet s) (receivedKexReport s) (installingKeyBit s) (installingClassKeys s).

(** [keyPairs] key pairs have been generated. *)
Record State := mkState {
  sessions : gmap Z Session;
  spanManager : SpanManager.t;
  classSpanManager : SpanManager.t;
  identity : Identity;
  keysReady : bool;
  keyPairs : nat }.

Definition setSession (n : Z) (s : Session) (st : State) : State :=
  mkState (<[n := s]> (sessions st)) (spanManager st) (classSpanManager st) (identity st) (keysReady st) (keyPairs st).
Definition eraseSession (n : Z) (st : State) : State :=
  mkState (delete n (sessions st)) (spanManager st) (classSpanManager st) (identity st) (keysReady st) (keyPairs st).
Definition setSpan (m : SpanManager.t) (st : State) : State :=
  mkState (sessions st) m (classSpanManager st) (identity st) (keysReady st) (keyPairs st).
Definition setClassSpan (m : SpanManager.t) (st : State) : State :=
  mkState (sessions st) (spanManager st) m (identity st) (keysReady st) (keyPairs st).

(** What the handlers do to the rest of the system. *)
Inductive Action :=
| SendData (nodeId : Z) (payload : list Z)
| DSKPendingConfirmation (nodeId : Z) (dsk : list Z)
| S2KeyAgreementComplete (nodeId : Z)
| SetSecurityScheme (nodeId : Z) (scheme : Z)
| NodeSecurityStatus (nodeId : Z) (scheme : Z).

#[global] Instance Action_eq_dec : EqDecision Action.
Proof. solve_decision. Defined.

(** The highest class in a granted-key mask, as the registry numbers it. *)
Definition schemeFor (granted : Z) : Z :=
  if negb (Z.land granted Kex.KEY_S2_ACCESS_CONTROL =? 0) then 4
  else if negb (Z.land granted Kex.KEY_S2_AUTHENTICATED =? 0) then 3
  else 2.

Definition classKeyForBit (current : option (list (list Z))) (keyBit : Z) : option (list Z) :=
  match KeyInstall.classForKeyBit keyBit, current with
  | Some cls, Some keys => Some (Transport.keyFor keys cls)
  | _, _ => None
  end.

Section Handlers.
Context `{Oob} `{S2Crypto} `{Ecdh}.

(** The entropy of the two managers, and the keys of the process. *)
Context (eTemp eClass : nat -> list Z) (current : option (list (list Z))).

Definition peerConfig (st : State) (nodeId : Z) (keyCcm personalization : list Z) : SpanManager.PeerConfig :=
  SpanManager.mkConfig keyCcm personalization (homeId (identity st)) (controllerNodeId (identity st)) nodeId.

Definition onNodeIncluded (nodeId : Z) (commandClasses : list Z) (st : State) : list Action * State :=
  if negb (bool_decide (NonceSync.COMMAND_CLASS ∈ commandClasses)) then ([], st) else
  if negb (keysReady st) then ([], st) else
  let st := mkState (<[nodeId := freshSession (generateKeyPair (keyPairs st))]> (sessions st)) (spanManager st)
              (classSpanManager st) (identity st) (keysReady st) (S (keyPairs st)) in
  ([SendData nodeId Kex.encodeGet], st).

Definition onKexReport (nodeId : Z) (s : Session) (ccData : list Z) (st : State) : list Action * State :=
  match Kex.decodeReport ccData with
  | None => ([], st)
  | Some report =>
      let granted := Kex.grantKeys report CONTROLLER_SUPPORTED_KEYS in
      if granted =? 0 then ([SendData nodeId (Kex.encodeFail FAIL_KEY)], eraseSession nodeId st) else
      let set := Kex.mkSet false false Kex.KEX_SCHEME_1 Kex.ECDH_CURVE25519 granted in
      ([SendData nodeId (Kex.encodeSet set)],
       setSession nodeId (mkSession AwaitPublicKey (privateKey s) (publicKey s) granted (nodePublicKey s) (tempKeys s)
                            set report (installingKeyBit s) (installingClassKeys s)) st)
  end.

Definition finishKeyAgreement (nodeId : Z) (s : Session) (st : State) : list Action * State :=
  match ecdh (privateKey s) (nodePublicKey s) with
  | None => ([SendData nodeId (Kex.encodeFail FAIL_DECRYPT)], eraseSession nodeId st)
  | Some shared =>
      let temp := KeyDerivation.deriveTempKeys shared (publicKey s) (nodePublicKey s) in
      let s := mkSession AwaitTempChannel (privateKey s) (publicKey s) (grantedKeys s) (nodePublicKey s) temp
                 (sentKexSet s) (receivedKexReport s) (installingKeyBit s) (installingClassKeys s) in
      let config := peerConfig st nodeId (KeyDerivation.t_keyCcm temp) (KeyDerivation.t_personalization temp) in
      ([S2KeyAgreementComplete nodeId],
       setSpan (SpanManager.configurePeer nodeId config (spanManager st)) (setSession nodeId s st))
  end.

Definition onPublicKeyReport (nodeId : Z) (s : Session) (ccData : list Z) (st : State) : list Action * State :=
  match PublicKey.decode ccData with
  | None => ([], st)
  | Some report =>
      let s := withNodeKey (PublicKey.key report) s in
      let answer := SendData nodeId (PublicKey.encode true (publicKey s) PublicKey.OBFUSCATE_NONE) in
      if negb (Z.land (grantedKeys s) DSK_REQUIRED_KEYS =? 0) then
        ([answer; DSKPendingConfirmation nodeId (PublicKey.dskString (PublicKey.key report))],
         setSession nodeId (withPhase AwaitDsk s) st)
      else
        let (acts, st) := finishKeyAgreement nodeId s st in (answer :: acts, st)
  end.

Definition onConfirmDsk (nodeId : Z) (pin : list Z) (st : State) : list Action * State :=
  match sessions st !! nodeId with
  | None => ([], st)
  | Some s =>
      if negb (bool_decide (phase s = AwaitDsk)) then ([], st) else
      match PublicKey.parsePin pin with
      | None => ([], st)
      | Some v =>
          let (acts, st) := finishKeyAgreement nodeId (withNodeKey (PublicKey.applyPin (nodePublicKey s) v) s) st in
          (DSKPendingConfirmation 0 [] :: acts, st)
      end
  end.

Definition sendEncrypted (nodeId : Z) (inner : list Z) (st : State) : list Action * State :=
  let (frame, m) := SpanManager.encrypt (H := eTemp) nodeId inner (spanManager st) in
  match frame with
  | None => ([], setSpan m st)
  | Some f => ([SendData nodeId f], setSpan m st)
  end.

Definition encapContext (st : State) (nodeId : Z) (frame : list Z) : Encap.Context :=
  Encap.mkContext nodeId (controllerNodeId (identity st)) (homeId (identity st)) frame.[2%nat].

Definition decryptInbound (nodeId : Z) (s : Session) (frame : list Z) (st : State) : option (list Z) * State :=
  let (nonce, m) := SpanManager.receiveNonce nodeId frame (spanManager st) in
  let st := setSpan m st in
  match nonce with
  | None => (None, st)
  | Some n => (Encap.decrypt frame (encapContext st nodeId frame) (KeyDerivation.t_keyCcm (tempKeys s)) n, st)
  end.

Definition echoMatches (sent echoed : Kex.Set_) : bool :=
  (Kex.selectedScheme echoed =? Kex.selectedScheme sent) && (Kex.selectedCurve echoed =? Kex.selectedCurve sent)
  && (Kex.grantedKeys echoed =? Kex.grantedKeys sent).

Definition onKexSetEcho (nodeId : Z) (s : Session) (frame : list Z) (st : State) : list Action * State :=
  let (inner, st) := decryptInbound nodeId s frame st in
  match inner with
  | None => ([], st)
  | Some inner =>
      let ok := match Kex.decodeSet inner with Some e => echoMatches (sentKexSet s) e | None => false end in
      if negb ok then
        let (acts, st) := sendEncrypted nodeId (Kex.encodeFail FAIL_AUTH) st in
        (acts, eraseSession nodeId st)
      else
        let r := receivedKexReport s in
        let echo := Kex.mkReport true (Kex.r_requestCsa r) (Kex.supportedSchemes r) (Kex.supportedCurves r)
                      (Kex.requestedKeys r) in
        let (acts, st) := sendEncrypted nodeId (Kex.encodeReport echo) st in
        (acts, setSession nodeId (withPhase AwaitNetworkKeyGet s) st)
  end.

Definition completeBootstrap (nodeId : Z) (s : Session) (st : State) : list Action * State :=
  let scheme := schemeFor (grantedKeys s) in
  ([SetSecurityScheme nodeId scheme; NodeSecurityStatus nodeId scheme], eraseSession nodeId st).

Definition onTempChannelKeyExchange (nodeId : Z) (s : Session) (frame : list Z) (st : State) : list Action * State :=
  let (inner, st) := decryptInbound nodeId s frame st in
  match inner with
  | None => ([], st)
  | Some inner =>
      match NonceSync.commandByte inner with
      | None => ([], st)
      | Some command =>
          if command =? KeyInstall.TRANSFER_END then
            match KeyInstall.decodeTransferEnd inner with
            | Some e => if KeyInstall.keyRequestComplete e then completeBootstrap nodeId s st else ([], st)
            | None => ([], st)
            end
          else if negb (command =? KeyInstall.NETWORK_KEY_GET) then ([], st) else
          match KeyInstall.decodeKeyGet inner with
          | None => ([], st)
          | Some requestedBit =>
              if Z.land requestedBit (grantedKeys s) =? 0 then
                let (acts, st) := sendEncrypted nodeId (Kex.encodeFail FAIL_KEY_GET) st in
                (acts, eraseSession nodeId st)
              else
              match classKeyForBit current requestedBit with
              | None => ([], st)
              | Some classKey =>
                  let (acts, st) := sendEncrypted nodeId (KeyInstall.encodeKeyReport requestedBit classKey) st in
                  (acts,
                   setSession nodeId
                     (mkSession AwaitClassNonceGet (privateKey s) (publicKey s) (grantedKeys s) (nodePublicKey s)
                        (tempKeys s) (sentKexSet s) (receivedKexReport s) requestedBit
                        (KeyDerivation.networkKeyExpand classKey)) st)
              end
          end
      end
  end.

Definition onKeyVerify (nodeId : Z) (s : Session) (frame : list Z) (st : State) : list Action * State :=
  let (nonce, m) := SpanManager.receiveNonce nodeId frame (classSpanManager st) in
  let st := setClassSpan m st in
  match nonce with
  | None => ([], st)
  | Some n =>
      match Encap.decrypt frame (encapContext st nodeId frame) (KeyDerivation.keyCcm (installingClassKeys s)) n with
      | None =>
          let (acts, st) := sendEncrypted nodeId (Kex.encodeFail FAIL_KEY_VERIFY) st in
          (acts, eraseSession nodeId st)
      | Some _ =>
          let (acts, st) := sendEncrypted nodeId (KeyInstall.encodeTransferEnd true false) st in
          (acts, setSession nodeId (withPhase AwaitNetworkKeyGet s) st)
      end
  end.

(** Replies to a NONCE_GET on the temporary channel, and on a fresh class channel. *)
Definition answerTempNonce (nodeId : Z) (s : Session) (st : State) : list Action * State :=
  let (report, m) := SpanManager.respondToNonceGet (H := eTemp) nodeId (spanManager st) in
  ([SendData nodeId report], setSession nodeId (withPhase AwaitKexSetEcho s) (setSpan m st)).

Definition answerClassNonce (nodeId : Z) (s : Session) (st : State) : list Action * State :=
  let keys := installingClassKeys s in
  let m := SpanManager.configurePeer nodeId
             (peerConfig st nodeId (KeyDerivation.keyCcm keys) (KeyDerivation.personalization keys))
             (SpanManager.mk ∅ (SpanManager.draws (classSpanManager st))) in
  let (report, m) := SpanManager.respondToNonceGet (H := eClass) nodeId m in
  ([SendData nodeId report], setSession nodeId (withPhase AwaitKeyVerify s) (setClassSpan m st)).

Definition onApplicationCommand (nodeId : Z) (ccData : list Z) (st : State) : list Action * State :=
  match sessions st !! nodeId with
  | None => ([], st)
  | Some s =>
      match NonceSync.commandByte ccData with
      | None => ([], st)
      | Some command =>
          match phase s with
          | AwaitKexReport => if command =? Kex.KEX_REPORT then onKexReport nodeId s ccData st else ([], st)
          | AwaitPublicKey =>
              if command =? PublicKey.PUBLIC_KEY_REPORT then onPublicKeyReport nodeId s ccData st else ([], st)
          | AwaitDsk => ([], st)
          | AwaitTempChannel =>
              if command =? NonceSync.NONCE_GET then answerTempNonce nodeId s st else ([], st)
          | AwaitKexSetEcho => if command =? Encap.CMD_ENCAP then onKexSetEcho nodeId s ccData st else ([], st)
          | AwaitNetworkKeyGet =>
              if command =? Encap.CMD_ENCAP then onTempChannelKeyExchange nodeId s ccData st else ([], st)
          | AwaitClassNonceGet =>
              if command =? NonceSync.NONCE_GET then answerClassNonce nodeId s st else ([], st)
          | AwaitKeyVerify => if command =? Encap.CMD_ENCAP then onKeyVerify nodeId s ccData st else ([], st)
          end
      end
  end.

(** The bus messages the orchestrator subscribes to. *)
Inductive Event :=
| NodeIncluded (nodeId : Z) (commandClasses : list Z)
| AppCommand (sourceNodeId : Z) (ccData : list Z)
| ConfirmDsk (nodeId : Z) (pin : list Z)
| DongleInfo (home : list Z) (nodeId : Z)
| S2NetworkKeysReady (ready : bool).

Definition step (ev : Event) (st : State) : list Action * State :=
  match ev with
  | NodeIncluded n ccs => onNodeIncluded n ccs st
  | AppCommand n data => onApplicationCommand n data st
  | ConfirmDsk n pin => onConfirmDsk n pin st
  | DongleInfo home n =>
      ([], mkState (sessions st) (spanManager st) (classSpanManager st) (onDongleInfo home n (identity st))
             (keysReady st) (keyPairs st))
  | S2NetworkKeysReady ready =>
      ([], mkState (sessions st) (spanManager st) (classSpanManager st) (identity st) ready (keyPairs st))
  end.

End Handlers.

Definition init : State :=
  mkState ∅ (SpanManager.mk ∅ 0) (SpanManager.mk ∅ 0) (mkIdentity (replicate 4 0) 0) false 0.

End Boot.

(** ** Runs and what has happened in them *)

Section Runs.
Context `{O : Oob} `{C : S2Crypto} `{E : Ecdh}.
Context (eTemp eClass : nat -> list Z).
Import Boot.

(** The states a run reaches, with the events so far; the class keys may be
    loaded or replaced at any time. *)
Inductive reach : list Event -> State -> Prop :=
| reach_init : reach [] init
| reach_step evs st current ev acts st' :
    reach evs st -> step eTemp eClass current ev st = (acts, st') -> reach (evs ++ [ev]) st'.

(** [e] is in the list, and [P] held of the events before it. *)
Definition after (P : list Event -> Prop) (e : Event) (evs : list Event) : Prop :=
  exists l1 l2, evs = l1 ++ e :: l2 /\ P l1.

(** The node has announced its keys, and the grant is the policy's. *)
Definition kexed (n : Z) (s : Session) (evs : list Event) : Prop :=
  exists kex, Kex.decodeReport kex = Some (receivedKexReport s) /\
    grantedKeys s = Kex.grantKeys (receivedKexReport s) CONTROLLER_SUPPORTED_KEYS /\ grantedKeys s <> 0 /\
    Kex.grantedKeys (sentKexSet s) = grantedKeys s /\ after (fun _ => True) (AppCommand n kex) evs.

(** It has sent the public key [pk]. *)
Definition keyed (n : Z) (s : Session) (pk : list Z) (evs : list Event) : Prop :=
  exists frame r, PublicKey.decode frame = Some r /\ PublicKey.key r = pk /\ after (kexed n s) (AppCommand n frame) evs.

(** The key in use is the one it sent; for a class that needs it, completed by the
    operator's PIN. *)
Definition confirmed (n : Z) (s : Session) (evs : list Event) : Prop :=
  (Z.land (grantedKeys s) DSK_REQUIRED_KEYS = 0 /\ keyed n s (nodePublicKey s) evs) \/
  exists pk pin v, PublicKey.parsePin pin = Some v /\ nodePublicKey s = PublicKey.applyPin pk v /\
    after (keyed n s pk) (ConfirmDsk n pin) evs.

Definition agreed (n : Z) (s : Session) (evs : list Event) : Prop :=
  confirmed n s evs /\
  exists shared, ecdh (privateKey s) (nodePublicKey s) = Some shared /\
    tempKeys s = KeyDerivation.deriveTempKeys shared (publicKey s) (nodePublicKey s).

(** The node has sent back the grant under the temporary key. *)
Definition echoed (n : Z) (s : Session) (evs : list Event) : Prop :=
  exists frame ctx nonce inner e, after (agreed n s) (AppCommand n frame) evs /\
    Encap.decrypt frame ctx (KeyDerivation.t_keyCcm (tempKeys s)) nonce = Some inner /\
    Kex.decodeSet inner = Some e /\ Kex.grantedKeys e = grantedKeys s.

Definition progress (n : Z) (s : Session) (evs : list Event) : Prop :=
  match phase s with
  | AwaitKexReport => True
  | AwaitPublicKey => kexed n s evs
  | AwaitDsk => keyed n s (nodePublicKey s) evs
  | AwaitTempChannel | AwaitKexSetEcho => agreed n s evs
  | AwaitNetworkKeyGet | AwaitClassNonceGet | AwaitKeyVerify => echoed n s evs
  end.

(** The events since the inclusion that opened the session. *)
Definition since (n : Z) (all evs : list Event) : Prop :=
  exists pre ccs, all = pre ++ NodeIncluded n ccs :: evs.

Definition sessions_ok (all : list Event) (st : State) : Prop :=
  forall n s, sessions st !! n = Some s -> exists evs, since n all evs /\ progress n s evs.

Lemma after_snoc (P : list Event -> Prop) e evs x : after P e evs -> after P e (evs ++ [x]).
Proof. intros (l1&l2&->&?). exists l1, (l2 ++ [x]). split; [by rewrite <-app_assoc|done]. Qed.

Lemma after_last (P : list Event -> Prop) e evs : P evs -> after P e (evs ++ [e]).
Proof. intros. by exists evs, []. Qed.

Lemma since_snoc n all evs x : since n all evs -> since n (all ++ [x]) (evs ++ [x]).
Proof. intros (pre&ccs&->). exists pre, ccs. by rewrite <-app_assoc. Qed.

Lemma kexed_snoc n s evs x : kexed n s evs -> kexed n s (evs ++ [x]).
Proof. intros (kex&?&?&?&?&?). exists kex. eauto 6 using after_snoc. Qed.
Lemma keyed_snoc n s pk evs x : keyed n s pk evs -> keyed n s pk (evs ++ [x]).
Proof. intros (f&r&?&?&?). exists f, r. eauto using after_snoc. Qed.
Lemma confirmed_snoc n s evs x : confirmed n s evs -> confirmed n s (evs ++ [x]).
Proof.
  intros [[??]|(pk&pin&v&?&?&?)]; [left; eauto using keyed_snoc|right].
  exists pk, pin, v. eauto using after_snoc.
Qed.
Lemma agreed_snoc n s evs x : agreed n s evs -> agreed n s (evs ++ [x]).
Proof. intros [??]. split; eauto using confirmed_snoc. Qed.
Lemma echoed_snoc n s evs x : echoed n s evs -> echoed n s (evs ++ [x]).
Proof. intros (f&c&no&i&e&?&?). exists f, c, no, i, e. eauto using after_snoc. Qed.

Lemma progress_snoc n s evs x : progress n s evs -> progress n s (evs ++ [x]).
Proof.
  unfold progress. destruct (phase s); eauto using kexed_snoc, keyed_snoc, agreed_snoc, echoed_snoc.
Qed.

Lemma confirmed_grant n s evs : confirmed n s evs -> Kex.grantedKeys (sentKexSet s) = grantedKeys s.
Proof.
  assert (Hk : forall pk evs, keyed n s pk evs -> Kex.grantedKeys (sentKexSet s) = grantedKeys s).
  { intros pk l (f&r&_&_&(l1&l2&_&(kex&_&_&_&Hg&_))). exact Hg. }
  intros [[_ Hy]|(pk&pin&v&_&_&(l1&l2&_&Hy))]; eauto.
Qed.

(** A state whose sessions are those of [st], but for node [n]'s. *)
Definition only_session (n : Z) (st st' : State) : Prop :=
  forall m, m <> n -> sessions st' !! m = sessions st !! m.

Lemma sessions_ok_step all ev n st st' :
  sessions_ok all st -> only_session n st st' ->
  (forall s', sessions st' !! n = Some s' -> exists evs, since n (all ++ [ev]) evs /\ progress n s' evs) ->
  sessions_ok (all ++ [ev]) st'.
Proof.
  intros Hok Ho Hn m s Hm. destruct (decide (m = n)) as [->|Hne]; [by apply Hn|].
  rewrite Ho in Hm by done. destruct (Hok m s Hm) as (evs&?&?).
  exists (evs ++ [ev]). eauto using since_snoc, progress_snoc.
Qed.

(** The three things a handler does with the session of node [n]. *)
Definition outcome (n : Z) (evs : list Event) (ev : Event) (st st' : State) : Prop :=
  only_session n st st' /\ forall s', sessions st' !! n = Some s' -> progress n s' (evs ++ [ev]).

Lemma outcome_same n evs ev s st st' :
  sessions st !! n = Some s -> progress n s evs -> sessions st' = sessions st -> outcome n evs ev st st'.
Proof.
  intros Hs Hp He. split; [by intros m _; rewrite He|]. intros s' Hs'. rewrite He in Hs'. simplify_eq.
  by apply progress_snoc.
Qed.

Lemma outcome_set n evs ev s' st st' :
  sessions st' = <[n := s']> (sessions st) -> progress n s' (evs ++ [ev]) -> outcome n evs ev st st'.
Proof.
  intros He Hp. split; [intros m Hm; by rewrite He, lookup_insert_ne|].
  intros s Hs. rewrite He, lookup_insert_eq in Hs. by simplify_eq.
Qed.

Lemma outcome_erase n evs ev st st' :
  sessions st' = delete n (sessions st) -> outcome n evs ev st st'.
Proof.
  intros He. split; [intros m Hm; by rewrite He, lookup_delete_ne|].
  intros s Hs. by rewrite He, lookup_delete_eq in Hs.
Qed.

Lemma sendEncrypted_sessions n inner st : sessions (sendEncrypted eTemp n inner st).2 = sessions st.
Proof. unfold sendEncrypted. destruct (SpanManager.encrypt _ _ _) as [[]]; done. Qed.

(** Runs the [sendEncrypted] the goal is stuck on: it leaves the sessions alone. *)
Ltac send_frame :=
  match goal with |- context [ sendEncrypted eTemp ?n ?i ?a ] =>
    pose proof (sendEncrypted_sessions n i a) as Hsend; destruct (sendEncrypted eTemp n i a); cbn in Hsend
  end.

Lemma decryptInbound_spec n s frame st :
  exists m, (decryptInbound n s frame st).2 = setSpan m st /\
  forall inner, (decryptInbound n s frame st).1 = Some inner ->
    exists ctx nonce, Encap.decrypt frame ctx (KeyDerivation.t_keyCcm (tempKeys s)) nonce = Some inner.
Proof.
  unfold decryptInbound. destruct (SpanManager.receiveNonce _ _ _) as [[nonce|] m]; exists m; cbn; split; try done.
  eauto.
Qed.

Section Progress.
Context (current : option (list (list Z))) (n : Z) (s : Session) (evs : list Event) (st : State).
Context (Hs : sessions st !! n = Some s) (Hp : progress n s evs).

Lemma finishKeyAgreement_ok s' ev :
  confirmed n s' (evs ++ [ev]) -> outcome n evs ev st (finishKeyAgreement n s' st).2.
Proof using.
  intros Hc. unfold finishKeyAgreement. destruct (ecdh _ _) as [shared|] eqn:He; [|by apply outcome_erase].
  eapply outcome_set; [reflexivity|]. split; [exact Hc|eauto].
Qed.

Lemma onKexReport_ok data :
  outcome n evs (AppCommand n data) st (onKexReport n s data st).2.
Proof.
  unfold onKexReport. destruct (Kex.decodeReport data) as [r|] eqn:Hd; [|by eapply outcome_same].
  destruct (Z.eqb_spec (Kex.grantKeys r CONTROLLER_SUPPORTED_KEYS) 0); [by apply outcome_erase|].
  eapply outcome_set; [reflexivity|]. exists data. cbn. split_and!; try done. by apply after_last.
Qed.

Lemma onPublicKeyReport_ok data :
  phase s = AwaitPublicKey -> outcome n evs (AppCommand n data) st (onPublicKeyReport n s data st).2.
Proof.
  intros Hph. unfold onPublicKeyReport. destruct (PublicKey.decode data) as [r|] eqn:Hd; [|by eapply outcome_same].
  unfold progress in Hp. rewrite Hph in Hp.
  assert (keyed n (withNodeKey (PublicKey.key r) s) (PublicKey.key r) (evs ++ [AppCommand n data])).
  { exists data, r. split_and!; try done. by apply after_last. }
  destruct (Z.eqb_spec (Z.land (grantedKeys (withNodeKey (PublicKey.key r) s)) DSK_REQUIRED_KEYS) 0); cbn [negb].
  - match goal with |- context [ finishKeyAgreement ?a ?b ?c ] =>
      pose proof (finishKeyAgreement_ok b (AppCommand n data)) as Hf; destruct (finishKeyAgreement a b c) end.
    apply Hf. by left.
  - by eapply outcome_set; [reflexivity|].
Qed.

Lemma onKexSetEcho_ok data :
  phase s = AwaitKexSetEcho -> outcome n evs (AppCommand n data) st (onKexSetEcho eTemp n s data st).2.
Proof.
  intros Hph. unfold onKexSetEcho.
  destruct (decryptInbound_spec n s data st) as (m&Hm&Hdec).
  destruct (decryptInbound n s data st) as [[inner|] st1]; cbn [fst snd] in *; subst st1;
    [|by eapply outcome_same].
  destruct (Kex.decodeSet inner) as [e|] eqn:He; [destruct (echoMatches (sentKexSet s) e) eqn:Hm|]; cbn [negb].
  - send_frame.
    eapply outcome_set; [cbn in *; by rewrite Hsend|].
    destruct (Hdec _ eq_refl) as (ctx&nonce&Hd). unfold progress in Hp. rewrite Hph in Hp.
    exists data, ctx, nonce, inner, e. split_and!; [by apply after_last|done..|].
    unfold echoMatches in Hm. zbool. cbn. destruct Hp as [Hc _].
    by rewrite <-(confirmed_grant _ _ _ Hc).
  - send_frame.
    apply outcome_erase. cbn in *. by rewrite Hsend.
  - send_frame.
    apply outcome_erase. cbn in *. by rewrite Hsend.
Qed.

Lemma onTempChannelKeyExchange_ok data :
  phase s = AwaitNetworkKeyGet ->
  outcome n evs (AppCommand n data) st (onTempChannelKeyExchange eTemp current n s data st).2.
Proof.
  intros Hph. unfold onTempChannelKeyExchange.
  destruct (decryptInbound_spec n s data st) as (m&Hm&_).
  destruct (decryptInbound n s data st) as [[inner|] st1]; cbn [fst snd] in *; subst st1;
    [|by eapply outcome_same].
  destruct (NonceSync.commandByte inner) as [cmd|]; [|by eapply outcome_same].
  destruct (cmd =? KeyInstall.TRANSFER_END).
  { destruct (KeyInstall.decodeTransferEnd inner) as [e|]; [|by eapply outcome_same].
    destruct (KeyInstall.keyRequestComplete e); [by apply outcome_erase|by eapply outcome_same]. }
  destruct (negb _); [by eapply outcome_same|].
  destruct (KeyInstall.decodeKeyGet inner) as [bit|]; [|by eapply outcome_same].
  destruct (_ =? 0); [send_frame; by apply outcome_erase; cbn; rewrite Hsend|].
  destruct (classKeyForBit current bit) as [k|]; [|by eapply outcome_same].
  send_frame. eapply outcome_set; [cbn; by rewrite Hsend|].
  unfold progress in *. rewrite Hph in Hp. exact (echoed_snoc n s evs _ Hp).
Qed.

Lemma onKeyVerify_ok data :
  phase s = AwaitKeyVerify -> outcome n evs (AppCommand n data) st (onKeyVerify eTemp n s data st).2.
Proof.
  intros Hph. unfold onKeyVerify.
  destruct (SpanManager.receiveNonce _ _ _) as [[nonce|] m]; [|by eapply outcome_same].
  destruct (Encap.decrypt _ _ _ _) as [inner|].
  - send_frame. eapply outcome_set; [cbn; by rewrite Hsend|].
    unfold progress in *. rewrite Hph in Hp. exact (echoed_snoc n s evs _ Hp).
  - send_frame. apply outcome_erase. cbn. by rewrite Hsend.
Qed.

Lemma answerTempNonce_ok data :
  phase s = AwaitTempChannel -> outcome n evs (AppCommand n data) st (answerTempNonce eTemp n s st).2.
Proof.
  intros Hph. unfold answerTempNonce, SpanManager.respondToNonceGet.
  eapply outcome_set; [reflexivity|]. unfold progress in *. rewrite Hph in Hp. exact (agreed_snoc n s evs _ Hp).
Qed.

Lemma answerClassNonce_ok data :
  phase s = AwaitClassNonceGet -> outcome n evs (AppCommand n data) st (answerClassNonce eClass n s st).2.
Proof.
  intros Hph. unfold answerClassNonce, SpanManager.respondToNonceGet.
  eapply outcome_set; [reflexivity|]. unfold progress in *. rewrite Hph in Hp. exact (echoed_snoc n s evs _ Hp).
Qed.

Lemma onApplicationCommand_ok data :
  outcome n evs (AppCommand n data) st (onApplicationCommand eTemp eClass current n data st).2.
Proof.
  unfold onApplicationCommand. rewrite Hs.
  destruct (NonceSync.commandByte data) as [cmd|]; [|by eapply outcome_same].
  destruct (phase s) eqn:Hph; try (by eapply outcome_same);
    (match goal with |- context [ if ?c then _ else _ ] => destruct c; [|by eapply outcome_same] end).
  - apply onKexReport_ok.
  - by apply onPublicKeyReport_ok.
  - by apply answerTempNonce_ok.
  - by apply onKexSetEcho_ok.
  - by apply onTempChannelKeyExchange_ok.
  - by apply answerClassNonce_ok.
  - by apply onKeyVerify_ok.
Qed.

Lemma onConfirmDsk_ok pin : outcome n evs (ConfirmDsk n pin) st (onConfirmDsk n pin st).2.
Proof.
  unfold onConfirmDsk. rewrite Hs. case_bool_decide as Hph; cbn [negb]; [|by eapply outcome_same].
  destruct (PublicKey.parsePin pin) as [v|] eqn:Hv; [|by eapply outcome_same].
  match goal with |- context [ finishKeyAgreement ?a ?b ?c ] =>
    pose proof (finishKeyAgreement_ok b (ConfirmDsk n pin)) as Hf; destruct (finishKeyAgreement a b c) end.
  apply Hf. right. exists (nodePublicKey s), pin, v. unfold progress in Hp. rewrite Hph in Hp.
  split_and!; [done..|]. by apply after_last.
Qed.

End Progress.

Lemma onNodeIncluded_ok all n ccs st :
  sessions_ok all st -> sessions_ok (all ++ [NodeIncluded n ccs]) (onNodeIncluded n ccs st).2.
Proof.
  intros Hok. unfold onNodeIncluded.
  assert (Hsame : sessions_ok (all ++ [NodeIncluded n ccs]) st).
  { intros m s Hm. destruct (Hok m s Hm) as (evs&?&?). exists (evs ++ [NodeIncluded n ccs]).
    eauto using since_snoc, progress_snoc. }
  destruct (negb _); [done|]. destruct (negb _); [done|].
  apply (sessions_ok_step _ _ n st); [done| |].
  - intros m Hm. cbn. by rewrite lookup_insert_ne.
  - intros s'. cbn. rewrite lookup_insert_eq. intros [= <-]. exists []. split; [|done]. by exists all, ccs.
Qed.

Lemma sessions_ok_outcome all ev n s st st' :
  sessions_ok all st -> sessions st !! n = Some s ->
  (forall evs, progress n s evs -> outcome n evs ev st st') -> sessions_ok (all ++ [ev]) st'.
Proof.
  intros Hok Hs Hout. destruct (Hok n s Hs) as (evs&Hsi&Hp). destruct (Hout evs Hp) as [Ho Hn].
  apply (sessions_ok_step all ev n st); [done..|]. intros s' Hs'. exists (evs ++ [ev]).
  split; [by apply since_snoc|by apply Hn].
Qed.

Lemma sessions_ok_same all ev st st' :
  sessions_ok all st -> sessions st' = sessions st -> sessions_ok (all ++ [ev]) st'.
Proof.
  intros Hok He m s Hm. rewrite He in Hm. destruct (Hok m s Hm) as (evs&?&?).
  exists (evs ++ [ev]). eauto using since_snoc, progress_snoc.
Qed.

Lemma reach_sessions_ok all st : reach all st -> sessions_ok all st.
Proof.
  induction 1 as [|all st current ev acts st' Hr IH Hstep]; [by intros n s Hs; cbn in Hs; simplify_map_eq|].
  apply (f_equal snd) in Hstep. cbn in Hstep. subst st'.
  destruct ev as [n ccs|n data|n pin|home n|ready]; cbn [step].
  - by apply onNodeIncluded_ok.
  - destruct (sessions st !! n) as [s|] eqn:Hs.
    + eapply sessions_ok_outcome; eauto using onApplicationCommand_ok.
    + apply (sessions_ok_same all _ st); [done|]. unfold onApplicationCommand. by rewrite Hs.
  - destruct (sessions st !! n) as [s|] eqn:Hs.
    + eapply sessions_ok_outcome; eauto using onConfirmDsk_ok.
    + apply (sessions_ok_same all _ st); [done|]. unfold onConfirmDsk. by rewrite Hs.
  - by apply (sessions_ok_same all _ st).
  - by apply (sessions_ok_same all _ st).
Qed.

(** *** Marking a node secure *)

Definition is_mark (a : Action) : bool := match a with SetSecurityScheme _ _ => true | _ => false end.
Definition unmarked (acts : list Action) : Prop := forallb (fun a => negb (is_mark a)) acts = true.

Lemma unmarked_not acts n sch : unmarked acts -> ~ SetSecurityScheme n sch ∈ acts.
Proof.
  unfold unmarked. rewrite forallb_forall. intros Hu Hin. apply list_elem_of_In in Hin.
  by specialize (Hu _ Hin).
Qed.

Lemma sendEncrypted_unmarked n inner st : unmarked (sendEncrypted eTemp n inner st).1.
Proof. unfold sendEncrypted. by destruct (SpanManager.encrypt _ _ _) as [[]]. Qed.

Lemma finishKeyAgreement_unmarked n s st : unmarked (finishKeyAgreement n s st).1.
Proof. unfold finishKeyAgreement. by destruct (ecdh _ _). Qed.

(** Splits a handler into its branches; what is left are its action lists. *)
Ltac unmarked_branches :=
  repeat first
    [ done
    | match goal with
      | |- context [ sendEncrypted eTemp ?n ?i ?a ] =>
          pose proof (sendEncrypted_unmarked n i a); destruct (sendEncrypted eTemp n i a)
      | |- context [ finishKeyAgreement ?a ?b ?c ] =>
          pose proof (finishKeyAgreement_unmarked a b c); destruct (finishKeyAgreement a b c)
      end
    | case_match; cbn [fst] ].

Lemma other_handlers_unmarked n s data st :
  unmarked (onKexReport n s data st).1 /\ unmarked (onPublicKeyReport n s data st).1 /\
  unmarked (answerTempNonce eTemp n s st).1 /\ unmarked (onKexSetEcho eTemp n s data st).1 /\
  unmarked (answerClassNonce eClass n s st).1 /\ unmarked (onKeyVerify eTemp n s data st).1.
Proof.
  unfold onKexReport, onPublicKeyReport, answerTempNonce, onKexSetEcho, answerClassNonce, onKeyVerify.
  split_and!; unmarked_branches.
Qed.

(** Only a TRANSFER_END on the temporary channel marks a node. *)
Lemma onTempChannelKeyExchange_marks current n s data st n' sch :
  SetSecurityScheme n' sch ∈ (onTempChannelKeyExchange eTemp current n s data st).1 ->
  n' = n /\ sch = schemeFor (grantedKeys s) /\
  (onTempChannelKeyExchange eTemp current n s data st).1 = [SetSecurityScheme n sch; NodeSecurityStatus n sch] /\
  sessions (onTempChannelKeyExchange eTemp current n s data st).2 !! n = None.
Proof.
  unfold onTempChannelKeyExchange. destruct (decryptInbound n s data st) as [[inner|] st1];
    [|by intros ?%unmarked_not].
  destruct (NonceSync.commandByte inner) as [cmd|]; [|by intros ?%unmarked_not].
  destruct (cmd =? KeyInstall.TRANSFER_END).
  - destruct (KeyInstall.decodeTransferEnd inner) as [e|]; [|by intros ?%unmarked_not].
    destruct (KeyInstall.keyRequestComplete e); [|by intros ?%unmarked_not].
    cbn. intros [[= -> ->]|[?|?%elem_of_nil]%elem_of_cons]%elem_of_cons; [|done..].
    by rewrite lookup_delete_eq.
  - intros Hin. exfalso. revert Hin. apply unmarked_not. unmarked_branches.
Qed.

Lemma step_marks current ev st n sch :
  SetSecurityScheme n sch ∈ (step eTemp eClass current ev st).1 ->
  exists s, sessions st !! n = Some s /\ phase s = AwaitNetworkKeyGet /\ sch = schemeFor (grantedKeys s) /\
    (step eTemp eClass current ev st).1 = [SetSecurityScheme n sch; NodeSecurityStatus n sch] /\
    sessions (step eTemp eClass current ev st).2 !! n = None.
Proof.
  destruct ev as [m ccs|m data|m pin|home m|ready]; cbn [step fst snd]; [| | |by intros ?%unmarked_not..].
  - intros Hin. exfalso. revert Hin. apply unmarked_not. unfold onNodeIncluded. unmarked_branches.
  - unfold onApplicationCommand. destruct (sessions st !! m) as [s|] eqn:Hs; [|by intros ?%unmarked_not].
    destruct (NonceSync.commandByte data) as [cmd|]; [|by intros ?%unmarked_not].
    pose proof (other_handlers_unmarked m s data st) as (?&?&?&?&?&?).
    destruct (phase s) eqn:Hph; try (by intros ?%unmarked_not);
      (match goal with |- context [ if ?c then _ else _ ] => destruct c; [|by intros ?%unmarked_not] end);
      try (by intros ?%unmarked_not).
    intros (->&->&->&?)%onTempChannelKeyExchange_marks. eauto 6.
  - intros Hin. exfalso. revert Hin. apply unmarked_not. unfold onConfirmDsk. unmarked_branches.
Qed.

Lemma schemeFor_dsk granted : Z.land granted DSK_REQUIRED_KEYS = 0 -> schemeFor granted = 2.
Proof.
  intros Hd. unfold schemeFor.
  assert (Hb : forall i, 0 <= i -> Z.testbit DSK_REQUIRED_KEYS i = true -> Z.testbit granted i = false).
  { intros i Hi Hb. apply (f_equal (fun z => Z.testbit z i)) in Hd.
    rewrite Z.land_spec, Z.bits_0, Hb, andb_true_r in Hd. done. }
  change Kex.KEY_S2_ACCESS_CONTROL with (Z.shiftl 1 2). change Kex.KEY_S2_AUTHENTICATED with (Z.shiftl 1 1).
  rewrite !land_bit_zero by lia. by rewrite (Hb 2), (Hb 1).
Qed.

(** C5: a node is marked secure only at the end of the ritual.  Whatever the bus
    delivers, when the registry is told a scheme for node [n], then since its
    inclusion, in this order: it announced its keys, and the scheme is that of
    the grant policy; it sent its public key; the operator confirmed it with a
    well-formed PIN if the scheme is Authenticated or Access Control; and it
    returned the granted keys sealed under the temporary key derived from that
    exchange.  The session is closed, and the status is published right after. *)
Theorem secure_mark_justified all st current ev acts st' n sch :
  reach all st -> step eTemp eClass current ev st = (acts, st') -> SetSecurityScheme n sch ∈ acts ->
  acts = [SetSecurityScheme n sch; NodeSecurityStatus n sch] /\ sessions st' !! n = None /\
  exists s evs, since n all evs /\ echoed n s evs /\ sch = schemeFor (grantedKeys s) /\
    (3 <= sch -> exists pin v, ConfirmDsk n pin ∈ evs /\ PublicKey.parsePin pin = Some v).
Proof.
  intros Hr Hstep Hin. pose proof (f_equal fst Hstep) as Ha. pose proof (f_equal snd Hstep) as Hst.
  cbn in Ha, Hst. subst acts st'. destruct (step_marks _ _ _ _ _ Hin) as (s&Hs&Hph&->&Hacts&Hnone).
  split_and!; [done..|]. destruct (reach_sessions_ok _ _ Hr n s Hs) as (evs&Hsi&Hp).
  unfold progress in Hp. rewrite Hph in Hp. exists s, evs. split_and!; [done..|].
  intros H3. destruct Hp as (f&ctx&no&i&e&(l1&l2&->&[[[Hd _]|(pk&pin&v&Hv&_&(l3&l4&->&_))] _])&_).
  - rewrite schemeFor_dsk in H3 by done. lia.
  - exists pin, v. split; [|done]. rewrite !elem_of_app, !elem_of_cons. auto.
Qed.

(** *** Where the class keys go *)

Lemma grant_no_s0 r : Z.land Kex.KEY_S0 (Kex.grantKeys r CONTROLLER_SUPPORTED_KEYS) = 0.
Proof.
  apply Z.bits_inj'. intros i Hi. rewrite Z.land_spec, Z.bits_0. change Kex.KEY_S0 with (2 ^ 7).
  rewrite Z.pow2_bits_eqb by lia. destruct (Z.eqb_spec 7 i) as [<-|]; [|done]. cbn [andb].
  unfold Kex.grantKeys. destruct (Kex.r_requestCsa r).
  - unfold u8. change 256 with (2 ^ 8). rewrite Z.mod_pow2_bits_low by lia.
    by rewrite !Z.land_spec, andb_false_r.
  - by rewrite Z.land_spec, andb_false_r.
Qed.

Lemma echoed_grant n s evs :
  echoed n s evs -> exists r, grantedKeys s = Kex.grantKeys r CONTROLLER_SUPPORTED_KEYS.
Proof.
  assert (Hk : forall pk evs, keyed n s pk evs -> exists r, grantedKeys s = Kex.grantKeys r CONTROLLER_SUPPORTED_KEYS).
  { intros pk l (f&r&_&_&(l1&l2&_&(kex&_&Hg&_))). eauto. }
  intros (f&ctx&no&i&e&(l1&l2&_&[[[_ Hy]|(pk&pin&v&_&_&(l3&l4&_&Hy))] _])&_); eauto.
Qed.

Lemma classKey_bits cur bit :
  is_Some (classKeyForBit cur bit) -> bit = 1 \/ bit = 2 \/ bit = 4 \/ bit = Kex.KEY_S0.
Proof.
  unfold classKeyForBit, KeyInstall.classForKeyBit. intros [k Hk].
  repeat case_match; zbool; simplify_eq; auto.
Qed.

(** The key the temporary channel of a node runs under. *)
Definition channelKey (st : State) (n : Z) : list Z :=
  SpanManager.classKey (SpanManager.config (SpanManager.peerState (spanManager st) n)).

(** The phases after the key agreement. *)
Definition keyAgreed (p : Phase) : bool :=
  match p with AwaitKexReport | AwaitPublicKey | AwaitDsk => false | _ => true end.

(** Once the keys are agreed, the channel runs under the session's temporary key. *)
Definition channel_ok (st : State) : Prop :=
  forall n s, sessions st !! n = Some s -> keyAgreed (phase s) = true ->
    channelKey st n = KeyDerivation.t_keyCcm (tempKeys s).

(** The nodes a step leaves alone keep session and channel, and the session of [n] is
    in order afterwards. *)
Definition channel_kept (n : Z) (st st' : State) : Prop :=
  only_session n st st' /\ (forall m, m <> n -> channelKey st' m = channelKey st m) /\
  forall s, sessions st' !! n = Some s -> keyAgreed (phase s) = true ->
    channelKey st' n = KeyDerivation.t_keyCcm (tempKeys s).

Lemma channel_ok_step n st st' : channel_ok st -> channel_kept n st st' -> channel_ok st'.
Proof.
  intros Hok (Ho & Hc & Hn) m s Hm Hp. destruct (decide (m = n)) as [->|Hne]; [by apply Hn|].
  rewrite Hc by done. apply Hok; [by rewrite <-Ho|done].
Qed.

(** What the span managers do to the key of a channel: nothing. *)
Definition keys_same (m m' : SpanManager.t) : Prop :=
  forall k, SpanManager.classKey (SpanManager.config (SpanManager.peerState m' k))
            = SpanManager.classKey (SpanManager.config (SpanManager.peerState m k)).

Lemma keys_same_set m k p d :
  SpanManager.classKey (SpanManager.config p) = SpanManager.classKey (SpanManager.config (SpanManager.peerState m k)) ->
  keys_same m (SpanManager.mk (<[k := p]> (SpanManager.peers m)) d).
Proof.
  intros Hp j. unfold SpanManager.peerState at 1. cbn. destruct (decide (j = k)) as [->|Hne].
  - by rewrite lookup_insert_eq.
  - by rewrite lookup_insert_ne.
Qed.

Lemma encrypt_same n inner m : keys_same m (SpanManager.encrypt (H := eTemp) n inner m).2.
Proof.
  unfold SpanManager.encrypt. destruct (SpanManager.encryptSpan _ _) as [[[[sp ext] rei] d]|].
  - destruct (SpanManager.truncatedNonce sp). by apply keys_same_set.
  - by apply keys_same_set.
Qed.

Lemma receiveNonce_same n frame m : keys_same m (SpanManager.receiveNonce n frame m).2.
Proof.
  assert (He : forall p, SpanManager.config (SpanManager.establishFrom p frame) = SpanManager.config p)
    by (intros p; unfold SpanManager.establishFrom; by repeat case_match).
  unfold SpanManager.receiveNonce. destruct (SpanManager.span _) as [sp|].
  - destruct (SpanManager.truncatedNonce sp). apply keys_same_set. cbn. by rewrite He.
  - apply keys_same_set. by rewrite He.
Qed.

Lemma respond_same n m : keys_same m (SpanManager.respondToNonceGet (H := eTemp) n m).2.
Proof. by apply keys_same_set. Qed.

Lemma channel_kept_same n s s' st st' :
  channel_ok st -> sessions st !! n = Some s -> keys_same (spanManager st) (spanManager st') ->
  (sessions st' = sessions st \/ sessions st' = delete n (sessions st) \/
   sessions st' = <[n := s']> (sessions st) /\ (keyAgreed (phase s') = true ->
     keyAgreed (phase s) = true /\ tempKeys s' = tempKeys s)) ->
  channel_kept n st st'.
Proof.
  intros Hok Hs Hk Hse. assert (Hc : forall m, channelKey st' m = channelKey st m) by (intros m; apply Hk).
  destruct Hse as [He|[He|[He Ht]]]; (split; [intros m Hm; by rewrite He, ?lookup_delete_ne, ?lookup_insert_ne|]);
    (split; [by intros m _|]); intros x Hx Hp; rewrite He in Hx; simplify_map_eq; rewrite Hc.
  - by apply Hok.
  - destruct (Ht Hp) as [Hp0 ->]. by apply Hok.
Qed.

Lemma keys_same_trans m1 m2 m3 : keys_same m1 m2 -> keys_same m2 m3 -> keys_same m1 m3.
Proof. intros H12 H23 k. by rewrite H23. Qed.

Lemma sendEncrypted_channel n inner st :
  exists m, (sendEncrypted eTemp n inner st).2 = setSpan m st /\ keys_same (spanManager st) m.
Proof.
  pose proof (encrypt_same n inner (spanManager st)) as Hk. unfold sendEncrypted.
  destruct (SpanManager.encrypt _ _ _) as [[f|] m]; by exists m.
Qed.

Lemma decryptInbound_channel n s frame st :
  exists m, (decryptInbound n s frame st).2 = setSpan m st /\ keys_same (spanManager st) m.
Proof.
  pose proof (receiveNonce_same n frame (spanManager st)) as Hk. unfold decryptInbound.
  destruct (SpanManager.receiveNonce _ _ _) as [[no|] m]; by exists m.
Qed.

Section Channel.
Context (current : option (list (list Z))) (n : Z) (s : Session) (st : State).
Context (Hok : channel_ok st) (Hs : sessions st !! n = Some s).

Lemma finishKeyAgreement_channel s' : channel_kept n st (finishKeyAgreement n s' st).2.
Proof using Hok Hs.
  unfold finishKeyAgreement. destruct (ecdh _ _) as [shared|].
  - split; [intros m Hm; cbn; by rewrite lookup_insert_ne|]. unfold channelKey, SpanManager.peerState. cbn. split.
    + intros m Hm. by rewrite lookup_insert_ne.
    + rewrite !lookup_insert_eq. by intros x [= <-] _.
  - apply (channel_kept_same n s s); auto. by intros k.
Qed.

(** The branches of a handler leave the session, erase it or set it. *)
Lemma kept_left st' :
  sessions st' = sessions st -> keys_same (spanManager st) (spanManager st') -> channel_kept n st st'.
Proof using Hok Hs. intros. apply (channel_kept_same n s s); auto. Qed.
Lemma kept_erased st' :
  sessions st' = delete n (sessions st) -> keys_same (spanManager st) (spanManager st') -> channel_kept n st st'.
Proof using Hok Hs. intros. apply (channel_kept_same n s s); auto. Qed.
Lemma kept_set s' st' :
  sessions st' = <[n := s']> (sessions st) -> keys_same (spanManager st) (spanManager st') ->
  (keyAgreed (phase s') = true -> keyAgreed (phase s) = true /\ tempKeys s' = tempKeys s) ->
  channel_kept n st st'.
Proof using Hok Hs. intros. apply (channel_kept_same n s s'); auto 6. Qed.

Lemma keys_same_refl m : keys_same m m.
Proof. by intros k. Qed.

(** Runs the reception and the send the goal is stuck on, then settles the branches; in
    phase [Hph] of the session. *)
Ltac channel_runs :=
  repeat match goal with
    | |- context [ decryptInbound ?n ?s ?f ?a ] =>
        let m := fresh "m" in let E := fresh "E" in let K := fresh "K" in
        destruct (decryptInbound_channel n s f a) as (m & E & K);
        destruct (decryptInbound n s f a) as [[?|] ?]; cbn [fst snd] in E |- *; subst
    | |- context [ sendEncrypted eTemp ?n ?i ?a ] =>
        let m := fresh "m" in let E := fresh "E" in let K := fresh "K" in
        destruct (sendEncrypted_channel n i a) as (m & E & K);
        destruct (sendEncrypted eTemp n i a); cbn [fst snd spanManager setSpan] in *; subst
    end.
Ltac channel_branches Hph :=
  channel_runs; repeat (case_match; channel_runs); cbn [fst snd];
  first
    [ by apply kept_left; [|cbn [spanManager setSpan setClassSpan]; eauto using keys_same_refl, keys_same_trans]
    | by apply kept_erased; [|cbn [spanManager setSpan eraseSession setClassSpan]; eauto using keys_same_refl, keys_same_trans]
    | by eapply kept_set;
        [reflexivity|cbn [spanManager setSpan setSession setClassSpan]; eauto using keys_same_refl, keys_same_trans|cbn; rewrite ?Hph] ].

Lemma onPublicKeyReport_channel data : channel_kept n st (onPublicKeyReport n s data st).2.
Proof using Hok Hs.
  unfold onPublicKeyReport. destruct (PublicKey.decode data) as [r|]; [|by apply kept_left].
  destruct (negb _); [by eapply kept_set|].
  match goal with |- context [ finishKeyAgreement n ?b st ] =>
    pose proof (finishKeyAgreement_channel b) as Hf; by destruct (finishKeyAgreement n b st) end.
Qed.

Lemma onApplicationCommand_channel data :
  channel_kept n st (onApplicationCommand eTemp eClass current n data st).2.
Proof using Hok Hs.
  unfold onApplicationCommand. rewrite Hs.
  destruct (NonceSync.commandByte data) as [cmd|]; [|by apply kept_left].
  destruct (phase s) eqn:Hph;
    try (match goal with |- context [ if ?c then _ else _ ] => destruct c; [|by apply kept_left] end).
  - unfold onKexReport. channel_branches Hph.
  - apply onPublicKeyReport_channel.
  - by apply kept_left.
  - pose proof (respond_same n (spanManager st)). unfold answerTempNonce.
    destruct (SpanManager.respondToNonceGet n (spanManager st)). by eapply kept_set; [reflexivity| |cbn; rewrite Hph].
  - unfold onKexSetEcho. channel_branches Hph.
  - unfold onTempChannelKeyExchange, completeBootstrap. channel_branches Hph.
  - unfold answerClassNonce. channel_branches Hph.
  - unfold onKeyVerify. channel_branches Hph.
Qed.

Lemma onConfirmDsk_channel pin : channel_kept n st (onConfirmDsk n pin st).2.
Proof using Hok Hs.
  unfold onConfirmDsk. rewrite Hs. destruct (negb _); [by apply kept_left|].
  destruct (PublicKey.parsePin pin) as [v|]; [|by apply kept_left].
  match goal with |- context [ finishKeyAgreement n ?b st ] =>
    pose proof (finishKeyAgreement_channel b) as Hf; by destruct (finishKeyAgreement n b st) end.
Qed.

End Channel.

Lemma onNodeIncluded_channel n ccs st : channel_ok st -> channel_ok (onNodeIncluded n ccs st).2.
Proof.
  intros Hok. unfold onNodeIncluded. destruct (negb _); [done|]. destruct (negb _); [done|].
  intros m s Hm Hp. cbn in Hm. destruct (decide (m = n)) as [->|Hne].
  - rewrite lookup_insert_eq in Hm. by simplify_eq.
  - rewrite lookup_insert_ne in Hm by done. by apply Hok.
Qed.

Lemma reach_channel all st : reach all st -> channel_ok st.
Proof.
  induction 1 as [|all st current ev acts st' Hr IH Hstep]; [by intros n s Hs; cbn in Hs; simplify_map_eq|].
  apply (f_equal snd) in Hstep. cbn in Hstep. subst st'.
  destruct ev as [n ccs|n data|n pin|home n|ready]; cbn [step]; [by apply onNodeIncluded_channel| | |done|done].
  - destruct (sessions st !! n) as [s|] eqn:Hs; [|unfold onApplicationCommand; by rewrite Hs].
    eapply channel_ok_step; eauto using onApplicationCommand_channel.
  - destruct (sessions st !! n) as [s|] eqn:Hs; [|unfold onConfirmDsk; by rewrite Hs].
    eapply channel_ok_step; eauto using onConfirmDsk_channel.
Qed.

(** A frame that was opened leaves the channel with a generator, and what is sent on a
    channel with a generator is sealed under the channel's key. *)
Lemma decryptInbound_opened n s frame st inner st1 :
  decryptInbound n s frame st = (Some inner, st1) ->
  is_Some (SpanManager.span (SpanManager.peerState (spanManager st1) n)).
Proof.
  unfold decryptInbound, SpanManager.receiveNonce. destruct (SpanManager.span _) as [sp|]; [|done].
  destruct (SpanManager.truncatedNonce sp) as [no sp']. intros [= _ <-].
  unfold SpanManager.peerState. cbn. by rewrite lookup_insert_eq.
Qed.

Lemma sendEncrypted_sealed n st :
  is_Some (SpanManager.span (SpanManager.peerState (spanManager st) n)) ->
  exists ctx nonce m, forall inner,
    sendEncrypted eTemp n inner st = ([SendData n (Encap.encrypt inner ctx (channelKey st n) nonce [] [])], setSpan m st).
Proof.
  intros [sp Hsp]. unfold sendEncrypted, SpanManager.encrypt, SpanManager.encryptSpan. rewrite Hsp.
  destruct (SpanManager.truncatedNonce sp) as [nonce sp']. eexists _, nonce, _. intros inner. reflexivity.
Qed.

Lemma keyGet_bytes p bit :
  KeyInstall.decodeKeyGet p = Some bit -> exists rest, p = [NonceSync.COMMAND_CLASS; KeyInstall.NETWORK_KEY_GET; bit] ++ rest.
Proof.
  unfold KeyInstall.decodeKeyGet. destruct p as [|a [|b [|c rest]]]; [done..|].
  destruct (_ || _) eqn:Hg; [done|]. intros [= <-]. zbool. exists rest. cbn in *. by subst.
Qed.

(** The session while the key of a class is being installed. *)
Definition installing (bit : Z) (classKey : list Z) (s : Session) : Session :=
  mkSession AwaitClassNonceGet (privateKey s) (publicKey s) (grantedKeys s) (nodePublicKey s) (tempKeys s)
    (sentKexSet s) (receivedKexReport s) bit (KeyDerivation.networkKeyExpand classKey).

(** The key of the class a bit asks for: the keys are those of Unauthenticated (1),
    Authenticated (2) and Access Control (4), in this order. *)
Definition keyOf (current : option (list (list Z))) (bit : Z) : option (list Z) :=
  (fun keys => default [] (keys !! (if (bit =? 1)%Z then 0 else if (bit =? 2)%Z then 1 else 2)%nat)) <$> current.

Lemma classKey_keyOf cur bit : bit = 1 \/ bit = 2 \/ bit = 4 -> classKeyForBit cur bit = keyOf cur bit.
Proof. by destruct cur as [keys|]; intros [->|[->| ->]]. Qed.

(** C6: the class keys reach nothing but the answer to a request for a granted class at
    the end of the ritual.  If a step does something else with one set of class keys
    than with another, it handles a frame of a node that has completed the ritual since
    its inclusion; the frame opens under the temporary key of that ritual to a
    NETWORK_KEY_GET for a class, Unauthenticated, Authenticated or Access Control,
    that was granted to the node, and the two sets differ in the key of this class.
    With any set of keys the step then sends one frame to the node, the
    NETWORK_KEY_REPORT with the key of this class sealed under that same temporary
    key, and keeps its expansion in the session of the node; without that key it sends
    nothing. *)
Theorem keys_confined all st ev cur1 cur2 :
  reach all st -> step eTemp eClass cur1 ev st <> step eTemp eClass cur2 ev st ->
  exists n data s evs bit, ev = AppCommand n data /\ sessions st !! n = Some s /\ since n all evs /\ echoed n s evs /\
    (bit = 1 \/ bit = 2 \/ bit = 4) /\ Z.land bit (grantedKeys s) <> 0 /\ keyOf cur1 bit <> keyOf cur2 bit /\
    (exists ctx nonce rest,
       Encap.decrypt data ctx (KeyDerivation.t_keyCcm (tempKeys s)) nonce = Some ([0x9F; 0x09; bit] ++ rest)) /\
    exists unanswered answered ctx nonce, forall cur,
      step eTemp eClass cur ev st =
        match keyOf cur bit with
        | None => ([], unanswered)
        | Some key =>
            ([SendData n (Encap.encrypt ([0x9F; 0x0A; bit] ++ key) ctx (KeyDerivation.t_keyCcm (tempKeys s)) nonce [] [])],
             setSession n (installing bit key s) answered)
        end.
Proof.
  intros Hr Hne. destruct ev as [m ccs|m data|m pin|home m|ready]; try done. exists m, data. cbn [step] in *.
  unfold onApplicationCommand in *. destruct (sessions st !! m) as [s|] eqn:Hs; [|done].
  destruct (NonceSync.commandByte data) as [cmd|]; [|done]. destruct (phase s) eqn:Hph; try done.
  destruct (cmd =? Encap.CMD_ENCAP); [|done].
  destruct (reach_sessions_ok _ _ Hr m s Hs) as (evs&Hsi&Hp). unfold progress in Hp. rewrite Hph in Hp.
  pose proof (reach_channel _ _ Hr m s Hs ltac:(by rewrite Hph)) as Hkey.
  exists s, evs. unfold onTempChannelKeyExchange in *.
  destruct (decryptInbound_channel m s data st) as (sm&Hst1&Hsame).
  destruct (decryptInbound_spec m s data st) as (_&_&Hdec).
  destruct (decryptInbound m s data st) as [[inner|] st1] eqn:Hin; [|done]. cbn [fst snd] in *.
  destruct (NonceSync.commandByte inner); [|done]. destruct (_ =? KeyInstall.TRANSFER_END); [done|].
  destruct (negb _); [done|]. destruct (KeyInstall.decodeKeyGet inner) as [bit|] eqn:Hget; [|done].
  destruct (Z.eqb_spec (Z.land bit (grantedKeys s)) 0) as [|Hg]; [done|]. exists bit.
  assert (is_Some (classKeyForBit cur1 bit) \/ is_Some (classKeyForBit cur2 bit)) as Hk.
  { destruct (classKeyForBit cur1 bit); [eauto|]. destruct (classKeyForBit cur2 bit); eauto. done. }
  assert (bit = 1 \/ bit = 2 \/ bit = 4 \/ bit = Kex.KEY_S0) as Hb by (destruct Hk; eauto using classKey_bits).
  assert (bit = 1 \/ bit = 2 \/ bit = 4) as Hbit.
  { destruct Hb as [?|[?|[?| ->]]]; auto.
    destruct (echoed_grant _ _ _ Hp) as [r Hgr]. rewrite Hgr in Hg. by destruct Hg; apply grant_no_s0. }
  split_and!; [done..|by rewrite <- !classKey_keyOf by done; intros Heq; rewrite Heq in Hne| |].
  - destruct (Hdec _ eq_refl) as (ctx&nonce&Hd). destruct (keyGet_bytes _ _ Hget) as [rest ->].
    by exists ctx, nonce, rest.
  - destruct (sendEncrypted_sealed m st1 (decryptInbound_opened _ _ _ _ _ _ Hin)) as (ctx&nonce&m2&Hsend).
    exists st1, (setSpan m2 st1), ctx, nonce. intros cur. rewrite <- classKey_keyOf by done.
    destruct (classKeyForBit cur bit) as [key|]; [|done].
    rewrite Hsend. unfold channelKey. subst st1. cbn [spanManager setSpan]. rewrite Hsame. by fold (channelKey st m); rewrite Hkey.
Qed.

End Runs.

(** ** A concrete run *)

Module ToyRun.

Definition toyEcdh : Ecdh :=
  {| generateKeyPair := fun n => (replicate 32 (Z.of_nat n), replicate 32 (Z.of_nat n + 100));
     ecdh := fun _ _ => Some (replicate 32 7) |}.

Definition o : Oob := 0.
Definition nodeKey : list Z := (fun i => Z.of_nat (i * 7 + 3)) <$> seq 0 32.
Definition temp : KeyDerivation.TempKeys :=
  KeyDerivation.deriveTempKeys (H := Toy.crypto) (replicate 32 7) (replicate 32 100) nodeKey.
Definition step := Boot.step (H := o) (H0 := Toy.crypto) (H1 := toyEcdh) toyEntropy toyEntropy (Some toyKeys).

Fixpoint run (evs : list Boot.Event) (st : Boot.State) : Boot.State :=
  match evs with [] => st | e :: rest => run rest (step e st).2 end.

(** The node's end of the temporary channel, and the two frames it sends. *)
Definition nodeManager : SpanManager.t :=
  SpanManager.acceptNonceReport 0 (NonceSync.mkReport 0 true false (Some (toyEntropy 0%nat)))
    (SpanManager.configurePeer 0 (SpanManager.mkConfig (KeyDerivation.t_keyCcm temp) (KeyDerivation.t_personalization temp)
       [0; 0; 0; 0] 9 0) (SpanManager.mk ∅ 40)).
Definition echoSet : list Z := Kex.encodeSet (Kex.mkSet true false 2 1 3).
Definition sealed1 := SpanManager.encrypt (H := toyEntropy) (H0 := Toy.crypto) 0 echoSet nodeManager.
(** The controller's reply consumes a nonce. *)
Definition nodeManager2 : SpanManager.t :=
  (SpanManager.receiveNonce (H0 := Toy.crypto) (H1 := o) 0 [0x9F; 3; 0; 0] sealed1.2).2.
Definition sealed2 (inner : list Z) := SpanManager.encrypt (H := toyEntropy) (H0 := Toy.crypto) 0 inner nodeManager2.

Definition events : list Boot.Event :=
  [Boot.S2NetworkKeysReady true; Boot.NodeIncluded 9 [0x25; 0x9F];
   Boot.AppCommand 9 (Kex.encodeReport (Kex.mkReport false false 2 1 0x83));
   Boot.AppCommand 9 (PublicKey.encode false nodeKey PublicKey.OBFUSCATE_DSK);
   Boot.ConfirmDsk 9 (PublicKey.dskPin (H := o) nodeKey);
   Boot.AppCommand 9 (NonceSync.encodeNonceGet 5);
   Boot.AppCommand 9 (default [] sealed1.1)].

Lemma run_reach evs evs0 st :
  reach (O := o) (C := Toy.crypto) (E := toyEcdh) toyEntropy toyEntropy evs0 st ->
  reach (O := o) (C := Toy.crypto) (E := toyEcdh) toyEntropy toyEntropy (evs0 ++ evs) (run evs st).
Proof.
  revert evs0 st. induction evs as [|e evs IH]; intros evs0 st Hr; [by rewrite app_nil_r|].
  cbn [run]. replace (evs0 ++ e :: evs) with ((evs0 ++ [e]) ++ evs) by (by rewrite <-app_assoc).
  apply IH. eapply reach_step; [exact Hr|]. apply surjective_pairing.
Qed.

Definition complete : Boot.Event := Boot.AppCommand 9 (default [] (sealed2 (KeyInstall.encodeTransferEnd false true)).1).
Definition keyGet : Boot.Event := Boot.AppCommand 9 (default [] (sealed2 (KeyInstall.encodeKeyGet 2)).1).

End ToyRun.

Lemma secure_mark_justified_witness :
  let r := ToyRun.step ToyRun.complete (ToyRun.run ToyRun.events Boot.init) in
  r.1 = [Boot.SetSecurityScheme 9 3; Boot.NodeSecurityStatus 9 3] /\ Boot.sessions r.2 !! 9 = None /\
  exists s evs, since 9 ToyRun.events evs /\
    echoed (O := ToyRun.o) (C := Toy.crypto) (E := ToyRun.toyEcdh) 9 s evs /\ 3 = Boot.schemeFor (Boot.grantedKeys s) /\
    (3 <= 3 -> exists pin v, Boot.ConfirmDsk 9 pin ∈ evs /\ PublicKey.parsePin pin = Some v).
Proof.
  intros r. apply (secure_mark_justified (O := ToyRun.o) (C := Toy.crypto) (E := ToyRun.toyEcdh) toyEntropy toyEntropy
    ToyRun.events (ToyRun.run ToyRun.events Boot.init) (Some toyKeys) ToyRun.complete r.1 r.2 9 3).
  - apply (ToyRun.run_reach ToyRun.events [] Boot.init). constructor.
  - unfold r, ToyRun.step. exact (surjective_pairing _).
  - subst r. apply (bool_decide_unpack _). vm_compute. exact I.
Defined.

Lemma keys_confined_witness :
  exists n data s evs bit, ToyRun.keyGet = Boot.AppCommand n data /\
    Boot.sessions (ToyRun.run ToyRun.events Boot.init) !! n = Some s /\ since n ToyRun.events evs /\
    echoed (O := ToyRun.o) (C := Toy.crypto) (E := ToyRun.toyEcdh) n s evs /\
    (bit = 1 \/ bit = 2 \/ bit = 4) /\ Z.land bit (Boot.grantedKeys s) <> 0 /\
    keyOf (Some toyKeys) bit <> keyOf None bit.
Proof.
  destruct (keys_confined (O := ToyRun.o) (C := Toy.crypto) (E := ToyRun.toyEcdh) toyEntropy toyEntropy
    ToyRun.events (ToyRun.run ToyRun.events Boot.init) ToyRun.keyGet (Some toyKeys) None)
    as (n&data&s&evs&bit&H1&H2&H3&H4&H5&H6&H7&_).
  - apply (ToyRun.run_reach ToyRun.events [] Boot.init). constructor.
  - intros Heq. apply (f_equal (fun r => length r.1)) in Heq. revert Heq. vm_compute. discriminate.
  - exists n, data, s, evs, bit. exact (conj H1 (conj H2 (conj H3 (conj H4 (conj H5 (conj H6 H7)))))).
Defined.
