(* ===== verification/S2BootstrapRun.v ===== *)
(** * Security S2: an inclusion from end to end

    A node that follows the protocol, built from the same frame formats and nonce
    state machine, against the handlers of [S2Bootstrap]: the handshake runs to
    its end, the node holds the granted class keys and is marked secure. *)

From S2P Require Import Prelude S2Codec S2SpanManager S2Transport S2KeyInstall S2Bootstrap.
From stdpp Require Import gmap countable.
#[local] Open Scope Z_scope.
Import Boot.

Section Node.
Context `{O : Oob} `{C : S2Crypto} `{E : Ecdh}.
Context (eTemp eClass eNode eNodeClass : nat -> list Z) (current : option (list (list Z))).

(** The node's id, the controller's id and home id, the node's keys and what it
    announces. *)
Context (n c : Z) (home : list Z) (nodePrivate nodePublic : list Z) (rep : Kex.Report) (ccs : list Z).

Definition ctl (ev : Event) (st : State) : list Action * State := step eTemp eClass current ev st.

Definition granted : Z := Kex.grantKeys rep CONTROLLER_SUPPORTED_KEYS.
Definition needsDsk : bool := negb (Z.land granted DSK_REQUIRED_KEYS =? 0).

Definition firstFrame (acts : list Action) : option (list Z) :=
  match acts with SendData _ f :: _ => Some f | _ => None end.

Definition channel (keyCcm personalization : list Z) : SpanManager.t :=
  SpanManager.configurePeer c (SpanManager.mkConfig keyCcm personalization home n c) (SpanManager.mk ∅ 0).

(** Public keys, with the operator's PIN where one is needed: the node's temporary
    keys. *)
Definition agree (st : State) : option (KeyDerivation.TempKeys * State) :=
  let '(_, st) := ctl (NodeIncluded n ccs) st in
  let '(_, st) := ctl (AppCommand n (Kex.encodeReport rep)) st in
  let leading := if needsDsk then PublicKey.OBFUSCATE_DSK else PublicKey.OBFUSCATE_NONE in
  let '(acts, st) := ctl (AppCommand n (PublicKey.encode false nodePublic leading)) st in
  let '(_, st) := if needsDsk then ctl (ConfirmDsk n (PublicKey.dskPin nodePublic)) st else ([], st) in
  f ← firstFrame acts;
  r ← PublicKey.decode f;
  shared ← ecdh nodePrivate (PublicKey.key r);
  Some (KeyDerivation.deriveTempKeys shared (PublicKey.key r) nodePublic, st).

(** The nonce exchange on a channel [N] of the node. *)
Definition synchronise (N : SpanManager.t) (st : State) : option (SpanManager.t * State) :=
  let '(get, N) := SpanManager.nonceGet c N in
  let '(acts, st) := ctl (AppCommand n get) st in
  f ← firstFrame acts;
  r ← NonceSync.decodeNonceReport f;
  Some (SpanManager.acceptNonceReport c r N, st).

(** A command of the node on the temporary channel. *)
Definition say (inner : list Z) (N : SpanManager.t) (st : State) : option (list Action * SpanManager.t * State) :=
  let '(f, N) := SpanManager.encrypt (H := eNode) c inner N in
  f ← f;
  let '(acts, st) := ctl (AppCommand n f) st in
  Some (acts, N, st).

(** The controller's answer on it. *)
Definition hear (acts : list Action) (N : SpanManager.t) : option (list Z * SpanManager.t) :=
  f ← firstFrame acts;
  let '(inner, N) := openFrame c f N in
  inner ← inner;
  Some (inner, N).

(** One class key: asked for, received, and proved under the key received. *)
Definition install (bit : Z) (N : SpanManager.t) (st : State) : option (list Z * SpanManager.t * State) :=
  '(acts, N, st) ← say (KeyInstall.encodeKeyGet bit) N st;
  '(inner, N) ← hear acts N;
  kr ← KeyInstall.decodeKeyReport inner;
  let keys := KeyDerivation.networkKeyExpand (KeyInstall.key kr) in
  '(M, st) ← synchronise (channel (KeyDerivation.keyCcm keys) (KeyDerivation.personalization keys)) st;
  let '(f, M) := SpanManager.encrypt (H := eNodeClass) c KeyInstall.encodeKeyVerify M in
  f ← f;
  let '(acts, st) := ctl (AppCommand n f) st in
  '(inner, N) ← hear acts N;
  e ← KeyInstall.decodeTransferEnd inner;
  if KeyInstall.keyVerified e then Some (KeyInstall.key kr, N, st) else None.

Fixpoint installAll (bits : list Z) (N : SpanManager.t) (st : State) : option (list (list Z) * SpanManager.t * State) :=
  match bits with
  | [] => Some ([], N, st)
  | bit :: rest =>
      '(k, N, st) ← install bit N st;
      '(ks, N, st) ← installAll rest N st;
      Some (k :: ks, N, st)
  end.

(** The whole inclusion: the keys the node ends up with, and what the controller
    does last. *)
Definition inclusion (bits : list Z) (st : State) : option (list (list Z) * list Action * State) :=
  '(temp, st) ← agree st;
  '(N, st) ← synchronise (channel (KeyDerivation.t_keyCcm temp) (KeyDerivation.t_personalization temp)) st;
  '(acts, N, st) ← say (Kex.encodeSet (Kex.mkSet true false Kex.KEX_SCHEME_1 Kex.ECDH_CURVE25519 granted)) N st;
  '(inner, N) ← hear acts N;
  r ← Kex.decodeReport inner;
  if negb (bool_decide (r = Kex.mkReport true (Kex.r_requestCsa rep) (Kex.supportedSchemes rep)
                              (Kex.supportedCurves rep) (Kex.requestedKeys rep))) then None else
  '(ks, N, st) ← installAll bits N st;
  '(acts, N, st) ← say (KeyInstall.encodeTransferEnd false true) N st;
  Some (ks, acts, st).

End Node.

(** ** The two ends of a channel *)

Section Channel.
Context `{O : Oob} `{L : S2CryptoLaws}.
Import SpanManager.

Lemma establishFrom_config p frame : config (establishFrom p frame) = config p.
Proof. unfold establishFrom. by repeat case_match. Qed.

Lemma peerState_setPeer m k p : peerState (setPeer m k p) k = p.
Proof. unfold peerState, setPeer. cbn. by rewrite lookup_insert_eq. Qed.

Lemma openFrame_config peer frame m :
  config (peerState (openFrame peer frame m).2 peer) = config (peerState m peer).
Proof.
  unfold openFrame, receiveNonce. destruct (span _) as [s|]; [destruct (truncatedNonce s)|];
    cbn [snd]; rewrite peerState_setPeer; cbn; apply establishFrom_config.
Qed.

Lemma encrypt_config `{Entropy} peer inner m :
  config (peerState (encrypt peer inner m).2 peer) = config (peerState m peer).
Proof.
  unfold encrypt. destruct (encryptSpan _ _) as [[[[s ext] rei] d]|]; [destruct (truncatedNonce s)|]; cbn [snd].
  - unfold peerState at 1. cbn. by rewrite lookup_insert_eq.
  - by rewrite peerState_setPeer.
Qed.

Lemma encrypt_command `{Entropy} peer inner m f m' :
  encrypt peer inner m = (Some f, m') -> NonceSync.commandByte f = Some Encap.CMD_ENCAP.
Proof.
  unfold encrypt. destruct (encryptSpan _ _) as [[[[s ext] rei] d]|]; [destruct (truncatedNonce s)|done].
  intros [= <- _]. done.
Qed.

(** Node [a] has the REI node [b] holds for it, or both have the same generator. *)
Definition ready (a b : Z) (A B : SpanManager.t) : Prop :=
  exists pA pB rei, peers A !! b = Some pA /\ span pA = None /\ peerRei pA = Some rei /\
    peers B !! a = Some pB /\ ourRei pB = Some rei /\ mirrored (config pA) (config pB) /\
    length (personalization (config pA)) = 32%nat.
Definition linked (a b : Z) (A B : SpanManager.t) : Prop := ready a b A B \/ synced a b A B.

Lemma deliver_linked (e : nat -> list Z) (El : EntropyLaws (H := e)) a b p A B :
  linked a b A B -> zlen p < 65536 ->
  exists f A' B', encrypt (H := e) b p A = (Some f, A') /\ openFrame a f B = (Some p, B') /\
    synced a b A' B' /\ config (peerState B' a) = config (peerState B a).
Proof.
  intros Hl Hp. assert (exists A' B', deliver e a b p A B = (Some p, A', B') /\ synced a b A' B') as (A'&B'&Hd&Hs).
  { destruct Hl as [(pA&pB&rei&?&?&?&?&?&?&?)|?]; [by eapply deliver_first|by apply deliver_synced]. }
  destruct (deliver_inv e a b p A B A' B' p Hd) as (f&He&Ho). exists f, A', B'. split_and!; try done.
  pose proof (openFrame_config a f B) as Hc. by rewrite Ho in Hc.
Qed.

(** The nonce exchange leaves the two ends ready. *)
Lemma exchange_ready (e : nat -> list Z) (El : EntropyLaws (H := e)) (a b : Z) (A B : SpanManager.t) pA pB :
  peers A !! b = Some pA -> span pA = None -> peers B !! a = Some pB ->
  mirrored (config pA) (config pB) -> length (personalization (config pA)) = 32%nat ->
  exists r, NonceSync.decodeNonceReport (respondToNonceGet (H := e) a B).1 = Some r /\
    ready a b (acceptNonceReport b r (nonceGet b A).2) (respondToNonceGet (H := e) a B).2 /\
    config (peerState (respondToNonceGet (H := e) a B).2 a) = config pB.
Proof.
  intros HA Hs HB Hm Hp. pose proof (respond_report e El a B pB HB) as Hr. eexists. split; [exact Hr|].
  unfold respondToNonceGet. rewrite (peerState_lookup _ _ _ HB). cbn [snd]. split; [|by rewrite peerState_insert].
  do 3 eexists. split_and!; [by eapply requested_peer|done|reflexivity|apply lookup_insert_eq|done..].
Qed.

End Channel.

Section Inclusion.
Context `{O : Oob} `{L : S2CryptoLaws} `{E : Ecdh}.
Context (eTemp eClass eNode eNodeClass : nat -> list Z).
Context (LT : EntropyLaws (H := eTemp)) (LC : EntropyLaws (H := eClass)).
Context (LN : EntropyLaws (H := eNode)) (LNC : EntropyLaws (H := eNodeClass)).
Context (keys : list (list Z)) (n c : Z) (home nodePrivate nodePublic : list Z) (rep : Kex.Report) (ccs : list Z).

Abbreviation gr := (granted rep).
Abbreviation tempConfig st s := (peerConfig st n (KeyDerivation.t_keyCcm (tempKeys s))
                                  (KeyDerivation.t_personalization (tempKeys s))).

(** What the controller does with a frame is what [openFrame] does. *)
Lemma decryptInbound_open s f st :
  SpanManager.config (SpanManager.peerState (spanManager st) n) = tempConfig st s ->
  decryptInbound n s f st = ((openFrame n f (spanManager st)).1, setSpan (openFrame n f (spanManager st)).2 st).
Proof.
  intros Hc. unfold decryptInbound, openFrame. rewrite Hc.
  by destruct (SpanManager.receiveNonce n f (spanManager st)) as [[nonce|] m].
Qed.

(** The temporary channel is up on both ends, for session [s]. *)
Definition up (s : Session) (N : SpanManager.t) (st : State) : Prop :=
  sessions st !! n = Some s /\ grantedKeys s = gr /\ identity st = mkIdentity home c /\
  SpanManager.config (SpanManager.peerState (spanManager st) n) = tempConfig st s /\
  linked n c N (spanManager st).

Lemma say_up s N st inner :
  up s N st -> zlen inner < 65536 ->
  exists f N' m', SpanManager.encrypt (H := eNode) c inner N = (Some f, N') /\
    NonceSync.commandByte f = Some Encap.CMD_ENCAP /\
    decryptInbound n s f st = (Some inner, setSpan m' st) /\ up s N' (setSpan m' st) /\ synced n c N' m'.
Proof.
  intros (Hs&Hg&Hi&Hc&Hl) Hz.
  destruct (deliver_linked eNode LN n c inner N (spanManager st) Hl Hz) as (f&N'&m'&He&Ho&Hsy&Hcfg).
  exists f, N', m'. split_and!; [done|by eapply encrypt_command|by rewrite decryptInbound_open, Ho| |done].
  split_and!; try done; [|by right]. cbn. by rewrite Hcfg.
Qed.

Lemma reply_up s N st inner :
  up s N st -> synced n c N (spanManager st) -> zlen inner < 65536 ->
  exists f N' m', sendEncrypted eTemp n inner st = ([SendData n f], setSpan m' st) /\
    hear c [SendData n f] N = Some (inner, N') /\ up s N' (setSpan m' st) /\ synced n c N' m'.
Proof.
  intros (Hs&Hg&Hi&Hc&Hl) Hsy Hz.
  destruct (deliver_linked eTemp LT c n inner (spanManager st) N) as (f&m'&N'&He&Ho&Hsy'&_);
    [by right; apply synced_sym|done|].
  exists f, N', m'. unfold sendEncrypted, hear. rewrite He. cbn. rewrite Ho.
  apply synced_sym in Hsy'. split_and!; try done. split_and!; try done; [|by right].
  cbn. pose proof (encrypt_config (H0 := eTemp) n inner (spanManager st)) as Hcfg. rewrite He in Hcfg.
  cbn in Hcfg. by rewrite Hcfg.
Qed.

Lemma up_session s s' N st :
  up s N st -> tempKeys s' = tempKeys s -> grantedKeys s' = grantedKeys s -> up s' N (setSession n s' st).
Proof.
  intros (Hs&Hg&Hi&Hc&Hl) Ht Hgr. split_and!; cbn; try done.
  - apply lookup_insert_eq.
  - by rewrite Hgr.
  - by rewrite Ht.
Qed.

Lemma up_classSpan s N st m : up s N st -> up s N (setClassSpan m st).
Proof. done. Qed.

(** A command on the temporary channel is handled by the handler of the phase. *)
Lemma ctl_command s st f cmd :
  sessions st !! n = Some s -> NonceSync.commandByte f = Some cmd ->
  ctl eTemp eClass (Some keys) (AppCommand n f) st =
    match phase s with
    | AwaitKexReport => if cmd =? Kex.KEX_REPORT then onKexReport n s f st else ([], st)
    | AwaitPublicKey => if cmd =? PublicKey.PUBLIC_KEY_REPORT then onPublicKeyReport n s f st else ([], st)
    | AwaitDsk => ([], st)
    | AwaitTempChannel => if cmd =? NonceSync.NONCE_GET then answerTempNonce eTemp n s st else ([], st)
    | AwaitKexSetEcho => if cmd =? Encap.CMD_ENCAP then onKexSetEcho eTemp n s f st else ([], st)
    | AwaitNetworkKeyGet =>
        if cmd =? Encap.CMD_ENCAP then onTempChannelKeyExchange eTemp (Some keys) n s f st else ([], st)
    | AwaitClassNonceGet => if cmd =? NonceSync.NONCE_GET then answerClassNonce eClass n s st else ([], st)
    | AwaitKeyVerify => if cmd =? Encap.CMD_ENCAP then onKeyVerify eTemp n s f st else ([], st)
    end.
Proof. intros Hs Hf. unfold ctl. cbn [step]. unfold onApplicationCommand. by rewrite Hs, Hf. Qed.

Definition echoReport : Kex.Report :=
  Kex.mkReport true (Kex.r_requestCsa rep) (Kex.supportedSchemes rep) (Kex.supportedCurves rep) (Kex.requestedKeys rep).

(** The echo of the grant is answered by the echo of the announcement. *)
Lemma echo_up s N st :
  up s N st -> phase s = AwaitKexSetEcho -> receivedKexReport s = rep ->
  sentKexSet s = Kex.mkSet false false Kex.KEX_SCHEME_1 Kex.ECDH_CURVE25519 gr ->
  exists acts N1 N2 st', say eTemp eClass eNode (Some keys) n c
      (Kex.encodeSet (Kex.mkSet true false Kex.KEX_SCHEME_1 Kex.ECDH_CURVE25519 gr)) N st = Some (acts, N1, st') /\
    hear c acts N1 = Some (Kex.encodeReport echoReport, N2) /\
    up (withPhase AwaitNetworkKeyGet s) N2 st' /\ synced n c N2 (spanManager st').
Proof.
  intros Hup Hph Hrep Hset.
  destruct (say_up s N st (Kex.encodeSet (Kex.mkSet true false Kex.KEX_SCHEME_1 Kex.ECDH_CURVE25519 gr)) Hup)
    as (f&N1&m1&He&Hcmd&Hdec&Hup1&Hsy1); [done|].
  destruct (reply_up s N1 (setSpan m1 st) (Kex.encodeReport echoReport) Hup1 Hsy1)
    as (f2&N2&m2&Hsend&Hhear&Hup2&Hsy2); [done|].
  exists [SendData n f2], N1, N2. unfold say. rewrite He. cbn [mbind option_bind].
  rewrite (ctl_command s st f _ (proj1 Hup) Hcmd), Hph. change (_ =? _) with true. cbn iota.
  unfold onKexSetEcho. rewrite Hdec, Hset, Hrep. unfold echoMatches. cbn -[sendEncrypted].
  rewrite Z.eqb_refl. cbn [negb]. fold echoReport. rewrite Hsend.
  eexists. split_and!; [reflexivity|done| |done]. by apply (up_session s).
Qed.

Lemma keyReport_decode bit k :
  length k = 16%nat -> KeyInstall.decodeKeyReport (KeyInstall.encodeKeyReport bit k) = Some (KeyInstall.mkKeyReport bit k).
Proof.
  intros Hk. unfold KeyInstall.decodeKeyReport, KeyInstall.encodeKeyReport. cbn [app length]. rewrite Hk.
  cbn -[slice]. unfold slice. cbn [drop]. by rewrite drop_0, take_ge by lia.
Qed.

(** The key of a granted class is handed over on request. *)
Lemma keyGet_up s N st bit k :
  up s N st -> phase s = AwaitNetworkKeyGet -> Z.land bit gr <> 0 ->
  classKeyForBit (Some keys) bit = Some k -> length k = 16%nat ->
  exists acts N1 N2 st' s', say eTemp eClass eNode (Some keys) n c (KeyInstall.encodeKeyGet bit) N st = Some (acts, N1, st') /\
    hear c acts N1 = Some (KeyInstall.encodeKeyReport bit k, N2) /\
    up s' N2 st' /\ phase s' = AwaitClassNonceGet /\
    installingClassKeys s' = KeyDerivation.networkKeyExpand k /\ synced n c N2 (spanManager st').
Proof.
  intros Hup Hph Hb Hk Hlen.
  destruct (say_up s N st (KeyInstall.encodeKeyGet bit) Hup) as (f&N1&m1&He&Hcmd&Hdec&Hup1&Hsy1); [done|].
  destruct (reply_up s N1 (setSpan m1 st) (KeyInstall.encodeKeyReport bit k) Hup1 Hsy1)
    as (f2&N2&m2&Hsend&Hhear&Hup2&Hsy2); [unfold KeyInstall.encodeKeyReport; rewrite length_app, Hlen; done|].
  exists [SendData n f2], N1, N2. unfold say. rewrite He. cbn [mbind option_bind].
  rewrite (ctl_command s st f _ (proj1 Hup) Hcmd), Hph. change (_ =? _) with true. cbn iota.
  unfold onTempChannelKeyExchange. rewrite Hdec. cbn -[sendEncrypted classKeyForBit Z.land KeyInstall.encodeKeyReport].
  rewrite (proj1 (proj2 Hup)). destruct (Z.eqb_spec (Z.land bit gr) 0); [done|].
  rewrite Hk, Hsend. eexists _, (mkSession AwaitClassNonceGet (privateKey s) (publicKey s) gr
    (nodePublicKey s) (tempKeys s) (sentKexSet s) (receivedKexReport s) bit (KeyDerivation.networkKeyExpand k)).
  split_and!; [reflexivity|done| |done..].
  apply (up_session s); [done..|]. symmetry. apply Hup.
Qed.

Lemma synchronise_spec N0 st report st' r :
  ctl eTemp eClass (Some keys) (AppCommand n (SpanManager.nonceGet c N0).1) st = ([SendData n report], st') ->
  NonceSync.decodeNonceReport report = Some r ->
  synchronise eTemp eClass (Some keys) n c N0 st = Some (SpanManager.acceptNonceReport c r (SpanManager.nonceGet c N0).2, st').
Proof.
  intros Hc Hr. unfold synchronise. destruct (SpanManager.nonceGet c N0) as [get N1]. cbn [fst snd] in *.
  rewrite Hc. cbn. by rewrite Hr.
Qed.

(** On the class channel. *)
Lemma onKeyVerify_open s f st keyCcm pers :
  installingClassKeys s = keyCcm ->
  SpanManager.config (SpanManager.peerState (classSpanManager st) n) = peerConfig st n (KeyDerivation.keyCcm keyCcm) pers ->
  forall inner m, openFrame n f (classSpanManager st) = (Some inner, m) ->
  onKeyVerify eTemp n s f st =
    let (acts, st') := sendEncrypted eTemp n (KeyInstall.encodeTransferEnd true false) (setClassSpan m st) in
    (acts, setSession n (withPhase AwaitNetworkKeyGet s) st').
Proof.
  intros <- Hc inner m. unfold openFrame, onKeyVerify. rewrite Hc.
  destruct (SpanManager.receiveNonce n f (classSpanManager st)) as [[nonce|] m']; [|done].
  intros [= Hd <-]. unfold encapContext. cbn [identity setClassSpan]. cbn in Hd. by rewrite Hd.
Qed.

(** The channel for a class key, from the NONCE_GET on. *)
Lemma classChannel_ready s N st k :
  up s N st -> phase s = AwaitClassNonceGet -> installingClassKeys s = KeyDerivation.networkKeyExpand k ->
  exists M st', synchronise eTemp eClass (Some keys) n c
      (channel n c home (KeyDerivation.keyCcm (KeyDerivation.networkKeyExpand k))
         (KeyDerivation.personalization (KeyDerivation.networkKeyExpand k))) st = Some (M, st') /\
    ready n c M (classSpanManager st') /\ up (withPhase AwaitKeyVerify s) N st' /\
    spanManager st' = spanManager st /\
    SpanManager.config (SpanManager.peerState (classSpanManager st') n) =
      peerConfig st' n (KeyDerivation.keyCcm (KeyDerivation.networkKeyExpand k))
        (KeyDerivation.personalization (KeyDerivation.networkKeyExpand k)).
Proof.
  intros Hup Hph Hk. set (d := KeyDerivation.networkKeyExpand k) in *.
  pose proof (proj2 (networkKeyExpand_lengths k)) as Hlen. fold d in Hlen.
  set (m0 := SpanManager.configurePeer n
             (peerConfig st n (KeyDerivation.keyCcm d) (KeyDerivation.personalization d))
             (SpanManager.mk ∅ (SpanManager.draws (classSpanManager st)))).
  destruct (exchange_ready eClass LC n c (channel n c home (KeyDerivation.keyCcm d) (KeyDerivation.personalization d)) m0
    _ _ (lookup_insert_eq _ _ _) eq_refl (lookup_insert_eq _ _ _)) as (r&Hr&Hready&Hcfg).
  { unfold peerConfig. rewrite (proj1 (proj2 (proj2 Hup))). by split_and!. }
  { done. }
  destruct (SpanManager.respondToNonceGet n m0) as [report m1] eqn:Em. cbn [fst snd] in *.
  do 2 eexists. split_and!.
  - eapply synchronise_spec; [|exact Hr].
    erewrite ctl_command; [|apply Hup|reflexivity]. rewrite Hph. change (_ =? _) with true. cbn iota.
    unfold answerClassNonce. rewrite Hk. fold m0. by rewrite Em.
  - done.
  - by apply (up_session s).
  - done.
  - cbn. by rewrite Hcfg.
Qed.

(** A granted class from request to verification. *)
Lemma install_up s N st bit k :
  up s N st -> phase s = AwaitNetworkKeyGet -> Z.land bit gr <> 0 ->
  classKeyForBit (Some keys) bit = Some k -> length k = 16%nat ->
  exists N' st' s', install eTemp eClass eNode eNodeClass (Some keys) n c home bit N st = Some (k, N', st') /\
    up s' N' st' /\ phase s' = AwaitNetworkKeyGet /\ synced n c N' (spanManager st').
Proof.
  intros Hup Hph Hb Hk Hlen.
  destruct (keyGet_up s N st bit k Hup Hph Hb Hk Hlen) as (acts&N1&N2&st2&s2&Hsay&Hhear&Hup2&Hph2&Hkeys&Hsy2).
  destruct (classChannel_ready s2 N2 st2 k Hup2 Hph2 Hkeys) as (M&st3&Hsync&Hready&Hup3&Hsp&Hcfg).
  destruct (deliver_linked eNodeClass LNC n c KeyInstall.encodeKeyVerify M (classSpanManager st3))
    as (f&M'&m4&He&Ho&_); [by left|done|].
  destruct (reply_up (withPhase AwaitKeyVerify s2) N2 (setClassSpan m4 st3) (KeyInstall.encodeTransferEnd true false))
    as (f5&N5&m5&Hsend&Hhear5&Hup5&Hsy5); [done|cbn; by rewrite Hsp|done|].
  eexists _, _, (withPhase AwaitNetworkKeyGet s2).
  unfold install. rewrite Hsay. cbn [mbind option_bind]. rewrite Hhear. cbn [mbind option_bind].
  rewrite keyReport_decode by done. cbn [mbind option_bind KeyInstall.key].
  rewrite Hsync. cbn [mbind option_bind]. rewrite He. cbn [mbind option_bind].
  rewrite (ctl_command _ st3 f _ (proj1 Hup3) (encrypt_command (H0 := eNodeClass) _ _ _ _ _ He)).
  cbn [phase withPhase]. change (_ =? _) with true. cbn iota.
  rewrite (onKeyVerify_open (withPhase AwaitKeyVerify s2) f st3 _ _ Hkeys Hcfg _ _ Ho), Hsend.
  rewrite Hhear5. cbn. split_and!; [reflexivity|by apply (up_session (withPhase AwaitKeyVerify s2))|done|done].
Qed.

Lemma installAll_up bits s N st :
  up s N st -> phase s = AwaitNetworkKeyGet ->
  synced n c N (spanManager st) ->
  Forall (fun bit => Z.land bit gr <> 0 /\ exists k, classKeyForBit (Some keys) bit = Some k /\ length k = 16%nat) bits ->
  exists ks N' st' s', installAll eTemp eClass eNode eNodeClass (Some keys) n c home bits N st = Some (ks, N', st') /\
    Some <$> ks = classKeyForBit (Some keys) <$> bits /\ up s' N' st' /\ phase s' = AwaitNetworkKeyGet.
Proof.
  intros Hup Hph Hsy Hb. revert s N st Hup Hph Hsy.
  induction Hb as [|bit bits [Hg (k&Hk&Hlen)] Hb IH]; intros s N st Hup Hph Hsy.
  - exists [], N, st, s. by split_and!.
  - destruct (install_up s N st bit k Hup Hph Hg Hk Hlen) as (N1&st1&s1&Hi&Hup1&Hph1&Hsy1).
    destruct (IH s1 N1 st1 Hup1 Hph1 Hsy1) as (ks&N2&st2&s2&Ha&Hks&Hup2&Hph2).
    exists (k :: ks), N2, st2, s2. cbn -[install]. rewrite Hi. cbn. rewrite Ha. cbn. rewrite Hk. split_and!; try done.
    by rewrite <-Hks.
Qed.

(** The last command of the node. *)
Lemma complete_up s N st :
  up s N st -> phase s = AwaitNetworkKeyGet ->
  exists N' st', say eTemp eClass eNode (Some keys) n c (KeyInstall.encodeTransferEnd false true) N st
    = Some ([SetSecurityScheme n (schemeFor gr); NodeSecurityStatus n (schemeFor gr)], N', st') /\
    sessions st' !! n = None.
Proof.
  intros Hup Hph.
  destruct (say_up s N st (KeyInstall.encodeTransferEnd false true) Hup) as (f&N1&m1&He&Hcmd&Hdec&Hup1&Hsy1); [done|].
  unfold say. rewrite He. cbn [mbind option_bind].
  rewrite (ctl_command s st f _ (proj1 Hup) Hcmd), Hph. change (_ =? _) with true. cbn iota.
  unfold onTempChannelKeyExchange. rewrite Hdec. unfold completeBootstrap. rewrite (proj1 (proj2 Hup)).
  do 2 eexists. split; [reflexivity|]. apply lookup_delete_eq.
Qed.

(** *** Key agreement *)

(** The session once both public keys are known and the temporary keys derived. *)
Definition agreedSession (cs cp shared : list Z) : Session :=
  let fresh := freshSession (cs, cp) in
  mkSession AwaitTempChannel cs cp gr nodePublic (KeyDerivation.deriveTempKeys shared cp nodePublic)
    (Kex.mkSet false false Kex.KEX_SCHEME_1 Kex.ECDH_CURVE25519 gr) rep (installingKeyBit fresh) (installingClassKeys fresh).

(** Waiting for the public key. *)
Definition grantedSession (cs cp : list Z) : Session :=
  let fresh := freshSession (cs, cp) in
  mkSession AwaitPublicKey cs cp gr (nodePublicKey fresh) (tempKeys fresh)
    (Kex.mkSet false false Kex.KEX_SCHEME_1 Kex.ECDH_CURVE25519 gr) rep (installingKeyBit fresh) (installingClassKeys fresh).

Lemma kexReport_decode : Kex.decodeReport (Kex.encodeReport rep) = Some rep.
Proof. destruct rep as [[] [] ? ? ?]; reflexivity. Qed.

Lemma finish_agreed cs cp shared st s :
  ecdh cs nodePublic = Some shared -> identity st = mkIdentity home c ->
  withPhase AwaitPublicKey s = withNodeKey nodePublic (grantedSession cs cp) ->
  exists st', finishKeyAgreement n s st = ([S2KeyAgreementComplete n], st') /\
    sessions st' !! n = Some (agreedSession cs cp shared) /\ identity st' = mkIdentity home c /\
    SpanManager.config (SpanManager.peerState (spanManager st') n) = tempConfig st' (agreedSession cs cp shared) /\
    is_Some (SpanManager.peers (spanManager st') !! n).
Proof.
  intros He Hi Hs. destruct s as [ph pk1 pk2 g npk tk sk rk ib ik]. injection Hs as -> -> -> -> -> -> -> -> ->.
  unfold finishKeyAgreement. cbn [privateKey nodePublicKey publicKey]. rewrite He. eexists. split; [reflexivity|].
  cbn [sessions setSpan setSession identity spanManager]. rewrite lookup_insert_eq.
  unfold SpanManager.configurePeer. split_and!; try done.
  - by rewrite peerState_setPeer.
  - cbn. rewrite lookup_insert_eq. eauto.
Qed.

(** The operator's part, where the grant needs it. *)
Lemma publicKey_agreed cs cp shared st :
  length nodePublic = 32%nat -> bytes_ok nodePublic -> ecdh cs nodePublic = Some shared ->
  identity st = mkIdentity home c -> sessions st !! n = Some (grantedSession cs cp) ->
  exists acts st1 st2,
    ctl eTemp eClass (Some keys) (AppCommand n (PublicKey.encode false nodePublic
      (if needsDsk rep then PublicKey.OBFUSCATE_DSK else PublicKey.OBFUSCATE_NONE))) st = (acts, st1) /\
    firstFrame acts = Some (PublicKey.encode true cp PublicKey.OBFUSCATE_NONE) /\
    (if needsDsk rep then ctl eTemp eClass (Some keys) (ConfirmDsk n (PublicKey.dskPin nodePublic)) st1 else ([], st1)).2 = st2 /\
    sessions st2 !! n = Some (agreedSession cs cp shared) /\ identity st2 = mkIdentity home c /\
    SpanManager.config (SpanManager.peerState (spanManager st2) n) = tempConfig st2 (agreedSession cs cp shared) /\
    is_Some (SpanManager.peers (spanManager st2) !! n).
Proof.
  intros Hl Hb He Hi Hs. destruct (dsk_pin_applied O nodePublic Hl Hb) as [Hpin Happ].
  unfold ctl. cbn [step]. unfold onApplicationCommand. rewrite Hs.
  change (NonceSync.commandByte _) with (Some PublicKey.PUBLIC_KEY_REPORT).
  cbn [phase grantedSession]. rewrite Z.eqb_refl. unfold onPublicKeyReport.
  rewrite publicKey_decode by (try done; destruct (needsDsk rep); unfold PublicKey.OBFUSCATE_DSK, PublicKey.OBFUSCATE_NONE; lia).
  cbn [grantedKeys withNodeKey grantedSession PublicKey.key publicKey]. fold (needsDsk rep).
  destruct (needsDsk rep).
  - do 3 eexists. do 3 (split; [reflexivity|]). unfold onConfirmDsk. cbn [sessions setSession].
    rewrite lookup_insert_eq. cbn [phase withPhase]. rewrite bool_decide_eq_true_2 by done. cbn [negb].
    rewrite Hpin. cbn [nodePublicKey withPhase withNodeKey]. unfold PublicKey.OBFUSCATE_DSK. rewrite Happ.
    match goal with |- context [ finishKeyAgreement n ?s' ?st' ] =>
      destruct (finish_agreed cs cp shared st' s' He Hi eq_refl) as (st2&->&?&?&?&?) end. done.
  - rewrite drop_0. cbn [replicate app].
    match goal with |- context [ finishKeyAgreement n ?s' ?st' ] =>
      destruct (finish_agreed cs cp shared st' s' He Hi eq_refl) as (st2&->&?&?&?&?) end.
    do 3 eexists. by do 3 (split; [reflexivity|]).
Qed.

Lemma agree_spec cs cp shared st :
  keysReady st = true -> NonceSync.COMMAND_CLASS ∈ ccs -> identity st = mkIdentity home c -> gr <> 0 ->
  generateKeyPair (keyPairs st) = (cs, cp) -> length cp = 32%nat ->
  length nodePublic = 32%nat -> bytes_ok nodePublic ->
  ecdh cs nodePublic = Some shared -> ecdh nodePrivate cp = Some shared ->
  exists st', agree eTemp eClass (Some keys) n nodePrivate nodePublic rep ccs st
      = Some (KeyDerivation.deriveTempKeys shared cp nodePublic, st') /\
    sessions st' !! n = Some (agreedSession cs cp shared) /\ identity st' = mkIdentity home c /\
    SpanManager.config (SpanManager.peerState (spanManager st') n) = tempConfig st' (agreedSession cs cp shared) /\
    is_Some (SpanManager.peers (spanManager st') !! n).
Proof.
  intros Hk Hcc Hi Hg Hgen Hcp Hl Hb He1 He2. unfold agree, ctl at 1. cbn [step]. unfold onNodeIncluded.
  rewrite bool_decide_eq_true_2, Hk, Hgen by done. cbn [negb].
  set (st1 := mkState _ _ _ _ _ _).
  assert (H1 : sessions st1 !! n = Some (freshSession (cs, cp))) by apply lookup_insert_eq.
  erewrite ctl_command; [|exact H1|reflexivity]. cbn [phase freshSession]. change (_ =? _) with true. cbn iota.
  unfold onKexReport. rewrite kexReport_decode. fold gr. destruct (Z.eqb_spec gr 0); [done|].
  set (st2 := setSession n _ st1).
  destruct (publicKey_agreed cs cp shared st2) as (acts&st3&st4&->&Hf&Hst4&?&?&?&?);
    [done..|apply lookup_insert_eq|].
  destruct (if needsDsk rep then _ else _) as [acts' st4'] in *. cbn [snd] in Hst4. subst st4'.
  exists st4. rewrite Hf. cbn [mbind option_bind]. rewrite publicKey_decode by (unfold PublicKey.OBFUSCATE_NONE; lia).
  change PublicKey.OBFUSCATE_NONE with 0%nat. cbn [mbind option_bind PublicKey.key replicate app]. rewrite drop_0.
  by rewrite He2.
Qed.

(** The nonce exchange that brings the temporary channel up. *)
Lemma tempChannel_up cs cp shared st :
  sessions st !! n = Some (agreedSession cs cp shared) -> identity st = mkIdentity home c ->
  SpanManager.config (SpanManager.peerState (spanManager st) n) = tempConfig st (agreedSession cs cp shared) ->
  is_Some (SpanManager.peers (spanManager st) !! n) ->
  exists N st', synchronise eTemp eClass (Some keys) n c
      (channel n c home (KeyDerivation.t_keyCcm (KeyDerivation.deriveTempKeys shared cp nodePublic))
         (KeyDerivation.t_personalization (KeyDerivation.deriveTempKeys shared cp nodePublic))) st = Some (N, st') /\
    up (withPhase AwaitKexSetEcho (agreedSession cs cp shared)) N st'.
Proof.
  intros Hs Hi Hc [pB HB]. rewrite (peerState_lookup _ _ _ HB) in Hc.
  destruct (exchange_ready eTemp LT n c
    (channel n c home (KeyDerivation.t_keyCcm (KeyDerivation.deriveTempKeys shared cp nodePublic))
         (KeyDerivation.t_personalization (KeyDerivation.deriveTempKeys shared cp nodePublic)))
    (spanManager st) _ pB (lookup_insert_eq _ _ _) eq_refl HB) as (r&Hr&Hready&Hcfg).
  { rewrite Hc. unfold peerConfig. rewrite Hi. by split_and!. }
  { cbn [SpanManager.config SpanManager.personalization]. apply tempExpand_length. }
  destruct (SpanManager.respondToNonceGet n (spanManager st)) as [report m1] eqn:Em. cbn [fst snd] in *.
  do 2 eexists. split.
  - eapply synchronise_spec; [|exact Hr]. erewrite ctl_command; [|exact Hs|reflexivity].
    cbn [phase agreedSession]. change (_ =? _) with true. cbn iota. unfold answerTempNonce. by rewrite Em.
  - split_and!; [apply lookup_insert_eq|done|done|cbn; by rewrite Hcfg, Hc|by left].
Qed.

(** C4: a node that follows the protocol completes its inclusion.  With the class
    keys loaded, at least one class granted and Diffie-Hellman agreeing on both
    ends, the whole exchange runs through for any sequence of granted classes the
    node asks for: it ends up holding exactly the controller's keys of those
    classes, and the controller marks it with the highest class granted and
    closes the session. *)
Theorem inclusion_completes cs cp shared bits st :
  keysReady st = true -> NonceSync.COMMAND_CLASS ∈ ccs -> identity st = mkIdentity home c -> gr <> 0 ->
  generateKeyPair (keyPairs st) = (cs, cp) -> length cp = 32%nat ->
  length nodePublic = 32%nat -> bytes_ok nodePublic ->
  ecdh cs nodePublic = Some shared -> ecdh nodePrivate cp = Some shared ->
  Forall (fun bit => Z.land bit gr <> 0 /\ exists k, classKeyForBit (Some keys) bit = Some k /\ length k = 16%nat) bits ->
  exists ks st', inclusion eTemp eClass eNode eNodeClass (Some keys) n c home nodePrivate nodePublic rep ccs bits st
      = Some (ks, [SetSecurityScheme n (schemeFor gr); NodeSecurityStatus n (schemeFor gr)], st') /\
    Some <$> ks = classKeyForBit (Some keys) <$> bits /\ sessions st' !! n = None.
Proof.
  intros Hk Hcc Hi Hg Hgen Hcp Hl Hb He1 He2 Hbits.
  destruct (agree_spec cs cp shared st) as (st1&Ha&Hs1&Hi1&Hc1&Hp1); [done..|].
  destruct (tempChannel_up cs cp shared st1 Hs1 Hi1 Hc1 Hp1) as (N1&st2&Hsync&Hup1).
  destruct (echo_up _ N1 st2 Hup1) as (acts&N2&N3&st3&Hsay&Hhear&Hup3&Hsy3); [done..|].
  destruct (installAll_up bits _ N3 st3 Hup3) as (ks&N4&st4&s4&Hinst&Hks&Hup4&Hph4); [done..|].
  destruct (complete_up s4 N4 st4 Hup4 Hph4) as (N5&st5&Hend&Hnone).
  exists ks, st5. split_and!; [|done..]. unfold inclusion. rewrite Ha. cbn [mbind option_bind].
  rewrite Hsync. cbn [mbind option_bind]. rewrite Hsay. cbn [mbind option_bind]. rewrite Hhear. cbn [mbind option_bind].
  replace (Kex.decodeReport _) with (Some echoReport)
    by (unfold echoReport; by destruct rep as [[] [] ? ? ?]).
  cbn [mbind option_bind]. rewrite bool_decide_eq_true_2 by done. cbn [negb].
  rewrite Hinst. cbn [mbind option_bind]. by rewrite Hend.
Qed.

End Inclusion.

Lemma inclusion_completes_witness :
  let st := (ToyRun.step (S2NetworkKeysReady true) init).2 in
  exists ks st', inclusion (O := ToyRun.o) (C := Toy.crypto) (E := ToyRun.toyEcdh) toyEntropy toyEntropy toyEntropy toyEntropy
      (Some toyKeys) 9 0 [0; 0; 0; 0] (replicate 32 55) ToyRun.nodeKey (Kex.mkReport false false 2 1 0x83) [0x25; 0x9F]
      [2; 1] st
      = Some (ks, [SetSecurityScheme 9 3; NodeSecurityStatus 9 3], st') /\
    Some <$> ks = classKeyForBit (Some toyKeys) <$> [2; 1] /\ sessions st' !! 9 = None.
Proof.
  intros st.
  apply (inclusion_completes (O := ToyRun.o) (L := Toy.laws) (E := ToyRun.toyEcdh) toyEntropy toyEntropy toyEntropy toyEntropy
    toyEntropy_laws toyEntropy_laws toyEntropy_laws toyEntropy_laws toyKeys 9 0 [0; 0; 0; 0] (replicate 32 55)
    ToyRun.nodeKey (Kex.mkReport false false 2 1 0x83) [0x25; 0x9F] (replicate 32 0) (replicate 32 100) (replicate 32 7)
    [2; 1] st).
  - reflexivity.
  - apply (bool_decide_unpack _). vm_compute. exact I.
  - reflexivity.
  - vm_compute. discriminate.
  - reflexivity.
  - reflexivity.
  - reflexivity.
  - apply (bool_decide_unpack _). vm_compute. exact I.
  - reflexivity.
  - reflexivity.
  - repeat constructor; try (vm_compute; discriminate); eexists; (split; reflexivity).
Defined.
