(* ===== verification/S2Primitives.v ===== *)
(** * Security S2: the cryptographic primitives over OpenSSL

    [zwave-protocol/security/s2/Crypto.cpp]: AES-CCM, CMAC, the block cipher and the
    X25519 exchange as sequences of calls of OpenSSL, each of which may fail.  The
    library is the class [Evp], with a state [W] of its own; what its manual says of the
    calls is [EvpLaws], in terms of a view of its contexts and of the functions the rest
    of the development uses ([S2Crypto], [Ecdh]).  Contexts are freed when the functions
    return or throw, which has no effect here. *)

From Stdlib Require Import String.
From S2P Require Import Prelude S2Codec S2Bootstrap.
#[local] Open Scope Z_scope.

Module Primitives.

(** ** The library *)

Inductive Cipher := AesCcm | AesEcb.

(** A call gives its result, [None] when it did not return 1 (or a pointer). *)
Class Evp (W : Type) := {
  Ctx : Type; MacCtx : Type; PKey : Type; PKeyCtx : Type;
  ctx_new : W -> option Ctx * W;
  (* [EVP_EncryptInit_ex], [EVP_DecryptInit_ex]: cipher, key, nonce, each possibly null *)
  init : bool -> Ctx -> option Cipher -> option (list Z) -> option (list Z) -> W -> option Ctx * W;
  (* [EVP_CIPHER_CTX_ctrl] with [SET_IVLEN], [SET_TAG] and [GET_TAG] *)
  set_ivlen : Ctx -> nat -> W -> option Ctx * W;
  set_tag : Ctx -> nat -> option (list Z) -> W -> option Ctx * W;
  get_tag : Ctx -> nat -> W -> option (list Z) * W;
  set_padding : Ctx -> bool -> W -> Ctx * W;
  (* [EVP_EncryptUpdate], [EVP_DecryptUpdate]: whether [out] is null, the input if it is
     not, the length; gives the bytes written *)
  update : Ctx -> bool -> option (list Z) -> nat -> W -> option (Ctx * list Z) * W;
  final : Ctx -> W -> option Ctx * W;
  mac_fetch : W -> option unit * W;
  mac_ctx_new : W -> option MacCtx * W;
  mac_init : MacCtx -> list Z -> W -> option MacCtx * W;
  mac_update : MacCtx -> list Z -> W -> option MacCtx * W;
  mac_final : MacCtx -> W -> option (list Z) * W;
  keygen_init : W -> option PKeyCtx * W;
  keygen : PKeyCtx -> W -> option PKey * W;
  raw_public : PKey -> W -> option (list Z) * W;
  raw_private : PKey -> W -> option (list Z) * W;
  new_raw_private : list Z -> W -> option PKey * W;
  new_raw_public : list Z -> W -> option PKey * W;
  pkey_ctx_new : PKey -> W -> option PKeyCtx * W;
  derive_init : PKeyCtx -> W -> option PKeyCtx * W;
  derive_set_peer : PKeyCtx -> PKey -> W -> option PKeyCtx * W;
  derive : PKeyCtx -> W -> option (list Z) * W;
  (* whether [data()] of an empty [std::vector] is null: left open by C++ *)
  emptyDataIsNull : bool
}.

(** ** Exceptions *)

Inductive Result (A : Type) := Throws (what : string) | Returns (a : A).
Arguments Throws {A} _.
Arguments Returns {A} _.

Section Wrappers.
Context {W : Type} `{Evp W}.

Definition M (A : Type) : Type := W -> Result A * W.

Definition ret {A} (a : A) : M A := fun w => (Returns a, w).
Definition bind {A B} (m : M A) (f : A -> M B) : M B := fun w =>
  match m w with
  | (Throws what, w) => (Throws what, w)
  | (Returns a, w) => f a w
  end.

(** A call whose failure is thrown; one whose failure is looked at; one without. *)
Definition call {A} (what : string) (f : W -> option A * W) : M A := fun w =>
  match f w with (Some a, w) => (Returns a, w) | (None, w) => (Throws what, w) end.
Definition attempt {A} (f : W -> option A * W) : M (option A) := fun w => let (r, w) := f w in (Returns r, w).
Definition plain {A} (f : W -> A * W) : M A := fun w => let (a, w) := f w in (Returns a, w).

#[local] Notation "'let!' x ':=' m 'in' k" := (bind m (fun x => k)) (at level 10, x pattern, k at level 200).

Definition CMAC_SIZE : nat := 16.
Definition BLOCK_SIZE : nat := 16.
Definition CURVE25519_KEY_SIZE : nat := 32.

(** A buffer after a call has written [bytes] from [off] on. *)
Definition place (off : nat) (bytes buffer : list Z) : list Z :=
  take off buffer ++ bytes ++ drop (off + length bytes) buffer.

Definition zeros (n : nat) : list Z := replicate n 0.

(** [EVP_CIPHER_CTX_new] to the call that gives key and nonce, for either direction. *)
Definition ccmStart (encrypting : bool) (what : string) (key nonce : list Z) (tagLength : nat)
    (tag : option (list Z)) : M Ctx :=
  let! ctx := call "EVP_CIPHER_CTX_new" ctx_new in
  let! ctx := call what (init encrypting ctx (Some AesCcm) None None) in
  let! ctx := call what (set_ivlen ctx (length nonce)) in
  let! ctx := call what (set_tag ctx tagLength tag) in
  call what (init encrypting ctx None (Some key) (Some nonce)).

(** The length first, then the associated data. *)
Definition ccmHeader (ctx : Ctx) (len : nat) (aad : list Z) : M Ctx :=
  let! (ctx, _) := call "CCM set length" (update ctx true None len) in
  if bool_decide (aad = []) then ret ctx else
  let! (ctx, _) := call "CCM aad" (update ctx true (Some aad) (length aad)) in ret ctx.

Definition ccmEncrypt (key nonce aad plaintext : list Z) (tagLength : nat) : M (list Z) :=
  let! ctx := ccmStart true "CCM encrypt init" key nonce tagLength None in
  let! ctx := ccmHeader ctx (length plaintext) aad in
  let out := zeros (length plaintext + tagLength) in
  let! (ctx, out) :=
    if bool_decide (plaintext = []) then ret (ctx, out) else
    let! (ctx, bytes) := call "CCM encrypt" (update ctx false (Some plaintext) (length plaintext)) in
    ret (ctx, place 0 bytes out) in
  let! ctx := call "CCM tag" (final ctx) in
  let! tag := call "CCM tag" (get_tag ctx tagLength) in
  ret (place (length plaintext) tag out).

Definition ccmDecrypt (key nonce aad ciphertextWithTag : list Z) (tagLength : nat) : M (option (list Z)) :=
  if (length ciphertextWithTag <? tagLength)%nat then ret None else
  let cipherLen := (length ciphertextWithTag - tagLength)%nat in
  let cipher := take cipherLen ciphertextWithTag in
  let tag := slice cipherLen tagLength ciphertextWithTag in
  let tagBuf := place 0 tag (zeros CMAC_SIZE) in
  let! ctx := ccmStart false "CCM decrypt init" key nonce tagLength (Some tagBuf) in
  let! ctx := ccmHeader ctx cipherLen aad in
  let out := zeros cipherLen in
  let! r := attempt (update ctx (bool_decide (out = []) && emptyDataIsNull) (Some cipher) cipherLen) in
  match r with
  | None => ret None
  | Some (_, bytes) => ret (Some (place 0 bytes out))
  end.

Definition cmac (key data : list Z) : M (list Z) :=
  let! _ := call "EVP_MAC_fetch CMAC" mac_fetch in
  let! ctx := call "EVP_MAC_CTX_new" mac_ctx_new in
  let! ctx := call "EVP_MAC_init" (mac_init ctx key) in
  let! ctx := if bool_decide (data = []) then ret ctx else call "EVP_MAC_update" (mac_update ctx data) in
  let! bytes := call "EVP_MAC_final" (mac_final ctx) in
  ret (place 0 bytes (zeros CMAC_SIZE)).

Definition aesEcbEncrypt (key input : list Z) : M (list Z) :=
  let! ctx := call "EVP_CIPHER_CTX_new" ctx_new in
  let! ctx := call "ECB init" (init true ctx (Some AesEcb) (Some key) None) in
  let! ctx := plain (set_padding ctx false) in
  let! (ctx, bytes) := call "ECB encrypt" (update ctx false (Some input) (length input)) in
  let! _ := call "ECB final" (final ctx) in
  ret (place 0 bytes (zeros BLOCK_SIZE)).

(** Public and private key. *)
Definition generateKeyPair : M (list Z * list Z) :=
  let! pctx := call "X25519 keygen init" keygen_init in
  let! pkey := call "X25519 keygen" (keygen pctx) in
  let! public := call "X25519 export public" (raw_public pkey) in
  let! private := call "X25519 export private" (raw_private pkey) in
  ret (place 0 public (zeros CURVE25519_KEY_SIZE), place 0 private (zeros CURVE25519_KEY_SIZE)).

Definition ecdh (ours theirs : list Z) : M (option (list Z)) :=
  let! priv := attempt (new_raw_private ours) in
  let! peer := attempt (new_raw_public theirs) in
  match priv, peer with
  | Some priv, Some peer =>
      let! ctx := attempt (pkey_ctx_new priv) in
      match ctx with
      | None => ret None
      | Some ctx =>
          let! ctx := attempt (derive_init ctx) in
          match ctx with
          | None => ret None
          | Some ctx =>
              let! ctx := attempt (derive_set_peer ctx peer) in
              match ctx with
              | None => ret None
              | Some ctx =>
                  let! secret := attempt (derive ctx) in
                  match secret with
                  | Some secret =>
                      if negb (length secret =? CURVE25519_KEY_SIZE)%nat then ret None else ret (Some secret)
                  | None => ret None
                  end
              end
          end
      end
  | _, _ => ret None
  end.

End Wrappers.
End Primitives.

(** * What the manual of the library says *)

Import Primitives.

(** What a cipher context has been told. *)
Record View := mkView {
  cipherOf : option Cipher; opening : bool; ivLength : nat; tagLengthOf : nat; expectedTag : list Z;
  keyOf : list Z; nonceOf : list Z; total : option nat; aadOf : list Z; textOf : list Z; padding : bool }.

Definition withIvLength (n : nat) (v : View) : View :=
  mkView (cipherOf v) (opening v) n (tagLengthOf v) (expectedTag v) (keyOf v) (nonceOf v) (total v) (aadOf v) (textOf v)
    (padding v).
Definition withTag (n : nat) (tag : list Z) (v : View) : View :=
  mkView (cipherOf v) (opening v) (ivLength v) n tag (keyOf v) (nonceOf v) (total v) (aadOf v) (textOf v) (padding v).
(** A key and a nonce start a new message. *)
Definition withKey (key nonce : list Z) (v : View) : View :=
  mkView (cipherOf v) (opening v) (ivLength v) (tagLengthOf v) (expectedTag v) key nonce None [] [] (padding v).
Definition withTotal (n : nat) (v : View) : View :=
  mkView (cipherOf v) (opening v) (ivLength v) (tagLengthOf v) (expectedTag v) (keyOf v) (nonceOf v) (Some n) (aadOf v)
    (textOf v) (padding v).
Definition withAad (aad : list Z) (v : View) : View :=
  mkView (cipherOf v) (opening v) (ivLength v) (tagLengthOf v) (expectedTag v) (keyOf v) (nonceOf v) (total v)
    (aadOf v ++ aad) (textOf v) (padding v).
Definition withText (text : list Z) (v : View) : View :=
  mkView (cipherOf v) (opening v) (ivLength v) (tagLengthOf v) (expectedTag v) (keyOf v) (nonceOf v) (total v)
    (aadOf v) text (padding v).
Definition withPadding (b : bool) (v : View) : View :=
  mkView (cipherOf v) (opening v) (ivLength v) (tagLengthOf v) (expectedTag v) (keyOf v) (nonceOf v) (total v)
    (aadOf v) (textOf v) b.

(** A call made as documented gives what is documented, and does not fail on a healthy
    library, which stays healthy, unless it [rejects] its arguments. *)
Definition documented {W A : Type} (healthy : W -> Prop) (f : W -> option A * W) (pre : Prop) (post : A -> Prop)
    (rejects : Prop) : Prop :=
  pre -> forall w,
    (forall a, (f w).1 = Some a -> post a) /\
    (healthy w -> healthy (f w).2 /\ ((f w).1 = None -> rejects)).

Section Views.
Context `{C : S2Crypto}.

(** AES-CCM of what the context was told. *)
Definition sealOf (v : View) (text : list Z) : list Z :=
  S2Codec.ccmEncrypt (keyOf v) (nonceOf v) (aadOf v) text (tagLengthOf v).
Definition openOf (v : View) (text : list Z) : option (list Z) :=
  S2Codec.ccmDecrypt (keyOf v) (nonceOf v) (aadOf v) (text ++ expectedTag v) (tagLengthOf v).
End Views.

(** The associated data and the total length are given with a null [out], the length
    also with a null input; the tag is verified by the call that decrypts. *)
Class EvpLaws (W : Type) `{E : Evp W} `{C : S2Crypto} `{D : Ecdh} := {
  healthy : W -> Prop;
  view : Ctx -> View;
  macView : MacCtx -> list Z * list Z;
  secretOf : PKey -> list Z;
  pointOf : PKey -> list Z;
  partiesOf : PKeyCtx -> list Z * option (list Z);
  publicOf : list Z -> list Z;
  new_doc : documented healthy ctx_new True (fun _ => True) False;
  init_doc enc ctx c : documented healthy (init enc ctx (Some c) None None) True
    (fun ctx' => cipherOf (view ctx') = Some c /\ opening (view ctx') = negb enc) False;
  ivlen_doc ctx n : documented healthy (set_ivlen ctx n) (cipherOf (view ctx) = Some AesCcm /\ (7 <= n <= 13)%nat)
    (fun ctx' => view ctx' = withIvLength n (view ctx)) False;
  tag_doc ctx n tag : documented healthy (set_tag ctx n tag)
    (cipherOf (view ctx) = Some AesCcm /\ (4 <= n <= 16)%nat /\ Nat.Even n /\
     (is_Some tag <-> opening (view ctx) = true))
    (fun ctx' => view ctx' = withTag n (take n (default [] tag)) (view ctx)) False;
  key_doc enc ctx key nonce : documented healthy (init enc ctx None (Some key) (Some nonce))
    (opening (view ctx) = negb enc /\ length key = 16%nat /\ length nonce = ivLength (view ctx))
    (fun ctx' => view ctx' = withKey key nonce (view ctx)) False;
  length_doc ctx n : documented healthy (update ctx true None n) (cipherOf (view ctx) = Some AesCcm)
    (fun r => view r.1 = withTotal n (view ctx)) False;
  aad_doc ctx aad : documented healthy (update ctx true (Some aad) (length aad))
    (cipherOf (view ctx) = Some AesCcm /\ is_Some (total (view ctx)))
    (fun r => view r.1 = withAad aad (view ctx) /\ r.2 = []) False;
  seal_doc ctx text : documented healthy (update ctx false (Some text) (length text))
    (cipherOf (view ctx) = Some AesCcm /\ opening (view ctx) = false /\ total (view ctx) = Some (length text))
    (fun r => view r.1 = withText text (view ctx) /\ r.2 = take (length text) (sealOf (view ctx) text)) False;
  open_doc ctx text : documented healthy (update ctx false (Some text) (length text))
    (cipherOf (view ctx) = Some AesCcm /\ opening (view ctx) = true /\ total (view ctx) = Some (length text))
    (fun r => openOf (view ctx) text = Some r.2) (openOf (view ctx) text = None);
  final_doc ctx : documented healthy (final ctx) True (fun ctx' => view ctx' = view ctx) False;
  get_tag_doc ctx n : documented healthy (get_tag ctx n)
    (cipherOf (view ctx) = Some AesCcm /\ opening (view ctx) = false /\ n = tagLengthOf (view ctx) /\
     total (view ctx) = Some (length (textOf (view ctx))))
    (fun tag => tag = drop (length (textOf (view ctx))) (sealOf (view ctx) (textOf (view ctx)))) False;
  ecb_doc ctx key : documented healthy (init true ctx (Some AesEcb) (Some key) None) (length key = 16%nat)
    (fun ctx' => cipherOf (view ctx') = Some AesEcb /\ opening (view ctx') = false /\ keyOf (view ctx') = key) False;
  padding_doc ctx b w : view (set_padding ctx b w).1 = withPadding b (view ctx) /\
    (healthy w -> healthy (set_padding ctx b w).2);
  block_doc ctx block : documented healthy (update ctx false (Some block) (length block))
    (cipherOf (view ctx) = Some AesEcb /\ opening (view ctx) = false /\ padding (view ctx) = false /\
     length block = 16%nat)
    (fun r => r.2 = S2Codec.aesEcbEncrypt (keyOf (view ctx)) block) False;
  mac_fetch_doc : documented healthy mac_fetch True (fun _ => True) False;
  mac_new_doc : documented healthy mac_ctx_new True (fun _ => True) False;
  mac_init_doc ctx key : documented healthy (mac_init ctx key) (length key = 16%nat)
    (fun ctx' => macView ctx' = (key, [])) False;
  mac_update_doc ctx data : documented healthy (mac_update ctx data) True
    (fun ctx' => macView ctx' = ((macView ctx).1, (macView ctx).2 ++ data)) False;
  mac_final_doc ctx : documented healthy (mac_final ctx) True
    (fun bytes => bytes = S2Codec.cmac (macView ctx).1 (macView ctx).2) False;
  keygen_init_doc : documented healthy keygen_init True (fun _ => True) False;
  keygen_doc ctx : documented healthy (keygen ctx) True
    (fun k => pointOf k = publicOf (secretOf k) /\ length (secretOf k) = 32%nat) False;
  publicOf_length s : length s = 32%nat -> length (publicOf s) = 32%nat;
  raw_public_doc k : documented healthy (raw_public k) True (fun b => b = pointOf k) False;
  raw_private_doc k : documented healthy (raw_private k) True (fun b => b = secretOf k) False;
  new_private_doc b : documented healthy (new_raw_private b) (length b = 32%nat) (fun k => secretOf k = b) False;
  new_public_doc b : documented healthy (new_raw_public b) (length b = 32%nat) (fun k => pointOf k = b) False;
  pkey_ctx_doc k : documented healthy (pkey_ctx_new k) True (fun ctx => partiesOf ctx = (secretOf k, None)) False;
  derive_init_doc ctx : documented healthy (derive_init ctx) True (fun ctx' => partiesOf ctx' = partiesOf ctx) False;
  peer_doc ctx k : documented healthy (derive_set_peer ctx k) True
    (fun ctx' => partiesOf ctx' = ((partiesOf ctx).1, Some (pointOf k))) False;
  derive_doc ctx ours theirs : documented healthy (derive ctx) (partiesOf ctx = (ours, Some theirs))
    (fun s => S2Bootstrap.ecdh ours theirs = Some s /\ length s = 32%nat) (S2Bootstrap.ecdh ours theirs = None)
}.

(** * Theorems *)

Section Meets.
Context {W : Type} `{L : EvpLaws W} `{CL : !S2CryptoLaws}.

(** What a function returns, if it returns; and, on a healthy library, that it does. *)
Definition meets {A} (assumeHealthy : bool) (m : M A) (Q : A -> Prop) : Prop :=
  forall w, (assumeHealthy = true -> healthy w) ->
    match (m w).1 with Returns a => Q a | Throws _ => assumeHealthy = false end /\
    (assumeHealthy = true -> healthy (m w).2).

Lemma meets_weaken {A} h (m : M A) (P Q : A -> Prop) : meets h m P -> (forall a, P a -> Q a) -> meets h m Q.
Proof. intros Hm HPQ w Hw. destruct (Hm w Hw) as [Hr Hh]. split; [|done]. destruct (m w).1; auto. Qed.

Lemma meets_ret {A} h (a : A) (Q : A -> Prop) : Q a -> meets h (ret a) Q.
Proof. intros Ha w Hw. split; [done|]. exact Hw. Qed.

Lemma meets_bind {A B} h (m : M A) (f : A -> M B) (P : A -> Prop) Q :
  meets h m P -> (forall a, P a -> meets h (f a) Q) -> meets h (bind m f) Q.
Proof.
  intros Hm Hf w Hw. destruct (Hm w Hw) as [Hr Hh]. unfold bind.
  destruct (m w) as [[what|a] w']; cbn [fst snd] in *; [done|]. by apply (Hf a Hr w').
Qed.

Lemma meets_call {A} h what (f : W -> option A * W) pre post :
  documented healthy f pre post False -> pre -> meets h (call what f) post.
Proof.
  intros Hd Hp w Hw. destruct (Hd Hp w) as [Hpost Hh]. unfold call.
  destruct (f w) as [[a|] w']; cbn [fst snd] in *.
  - split; [by apply Hpost|]. intros ->. by apply Hh, Hw.
  - destruct h; [|done]. by destruct (Hh (Hw eq_refl)) as [_ []].
Qed.

Lemma meets_attempt {A} h (f : W -> option A * W) pre post rejects :
  documented healthy f pre post rejects -> pre ->
  meets h (attempt f) (fun r => match r with Some a => post a | None => h = true -> rejects end).
Proof.
  intros Hd Hp w Hw. destruct (Hd Hp w) as [Hpost Hh]. unfold attempt.
  destruct (f w) as [[a|] w']; cbn [fst snd] in *.
  - split; [by apply Hpost|]. intros ->. by apply Hh, Hw.
  - split; intros ->; destruct (Hh (Hw eq_refl)) as [Hw' Hr]; auto.
Qed.

Lemma meets_plain {A} h (f : W -> A * W) (Q : A -> Prop) :
  (forall w, Q (f w).1 /\ (healthy w -> healthy (f w).2)) -> meets h (plain f) Q.
Proof.
  intros Hf w Hw. destruct (Hf w) as [HQ Hh]. unfold plain. destruct (f w) as [a w'].
  split; [done|]. intros ->. by apply Hh, Hw.
Qed.

(** ** AES-CCM *)

Lemma place_all bytes buffer : length bytes = length buffer -> place 0 bytes buffer = bytes.
Proof. intros Hl. unfold place. rewrite Nat.add_0_l, drop_ge by lia. by rewrite app_nil_r. Qed.

Lemma place_after bytes tag buffer :
  (length bytes + length tag = length buffer)%nat -> place (length bytes) tag (place 0 bytes buffer) = bytes ++ tag.
Proof.
  intros Hl. unfold place. rewrite take_0, Nat.add_0_l. cbn [app].
  rewrite take_app_length, drop_ge by (rewrite length_app, length_drop; lia). by rewrite app_nil_r.
Qed.

(** The context after the start: ready for a message under the key and the nonce. *)
Lemma start_meets h encrypting what key nonce n tag :
  length key = 16%nat -> (7 <= length nonce <= 13)%nat -> (4 <= n <= 16)%nat -> Nat.Even n ->
  (is_Some tag <-> encrypting = false) ->
  meets h (ccmStart encrypting what key nonce n tag) (fun ctx =>
    cipherOf (view ctx) = Some AesCcm /\ opening (view ctx) = negb encrypting /\ tagLengthOf (view ctx) = n /\
    expectedTag (view ctx) = take n (default [] tag) /\ keyOf (view ctx) = key /\ nonceOf (view ctx) = nonce /\
    aadOf (view ctx) = [] /\ textOf (view ctx) = []).
Proof.
  intros Hk Hn Ht He Htag. unfold ccmStart.
  eapply meets_bind; [by apply (meets_call _ _ _ _ _ new_doc)|intros c0 _].
  eapply meets_bind; [by apply (meets_call _ _ _ _ _ (init_doc _ _ _))|intros c1 (Hc & Ho)].
  eapply meets_bind; [by apply (meets_call _ _ _ _ _ (ivlen_doc _ _))|intros c2 H2].
  eapply meets_bind; [apply (meets_call _ _ _ _ _ (tag_doc _ _ _))|intros c3 H3].
  { rewrite H2. cbn. rewrite Ho. split_and!; [done|lia..|done|]. rewrite Htag. by destruct encrypting. }
  eapply meets_weaken; [apply (meets_call _ _ _ _ _ (key_doc _ _ _ _))|].
  { rewrite H3, H2. done. }
  intros c4 ->. rewrite H3, H2. done.
Qed.

Lemma header_meets h ctx len aad :
  cipherOf (view ctx) = Some AesCcm -> aadOf (view ctx) = [] ->
  meets h (ccmHeader ctx len aad) (fun ctx' => view ctx' = withAad aad (withTotal len (view ctx))).
Proof.
  intros Hc Ha. unfold ccmHeader.
  eapply meets_bind; [by apply (meets_call _ _ _ _ _ (length_doc _ _))|intros [c1 b1] H1]. cbn [fst] in H1.
  destruct (bool_decide (aad = [])) eqn:He.
  - apply bool_decide_eq_true in He as ->. apply meets_ret. rewrite H1. unfold withAad, withTotal. cbn. by rewrite Ha.
  - eapply meets_bind; [apply (meets_call _ _ _ _ _ (aad_doc _ _))|intros [c2 b2] [H2 _]].
    { rewrite H1. by split. }
    apply meets_ret. cbn [fst] in H2. by rewrite H2, H1.
Qed.

(** The sealing is the one of AES-CCM, whatever else the library does; on a healthy
    library it is returned. *)
Theorem ccmEncrypt_meets h key nonce aad plaintext :
  length key = 16%nat -> length nonce = 13%nat -> zlen plaintext < 65536 ->
  meets h (ccmEncrypt key nonce aad plaintext 8) (fun c => c = S2Codec.ccmEncrypt key nonce aad plaintext 8).
Proof.
  intros Hk Hn Hp. unfold ccmEncrypt.
  assert (Hlen : length (S2Codec.ccmEncrypt key nonce aad plaintext 8) = (length plaintext + 8)%nat) by (by apply ccm_length).
  eapply meets_bind; [apply start_meets; [done|lia..|by exists 4%nat|split; [by intros [? ?]|done]]|].
  intros c0 (Hc & Ho & Ht & _ & Hkey & Hnonce & Haad & Htext).
  eapply meets_bind; [by apply header_meets|]. intros c1 H1.
  set (sealed := S2Codec.ccmEncrypt key nonce aad plaintext 8) in *.
  assert (Hsealed : sealOf (view c1) plaintext = sealed).
  { rewrite H1. unfold sealOf. cbn. by rewrite Hkey, Hnonce, Haad, Ht. }
  eapply meets_bind with (P := fun r => view r.1 = withText plaintext (view c1) /\
    place (length plaintext) (drop (length plaintext) sealed) r.2 = sealed).
  { destruct (bool_decide (plaintext = [])) eqn:He.
    - apply bool_decide_eq_true in He as ->. apply meets_ret. cbn [fst snd length Nat.add drop]. split.
      + rewrite H1. unfold withText, withAad, withTotal. cbn. by rewrite Htext.
      + apply place_all. unfold zeros. by rewrite Hlen, length_replicate.
    - eapply meets_bind; [apply (meets_call _ _ _ _ _ (seal_doc _ _))|intros [c2 bytes] [H2 Hb]].
      { rewrite H1. done. }
      apply meets_ret. cbn [fst snd] in *. split; [done|]. rewrite Hb, Hsealed.
      assert (length (take (length plaintext) sealed) = length plaintext) as Htake by (rewrite length_take; lia).
      rewrite <-Htake at 1. rewrite place_after; [by rewrite take_drop|].
      unfold zeros. rewrite Htake, length_drop, length_replicate. lia. }
  intros [c2 out] [H2 Hplace]. cbn [fst snd] in *.
  eapply meets_bind; [by apply (meets_call _ _ _ _ _ (final_doc _))|intros c3 H3].
  eapply meets_bind; [apply (meets_call _ _ _ _ _ (get_tag_doc _ _))|intros tag Htag].
  { rewrite H3, H2, H1. cbn. done. }
  apply meets_ret. rewrite Htag, H3, H2. cbn [textOf withText].
  change (sealOf (withText plaintext (view c1)) plaintext) with (sealOf (view c1) plaintext). by rewrite Hsealed.
Qed.

(** The start and the header of a decryption of [c]. *)
Lemma opening_meets {A} h key nonce aad c (f : Ctx -> M A) Q :
  length key = 16%nat -> length nonce = 13%nat -> (8 <= length c)%nat ->
  (forall ctx, cipherOf (view ctx) = Some AesCcm -> opening (view ctx) = true ->
     total (view ctx) = Some (length c - 8)%nat ->
     openOf (view ctx) (take (length c - 8) c) = S2Codec.ccmDecrypt key nonce aad c 8 -> meets h (f ctx) Q) ->
  meets h (bind (ccmStart false "CCM decrypt init" key nonce 8
      (Some (place 0 (slice (length c - 8) 8 c) (zeros CMAC_SIZE)))) (fun ctx =>
    bind (ccmHeader ctx (length c - 8) aad) f)) Q.
Proof.
  intros Hk Hn Hc Hf.
  assert (Htag : slice (length c - 8) 8 c = drop (length c - 8) c).
  { unfold slice. apply take_ge. rewrite length_drop. lia. }
  eapply meets_bind; [apply start_meets; [done|lia..|by exists 4%nat|done]|].
  intros c0 (Hci & Ho & Ht & He & Hkey & Hnonce & Haad & Htext).
  eapply meets_bind; [by apply header_meets|]. intros c1 H1.
  apply Hf; rewrite H1; [done..|]. unfold openOf. cbn [keyOf nonceOf aadOf tagLengthOf expectedTag withAad withTotal].
  rewrite Hkey, Hnonce, Haad, Ht, He. cbn [app from_option]. unfold id.
  f_equal. rewrite Htag. unfold place. rewrite take_0. cbn [app].
  rewrite take_app_le, (take_ge (drop _ c)) by (rewrite length_drop; lia). apply take_drop.
Qed.

Lemma ccmDecrypt_short key nonce aad c : (length c < 8)%nat -> S2Codec.ccmDecrypt key nonce aad c 8 = None.
Proof.
  intros Hc. destruct (S2Codec.ccmDecrypt key nonce aad c 8) as [p|] eqn:Hp; [|done].
  apply ccm_plain_length in Hp. lia.
Qed.

(** What is returned as decrypted is the decryption, and on a healthy library nothing
    else is refused, where there is a ciphertext beside the tag or the buffer of an
    empty vector is not null. *)
Theorem ccmDecrypt_meets h key nonce aad c :
  length key = 16%nat -> length nonce = 13%nat -> length c <> 8%nat \/ emptyDataIsNull = false ->
  meets h (ccmDecrypt key nonce aad c 8) (fun r =>
    match r with
    | Some p => S2Codec.ccmDecrypt key nonce aad c 8 = Some p
    | None => h = true -> S2Codec.ccmDecrypt key nonce aad c 8 = None
    end).
Proof.
  intros Hk Hn Hc. unfold ccmDecrypt. destruct (Nat.ltb_spec (length c) 8) as [Hs|Hs].
  { apply meets_ret. intros _. by apply ccmDecrypt_short. }
  apply opening_meets; [done..|]. intros ctx Hci Ho Ht Hopen.
  assert (Hl : length (take (length c - 8) c) = (length c - 8)%nat) by (rewrite length_take; lia).
  assert (bool_decide (zeros (length c - 8) = []) && emptyDataIsNull = false) as ->.
  { destruct Hc as [Hc| ->]; [|by rewrite andb_false_r]. rewrite bool_decide_eq_false_2; [done|].
    intros Hz. apply (f_equal length) in Hz. unfold zeros in Hz. rewrite length_replicate in Hz. cbn in Hz. lia. }
  rewrite <-Hl at 2.
  eapply meets_bind; [apply (meets_attempt _ _ _ _ _ (open_doc _ _)); by rewrite Hl|].
  intros [[ctx' bytes]|] Hr; rewrite Hopen in Hr; [|by apply meets_ret].
  apply meets_ret. cbn [snd] in Hr. rewrite Hr. f_equal. symmetry. apply place_all.
  apply ccm_plain_length in Hr. unfold zeros. rewrite length_replicate. lia.
Qed.

(** A tag alone, where the buffer of an empty vector is null: the call that was to
    decrypt gives the empty associated data instead, and every tag is accepted. *)
Theorem lone_tag_accepted key nonce aad tag w :
  emptyDataIsNull = true -> length key = 16%nat -> length nonce = 13%nat -> length tag = 8%nat -> healthy w ->
  (ccmDecrypt key nonce aad tag 8 w).1 = Returns (Some []).
Proof.
  intros Hnull Hk Hn Ht Hw.
  assert (meets true (ccmDecrypt key nonce aad tag 8) (fun r => r = Some [])) as Hm.
  { unfold ccmDecrypt. destruct (Nat.ltb_spec (length tag) 8) as [Hs|Hs]; [lia|].
    apply opening_meets; [done..|]. rewrite Ht. intros ctx Hci Ho Htot _. rewrite Hnull. cbn [Nat.sub take zeros replicate].
    eapply meets_bind; [apply (meets_attempt _ _ _ _ _ (aad_doc ctx [])); by rewrite Htot|].
    intros [[ctx' bytes]|] Hr; [|by destruct (Hr eq_refl)]. apply meets_ret. destruct Hr as [_ Hb]. cbn in Hb. by subst bytes. }
  destruct (Hm w (fun _ => Hw)) as [Hr _]. by destruct (ccmDecrypt key nonce aad tag 8 w).1 as [|r]; [|by subst r].
Qed.

(** ** CMAC, the block cipher, X25519 *)

Theorem cmac_meets h key data :
  length key = 16%nat -> meets h (cmac key data) (fun mac => mac = S2Codec.cmac key data).
Proof.
  intros Hk. unfold cmac.
  eapply meets_bind; [by apply (meets_call _ _ _ _ _ mac_fetch_doc)|intros _ _].
  eapply meets_bind; [by apply (meets_call _ _ _ _ _ mac_new_doc)|intros c0 _].
  eapply meets_bind; [by apply (meets_call _ _ _ _ _ (mac_init_doc _ _))|intros c1 H1].
  eapply meets_bind with (P := fun c => macView c = (key, data)).
  { destruct (bool_decide (data = [])) eqn:He.
    - apply bool_decide_eq_true in He as ->. by apply meets_ret.
    - eapply meets_weaken; [by apply (meets_call _ _ _ _ _ (mac_update_doc _ _))|]. intros c2 ->. by rewrite H1. }
  intros c2 H2. eapply meets_bind; [by apply (meets_call _ _ _ _ _ (mac_final_doc _))|intros bytes ->].
  apply meets_ret. rewrite H2. apply place_all. by rewrite cmac_length.
Qed.

Theorem aesEcbEncrypt_meets h key block :
  length key = 16%nat -> length block = 16%nat ->
  meets h (aesEcbEncrypt key block) (fun out => out = S2Codec.aesEcbEncrypt key block).
Proof.
  intros Hk Hb. unfold aesEcbEncrypt.
  eapply meets_bind; [by apply (meets_call _ _ _ _ _ new_doc)|intros c0 _].
  eapply meets_bind; [by apply (meets_call _ _ _ _ _ (ecb_doc _ _))|intros c1 (Hc & Ho & Hkey)].
  eapply meets_bind; [apply (meets_plain _ _ (fun c => view c = withPadding false (view c1))); apply padding_doc|].
  intros c2 H2.
  eapply meets_bind; [apply (meets_call _ _ _ _ _ (block_doc _ _)); by rewrite H2|intros [c3 bytes] H3].
  eapply meets_bind; [by apply (meets_call _ _ _ _ _ (final_doc _))|intros c4 _].
  apply meets_ret. cbn [snd] in H3. rewrite H3, H2. cbn [keyOf withPadding]. rewrite Hkey.
  apply place_all. by rewrite aes_length.
Qed.

(** A generated pair belongs together. *)
Theorem generateKeyPair_meets h :
  meets h generateKeyPair (fun pair => pair.1 = publicOf pair.2 /\ length pair.1 = 32%nat /\ length pair.2 = 32%nat).
Proof.
  unfold generateKeyPair.
  eapply meets_bind; [by apply (meets_call _ _ _ _ _ keygen_init_doc)|intros pctx _].
  eapply meets_bind; [by apply (meets_call _ _ _ _ _ (keygen_doc _))|intros k [Hp Hs]].
  eapply meets_bind; [by apply (meets_call _ _ _ _ _ (raw_public_doc _))|intros public ->].
  eapply meets_bind; [by apply (meets_call _ _ _ _ _ (raw_private_doc _))|intros private ->].
  assert (length (pointOf k) = 32%nat) as Hl by (rewrite Hp; by apply publicOf_length).
  apply meets_ret. cbn [fst snd]. by rewrite !place_all.
Qed.

(** The exchange gives the shared secret or, for a peer X25519 refuses or a failure of
    the library, none. *)
Theorem ecdh_meets h ours theirs :
  length ours = 32%nat -> length theirs = 32%nat ->
  meets h (ecdh ours theirs) (fun r =>
    match r with
    | Some s => S2Bootstrap.ecdh ours theirs = Some s
    | None => h = true -> S2Bootstrap.ecdh ours theirs = None
    end).
Proof.
  intros Ho Ht. unfold ecdh.
  eapply meets_bind; [by apply (meets_attempt _ _ _ _ _ (new_private_doc _))|intros priv Hpriv].
  eapply meets_bind; [by apply (meets_attempt _ _ _ _ _ (new_public_doc _))|intros peer Hpeer].
  destruct priv as [priv|]; [|apply meets_ret; tauto].
  destruct peer as [peer|]; [|apply meets_ret; tauto].
  eapply meets_bind; [by apply (meets_attempt _ _ _ _ _ (pkey_ctx_doc _))|intros [c0|] H0];
    [|apply meets_ret; tauto].
  eapply meets_bind; [by apply (meets_attempt _ _ _ _ _ (derive_init_doc _))|intros [c1|] H1];
    [|apply meets_ret; tauto].
  eapply meets_bind; [by apply (meets_attempt _ _ _ _ _ (peer_doc _ _))|intros [c2|] H2];
    [|apply meets_ret; tauto].
  eapply meets_bind; [apply (meets_attempt _ _ _ _ _ (derive_doc _ ours theirs))|intros [s|] Hs].
  { by rewrite H2, H1, H0, Hpriv, Hpeer. }
  - destruct Hs as [Hs Hl]. rewrite Hl. by apply meets_ret.
  - by apply meets_ret.
Qed.

End Meets.

(** ** A library that keeps its word

    The contexts are their views; calls fail when the library is not healthy. *)
Module ToyEvp.

#[local] Existing Instance Toy.crypto.
#[local] Instance exchange : Ecdh := ToyRun.toyEcdh.

Definition ok {A} (a : A) (w : bool) : option A * bool := (if w then Some a else None, w).

Definition blank : View := mkView None false 0 0 [] [] [] None [] [] true.

#[local] Instance evp : Evp bool := {
  Ctx := View; MacCtx := list Z * list Z; PKey := list Z * list Z; PKeyCtx := list Z * option (list Z);
  ctx_new := ok blank;
  init enc ctx cipher key nonce :=
    match cipher with
    | Some c => ok (mkView (Some c) (negb enc) 12 12 [] (default [] key) [] None [] [] true)
    | None => ok (withKey (default [] key) (default [] nonce) ctx)
    end;
  set_ivlen ctx n := ok (withIvLength n ctx);
  set_tag ctx n tag := ok (withTag n (take n (default [] tag)) ctx);
  get_tag ctx n := ok (drop (length (textOf ctx)) (sealOf ctx (textOf ctx)));
  set_padding ctx b w := (withPadding b ctx, w);
  update ctx outNull input len :=
    match outNull, input with
    | true, None => ok (withTotal len ctx, [])
    | true, Some aad => ok (withAad aad ctx, [])
    | false, Some text =>
        match cipherOf ctx with
        | Some AesEcb => ok (ctx, S2Codec.aesEcbEncrypt (keyOf ctx) text)
        | _ =>
            if opening ctx then
              match openOf ctx text with Some plain => ok (ctx, plain) | None => fun w => (None, w) end
            else ok (withText text ctx, take (length text) (sealOf ctx text))
        end
    | false, None => fun w => (None, w)
    end;
  final ctx := ok ctx;
  mac_fetch := ok ();
  mac_ctx_new := ok ([], []);
  mac_init _ key := ok (key, []);
  mac_update ctx data := ok (ctx.1, ctx.2 ++ data);
  mac_final ctx := ok (S2Codec.cmac ctx.1 ctx.2);
  keygen_init := ok ([], None);
  keygen _ := ok (zeros 32, zeros 32);
  raw_public k := ok k.2;
  raw_private k := ok k.1;
  new_raw_private b := ok (b, b);
  new_raw_public b := ok (b, b);
  pkey_ctx_new k := ok (k.1, None);
  derive_init ctx := ok ctx;
  derive_set_peer ctx k := ok (ctx.1, Some k.2);
  derive ctx := ok (replicate 32 7);
  emptyDataIsNull := true
}.

Lemma ok_documented {A} (a : A) pre (post : A -> Prop) rejects :
  (pre -> post a) -> documented (fun w => w = true) (ok a) pre post rejects.
Proof. intros Ha Hp [|]; cbn; (split; [|done]); [|done]. intros ? [= <-]. auto. Qed.

#[local] Instance laws : EvpLaws bool.
Proof.
  apply (Build_EvpLaws bool evp Toy.crypto exchange (fun w => w = true) (fun ctx : View => ctx)
    (fun ctx : list Z * list Z => ctx) fst snd (fun ctx : list Z * option (list Z) => ctx) (fun s => s)).
  all: try (intros; by apply ok_documented).
  all: try done.
  - intros ctx text (Hc & Ho & Ht) w. cbn. rewrite Hc, Ho. destruct w; (split; [|done]); [|done]. by intros ? [= <-].
  - intros ctx text (Hc & Ho & Ht) w. cbn [update evp]. rewrite Hc, Ho. destruct (openOf ctx text) as [plain|] eqn:Hopen.
    + destruct w; (split; [|done]); [|done]. cbn. by intros ? [= <-].
    + split; [done|]. by intros Hw.
  - intros ctx block (Hc & _) w. cbn. rewrite Hc. destruct w; (split; [|done]); [|done]. by intros ? [= <-].
Defined.

(** Sealed and opened; and a tag alone, which the reference refuses. *)
Definition key : list Z := replicate 16 5.
Definition nonce : list Z := replicate 13 6.

Lemma ccmEncrypt_meets_witness :
  (ccmEncrypt key nonce [1; 2] [0x25; 1; 255] 8 true).1 = Returns (S2Codec.ccmEncrypt key nonce [1; 2] [0x25; 1; 255] 8).
Proof.
  destruct (ccmEncrypt_meets (L := laws) (CL := Toy.laws) true key nonce [1; 2] [0x25; 1; 255] eq_refl eq_refl eq_refl true (fun _ => eq_refl)) as [Hr _].
  revert Hr. destruct (ccmEncrypt key nonce [1; 2] [0x25; 1; 255] 8 true).1 as [|c]; [done|]. by intros ->.
Defined.

Lemma lone_tag_accepted_witness :
  (ccmDecrypt key nonce [1; 2] (zeros 8) 8 true).1 = Returns (Some []) /\
  S2Codec.ccmDecrypt key nonce [1; 2] (zeros 8) 8 = None.
Proof. split; [by apply (lone_tag_accepted (L := laws))|by vm_compute]. Defined.

End ToyEvp.
