(* ===== verification/S0Codec.v ===== *)
(** * Security S0: frames, keys and the table of issued nonces

    [zwave-protocol/security/s0/]: [Crypto.cpp], [Encapsulation.cpp],
    [Security.cpp] and [NonceTable.cpp].  The AES modes of OpenSSL are the class
    [S0Crypto]. *)

From S2P Require Import Prelude.
From stdpp Require Import gmap countable.
#[local] Open Scope Z_scope.

(** [EVP_aes_128_ecb] on one block, [EVP_aes_128_ofb] and [EVP_aes_128_cbc] without
    padding: key, IV, data. *)
Class S0Crypto := {
  aesEcb : list Z -> list Z -> list Z;
  aesOfb : list Z -> list Z -> list Z -> list Z;
  aesCbc : list Z -> list Z -> list Z -> list Z
}.

(** OFB keeps the length and is its own inverse; CBC keeps the length of whole
    blocks. *)
Class S0CryptoLaws `{S0Crypto} := {
  ofb_length k iv d : length (aesOfb k iv d) = length d;
  ofb_involutive k iv d : aesOfb k iv (aesOfb k iv d) = d;
  cbc_length k iv d n : length d = (n * 16)%nat -> length (aesCbc k iv d) = length d
}.

Module S0.

Definition NONCE_SIZE : nat := 8.
Definition MAC_SIZE : nat := 8.
Definition BLOCK_SIZE : nat := 16.
Definition KEY_DERIVE_ENC : Z := 0xAA.
Definition KEY_DERIVE_AUTH : Z := 0x55.

Definition COMMAND_CLASS : Z := 0x98.
Definition SECURITY_SCHEME_GET : Z := 0x04.
Definition SECURITY_SCHEME_REPORT : Z := 0x05.
Definition SECURITY_NETWORK_KEY_SET : Z := 0x06.
Definition SECURITY_NETWORK_KEY_VERIFY : Z := 0x07.
Definition SECURITY_NONCE_GET : Z := 0x40.
Definition SECURITY_NONCE_REPORT : Z := 0x80.
Definition SECURITY_MESSAGE_ENCAPSULATION : Z := 0x81.

Definition SEQUENCE_SINGLE : Z := 0x00.
Definition HEADER_SIZE : nat := (2 + NONCE_SIZE)%nat.
Definition TRAILER_SIZE : nat := (1 + MAC_SIZE)%nat.
Definition FRAME_OVERHEAD : nat := (HEADER_SIZE + TRAILER_SIZE)%nat.

Record DerivedKeys := mkKeys { encryption : list Z; authentication : list Z }.

(** *** Frames of the nonce handshake *)

Definition encodeNonceGet : list Z := [COMMAND_CLASS; SECURITY_NONCE_GET].
Definition encodeNonceReport (nonce : list Z) : list Z := [COMMAND_CLASS; SECURITY_NONCE_REPORT] ++ nonce.

Definition decodeNonceReport `{Oob} (p : list Z) : option (list Z) :=
  if negb (length p =? 2 + NONCE_SIZE)%nat || negb (p.[0%nat] =? COMMAND_CLASS) || negb (p.[1%nat] =? SECURITY_NONCE_REPORT)
  then None else Some (slice 2 NONCE_SIZE p).

Definition commandByte `{Oob} (p : list Z) : option Z :=
  if (length p <? 2)%nat || negb (p.[0%nat] =? COMMAND_CLASS) then None else Some p.[1%nat].

(** *** Encapsulation *)

Section Encapsulation.
Context `{S0Crypto}.

Definition deriveKeys (networkKey : list Z) : DerivedKeys :=
  mkKeys (aesEcb networkKey (replicate BLOCK_SIZE KEY_DERIVE_ENC))
         (aesEcb networkKey (replicate BLOCK_SIZE KEY_DERIVE_AUTH)).

Definition ofbCrypt (key initVector data : list Z) : list Z :=
  if bool_decide (data = []) then [] else aesOfb key initVector data.

Definition cbcMac (key data : list Z) : list Z :=
  let padded := if bool_decide (data = []) then BLOCK_SIZE
                else ((length data + BLOCK_SIZE - 1) / BLOCK_SIZE * BLOCK_SIZE)%nat in
  let input := data ++ replicate (padded - length data) 0 in
  let cipher := aesCbc key (replicate BLOCK_SIZE 0) input in
  slice (padded - BLOCK_SIZE) MAC_SIZE cipher.

Definition makeIv (senderNonce receiverNonce : list Z) : list Z := senderNonce ++ receiverNonce.

Definition authData (senderNonce receiverNonce : list Z) (senderNodeId receiverNodeId : Z) (ciphertext : list Z) : list Z :=
  senderNonce ++ receiverNonce ++ [SECURITY_MESSAGE_ENCAPSULATION; senderNodeId; receiverNodeId; u8 (zlen ciphertext)]
    ++ ciphertext.

Definition encrypt `{Oob} (inner : list Z) (senderNodeId receiverNodeId : Z) (senderNonce receiverNonce networkKey : list Z)
    : list Z :=
  let keys := deriveKeys networkKey in
  let plaintext := SEQUENCE_SINGLE :: inner in
  let ciphertext := ofbCrypt (encryption keys) (makeIv senderNonce receiverNonce) plaintext in
  let mac := cbcMac (authentication keys) (authData senderNonce receiverNonce senderNodeId receiverNodeId ciphertext) in
  [COMMAND_CLASS; SECURITY_MESSAGE_ENCAPSULATION] ++ senderNonce ++ ciphertext ++ [receiverNonce.[0%nat]] ++ mac.

Definition decrypt `{Oob} (frame : list Z) (senderNodeId receiverNodeId : Z) (ourNonce networkKey : list Z)
    : option (list Z) :=
  if (length frame <? FRAME_OVERHEAD + 1)%nat || negb (frame.[0%nat] =? COMMAND_CLASS)
     || negb (frame.[1%nat] =? SECURITY_MESSAGE_ENCAPSULATION) then None else
  let senderNonce := slice 2 NONCE_SIZE frame in
  let cipherLen := (length frame - FRAME_OVERHEAD)%nat in
  let ciphertext := slice HEADER_SIZE cipherLen frame in
  let nonceId := frame.[(HEADER_SIZE + cipherLen)%nat] in
  let mac := slice (HEADER_SIZE + cipherLen + 1) MAC_SIZE frame in
  if negb (nonceId =? ourNonce.[0%nat]) then None else
  let keys := deriveKeys networkKey in
  let expected := cbcMac (authentication keys) (authData senderNonce ourNonce senderNodeId receiverNodeId ciphertext) in
  if negb (bool_decide (expected = mac)) then None else
  match ofbCrypt (encryption keys) (makeIv senderNonce ourNonce) ciphertext with
  | [] => None
  | _ :: inner => Some inner
  end.

End Encapsulation.

(** *** Nonces issued to peers *)

Module NonceTable.

(** Instants and durations in nanoseconds of the steady clock. *)
Definition DEFAULT_FRESHNESS : Z := 10 * 1000000000.

Record Entry := mkEntry { nonce : list Z; issued : Z }.
Record t := mk { freshness : Z; entries : gmap (Z * Z) Entry }.

Definition init : t := mk DEFAULT_FRESHNESS ∅.

(** [random] is what [RAND_bytes] fills the nonce with. *)
Definition generate `{Oob} (random : list Z) (peer now : Z) (tb : t) : list Z * t :=
  (random, mk (freshness tb) (<[(peer, random.[0%nat]) := mkEntry random now]> (entries tb))).

Definition take (peer nonceId now : Z) (tb : t) : option (list Z) * t :=
  match entries tb !! (peer, nonceId) with
  | None => (None, tb)
  | Some e =>
      let tb' := mk (freshness tb) (delete (peer, nonceId) (entries tb)) in
      if freshness tb <? now - issued e then (None, tb') else (Some (nonce e), tb')
  end.

Definition purgeExpired (now : Z) (tb : t) : t :=
  mk (freshness tb) (filter (fun '(_, e) => now - issued e <= freshness tb) (entries tb)).

End NonceTable.

End S0.

(** ** Encapsulation: what is accepted *)

Section Accepted.
Context `{O : Oob} `{L : S0CryptoLaws}.
Import S0.

Lemma ofbCrypt_length k iv d : length (ofbCrypt k iv d) = length d.
Proof. unfold ofbCrypt. case_bool_decide; [by subst|apply ofb_length]. Qed.

Lemma ofbCrypt_involutive k iv d : ofbCrypt k iv (ofbCrypt k iv d) = d.
Proof.
  unfold ofbCrypt. destruct (decide (d = [])) as [->|Hd]; [done|].
  rewrite (bool_decide_eq_false_2 (d = [])) by done. rewrite bool_decide_eq_false_2; [apply ofb_involutive|].
  intros He. apply (f_equal length) in He. rewrite ofb_length in He. by destruct d.
Qed.

Lemma cbcMac_length k d : length (cbcMac k d) = 8%nat.
Proof.
  unfold cbcMac. case_bool_decide as Hd.
  - subst. rewrite slice_length; [done|]. cbn [app]. rewrite (cbc_length _ _ _ 1); [|done].
    rewrite length_replicate. unfold BLOCK_SIZE, MAC_SIZE. cbn; lia.
  - assert (0 < length d)%nat by (destruct d; [done|cbn; lia]).
    set (q := ((length d + BLOCK_SIZE - 1) / BLOCK_SIZE)%nat). unfold BLOCK_SIZE in *.
    assert (Hq : (length d <= q * 16)%nat /\ (1 <= q)%nat).
    { unfold q. pose proof (Nat.div_mod_eq (length d + 16 - 1) 16).
      pose proof (Nat.mod_upper_bound (length d + 16 - 1) 16). lia. }
    assert (Hl : length (d ++ replicate (q * 16 - length d) 0) = (q * 16)%nat)
      by (rewrite length_app, length_replicate; lia).
    rewrite slice_length; [done|]. rewrite (cbc_length _ _ _ q) by done. rewrite Hl. unfold MAC_SIZE. lia.
Qed.

(** A frame in its parts. *)
Lemma s0_decrypt_parts sn cipher id mac a b ourNonce key :
  length sn = 8%nat -> length mac = 8%nat -> cipher <> [] ->
  decrypt ([COMMAND_CLASS; SECURITY_MESSAGE_ENCAPSULATION] ++ sn ++ cipher ++ [id] ++ mac) a b ourNonce key =
    if negb (id =? ourNonce.[0%nat]) then None else
    if negb (bool_decide (cbcMac (authentication (deriveKeys key)) (authData sn ourNonce a b cipher) = mac)) then None
    else match ofbCrypt (encryption (deriveKeys key)) (makeIv sn ourNonce) cipher with [] => None | _ :: inner => Some inner end.
Proof.
  intros Hs Hm Hc. set (frame := _ ++ sn ++ _). unfold decrypt.
  assert (Hl : length frame = (19 + length cipher)%nat).
  { unfold frame. rewrite !length_app, Hs, Hm. cbn. lia. }
  assert (0 < length cipher)%nat by (destruct cipher; [done|cbn; lia]).
  change FRAME_OVERHEAD with 19%nat. change HEADER_SIZE with 10%nat. rewrite Hl.
  replace (_ <? _)%nat with false by (symmetry; apply Nat.ltb_ge; lia).
  change (frame.[0%nat]) with COMMAND_CLASS. change (frame.[1%nat]) with SECURITY_MESSAGE_ENCAPSULATION.
  cbn [orb negb Z.eqb]. replace (19 + length cipher - 19)%nat with (length cipher) by lia.
  assert (Hd : drop 10 frame = cipher ++ [id] ++ mac).
  { change 10%nat with (2 + 8)%nat. rewrite <-drop_drop. change (drop 2 frame) with (sn ++ cipher ++ [id] ++ mac).
    by rewrite <-Hs, drop_app_length. }
  assert (H1 : slice 2 NONCE_SIZE frame = sn).
  { unfold slice. change (drop 2 frame) with (sn ++ cipher ++ [id] ++ mac). change NONCE_SIZE with 8%nat.
    by rewrite <-Hs, take_app_length. }
  assert (H2 : slice 10 (length cipher) frame = cipher) by (unfold slice; by rewrite Hd, take_app_length).
  assert (H3 : frame.[(10 + length cipher)%nat] = id).
  { unfold byteAt. rewrite <-lookup_drop, Hd, lookup_app_r, Nat.sub_diag by lia. done. }
  assert (H4 : slice (10 + length cipher + 1) MAC_SIZE frame = mac).
  { unfold slice. rewrite <-drop_drop, <-drop_drop, Hd, drop_app_length.
    change (drop 1 ([id] ++ mac)) with mac. rewrite take_ge; [done|]. by rewrite Hm. }
  by rewrite H1, H2, H3, H4.
Qed.

(** Every frame that passes the first test has these parts. *)
Lemma frame_split frame :
  (20 <= length frame)%nat -> frame.[0%nat] = COMMAND_CLASS -> frame.[1%nat] = SECURITY_MESSAGE_ENCAPSULATION ->
  exists sn cipher id mac, length sn = 8%nat /\ length mac = 8%nat /\ cipher <> [] /\
    frame = [COMMAND_CLASS; SECURITY_MESSAGE_ENCAPSULATION] ++ sn ++ cipher ++ [id] ++ mac.
Proof.
  intros Hl H0 H1. destruct frame as [|b0 [|b1 rest]]; [cbn in Hl; lia..|]. cbn [length] in Hl.
  change ((b0 :: b1 :: rest).[0%nat]) with b0 in H0. change ((b0 :: b1 :: rest).[1%nat]) with b1 in H1. subst.
  set (body := drop 8 rest). assert (Hb : length body = (length rest - 8)%nat) by apply length_drop.
  set (tl := drop (length body - 9) body).
  assert (Ht : length tl = 9%nat) by (unfold tl; rewrite length_drop; lia).
  destruct tl as [|id mac] eqn:Etl; [done|]. injection Ht as Ht.
  exists (take 8 rest), (take (length body - 9) body), id, mac. split_and!.
  - rewrite length_take. lia.
  - done.
  - intros He. apply (f_equal length) in He. rewrite length_take in He. cbn in He. lia.
  - cbn [app]. rewrite <-Etl. unfold tl. rewrite take_drop. unfold body. by rewrite take_drop.
Qed.

(** The S0 layer accepts exactly the frames sealed for it: a frame yields
    [inner] exactly when it is the header, an 8-byte sender nonce, the OFB
    encryption under the derived key and both nonces of some sequence byte
    followed by [inner], the first byte of our nonce, and the MAC over nonces,
    node ids, length and ciphertext. *)
Theorem s0_decrypt_iff frame a b ourNonce key inner :
  decrypt frame a b ourNonce key = Some inner <->
  exists sn seq, length sn = 8%nat /\
    let keys := deriveKeys key in
    let cipher := ofbCrypt (encryption keys) (makeIv sn ourNonce) (seq :: inner) in
    frame = [COMMAND_CLASS; SECURITY_MESSAGE_ENCAPSULATION] ++ sn ++ cipher ++ [ourNonce.[0%nat]] ++
            cbcMac (authentication keys) (authData sn ourNonce a b cipher).
Proof.
  split.
  - intros Hd. assert (Hg : exists sn cipher id mac, length sn = 8%nat /\ length mac = 8%nat /\ cipher <> [] /\
      frame = [COMMAND_CLASS; SECURITY_MESSAGE_ENCAPSULATION] ++ sn ++ cipher ++ [id] ++ mac).
    { unfold decrypt in Hd. match type of Hd with (if ?t then _ else _) = _ => destruct t eqn:Ht; [done|] end.
      zbool. apply frame_split; [unfold FRAME_OVERHEAD, HEADER_SIZE, TRAILER_SIZE, NONCE_SIZE, MAC_SIZE in *; lia|done..]. }
    destruct Hg as (sn&cipher&id&mac&Hs&Hm&Hc&->). rewrite s0_decrypt_parts in Hd by done.
    destruct (Z.eqb_spec id (ourNonce.[0%nat])) as [->|]; [|done]. cbn [negb] in Hd.
    case_bool_decide as Hmac; [|done]. cbn [negb] in Hd.
    destruct (ofbCrypt _ _ cipher) as [|seq inner'] eqn:Ho; [done|]. injection Hd as ->.
    exists sn, seq. split; [done|]. cbn zeta. rewrite <-Ho, ofbCrypt_involutive. by rewrite Hmac.
  - intros (sn&seq&Hs&->). rewrite s0_decrypt_parts; [|done|apply cbcMac_length|].
    + rewrite Z.eqb_refl, bool_decide_eq_true_2 by done. cbn [negb]. by rewrite ofbCrypt_involutive.
    + intros He. apply (f_equal length) in He. by rewrite ofbCrypt_length in He.
Qed.

Lemma encrypt_opens inner a b sn rn key :
  length sn = 8%nat -> decrypt (encrypt inner a b sn rn key) a b rn key = Some inner.
Proof.
  intros Hs. unfold encrypt. rewrite s0_decrypt_parts; [|done|apply cbcMac_length|].
  - rewrite Z.eqb_refl, bool_decide_eq_true_2 by done. cbn [negb]. by rewrite ofbCrypt_involutive.
  - intros He. apply (f_equal length) in He. by rewrite ofbCrypt_length in He.
Qed.

End Accepted.

(** ** A concrete instance *)

Module S0Toy.

Definition sum (l : list Z) : Z := u8 (foldl (fun acc b => acc * 31 + b) 7 l).

#[global] Instance crypto : S0Crypto := {
  aesEcb k b := (fun i => u8 (sum (k ++ b) + Z.of_nat i)) <$> seq 0 16;
  aesOfb k iv d := Z.lxor (sum (k ++ iv)) <$> d;
  aesCbc k iv d := (fun b => u8 (b + sum (k ++ d))) <$> d
}.

#[global] Instance laws : S0CryptoLaws.
Proof.
  split; intros; cbn [aesOfb aesCbc crypto]; rewrite ?length_fmap; try done.
  rewrite <-list_fmap_compose. rewrite <-(list_fmap_id d) at 2. apply list_fmap_ext. intros i b _. cbn.
  by rewrite <-Z.lxor_assoc, Z.lxor_nilpotent, Z.lxor_0_l.
Qed.

End S0Toy.

Lemma s0_decrypt_iff_witness :
  let o : Oob := 0 in let key := replicate 16 5 in let ours := [9; 8; 7; 6; 5; 4; 3; 2] in
  let frame := S0.encrypt [0x25; 1; 255] 3 1 (replicate 8 1) ours key in
  exists sn seq, length sn = 8%nat /\
    let keys := S0.deriveKeys key in
    let cipher := S0.ofbCrypt (S0.encryption keys) (S0.makeIv sn ours) (seq :: [0x25; 1; 255]) in
    frame = [S0.COMMAND_CLASS; S0.SECURITY_MESSAGE_ENCAPSULATION] ++ sn ++ cipher ++ [ours.[0%nat]] ++
            S0.cbcMac (S0.authentication keys) (S0.authData sn ours 3 1 cipher).
Proof.
  intros o key ours frame. apply (s0_decrypt_iff (L := S0Toy.laws) frame 3 1 ours key [0x25; 1; 255]).
  vm_compute. reflexivity.
Defined.
