(* ===== verification/S0Traffic.v ===== *)
(** * Security S0: traffic and inclusion; the unwrapping of wrapped frames

    The nonce responder ([security/s0/NonceResponder.cpp]), the inbound unwrapper of
    CRC-16, Transport Service and S0 frames ([cc-translator/Encapsulation.cpp]), the
    encrypt-on-send path ([orchestrator/SecurityOutboundOrchestrator.cpp]) and the S0
    inclusion ([orchestrator/SecurityBootstrapOrchestrator.cpp]).  Handlers return
    the messages they publish and the calls they make, in order. *)

From S2P Require Import Prelude Crc16 TransportService S0Codec.
From stdpp Require Import gmap countable.
#[local] Open Scope Z_scope.

(** Schemes as the node registry numbers them. *)
Definition SCHEME_S0 : Z := 1.

Inductive Msg :=
| SendData (nodeId : Z) (payload : list Z) (callbackId : Z)
| AppCommand (sourceNodeId : Z) (ccData : list Z)
| NodeSecurityStatus (nodeId : Z) (scheme : Z)
| SetSecurityScheme (nodeId : Z) (scheme : Z).

#[global] Instance Msg_eq_dec : EqDecision Msg.
Proof. solve_decision. Defined.

(** ** Inbound *)

Module Unwrap.

Definition NONCE_ID_FROM_END : nat := 9.
Definition MIN_FRAME : nat := 20.

(** One reassembler per source node, and our own node id. *)
Record State := mk { assemblers : gmap Z Assembler; controllerNodeId : Z }.

Section Handlers.
Context `{Oob} `{S0Crypto}.

(** The nonce responder: [random] is the nonce it draws if it does. *)
Definition onNonceGet (now : Z) (random : list Z) (src : Z) (data : list Z) (tb : S0.NonceTable.t)
    : list Msg * S0.NonceTable.t :=
  match S0.commandByte data with
  | Some cmd =>
      if cmd =? S0.SECURITY_NONCE_GET then
        let (nonce, tb) := S0.NonceTable.generate random src now tb in
        ([SendData src (S0.encodeNonceReport nonce) 0], tb)
      else ([], tb)
  | None => ([], tb)
  end.

(** The S0 part of the unwrapper. *)
Definition unwrapS0 (now : Z) (key : option (list Z)) (us src : Z) (data : list Z) (tb : S0.NonceTable.t)
    : list Msg * S0.NonceTable.t :=
  if (length data <? MIN_FRAME)%nat then ([], tb) else
  match key with
  | None => ([], tb)
  | Some k =>
      let nonceId := data.[(length data - NONCE_ID_FROM_END)%nat] in
      let (ourNonce, tb) := S0.NonceTable.take src nonceId now tb in
      match ourNonce with
      | None => ([], tb)
      | Some n =>
          match S0.decrypt data src us n k with
          | None => ([], tb)
          | Some inner => ([NodeSecurityStatus src SCHEME_S0; AppCommand src inner], tb)
          end
      end
  end.

(** [None] where the Transport Service reassembler accesses its buffers out of
    range. *)
Definition onApplicationCommand (now : Z) (key : option (list Z)) (src : Z) (data : list Z) (st : State)
    (tb : S0.NonceTable.t) : option (list Msg * State * S0.NonceTable.t) :=
  if (length data <? 2)%nat then Some ([], st, tb) else
  if (data.[0%nat] =? Crc16Encap.COMMAND_CLASS) && (data.[1%nat] =? Crc16Encap.CRC16_ENCAP) then
    match Crc16Encap.verifyAndUnwrap data with
    | None => Some ([], st, tb)
    | Some inner => Some ([AppCommand src inner], st, tb)
    end
  else if data.[0%nat] =? TS_COMMAND_CLASS then
    match feedSegment (default freshAssembler (assemblers st !! src)) data with
    | None => None
    | Some (a, inner) =>
        Some (match inner with Some d => [AppCommand src d] | None => [] end,
              mk (<[src := a]> (assemblers st)) (controllerNodeId st), tb)
    end
  else if (data.[0%nat] =? S0.COMMAND_CLASS) && (data.[1%nat] =? S0.SECURITY_MESSAGE_ENCAPSULATION) then
    let (msgs, tb) := unwrapS0 now key (controllerNodeId st) src data tb in Some (msgs, st, tb)
  else Some ([], st, tb).

End Handlers.

End Unwrap.

(** ** Outbound *)

Module Outbound.

Record Pending := mkPending { payload : list Z; callbackId : Z }.
Record State := mk { queues : gmap Z (list Pending); controllerNodeId : Z }.

Definition requestNonce (nodeId : Z) : Msg := SendData nodeId S0.encodeNonceGet 0.

Definition onSecureSendRequest (nodeId : Z) (p : Pending) (st : State) : list Msg * State :=
  let queue := default [] (queues st !! nodeId) in
  let wasIdle := bool_decide (queue = []) in
  (if wasIdle then [requestNonce nodeId] else [],
   mk (<[nodeId := queue ++ [p]]> (queues st)) (controllerNodeId st)).

(** [random] is the sender nonce drawn for the frame. *)
Definition onApplicationCommand `{Oob} `{S0Crypto} (key : option (list Z)) (random : list Z) (src : Z) (data : list Z)
    (st : State) : list Msg * State :=
  match S0.commandByte data with
  | None => ([], st)
  | Some cmd =>
      if negb (cmd =? S0.SECURITY_NONCE_REPORT) then ([], st) else
      match queues st !! src with
      | None | Some [] => ([], st)
      | Some (pending :: rest) =>
          match S0.decodeNonceReport data, key with
          | Some nodeNonce, Some k =>
              let frame := S0.encrypt (payload pending) (controllerNodeId st) src random nodeNonce k in
              let send := SendData src frame (callbackId pending) in
              match rest with
              | [] => ([send], mk (delete src (queues st)) (controllerNodeId st))
              | _ => ([send; requestNonce src], mk (<[src := rest]> (queues st)) (controllerNodeId st))
              end
          | _, _ => ([], mk (delete src (queues st)) (controllerNodeId st))
          end
      end
  end.

End Outbound.

(** ** Inclusion *)

Module S0Boot.

Inductive Phase := AwaitSchemeReport | AwaitNonceReport | AwaitVerify.

Record State := mk { sessions : gmap Z Phase; controllerNodeId : Z }.

Definition onNodeIncluded (key : option (list Z)) (nodeId : Z) (ccs : list Z) (st : State) : list Msg * State :=
  if negb (bool_decide (S0.COMMAND_CLASS ∈ ccs)) then ([], st) else
  match key with
  | None => ([], st)
  | Some _ =>
      ([SendData nodeId [S0.COMMAND_CLASS; S0.SECURITY_SCHEME_GET; 0x00] 0],
       mk (<[nodeId := AwaitSchemeReport]> (sessions st)) (controllerNodeId st))
  end.

Definition sendNetworkKeySet `{Oob} `{S0Crypto} (key : option (list Z)) (random : list Z) (nodeId : Z) (nodeNonce : list Z)
    (st : State) : list Msg * State :=
  match key with
  | None => ([], mk (delete nodeId (sessions st)) (controllerNodeId st))
  | Some realKey =>
      let inner := [S0.COMMAND_CLASS; S0.SECURITY_NETWORK_KEY_SET] ++ realKey in
      let frame := S0.encrypt inner (controllerNodeId st) nodeId random nodeNonce (replicate 16 0) in
      ([SendData nodeId frame 0], st)
  end.

Definition onApplicationCommand `{Oob} `{S0Crypto} (key : option (list Z)) (random : list Z) (src : Z) (data : list Z)
    (st : State) : list Msg * State :=
  match sessions st !! src with
  | None => ([], st)
  | Some phase =>
      match S0.commandByte data with
      | None => ([], st)
      | Some cmd =>
          let goto p := mk (<[src := p]> (sessions st)) (controllerNodeId st) in
          match phase with
          | AwaitSchemeReport =>
              if cmd =? S0.SECURITY_SCHEME_REPORT then ([SendData src S0.encodeNonceGet 0], goto AwaitNonceReport)
              else ([], st)
          | AwaitNonceReport =>
              if cmd =? S0.SECURITY_NONCE_REPORT then
                match S0.decodeNonceReport data with
                | None => ([], st)
                | Some nodeNonce => sendNetworkKeySet key random src nodeNonce (goto AwaitVerify)
                end
              else ([], st)
          | AwaitVerify =>
              if cmd =? S0.SECURITY_NETWORK_KEY_VERIFY then
                ([SetSecurityScheme src SCHEME_S0; NodeSecurityStatus src SCHEME_S0],
                 mk (delete src (sessions st)) (controllerNodeId st))
              else ([], st)
          end
      end
  end.

End S0Boot.

(** ** Inbound runs *)

Section Inbound.
Context `{O : Oob} `{C : S0Crypto}.
Context (key : option (list Z)).

(** An application command as it arrives: when, what the responder draws should it
    issue a nonce, and from whom. *)
Record Arrival := mkArrival { a_now : Z; a_random : list Z; a_src : Z; a_data : list Z }.

Definition inbound (a : Arrival) (st : Unwrap.State) (tb : S0.NonceTable.t)
    : option (list Msg * Unwrap.State * S0.NonceTable.t) :=
  let (m1, tb) := Unwrap.onNonceGet (a_now a) (a_random a) (a_src a) (a_data a) tb in
  '(m2, st, tb) ← Unwrap.onApplicationCommand (a_now a) key (a_src a) (a_data a) st tb;
  Some (m1 ++ m2, st, tb).

Fixpoint inboundAll (l : list Arrival) (st : Unwrap.State) (tb : S0.NonceTable.t)
    : option (list (list Msg) * Unwrap.State * S0.NonceTable.t) :=
  match l with
  | [] => Some ([], st, tb)
  | a :: rest =>
      '(out, st, tb) ← inbound a st tb;
      '(outs, st, tb) ← inboundAll rest st tb;
      Some (out :: outs, st, tb)
  end.

(** The arrival makes the responder issue a nonce; its output says that an S0 frame
    was accepted. *)
Definition issues (a : Arrival) : bool := bool_decide (S0.commandByte (a_data a) = Some S0.SECURITY_NONCE_GET).
Definition accepts (out : list Msg) : bool :=
  existsb (fun m => match m with NodeSecurityStatus _ _ => true | _ => false end) out.
Definition nonceIdOf (a : Arrival) : Z := (a_data a).[(length (a_data a) - Unwrap.NONCE_ID_FROM_END)%nat].

Definition issuedTo (p id : Z) (l : list Arrival) : nat :=
  length (filter (fun a => issues a = true /\ a_src a = p /\ (a_random a).[0%nat] = id) l).
Definition acceptedFrom (p id : Z) (l : list (Arrival * list Msg)) : nat :=
  length (filter (fun x => accepts x.2 = true /\ a_src x.1 = p /\ nonceIdOf x.1 = id) l).

(** The two handlers on one arrival: a nonce request, something the S0 part does not
    touch, or an S0 frame. *)
Lemma inbound_cases a st tb out st' tb' :
  inbound a st tb = Some (out, st', tb') ->
  (issues a = true /\ accepts out = false /\
   tb' = (S0.NonceTable.generate (a_random a) (a_src a) (a_now a) tb).2) \/
  (issues a = false /\ accepts out = false /\ tb' = tb) \/
  (issues a = false /\
   (out, tb') = Unwrap.unwrapS0 (a_now a) key (Unwrap.controllerNodeId st) (a_src a) (a_data a) tb /\ st' = st).
Proof.
  unfold inbound, issues, Unwrap.onNonceGet. destruct a as [now random src data]. cbn [a_now a_random a_src a_data].
  destruct (S0.commandByte data) as [cmd|] eqn:Hc; [destruct (Z.eqb_spec cmd S0.SECURITY_NONCE_GET) as [->|Hne]|].
  - rewrite bool_decide_eq_true_2 by done. unfold S0.commandByte in Hc.
    destruct (length data <? 2)%nat eqn:Hl; [done|]. destruct (Z.eqb_spec data.[0%nat] S0.COMMAND_CLASS) as [H0|]; [|done].
    cbn [orb negb] in Hc. injection Hc as H1. unfold Unwrap.onApplicationCommand. rewrite Hl, H0, H1. cbn.
    intros [= <- <- <-]. by left.
  - rewrite bool_decide_eq_false_2 by congruence. unfold Unwrap.onApplicationCommand. cbn [mbind option_bind].
    intros Hr. right. repeat case_match; simplify_eq/=; try (left; done). right. done.
  - rewrite bool_decide_eq_false_2 by done. unfold Unwrap.onApplicationCommand. cbn [mbind option_bind].
    intros Hr. right. repeat case_match; simplify_eq/=; try (left; done). right. done.
Qed.

(** What the S0 part does. *)
Lemma unwrapS0_cases now us src data tb :
  let r := Unwrap.unwrapS0 now key us src data tb in
  let id := data.[(length data - Unwrap.NONCE_ID_FROM_END)%nat] in
  r = ([], tb) \/
  exists e, S0.NonceTable.entries tb !! (src, id) = Some e /\
    r.2 = S0.NonceTable.mk (S0.NonceTable.freshness tb) (delete (src, id) (S0.NonceTable.entries tb)) /\
    (r.1 = [] \/
     exists k inner, key = Some k /\ S0.decrypt data src us (S0.NonceTable.nonce e) k = Some inner /\
       now - S0.NonceTable.issued e <= S0.NonceTable.freshness tb /\
       r.1 = [NodeSecurityStatus src SCHEME_S0; AppCommand src inner]).
Proof.
  cbv zeta. unfold Unwrap.unwrapS0. destruct (_ <? _)%nat; [by left|]. destruct key as [k|]; [|by left].
  unfold S0.NonceTable.take. destruct (_ !! _) as [e|] eqn:He; [|by left]. right. exists e.
  destruct (Z.ltb_spec (S0.NonceTable.freshness tb) (now - S0.NonceTable.issued e)); [split_and!; auto|].
  destruct (S0.decrypt _ _ _ _ _) as [inner|] eqn:Hd; split_and!; auto. right. exists k, inner. auto.
Qed.

Definition held (p id : Z) (tb : S0.NonceTable.t) : nat :=
  match S0.NonceTable.entries tb !! (p, id) with Some _ => 1 | None => 0 end.

Lemma filter_cons_length {A} (P : A -> Prop) `{!forall x, Decision (P x)} x l :
  length (filter P (x :: l)) = ((if decide (P x) then 1 else 0) + length (filter P l))%nat.
Proof. rewrite filter_cons. by destruct (decide (P x)). Qed.

(** An accepted frame uses up a nonce held, and a nonce is held only once issued. *)
Lemma inbound_balance p id a st tb out st' tb' :
  inbound a st tb = Some (out, st', tb') ->
  (acceptedFrom p id [(a, out)] + held p id tb' <= issuedTo p id [a] + held p id tb)%nat.
Proof.
  intros Hr. unfold acceptedFrom, issuedTo. rewrite !filter_cons_length. cbn [fst snd].
  rewrite !filter_nil. cbn [length].
  destruct (inbound_cases _ _ _ _ _ _ Hr) as [(Hi&Ha&->)|[(Hi&Ha&->)|(Hi&Hu&->)]]; rewrite Hi.
  - rewrite Ha, (decide_False (P := false = true /\ _)) by (by intros [? _]).
    unfold held, S0.NonceTable.generate. cbn. destruct (decide (a_src a = p /\ (a_random a).[0%nat] = id)) as [[<- <-]|Hn].
    + rewrite decide_True by done. rewrite lookup_insert_eq. case_match; lia.
    + rewrite decide_False by tauto. rewrite lookup_insert_ne by (intros [= ? ?]; tauto). lia.
  - rewrite Ha, !(decide_False (P := false = true /\ _)) by (by intros [? _]). lia.
  - rewrite (decide_False (P := false = true /\ _)) by (by intros [? _]).
    destruct (unwrapS0_cases (a_now a) (Unwrap.controllerNodeId st) (a_src a) (a_data a) tb) as [Hc|(e&He&Htb&Hc)];
      rewrite <-Hu in *; cbn [fst snd] in *.
    + injection Hc as -> ->. rewrite decide_False by (by intros [? _]). lia.
    + subst tb'. unfold held. cbn. fold (nonceIdOf a) in *.
      destruct (decide (a_src a = p /\ nonceIdOf a = id)) as [[<- <-]|Hn].
      * rewrite He, lookup_delete_eq. case_decide; lia.
      * rewrite lookup_delete_ne by (intros [= ? ?]; tauto). rewrite decide_False by tauto. lia.
Qed.

Lemma inboundAll_balance p id l st tb outs st' tb' :
  inboundAll l st tb = Some (outs, st', tb') ->
  (acceptedFrom p id (zip l outs) + held p id tb' <= issuedTo p id l + held p id tb)%nat.
Proof.
  revert st tb outs. induction l as [|a l IH]; intros st tb outs; cbn [inboundAll]; [by intros [= <- <- <-]|].
  destruct (inbound a st tb) as [[[out st1] tb1]|] eqn:Ha; [|done]. cbn [mbind option_bind].
  destruct (inboundAll l st1 tb1) as [[[outs1 st2] tb2]|] eqn:Hl; [|done]. intros [= <- <- <-].
  pose proof (inbound_balance p id _ _ _ _ _ _ Ha) as Hb. specialize (IH _ _ _ Hl).
  unfold acceptedFrom, issuedTo in *. cbn [zip zip_with].
  rewrite !filter_cons_length in *. rewrite !filter_nil in Hb. cbn [length] in Hb. lia.
Qed.

Lemma inboundAll_length l st tb outs st' tb' :
  inboundAll l st tb = Some (outs, st', tb') -> length l = length outs.
Proof.
  revert st tb outs. induction l as [|a l IH]; intros st tb outs; cbn [inboundAll]; [by intros [= <- <- <-]|].
  destruct (inbound a st tb) as [[[out st1] tb1]|]; [|done]. cbn [mbind option_bind].
  destruct (inboundAll l st1 tb1) as [[[outs1 st2] tb2]|] eqn:Hl; [|done]. intros [= <- <- <-].
  cbn. f_equal. by eapply IH.
Qed.

(** Every nonce in the table was issued by an arrival. *)
Definition table_ok (l : list Arrival) (tb : S0.NonceTable.t) : Prop :=
  S0.NonceTable.freshness tb = S0.NonceTable.DEFAULT_FRESHNESS /\
  forall p id e, S0.NonceTable.entries tb !! (p, id) = Some e ->
    exists a, a ∈ l /\ issues a = true /\ a_src a = p /\
      a_random a = S0.NonceTable.nonce e /\ a_now a = S0.NonceTable.issued e.

Lemma inbound_table_ok l a st tb out st' tb' :
  table_ok l tb -> inbound a st tb = Some (out, st', tb') -> table_ok (l ++ [a]) tb'.
Proof.
  intros [Hf Hok] Hr.
  assert (Hmono : forall p id e, S0.NonceTable.entries tb !! (p, id) = Some e ->
    exists b, b ∈ l ++ [a] /\ issues b = true /\ a_src b = p /\
      a_random b = S0.NonceTable.nonce e /\ a_now b = S0.NonceTable.issued e).
  { intros p id e He. destruct (Hok p id e He) as (b&Hb&?). exists b. split; [|done]. rewrite elem_of_app. by left. }
  destruct (inbound_cases _ _ _ _ _ _ Hr) as [(Hi&_&->)|[(_&_&->)|(_&Hu&->)]]; [| |].
  - split; [done|]. intros p id e. cbn. destruct (decide ((a_src a, (a_random a).[0%nat]) = (p, id))) as [Hk|Hk].
    + rewrite Hk, lookup_insert_eq. intros [= <-]. exists a. injection Hk as <- <-.
      split_and!; try done. rewrite elem_of_app, elem_of_cons. auto.
    + rewrite lookup_insert_ne by done. apply Hmono.
  - by split.
  - destruct (unwrapS0_cases (a_now a) (Unwrap.controllerNodeId st) (a_src a) (a_data a) tb) as [Hc|(e&_&Htb&_)];
      rewrite <-Hu in *; cbn [fst snd] in *.
    + injection Hc as -> ->. by split.
    + subst tb'. split; [done|]. cbn. intros p id e' [_ He']%lookup_delete_Some. by apply (Hmono p id).
Qed.

Lemma inboundAll_table_ok l l0 st tb outs st' tb' :
  table_ok l0 tb -> inboundAll l st tb = Some (outs, st', tb') -> table_ok (l0 ++ l) tb'.
Proof.
  revert l0 st tb outs. induction l as [|a l IH]; intros l0 st tb outs Hok; cbn [inboundAll].
  - intros [= <- <- <-]. by rewrite app_nil_r.
  - destruct (inbound a st tb) as [[[out st1] tb1]|] eqn:Ha; [|done]. cbn [mbind option_bind].
    destruct (inboundAll l st1 tb1) as [[[outs1 st2] tb2]|] eqn:Hl; [|done]. intros [= <- <- <-].
    replace (l0 ++ a :: l) with ((l0 ++ [a]) ++ l) by (by rewrite <-app_assoc).
    eapply IH; [|exact Hl]. by eapply inbound_table_ok.
Qed.

(** C20: S0 nonces are fresh and used once.  However commands arrive, an S0 frame is
    accepted only if it authenticates and decrypts under a nonce the controller
    issued to its sender at most ten seconds before; and from a peer no more frames
    are accepted with a nonce identifier than nonces with that identifier were
    issued to it, so that a frame that was accepted is not accepted again. *)
Theorem s0_nonce_single_use l a st0 outs st tb out st' tb' :
  inboundAll l st0 S0.NonceTable.init = Some (outs, st, tb) -> inbound a st tb = Some (out, st', tb') ->
  (forall p id, acceptedFrom p id (zip (l ++ [a]) (outs ++ [out])) <= issuedTo p id (l ++ [a]))%nat /\
  (accepts out = true -> exists b k inner, b ∈ l /\ issues b = true /\ a_src b = a_src a /\
     a_now a - a_now b <= 10 * 1000000000 /\ key = Some k /\
     S0.decrypt (a_data a) (a_src a) (Unwrap.controllerNodeId st) (a_random b) k = Some inner /\
     out = [NodeSecurityStatus (a_src a) SCHEME_S0; AppCommand (a_src a) inner]).
Proof.
  intros Hl Ha. split.
  - intros p id. pose proof (inboundAll_balance p id _ _ _ _ _ _ Hl) as H1.
    pose proof (inbound_balance p id _ _ _ _ _ _ Ha) as H2.
    assert (Hlen : length l = length outs) by (by eapply inboundAll_length).
    unfold acceptedFrom, issuedTo in *. rewrite zip_with_app by done. rewrite !list.filter_app, !length_app.
    change (held p id S0.NonceTable.init) with 0%nat in H1. cbn [zip zip_with] in *. lia.
  - intros Hacc. pose proof (inboundAll_table_ok l [] st0 S0.NonceTable.init outs st tb) as Hok.
    destruct Hok as [Hf Hok]; [split; [done|]; intros p id e He; cbn in He; by rewrite lookup_empty in He|done|].
    destruct (inbound_cases _ _ _ _ _ _ Ha) as [(_&Hn&_)|[(_&Hn&_)|(_&Hu&_)]]; [by rewrite Hacc in Hn..|].
    destruct (unwrapS0_cases (a_now a) (Unwrap.controllerNodeId st) (a_src a) (a_data a) tb) as [Hc|(e&He&_&Hc)];
      rewrite <-Hu in *; cbn [fst snd] in *; [by injection Hc as -> _|].
    destruct Hc as [->|(k&inner&Hk&Hd&Ht&->)]; [done|].
    destruct (Hok _ _ _ He) as (b&Hb&Hi&Hsrc&Hr&Hnow). exists b, k, inner. rewrite Hr, Hnow. rewrite Hf in Ht. by split_and!.
Qed.

End Inbound.

Module S0Run.
Definition o : Oob := 0.
Definition key : list Z := replicate 16 5.
Definition nonce : list Z := [9; 8; 7; 6; 5; 4; 3; 2].
Definition get : Arrival := mkArrival 1000 nonce 3 [0x98; 0x40].
Definition frame : list Z := S0.encrypt (H0 := o) [0x25; 3; 255] 3 1 (replicate 8 1) nonce key.
Definition first : Arrival := mkArrival 2000 [] 3 frame.
Definition start : Unwrap.State := Unwrap.mk ∅ 1.
End S0Run.

Lemma s0_nonce_single_use_witness :
  let outs := [[SendData 3 ([0x98; 0x80] ++ S0Run.nonce) 0]] in
  let out := [NodeSecurityStatus 3 SCHEME_S0; AppCommand 3 [0x25; 3; 255]] in
  (forall p id, Nat.le
    (acceptedFrom (O := S0Run.o) p id (zip [S0Run.get; S0Run.first] (outs ++ [out])))
    (issuedTo (O := S0Run.o) p id [S0Run.get; S0Run.first])) /\
  (accepts out = true -> exists b k inner, b ∈ [S0Run.get] /\ issues (O := S0Run.o) b = true /\ a_src b = 3 /\
     2000 - a_now b <= 10 * 1000000000 /\ Some S0Run.key = Some k /\
     S0.decrypt (H0 := S0Run.o) S0Run.frame 3 1 (a_random b) k = Some inner /\
     out = [NodeSecurityStatus 3 SCHEME_S0; AppCommand 3 inner]).
Proof.
  intros outs out.
  apply (s0_nonce_single_use (O := S0Run.o) (C := S0Toy.crypto) (Some S0Run.key) [S0Run.get] S0Run.first S0Run.start
    outs S0Run.start (S0.NonceTable.generate (H := S0Run.o) S0Run.nonce 3 1000 S0.NonceTable.init).2 out S0Run.start
    S0.NonceTable.init).
  - vm_compute. reflexivity.
  - vm_compute. reflexivity.
Defined.

(** ** Outbound *)

Section OutboundRuns.
Context `{O : Oob} `{L : S0CryptoLaws}.
Context (key : list Z) (n : Z).
Import Outbound.

Fixpoint requestAll (ps : list Pending) (st : State) : list Msg * State :=
  match ps with
  | [] => ([], st)
  | p :: rest =>
      let (m1, st) := onSecureSendRequest n p st in
      let (m2, st) := requestAll rest st in (m1 ++ m2, st)
  end.

(** The node answers with one nonce after the other; with each the sender nonce the
    controller draws. *)
Fixpoint reportAll (nonces : list (list Z * list Z)) (st : State) : list (list Msg) * State :=
  match nonces with
  | [] => ([], st)
  | (nonce, random) :: rest =>
      let (m1, st) := onApplicationCommand (Some key) random n (S0.encodeNonceReport nonce) st in
      let (ms, st) := reportAll rest st in (m1 :: ms, st)
  end.

(** What the node makes of the first message of each answer, with the nonce it had
    handed out for it. *)
Definition opened (us : Z) (x : (list Z * list Z) * list Msg) : option (list Z) :=
  match x.2 with
  | SendData _ frame _ :: _ => S0.decrypt frame us n x.1.1 key
  | _ => None
  end.

Definition callbacks (outs : list (list Msg)) : list Z :=
  omap (fun out => match out with SendData _ _ cb :: _ => Some cb | _ => None end) outs.

Lemma requestAll_queue ps q us :
  requestAll ps (mk q us) =
    (match default [] (q !! n), ps with [], _ :: _ => [requestNonce n] | _, _ => [] end,
     match ps with [] => mk q us | _ => mk (<[n := default [] (q !! n) ++ ps]> q) us end).
Proof.
  revert q. induction ps as [|p ps IH]; intros q; cbn [requestAll]; [by destruct (default _ _)|].
  unfold onSecureSendRequest. cbn [queues controllerNodeId]. rewrite IH, lookup_insert_eq. cbn [default from_option].
  destruct (default [] (q !! n)) as [|p0 l0]; destruct ps; cbn -[insert];
    rewrite ?insert_insert_eq, <-?app_assoc; done.
Qed.

Lemma s0_nonceReport_decode nonce : length nonce = 8%nat -> S0.decodeNonceReport (S0.encodeNonceReport nonce) = Some nonce.
Proof.
  intros Hn. unfold S0.decodeNonceReport, S0.encodeNonceReport. cbn [app length]. rewrite Hn. cbn -[slice].
  unfold slice. cbn [drop]. by rewrite drop_0, take_ge by (rewrite Hn; done).
Qed.

Lemma reportAll_sends nonces ps q us :
  Forall (fun x => length x.1 = 8%nat /\ length x.2 = 8%nat) nonces -> length nonces = length ps -> ps <> [] ->
  q !! n = Some ps ->
  exists outs, reportAll nonces (mk q us) = (outs, mk (delete n q) us) /\
    opened us <$> zip nonces outs = (fun p => Some (payload p)) <$> ps /\
    callbacks outs = callbackId <$> ps /\
    tail <$> outs = replicate (length ps - 1) [requestNonce n] ++ [[]].
Proof.
  intros Hn. revert ps q. induction Hn as [|[nonce random] nonces [Hn1 Hn2] Hn IH]; intros [|p ps] q Hl Hne Hq; [done..|].
  cbn [reportAll]. unfold onApplicationCommand at 1. change (S0.commandByte _) with (Some S0.SECURITY_NONCE_REPORT).
  cbn [negb Z.eqb queues]. change (negb _) with false. cbn iota. rewrite Hq, s0_nonceReport_decode by done.
  cbn [controllerNodeId fst snd] in *. destruct ps as [|p' ps].
  - destruct nonces; [|done]. cbn [reportAll]. eexists. split; [reflexivity|]. split; [|done].
    cbn [zip zip_with fmap list_fmap]. unfold opened. cbn [fst snd]. by rewrite encrypt_opens.
  - destruct (IH (p' :: ps) (<[n := p' :: ps]> q)) as (outs&Hr&Ho&Hc&Ht); [cbn in *; lia|done|apply lookup_insert_eq|].
    rewrite Hr. eexists. split; [by rewrite delete_insert_eq|]. split_and!.
    + cbn [zip zip_with fmap list_fmap]. unfold opened at 1. cbn [fst snd]. rewrite encrypt_opens by done. f_equal. exact Ho.
    + cbn. f_equal. exact Hc.
    + cbn in Ht |- *. rewrite Nat.sub_0_r in Ht. by rewrite Ht.
Qed.

(** C22: a burst of sends to an S0-secure node goes out one frame per nonce: all are
    queued behind a single NONCE_GET, each NONCE_REPORT releases the next payload
    with its callback id, sealed with that nonce so that the node opens it, and is
    followed by the next NONCE_GET while payloads remain; then the queue is gone. *)
Theorem s0_burst_delivered p ps nonces q us :
  q !! n = None -> length nonces = S (length ps) ->
  Forall (fun x => length x.1 = 8%nat /\ length x.2 = 8%nat) nonces ->
  let (first, st1) := requestAll (p :: ps) (mk q us) in
  let (outs, st2) := reportAll nonces st1 in
  first = [requestNonce n] /\ queues st1 !! n = Some (p :: ps) /\ queues st2 !! n = None /\
  opened us <$> zip nonces outs = (fun p => Some (payload p)) <$> p :: ps /\
  callbacks outs = callbackId <$> p :: ps /\
  tail <$> outs = replicate (length ps) [requestNonce n] ++ [[]].
Proof.
  intros Hq Hl Hn. rewrite requestAll_queue, Hq. cbn [default from_option app].
  destruct (reportAll_sends nonces (p :: ps) (<[n := p :: ps]> q) us Hn) as (outs&->&Ho&Hc&Ht);
    [done|done|apply lookup_insert_eq|].
  cbn [length] in Ht. rewrite Nat.sub_0_r in Ht || replace (S (length ps) - 1)%nat with (length ps) in Ht by lia.
  split_and!; try done; [apply lookup_insert_eq|apply lookup_delete_eq].
Qed.

End OutboundRuns.

Lemma s0_burst_delivered_witness :
  let o : Oob := 0 in
  let ps := [Outbound.mkPending [0x25; 1; 255] 7; Outbound.mkPending [0x25; 2] 8] in
  let nonces := [(S0Run.nonce, replicate 8 1); (replicate 8 4, replicate 8 2)] in
  let (first, st1) := requestAll 3 ps (Outbound.mk ∅ 1) in
  let (outs, st2) := reportAll (H := S0Toy.crypto) S0Run.key 3 nonces st1 in
  first = [Outbound.requestNonce 3] /\ Outbound.queues st1 !! 3 = Some ps /\ Outbound.queues st2 !! 3 = None /\
  opened (H := S0Toy.crypto) S0Run.key 3 1 <$> zip nonces outs = [Some [0x25; 1; 255]; Some [0x25; 2]] /\
  callbacks outs = [7; 8] /\ tail <$> outs = [[Outbound.requestNonce 3]; []].
Proof.
  intros o ps nonces.
  apply (s0_burst_delivered (O := o) (L := S0Toy.laws) S0Run.key 3 (Outbound.mkPending [0x25; 1; 255] 7)
    [Outbound.mkPending [0x25; 2] 8] nonces ∅ 1).
  - reflexivity.
  - reflexivity.
  - by repeat constructor.
Defined.

(** ** Inclusion *)

Section Inclusion.
Context `{O : Oob} `{C : S0Crypto}.
Import S0Boot.

Fixpoint answers (key : option (list Z)) (random : list Z) (n : Z) (frames : list (list Z)) (st : State) : list Msg * State :=
  match frames with
  | [] => ([], st)
  | f :: rest =>
      let (m1, st) := onApplicationCommand key random n f st in
      let (m2, st) := answers key random n rest st in (m1 ++ m2, st)
  end.

(** The S0 inclusion takes a node's word for the key: a node that never sends an
    encrypted frame, only a SCHEME_REPORT, any eight-byte nonce and a plain
    NETWORK_KEY_VERIFY, is sent the network key and marked S0-secure. *)
Theorem s0_plain_verify_accepted k random n ccs schemes nonce st :
  S0.COMMAND_CLASS ∈ ccs -> length nonce = 8%nat ->
  let st1 := (onNodeIncluded (Some k) n ccs st).2 in
  let frames := [[S0.COMMAND_CLASS; S0.SECURITY_SCHEME_REPORT; schemes]; S0.encodeNonceReport nonce;
                 [S0.COMMAND_CLASS; S0.SECURITY_NETWORK_KEY_VERIFY]] in
  (answers (Some k) random n frames st1).1 =
    [SendData n S0.encodeNonceGet 0;
     SendData n (S0.encrypt ([S0.COMMAND_CLASS; S0.SECURITY_NETWORK_KEY_SET] ++ k) (controllerNodeId st) n random nonce
                   (replicate 16 0)) 0;
     SetSecurityScheme n SCHEME_S0; NodeSecurityStatus n SCHEME_S0] /\
  sessions (answers (Some k) random n frames st1).2 !! n = None.
Proof.
  intros Hcc Hn. unfold onNodeIncluded. rewrite bool_decide_eq_true_2 by done. cbn [negb snd].
  set (us := controllerNodeId st). set (q := sessions st).
  assert (H1 : onApplicationCommand (Some k) random n [S0.COMMAND_CLASS; S0.SECURITY_SCHEME_REPORT; schemes]
      (mk (<[n := AwaitSchemeReport]> q) us)
    = ([SendData n S0.encodeNonceGet 0], mk (<[n := AwaitNonceReport]> q) us)).
  { unfold onApplicationCommand. cbn [sessions]. rewrite lookup_insert_eq. cbn -[insert]. by rewrite insert_insert_eq. }
  assert (H2 : onApplicationCommand (Some k) random n (S0.encodeNonceReport nonce) (mk (<[n := AwaitNonceReport]> q) us)
    = ([SendData n (S0.encrypt ([S0.COMMAND_CLASS; S0.SECURITY_NETWORK_KEY_SET] ++ k) us n random nonce (replicate 16 0)) 0],
       mk (<[n := AwaitVerify]> q) us)).
  { unfold onApplicationCommand. cbn [sessions]. rewrite lookup_insert_eq.
    change (S0.commandByte _) with (Some S0.SECURITY_NONCE_REPORT). cbv beta zeta iota. rewrite Z.eqb_refl.
    rewrite s0_nonceReport_decode by done. cbn -[insert S0.encrypt replicate]. by rewrite insert_insert_eq. }
  assert (H3 : onApplicationCommand (Some k) random n [S0.COMMAND_CLASS; S0.SECURITY_NETWORK_KEY_VERIFY]
      (mk (<[n := AwaitVerify]> q) us)
    = ([SetSecurityScheme n SCHEME_S0; NodeSecurityStatus n SCHEME_S0], mk (delete n (<[n := AwaitVerify]> q)) us)).
  { unfold onApplicationCommand. cbn [sessions]. by rewrite lookup_insert_eq. }
  cbn [answers]. rewrite H1, H2, H3. split; [done|]. apply lookup_delete_eq.
Qed.

End Inclusion.

Lemma s0_plain_verify_accepted_witness :
  let o : Oob := 0 in
  let st1 := (S0Boot.onNodeIncluded (Some S0Run.key) 9 [0x98] (S0Boot.mk ∅ 1)).2 in
  let frames := [[0x98; 0x05; 0]; S0.encodeNonceReport S0Run.nonce; [0x98; 0x07]] in
  (answers (C := S0Toy.crypto) (Some S0Run.key) (replicate 8 1) 9 frames st1).1 =
    [SendData 9 S0.encodeNonceGet 0;
     SendData 9 (S0.encrypt ([0x98; 0x06] ++ S0Run.key) 1 9 (replicate 8 1) S0Run.nonce (replicate 16 0)) 0;
     SetSecurityScheme 9 SCHEME_S0; NodeSecurityStatus 9 SCHEME_S0] /\
  S0Boot.sessions (answers (C := S0Toy.crypto) (Some S0Run.key) (replicate 8 1) 9 frames st1).2 !! 9 = None.
Proof.
  intros o. apply (s0_plain_verify_accepted (O := o) (C := S0Toy.crypto) S0Run.key (replicate 8 1) 9 [0x98] 0 S0Run.nonce
    (S0Boot.mk ∅ 1)).
  - apply (bool_decide_unpack _). vm_compute. exact I.
  - reflexivity.
Defined.
