(* ===== verification/Sqlite.v ===== *)
(** * The database handle the stores share

    [Sqlite::Db] and [Sqlite::Stmt] of [sqlite/Sqlite.hpp] as the stores use them,
    and the home-id text every table is keyed by.  A store's table is a value of
    the store's own type; the statements it runs are functions on it, written next
    to the store from the SQL in its source.  Whether a statement can be prepared,
    and whether its steps succeed, is SQLite's: the parameter [SqliteEnv], asked
    once per statement. *)

From Stdlib Require Import String Ascii.
From S2P Require Import Prelude.
From stdpp Require Import gmap strings.
#[local] Open Scope Z_scope.

(** What becomes of the [n]-th statement of a connection: [prepare] fails, a step
    fails after [rows] rows, or it runs to [SQLITE_DONE]. *)
Inductive Outcome := PrepareFails | StepFails (rows : nat) | Runs.

Class SqliteEnv := outcome : nat -> Outcome.

(** Every statement runs. *)
Definition reliable (e : SqliteEnv) : Prop := forall n, e n = Runs.
Definition alwaysRuns : SqliteEnv := fun _ => Runs.

Lemma alwaysRuns_reliable : reliable alwaysRuns.
Proof. done. Qed.

(** An open connection to a file with the table [T], or the closed handle of the
    default constructor and of a failed open. *)
Record Db (T : Type) := mkDb { handle : bool; table : T; ran : nat }.
Arguments mkDb {T} _ _ _.
Arguments handle {T} _.
Arguments table {T} _.
Arguments ran {T} _.

(** [Db::valid] *)
Definition valid {T} (db : Db T) : bool := handle db.

(** [Db::close] *)
Definition close {T} (db : Db T) : Db T := mkDb false (table db) (ran db).

Section Statements.
Context `{e : SqliteEnv} {T R : Type}.

Definition spent (db : Db T) : Db T := mkDb (handle db) (table db) (S (ran db)).

(** [prepare] then bindings then [execDone]: whether it was prepared, and the
    database after it.  A failed step is only logged. *)
Definition write (f : T -> T) (db : Db T) : bool * Db T :=
  if negb (handle db) then (false, db) else
  match e (ran db) with
  | PrepareFails => (false, spent db)
  | StepFails _ => (true, spent db)
  | Runs => (true, mkDb (handle db) (f (table db)) (S (ran db)))
  end.

(** [prepare] then the loop [while (step() == SQLITE_ROW)]: the rows seen, [None]
    when the statement could not be prepared.  A loop ended by an error looks like
    one that reached the end. *)
Definition select (q : T -> list R) (db : Db T) : option (list R) * Db T :=
  if negb (handle db) then (None, db) else
  match e (ran db) with
  | PrepareFails => (None, spent db)
  | StepFails k => (Some (take k (q (table db))), spent db)
  | Runs => (Some (q (table db)), spent db)
  end.

(** [if (stmt.step() != SQLITE_ROW)] for at most one row. *)
Definition selectOne (q : T -> option R) (db : Db T) : option R * Db T :=
  let (rows, db) := select (fun t => option_list (q t)) db in (rows ≫= head, db).

Lemma write_reliable f db :
  reliable e -> valid db = true ->
  write f db = (true, mkDb true (f (table db)) (S (ran db))).
Proof. unfold valid, write. by intros -> ->. Qed.

Lemma select_reliable q db :
  reliable e -> valid db = true -> select q db = (Some (q (table db)), spent db).
Proof. unfold valid, select. by intros -> ->. Qed.

Lemma selectOne_reliable q db :
  reliable e -> valid db = true -> selectOne q db = (q (table db), spent db).
Proof.
  intros. unfold selectOne. pose proof select_reliable as Hs.
  unfold select, valid in *. rewrite H, H0. cbn. by destruct (q (table db)).
Qed.

Lemma write_valid f db : valid (write f db).2 = valid db.
Proof.
  unfold valid, write. destruct (handle db) eqn:Hh; cbn; [|done].
  by destruct (e (ran db)); cbn; rewrite ?Hh.
Qed.

Lemma select_valid q db : valid (select q db).2 = valid db.
Proof.
  unfold valid, select. destruct (handle db) eqn:Hh; cbn; [|done].
  by destruct (e (ran db)); cbn; rewrite ?Hh.
Qed.

Lemma select_table q db : table (select q db).2 = table db.
Proof.
  unfold select. destruct (handle db); cbn; [|done]. by destruct (e (ran db)).
Qed.

Lemma select_Forall (P : R -> Prop) q db rows :
  Forall P (q (table db)) -> (select q db).1 = Some rows -> Forall P rows.
Proof.
  unfold select. intros HP. destruct (handle db); cbn [negb]; [|done].
  destruct (e (ran db)); intros [=<-]; [|done]. by apply Forall_take.
Qed.

(** One row or, when the statement fails, none; the table stays. *)
Lemma selectOne_cases q db :
  ((selectOne q db).1 = None \/ (selectOne q db).1 = q (table db)) /\ table (selectOne q db).2 = table db.
Proof.
  unfold selectOne, select. destruct (handle db); cbn; [|by split; [left|]].
  destruct (e (ran db)) as [|k|]; cbn; (split; [|done]); destruct (q (table db)); auto; destruct k; cbn; auto.
Qed.

(** A write that does not happen leaves the table as it was. *)
Lemma write_table f db : table (write f db).2 = table db \/ table (write f db).2 = f (table db).
Proof.
  unfold write. destruct (handle db); cbn; [|by left].
  destruct (e (ran db)); cbn; auto.
Qed.
End Statements.

(** ** The home id as text *)

(** [std::hex << std::uppercase << std::setw(2) << std::setfill('0')] *)
Definition hexUpper (n : Z) : ascii :=
  if n <? 10 then ascii_of_nat (Z.to_nat (48 + n)) else ascii_of_nat (Z.to_nat (55 + n)).

(** [hexDigits.at(n)] *)
Definition hexLower (n : Z) : ascii :=
  if n <? 10 then ascii_of_nat (Z.to_nat (48 + n)) else ascii_of_nat (Z.to_nat (87 + n)).

Definition hexBytes (digit : Z -> ascii) (bytes : list Z) : string :=
  String.string_of_list_ascii (flat_map (fun b => [digit (b / 16); digit (b mod 16)]) bytes).

Definition formatHomeId (bytes : list Z) : string := hexBytes hexUpper bytes.
Definition toHex (bytes : list Z) : string := hexBytes hexLower bytes.

Lemma string_of_list_ascii_inj l k :
  String.string_of_list_ascii l = String.string_of_list_ascii k -> l = k.
Proof.
  intros H. apply (f_equal String.list_ascii_of_string) in H.
  by rewrite !String.list_ascii_of_string_of_list_ascii in H.
Qed.

Definition digit_differs (digit : Z -> ascii) (x y : Z) : bool :=
  (x =? y) || negb (bool_decide (digit x = digit y)).
Definition digits_differ (digit : Z -> ascii) : bool :=
  forallb (fun x => forallb (digit_differs digit x) (seqZ 0 16)) (seqZ 0 16).

Lemma hexBytes_inj digit l k :
  digits_differ digit = true -> bytes_ok l -> bytes_ok k -> hexBytes digit l = hexBytes digit k -> l = k.
Proof.
  intros Hd Hl Hk Heq. apply string_of_list_ascii_inj in Heq. revert k Hk Heq.
  assert (Hinj : forall x y, 0 <= x < 16 -> 0 <= y < 16 -> digit x = digit y -> x = y).
  { intros x y Hx Hy E.
    pose proof (range_forall2 (digit_differs digit) 16 16 Hd x y Hx Hy) as H. unfold digit_differs in H.
    rewrite bool_decide_eq_true_2, orb_false_r in H by done. by apply Z.eqb_eq. }
  clear Hd.
  induction Hl as [|b l Hb Hl IH]; intros [|c k] Hk Heq; try done.
  apply Forall_cons in Hk as [Hc Hk]. cbn in Heq. injection Heq as E1 E2 E3.
  unfold byte_ok in *.
  apply Hinj in E1; [|split; [apply Z.div_pos|apply Z.div_lt_upper_bound]; lia..].
  apply Hinj in E2; [|apply Z.mod_pos_bound; lia..].
  rewrite (IH k Hk E3). f_equal. clear -E1 E2.
  pose proof (Z.div_mod b 16). pose proof (Z.div_mod c 16). lia.
Qed.

(** Two networks never share rows: distinct home ids have distinct texts. *)
Lemma formatHomeId_inj l k :
  bytes_ok l -> bytes_ok k -> formatHomeId l = formatHomeId k -> l = k.
Proof. apply hexBytes_inj. by vm_compute. Qed.

Lemma toHex_inj l k : bytes_ok l -> bytes_ok k -> toHex l = toHex k -> l = k.
Proof. apply hexBytes_inj. by vm_compute. Qed.
