(* ===== verification/NodeRegistry.v ===== *)
(** * The node registry

    [node-registry/NodeRegistry.cpp]: the in-memory map of the nodes of the bound
    network, mirrored in the table [nodes] that is keyed by (home id, node id).  An
    operation takes the state and returns the [NodeListChanged] events it publishes
    with the state after it.  Fields the code sets together are kept in records of
    their own. *)

From Stdlib Require Import String.
From S2P Require Import Prelude Sqlite.
From stdpp Require Import gmap strings.
#[local] Open Scope Z_scope.

Module Registry.

(** [SecurityScheme], by its persisted number. *)
Definition SCHEME_NONE : Z := 0.
Definition SCHEME_S0 : Z := 1.
Definition SCHEME_S2_UNAUTHENTICATED : Z := 2.
Definition SCHEME_S2_AUTHENTICATED : Z := 3.
Definition SCHEME_S2_ACCESS_CONTROL : Z := 4.

Record DeviceClass := mkClass { basicType : Z; genericType : Z; specificType : Z }.
Record Identity := mkIdentity { manufacturerId : Z; productTypeId : Z; productId : Z }.
Record VersionInfo := mkVersion {
  libraryType : Z; protocolVersion : Z; protocolSubVersion : Z;
  applicationVersion : Z; applicationSubVersion : Z }.
Record Endpoints := mkEndpoints {
  endpointCount : Z; endpointsDynamic : bool; endpointsIdentical : bool }.
Record ZWavePlus := mkZWavePlus {
  zwavePlusVersion : Z; roleType : Z; nodeType : Z; installerIconType : Z; userIconType : Z }.

Record NodeInfo := mkInfo {
  nodeId : Z; deviceClass : DeviceClass; commandClasses : list Z; securityScheme : Z;
  identity : Identity; version : VersionInfo; endpoints : Endpoints; zwavePlus : ZWavePlus }.

Definition noIdentity := mkIdentity 0 0 0.
Definition noVersion := mkVersion 0 0 0 0 0.
Definition noEndpoints := mkEndpoints 0 false false.
Definition noZWavePlus := mkZWavePlus 0 0 0 0 0.

(** A [NodeInfo] with the fields an inclusion knows, the rest at their defaults. *)
Definition included (id : Z) (c : DeviceClass) (ccs : list Z) : NodeInfo :=
  mkInfo id c ccs SCHEME_NONE noIdentity noVersion noEndpoints noZWavePlus.

(** A row of [nodes]: the columns next to its key.  Booleans are stored as 0 and 1,
    and an empty class list as NULL. *)
Record Row := mkRow {
  c_class : DeviceClass; c_ccs : list Z; c_scheme : Z; c_identity : Identity; c_version : VersionInfo;
  c_ep_count : Z; c_ep_dynamic : Z; c_ep_identical : Z; c_zwp : ZWavePlus }.

Abbreviation Key := (string * Z)%type.
Abbreviation Nodes := (gmap Key Row).

(** One entry of the event [NodeListChanged]. *)
Record NodeEntry := mkEntry { e_nodeId : Z; e_class : DeviceClass; e_ccs : list Z }.

Record State := mkState { nodes : gmap Z NodeInfo; currentHomeId : option string; db : Db Nodes }.

(** *** The statements *)

(** [UPSERT_SQL]: a new row takes the defaults of the schema, an existing one keeps
    its other columns. *)
Definition UPSERT (key : Key) (c : DeviceClass) (ccs : list Z) (t : Nodes) : Nodes :=
  <[key := match t !! key with
           | None => mkRow c ccs 0 noIdentity noVersion 0 0 0 noZWavePlus
           | Some r => mkRow c ccs (c_scheme r) (c_identity r) (c_version r)
                         (c_ep_count r) (c_ep_dynamic r) (c_ep_identical r) (c_zwp r)
           end]> t.

Definition DELETE (key : Key) (t : Nodes) : Nodes := delete key t.

Definition SET_SCHEME (key : Key) (s : Z) : Nodes -> Nodes :=
  alter (fun r => mkRow (c_class r) (c_ccs r) s (c_identity r) (c_version r)
                    (c_ep_count r) (c_ep_dynamic r) (c_ep_identical r) (c_zwp r)) key.
Definition SET_IDENTITY (key : Key) (i : Identity) : Nodes -> Nodes :=
  alter (fun r => mkRow (c_class r) (c_ccs r) (c_scheme r) i (c_version r)
                    (c_ep_count r) (c_ep_dynamic r) (c_ep_identical r) (c_zwp r)) key.
Definition SET_VERSION (key : Key) (v : VersionInfo) : Nodes -> Nodes :=
  alter (fun r => mkRow (c_class r) (c_ccs r) (c_scheme r) (c_identity r) v
                    (c_ep_count r) (c_ep_dynamic r) (c_ep_identical r) (c_zwp r)) key.
Definition SET_ENDPOINTS (key : Key) (count dyn ident : Z) : Nodes -> Nodes :=
  alter (fun r => mkRow (c_class r) (c_ccs r) (c_scheme r) (c_identity r) (c_version r)
                    count dyn ident (c_zwp r)) key.
Definition SET_ZWAVEPLUS (key : Key) (z : ZWavePlus) : Nodes -> Nodes :=
  alter (fun r => mkRow (c_class r) (c_ccs r) (c_scheme r) (c_identity r) (c_version r)
                    (c_ep_count r) (c_ep_dynamic r) (c_ep_identical r) z) key.

(** [SELECT_FOR_HOME_SQL] *)
Definition SELECT_FOR_HOME (home : string) (t : Nodes) : list (Z * Row) :=
  omap (fun kr : Key * Row => if decide (kr.1.1 = home) then Some (kr.1.2, kr.2) else None) (map_to_list t).

(** The body of the loop of [loadNodesForHome]: the columns narrowed to the fields. *)
Definition rowInfo (node_id : Z) (r : Row) : NodeInfo :=
  mkInfo (u8 node_id)
    (mkClass (u8 (basicType (c_class r))) (u8 (genericType (c_class r))) (u8 (specificType (c_class r))))
    (c_ccs r) (u8 (c_scheme r))
    (mkIdentity (u16 (manufacturerId (c_identity r))) (u16 (productTypeId (c_identity r)))
       (u16 (productId (c_identity r))))
    (mkVersion (u8 (libraryType (c_version r))) (u8 (protocolVersion (c_version r)))
       (u8 (protocolSubVersion (c_version r))) (u8 (applicationVersion (c_version r)))
       (u8 (applicationSubVersion (c_version r))))
    (mkEndpoints (u8 (c_ep_count r)) (negb (c_ep_dynamic r =? 0)) (negb (c_ep_identical r =? 0)))
    (mkZWavePlus (u8 (zwavePlusVersion (c_zwp r))) (u8 (roleType (c_zwp r))) (u8 (nodeType (c_zwp r)))
       (u16 (installerIconType (c_zwp r))) (u16 (userIconType (c_zwp r)))).

(** [result.emplace]: the first of two rows with one node id stays. *)
Definition emplaceAll (rows : list (Z * Row)) : gmap Z NodeInfo :=
  foldl (fun m (kr : Z * Row) =>
           let info := rowInfo kr.1 kr.2 in
           match m !! nodeId info with Some _ => m | None => <[nodeId info := info]> m end) ∅ rows.

Section Operations.
Context `{SqliteEnv}.

Definition loadNodesForHome (home : string) (d : Db Nodes) : gmap Z NodeInfo * Db Nodes :=
  let (rows, d) := select (SELECT_FOR_HOME home) d in
  (match rows with None => ∅ | Some rows => emplaceAll rows end, d).

Definition persistAdd (home : string) (info : NodeInfo) (d : Db Nodes) : Db Nodes :=
  if negb (valid d) then d else
  (write (UPSERT (home, nodeId info) (deviceClass info) (commandClasses info)) d).2.

Definition persistRemove (home : string) (id : Z) (d : Db Nodes) : Db Nodes :=
  if negb (valid d) then d else (write (DELETE (home, id)) d).2.

(** The entries of a [std::map] keyed by a byte, in ascending order. *)
Definition inOrder (m : gmap Z NodeInfo) : list NodeInfo := omap (fun id => m !! id) (seqZ 0 256).

Definition snapshotEvent (st : State) : list NodeEntry :=
  (fun i => mkEntry (nodeId i) (deviceClass i) (commandClasses i)) <$> inOrder (nodes st).

Definition snapshot (st : State) : list NodeInfo := inOrder (nodes st).

(** [withBoundHome]: the mutator runs under a bound home, and a change is announced. *)
Definition withBoundHome (mutator : string -> State -> bool * State) (st : State)
    : list (list NodeEntry) * State :=
  match currentHomeId st with
  | None => ([], st)
  | Some home =>
      let (changed, st) := mutator home st in
      (if changed then [snapshotEvent st] else [], st)
  end.

Definition setHomeId (homeIdBytes : list Z) (st : State) : list (list NodeEntry) * State :=
  let home := formatHomeId homeIdBytes in
  if decide (currentHomeId st = Some home) then ([], st) else
  let st :=
    if valid (db st) then
      let (loaded, d) := loadNodesForHome home (db st) in mkState loaded (Some home) d
    else mkState ∅ (Some home) (db st) in
  ([snapshotEvent st], st).

Definition add (info : NodeInfo) : State -> list (list NodeEntry) * State :=
  withBoundHome (fun home st =>
    (true, mkState (<[nodeId info := info]> (nodes st)) (currentHomeId st) (persistAdd home info (db st)))).

Definition remove (id : Z) : State -> list (list NodeEntry) * State :=
  withBoundHome (fun home st =>
    (true, mkState (delete id (nodes st)) (currentHomeId st) (persistRemove home id (db st)))).

Definition seed (id : Z) : State -> list (list NodeEntry) * State :=
  withBoundHome (fun home st =>
    match nodes st !! id with
    | Some _ => (false, st)
    | None =>
        let info := included id (mkClass 0 0 0) [] in
        (true, mkState (<[id := info]> (nodes st)) (currentHomeId st) (persistAdd home info (db st)))
    end).

(** The entry with another class list, or another device class. *)
Definition withCommandClasses (ccs : list Z) (i : NodeInfo) : NodeInfo :=
  mkInfo (nodeId i) (deviceClass i) ccs (securityScheme i) (identity i) (version i) (endpoints i) (zwavePlus i).
Definition withDeviceClass (c : DeviceClass) (i : NodeInfo) : NodeInfo :=
  mkInfo (nodeId i) c (commandClasses i) (securityScheme i) (identity i) (version i) (endpoints i) (zwavePlus i).

Definition updateCommandClasses (id : Z) (ccs : list Z) : State -> list (list NodeEntry) * State :=
  withBoundHome (fun home st =>
    match nodes st !! id with
    | None => (false, st)
    | Some i =>
        let i := withCommandClasses ccs i in
        (true, mkState (<[id := i]> (nodes st)) (currentHomeId st) (persistAdd home i (db st)))
    end).

Definition updateDeviceClass (id basic generic specific : Z) : State -> list (list NodeEntry) * State :=
  withBoundHome (fun home st =>
    match nodes st !! id with
    | None => (false, st)
    | Some i =>
        let i := withDeviceClass (mkClass basic generic specific) i in
        (true, mkState (<[id := i]> (nodes st)) (currentHomeId st) (persistAdd home i (db st)))
    end).

(** What the five recorders of interview results share: the entry, if there is
    one, is changed in memory, and in the table when there is one and a home. *)
Definition recordField (id : Z) (f : NodeInfo -> NodeInfo) (stmt : Key -> Nodes -> Nodes) (st : State) : State :=
  match nodes st !! id with
  | None => st
  | Some i =>
      let m := <[id := f i]> (nodes st) in
      match currentHomeId st with
      | Some home =>
          if valid (db st) then mkState m (currentHomeId st) (write (stmt (home, id)) (db st)).2
          else mkState m (currentHomeId st) (db st)
      | None => mkState m None (db st)
      end
  end.

Definition setSecurityScheme (id scheme : Z) : State -> State :=
  recordField id
    (fun i => mkInfo (nodeId i) (deviceClass i) (commandClasses i) scheme (identity i) (version i)
                (endpoints i) (zwavePlus i))
    (fun k => SET_SCHEME k scheme).

Definition setDeviceIdentity (id mfr typ prod : Z) : State -> State :=
  let v := mkIdentity mfr typ prod in
  recordField id
    (fun i => mkInfo (nodeId i) (deviceClass i) (commandClasses i) (securityScheme i) v (version i)
                (endpoints i) (zwavePlus i))
    (fun k => SET_IDENTITY k v).

Definition setVersionInfo (id lib proto protoSub app appSub : Z) : State -> State :=
  let v := mkVersion lib proto protoSub app appSub in
  recordField id
    (fun i => mkInfo (nodeId i) (deviceClass i) (commandClasses i) (securityScheme i) (identity i) v
                (endpoints i) (zwavePlus i))
    (fun k => SET_VERSION k v).

Definition setEndpointInfo (id count : Z) (dynamic identical : bool) : State -> State :=
  let v := mkEndpoints count dynamic identical in
  recordField id
    (fun i => mkInfo (nodeId i) (deviceClass i) (commandClasses i) (securityScheme i) (identity i) (version i)
                v (zwavePlus i))
    (fun k => SET_ENDPOINTS k count (if dynamic then 1 else 0) (if identical then 1 else 0)).

Definition setZWavePlusInfo (id ver role ntype icon user : Z) : State -> State :=
  let v := mkZWavePlus ver role ntype icon user in
  recordField id
    (fun i => mkInfo (nodeId i) (deviceClass i) (commandClasses i) (securityScheme i) (identity i) (version i)
                (endpoints i) v)
    (fun k => SET_ZWAVEPLUS k v).

Definition securitySchemeOf (id : Z) (st : State) : Z :=
  match nodes st !! id with None => SCHEME_NONE | Some i => securityScheme i end.

Definition isSecure (id : Z) (st : State) : bool :=
  match nodes st !! id with None => false | Some i => negb (securityScheme i =? SCHEME_NONE) end.

(** *** Every operation, as one type *)

Inductive Op :=
| Bind (homeIdBytes : list Z)
| Add (info : NodeInfo)
| Remove (id : Z)
| Seed (id : Z)
| UpdateCommandClasses (id : Z) (ccs : list Z)
| UpdateDeviceClass (id : Z) (c : DeviceClass)
| SetSecurityScheme (id scheme : Z)
| SetDeviceIdentity (id : Z) (v : Identity)
| SetVersionInfo (id : Z) (v : VersionInfo)
| SetEndpointInfo (id : Z) (v : Endpoints)
| SetZWavePlusInfo (id : Z) (v : ZWavePlus).

Definition step (op : Op) (st : State) : list (list NodeEntry) * State :=
  match op with
  | Bind h => setHomeId h st
  | Add i => add i st
  | Remove id => remove id st
  | Seed id => seed id st
  | UpdateCommandClasses id ccs => updateCommandClasses id ccs st
  | UpdateDeviceClass id c => updateDeviceClass id (basicType c) (genericType c) (specificType c) st
  | SetSecurityScheme id s => ([], setSecurityScheme id s st)
  | SetDeviceIdentity id v =>
      ([], setDeviceIdentity id (manufacturerId v) (productTypeId v) (productId v) st)
  | SetVersionInfo id v =>
      ([], setVersionInfo id (libraryType v) (protocolVersion v) (protocolSubVersion v)
             (applicationVersion v) (applicationSubVersion v) st)
  | SetEndpointInfo id v =>
      ([], setEndpointInfo id (endpointCount v) (endpointsDynamic v) (endpointsIdentical v) st)
  | SetZWavePlusInfo id v =>
      ([], setZWavePlusInfo id (zwavePlusVersion v) (roleType v) (nodeType v) (installerIconType v)
             (userIconType v) st)
  end.

Fixpoint run (ops : list Op) (st : State) : list (list NodeEntry) * State :=
  match ops with
  | [] => ([], st)
  | op :: ops =>
      let (ev, st) := step op st in
      let (evs, st) := run ops st in (ev ++ evs, st)
  end.

End Operations.

(** The registry of a process that has just started on the table of [st]. *)
Definition restarted (st : State) : State := mkState ∅ None (db st).

#[global] Arguments inOrder _ : simpl never.
#[global] Arguments snapshotEvent _ : simpl never.

(** ** The cache and its table *)

(** Every field within its C++ type. *)
Definition word_ok (z : Z) : Prop := 0 <= z < 65536.
Definition class_ok (c : DeviceClass) : Prop :=
  byte_ok (basicType c) /\ byte_ok (genericType c) /\ byte_ok (specificType c).
Definition identity_ok (i : Identity) : Prop :=
  word_ok (manufacturerId i) /\ word_ok (productTypeId i) /\ word_ok (productId i).
Definition version_ok (v : VersionInfo) : Prop :=
  byte_ok (libraryType v) /\ byte_ok (protocolVersion v) /\ byte_ok (protocolSubVersion v) /\
  byte_ok (applicationVersion v) /\ byte_ok (applicationSubVersion v).
Definition zwavePlus_ok (z : ZWavePlus) : Prop :=
  byte_ok (zwavePlusVersion z) /\ byte_ok (roleType z) /\ byte_ok (nodeType z) /\
  word_ok (installerIconType z) /\ word_ok (userIconType z).
Definition info_ok (i : NodeInfo) : Prop :=
  byte_ok (nodeId i) /\ class_ok (deviceClass i) /\ byte_ok (securityScheme i) /\
  identity_ok (identity i) /\ version_ok (version i) /\ byte_ok (endpointCount (endpoints i)) /\
  zwavePlus_ok (zwavePlus i).

(** The arguments of an operation are of their C++ types. *)
Definition typed (op : Op) : Prop :=
  match op with
  | Bind h => bytes_ok h
  | Add i => info_ok i
  | Remove id => byte_ok id
  | Seed id => byte_ok id
  | UpdateCommandClasses id ccs => byte_ok id
  | UpdateDeviceClass id c => byte_ok id /\ class_ok c
  | SetSecurityScheme id s => byte_ok id /\ byte_ok s
  | SetDeviceIdentity id v => byte_ok id /\ identity_ok v
  | SetVersionInfo id v => byte_ok id /\ version_ok v
  | SetEndpointInfo id v => byte_ok id /\ byte_ok (endpointCount v)
  | SetZWavePlusInfo id v => byte_ok id /\ zwavePlus_ok v
  end.

(** Nothing but its inclusion is known of a node. *)
Definition blank (i : NodeInfo) : Prop := i = included (nodeId i) (deviceClass i) (commandClasses i).

(** Every [add] of the daemon is a blank entry ... *)
Definition blank_add (op : Op) : Prop := match op with Add i => blank i | _ => True end.

(** ... and this one is of a node of which nothing has been recorded. *)
Definition unrecorded (op : Op) (st : State) : Prop :=
  match op with Add i => forall j, nodes st !! nodeId i = Some j -> blank j | _ => True end.

(** The row that stores an entry. *)
Definition rowOf (i : NodeInfo) : Row :=
  mkRow (deviceClass i) (commandClasses i) (securityScheme i) (identity i) (version i)
    (endpointCount (endpoints i)) (if endpointsDynamic (endpoints i) then 1 else 0)
    (if endpointsIdentical (endpoints i) then 1 else 0) (zwavePlus i).

Definition row_ok (k : Key) (r : Row) : Prop := exists i, info_ok i /\ nodeId i = k.2 /\ r = rowOf i.

Definition table_ok (t : Nodes) : Prop := map_Forall row_ok t.

(** The invariant: the cache of the bound network is what a load would give. *)
Definition coherent (st : State) : Prop :=
  valid (db st) = true /\ table_ok (table (db st)) /\
  match currentHomeId st with
  | None => nodes st = ∅
  | Some h => forall id, nodes st !! id = rowInfo id <$> table (db st) !! (h, id)
  end.

Lemma rowInfo_rowOf i : info_ok i -> rowInfo (nodeId i) (rowOf i) = i.
Proof.
  destruct i as [n [b g s] ccs sch [m pt p] [l1 l2 l3 l4 l5] [ec ed ei] [z1 z2 z3 z4 z5]].
  unfold info_ok, class_ok, identity_ok, version_ok, zwavePlus_ok, word_ok.
  cbn -[byte_ok]. intros. destruct_and!. unfold rowInfo. cbn.
  rewrite !u8_id, !u16_id by done. by destruct ed, ei.
Qed.

Lemma lookup_select h t id : list_to_map (M := gmap Z Row) (SELECT_FOR_HOME h t) !! id = t !! (h, id).
Proof.
  assert (Hin : forall r, (id, r) ∈ SELECT_FOR_HOME h t <-> t !! (h, id) = Some r).
  { intros r. unfold SELECT_FOR_HOME. rewrite list_elem_of_omap. split.
    - intros ([[h' id'] r'] & Hin & Hs). apply elem_of_map_to_list in Hin. cbn in Hs.
      case_decide; by simplify_eq.
    - intros Hl. exists (h, id, r). rewrite elem_of_map_to_list. cbn. by rewrite decide_True. }
  destruct (t !! (h, id)) as [r|] eqn:Ht.
  - apply elem_of_list_to_map_1'; [|by apply Hin]. intros r' Hr'. apply Hin in Hr'. by simplify_eq.
  - apply not_elem_of_list_to_map_1. intros ([id' r] & E & Hr)%list_elem_of_fmap. cbn in E. subst id'.
    apply Hin in Hr. by simplify_eq.
Qed.

Lemma emplaceAll_lookup rows id :
  Forall (fun kr : Z * Row => byte_ok kr.1) rows ->
  emplaceAll rows !! id = rowInfo id <$> list_to_map (M := gmap Z Row) rows !! id.
Proof.
  unfold emplaceAll. intros Hok.
  assert (Hgen : forall acc : gmap Z NodeInfo, foldl (fun m (kr : Z * Row) =>
      let info := rowInfo kr.1 kr.2 in
      match m !! nodeId info with Some _ => m | None => <[nodeId info := info]> m end) acc rows !! id
    = match acc !! id with Some x => Some x | None => rowInfo id <$> list_to_map (M := gmap Z Row) rows !! id end).
  { induction Hok as [|[k r] rows Hk Hok IH]; intros acc; cbn; [by destruct (acc !! id)|].
    cbn in Hk. rewrite IH, u8_id by done. destruct (decide (k = id)) as [->|Hne].
    - rewrite lookup_insert_eq. destruct (acc !! id) eqn:Ha; [by rewrite Ha|].
      by rewrite lookup_insert_eq.
    - rewrite lookup_insert_ne by done. destruct (acc !! k); [done|]. by rewrite lookup_insert_ne. }
  by rewrite Hgen, lookup_empty.
Qed.

Lemma select_bytes h t : table_ok t -> Forall (fun kr : Z * Row => byte_ok kr.1) (SELECT_FOR_HOME h t).
Proof.
  intros Ht. apply Forall_forall. intros [id r] ([[h' id'] r'] & Hin & Hs)%list_elem_of_omap.
  apply elem_of_map_to_list in Hin. cbn in Hs. case_decide; simplify_eq/=.
  destruct (Ht _ _ Hin) as (i & Hok & Hid & _). cbn in Hid. subst. apply Hok.
Qed.

Lemma load_lookup h t id :
  table_ok t -> emplaceAll (SELECT_FOR_HOME h t) !! id = rowInfo id <$> t !! (h, id).
Proof. intros Ht. by rewrite emplaceAll_lookup, lookup_select by by apply select_bytes. Qed.

Lemma alter_insert_id {A} (f : A -> A) (k : Key) (t : gmap Key A) r :
  t !! k = Some r -> alter f k t = <[k := f r]> t.
Proof.
  intros Hk. apply map_eq. intros k'. destruct (decide (k = k')) as [<-|Hne].
  - by rewrite lookup_alter_eq, Hk, lookup_insert_eq.
  - by rewrite lookup_alter_ne, lookup_insert_ne.
Qed.

(** An entry of the cache is stored in its row. *)
Lemma coherent_row st h id i :
  coherent st -> currentHomeId st = Some h -> nodes st !! id = Some i ->
  info_ok i /\ nodeId i = id /\ table (db st) !! (h, id) = Some (rowOf i).
Proof.
  intros (Hv & Ht & Hc) Hh Hi. rewrite Hh in Hc. rewrite Hc in Hi.
  apply fmap_Some in Hi as (r & Hr & ->). destruct (Ht _ _ Hr) as (j & Hj & Hid & ->). cbn in Hid. subst id.
  by rewrite rowInfo_rowOf.
Qed.

Lemma coherent_insert st h i n :
  coherent st -> currentHomeId st = Some h -> info_ok i ->
  coherent (mkState (<[nodeId i := i]> (nodes st)) (Some h) (mkDb true (<[(h, nodeId i) := rowOf i]> (table (db st))) n)).
Proof.
  intros (Hv & Ht & Hc) Hh Hi. rewrite Hh in Hc. split_and!; cbn; [done| |].
  - apply map_Forall_insert_2; [by exists i|done].
  - intros id. destruct (decide (nodeId i = id)) as [<-|Hne].
    + rewrite !lookup_insert_eq. cbn. by rewrite rowInfo_rowOf.
    + rewrite !lookup_insert_ne by congruence. apply Hc.
Qed.

Lemma coherent_delete st h id n :
  coherent st -> currentHomeId st = Some h ->
  coherent (mkState (delete id (nodes st)) (Some h) (mkDb true (delete (h, id) (table (db st))) n)).
Proof.
  intros (Hv & Ht & Hc) Hh. rewrite Hh in Hc. split_and!; cbn; [done|by apply map_Forall_delete|].
  intros id'. destruct (decide (id = id')) as [<-|Hne].
  - by rewrite !lookup_delete_eq.
  - rewrite !lookup_delete_ne by congruence. apply Hc.
Qed.

Section Preservation.
Context `{e : SqliteEnv}.
Hypothesis all_run : reliable e.

Lemma valid_write T (f : T -> T) (d : Db T) :
  valid d = true -> (write f d).2 = mkDb true (f (table d)) (S (ran d)).
Proof. intros. by rewrite write_reliable. Qed.

(** An entry of the cache, changed and stored. *)
Lemma coherent_record st id f stmt :
  coherent st -> 
  (forall i, info_ok i -> nodeId i = id -> info_ok (f i) /\ nodeId (f i) = id) ->
  (forall k i t, t !! k = Some (rowOf i) -> stmt k t = <[k := rowOf (f i)]> t) ->
  coherent (recordField id f stmt st).
Proof.
  intros Hco Hf Hs. unfold recordField. destruct (nodes st !! id) as [i|] eqn:Hi; [|done].
  destruct (currentHomeId st) as [h|] eqn:Hh.
  - destruct (coherent_row _ _ _ _ Hco Hh Hi) as (Hok & Hid & Hr).
    pose proof (proj1 Hco) as Hv. rewrite Hv, valid_write by done.
    rewrite (Hs _ _ _ Hr). destruct (Hf i Hok Hid) as [Hok' Hid'].
    rewrite <-Hid'. by apply coherent_insert.
  - destruct Hco as (_ & _ & Hc). rewrite Hh in Hc. rewrite Hc in Hi. by rewrite lookup_empty in Hi.
Qed.

Lemma persistAdd_known st h i j :
  coherent st -> currentHomeId st = Some h -> nodes st !! nodeId i = Some j ->
  rowOf i = rowOf (mkInfo (nodeId j) (deviceClass i) (commandClasses i) (securityScheme j) (identity j)
                     (version j) (endpoints j) (zwavePlus j)) ->
  persistAdd h i (db st) = mkDb true (<[(h, nodeId i) := rowOf i]> (table (db st))) (S (ran (db st))).
Proof.
  intros Hco Hh Hj E. destruct (coherent_row _ _ _ _ Hco Hh Hj) as (_ & _ & Hr).
  unfold persistAdd. rewrite (proj1 Hco). cbn [negb]. rewrite valid_write by apply Hco.
  unfold UPSERT. rewrite Hr. by rewrite E.
Qed.

Lemma persistAdd_new st h i :
  coherent st -> currentHomeId st = Some h -> nodes st !! nodeId i = None -> blank i ->
  persistAdd h i (db st) = mkDb true (<[(h, nodeId i) := rowOf i]> (table (db st))) (S (ran (db st))).
Proof.
  intros (Hv & Ht & Hc) Hh Hj Hb. rewrite Hh in Hc. rewrite Hc in Hj. apply fmap_None in Hj.
  unfold persistAdd. rewrite Hv. cbn [negb]. rewrite valid_write by done.
  unfold UPSERT. rewrite Hj. by rewrite Hb.
Qed.

Lemma setHomeId_coherent h st :
  coherent st -> coherent (setHomeId h st).2.
Proof.
  intros Hco. unfold setHomeId. case_decide; [done|]. destruct Hco as (Hv & Ht & _).
  rewrite Hv. unfold loadNodesForHome. rewrite select_reliable by done.
  split_and!; cbn; [done..|]. intros id. by apply load_lookup.
Qed.

Lemma step_coherent op st :
  coherent st -> typed op -> blank_add op -> unrecorded op st -> coherent (step op st).2.
Proof.
  intros Hco Hty Hb Hu.
  destruct op as [h|i|id|id|id ccs|id c|id s|id v|id v|id v|id v]; cbn [step snd];
    try (apply coherent_record; [done| |];
         [ intros i Hi <-; split; [|done]; unfold info_ok in *; cbn in *; tauto
         | intros k i t Hk; unfold SET_SCHEME, SET_IDENTITY, SET_VERSION, SET_ENDPOINTS, SET_ZWAVEPLUS;
           by rewrite (alter_insert_id _ _ _ _ Hk) ]).
  - by apply setHomeId_coherent.
  - unfold add, withBoundHome. destruct (currentHomeId st) as [h|] eqn:Hh; [|done]. cbn. rewrite ?Hh.
    destruct (nodes st !! nodeId i) as [j|] eqn:Hj.
    + erewrite persistAdd_known by (try done; by rewrite (Hu j Hj), Hb).
      by apply coherent_insert.
    + rewrite persistAdd_new by done. by apply coherent_insert.
  - unfold remove, withBoundHome. destruct (currentHomeId st) as [h|] eqn:Hh; [|done]. cbn. rewrite ?Hh.
    unfold persistRemove. rewrite (proj1 Hco). cbn [negb]. rewrite valid_write by apply Hco.
    by apply coherent_delete.
  - unfold seed, withBoundHome. destruct (currentHomeId st) as [h|] eqn:Hh; [|done].
    destruct (nodes st !! id) eqn:Hj; [done|]. cbn. rewrite ?Hh.
    rewrite persistAdd_new by done. apply (coherent_insert st h (included id (mkClass 0 0 0) [])); [done..|].
    unfold info_ok, class_ok, identity_ok, version_ok, zwavePlus_ok, word_ok. cbn in *. split_and!; try done; lia.
  - unfold updateCommandClasses, withBoundHome. destruct (currentHomeId st) as [h|] eqn:Hh; [|done].
    destruct (nodes st !! id) as [i|] eqn:Hj; [|done]. cbn. rewrite ?Hh.
    destruct (coherent_row _ _ _ _ Hco Hh Hj) as (Hok & <- & _).
    erewrite persistAdd_known by done. by apply (coherent_insert st h (withCommandClasses ccs i)).
  - unfold updateDeviceClass, withBoundHome. destruct (currentHomeId st) as [h|] eqn:Hh; [|done].
    destruct (nodes st !! id) as [i|] eqn:Hj; [|done]. cbn. rewrite ?Hh.
    destruct (coherent_row _ _ _ _ Hco Hh Hj) as (Hok & <- & _).
    destruct c as [b g s]. cbn in *.
    erewrite persistAdd_known by done. apply (coherent_insert st h (withDeviceClass _ i)); [done..|].
    unfold info_ok in *. cbn. tauto.
Qed.

(** Side conditions along a run. *)
Fixpoint regular (ops : list Op) (st : State) : Prop :=
  match ops with
  | [] => True
  | op :: ops => typed op /\ blank_add op /\ unrecorded op st /\ regular ops (step op st).2
  end.

Lemma run_cons op ops st : (run (op :: ops) st).2 = (run ops (step op st).2).2.
Proof. cbn. destruct (step op st) as [ev st1]. cbn. by destruct (run ops st1). Qed.

Lemma run_coherent ops st : coherent st -> regular ops st -> coherent (run ops st).2.
Proof.
  revert st. induction ops as [|op ops IH]; intros st Hco Hr; [done|].
  destruct Hr as (? & ? & ? & Hr). rewrite run_cons. apply IH; [|done]. by apply step_coherent.
Qed.

(** A coherent state is restored by binding the same network after a restart. *)
Lemma coherent_reload st h :
  coherent st -> currentHomeId st = Some (formatHomeId h) ->
  nodes (setHomeId h (restarted st)).2 = nodes st.
Proof.
  intros (Hv & Ht & Hc) Hh. rewrite Hh in Hc. unfold setHomeId. cbn.
  rewrite Hv. unfold loadNodesForHome. rewrite select_reliable by done. cbn.
  apply map_eq. intros id. rewrite Hc. by apply load_lookup.
Qed.

(** What another network binds in between leaves the rows of this one alone. *)
Lemma step_other_home op st h id :
  currentHomeId st <> Some h -> (forall b, op <> Bind b) ->
  table (db (step op st).2) !! (h, id) = table (db st) !! (h, id) /\
  currentHomeId (step op st).2 = currentHomeId st.
Proof.
  intros Hne Hb.
  assert (Hrec : forall id' f stmt,
    (forall k t k', k <> k' -> stmt k t !! k' = t !! k') ->
    table (db (recordField id' f stmt st)) !! (h, id) = table (db st) !! (h, id) /\
    currentHomeId (recordField id' f stmt st) = currentHomeId st).
  { intros id' f stmt Hs. unfold recordField. destruct (nodes st !! id'); [|done].
    destruct (currentHomeId st) as [h'|] eqn:Hh; [|by cbn].
    destruct (valid (db st)) eqn:Hv; [|by cbn]. rewrite valid_write by done. cbn. split; [|done].
    apply Hs. congruence. }
  assert (Hadd : forall h' i, Some h' = currentHomeId st ->
    table (persistAdd h' i (db st)) !! (h, id) = table (db st) !! (h, id)).
  { intros h' i Hh. unfold persistAdd. destruct (valid (db st)) eqn:Hv; cbn [negb]; [|done].
    rewrite valid_write by done. unfold UPSERT. cbn. apply lookup_insert_ne. congruence. }
  destruct op; cbn [step snd]; try (apply Hrec; intros; apply lookup_alter_ne; done).
  - by destruct (Hb homeIdBytes).
  - unfold add, withBoundHome. destruct (currentHomeId st) eqn:Hh; cbn; [|by rewrite ?Hh]. by rewrite ?Hadd, ?Hh by done.
  - unfold remove, withBoundHome. destruct (currentHomeId st) eqn:Hh; cbn; [|by rewrite ?Hh]. rewrite ?Hh. split; [|done].
    unfold persistRemove. destruct (valid (db st)) eqn:Hv; cbn [negb]; [|done].
    rewrite valid_write by done. cbn. apply lookup_delete_ne. congruence.
  - unfold seed, withBoundHome. destruct (currentHomeId st) eqn:Hh; [|cbn; by rewrite ?Hh].
    destruct (nodes st !! id0); cbn; rewrite ?Hadd by done; by rewrite ?Hh.
  - unfold updateCommandClasses, withBoundHome. destruct (currentHomeId st) eqn:Hh; [|cbn; by rewrite ?Hh].
    destruct (nodes st !! id0); cbn; rewrite ?Hadd by done; by rewrite ?Hh.
  - unfold updateDeviceClass, withBoundHome. destruct (currentHomeId st) eqn:Hh; [|cbn; by rewrite ?Hh].
    destruct (nodes st !! id0); cbn; rewrite ?Hadd by done; by rewrite ?Hh.
Qed.

End Preservation.

Lemma coherent_restarted st : coherent st -> coherent (restarted st).
Proof. by intros (? & ? & _). Qed.

(** ** Networks do not meet *)

Section Networks.
Context `{e : SqliteEnv}.
Hypothesis all_run : reliable e.

(** Operations that never bind the network [h]. *)
Definition elsewhere (h : list Z) (ops : list Op) : Prop :=
  Forall (fun op => match op with Bind b => b <> h | _ => True end) ops.

Lemma setHomeId_table h st : table (db (setHomeId h st).2) = table (db st).
Proof.
  unfold setHomeId. case_decide; [done|]. destruct (valid (db st)); [|done].
  unfold loadNodesForHome. pose proof (select_table (SELECT_FOR_HOME (formatHomeId h)) (db st)) as Ht.
  by destruct (select _ _).
Qed.

Lemma setHomeId_home h st : currentHomeId (setHomeId h st).2 = Some (formatHomeId h).
Proof.
  unfold setHomeId. case_decide as E; [done|]. destruct (valid (db st)); [|done].
  unfold loadNodesForHome. by destruct (select _ _).
Qed.

Lemma run_elsewhere h ops st id :
  bytes_ok h -> elsewhere h ops -> regular ops st -> currentHomeId st <> Some (formatHomeId h) ->
  table (db (run ops st).2) !! (formatHomeId h, id) = table (db st) !! (formatHomeId h, id) /\
  currentHomeId (run ops st).2 <> Some (formatHomeId h).
Proof.
  intros Hh. revert st. induction ops as [|op ops IH]; intros st Hel Hr Hne; [done|].
  apply Forall_cons in Hel as [Hop Hel]. destruct Hr as (Hty & _ & _ & Hr). rewrite run_cons.
  assert (table (db (step op st).2) !! (formatHomeId h, id) = table (db st) !! (formatHomeId h, id) /\
          currentHomeId (step op st).2 <> Some (formatHomeId h)) as [Ht Hn].
  { destruct op as [b|?|?|?|?|?|?|?|?|?|?];
      try (match goal with |- context [step ?op st] =>
             destruct (step_other_home all_run op st (formatHomeId h) id Hne) as [Ht ->]; [done|by split] end).
    cbn [step]. rewrite setHomeId_table, setHomeId_home. split; [done|].
    intros [=E]. apply Hop. by apply formatHomeId_inj. }
  destruct (IH _ Hel Hr Hn) as [Ht' Hn']. by rewrite Ht'.
Qed.

End Networks.

(** ** Faults *)

(** What the daemon sees of a registry: everything but the table. *)
Definition sameView (st st' : State) : Prop :=
  nodes st = nodes st' /\ currentHomeId st = currentHomeId st'.

Lemma snapshotEvent_nodes st st' : nodes st = nodes st' -> snapshotEvent st = snapshotEvent st'.
Proof. unfold snapshotEvent. by intros ->. Qed.

Lemma withBoundHome_view (m1 m2 : string -> State -> bool * State) st1 st2 :
  sameView st1 st2 ->
  (forall home, (m1 home st1).1 = (m2 home st2).1 /\ sameView (m1 home st1).2 (m2 home st2).2) ->
  (withBoundHome m1 st1).1 = (withBoundHome m2 st2).1 /\
  sameView (withBoundHome m1 st1).2 (withBoundHome m2 st2).2.
Proof.
  intros Hv Hm. unfold withBoundHome. pose proof (proj2 Hv) as Hh. rewrite <-Hh.
  destruct (currentHomeId st1) as [home|]; [|by split]. destruct (Hm home) as [Hb Hs].
  destruct (m1 home st1) as [b1 s1], (m2 home st2) as [b2 s2]. cbn in Hb, Hs. subst b2. split; [|done].
  cbn. destruct b1; [|done]. f_equal. apply snapshotEvent_nodes. apply Hs.
Qed.

Lemma step_view (e1 e2 : SqliteEnv) op st1 st2 :
  (forall b, op <> Bind b) -> sameView st1 st2 ->
  (step (H := e1) op st1).1 = (step (H := e2) op st2).1 /\
  sameView (step (H := e1) op st1).2 (step (H := e2) op st2).2.
Proof.
  destruct st1 as [m h d1], st2 as [m' h' d2]. intros Hb [Hm Hh]. cbn in Hm, Hh. subst m' h'.
  assert (Hrec : forall id f stmt,
    sameView (recordField (H := e1) id f stmt (mkState m h d1)) (recordField (H := e2) id f stmt (mkState m h d2))).
  { intros id f stmt. unfold recordField. cbn. destruct (m !! id); [|done].
    destruct h; [|done]. by destruct (valid d1), (valid d2). }
  destruct op as [b|i|id|id|id ccs|id c|id v|id v|id v|id v|id v]; cbn [step fst snd];
    try (split; [reflexivity|apply Hrec]); [by destruct (Hb b)|..];
    apply withBoundHome_view; try done; intros home; cbn [nodes]; try (split; [reflexivity|split; reflexivity]);
    destruct (m !! id); (split; [reflexivity|split; reflexivity]).
Qed.

(** *** Types *)

Lemma UPSERT_ok h id c ccs t :
  byte_ok id -> class_ok c -> table_ok t -> table_ok (UPSERT (h, id) c ccs t).
Proof.
  intros Hid Hc Ht. unfold UPSERT. apply map_Forall_insert_2; [|done].
  destruct (t !! (h, id)) as [r|] eqn:Hr.
  - destruct (Ht _ _ Hr) as (i & Hi & Hk & ->). cbn in Hk. exists (withCommandClasses ccs (withDeviceClass c i)).
    split_and!; [|done..]. unfold info_ok in *. cbn. tauto.
  - exists (included id c ccs). split_and!; [|done..].
    unfold info_ok, identity_ok, version_ok, zwavePlus_ok, word_ok, byte_ok in *. cbn. split_and!; try done; lia.
Qed.

Lemma alter_ok (k : Key) f (g : NodeInfo -> NodeInfo) t :
  (forall i, info_ok i -> nodeId i = k.2 -> info_ok (g i) /\ nodeId (g i) = k.2) ->
  (forall i, f (rowOf i) = rowOf (g i)) ->
  table_ok t -> table_ok (alter f k t).
Proof.
  intros Hg Hf Ht k' r. destruct (decide (k = k')) as [<-|Hne].
  - rewrite lookup_alter_eq. intros (r' & Hr & ->)%fmap_Some.
    destruct (Ht _ _ Hr) as (i & Hi & Hk & ->). exists (g i). destruct (Hg i Hi Hk). by rewrite Hf.
  - rewrite lookup_alter_ne by done. apply Ht.
Qed.

Definition cache_ok (m : gmap Z NodeInfo) : Prop := map_Forall (fun id i => info_ok i /\ nodeId i = id) m.

Definition well_typed (st : State) : Prop := cache_ok (nodes st) /\ table_ok (table (db st)).

Lemma rowInfo_ok (k : Key) r : row_ok k r -> info_ok (rowInfo k.2 r) /\ nodeId (rowInfo k.2 r) = k.2.
Proof. intros (i & Hi & <- & ->). by rewrite rowInfo_rowOf. Qed.

Lemma write_ok {e : SqliteEnv} (f : Nodes -> Nodes) (d : Db Nodes) :
  table_ok (table d) -> table_ok (f (table d)) -> table_ok (table (write f d).2).
Proof. intros. by destruct (write_table f d) as [-> | ->]. Qed.

Lemma select_row_ok h t : table_ok t -> Forall (fun kr : Z * Row => row_ok (h, kr.1) kr.2) (SELECT_FOR_HOME h t).
Proof.
  intros Ht. apply Forall_forall. intros [id r] ([[h' id'] r'] & Hin & Hs)%list_elem_of_omap.
  apply elem_of_map_to_list in Hin. cbn in Hs. case_decide; simplify_eq/=. by apply Ht.
Qed.

Lemma emplaceAll_ok h rows :
  Forall (fun kr : Z * Row => row_ok (h, kr.1) kr.2) rows -> cache_ok (emplaceAll rows).
Proof.
  unfold emplaceAll. intros Hok. pose proof (map_Forall_empty (fun id i => info_ok i /\ nodeId i = id)) as Hacc.
  fold (cache_ok ∅) in Hacc. revert Hacc. generalize (∅ : gmap Z NodeInfo).
  induction Hok as [|[k r] rows Hk Hok IH]; intros acc Hacc; cbn; [done|].
  apply IH. pose proof (rowInfo_ok _ _ Hk) as [Hi Hid]. cbn in Hi, Hid. rewrite u8_id by (rewrite <-Hid; apply Hi).
  destruct (acc !! k); [done|]. by apply map_Forall_insert_2.
Qed.

Lemma step_well_typed {e : SqliteEnv} op st : well_typed st -> typed op -> well_typed (step op st).2.
Proof.
  intros [Hm Ht] Hty.
  assert (Hadd : forall h i, info_ok i -> table_ok (table (persistAdd h i (db st)))).
  { intros h i Hi. unfold persistAdd. destruct (valid (db st)); cbn [negb]; [|done].
    apply write_ok; [done|]. apply UPSERT_ok; [apply Hi|apply Hi|done]. }
  assert (Hrec : forall id f stmt,
    (forall i, info_ok i -> nodeId i = id -> info_ok (f i) /\ nodeId (f i) = id) ->
    (exists fr, (forall k, stmt k = alter fr k) /\ forall i, fr (rowOf i) = rowOf (f i)) ->
    well_typed (recordField id f stmt st)).
  { intros id f stmt Hf (fr & Hs & Hfr). unfold recordField. destruct (nodes st !! id) as [i|] eqn:Hi; [|done].
    destruct (Hm _ _ Hi) as [Hok Hid].
    assert (cache_ok (<[id := f i]> (nodes st))) by (apply map_Forall_insert_2; auto).
    destruct (currentHomeId st) as [h|]; [|done].
    destruct (valid (db st)); [|done]. split; [done|]. apply write_ok; [done|].
    rewrite Hs. by apply (alter_ok _ _ f). }
  destruct op as [b|i|id|id|id ccs|id c|id v|id v|id v|id v|id v]; cbn [step fst snd];
    try (apply Hrec;
         [ intros i Hi <-; split; [|done]; unfold info_ok in *; cbn in *; tauto
         | eexists; split; [intros k; reflexivity|intros []; reflexivity] ]).
  - unfold setHomeId. case_decide; [done|]. destruct (valid (db st)); [|by split; [apply map_Forall_empty|]].
    unfold loadNodesForHome. pose proof (select_table (SELECT_FOR_HOME (formatHomeId b)) (db st)) as Htab.
    pose proof (select_Forall (fun kr : Z * Row => row_ok (formatHomeId b, kr.1) kr.2)
      (SELECT_FOR_HOME (formatHomeId b)) (db st)) as Hsel.
    destruct (select _ _) as [rows d]. cbn in Htab, Hsel |- *. split; [|cbn; by rewrite Htab].
    destruct rows as [rows|]; [|apply map_Forall_empty]. apply (emplaceAll_ok (formatHomeId b)).
    eapply Hsel; [by apply select_row_ok|done].
  - unfold add, withBoundHome. destruct (currentHomeId st); [|done]. split; [|by apply Hadd].
    by apply map_Forall_insert_2.
  - unfold remove, withBoundHome. destruct (currentHomeId st); [|done]. split; [by apply map_Forall_delete|].
    cbn. unfold persistRemove. destruct (valid (db st)); [|done]. apply write_ok; [done|]. by apply map_Forall_delete.
  - unfold seed, withBoundHome. destruct (currentHomeId st); [|done]. destruct (nodes st !! id); [done|].
    assert (info_ok (included id (mkClass 0 0 0) [])).
    { unfold info_ok, class_ok, identity_ok, version_ok, zwavePlus_ok, word_ok. cbn in *. split_and!; try done; lia. }
    split; [|by apply Hadd]. by apply map_Forall_insert_2.
  - unfold updateCommandClasses, withBoundHome. destruct (currentHomeId st); [|done].
    destruct (nodes st !! id) as [i|] eqn:Hi; [|done]. destruct (Hm _ _ Hi) as [Hok <-].
    split; [|by apply Hadd]. by apply map_Forall_insert_2.
  - unfold updateDeviceClass, withBoundHome. destruct (currentHomeId st); [|done].
    destruct (nodes st !! id) as [i|] eqn:Hi; [|done]. destruct (Hm _ _ Hi) as [Hok <-].
    destruct c as [cb cg cs]. cbn in Hty.
    assert (info_ok (withDeviceClass (mkClass cb cg cs) i)) by (unfold info_ok in *; cbn; tauto).
    split; [|by apply Hadd]. by apply map_Forall_insert_2.
Qed.

Lemma inOrder_ids m : cache_ok m -> nodeId <$> inOrder m = filter (fun id => is_Some (m !! id)) (seqZ 0 256).
Proof.
  intros Hm. unfold inOrder. generalize (seqZ 0 256). intros l. induction l as [|id l IH]; [done|].
  rewrite filter_cons. cbn [omap list_omap]. destruct (m !! id) as [i|] eqn:Hi.
  - rewrite decide_True by done. rewrite fmap_cons, IH. f_equal. by apply (Hm _ _ Hi).
  - rewrite decide_False by (by intros [? [=]]). done.
Qed.

Lemma run_well_typed {e : SqliteEnv} ops st :
  well_typed st -> Forall typed ops -> well_typed (run ops st).2.
Proof.
  intros Hw Hops. revert st Hw. induction Hops as [|op ops Hop Hops IH]; intros st Hw; [done|].
  rewrite run_cons. apply IH. by apply step_well_typed.
Qed.

(** The state of a process that starts on the table [t]. *)
Definition fresh (t : Nodes) : State := mkState ∅ None (mkDb true t 0).

Lemma fresh_coherent t : table_ok t -> coherent (fresh t).
Proof. intros. split; [done|by split]. Qed.

(** Closes [info_ok] of a literal entry. *)
Ltac info_lit :=
  unfold typed, info_ok, class_ok, identity_ok, version_ok, zwavePlus_ok, word_ok;
  split_and!; by vm_compute.

(** ** Witness data *)

Definition aClass := mkClass 4 16 1.
Definition homeA := [0xE2; 0xA1; 0xB0; 0x7C].
Definition homeB := [0x01; 0x02; 0x03; 0x04].
Definition someOps : list Op :=
  [Bind homeA; Seed 5; Add (included 9 aClass [0x25; 0x9F]); SetSecurityScheme 9 SCHEME_S2_AUTHENTICATED;
   SetDeviceIdentity 9 (mkIdentity 0x0086 0x0102 0x0064); UpdateDeviceClass 5 aClass; Remove 7].

Lemma someOps_regular : regular (e := alwaysRuns) someOps (fresh ∅).
Proof.
  cbn [regular someOps]. split_and!; try done;
    try (by repeat (apply Forall_cons; split; [by vm_compute|])); try (by vm_compute);
    unfold typed, info_ok, class_ok, identity_ok, version_ok, zwavePlus_ok, word_ok, byte_ok; cbn;
    try lia; split_and!; try lia; try done.
Qed.

End Registry.

Import Registry.

(** C13: The registry survives a restart: after any operations on any networks, a
    daemon that restarts, works on other networks for any time and then binds the
    network again has the same nodes with everything recorded of them, provided the
    statements run and no node was included again after it had been recorded. *)
Theorem registry_survives_restart (e : SqliteEnv) t ops h ops' :
  let st := (run ops (fresh t)).2 in
  reliable e -> table_ok t -> regular ops (fresh t) ->
  bytes_ok h -> currentHomeId st = Some (formatHomeId h) ->
  elsewhere h ops' -> regular ops' (restarted st) ->
  nodes (setHomeId h (run ops' (restarted st)).2).2 = nodes st.
Proof.
  intros st He Ht Hr Hh Hhome Hel Hr'.
  assert (Hco : coherent st) by (apply run_coherent; [done|by apply fresh_coherent|done]).
  assert (Hco' : coherent (run ops' (restarted st)).2).
  { apply run_coherent; [done|by apply coherent_restarted|done]. }
  unfold setHomeId. destruct (run_elsewhere He h ops' (restarted st) 0 Hh Hel Hr' ltac:(done)) as [_ Hn].
  rewrite decide_False by done. rewrite (proj1 Hco'). unfold loadNodesForHome.
  rewrite select_reliable by first [done|apply Hco']. cbn [snd nodes]. apply map_eq. intros id.
  rewrite load_lookup by apply Hco'.
  destruct (run_elsewhere He h ops' (restarted st) id Hh Hel Hr' ltac:(done)) as [-> _].
  destruct Hco as (_ & _ & Hc). rewrite Hhome in Hc. by rewrite Hc.
Qed.

Lemma registry_survives_restart_witness :
  let st := (run (H := alwaysRuns) someOps (fresh ∅)).2 in
  nodes (setHomeId (H := alwaysRuns) homeA
           (run (H := alwaysRuns) [Bind homeB; Seed 9] (restarted st)).2).2 = nodes st /\
  securitySchemeOf 9 st = SCHEME_S2_AUTHENTICATED.
Proof.
  split; [|by vm_compute].
  apply (registry_survives_restart alwaysRuns ∅ someOps homeA [Bind homeB; Seed 9]).
  - done.
  - apply map_Forall_empty.
  - exact someOps_regular.
  - by repeat (apply Forall_cons; split; [by vm_compute|]).
  - by vm_compute.
  - by repeat (apply Forall_cons; split; [by vm_compute|]).
  - cbn [regular]. split_and!; try done; by repeat (apply Forall_cons; split; [by vm_compute|]).
Defined.

(** Including a node again that is known as secure breaks the agreement of
    memory and database: the daemon treats the node as non-secure at once, and as
    secure at its old scheme after a restart. *)
Theorem readd_forgets_until_restart (e : SqliteEnv) st h i j :
  reliable e -> coherent st -> currentHomeId st = Some (formatHomeId h) ->
  info_ok i -> blank i -> nodes st !! nodeId i = Some j -> isSecure (nodeId i) st = true ->
  let st' := (add i st).2 in
  isSecure (nodeId i) st' = false /\
  isSecure (nodeId i) (setHomeId h (restarted st')).2 = true /\
  securitySchemeOf (nodeId i) (setHomeId h (restarted st')).2 = securitySchemeOf (nodeId i) st.
Proof.
  intros He Hco Hh Hi Hb Hj Hsec. destruct (coherent_row _ _ _ _ Hco Hh Hj) as (Hok & Hid & Hr).
  unfold add, withBoundHome. rewrite Hh. cbn [snd].
  unfold isSecure, securitySchemeOf in *. rewrite Hj in Hsec |- *. cbn [nodes].
  rewrite lookup_insert_eq. split; [by rewrite Hb|].
  unfold persistAdd, restarted. rewrite (proj1 Hco). cbn [negb db]. rewrite write_reliable by first [done|apply Hco].
  assert (table_ok (UPSERT (formatHomeId h, nodeId i) (deviceClass i) (commandClasses i) (table (db st)))) as Ht.
  { apply UPSERT_ok; [apply Hi|apply Hi|apply Hco]. }
  unfold setHomeId. cbn [db nodes currentHomeId snd valid handle]. rewrite decide_False by done.
  unfold loadNodesForHome. rewrite select_reliable by done. cbn [table nodes snd].
  rewrite load_lookup by done. unfold UPSERT. rewrite lookup_insert_eq, Hr. cbn.
  rewrite u8_id by apply Hok. done.
Qed.

Lemma readd_forgets_until_restart_witness :
  let st := (run (H := alwaysRuns) someOps (fresh ∅)).2 in
  let st' := (add (H := alwaysRuns) (included 9 aClass [0x25]) st).2 in
  isSecure 9 st' = false /\ isSecure 9 (setHomeId (H := alwaysRuns) homeA (restarted st')).2 = true /\
  securitySchemeOf 9 (setHomeId (H := alwaysRuns) homeA (restarted st')).2 = securitySchemeOf 9 st.
Proof.
  intros st. eapply (readd_forgets_until_restart alwaysRuns st homeA (included 9 aClass [0x25])).
  - done.
  - apply run_coherent; [done|by apply fresh_coherent, map_Forall_empty|exact someOps_regular].
  - by vm_compute.
  - info_lit.
  - done.
  - by vm_compute.
  - by vm_compute.
Defined.

(** Database faults stay invisible until the next binding of a network: which
    nodes the daemon sees, and every event it publishes, do not depend on which of
    the statements fail. *)
Theorem registry_faults_invisible (e1 e2 : SqliteEnv) ops st1 st2 :
  nodes st1 = nodes st2 -> currentHomeId st1 = currentHomeId st2 ->
  Forall (fun op => forall b, op <> Bind b) ops ->
  (run (H := e1) ops st1).1 = (run (H := e2) ops st2).1 /\
  nodes (run (H := e1) ops st1).2 = nodes (run (H := e2) ops st2).2.
Proof.
  intros Hn Hh Hops. assert (sameView st1 st2) as Hv by done. clear Hn Hh. revert st1 st2 Hv.
  induction Hops as [|op ops Hop Hops IH]; intros st1 st2 Hv; [by split; [|apply Hv]|].
  destruct (step_view e1 e2 op st1 st2 Hop Hv) as [He Hs]. cbn [run].
  destruct (step (H := e1) op st1) as [ev1 s1], (step (H := e2) op st2) as [ev2 s2]. cbn in He, Hs. subst ev2.
  destruct (IH s1 s2 Hs) as [He' Hn'].
  destruct (run (H := e1) ops s1), (run (H := e2) ops s2). cbn in *. by subst.
Qed.

Lemma registry_faults_invisible_witness :
  let st := (run (H := alwaysRuns) someOps (fresh ∅)).2 in
  let e2 : SqliteEnv := fun _ => PrepareFails in
  (run (H := alwaysRuns) [Seed 6; Remove 9] st).1 = (run (H := e2) [Seed 6; Remove 9] st).1 /\
  nodes (run (H := alwaysRuns) [Seed 6; Remove 9] st).2 = nodes (run (H := e2) [Seed 6; Remove 9] st).2.
Proof.
  intros st e2. apply (registry_faults_invisible alwaysRuns e2); [done|done|].
  by repeat (apply Forall_cons; split; [done|]).
Defined.

(** Whatever fails in the database, every entry the registry holds stays within
    its C++ types and under its own node id, and a snapshot lists exactly the known
    ids in ascending order. *)
Theorem registry_well_typed (e : SqliteEnv) t ops :
  table_ok t -> Forall typed ops ->
  let st := (run ops (fresh t)).2 in
  cache_ok (nodes st) /\
  nodeId <$> snapshot st = filter (fun id => is_Some (nodes st !! id)) (seqZ 0 256).
Proof.
  intros Ht Hops st.
  assert (well_typed st) as [Hm _]
    by (apply run_well_typed; [by split; [apply map_Forall_empty|]|done]).
  split; [done|]. by apply inOrder_ids.
Qed.

Lemma registry_well_typed_witness :
  let st := (run (H := fun n => if (n =? 2)%nat then StepFails 0 else Runs) someOps (fresh ∅)).2 in
  cache_ok (nodes st) /\
  nodeId <$> snapshot st = filter (fun id => is_Some (nodes st !! id)) (seqZ 0 256).
Proof.
  apply (registry_well_typed (fun n => if (n =? 2)%nat then StepFails 0 else Runs) ∅ someOps).
  - apply map_Forall_empty.
  - repeat (apply Forall_cons; split); [..|apply Forall_nil_2]; try info_lit.
    by repeat (apply Forall_cons; split; [by vm_compute|]).
Defined.
