(* ===== verification/Schema.v ===== *)
(** * The schema of the shared database file

    All stores keep their tables in one file, [nodes.db].  [NodeRegistry.cpp]
    ([migrateSchema]) and [SceneStore.cpp] ([runSchema]) both record the version of
    their own tables in the file's one [PRAGMA user_version].  The file is modelled
    by that number and the columns of its tables; a statement fails when SQLite has
    no table or column of the name, or has one already.  Rows and I/O faults are
    left out here. *)

From Stdlib Require Import String.
From S2P Require Import Prelude.
From stdpp Require Import gmap strings.
#[local] Open Scope string_scope.
#[local] Open Scope Z_scope.

Record File := mkFile { user_version : Z; tables : gmap string (list string) }.

Definition emptyFile : File := mkFile 0 ∅.

(** The statements the two modules run. *)
Inductive Statement :=
| CreateIfNotExists (name : string) (columns : list string)
| DropIfExists (name : string)
| Drop (name : string)
| AddColumn (name column : string)
| RenameColumn (name old new : string)
| RenameTable (old new : string)
| CopyInto (dst src : string)
| SetUserVersion (n : Z).

Definition execOne (s : Statement) (f : File) : option File :=
  match s with
  | CreateIfNotExists t cs =>
      Some (match tables f !! t with
            | Some _ => f
            | None => mkFile (user_version f) (<[t := cs]> (tables f))
            end)
  | DropIfExists t => Some (mkFile (user_version f) (delete t (tables f)))
  | Drop t =>
      match tables f !! t with
      | None => None
      | Some _ => Some (mkFile (user_version f) (delete t (tables f)))
      end
  | AddColumn t c =>
      match tables f !! t with
      | None => None
      | Some cs => if decide (c ∈ cs) then None
                   else Some (mkFile (user_version f) (<[t := (cs ++ [c])%list]> (tables f)))
      end
  | RenameColumn t o n =>
      match tables f !! t with
      | None => None
      | Some cs =>
          if decide (o ∈ cs) then
            if decide (n ∈ cs) then None
            else Some (mkFile (user_version f)
                   (<[t := (fun c => if decide (c = o) then n else c) <$> cs]> (tables f)))
          else None
      end
  | RenameTable o n =>
      match tables f !! o, tables f !! n with
      | Some cs, None => Some (mkFile (user_version f) (<[n := cs]> (delete o (tables f))))
      | _, _ => None
      end
  | CopyInto d s =>
      match tables f !! d, tables f !! s with Some _, Some _ => Some f | _, _ => None end
  | SetUserVersion n => Some (mkFile n (tables f))
  end.

(** [Db::exec] of a script: it stops at the first statement that fails, and what
    ran before stays. *)
Fixpoint exec (script : list Statement) (f : File) : bool * File :=
  match script with
  | [] => (true, f)
  | s :: script => match execOne s f with None => (false, f) | Some f => exec script f end
  end.

(** [prepare] of a statement on a table. *)
Definition prepares (t : string) (f : File) : bool := bool_decide (is_Some (tables f !! t)).

(** ** The registry's table *)

Definition CURRENT_SCHEMA_VERSION : Z := 5.

Definition V1_COLUMNS : list string :=
  ["home_id"; "node_id"; "basic_type"; "generic_type"; "specific_type"; "command_classes"].
Definition IDENTITY_COLUMNS : list string := ["manufacturer_id"; "product_type_id"; "product_id"].
Definition CAPS_COLUMNS : list string :=
  ["library_type"; "protocol_version"; "protocol_sub_version"; "application_version";
   "application_sub_version"; "endpoint_count"; "endpoints_dynamic"; "endpoints_identical";
   "zwaveplus_version"; "role_type"; "node_type"; "installer_icon_type"; "user_icon_type"].

(** The columns of [SCHEMA_SQL]. *)
Definition NODES_COLUMNS : list string :=
  (V1_COLUMNS ++ ["security_scheme"] ++ IDENTITY_COLUMNS ++ CAPS_COLUMNS)%list.
Definition NODES_SCHEMA_SQL : list Statement := [CreateIfNotExists "nodes" NODES_COLUMNS].
Definition MIGRATE_V1_ADD_SCHEME_SQL : list Statement := [AddColumn "nodes" "security_scheme"].
Definition MIGRATE_V2_RENAME_SQL : list Statement := [RenameColumn "nodes" "secure" "security_scheme"].
Definition MIGRATE_V3_ADD_IDENTITY_SQL : list Statement := AddColumn "nodes" <$> IDENTITY_COLUMNS.
Definition MIGRATE_V4_ADD_CAPS_SQL : list Statement := AddColumn "nodes" <$> CAPS_COLUMNS.

Definition readSchemaVersion (f : File) : Z := user_version f.

(** The upgrades of an existing table. *)
Definition upgradeNodes (version : Z) (f : File) : bool * File :=
  let (ok, f) := if version =? 1 then exec MIGRATE_V1_ADD_SCHEME_SQL f else (true, f) in
  if negb ok then (false, f) else
  let (ok, f) := if version =? 2 then exec MIGRATE_V2_RENAME_SQL f else (true, f) in
  if negb ok then (false, f) else
  let (ok, f) := if version <=? 3 then exec MIGRATE_V3_ADD_IDENTITY_SQL f else (true, f) in
  if negb ok then (false, f) else
  exec MIGRATE_V4_ADD_CAPS_SQL f.

Definition migrateSchema (f : File) : bool * File :=
  let version := readSchemaVersion f in
  if CURRENT_SCHEMA_VERSION <=? version then (true, f) else
  let (ok, f) :=
    if version =? 0 then
      let (dropped, f) := exec [DropIfExists "nodes"] f in
      if negb dropped then (false, f) else exec NODES_SCHEMA_SQL f
    else upgradeNodes version f in
  if negb ok then (false, f) else exec [SetUserVersion 5] f.

(** ** The scene store's tables *)

Definition SCENE_SCHEMA_VERSION : Z := 1.
Definition SCHEMA_SCENES_SQL : list Statement := [CreateIfNotExists "scenes" ["home_id"; "scene_id"; "actions"]].
Definition TRIGGERS_V0_COLUMNS : list string :=
  ["home_id"; "source_node_id"; "scene_number"; "key_attribute"; "scene_id"].
Definition TRIGGERS_COLUMNS : list string :=
  ["home_id"; "source"; "source_node_id"; "scene_number"; "key_attribute"; "scene_id"].
Definition SCHEMA_TRIGGERS_SQL : list Statement := [CreateIfNotExists "scene_triggers" TRIGGERS_COLUMNS].
Definition MIGRATE_RENAME_SQL : list Statement := [RenameTable "scene_triggers" "scene_triggers_legacy"].
Definition MIGRATE_COPY_SQL : list Statement := [CopyInto "scene_triggers" "scene_triggers_legacy"].
Definition MIGRATE_DROP_SQL : list Statement := [Drop "scene_triggers_legacy"].

Definition runSchema (f : File) : bool * File :=
  let (ok, f) := exec SCHEMA_SCENES_SQL f in
  if negb ok then (false, f) else
  if SCENE_SCHEMA_VERSION <=? user_version f then (true, f) else
  let legacy := prepares "scene_triggers" f in
  let (ok, f) :=
    if legacy then exec (MIGRATE_RENAME_SQL ++ SCHEMA_TRIGGERS_SQL ++ MIGRATE_COPY_SQL ++ MIGRATE_DROP_SQL) f
    else exec SCHEMA_TRIGGERS_SQL f in
  if negb ok then (false, f) else exec [SetUserVersion 1] f.

(** ** What the two leave behind *)

(** A table of each old version of the registry, alone in the file. *)
Definition nodesAt (version : Z) : File :=
  mkFile version {[ "nodes" := (V1_COLUMNS ++
    (if version =? 1 then [] else if version =? 2 then ["secure"] else ["security_scheme"]) ++
    (if version <=? 3 then [] else IDENTITY_COLUMNS))%list ]}.

(** Every old version of the registry's table is brought to the columns of the
    current schema, in their order, and stamped with its version; a second migration
    changes nothing. *)
Theorem migrateSchema_reaches_current version :
  1 <= version <= 4 ->
  let (ok, f) := migrateSchema (nodesAt version) in
  ok = true /\ user_version f = CURRENT_SCHEMA_VERSION /\
  tables f !! "nodes" = Some NODES_COLUMNS /\ migrateSchema f = (true, f).
Proof.
  intros H. assert (version = 1 \/ version = 2 \/ version = 3 \/ version = 4) as [->|[->|[->| ->]]] by lia;
    by vm_compute.
Qed.

Lemma migrateSchema_reaches_current_witness :
  let (ok, f) := migrateSchema (nodesAt 2) in
  ok = true /\ user_version f = CURRENT_SCHEMA_VERSION /\
  tables f !! "nodes" = Some NODES_COLUMNS /\ migrateSchema f = (true, f).
Proof. apply (migrateSchema_reaches_current 2). lia. Defined.

(** On a new file the two modules get in each other's way.  When the registry
    opens it first, the scene store then reports success although its trigger table
    was never created, now and at every later start; when the scene store opens it
    first, the migration of the registry fails, now and at every later start. *)
Theorem schema_versions_collide :
  (let (r, f) := migrateSchema emptyFile in
   let (s, f') := runSchema f in
   r = true /\ s = true /\ prepares "scene_triggers" f' = false /\
   migrateSchema f' = (true, f') /\ runSchema f' = (true, f')) /\
  (let (s, f) := runSchema emptyFile in
   let (r, f') := migrateSchema f in
   s = true /\ r = false /\ prepares "nodes" f' = false /\
   runSchema f' = (true, f') /\ migrateSchema f' = (false, f')).
Proof. by vm_compute. Qed.
