(* ===== verification/PendingQueue.v ===== *)
(** * The pending-command queue and the wake-up cycle

    [pending-queue/PendingQueue.cpp]: commands for sleeping nodes, kept in the
    table [pending_commands], and [orchestrator/WakeUpOrchestrator.cpp], which
    empties a node's queue when the node wakes up.  The table is the list of its
    rows in the order of their AUTOINCREMENT keys. *)

From Stdlib Require Import String.
From S2P Require Import Prelude Sqlite.
From stdpp Require Import gmap strings sorting.
#[local] Open Scope Z_scope.

Module Queue.

Definition PRIORITY_HIGH : Z := 50.
Definition PRIORITY_NORMAL : Z := 100.
Definition PRIORITY_LOW : Z := 200.

Record Row := mkRow {
  sequence : Z; home_id : string; node_id : Z; priority : Z; payload : list Z; enqueued_at : Z }.

(** [pending_commands] with the last key AUTOINCREMENT has given out. *)
Record Table := mkTable { rows : list Row; lastSequence : Z }.

Record Entry := mkEntry { e_sequence : Z; e_priority : Z; e_payload : list Z }.

Inductive Event :=
| PendingCommandEnqueued (nodeId sequence priority : Z)
| PendingCommandsDrained (nodeId count : Z).

(** [lastRowid] is the connection's [sqlite3_last_insert_rowid]. *)
Record State := mkState { db : Db Table; currentHomeId : option string; lastRowid : Z }.

(** *** The statements *)

Definition ofNode (home : string) (id : Z) (r : Row) : Prop := home_id r = home /\ node_id r = id.
#[global] Instance ofNode_dec home id r : Decision (ofNode home id r).
Proof. unfold ofNode. apply _. Defined.

Definition INSERT (home : string) (id prio : Z) (pl : list Z) (now : Z) (t : Table) : Table :=
  let seq := lastSequence t + 1 in mkTable (rows t ++ [mkRow seq home id prio pl now]) seq.

Definition DELETE_FOR_NODE (home : string) (id : Z) (t : Table) : Table :=
  mkTable (filter (fun r => ~ ofNode home id r) (rows t)) (lastSequence t).

(** [ORDER BY priority ASC, sequence ASC] *)
Definition before (r r' : Row) : bool :=
  (priority r <? priority r') || ((priority r =? priority r') && (sequence r <=? sequence r')).

Fixpoint insertRow (r : Row) (l : list Row) : list Row :=
  match l with
  | [] => [r]
  | r' :: l => if before r' r then r' :: insertRow r l else r :: r' :: l
  end.

Definition orderBy (l : list Row) : list Row := foldl (fun acc r => insertRow r acc) [] l.

Definition SELECT_FOR_NODE (home : string) (id : Z) (t : Table) : list Row :=
  orderBy (filter (ofNode home id) (rows t)).

Section Operations.
Context `{SqliteEnv}.

(** Whether [data()] of an empty vector is null, which binds NULL to a column that
    does not allow it. *)
Context (nullData : bool).

Definition setHomeId (homeIdBytes : list Z) (st : State) : State :=
  mkState (db st) (Some (formatHomeId homeIdBytes)) (lastRowid st).

(** The INSERT of [enqueue] with its constraint. *)
Definition insertRun (home : string) (id prio : Z) (pl : list Z) (now : Z) (d : Db Table) : bool * Db Table :=
  if nullData && bool_decide (pl = []) then write (fun t => t) d
  else write (INSERT home id prio pl now) d.

Definition enqueue (id : Z) (pl : list Z) (prio now : Z) (st : State) : list Event * State :=
  match currentHomeId st with
  | None => ([], st)
  | Some home =>
      if negb (valid (db st)) then ([], st) else
      let (prepared, d) := insertRun home id prio pl now (db st) in
      let rowid := if (lastSequence (table (db st)) <? lastSequence (table d)) then lastSequence (table d)
                   else lastRowid st in
      let st := mkState d (currentHomeId st) rowid in
      if negb prepared then ([], st) else ([PendingCommandEnqueued id (u32 rowid) prio], st)
  end.

(** The payloads of the rows read, empty ones skipped. *)
Definition payloads (l : list Row) : list (list Z) := filter (.≠ []) (payload <$> l).

Definition drain (id : Z) (st : State) : list (list Z) * list Event * State :=
  match currentHomeId st with
  | None => ([], [PendingCommandsDrained id 0], st)
  | Some home =>
      if negb (valid (db st)) then ([], [PendingCommandsDrained id 0], st) else
      let (read, d) := select (SELECT_FOR_NODE home id) (db st) in
      match read with
      | None => ([], [], mkState d (currentHomeId st) (lastRowid st))
      | Some read =>
          let out := payloads read in
          let (_, d) := write (DELETE_FOR_NODE home id) d in
          (out, [PendingCommandsDrained id (u32 (zlen out))], mkState d (currentHomeId st) (lastRowid st))
      end
  end.

Definition peek (id : Z) (st : State) : list Entry * State :=
  match currentHomeId st with
  | None => ([], st)
  | Some home =>
      if negb (valid (db st)) then ([], st) else
      let (read, d) := select (SELECT_FOR_NODE home id) (db st) in
      ((fun r => mkEntry (u32 (sequence r)) (u8 (priority r)) (payload r)) <$> default [] read,
       mkState d (currentHomeId st) (lastRowid st))
  end.

Definition clearForNode (id : Z) (st : State) : State :=
  match currentHomeId st with
  | None => st
  | Some home =>
      if negb (valid (db st)) then st
      else mkState (write (DELETE_FOR_NODE home id) (db st)).2 (currentHomeId st) (lastRowid st)
  end.

(** *** The wake-up cycle *)

Inductive Bus :=
| Stored (e : Event)
| SendDataCommand (nodeId : Z) (payload : list Z) (callbackId : Z)
| SendWakeUpNoMoreInformationCommand (nodeId callbackId : Z)
| WakeUpCycleComplete (nodeId drainedCount : Z).

Definition NO_CALLBACK : Z := 0x00.

Definition onWakeUpNotification (sourceNodeId : Z) (st : State) : list Bus * State :=
  let '(pls, ev, st) := drain sourceNodeId st in
  ((Stored <$> ev) ++ ((fun p => SendDataCommand sourceNodeId p NO_CALLBACK) <$> pls) ++
   [SendWakeUpNoMoreInformationCommand sourceNodeId NO_CALLBACK;
    WakeUpCycleComplete sourceNodeId (u32 (zlen pls))], st).

(** *** Every operation, as one type *)

Inductive Op :=
| Bind (homeIdBytes : list Z)
| Enqueue (nodeId : Z) (pl : list Z) (prio now : Z)
| WakeUp (nodeId : Z)
| Peek (nodeId : Z)
| Clear (nodeId : Z).

(** The messages of a step, the payloads a wake-up sends out among them. *)
Definition step (op : Op) (st : State) : list Bus * State :=
  match op with
  | Bind h => ([], setHomeId h st)
  | Enqueue id pl prio now => let (ev, st) := enqueue id pl prio now st in (Stored <$> ev, st)
  | WakeUp id => onWakeUpNotification id st
  | Peek id => ([], (peek id st).2)
  | Clear id => ([], clearForNode id st)
  end.

Fixpoint run (ops : list Op) (st : State) : list Bus * State :=
  match ops with
  | [] => ([], st)
  | op :: ops => let (ev, st) := step op st in let (evs, st) := run ops st in (ev ++ evs, st)
  end.
End Operations.

(** ** What a queue promises

    Per network and node a list of commands; a new one goes behind those of the same
    or a more urgent priority; a wake-up takes them all, sends them to that node and
    lets it go back to sleep. *)

(** What the radio is asked for: a command to a node, or telling it to sleep again. *)
Inductive Radio := Command (nodeId : Z) (payload : list Z) | Sleep (nodeId : Z).
#[global] Instance Radio_eq_dec : EqDecision Radio.
Proof. solve_decision. Defined.

Module Spec.

Abbreviation Waiting := (list (Z * list Z)).
Record t := mk { waiting : gmap (string * Z) Waiting; home : option string }.

Fixpoint insert (c : Z * list Z) (q : Waiting) : Waiting :=
  match q with
  | [] => [c]
  | c' :: q => if c'.1 <=? c.1 then c' :: insert c q else c :: c' :: q
  end.

Definition queueOf (key : string * Z) (s : t) : Waiting := default [] (waiting s !! key).

(** What goes to the radio in a step, and the queues after it. *)
Definition step (op : Op) (s : t) : list Radio * t :=
  match op with
  | Bind h => ([], mk (waiting s) (Some (formatHomeId h)))
  | Enqueue id pl prio _ =>
      match home s with
      | Some h => if decide (pl = []) then ([], s)
                  else ([], mk (<[(h, id) := insert (prio, pl) (queueOf (h, id) s)]> (waiting s)) (home s))
      | None => ([], s)
      end
  | WakeUp id =>
      match home s with
      | Some h => ((Command id <$> (queueOf (h, id) s).*2) ++ [Sleep id], mk (delete (h, id) (waiting s)) (home s))
      | None => ([Sleep id], s)
      end
  | Peek _ => ([], s)
  | Clear id =>
      match home s with Some h => ([], mk (delete (h, id) (waiting s)) (home s)) | None => ([], s) end
  end.
End Spec.

(** What a list of messages asks of the radio. *)
Definition sent (l : list Bus) : list Radio :=
  omap (fun m => match m with
                 | SendDataCommand n p _ => Some (Command n p)
                 | SendWakeUpNoMoreInformationCommand n _ => Some (Sleep n)
                 | _ => None
                 end) l.

(** ** ORDER BY *)

Definition inOrder (r r' : Row) : Prop := before r r' = true.

Lemma before_total r r' : before r r' = false -> before r' r = true.
Proof.
  unfold before. intros H. zbool. apply andb_false_iff in H0.
  destruct (Z.ltb_spec (priority r') (priority r)); [done|]. cbn.
  destruct (Z.eqb_spec (priority r') (priority r)); cbn; [|lia].
  apply Z.leb_le. destruct H0 as [H0|H0]; zbool; lia.
Qed.

#[global] Instance inOrder_trans : Transitive inOrder.
Proof.
  intros a b c. unfold inOrder, before. rewrite !orb_true_iff, !andb_true_iff, !Z.ltb_lt, !Z.eqb_eq, !Z.leb_le. lia.
Qed.

Lemma insertRow_perm r l : insertRow r l ≡ₚ r :: l.
Proof.
  induction l as [|r' l IH]; cbn; [done|]. destruct (before r' r); [|done]. rewrite IH. apply Permutation_swap.
Qed.

Lemma insertRow_sorted r l : StronglySorted inOrder l -> StronglySorted inOrder (insertRow r l).
Proof.
  induction 1 as [|r' l Hs IH Hall]; cbn; [by repeat constructor|].
  destruct (before r' r) eqn:Hb.
  - constructor; [done|]. rewrite insertRow_perm. by constructor.
  - apply before_total in Hb. constructor; [by constructor|]. constructor; [done|].
    eapply Forall_impl; [done|]. intros x Hx. by eapply (inOrder_trans r r').
Qed.

Lemma orderBy_snoc l r : orderBy (l ++ [r]) = insertRow r (orderBy l).
Proof. unfold orderBy. by rewrite foldl_app. Qed.

(** [orderBy] is what ORDER BY promises: the same rows, sorted. *)
Lemma orderBy_spec l : orderBy l ≡ₚ l /\ StronglySorted inOrder (orderBy l).
Proof.
  induction l as [|r l [Hp Hs]] using rev_ind; [by split; [|constructor]|].
  rewrite orderBy_snoc. split; [|by apply insertRow_sorted].
  rewrite insertRow_perm, Hp. by rewrite Permutation_cons_append.
Qed.

(** ** The refinement *)

(** The commands of a list of rows. *)
Definition commands (l : list Row) : Spec.Waiting :=
  (fun r => (priority r, payload r)) <$> filter (fun r => payload r ≠ []) l.

Definition fresher (r : Row) (l : list Row) : Prop := Forall (fun r' => sequence r' < sequence r) l.

Lemma Spec_insert_front (c : Z * list Z) q : Forall (fun c' : Z * list Z => c.1 < c'.1) q -> Spec.insert c q = c :: q.
Proof. destruct 1 as [|c' q H]; [done|]. cbn. by rewrite (proj2 (Z.leb_gt _ _) H). Qed.

Lemma insertRow_commands r l :
  fresher r l -> StronglySorted inOrder l -> payload r ≠ [] ->
  commands (insertRow r l) = Spec.insert (priority r, payload r) (commands l).
Proof.
  intros Hf Hs Hne. unfold commands. induction Hs as [|r' l Hs IH Hall].
  { cbn [insertRow]. by rewrite filter_cons_True. }
  apply Forall_cons in Hf as [Hseq Hf]. specialize (IH Hf). cbn [insertRow].
  assert (before r' r = (priority r' <=? priority r)) as ->.
  { unfold before. destruct (Z.leb_spec (priority r') (priority r)) as [H|H].
    - destruct (Z.ltb_spec (priority r') (priority r)); [done|]. cbn.
      apply andb_true_iff. split; [apply Z.eqb_eq|apply Z.leb_le]; lia.
    - apply orb_false_iff. split; [apply Z.ltb_ge; lia|]. apply andb_false_iff. left. apply Z.eqb_neq. lia. }
  destruct (Z.leb_spec (priority r') (priority r)) as [H|H].
  - rewrite !filter_cons. destruct (decide (payload r' ≠ [])); [|done].
    rewrite !fmap_cons, IH. cbn. by rewrite (proj2 (Z.leb_le _ _) H).
  - rewrite (filter_cons_True _ r) by done. rewrite fmap_cons. symmetry. apply Spec_insert_front.
    apply Forall_fmap, Forall_filter. constructor; [done|].
    eapply Forall_impl; [done|]. intros x Hx. unfold inOrder, before in Hx. cbn.
    apply orb_true_iff in Hx as [Hx|Hx]; zbool; lia.
Qed.

Lemma insertRow_commands_empty r l : payload r = [] -> commands (insertRow r l) = commands l.
Proof.
  intros He. unfold commands. induction l as [|r' l IH].
  - cbn [insertRow]. rewrite filter_cons_False; [done|]. tauto.
  - cbn [insertRow]. destruct (before r' r).
    + rewrite !filter_cons. destruct (decide _); [|done]. by rewrite !fmap_cons, IH.
    + rewrite (filter_cons_False _ r); [done|]. tauto.
Qed.

Lemma payloads_commands l : payloads l = snd <$> commands l.
Proof.
  unfold payloads, commands. induction l as [|r l IH]; [done|].
  rewrite fmap_cons, !filter_cons. destruct (decide (payload r ≠ [])); cbn; by rewrite IH.
Qed.

(** Table and abstract queues hold the same commands. *)
Record refines (st : State) (s : Spec.t) : Prop := {
  ref_valid : valid (db st) = true;
  ref_home : currentHomeId st = Spec.home s;
  ref_keys : Forall (fun r => sequence r <= lastSequence (table (db st))) (rows (table (db st)));
  ref_queue : forall h id, commands (SELECT_FOR_NODE h id (table (db st))) = Spec.queueOf (h, id) s }.

Lemma DELETE_select h id h' id' t :
  SELECT_FOR_NODE h' id' (DELETE_FOR_NODE h id t) =
  if decide ((h', id') = (h, id)) then [] else SELECT_FOR_NODE h' id' t.
Proof.
  unfold SELECT_FOR_NODE, DELETE_FOR_NODE. cbn. rewrite list_filter_filter. case_decide as E; [simplify_eq|].
  - enough (filter (fun r => ofNode h id r /\ ~ ofNode h id r) (rows t) = []) as -> by done.
    induction (rows t) as [|r l IH]; [done|]. by rewrite filter_cons_False by tauto.
  - f_equal. apply list_filter_iff. intros r. unfold ofNode. split; [tauto|].
    intros [-> ->]. split; [done|]. intros [-> ->]. by destruct E.
Qed.

Lemma INSERT_select h id prio pl now h' id' t :
  SELECT_FOR_NODE h' id' (INSERT h id prio pl now t) =
  if decide ((h', id') = (h, id))
  then insertRow (mkRow (lastSequence t + 1) h id prio pl now) (SELECT_FOR_NODE h' id' t)
  else SELECT_FOR_NODE h' id' t.
Proof.
  unfold SELECT_FOR_NODE, INSERT. cbn [rows]. rewrite filter_app. case_decide as E; [simplify_eq|].
  - by rewrite filter_cons_True, orderBy_snoc.
  - rewrite filter_cons_False; [by rewrite app_nil_r|]. intros [E1 E2]. apply E. cbn in *. congruence.
Qed.

Lemma SELECT_fresher h id t r :
  Forall (fun r => sequence r <= lastSequence t) (rows t) -> lastSequence t < sequence r ->
  fresher r (SELECT_FOR_NODE h id t).
Proof.
  intros Hk Hr. unfold fresher, SELECT_FOR_NODE. rewrite (proj1 (orderBy_spec _)). apply Forall_filter.
  eapply Forall_impl; [done|]. cbn. lia.
Qed.

Lemma DELETE_refines h id st s n :
  refines st s -> currentHomeId st = Some h ->
  refines (mkState (mkDb true (DELETE_FOR_NODE h id (table (db st))) n) (Some h) (lastRowid st))
    (Spec.mk (delete (h, id) (Spec.waiting s)) (Some h)).
Proof.
  intros [Hv Hh Hk Hq] Hhome. split; cbn [db table valid handle currentHomeId Spec.home Spec.waiting lastSequence];
    [done|congruence|by apply Forall_filter|].
  intros h' id'. rewrite DELETE_select. unfold Spec.queueOf. cbn. case_decide as E.
  - by rewrite E, lookup_delete_eq.
  - rewrite lookup_delete_ne by done. apply Hq.
Qed.

Section Refinement.
Context `{e : SqliteEnv} (nullData : bool).
Hypothesis all_run : reliable e.

Lemma enqueue_refines id pl prio now st s :
  refines st s ->
  refines (enqueue nullData id pl prio now st).2 (Spec.step (Enqueue id pl prio now) s).2.
Proof.
  intros Hr. pose proof Hr as [Hv Hh Hk Hq]. unfold enqueue, Spec.step. rewrite <-Hh.
  destruct (currentHomeId st) as [h|] eqn:Hhome; [|done]. rewrite Hv. cbn [negb].
  assert (Hkeys : Forall (fun r => sequence r <= lastSequence (table (db st)) + 1)
    (rows (INSERT h id prio pl now (table (db st))))).
  { apply Forall_app_2; [|by repeat constructor]. eapply Forall_impl; [done|]. cbn. lia. }
  unfold insertRun. destruct (decide (pl = [])) as [->|Hne].
  - rewrite bool_decide_eq_true_2, andb_true_r by done.
    destruct nullData; cbn [andb]; rewrite write_reliable by done; cbn [negb snd];
      (split; cbn [db valid handle table currentHomeId]; [done|congruence|done|]); [apply Hq|].
    intros h' id'. rewrite INSERT_select. case_decide; [|apply Hq]. by rewrite insertRow_commands_empty.
  - rewrite bool_decide_eq_false_2, andb_false_r by done. rewrite write_reliable by done. cbn [negb snd].
    split; cbn [db valid handle table currentHomeId Spec.home]; [done|congruence|done|].
    intros h' id'. rewrite INSERT_select. unfold Spec.queueOf. cbn [Spec.waiting]. case_decide as E.
    + rewrite E, lookup_insert_eq. cbn [default]. unfold Spec.queueOf in Hq. rewrite <-Hq. simplify_eq.
      rewrite insertRow_commands; [done| |apply orderBy_spec|done]. apply SELECT_fresher; [done|]. cbn. lia.
    + rewrite lookup_insert_ne by done. apply Hq.
Qed.

Lemma sent_stored l k : sent ((Stored <$> l) ++ k) = sent k.
Proof. induction l; [done|]. done. Qed.

Lemma sent_commands id (l : list (list Z)) k :
  sent (((fun p => SendDataCommand id p NO_CALLBACK) <$> l) ++ k) = (Command id <$> l) ++ sent k.
Proof. induction l as [|p l IH]; [done|]. cbn. f_equal. apply IH. Qed.

Lemma step_refines op st s :
  refines st s ->
  sent (step nullData op st).1 = (Spec.step op s).1 /\ refines (step nullData op st).2 (Spec.step op s).2.
Proof.
  intros Hr. destruct op as [h|id pl prio now|id|id|id]; cbn [step].
  - split; [done|]. destruct Hr as [Hv Hh Hk Hq]. by split.
  - pose proof (enqueue_refines id pl prio now st s Hr) as He.
    destruct (enqueue nullData id pl prio now st) as [ev st']. cbn [fst snd] in *. split; [|done].
    rewrite <-(app_nil_r (Stored <$> ev)), sent_stored. cbn. destruct (Spec.home s); [|done]. by destruct (decide _).
  - pose proof Hr as [Hv Hh Hk Hq]. unfold onWakeUpNotification, drain, Spec.step. rewrite <-Hh.
    destruct (currentHomeId st) as [h|] eqn:Hhome; [|by split].
    rewrite Hv. cbn [negb]. rewrite select_reliable by done. unfold spent. rewrite write_reliable by done.
    cbn [fst snd]. rewrite sent_stored, sent_commands. cbn [sent omap list_omap].
    split; [by rewrite payloads_commands, Hq|]. by apply DELETE_refines.
  - split; [done|]. destruct Hr as [Hv Hh Hk Hq]. unfold peek.
    destruct (currentHomeId st) as [h|] eqn:Hhome; [|split; cbn; first [done|congruence]].
    rewrite Hv. cbn [negb]. rewrite select_reliable by done. split; cbn; first [done|congruence].
  - pose proof Hr as [Hv Hh Hk Hq]. unfold clearForNode, Spec.step. rewrite <-Hh.
    destruct (currentHomeId st) as [h|] eqn:Hhome; [|done].
    rewrite Hv. cbn [negb]. rewrite write_reliable by done. cbn [fst snd]. split; [done|].
    by apply DELETE_refines.
Qed.
End Refinement.

(** The abstract queues along a run. *)
Fixpoint specRun (ops : list Op) (s : Spec.t) : list Radio * Spec.t :=
  match ops with
  | [] => ([], s)
  | op :: ops => let (o, s) := Spec.step op s in let (os, s) := specRun ops s in (o ++ os, s)
  end.

(** A queue that has just been opened on an empty table. *)
Definition opened : State := mkState (mkDb true (mkTable [] 0) 0) None 0.

End Queue.

Import Queue.

(** C11: With statements that run, the stored queue and the wake-up cycle refine the
    abstract priority queues: over any sequence of bindings, commands, wake-ups and
    clearings, on any networks, the radio is sent the same commands to the same nodes in
    the same order, each once, and every node that woke up is sent to sleep after its
    commands. *)
Theorem queue_refines (e : SqliteEnv) nullData ops :
  reliable e -> sent (run nullData ops opened).1 = (specRun ops (Spec.mk ∅ None)).1.
Proof.
  intros He. assert (refines opened (Spec.mk ∅ None)) as Hr.
  { by split. }
  revert Hr. generalize opened, (Spec.mk ∅ None).
  induction ops as [|op ops IH]; intros st s Hr; [done|]. cbn [run specRun].
  destruct (step_refines nullData He op st s Hr) as [Ho Hr'].
  destruct (step nullData op st) as [ev st'], (Spec.step op s) as [o s']. cbn in Ho, Hr'.
  specialize (IH st' s' Hr'). destruct (run nullData ops st') as [evs ?], (specRun ops s') as [os ?].
  cbn in *. unfold sent in *. by rewrite omap_app, Ho, IH.
Qed.

Definition home1 := [1; 2; 3; 4].
Definition someOps : list Op :=
  [Bind home1; Enqueue 7 [0x20; 1] PRIORITY_NORMAL 0; Enqueue 7 [0x25; 2] PRIORITY_HIGH 1; Enqueue 8 [0x30] 1 1;
   Enqueue 7 [0x26] PRIORITY_NORMAL 2; WakeUp 7; WakeUp 7; Bind [9; 9; 9; 9]; WakeUp 8; Bind home1; WakeUp 8].

Lemma queue_refines_witness :
  sent (run (H := alwaysRuns) true someOps opened).1 = (specRun someOps (Spec.mk ∅ None)).1 /\
  (specRun someOps (Spec.mk ∅ None)).1 
  = [Command 7 [0x25; 2]; Command 7 [0x20; 1]; Command 7 [0x26]; Sleep 7; Sleep 7; Sleep 8; Command 8 [0x30]; Sleep 8].
Proof. split; [apply (queue_refines alwaysRuns true someOps); done|by vm_compute]. Defined.

(** What a drain does under every outcome of its two statements.  A command is
    returned without being deleted when the DELETE fails, and will be sent again; and
    when the SELECT is cut short after [k] rows while the DELETE succeeds, the
    commands behind those rows are deleted without ever being returned. *)
Theorem drain_faults (e : SqliteEnv) id st h :
  currentHomeId st = Some h -> valid (db st) = true ->
  let waiting := SELECT_FOR_NODE h id (table (db st)) in
  let '(out, ev, st') := drain id st in
  let kept := table (db st') = table (db st) in
  let emptied := SELECT_FOR_NODE h id (table (db st')) = [] in
  match e (ran (db st)), e (S (ran (db st))) with
  | PrepareFails, _ => out = [] /\ ev = [] /\ kept
  | StepFails k, Runs => out = payloads (take k waiting) /\ emptied
  | StepFails k, _ => out = payloads (take k waiting) /\ kept
  | Runs, Runs => out = payloads waiting /\ emptied
  | Runs, _ => out = payloads waiting /\ kept
  end.
Proof.
  intros Hh Hv. unfold drain. rewrite Hh, Hv. cbn [negb].
  unfold select, write, spent. unfold valid in Hv. rewrite Hv. cbn [negb].
  destruct (e (ran (db st))); cbn [handle ran fst snd negb db table]; rewrite ?Hv; cbn [negb];
    try (by split_and!);
    destruct (e (S (ran (db st)))); cbn [fst snd db table]; split; try done;
    rewrite DELETE_select; by rewrite decide_True.
Qed.

(** Four operations in, node 7 has two commands waiting; the SELECT of its wake-up
    fails after one row. *)
Lemma drain_faults_witness :
  let st := (run (H := alwaysRuns) true (take 4 someOps) opened).2 in
  let waiting := SELECT_FOR_NODE (formatHomeId home1) 7 (table (db st)) in
  payloads waiting = [[0x25; 2]; [0x20; 1]] /\
  (let '(out, ev, st') := drain (H := fun n => if (n =? 3)%nat then StepFails 1 else Runs) 7 st in
   out = payloads (take 1 waiting) /\ SELECT_FOR_NODE (formatHomeId home1) 7 (table (db st')) = []).
Proof.
  split; [by vm_compute|].
  pose proof (drain_faults (fun n => if (n =? 3)%nat then StepFails 1 else Runs) 7
    (run (H := alwaysRuns) true (take 4 someOps) opened).2 (formatHomeId home1) eq_refl eq_refl) as H.
  vm_compute in H |- *. exact H.
Defined.

(** A wake-up always ends with the node sent back to sleep and the cycle reported,
    whatever the database does. *)
Lemma wake_up_ends_in_sleep (e : SqliteEnv) id st :
  exists msgs pls, (onWakeUpNotification id st).1 = msgs ++
    [SendWakeUpNoMoreInformationCommand id NO_CALLBACK; WakeUpCycleComplete id (u32 (zlen pls))]
  /\ sent msgs = Command id <$> pls /\
  Forall (fun m => match m with SendDataCommand n _ cb => n = id /\ cb = NO_CALLBACK | Stored _ => True | _ => False end) msgs.
Proof.
  unfold onWakeUpNotification. destruct (drain id st) as [[pls ev] st'] eqn:Hd. cbn [fst].
  exists ((Stored <$> ev) ++ ((fun p => SendDataCommand id p NO_CALLBACK) <$> pls)), pls. split_and!.
  - by rewrite <-app_assoc.
  - rewrite sent_stored, <-(app_nil_r ((fun p => _) <$> pls)), sent_commands. cbn. by rewrite app_nil_r.
  - apply Forall_app_2; apply Forall_fmap, Forall_forall; done.
Qed.
