(* ===== verification/PolicyRegister.v ===== *)
(** * Policies and the policy register

    [policy-register/PolicyRegister.cpp]: what to set up on a node after its
    inclusion, as a list of entries; its stored form; the merge of a device default
    with a per-node override; and the register of both in the database. *)

From Stdlib Require Import String.
From S2P Require Import Prelude Sqlite.
From stdpp Require Import gmap strings.
#[local] Open Scope Z_scope.

Module Policy.

(** [PolicyEntry], a variant of three structs. *)
Inductive Entry :=
| ConfigurationEntry (parameter size : Z) (isSigned : bool) (value : Z)
| AssociationEntry (groupId : Z) (members : list Z)
| WakeUpEntry (intervalSeconds notificationNodeId : Z).

Abbreviation t := (list Entry).

Definition POLICY_BLOB_VERSION : Z := 1.
Definition KIND_CONFIGURATION : Z := 1.
Definition KIND_ASSOCIATION : Z := 2.
Definition KIND_WAKEUP : Z := 3.
Definition CONFIG_BODY_LEN : nat := 7.
Definition ASSOC_HEADER_LEN : nat := 2.
Definition WAKEUP_BODY_LEN : nat := 5.

Definition u32Bytes (v : Z) : list Z :=
  [u8 (Z.land (Z.shiftr v 24) 0xFF); u8 (Z.land (Z.shiftr v 16) 0xFF);
   u8 (Z.land (Z.shiftr v 8) 0xFF); u8 (Z.land v 0xFF)].
Definition appendU32Be (out : list Z) (v : Z) : list Z := out ++ u32Bytes v.

Definition readU32Be `{Oob} (bytes : list Z) (pos : nat) : Z :=
  u32 (Z.lor (Z.lor (Z.lor (Z.shiftl bytes.[pos] 24) (Z.shiftl bytes.[(pos + 1)%nat] 16))
         (Z.shiftl bytes.[(pos + 2)%nat] 8)) bytes.[(pos + 3)%nat]).

Definition sameSlot (lhs rhs : Entry) : bool :=
  match lhs, rhs with
  | ConfigurationEntry p _ _ _, ConfigurationEntry q _ _ _ => p =? q
  | AssociationEntry g _, AssociationEntry h _ => g =? h
  | WakeUpEntry _ _, WakeUpEntry _ _ => true
  | _, _ => false
  end.

(** The bytes the visitor of [serialize] appends for one entry. *)
Definition entryBytes (e : Entry) : list Z :=
  match e with
  | ConfigurationEntry p s g v =>
      appendU32Be [KIND_CONFIGURATION; p; s; if g then 1 else 0] (u32 v)
  | AssociationEntry g ms => [KIND_ASSOCIATION; g; u8 (zlen ms)] ++ ms
  | WakeUpEntry i n => appendU32Be [KIND_WAKEUP] i ++ [n]
  end.

Definition serialize (policy : t) : list Z :=
  [POLICY_BLOB_VERSION; u8 (zlen policy)] ++ flat_map entryBytes policy.

Section Deserialize.
Context `{Oob}.

(** One turn of the loop of [deserialize] from [pos]: the entry and the position
    after it. *)
Definition readEntry (bytes : list Z) (pos : nat) : option (Entry * nat) :=
  let size := length bytes in
  if (size <=? pos)%nat then None else
  let kind := bytes.[pos] in
  let pos := (pos + 1)%nat in
  if kind =? KIND_CONFIGURATION then
    if (size <? pos + CONFIG_BODY_LEN)%nat then None else
    Some (ConfigurationEntry bytes.[pos] bytes.[(pos + 1)%nat] (negb (bytes.[(pos + 2)%nat] =? 0))
            (i32 (readU32Be bytes (pos + 3))), (pos + 7)%nat)
  else if kind =? KIND_ASSOCIATION then
    if (size <? pos + ASSOC_HEADER_LEN)%nat then None else
    let memberCt := Z.to_nat bytes.[(pos + 1)%nat] in
    if (size <? pos + 2 + memberCt)%nat then None else
    Some (AssociationEntry bytes.[pos] (slice (pos + 2) memberCt bytes), (pos + 2 + memberCt)%nat)
  else if kind =? KIND_WAKEUP then
    if (size <? pos + WAKEUP_BODY_LEN)%nat then None else
    Some (WakeUpEntry (readU32Be bytes pos) bytes.[(pos + 4)%nat], (pos + 5)%nat)
  else None.

Fixpoint readEntries (count : nat) (bytes : list Z) (pos : nat) : option t :=
  match count with
  | O => Some []
  | S count =>
      match readEntry bytes pos with
      | None => None
      | Some (e, pos) =>
          match readEntries count bytes pos with None => None | Some es => Some (e :: es) end
      end
  end.

Definition deserialize (bytes : list Z) : option t :=
  if (length bytes <? 2)%nat || negb (bytes.[0%nat] =? POLICY_BLOB_VERSION) then None
  else readEntries (Z.to_nat bytes.[1%nat]) bytes 2.
End Deserialize.

(** The inner loop of [merge]: the first entry of the slot is overwritten. *)
Fixpoint replaceFirst (e : Entry) (l : t) : option t :=
  match l with
  | [] => None
  | x :: l => if sameSlot x e then Some (e :: l)
              else match replaceFirst e l with None => None | Some l => Some (x :: l) end
  end.

Definition applyOverride (result : t) (e : Entry) : t :=
  match replaceFirst e result with Some l => l | None => result ++ [e] end.

Definition merge (deviceDefault nodeOverride : t) : t := foldl applyOverride deviceDefault nodeOverride.

End Policy.

(** ** The register *)

Module Register.
Import Policy.

Record DeviceId := mkDevice { manufacturerId : Z; productTypeId : Z; productId : Z }.
#[global] Instance DeviceId_eq_dec : EqDecision DeviceId.
Proof. solve_decision. Defined.
#[global] Instance DeviceId_countable : Countable DeviceId.
Proof.
  refine (inj_countable' (fun d => (manufacturerId d, productTypeId d, productId d))
            (fun t => mkDevice t.1.1 t.1.2 t.2) _). by intros [].
Defined.

(** [device_policies] and [node_policy_overrides], both of blobs. *)
Record Tables := mkTables { devices : gmap DeviceId (list Z); overrides : gmap (string * Z) (list Z) }.

Record State := mkState {
  db : Db Tables; currentHomeId : option string; identityCache : gmap (string * Z) DeviceId }.

(** [PolicyChanged{nodeId}]; 0 for a device default. *)
Inductive Event := PolicyChanged (nodeId : Z).

Definition UPSERT_DEVICE (d : DeviceId) (b : list Z) (t : Tables) : Tables :=
  mkTables (<[d := b]> (devices t)) (overrides t).
Definition DELETE_DEVICE (d : DeviceId) (t : Tables) : Tables := mkTables (delete d (devices t)) (overrides t).
Definition UPSERT_NODE (k : string * Z) (b : list Z) (t : Tables) : Tables :=
  mkTables (devices t) (<[k := b]> (overrides t)).
Definition DELETE_NODE (k : string * Z) (t : Tables) : Tables := mkTables (devices t) (delete k (overrides t)).

Definition withDb (d : Db Tables) (st : State) : State := mkState d (currentHomeId st) (identityCache st).

Section Operations.
Context `{Oob} `{SqliteEnv}.

Definition setHomeId (homeIdBytes : list Z) (st : State) : State :=
  mkState (db st) (Some (formatHomeId homeIdBytes)) (identityCache st).

Definition setDevicePolicy (d : DeviceId) (p : Policy.t) (st : State) : list Event * State :=
  if negb (valid (db st)) then ([], st) else
  let (prepared, db') := write (UPSERT_DEVICE d (serialize p)) (db st) in
  (if prepared then [PolicyChanged 0] else [], withDb db' st).

Definition setNodeOverride (id : Z) (p : Policy.t) (st : State) : list Event * State :=
  match currentHomeId st with
  | None => ([], st)
  | Some home =>
      if negb (valid (db st)) then ([], st) else
      let (prepared, db') := write (UPSERT_NODE (home, id) (serialize p)) (db st) in
      (if prepared then [PolicyChanged id] else [], withDb db' st)
  end.

Definition deleteDevicePolicy (d : DeviceId) (st : State) : list Event * State :=
  if negb (valid (db st)) then ([], st) else
  let (prepared, db') := write (DELETE_DEVICE d) (db st) in
  (if prepared then [PolicyChanged 0] else [], withDb db' st).

Definition deleteNodeOverride (id : Z) (st : State) : list Event * State :=
  match currentHomeId st with
  | None => ([], st)
  | Some home =>
      if negb (valid (db st)) then ([], st) else
      let (prepared, db') := write (DELETE_NODE (home, id)) (db st) in
      (if prepared then [PolicyChanged id] else [], withDb db' st)
  end.

Definition devicePolicy (d : DeviceId) (st : State) : option Policy.t * State :=
  if negb (valid (db st)) then (None, st) else
  let (row, db') := selectOne (fun t => devices t !! d) (db st) in
  (match row with None => None | Some b => deserialize b end, withDb db' st).

Definition nodeOverride (id : Z) (st : State) : option Policy.t * State :=
  match currentHomeId st with
  | None => (None, st)
  | Some home =>
      if negb (valid (db st)) then (None, st) else
      let (row, db') := selectOne (fun t => overrides t !! (home, id)) (db st) in
      (match row with None => None | Some b => deserialize b end, withDb db' st)
  end.

(** The rows of [listDevicePolicies]; a blob that does not parse gives an empty
    policy. *)
Definition listDevicePolicies (st : State) : list (DeviceId * Policy.t) * State :=
  if negb (valid (db st)) then ([], st) else
  let (rows, db') := select (fun t => map_to_list (devices t)) (db st) in
  ((fun r : DeviceId * list Z =>
      (mkDevice (u16 (manufacturerId r.1)) (u16 (productTypeId r.1)) (u16 (productId r.1)),
       default [] (deserialize r.2))) <$> default [] rows,
   withDb db' st).

Definition noteDeviceIdentity (id : Z) (d : DeviceId) (st : State) : State :=
  match currentHomeId st with
  | None => st
  | Some home => mkState (db st) (currentHomeId st) (<[(home, id) := d]> (identityCache st))
  end.

(** The identity the cache has for a node of the bound network. *)
Definition cachedIdentity (id : Z) (st : State) : option DeviceId :=
  match currentHomeId st with None => None | Some home => identityCache st !! (home, id) end.

Definition effectivePolicy (id : Z) (st : State) : Policy.t * State :=
  let ident := cachedIdentity id st in
  let (override, st) := nodeOverride id st in
  let (deviceDefault, st) :=
    match ident with None => (None, st) | Some d => devicePolicy d st end in
  (match deviceDefault, override with
   | Some d, Some o => merge d o
   | None, Some o => o
   | Some d, None => d
   | None, None => []
   end, st).
End Operations.
End Register.

(** ** The stored form *)

Import Policy.

Definition entry_ok (e : Entry) : Prop :=
  match e with
  | ConfigurationEntry p s _ v => byte_ok p /\ byte_ok s /\ - 2147483648 <= v < 2147483648
  | AssociationEntry g ms => byte_ok g /\ bytes_ok ms /\ (length ms <= 255)%nat
  | WakeUpEntry i n => 0 <= i < 4294967296 /\ byte_ok n
  end.

Lemma u32Bytes_be v : 0 <= v < 4294967296 ->
  exists a b c d, u32Bytes v = [a; b; c; d] /\ byte_ok a /\ byte_ok b /\ byte_ok c /\ byte_ok d /\
    v = a * 16777216 + b * 65536 + c * 256 + d.
Proof.
  intros Hv. unfold u32Bytes. change 0xFF with (2 ^ 8 - 1). rewrite !land_mask by lia.
  rewrite !Z.shiftr_div_pow2 by lia. unfold u8. rewrite !Z.mod_mod by lia.
  eexists _, _, _, _. split; [done|]. split_and!; try (apply Z.mod_pos_bound; lia).
  change (2 ^ 8) with 256. change (2 ^ 24) with 16777216. change (2 ^ 16) with 65536.
  assert (v / 65536 = v / 256 / 256) as -> by by rewrite Z.div_div by lia.
  assert (v / 16777216 = v / 256 / 256 / 256) as -> by by rewrite !Z.div_div by lia.
  rewrite (Z.mod_small (v / 256 / 256 / 256));
    [|rewrite !Z.div_div by lia; split; [apply Z.div_pos|apply Z.div_lt_upper_bound]; lia].
  rewrite (Z.div_mod v 256) at 1 by lia. rewrite (Z.div_mod (v / 256) 256) at 1 by lia.
  rewrite (Z.div_mod (v / 256 / 256) 256) at 1 by lia. ring.
Qed.

Lemma be32_value a b c d : byte_ok a -> byte_ok b -> byte_ok c -> byte_ok d ->
  u32 (Z.lor (Z.lor (Z.lor (Z.shiftl a 24) (Z.shiftl b 16)) (Z.shiftl c 8)) d)
  = a * 16777216 + b * 65536 + c * 256 + d.
Proof.
  unfold byte_ok. intros Ha Hb Hc Hd.
  assert (Z.lor (Z.lor (Z.lor (Z.shiftl a 24) (Z.shiftl b 16)) (Z.shiftl c 8)) d
          = a * 16777216 + b * 65536 + c * 256 + d) as ->; [|apply u32_id; lia].
  replace (Z.shiftl a 24) with (Z.shiftl (Z.shiftl a 8) 16) by (by rewrite Z.shiftl_shiftl).
  rewrite <-Z.shiftl_lor, (lor_shiftl_add a b 8) by lia.
  replace (Z.shiftl (a * 2 ^ 8 + b) 16) with (Z.shiftl (Z.shiftl (a * 2 ^ 8 + b) 8) 8) by (by rewrite Z.shiftl_shiftl).
  rewrite <-Z.shiftl_lor, (lor_shiftl_add (a * 2 ^ 8 + b) c 8) by lia. rewrite lor_shiftl_add by lia. lia.
Qed.

Lemma readU32Be_pre `{Oob} pre v post :
  0 <= v < 4294967296 -> readU32Be (pre ++ u32Bytes v ++ post) (length pre) = v.
Proof.
  intros (a & b & c & d & -> & Ha & Hb & Hc & Hd & ->)%u32Bytes_be.
  unfold readU32Be. rewrite byteAt_pre0, !byteAt_pre. by apply be32_value.
Qed.

Lemma i32_u32 v : - 2147483648 <= v < 2147483648 -> i32 (u32 v) = v.
Proof.
  intros Hv. unfold i32, signed, u32. change (2 ^ 32) with 4294967296. change (2 ^ (32 - 1)) with 2147483648.
  rewrite Z.mod_mod by lia. destruct (Z.le_gt_cases 0 v).
  - rewrite Z.mod_small by lia. by destruct (Z.ltb_spec v 2147483648); [|lia].
  - rewrite <-(Z.mod_add v 1), Z.mod_small by lia.
    destruct (Z.ltb_spec (v + 1 * 4294967296) 2147483648); lia.
Qed.

(** Reading an entry at an offset is reading it at the head of what follows. *)
Lemma readEntry_shift `{Oob} pre l p :
  readEntry (pre ++ l) (length pre + p)
  = (fun r => (r.1, (length pre + r.2)%nat)) <$> readEntry l p.
Proof.
  unfold readEntry. rewrite length_app, !byteAt_pre.
  assert (Hle : forall x y, ((length pre + x <=? length pre + y) = (x <=? y))%nat).
  { intros. destruct (Nat.leb_spec x y), (Nat.leb_spec (length pre + x) (length pre + y)); lia. }
  assert (Hlt : forall x y, ((length pre + x <? length pre + y) = (x <? y))%nat).
  { intros. destruct (Nat.ltb_spec x y), (Nat.ltb_spec (length pre + x) (length pre + y)); lia. }
  unfold readU32Be. rewrite <-!Nat.add_assoc, !byteAt_pre, Hle, !Hlt.
  unfold slice. rewrite drop_app_add. repeat zcase; cbn; repeat f_equal; lia.
Qed.

(** One entry is read back from where it was written. *)
Lemma readEntry_entryBytes `{Oob} e post :
  entry_ok e -> readEntry (entryBytes e ++ post) 0 = Some (e, length (entryBytes e)).
Proof.
  destruct e as [p s g v|g ms|i n]; cbn [entry_ok].
  - intros (Hp & Hs & Hv).
    destruct (u32Bytes_be (u32 v) (u32_range v)) as (a & b & c & d & E & ? & ? & ? & ? & Ev).
    cbn [entryBytes]. unfold appendU32Be. rewrite E. cbn. unfold readU32Be. cbn.
    rewrite be32_value, <-Ev, i32_u32 by done. by destruct g.
  - intros (Hg & Hms & Hl). unfold readEntry. cbn [entryBytes app].
    assert (Hc : (KIND_ASSOCIATION :: g :: u8 (zlen ms) :: ms ++ post).[2%nat] = zlen ms)
      by (cbn; apply u8_id; unfold byte_ok; lia).
    cbn [Nat.add]. rewrite Hc, Nat2Z.id.
    rewrite (proj2 (Nat.ltb_ge _ (3 + length ms))) by (cbn; rewrite length_app; lia).
    unfold slice. cbn. by rewrite drop_0, take_app_length.
  - intros (Hi & Hn). destruct (u32Bytes_be i Hi) as (a & b & c & d & E & ? & ? & ? & ? & Ev).
    cbn [entryBytes]. unfold appendU32Be. rewrite E. cbn. unfold readU32Be. cbn.
    by rewrite be32_value, <-Ev by done.
Qed.

Lemma readEntries_bytes `{Oob} es pre post n :
  Forall entry_ok es -> (n <= length es)%nat ->
  readEntries n (pre ++ flat_map entryBytes es ++ post) (length pre) = Some (take n es).
Proof.
  intros Hes. revert pre n. induction Hes as [|e es He Hes IH]; intros pre [|n] Hn; cbn in Hn; try done; [lia|].
  cbn [flat_map readEntries]. rewrite <-!app_assoc.
  rewrite <-(Nat.add_0_r (length pre)) at 1. rewrite readEntry_shift, readEntry_entryBytes by done. cbn.
  rewrite <-length_app, app_assoc, IH by lia. done.
Qed.

(** The version and count bytes, and the entries the count announces: a policy of
    more than 255 entries comes back as its first [length mod 256]. *)
Lemma deserialize_serialize `{Oob} p :
  Forall entry_ok p -> deserialize (serialize p) = Some (take (Z.to_nat (u8 (zlen p))) p).
Proof.
  intros Hp. unfold deserialize, serialize. cbn.
  change (POLICY_BLOB_VERSION :: u8 (zlen p) :: flat_map entryBytes p)
    with ([POLICY_BLOB_VERSION; u8 (zlen p)] ++ flat_map entryBytes p).
  rewrite <-(app_nil_r (flat_map _ _)). apply (readEntries_bytes p [_; _]); [done|].
  unfold u8. pose proof (Z.mod_le (zlen p) 256). lia.
Qed.

(** ** Slots *)

(** The slot of an entry: its kind and, for the first two kinds, its key. *)
Definition slotOf (e : Entry) : Z * Z :=
  match e with
  | ConfigurationEntry p _ _ _ => (KIND_CONFIGURATION, p)
  | AssociationEntry g _ => (KIND_ASSOCIATION, g)
  | WakeUpEntry _ _ => (KIND_WAKEUP, 0)
  end.

#[local] Arguments slotOf !_ /.

Lemma sameSlot_spec x y : sameSlot x y = bool_decide (slotOf x = slotOf y).
Proof.
  destruct x, y; cbn; try (symmetry; apply bool_decide_eq_false_2; by intros [=]).
  - destruct (Z.eqb_spec parameter parameter0); symmetry;
      [apply bool_decide_eq_true_2|apply bool_decide_eq_false_2]; congruence.
  - destruct (Z.eqb_spec groupId groupId0); symmetry;
      [apply bool_decide_eq_true_2|apply bool_decide_eq_false_2]; congruence.
  - symmetry. by apply bool_decide_eq_true_2.
Qed.

(** The entry a policy has for a slot: the first one. *)
Definition entryFor (s : Z * Z) (p : t) : option Entry := find (fun e => bool_decide (slotOf e = s)) p.

(** [applyOverride] by the slots alone: in place when the slot is taken, at the end
    when it is not. *)
Lemma replaceFirst_spec e l :
  match replaceFirst e l with
  | Some l' => slotOf <$> l' = slotOf <$> l /\ slotOf e ∈ slotOf <$> l /\
      forall s, entryFor s l' = if bool_decide (slotOf e = s) then Some e else entryFor s l
  | None => slotOf e ∉ slotOf <$> l
  end.
Proof.
  induction l as [|x l IH]; cbn [replaceFirst]; [apply not_elem_of_nil|].
  rewrite sameSlot_spec. destruct (bool_decide_reflect (slotOf x = slotOf e)) as [Hx|Hx].
  - cbn. rewrite Hx. split; [done|]. split; [apply list_elem_of_here|]. intros s. unfold entryFor. cbn.
    by destruct (bool_decide (slotOf e = s)).
  - destruct (replaceFirst e l) as [l'|].
    + destruct IH as (Hm & Hin & Hf). cbn. rewrite Hm. split; [done|].
      split; [by apply list_elem_of_further|]. intros s. unfold entryFor in *. cbn. rewrite Hf.
      destruct (bool_decide_reflect (slotOf x = s)) as [<-|]; [|done].
      by rewrite (bool_decide_eq_false_2 (slotOf e = slotOf x)).
    + cbn. rewrite not_elem_of_cons. split; [congruence|done].
Qed.

Lemma entryFor_app s l k :
  entryFor s (l ++ k) = match entryFor s l with Some e => Some e | None => entryFor s k end.
Proof. unfold entryFor. induction l as [|x l IH]; cbn; [done|]. by destruct (bool_decide _). Qed.

Lemma entryFor_None s l : s ∉ slotOf <$> l -> entryFor s l = None.
Proof.
  induction l as [|x l IH]; [done|]. cbn. rewrite not_elem_of_cons. intros [Hx Hl].
  unfold entryFor. cbn. rewrite bool_decide_eq_false_2 by congruence. by apply IH.
Qed.

Lemma applyOverride_entryFor l e s :
  entryFor s (applyOverride l e) = if bool_decide (slotOf e = s) then Some e else entryFor s l.
Proof.
  unfold applyOverride. pose proof (replaceFirst_spec e l) as H. destruct (replaceFirst e l) as [l'|].
  - apply H.
  - rewrite entryFor_app. unfold entryFor at 2. cbn. destruct (bool_decide_reflect (slotOf e = s)) as [<-|].
    + by rewrite entryFor_None.
    + by destruct (entryFor s l).
Qed.

Lemma applyOverride_slots l e :
  exists k, slotOf <$> applyOverride l e = (slotOf <$> l) ++ k /\
    (NoDup (slotOf <$> l) -> NoDup (slotOf <$> applyOverride l e)).
Proof.
  unfold applyOverride. pose proof (replaceFirst_spec e l) as H. destruct (replaceFirst e l) as [l'|].
  - destruct H as (-> & _). exists []. by rewrite app_nil_r.
  - exists [slotOf e]. rewrite fmap_app. split; [done|]. intros Hn.
    apply NoDup_app. split_and!; [done| |apply NoDup_singleton].
    intros s Hs ->%list_elem_of_singleton. done.
Qed.

Lemma applyOverride_length l e :
  length (applyOverride l e) = (if bool_decide (slotOf e ∈ slotOf <$> l) then length l else S (length l)).
Proof.
  unfold applyOverride. pose proof (replaceFirst_spec e l) as H. destruct (replaceFirst e l) as [l'|].
  - destruct H as (Hm & Hin & _). rewrite bool_decide_eq_true_2 by done.
    by rewrite <-(length_fmap slotOf l'), Hm, length_fmap.
  - rewrite bool_decide_eq_false_2, length_app by done. cbn. lia.
Qed.

Lemma applyOverride_ok l e : Forall entry_ok l -> entry_ok e -> Forall entry_ok (applyOverride l e).
Proof.
  intros Hl He. unfold applyOverride.
  assert (forall l', replaceFirst e l = Some l' -> Forall entry_ok l') as H.
  { induction Hl as [|x l Hx Hl IH]; intros l'; cbn; [done|].
    destruct (sameSlot x e); [intros [=<-]; by constructor|].
    destruct (replaceFirst e l); intros [=<-]. constructor; auto. }
  destruct (replaceFirst e l); [auto|]. apply Forall_app. by repeat constructor.
Qed.

(** A merged policy has, for every slot, the last override of it, else the device
    default's entry; the default's slots keep their order, the others follow them;
    and a default without two entries for one slot gives a policy without. *)
Theorem merge_spec deviceDefault nodeOverride :
  let result := merge deviceDefault nodeOverride in
  (forall s, entryFor s result
     = match entryFor s (reverse nodeOverride) with Some e => Some e | None => entryFor s deviceDefault end) /\
  (exists added, slotOf <$> result = (slotOf <$> deviceDefault) ++ added) /\
  (NoDup (slotOf <$> deviceDefault) -> NoDup (slotOf <$> result)).
Proof.
  cbn zeta. unfold merge. revert deviceDefault. induction nodeOverride as [|e o IH]; intros d.
  { cbn. split_and!; [done| |done]. exists []. by rewrite app_nil_r. }
  cbn [foldl]. destruct (IH (applyOverride d e)) as (Hf & (k & Hk) & Hn).
  destruct (applyOverride_slots d e) as (k' & Hk' & Hn'). split_and!.
  - intros s. rewrite Hf, reverse_cons, entryFor_app, applyOverride_entryFor.
    destruct (entryFor s (reverse o)); [done|]. unfold entryFor at 2. cbn.
    by destruct (bool_decide (slotOf e = s)).
  - exists (k' ++ k). by rewrite Hk, Hk', app_assoc.
  - auto.
Qed.

Lemma merge_spec_witness :
  let d := [ConfigurationEntry 1 1 false 0; WakeUpEntry 60 1] in
  NoDup (slotOf <$> d) /\
  NoDup (slotOf <$> merge d [WakeUpEntry 30 1; AssociationEntry 1 [1]; WakeUpEntry 90 1]).
Proof.
  assert (Hd : NoDup (slotOf <$> [ConfigurationEntry 1 1 false 0; WakeUpEntry 60 1]))
    by (apply (bool_decide_unpack _); by vm_compute).
  split; [exact Hd|]. apply (merge_spec _ _); exact Hd.
Defined.

(** ** Blobs that parse *)

Section Parsed.
Context (o1 o2 : Oob).

(** An entry is read within the blob, is well typed, and does not depend on reads
    past the end. *)
Lemma readEntry_safe bytes pos :
  readEntry (H := o1) bytes pos = readEntry (H := o2) bytes pos.
Proof.
  unfold readEntry, readU32Be, CONFIG_BODY_LEN, ASSOC_HEADER_LEN, WAKEUP_BODY_LEN. oob_indep o1 o2.
Qed.
End Parsed.

Lemma signed_range w v : 0 < w -> - 2 ^ (w - 1) <= signed w v < 2 ^ (w - 1).
Proof.
  intros Hw. unfold signed. pose proof (Z.mod_pos_bound v (2 ^ w)).
  assert (2 ^ w = 2 * 2 ^ (w - 1)) by (rewrite <-Z.pow_succ_r by lia; f_equal; lia).
  assert (0 < 2 ^ (w - 1)) by (apply Z.pow_pos_nonneg; lia). zcase; lia.
Qed.

Lemma readEntry_ok `{Oob} bytes pos e pos' :
  bytes_ok bytes -> readEntry bytes pos = Some (e, pos') -> entry_ok e /\ (pos < pos' <= length bytes)%nat.
Proof.
  intros Hb. unfold readEntry, CONFIG_BODY_LEN, ASSOC_HEADER_LEN, WAKEUP_BODY_LEN.
  repeat zcase; intros [=<- <-]; cbn [entry_ok].
  - split; [split_and!|lia]; try (apply byteAt_ok; [done|lia]); apply (signed_range 32); lia.
  - assert (byte_ok bytes.[(pos + 1 + 1)%nat]) by (apply byteAt_ok; [done|lia]).
    unfold byte_ok in *. split; [split_and!|lia]; try (apply byteAt_ok; [done|lia]).
    + by apply slice_ok.
    + rewrite slice_length; lia.
  - split; [split; [apply u32_range|apply byteAt_ok; [done|lia]]|lia].
Qed.

Lemma readEntries_ok `{Oob} n bytes pos p :
  bytes_ok bytes -> readEntries n bytes pos = Some p -> Forall entry_ok p /\ length p = n.
Proof.
  intros Hb. revert pos p. induction n as [|n IH]; intros pos p; cbn; [by intros [=<-]|].
  destruct (readEntry bytes pos) as [[e pos']|] eqn:He; [|done].
  destruct (readEntries n bytes pos') as [es|] eqn:Hes; [|done]. intros [=<-].
  destruct (IH _ _ Hes) as [? <-]. split; [|done]. constructor; [|done]. by eapply readEntry_ok.
Qed.

Lemma policy_parsed `{Oob} bytes p :
  bytes_ok bytes -> deserialize bytes = Some p -> Forall entry_ok p /\ (length p <= 255)%nat.
Proof.
  intros Hb. unfold deserialize. destruct (Nat.ltb_spec (length bytes) 2); [done|]. cbn [orb].
  destruct (negb _); [done|]. intros [Hp Hl]%readEntries_ok; [|done].
  assert (Hu : byte_ok bytes.[1%nat]) by (apply byteAt_ok; [done|lia]). unfold byte_ok in Hu. split; [done|lia].
Qed.

(** Whatever the bytes, parsing a policy never reads past them; a policy that
    parses holds at most 255 entries within their types, and serialising it gives a
    blob that parses to the same policy.  A policy of more than 255 entries is stored
    with its count modulo 256 and read back as that many of its first entries. *)
Theorem policy_blobs (o1 o2 : Oob) (bytes : list Z) (p : Policy.t) :
  bytes_ok bytes ->
  deserialize (H := o1) bytes = deserialize (H := o2) bytes /\
  (deserialize (H := o1) bytes = Some p ->
     Forall entry_ok p /\ (length p <= 255)%nat /\ deserialize (H := o2) (serialize p) = Some p) /\
  (Forall entry_ok p -> deserialize (H := o1) (serialize p) = Some (take (Z.to_nat (u8 (zlen p))) p)).
Proof.
  intros Hb. split_and!.
  - unfold deserialize. destruct (Nat.ltb_spec (length bytes) 2); [done|].
    rewrite !(byteAt_indep o1 o2) by lia. cbn [orb]. destruct (negb _); [done|].
    clear. generalize (Z.to_nat (byteAt (H := o2) bytes 1)) 2%nat.
    induction n as [|n IH]; intros pos; [done|]. cbn [readEntries]. rewrite (readEntry_safe o1 o2).
    destruct (readEntry bytes pos) as [[e pos']|]; [|done]. by rewrite IH.
  - intros [Hp Hl]%policy_parsed; [|done].
    split_and!; [done|lia|]. rewrite deserialize_serialize, u8_id by (done || unfold byte_ok; lia).
    by rewrite Nat2Z.id, take_ge.
  - intros Hp. by rewrite (deserialize_serialize (H := o1)).
Qed.

Lemma policy_blobs_witness :
  bytes_ok [1; 2; 1; 5; 1; 1; 0xFF; 0xFF; 0xFF; 0xFE; 2; 1; 2; 7; 9] /\
  deserialize (H := 0) (serialize [ConfigurationEntry 5 1 true (-2); AssociationEntry 1 [7; 9]])
  = Some [ConfigurationEntry 5 1 true (-2); AssociationEntry 1 [7; 9]].
Proof.
  assert (Hb : bytes_ok [1; 2; 1; 5; 1; 1; 0xFF; 0xFF; 0xFF; 0xFE; 2; 1; 2; 7; 9])
    by (repeat constructor; unfold byte_ok; lia).
  split; [exact Hb|].
  apply (proj1 (proj2 (policy_blobs 1 0 _ [ConfigurationEntry 5 1 true (-2); AssociationEntry 1 [7; 9]] Hb))).
  by vm_compute.
Defined.

(** ** Policies in force *)

Import Register.

Section Effective.
Context `{Oob} `{e : SqliteEnv} (He : reliable e).

Lemma nodeOverride_value id st home :
  valid (db st) = true -> currentHomeId st = Some home ->
  nodeOverride id st
  = (match overrides (table (db st)) !! (home, id) with None => None | Some b => deserialize b end,
     withDb (spent (db st)) st).
Proof. intros Hv Hh. unfold nodeOverride. rewrite Hh, Hv. cbn. by rewrite selectOne_reliable. Qed.

Lemma devicePolicy_value d st :
  valid (db st) = true ->
  devicePolicy d st
  = (match devices (table (db st)) !! d with None => None | Some b => deserialize b end,
     withDb (spent (db st)) st).
Proof. intros Hv. unfold devicePolicy. rewrite Hv. cbn. by rewrite selectOne_reliable. Qed.

Lemma setDevicePolicy_value d p st :
  valid (db st) = true ->
  setDevicePolicy d p st
  = ([PolicyChanged 0], withDb (mkDb true (UPSERT_DEVICE d (serialize p) (table (db st))) (S (ran (db st)))) st).
Proof. intros Hv. unfold setDevicePolicy. rewrite Hv. cbn. by rewrite write_reliable. Qed.

Lemma setNodeOverride_value id p st home :
  valid (db st) = true -> currentHomeId st = Some home ->
  setNodeOverride id p st
  = ([PolicyChanged id], withDb (mkDb true (UPSERT_NODE (home, id) (serialize p) (table (db st))) (S (ran (db st)))) st).
Proof. intros Hv Hh. unfold setNodeOverride. rewrite Hh, Hv. cbn. by rewrite write_reliable. Qed.

Lemma deleteNodeOverride_value id st home :
  valid (db st) = true -> currentHomeId st = Some home ->
  deleteNodeOverride id st
  = ([PolicyChanged id], withDb (mkDb true (DELETE_NODE (home, id) (table (db st))) (S (ran (db st)))) st).
Proof. intros Hv Hh. unfold deleteNodeOverride. rewrite Hh, Hv. cbn. by rewrite write_reliable. Qed.

Lemma effectivePolicy_value id st home :
  valid (db st) = true -> currentHomeId st = Some home ->
  (effectivePolicy id st).1 =
  match (match identityCache st !! (home, id) with
         | Some d => match devices (table (db st)) !! d with Some b => deserialize b | None => None end
         | None => None end),
        (match overrides (table (db st)) !! (home, id) with Some b => deserialize b | None => None end) with
  | Some d, Some o => merge d o
  | None, Some o => o
  | Some d, None => d
  | None, None => []
  end.
Proof.
  intros Hv Hh. unfold effectivePolicy, cachedIdentity. rewrite (nodeOverride_value _ _ home) by done.
  rewrite Hh. destruct (identityCache st !! (home, id)) as [d|].
  - by rewrite devicePolicy_value.
  - cbn. by destruct (overrides _ !! _).
Qed.
End Effective.

#[local] Arguments serialize : simpl never.

(** What a restart leaves: the tables, reopened, and the network bound again. *)
Definition restarted (home : string) (st : Register.State) : Register.State :=
  Register.mkState (mkDb true (table (db st)) 0) (Some home) ∅.

(** A device default and a node override that were stored apply to the node as
    their merge once the node's identity was reported; after a restart only the
    override applies, until the node reports its identity again. *)
Theorem policy_in_force `{Oob} (e : SqliteEnv) id dev d o home st :
  reliable e -> valid (db st) = true -> currentHomeId st = Some home ->
  Forall entry_ok d -> Forall entry_ok o -> (length d <= 255)%nat -> (length o <= 255)%nat ->
  let r1 := setDevicePolicy dev d st in
  let r2 := setNodeOverride id o r1.2 in
  let known := noteDeviceIdentity id dev r2.2 in
  r1.1 = [PolicyChanged 0] /\ r2.1 = [PolicyChanged id] /\
  (effectivePolicy id known).1 = merge d o /\
  (effectivePolicy id (restarted home known)).1 = o /\
  (effectivePolicy id (noteDeviceIdentity id dev (restarted home known))).1 = merge d o /\
  (effectivePolicy id (deleteNodeOverride id known).2).1 = d.
Proof.
  intros He Hv Hh Hd Ho Ld Lo. cbn zeta.
  assert (Hb : forall p, Forall entry_ok p -> (length p <= 255)%nat -> deserialize (serialize p) = Some p).
  { intros p Hp Hl. rewrite deserialize_serialize, u8_id by (done || unfold byte_ok; lia).
    by rewrite Nat2Z.id, take_ge. }
  rewrite setDevicePolicy_value by done. cbn [fst snd].
  rewrite (setNodeOverride_value He _ _ _ home) by done. cbn [fst snd].
  unfold noteDeviceIdentity. cbn [currentHomeId withDb]. rewrite Hh. cbn [currentHomeId restarted].
  rewrite (deleteNodeOverride_value He _ _ home) by done. cbn [fst snd].
  split_and!; [done|done|..]; rewrite (effectivePolicy_value He _ _ home) by done; cbn;
    by rewrite ?lookup_insert_eq, ?lookup_empty, ?lookup_delete_eq, ?Hb.
Qed.

Lemma policy_in_force_witness :
  let st := Register.mkState (mkDb true (mkTables ∅ ∅) 0) (Some "C0FFEE00"%string) ∅ in
  (effectivePolicy (H := 0) (H0 := alwaysRuns) 7
     (noteDeviceIdentity 7 (mkDevice 0x86 1 2)
       (setNodeOverride (H0 := alwaysRuns) 7 [WakeUpEntry 30 1]
         (setDevicePolicy (H0 := alwaysRuns) (mkDevice 0x86 1 2) [WakeUpEntry 60 1; AssociationEntry 1 [1]] st).2).2)).1
  = [WakeUpEntry 30 1; AssociationEntry 1 [1]].
Proof.
  cbn zeta.
  refine (proj1 (proj2 (proj2 (policy_in_force (H := 0) alwaysRuns 7 (mkDevice 0x86 1 2)
     [WakeUpEntry 60 1; AssociationEntry 1 [1]] [WakeUpEntry 30 1] "C0FFEE00"%string
     (Register.mkState (mkDb true (mkTables ∅ ∅) 0) (Some "C0FFEE00"%string) ∅)
     alwaysRuns_reliable eq_refl eq_refl _ _ _ _))));
    try (cbn; lia); repeat constructor; unfold byte_ok; cbn; lia.
Defined.
