(* ===== verification/PolicyBlob.v ===== *)
(** * The policy blobs of the terminal client

    [utils/zwave-terminal/policy_blob.cpp] implements the stored form of a policy a
    second time, so that the client links no daemon code.  Its entries are one struct
    with a kind byte where the daemon has a variant.  The theorem is that the two
    implementations agree. *)

From S2P Require Import Prelude PolicyRegister.
From stdpp Require Import base.
#[local] Open Scope Z_scope.

Module Blob.

(** [PolicyEntry]: only the fields of its kind mean something; the others keep their
    initialisers. *)
Record PolicyEntry := mkPolicyEntry {
  kind : Z;
  parameter : Z; size : Z; isSigned : bool; value : Z;
  groupId : Z; members : list Z;
  intervalSeconds : Z; notificationNodeId : Z }.

Definition POLICY_BLOB_VERSION : Z := 1.
Definition POLICY_KIND_CONFIG : Z := 1.
Definition POLICY_KIND_ASSOC : Z := 2.
Definition POLICY_KIND_WAKEUP : Z := 3.
Definition POLICY_CONFIG_BODY_LEN : nat := 7.
Definition POLICY_ASSOC_HEADER_LEN : nat := 2.
Definition POLICY_WAKEUP_BODY_LEN : nat := 5.

Definition configEntry (k p s : Z) (g : bool) (v : Z) : PolicyEntry := mkPolicyEntry k p s g v 0 [] 0 0.
Definition assocEntry (k g : Z) (ms : list Z) : PolicyEntry := mkPolicyEntry k 0 1 false 0 g ms 0 0.
Definition wakeUpEntry (k i n : Z) : PolicyEntry := mkPolicyEntry k 0 1 false 0 0 [] i n.

Definition readU32Be `{Oob} (bytes : list Z) (pos : nat) : Z :=
  u32 (Z.lor (Z.lor (Z.lor (Z.shiftl bytes.[pos] 24) (Z.shiftl bytes.[(pos + 1)%nat] 16))
         (Z.shiftl bytes.[(pos + 2)%nat] 8)) bytes.[(pos + 3)%nat]).

Definition appendU32Be (out : list Z) (v : Z) : list Z :=
  out ++ [u8 (Z.land (Z.shiftr v 24) 0xFF); u8 (Z.land (Z.shiftr v 16) 0xFF);
          u8 (Z.land (Z.shiftr v 8) 0xFF); u8 (Z.land v 0xFF)].

Section Decode.
Context `{Oob}.

(** One turn of the loop of [decodePolicy]. *)
Definition decodeEntry (bytes : list Z) (pos : nat) : option (PolicyEntry * nat) :=
  let n := length bytes in
  if (n <=? pos)%nat then None else
  let kind := bytes.[pos] in
  let pos := (pos + 1)%nat in
  if kind =? POLICY_KIND_CONFIG then
    if (n <? pos + POLICY_CONFIG_BODY_LEN)%nat then None else
    Some (configEntry kind bytes.[pos] bytes.[(pos + 1)%nat] (negb (bytes.[(pos + 2)%nat] =? 0))
            (i32 (readU32Be bytes (pos + 3))), (pos + 7)%nat)
  else if kind =? POLICY_KIND_ASSOC then
    if (n <? pos + POLICY_ASSOC_HEADER_LEN)%nat then None else
    let memberCt := Z.to_nat bytes.[(pos + 1)%nat] in
    if (n <? pos + 2 + memberCt)%nat then None else
    Some (assocEntry kind bytes.[pos] (slice (pos + 2) memberCt bytes), (pos + 2 + memberCt)%nat)
  else if kind =? POLICY_KIND_WAKEUP then
    if (n <? pos + POLICY_WAKEUP_BODY_LEN)%nat then None else
    Some (wakeUpEntry kind (readU32Be bytes pos) bytes.[(pos + 4)%nat], (pos + 5)%nat)
  else None.

Fixpoint decodeEntries (count : nat) (bytes : list Z) (pos : nat) : option (list PolicyEntry) :=
  match count with
  | O => Some []
  | S count =>
      match decodeEntry bytes pos with
      | None => None
      | Some (entry, pos) =>
          match decodeEntries count bytes pos with None => None | Some out => Some (entry :: out) end
      end
  end.

Definition decodePolicy (bytes : list Z) : option (list PolicyEntry) :=
  if (length bytes <? 2)%nat || negb (bytes.[0%nat] =? POLICY_BLOB_VERSION) then None
  else decodeEntries (Z.to_nat bytes.[1%nat]) bytes 2.
End Decode.

Definition encodeEntry (entry : PolicyEntry) : list Z :=
  kind entry ::
  if kind entry =? POLICY_KIND_CONFIG then
    appendU32Be [parameter entry; size entry; if isSigned entry then 1 else 0] (u32 (value entry))
  else if kind entry =? POLICY_KIND_ASSOC then
    [groupId entry; u8 (zlen (members entry))] ++ members entry
  else if kind entry =? POLICY_KIND_WAKEUP then
    appendU32Be [] (intervalSeconds entry) ++ [notificationNodeId entry]
  else [].

Definition encodePolicy (policy : list PolicyEntry) : list Z :=
  [POLICY_BLOB_VERSION; u8 (zlen policy)] ++ flat_map encodeEntry policy.

Definition sameSlot (lhs rhs : PolicyEntry) : bool :=
  if negb (kind lhs =? kind rhs) then false
  else if kind lhs =? POLICY_KIND_CONFIG then parameter lhs =? parameter rhs
  else if kind lhs =? POLICY_KIND_ASSOC then groupId lhs =? groupId rhs
  else true.

(** The loop of [applyEntryToBlob] over the decoded entries, with its [replaced]. *)
Fixpoint upsert (policy : list PolicyEntry) (entry : PolicyEntry) : list PolicyEntry * bool :=
  match policy with
  | [] => ([entry], false)
  | existing :: policy =>
      if sameSlot existing entry then (entry :: policy, true)
      else let (policy, replaced) := upsert policy entry in (existing :: policy, replaced)
  end.

Definition applyEntryToBlob `{Oob} (existing : list Z) (entry : PolicyEntry) : option (list Z * bool) :=
  match (match existing with [] => Some [] | _ => decodePolicy existing end) with
  | None => None
  | Some policy => let (policy, replaced) := upsert policy entry in Some (encodePolicy policy, replaced)
  end.

End Blob.

(** ** Agreement *)

Import Policy.

(** The client's form of the daemon's entries. *)
Definition clientEntry (e : Entry) : Blob.PolicyEntry :=
  match e with
  | ConfigurationEntry p s g v => Blob.configEntry Blob.POLICY_KIND_CONFIG p s g v
  | AssociationEntry g ms => Blob.assocEntry Blob.POLICY_KIND_ASSOC g ms
  | WakeUpEntry i n => Blob.wakeUpEntry Blob.POLICY_KIND_WAKEUP i n
  end.

Section Agreement.
Context `{Oob}.

Lemma decodeEntry_agrees bytes pos :
  Blob.decodeEntry bytes pos = (fun r => (clientEntry r.1, r.2)) <$> readEntry bytes pos.
Proof.
  unfold Blob.decodeEntry, readEntry. cbn zeta.
  change Blob.POLICY_KIND_CONFIG with KIND_CONFIGURATION. change Blob.POLICY_KIND_ASSOC with KIND_ASSOCIATION.
  change Blob.POLICY_KIND_WAKEUP with KIND_WAKEUP.
  change Blob.POLICY_CONFIG_BODY_LEN with CONFIG_BODY_LEN. change Blob.POLICY_ASSOC_HEADER_LEN with ASSOC_HEADER_LEN.
  change Blob.POLICY_WAKEUP_BODY_LEN with WAKEUP_BODY_LEN.
  repeat zcase; try done; cbn; by rewrite e.
Qed.

Lemma decodePolicy_agrees bytes : Blob.decodePolicy bytes = option_map (fmap clientEntry) (deserialize bytes).
Proof.
  unfold Blob.decodePolicy, deserialize. change Blob.POLICY_BLOB_VERSION with POLICY_BLOB_VERSION.
  destruct (_ || _); [done|]. generalize (Z.to_nat bytes.[1%nat]) 2%nat. intros n.
  induction n as [|n IH]; intros pos; [done|]. cbn [Blob.decodeEntries readEntries].
  rewrite decodeEntry_agrees. destruct (readEntry bytes pos) as [[e pos']|]; [|done].
  cbn [fmap option_fmap option_map fst snd]. rewrite IH. by destruct (readEntries n bytes pos').
Qed.

Lemma encodePolicy_agrees p : Blob.encodePolicy (clientEntry <$> p) = serialize p.
Proof.
  unfold Blob.encodePolicy, serialize. rewrite length_fmap. f_equal.
  induction p as [|e p IH]; [done|]. cbn [fmap list_fmap flat_map]. rewrite IH. f_equal. by destruct e.
Qed.

Lemma sameSlot_agrees x y : Blob.sameSlot (clientEntry x) (clientEntry y) = sameSlot x y.
Proof. by destruct x, y. Qed.

Lemma upsert_agrees p e :
  Blob.upsert (clientEntry <$> p) (clientEntry e)
  = (clientEntry <$> applyOverride p e, bool_decide (is_Some (entryFor (slotOf e) p))).
Proof.
  induction p as [|x p IH]; [done|]. cbn [fmap list_fmap Blob.upsert]. rewrite sameSlot_agrees.
  unfold applyOverride, entryFor in *. cbn [replaceFirst find]. rewrite sameSlot_spec.
  destruct (bool_decide (slotOf x = slotOf e)); [done|]. rewrite IH.
  by destruct (replaceFirst e p).
Qed.
End Agreement.

(** The policy a stored blob stands for; no blob at all is the empty policy. *)
Definition stored `{Oob} (bytes : list Z) : option Policy.t :=
  match bytes with [] => Some [] | _ => deserialize bytes end.

(** Changing one entry of a stored blob is the daemon's merge of that override. *)
Lemma applyEntryToBlob_agrees `{Oob} bytes e :
  Blob.applyEntryToBlob bytes (clientEntry e)
  = option_map (fun p => (serialize (merge p [e]), bool_decide (is_Some (entryFor (slotOf e) p)))) (stored bytes).
Proof.
  unfold Blob.applyEntryToBlob. rewrite decodePolicy_agrees.
  destruct bytes as [|b bytes]; [exact (f_equal (fun b => Some (b, false)) (encodePolicy_agrees [e]))|]. cbn [stored].
  destruct (deserialize (b :: bytes)) as [q|]; [|done]. cbn [option_map]. by rewrite upsert_agrees, encodePolicy_agrees.
Qed.

Lemma stored_ok `{Oob} bytes p : bytes_ok bytes -> stored bytes = Some p -> Forall entry_ok p /\ (length p <= 255)%nat.
Proof.
  intros Hb Hp. destruct bytes; [injection Hp as <-; by split; [constructor|cbn; lia]|by eapply policy_parsed].
Qed.

(** What is written is read back, unless it was the 256th entry. *)
Lemma merged_read_back `{Oob} p e :
  Forall entry_ok p -> (length p <= 255)%nat -> entry_ok e -> slotOf e ∈ slotOf <$> p \/ (length p < 255)%nat ->
  deserialize (serialize (merge p [e])) = Some (merge p [e]).
Proof.
  intros Hok Hl He Hin. change (merge p [e]) with (applyOverride p e).
  rewrite deserialize_serialize by by apply applyOverride_ok. rewrite applyOverride_length.
  assert ((if bool_decide (slotOf e ∈ slotOf <$> p) then length p else S (length p)) <= 255)%nat.
  { destruct Hin as [Hin|]; [rewrite bool_decide_eq_true_2 by done; lia|]. destruct (bool_decide _); lia. }
  rewrite u8_id by (unfold byte_ok; lia). by rewrite Nat2Z.id, take_ge by by rewrite applyOverride_length.
Qed.

(** C28: the client's codec is the daemon's: it parses the same blobs to the same
    entries, writes the same bytes, and changing one entry of a stored blob is the
    daemon's merge of that one override; a blob that does not parse is left alone.
    So what the daemon reads back is the merge, except that a 256th entry makes it
    read an empty policy. *)
Theorem terminal_agrees `{Oob} bytes p e :
  bytes_ok bytes -> entry_ok e ->
  Blob.decodePolicy bytes = option_map (fmap clientEntry) (deserialize bytes) /\
  Blob.encodePolicy (clientEntry <$> p) = serialize p /\
  Blob.applyEntryToBlob bytes (clientEntry e)
    = option_map (fun p => (serialize (merge p [e]), bool_decide (is_Some (entryFor (slotOf e) p)))) (stored bytes) /\
  (stored bytes = Some p ->
     (slotOf e ∈ slotOf <$> p \/ (length p < 255)%nat ->
        deserialize (serialize (merge p [e])) = Some (merge p [e])) /\
     (slotOf e ∉ slotOf <$> p -> length p = 255%nat -> deserialize (serialize (merge p [e])) = Some [])).
Proof.
  intros Hb He. rewrite decodePolicy_agrees, encodePolicy_agrees. split_and!; [done..| |].
  - apply applyEntryToBlob_agrees.
  - intros Hp. destruct (stored_ok bytes p Hb Hp) as [Hok Hl]. split; [intros Hin; by apply merged_read_back|].
    intros Hnin Hfull. change (merge p [e]) with (applyOverride p e).
    rewrite deserialize_serialize by by apply applyOverride_ok. rewrite applyOverride_length.
    by rewrite bool_decide_eq_false_2, Hfull by done.
Qed.

Lemma terminal_agrees_witness :
  bytes_ok (serialize [WakeUpEntry 60 1]) /\ entry_ok (AssociationEntry 1 [1]) /\
  Blob.applyEntryToBlob (H := 0) (serialize [WakeUpEntry 60 1]) (clientEntry (AssociationEntry 1 [1]))
  = Some (serialize [WakeUpEntry 60 1; AssociationEntry 1 [1]], false).
Proof.
  assert (Hb : bytes_ok (serialize [WakeUpEntry 60 1])) by (repeat constructor; vm_compute; (done || congruence)).
  assert (He : entry_ok (AssociationEntry 1 [1])) by (repeat constructor; unfold byte_ok; lia).
  split_and!; [exact Hb|exact He|].
  exact (proj1 (proj2 (proj2 (terminal_agrees (H := 0) _ [] _ Hb He)))).
Defined.
