(* ===== verification/SceneStore.v ===== *)
(** * Scenes and the presses that run them

    [scene-store/SceneStore.cpp]: scenes (lists of actions, stored as blobs) and the
    triggers that name them, in the database; and
    [orchestrator/SceneOrchestrator.cpp], which replays a scene when a controller in
    the network is pressed. *)

From Stdlib Require Import String.
From S2P Require Import Prelude Sqlite.
From stdpp Require Import gmap strings sorting.
#[local] Open Scope Z_scope.

Module Scene.

Definition SOURCE_CENTRAL_SCENE : Z := 0.
Definition SOURCE_BASIC_SET : Z := 1.
Definition SOURCE_SCENE_ACTIVATION : Z := 2.
Definition BLOB_VERSION : Z := 1.
Definition MAX_BLOB_ITEMS : nat := 255.
Definition NO_CALLBACK : Z := 0.

Record Action := mkAction { targetNodeId : Z; ccPayload : list Z }.

Definition encodeAction (a : Action) : list Z :=
  targetNodeId a :: u8 (zlen (ccPayload a)) :: ccPayload a.

Definition encodeActions (actions : list Action) : list Z :=
  BLOB_VERSION :: u8 (zlen actions) :: flat_map encodeAction actions.

Section Decode.
Context `{Oob}.

(** The loop of [decodeActions] from [pos]. *)
Fixpoint decodeFrom (count : nat) (data : list Z) (pos : nat) : option (list Action) :=
  match count with
  | O => Some []
  | S count =>
      if (length data <? pos + 2)%nat then None else
      let len := Z.to_nat data.[(pos + 1)%nat] in
      if (length data <? pos + 2 + len)%nat then None else
      match decodeFrom count data (pos + 2 + len) with
      | None => None
      | Some out => Some (mkAction data.[pos] (slice (pos + 2) len data) :: out)
      end
  end.

(** An empty blob has a null pointer. *)
Definition decodeActions (data : list Z) : option (list Action) :=
  if (length data <? 2)%nat || negb (data.[0%nat] =? BLOB_VERSION) then None
  else decodeFrom (Z.to_nat data.[1%nat]) data 2.
End Decode.

(** The selector of a press: source, node, scene number, key attribute. *)
Record Key := mkKey { source : Z; sourceNodeId : Z; sceneNumber : Z; keyAttribute : Z }.
#[global] Instance Key_eq_dec : EqDecision Key.
Proof. solve_decision. Defined.
#[global] Instance Key_countable : Countable Key.
Proof.
  refine (inj_countable' (fun k => (source k, sourceNodeId k, sceneNumber k, keyAttribute k))
            (fun t => mkKey t.1.1.1 t.1.1.2 t.1.2 t.2) _). by intros [].
Defined.

Record Tables := mkTables {
  scenes : gmap (string * string) (list Z);
  scene_triggers : gmap (string * Key) string }.

Record State := mkState { db : Db Tables; currentHomeId : option string }.

Definition UPSERT_SCENE (k : string * string) (blob : list Z) (t : Tables) : Tables :=
  mkTables (<[k := blob]> (scenes t)) (scene_triggers t).
Definition DELETE_SCENE (k : string * string) (t : Tables) : Tables :=
  mkTables (delete k (scenes t)) (scene_triggers t).
Definition UPSERT_TRIGGER (k : string * Key) (s : string) (t : Tables) : Tables :=
  mkTables (scenes t) (<[k := s]> (scene_triggers t)).
Definition DELETE_TRIGGER (k : string * Key) (t : Tables) : Tables :=
  mkTables (scenes t) (delete k (scene_triggers t)).

(** The rows of one home. *)
Definition ofHome {A B} (home : string) (l : list ((string * A) * B)) : list (A * B) :=
  omap (fun r => if bool_decide (r.1.1 = home) then Some (r.1.2, r.2) else None) l.

(** [ORDER BY scene_id ASC] and by the four key columns. *)
Definition idLe (x y : string) : Prop := Is_true (String.leb x y).
Definition keyLe (x y : Key * string) : Prop :=
  let (a, _) := x in let (b, _) := y in
  source a < source b \/ (source a = source b /\
  (sourceNodeId a < sourceNodeId b \/ (sourceNodeId a = sourceNodeId b /\
  (sceneNumber a < sceneNumber b \/ (sceneNumber a = sceneNumber b /\
   keyAttribute a <= keyAttribute b))))).
#[global] Instance idLe_dec x y : Decision (idLe x y).
Proof. unfold idLe. apply _. Defined.
#[global] Instance keyLe_dec x y : Decision (keyLe x y).
Proof. destruct x, y. unfold keyLe. apply _. Defined.

Definition LIST_SCENES (home : string) (t : Tables) : list string :=
  merge_sort idLe ((ofHome home (map_to_list (scenes t))).*1).
Definition LIST_TRIGGERS (home : string) (t : Tables) : list (Key * string) :=
  merge_sort keyLe (ofHome home (map_to_list (scene_triggers t))).

Section Operations.
Context `{Oob} `{SqliteEnv}.

Definition setHomeId (homeIdBytes : list Z) (st : State) : State :=
  mkState (db st) (Some (formatHomeId homeIdBytes)).

Definition withDb (d : Db Tables) (st : State) : State := mkState d (currentHomeId st).

(** The guard every operation starts with, and its statement on the bound home. *)
Definition execHome (f : string -> Tables -> Tables) (st : State) : State :=
  match currentHomeId st with
  | Some home => if negb (valid (db st)) then st else withDb (write (f home) (db st)).2 st
  | None => st
  end.

Definition setScene (sceneId : string) (actions : list Action) (st : State) : State :=
  if (MAX_BLOB_ITEMS <? length actions)%nat then st
  else execHome (fun home => UPSERT_SCENE (home, sceneId) (encodeActions actions)) st.

Definition getScene (sceneId : string) (st : State) : option (list Action) * State :=
  match currentHomeId st with
  | None => (None, st)
  | Some home =>
      if negb (valid (db st)) then (None, st) else
      let (row, d) := selectOne (fun t => scenes t !! (home, sceneId)) (db st) in
      (match row with None => None | Some blob => decodeActions blob end, withDb d st)
  end.

Definition deleteScene (sceneId : string) (st : State) : State :=
  execHome (fun home => DELETE_SCENE (home, sceneId)) st.

Definition listScenes (st : State) : list string * State :=
  match currentHomeId st with
  | None => ([], st)
  | Some home =>
      if negb (valid (db st)) then ([], st) else
      let (rows, d) := select (LIST_SCENES home) (db st) in (default [] rows, withDb d st)
  end.

Definition bindTrigger (k : Key) (sceneId : string) (st : State) : State :=
  execHome (fun home => UPSERT_TRIGGER (home, k) sceneId) st.

Definition unbindTrigger (k : Key) (st : State) : State :=
  execHome (fun home => DELETE_TRIGGER (home, k)) st.

Definition resolveTrigger (k : Key) (st : State) : option string * State :=
  match currentHomeId st with
  | None => (None, st)
  | Some home =>
      if negb (valid (db st)) then (None, st) else
      let (row, d) := selectOne (fun t => scene_triggers t !! (home, k)) (db st) in (row, withDb d st)
  end.

Definition listTriggers (st : State) : list (Key * string) * State :=
  match currentHomeId st with
  | None => ([], st)
  | Some home =>
      if negb (valid (db st)) then ([], st) else
      let (rows, d) := select (LIST_TRIGGERS home) (db st) in
      ((fun r : Key * string =>
          (mkKey (u8 (source r.1)) (u8 (sourceNodeId r.1)) (u8 (sceneNumber r.1)) (u8 (keyAttribute r.1)), r.2))
         <$> default [] rows, withDb d st)
  end.

(** ** The orchestrator *)

Inductive Bus :=
| SendDataCommand (nodeId : Z) (payload : list Z) (callbackId : Z)
| SceneActivated (sourceNodeId sceneNumber keyAttribute : Z) (sceneId : string) (actionCount : Z).

Definition replay (actions : list Action) : list Bus :=
  (fun a => SendDataCommand (targetNodeId a) (ccPayload a) NO_CALLBACK) <$> actions.

Definition runScene (k : Key) (st : State) : list Bus * State :=
  let (sceneId, st) := resolveTrigger k st in
  match sceneId with
  | None => ([], st)
  | Some sceneId =>
      let (actions, st) := getScene sceneId st in
      let sent := default [] actions in
      (replay sent ++
         [SceneActivated (sourceNodeId k) (sceneNumber k) (keyAttribute k) sceneId (u32 (zlen sent))], st)
  end.

Inductive Press :=
| CentralSceneNotification (sourceNodeId sceneNumber keyAttribute : Z)
| BasicSetReceived (sourceNodeId value : Z)
| SceneActivationSet (sourceNodeId sceneId : Z).

(** [onCentralScene], [onBasicSet], [onSceneActivation] *)
Definition keyOf (p : Press) : Key :=
  match p with
  | CentralSceneNotification n s k => mkKey SOURCE_CENTRAL_SCENE n s k
  | BasicSetReceived n v => mkKey SOURCE_BASIC_SET n v 0
  | SceneActivationSet n s => mkKey SOURCE_SCENE_ACTIVATION n s 0
  end.

Definition onPress (p : Press) (st : State) : list Bus * State := runScene (keyOf p) st.
End Operations.

(** The operations clients and the bus perform. *)
Inductive Op :=
| SetHomeId (homeIdBytes : list Z)
| SetScene (sceneId : string) (actions : list Action)
| DeleteScene (sceneId : string)
| BindTrigger (k : Key) (sceneId : string)
| UnbindTrigger (k : Key)
| Pressed (p : Press).

Definition step `{Oob} `{SqliteEnv} (op : Op) (st : State) : list Bus * State :=
  match op with
  | SetHomeId h => ([], setHomeId h st)
  | SetScene s l => ([], setScene s l st)
  | DeleteScene s => ([], deleteScene s st)
  | BindTrigger k s => ([], bindTrigger k s st)
  | UnbindTrigger k => ([], unbindTrigger k st)
  | Pressed p => onPress p st
  end.

Fixpoint run `{Oob} `{SqliteEnv} (ops : list Op) (st : State) : list Bus * State :=
  match ops with
  | [] => ([], st)
  | op :: ops => let (out, st) := step op st in let (out', st) := run ops st in (out ++ out', st)
  end.

End Scene.

(** ** The abstract scenes: maps of action lists, no blobs and no database *)

Module SceneSpec.
Import Scene.

Record State := mkState {
  scenes : gmap (string * string) (list Action);
  triggers : gmap (string * Key) string;
  home : option string }.

(** Setting, deleting and binding act on the bound network; a press replays the
    scene bound to it, an unbound press does nothing. *)
Definition step (op : Op) (st : State) : list Bus * State :=
  match op, home st with
  | SetHomeId h, _ => ([], mkState (scenes st) (triggers st) (Some (formatHomeId h)))
  | _, None => ([], st)
  | SetScene s l, Some h =>
      ([], if decide (length l <= 255)%nat then mkState (<[(h, s) := l]> (scenes st)) (triggers st) (home st) else st)
  | DeleteScene s, Some h => ([], mkState (delete (h, s) (scenes st)) (triggers st) (home st))
  | BindTrigger k s, Some h => ([], mkState (scenes st) (<[(h, k) := s]> (triggers st)) (home st))
  | UnbindTrigger k, Some h => ([], mkState (scenes st) (delete (h, k) (triggers st)) (home st))
  | Pressed p, Some h =>
      let k := keyOf p in
      match triggers st !! (h, k) with
      | None => ([], st)
      | Some s =>
          let l := default [] (scenes st !! (h, s)) in
          (replay l ++ [SceneActivated (sourceNodeId k) (sceneNumber k) (keyAttribute k) s (zlen l)], st)
      end
  end.

Fixpoint run (ops : list Op) (st : State) : list Bus * State :=
  match ops with
  | [] => ([], st)
  | op :: ops => let (out, st) := step op st in let (out', st) := run ops st in (out ++ out', st)
  end.
End SceneSpec.

(** ** The stored form *)

Import Scene.

(** What the stored form can hold of an action: its length is one byte. *)
Definition fits (a : Action) : Prop := (length (ccPayload a) <= 255)%nat.

Lemma decodeFrom_encode `{Oob} acts pre post :
  Forall fits acts -> decodeFrom (length acts) (pre ++ flat_map encodeAction acts ++ post) (length pre) = Some acts.
Proof.
  intros Hf. revert pre. induction Hf as [|[n p] acts Hp Hf IH]; intros pre; [done|].
  unfold fits in Hp. cbn [ccPayload] in Hp. cbn [length decodeFrom flat_map encodeAction targetNodeId ccPayload].
  rewrite byteAt_pre, byteAt_pre0.
  pose proof (IH (pre ++ [n; zlen p] ++ p)) as IH'. set (rest := flat_map encodeAction acts) in *.
  unfold encodeAction. cbn [targetNodeId ccPayload]. rewrite (u8_id (zlen p)) by (unfold byte_ok; lia).
  rewrite <-(app_assoc _ rest). cbn [app] in *.
  change ((n :: zlen p :: p ++ rest ++ post).[1%nat]) with (zlen p).
  change ((n :: zlen p :: p ++ rest ++ post).[0%nat]) with n. rewrite Nat2Z.id.
  rewrite (proj2 (Nat.ltb_ge _ _)) by (rewrite length_app; cbn; lia).
  rewrite (proj2 (Nat.ltb_ge _ _)) by (rewrite length_app; cbn; rewrite length_app; lia).
  rewrite <-!app_assoc, !length_app in IH'. rewrite <-Nat.add_assoc. cbn [app length Nat.add] in *. rewrite IH'.
  do 3 f_equal. unfold slice. rewrite drop_app_add. cbn. by rewrite drop_0, take_app_length.
Qed.

Lemma decodeActions_encode `{Oob} acts :
  (length acts <= 255)%nat -> Forall fits acts -> decodeActions (encodeActions acts) = Some acts.
Proof.
  intros Hl Hf. unfold decodeActions, encodeActions. cbn [length].
  change (BLOB_VERSION :: u8 (zlen acts) :: flat_map encodeAction acts)
    with ([BLOB_VERSION; u8 (zlen acts)] ++ flat_map encodeAction acts).
  assert (Hu : u8 (zlen acts) = zlen acts) by (apply u8_id; unfold byte_ok; lia). rewrite Hu.
  cbn. rewrite Nat2Z.id. rewrite <-(app_nil_r (flat_map _ _)).
  by apply (decodeFrom_encode acts [BLOB_VERSION; zlen acts]).
Qed.

(** ** Refinement *)

Definition op_fits (op : Op) : Prop :=
  match op with SetScene _ l => Forall fits l | _ => True end.

Section Refinement.
Context `{Oob} `{e : SqliteEnv} (He : reliable e).

(** The tables hold the encoded scenes and the triggers. *)
Record represents (c : Scene.State) (a : SceneSpec.State) : Prop := {
  rep_open : valid (db c) = true;
  rep_home : currentHomeId c = SceneSpec.home a;
  rep_scenes : scenes (table (db c)) = encodeActions <$> SceneSpec.scenes a;
  rep_triggers : scene_triggers (table (db c)) = SceneSpec.triggers a;
  rep_fits : map_Forall (fun _ l => (length l <= 255)%nat /\ Forall fits l) (SceneSpec.scenes a) }.

Lemma execHome_value f c h :
  valid (db c) = true -> currentHomeId c = Some h ->
  execHome f c = withDb (mkDb true (f h (table (db c))) (S (ran (db c)))) c.
Proof. intros Hv Hh. unfold execHome. rewrite Hh, Hv. cbn. by rewrite write_reliable. Qed.

Lemma resolveTrigger_value k c h :
  valid (db c) = true -> currentHomeId c = Some h ->
  resolveTrigger k c = (scene_triggers (table (db c)) !! (h, k), withDb (spent (db c)) c).
Proof. intros Hv Hh. unfold resolveTrigger. rewrite Hh, Hv. cbn. by rewrite selectOne_reliable. Qed.

Lemma getScene_value s c h :
  valid (db c) = true -> currentHomeId c = Some h ->
  getScene s c = (match scenes (table (db c)) !! (h, s) with None => None | Some b => decodeActions b end,
                  withDb (spent (db c)) c).
Proof. intros Hv Hh. unfold getScene. rewrite Hh, Hv. cbn. by rewrite selectOne_reliable. Qed.

Lemma represents_spent c a : represents c a -> represents (withDb (spent (db c)) c) a.
Proof. intros [Hv Hh Hs Ht Hf]. by split. Qed.

Lemma represents_exec f c a h scs trs :
  represents c a -> SceneSpec.home a = Some h ->
  scenes (f h (table (db c))) = encodeActions <$> scs -> scene_triggers (f h (table (db c))) = trs ->
  map_Forall (fun _ l => (length l <= 255)%nat /\ Forall fits l) scs ->
  represents (execHome f c) (SceneSpec.mkState scs trs (SceneSpec.home a)).
Proof.
  intros [Hv Hh Hs Ht Hf] Ha H1 H2 H3. rewrite (execHome_value _ _ h) by congruence. by split.
Qed.

Lemma execHome_unbound f c : currentHomeId c = None -> execHome f c = c.
Proof. intros Hh. unfold execHome. by rewrite Hh. Qed.

Lemma scene_of c a h s :
  represents c a ->
  match scenes (table (db c)) !! (h, s) with None => None | Some b => decodeActions b end
  = SceneSpec.scenes a !! (h, s).
Proof.
  intros [Hv Hh Hs Ht Hf]. rewrite Hs, lookup_fmap.
  destruct (SceneSpec.scenes a !! (h, s)) as [l|] eqn:E; [|done]. cbn.
  destruct (Hf _ _ E). by apply decodeActions_encode.
Qed.

Lemma press_refines p c a :
  represents c a ->
  (onPress p c).1 = (SceneSpec.step (Pressed p) a).1 /\
  represents (onPress p c).2 (SceneSpec.step (Pressed p) a).2.
Proof.
  intros R. pose proof R as [Hv Hh Hs Ht Hf]. unfold onPress, runScene. cbn [SceneSpec.step].
  destruct (SceneSpec.home a) as [h|] eqn:Ha; [|by unfold resolveTrigger; rewrite Hh].
  rewrite (resolveTrigger_value _ _ h), Ht by done.
  destruct (SceneSpec.triggers a !! (h, keyOf p)) as [s|]; [|by split; [|apply represents_spent]].
  rewrite (getScene_value _ _ h) by done. cbn [db withDb spent table].
  rewrite (scene_of c a h s R). cbn [fst snd]. split.
  - do 3 f_equal. rewrite u32_id; [done|]. destruct (SceneSpec.scenes a !! (h, s)) eqn:E; cbn; [|lia].
    destruct (Hf _ _ E). lia.
  - by do 2 apply represents_spent in R.
Qed.

Lemma scene_step_refines op c a :
  op_fits op -> represents c a ->
  (step op c).1 = (SceneSpec.step op a).1 /\ represents (step op c).2 (SceneSpec.step op a).2.
Proof.
  intros Ho R. pose proof R as [Hv Hh Hs Ht Hf]. destruct op as [b|s l|s|k s|k|p];
    [|destruct (SceneSpec.home a) as [h|] eqn:Ha; cbn [step SceneSpec.step]; rewrite Ha; (split; [done|])..|].
  - split; [done|]. by split.
  - unfold setScene, MAX_BLOB_ITEMS. destruct (Nat.ltb_spec 255 (length l)), (decide (length l <= 255)%nat);
      try lia; [done|]. cbn. rewrite <-Ha.
    apply (represents_exec _ c a h); [done|done| |done|by apply map_Forall_insert_2].
    cbn. by rewrite Hs, fmap_insert.
  - cbn. unfold setScene. destruct (_ <? _)%nat; [done|]. by rewrite execHome_unbound by done.
  - cbn. rewrite <-Ha. apply (represents_exec _ c a h); [done|done| |done|by apply map_Forall_delete].
    cbn. by rewrite Hs, fmap_delete.
  - cbn. unfold deleteScene. by rewrite execHome_unbound.
  - cbn. rewrite <-Ha. apply (represents_exec _ c a h); [done|done|done| |done]. cbn. by rewrite Ht.
  - cbn. unfold bindTrigger. by rewrite execHome_unbound.
  - cbn. rewrite <-Ha. apply (represents_exec _ c a h); [done|done|done| |done]. cbn. by rewrite Ht.
  - cbn. unfold unbindTrigger. by rewrite execHome_unbound.
  - by apply press_refines.
Qed.

Lemma run_refines ops c a :
  Forall op_fits ops -> represents c a ->
  (run ops c).1 = (SceneSpec.run ops a).1 /\ represents (run ops c).2 (SceneSpec.run ops a).2.
Proof.
  intros Ho. revert c a. induction Ho as [|op ops Ho _ IH]; intros c a R; [done|]. cbn.
  destruct (scene_step_refines op c a Ho R) as [E R']. destruct (step op c) as [out c'], (SceneSpec.step op a) as [out' a'].
  cbn in E, R'. subst out'. destruct (IH c' a' R') as [E2 R2].
  destruct (run ops c'), (SceneSpec.run ops a'). cbn in *. by subst.
Qed.
End Refinement.

(** C15: over any sequence of changes and presses, on any networks, the commands and
    notifications are those of the abstract scenes: a press replays the actions last
    stored under the scene last bound to it, in order, followed by one
    [SceneActivated] with their number; other presses do nothing.  The payloads must
    be of at most 255 bytes. *)
Theorem scenes_refine `{Oob} (e : SqliteEnv) ops :
  reliable e -> Forall op_fits ops ->
  (run ops (Scene.mkState (mkDb true (mkTables ∅ ∅) 0) None)).1
  = (SceneSpec.run ops (SceneSpec.mkState ∅ ∅ None)).1.
Proof.
  intros He Ho. apply (run_refines He ops _ _ Ho). by split.
Qed.

Lemma scenes_refine_witness :
  let ops := [SetHomeId [0xC0; 0xFF; 0xEE; 0]; SetScene "evening" [mkAction 5 [0x25; 1; 0]; mkAction 6 [0x26; 1; 50]];
              BindTrigger (mkKey SOURCE_CENTRAL_SCENE 9 1 0) "evening"; Pressed (BasicSetReceived 9 1);
              Pressed (CentralSceneNotification 9 1 0); DeleteScene "evening"; Pressed (CentralSceneNotification 9 1 0)] in
  (run (H := 0) (H0 := alwaysRuns) ops (Scene.mkState (mkDb true (mkTables ∅ ∅) 0) None)).1
  = [SendDataCommand 5 [0x25; 1; 0] 0; SendDataCommand 6 [0x26; 1; 50] 0; SceneActivated 9 1 0 "evening" 2;
     SceneActivated 9 1 0 "evening" 0].
Proof.
  cbn zeta. rewrite (scenes_refine (H := 0) alwaysRuns _ alwaysRuns_reliable).
  - by vm_compute.
  - repeat constructor; unfold fits; cbn; lia.
Defined.

(** A longer payload is not refused: the length byte wraps around and what is
    read back sends bytes of the payload as commands of its own, to the node its
    first byte names. *)
Theorem long_payload_misread `{Oob} t n m rest a :
  byte_ok m -> length rest = 254%nat -> m <= 254 ->
  decodeActions (encodeActions [mkAction t (n :: m :: rest); a])
  = Some [mkAction t []; mkAction n (take (Z.to_nat m) rest)].
Proof.
  intros Hm Hl Hm'. unfold byte_ok in Hm. unfold decodeActions, encodeActions. cbn [flat_map].
  assert (encodeAction (mkAction t (n :: m :: rest)) = t :: 0 :: n :: m :: rest) as ->
    by (unfold encodeAction; cbn [targetNodeId ccPayload length]; by rewrite Hl).
  change (u8 (zlen [mkAction t (n :: m :: rest); a])) with 2.
  cbn [app]. set (more := encodeAction a ++ []).
  set (data := BLOB_VERSION :: 2 :: t :: 0 :: n :: m :: rest ++ more).
  assert (Hd : length data = (6 + length (rest ++ more))%nat) by done. rewrite length_app in Hd.
  change (decodeFrom 2 data 2 = Some [mkAction t []; mkAction n (take (Z.to_nat m) rest)]).
  cbn [decodeFrom]. change data.[(2 + 1)%nat] with 0. change (Z.to_nat 0) with 0%nat. cbn [Nat.add].
  change data.[5%nat] with m. rewrite !(proj2 (Nat.ltb_ge (length data) _)) by lia.
  unfold slice. subst data. cbn. by rewrite drop_0, take_app_le by lia.
Qed.

Lemma long_payload_misread_witness :
  byte_ok 1 /\ length (replicate 254 0) = 254%nat /\ 1 <= 254 /\
  decodeActions (H := 0) (encodeActions [mkAction 5 (7 :: 1 :: replicate 254 0); mkAction 6 [0x25; 1; 0]])
  = Some [mkAction 5 []; mkAction 7 (take (Z.to_nat 1) (replicate 254 0))].
Proof.
  split; [by vm_compute|]. split; [done|]. split; [lia|].
  by apply (long_payload_misread (H := 0) 5 7 1 (replicate 254 0) (mkAction 6 [0x25; 1; 0])); [vm_compute| |].
Defined.

(** Whatever statements fail, a press sends all the actions of the stored scene or
    none of them, and reports the number it sent. *)
Theorem press_all_or_nothing `{Oob} (e : SqliteEnv) p st :
  let k := keyOf p in
  (onPress p st).1 = [] \/
  exists home s l, currentHomeId st = Some home /\ scene_triggers (table (db st)) !! (home, k) = Some s /\
    (l = [] \/ exists blob, scenes (table (db st)) !! (home, s) = Some blob /\ decodeActions blob = Some l) /\
    (onPress p st).1
    = replay l ++ [SceneActivated (sourceNodeId k) (sceneNumber k) (keyAttribute k) s (u32 (zlen l))].
Proof.
  cbn zeta. unfold onPress, runScene, resolveTrigger.
  destruct (currentHomeId st) as [home|] eqn:Hh; [|by left].
  destruct (valid (db st)); [|by left]. cbn [negb].
  pose proof (selectOne_cases (fun t => scene_triggers t !! (home, keyOf p)) (db st)) as [Hrow Htab].
  destruct (selectOne _ _) as [row d]. cbn [fst snd] in Hrow, Htab.
  destruct Hrow as [->|Hrow]; [by left|]. subst row.
  destruct (scene_triggers (table (db st)) !! (home, keyOf p)) as [s|] eqn:Hs; [|by left]. right.
  unfold getScene. cbn [currentHomeId withDb db]. rewrite Hh.
  destruct (valid d); cbn [negb].
  - pose proof (selectOne_cases (fun t => scenes t !! (home, s)) d) as [Hrow' _].
    destruct (selectOne _ d) as [row' d']. cbn [fst snd] in *. rewrite Htab in Hrow'.
    destruct Hrow' as [->| ->]; [by exists home, s, []; eauto|].
    destruct (scenes (table (db st)) !! (home, s)) as [blob|] eqn:Hb; [|by exists home, s, []; eauto].
    destruct (decodeActions blob) as [l|] eqn:Hd; [|by exists home, s, []; eauto].
    exists home, s, l. eauto 10.
  - exists home, s, []. eauto.
Qed.

(** ** Listings *)

#[local] Instance keyLe_total : Total keyLe.
Proof. intros [[] ?] [[] ?]. unfold keyLe. cbn. lia. Qed.

#[local] Instance idLe_total : Total idLe.
Proof.
  intros x y. unfold idLe. destruct (String.leb_total x y) as [-> | ->]; auto.
Qed.

Lemma elem_of_ofHome {A B} home (l : list ((string * A) * B)) a b :
  (a, b) ∈ ofHome home l <-> ((home, a), b) ∈ l.
Proof.
  unfold ofHome. rewrite list_elem_of_omap. split.
  - intros [[[h a'] b'] [Hin E]]. cbn in E. destruct (bool_decide_reflect (h = home)); by simplify_eq.
  - intros Hin. exists ((home, a), b). split; [done|]. cbn. by rewrite bool_decide_eq_true_2.
Qed.

(** The lists clients see are ordered and exact: the triggers and scenes of the
    bound network, each with what it is bound to. *)
Theorem listings_exact (e : SqliteEnv) st home :
  reliable e -> valid (db st) = true -> currentHomeId st = Some home ->
  map_Forall (fun k _ => byte_ok (source k.2) /\ byte_ok (sourceNodeId k.2) /\ byte_ok (sceneNumber k.2) /\
                byte_ok (keyAttribute k.2)) (scene_triggers (table (db st))) ->
  Sorted keyLe (listTriggers st).1 /\
  (forall k s, (k, s) ∈ (listTriggers st).1 <-> scene_triggers (table (db st)) !! (home, k) = Some s) /\
  Sorted idLe (listScenes st).1 /\
  (forall s, s ∈ (listScenes st).1 <-> is_Some (scenes (table (db st)) !! (home, s))).
Proof.
  intros He Hv Hh Hb. unfold listTriggers, listScenes. rewrite Hh, Hv. cbn [negb].
  rewrite !select_reliable by done. cbn [default fst].
  assert (Hk : forall r, r ∈ LIST_TRIGGERS home (table (db st)) ->
    (mkKey (u8 (source r.1)) (u8 (sourceNodeId r.1)) (u8 (sceneNumber r.1)) (u8 (keyAttribute r.1)), r.2) = r).
  { intros [k s]. unfold LIST_TRIGGERS. rewrite merge_sort_Permutation, elem_of_ofHome, elem_of_map_to_list.
    intros (H1 & H2 & H3 & H4)%Hb. cbn in *. rewrite !u8_id by done. by destruct k. }
  rewrite (list_fmap_ext _ id (LIST_TRIGGERS home (table (db st)))), list_fmap_id.
  2:{ intros i r Hr. apply Hk. by eapply list_elem_of_lookup_2. }
  split_and!.
  - apply (Sorted_merge_sort _).
  - intros k s. unfold LIST_TRIGGERS. by rewrite merge_sort_Permutation, elem_of_ofHome, elem_of_map_to_list.
  - apply (Sorted_merge_sort _).
  - intros s. unfold LIST_SCENES, id. rewrite merge_sort_Permutation, list_elem_of_fmap. split.
    + intros [[s' b] [-> Hin]]. rewrite elem_of_ofHome, elem_of_map_to_list in Hin. by exists b.
    + intros [b Hb']. exists (s, b). split; [done|]. by rewrite elem_of_ofHome, elem_of_map_to_list.
Qed.

Lemma listings_exact_witness :
  let st := Scene.mkState (mkDb true (mkTables ∅
    (<[("00"%string, mkKey 0 9 2 0) := "b"%string]> (<[("00"%string, mkKey 0 9 1 0) := "a"%string]> ∅))) 0) (Some "00"%string) in
  Sorted keyLe (listTriggers (H0 := alwaysRuns) st).1 /\
  (listTriggers (H0 := alwaysRuns) st).1 = [(mkKey 0 9 1 0, "a"%string); (mkKey 0 9 2 0, "b"%string)].
Proof.
  cbn zeta. split; [|by vm_compute].
  refine (proj1 (listings_exact alwaysRuns (Scene.mkState (mkDb true _ 0) (Some "00"%string)) "00"%string
    alwaysRuns_reliable eq_refl eq_refl _)). cbn [db table].
  apply map_Forall_insert_2; [by vm_compute|]. apply map_Forall_insert_2; [by vm_compute|]. apply map_Forall_empty.
Defined.
