(* ===== verification/NodeStores.v ===== *)
(** * Names and values of nodes

    [node-metadata/NodeMetadata.cpp]: keys and values clients attach to nodes (Module
    [Metadata]); [node-values/NodeValues.cpp] with [node-values/Recorder.cpp]: the
    last value of everything nodes report, as text (Module [Values]). *)

From Stdlib Require Import String.
From S2P Require Import Prelude Sqlite.
From stdpp Require Import gmap strings sorting pretty.
#[local] Open Scope Z_scope.

(** [ORDER BY] a text column. *)
Definition textLe (x y : string) : Prop := Is_true (String.leb x y).
#[global] Instance textLe_dec x y : Decision (textLe x y).
Proof. unfold textLe. apply _. Defined.
#[global] Instance textLe_total : Total textLe.
Proof. intros x y. unfold textLe. destruct (String.leb_total x y) as [-> | ->]; auto. Qed.

Definition keyedLe {B} (x y : string * B) : Prop := textLe x.1 y.1.
#[global] Instance keyedLe_dec {B} (x y : string * B) : Decision (keyedLe x y).
Proof. unfold keyedLe. apply _. Defined.
#[global] Instance keyedLe_total {B} : Total (@keyedLe B).
Proof. intros x y. apply textLe_total. Qed.

(** The rows of one node of one home, by their text key. *)
Definition ofNode {B : Type} (home : string) (id : Z) (t : gmap (string * Z * string) B) : list (string * B) :=
  merge_sort keyedLe
    (omap (fun r : (string * Z * string) * B => if bool_decide (r.1.1 = (home, id)) then Some (r.1.2, r.2) else None)
       (map_to_list t)).

Lemma elem_of_ofNode {B : Type} (home : string) (id : Z) (t : gmap (string * Z * string) B) (k : string) (v : B) :
  (k, v) ∈ ofNode home id t <-> t !! (home, id, k) = Some v.
Proof.
  unfold ofNode. rewrite merge_sort_Permutation, list_elem_of_omap. split.
  - intros ([[hi k'] v'] & Hin & E). cbn in E. rewrite elem_of_map_to_list in Hin.
    destruct (bool_decide_reflect (hi = (home, id))); by simplify_eq.
  - intros Hk. exists ((home, id, k), v). rewrite elem_of_map_to_list. split; [done|].
    cbn. by rewrite bool_decide_eq_true_2.
Qed.

Lemma Sorted_ofNode {B : Type} (home : string) (id : Z) (t : gmap (string * Z * string) B) : Sorted keyedLe (ofNode home id t).
Proof. apply (Sorted_merge_sort _). Qed.

Module Metadata.

Abbreviation Table := (gmap (string * Z * string) string).
Record State := mkState { db : Db Table; currentHomeId : option string }.
Inductive Event := NodeMetadataChanged (nodeId : Z).
Record Entry := mkEntry { key : string; value : string }.

Definition UPSERT (k : string * Z * string) (v : string) (t : Table) : Table := <[k := v]> t.
Definition DELETE (k : string * Z * string) (t : Table) : Table := delete k t.
Definition SELECT_ALL (home : string) (id : Z) (t : Table) : list (string * string) := ofNode home id t.
Definition SELECT_NODES_BY_TAG (home k v : string) (t : Table) : list Z :=
  merge_sort Z.le
    (omap (fun r : (string * Z * string) * string =>
             let '((h, id, k'), v') := r in if bool_decide (h = home /\ k' = k /\ v' = v) then Some id else None)
       (map_to_list t)).

Section Operations.
Context `{SqliteEnv}.

Definition withDb (d : Db Table) (st : State) : State := mkState d (currentHomeId st).

Definition setHomeId (homeIdBytes : list Z) (st : State) : State :=
  mkState (db st) (Some (formatHomeId homeIdBytes)).

Definition remove (id : Z) (k : string) (st : State) : list Event * State :=
  match currentHomeId st with
  | None => ([], st)
  | Some home =>
      if negb (valid (db st)) then ([], st) else
      let (prepared, d) := write (DELETE (home, id, k)) (db st) in
      (if prepared then [NodeMetadataChanged id] else [], withDb d st)
  end.

Definition set (id : Z) (k v : string) (st : State) : list Event * State :=
  if bool_decide (v = EmptyString) then remove id k st else
  match currentHomeId st with
  | None => ([], st)
  | Some home =>
      if negb (valid (db st)) then ([], st) else
      let (prepared, d) := write (UPSERT (home, id, k) v) (db st) in
      (if prepared then [NodeMetadataChanged id] else [], withDb d st)
  end.

Definition get (id : Z) (k : string) (st : State) : option string * State :=
  match currentHomeId st with
  | None => (None, st)
  | Some home =>
      if negb (valid (db st)) then (None, st) else
      let (row, d) := selectOne (fun t : Table => t !! (home, id, k)) (db st) in (row, withDb d st)
  end.

Definition getAll (id : Z) (st : State) : list Entry * State :=
  match currentHomeId st with
  | None => ([], st)
  | Some home =>
      if negb (valid (db st)) then ([], st) else
      let (rows, d) := select (SELECT_ALL home id) (db st) in
      ((fun r : string * string => mkEntry r.1 r.2) <$> default [] rows, withDb d st)
  end.

Definition nodesWith (k v : string) (st : State) : list Z * State :=
  match currentHomeId st with
  | None => ([], st)
  | Some home =>
      if negb (valid (db st)) then ([], st) else
      let (rows, d) := select (SELECT_NODES_BY_TAG home k v) (db st) in (u8 <$> default [] rows, withDb d st)
  end.
End Operations.

(** The operations clients perform. *)
Inductive Op := SetHomeId (homeIdBytes : list Z) | Set_ (id : Z) (k v : string) | Remove (id : Z) (k : string).

Definition step `{SqliteEnv} (st : State) (op : Op) : State :=
  match op with
  | SetHomeId h => setHomeId h st
  | Set_ id k v => (set id k v st).2
  | Remove id k => (remove id k st).2
  end.
End Metadata.

Module Values.

Definition BYTE_MAX : Z := 0xFF.
Definition DECIMAL_BASE : Z := 10.

Record Entry := mkEntry { valueId : string; value : string; updatedAt : Z }.
Abbreviation Table := (gmap (string * Z * string) (string * Z)).
Record State := mkState { db : Db Table; homeId : option string }.

Definition UPSERT (k : string * Z * string) (v : string) (now : Z) (t : Table) : Table := <[k := (v, now)]> t.
Definition SELECT_ALL (home : string) (id : Z) (t : Table) : list (string * (string * Z)) := ofNode home id t.
Definition DELETE_NODE (home : string) (id : Z) (t : Table) : Table :=
  filter (fun r : (string * Z * string) * (string * Z) => r.1.1 <> (home, id)) t.

Section Operations.
Context `{SqliteEnv}.

Definition withDb (d : Db Table) (st : State) : State := mkState d (homeId st).

Definition setHomeId (homeIdBytes : list Z) (st : State) : State := mkState (db st) (Some (toHex homeIdBytes)).

(** [now] is what the store's clock returns. *)
Definition record (id : Z) (valueId value : string) (now : Z) (st : State) : State :=
  match homeId st with
  | None => st
  | Some home =>
      if negb (valid (db st)) then st
      else withDb (write (UPSERT (home, id, valueId) value now) (db st)).2 st
  end.

Definition get (id : Z) (valueId : string) (st : State) : option Entry * State :=
  match homeId st with
  | None => (None, st)
  | Some home =>
      if negb (valid (db st)) then (None, st) else
      let (row, d) := selectOne (fun t : Table => t !! (home, id, valueId)) (db st) in
      ((fun r : string * Z => mkEntry valueId r.1 r.2) <$> row, withDb d st)
  end.

Definition getAll (id : Z) (st : State) : list Entry * State :=
  match homeId st with
  | None => ([], st)
  | Some home =>
      if negb (valid (db st)) then ([], st) else
      let (rows, d) := select (SELECT_ALL home id) (db st) in
      ((fun r : string * (string * Z) => mkEntry r.1 r.2.1 r.2.2) <$> default [] rows, withDb d st)
  end.

Definition clearForNode (id : Z) (st : State) : State :=
  match homeId st with
  | None => st
  | Some home =>
      if negb (valid (db st)) then st else withDb (write (DELETE_NODE home id) (db st)).2 st
  end.
End Operations.

(** ** The recorder *)

(** [std::to_string] of an integer. *)
Definition to_string (z : Z) : string := pretty z.

Fixpoint zeros (n : nat) : string := match n with O => "" | S n => "0" +:+ zeros n end.

(** [scale] is an [int64]: the precision of a report is a 3-bit field. *)
Fixpoint scaleOf (precision : nat) : Z :=
  match precision with O => 1 | S p => scaleOf p * DECIMAL_BASE end.

Definition renderScaled (raw precision : Z) : string :=
  if precision =? 0 then to_string raw else
  let negative := raw <? 0 in
  let magnitude := Z.abs raw in
  let scale := scaleOf (Z.to_nat precision) in
  let whole := magnitude `quot` scale in
  let frac := to_string (magnitude `rem` scale) in
  let frac := (zeros (Z.to_nat precision - String.length frac) +:+ frac)%string in
  ((if negative then "-" else "") +:+ to_string whole +:+ "." +:+ frac)%string.

Definition renderBinaryState (state : Z) : string :=
  if state =? 0 then "Off" else if state =? 1 then "On" else "Unknown".

Definition renderSwitchLevel (level : Z) : string :=
  if level =? 0 then "Off" else if level =? BYTE_MAX then "On" else (to_string level +:+ "%")%string.

(** The typed reports the recorder subscribes to, with the fields it reads. *)
Inductive Report :=
| BinarySwitchReport (sourceNodeId state : Z)
| MultilevelSwitchReport (sourceNodeId currentValue : Z)
| BatteryReport (sourceNodeId level : Z) (lowBattery : bool)
| SensorMultilevelReport (sourceNodeId sensorType value precision : Z)
| SensorBinaryReport (sourceNodeId sensorType value : Z)
| ConfigurationReport (sourceNodeId parameter value : Z)
| ThermostatModeReport (sourceNodeId mode : Z)
| ThermostatSetpointReport (sourceNodeId setpointType value precision : Z).

(** What a report records: the node, the value's id and its text. *)
Definition rendered (r : Report) : Z * string * string :=
  match r with
  | BinarySwitchReport n s => (n, "binary_switch", renderBinaryState s)
  | MultilevelSwitchReport n l => (n, "multilevel_switch", renderSwitchLevel l)
  | BatteryReport n l low =>
      (n, "battery", if low || (l =? BYTE_MAX)%Z then "low" else to_string l +:+ "%")
  | SensorMultilevelReport n t v p => (n, "sensor:" +:+ to_string t, renderScaled v p)
  | SensorBinaryReport n t v => (n, "sensor_binary:" +:+ to_string t, if negb (v =? 0)%Z then "active" else "idle")
  | ConfigurationReport n p v => (n, "config:" +:+ to_string p, to_string v)
  | ThermostatModeReport n m => (n, "thermostat_mode", to_string m)
  | ThermostatSetpointReport n t v p => (n, "setpoint:" +:+ to_string t, renderScaled v p)
  end%string.

Inductive Event := NodeValueChanged (nodeId : Z) (valueId value : string).

(** A report at a time, or the dongle coming up on a network. *)
Inductive Input := Reported (r : Report) (now : Z) | DongleInfo (homeIdBytes : list Z).

Definition onInput `{SqliteEnv} (i : Input) (st : State) : list Event * State :=
  match i with
  | DongleInfo h => ([], setHomeId h st)
  | Reported r now =>
      let '(n, k, v) := rendered r in ([NodeValueChanged n k v], record n k v now st)
  end.

Fixpoint run `{SqliteEnv} (ins : list Input) (st : State) : list Event * State :=
  match ins with
  | [] => ([], st)
  | i :: ins => let (out, st) := onInput i st in let (out', st) := run ins st in (out ++ out', st)
  end.
End Values.

(** ** Names *)

Section MetadataFacts.
Import Metadata.
Context `{e : SqliteEnv} (He : reliable e).

(** No row of the table has an empty value, and every node id is a byte. *)
Definition meta_ok (t : Table) : Prop :=
  map_Forall (fun (k : string * Z * string) v => v <> EmptyString /\ byte_ok k.1.2) t.

Definition op_ok (op : Op) : Prop :=
  match op with SetHomeId _ => True | Set_ id _ _ | Remove id _ => byte_ok id end.

Lemma remove_ok id k st : meta_ok (table (db st)) -> meta_ok (table (db (remove id k st).2)).
Proof.
  intros Hm. unfold remove. destruct (currentHomeId st) as [home|]; [|done].
  destruct (valid (db st)); [|done]. cbn [negb].
  destruct (write_table (DELETE (home, id, k)) (db st)) as [E|E];
    destruct (write _ (db st)) as [? d]; cbn in *; rewrite E; [done|by apply map_Forall_delete].
Qed.

Lemma meta_step_ok op st : op_ok op -> meta_ok (table (db st)) -> meta_ok (table (db (step st op))).
Proof.
  intros Ho Hm. destruct op as [h|id k v|id k]; [done| |by apply remove_ok].
  cbn. unfold set. destruct (bool_decide_reflect (v = EmptyString)); [by apply remove_ok|].
  destruct (currentHomeId st) as [home|]; [|done]. destruct (valid (db st)); [|done]. cbn [negb].
  destruct (write_table (UPSERT (home, id, k) v) (db st)) as [E|E];
    destruct (write _ (db st)) as [? d]; cbn in *; rewrite E; [done|by apply map_Forall_insert_2].
Qed.

Lemma elem_of_nodesByTag (home k v : string) (id : Z) (t : Table) :
  id ∈ SELECT_NODES_BY_TAG home k v t <-> t !! (home, id, k) = Some v.
Proof.
  unfold SELECT_NODES_BY_TAG. rewrite merge_sort_Permutation, list_elem_of_omap. split.
  - intros ([[[h i] k'] v'] & Hin & E). rewrite elem_of_map_to_list in Hin. cbn in E.
    destruct (bool_decide_reflect (h = home /\ k' = k /\ v' = v)) as [(-> & -> & ->)|]; by simplify_eq.
  - intros Hk. exists ((home, id, k), v). rewrite elem_of_map_to_list. split; [done|].
    by rewrite bool_decide_eq_true_2.
Qed.

(** After any changes, the three ways to read the bound network's metadata agree:
    [get] of a key, the node's list, ordered by key, and the ascending list of nodes
    with that key and value; and no value read is empty, because setting an empty
    value removes the key. *)
Theorem metadata_views_agree ops st home id k v :
  Forall op_ok ops -> meta_ok (table (db st)) ->
  let st' := foldl step st ops in
  valid (db st') = true -> currentHomeId st' = Some home ->
  Sorted textLe (key <$> (getAll id st').1) /\ Sorted Z.le (nodesWith k v st').1 /\
  ((get id k st').1 = Some v <-> mkEntry k v ∈ (getAll id st').1) /\
  ((get id k st').1 = Some v <-> id ∈ (nodesWith k v st').1) /\
  (get id k st').1 <> Some EmptyString.
Proof.
  intros Ho Hm. cbn zeta. intros Hv Hh.
  assert (Hm' : meta_ok (table (db (foldl step st ops)))).
  { clear Hv Hh. revert st Hm. induction Ho; intros st Hm; [done|]. cbn. by apply IHHo, meta_step_ok. }
  revert Hm' Hv Hh. generalize (foldl step st ops) as st'. clear ops st Ho Hm. intros st Hm Hv Hh.
  unfold getAll, nodesWith, get. rewrite Hh, Hv. cbn [negb].
  rewrite !select_reliable, selectOne_reliable by done. cbn [from_option fst]. unfold Datatypes.id.
  assert (Hn : u8 <$> SELECT_NODES_BY_TAG home k v (table (db st)) = SELECT_NODES_BY_TAG home k v (table (db st))).
  { rewrite <-(list_fmap_id (SELECT_NODES_BY_TAG _ _ _ _)) at 2. apply list_fmap_ext.
    intros i x Hx%list_elem_of_lookup_2. rewrite elem_of_nodesByTag in Hx. apply u8_id. by destruct (Hm _ _ Hx). }
  rewrite Hn. split_and!.
  - pose proof (Sorted_ofNode home id (table (db st))) as Hs. unfold SELECT_ALL.
    induction Hs as [|x l Hs IH Hx]; cbn; constructor; [done|]. destruct Hx; by constructor.
  - apply (Sorted_merge_sort _).
  - rewrite <-elem_of_ofNode. unfold SELECT_ALL. rewrite list_elem_of_fmap. split.
    + intros Hin. by exists (k, v).
    + intros [[k' v'] [[=] Hin]]. by subst.
  - by rewrite elem_of_nodesByTag.
  - intros E. by destruct (Hm _ _ E).
Qed.
End MetadataFacts.

Lemma metadata_views_agree_witness :
  let st := foldl (Metadata.step (H := alwaysRuns)) (Metadata.mkState (mkDb true ∅ 0) None)
    [Metadata.SetHomeId [1; 2; 3; 4]; Metadata.Set_ 9 "room" "hall"; Metadata.Set_ 4 "room" "hall";
     Metadata.Set_ 9 "name" "lamp"; Metadata.Set_ 9 "name" ""] in
  Sorted Z.le (Metadata.nodesWith (H := alwaysRuns) "room" "hall" st).1 /\
  (Metadata.nodesWith (H := alwaysRuns) "room" "hall" st).1 = [4; 9].
Proof.
  cbn zeta. split; [|by vm_compute].
  refine (proj1 (proj2 (metadata_views_agree (e := alwaysRuns) alwaysRuns_reliable _ _ "01020304" 9 "room" "hall"
     _ _ _ _))); try by vm_compute.
  - repeat constructor; by vm_compute.
Defined.

(** ** Values *)

Import Values.

(** The network the recorder is bound to after some inputs. *)
Definition boundAfter (ins : list Input) (home : option string) : option string :=
  foldl (fun h i => match i with DongleInfo b => Some (toHex b) | Reported _ _ => h end) home ins.

(** No later report of the same value of the same node. *)
Definition supersedes (n : Z) (k : string) (i : Input) : Prop :=
  match i with Reported r _ => (rendered r).1 = (n, k) | DongleInfo _ => False end.

Section ValueFacts.
Context `{e : SqliteEnv} (He : reliable e).

Lemma record_table n k v now st :
  valid (db st) = true ->
  record n k v now st
  = match homeId st with
    | Some home => mkState (mkDb true (<[(home, n, k) := (v, now)]> (table (db st))) (S (ran (db st)))) (homeId st)
    | None => st
    end.
Proof.
  intros Hv. unfold record. destruct (homeId st) as [home|] eqn:Hh; [|done]. rewrite Hv. cbn.
  unfold withDb. by rewrite write_reliable, Hh.
Qed.

Lemma onInput_home i st : homeId (onInput i st).2 = boundAfter [i] (homeId st).
Proof.
  destruct i as [r now|h]; [|done]. cbn. destruct (rendered r) as [[n k] v]. cbn. unfold record.
  destruct (homeId st) as [home|] eqn:Hh; [|done]. destruct (valid (db st)); cbn; done.
Qed.

Lemma onInput_valid i st : valid (db (onInput i st).2) = valid (db st).
Proof.
  destruct i as [r now|h]; [|done]. cbn. destruct (rendered r) as [[n k] v]. cbn. unfold record.
  destruct (homeId st); [|done]. destruct (valid (db st)) eqn:Hv; [|done]. cbn. by rewrite write_valid.
Qed.

Lemma onInput_keeps i st (key : string * Z * string) :
  valid (db st) = true -> ~ supersedes key.1.2 key.2 i ->
  table (db (onInput i st).2) !! key = table (db st) !! key.
Proof.
  intros Hv Hs. destruct i as [r now|h]; [|done]. cbn in *. destruct (rendered r) as [[n k] v]. cbn in *.
  rewrite record_table by done. destruct (homeId st) as [home|]; [|done]. cbn. apply lookup_insert_ne.
  intros <-. by apply Hs.
Qed.

Lemma run_snd ins st : (run ins st).2 = foldl (fun st i => (onInput i st).2) st ins.
Proof.
  revert st. induction ins as [|i ins IH]; intros st; [done|]. cbn. rewrite <-IH.
  destruct (onInput i st). cbn. by destruct (run ins _).
Qed.

Lemma run_keeps ins st (key : string * Z * string) :
  valid (db st) = true -> Forall (fun i => ~ supersedes key.1.2 key.2 i) ins ->
  table (db (run ins st).2) !! key = table (db st) !! key /\
  valid (db (run ins st).2) = true /\ homeId (run ins st).2 = boundAfter ins (homeId st).
Proof.
  rewrite run_snd. intros Hv Hf. revert st Hv. induction Hf as [|i ins Hi Hf IH]; intros st Hv; [done|].
  cbn [foldl]. destruct (IH (onInput i st).2) as (-> & -> & ->); [by rewrite onInput_valid|].
  rewrite onInput_keeps by done. rewrite onInput_home. by destruct i.
Qed.

Lemma run_bound ins st :
  valid (db st) = true ->
  valid (db (run ins st).2) = true /\ homeId (run ins st).2 = boundAfter ins (homeId st).
Proof.
  rewrite run_snd. revert st. induction ins as [|i ins IH]; intros st Hv; [done|]. cbn [foldl].
  destruct (IH (onInput i st).2) as (-> & ->); [by rewrite onInput_valid|]. rewrite onInput_home. by destruct i.
Qed.

(** Through any reports and changes of network, what clients read of a value is
    the text of its last report on this network with the time it came. *)
Theorem last_value_kept pre r now post st n k v home :
  valid (db st) = true -> rendered r = (n, k, v) ->
  boundAfter pre (homeId st) = Some home ->
  Forall (fun i => ~ supersedes n k i) post ->
  boundAfter (pre ++ Reported r now :: post) (homeId st) = Some home ->
  (get n k (run (pre ++ Reported r now :: post) st).2).1 = Some (mkEntry k v now).
Proof.
  intros Hv Hr Hpre Hpost Hend. rewrite run_snd, foldl_app, <-(run_snd pre). cbn [foldl].
  destruct (run_bound pre st Hv) as [Hv1 Hh1]. rewrite Hpre in Hh1.
  set (st1 := (run pre st).2) in *. cbn [onInput]. rewrite Hr. cbn [snd].
  rewrite record_table, Hh1 by done. rewrite <-(run_snd post).
  match goal with |- context [run post ?s] => set (st2 := s) end.
  destruct (run_keeps post st2 (home, n, k)) as (Ht & Hv3 & Hh3); [done|done|].
  unfold boundAfter in Hend. rewrite foldl_app in Hend. cbn [foldl] in Hend.
  fold (boundAfter pre (homeId st)) in Hend. rewrite Hpre in Hend.
  unfold get. rewrite Hh3. cbn [homeId st2]. unfold boundAfter. rewrite Hend, Hv3. cbn [negb].
  rewrite selectOne_reliable by done. cbn [fst]. rewrite Ht. cbn [table db st2].
  by rewrite lookup_insert_eq.
Qed.
End ValueFacts.

Lemma last_value_kept_witness :
  (get (H := alwaysRuns) 9 "sensor:1"
    (run (H := alwaysRuns) [DongleInfo [0xC0; 0xFF; 0xEE; 0]; Reported (SensorMultilevelReport 9 1 (-215) 1) 100;
        Reported (BinarySwitchReport 9 1) 101; DongleInfo [1; 2; 3; 4]; DongleInfo [0xC0; 0xFF; 0xEE; 0]]
      (mkState (mkDb true ∅ 0) None)).2).1
  = Some (mkEntry "sensor:1" "-21.5" 100).
Proof.
  apply (last_value_kept (e := alwaysRuns) alwaysRuns_reliable [DongleInfo [0xC0; 0xFF; 0xEE; 0]]
    (SensorMultilevelReport 9 1 (-215) 1) 100
    [Reported (BinarySwitchReport 9 1) 101; DongleInfo [1; 2; 3; 4]; DongleInfo [0xC0; 0xFF; 0xEE; 0]]
    (mkState (mkDb true ∅ 0) None) 9 "sensor:1" "-21.5" "c0ffee00"); try by vm_compute.
  repeat constructor; by vm_compute.
Defined.

(** ** Decimal text *)

Lemma pretty_N_go_length p x s :
  (x < 10 ^ N.of_nat p)%N -> (String.length (pretty_N_go x s) <= p + String.length s)%nat.
Proof.
  revert x s. induction p as [|p IH]; intros x s Hx.
  - change (10 ^ N.of_nat 0)%N with 1%N in Hx. replace x with 0%N by lia. by rewrite pretty_N_go_0.
  - destruct (decide (0 < x)%N) as [H0|]; [|replace x with 0%N by lia; rewrite pretty_N_go_0; lia].
    rewrite pretty_N_go_step by done. rewrite IH; [cbn; lia|].
    apply N.Div0.div_lt_upper_bound. rewrite Nat2N.inj_succ, N.pow_succ_r' in Hx. lia.
Qed.

Lemma to_string_length m p :
  (0 < p)%nat -> 0 <= m < 10 ^ Z.of_nat p -> (String.length (to_string m) <= p)%nat.
Proof.
  intros Hp Hm. unfold to_string, pretty, pretty_Z. destruct m as [|x|x]; [cbn; lia| |lia].
  unfold pretty, pretty_positive, pretty, pretty_N. destruct (decide _); [done|].
  etransitivity; [apply (pretty_N_go_length p)|cbn; lia].
  apply N2Z.inj_lt. rewrite N2Z.inj_pow, nat_N_Z. cbn. lia.
Qed.

Lemma scaleOf_pow p : scaleOf p = 10 ^ Z.of_nat p.
Proof.
  induction p as [|p IH]; [done|]. cbn [scaleOf]. rewrite IH. unfold DECIMAL_BASE.
  rewrite Nat2Z.inj_succ, Z.pow_succ_r by lia. lia.
Qed.

Lemma zeros_length n : String.length (zeros n) = n.
Proof. induction n as [|n IH]; [done|]. exact (f_equal S IH). Qed.

Lemma string_length_app (x y : string) : String.length (x +:+ y) = (String.length x + String.length y)%nat.
Proof. induction x as [|c x IH]; [done|]. exact (f_equal S IH). Qed.

(** A scaled reading is shown exactly: its sign, the whole part of [raw / 10^p]
    and, after the point, its fraction in exactly [p] digits, padded with zeros on the
    left; the scale stays within 64 bits for every precision a report can carry. *)
Theorem renderScaled_exact (raw p : Z) :
  - 2147483648 <= raw < 2147483648 -> 0 < p <= 7 ->
  exists whole frac : Z,
    renderScaled raw p = ((if (raw <? 0)%Z then "-" else "") +:+ to_string whole +:+ "." +:+
      (zeros (Z.to_nat p - String.length (to_string frac))%nat +:+ to_string frac))%string /\
    Z.abs raw = whole * 10 ^ p + frac /\ 0 <= frac < 10 ^ p /\ 0 <= whole /\
    String.length (zeros (Z.to_nat p - String.length (to_string frac))%nat +:+ to_string frac) = Z.to_nat p /\
    scaleOf (Z.to_nat p) < 2 ^ 63.
Proof.
  intros Hr Hp. unfold renderScaled. destruct (Z.eqb_spec p 0); [lia|].
  rewrite scaleOf_pow, Z2Nat.id by lia.
  assert (Hs : 0 < 10 ^ p) by (apply Z.pow_pos_nonneg; lia).
  rewrite Z.quot_div_nonneg, Z.rem_mod_nonneg by lia.
  exists (Z.abs raw / 10 ^ p), (Z.abs raw mod 10 ^ p). split; [done|].
  pose proof (Z.mod_pos_bound (Z.abs raw) (10 ^ p) Hs). split_and!; [|lia|lia| | |].
  - rewrite (Z.div_mod (Z.abs raw) (10 ^ p)) at 1 by lia. lia.
  - apply Z.div_pos; lia.
  - rewrite string_length_app, zeros_length.
    assert (String.length (to_string (Z.abs raw mod 10 ^ p)) <= Z.to_nat p)%nat; [|lia].
    apply to_string_length; [lia|]. by rewrite Z2Nat.id by lia.
  - apply Z.le_lt_trans with (10 ^ 7); [apply Z.pow_le_mono_r; lia|done].
Qed.

Lemma renderScaled_exact_witness :
  - 2147483648 <= -5 < 2147483648 /\ 0 < 2 <= 7 /\ renderScaled (-5) 2 = "-0.05"%string /\
  exists whole frac, Z.abs (-5) = whole * 10 ^ 2 + frac /\ 0 <= frac < 10 ^ 2.
Proof.
  split; [lia|]. split; [lia|]. split; [by vm_compute|].
  destruct (renderScaled_exact (-5) 2) as (w & f & _ & E & Hf & _); [lia|lia|]. exists w, f. by split.
Defined.
