(* ===== verification/SpanStore.v ===== *)
(** * Nonce generators kept across restarts

    [span-store/SpanStore.cpp] (Module [Store]): the inner state of each peer's nonce
    generator, in the database; and [span-store/SpanStoreService.cpp] (Module
    [SpanService]): loading them when the dongle comes up and writing those that
    advanced at each checkpoint and at shutdown. *)

From Stdlib Require Import String.
From S2P Require Import Prelude Sqlite S2Codec S2SpanManager.
From stdpp Require Import gmap strings.
#[local] Open Scope Z_scope.

Module Store.

Definition INNER_STATE_SIZE : nat := 32.

Abbreviation Table := (gmap (string * Z) (list Z)).
Record State := mkState { db : Db Table; homeId : option string }.

Definition UPSERT (k : string * Z) (blob : list Z) (t : Table) : Table := <[k := blob]> t.
Definition DELETE (k : string * Z) (t : Table) : Table := delete k t.
Definition SELECT (home : string) (t : Table) : list (Z * list Z) :=
  omap (fun r : (string * Z) * list Z => if bool_decide (r.1.1 = home) then Some (r.1.2, r.2) else None) (map_to_list t).

Section Operations.
Context `{SqliteEnv}.

Definition withDb (d : Db Table) (st : State) : State := mkState d (homeId st).

Definition setHomeId (homeIdBytes : list Z) (st : State) : State := mkState (db st) (Some (toHex homeIdBytes)).

Definition save (peer : Z) (state : list Z) (st : State) : State :=
  match homeId st with
  | None => st
  | Some home =>
      if negb (valid (db st)) then st else withDb (write (UPSERT (home, peer) state) (db st)).2 st
  end.

Definition remove (peer : Z) (st : State) : State :=
  match homeId st with
  | None => st
  | Some home => if negb (valid (db st)) then st else withDb (write (DELETE (home, peer)) (db st)).2 st
  end.

(** One row of the loop of [loadAll]; [emplace] keeps the first of two. *)
Definition loadRow (result : gmap Z (list Z)) (row : Z * list Z) : gmap Z (list Z) :=
  let peer := u8 row.1 in
  if negb (length row.2 =? INNER_STATE_SIZE)%nat then result
  else match result !! peer with Some _ => result | None => <[peer := row.2]> result end.

Definition loadAll (st : State) : gmap Z (list Z) * State :=
  match homeId st with
  | None => (∅, st)
  | Some home =>
      if negb (valid (db st)) then (∅, st) else
      let (rows, d) := select (SELECT home) (db st) in (foldl loadRow ∅ (default [] rows), withDb d st)
  end.
End Operations.
End Store.

Module SpanService.

(** The service's state, with the store it writes and the live table of
    [S2::Transport::manager()]. *)
Record State := mkState {
  store : Store.State;
  manager : SpanManager.t;
  homeBound : bool;
  lastWritten : gmap Z (list Z) }.

(** The peers of a [std::map] keyed by a byte, in its order. *)
Definition ascending (m : gmap Z (list Z)) : list (Z * list Z) :=
  omap (fun peer => pair peer <$> m !! peer) (seqZ 0 256).

Section Operations.
Context `{SqliteEnv}.

(** One turn of the loop of [checkpoint]. *)
Definition checkpointPeer (acc : Store.State * gmap Z (list Z) * nat) (peer : Z * list Z)
    : Store.State * gmap Z (list Z) * nat :=
  let '(store, lastWritten, written) := acc in
  if bool_decide (lastWritten !! peer.1 = Some peer.2) then acc
  else (Store.save peer.1 peer.2 store, <[peer.1 := peer.2]> lastWritten, S written).

Definition checkpoint (self : State) : nat * State :=
  if negb (homeBound self) then (O, self) else
  let '(store, lastWritten, written) :=
    foldl checkpointPeer (store self, lastWritten self, O) (ascending (SpanManager.exportAll (manager self))) in
  (written, mkState store (manager self) (homeBound self) lastWritten).

Definition importPeer (m : SpanManager.t) (peer : Z * list Z) : SpanManager.t :=
  SpanManager.importSpan peer.1 peer.2 m.

Definition bindAndRestore (homeId : list Z) (st : State) : State :=
  let (persisted, store) := Store.loadAll (Store.setHomeId homeId (store st)) in
  mkState store (foldl importPeer (manager st) (ascending persisted)) true persisted.
End Operations.

(** A process that starts: an empty table of generators on the database as it is. *)
Definition started (d : Db Store.Table) (draws : nat) : State :=
  mkState (Store.mkState d None) (SpanManager.mk ∅ draws) false ∅.

End SpanService.

(** ** Loading and writing *)

Import SpanService.

(** The rows of a network are of the right size and under byte ids. *)
Definition rows_ok (t : Store.Table) : Prop :=
  map_Forall (fun (k : string * Z) blob => byte_ok k.2 /\ length blob = Store.INNER_STATE_SIZE) t.

Lemma elem_of_SELECT (home : string) (t : Store.Table) (peer : Z) (blob : list Z) :
  (peer, blob) ∈ Store.SELECT home t <-> t !! (home, peer) = Some blob.
Proof.
  unfold Store.SELECT. rewrite list_elem_of_omap. split.
  - intros ([[h p] b] & Hin & E). rewrite elem_of_map_to_list in Hin. cbn in E.
    destruct (bool_decide_reflect (h = home)); by simplify_eq.
  - intros Hk. exists ((home, peer), blob). rewrite elem_of_map_to_list. split; [done|].
    cbn. by rewrite bool_decide_eq_true_2.
Qed.

Lemma foldl_loadRow (rows : list (Z * list Z)) (acc : gmap Z (list Z)) :
  Forall (fun r => byte_ok r.1 /\ length r.2 = Store.INNER_STATE_SIZE) rows ->
  (forall p b b', (p, b) ∈ rows -> (p, b') ∈ rows -> b = b') ->
  (forall p b b', acc !! p = Some b -> (p, b') ∈ rows -> b = b') ->
  forall p b, foldl Store.loadRow acc rows !! p = Some b <-> acc !! p = Some b \/ (p, b) ∈ rows.
Proof.
  intros Hf. revert acc. induction Hf as [|[q c] rows [Hq Hc] Hf IH]; intros acc Hd Ha p b.
  { cbn. rewrite elem_of_nil. tauto. }
  cbn [foldl]. unfold Store.loadRow at 2. cbn [fst snd] in *. rewrite Hc, u8_id by done. cbn [Nat.eqb negb].
  change (negb (Store.INNER_STATE_SIZE =? Store.INNER_STATE_SIZE)%nat) with false. cbn iota.
  assert (Hd' : forall p b b', (p, b) ∈ rows -> (p, b') ∈ rows -> b = b') by (intros; eapply Hd; by right).
  rewrite elem_of_cons. destruct (acc !! q) as [c'|] eqn:Eq.
  - assert (c' = c) as -> by (eapply Ha; [done|by left]).
    rewrite IH; [|done|intros; eapply Ha; [done|by right]]. split; [naive_solver|].
    intros [?|[[= -> ->]|?]]; auto.
  - rewrite IH; [|done|]. 2:{ intros p' b1 b2 [[<- <-]|[_ H1]]%lookup_insert_Some H2;
      [eapply Hd; [by left|by right]|eapply Ha; [done|by right]]. }
    rewrite lookup_insert_Some. split; [naive_solver|].
    intros [Hb|[[= -> ->]|?]]; auto. left. right. split; [|done]. intros ->. congruence.
Qed.

Section ServiceFacts.
Context `{e : SqliteEnv} (He : reliable e).

Lemma loadAll_value st home p b :
  valid (Store.db st) = true -> Store.homeId st = Some home -> rows_ok (table (Store.db st)) ->
  (Store.loadAll st).1 !! p = Some b <-> table (Store.db st) !! (home, p) = Some b.
Proof.
  intros Hv Hh Hr. unfold Store.loadAll. rewrite Hh, Hv. cbn [negb]. rewrite select_reliable by done.
  cbn [fst from_option]. unfold id. rewrite foldl_loadRow, lookup_empty, elem_of_SELECT; [naive_solver|..].
  - apply Forall_forall. intros [q c]. rewrite elem_of_SELECT. intros Hq. by destruct (Hr _ _ Hq).
  - intros q c c'. rewrite !elem_of_SELECT. congruence.
  - intros q c c'. by rewrite lookup_empty.
Qed.

Lemma elem_of_ascending (m : gmap Z (list Z)) p b :
  (p, b) ∈ ascending m <-> m !! p = Some b /\ byte_ok p.
Proof.
  unfold ascending, byte_ok. rewrite list_elem_of_omap. split.
  - intros (q & Hq%elem_of_seqZ & E). destruct (m !! q) eqn:Em; cbn in E; simplify_eq. split; [done|lia].
  - intros [Hm Hp]. exists p. rewrite elem_of_seqZ, Hm. split; [lia|done].
Qed.

Lemma NoDup_ascending (m : gmap Z (list Z)) : NoDup (ascending m).*1.
Proof.
  unfold ascending. pose proof (NoDup_seqZ 0 256) as Hn. induction Hn as [|q l Hq Hn IH]; [constructor|].
  cbn. destruct (m !! q) eqn:Em; cbn; [|done]. constructor; [|done].
  rewrite list_elem_of_fmap. intros ([q' b] & -> & Hin). apply list_elem_of_omap in Hin as (x & Hx & E).
  destruct (m !! x); cbn in E; simplify_eq. done.
Qed.

Lemma save_value peer blob st home :
  valid (Store.db st) = true -> Store.homeId st = Some home ->
  Store.save peer blob st
  = Store.mkState (mkDb true (<[(home, peer) := blob]> (table (Store.db st))) (S (ran (Store.db st)))) (Some home).
Proof. intros Hv Hh. unfold Store.save, Store.withDb. rewrite Hh, Hv. cbn. by rewrite write_reliable. Qed.

(** What the checkpoint's loop leaves: the exported generators are in the table. *)
Lemma foldl_checkpoint home (l : list (Z * list Z)) s (lw : gmap Z (list Z)) n :
  valid (Store.db s) = true -> Store.homeId s = Some home -> NoDup l.*1 ->
  (forall p b, lw !! p = Some b -> table (Store.db s) !! (home, p) = Some b) ->
  let '(s', lw', _) := foldl checkpointPeer (s, lw, n) l in
  valid (Store.db s') = true /\ Store.homeId s' = Some home /\
  (forall k, k.1 <> home \/ k.2 ∉ l.*1 -> table (Store.db s') !! k = table (Store.db s) !! k) /\
  (forall p b, (p, b) ∈ l -> table (Store.db s') !! (home, p) = Some b) /\
  (forall p b, lw' !! p = Some b -> table (Store.db s') !! (home, p) = Some b).
Proof.
  revert s lw n. induction l as [|[p b] l IH]; intros s lw n Hv Hh Hn Hlw.
  { cbn. split_and!; [done..| |done]. intros p b []%elem_of_nil. }
  cbn [foldl]. apply NoDup_cons in Hn as [Hp Hn]. cbn [fst] in Hp. unfold checkpointPeer at 2. cbn [fst snd].
  assert (Hgoal : forall s1 lw1 n1, valid (Store.db s1) = true -> Store.homeId s1 = Some home ->
    (forall p b, lw1 !! p = Some b -> table (Store.db s1) !! (home, p) = Some b) ->
    (forall k, k <> (home, p) -> table (Store.db s1) !! k = table (Store.db s) !! k) ->
    table (Store.db s1) !! (home, p) = Some b ->
    let '(s', lw', _) := foldl checkpointPeer (s1, lw1, n1) l in
    valid (Store.db s') = true /\ Store.homeId s' = Some home /\
    (forall k, k.1 <> home \/ k.2 ∉ p :: l.*1 -> table (Store.db s') !! k = table (Store.db s) !! k) /\
    (forall p' b', (p', b') ∈ (p, b) :: l -> table (Store.db s') !! (home, p') = Some b') /\
    (forall p b, lw' !! p = Some b -> table (Store.db s') !! (home, p) = Some b)).
  { intros s1 lw1 n1 Hv1 Hh1 Hlw1 Hk Hpb. specialize (IH s1 lw1 n1 Hv1 Hh1 Hn Hlw1).
    destruct (foldl checkpointPeer (s1, lw1, n1) l) as [[s' lw'] n']. destruct IH as (H1 & H2 & H3 & H4 & H5).
    split_and!; [done|done| | |done].
    - intros [h q] Hq. cbn in Hq. rewrite H3; [apply Hk|]; rewrite ?not_elem_of_cons in Hq; cbn;
        destruct Hq as [Hq|[Hq Hq']]; try (by intros [=]); auto.
    - intros p' b' [[= -> ->]|Hin]%elem_of_cons; [|by apply H4]. rewrite H3 by by right. done. }
  destruct (bool_decide_reflect (lw !! p = Some b)) as [Hl|Hl].
  - apply Hgoal; auto.
  - rewrite (save_value _ _ _ home) by done. apply Hgoal; cbn; [done|done| | |by rewrite lookup_insert_eq].
    + intros q c [[<- <-]|[Hq Hc]]%lookup_insert_Some; [by rewrite lookup_insert_eq|].
      rewrite lookup_insert_ne by congruence. auto.
    + intros k Hk. by rewrite lookup_insert_ne by congruence.
Qed.

Lemma foldl_import_other (l : list (Z * list Z)) (m : SpanManager.t) p :
  p ∉ l.*1 -> SpanManager.peers (foldl importPeer m l) !! p = SpanManager.peers m !! p.
Proof.
  revert m. induction l as [|[q c] l IH]; intros m Hp; [done|]. cbn in Hp. rewrite not_elem_of_cons in Hp.
  cbn [foldl]. rewrite IH by tauto. cbn. by rewrite lookup_insert_ne by naive_solver.
Qed.

Lemma foldl_import (l : list (Z * list Z)) (m : SpanManager.t) p b :
  NoDup l.*1 -> (p, b) ∈ l ->
  exists x, SpanManager.peers (foldl importPeer m l) !! p = Some x /\ SpanManager.span x = Some (Span.deserialize b).
Proof.
  revert m. induction l as [|[q c] l IH]; intros m Hn Hin; [by apply elem_of_nil in Hin|].
  apply NoDup_cons in Hn as [Hq Hn]. cbn [foldl]. apply elem_of_cons in Hin as [[= -> ->]|Hin]; [|by apply IH].
  clear IH. cbn [fst] in Hq.
  assert (H0 : exists x, SpanManager.peers (importPeer m (q, c)) !! q = Some x /\
            SpanManager.span x = Some (Span.deserialize c)).
  { eexists. split; [apply lookup_insert_eq|done]. }
  destruct H0 as (x & Hx & Hs). exists x. by rewrite foldl_import_other.
Qed.
End ServiceFacts.

(** ** Restarts *)

(** What the service lives through: the dongle coming up on a network, checkpoints,
    and traffic, which changes the live table in any way. *)
Inductive Life := DongleInfo (homeId : list Z) | S2SpanCheckpointDue | Traffic (m : SpanManager.t).

Definition live `{SqliteEnv} (st : SpanService.State) (l : Life) : SpanService.State :=
  match l with
  | DongleInfo h => bindAndRestore h st
  | S2SpanCheckpointDue => (checkpoint st).2
  | Traffic m => mkState (store st) m (homeBound st) (lastWritten st)
  end.

(** Every generator is of AES block sizes and belongs to a node id. *)
Definition manager_ok (m : SpanManager.t) : Prop :=
  map_Forall (fun p x => byte_ok p /\ forall s, SpanManager.span x = Some s -> span_ok s) (SpanManager.peers m).
Definition life_ok (l : Life) : Prop :=
  match l with Traffic m => manager_ok m | DongleInfo h => bytes_ok h | S2SpanCheckpointDue => True end.

(** What was written last is in the table under the bound network. *)
Record service_ok (st : SpanService.State) : Prop := {
  svc_open : valid (Store.db (store st)) = true;
  svc_rows : rows_ok (table (Store.db (store st)));
  svc_manager : manager_ok (manager st);
  svc_bound : homeBound st = true -> exists home, Store.homeId (store st) = Some home /\
    forall p b, lastWritten st !! p = Some b -> table (Store.db (store st)) !! (home, p) = Some b }.

Lemma exported m p b :
  SpanManager.exportAll m !! p = Some b <->
  exists x s, SpanManager.peers m !! p = Some x /\ SpanManager.span x = Some s /\ b = Span.serialize s.
Proof.
  unfold SpanManager.exportAll. rewrite lookup_omap. split.
  - intros (x & Hx & E)%bind_Some. destruct (SpanManager.span x) as [s|] eqn:Hs; cbn in E; simplify_eq. eauto.
  - intros (x & s & -> & Hs & ->). cbn. by rewrite Hs.
Qed.

Lemma serialize_size s : span_ok s -> length (Span.serialize s) = Store.INNER_STATE_SIZE.
Proof. intros [Hk Hv]. unfold Span.serialize. rewrite length_app, Hk, Hv. done. Qed.

Lemma deserialize_ok b : length b = Store.INNER_STATE_SIZE -> span_ok (Span.deserialize b).
Proof.
  intros Hb. split; cbn.
  - rewrite length_take, Hb. done.
  - rewrite length_drop, Hb. done.
Qed.

Section Lives.
Context `{e : SqliteEnv} (He : reliable e).

(** After a checkpoint the table has the generators of the live table, and no others
    changed. *)
Lemma checkpoint_spec st home :
  service_ok st -> homeBound st = true -> Store.homeId (store st) = Some home ->
  let st' := (checkpoint st).2 in
  service_ok st' /\ homeBound st' = true /\ Store.homeId (store st') = Some home /\ manager st' = manager st /\
  (forall p x s, SpanManager.peers (manager st) !! p = Some x -> SpanManager.span x = Some s ->
     table (Store.db (store st')) !! (home, p) = Some (Span.serialize s)).
Proof.
  intros [Hv Hr Hm Hb] Hbd Hh. cbn zeta. destruct (Hb Hbd) as (home' & Hh' & Hlw).
  assert (home' = home) as -> by congruence. unfold checkpoint. rewrite Hbd. cbn [negb].
  set (l := ascending (SpanManager.exportAll (manager st))).
  assert (Hl : forall p b, (p, b) ∈ l -> byte_ok p /\ length b = Store.INNER_STATE_SIZE).
  { intros p b [(x & s & Hx & Hs & ->)%exported Hp]%elem_of_ascending. split; [done|].
    apply serialize_size. by eapply Hm. }
  pose proof (foldl_checkpoint He home l (store st) (lastWritten st) 0 Hv Hh (NoDup_ascending _) Hlw) as Hf.
  destruct (foldl checkpointPeer _ l) as [[s' lw'] n']. destruct Hf as (Hv' & Hh2 & Hsame & Hin & Hlw').
  cbn [snd store manager homeBound lastWritten]. split_and!; [|done|done|done|].
  - split; cbn; [done| |done|intros _; by exists home].
    intros [h p] b Hb'. cbn [store] in Hb'. destruct (decide (h = home /\ p ∈ l.*1)) as [[-> Hp]|Hn].
    + apply list_elem_of_fmap in Hp as ([q c] & -> & Hq). cbn [fst] in *. rewrite (Hin _ _ Hq) in Hb'. simplify_eq. by apply (Hl q).
    + rewrite Hsame in Hb'; [by apply (Hr (h, p))|]. cbn. destruct (decide (h = home)); naive_solver.
  - intros p x s Hx Hs. apply Hin. apply elem_of_ascending. split; [|by eapply Hm].
    apply exported. eauto.
Qed.

Lemma bindAndRestore_spec st h :
  service_ok st ->
  let st' := bindAndRestore h st in
  service_ok st' /\ homeBound st' = true /\ Store.homeId (store st') = Some (toHex h) /\
  table (Store.db (store st')) = table (Store.db (store st)) /\
  (forall p b, table (Store.db (store st)) !! (toHex h, p) = Some b ->
     exists x, SpanManager.peers (manager st') !! p = Some x /\ SpanManager.span x = Some (Span.deserialize b)) /\
  (forall p, table (Store.db (store st)) !! (toHex h, p) = None ->
     SpanManager.peers (manager st') !! p = SpanManager.peers (manager st) !! p).
Proof.
  intros [Hv Hr Hm Hb]. cbn zeta. unfold bindAndRestore.
  set (s1 := Store.setHomeId h (store st)).
  pose proof (fun p b => loadAll_value He s1 (toHex h) p b Hv eq_refl Hr) as Hl.
  assert (Hs : Store.loadAll s1 = ((Store.loadAll s1).1, Store.mkState (spent (Store.db (store st))) (Some (toHex h)))).
  { unfold Store.loadAll. cbn [Store.homeId s1 Store.setHomeId Store.db]. rewrite Hv. cbn [negb].
    by rewrite select_reliable. }
  rewrite Hs. generalize dependent (Store.loadAll s1).1. intros persisted Hl _. cbn [store manager homeBound].
  assert (Hin : forall p b, (p, b) ∈ ascending persisted <-> table (Store.db (store st)) !! (toHex h, p) = Some b).
  { intros p b. rewrite elem_of_ascending, Hl. split; [tauto|]. intros Hp. split; [done|]. by destruct (Hr _ _ Hp). }
  split_and!; [|done|done|done| |].
  - split; cbn; [done|done| |].
    + assert (Hall : Forall (fun r => byte_ok r.1 /\ length r.2 = Store.INNER_STATE_SIZE) (ascending persisted)).
      { apply Forall_forall. intros [p b] Hp%Hin. by destruct (Hr _ _ Hp). }
      clear -Hall Hm. revert Hm. generalize (manager st). induction Hall as [|[p b] l [Hp Hb] Hl IH]; intros m Hm; [done|].
      cbn [foldl]. apply IH. apply map_Forall_insert_2; [|done]. split; [done|]. cbn. intros s [= <-].
      by apply deserialize_ok.
    + intros _. exists (toHex h). split; [done|]. intros p b. apply Hl.
  - intros p b Hp. apply foldl_import; [apply NoDup_ascending|by apply Hin].
  - intros p Hp. apply foldl_import_other. rewrite list_elem_of_fmap. intros ([q b] & -> & Hq%Hin). cbn in Hp. congruence.
Qed.

Lemma live_ok ls st : Forall life_ok ls -> service_ok st -> service_ok (foldl live st ls).
Proof.
  intros Hf. revert st. induction Hf as [|l ls Hl Hf IH]; intros st Hs; [done|]. cbn. apply IH.
  destruct l as [h| |m]; cbn.
  - by apply bindAndRestore_spec.
  - unfold checkpoint. destruct (homeBound st) eqn:Hb; [|done].
    destruct (svc_bound _ Hs Hb) as (home & Hh & _). pose proof (checkpoint_spec st home Hs Hb Hh) as H.
    unfold checkpoint in H. rewrite Hb in H. cbn [negb] in *. apply H.
  - destruct Hs. by split.
Qed.

Lemma started_ok d draws : valid d = true -> rows_ok (table d) -> service_ok (started d draws).
Proof. by split. Qed.

(** Without another dongle the service stays bound. *)
Lemma live_bound ls st home :
  Forall (fun l => match l with DongleInfo _ => False | _ => life_ok l end) ls -> service_ok st ->
  homeBound st = true -> Store.homeId (store st) = Some home ->
  homeBound (foldl live st ls) = true /\ Store.homeId (store (foldl live st ls)) = Some home.
Proof.
  intros Hf. revert st. induction Hf as [|l ls Hl Hf IH]; intros st Hs Hb Hh; [done|]. cbn.
  assert (Hok : service_ok (live st l)).
  { apply (live_ok [l]); [|done]. constructor; [|done]. by destruct l. }
  destruct l as [h| |m]; [done| |by apply IH].
  destruct (checkpoint_spec st home Hs Hb Hh) as (_ & Hb' & Hh' & _). by apply IH.
Qed.
End Lives.

(** C26: a clean restart keeps every conversation in step: whatever the daemon lived
    through, when the shutdown checkpoint has run and the dongle comes up again on the
    same network, a peer that held the same generator still does, so the next frames
    open without a new nonce exchange. *)
Theorem lockstep_survives_restart (e : SqliteEnv) pre post h d draws draws' B a b :
  reliable e -> bytes_ok h -> valid d = true -> rows_ok (table d) -> Forall life_ok pre ->
  Forall (fun l => match l with DongleInfo _ => False | _ => life_ok l end) post ->
  let st := foldl live (started d draws) (pre ++ DongleInfo h :: post) in
  synced a b (manager st) B ->
  let stopped := (checkpoint st).2 in
  let next := bindAndRestore h (started (mkDb true (table (Store.db (store stopped))) 0) draws') in
  synced a b (SpanManager.configurePeer b (SpanManager.config (SpanManager.peerState (manager st) b)) (manager next)) B.
Proof.
  intros He Hh Hv Hr Hpre Hpost. cbn zeta. rewrite foldl_app. cbn [foldl live].
  assert (H0 : service_ok (foldl live (started d draws) pre)) by by apply (live_ok He), started_ok.
  destruct (bindAndRestore_spec He _ h H0) as (H1 & Hb & Hid & _).
  destruct (live_bound He post _ (toHex h) Hpost H1 Hb Hid) as [Hb2 Hid2].
  assert (H2 : service_ok (foldl live (bindAndRestore h (foldl live (started d draws) pre)) post)).
  { apply (live_ok He); [|done]. eapply Forall_impl; [exact Hpost|]. by intros []. }
  revert H2 Hb2 Hid2. generalize (foldl live (bindAndRestore h (foldl live (started d draws) pre)) post) as st.
  intros st H2 Hb2 Hid2 (s & pA & pB & HA & HB & HsA & HsB & Hok & Hm).
  destruct (checkpoint_spec He st (toHex h) H2 Hb2 Hid2) as (H3 & _ & _ & _ & Hrow).
  specialize (Hrow b pA s HA HsA). revert H3 Hrow. generalize (checkpoint st).2 as stopped. intros stopped H3 Hrow.
  assert (H4 : service_ok (started (mkDb true (table (Store.db (store stopped))) 0) draws')).
  { apply started_ok; [done|]. apply H3. }
  destruct (bindAndRestore_spec He _ h H4) as (_ & _ & _ & _ & Hload & _).
  destruct (Hload b _ Hrow) as (x & Hx & Hs). rewrite serialize_deserialize in Hs by done.
  exists s. do 2 eexists. split_and!; [apply lookup_insert_eq|exact HB|cbn|done|done|].
  - by rewrite (peerState_lookup _ _ _ Hx).
  - cbn. by rewrite (peerState_lookup _ _ _ HA).
Qed.

(** A dongle of another network does not clear the live table: at the next
    checkpoint the generators of the old network's nodes are stored as the new
    network's, for every node id the new network has no row for. *)
Theorem swap_files_spans_under_new_network (e : SqliteEnv) ls d draws h p x s :
  reliable e -> valid d = true -> rows_ok (table d) -> Forall life_ok ls ->
  let st := foldl live (started d draws) ls in
  SpanManager.peers (manager st) !! p = Some x -> SpanManager.span x = Some s ->
  table (Store.db (store st)) !! (toHex h, p) = None ->
  table (Store.db (store (checkpoint (bindAndRestore h st)).2)) !! (toHex h, p) = Some (Span.serialize s).
Proof.
  intros He Hv Hr Hls. cbn zeta. assert (H0 : service_ok (foldl live (started d draws) ls)) by by apply (live_ok He), started_ok.
  revert H0. generalize (foldl live (started d draws) ls) as st. intros st H0 Hx Hs Hnone.
  destruct (bindAndRestore_spec He st h H0) as (H1 & Hb & Hid & _ & _ & Hkeep).
  destruct (checkpoint_spec He _ (toHex h) H1 Hb Hid) as (_ & _ & _ & _ & Hrow).
  eapply Hrow; [|exact Hs]. by rewrite Hkeep.
Qed.

(** ** A run: one peer, a checkpoint, a restart *)

Definition exampleSpan : Span.t := Span.mk (replicate 16 1) (replicate 16 2).
Definition examplePeer (our peer : Z) : SpanManager.Peer :=
  SpanManager.mkPeer (SpanManager.mkConfig (replicate 16 7) (replicate 32 8) [1; 2; 3; 4] our peer)
    (Some exampleSpan) None None 0.
Definition exampleManager (our peer : Z) : SpanManager.t := SpanManager.mk {[ peer := examplePeer our peer ]} 0.

Lemma exampleManager_ok our peer : byte_ok peer -> manager_ok (exampleManager our peer).
Proof.
  intros Hp. apply map_Forall_singleton. split; [done|]. intros s [= <-]. by split.
Qed.

Lemma rows_ok_empty : rows_ok ∅.
Proof. apply map_Forall_empty. Qed.

Lemma lockstep_survives_restart_witness :
  synced 1 9
    (SpanManager.configurePeer 9 (SpanManager.config (examplePeer 1 9))
       (manager (bindAndRestore (H := alwaysRuns) [1; 2; 3; 4]
         (started (mkDb true (table (Store.db (store (checkpoint (H := alwaysRuns)
            (foldl (live (H := alwaysRuns)) (started (mkDb true ∅ 0) 0)
               ([] ++ DongleInfo [1; 2; 3; 4] :: [Traffic (exampleManager 1 9)]))).2))) 0) 5))))
    (exampleManager 9 1).
Proof.
  apply (lockstep_survives_restart alwaysRuns [] [Traffic (exampleManager 1 9)] [1; 2; 3; 4]
    (mkDb true ∅ 0) 0 5 (exampleManager 9 1) 1 9 alwaysRuns_reliable).
  - repeat constructor; by vm_compute.
  - done.
  - apply rows_ok_empty.
  - constructor.
  - constructor; [|constructor]. cbn. apply exampleManager_ok. by vm_compute.
  - exists exampleSpan, (examplePeer 1 9), (examplePeer 9 1). by split_and!.
Defined.

Lemma swap_files_spans_under_new_network_witness :
  table (Store.db (store (checkpoint (H := alwaysRuns) (bindAndRestore (H := alwaysRuns) [9; 9; 9; 9]
     (foldl (live (H := alwaysRuns)) (started (mkDb true ∅ 0) 0) [DongleInfo [1; 2; 3; 4]; Traffic (exampleManager 1 9)]))).2))
  !! ("09090909"%string, 9) = Some (Span.serialize exampleSpan).
Proof.
  refine (swap_files_spans_under_new_network alwaysRuns [DongleInfo [1; 2; 3; 4]; Traffic (exampleManager 1 9)]
    (mkDb true ∅ 0) 0 [9; 9; 9; 9] 9 (examplePeer 1 9) exampleSpan alwaysRuns_reliable eq_refl rows_ok_empty _ eq_refl eq_refl _).
  - constructor; [by repeat constructor; vm_compute|]. constructor; [|constructor].
    cbn. apply exampleManager_ok. by vm_compute.
  - by vm_compute.
Defined.
