(* ===== verification/ProtocolThread.v ===== *)
(** * The protocol thread: commands in, frames in

    [zwave-protocol/ProtocolThread.cpp]: the bus handlers that turn commands into
    requests for the dongle (and divert what must be encrypted), and the handler of
    every frame the dongle sends.  The loop that carries requests to the port is in
    [ProtocolSession]. *)

From Stdlib Require Import String.
From S2P Require Import Prelude DataFrame HostApi CommandClasses Sqlite NodeRegistry.
From stdpp Require Import gmap strings.
#[local] Open Scope Z_scope.

Module Thread.

Definition STATUS_PROTOCOL_DONE : Z := 0x05.
Definition STATUS_COMPLETED : Z := 0x06.
Definition ccSecurity : Z := 0x98.
Definition ccSecurity2 : Z := 0x9F.
Definition ADD_MODE_STOP_REPLICATION : Z := 0x06.
Definition REMOVE_MODE_STOP : Z := 0x05.
Definition RESPONSE_STARTED : Z := 0x00.
Definition RESPONSE_REMOVE_FAIL : Z := 0x20.
Definition CALLBACK_REMOVED : Z := 0x01.

(** The encoders the build generates. *)
Class GeneratedEncoders := {
  BinarySwitch_encodeSet : bool -> list Z;
  BinarySwitch_encodeGet : list Z;
  Indicator_encodeSet : Z -> list Z;
  Indicator_encodeGet : list Z;
  Basic_encodeSet : Z -> list Z;
  Basic_encodeGet : list Z;
  MultilevelSwitch_encodeSet : Z -> Z -> list Z;
  MultilevelSwitch_encodeGet : list Z;
  Battery_encodeGet : list Z;
  SensorMultilevel_encodeGet : list Z;
  SensorBinary_encodeGet : list Z;
  DoorLock_encodeSet : Z -> list Z;
  DoorLock_encodeGet : list Z;
  UserCode_encodeGet : Z -> list Z;
  UserCode_encodeUsersNumberGet : list Z;
  ThermostatMode_encodeSet : Z -> list Z;
  ThermostatMode_encodeGet : list Z;
  ThermostatOperatingState_encodeGet : list Z;
  ThermostatFanMode_encodeSet : Z -> bool -> list Z;
  ThermostatFanMode_encodeGet : list Z;
  ManufacturerSpecific_encodeGet : list Z;
  ZWavePlusInfo_encodeGet : list Z;
  NodeVersion_encodeGet : list Z;
  WakeUp_encodeGet : list Z;
  WakeUp_encodeNoMoreInformation : list Z }.

(** What travels to the dongle. *)
Inductive Request :=
| AddNode (r : AddNodeRequest)
| RemoveNode (r : RemoveNodeRequest)
| RemoveFailedNode (r : RemoveFailedNodeRequest)
| RequestNodeInfo (r : RequestNodeInfoRequest)
| SendData (r : SendDataRequest)
| SendDataMulti (r : SendDataMultiRequest).

(** [RemoveFailedNodeStatus::PHASE_RESPONSE] and [PHASE_CALLBACK]. *)
Inductive Phase := PhaseResponse | PhaseCallback.

(** What the thread publishes on the bus. *)
Inductive Event :=
| SecureS2SendRequest (nodeId : Z) (payload : list Z) (callbackId : Z)
| SecureSendRequest (nodeId : Z) (payload : list Z) (callbackId : Z)
| SendDataCallbackEvent (callbackId txStatus : Z)
| ApplicationCommandEvent (c : ApplicationCommand)
| NodeInclusionStatus (c : NodeStatusCallback)
| NodeExclusionStatus (c : NodeStatusCallback)
| NodeIncluded (nodeId : Z) (commandClasses : list Z)
| SessionStatus (active : bool) (commandId sessionId : Z)
| RemoveFailedNodeStatus (nodeId sessionId : Z) (phase : Phase) (status : Z)
| RequestNodeInfoStatus (nodeId sessionId : Z) (accepted : bool)
| NodeInfoUpdate (u : ApplicationUpdate)
| NodeListChanged (nodes : list Registry.NodeEntry)
| DaemonErrorIntrospection
| DaemonErrorOpenFailed (path : list Z)
| DaemonErrorClear
| DongleInfo (v : VersionResponse) (i : MemoryIdResponse)
| InitData (i : InitDataResponse).

(** [ZwaveProtocolState], with the tracker and the gate [runConnectedSession] keeps
    on its stack, the registry it changes and what it has published, oldest first. *)
Record Daemon := mkDaemon {
  path : option (list Z);
  running : bool;
  queue : list Request;
  activeFailedNodeRemoval : option RemoveFailedNodeRequest;
  activeRequestNodeInfo : option RequestNodeInfoRequest;
  controllerNodeId : option Z;
  pendingInclusion : option (Z * list Z);
  tracker : SessionTracker;
  pendingSendData : option Z;
  registry : Registry.State;
  bus : list Event }.

Definition withPath p (d : Daemon) := mkDaemon p (running d) (queue d) (activeFailedNodeRemoval d)
  (activeRequestNodeInfo d) (controllerNodeId d) (pendingInclusion d) (tracker d) (pendingSendData d) (registry d) (bus d).
Definition withQueue q (d : Daemon) := mkDaemon (path d) (running d) q (activeFailedNodeRemoval d)
  (activeRequestNodeInfo d) (controllerNodeId d) (pendingInclusion d) (tracker d) (pendingSendData d) (registry d) (bus d).
Definition withRemoval r (d : Daemon) := mkDaemon (path d) (running d) (queue d) r
  (activeRequestNodeInfo d) (controllerNodeId d) (pendingInclusion d) (tracker d) (pendingSendData d) (registry d) (bus d).
Definition withNodeInfo r (d : Daemon) := mkDaemon (path d) (running d) (queue d) (activeFailedNodeRemoval d)
  r (controllerNodeId d) (pendingInclusion d) (tracker d) (pendingSendData d) (registry d) (bus d).
Definition withInclusion i (d : Daemon) := mkDaemon (path d) (running d) (queue d) (activeFailedNodeRemoval d)
  (activeRequestNodeInfo d) (controllerNodeId d) i (tracker d) (pendingSendData d) (registry d) (bus d).
Definition withTracker t (d : Daemon) := mkDaemon (path d) (running d) (queue d) (activeFailedNodeRemoval d)
  (activeRequestNodeInfo d) (controllerNodeId d) (pendingInclusion d) t (pendingSendData d) (registry d) (bus d).
Definition withGate g (d : Daemon) := mkDaemon (path d) (running d) (queue d) (activeFailedNodeRemoval d)
  (activeRequestNodeInfo d) (controllerNodeId d) (pendingInclusion d) (tracker d) g (registry d) (bus d).
Definition publish (e : Event) (d : Daemon) := mkDaemon (path d) (running d) (queue d) (activeFailedNodeRemoval d)
  (activeRequestNodeInfo d) (controllerNodeId d) (pendingInclusion d) (tracker d) (pendingSendData d) (registry d)
  (bus d ++ [e]).

(** A call into [NodeRegistry], which publishes its own events. *)
Definition onRegistry (f : Registry.State -> list (list Registry.NodeEntry) * Registry.State) (d : Daemon) : Daemon :=
  let (events, r) := f (registry d) in
  mkDaemon (path d) (running d) (queue d) (activeFailedNodeRemoval d) (activeRequestNodeInfo d) (controllerNodeId d)
    (pendingInclusion d) (tracker d) (pendingSendData d) r (bus d ++ (NodeListChanged <$> events)).

Definition pushRequest (r : Request) (d : Daemon) : Daemon := withQueue (queue d ++ [r]) d.
Definition popRequest (d : Daemon) : option Request * Daemon :=
  match queue d with [] => (None, d) | r :: q => (Some r, withQueue q d) end.
Definition clearRequests (d : Daemon) : Daemon := withQueue [] d.

Definition onDongleStatus (connected : bool) (ttyPath : list Z) (d : Daemon) : Daemon :=
  withPath (if connected && negb (length ttyPath =? 0)%nat then Some ttyPath else None) d.

(** ** Commands *)

Definition isS2 (scheme : Z) : bool :=
  (scheme =? Registry.SCHEME_S2_UNAUTHENTICATED) || (scheme =? Registry.SCHEME_S2_AUTHENTICATED)
  || (scheme =? Registry.SCHEME_S2_ACCESS_CONTROL).

(** [!data.empty() && data[0] != ccSecurity && data[0] != ccSecurity2] *)
Definition needsSecurity (data : list Z) : bool :=
  match data with [] => false | cc :: _ => negb (cc =? ccSecurity) && negb (cc =? ccSecurity2) end.

Definition pushSendData (nodeId callbackId : Z) (data : list Z) (d : Daemon) : Daemon :=
  if needsSecurity data && Registry.isSecure nodeId (registry d) then
    publish (if isS2 (Registry.securitySchemeOf nodeId (registry d))
             then SecureS2SendRequest nodeId data callbackId
             else SecureSendRequest nodeId data callbackId) d
  else pushRequest (SendData (mkSendData nodeId data TRANSMIT_OPTION_DEFAULT callbackId)) d.

Definition onAddNodeCommand (cmd : AddNodeRequest) : Daemon -> Daemon := pushRequest (AddNode cmd).
Definition onRemoveNodeCommand (cmd : RemoveNodeRequest) : Daemon -> Daemon := pushRequest (RemoveNode cmd).
Definition onRemoveFailedNodeCommand (nodeId sessionId : Z) : Daemon -> Daemon :=
  pushRequest (RemoveFailedNode (mkRemoveFailed nodeId sessionId)).
Definition onRequestNodeInfoCommand (nodeId sessionId : Z) : Daemon -> Daemon :=
  pushRequest (RequestNodeInfo (mkRequestNodeInfo nodeId sessionId)).

Definition onSendDataMulticast (nodeIds payload : list Z) (callbackId : Z) (d : Daemon) : Daemon :=
  if (length nodeIds =? 0)%nat || (length payload =? 0)%nat then
    publish (SendDataCallbackEvent callbackId TRANSMIT_COMPLETE_FAIL) d
  else
    let secure := List.filter (fun nodeId => Registry.isSecure nodeId (registry d)) nodeIds in
    if negb (length secure =? 0)%nat then publish (SendDataCallbackEvent callbackId TRANSMIT_COMPLETE_FAIL) d
    else pushRequest (SendDataMulti (mkSendDataMulti nodeIds payload TRANSMIT_OPTION_DEFAULT callbackId)) d.

Definition toCodecEndpoints (busMembers : list (Z * Z)) : list MultichannelAssociation.EndpointMember :=
  (fun m => MultichannelAssociation.mkMember m.1 m.2) <$> busMembers.

Section Commands.
Context `{GeneratedEncoders}.

Definition onSetSwitchBinary (nodeId callbackId : Z) (turnOn : bool) : Daemon -> Daemon :=
  pushSendData nodeId callbackId (BinarySwitch_encodeSet turnOn).
Definition onGetSwitchBinary (nodeId callbackId : Z) : Daemon -> Daemon :=
  pushSendData nodeId callbackId BinarySwitch_encodeGet.
Definition onSetIndicator (nodeId callbackId : Z) (value : Z) : Daemon -> Daemon :=
  pushSendData nodeId callbackId (Indicator_encodeSet value).
Definition onGetIndicator (nodeId callbackId : Z) : Daemon -> Daemon :=
  pushSendData nodeId callbackId Indicator_encodeGet.
Definition onSetBasic (nodeId callbackId : Z) (value : Z) : Daemon -> Daemon :=
  pushSendData nodeId callbackId (Basic_encodeSet value).
Definition onSendSupervised (nodeId callbackId : Z) (sessionId : Z) (ccData : list Z) : Daemon -> Daemon :=
  pushSendData nodeId callbackId (Supervision.encodeGet sessionId false ccData).
Definition onSendDataToEndpoint (nodeId callbackId : Z) (endpoint : Z) (ccData : list Z) : Daemon -> Daemon :=
  pushSendData nodeId callbackId (MultiChannel.encodeEncap 0 endpoint ccData).
Definition onGetMultiChannelEndpoints (nodeId callbackId : Z) : Daemon -> Daemon :=
  pushSendData nodeId callbackId MultiChannel.encodeEndpointGet.
Definition onGetMultiChannelCapability (nodeId callbackId : Z) (endpoint : Z) : Daemon -> Daemon :=
  pushSendData nodeId callbackId (MultiChannel.encodeCapabilityGet endpoint).
Definition onGetBasic (nodeId callbackId : Z) : Daemon -> Daemon :=
  pushSendData nodeId callbackId Basic_encodeGet.
Definition onSetMultilevelSwitch (nodeId callbackId : Z) (value : Z) (duration : Z) : Daemon -> Daemon :=
  pushSendData nodeId callbackId (MultilevelSwitch_encodeSet value duration).
Definition onGetMultilevelSwitch (nodeId callbackId : Z) : Daemon -> Daemon :=
  pushSendData nodeId callbackId MultilevelSwitch_encodeGet.
Definition onGetBattery (nodeId callbackId : Z) : Daemon -> Daemon :=
  pushSendData nodeId callbackId Battery_encodeGet.
Definition onGetSensorMultilevel (nodeId callbackId : Z) : Daemon -> Daemon :=
  pushSendData nodeId callbackId SensorMultilevel_encodeGet.
Definition onGetSensorBinary (nodeId callbackId : Z) : Daemon -> Daemon :=
  pushSendData nodeId callbackId SensorBinary_encodeGet.
Definition onGetNotification (nodeId callbackId : Z) (notificationType : Z) : Daemon -> Daemon :=
  pushSendData nodeId callbackId (Notification.encodeGet notificationType).
Definition onGetMeter (nodeId callbackId : Z) (scale : Z) : Daemon -> Daemon :=
  pushSendData nodeId callbackId (Meter.encodeGet scale).
Definition onSetColorSwitch (nodeId callbackId : Z) (components : list Z) (duration : Z) : Daemon -> Daemon :=
  pushSendData nodeId callbackId (ColorSwitch.encodeSet components duration).
Definition onGetColorSwitch (nodeId callbackId : Z) (componentId : Z) : Daemon -> Daemon :=
  pushSendData nodeId callbackId (ColorSwitch.encodeGet componentId).
Definition onSetDoorLock (nodeId callbackId : Z) (mode : Z) : Daemon -> Daemon :=
  pushSendData nodeId callbackId (DoorLock_encodeSet mode).
Definition onGetDoorLock (nodeId callbackId : Z) : Daemon -> Daemon :=
  pushSendData nodeId callbackId DoorLock_encodeGet.
Definition onSetUserCode (nodeId callbackId : Z) (userIdentifier : Z) (userIdStatus : Z) (userCode : list Z) : Daemon -> Daemon :=
  pushSendData nodeId callbackId (UserCode.encodeSet userIdentifier userIdStatus userCode).
Definition onGetUserCode (nodeId callbackId : Z) (userIdentifier : Z) : Daemon -> Daemon :=
  pushSendData nodeId callbackId (UserCode_encodeGet userIdentifier).
Definition onGetUserCodeCount (nodeId callbackId : Z) : Daemon -> Daemon :=
  pushSendData nodeId callbackId UserCode_encodeUsersNumberGet.
Definition onSetThermostatMode (nodeId callbackId : Z) (mode : Z) : Daemon -> Daemon :=
  pushSendData nodeId callbackId (ThermostatMode_encodeSet mode).
Definition onGetThermostatMode (nodeId callbackId : Z) : Daemon -> Daemon :=
  pushSendData nodeId callbackId ThermostatMode_encodeGet.
Definition onSetThermostatSetpoint (nodeId callbackId : Z) (setpointType : Z) (precision : Z) (scale : Z) (value : Z) : Daemon -> Daemon :=
  pushSendData nodeId callbackId (Thermostat.encodeSetpointSet setpointType precision scale value).
Definition onGetThermostatSetpoint (nodeId callbackId : Z) (setpointType : Z) : Daemon -> Daemon :=
  pushSendData nodeId callbackId (Thermostat.encodeSetpointGet setpointType).
Definition onGetThermostatOperatingState (nodeId callbackId : Z) : Daemon -> Daemon :=
  pushSendData nodeId callbackId ThermostatOperatingState_encodeGet.
Definition onSetThermostatFanMode (nodeId callbackId : Z) (mode : Z) (off : bool) : Daemon -> Daemon :=
  pushSendData nodeId callbackId (ThermostatFanMode_encodeSet mode off).
Definition onGetThermostatFanMode (nodeId callbackId : Z) : Daemon -> Daemon :=
  pushSendData nodeId callbackId ThermostatFanMode_encodeGet.
Definition onGetManufacturerSpecific (nodeId callbackId : Z) : Daemon -> Daemon :=
  pushSendData nodeId callbackId ManufacturerSpecific_encodeGet.
Definition onGetZWavePlusInfo (nodeId callbackId : Z) : Daemon -> Daemon :=
  pushSendData nodeId callbackId ZWavePlusInfo_encodeGet.
Definition onGetNodeVersion (nodeId callbackId : Z) : Daemon -> Daemon :=
  pushSendData nodeId callbackId NodeVersion_encodeGet.
Definition onSetWakeUpInterval (nodeId callbackId : Z) (seconds : Z) (controllerNodeId : Z) : Daemon -> Daemon :=
  pushSendData nodeId callbackId (WakeUp.encodeIntervalSet seconds controllerNodeId).
Definition onGetWakeUpInterval (nodeId callbackId : Z) : Daemon -> Daemon :=
  pushSendData nodeId callbackId WakeUp_encodeGet.
Definition onSendWakeUpNoMoreInformation (nodeId callbackId : Z) : Daemon -> Daemon :=
  pushSendData nodeId callbackId WakeUp_encodeNoMoreInformation.
Definition onSendData (nodeId callbackId : Z) (payload : list Z) : Daemon -> Daemon :=
  pushSendData nodeId callbackId payload.
Definition onSetConfiguration (nodeId callbackId : Z) (parameter : Z) (size : Z) (value : Z) : Daemon -> Daemon :=
  pushSendData nodeId callbackId (Configuration.encodeSet parameter size value).
Definition onGetConfiguration (nodeId callbackId : Z) (parameter : Z) : Daemon -> Daemon :=
  pushSendData nodeId callbackId (Configuration.encodeGet parameter).
Definition onSetAssociation (nodeId callbackId : Z) (groupId : Z) (members : list Z) : Daemon -> Daemon :=
  pushSendData nodeId callbackId (Association.encodeSet groupId members).
Definition onRemoveAssociation (nodeId callbackId : Z) (groupId : Z) (members : list Z) : Daemon -> Daemon :=
  pushSendData nodeId callbackId (Association.encodeRemove groupId members).
Definition onGetAssociation (nodeId callbackId : Z) (groupId : Z) : Daemon -> Daemon :=
  pushSendData nodeId callbackId (Association.encodeGet groupId).
Definition onSetMultichannelAssociation (nodeId callbackId : Z) (groupId : Z) (nodeMembers : list Z) (endpointMembers : list (Z * Z)) : Daemon -> Daemon :=
  pushSendData nodeId callbackId (MultichannelAssociation.encodeSet groupId nodeMembers (toCodecEndpoints endpointMembers)).
Definition onRemoveMultichannelAssociation (nodeId callbackId : Z) (groupId : Z) (nodeMembers : list Z) (endpointMembers : list (Z * Z)) : Daemon -> Daemon :=
  pushSendData nodeId callbackId (MultichannelAssociation.encodeRemove groupId nodeMembers (toCodecEndpoints endpointMembers)).
Definition onGetMultichannelAssociation (nodeId callbackId : Z) (groupId : Z) : Daemon -> Daemon :=
  pushSendData nodeId callbackId (MultichannelAssociation.encodeGet groupId).
Definition onGetMultichannelAssociationGroupings (nodeId callbackId : Z) : Daemon -> Daemon :=
  pushSendData nodeId callbackId MultichannelAssociation.encodeGroupingsGet.
Definition onGetAssociationGroupings (nodeId callbackId : Z) : Daemon -> Daemon :=
  pushSendData nodeId callbackId Association.encodeGroupingsGet.

(** The commands that address one node, by their event. *)
Inductive CcCommand :=
| SetSwitchBinaryCommand (turnOn : bool)
| GetSwitchBinaryCommand
| SetIndicatorCommand (value : Z)
| GetIndicatorCommand
| SetBasicCommand (value : Z)
| SendSupervisedCommand (sessionId : Z) (ccData : list Z)
| SendDataToEndpointCommand (endpoint : Z) (ccData : list Z)
| GetMultiChannelEndpointsCommand
| GetMultiChannelCapabilityCommand (endpoint : Z)
| GetBasicCommand
| SetMultilevelSwitchCommand (value : Z) (duration : Z)
| GetMultilevelSwitchCommand
| GetBatteryCommand
| GetSensorMultilevelCommand
| GetSensorBinaryCommand
| GetNotificationCommand (notificationType : Z)
| GetMeterCommand (scale : Z)
| SetColorSwitchCommand (components : list Z) (duration : Z)
| GetColorSwitchCommand (componentId : Z)
| SetDoorLockCommand (mode : Z)
| GetDoorLockCommand
| SetUserCodeCommand (userIdentifier : Z) (userIdStatus : Z) (userCode : list Z)
| GetUserCodeCommand (userIdentifier : Z)
| GetUserCodeCountCommand
| SetThermostatModeCommand (mode : Z)
| GetThermostatModeCommand
| SetThermostatSetpointCommand (setpointType : Z) (precision : Z) (scale : Z) (value : Z)
| GetThermostatSetpointCommand (setpointType : Z)
| GetThermostatOperatingStateCommand
| SetThermostatFanModeCommand (mode : Z) (off : bool)
| GetThermostatFanModeCommand
| GetManufacturerSpecificCommand
| GetZWavePlusInfoCommand
| GetNodeVersionCommand
| SetWakeUpIntervalCommand (seconds : Z) (controllerNodeId : Z)
| GetWakeUpIntervalCommand
| SendWakeUpNoMoreInformationCommand
| SendDataCommand (payload : list Z)
| SetConfigurationCommand (parameter : Z) (size : Z) (value : Z)
| GetConfigurationCommand (parameter : Z)
| SetAssociationCommand (groupId : Z) (members : list Z)
| RemoveAssociationCommand (groupId : Z) (members : list Z)
| GetAssociationCommand (groupId : Z)
| SetMultichannelAssociationCommand (groupId : Z) (nodeMembers : list Z) (endpointMembers : list (Z * Z))
| RemoveMultichannelAssociationCommand (groupId : Z) (nodeMembers : list Z) (endpointMembers : list (Z * Z))
| GetMultichannelAssociationCommand (groupId : Z)
| GetMultichannelAssociationGroupingsCommand
| GetAssociationGroupingsCommand.

(** [subscribeBus]: the handler of each command. *)
Definition onCommand (nodeId callbackId : Z) (cmd : CcCommand) : Daemon -> Daemon :=
  match cmd with
  | SetSwitchBinaryCommand turnOn => onSetSwitchBinary nodeId callbackId turnOn
  | GetSwitchBinaryCommand => onGetSwitchBinary nodeId callbackId
  | SetIndicatorCommand value => onSetIndicator nodeId callbackId value
  | GetIndicatorCommand => onGetIndicator nodeId callbackId
  | SetBasicCommand value => onSetBasic nodeId callbackId value
  | SendSupervisedCommand sessionId ccData => onSendSupervised nodeId callbackId sessionId ccData
  | SendDataToEndpointCommand endpoint ccData => onSendDataToEndpoint nodeId callbackId endpoint ccData
  | GetMultiChannelEndpointsCommand => onGetMultiChannelEndpoints nodeId callbackId
  | GetMultiChannelCapabilityCommand endpoint => onGetMultiChannelCapability nodeId callbackId endpoint
  | GetBasicCommand => onGetBasic nodeId callbackId
  | SetMultilevelSwitchCommand value duration => onSetMultilevelSwitch nodeId callbackId value duration
  | GetMultilevelSwitchCommand => onGetMultilevelSwitch nodeId callbackId
  | GetBatteryCommand => onGetBattery nodeId callbackId
  | GetSensorMultilevelCommand => onGetSensorMultilevel nodeId callbackId
  | GetSensorBinaryCommand => onGetSensorBinary nodeId callbackId
  | GetNotificationCommand notificationType => onGetNotification nodeId callbackId notificationType
  | GetMeterCommand scale => onGetMeter nodeId callbackId scale
  | SetColorSwitchCommand components duration => onSetColorSwitch nodeId callbackId components duration
  | GetColorSwitchCommand componentId => onGetColorSwitch nodeId callbackId componentId
  | SetDoorLockCommand mode => onSetDoorLock nodeId callbackId mode
  | GetDoorLockCommand => onGetDoorLock nodeId callbackId
  | SetUserCodeCommand userIdentifier userIdStatus userCode => onSetUserCode nodeId callbackId userIdentifier userIdStatus userCode
  | GetUserCodeCommand userIdentifier => onGetUserCode nodeId callbackId userIdentifier
  | GetUserCodeCountCommand => onGetUserCodeCount nodeId callbackId
  | SetThermostatModeCommand mode => onSetThermostatMode nodeId callbackId mode
  | GetThermostatModeCommand => onGetThermostatMode nodeId callbackId
  | SetThermostatSetpointCommand setpointType precision scale value => onSetThermostatSetpoint nodeId callbackId setpointType precision scale value
  | GetThermostatSetpointCommand setpointType => onGetThermostatSetpoint nodeId callbackId setpointType
  | GetThermostatOperatingStateCommand => onGetThermostatOperatingState nodeId callbackId
  | SetThermostatFanModeCommand mode off => onSetThermostatFanMode nodeId callbackId mode off
  | GetThermostatFanModeCommand => onGetThermostatFanMode nodeId callbackId
  | GetManufacturerSpecificCommand => onGetManufacturerSpecific nodeId callbackId
  | GetZWavePlusInfoCommand => onGetZWavePlusInfo nodeId callbackId
  | GetNodeVersionCommand => onGetNodeVersion nodeId callbackId
  | SetWakeUpIntervalCommand seconds controllerNodeId => onSetWakeUpInterval nodeId callbackId seconds controllerNodeId
  | GetWakeUpIntervalCommand => onGetWakeUpInterval nodeId callbackId
  | SendWakeUpNoMoreInformationCommand => onSendWakeUpNoMoreInformation nodeId callbackId
  | SendDataCommand payload => onSendData nodeId callbackId payload
  | SetConfigurationCommand parameter size value => onSetConfiguration nodeId callbackId parameter size value
  | GetConfigurationCommand parameter => onGetConfiguration nodeId callbackId parameter
  | SetAssociationCommand groupId members => onSetAssociation nodeId callbackId groupId members
  | RemoveAssociationCommand groupId members => onRemoveAssociation nodeId callbackId groupId members
  | GetAssociationCommand groupId => onGetAssociation nodeId callbackId groupId
  | SetMultichannelAssociationCommand groupId nodeMembers endpointMembers => onSetMultichannelAssociation nodeId callbackId groupId nodeMembers endpointMembers
  | RemoveMultichannelAssociationCommand groupId nodeMembers endpointMembers => onRemoveMultichannelAssociation nodeId callbackId groupId nodeMembers endpointMembers
  | GetMultichannelAssociationCommand groupId => onGetMultichannelAssociation nodeId callbackId groupId
  | GetMultichannelAssociationGroupingsCommand => onGetMultichannelAssociationGroupings nodeId callbackId
  | GetAssociationGroupingsCommand => onGetAssociationGroupings nodeId callbackId
  end.

(** The command-class frame of a command. *)
Definition framePayload (cmd : CcCommand) : list Z :=
  match cmd with
  | SetSwitchBinaryCommand turnOn => BinarySwitch_encodeSet turnOn
  | GetSwitchBinaryCommand => BinarySwitch_encodeGet
  | SetIndicatorCommand value => Indicator_encodeSet value
  | GetIndicatorCommand => Indicator_encodeGet
  | SetBasicCommand value => Basic_encodeSet value
  | SendSupervisedCommand sessionId ccData => Supervision.encodeGet sessionId false ccData
  | SendDataToEndpointCommand endpoint ccData => MultiChannel.encodeEncap 0 endpoint ccData
  | GetMultiChannelEndpointsCommand => MultiChannel.encodeEndpointGet
  | GetMultiChannelCapabilityCommand endpoint => MultiChannel.encodeCapabilityGet endpoint
  | GetBasicCommand => Basic_encodeGet
  | SetMultilevelSwitchCommand value duration => MultilevelSwitch_encodeSet value duration
  | GetMultilevelSwitchCommand => MultilevelSwitch_encodeGet
  | GetBatteryCommand => Battery_encodeGet
  | GetSensorMultilevelCommand => SensorMultilevel_encodeGet
  | GetSensorBinaryCommand => SensorBinary_encodeGet
  | GetNotificationCommand notificationType => Notification.encodeGet notificationType
  | GetMeterCommand scale => Meter.encodeGet scale
  | SetColorSwitchCommand components duration => ColorSwitch.encodeSet components duration
  | GetColorSwitchCommand componentId => ColorSwitch.encodeGet componentId
  | SetDoorLockCommand mode => DoorLock_encodeSet mode
  | GetDoorLockCommand => DoorLock_encodeGet
  | SetUserCodeCommand userIdentifier userIdStatus userCode => UserCode.encodeSet userIdentifier userIdStatus userCode
  | GetUserCodeCommand userIdentifier => UserCode_encodeGet userIdentifier
  | GetUserCodeCountCommand => UserCode_encodeUsersNumberGet
  | SetThermostatModeCommand mode => ThermostatMode_encodeSet mode
  | GetThermostatModeCommand => ThermostatMode_encodeGet
  | SetThermostatSetpointCommand setpointType precision scale value => Thermostat.encodeSetpointSet setpointType precision scale value
  | GetThermostatSetpointCommand setpointType => Thermostat.encodeSetpointGet setpointType
  | GetThermostatOperatingStateCommand => ThermostatOperatingState_encodeGet
  | SetThermostatFanModeCommand mode off => ThermostatFanMode_encodeSet mode off
  | GetThermostatFanModeCommand => ThermostatFanMode_encodeGet
  | GetManufacturerSpecificCommand => ManufacturerSpecific_encodeGet
  | GetZWavePlusInfoCommand => ZWavePlusInfo_encodeGet
  | GetNodeVersionCommand => NodeVersion_encodeGet
  | SetWakeUpIntervalCommand seconds controllerNodeId => WakeUp.encodeIntervalSet seconds controllerNodeId
  | GetWakeUpIntervalCommand => WakeUp_encodeGet
  | SendWakeUpNoMoreInformationCommand => WakeUp_encodeNoMoreInformation
  | SendDataCommand payload => payload
  | SetConfigurationCommand parameter size value => Configuration.encodeSet parameter size value
  | GetConfigurationCommand parameter => Configuration.encodeGet parameter
  | SetAssociationCommand groupId members => Association.encodeSet groupId members
  | RemoveAssociationCommand groupId members => Association.encodeRemove groupId members
  | GetAssociationCommand groupId => Association.encodeGet groupId
  | SetMultichannelAssociationCommand groupId nodeMembers endpointMembers => MultichannelAssociation.encodeSet groupId nodeMembers (toCodecEndpoints endpointMembers)
  | RemoveMultichannelAssociationCommand groupId nodeMembers endpointMembers => MultichannelAssociation.encodeRemove groupId nodeMembers (toCodecEndpoints endpointMembers)
  | GetMultichannelAssociationCommand groupId => MultichannelAssociation.encodeGet groupId
  | GetMultichannelAssociationGroupingsCommand => MultichannelAssociation.encodeGroupingsGet
  | GetAssociationGroupingsCommand => Association.encodeGroupingsGet
  end.
End Commands.

(** ** Frames from the dongle *)

Definition publishNodeStatus (c : NodeStatusCallback) : Daemon -> Daemon :=
  publish (if ns_commandId c =? CMD_REMOVE_NODE_FROM_NETWORK then NodeExclusionStatus c else NodeInclusionStatus c).

(** The node and session of the removal in flight, zero when there is none. *)
Definition removalNode (d : Daemon) : Z :=
  match activeFailedNodeRemoval d with Some p => rf_nodeId p | None => 0 end.
Definition removalSession (d : Daemon) : Z :=
  match activeFailedNodeRemoval d with Some p => rf_sessionId p | None => 0 end.

Section Frames.
Context `{Oob} `{SqliteEnv}.

(** [None] when the frame is not handled here. *)
Definition handleRemoveFailedNodeFrame (f : ZwaveDataFrame) (d : Daemon) : option Daemon :=
  match decodeRemoveFailedNodeResponse f with
  | Some status =>
      let d := publish (RemoveFailedNodeStatus (removalNode d) (removalSession d) PhaseResponse status) d in
      Some (if negb (status =? RESPONSE_STARTED) then withRemoval None d else d)
  | None =>
      match decodeRemoveFailedNodeCallback f with
      | Some cb =>
          let nodeId := removalNode d in
          let d := publish (RemoveFailedNodeStatus nodeId (rfc_sessionId cb) PhaseCallback (rfc_status cb)) d in
          let d := if (rfc_status cb =? CALLBACK_REMOVED) && negb (nodeId =? 0)
                   then onRegistry (Registry.remove nodeId) d else d in
          Some (withRemoval None d)
      | None => None
      end
  end.

Definition handleRequestNodeInfoResponse (f : ZwaveDataFrame) (d : Daemon) : option Daemon :=
  match decodeRequestNodeInfoResponse f with
  | None => None
  | Some accepted =>
      let pending := activeRequestNodeInfo d in
      Some (withNodeInfo None (publish (RequestNodeInfoStatus
        (match pending with Some p => ri_nodeId p | None => 0 end)
        (match pending with Some p => ri_sessionId p | None => 0 end) accepted) d))
  end.

Definition handleApplicationUpdateFrame (f : ZwaveDataFrame) (d : Daemon) : option Daemon :=
  match decodeApplicationUpdate f with
  | None => None
  | Some u =>
      let d := publish (NodeInfoUpdate u) d in
      Some (if (au_status u =? STATUS_NODE_INFO_RECEIVED) && negb (au_nodeId u =? 0) then
              let d := onRegistry (Registry.updateDeviceClass (au_nodeId u) (au_basic u) (au_generic u) (au_specific u)) d in
              if negb (length (au_commandClasses u) =? 0)%nat
              then onRegistry (Registry.updateCommandClasses (au_nodeId u) (au_commandClasses u)) d else d
            else d)
  end.

Definition hasNodeInfo (c : NodeStatusCallback) : bool :=
  negb (length (ns_commandClasses c) =? 0)%nat || negb (ns_basic c =? 0) || negb (ns_generic c =? 0)
  || negb (ns_specific c =? 0).

(** The registration of an included node, or the removal of an excluded one. *)
Definition recordNode (c : NodeStatusCallback) (d : Daemon) : Daemon :=
  if (ns_commandId c =? CMD_ADD_NODE_TO_NETWORK) && negb (ns_nodeId c =? 0) then
    if hasNodeInfo c then
      let d := onRegistry (Registry.add (Registry.included (u8 (ns_nodeId c))
                 (Registry.mkClass (ns_basic c) (ns_generic c) (ns_specific c)) (ns_commandClasses c))) d in
      withInclusion (Some (u8 (ns_nodeId c), ns_commandClasses c)) d
    else d
  else if (ns_commandId c =? CMD_REMOVE_NODE_FROM_NETWORK) && negb (ns_nodeId c =? 0)
          && ((ns_status c =? STATUS_PROTOCOL_DONE) || (ns_status c =? STATUS_COMPLETED)) then
    onRegistry (Registry.remove (u8 (ns_nodeId c))) d
  else d.

(** The end of an inclusion or exclusion session. *)
Definition finishSession (c : NodeStatusCallback) (d : Daemon) : Daemon :=
  if isTerminalStatus (ns_commandId c) (ns_status c) then
    let d := if ns_commandId c =? CMD_ADD_NODE_TO_NETWORK then
               match pendingInclusion d with
               | Some (nodeId, ccs) => publish (NodeIncluded nodeId ccs) d
               | None => d
               end
             else d in
    publish (SessionStatus false 0 0) (withTracker (session_end (tracker d)) (withInclusion None d))
  else d.

Definition handleNodeCallback (c : NodeStatusCallback) (d : Daemon) : Daemon :=
  finishSession c (recordNode c (publishNodeStatus c d)).

Definition handleIncomingFrame (f : ZwaveDataFrame) (d : Daemon) : Daemon :=
  match decodeSendDataCallback f with
  | Some cb => publish (SendDataCallbackEvent (cb_callbackId cb) (cb_txStatus cb)) d
  | None =>
  match decodeSendDataMultiCallback f with
  | Some cb => publish (SendDataCallbackEvent (cb_callbackId cb) (cb_txStatus cb)) d
  | None =>
  match decodeApplicationCommand f with
  | Some c => publish (ApplicationCommandEvent c) d
  | None =>
  match handleRemoveFailedNodeFrame f d with
  | Some d => d
  | None =>
  match handleRequestNodeInfoResponse f d with
  | Some d => d
  | None =>
  match handleApplicationUpdateFrame f d with
  | Some d => d
  | None =>
  match decodeNodeCallback f false with
  | Some c => handleNodeCallback c d
  | None => d
  end end end end end end end.

(** The gate of [runConnectedSession]'s handler, then [handleIncomingFrame]. *)
Definition clearGate (f : ZwaveDataFrame) (d : Daemon) : Daemon :=
  match pendingSendData d with
  | None => d
  | Some id =>
      match (match decodeSendDataCallback f with Some cb => Some cb | None => decodeSendDataMultiCallback f end) with
      | Some cb => if cb_callbackId cb =? id then withGate None d else d
      | None => d
      end
  end.

Definition onFrame (f : ZwaveDataFrame) (d : Daemon) : Daemon := handleIncomingFrame f (clearGate f d).
End Frames.

End Thread.

Import Thread.

(** ** Commands never send in the clear what must be encrypted *)

(** A request that may travel as it is: nothing a node with a security scheme could
    take for application data. *)
Definition plain_ok (r : Registry.State) (q : Request) : Prop :=
  match q with
  | SendData s => needsSecurity (sd_data s) = false \/ Registry.isSecure (sd_nodeId s) r = false
  | SendDataMulti s => Forall (fun n => Registry.isSecure n r = false) (sm_nodeIds s) /\ sm_nodeIds s <> [] /\ sm_data s <> []
  | _ => True
  end.

(** What reaches the thread: commands and frames. *)
Inductive Input :=
| Command (nodeId callbackId : Z) (cmd : CcCommand)
| MulticastCommand (nodeIds payload : list Z) (callbackId : Z)
| AddNodeCommand (r : AddNodeRequest)
| RemoveNodeCommand (r : RemoveNodeRequest)
| RemoveFailedNodeCommand (nodeId sessionId : Z)
| RequestNodeInfoCommand (nodeId sessionId : Z)
| DongleStatus (connected : bool) (ttyPath : list Z)
| Frame (f : ZwaveDataFrame).

Definition input `{Oob} `{SqliteEnv} `{GeneratedEncoders} (i : Input) : Daemon -> Daemon :=
  match i with
  | Command n cb cmd => onCommand n cb cmd
  | MulticastCommand ns p cb => onSendDataMulticast ns p cb
  | AddNodeCommand r => onAddNodeCommand r
  | RemoveNodeCommand r => onRemoveNodeCommand r
  | RemoveFailedNodeCommand n s => onRemoveFailedNodeCommand n s
  | RequestNodeInfoCommand n s => onRequestNodeInfoCommand n s
  | DongleStatus c p => onDongleStatus c p
  | Frame f => onFrame f
  end.

(** Every command funnels through [pushSendData] with its frame. *)
Lemma onCommand_push `{GeneratedEncoders} n cb cmd d :
  onCommand n cb cmd d = pushSendData n cb (framePayload cmd) d.
Proof. by destruct cmd. Qed.

Lemma onRegistry_queue f d : queue (onRegistry f d) = queue d.
Proof. unfold onRegistry. by destruct (f (registry d)). Qed.

(** Case analysis on everything a frame handler branches on. *)
Ltac frame_cases :=
  repeat match goal with
  | |- context [match ?x with _ => _ end] => destruct x eqn:?
  end.

Lemma finishSession_queue c d : queue (finishSession c d) = queue d.
Proof. unfold finishSession. by frame_cases. Qed.

Lemma recordNode_queue `{SqliteEnv} c d : queue (recordNode c d) = queue d.
Proof. unfold recordNode. frame_cases; cbn; by rewrite ?onRegistry_queue. Qed.

Lemma handleRemoveFailedNodeFrame_queue `{Oob} `{SqliteEnv} f d d' :
  handleRemoveFailedNodeFrame f d = Some d' -> queue d' = queue d.
Proof.
  unfold handleRemoveFailedNodeFrame.
  frame_cases; intros [= <-]; cbn; by rewrite ?onRegistry_queue.
Qed.

Lemma handleRequestNodeInfoResponse_queue `{Oob} f d d' :
  handleRequestNodeInfoResponse f d = Some d' -> queue d' = queue d.
Proof. unfold handleRequestNodeInfoResponse. destruct (decodeRequestNodeInfoResponse f); by intros [= <-]. Qed.

Lemma handleApplicationUpdateFrame_queue `{Oob} `{SqliteEnv} f d d' :
  handleApplicationUpdateFrame f d = Some d' -> queue d' = queue d.
Proof.
  unfold handleApplicationUpdateFrame. destruct (decodeApplicationUpdate f); [|done].
  frame_cases; intros [= <-]; by rewrite ?onRegistry_queue.
Qed.

Lemma onFrame_queue `{Oob} `{SqliteEnv} f d : queue (onFrame f d) = queue d.
Proof.
  unfold onFrame. assert (queue (clearGate f d) = queue d) as <-.
  { unfold clearGate. by frame_cases. }
  generalize (clearGate f d) as d'. clear d. intros d. unfold handleIncomingFrame.
  destruct (decodeSendDataCallback f); [done|]. destruct (decodeSendDataMultiCallback f); [done|].
  destruct (decodeApplicationCommand f); [done|].
  destruct (handleRemoveFailedNodeFrame f d) eqn:E1; [by eapply handleRemoveFailedNodeFrame_queue|].
  destruct (handleRequestNodeInfoResponse f d) eqn:E2; [by eapply handleRequestNodeInfoResponse_queue|].
  destruct (handleApplicationUpdateFrame f d) eqn:E3; [by eapply handleApplicationUpdateFrame_queue|].
  destruct (decodeNodeCallback f false) as [c|]; [|done]. unfold handleNodeCallback.
  by rewrite finishSession_queue, recordNode_queue.
Qed.

(** C3: whatever command or frame arrives, a request it queues never carries
    application data in the clear to a node the registry knows as secure: a command
    for such a node is published, whole and once, to the orchestrator of the node's
    security class, and a multicast with one secure target is refused with a failure
    callback. *)
Theorem secure_traffic_never_plain `{Oob} `{SqliteEnv} `{GeneratedEncoders} i d :
  (exists added, queue (input i d) = queue d ++ added /\ Forall (plain_ok (registry d)) added) /\
  (forall n cb cmd, i = Command n cb cmd -> Registry.isSecure n (registry d) = true ->
     needsSecurity (framePayload cmd) = true ->
     queue (input i d) = queue d /\
     bus (input i d) = bus d ++ [if isS2 (Registry.securitySchemeOf n (registry d))
       then SecureS2SendRequest n (framePayload cmd) cb else SecureSendRequest n (framePayload cmd) cb]) /\
  (forall ns p cb n, i = MulticastCommand ns p cb -> n ∈ ns -> Registry.isSecure n (registry d) = true ->
     queue (input i d) = queue d /\ bus (input i d) = bus d ++ [SendDataCallbackEvent cb TRANSMIT_COMPLETE_FAIL]).
Proof.
  split_and!.
  - destruct i as [n cb cmd|ns p cb|r|r|n s|n s|c p|f]; cbn [input].
    + rewrite onCommand_push. unfold pushSendData.
      destruct (needsSecurity _) eqn:Hd; [destruct (Registry.isSecure n _) eqn:Hs|]; cbn [andb].
      * exists []. by rewrite app_nil_r.
      * eexists. split; [done|]. constructor; [by right|done].
      * eexists. split; [done|]. constructor; [by left|done].
    + unfold onSendDataMulticast. destruct ns as [|n ns]; [exists []; by rewrite app_nil_r|].
      destruct p as [|x p]; [exists []; by rewrite app_nil_r|]. cbn [length Nat.eqb orb].
      destruct (List.filter _ (n :: ns)) as [|s l] eqn:Hf; [|exists []; by rewrite app_nil_r].
      eexists. split; [done|]. constructor; [|done]. split; [|done]. apply Forall_forall. intros m Hm.
      destruct (Registry.isSecure m (registry d)) eqn:Hs; [|done].
      assert (Hin : In m (List.filter (fun n => Registry.isSecure n (registry d)) (n :: ns)))
        by (apply filter_In; by rewrite <-list_elem_of_In). by rewrite Hf in Hin.
    + eexists. split; [done|]. by constructor.
    + eexists. split; [done|]. by constructor.
    + eexists. split; [done|]. by constructor.
    + eexists. split; [done|]. by constructor.
    + exists []. by rewrite app_nil_r.
    + exists []. by rewrite app_nil_r, onFrame_queue.
  - intros n cb cmd -> Hs Hd. cbn [input]. rewrite onCommand_push. unfold pushSendData. by rewrite Hs, Hd.
  - intros ns p cb n -> Hn Hs. cbn [input]. unfold onSendDataMulticast.
    destruct (_ || _); [done|].
    destruct (List.filter _ ns) as [|s l] eqn:Hf; [|done].
    assert (Hin : In n (List.filter (fun n => Registry.isSecure n (registry d)) ns))
      by (apply filter_In; by rewrite <-list_elem_of_In). by rewrite Hf in Hin.
Qed.

(** Concrete encoders, for the examples. *)
Definition exampleEncoders : GeneratedEncoders := {|
  BinarySwitch_encodeSet on := [0x25; 1; if on then 0xFF else 0]; BinarySwitch_encodeGet := [0x25; 2];
  Indicator_encodeSet v := [0x87; 1; v]; Indicator_encodeGet := [0x87; 2];
  Basic_encodeSet v := [0x20; 1; v]; Basic_encodeGet := [0x20; 2];
  MultilevelSwitch_encodeSet v t := [0x26; 1; v; t]; MultilevelSwitch_encodeGet := [0x26; 2];
  Battery_encodeGet := [0x80; 2]; SensorMultilevel_encodeGet := [0x31; 4]; SensorBinary_encodeGet := [0x30; 2];
  DoorLock_encodeSet m := [0x62; 1; m]; DoorLock_encodeGet := [0x62; 2];
  UserCode_encodeGet u := [0x63; 2; u]; UserCode_encodeUsersNumberGet := [0x63; 4];
  ThermostatMode_encodeSet m := [0x40; 1; m]; ThermostatMode_encodeGet := [0x40; 2];
  ThermostatOperatingState_encodeGet := [0x42; 2];
  ThermostatFanMode_encodeSet m _ := [0x44; 1; m]; ThermostatFanMode_encodeGet := [0x44; 2];
  ManufacturerSpecific_encodeGet := [0x72; 4]; ZWavePlusInfo_encodeGet := [0x5E; 1]; NodeVersion_encodeGet := [0x86; 0x11];
  WakeUp_encodeGet := [0x84; 5]; WakeUp_encodeNoMoreInformation := [0x84; 8] |}.

(** A daemon on a network with node 9 secured by S2 and node 4 not. *)
Definition exampleRegistry : Registry.State :=
  Registry.mkState
    (<[9 := Registry.mkInfo 9 (Registry.mkClass 4 0x40 3) [0x62] Registry.SCHEME_S2_AUTHENTICATED Registry.noIdentity
              Registry.noVersion Registry.noEndpoints Registry.noZWavePlus]>
       {[4 := Registry.included 4 (Registry.mkClass 4 0x10 1) [0x25]]})
    (Some "C0FFEE00"%string) (mkDb true ∅ 0).
Definition exampleDaemon : Daemon :=
  mkDaemon (Some [47]) true [] None None (Some 1) None None None exampleRegistry [].

Lemma secure_traffic_never_plain_witness :
  bus (input (H := 0) (H0 := alwaysRuns) (H1 := exampleEncoders) (Command 9 3 (SetDoorLockCommand 0xFF)) exampleDaemon)
  = [SecureS2SendRequest 9 [0x62; 1; 0xFF] 3].
Proof.
  exact (proj2 (proj1 (proj2 (secure_traffic_never_plain (H := 0) (H0 := alwaysRuns) (H1 := exampleEncoders)
    (Command 9 3 (SetDoorLockCommand 0xFF)) exampleDaemon)) 9 3 (SetDoorLockCommand 0xFF) eq_refl eq_refl eq_refl)).
Defined.

(** ** Inclusion and exclusion as the dongle reports them *)

(** The events of a run of frame callbacks after those before. *)
Definition callbacks `{SqliteEnv} (cs : list NodeStatusCallback) (d : Daemon) : Daemon :=
  foldl (fun d c => handleNodeCallback c d) d cs.

(** A callback of an inclusion in progress. *)
Definition adding (c : NodeStatusCallback) : Prop := ns_commandId c = CMD_ADD_NODE_TO_NETWORK.
Definition progressing (c : NodeStatusCallback) : Prop :=
  adding c /\ isTerminalStatus (ns_commandId c) (ns_status c) = false.

(** The last node information seen. *)
Definition lastInfo (cs : list NodeStatusCallback) (before : option (Z * list Z)) : option (Z * list Z) :=
  foldl (fun p c => if negb (ns_nodeId c =? 0) && hasNodeInfo c then Some (u8 (ns_nodeId c), ns_commandClasses c) else p)
    before cs.

Definition isIncluded (e : Event) : Prop := match e with NodeIncluded _ _ => True | _ => False end.
#[local] Instance isIncluded_dec e : Decision (isIncluded e).
Proof. destruct e; cbn; apply _. Defined.

Lemma onRegistry_bus f d : exists l, bus (onRegistry f d) = bus d ++ (NodeListChanged <$> l).
Proof. unfold onRegistry. destruct (f (registry d)) as [l r]. by exists l. Qed.

Lemma onRegistry_inclusion f d : pendingInclusion (onRegistry f d) = pendingInclusion d.
Proof. unfold onRegistry. by destruct (f (registry d)). Qed.

Lemma onRegistry_tracker f d : tracker (onRegistry f d) = tracker d.
Proof. unfold onRegistry. by destruct (f (registry d)). Qed.

Lemma filter_listChanged (l : list (list Registry.NodeEntry)) : filter isIncluded (NodeListChanged <$> l) = [].
Proof. by induction l. Qed.

Lemma recordNode_included `{SqliteEnv} c d :
  adding c ->
  filter isIncluded (bus (recordNode c d)) = filter isIncluded (bus d) /\
  pendingInclusion (recordNode c d) = lastInfo [c] (pendingInclusion d).
Proof.
  unfold adding, recordNode. intros ->. rewrite Z.eqb_refl. cbn [andb lastInfo foldl].
  destruct (negb (ns_nodeId c =? 0)) eqn:Hn; cbn [andb].
  - destruct (hasNodeInfo c) eqn:Hi; [|done]. cbn.
    match goal with |- context [onRegistry ?f d] => destruct (onRegistry_bus f d) as [l ->] end.
    by rewrite filter_app, filter_listChanged, app_nil_r.
  - change (CMD_ADD_NODE_TO_NETWORK =? CMD_REMOVE_NODE_FROM_NETWORK) with false. done.
Qed.

Lemma handle_progressing `{SqliteEnv} c d :
  progressing c ->
  filter isIncluded (bus (handleNodeCallback c d)) = filter isIncluded (bus d) /\
  pendingInclusion (handleNodeCallback c d) = lastInfo [c] (pendingInclusion d).
Proof.
  intros [Ha Ht]. unfold handleNodeCallback, finishSession. rewrite Ht.
  destruct (recordNode_included c (publishNodeStatus c d) Ha) as [-> ->].
  unfold publishNodeStatus, publish. cbn. unfold adding in Ha. rewrite Ha.
  change (CMD_ADD_NODE_TO_NETWORK =? CMD_REMOVE_NODE_FROM_NETWORK) with false. cbn.
  by rewrite filter_app, app_nil_r.
Qed.

Lemma callbacks_progressing `{SqliteEnv} cs d :
  Forall progressing cs ->
  filter isIncluded (bus (callbacks cs d)) = filter isIncluded (bus d) /\
  pendingInclusion (callbacks cs d) = lastInfo cs (pendingInclusion d).
Proof.
  intros Hc. revert d. induction Hc as [|c cs Hc _ IH]; intros d; [done|]. cbn [callbacks lastInfo foldl].
  destruct (IH (handleNodeCallback c d)) as [H1 H2]. destruct (handle_progressing c d Hc) as [H3 H4].
  unfold callbacks, lastInfo in *. by rewrite H1, H2, H3, H4.
Qed.

(** An inclusion session announces its node exactly once, at the callback that ends
    it, with the last node information the dongle gave; the session is closed and
    nothing is left for the next one.  The ending status is not looked at: a session
    that ends in failure (0x07) or that was refused (0x23) after the node sent its
    information is announced as a completed inclusion too. *)
Theorem inclusion_announced_once `{SqliteEnv} cs c d :
  Forall progressing cs -> adding c -> isTerminalStatus (ns_commandId c) (ns_status c) = true ->
  let d' := handleNodeCallback c (callbacks cs d) in
  filter isIncluded (bus d') = filter isIncluded (bus d) ++
    (match lastInfo (cs ++ [c]) (pendingInclusion d) with Some (n, ccs) => [NodeIncluded n ccs] | None => [] end) /\
  last (bus d') = Some (SessionStatus false 0 0) /\ tracker d' = None /\ pendingInclusion d' = None.
Proof.
  intros Hcs Ha Ht. cbn zeta. destruct (callbacks_progressing cs d Hcs) as [H1 H2].
  unfold handleNodeCallback, finishSession. rewrite Ht. unfold adding in Ha.
  destruct (recordNode_included c (publishNodeStatus c (callbacks cs d)) Ha) as [H3 H4].
  rewrite Ha in *. rewrite Z.eqb_refl. cbn [bus publish withTracker withInclusion tracker pendingInclusion].
  split_and!; [|by rewrite last_snoc|done|done].
  assert (Hp : pendingInclusion (publishNodeStatus c (callbacks cs d)) = pendingInclusion (callbacks cs d)) by done.
  assert (Hf : filter isIncluded (bus (publishNodeStatus c (callbacks cs d))) = filter isIncluded (bus d)).
  { unfold publishNodeStatus, publish. cbn. rewrite Ha.
    change (CMD_ADD_NODE_TO_NETWORK =? CMD_REMOVE_NODE_FROM_NETWORK) with false. cbn.
    by rewrite filter_app, app_nil_r, H1. }
  rewrite H4, Hp, H2. unfold lastInfo. rewrite foldl_app. cbn [foldl].
  match goal with |- _ = _ ++ match ?x with _ => _ end => destruct x as [[n ccs]|] end;
    cbn [bus publish]; rewrite !filter_app, H3, Hf; cbn; by rewrite ?app_nil_r.
Qed.

Lemma inclusion_announced_once_witness :
  let info := mkNodeStatus CMD_ADD_NODE_TO_NETWORK 1 0x03 12 4 0x10 1 [0x25; 0x86] in
  let failed := mkNodeStatus CMD_ADD_NODE_TO_NETWORK 1 STATUS_FAILED 0 0 0 0 [] in
  filter isIncluded (bus (handleNodeCallback (H0 := alwaysRuns) failed (callbacks (H := alwaysRuns) [info] exampleDaemon)))
  = [NodeIncluded 12 [0x25; 0x86]].
Proof.
  cbn zeta. refine (proj1 (inclusion_announced_once (H := alwaysRuns)
    [mkNodeStatus CMD_ADD_NODE_TO_NETWORK 1 0x03 12 4 0x10 1 [0x25; 0x86]]
    (mkNodeStatus CMD_ADD_NODE_TO_NETWORK 1 STATUS_FAILED 0 0 0 0 []) exampleDaemon _ _ _)); try by vm_compute.
  by repeat constructor.
Defined.
