(* ===== verification/ProtocolSession.v ===== *)
(** * The protocol thread: the loop that drives the dongle

    [zwave-protocol/ProtocolThread.cpp]: sending each request over the transport of
    [FrameTransport] while frames keep arriving, the start-up introspection, and the
    session on an open port.  The world of the transport is the port's with the
    daemon's state next to it: the transport's handler changes the latter. *)

From Stdlib Require Import String.
From S2P Require Import Prelude DataFrame FrameTransport HostApi CommandClasses Sqlite NodeRegistry ProtocolThread.
From S2P Require Import PendingQueue PolicyRegister SceneStore NodeStores.
From stdpp Require Import gmap strings.
#[local] Open Scope Z_scope.

Module Session.
Import Thread.

Definition IDLE_PUMP_TIMEOUT_MS : Z := 100.
Definition REQUEST_WAIT_TIMEOUT_MS : Z := 100.
Definition INTROSPECTION_TIMEOUT_MS : Z := 2000.
Definition SEND_DATA_CALLBACK_TIMEOUT_MS : Z := 5000.
Definition SEND_DATA_NO_CALLBACK_DELAY_MS : Z := 300.

(** What the capturing handler of [introspectDongle] fills in. *)
Record Slots := mkSlots {
  version : option VersionResponse;
  identity : option MemoryIdResponse;
  initData : option InitDataResponse;
  nodeProtocolInfo : option NodeProtocolInfoResponse }.
Definition noSlots : Slots := mkSlots None None None None.

(** The port (with its clock), the daemon, and the slots. *)
Record World (P : Type) := mkWorld { port : P; daemon : Daemon; slots : Slots }.
Arguments mkWorld {P} _ _ _.
Arguments port {P} _.
Arguments daemon {P} _.
Arguments slots {P} _.

Definition onPort {P A} (r : A * P) (w : World P) : A * World P := (r.1, mkWorld r.2 (daemon w) (slots w)).
Definition onDaemon {P} (f : Daemon -> Daemon) (w : World P) : World P := mkWorld (port w) (f (daemon w)) (slots w).

#[global] Instance worldIO {P} `{SerialIO P} : SerialIO (World P) := {
  writeAll l w := onPort (writeAll l (port w)) w;
  readBytes n ms w := onPort (readBytes n ms (port w)) w;
  flushInput w := mkWorld (flushInput (port w)) (daemon w) (slots w);
  sleep_for ms w := mkWorld (sleep_for ms (port w)) (daemon w) (slots w);
  clock_now w := onPort (clock_now (port w)) w }.

#[global] Instance worldLaws {P} `{SerialLaws P} : SerialLaws (World P).
Proof.
  refine (@Build_SerialLaws _ _ (fun w => clock (port w)) _ _ _ _ _); intros; cbn.
  - apply readBytes_size.
  - apply readBytes_bytes.
  - by apply clock_read.
  - apply clock_write.
  - apply clock_observed.
Defined.

Section Driving.
Context `{Oob} `{SqliteEnv} {P : Type} `{SerialIO P}.

(** The handler [runConnectedSession] gives its transport. *)
Definition sessionHandler (f : ZwaveDataFrame) (w : World P) : World P := onDaemon (onFrame f) w.

(** [while (pendingSendData.has_value() && Clock::now() < deadline && running)] *)
Fixpoint awaitCallback (fuel : nat) (deadline : Z) (t : Transport) (w : World P) : option (Transport * World P) :=
  match fuel with
  | O => None
  | S fuel =>
      match pendingSendData (daemon w) with
      | None => Some (t, w)
      | Some _ =>
          let '(now, w) := clock_now w in
          if (now <? deadline) && running (daemon w) then
            let '(_, t, w) := pumpOnce (Some sessionHandler) IDLE_PUMP_TIMEOUT_MS t w in
            awaitCallback fuel deadline t w
          else Some (t, w)
      end
  end.

(** What follows a [SendData] that went out: wait for its callback, or a fixed
    delay when none was asked for. *)
Definition throttle (fuel : nat) (callbackId : Z) (t : Transport) (w : World P) : option (Transport * World P) :=
  if negb (callbackId =? 0) then
    let w := onDaemon (withGate (Some callbackId)) w in
    let '(now, w) := clock_now w in
    match awaitCallback fuel (now + SEND_DATA_CALLBACK_TIMEOUT_MS * NS_PER_MS) t w with
    | None => None
    | Some (t, w) => Some (t, onDaemon (withGate None) w)
    end
  else Some (t, sleep_for SEND_DATA_NO_CALLBACK_DELAY_MS w).

Definition dispatchRequest (fuel : nat) (r : Request) (t : Transport) (w : World P) : option (Transport * World P) :=
  match r with
  | AddNode r =>
      let w := if negb (an_mode r =? ADD_MODE_STOP) && negb (an_mode r =? ADD_MODE_STOP_REPLICATION)
               then onDaemon (fun d => publish (SessionStatus true CMD_ADD_NODE_TO_NETWORK (an_sessionId r))
                      (withTracker (session_begin (tracker d) CMD_ADD_NODE_TO_NETWORK (an_sessionId r)) d)) w
               else w in
      match sendRequest (Some sessionHandler) fuel (encodeAddNode r) t w with
      | None => None
      | Some (_, t, w) => Some (t, w)
      end
  | RemoveNode r =>
      let w := if negb (rn_mode r =? REMOVE_MODE_STOP)
               then onDaemon (fun d => publish (SessionStatus true CMD_REMOVE_NODE_FROM_NETWORK (rn_sessionId r))
                      (withTracker (session_begin (tracker d) CMD_REMOVE_NODE_FROM_NETWORK (rn_sessionId r)) d)) w
               else w in
      match sendRequest (Some sessionHandler) fuel (encodeRemoveNode r) t w with
      | None => None
      | Some (_, t, w) => Some (t, w)
      end
  | RemoveFailedNode r =>
      let w := onDaemon (withRemoval (Some r)) w in
      match sendRequest (Some sessionHandler) fuel (encodeRemoveFailedNode r) t w with
      | None => None
      | Some (true, t, w) => Some (t, w)
      | Some (false, t, w) =>
          Some (t, onDaemon (fun d => publish (RemoveFailedNodeStatus (rf_nodeId r) (rf_sessionId r) PhaseResponse
                     RESPONSE_REMOVE_FAIL) (withRemoval None d)) w)
      end
  | RequestNodeInfo r =>
      let w := onDaemon (withNodeInfo (Some r)) w in
      match sendRequest (Some sessionHandler) fuel (encodeRequestNodeInfo r) t w with
      | None => None
      | Some (true, t, w) => Some (t, w)
      | Some (false, t, w) =>
          Some (t, onDaemon (fun d => publish (RequestNodeInfoStatus (ri_nodeId r) (ri_sessionId r) false)
                     (withNodeInfo None d)) w)
      end
  | SendData r =>
      match sendRequest (Some sessionHandler) fuel (encodeSendData r) t w with
      | None => None
      | Some (true, t, w) => throttle fuel (sd_callbackId r) t w
      | Some (false, t, w) =>
          Some (t, onDaemon (publish (SendDataCallbackEvent (sd_callbackId r) TRANSMIT_COMPLETE_FAIL)) w)
      end
  | SendDataMulti r =>
      match sendRequest (Some sessionHandler) fuel (encodeSendDataMulti r) t w with
      | None => None
      | Some (true, t, w) => throttle fuel (sm_callbackId r) t w
      | Some (false, t, w) =>
          Some (t, onDaemon (publish (SendDataCallbackEvent (sm_callbackId r) TRANSMIT_COMPLETE_FAIL)) w)
      end
  end.

(** One turn of the loop of [runConnectedSession] on an open port; [None] when the
    fuel runs out, the flag tells whether the loop goes on.  [popRequest]'s wait for
    the queue is in the request it finds or does not find. *)
Definition sessionTurn (fuel : nat) (t : Transport) (w : World P) : option (bool * Transport * World P) :=
  if negb (running (daemon w)) then Some (false, t, w) else
  match path (daemon w) with
  | None => Some (false, t, w)
  | Some _ =>
      let (request, d) := popRequest (daemon w) in
      let w := mkWorld (port w) d (slots w) in
      match request with
      | Some r => match dispatchRequest fuel r t w with None => None | Some (t, w) => Some (true, t, w) end
      | None => let '(_, t, w) := pumpOnce (Some sessionHandler) IDLE_PUMP_TIMEOUT_MS t w in Some (true, t, w)
      end
  end.

(** ** Introspection *)

Definition captureFrame (f : ZwaveDataFrame) (s : Slots) : Slots :=
  match decodeVersion f with
  | Some r => mkSlots (Some r) (identity s) (initData s) (nodeProtocolInfo s)
  | None =>
  match decodeMemoryId f with
  | Some r => mkSlots (version s) (Some r) (initData s) (nodeProtocolInfo s)
  | None =>
  match decodeInitData f with
  | Some r => mkSlots (version s) (identity s) (Some r) (nodeProtocolInfo s)
  | None =>
  match decodeNodeProtocolInfo f with
  | Some r => mkSlots (version s) (identity s) (initData s) (Some r)
  | None => s
  end end end end.

Definition captureHandler (f : ZwaveDataFrame) (w : World P) : World P :=
  mkWorld (port w) (daemon w) (captureFrame f (slots w)).

(** The wait for a slot, with its deadline. *)
Fixpoint awaitSlot {A} (slot : Slots -> option A) (fuel : nat) (deadline : Z) (t : Transport) (w : World P)
    : option (Transport * World P) :=
  match fuel with
  | O => None
  | S fuel =>
      match slot (slots w) with
      | Some _ => Some (t, w)
      | None =>
          let '(now, w) := clock_now w in
          if now <? deadline then
            let '(_, t, w) := pumpOnce (Some captureHandler) IDLE_PUMP_TIMEOUT_MS t w in
            awaitSlot slot fuel deadline t w
          else Some (t, w)
      end
  end.

(** [sendAndAwait]: what the slot holds after it, nothing when the request was not
    sent. *)
Definition sendAndAwait {A} (slot : Slots -> option A) (fuel : nat) (request : ZwaveDataFrame) (t : Transport)
    (w : World P) : option (option A * Transport * World P) :=
  match sendRequest (Some captureHandler) fuel request t w with
  | None => None
  | Some (false, t, w) => Some (None, t, w)
  | Some (true, t, w) =>
      let '(now, w) := clock_now w in
      match awaitSlot slot fuel (now + INTROSPECTION_TIMEOUT_MS * NS_PER_MS) t w with
      | None => None
      | Some (t, w) => Some (slot (slots w), t, w)
      end
  end.

Definition bareRequest (commandId : Z) : ZwaveDataFrame := setHeader emptyFrame REQUEST commandId.

Definition fetchNodeProtocolInfo (fuel : nat) (nodeId : Z) (t : Transport) (w : World P) :=
  let s := slots w in
  sendAndAwait nodeProtocolInfo fuel (encodeGetNodeProtocolInfo nodeId) t
    (mkWorld (port w) (daemon w) (mkSlots (version s) (identity s) (initData s) None)).

(** The loop over the nodes of the init data. *)
Fixpoint fetchAll (fuel : nat) (controller : Z) (ids : list Z) (t : Transport) (w : World P)
    : option (list (Z * NodeProtocolInfoResponse) * Transport * World P) :=
  match ids with
  | [] => Some ([], t, w)
  | nodeId :: ids =>
      if nodeId =? controller then fetchAll fuel controller ids t w else
      match fetchNodeProtocolInfo fuel nodeId t w with
      | None => None
      | Some (info, t, w) =>
          match fetchAll fuel controller ids t w with
          | None => None
          | Some (rest, t, w) =>
              Some (match info with
                    | None => rest
                    | Some i => if (npi_basic i =? 0) && (npi_generic i =? 0) && (npi_specific i =? 0) then rest
                                else (nodeId, i) :: rest
                    end, t, w)
          end
      end
  end.

Record IntrospectionResult := mkIntrospection {
  dongleInfo : option (VersionResponse * MemoryIdResponse);
  resultInitData : option InitDataResponse;
  resultProtocolInfo : list (Z * NodeProtocolInfoResponse) }.
Definition noResult : IntrospectionResult := mkIntrospection None None [].

Definition introspectDongle (fuel : nat) (w : World P) : option (IntrospectionResult * World P) :=
  let t := initTransport in
  let w := mkWorld (port w) (daemon w) noSlots in
  match sendAndAwait version fuel (bareRequest CMD_GET_VERSION) t w with
  | None => None
  | Some (None, _, w) => Some (noResult, onDaemon (publish DaemonErrorIntrospection) w)
  | Some (Some _, t, w) =>
  match sendAndAwait identity fuel (bareRequest CMD_MEMORY_GET_ID) t w with
  | None => None
  | Some (None, _, w) => Some (noResult, onDaemon (publish DaemonErrorIntrospection) w)
  | Some (Some _, t, w) =>
  match sendAndAwait initData fuel (bareRequest CMD_SERIAL_API_GET_INIT_DATA) t w with
  | None => None
  | Some (_, t, w) =>
      match version (slots w), identity (slots w) with
      | Some v, Some i =>
          match initData (slots w) with
          | None => Some (mkIntrospection (Some (v, i)) None [], w)
          | Some init =>
              match fetchAll fuel (mi_controllerNodeId i) (id_nodeIds init) t w with
              | None => None
              | Some (infos, _, w) => Some (mkIntrospection (Some (v, i)) (Some init) infos, w)
              end
          end
      | _, _ => Some (noResult, w)
      end
  end end end.

(** ** Bringing a network up *)

(** The stores [zwaveCommunicationThread] binds to the network. *)
Record Stores := mkStores {
  pendingQueue : PendingQueue.Queue.State;
  policies : PolicyRegister.Register.State;
  metadata : NodeStores.Metadata.State;
  scenes : SceneStore.Scene.State }.

Definition bindStores (home : list Z) (s : Stores) : Stores :=
  mkStores (PendingQueue.Queue.setHomeId home (pendingQueue s))
    (PolicyRegister.Register.setHomeId home (policies s))
    (NodeStores.Metadata.setHomeId home (metadata s)) (SceneStore.Scene.setHomeId home (scenes s)).

Definition withController c (d : Daemon) := mkDaemon (path d) (running d) (queue d) (activeFailedNodeRemoval d)
  (activeRequestNodeInfo d) c (pendingInclusion d) (tracker d) (pendingSendData d) (registry d) (bus d).

Definition seedNodes (ids : list Z) (d : Daemon) : Daemon :=
  foldl (fun d nodeId => onRegistry (Registry.seed nodeId) d) d ids.
Definition overlayClasses (infos : list (Z * NodeProtocolInfoResponse)) (d : Daemon) : Daemon :=
  foldl (fun d (r : Z * NodeProtocolInfoResponse) =>
    onRegistry (Registry.updateDeviceClass r.1 (npi_basic r.2) (npi_generic r.2) (npi_specific r.2)) d) d infos.

(** The body of [zwaveCommunicationThread]'s loop between the introspection and the
    session: registry and stores on the network, the in-flight state of an earlier
    session dropped; the session starts with a new tracker and no gate. *)
Definition bringUp (r : IntrospectionResult) (d : Daemon) (s : Stores) : Daemon * Stores :=
  let '(d, s) :=
    match dongleInfo r with
    | None => (d, s)
    | Some (v, i) =>
        let d := withController (Some (mi_controllerNodeId i)) (publish DaemonErrorClear d) in
        let d := onRegistry (Registry.setHomeId (mi_homeId i)) d in
        let s := bindStores (mi_homeId i) s in
        let d := publish (DongleInfo v i) d in
        match resultInitData r with
        | None => (d, s)
        | Some init => (publish (InitData init) (overlayClasses (resultProtocolInfo r) (seedNodes (id_nodeIds init) d)), s)
        end
    end in
  (withGate None (withTracker None (withInclusion None (withNodeInfo None (withRemoval None (clearRequests d))))), s).

End Driving.
End Session.

Import Thread Session.

(** ** Termination *)

Section Termination.
Context `{Oob} `{SqliteEnv} {P : Type} `{L : SerialLaws P}.

Lemma pumpOnce_clock (h : ZwaveDataFrame -> World P -> World P) ms t w :
  (forall f w, clock w <= clock (h f w)) -> clock w < clock (pumpOnce (Some h) ms t w).2.
Proof.
  intros Hh. unfold pumpOnce. pose proof (clock_read READ_CHUNK_SIZE ms w ltac:(unfold READ_CHUNK_SIZE; lia)) as Hr.
  destruct (readBytes READ_CHUNK_SIZE ms w) as [chunk w1]. cbn [snd] in Hr.
  destruct (_ <=? 0)%nat; [done|].
  assert (Hp : forall t w, clock w <= clock (pumpBytes (Some h) chunk t w).2).
  { clear Hr. induction chunk as [|b chunk IH]; intros t1 w2; cbn [pumpBytes]; [done|].
    destruct (feed t1 b) as [t2 []]; try apply IH.
    pose proof (handleParsedDataFrame_clock (Some h)
      (fun h' f w (E : Some h = Some h') => match E with eq_refl => Hh f w end) t2 w2) as Hd.
    destruct (handleParsedDataFrame (Some h) t2 w2) as [t3 w3]. cbn [snd] in Hd. pose proof (IH t3 w3). lia. }
  pose proof (Hp t w1). destruct (pumpBytes (Some h) chunk t w1). cbn [snd] in *. lia.
Qed.

Lemma sessionHandler_clock f (w : World P) : clock w <= clock (sessionHandler f w).
Proof. done. Qed.
Lemma captureHandler_clock f (w : World P) : clock w <= clock (captureHandler f w).
Proof. done. Qed.

Lemma sendRequest_terminates (h : ZwaveDataFrame -> World P -> World P) fuel frame t w :
  (forall f w, clock w <= clock (h f w)) -> (sendFuel <= fuel)%nat ->
  is_Some (sendRequest (Some h) fuel frame t w).
Proof.
  intros Hh Hf. unfold sendRequest. destruct (_ =? 0)%nat; [by eexists|].
  apply sendAttempts_terminates; [|done]. intros h' f w' [= <-]. apply Hh.
Qed.

(** Each turn of a wait takes time, so it reaches its deadline. *)
Lemma awaitCallback_terminates fuel deadline t (w : World P) :
  deadline - clock w < Z.of_nat fuel -> 0 < Z.of_nat fuel -> is_Some (awaitCallback fuel deadline t w).
Proof.
  revert t w. induction fuel as [|fuel IH]; intros t w Hf Hpos; [lia|]. cbn [awaitCallback awaitSlot].
  destruct (pendingSendData (daemon w)); [|by eexists].
  pose proof (clock_observed w) as Hn. destruct (clock_now w) as [now w1]. cbn [fst snd] in Hn.
  destruct ((now <? deadline) && running (daemon w1)) eqn:Hc; [|by eexists].
  apply andb_prop in Hc as [Hlt _]. apply Z.ltb_lt in Hlt.
  pose proof (pumpOnce_clock sessionHandler IDLE_PUMP_TIMEOUT_MS t w1 sessionHandler_clock) as Hp.
  destruct (pumpOnce (Some sessionHandler) IDLE_PUMP_TIMEOUT_MS t w1) as [[b t2] w2]. cbn [snd] in Hp.
  apply IH; lia.
Qed.

Lemma awaitSlot_terminates {A} (slot : Slots -> option A) fuel deadline t (w : World P) :
  deadline - clock w < Z.of_nat fuel -> 0 < Z.of_nat fuel -> is_Some (awaitSlot slot fuel deadline t w).
Proof.
  revert t w. induction fuel as [|fuel IH]; intros t w Hf Hpos; [lia|]. cbn [awaitCallback awaitSlot].
  destruct (slot (slots w)); [by eexists|].
  pose proof (clock_observed w) as Hn. destruct (clock_now w) as [now w1]. cbn [fst snd] in Hn.
  destruct (now <? deadline) eqn:Hlt; [|by eexists]. apply Z.ltb_lt in Hlt.
  pose proof (pumpOnce_clock captureHandler IDLE_PUMP_TIMEOUT_MS t w1 captureHandler_clock) as Hp.
  destruct (pumpOnce (Some captureHandler) IDLE_PUMP_TIMEOUT_MS t w1) as [[b t2] w2]. cbn [snd] in Hp.
  apply IH; lia.
Qed.

(** One nanosecond of fuel for each of the longest wait, 5 s for a callback. *)
Definition threadFuel : nat := S (Z.to_nat (SEND_DATA_CALLBACK_TIMEOUT_MS * NS_PER_MS)).

Lemma threadFuel_send fuel : (threadFuel <= fuel)%nat -> (sendFuel <= fuel)%nat.
Proof.
  intros Hf. etransitivity; [|exact Hf]. unfold sendFuel, threadFuel. apply le_n_S, Z2Nat.inj_le; done.
Qed.

Lemma threadFuel_Z fuel : (threadFuel <= fuel)%nat -> SEND_DATA_CALLBACK_TIMEOUT_MS * NS_PER_MS < Z.of_nat fuel.
Proof. unfold threadFuel. lia. Qed.

#[local] Opaque threadFuel sendFuel.

Lemma throttle_terminates fuel cb t (w : World P) :
  (threadFuel <= fuel)%nat -> is_Some (throttle fuel cb t w).
Proof.
  intros Hf%threadFuel_Z. unfold throttle. destruct (negb _); [|by eexists].
  set (w1 := onDaemon _ w). pose proof (clock_observed w1) as Hn.
  destruct (clock_now w1) as [now w2]. cbn [fst snd] in Hn.
  assert (0 < SEND_DATA_CALLBACK_TIMEOUT_MS * NS_PER_MS) by done.
  destruct (awaitCallback_terminates fuel (now + SEND_DATA_CALLBACK_TIMEOUT_MS * NS_PER_MS) t w2)
    as [[t3 w3] ->]; [lia|lia|by eexists].
Qed.

Lemma dispatchRequest_terminates fuel r t (w : World P) :
  (threadFuel <= fuel)%nat -> is_Some (dispatchRequest fuel r t w).
Proof.
  intros Hf. pose proof (threadFuel_send fuel Hf) as Hs.
  assert (Hsend : forall frame t (w : World P), is_Some (sendRequest (Some sessionHandler) fuel frame t w))
    by (intros; apply sendRequest_terminates; [apply sessionHandler_clock|exact Hs]).
  clear Hs. destruct r; cbn [dispatchRequest];
    match goal with |- context [sendRequest _ _ ?f ?t ?w] => destruct (Hsend f t w) as [[[[] t2] w2] ->] end;
    solve [eexists; reflexivity|apply throttle_terminates; exact Hf].
Qed.

Lemma sendAndAwait_terminates {A} (slot : Slots -> option A) fuel frame t (w : World P) :
  (threadFuel <= fuel)%nat -> is_Some (sendAndAwait slot fuel frame t w).
Proof.
  intros Hf. unfold sendAndAwait.
  destruct (sendRequest_terminates captureHandler fuel frame t w captureHandler_clock (threadFuel_send _ Hf))
    as [[[[] t2] w2] ->]; [|by eexists].
  pose proof (clock_observed w2) as Hn. destruct (clock_now w2) as [now w3]. cbn [fst snd] in Hn.
  apply threadFuel_Z in Hf. unfold SEND_DATA_CALLBACK_TIMEOUT_MS, INTROSPECTION_TIMEOUT_MS, NS_PER_MS in *.
  destruct (awaitSlot_terminates slot fuel (now + 2000 * 1000000) t2 w3) as [[t3 w4] ->]; [lia|lia|by eexists].
Qed.

Lemma fetchAll_terminates fuel c ids t (w : World P) :
  (threadFuel <= fuel)%nat -> is_Some (fetchAll fuel c ids t w).
Proof.
  intros Hf. revert t w. induction ids as [|n ids IH]; intros t w; cbn; [by eexists|].
  destruct (n =? c); [apply IH|]. unfold fetchNodeProtocolInfo.
  match goal with |- context [sendAndAwait ?s ?f ?q ?t ?w] =>
    destruct (sendAndAwait_terminates s f q t w Hf) as [[[info t2] w2] ->] end.
  destruct (IH t2 w2) as [[[rest t3] w3] ->]. by eexists.
Qed.

Lemma introspectDongle_terminates fuel (w : World P) :
  (threadFuel <= fuel)%nat -> is_Some (introspectDongle fuel w).
Proof.
  intros Hf. unfold introspectDongle.
  destruct (sendAndAwait_terminates version fuel (bareRequest CMD_GET_VERSION) initTransport
    (mkWorld (port w) (daemon w) noSlots) Hf) as [[[[v|] t1] w1] ->]; [|by eexists].
  destruct (sendAndAwait_terminates identity fuel (bareRequest CMD_MEMORY_GET_ID) t1 w1 Hf)
    as [[[[i|] t2] w2] ->]; [|by eexists].
  destruct (sendAndAwait_terminates initData fuel (bareRequest CMD_SERIAL_API_GET_INIT_DATA) t2 w2 Hf)
    as [[[ini t3] w3] ->].
  destruct (version (slots w3)), (identity (slots w3)) as [m|]; try by eexists.
  destruct (initData (slots w3)) as [d|]; [|by eexists].
  destruct (fetchAll_terminates fuel (mi_controllerNodeId m) (id_nodeIds d) t3 w3 Hf) as [[[infos t4] w4] ->].
  by eexists.
Qed.

Lemma sessionTurn_terminates fuel t (w : World P) : (threadFuel <= fuel)%nat -> is_Some (sessionTurn fuel t w).
Proof.
  intros Hf. unfold sessionTurn. destruct (negb _); [by eexists|]. destruct (path _); [|by eexists].
  destruct (popRequest (daemon w)) as [[q|] d].
  - match goal with |- context [dispatchRequest fuel q t ?w] =>
      destruct (dispatchRequest_terminates fuel q t w Hf) as [[t2 w2] ->] end. by eexists.
  - destruct (pumpOnce _ _ _ _) as [[b t2] w2]. by eexists.
Qed.
End Termination.

(** ** Invariants of the port

    What every call of the port preserves, a turn and the introspection preserve. *)

Section Preserved.
Context `{Oob} `{SqliteEnv} {P : Type} `{SerialIO P} (J : P -> Prop).

(** A port whose calls keep [J]. *)
Record keepsPort : Prop := {
  J_write l p : l <> [] -> J p -> J (writeAll l p).2;
  J_read n ms p : J p -> J (readBytes n ms p).2;
  J_flush p : J p -> J (flushInput p);
  J_sleep ms p : J p -> J (sleep_for ms p);
  J_clock p : J p -> J (clock_now p).2 }.
Context (HJ : keepsPort).

Definition portKept (w : World P) : Prop := J (port w).

Lemma send_portKept h fuel frame t (w : World P) r t' w' :
  (forall f w, port (h f w) = port w) -> portKept w ->
  sendRequest (Some h) fuel frame t w = Some (r, t', w') -> portKept w'.
Proof.
  intros Hh. destruct HJ. apply (sendRequest_keeps h portKept); unfold portKept; cbn; auto.
  intros f w1. by rewrite Hh.
Qed.

Lemma pump_portKept h ms t (w : World P) :
  (forall f w, port (h f w) = port w) -> portKept w -> portKept (pumpOnce (Some h) ms t w).2.
Proof.
  intros Hh. destruct HJ. apply (pumpOnce_keeps h portKept); unfold portKept; cbn; auto.
  intros f w1. by rewrite Hh.
Qed.

Lemma clock_portKept (w : World P) : portKept w -> portKept (clock_now w).2.
Proof. apply (J_clock HJ). Qed.

Lemma awaitCallback_portKept fuel deadline t (w : World P) t' w' :
  portKept w -> awaitCallback fuel deadline t w = Some (t', w') -> portKept w'.
Proof.
  revert t w. induction fuel as [|fuel IH]; intros t w Hw; cbn [awaitCallback]; [done|].
  destruct (pendingSendData (daemon w)); [|by intros [= _ <-]].
  pose proof (clock_portKept w Hw) as Hc. destruct (clock_now w) as [now w1]. cbn [snd] in Hc.
  destruct (_ && _); [|by intros [= _ <-]].
  pose proof (pump_portKept sessionHandler IDLE_PUMP_TIMEOUT_MS t w1 (fun _ _ => eq_refl) Hc) as Hp.
  destruct (pumpOnce _ _ t w1) as [[b t2] w2]. by apply IH.
Qed.

Lemma throttle_portKept fuel cb t (w : World P) t' w' :
  portKept w -> throttle fuel cb t w = Some (t', w') -> portKept w'.
Proof.
  intros Hw. unfold throttle. destruct (negb _); [|intros [= _ <-]; by apply (J_sleep HJ)].
  set (w1 := onDaemon _ w). pose proof (clock_portKept w1 Hw) as Hc. destruct (clock_now w1) as [now w2]. cbn [snd] in Hc.
  destruct (awaitCallback fuel _ t w2) as [[t3 w3]|] eqn:E; [|done]. intros [= _ <-].
  by apply (awaitCallback_portKept _ _ _ _ _ _ Hc) in E.
Qed.

Lemma dispatchRequest_portKept fuel r t (w : World P) t' w' :
  portKept w -> dispatchRequest fuel r t w = Some (t', w') -> portKept w'.
Proof.
  assert (Hsend : forall frame t (w : World P) r t' w', portKept w ->
    sendRequest (Some sessionHandler) fuel frame t w = Some (r, t', w') -> portKept w')
    by (intros ? ? ? ? ? ? Hk E; exact (send_portKept sessionHandler _ _ _ _ _ _ _ (fun _ _ => eq_refl) Hk E)).
  intros Hw. destruct r; cbn [dispatchRequest];
    match goal with |- context [sendRequest _ _ ?f ?t ?w] =>
      assert (portKept w) as Hw1 by (unfold portKept in *; by case_match || done);
      destruct (sendRequest (Some sessionHandler) fuel f t w) as [[[ok t1] w1]|] eqn:E; [|done];
      apply (Hsend _ _ _ _ _ _ Hw1) in E; try destruct ok end;
    (by intros [= _ <-]) || by apply throttle_portKept.
Qed.

Lemma sessionTurn_portKept fuel t (w : World P) go t' w' :
  portKept w -> sessionTurn fuel t w = Some (go, t', w') -> portKept w'.
Proof.
  intros Hw. unfold sessionTurn. destruct (negb _); [by intros [= _ _ <-]|].
  destruct (path _); [|by intros [= _ _ <-]]. destruct (popRequest (daemon w)) as [[q|] d].
  - destruct (dispatchRequest fuel q t _) as [[t1 w1]|] eqn:E; [|done]. intros [= _ _ <-].
    by apply dispatchRequest_portKept in E.
  - pose proof (pump_portKept sessionHandler IDLE_PUMP_TIMEOUT_MS t (mkWorld (port w) d (slots w)) (fun _ _ => eq_refl) Hw) as Hp.
    destruct (pumpOnce _ _ _ _) as [[b t2] w2]. by intros [= _ _ <-].
Qed.

Lemma awaitSlot_portKept {A} (slot : Slots -> option A) fuel deadline t (w : World P) t' w' :
  portKept w -> awaitSlot slot fuel deadline t w = Some (t', w') -> portKept w'.
Proof.
  revert t w. induction fuel as [|fuel IH]; intros t w Hw; cbn [awaitSlot]; [done|].
  destruct (slot (slots w)); [by intros [= _ <-]|].
  pose proof (clock_portKept w Hw) as Hc. destruct (clock_now w) as [now w1]. cbn [snd] in Hc.
  destruct (now <? deadline); [|by intros [= _ <-]].
  pose proof (pump_portKept captureHandler IDLE_PUMP_TIMEOUT_MS t w1 (fun _ _ => eq_refl) Hc) as Hp.
  destruct (pumpOnce _ _ t w1) as [[b t2] w2]. by apply IH.
Qed.

Lemma sendAndAwait_portKept {A} (slot : Slots -> option A) fuel frame t (w : World P) r t' w' :
  portKept w -> sendAndAwait slot fuel frame t w = Some (r, t', w') -> portKept w'.
Proof.
  intros Hw. unfold sendAndAwait. destruct (sendRequest _ _ _ _ _) as [[[ok t1] w1]|] eqn:E; [|done].
  apply send_portKept in E; [|done..]. destruct ok; [|by intros [= _ _ <-]].
  pose proof (clock_portKept w1 E) as Hc. destruct (clock_now w1) as [now w2]. cbn [snd] in Hc.
  destruct (awaitSlot slot fuel _ t1 w2) as [[t3 w3]|] eqn:E2; [|done]. intros [= _ _ <-].
  by apply (awaitSlot_portKept _ _ _ _ _ _ _ Hc) in E2.
Qed.

Lemma fetchAll_portKept fuel c ids t (w : World P) infos t' w' :
  portKept w -> fetchAll fuel c ids t w = Some (infos, t', w') -> portKept w'.
Proof.
  revert infos t w t' w'. induction ids as [|n ids IH]; intros infos t w t' w' Hw; cbn [fetchAll]; [by intros [= _ _ <-]|].
  destruct (n =? c); [by apply IH|]. unfold fetchNodeProtocolInfo.
  destruct (sendAndAwait _ _ _ _ _) as [[[info t2] w2]|] eqn:E; [|done]. apply sendAndAwait_portKept in E; [|done].
  destruct (fetchAll fuel c ids t2 w2) as [[[rest t3] w3]|] eqn:E2; [|done]. intros [= _ _ <-].
  by apply IH in E2.
Qed.

Lemma introspectDongle_portKept fuel (w : World P) r w' :
  portKept w -> introspectDongle fuel w = Some (r, w') -> portKept w'.
Proof.
  intros Hw. unfold introspectDongle.
  destruct (sendAndAwait version _ _ _ _) as [[[[v|] t1] w1]|] eqn:E1; [| |done];
    (apply sendAndAwait_portKept in E1; [|done]); [|by intros [= _ <-]].
  destruct (sendAndAwait identity _ _ _ _) as [[[[i|] t2] w2]|] eqn:E2; [| |done];
    (apply sendAndAwait_portKept in E2; [|done]); [|by intros [= _ <-]].
  destruct (sendAndAwait initData _ _ _ _) as [[[ini t3] w3]|] eqn:E3; [|done].
  apply sendAndAwait_portKept in E3; [|done].
  destruct (version (slots w3)), (identity (slots w3)); try by intros [= _ <-].
  destruct (initData (slots w3)); [|by intros [= _ <-]].
  destruct (fetchAll _ _ _ _ _) as [[[infos t4] w4]|] eqn:E4; [|done]. intros [= _ <-].
  by apply fetchAll_portKept in E4.
Qed.
End Preserved.

(** The protocol thread never hangs on the dongle: whatever the port delivers or
    withholds, sending any request, a turn of the session loop and the whole start-up
    introspection return, each wait at its deadline. *)
Theorem thread_never_hangs `{Oob} `{SqliteEnv} {P} `{L : SerialLaws P} fuel r t (w : World P) :
  (threadFuel <= fuel)%nat ->
  is_Some (dispatchRequest fuel r t w) /\ is_Some (sessionTurn fuel t w) /\ is_Some (introspectDongle fuel w).
Proof.
  intros Hf. split_and!.
  - by apply dispatchRequest_terminates.
  - by apply sessionTurn_terminates.
  - by apply introspectDongle_terminates.
Qed.

(** On an example port that delivers nothing. *)
Lemma thread_never_hangs_witness :
  (threadFuel <= threadFuel)%nat /\
  is_Some (dispatchRequest (H := 0) (H0 := alwaysRuns) threadFuel (SendData (mkSendData 4 [0x20; 2] 0x25 7)) initTransport
    (mkWorld (mkScript [] 0 []) exampleDaemon noSlots)).
Proof.
  split; [reflexivity|].
  exact (proj1 (thread_never_hangs (H := 0) (H0 := alwaysRuns) threadFuel (SendData (mkSendData 4 [0x20; 2] 0x25 7))
    initTransport (mkWorld (mkScript [] 0 []) exampleDaemon noSlots) (le_n _))).
Defined.

(** ** Requests that do not reach the dongle *)

(** What a request that could not be written leaves on the bus and in the state. *)
Definition unsent (r : Request) (d : Daemon) : Daemon :=
  match r with
  | AddNode r =>
      if negb (an_mode r =? ADD_MODE_STOP) && negb (an_mode r =? ADD_MODE_STOP_REPLICATION)
      then publish (SessionStatus true CMD_ADD_NODE_TO_NETWORK (an_sessionId r))
             (withTracker (Some (mkSession CMD_ADD_NODE_TO_NETWORK (an_sessionId r))) d)
      else d
  | RemoveNode r =>
      if negb (rn_mode r =? REMOVE_MODE_STOP)
      then publish (SessionStatus true CMD_REMOVE_NODE_FROM_NETWORK (rn_sessionId r))
             (withTracker (Some (mkSession CMD_REMOVE_NODE_FROM_NETWORK (rn_sessionId r))) d)
      else d
  | RemoveFailedNode r =>
      publish (RemoveFailedNodeStatus (rf_nodeId r) (rf_sessionId r) PhaseResponse RESPONSE_REMOVE_FAIL) (withRemoval None d)
  | RequestNodeInfo r => publish (RequestNodeInfoStatus (ri_nodeId r) (ri_sessionId r) false) (withNodeInfo None d)
  | SendData r => publish (SendDataCallbackEvent (sd_callbackId r) TRANSMIT_COMPLETE_FAIL) d
  | SendDataMulti r => publish (SendDataCallbackEvent (sm_callbackId r) TRANSMIT_COMPLETE_FAIL) d
  end.

Section DeadPort.
Context `{Oob} `{SqliteEnv} {P : Type} `{SerialIO P}.
Hypothesis dead : forall l (p : P), (writeAll l p).1 = false.

Lemma sendRequest_dead h fuel frame t (w : World P) :
  exists t' w', sendRequest h fuel frame t w = Some (false, t', w') /\ daemon w' = daemon w /\ slots w' = slots w.
Proof.
  unfold sendRequest. destruct (_ =? 0)%nat; [by exists t, w|].
  generalize 0 as attempt. generalize (Z.to_nat MAX_SEND_RETRIES) as remaining.
  intros remaining. revert t w. induction remaining as [|remaining IH]; intros t w attempt; [by exists t, w|].
  cbn [sendAttempts].
  assert (Hw : forall w : World P, exists p', writeAll (toBuffer frame) w = (false, mkWorld p' (daemon w) (slots w))).
  { intros w'. exists (writeAll (toBuffer frame) (port w')).2. cbn. unfold onPort. by rewrite dead. }
  destruct (0 <? attempt).
  - match goal with |- context [writeAll ?l ?w] => destruct (Hw w) as [p' ->] end. cbn [negb].
    match goal with |- context [sendAttempts _ _ _ _ _ ?t ?w] =>
      destruct (IH t w (attempt + 1)) as (t' & w' & -> & Hd & Hs) end. by exists t', w'.
  - destruct (Hw w) as [p' ->]. cbn [negb].
    match goal with |- context [sendAttempts _ _ _ _ _ ?t ?w] =>
      destruct (IH t w (attempt + 1)) as (t' & w' & -> & Hd & Hs) end. by exists t', w'.
Qed.

Lemma dispatchRequest_dead fuel r t (w : World P) :
  exists t' w', dispatchRequest fuel r t w = Some (t', w') /\ daemon w' = unsent r (daemon w).
Proof.
  destruct r as [r|r|r|r|r|r]; cbn [dispatchRequest unsent];
    match goal with |- context [sendRequest ?h ?f ?q ?t ?w] =>
      destruct (sendRequest_dead h f q t w) as (t' & w' & -> & Hd & Hs) end;
    do 2 eexists; (split; [reflexivity|]); cbn [daemon onDaemon]; rewrite Hd; try done;
    cbn [daemon onDaemon]; by destruct (negb _ && _) || destruct (negb _).
Qed.
End DeadPort.

(** The retained session event: what a client that asks now is told. *)
Definition retainedSession (events : list Event) : bool :=
  foldl (fun active e => match e with SessionStatus a _ _ => a | _ => active end) false events.

Definition noSession (e : Event) : Prop := match e with SessionStatus _ _ _ => False | _ => True end.

Lemma retainedSession_app l k : Forall noSession k -> retainedSession (l ++ k) = retainedSession l.
Proof.
  intros Hk. unfold retainedSession. rewrite foldl_app. generalize (foldl (fun active e =>
    match e with SessionStatus a _ _ => a | _ => active end) false l) as a.
  induction Hk as [|e k He _ IH]; intros a; [done|]. cbn. rewrite IH. by destruct e.
Qed.

(** The daemon's events only grow by events that are not about sessions. *)
Definition quiet (d d' : Daemon) : Prop := exists l, bus d' = bus d ++ l /\ Forall noSession l.

Lemma quiet_refl d : quiet d d.
Proof. exists []. by rewrite app_nil_r. Qed.

Lemma quiet_trans d1 d2 d3 : quiet d1 d2 -> quiet d2 d3 -> quiet d1 d3.
Proof.
  intros (l & H1 & F1) (k & H2 & F2). exists (l ++ k). rewrite H2, H1, app_assoc. split; [done|by apply Forall_app].
Qed.

Lemma quiet_publish e d : noSession e -> quiet d (publish e d).
Proof. intros He. exists [e]. split; [done|by repeat constructor]. Qed.

Lemma quiet_registry f d : quiet d (onRegistry f d).
Proof.
  destruct (onRegistry_bus f d) as [l Hl]. exists (NodeListChanged <$> l). split; [done|].
  apply Forall_fmap, Forall_true. done.
Qed.

Lemma quiet_foldl {A} (f : Daemon -> A -> Daemon) l d :
  (forall d a, quiet d (f d a)) -> quiet d (foldl f d l).
Proof.
  intros Hf. revert d. induction l as [|a l IH]; intros d; [apply quiet_refl|]. cbn. eapply quiet_trans; [apply Hf|apply IH].
Qed.

Lemma quiet_seed `{SqliteEnv} ids d : quiet d (seedNodes ids d).
Proof. apply quiet_foldl. intros. apply quiet_registry. Qed.

Lemma quiet_overlay `{SqliteEnv} infos d : quiet d (overlayClasses infos d).
Proof. apply quiet_foldl. intros. apply quiet_registry. Qed.

Lemma bringUp_quiet `{SqliteEnv} r d s : quiet d (bringUp r d s).1.
Proof.
  unfold bringUp. assert (Hd : forall d', quiet d d' ->
    quiet d (withGate None (withTracker None (withInclusion None (withNodeInfo None (withRemoval None (clearRequests d')))))))
    by done.
  destruct (dongleInfo r) as [[v i]|]; [|apply Hd, quiet_refl].
  assert (H1 : quiet d (publish (DongleInfo v i) (onRegistry (Registry.setHomeId (mi_homeId i))
                 (withController (Some (mi_controllerNodeId i)) (publish DaemonErrorClear d))))).
  { eapply quiet_trans; [|by apply quiet_publish].
    apply quiet_trans with (withController (Some (mi_controllerNodeId i)) (publish DaemonErrorClear d));
      [by apply (quiet_publish DaemonErrorClear)|]. apply (quiet_registry _ (withController _ (publish DaemonErrorClear d))). }
  destruct (resultInitData r) as [init|]; cbn [fst]; apply Hd; [|exact H1].
  eapply quiet_trans; [exact H1|]. eapply quiet_trans; [|by apply quiet_publish].
  eapply quiet_trans; [apply quiet_seed|apply quiet_overlay].
Qed.

(** The session a request opens: an AddNode or RemoveNode that does not stop one. *)
Definition opensSession (r : Request) : option (Z * Z) :=
  match r with
  | AddNode r =>
      if (an_mode r =? ADD_MODE_STOP) || (an_mode r =? ADD_MODE_STOP_REPLICATION) then None
      else Some (CMD_ADD_NODE_TO_NETWORK, an_sessionId r)
  | RemoveNode r =>
      if rn_mode r =? REMOVE_MODE_STOP then None else Some (CMD_REMOVE_NODE_FROM_NETWORK, rn_sessionId r)
  | _ => None
  end.

Lemma unsent_opens r d command sessionId :
  opensSession r = Some (command, sessionId) ->
  unsent r d = publish (SessionStatus true command sessionId) (withTracker (Some (mkSession command sessionId)) d).
Proof.
  destruct r as [r|r|r|r|r|r]; cbn [opensSession unsent]; try done.
  - destruct (an_mode r =? ADD_MODE_STOP), (an_mode r =? ADD_MODE_STOP_REPLICATION); try done. by intros [= <- <-].
  - destruct (rn_mode r =? REMOVE_MODE_STOP); [done|]. by intros [= <- <-].
Qed.

Lemma bringUp_tracker `{SqliteEnv} result d s : tracker (bringUp result d s).1 = None.
Proof. unfold bringUp. destruct (dongleInfo result) as [[v i]|]; [|done]. by destruct (resultInitData result). Qed.

(** C36: when the dongle cannot be written to, each kind of request is answered with a
    failure, at once and with nothing left in flight, except adding and removing a
    node.  One of these that stops a session is dropped without a word.  One that opens
    a session has announced it as active before the frame is sent, and nothing ends
    it.  Reconnecting does not either: the thread then has no session while clients are
    told there is one. *)
Theorem unsent_requests_answered `{Oob} `{SqliteEnv} {P} `{SerialIO P} fuel r t (w : World P) :
  (forall l (p : P), (writeAll l p).1 = false) ->
  exists t' w', dispatchRequest fuel r t w = Some (t', w') /\
    match r with
    | AddNode _ | RemoveNode _ =>
        match opensSession r with
        | None => daemon w' = daemon w
        | Some (command, sessionId) =>
            daemon w' = publish (SessionStatus true command sessionId)
                          (withTracker (Some (mkSession command sessionId)) (daemon w)) /\
            forall result s, let d := (bringUp result (daemon w') s).1 in
              tracker d = None /\ retainedSession (bus d) = true
        end
    | RemoveFailedNode r =>
        daemon w' = publish (RemoveFailedNodeStatus (rf_nodeId r) (rf_sessionId r) PhaseResponse RESPONSE_REMOVE_FAIL)
                      (withRemoval None (daemon w))
    | RequestNodeInfo r =>
        daemon w' = publish (RequestNodeInfoStatus (ri_nodeId r) (ri_sessionId r) false) (withNodeInfo None (daemon w))
    | SendData r => daemon w' = publish (SendDataCallbackEvent (sd_callbackId r) TRANSMIT_COMPLETE_FAIL) (daemon w)
    | SendDataMulti r => daemon w' = publish (SendDataCallbackEvent (sm_callbackId r) TRANSMIT_COMPLETE_FAIL) (daemon w)
    end.
Proof.
  intros Hdead. destruct (dispatchRequest_dead Hdead fuel r t w) as (t' & w' & Hd & Hw).
  exists t', w'. split; [done|].
  assert (Hopen : forall command sessionId, opensSession r = Some (command, sessionId) ->
    daemon w' = publish (SessionStatus true command sessionId) (withTracker (Some (mkSession command sessionId)) (daemon w)) /\
    forall result s, let d := (bringUp result (daemon w') s).1 in tracker d = None /\ retainedSession (bus d) = true).
  { intros command sessionId Ho. rewrite Hw, (unsent_opens _ _ _ _ Ho). split; [done|]. intros result s. cbn zeta.
    split; [apply bringUp_tracker|].
    match goal with |- context [ bringUp result ?d s ] => destruct (bringUp_quiet result d s) as (l & -> & Hl) end.
    rewrite retainedSession_app by done. unfold retainedSession. cbn [publish bus]. by rewrite foldl_app. }
  destruct r as [r|r|r|r|r|r]; try exact Hw.
  - destruct (opensSession _) as [[command sessionId]|] eqn:Ho; [by apply Hopen|]. rewrite Hw. cbn in Ho |- *.
    by destruct (an_mode r =? ADD_MODE_STOP), (an_mode r =? ADD_MODE_STOP_REPLICATION).
  - destruct (opensSession _) as [[command sessionId]|] eqn:Ho; [by apply Hopen|]. rewrite Hw. cbn in Ho |- *.
    by destruct (rn_mode r =? REMOVE_MODE_STOP).
Qed.

(** A port without a device behind it. *)
Definition deadIO : SerialIO Z := {|
  writeAll _ now := (false, now); readBytes _ _ now := ([], now + 1); flushInput now := now;
  sleep_for ms now := now + ms * NS_PER_MS; clock_now now := (now, now) |}.

(** A node is to be removed; the dongle is gone, and comes back. *)
Definition removeAny : Request := RemoveNode (mkRemoveNode 1 true true 5).
Definition reconnected : IntrospectionResult :=
  mkIntrospection (Some (mkVersion [90] 1, mkMemoryId [1; 2; 3; 4] 1)) None [].
Definition someStores : Stores :=
  mkStores (Queue.mkState (mkDb false (Queue.mkTable [] 0) 0) None 0) (Register.mkState (mkDb false (Register.mkTables ∅ ∅) 0) None ∅)
    (Metadata.mkState (mkDb false ∅ 0) None) (Scene.mkState (mkDb false (Scene.mkTables ∅ ∅) 0) None).

Lemma unsent_requests_answered_witness :
  exists t' w',
    dispatchRequest (H := 0) (H0 := alwaysRuns) (H1 := deadIO) 1 removeAny initTransport (mkWorld 0 exampleDaemon noSlots)
    = Some (t', w') /\
    bus (daemon w') = bus exampleDaemon ++ [SessionStatus true CMD_REMOVE_NODE_FROM_NETWORK 5] /\
    tracker (bringUp (H0 := alwaysRuns) reconnected (daemon w') someStores).1 = None /\
    retainedSession (bus (bringUp (H0 := alwaysRuns) reconnected (daemon w') someStores).1) = true.
Proof.
  destruct (unsent_requests_answered (H := 0) (H0 := alwaysRuns) (H1 := deadIO) 1 removeAny initTransport
    (mkWorld 0 exampleDaemon noSlots) (fun _ _ => eq_refl)) as (t' & w' & Hd & Hw & Hup).
  exists t', w'. split; [exact Hd|]. split; [rewrite Hw; reflexivity|]. exact (Hup reconnected someStores).
Defined.

(** ** Two removals at once *)

(** A port that acknowledges the frame written to it. *)
Lemma awaitAck_acked `{Oob} h fuel t d s rest now hd :
  parseState t = WaitFrameStart ->
  awaitAck (W := World Script) h (S fuel) (now + ACK_TIMEOUT_MS * NS_PER_MS) t
    (mkWorld (mkScript ([ACK] :: rest) now hd) d s)
  = Some (AckSeen, t, mkWorld (mkScript rest (now + 1000) hd) d s).
Proof.
  intros Ht. cbn [awaitAck].
  assert (Hr : remainingMs (now + ACK_TIMEOUT_MS * NS_PER_MS) (mkWorld (mkScript ([ACK] :: rest) now hd) d s)
          = (1500, mkWorld (mkScript ([ACK] :: rest) now hd) d s)).
  { unfold remainingMs. cbn [clock_now worldIO onPort scriptIO port scriptTime fst snd daemon slots].
    unfold ACK_TIMEOUT_MS, NS_PER_MS. destruct (Z.geb_spec now (now + 1500 * 1000000)); [lia|].
    by replace (now + 1500 * 1000000 - now) with 1500000000 by lia. }
  rewrite Hr. change (1500 <=? 0) with false. cbn iota.
  change (readBytes READ_CHUNK_SIZE 1500 (mkWorld (mkScript ([ACK] :: rest) now hd) d s))
    with ([ACK], mkWorld (mkScript rest (now + 1000) hd) d s).
  change (length [ACK] <=? 0)%nat with false. cbn iota. cbn [feedUntilAck]. unfold feed. by rewrite Ht.
Qed.

Lemma sendRequest_acked `{Oob} h fuel frame t d s rest now hd :
  parseState t = WaitFrameStart ->
  sendRequest (W := World Script) h (S fuel) frame t (mkWorld (mkScript ([ACK] :: rest) now hd) d s)
  = Some (true, t, mkWorld (mkScript rest (now + 1000) hd) d s).
Proof.
  intros Ht. unfold sendRequest. rewrite toBuffer_length. rewrite (proj2 (Nat.eqb_neq _ 0)) by lia.
  change (Z.to_nat MAX_SEND_RETRIES) with 3%nat. cbn [sendAttempts]. change (0 <? 0) with false. cbn iota.
  change (writeAll (toBuffer frame) (mkWorld (mkScript ([ACK] :: rest) now hd) d s))
    with (true, mkWorld (mkScript ([ACK] :: rest) now hd) d s). cbn [negb].
  change (clock_now (mkWorld (mkScript ([ACK] :: rest) now hd) d s))
    with (now, mkWorld (mkScript ([ACK] :: rest) now hd) d s). cbn iota beta.
  by rewrite awaitAck_acked.
Qed.

Definition removedCallback (sessionId : Z) : ZwaveDataFrame :=
  mkFrame REQUEST CMD_REMOVE_FAILED_NODE_ID [sessionId; CALLBACK_REMOVED] true.

Lemma removal_dispatched `{Oob} `{SqliteEnv} fuel r d rest now hd t :
  parseState t = WaitFrameStart ->
  dispatchRequest (S fuel) (RemoveFailedNode r) t (mkWorld (mkScript ([ACK] :: rest) now hd) d noSlots)
  = Some (t, mkWorld (mkScript rest (now + 1000) hd) (withRemoval (Some r) d) noSlots).
Proof. intros Ht. cbn [dispatchRequest]. unfold onDaemon. cbn [daemon port slots]. by rewrite sendRequest_acked. Qed.

(** The queue does not keep removals of failed nodes apart: a request returns once
    the dongle has acknowledged it, not when its callback came.  After two requests the
    callback of the first is taken for the second: the second node is reported under
    the first one's session and dropped from the registry, and the first stays. *)
Theorem overlapping_removals_misattributed `{Oob} `{SqliteEnv} fuel n1 s1 n2 s2 d home :
  n1 <> n2 -> n2 <> 0 -> Registry.currentHomeId (registry d) = Some home -> pendingSendData d = None ->
  exists t w t' w',
    dispatchRequest (S fuel) (RemoveFailedNode (mkRemoveFailed n1 s1)) initTransport
      (mkWorld (mkScript [[ACK]; [ACK]] 0 []) d noSlots) = Some (t, w) /\
    dispatchRequest (S fuel) (RemoveFailedNode (mkRemoveFailed n2 s2)) t w = Some (t', w') /\
    let d' := onFrame (removedCallback s1) (daemon w') in
    Registry.nodes (registry d') = delete n2 (Registry.nodes (registry d)) /\
    Registry.nodes (registry d') !! n1 = Registry.nodes (registry d) !! n1 /\
    exists events, bus d' = bus d ++ RemoveFailedNodeStatus n2 s1 PhaseCallback CALLBACK_REMOVED :: events.
Proof.
  intros Hne Hn2 Hh Hg. do 4 eexists.
  split; [by apply removal_dispatched|]. split; [by apply removal_dispatched|]. cbn zeta.
  unfold onFrame, clearGate. cbn [onDaemon daemon withRemoval pendingSendData]. rewrite Hg.
  unfold handleIncomingFrame. cbn. unfold handleRemoveFailedNodeFrame.
  change (decodeRemoveFailedNodeResponse (removedCallback s1)) with (@None Z).
  change (decodeRemoveFailedNodeCallback (removedCallback s1)) with (Some (mkRemoveFailedCb s1 CALLBACK_REMOVED)).
  cbn. unfold onRegistry, Registry.remove, Registry.withBoundHome. cbn.
  rewrite (proj2 (Z.eqb_neq n2 0)) by done. cbn. rewrite Hh. cbn.
  split_and!; [done|by rewrite lookup_delete_ne|]. eexists. by rewrite <-app_assoc.
Qed.

Lemma overlapping_removals_misattributed_witness :
  4 <> 9 /\ exists t w t' w',
    dispatchRequest (H := 0) (H0 := alwaysRuns) 1 (RemoveFailedNode (mkRemoveFailed 4 1)) initTransport
      (mkWorld (mkScript [[ACK]; [ACK]] 0 []) exampleDaemon noSlots) = Some (t, w) /\
    dispatchRequest (H := 0) (H0 := alwaysRuns) 1 (RemoveFailedNode (mkRemoveFailed 9 2)) t w = Some (t', w') /\
    Registry.nodes (registry (onFrame (H := 0) (H0 := alwaysRuns) (removedCallback 1) (daemon w')))
    = delete 9 (Registry.nodes exampleRegistry).
Proof.
  split; [lia|].
  destruct (overlapping_removals_misattributed (H := 0) (H0 := alwaysRuns) 0 4 1 9 2 exampleDaemon "C0FFEE00"%string)
    as (t & w & t' & w' & H1 & H2 & H3 & _); [lia|lia|done|done|].
  exists t, w, t', w'. split; [exact H1|]. split; [exact H2|exact H3].
Defined.
