(* ===== verification/ProtocolMain.v ===== *)
(** * The life of the protocol thread

    [zwaveCommunicationThread] of [zwave-protocol/ProtocolThread.cpp] whole: it waits
    for a device, opens the port of [SerialPort], runs the introspection, the bring-up
    and the session of [ProtocolSession] on it, closes it when the device is gone, and
    ends when the daemon stops.  What other threads publish comes between its turns. *)

From Stdlib Require Import String.
From S2P Require Import Prelude DataFrame FrameTransport SerialPort HostApi Sqlite NodeRegistry ProtocolThread ProtocolSession.
From S2P Require Import PendingQueue PolicyRegister SceneStore NodeStores.
From stdpp Require Import gmap.
#[local] Open Scope Z_scope.

Module Main.
Import Thread Session.

(** [std::chrono::seconds(1)] *)
Definition OPEN_BACKOFF_MS : Z := 1000.

(** Where the thread is: before a device, in [runConnectedSession] with its port and
    transport, or past its loop. *)
Inductive Phase := Waiting | Connected (p : OpenPort) (t : Transport) | Ended.

(** What reaches it from other threads: events of the bus, and the end of the daemon. *)
Inductive Heard := Bus (i : Input) | Stop.

Section Loop.
Context `{Oob} `{SqliteEnv} `{GeneratedEncoders} {W : Type} `{Port.TermiosLib} `{Port.Posix W} `{Patience W}.

Record State := mkState { phase : Phase; daemon : Daemon; stores : Stores; os : W }.

Definition stopped (d : Daemon) : Daemon :=
  mkDaemon (path d) false (queue d) (activeFailedNodeRemoval d) (activeRequestNodeInfo d) (controllerNodeId d)
    (pendingInclusion d) (tracker d) (pendingSendData d) (registry d) (bus d).

Definition hearOne (d : Daemon) (h : Heard) : Daemon := match h with Bus i => input i d | Stop => stopped d end.

(** The handlers are subscribed until the loop ends. *)
Definition hear (hs : list Heard) (s : State) : State :=
  match phase s with
  | Ended => s
  | _ => mkState (phase s) (foldl hearOne (daemon s) hs) (stores s) (os s)
  end.

Definition asOpen (p : Port.SerialPort) : option OpenPort :=
  match Bool.bool_dec (Port.isOpen p) true with left E => Some (mkOpen p E) | right _ => None end.

(** A device at [path]: from [SerialPort port] to the call of [runConnectedSession]. *)
Definition connect (fuel : nat) (path : list Z) (s : State) : option State :=
  let '(ok, p, w) := Port.open path Port.newPort (os s) in
  match (if ok then asOpen p else None) with
  | None => Some (mkState Waiting (publish (DaemonErrorOpenFailed path) (daemon s)) (stores s) (Port.sleep_ms OPEN_BACKOFF_MS w))
  | Some p =>
      match introspectDongle fuel (mkWorld (p, w) (daemon s) noSlots) with
      | None => None
      | Some (r, w) =>
          let (d, st) := bringUp r (Session.daemon w) (stores s) in
          Some (mkState (Connected p initTransport) d st (port w).2)
      end
  end.

(** One turn of the outer loop, or of the session's; [None] when the fuel runs out. *)
Definition turn (fuel : nat) (s : State) : option State :=
  match phase s with
  | Ended => Some s
  | Waiting =>
      if negb (running (daemon s)) then Some (mkState Ended (daemon s) (stores s) (os s)) else
      match path (daemon s) with
      | None | Some [] => Some s
      | Some path => connect fuel path s
      end
  | Connected p t =>
      match sessionTurn fuel t (mkWorld (p, os s) (daemon s) noSlots) with
      | None => None
      | Some (true, t, w) => Some (mkState (Connected p t) (Session.daemon w) (stores s) (port w).2)
      | Some (false, _, w) => Some (mkState Waiting (Session.daemon w) (stores s) (Port.close (openPort p) (port w).2).2)
      end
  end.

Definition step (fuel : nat) (hs : list Heard) (s : State) : option State := turn fuel (hear hs s).

Fixpoint run (fuel : nat) (turns : list (list Heard)) (s : State) : option State :=
  match turns with
  | [] => Some s
  | hs :: turns => match step fuel hs s with None => None | Some s => run fuel turns s end
  end.

(** The thread as it enters its loop, with no session announced. *)
Definition begin (d : Daemon) (st : Stores) (w : W) : State :=
  mkState Waiting (publish (SessionStatus false 0 0) d) st w.
End Loop.
End Main.

Import Thread Session Main.

Section Life.
Context `{Oob} `{SqliteEnv} `{GeneratedEncoders} {W : Type} `{Port.TermiosLib} `{Port.Posix W} `{Patience W}.
Context `{L : !PosixLaws W} `{D : !DescriptorLaws W}.
Abbreviation State := (State (W := W)).

(** ** It returns *)

Lemma connect_terminates fuel path (s : State) : (threadFuel <= fuel)%nat -> is_Some (connect fuel path s).
Proof.
  intros Hf. unfold connect. destruct (Port.open _ _ _) as [[ok p] w]. destruct (if ok then _ else _) as [q|]; [|by eexists].
  destruct (introspectDongle_terminates fuel (mkWorld (q, w) (daemon s) noSlots) Hf) as [[r w1] ->].
  destruct (bringUp _ _ _). by eexists.
Qed.

Lemma turn_terminates fuel (s : State) : (threadFuel <= fuel)%nat -> is_Some (turn fuel s).
Proof.
  intros Hf. unfold turn. destruct (phase s) as [|p t|]; [| |by eexists].
  - destruct (negb _); [by eexists|]. destruct (path _) as [[|b path]|]; [by eexists|by apply connect_terminates|by eexists].
  - destruct (sessionTurn_terminates fuel t (mkWorld (p, os s) (daemon s) noSlots) Hf) as [[[[] t1] w1] ->]; by eexists.
Qed.

Lemma run_terminates fuel turns (s : State) : (threadFuel <= fuel)%nat -> is_Some (run fuel turns s).
Proof.
  intros Hf. revert s. induction turns as [|hs turns IH]; intros s; [by eexists|]. cbn [run].
  destruct (turn_terminates fuel (hear hs s) Hf) as [s1 E]. unfold step. by rewrite E.
Qed.

Lemma run_app fuel ts us (s : State) :
  run fuel (ts ++ us) s = match run fuel ts s with None => None | Some s => run fuel us s end.
Proof.
  revert s. induction ts as [|hs ts IH]; intros s; [done|]. cbn [app run]. by destruct (step fuel hs s).
Qed.

(** ** One descriptor at most *)

(** With the descriptors [B] of the rest of the process: the thread owns that of the
    port it is connected to, and none otherwise. *)
Definition owns (B : gset Z) (s : State) : Prop :=
  match phase s with
  | Connected p _ => (portFd p ∉ B) /\ descriptors (os s) = {[portFd p]} ∪ B
  | _ => descriptors (os s) = B
  end.

Lemma port_keeps B : keepsPort (fun x : OpenPort * W => descriptors x.2 = B).
Proof. destruct (portIO_fds (W := W) B) as (? & ? & ? & ? & ?). split; auto. Qed.

Lemma connect_owns B fuel path (s s' : State) :
  descriptors (os s) = B -> connect fuel path s = Some s' -> owns B s'.
Proof.
  intros HB. unfold connect. pose proof (open_fds path (os s)) as Ho. destruct (Port.open _ _ _) as [[ok p] w].
  destruct ok; cbn beta iota in *.
  - destruct Ho as (Hp & Hnew & Hw). unfold asOpen. destruct (Bool.bool_dec _ _) as [E|]; [|done].
    destruct (introspectDongle _ _) as [[r w1]|] eqn:Ei; [|done].
    apply (introspectDongle_portKept _ (port_keeps ({[Port.descriptor p]} ∪ B))) in Ei; [|by unfold portKept; cbn; rewrite Hw, HB].
    destruct (bringUp _ _ _) as [d st]. intros [= <-]. split; [by rewrite <-HB|exact Ei].
  - intros [= <-]. unfold owns. cbn. by rewrite sleep_fds, Ho.
Qed.

Lemma turn_owns B fuel (s s' : State) : owns B s -> turn fuel s = Some s' -> owns B s'.
Proof.
  intros Hs. unfold turn. destruct (phase s) as [|p t|] eqn:Hp; unfold owns in Hs; rewrite Hp in Hs.
  - destruct (negb _); [by intros [= <-]|].
    destruct (path _) as [[|b path]|]; [|by apply connect_owns|]; intros [= <-]; unfold owns; by rewrite Hp.
  - destruct Hs as [Hnew Hfds]. destruct (sessionTurn _ _ _) as [[[go t1] w1]|] eqn:E; [|done].
    apply (sessionTurn_portKept _ (port_keeps ({[portFd p]} ∪ B))) in E; [|exact Hfds]. unfold portKept in E.
    destruct go; intros [= <-]; [done|]. unfold owns. cbn [phase os]. rewrite close_fds, opened, E.
    unfold portFd in *. set_solver.
  - intros [= <-]. unfold owns. by rewrite Hp.
Qed.

Lemma hear_owns B hs (s : State) : owns B s -> owns B (hear hs s).
Proof. unfold owns, hear. by destruct (phase s) eqn:Hp; cbn; rewrite ?Hp. Qed.

Lemma run_owns B fuel turns (s s' : State) : owns B s -> run fuel turns s = Some s' -> owns B s'.
Proof.
  revert s. induction turns as [|hs turns IH]; intros s Hs; cbn [run]; [by intros [= <-]|].
  destruct (step fuel hs s) as [s1|] eqn:E; [|done]. apply IH. by eapply turn_owns, E; apply hear_owns.
Qed.

(** ** It ends *)

Lemma hear_stop hs (s : State) : phase s <> Ended -> running (daemon (hear (hs ++ [Stop]) s)) = false.
Proof. intros Hp. unfold hear. destruct (phase s); [..|done]; cbn; by rewrite foldl_app. Qed.

Lemma turn_stopped fuel (s s' : State) :
  running (daemon s) = false -> turn fuel s = Some s' ->
  phase s' <> Ended -> phase s' = Waiting /\ running (daemon s') = false.
Proof.
  intros Hr. unfold turn. rewrite Hr. destruct (phase s) eqn:Hp; cbn [negb].
  - intros [= <-]. done.
  - unfold sessionTurn. cbn [Session.daemon]. rewrite Hr. by intros [= <-].
  - intros [= <-]. done.
Qed.

Lemma stop_ends fuel hs (s s' : State) : run fuel [hs ++ [Stop]; []] s = Some s' -> phase s' = Ended.
Proof.
  cbn [run]. destruct (step fuel (hs ++ [Stop]) s) as [s1|] eqn:E1; [|done].
  destruct (step fuel [] s1) as [s2|] eqn:E2; [|done]. intros [= <-]. unfold step in *.
  assert (Hended : forall s, phase s = Ended -> turn fuel (hear [] s) = Some s2 -> phase s2 = Ended)
    by (intros s0 Hp; unfold hear, turn; rewrite Hp, Hp; by intros [= <-]).
  destruct (phase s1) as [|p t|] eqn:Hp1; [..|by eapply Hended].
  all: assert (phase s <> Ended) as Hs by (intros Hp; unfold hear, turn in E1; rewrite !Hp in E1; congruence).
  all: apply turn_stopped in E1 as [Hw Hr]; [|by apply hear_stop|congruence].
  - unfold hear, turn in E2. rewrite Hp1 in E2. cbn in E2. rewrite Hr in E2. by injection E2 as <-.
  - congruence.
Qed.

(** C23: the thread outlives its dongles and leaves nothing behind.  Whatever the
    system, the dongle and the other threads do: every turn returns; the thread holds
    a descriptor only while it is connected, of the port it opened, and then that one
    alone; and when the daemon stops, two turns later the thread has ended and every
    descriptor it opened is closed. *)
Theorem thread_life fuel turns d st w :
  (threadFuel <= fuel)%nat ->
  (exists s, run fuel turns (begin d st w) = Some s /\ owns (descriptors w) s) /\
  (forall hs, exists s, run fuel (turns ++ [hs ++ [Stop]; []]) (begin d st w) = Some s /\
     phase s = Ended /\ descriptors (os s) = descriptors w).
Proof.
  intros Hf.
  assert (Ho : forall turns s, run fuel turns (begin d st w) = Some s -> owns (descriptors w) s)
    by (intros ts s; by apply run_owns).
  split.
  - destruct (run_terminates fuel turns (begin d st w) Hf) as [s E]. exists s. split; [exact E|by eapply Ho].
  - intros hs. destruct (run_terminates fuel (turns ++ [hs ++ [Stop]; []]) (begin d st w) Hf) as [s E].
    exists s. split; [exact E|]. pose proof (Ho _ _ E) as Hs. rewrite run_app in E.
    destruct (run fuel turns _) as [s1|]; [|done]. apply stop_ends in E. split; [exact E|].
    unfold owns in Hs. by rewrite E in Hs.
Qed.
End Life.

(** ** A device at work *)

Module MainToy.
Definition noStores : Stores :=
  mkStores (PendingQueue.Queue.mkState (mkDb true (PendingQueue.Queue.mkTable [] 0) 0) None 0)
    (PolicyRegister.Register.mkState (mkDb true (PolicyRegister.Register.mkTables ∅ ∅) 0) None ∅)
    (NodeStores.Metadata.mkState (mkDb true ∅ 0) None)
    (SceneStore.Scene.mkState (mkDb true (SceneStore.Scene.mkTables ∅ ∅) 0) None).
(** A process with three descriptors and a dongle that never answers. *)
Definition silent : Tty := mkTty 0 [] [] [] [] [0; 1; 2].
Definition idle : Daemon := withPath None exampleDaemon.
Definition ran (fuel : nat) (turns : list (list Heard)) : option (State (W := Tty)) :=
  run (H := 0) (H0 := alwaysRuns) (H1 := exampleEncoders) fuel turns (begin idle noStores silent).
Definition plugged (tty : Z) : Heard := Bus (DongleStatus true [tty]).
Definition unplugged : Heard := Bus (DongleStatus false []).
End MainToy.
Import MainToy.

Lemma thread_life_witness :
  exists s, ran threadFuel ([[plugged 0x74]; []; [unplugged]] ++ [[] ++ [Stop]; []]) = Some s /\
    phase s = Ended /\ descriptors (os s) = {[0; 1; 2]}.
Proof.
  pose proof (proj2 (thread_life (H := 0) (H0 := alwaysRuns) (H1 := exampleEncoders) threadFuel
    [[plugged 0x74]; []; [unplugged]] idle noStores silent (le_n _)) []) as (s & Hr & Hp & Hd).
  exists s. split; [exact Hr|]. split; [exact Hp|]. rewrite Hd. apply set_eq. intros x. unfold silent. cbn. set_solver.
Defined.

(** The same device, computed: the port is open while it is there, and closed after. *)
Example plugged_and_unplugged :
  (fun s => (match phase s with Connected p _ => Some (Port.descriptor (openPort p)) | _ => None end, openFds (os s)))
    <$> ran 10 [[plugged 0x74]; []] = Some (Some 3, [3; 0; 1; 2]) /\
  (fun s => (match phase s with Connected p _ => Some (Port.descriptor (openPort p)) | _ => None end, openFds (os s)))
    <$> ran 10 [[plugged 0x74]; []; [unplugged]] = Some (None, [0; 1; 2]).
Proof. by vm_compute. Qed.

(** A path that cannot be opened is announced, and tried again a second later. *)
Lemma open_failure_announced `{Oob} `{SqliteEnv} {W} `{Port.TermiosLib} `{Port.Posix W} `{Patience W} fuel path s p w :
  Port.open path Port.newPort (os s) = (false, p, w) ->
  connect fuel path s
  = Some (mkState (W := W) Waiting (publish (DaemonErrorOpenFailed path) (daemon s)) (stores s) (Port.sleep_ms OPEN_BACKOFF_MS w)).
Proof. unfold connect. by intros ->. Qed.

(** Only the presence of a path is looked at between turns: a device that was replaced
    while a turn ran leaves the thread on the descriptor of the first. *)
Theorem replug_unnoticed `{Oob} `{SqliteEnv} `{GeneratedEncoders} {W} `{Port.TermiosLib} `{Port.Posix W} `{Patience W}
    fuel hs (s s' : State (W := W)) p t device :
  phase s = Connected p t -> running (daemon (hear hs s)) = true -> path (daemon (hear hs s)) = Some device ->
  step fuel hs s = Some s' -> exists t', phase s' = Connected p t'.
Proof.
  intros Hp Hr Hd. unfold step, turn. assert (phase (hear hs s) = Connected p t) as -> by (unfold hear; by rewrite Hp).
  unfold sessionTurn. cbn [Session.daemon]. rewrite Hr, Hd. cbn [negb]. destruct (popRequest _) as [[r|] d].
  - destruct (dispatchRequest _ _ _ _) as [[t1 w1]|]; [|done]. intros [= <-]. eauto.
  - destruct (pumpOnce _ _ _ _) as [[b t1] w1]. intros [= <-]. eauto.
Qed.

Example replugged :
  (fun s => (match phase s with Connected p _ => Some (Port.devicePath (openPort p)) | _ => None end, path (daemon s)))
    <$> ran 10 [[plugged 0x74]; [unplugged; plugged 0x75]; []; []] = Some (Some [0x74], Some [0x75]).
Proof. by vm_compute. Qed.

(** What was asked for before the device was there is dropped, without the failed
    completion a request gets that cannot be sent. *)
Example early_requests_dropped :
  (fun s => (length (queue (daemon s)), bus (daemon s))) <$> ran 10 [[Bus (Command 7 9 (SendDataCommand [0x20; 1; 0xFF]))]]
    = Some (1%nat, [SessionStatus false 0 0]) /\
  (fun s => (length (queue (daemon s)), bus (daemon s)))
    <$> ran 10 [[Bus (Command 7 9 (SendDataCommand [0x20; 1; 0xFF]))]; [plugged 0x74]]
    = Some (0%nat, [SessionStatus false 0 0; DaemonErrorIntrospection]).
Proof. by vm_compute. Qed.
