(* ===== verification/InterviewOrchestrator.v ===== *)
(** * The interview of an included node

    [orchestrator/InterviewOrchestrator.cpp]: per node the list of questions its
    command classes call for, asked one after the other, live or, for a node that
    sleeps, through [PendingQueue].  Handlers return what they publish, in order. *)

From Stdlib Require Import String.
From S2P Require Import Prelude CommandClasses Sqlite PendingQueue.
From stdpp Require Import gmap strings.
#[local] Open Scope Z_scope.

Module Interview.

Definition CC_MULTI_CHANNEL : Z := 0x60.
Definition CC_ZWAVEPLUS_INFO : Z := 0x5E.
Definition CC_WAKE_UP : Z := 0x84.
Definition CC_SECURITY_0 : Z := 0x98.
Definition CC_SECURITY_2 : Z := 0x9F.
Definition NO_CALLBACK : Z := 0x00.
Definition SCHEME_NONE : Z := 0x00.

Definition MANUFACTURER_SPECIFIC_GET : Z := 0x04.
Definition VERSION_GET : Z := 0x11.
Definition MULTI_CHANNEL_ENDPOINT_GET : Z := 0x07.
Definition ZWAVEPLUS_INFO_GET : Z := 0x01.

(** [enum class Step] *)
Inductive Step := AskManufacturer | AskVersion | AskEndpoints | AskZWavePlus.

#[global] Instance Step_eq_dec : EqDecision Step.
Proof. solve_decision. Defined.

Record Session := mkSession { steps : list Step; index : nat; started : bool; viaQueue : bool }.

Definition payloadForStep (s : Step) : list Z :=
  match s with
  | AskManufacturer => [ManufacturerSpecific.COMMAND_CLASS; MANUFACTURER_SPECIFIC_GET]
  | AskVersion => [NodeVersion.COMMAND_CLASS; VERSION_GET]
  | AskEndpoints => [MultiChannel.COMMAND_CLASS; MULTI_CHANNEL_ENDPOINT_GET]
  | AskZWavePlus => [ZWavePlusInfo.COMMAND_CLASS; ZWAVEPLUS_INFO_GET]
  end.

(** What is published: the four questions, and the end of an interview. *)
Inductive Bus :=
| GetManufacturerSpecificCommand (nodeId callbackId : Z)
| GetNodeVersionCommand (nodeId callbackId : Z)
| GetMultiChannelEndpointsCommand (nodeId callbackId : Z)
| GetZWavePlusInfoCommand (nodeId callbackId : Z)
| NodeInterviewComplete (nodeId : Z)
| Stored (e : Queue.Event).

(** The sessions, with the pending queue they use. *)
Record State := mkState { sessions : gmap Z Session; pending : Queue.State }.

Definition withSession (nodeId : Z) (s : Session) (st : State) : State :=
  mkState (<[nodeId := s]> (sessions st)) (pending st).

Definition sendStep (nodeId : Z) (s : Step) : Bus :=
  match s with
  | AskManufacturer => GetManufacturerSpecificCommand nodeId NO_CALLBACK
  | AskVersion => GetNodeVersionCommand nodeId NO_CALLBACK
  | AskEndpoints => GetMultiChannelEndpointsCommand nodeId NO_CALLBACK
  | AskZWavePlus => GetZWavePlusInfoCommand nodeId NO_CALLBACK
  end.

Section Handlers.
Context `{SqliteEnv} (nullData : bool).

(** The queueing loop of [beginInterview]; [now] is the time of the entries. *)
Fixpoint enqueueSteps (nodeId now : Z) (l : list Step) (q : Queue.State) : list Bus * Queue.State :=
  match l with
  | [] => ([], q)
  | s :: l =>
      let (ev, q) := Queue.enqueue nullData nodeId (payloadForStep s) Queue.PRIORITY_NORMAL now q in
      let (evs, q) := enqueueSteps nodeId now l q in ((Stored <$> ev) ++ evs, q)
  end.

(** [session] is the one the map has for [nodeId]. *)
Definition beginInterview (nodeId now : Z) (session : Session) (st : State) : list Bus * State :=
  let st := withSession nodeId (mkSession (steps session) 0 true (viaQueue session)) st in
  if viaQueue session then
    let (ev, q) := enqueueSteps nodeId now (steps session) (pending st) in (ev, mkState (sessions st) q)
  else (sendStep nodeId <$> take 1 (steps session), st).

Definition advance (nodeId : Z) (completed : Step) (st : State) : list Bus * State :=
  match sessions st !! nodeId with
  | None => ([], st)
  | Some session =>
      if negb (started session) then ([], st) else
      match steps session !! index session with
      | None => ([], st)
      | Some awaited =>
          if negb (bool_decide (awaited = completed)) then ([], st) else
          let i := S (index session) in
          match steps session !! i with
          | None => ([NodeInterviewComplete nodeId], mkState (delete nodeId (sessions st)) (pending st))
          | Some next =>
              (if viaQueue session then [] else [sendStep nodeId next],
               withSession nodeId (mkSession (steps session) i (started session) (viaQueue session)) st)
          end
      end
  end.

(** [std::find(ccs.begin(), ccs.end(), cls) != ccs.end()] *)
Definition has (ccs : list Z) (cls : Z) : bool := bool_decide (cls ∈ ccs).

(** The questions for a node information frame, in order. *)
Definition stepsFor (ccs : list Z) : list Step :=
  [AskManufacturer; AskVersion] ++ (if has ccs CC_MULTI_CHANNEL then [AskEndpoints] else [])
  ++ (if has ccs CC_ZWAVEPLUS_INFO then [AskZWavePlus] else []).

Definition onNodeIncluded (nodeId : Z) (ccs : list Z) (now : Z) (st : State) : list Bus * State :=
  let session := mkSession (stepsFor ccs) 0 false (has ccs CC_WAKE_UP) in
  let st := withSession nodeId session st in
  if has ccs CC_SECURITY_0 || has ccs CC_SECURITY_2 then ([], st) else beginInterview nodeId now session st.

Definition onNodeSecurityStatus (nodeId scheme now : Z) (st : State) : list Bus * State :=
  if scheme =? SCHEME_NONE then ([], st) else
  match sessions st !! nodeId with
  | Some session => if negb (started session) then beginInterview nodeId now session st else ([], st)
  | None => ([], st)
  end.

(** The subscriptions. *)
Inductive Input :=
| NodeIncluded (nodeId : Z) (ccs : list Z) (now : Z)
| NodeSecurityStatus (nodeId scheme now : Z)
| Report (nodeId : Z) (s : Step).

Definition step (i : Input) (st : State) : list Bus * State :=
  match i with
  | NodeIncluded n ccs now => onNodeIncluded n ccs now st
  | NodeSecurityStatus n scheme now => onNodeSecurityStatus n scheme now st
  | Report n s => advance n s st
  end.

Fixpoint run (ins : list Input) (st : State) : list Bus * State :=
  match ins with
  | [] => ([], st)
  | i :: ins => let (out, st) := step i st in let (outs, st) := run ins st in (out ++ outs, st)
  end.
End Handlers.
End Interview.

Import Interview.

(** ** One question at a time, in order *)

(** What is left of a list of questions after reports that answer its head. *)
Fixpoint unanswered (qs reports : list Step) : list Step :=
  match reports with
  | [] => qs
  | r :: reports =>
      match qs with
      | [] => []
      | q :: qs' => if decide (q = r) then unanswered qs' reports else unanswered qs reports
      end
  end.

Definition reportsOf (n : Z) (ins : list Input) : list Step :=
  omap (fun i => match i with Report n' s => if decide (n' = n) then Some s else None | _ => None end) ins.

(** What is published about a node, the queue's own events aside. *)
Definition concerns (n : Z) (b : Bus) : Prop :=
  match b with
  | GetManufacturerSpecificCommand n' _ | GetNodeVersionCommand n' _ | GetMultiChannelEndpointsCommand n' _
  | GetZWavePlusInfoCommand n' _ | NodeInterviewComplete n' => n' = n
  | Stored _ => False
  end.
#[global] Instance concerns_dec n b : Decision (concerns n b).
Proof. destruct b; cbn; apply _. Defined.

(** The inputs that leave the session of [n] to its reports. *)
Definition keeps (n : Z) (i : Input) : Prop :=
  match i with NodeIncluded n' _ _ => n' <> n | _ => True end.

Lemma unanswered_nil rs : unanswered [] rs = [].
Proof. by destruct rs. Qed.

Lemma unanswered_done qs rs : unanswered qs rs = [] <-> sublist qs rs.
Proof.
  revert qs. induction rs as [|r rs IH]; intros qs; cbn [unanswered].
  - split; [intros ->; constructor|]. by intros ?%sublist_nil_r.
  - destruct qs as [|q qs]; [by split; [intros _; apply sublist_nil_l|]|].
    destruct (decide (q = r)) as [->|Hne]; rewrite IH.
    + split; [by constructor|]. intros Hs. inversion Hs as [| |? ? ? Hs']; subst; [done|].
      etrans; [|exact Hs']. by apply sublist_cons.
    + split; [by apply sublist_cons|]. intros Hs. by inversion Hs; subst.
Qed.

Lemma unanswered_suffix qs rs : exists answered, qs = answered ++ unanswered qs rs.
Proof.
  revert qs. induction rs as [|r rs IH]; intros qs; cbn [unanswered]; [by exists []|].
  destruct qs as [|q qs]; [by exists []|]. destruct (decide (q = r)); [|apply IH].
  destruct (IH qs) as [a Ha]. exists (q :: a). cbn. by f_equal.
Qed.

Section Order.
Context `{SqliteEnv} (nullData : bool).

Lemma enqueueSteps_quiet n n' now l q : filter (concerns n) (enqueueSteps nullData n' now l q).1 = [].
Proof.
  revert q. induction l as [|s l IH]; intros q; cbn [enqueueSteps]; [done|].
  destruct (Queue.enqueue _ _ _ _ _ _) as [ev q1]. specialize (IH q1).
  destruct (enqueueSteps nullData n' now l q1) as [evs q2]. cbn [fst] in *. rewrite filter_app, IH, app_nil_r.
  clear. by induction ev.
Qed.

Lemma sendStep_concerns n n' s : concerns n (sendStep n' s) <-> n' = n.
Proof. by destruct s. Qed.

Lemma sendSteps_concern n (l : list Step) : filter (concerns n) (sendStep n <$> l) = sendStep n <$> l.
Proof.
  induction l as [|s l IH]; [done|]. cbn. rewrite decide_True by by apply sendStep_concerns. f_equal. apply IH.
Qed.

Lemma sendSteps_other n n' (l : list Step) : n' <> n -> filter (concerns n) (sendStep n' <$> l) = [].
Proof.
  intros Hn. induction l as [|s l IH]; [done|]. cbn. rewrite decide_False; [apply IH|]. by rewrite sendStep_concerns.
Qed.

Lemma beginInterview_sessions n now s st :
  sessions (beginInterview nullData n now s st).2 = <[n := mkSession (steps s) 0 true (viaQueue s)]> (sessions st).
Proof. unfold beginInterview. destruct (viaQueue s); [|done]. by destruct (enqueueSteps _ _ _ _ _). Qed.

Lemma beginInterview_out n n' now s st :
  filter (concerns n) (beginInterview nullData n' now s st).1
  = if viaQueue s then [] else if decide (n' = n) then sendStep n <$> take 1 (steps s) else [].
Proof.
  unfold beginInterview. destruct (viaQueue s).
  - match goal with |- context [enqueueSteps ?b ?a ?c ?l ?q] => pose proof (enqueueSteps_quiet n a c l q);
      destruct (enqueueSteps b a c l q) end. done.
  - cbn [fst]. destruct (decide (n' = n)) as [->|]; [apply sendSteps_concern|by apply sendSteps_other].
Qed.

(** An input that is neither a report of [n] nor its inclusion: the session stays,
    unless it is the security status a deferred one waits for. *)
Definition foreign (n : Z) (s : option Session) (i : Input) : Prop :=
  match i with
  | NodeIncluded n' _ _ => n' <> n
  | NodeSecurityStatus n' scheme _ =>
      n' <> n \/ scheme = SCHEME_NONE \/ match s with Some s => started s = true | None => True end
  | Report n' _ => n' <> n \/ match s with Some s => started s = false | None => True end
  end.

Lemma foreign_step n i st :
  foreign n (sessions st !! n) i ->
  filter (concerns n) (step nullData i st).1 = [] /\ sessions (step nullData i st).2 !! n = sessions st !! n.
Proof.
  destruct i as [n' ccs now|n' scheme now|n' s]; cbn [step foreign].
  - intros Hn. unfold onNodeIncluded. destruct (_ || _).
    + split; [done|]. cbn. by rewrite lookup_insert_ne.
    + rewrite beginInterview_sessions, beginInterview_out. cbn. rewrite !lookup_insert_ne by done.
      split; [|done]. destruct (has ccs CC_WAKE_UP); [done|]. by rewrite decide_False.
  - unfold onNodeSecurityStatus. intros Hf. destruct (scheme =? SCHEME_NONE) eqn:Hs; [done|]. apply Z.eqb_neq in Hs.
    destruct (sessions st !! n') as [s'|] eqn:E; [|done]. destruct (negb (started s')) eqn:Hst; [|done].
    assert (n' <> n).
    { intros ->. rewrite E in Hf. destruct Hf as [?|[?|Ht]]; [done|done|]. by rewrite Ht in Hst. }
    rewrite beginInterview_sessions, beginInterview_out, lookup_insert_ne by done. split; [|done].
    destruct (viaQueue s'); [done|]. by rewrite decide_False.
  - intros Hf. unfold advance. destruct (sessions st !! n') as [s'|] eqn:E; [|done].
    destruct (started s') eqn:Hst; cbn [negb]; [|done].
    assert (n' <> n). { intros ->. rewrite E in Hf. destruct Hf; congruence. }
    destruct (steps s' !! index s') as [a|]; [|done]. destruct (negb _); [done|].
    destruct (steps s' !! S (index s')) as [q|]; cbn [fst snd withSession sessions].
    + rewrite lookup_insert_ne by done. split; [|done]. destruct (viaQueue s'); [done|]. by apply (sendSteps_other n n' [q]).
    + rewrite lookup_delete_ne by done. split; [|done]. cbn. by rewrite decide_False.
Qed.


Lemma interview_run_cons n i ins st :
  filter (concerns n) (run nullData (i :: ins) st).1
  = filter (concerns n) (step nullData i st).1 ++ filter (concerns n) (run nullData ins (step nullData i st).2).1.
Proof.
  cbn [run]. destruct (step nullData i st) as [out st1]. cbn [fst snd].
  destruct (run nullData ins st1) as [outs st2]. apply filter_app.
Qed.

Lemma interview_run_snd ins st : (run nullData ins st).2 = foldl (fun st i => (step nullData i st).2) st ins.
Proof.
  revert st. induction ins as [|i ins IH]; intros st; [done|]. cbn [run foldl]. rewrite <-IH.
  destruct (step nullData i st) as [out st1]. cbn [snd]. by destruct (run nullData ins st1).
Qed.

Lemma interview_run_app n ins ins' st :
  filter (concerns n) (run nullData (ins ++ ins') st).1
  = filter (concerns n) (run nullData ins st).1 ++ filter (concerns n) (run nullData ins' (run nullData ins st).2).1.
Proof.
  revert st. induction ins as [|i ins IH]; intros st; [done|]. cbn [app]. rewrite !interview_run_cons, IH, <-app_assoc.
  by rewrite !interview_run_snd.
Qed.

Lemma run_foreign n ins st :
  Forall (foreign n (sessions st !! n)) ins ->
  filter (concerns n) (run nullData ins st).1 = [] /\ sessions (run nullData ins st).2 !! n = sessions st !! n.
Proof.
  rewrite interview_run_snd. revert st. induction ins as [|i ins IH]; intros st Hf; [done|].
  apply Forall_cons in Hf as [Hi Hins]. rewrite interview_run_cons. destruct (foreign_step n i st Hi) as [-> Hs]. cbn [app foldl].
  rewrite <-Hs in Hins. destruct (IH _ Hins) as [-> ->]. by rewrite Hs.
Qed.

(** A report of the node in a started session that has questions left. *)
Lemma advance_report n r s q qs st :
  sessions st !! n = Some s -> started s = true -> drop (index s) (steps s) = q :: qs ->
  step nullData (Report n r) st =
  if decide (q = r) then
    match qs with
    | [] => ([NodeInterviewComplete n], mkState (delete n (sessions st)) (pending st))
    | q' :: _ => (if viaQueue s then [] else [sendStep n q'],
                  withSession n (mkSession (steps s) (S (index s)) true (viaQueue s)) st)
    end
  else ([], st).
Proof.
  intros Hs Hst Hd. cbn [step]. unfold advance. rewrite Hs, Hst. cbn [negb].
  assert (Hq : steps s !! index s = Some q) by by rewrite <-(Nat.add_0_r (index s)), <-lookup_drop, Hd.
  assert (Hn : steps s !! S (index s) = head qs)
    by by rewrite <-Nat.add_1_r, <-lookup_drop, Hd; destruct qs.
  rewrite Hq. case_bool_decide; [rewrite decide_True by done|by rewrite decide_False].
  cbn [negb]. rewrite Hn. by destruct qs.
Qed.

Lemma reportsOf_report n r ins : reportsOf n (Report n r :: ins) = r :: reportsOf n ins.
Proof. unfold reportsOf. cbn. by rewrite decide_True. Qed.

Lemma reports_about n i : (exists r, i = Report n r) \/ ~ (exists r, i = Report n r).
Proof.
  destruct i as [n' ccs now|n' scheme now|n' r]; try (right; by intros [? [=]]). destruct (decide (n' = n)) as [->|Hn]; [left; by eexists|].
  right. by intros [? [= ->]].
Qed.

Lemma run_session n ins st s q qs :
  Forall (keeps n) ins -> sessions st !! n = Some s -> started s = true -> drop (index s) (steps s) = q :: qs ->
  let rest := unanswered (q :: qs) (reportsOf n ins) in
  filter (concerns n) (run nullData ins st).1
  = (if viaQueue s then [] else sendStep n <$> take (S (length qs) - length rest) qs)
    ++ (if decide (rest = []) then [NodeInterviewComplete n] else []).
Proof.
  cbn zeta. revert st s q qs. induction ins as [|i ins IH]; intros st s q qs Hk Hs Hst Hd.
  - cbn [reportsOf omap list_omap unanswered]. rewrite decide_False by done. cbn [length run].
    rewrite Nat.sub_diag. cbn. by destruct (viaQueue s).
  - apply Forall_cons in Hk as [Hi Hk]. rewrite interview_run_cons.
    destruct (reports_about n i) as [[r ->]|Hr].
    + rewrite (advance_report n r s q qs), reportsOf_report by done.
      cbn [unanswered]. destruct (decide (q = r)) as [->|Hne]; [|by eapply IH].
      destruct qs as [|q' qs]; cbn [fst snd].
      * rewrite unanswered_nil. cbn. rewrite !decide_True by done.
        match goal with |- context [run nullData ins ?st1] => destruct (run_foreign n ins st1) as [-> _] end.
        { cbn [sessions]. rewrite lookup_delete_eq. eapply Forall_impl; [exact Hk|]. intros [| |]; cbn; auto. }
        cbn. by destruct (viaQueue s).
      * erewrite (IH (withSession n (mkSession (steps s) (S (index s)) true (viaQueue s)) st)
          (mkSession (steps s) (S (index s)) true (viaQueue s)) q' qs);
          [|done|by cbn; rewrite lookup_insert_eq|done|].
        2:{ cbn [index steps]. by rewrite <-(Nat.add_1_r (index s)), <-drop_drop, Hd. }
        cbn [viaQueue]. set (rest := unanswered (q' :: qs) (reportsOf n ins)).
        assert (Hle : (length rest <= S (length qs))%nat).
        { destruct (unanswered_suffix (q' :: qs) (reportsOf n ins)) as [a Ha]. fold rest in Ha.
          apply (f_equal length) in Ha. rewrite length_app in Ha. cbn [length] in Ha. lia. }
        destruct (viaQueue s); [done|]. cbn [length]. rewrite (Nat.sub_succ_l (length rest) (S (length qs)) Hle).
        rewrite firstn_cons, fmap_cons. cbn [app]. rewrite filter_cons_True by by apply sendStep_concerns.
        by rewrite filter_nil.
    + destruct (foreign_step n i st) as [-> Hs'].
      { rewrite Hs. destruct i; cbn in *; auto. left. intros ->. apply Hr. by eexists. }
      assert (reportsOf n (i :: ins) = reportsOf n ins) as ->.
      { destruct i as [| |n' r]; try done. cbn. rewrite decide_False; [done|]. intros ->. apply Hr. by eexists. }
      eapply IH; [done|by rewrite Hs'|done|done].
Qed.
End Order.

Definition secureNode (ccs : list Z) : bool := has ccs CC_SECURITY_0 || has ccs CC_SECURITY_2.

(** The inputs that do not report [n] as secure. *)
Definition notSecured (n : Z) (i : Input) : Prop :=
  match i with NodeSecurityStatus n' scheme _ => n' <> n \/ scheme = SCHEME_NONE | _ => True end.

Lemma included_session `{SqliteEnv} nullData n ccs now st :
  let r := step nullData (NodeIncluded n ccs now) st in
  filter (concerns n) r.1
  = (if secureNode ccs || has ccs CC_WAKE_UP then [] else [sendStep n AskManufacturer]) /\
  sessions r.2 !! n = Some (mkSession (stepsFor ccs) 0 (negb (secureNode ccs)) (has ccs CC_WAKE_UP)).
Proof.
  cbn zeta. cbn [step]. unfold onNodeIncluded. fold (secureNode ccs). destruct (secureNode ccs).
  - split; [done|]. cbn. by rewrite lookup_insert_eq.
  - rewrite beginInterview_out, beginInterview_sessions. cbn [viaQueue steps].
    rewrite lookup_insert_eq, decide_True by done. split; [|done]. by destruct (has ccs CC_WAKE_UP).
Qed.

Lemma secured_session `{SqliteEnv} nullData n scheme now s st :
  scheme <> SCHEME_NONE -> sessions st !! n = Some s -> started s = false ->
  let r := step nullData (NodeSecurityStatus n scheme now) st in
  filter (concerns n) r.1 = (if viaQueue s then [] else sendStep n <$> take 1 (steps s)) /\
  sessions r.2 !! n = Some (mkSession (steps s) 0 true (viaQueue s)).
Proof.
  intros Hn Hs Hst. cbn zeta. cbn [step]. unfold onNodeSecurityStatus.
  rewrite (proj2 (Z.eqb_neq _ _) Hn), Hs, Hst. cbn [negb].
  by rewrite beginInterview_out, beginInterview_sessions, lookup_insert_eq, decide_True.
Qed.

(** C24: an interview asks its questions one at a time and in the order of the node's
    list, the next one only when the previous is answered, whatever else arrives
    between; it is reported complete exactly once, and exactly when the answers came
    in that order.  A node that advertises a security class is asked nothing before it
    is reported secure; a sleeping node is asked nothing live. *)
Theorem interview_in_order `{SqliteEnv} nullData n ccs now pre scheme now' ins st :
  Forall (keeps n) (pre ++ ins) -> Forall (notSecured n) pre -> scheme <> SCHEME_NONE ->
  let start := if secureNode ccs then pre ++ [NodeSecurityStatus n scheme now'] else [] in
  let out l := filter (concerns n) (run nullData (NodeIncluded n ccs now :: l) st).1 in
  let rest := unanswered (stepsFor ccs) (reportsOf n ins) in
  (secureNode ccs = true -> out pre = []) /\
  out (start ++ ins)
  = (if has ccs CC_WAKE_UP then []
     else sendStep n <$> take (S (length (stepsFor ccs) - length rest)) (stepsFor ccs))
    ++ (if decide (rest = []) then [NodeInterviewComplete n] else []) /\
  (rest = [] <-> sublist (stepsFor ccs) (reportsOf n ins)).
Proof.
  intros [Hpre Hins]%Forall_app Hns Hsc. cbn zeta.
  destruct (included_session nullData n ccs now st) as [Ho Hs].
  set (st1 := (step nullData (NodeIncluded n ccs now) st).2) in *.
  assert (Hw : secureNode ccs = true ->
    filter (concerns n) (run nullData pre st1).1 = [] /\
    sessions (run nullData pre st1).2 !! n = Some (mkSession (stepsFor ccs) 0 false (has ccs CC_WAKE_UP))).
  { intros Hsec. rewrite Hsec in Hs. destruct (run_foreign nullData n pre st1) as [H1 H2]; [|by rewrite H2, Hs].
    rewrite Hs. apply Forall_forall. intros i Hi. rewrite Forall_forall in Hpre, Hns.
    specialize (Hpre i Hi). specialize (Hns i Hi). destruct i; cbn in *; tauto. }
  assert (Hq : stepsFor ccs = AskManufacturer :: tail (stepsFor ccs)) by done.
  split_and!; [..|apply unanswered_done].
  - intros Hsec. rewrite interview_run_cons, Ho, Hsec. by apply Hw.
  - rewrite interview_run_cons, Ho. fold st1. destruct (secureNode ccs) eqn:Hsec; cbn [orb app].
    + destruct (Hw eq_refl) as [Hw1 Hw2]. rewrite <-app_assoc, interview_run_app, Hw1. cbn [app]. rewrite interview_run_cons.
      destruct (secured_session nullData n scheme now' _ _ Hsc Hw2 eq_refl) as [-> Hs2].
      erewrite run_session; [|done|exact Hs2|done|exact Hq]. cbn [viaQueue steps].
      rewrite app_assoc. f_equal. destruct (has ccs CC_WAKE_UP); [done|]. by rewrite Hq, firstn_cons.
    + erewrite run_session; [|done|exact Hs|done|exact Hq]. cbn [viaQueue].
      rewrite app_assoc. f_equal. destruct (has ccs CC_WAKE_UP); [done|]. by rewrite Hq, firstn_cons.
Qed.

Lemma interview_in_order_witness :
  let nif := [0x25; 0x60; 0x9F] in
  let st := Interview.mkState ∅ (Queue.mkState (mkDb false (Queue.mkTable [] 0) 0) None 0) in
  filter (concerns 7) (run (H := alwaysRuns) false
    (NodeIncluded 7 nif 0 :: ([Report 7 AskManufacturer] ++ [NodeSecurityStatus 7 2 0])
       ++ [Report 7 AskManufacturer; Report 7 AskEndpoints; Report 9 AskVersion; Report 7 AskVersion]) st).1
  = [GetManufacturerSpecificCommand 7 0; GetNodeVersionCommand 7 0; GetMultiChannelEndpointsCommand 7 0].
Proof.
  cbn zeta.
  refine (proj1 (proj2 (interview_in_order (H := alwaysRuns) false 7 [0x25; 0x60; 0x9F] 0
    [Report 7 AskManufacturer] 2 0
    [Report 7 AskManufacturer; Report 7 AskEndpoints; Report 9 AskVersion; Report 7 AskVersion]
    (Interview.mkState ∅ (Queue.mkState (mkDb false (Queue.mkTable [] 0) 0) None 0)) _ _ _)));
    [by repeat constructor|by repeat constructor|done].
Defined.

(** ** Sleeping nodes *)

Section Sleeping.
Context `{e : SqliteEnv} (He : reliable e) (nullData : bool).

Lemma enqueueSteps_refines n now l q s home :
  Queue.refines q s -> Queue.Spec.home s = Some home ->
  exists s', Queue.refines (enqueueSteps nullData n now l q).2 s' /\ Queue.Spec.home s' = Some home /\
    Queue.Spec.queueOf (home, n) s'
    = foldl (fun w p => Queue.Spec.insert (Queue.PRIORITY_NORMAL, p) w) (Queue.Spec.queueOf (home, n) s) (payloadForStep <$> l).
Proof.
  revert q s. induction l as [|x l IH]; intros q s Hr Hh; cbn [enqueueSteps fmap list_fmap foldl]; [by exists s|].
  pose proof (Queue.enqueue_refines nullData He n (payloadForStep x) Queue.PRIORITY_NORMAL now q s Hr) as Hr1.
  destruct (Queue.enqueue nullData n (payloadForStep x) Queue.PRIORITY_NORMAL now q) as [ev q1]. cbn [snd] in Hr1.
  cbn [Queue.Spec.step] in Hr1. rewrite Hh, decide_False in Hr1 by by destruct x. cbn [snd] in Hr1.
  destruct (IH q1 _ Hr1 eq_refl) as (s' & H1 & H2 & H3). exists s'.
  destruct (enqueueSteps nullData n now l q1) as [evs q2]. split_and!; [done|done|]. rewrite H3.
  unfold Queue.Spec.queueOf. cbn [Queue.Spec.waiting]. by rewrite lookup_insert_eq.
Qed.

Lemma insert_same_priority p (w : list (Z * list Z)) x :
  Forall (fun c : Z * list Z => c.1 <= p) w -> Queue.Spec.insert (p, x) w = w ++ [(p, x)].
Proof.
  induction 1 as [|c w Hc _ IH]; [done|]. cbn. rewrite (proj2 (Z.leb_le _ _) Hc). by rewrite IH.
Qed.

Lemma insert_all_same_priority p (l : list (list Z)) (w : list (Z * list Z)) :
  Forall (fun c : Z * list Z => c.1 <= p) w ->
  foldl (fun w x => Queue.Spec.insert (p, x) w) w l = w ++ (pair p <$> l).
Proof.
  revert w. induction l as [|x l IH]; intros w Hw; cbn; [by rewrite app_nil_r|].
  rewrite insert_same_priority by done. rewrite IH.
  - by rewrite <-app_assoc.
  - apply Forall_app_2; [done|]. by repeat constructor.
Qed.
End Sleeping.

(** The interview of a sleeping node waits in the pending queue behind what is at
    least as urgent, and the next wake-up sends its questions, all of them and in
    order.  The queue outlives the daemon and the session does not: after a restart
    the questions still go out, and no answer leads to anything any more. *)
Theorem sleeping_interview_queued (e : SqliteEnv) nullData n ccs now st s home :
  reliable e -> has ccs CC_WAKE_UP = true -> secureNode ccs = false ->
  Queue.refines (pending st) s -> Queue.Spec.home s = Some home ->
  Forall (fun c : Z * list Z => c.1 <= Queue.PRIORITY_NORMAL) (Queue.Spec.queueOf (home, n) s) ->
  let st' := (step nullData (NodeIncluded n ccs now) st).2 in
  Queue.sent (Queue.onWakeUpNotification n (pending st')).1
  = (Queue.Command n <$> (Queue.Spec.queueOf (home, n) s).*2) ++ (Queue.Command n ∘ payloadForStep <$> stepsFor ccs)
    ++ [Queue.Sleep n] /\
  forall answers, filter (concerns n) (run nullData (Report n <$> answers) (Interview.mkState ∅ (pending st'))).1 = [].
Proof.
  intros He Hw Hsec Hr Hh Hp. cbn zeta. split.
  - assert (exists s', Queue.refines (pending (step nullData (NodeIncluded n ccs now) st).2) s' /\
      Queue.Spec.home s' = Some home /\ Queue.Spec.queueOf (home, n) s'
      = Queue.Spec.queueOf (home, n) s ++ (pair Queue.PRIORITY_NORMAL <$> (payloadForStep <$> stepsFor ccs)))
      as (s' & H1 & H2 & H3).
    { destruct (enqueueSteps_refines He nullData n now (stepsFor ccs) (pending st) s home Hr Hh) as (s' & H1 & H2 & H3).
      exists s'. rewrite insert_all_same_priority in H3 by done. split_and!; [|done|done].
      cbn [step]. unfold onNodeIncluded. fold (secureNode ccs). rewrite Hsec. unfold beginInterview.
      cbn [viaQueue steps withSession pending sessions]. rewrite Hw.
      by destruct (enqueueSteps nullData n now (stepsFor ccs) (pending st)). }
    destruct (Queue.step_refines nullData He (Queue.WakeUp n) _ _ H1) as [Hsent _]. cbn [Queue.step] in Hsent.
    rewrite Hsent. cbn [Queue.Spec.step]. rewrite H2. cbn [fst]. rewrite H3, !fmap_app, <-app_assoc. do 2 f_equal.
    by rewrite <-!list_fmap_compose.
  - intros answers. apply run_foreign. cbn [sessions]. rewrite lookup_empty.
    apply Forall_fmap, Forall_true. intros x. cbn. by right.
Qed.

Lemma sleeping_interview_queued_witness :
  let st := Interview.mkState ∅ (Queue.mkState (mkDb true (Queue.mkTable [] 0) 0) (Some "C0FFEE00"%string) 0) in
  Queue.sent (Queue.onWakeUpNotification (H := alwaysRuns) 7
    (pending (step (H := alwaysRuns) false (NodeIncluded 7 [0x30; 0x84] 5) st).2)).1
  = [Queue.Command 7 [0x72; 0x04]; Queue.Command 7 [0x86; 0x11]; Queue.Sleep 7].
Proof.
  cbn zeta.
  refine (proj1 (sleeping_interview_queued alwaysRuns false 7 [0x30; 0x84] 5
    (Interview.mkState ∅ (Queue.mkState (mkDb true (Queue.mkTable [] 0) 0) (Some "C0FFEE00"%string) 0))
    (Queue.Spec.mk ∅ (Some "C0FFEE00"%string)) "C0FFEE00"%string alwaysRuns_reliable eq_refl eq_refl _ eq_refl _));
    [|by repeat constructor].
  by split; [..|constructor|].
Defined.
