(* ===== verification/InclusionOrchestrator.v ===== *)
(** * The set-up of an included node

    [orchestrator/InclusionOrchestrator.cpp]: the lifeline when a node joins, and its
    policy when its interview is done; and the set-up as a whole, with the interview
    and the policy register. *)

From Stdlib Require Import String.
From S2P Require Import Prelude Sqlite PendingQueue PolicyRegister InterviewOrchestrator.
From stdpp Require Import gmap strings.
#[local] Open Scope Z_scope.

Module Inclusion.

Definition CC_CONFIGURATION : Z := 0x70.
Definition CC_WAKE_UP : Z := 0x84.
Definition CC_ASSOCIATION : Z := 0x85.
Definition CC_MARK : Z := 0xEF.
Definition LIFELINE_GROUP_ID : Z := 1.
Definition NO_CALLBACK : Z := 0x00.

Record SupportedCcs := mkSupported { association : bool; configuration : bool; wakeUp : bool }.
Definition noCcs : SupportedCcs := mkSupported false false false.

(** The loop of [scanSupported] with [found] so far. *)
Fixpoint scanFrom (found : SupportedCcs) (commandClasses : list Z) : SupportedCcs :=
  match commandClasses with
  | [] => found
  | cls :: rest =>
      if cls =? CC_MARK then found
      else if cls =? CC_ASSOCIATION then scanFrom (mkSupported true (configuration found) (wakeUp found)) rest
      else if cls =? CC_CONFIGURATION then scanFrom (mkSupported (association found) true (wakeUp found)) rest
      else if cls =? CC_WAKE_UP then scanFrom (mkSupported (association found) (configuration found) true) rest
      else scanFrom found rest
  end.

Definition scanSupported : list Z -> SupportedCcs := scanFrom noCcs.

Inductive Bus :=
| SetConfigurationCommand (nodeId parameter size : Z) (isSigned : bool) (value callbackId : Z)
| SetAssociationCommand (nodeId groupId : Z) (members : list Z) (callbackId : Z)
| SetWakeUpIntervalCommand (nodeId seconds controllerNodeId callbackId : Z)
| InclusionLifelineSet (nodeId : Z)
| DaemonErrorNoController
| InclusionPolicyApplied (nodeId entriesApplied : Z)
| InclusionComplete (nodeId : Z).

Record State := mkState {
  controllerNodeId : option Z;
  autoLifeline : bool;
  pendingPolicy : gmap Z SupportedCcs }.

(** The command for one entry, [None] where [applyPolicyEntry] returns false. *)
Definition applyPolicyEntry (nodeId : Z) (supported : SupportedCcs) (controller : option Z) (e : Policy.Entry) : option Bus :=
  match e with
  | Policy.ConfigurationEntry parameter size isSigned value =>
      if negb (configuration supported) then None
      else Some (SetConfigurationCommand nodeId parameter size isSigned value NO_CALLBACK)
  | Policy.AssociationEntry groupId members =>
      if negb (association supported) then None else Some (SetAssociationCommand nodeId groupId members NO_CALLBACK)
  | Policy.WakeUpEntry intervalSeconds notificationNodeId =>
      if negb (wakeUp supported) then None
      else
        let notify := if negb (notificationNodeId =? 0) then notificationNodeId else default 0 controller in
        Some (SetWakeUpIntervalCommand nodeId intervalSeconds notify NO_CALLBACK)
  end.

Definition onNodeIncluded (nodeId : Z) (commandClasses : list Z) (st : State) : list Bus * State :=
  let supported := scanSupported commandClasses in
  let out :=
    if association supported && autoLifeline st then
      match controllerNodeId st with
      | Some controller =>
          [SetAssociationCommand nodeId LIFELINE_GROUP_ID [controller] NO_CALLBACK; InclusionLifelineSet nodeId]
      | None => [DaemonErrorNoController]
      end
    else [] in
  (out, mkState (controllerNodeId st) (autoLifeline st) (<[nodeId := supported]> (pendingPolicy st))).

(** With the policy register it reads. *)
Definition onNodeInterviewComplete `{Oob} `{SqliteEnv} (nodeId : Z) (reg : Register.State) (st : State)
    : list Bus * Register.State * State :=
  let supported := default noCcs (pendingPolicy st !! nodeId) in
  let st := mkState (controllerNodeId st) (autoLifeline st) (delete nodeId (pendingPolicy st)) in
  let (policy, reg) := Register.effectivePolicy nodeId reg in
  let applied := omap (applyPolicyEntry nodeId supported (controllerNodeId st)) policy in
  (applied ++ [InclusionPolicyApplied nodeId (u32 (zlen applied)); InclusionComplete nodeId], reg, st).

Definition onDongleInfo (controller : Z) (st : State) : State :=
  mkState (Some controller) (autoLifeline st) (pendingPolicy st).
Definition onBehaviorConfig (lifeline : bool) (st : State) : State :=
  mkState (controllerNodeId st) lifeline (pendingPolicy st).

End Inclusion.

(** ** The three together *)

Module Setup.

Inductive Bus := FromInterview (b : Interview.Bus) | FromInclusion (b : Inclusion.Bus).

Record State := mkState {
  interviews : Interview.State;
  inclusion : Inclusion.State;
  register : Register.State }.

(** What reaches them: a node joined, a node became secure, a typed report came, that
    of the manufacturer with the device it names. *)
Inductive Input :=
| NodeIncluded (nodeId : Z) (ccs : list Z) (now : Z)
| NodeSecurityStatus (nodeId scheme now : Z)
| ManufacturerSpecificReport (nodeId : Z) (device : Register.DeviceId)
| NodeVersionReport (nodeId : Z)
| MultiChannelEndPointReport (nodeId : Z)
| ZWavePlusInfoReport (nodeId : Z).

(** The input as the interview sees it. *)
Definition asInterview (i : Input) : Interview.Input :=
  match i with
  | NodeIncluded n ccs now => Interview.NodeIncluded n ccs now
  | NodeSecurityStatus n scheme now => Interview.NodeSecurityStatus n scheme now
  | ManufacturerSpecificReport n _ => Interview.Report n Interview.AskManufacturer
  | NodeVersionReport n => Interview.Report n Interview.AskVersion
  | MultiChannelEndPointReport n => Interview.Report n Interview.AskEndpoints
  | ZWavePlusInfoReport n => Interview.Report n Interview.AskZWavePlus
  end.

Section Handlers.
Context `{Oob} `{SqliteEnv} (nullData : bool).

(** The nested dispatch of what the interview publishes. *)
Fixpoint deliver (l : list Interview.Bus) (st : State) : list Bus * State :=
  match l with
  | [] => ([], st)
  | b :: l =>
      let (out, st) :=
        match b with
        | Interview.NodeInterviewComplete n =>
            let '(o, reg, i) := Inclusion.onNodeInterviewComplete n (register st) (inclusion st) in
            (FromInclusion <$> o, mkState (interviews st) i reg)
        | _ => ([], st)
        end in
      let (outs, st) := deliver l st in (FromInterview b :: out ++ outs, st)
  end.

(** The subscribers ahead of the interview, and the one behind it: [PolicyRegister]
    subscribes when it is first used, after the orchestrators. *)
Definition before (i : Input) (st : State) : list Bus * State :=
  match i with
  | NodeIncluded n ccs _ =>
      let (o, inc) := Inclusion.onNodeIncluded n ccs (inclusion st) in
      (FromInclusion <$> o, mkState (interviews st) inc (register st))
  | _ => ([], st)
  end.

Definition behind (i : Input) (st : State) : State :=
  match i with
  | ManufacturerSpecificReport n d => mkState (interviews st) (inclusion st) (Register.noteDeviceIdentity n d (register st))
  | _ => st
  end.

(** One bus event. *)
Definition step (i : Input) (st : State) : list Bus * State :=
  let (out, st) := before i st in
  let (o, ivs) := Interview.step nullData (asInterview i) (interviews st) in
  let (outs, st) := deliver o (mkState ivs (inclusion st) (register st)) in
  (out ++ outs, behind i st).

Fixpoint run (ins : list Input) (st : State) : list Bus * State :=
  match ins with
  | [] => ([], st)
  | i :: ins => let (out, st) := step i st in let (outs, st) := run ins st in (out ++ outs, st)
  end.
End Handlers.
End Setup.

Import Inclusion Setup.

(** ** What the policy step may send *)

(** The command classes a node answers: those before the mark. *)
Fixpoint supportedHalf (ccs : list Z) : list Z :=
  match ccs with [] => [] | cls :: rest => if decide (cls = CC_MARK) then [] else cls :: supportedHalf rest end.

Definition classOf (e : Policy.Entry) : Z :=
  match e with
  | Policy.ConfigurationEntry _ _ _ _ => 0x70
  | Policy.AssociationEntry _ _ => 0x85
  | Policy.WakeUpEntry _ _ => 0x84
  end.

(** The command that puts an entry into force. *)
Definition commandOf (n controller : Z) (e : Policy.Entry) : Inclusion.Bus :=
  match e with
  | Policy.ConfigurationEntry parameter size isSigned value => SetConfigurationCommand n parameter size isSigned value 0
  | Policy.AssociationEntry groupId members => SetAssociationCommand n groupId members 0
  | Policy.WakeUpEntry seconds node => SetWakeUpIntervalCommand n seconds (if decide (node = 0) then controller else node) 0
  end.

Lemma scanFrom_spec f ccs :
  association (scanFrom f ccs) = association f || bool_decide (CC_ASSOCIATION ∈ supportedHalf ccs) /\
  configuration (scanFrom f ccs) = configuration f || bool_decide (CC_CONFIGURATION ∈ supportedHalf ccs) /\
  wakeUp (scanFrom f ccs) = wakeUp f || bool_decide (Inclusion.CC_WAKE_UP ∈ supportedHalf ccs).
Proof.
  revert f. induction ccs as [|c ccs IH]; intros f; cbn [scanFrom supportedHalf].
  - rewrite !bool_decide_eq_false_2 by by intros ?%elem_of_nil. by rewrite !orb_false_r.
  - destruct (Z.eqb_spec c CC_MARK) as [->|Hm].
    + rewrite decide_True by done. rewrite !bool_decide_eq_false_2 by by intros ?%elem_of_nil. by rewrite !orb_false_r.
    + rewrite decide_False by done.
      assert (Hd : forall x, bool_decide (x ∈ c :: supportedHalf ccs) = (x =? c) || bool_decide (x ∈ supportedHalf ccs)).
      { intros x. destruct (Z.eqb_spec x c) as [->|]; cbn [orb].
        - apply bool_decide_eq_true_2. constructor.
        - apply bool_decide_ext. rewrite elem_of_cons. tauto. }
      rewrite !Hd, (Z.eqb_sym _ c), (Z.eqb_sym CC_CONFIGURATION c), (Z.eqb_sym Inclusion.CC_WAKE_UP c).
      destruct (Z.eqb_spec c CC_ASSOCIATION) as [->|]; [|destruct (Z.eqb_spec c CC_CONFIGURATION) as [->|];
        [|destruct (Z.eqb_spec c Inclusion.CC_WAKE_UP) as [->|]]];
        cbn [scanFrom association configuration wakeUp];
        (match goal with |- context [scanFrom ?f ccs] => destruct (IH f) as (-> & -> & ->) end);
        cbn [association configuration wakeUp orb]; rewrite ?orb_true_r, ?orb_false_r; done.
Qed.

Lemma applied_spec n ccs controller (p : Policy.t) :
  omap (applyPolicyEntry n (scanSupported ccs) (Some controller)) p
  = commandOf n controller <$> filter (fun e => classOf e ∈ supportedHalf ccs) p.
Proof.
  destruct (scanFrom_spec noCcs ccs) as (Ha & Hc & Hw). fold (scanSupported ccs) in Ha, Hc, Hw. cbn in Ha, Hc, Hw.
  induction p as [|e p IH]; [done|]. cbn [omap list_omap]. rewrite IH. rewrite filter_cons.
  destruct e as [pa si sg va|g ms|sec no]; cbn [applyPolicyEntry classOf]; rewrite ?Ha, ?Hc, ?Hw;
    (match goal with |- context [bool_decide ?P] => destruct (decide P) as [Hd|Hd];
       [rewrite (bool_decide_eq_true_2 P Hd)|rewrite (bool_decide_eq_false_2 P Hd)] end); cbn [negb];
    (match goal with |- context [decide ?P] => destruct (decide P) as [Hd'|Hd'] end); cbn in Hd';
    unfold CC_CONFIGURATION, CC_ASSOCIATION, Inclusion.CC_WAKE_UP in Hd; try done.
  cbn. do 2 f_equal. destruct (Z.eqb_spec no 0); cbn; [by rewrite decide_True|by rewrite decide_False].
Qed.

(** ** The set-up as a whole *)

(** What the inclusion orchestrator publishes about a node. *)
Definition about (n : Z) (b : Setup.Bus) : Prop :=
  match b with
  | FromInterview _ => False
  | FromInclusion b =>
      match b with
      | SetConfigurationCommand n' _ _ _ _ _ | SetAssociationCommand n' _ _ _ | SetWakeUpIntervalCommand n' _ _ _
      | InclusionLifelineSet n' | InclusionPolicyApplied n' _ | InclusionComplete n' => n' = n
      | DaemonErrorNoController => False
      end
  end.
#[global] Instance about_dec n b : Decision (about n b).
Proof. destruct b as [b|b]; [|destruct b]; cbn; apply _. Defined.

(** The policy the tables give a node of a device. *)
Definition inForce `{Oob} (n : Z) (home : string) (dev : Register.DeviceId) (t : Register.Tables) : Policy.t :=
  match Register.devices t !! dev ≫= Policy.deserialize, Register.overrides t !! (home, n) ≫= Policy.deserialize with
  | Some d, Some o => Policy.merge d o
  | None, Some o => o
  | Some d, None => d
  | None, None => []
  end.

(** What the node's set-up finds: its network, our node id, the tables, and the
    command classes kept for it. *)
Record ready (n : Z) (home : string) (controller : Z) (t : Register.Tables) (kept : option SupportedCcs) (st : Setup.State) : Prop := {
  r_valid : valid (Register.db (register st)) = true;
  r_home : Register.currentHomeId (register st) = Some home;
  r_table : table (Register.db (register st)) = t;
  r_controller : controllerNodeId (inclusion st) = Some controller;
  r_kept : pendingPolicy (inclusion st) !! n = kept }.

Definition identity (n : Z) (home : string) (st : Setup.State) : option Register.DeviceId :=
  Register.identityCache (register st) !! (home, n).

(** Inputs that do not include the node again, and name its device. *)
Definition settled (n : Z) (dev : Register.DeviceId) (i : Setup.Input) : Prop :=
  match i with
  | NodeIncluded n' _ _ => n' <> n
  | ManufacturerSpecificReport n' d => n' = n -> d = dev
  | _ => True
  end.

Section Whole.
Context `{Oob} `{e : SqliteEnv} (He : reliable e) (nullData : bool).

Lemma effectivePolicy_facts n reg home t :
  valid (Register.db reg) = true -> Register.currentHomeId reg = Some home -> table (Register.db reg) = t ->
  let r := Register.effectivePolicy n reg in
  (forall dev, Register.identityCache reg !! (home, n) = Some dev -> r.1 = inForce n home dev t) /\
  valid (Register.db r.2) = true /\ Register.currentHomeId r.2 = Some home /\ table (Register.db r.2) = t /\
  Register.identityCache r.2 = Register.identityCache reg.
Proof.
  intros Hv Hh <-. cbn zeta. split.
  - intros dev Hd. rewrite (effectivePolicy_value He n reg home Hv Hh), Hd. unfold inForce.
    destruct (Register.devices _ !! dev), (Register.overrides _ !! (home, n)); done.
  - unfold Register.effectivePolicy. rewrite (nodeOverride_value He n reg home Hv Hh).
    destruct (Register.cachedIdentity n reg) as [d|]; [|done].
    by rewrite devicePolicy_value.
Qed.

(** The completion of the node's own interview. *)
Lemma complete_own n home controller t ccs dev st :
  ready n home controller t (Some (scanSupported ccs)) st -> identity n home st = Some dev ->
  let cmds := commandOf n controller <$> filter (fun e => classOf e ∈ supportedHalf ccs) (inForce n home dev t) in
  (Inclusion.onNodeInterviewComplete n (register st) (inclusion st)).1.1
  = cmds ++ [InclusionPolicyApplied n (u32 (zlen cmds)); InclusionComplete n].
Proof.
  intros [Hv Hh Ht Hc Hk] Hi. cbn zeta. unfold Inclusion.onNodeInterviewComplete. rewrite Hk. cbn [default Datatypes.id controllerNodeId].
  destruct (effectivePolicy_facts n (register st) home t Hv Hh Ht) as [Hp _]. specialize (Hp dev Hi).
  destruct (Register.effectivePolicy n (register st)) as [p reg]. cbn [fst] in *. subst p.
  unfold Datatypes.id. by rewrite Hc, applied_spec.
Qed.

(** That of another node. *)
Lemma complete_other n n' home controller t kept st :
  n' <> n -> ready n home controller t kept st ->
  let r := Inclusion.onNodeInterviewComplete n' (register st) (inclusion st) in
  filter (about n) (FromInclusion <$> r.1.1) = [] /\
  ready n home controller t kept (Setup.mkState (interviews st) r.2 r.1.2) /\
  Register.identityCache r.1.2 = Register.identityCache (register st).
Proof.
  intros Hn [Hv Hh Ht Hc Hk]. cbn zeta. unfold Inclusion.onNodeInterviewComplete.
  destruct (effectivePolicy_facts n' (register st) home t Hv Hh Ht) as (_ & H1 & H2 & H3 & H4).
  destruct (Register.effectivePolicy n' (register st)) as [p reg]. cbn [fst snd controllerNodeId] in *.
  split_and!; [|split; cbn; try done; by rewrite lookup_delete_ne|done].
  rewrite fmap_app, filter_app. cbn. rewrite !decide_False by done. rewrite app_nil_r.
  induction p as [|x p IH]; [done|]. cbn.
  destruct x; cbn; (destruct (negb _); cbn; [apply IH|]; rewrite decide_False by done; apply IH).
Qed.

Lemma deliver_other n home controller t kept l st :
  Interview.NodeInterviewComplete n ∉ l -> ready n home controller t kept st ->
  let r := deliver l st in
  filter (about n) r.1 = [] /\ ready n home controller t kept r.2 /\ interviews r.2 = interviews st /\
  Register.identityCache (register r.2) = Register.identityCache (register st).
Proof.
  cbn zeta. revert st. induction l as [|b l IH]; intros st Hf Hr; [done|].
  apply not_elem_of_cons in Hf as [Hb Hf].
  assert (Hstep : let r := match b with
      | Interview.NodeInterviewComplete n' =>
          let '(o, reg, i) := Inclusion.onNodeInterviewComplete n' (register st) (inclusion st) in
          (FromInclusion <$> o, Setup.mkState (interviews st) i reg)
      | _ => ([], st)
      end in filter (about n) r.1 = [] /\ ready n home controller t kept r.2 /\ interviews r.2 = interviews st /\
      Register.identityCache (register r.2) = Register.identityCache (register st)).
  { cbn zeta. destruct b as [| | | |n'|]; try done. assert (Hn : n' <> n) by congruence.
    destruct (complete_other n n' home controller t kept st Hn Hr) as (H1 & H2 & H3).
    destruct (Inclusion.onNodeInterviewComplete n' (register st) (inclusion st)) as [[o reg] i]. done. }
  cbn zeta in Hstep. cbn [deliver].
  match goal with |- context [let (out, st) := ?x in _] => destruct x as [out st1] end. cbn [fst snd] in Hstep.
  destruct Hstep as (H1 & H2 & H3 & H4). destruct (IH st1 Hf H2) as (H5 & H6 & H7 & H8).
  destruct (deliver l st1) as [outs st2]. cbn [fst snd] in *. rewrite filter_cons_False by by intros [].
  rewrite filter_app, H1, H5. split_and!; [done|done|congruence|congruence].
Qed.

(** The subscribers around the interview leave the node ready. *)
Lemma before_settled n dev home controller t kept i st :
  settled n dev i -> ready n home controller t kept st ->
  let r := before i st in
  filter (about n) r.1 = [] /\ ready n home controller t kept r.2 /\ interviews r.2 = interviews st /\
  identity n home r.2 = identity n home st.
Proof.
  intros Hs [Hv Hh Ht Hc Hk]. cbn zeta. destruct i as [n' ccs now|n' s now|n' d|n'|n'|n']; cbn [before]; cbn in Hs; try done.
  unfold Inclusion.onNodeIncluded. cbn [fst snd].
  split_and!; [|split; cbn; try done; by rewrite lookup_insert_ne|done|done].
  destruct (_ && _); [|done]. destruct (controllerNodeId _); cbn; by rewrite ?decide_False.
Qed.

(** The identity known after an input. *)
Definition noted (n : Z) (dev : Register.DeviceId) (i : Setup.Input) (known : option Register.DeviceId) : option Register.DeviceId :=
  match i with ManufacturerSpecificReport n' _ => if decide (n' = n) then Some dev else known | _ => known end.

Lemma behind_settled n dev home controller t kept i st :
  settled n dev i -> ready n home controller t kept st ->
  ready n home controller t kept (behind i st) /\ interviews (behind i st) = interviews st /\
  identity n home (behind i st) = noted n dev i (identity n home st).
Proof.
  intros Hs [Hv Hh Ht Hc Hk]. destruct i as [n' ccs now|n' s now|n' d|n'|n'|n']; cbn [behind noted]; cbn in Hs; try done.
  unfold Register.noteDeviceIdentity. rewrite Hh. unfold identity. cbn. split_and!; [by split|done|].
  case_decide as E; [subst; by rewrite lookup_insert_eq, Hs|]. by rewrite lookup_insert_ne by congruence.
Qed.

Lemma quiet_no_completion n l : filter (concerns n) l = [] -> Interview.NodeInterviewComplete n ∉ l.
Proof. intros Hf Hin. assert (Hin' : Interview.NodeInterviewComplete n ∈ filter (concerns n) l) by by apply list_elem_of_filter.
  rewrite Hf in Hin'. by apply elem_of_nil in Hin'. Qed.

(** A step in which the node's interview does not end. *)
Lemma step_going n dev home controller t kept i st o ivs :
  settled n dev i -> ready n home controller t kept st ->
  Interview.step nullData (asInterview i) (interviews st) = (o, ivs) -> Interview.NodeInterviewComplete n ∉ o ->
  let r := Setup.step nullData i st in
  filter (about n) r.1 = [] /\ ready n home controller t kept r.2 /\ interviews r.2 = ivs /\
  identity n home r.2 = noted n dev i (identity n home st).
Proof.
  intros Hs Hr Hi Ho. cbn zeta. unfold Setup.step.
  destruct (before_settled n dev home controller t kept i st Hs Hr) as (H1 & H2 & H3 & H4).
  destruct (before i st) as [out st1]. cbn [fst snd] in *. rewrite H3, Hi.
  assert (Hr2 : ready n home controller t kept (Setup.mkState ivs (inclusion st1) (register st1))) by by destruct H2.
  destruct (deliver_other n home controller t kept o _ Ho Hr2) as (H5 & H6 & H7 & H8).
  destruct (deliver o _) as [outs st2]. cbn [fst snd] in *. rewrite filter_app, H1, H5.
  destruct (behind_settled n dev home controller t kept i st2 Hs H6) as (H9 & H10 & H11).
  split_and!; [done|done|by rewrite H10|]. rewrite H11, <-H4. unfold identity. by rewrite H8.
Qed.

Lemma setup_run_cons n i ins st :
  filter (about n) (Setup.run nullData (i :: ins) st).1
  = filter (about n) (Setup.step nullData i st).1 ++ filter (about n) (Setup.run nullData ins (Setup.step nullData i st).2).1.
Proof.
  cbn [Setup.run]. destruct (Setup.step nullData i st) as [out st1]. cbn [fst snd].
  destruct (Setup.run nullData ins st1) as [outs st2]. apply filter_app.
Qed.

Lemma setup_run_app n ins ins' st :
  filter (about n) (Setup.run nullData (ins ++ ins') st).1
  = filter (about n) (Setup.run nullData ins st).1
    ++ filter (about n) (Setup.run nullData ins' (Setup.run nullData ins st).2).1.
Proof.
  revert st. induction ins as [|i ins IH]; intros st; [done|]. cbn [app]. rewrite !setup_run_cons, IH, <-app_assoc.
  cbn [Setup.run]. destruct (Setup.step nullData i st) as [out st1]. cbn [snd]. by destruct (Setup.run nullData ins st1).
Qed.

Lemma asInterview_settled n dev i : settled n dev i -> keeps n (asInterview i).
Proof. by destruct i. Qed.

(** While nothing touches the node's session. *)
Lemma setup_run_foreign n dev home controller t kept ins st :
  Forall (settled n dev) ins -> ready n home controller t kept st ->
  Forall (fun i => foreign n (Interview.sessions (interviews st) !! n) (asInterview i)) ins ->
  let r := Setup.run nullData ins st in
  filter (about n) r.1 = [] /\ ready n home controller t kept r.2 /\
  Interview.sessions (interviews r.2) !! n = Interview.sessions (interviews st) !! n.
Proof.
  cbn zeta. revert st. induction ins as [|i ins IH]; intros st Hs Hr Hf; [done|].
  apply Forall_cons in Hs as [Hi Hs]. apply Forall_cons in Hf as [Hfi Hf].
  destruct (foreign_step nullData n (asInterview i) (interviews st) Hfi) as [Hq Hsess].
  destruct (Interview.step nullData (asInterview i) (interviews st)) as [o ivs] eqn:E. cbn [fst snd] in *.
  destruct (step_going n dev home controller t kept i st o ivs Hi Hr E (quiet_no_completion _ _ Hq)) as (H1 & H2 & H3 & _).
  rewrite setup_run_cons, H1. cbn [app Setup.run].
  destruct (Setup.step nullData i st) as [out st1]. cbn [fst snd] in *.
  rewrite <-Hsess, <-H3 in Hf. destruct (IH st1 Hs H2 Hf) as (H4 & H5 & H6).
  destruct (Setup.run nullData ins st1) as [outs st2]. cbn [fst snd] in *. split_and!; [done|done|]. by rewrite H6, H3.
Qed.

(** The node's policy, as commands, and the two closing events. *)
Definition policyStep (n controller : Z) (ccs : list Z) (p : Policy.t) : list Setup.Bus :=
  let cmds := commandOf n controller <$> filter (fun e => classOf e ∈ supportedHalf ccs) p in
  FromInclusion <$> (cmds ++ [InclusionPolicyApplied n (u32 (zlen cmds)); InclusionComplete n]).

Lemma policyStep_about n controller ccs p : filter (about n) (policyStep n controller ccs p) = policyStep n controller ccs p.
Proof.
  unfold policyStep. rewrite fmap_app, filter_app. cbn. rewrite !decide_True by done. f_equal.
  induction (filter _ p) as [|x l IH]; [done|]. cbn. rewrite decide_True; [by f_equal|]. by destruct x.
Qed.

(** The step that ends the node's interview. *)
Lemma step_ending n dev home controller t ccs i st ivs :
  settled n dev i -> ready n home controller t (Some (scanSupported ccs)) st ->
  Interview.step nullData (asInterview i) (interviews st) = ([Interview.NodeInterviewComplete n], ivs) ->
  identity n home st = Some dev ->
  let r := Setup.step nullData i st in
  filter (about n) r.1 = policyStep n controller ccs (inForce n home dev t) /\
  ready n home controller t None r.2 /\ interviews r.2 = ivs.
Proof.
  intros Hs Hr Hi Hid. cbn zeta. unfold Setup.step.
  destruct (before_settled n dev home controller t (Some (scanSupported ccs)) i st Hs Hr) as (H1 & H2 & H3 & H4).
  destruct (before i st) as [out st1]. cbn [fst snd] in *. rewrite H3, Hi. cbn [deliver interviews inclusion register].
  rewrite <-H4 in Hid. pose proof (complete_own n home controller t ccs dev st1 H2 Hid) as Hc.
  destruct H2 as [Hv Hh Ht Hcn Hk].
  assert (Hafter : let r := Inclusion.onNodeInterviewComplete n (register st1) (inclusion st1) in
    ready n home controller t None (Setup.mkState ivs r.2 r.1.2)).
  { cbn zeta. unfold Inclusion.onNodeInterviewComplete.
    destruct (effectivePolicy_facts n (register st1) home t Hv Hh Ht) as (_ & E1 & E2 & E3 & _).
    destruct (Register.effectivePolicy n (register st1)) as [p reg]. cbn [fst snd] in *.
    split; cbn; try done. by rewrite lookup_delete_eq. }
  destruct (Inclusion.onNodeInterviewComplete n (register st1) (inclusion st1)) as [[o reg] inc].
  cbn [fst snd] in *. destruct (behind_settled n dev home controller t None i _ Hs Hafter) as (H9 & H10 & _).
  split_and!; [|done|done].
  rewrite filter_app, H1, app_nil_r. cbn [app]. rewrite filter_cons_False by by intros [].
  rewrite Hc. apply policyStep_about.
Qed.

Lemma setup_run_session n dev home controller t ccs ins st s q qs :
  Forall (settled n dev) ins -> ready n home controller t (Some (scanSupported ccs)) st ->
  Interview.sessions (interviews st) !! n = Some s -> Interview.started s = true ->
  drop (Interview.index s) (Interview.steps s) = q :: qs ->
  (q = Interview.AskManufacturer /\ qs <> [] \/ identity n home st = Some dev) ->
  filter (about n) (Setup.run nullData ins st).1
  = if decide (unanswered (q :: qs) (reportsOf n (asInterview <$> ins)) = [])
    then policyStep n controller ccs (inForce n home dev t) else [].
Proof.
  revert st s q qs. induction ins as [|i ins IH]; intros st s q qs Hset Hr Hs Hst Hd Hid; [done|].
  apply Forall_cons in Hset as [Hi Hset]. rewrite setup_run_cons, fmap_cons.
  assert (Hmono : identity n home st = Some dev -> noted n dev i (identity n home st) = Some dev).
  { intros ->. destruct i; try done. cbn. by case_decide. }
  destruct (reports_about n (asInterview i)) as [[r Hri]|Hno].
  - pose proof (advance_report nullData n r s q qs (interviews st) Hs Hst Hd) as Hstep. rewrite <-Hri in Hstep.
    rewrite Hri, reportsOf_report. cbn [unanswered].
    destruct (decide (q = r)) as [->|Hne].
    + assert (Hnow : noted n dev i (identity n home st) = Some dev).
      { destruct Hid as [[-> _]|]; [|by apply Hmono]. destruct i; cbn in Hri; simplify_eq. cbn. by rewrite decide_True. }
      destruct qs as [|q' qs].
      * destruct Hid as [[_ ?]|Hid]; [done|].
        destruct (step_ending n dev home controller t ccs i st _ Hi Hr Hstep Hid) as (-> & H2 & H3).
        rewrite unanswered_nil, decide_True by done.
        destruct (setup_run_foreign n dev home controller t None ins _ Hset H2) as [-> _]; [|by rewrite app_nil_r].
        rewrite H3. cbn [Interview.sessions]. rewrite lookup_delete_eq. eapply Forall_impl; [exact Hset|].
        intros j Hj. apply asInterview_settled in Hj. destruct (asInterview j); cbn in *; auto.
      * edestruct (step_going n dev home controller t _ i st _ _ Hi Hr Hstep) as (-> & H2 & H3 & H4).
        { destruct (Interview.viaQueue s); [apply not_elem_of_nil|]. rewrite list_elem_of_singleton. by destruct q'. }
        cbn [app]. eapply (IH _ (Interview.mkSession (Interview.steps s) (S (Interview.index s)) true (Interview.viaQueue s)));
          [done|done|rewrite H3; cbn; by rewrite lookup_insert_eq|done| |right; by rewrite H4].
        cbn. by rewrite <-(Nat.add_1_r (Interview.index s)), <-drop_drop, Hd.
    + destruct (step_going n dev home controller t _ i st _ _ Hi Hr Hstep) as (-> & H2 & H3 & H4); [apply not_elem_of_nil|].
      cbn [app]. eapply IH; [done|done|by rewrite H3|done|done|]. rewrite H4. destruct Hid; [by left|right; by apply Hmono].
  - assert (Hf : foreign n (Some s) (asInterview i)).
    { apply asInterview_settled in Hi. destruct (asInterview i); cbn in *; auto. left. intros ->. apply Hno. by eexists. }
    rewrite <-Hs in Hf. destruct (foreign_step nullData n (asInterview i) (interviews st) Hf) as [Hq Hsess].
    destruct (Interview.step nullData (asInterview i) (interviews st)) as [o ivs] eqn:E. cbn [fst snd] in *.
    destruct (step_going n dev home controller t _ i st o ivs Hi Hr E (quiet_no_completion _ _ Hq)) as (-> & H2 & H3 & H4).
    assert (reportsOf n (asInterview i :: (asInterview <$> ins)) = reportsOf n (asInterview <$> ins)) as ->.
    { destruct (asInterview i) as [| |n' r] eqn:Ei; try done. unfold reportsOf. cbn. rewrite decide_False; [done|].
      intros ->. apply Hno. by eexists. }
    cbn [app]. eapply IH; [done|done|by rewrite H3, Hsess|done|done|].
    rewrite H4. destruct Hid; [by left|right; by apply Hmono].
Qed.
End Whole.

Definition lifelineStep (n controller : Z) (ccs : list Z) (auto : bool) : list Setup.Bus :=
  if bool_decide (0x85 ∈ supportedHalf ccs) && auto
  then [FromInclusion (SetAssociationCommand n 1 [controller] 0); FromInclusion (InclusionLifelineSet n)] else [].

Lemma included_ready `{Oob} `{e : SqliteEnv} (He : reliable e) nullData n ccs now st home controller :
  valid (Register.db (register st)) = true -> Register.currentHomeId (register st) = Some home ->
  controllerNodeId (inclusion st) = Some controller ->
  let r := Setup.step nullData (NodeIncluded n ccs now) st in
  filter (about n) r.1 = lifelineStep n controller ccs (autoLifeline (inclusion st)) /\
  ready n home controller (table (Register.db (register st))) (Some (scanSupported ccs)) r.2 /\
  interviews r.2 = (Interview.step nullData (Interview.NodeIncluded n ccs now) (interviews st)).2.
Proof.
  intros Hv Hh Hc. cbn zeta. unfold Setup.step. cbn [before behind asInterview]. unfold Inclusion.onNodeIncluded. rewrite Hc.
  destruct (included_session nullData n ccs now (interviews st)) as [Ho _]. cbn [interviews inclusion register].
  destruct (Interview.step nullData (Interview.NodeIncluded n ccs now) (interviews st)) as [o ivs]. cbn [fst snd] in *.
  assert (Hn : Interview.NodeInterviewComplete n ∉ o).
  { intros Hin. assert (Hin' : Interview.NodeInterviewComplete n ∈ filter (concerns n) o) by by apply list_elem_of_filter.
    rewrite Ho in Hin'. destruct (_ || _); [by apply elem_of_nil in Hin'|]. by apply list_elem_of_singleton in Hin'. }
  destruct (scanFrom_spec noCcs ccs) as (Ha & _). fold (scanSupported ccs) in Ha. cbn in Ha.
  match goal with |- context [deliver o ?st1] =>
    destruct (deliver_other He n home controller (table (Register.db (register st))) (Some (scanSupported ccs)) o st1 Hn)
      as (H1 & H2 & H3 & _); [split; cbn; try done; by rewrite lookup_insert_eq|];
    destruct (deliver o st1) as [outs st2] end.
  cbn [fst snd] in *. split_and!; [|done|done].
  rewrite filter_app, H1, app_nil_r, Ha. unfold lifelineStep, CC_ASSOCIATION.
  destruct (bool_decide _ && _); [|done]. cbn. by rewrite !decide_True.
Qed.

Lemma set_up_outcome `{Oob} (e : SqliteEnv) nullData n ccs now pre scheme now' ins st home dev controller :
  reliable e -> valid (Register.db (register st)) = true -> Register.currentHomeId (register st) = Some home ->
  controllerNodeId (inclusion st) = Some controller ->
  Forall (settled n dev) (pre ++ ins) -> Forall (fun i => notSecured n (asInterview i)) pre -> scheme <> Interview.SCHEME_NONE ->
  filter (about n) (Setup.run nullData
    (NodeIncluded n ccs now :: (if secureNode ccs then pre ++ [NodeSecurityStatus n scheme now'] else []) ++ ins) st).1
  = lifelineStep n controller ccs (autoLifeline (inclusion st)) ++
    (if decide (unanswered (Interview.stepsFor ccs) (reportsOf n (asInterview <$> ins)) = [])
     then policyStep n controller ccs (inForce n home dev (table (Register.db (register st)))) else []).
Proof.
  intros He Hv Hh Hc [Hpre Hins]%Forall_app Hns Hsc. set (t := table (Register.db (register st))).
  assert (Hq : Interview.stepsFor ccs = Interview.AskManufacturer :: tail (Interview.stepsFor ccs)) by done.
  destruct (included_ready He nullData n ccs now st home controller Hv Hh Hc) as (H1 & H2 & H3). fold t in H2.
  destruct (included_session nullData n ccs now (interviews st)) as [_ Hs]. rewrite <-H3 in Hs.
  rewrite setup_run_cons, H1. f_equal. set (st1 := (Setup.step nullData (NodeIncluded n ccs now) st).2) in *. clearbody st1.
  destruct (secureNode ccs); cbn [app negb] in *.
  - rewrite <-app_assoc, setup_run_app.
    destruct (setup_run_foreign He nullData n dev home controller t _ pre st1 Hpre H2) as (-> & H5 & H6).
    { rewrite Hs. apply Forall_forall. intros i Hi. rewrite Forall_forall in Hpre, Hns.
      specialize (Hpre i Hi). specialize (Hns i Hi). apply asInterview_settled in Hpre.
      destruct (asInterview i); cbn in *; tauto. }
    set (st2 := (Setup.run nullData pre st1).2) in *. clearbody st2. cbn [app]. rewrite setup_run_cons.
    rewrite Hs in H6. set (i := NodeSecurityStatus n scheme now').
    destruct (secured_session nullData n scheme now' _ (interviews st2) Hsc H6 eq_refl) as [Ho Hs2].
    destruct (Interview.step nullData (asInterview i) (interviews st2)) as [o ivs] eqn:E.
    change (asInterview i) with (Interview.NodeSecurityStatus n scheme now') in E. rewrite E in Ho, Hs2. cbn [fst snd] in Ho, Hs2.
    destruct (step_going He nullData n dev home controller t _ i st2 o ivs I H5 E) as (-> & H7 & H8 & _).
    { intros Hin. assert (Hin' : Interview.NodeInterviewComplete n ∈ filter (concerns n) o) by by apply list_elem_of_filter.
      rewrite Ho in Hin'. cbn in Hin'. destruct (Interview.has _ _); [by apply elem_of_nil in Hin'|].
      by apply list_elem_of_singleton in Hin'. }
    cbn [app]. erewrite setup_run_session; [by rewrite Hq|done|done|exact H7|by rewrite H8|done|done|left; by split].
  - erewrite setup_run_session; [by rewrite Hq|done|done|exact H2|exact Hs|done|done|left; by split].
Qed.

(** C8: the set-up of an included node, whatever else happens between: its lifeline
    once, when it joins and if it answers Association; then nothing until its
    interview is done, when the policy in force for its device and for the node itself
    is sent, exactly the entries whose class the node answers, in order, counted and
    closed once.  For this the interview must end: a node that merely controls Multi
    Channel is asked for its endpoints too, and if it does not answer it is never
    given its policy. *)
Theorem included_node_set_up `{Oob} (e : SqliteEnv) nullData n ccs now pre scheme now' ins st home dev controller :
  reliable e -> valid (Register.db (register st)) = true -> Register.currentHomeId (register st) = Some home ->
  controllerNodeId (inclusion st) = Some controller ->
  Forall (settled n dev) (pre ++ ins) -> Forall (fun i => notSecured n (asInterview i)) pre -> scheme <> Interview.SCHEME_NONE ->
  let start := if secureNode ccs then pre ++ [NodeSecurityStatus n scheme now'] else [] in
  let out := filter (about n) (Setup.run nullData (NodeIncluded n ccs now :: start ++ ins) st).1 in
  let lifeline := lifelineStep n controller ccs (autoLifeline (inclusion st)) in
  (sublist (Interview.stepsFor ccs) (reportsOf n (asInterview <$> ins)) ->
   out = lifeline ++ policyStep n controller ccs (inForce n home dev (table (Register.db (register st))))) /\
  (~ sublist (Interview.stepsFor ccs) (reportsOf n (asInterview <$> ins)) -> out = lifeline) /\
  (Interview.CC_MULTI_CHANNEL ∈ ccs -> MultiChannelEndPointReport n ∉ ins -> out = lifeline).
Proof.
  intros He Hv Hh Hc Hset Hns Hsc. cbn zeta.
  rewrite (set_up_outcome e nullData n ccs now pre scheme now' ins st home dev controller) by done.
  split_and!.
  - intros Hs%unanswered_done. by rewrite decide_True.
  - intros Hs. rewrite decide_False, app_nil_r; [done|]. by rewrite unanswered_done.
  - intros Hm Hno. rewrite decide_False, app_nil_r; [done|]. rewrite unanswered_done. intros Hs.
    assert (Hin : Interview.AskEndpoints ∈ reportsOf n (asInterview <$> ins)).
    { eapply sublist_submseteq, elem_of_submseteq in Hs; [exact Hs|]. unfold Interview.stepsFor, Interview.has.
      rewrite bool_decide_eq_true_2 by done. set_solver. }
    apply list_elem_of_omap in Hin as (j & [i [-> Hi]]%list_elem_of_fmap & Hj). apply Hno.
    destruct i; cbn in Hj; try done; case_decide; simplify_eq; done.
Qed.

(** A network with a default for one device and an override for node 7. *)
Definition exampleDevice : Register.DeviceId := Register.mkDevice 0x86 1 2.
Definition exampleSetup : Setup.State :=
  Setup.mkState (Interview.mkState ∅ (Queue.mkState (mkDb false (Queue.mkTable [] 0) 0) None 0))
    (Inclusion.mkState (Some 1) true ∅)
    (Register.mkState (mkDb true (Register.mkTables
       {[exampleDevice := Policy.serialize [Policy.ConfigurationEntry 3 1 false 9; Policy.WakeUpEntry 60 0]]}
       {[("C0FFEE00"%string, 7) := Policy.serialize [Policy.ConfigurationEntry 3 1 false 5]]}) 0) (Some "C0FFEE00"%string) ∅).

Lemma included_node_set_up_witness :
  filter (about 7) (Setup.run (H := 0) (H0 := alwaysRuns) false
    (NodeIncluded 7 [0x85; 0x70; 0xEF; 0x84] 0 :: [] ++ [ManufacturerSpecificReport 7 exampleDevice; NodeVersionReport 7])
    exampleSetup).1
  = FromInclusion <$> [SetAssociationCommand 7 1 [1] 0; InclusionLifelineSet 7;
      SetConfigurationCommand 7 3 1 false 5 0; InclusionPolicyApplied 7 1; InclusionComplete 7] /\
  filter (about 7) (Setup.run (H := 0) (H0 := alwaysRuns) false
    (NodeIncluded 7 [0x85; 0x70; 0xEF; 0x60] 0 :: [] ++ [ManufacturerSpecificReport 7 exampleDevice; NodeVersionReport 7])
    exampleSetup).1
  = FromInclusion <$> [SetAssociationCommand 7 1 [1] 0; InclusionLifelineSet 7].
Proof.
  split.
  - refine (proj1 (included_node_set_up (H := 0) alwaysRuns false 7 [0x85; 0x70; 0xEF; 0x84] 0 [] 1 0
      [ManufacturerSpecificReport 7 exampleDevice; NodeVersionReport 7] exampleSetup "C0FFEE00"%string exampleDevice 1
      alwaysRuns_reliable eq_refl eq_refl eq_refl _ _ _) _); [by repeat constructor|by constructor|done|].
    by repeat constructor.
  - refine (proj2 (proj2 (included_node_set_up (H := 0) alwaysRuns false 7 [0x85; 0x70; 0xEF; 0x60] 0 [] 1 0
      [ManufacturerSpecificReport 7 exampleDevice; NodeVersionReport 7] exampleSetup "C0FFEE00"%string exampleDevice 1
      alwaysRuns_reliable eq_refl eq_refl eq_refl _ _ _)) _ _); [by repeat constructor|by constructor|done|..].
    + by do 3 apply list_elem_of_further; apply list_elem_of_here.
    + by rewrite !not_elem_of_cons; split_and!; [| |apply not_elem_of_nil].
Defined.
