(* ===== verification/S0Interview.v ===== *)
(** * The interview of a node that joins with Security S0

    The frame that completes the S0 inclusion, followed through the daemon: the
    unwrapper ([cc-translator/Encapsulation.cpp]), the interview, the inclusion
    ([orchestrator/SecurityBootstrapOrchestrator.cpp]) and the commands that reach the
    protocol thread, in the depth-first order of the bus. *)

From Stdlib Require Import String.
From S2P Require Import Prelude HostApi Sqlite NodeRegistry S0Codec S0Traffic PendingQueue ProtocolThread InterviewOrchestrator.
From stdpp Require Import gmap strings.
#[local] Open Scope Z_scope.

Module S0Join.

Record World := mkWorld { daemon : Thread.Daemon; interviews : Interview.State; boot : S0Boot.State }.

Section Dispatch.
Context `{Oob} `{S0Crypto} `{SqliteEnv} `{Thread.GeneratedEncoders} (nullData : bool).

(** What the interview publishes, as the protocol thread takes it. *)
Definition fromInterview (d : Thread.Daemon) (b : Interview.Bus) : Thread.Daemon :=
  match b with
  | Interview.GetManufacturerSpecificCommand n cb => Thread.onCommand n cb Thread.GetManufacturerSpecificCommand d
  | Interview.GetNodeVersionCommand n cb => Thread.onCommand n cb Thread.GetNodeVersionCommand d
  | Interview.GetMultiChannelEndpointsCommand n cb => Thread.onCommand n cb Thread.GetMultiChannelEndpointsCommand d
  | Interview.GetZWavePlusInfoCommand n cb => Thread.onCommand n cb Thread.GetZWavePlusInfoCommand d
  | Interview.NodeInterviewComplete _ | Interview.Stored _ => d
  end.

Definition toInterview (i : Interview.Input) (w : World) : World :=
  let (out, iv) := Interview.step nullData i (interviews w) in
  mkWorld (foldl fromInterview (daemon w) out) iv (boot w).

(** What the S0 inclusion publishes or calls. *)
Definition fromBoot (now : Z) (w : World) (m : Msg) : World :=
  match m with
  | S0Traffic.SendData n p cb => mkWorld (Thread.onSendData n cb p (daemon w)) (interviews w) (boot w)
  | S0Traffic.NodeSecurityStatus n s => toInterview (Interview.NodeSecurityStatus n s now) w
  | SetSecurityScheme n s =>
      mkWorld (Thread.onRegistry (fun r => ([], Registry.setSecurityScheme n s r)) (daemon w)) (interviews w) (boot w)
  | AppCommand _ _ => w
  end.

(** What the unwrapper publishes: a command goes on to the inclusion. *)
Definition fromUnwrap (key : option (list Z)) (random : list Z) (now : Z) (w : World) (m : Msg) : World :=
  match m with
  | AppCommand n data =>
      let (msgs, b) := S0Boot.onApplicationCommand key random n data (boot w) in
      foldl (fromBoot now) (mkWorld (daemon w) (interviews w) b) msgs
  | _ => fromBoot now w m
  end.

(** An S0 frame from the radio. *)
Definition onS0Frame (key : option (list Z)) (random : list Z) (now us src : Z) (data : list Z) (tb : S0.NonceTable.t)
    (w : World) : World :=
  foldl (fromUnwrap key random now) w (Unwrap.unwrapS0 now key us src data tb).1.
End Dispatch.
End S0Join.

Import S0Join.

(** The frame by which a node proves it has the network key. *)
Definition keyVerify : list Z := [S0.COMMAND_CLASS; S0.SECURITY_NETWORK_KEY_VERIFY].

(** The interview of a node that joins with S0 is held back until the node is
    reported secure, so that its questions travel encrypted; but the unwrapper reports
    the node secure before it passes on the frame by which the inclusion marks it
    secure.  The first question is queued for the radio in the clear, and only then
    does the registry know the node as secure. *)
Theorem s0_interview_starts_in_clear `{Oob} `{S0Crypto} `{e : SqliteEnv} `{Thread.GeneratedEncoders} nullData
    key random now us n data tb w s more info :
  Interview.sessions (interviews w) !! n = Some s -> Interview.started s = false -> Interview.viaQueue s = false ->
  Interview.steps s = Interview.AskManufacturer :: more ->
  S0Boot.sessions (boot w) !! n = Some S0Boot.AwaitVerify ->
  Registry.nodes (Thread.registry (daemon w)) !! n = Some info ->
  Registry.securityScheme info = Registry.SCHEME_NONE ->
  (Unwrap.unwrapS0 now key us n data tb).1 = [S0Traffic.NodeSecurityStatus n SCHEME_S0; AppCommand n keyVerify] ->
  let w' := onS0Frame nullData key random now us n data tb w in
  Thread.queue (daemon w') = Thread.queue (daemon w) ++
    [Thread.SendData (mkSendData n Thread.ManufacturerSpecific_encodeGet TRANSMIT_OPTION_DEFAULT 0)] /\
  Registry.securitySchemeOf n (Thread.registry (daemon w')) = SCHEME_S0.
Proof.
  intros Hs Hst Hq Hsteps Hb Hi Hsec Hu. cbn zeta. unfold onS0Frame. rewrite Hu. cbn [foldl fromUnwrap fromBoot].
  assert (E1 : toInterview nullData (Interview.NodeSecurityStatus n SCHEME_S0 now) w
    = mkWorld (Thread.onCommand n 0 Thread.GetManufacturerSpecificCommand (daemon w))
        (Interview.withSession n (Interview.mkSession (Interview.steps s) 0 true false) (interviews w)) (boot w)).
  { unfold toInterview. cbn [Interview.step]. unfold Interview.onNodeSecurityStatus. cbn [SCHEME_S0 Z.eqb].
    rewrite Hs, Hst. cbn [negb]. unfold Interview.beginInterview. by rewrite Hq, Hsteps. }
  assert (E2 : S0Boot.onApplicationCommand key random n keyVerify (boot w)
    = ([SetSecurityScheme n SCHEME_S0; S0Traffic.NodeSecurityStatus n SCHEME_S0],
       S0Boot.mk (delete n (S0Boot.sessions (boot w))) (S0Boot.controllerNodeId (boot w)))).
  { unfold S0Boot.onApplicationCommand. by rewrite Hb. }
  assert (E3 : Thread.onCommand n 0 Thread.GetManufacturerSpecificCommand (daemon w)
    = Thread.pushRequest (Thread.SendData (mkSendData n Thread.ManufacturerSpecific_encodeGet TRANSMIT_OPTION_DEFAULT 0))
        (daemon w)).
  { cbn [Thread.onCommand]. unfold Thread.onGetManufacturerSpecific, Thread.pushSendData, Registry.isSecure.
    by rewrite Hi, Hsec, andb_false_r. }
  assert (E4 : forall d iv b l, toInterview nullData (Interview.NodeSecurityStatus n SCHEME_S0 now)
      (mkWorld d (Interview.withSession n (Interview.mkSession l 0 true false) iv) b)
    = mkWorld d (Interview.withSession n (Interview.mkSession l 0 true false) iv) b).
  { intros. unfold toInterview. cbn [interviews Interview.step]. unfold Interview.onNodeSecurityStatus.
    cbn [Interview.withSession Interview.sessions]. by rewrite lookup_insert_eq. }
  rewrite E1, E3. cbn [boot]. rewrite E2. cbn [foldl fromBoot interviews daemon boot]. rewrite E4. cbn [daemon].
  unfold Thread.onRegistry. cbn. split; [done|].
  unfold Registry.setSecurityScheme, Registry.recordField, Registry.securitySchemeOf. rewrite Hi.
  destruct (Registry.currentHomeId _); [destruct (valid _)|]; cbn; by rewrite lookup_insert_eq.
Qed.

(** Node 4 of the example network, in the last step of its S0 inclusion. *)
Definition joining : World :=
  mkWorld exampleDaemon
    (Interview.mkState {[4 := Interview.mkSession [Interview.AskManufacturer; Interview.AskVersion] 0 false false]}
       (Queue.mkState (mkDb false (Queue.mkTable [] 0) 0) None 0))
    (S0Boot.mk {[4 := S0Boot.AwaitVerify]} 1).
Definition issued : S0.NonceTable.t := (S0.NonceTable.generate (H := S0Run.o) S0Run.nonce 4 1000 S0.NonceTable.init).2.
Definition verifyFrame : list Z := S0.encrypt (H := S0Toy.crypto) (H0 := S0Run.o) keyVerify 4 1 (replicate 8 1) S0Run.nonce S0Run.key.

Lemma s0_interview_starts_in_clear_witness :
  Thread.queue (daemon (onS0Frame (H := 0) (H0 := S0Toy.crypto) (H1 := alwaysRuns) (H2 := exampleEncoders) false
    (Some S0Run.key) [] 2000 1 4 verifyFrame issued joining))
  = [Thread.SendData (mkSendData 4 [0x72; 4] TRANSMIT_OPTION_DEFAULT 0)].
Proof.
  refine (proj1 (s0_interview_starts_in_clear (H := 0) (H0 := S0Toy.crypto) (e := alwaysRuns) (H1 := exampleEncoders) false
    (Some S0Run.key) [] 2000 1 4 verifyFrame issued joining
    (Interview.mkSession [Interview.AskManufacturer; Interview.AskVersion] 0 false false) [Interview.AskVersion]
    (Registry.included 4 (Registry.mkClass 4 0x10 1) [0x25]) _ _ _ _ _ _ _ _)); vm_compute; reflexivity.
Defined.
