(* ===== verification/ThermostatOrchestrator.v ===== *)
(** * Logical thermostats

    [orchestrator/ThermostatOrchestrator.cpp]: a group of nodes that share a metadata
    tag, commanded as one and shown as one.  The node metadata and the registry are
    part of the state; handlers return what they publish, in order. *)

From Stdlib Require Import String Ascii.
From S2P Require Import Prelude Sqlite NodeRegistry NodeStores.
From stdpp Require Import gmap strings pretty.
#[local] Open Scope Z_scope.

Module Climate.

Definition CC_THERMOSTAT_MODE : Z := 0x40.
Definition CC_THERMOSTAT_SETPOINT : Z := 0x43.
Definition OP_STATE_IDLE : Z := 0.
Definition OP_STATE_HEATING : Z := 1.
Definition OP_STATE_COOLING : Z := 2.
Definition NO_CALLBACK : Z := 0x00.
Definition MODE_MIXED : Z := 0xFF.

(** (metadata key, value) *)
Abbreviation GroupKey := (string * string)%type.

Record Setpoint := mkSetpoint { s_type : Z; s_scale : Z; s_precision : Z; s_value : Z }.
Definition noSetpoint : Setpoint := mkSetpoint 0 0 0 0.

Record NodeClimate := mkClimate {
  mode : option Z;
  operatingState : option Z;
  fanMode : option Z;
  setpoint : option Setpoint;
  setpointSeq : Z }.
Definition noClimate : NodeClimate := mkClimate None None None None 0.

(** [LogicalThermostatState] *)
Record GroupState := mkGroupState {
  g_key : string; g_value : string; memberCount : Z; g_mode : Z; g_operatingState : Z; g_fanMode : Z; g_setpoint : Setpoint }.

Inductive Bus :=
| LogicalThermostatState (g : GroupState)
| SetThermostatModeCommand (nodeId mode callbackId : Z)
| SetThermostatSetpointCommand (nodeId setpointType precision scale value callbackId : Z).

(** [knownGroups] as the ascending list a [std::set] iterates over. *)
Record State := mkState {
  perNode : gmap Z NodeClimate;
  knownGroups : list GroupKey;
  lastSignature : gmap GroupKey string;
  setpointCounter : Z;
  metadata : Metadata.State;
  registry : Registry.State }.

Definition withMetadata (m : Metadata.State) (st : State) : State :=
  mkState (perNode st) (knownGroups st) (lastSignature st) (setpointCounter st) m (registry st).
Definition withClimate (n : Z) (c : NodeClimate) (counter : Z) (st : State) : State :=
  mkState (<[n := c]> (perNode st)) (knownGroups st) (lastSignature st) counter (metadata st) (registry st).

(** The order of a [std::pair] of strings. *)
Definition groupLt (x y : GroupKey) : bool :=
  String.ltb x.1 y.1 || (String.eqb x.1 y.1 && String.ltb x.2 y.2).

(** [knownGroups.insert] *)
Fixpoint insertGroup (g : GroupKey) (l : list GroupKey) : list GroupKey :=
  match l with
  | [] => [g]
  | h :: l' => if decide (g = h) then l else if groupLt g h then g :: l else h :: insertGroup g l'
  end.

Definition supportsCc (nodes : list Registry.NodeInfo) (nodeId classByte : Z) : bool :=
  match find (fun info => Registry.nodeId info =? nodeId) nodes with
  | Some info => bool_decide (classByte ∈ Registry.commandClasses info)
  | None => false
  end.

(** The loop of [aggregateByte]: the common value so far and whether two differ. *)
Fixpoint aggregateFrom (per : gmap Z NodeClimate) (pick : NodeClimate -> option Z) (members : list Z)
    (common : option Z) (mixed : bool) : Z :=
  match members with
  | [] => if mixed then MODE_MIXED else default 0 common
  | m :: members =>
      match per !! m ≫= pick with
      | None => aggregateFrom per pick members common mixed
      | Some v =>
          match common with
          | None => aggregateFrom per pick members (Some v) mixed
          | Some c => aggregateFrom per pick members common (mixed || negb (c =? v))
          end
      end
  end.

Definition aggregateByte (per : gmap Z NodeClimate) (pick : NodeClimate -> option Z) (members : list Z) : Z :=
  aggregateFrom per pick members None false.

Fixpoint aggregateOperatingFrom (per : gmap Z NodeClimate) (members : list Z) (anyCooling : bool) : Z :=
  match members with
  | [] => if anyCooling then OP_STATE_COOLING else OP_STATE_IDLE
  | m :: members =>
      match per !! m ≫= operatingState with
      | None => aggregateOperatingFrom per members anyCooling
      | Some s => if s =? OP_STATE_HEATING then OP_STATE_HEATING
                  else aggregateOperatingFrom per members (anyCooling || (s =? OP_STATE_COOLING))
      end
  end.

Definition aggregateOperatingState (per : gmap Z NodeClimate) (members : list Z) : Z :=
  aggregateOperatingFrom per members false.

Fixpoint aggregateSetpointFrom (per : gmap Z NodeClimate) (members : list Z) (best : Setpoint) (bestSeq : Z) : Setpoint :=
  match members with
  | [] => best
  | m :: members =>
      match per !! m with
      | Some c =>
          match setpoint c with
          | Some s => if bestSeq <=? setpointSeq c then aggregateSetpointFrom per members s (setpointSeq c)
                      else aggregateSetpointFrom per members best bestSeq
          | None => aggregateSetpointFrom per members best bestSeq
          end
      | None => aggregateSetpointFrom per members best bestSeq
      end
  end.

Definition aggregateSetpoint (per : gmap Z NodeClimate) (members : list Z) : Setpoint :=
  aggregateSetpointFrom per members noSetpoint 0.

(** The event of [publishGroupState]. *)
Definition groupState (group : GroupKey) (per : gmap Z NodeClimate) (members : list Z) : GroupState :=
  mkGroupState group.1 group.2 (u8 (zlen members)) (aggregateByte per mode members)
    (aggregateOperatingState per members) (aggregateByte per fanMode members) (aggregateSetpoint per members).

(** The string its changes are detected by. *)
Definition signature (e : GroupState) : string :=
  (Values.to_string (memberCount e) +:+ ":" +:+ Values.to_string (g_mode e) +:+ ":" +:+
   Values.to_string (g_operatingState e) +:+ ":" +:+ Values.to_string (g_fanMode e) +:+ ":" +:+
   Values.to_string (s_type (g_setpoint e)) +:+ ":" +:+ Values.to_string (s_scale (g_setpoint e)) +:+ ":" +:+
   Values.to_string (s_precision (g_setpoint e)) +:+ ":" +:+ Values.to_string (s_value (g_setpoint e)))%string.

Section Handlers.
Context `{SqliteEnv}.

Definition publishGroupState (group : GroupKey) (st : State) : list Bus * State :=
  let (members, m) := Metadata.nodesWith group.1 group.2 (metadata st) in
  let st := withMetadata m st in
  let event := groupState group (perNode st) members in
  if decide (default EmptyString (lastSignature st !! group) = signature event) then ([], st)
  else ([LogicalThermostatState event],
        mkState (perNode st) (knownGroups st) (<[group := signature event]> (lastSignature st))
          (setpointCounter st) (metadata st) (registry st)).

(** The loop of [refreshGroupsForNode] over the groups. *)
Fixpoint refreshGroups (nodeId : Z) (groups : list GroupKey) (st : State) : list Bus * State :=
  match groups with
  | [] => ([], st)
  | group :: groups =>
      let (members, m) := Metadata.nodesWith group.1 group.2 (metadata st) in
      let st := withMetadata m st in
      let (out, st) := if decide (nodeId ∈ members) then publishGroupState group st else ([], st) in
      let (outs, st) := refreshGroups nodeId groups st in (out ++ outs, st)
  end.

Definition refreshGroupsForNode (nodeId : Z) (st : State) : list Bus * State :=
  refreshGroups nodeId (knownGroups st) st.

(** The members of a commanded group that have the class, and the group known. *)
Definition fanOut (group : GroupKey) (classByte : Z) (command : Z -> Bus) (st : State) : list Bus * State :=
  let st := mkState (perNode st) (insertGroup group (knownGroups st)) (lastSignature st) (setpointCounter st)
              (metadata st) (registry st) in
  let (members, m) := Metadata.nodesWith group.1 group.2 (metadata st) in
  let st := withMetadata m st in
  let nodes := Registry.snapshot (registry st) in
  (command <$> List.filter (fun member => supportsCc nodes member classByte) members, st).

Definition onModeCommand (group : GroupKey) (newMode : Z) : State -> list Bus * State :=
  fanOut group CC_THERMOSTAT_MODE (fun member => SetThermostatModeCommand member newMode NO_CALLBACK).

Definition onSetpointCommand (group : GroupKey) (s : Setpoint) : State -> list Bus * State :=
  fanOut group CC_THERMOSTAT_SETPOINT
    (fun member => SetThermostatSetpointCommand member (s_type s) (s_precision s) (s_scale s) (s_value s) NO_CALLBACK).

(** [state().perNode[nodeId]] *)
Definition climateOf (nodeId : Z) (st : State) : NodeClimate := default noClimate (perNode st !! nodeId).

Definition onModeReport (nodeId v : Z) (st : State) : list Bus * State :=
  let c := climateOf nodeId st in
  refreshGroupsForNode nodeId
    (withClimate nodeId (mkClimate (Some v) (operatingState c) (fanMode c) (setpoint c) (setpointSeq c)) (setpointCounter st) st).

Definition onOperatingStateReport (nodeId v : Z) (st : State) : list Bus * State :=
  let c := climateOf nodeId st in
  refreshGroupsForNode nodeId
    (withClimate nodeId (mkClimate (mode c) (Some v) (fanMode c) (setpoint c) (setpointSeq c)) (setpointCounter st) st).

Definition onFanModeReport (nodeId v : Z) (st : State) : list Bus * State :=
  let c := climateOf nodeId st in
  refreshGroupsForNode nodeId
    (withClimate nodeId (mkClimate (mode c) (operatingState c) (Some v) (setpoint c) (setpointSeq c)) (setpointCounter st) st).

Definition u64 (z : Z) : Z := z `mod` 18446744073709551616.

Definition onSetpointReport (nodeId : Z) (s : Setpoint) (st : State) : list Bus * State :=
  let c := climateOf nodeId st in
  let counter := u64 (setpointCounter st + 1) in
  refreshGroupsForNode nodeId
    (withClimate nodeId (mkClimate (mode c) (operatingState c) (fanMode c) (Some s) counter) counter st).

(** The subscriptions, and the changes other components make to the metadata and the
    registry. *)
Inductive Input :=
| ModeCommand (group : GroupKey) (newMode : Z)
| SetpointCommand (group : GroupKey) (s : Setpoint)
| ModeReport (nodeId v : Z)
| OperatingStateReport (nodeId v : Z)
| FanModeReport (nodeId v : Z)
| SetpointReport (nodeId : Z) (s : Setpoint)
| MetadataOp (op : Metadata.Op)
| RegistryOp (op : Registry.Op).

Definition step (i : Input) (st : State) : list Bus * State :=
  match i with
  | ModeCommand g m => onModeCommand g m st
  | SetpointCommand g s => onSetpointCommand g s st
  | ModeReport n v => onModeReport n v st
  | OperatingStateReport n v => onOperatingStateReport n v st
  | FanModeReport n v => onFanModeReport n v st
  | SetpointReport n s => onSetpointReport n s st
  | MetadataOp op => ([], withMetadata (Metadata.step (metadata st) op) st)
  | RegistryOp op =>
      ([], mkState (perNode st) (knownGroups st) (lastSignature st) (setpointCounter st) (metadata st)
             (Registry.step op (registry st)).2)
  end.

Fixpoint run (ins : list Input) (st : State) : list Bus * State :=
  match ins with
  | [] => ([], st)
  | i :: ins => let (out, st) := step i st in let (outs, st) := run ins st in (out ++ outs, st)
  end.
End Handlers.
End Climate.

Import Climate.

(** ** The text changes are detected by *)

Fixpoint noColon (s : string) : Prop :=
  match s with EmptyString => True | String a s => a <> ":"%char /\ noColon s end.

Lemma noColon_split x x' y y' :
  noColon x -> noColon x' -> (x +:+ ":" +:+ y)%string = (x' +:+ ":" +:+ y')%string -> x = x' /\ y = y'.
Proof.
  revert x'. induction x as [|a x IH]; intros [|a' x'] Hx Hx' E; cbn in *.
  - by injection E.
  - injection E. intros _ <-. by destruct Hx'.
  - injection E. intros _ ->. by destruct Hx.
  - injection E. intros E' <-. destruct (IH x') as [-> ->]; [apply Hx|apply Hx'|done|done].
Qed.

Lemma pretty_N_char_noColon x : pretty_N_char x <> ":"%char.
Proof. unfold pretty_N_char. by repeat case_match. Qed.

Lemma pretty_N_go_noColon x s : noColon s -> noColon (pretty_N_go x s).
Proof.
  revert s. induction (N.lt_wf_0 x) as [x _ IH]; intros s Hs.
  destruct (decide (0 < x)%N) as [H0|]; [|replace x with 0%N by lia; by rewrite pretty_N_go_0].
  rewrite pretty_N_go_step by done. apply IH; [|by split; [apply pretty_N_char_noColon|]].
  apply N.div_lt; lia.
Qed.

Lemma to_string_noColon z : noColon (Values.to_string z).
Proof.
  unfold Values.to_string. destruct z as [|p|p]; [by split| |split; [done|]];
    unfold pretty, pretty_Z, pretty, pretty_positive, pretty, pretty_N;
    (destruct (decide _); [done|]); by apply pretty_N_go_noColon.
Qed.

Lemma to_string_inj x y : Values.to_string x = Values.to_string y -> x = y.
Proof. apply (inj pretty). Qed.

Lemma signature_inj e e' :
  g_key e = g_key e' -> g_value e = g_value e' -> signature e = signature e' -> e = e'.
Proof.
  destruct e as [k v c m o f [t sc p vl]], e' as [k' v' c' m' o' f' [t' sc' p' vl']]. unfold signature. cbn [g_key g_value memberCount
    g_mode g_operatingState g_fanMode g_setpoint s_type s_scale s_precision s_value]. intros <- <- E.
  do 7 (apply noColon_split in E as [?%to_string_inj E]; [|apply to_string_noColon|apply to_string_noColon]).
  apply to_string_inj in E. by subst.
Qed.

Lemma signature_nonempty e : signature e <> EmptyString.
Proof. unfold signature. by destruct (Values.to_string (memberCount e)). Qed.

(** ** What the reports say *)

Definition readings (pick : Input -> option (Z * Z)) (n : Z) (h : list Input) : option Z :=
  last (omap (fun i => r ← pick i; if decide (r.1 = n) then Some r.2 else None) h).
Definition isMode (i : Input) : option (Z * Z) := match i with ModeReport n v => Some (n, v) | _ => None end.
Definition isOperating (i : Input) : option (Z * Z) := match i with OperatingStateReport n v => Some (n, v) | _ => None end.
Definition isFan (i : Input) : option (Z * Z) := match i with FanModeReport n v => Some (n, v) | _ => None end.

Definition setpoints (h : list Input) : list (Z * Setpoint) :=
  omap (fun i => match i with SetpointReport n s => Some (n, s) | _ => None end) h.

(** The common value, if there is one. *)
Definition combined (l : list Z) : Z :=
  match l with [] => 0 | v :: l => if decide (Forall (v =.) l) then v else MODE_MIXED end.

Definition operating (l : list Z) : Z :=
  if decide (OP_STATE_HEATING ∈ l) then OP_STATE_HEATING
  else if decide (OP_STATE_COOLING ∈ l) then OP_STATE_COOLING else OP_STATE_IDLE.

(** The group as its members' last reports show it. *)
Definition rollup (g : GroupKey) (members : list Z) (h : list Input) : GroupState :=
  mkGroupState g.1 g.2 (u8 (zlen members))
    (combined (omap (fun n => readings isMode n h) members))
    (operating (omap (fun n => readings isOperating n h) members))
    (combined (omap (fun n => readings isFan n h) members))
    (default noSetpoint (snd <$> last (filter (fun r : Z * Setpoint => r.1 ∈ members) (setpoints h)))).


Lemma aggregateFrom_spec per pick members common :
  aggregateFrom per pick members common false
  = combined (option_list common ++ omap (fun m => per !! m ≫= pick) members).
Proof.
  assert (Hmixed : forall members common, aggregateFrom per pick members common true = MODE_MIXED).
  { clear members common. intros members. induction members as [|m ms IH]; intros c; [done|]. cbn.
    destruct (per !! m ≫= pick); [|apply IH]. by destruct c. }
  revert common. induction members as [|m ms IH]; intros common.
  - cbn. by destruct common.
  - cbn. destruct (per !! m ≫= pick) as [v|]; [|apply IH].
    destruct common as [c|]; [|apply (IH (Some v))]. cbn [orb option_list app]. cbn [combined].
    destruct (Z.eqb_spec c v) as [->|Hne]; cbn [negb].
    + rewrite (IH (Some v)). cbn [option_list app combined].
      symmetry. apply decide_ext. rewrite Forall_cons. naive_solver.
    + rewrite Hmixed. symmetry. apply decide_False. by intros [? _]%Forall_cons.
Qed.

Lemma aggregateByte_spec per pick members :
  aggregateByte per pick members = combined (omap (fun m => per !! m ≫= pick) members).
Proof. apply aggregateFrom_spec. Qed.

Lemma aggregateOperating_spec per members :
  aggregateOperatingState per members = operating (omap (fun m => per !! m ≫= operatingState) members).
Proof.
  assert (Hc : forall members c, aggregateOperatingFrom per members c
    = if decide (OP_STATE_HEATING ∈ omap (fun m => per !! m ≫= operatingState) members) then OP_STATE_HEATING
      else if c || bool_decide (OP_STATE_COOLING ∈ omap (fun m => per !! m ≫= operatingState) members)
      then OP_STATE_COOLING else OP_STATE_IDLE).
  { clear members. intros members. induction members as [|m ms IH]; intros c.
    - cbn. by rewrite orb_false_r.
    - cbn. destruct (per !! m ≫= operatingState) as [s|]; [|apply IH].
      destruct (Z.eqb_spec s OP_STATE_HEATING) as [->|Hh].
      + rewrite decide_True; [done|constructor].
      + rewrite IH. set (l := omap _ ms).
        assert (Hiff : OP_STATE_HEATING ∈ s :: l <-> OP_STATE_HEATING ∈ l) by (rewrite elem_of_cons; naive_solver).
        destruct (decide (OP_STATE_HEATING ∈ l)); [rewrite decide_True by tauto|rewrite decide_False by tauto]; [done|].
        replace (bool_decide (OP_STATE_COOLING ∈ s :: l)) with ((s =? OP_STATE_COOLING) || bool_decide (OP_STATE_COOLING ∈ l)).
        2:{ destruct (Z.eqb_spec s OP_STATE_COOLING) as [->|Hs]; cbn [orb].
            - symmetry. apply bool_decide_eq_true_2. constructor.
            - apply bool_decide_ext. rewrite elem_of_cons. naive_solver. }
        by rewrite orb_assoc. }
  unfold aggregateOperatingState, operating. rewrite Hc. cbn [orb].
  case_decide; [done|]. case_bool_decide; [by rewrite decide_True|by rewrite decide_False].
Qed.

(** ** The readings kept are the last reports *)

Lemma readings_snoc pick n h i :
  readings pick n (h ++ [i]) = match pick i with Some (n', v) => if decide (n' = n) then Some v else readings pick n h
                                                | None => readings pick n h end.
Proof.
  unfold readings. rewrite omap_app. cbn. destruct (pick i) as [[n' v]|]; cbn; [|by rewrite app_nil_r].
  case_decide; cbn; [by rewrite last_snoc|by rewrite app_nil_r].
Qed.

Lemma setpoints_snoc h i :
  setpoints (h ++ [i]) = setpoints h ++ match i with SetpointReport n s => [(n, s)] | _ => [] end.
Proof. unfold setpoints. rewrite omap_app. by destruct i. Qed.

(** What a refresh leaves as it was. *)
Record same (st st' : State) : Prop := {
  same_per : perNode st' = perNode st;
  same_known : knownGroups st' = knownGroups st;
  same_counter : setpointCounter st' = setpointCounter st;
  same_valid : valid (Metadata.db (metadata st')) = valid (Metadata.db (metadata st));
  same_home : Metadata.currentHomeId (metadata st') = Metadata.currentHomeId (metadata st);
  same_table : table (Metadata.db (metadata st')) = table (Metadata.db (metadata st)) }.

Lemma same_refl st : same st st.
Proof. done. Qed.
Lemma same_trans st1 st2 st3 : same st1 st2 -> same st2 st3 -> same st1 st3.
Proof. intros [] []. split; congruence. Qed.

Section Refresh.
Context `{e : SqliteEnv}.

Lemma nodesWith_same k v m :
  let r := Metadata.nodesWith k v m in
  valid (Metadata.db r.2) = valid (Metadata.db m) /\ Metadata.currentHomeId r.2 = Metadata.currentHomeId m /\
  table (Metadata.db r.2) = table (Metadata.db m).
Proof.
  cbn zeta. unfold Metadata.nodesWith. destruct (Metadata.currentHomeId m) eqn:E; [|done].
  destruct (negb (valid (Metadata.db m))); [done|].
  match goal with |- context [select ?q ?d] => pose proof (select_valid q d); pose proof (select_table q d);
    destruct (select q d) as [rows d'] end. done.
Qed.

Lemma withMetadata_same m st :
  valid (Metadata.db m) = valid (Metadata.db (metadata st)) -> Metadata.currentHomeId m = Metadata.currentHomeId (metadata st) ->
  table (Metadata.db m) = table (Metadata.db (metadata st)) -> same st (withMetadata m st).
Proof. by split. Qed.

Lemma publish_same g st : same st (publishGroupState g st).2.
Proof.
  unfold publishGroupState. destruct (nodesWith_same g.1 g.2 (metadata st)) as (H1 & H2 & H3).
  destruct (Metadata.nodesWith g.1 g.2 (metadata st)) as [members m]. cbn [fst snd] in *.
  destruct (decide _); [by apply withMetadata_same|by split].
Qed.

Lemma refresh_same n groups st : same st (refreshGroups n groups st).2.
Proof.
  revert st. induction groups as [|g groups IH]; intros st; [apply same_refl|]. cbn [refreshGroups].
  destruct (nodesWith_same g.1 g.2 (metadata st)) as (H1 & H2 & H3).
  destruct (Metadata.nodesWith g.1 g.2 (metadata st)) as [members m]. cbn [fst snd] in *.
  pose proof (withMetadata_same m st H1 H2 H3) as Hm.
  assert (Hp : same st (if decide (n ∈ members) then publishGroupState g (withMetadata m st) else ([], withMetadata m st)).2).
  { destruct (decide _); [|done]. eapply same_trans; [done|apply publish_same]. }
  destruct (if decide (n ∈ members) then _ else _) as [out st1]. cbn [snd] in Hp. specialize (IH st1).
  destruct (refreshGroups n groups st1) as [outs st2]. cbn [snd] in *. by eapply same_trans.
Qed.

(** The readings after an input, before any group is refreshed. *)
Definition readingsAfter (i : Input) (st : State) : gmap Z NodeClimate * Z :=
  match i with
  | ModeReport n v => let c := climateOf n st in
      (<[n := mkClimate (Some v) (operatingState c) (fanMode c) (setpoint c) (setpointSeq c)]> (perNode st), setpointCounter st)
  | OperatingStateReport n v => let c := climateOf n st in
      (<[n := mkClimate (mode c) (Some v) (fanMode c) (setpoint c) (setpointSeq c)]> (perNode st), setpointCounter st)
  | FanModeReport n v => let c := climateOf n st in
      (<[n := mkClimate (mode c) (operatingState c) (Some v) (setpoint c) (setpointSeq c)]> (perNode st), setpointCounter st)
  | SetpointReport n s => let c := climateOf n st in
      (<[n := mkClimate (mode c) (operatingState c) (fanMode c) (Some s) (u64 (setpointCounter st + 1))]> (perNode st),
       u64 (setpointCounter st + 1))
  | _ => (perNode st, setpointCounter st)
  end.

Lemma step_readings i st :
  perNode (step i st).2 = (readingsAfter i st).1 /\ setpointCounter (step i st).2 = (readingsAfter i st).2.
Proof.
  destruct i as [g m|g s|n v|n v|n v|n s|op|op]; cbn [step readingsAfter fst snd]; try done;
    try (unfold onModeCommand, onSetpointCommand, fanOut; by destruct (Metadata.nodesWith _ _ _));
    (unfold onModeReport, onOperatingStateReport, onFanModeReport, onSetpointReport, refreshGroupsForNode;
     match goal with |- context [refreshGroups ?a ?b ?c] => destruct (refresh_same a b c) as [Hp _ Hc _ _ _] end;
     rewrite Hp, Hc; done).
Qed.
End Refresh.

Record kept (h : list Input) (per : gmap Z NodeClimate) (counter : Z) : Prop := {
  k_mode : forall n, per !! n ≫= mode = readings isMode n h;
  k_operating : forall n, per !! n ≫= operatingState = readings isOperating n h;
  k_fan : forall n, per !! n ≫= fanMode = readings isFan n h;
  k_counter : counter = zlen (setpoints h);
  k_seq : forall n c s, per !! n = Some c -> setpoint c = Some s ->
    exists k : nat, setpointSeq c = Z.of_nat k + 1 /\ setpoints h !! k = Some (n, s) /\
      forall j r, (k < j)%nat -> setpoints h !! j = Some r -> r.1 <> n;
  k_all : forall r, r ∈ setpoints h -> is_Some (per !! r.1 ≫= setpoint) }.

Lemma kept_start : kept [] ∅ 0.
Proof. split; try done. intros r Hr. by apply elem_of_nil in Hr. Qed.

Lemma climateOf_field {A} (f : NodeClimate -> option A) n st :
  f noClimate = None -> f (climateOf n st) = perNode st !! n ≫= f.
Proof. intros Hf. unfold climateOf. by destruct (perNode st !! n). Qed.

(** The reading of one kind after a node's record was replaced. *)
Lemma field_insert {A} (f : NodeClimate -> option A) n c (per : gmap Z NodeClimate) n' :
  (<[n := c]> per : gmap Z NodeClimate) !! n' ≫= f = if decide (n = n') then f c else per !! n' ≫= f.
Proof. case_decide as E; [subst; by rewrite lookup_insert_eq|by rewrite lookup_insert_ne]. Qed.

(** A report that is not a setpoint keeps what is known of setpoints. *)
Lemma kept_other h i st n c :
  setpoints (h ++ [i]) = setpoints h -> setpoint c = setpoint (climateOf n st) -> setpointSeq c = setpointSeq (climateOf n st) ->
  kept h (perNode st) (setpointCounter st) ->
  (forall n', (<[n := c]> (perNode st) : gmap Z NodeClimate) !! n' ≫= mode = readings isMode n' (h ++ [i])) ->
  (forall n', (<[n := c]> (perNode st) : gmap Z NodeClimate) !! n' ≫= operatingState = readings isOperating n' (h ++ [i])) ->
  (forall n', (<[n := c]> (perNode st) : gmap Z NodeClimate) !! n' ≫= fanMode = readings isFan n' (h ++ [i])) ->
  kept (h ++ [i]) (<[n := c]> (perNode st)) (setpointCounter st).
Proof.
  intros Hh Hc Hq [_ _ _ Hn Hs Ha] Hm Ho Hf. split; try done; rewrite Hh; [done| |].
  - intros n' c' s E Hset. destruct (decide (n = n')) as [<-|Hne].
    + rewrite lookup_insert_eq in E. injection E as <-. rewrite Hq.
      assert (Hset' : perNode st !! n ≫= setpoint = Some s) by by rewrite <-climateOf_field, <-Hc.
      destruct (perNode st !! n) as [c0|] eqn:E0; [|done]. cbn in Hset'. destruct (Hs n c0 s E0 Hset') as (k & Hk & Hr).
      exists k. unfold climateOf. by rewrite E0.
    + rewrite lookup_insert_ne in E by done. by eapply Hs.
  - intros r Hr. rewrite field_insert. case_decide as E; [|by apply Ha]. rewrite Hc, climateOf_field by done. rewrite E. by apply Ha.
Qed.

Lemma kept_step h i st :
  zlen (setpoints h) + 1 < 2 ^ 64 -> kept h (perNode st) (setpointCounter st) ->
  kept (h ++ [i]) (readingsAfter i st).1 (readingsAfter i st).2.
Proof.
  change (2 ^ 64) with 18446744073709551616. intros Hl Hk. pose proof Hk as [Hm Ho Hf Hn Hs Ha].
  assert (Hsame : setpoints (h ++ [i]) = setpoints h -> isMode i = None -> isOperating i = None -> isFan i = None ->
    kept (h ++ [i]) (perNode st) (setpointCounter st)).
  { intros E E1 E2 E3. split; try (intros n; rewrite readings_snoc, ?E1, ?E2, ?E3; done); by rewrite E. }
  destruct i as [g m|g s|n v|n v|n v|n s|op|op]; cbn [readingsAfter fst snd];
    try (apply Hsame; [by rewrite setpoints_snoc, app_nil_r|done|done|done]).
  1-3: apply kept_other; try done; [by rewrite setpoints_snoc, app_nil_r|..]; intros n'; rewrite field_insert, readings_snoc;
    cbn [isMode isOperating isFan mode operatingState fanMode]; case_decide as E; subst;
    rewrite ?climateOf_field by done; try done; auto.
  split; try (intros n'; rewrite field_insert, readings_snoc; cbn [isMode isOperating isFan mode operatingState fanMode];
    case_decide as E; subst; rewrite ?climateOf_field by done; auto).
  - rewrite setpoints_snoc. unfold u64. rewrite Hn, length_app, Z.mod_small; cbn [length]; lia.
  - intros n' c s' E Hset. rewrite setpoints_snoc. destruct (decide (n = n')) as [<-|Hne].
    + rewrite lookup_insert_eq in E. injection E as <-. cbn [setpoint setpointSeq] in *. injection Hset as <-.
      exists (length (setpoints h)). split_and!.
      * unfold u64. rewrite Hn, Z.mod_small; lia.
      * by rewrite lookup_app_r, Nat.sub_diag.
      * intros j r Hj Hr. apply lookup_lt_Some in Hr. rewrite length_app in Hr. cbn in Hr. lia.
    + rewrite lookup_insert_ne in E by done. destruct (Hs n' c s' E Hset) as (k & Hk1 & Hk2 & Hk3). exists k.
      split_and!; [done|by apply lookup_app_l_Some|]. intros j r Hj [Hr|[Hge Hr]]%lookup_app_Some; [by eapply Hk3|].
      apply list_lookup_singleton_Some in Hr as [_ <-]. done.
  - rewrite setpoints_snoc. intros r Hr%elem_of_app. rewrite field_insert. case_decide as E; [by eexists|].
    destruct Hr as [Hr|Hr]; [by apply Ha|]. apply list_elem_of_singleton in Hr. by subst.
Qed.

(** ** The rollup *)

Lemma aggregateSetpointFrom_max per members best bestSeq q0 s0 :
  (forall m c s, m ∈ members -> per !! m = Some c -> setpoint c = Some s ->
     setpointSeq c <= q0 /\ (setpointSeq c = q0 -> s = s0)) ->
  bestSeq <= q0 ->
  (exists m c, m ∈ members /\ per !! m = Some c /\ is_Some (setpoint c) /\ setpointSeq c = q0) \/ (bestSeq = q0 /\ best = s0) ->
  aggregateSetpointFrom per members best bestSeq = s0.
Proof.
  revert best bestSeq. induction members as [|m ms IH]; intros best bestSeq Hall Hle Hex.
  - destruct Hex as [(m & c & Hm & _)|[_ ->]]; [by apply elem_of_nil in Hm|done].
  - assert (Hall' : forall m c s, m ∈ ms -> per !! m = Some c -> setpoint c = Some s ->
       setpointSeq c <= q0 /\ (setpointSeq c = q0 -> s = s0)) by (intros; eapply Hall; [by right|done|done]).
    cbn. destruct (per !! m) as [c|] eqn:Ec; [destruct (setpoint c) as [s|] eqn:Es|].
    + destruct (Hall m c s ltac:(by left) Ec Es) as [Hc Hs0].
      destruct (Z.leb_spec bestSeq (setpointSeq c)).
      * apply IH; [done|lia|]. destruct (decide (setpointSeq c = q0)) as [E|E]; [by right; split; [|apply Hs0]|].
        left. destruct Hex as [(m' & c' & [->|Hm']%elem_of_cons & E1 & E2 & E3)|[E1 _]]; [simplify_eq; congruence|by exists m', c'|lia].
      * apply IH; [done|lia|]. destruct Hex as [(m' & c' & [->|Hm']%elem_of_cons & E1 & E2 & E3)|Hb]; [simplify_eq; lia| |by right].
        left. by exists m', c'.
    + apply IH; [done|done|]. destruct Hex as [(m' & c' & [->|Hm']%elem_of_cons & E1 & [? E2] & E3)|Hb]; [simplify_eq; congruence| |by right].
      left. by exists m', c'.
    + apply IH; [done|done|]. destruct Hex as [(m' & c' & [->|Hm']%elem_of_cons & E1 & E2 & E3)|Hb]; [simplify_eq| |by right].
      left. by exists m', c'.
Qed.

Lemma aggregateSetpointFrom_none per members best bestSeq :
  (forall m, m ∈ members -> per !! m ≫= setpoint = None) -> aggregateSetpointFrom per members best bestSeq = best.
Proof.
  revert best bestSeq. induction members as [|m ms IH]; intros best bestSeq Hall; [done|]. cbn.
  pose proof (Hall m ltac:(by left)) as Hm.
  destruct (per !! m) as [c|]; [cbn in Hm; rewrite Hm|]; apply IH; intros m' Hin; apply Hall; by right.
Qed.

(** The last element of a filtered list, with its place. *)
Lemma last_filter {A} (P : A -> Prop) `{!forall x, Decision (P x)} (l : list A) x :
  last (filter P l) = Some x ->
  exists k, l !! k = Some x /\ P x /\ forall j y, (k < j)%nat -> l !! j = Some y -> ~ P y.
Proof.
  induction l as [|y l IH] using rev_ind; [done|]. rewrite filter_app. cbn. destruct (decide (P y)) as [Hy|Hy].
  - rewrite last_snoc. intros [= <-]. exists (length l). rewrite lookup_app_r, Nat.sub_diag by done.
    split_and!; [done|done|]. intros j z Hj Hz%lookup_lt_Some. rewrite length_app in Hz. cbn in Hz. lia.
  - rewrite app_nil_r. intros Hx. destruct (IH Hx) as (k & H1 & H2 & H3). exists k.
    split_and!; [by apply lookup_app_l_Some|done|]. intros j z Hj [Hz|[_ Hz]]%lookup_app_Some; [by eapply H3|].
    apply list_lookup_singleton_Some in Hz as [_ <-]. done.
Qed.

Lemma aggregateSetpoint_spec h per counter members :
  kept h per counter ->
  aggregateSetpoint per members
  = default noSetpoint (snd <$> last (filter (fun r : Z * Setpoint => r.1 ∈ members) (setpoints h))).
Proof.
  intros [_ _ _ _ Hs Ha]. unfold aggregateSetpoint. destruct (last (filter _ (setpoints h))) as [[n s]|] eqn:E.
  - apply last_filter in E as (k & Hk & Hm & Hlast). cbn in Hm. cbn.
    assert (Hmax : forall m c s', m ∈ members -> per !! m = Some c -> setpoint c = Some s' ->
      setpointSeq c <= Z.of_nat k + 1 /\ (setpointSeq c = Z.of_nat k + 1 -> s' = s)).
    { intros m c s' Hin Hc Hsp. destruct (Hs m c s' Hc Hsp) as (k' & -> & Hk' & _).
      destruct (decide (k < k')%nat) as [Hlt|Hge]; [by destruct (Hlast k' _ Hlt Hk')|]. split; [lia|].
      intros Eq. assert (k' = k) as -> by lia. congruence. }
    apply (aggregateSetpointFrom_max _ _ _ _ (Z.of_nat k + 1)); [done|lia|]. left.
    destruct (Ha (n, s) ltac:(by eapply list_elem_of_lookup_2)) as [s' Hs']. cbn in Hs'.
    destruct (per !! n) as [c|] eqn:Ec; [|done]. cbn in Hs'. exists n, c. split_and!; [done|done|by eexists|].
    destruct (Hs n c s' Ec Hs') as (k' & -> & Hk' & Hl'). destruct (decide (k' < k)%nat) as [Hlt|Hge].
    { by destruct (Hl' k _ Hlt Hk). }
    destruct (decide (k < k')%nat) as [Hlt|Hge']; [by destruct (Hlast k' _ Hlt Hk')|]. lia.
  - cbn. apply aggregateSetpointFrom_none. intros m Hm. destruct (per !! m) as [c|] eqn:Ec; [cbn|done].
    destruct (setpoint c) as [s|] eqn:Es; [|done]. exfalso. destruct (Hs m c s Ec Es) as (k & _ & Hk & _).
    apply last_None in E. assert (Hin : (m, s) ∈ filter (fun r : Z * Setpoint => r.1 ∈ members) (setpoints h)).
    { apply list_elem_of_filter. split; [done|]. by eapply list_elem_of_lookup_2. }
    rewrite E in Hin. by apply elem_of_nil in Hin.
Qed.

Lemma groupState_rollup g h per counter members :
  kept h per counter -> groupState g per members = rollup g members h.
Proof.
  intros Hk. unfold groupState, rollup. rewrite !aggregateByte_spec, aggregateOperating_spec, (aggregateSetpoint_spec h per counter) by done.
  destruct Hk as [Hm Ho Hf _ _ _]. f_equal; f_equal; apply list_omap_ext; apply Forall2_same_length_lookup_2; [done| |done| |done|];
    intros i x y Hx Hy; simplify_eq; [apply Hm|apply Ho|apply Hf].
Qed.

(** ** What clients last saw *)

Definition lastEvent (g : GroupKey) (log : list Bus) : option GroupState :=
  last (omap (fun b => match b with
    | LogicalThermostatState s => if decide (g = (g_key s, g_value s)) then Some s else None | _ => None end) log).

(** The signature kept for a group is that of the last state published for it. *)
Definition signed (log : list Bus) (st : State) : Prop :=
  forall g, lastSignature st !! g = signature <$> lastEvent g log.

Lemma lastEvent_app g log out : omap (fun b => match b with
    | LogicalThermostatState s => if decide (g = (g_key s, g_value s)) then Some s else None | _ => None end) out = [] ->
  lastEvent g (log ++ out) = lastEvent g log.
Proof. intros Ho. unfold lastEvent. by rewrite omap_app, Ho, app_nil_r. Qed.

Lemma lastEvent_snoc g log s :
  lastEvent g (log ++ [LogicalThermostatState s]) = if decide (g = (g_key s, g_value s)) then Some s else lastEvent g log.
Proof.
  unfold lastEvent. rewrite omap_app. cbn. case_decide; cbn; [by rewrite last_snoc|by rewrite app_nil_r].
Qed.

Section Log.
Context `{e : SqliteEnv} (He : reliable e).

Lemma nodesWith_value k v m home :
  valid (Metadata.db m) = true -> Metadata.currentHomeId m = Some home ->
  (Metadata.nodesWith k v m).1 = u8 <$> Metadata.SELECT_NODES_BY_TAG home k v (table (Metadata.db m)).
Proof.
  intros Hv Hh. unfold Metadata.nodesWith. rewrite Hh, Hv. cbn [negb]. by rewrite select_reliable.
Qed.

Lemma publish_signed g log st :
  signed log st ->
  let r := publishGroupState g st in
  signed (log ++ r.1) r.2 /\
  lastEvent g (log ++ r.1) = Some (groupState g (perNode st) (Metadata.nodesWith g.1 g.2 (metadata st)).1) /\
  forall g', g' <> g -> lastEvent g' (log ++ r.1) = lastEvent g' log.
Proof.
  intros Hs. cbn zeta. unfold publishGroupState. destruct (Metadata.nodesWith g.1 g.2 (metadata st)) as [members m]. cbn [fst].
  set (ev := groupState g (perNode (withMetadata m st)) members). change (groupState g (perNode st) members) with ev.
  assert (Hg : g = (g_key ev, g_value ev)) by by destruct g.
  assert (Hsig : lastSignature (withMetadata m st) = lastSignature st) by done. rewrite Hsig, (Hs g).
  case_decide as Hd; cbn [fst snd].
  - rewrite app_nil_r. split; [by intros g'; rewrite Hsig|]. split; [|done].
    destruct (lastEvent g log) as [e'|] eqn:E; cbn in Hd; [|by destruct (signature_nonempty ev)].
    f_equal. unfold lastEvent in E. apply last_Some_elem_of, list_elem_of_omap in E as (b & _ & Hb).
    destruct b as [s| |]; [|done|done]. case_decide as Hk; [|done]. injection Hb as <-.
    rewrite Hg in Hk. injection Hk as Hk Hv. by apply signature_inj.
  - split_and!.
    + intros g'. rewrite lastEvent_snoc. cbn [lastSignature]. rewrite <-Hg. destruct (decide (g' = g)) as [->|Hne].
      * by rewrite lookup_insert_eq.
      * rewrite lookup_insert_ne by done. apply Hs.
    + rewrite lastEvent_snoc. by rewrite decide_True.
    + intros g' Hne. rewrite lastEvent_snoc, decide_False; [done|]. by rewrite <-Hg.
Qed.

(** A group's members on the bound network. *)
Definition membersOf (home : string) (g : GroupKey) (st : State) : list Z :=
  u8 <$> Metadata.SELECT_NODES_BY_TAG home g.1 g.2 (table (Metadata.db (metadata st))).

Lemma same_members home g st st' : same st st' -> membersOf home g st' = membersOf home g st.
Proof. intros [_ _ _ _ _ Ht]. unfold membersOf. by rewrite Ht. Qed.

Lemma withMetadata_signed log m st : signed log st -> signed log (withMetadata m st).
Proof. done. Qed.

(** A refresh shows every group of the list the node is in as it is now. *)
Lemma refresh_signed n groups log st home :
  signed log st -> valid (Metadata.db (metadata st)) = true -> Metadata.currentHomeId (metadata st) = Some home ->
  let r := refreshGroups n groups st in
  signed (log ++ r.1) r.2 /\
  forall g, n ∈ membersOf home g st ->
    (g ∈ groups \/ lastEvent g log = Some (groupState g (perNode st) (membersOf home g st))) ->
    lastEvent g (log ++ r.1) = Some (groupState g (perNode st) (membersOf home g st)).
Proof.
  cbn zeta. revert log st. induction groups as [|h groups IH]; intros log st Hs Hv Hh.
  - cbn. rewrite app_nil_r. split; [done|]. intros g _ [Hin|Hl]; [by apply elem_of_nil in Hin|done].
  - cbn [refreshGroups]. pose proof (nodesWith_value h.1 h.2 (metadata st) home Hv Hh) as Hw.
    destruct (nodesWith_same h.1 h.2 (metadata st)) as (H1 & H2 & H3).
    destruct (Metadata.nodesWith h.1 h.2 (metadata st)) as [members m]. cbn [fst snd] in *.
    change (members = membersOf home h st) in Hw. subst members.
    pose proof (withMetadata_same m st H1 H2 H3) as Hm.
    assert (Hp : let r := if decide (n ∈ membersOf home h st) then publishGroupState h (withMetadata m st) else ([], withMetadata m st) in
      signed (log ++ r.1) r.2 /\ same st r.2 /\
      (n ∈ membersOf home h st -> lastEvent h (log ++ r.1) = Some (groupState h (perNode st) (membersOf home h st))) /\
      forall g, g <> h -> lastEvent g (log ++ r.1) = lastEvent g log).
    { cbn zeta. destruct (decide (n ∈ membersOf home h st)) as [Hin|Hno].
      - destruct (publish_signed h log (withMetadata m st) Hs) as (E1 & E2 & E3).
        split_and!; [done|eapply same_trans; [done|apply publish_same]| |done]. intros _. rewrite E2.
        cbn [metadata perNode withMetadata]. rewrite (nodesWith_value _ _ _ home) by congruence. by rewrite H3.
      - cbn. rewrite app_nil_r. by split_and!. }
    cbn zeta in Hp.
    destruct (if decide (n ∈ membersOf home h st) then _ else _) as [out st1]. cbn [fst snd] in Hp.
    destruct Hp as (E1 & E2 & E3 & E4). pose proof E2 as [Ep _ _ Ev Eh Et].
    destruct (IH (log ++ out) st1 E1) as [F1 F2]; [congruence|congruence|].
    destruct (refreshGroups n groups st1) as [outs st2]. cbn [fst snd] in *. rewrite app_assoc.
    split; [done|]. intros g Hg Hin. specialize (F2 g). rewrite Ep, (same_members home g st st1 E2) in F2.
    apply F2; [done|]. destruct (decide (g = h)) as [->|Hne]; [right; by apply E3|].
    rewrite E4 by done. destruct Hin as [[?|?]%elem_of_cons|?]; [done|by left|by right].
Qed.

Lemma refresh_signed_always n groups log st :
  signed log st -> signed (log ++ (refreshGroups n groups st).1) (refreshGroups n groups st).2.
Proof.
  revert log st. induction groups as [|h groups IH]; intros log st Hs; [by rewrite app_nil_r|]. cbn [refreshGroups].
  destruct (Metadata.nodesWith h.1 h.2 (metadata st)) as [members m].
  assert (Hp : let r := if decide (n ∈ members) then publishGroupState h (withMetadata m st) else ([], withMetadata m st) in
    signed (log ++ r.1) r.2).
  { cbn zeta. destruct (decide _); [by apply (publish_signed h log (withMetadata m st))|]. cbn. by rewrite app_nil_r. }
  cbn zeta in Hp. destruct (if decide (n ∈ members) then _ else _) as [out st1]. cbn [fst snd] in Hp.
  specialize (IH (log ++ out) st1 Hp). destruct (refreshGroups n groups st1) as [outs st2]. cbn [fst snd] in *. by rewrite app_assoc.
Qed.

Lemma run_snoc ins i st :
  run (ins ++ [i]) st = ((run ins st).1 ++ (step i (run ins st).2).1, (step i (run ins st).2).2).
Proof.
  revert st. induction ins as [|j ins IH]; intros st; cbn [run app].
  - cbn. destruct (step i st) as [out st1]. by rewrite app_nil_r.
  - destruct (step j st) as [out st1]. rewrite IH. destruct (run ins st1) as [outs st2]. cbn [fst snd]. by rewrite app_assoc.
Qed.

Lemma step_signed i log st : signed log st -> signed (log ++ (step i st).1) (step i st).2.
Proof.
  intros Hs. destruct i as [g v|g s|n v|n v|n v|n s|op|op]; cbn [step];
    try (unfold onModeReport, onOperatingStateReport, onFanModeReport, onSetpointReport, refreshGroupsForNode;
         by apply refresh_signed_always);
    try (cbn; by rewrite app_nil_r).
  all: unfold onModeCommand, onSetpointCommand, fanOut; cbn [metadata];
    destruct (Metadata.nodesWith _ _ _) as [members m]; cbn [fst snd]; intros g'; cbn [lastSignature withMetadata];
    rewrite (Hs g'); f_equal; symmetry; apply lastEvent_app;
    match goal with |- omap _ (?f <$> ?l) = [] => induction l; [done|by cbn] end.
Qed.

Lemma run_signed ins st : signed [] st -> signed (run ins st).1 (run ins st).2.
Proof.
  intros Hs. induction ins as [|i ins IH] using rev_ind; [done|]. rewrite run_snoc. by apply step_signed.
Qed.

Lemma setpoints_length h : (length (setpoints h) <= length h)%nat.
Proof. induction h as [|i h IH]; [done|]. destruct i; cbn; unfold setpoints in *; lia. Qed.

Lemma run_kept ins st :
  kept [] (perNode st) (setpointCounter st) -> zlen ins < 2 ^ 64 ->
  kept ins (perNode (run ins st).2) (setpointCounter (run ins st).2).
Proof.
  intros Hk. induction ins as [|i ins IH] using rev_ind; intros Hl; [done|]. rewrite run_snoc. cbn [snd].
  rewrite length_app in Hl. cbn [length] in Hl.
  destruct (step_readings i (run ins st).2) as [-> ->]. apply kept_step; [|apply IH; lia].
  pose proof (setpoints_length ins). lia.
Qed.

(** The groups clients have addressed are known. *)
Lemma insertGroup_elem g h l : h ∈ insertGroup g l <-> h = g \/ h ∈ l.
Proof.
  induction l as [|x l IH]; cbn; [set_solver|]. case_decide as E; [set_solver|].
  destruct (groupLt g x); [set_solver|]. rewrite !elem_of_cons, IH. tauto.
Qed.

Lemma step_known i st :
  forall g, g ∈ knownGroups (step i st).2 <->
    g ∈ knownGroups st \/ match i with ModeCommand g' _ | SetpointCommand g' _ => g = g' | _ => False end.
Proof.
  intros g. destruct i as [g' v|g' s|n v|n v|n v|n s|op|op]; cbn [step]; try (cbn; tauto);
    try (unfold onModeCommand, onSetpointCommand, fanOut; destruct (Metadata.nodesWith _ _ _); cbn;
         rewrite insertGroup_elem; tauto);
    (unfold onModeReport, onOperatingStateReport, onFanModeReport, onSetpointReport, refreshGroupsForNode;
     match goal with |- context [refreshGroups ?a ?b ?c] => destruct (refresh_same a b c) as [_ -> _ _ _ _] end; cbn; tauto).
Qed.

Definition addressed (g : GroupKey) (i : Input) : Prop :=
  match i with ModeCommand g' _ | SetpointCommand g' _ => g = g' | _ => False end.

Lemma run_known ins st g : g ∈ knownGroups (run ins st).2 <-> g ∈ knownGroups st \/ Exists (addressed g) ins.
Proof.
  induction ins as [|i ins IH] using rev_ind; [cbn; rewrite Exists_nil; tauto|].
  rewrite run_snoc. cbn [snd]. rewrite step_known, IH, Exists_app, Exists_cons, Exists_nil. unfold addressed. tauto.
Qed.

(** The node a report is about. *)
Definition reporter (i : Input) : option Z :=
  match i with
  | ModeReport n _ | OperatingStateReport n _ | FanModeReport n _ | SetpointReport n _ => Some n
  | _ => None
  end.

Lemma report_refreshes i n log st home :
  reporter i = Some n -> signed log st ->
  valid (Metadata.db (metadata st)) = true -> Metadata.currentHomeId (metadata st) = Some home ->
  forall g, n ∈ membersOf home g st -> g ∈ knownGroups st ->
  lastEvent g (log ++ (step i st).1) = Some (groupState g (perNode (step i st).2) (membersOf home g st)).
Proof.
  intros Hi Hs Hv Hh g Hn Hg.
  destruct i; cbn in Hi; simplify_eq; cbn [step];
    unfold onModeReport, onOperatingStateReport, onFanModeReport, onSetpointReport, refreshGroupsForNode;
    (match goal with |- context [refreshGroups ?a ?b ?c] =>
       destruct (refresh_signed a b log c home Hs Hv Hh) as [_ Hr]; destruct (refresh_same a b c) as [Hp _ _ _ _ _] end);
    rewrite Hp; (apply Hr; [done|by left]).
Qed.
End Log.

(** A daemon whose thermostat has seen nothing yet. *)
Record fresh (st : State) : Prop := {
  f_per : perNode st = ∅;
  f_counter : setpointCounter st = 0;
  f_signature : lastSignature st = ∅ }.

(** C25: whenever a member of a group that was ever addressed reports, what clients last
    saw of the group is the rollup of the members of that moment: per kind of reading
    their last reports, combined or marked mixed, heating before cooling, and the
    setpoint that was reported last, over any commands, reports, and changes to tags
    and nodes before.  Unchanged states are not published again, and none is lost by
    that. *)
Theorem group_state_follows_reports (e : SqliteEnv) ins i n g home st :
  reliable e -> fresh st -> zlen ins + 1 < 2 ^ 64 -> reporter i = Some n ->
  g ∈ knownGroups st \/ Exists (addressed g) ins ->
  let before := (run ins st).2 in
  valid (Metadata.db (metadata before)) = true -> Metadata.currentHomeId (metadata before) = Some home ->
  n ∈ membersOf home g before ->
  lastEvent g (run (ins ++ [i]) st).1 = Some (rollup g (membersOf home g before) (ins ++ [i])).
Proof.
  intros He [Hp Hc Hsig] Hl Hi Hg. cbn zeta. intros Hv Hh Hn.
  assert (Hs : signed [] st) by by intros g'; rewrite Hsig, lookup_empty.
  rewrite run_snoc. cbn [fst].
  rewrite (report_refreshes He i n _ _ home Hi (run_signed ins st Hs) Hv Hh g Hn) by by apply run_known.
  f_equal. eapply groupState_rollup.
  assert (Hk : kept [] (perNode st) (setpointCounter st)) by by rewrite Hp, Hc; apply kept_start.
  assert (Hlen : zlen (ins ++ [i]) < 2 ^ 64) by (rewrite length_app; cbn [length]; lia).
  pose proof (run_kept (ins ++ [i]) st Hk Hlen) as Hr. rewrite run_snoc in Hr. exact Hr.
Qed.

(** Two nodes tagged as one room; one heats, the other is off. *)
Definition room : GroupKey := ("room", "hall")%string.
Definition hall : Climate.State :=
  Climate.mkState ∅ [] ∅ 0
    (Metadata.mkState (mkDb true
       {[ ("C0FFEE00", 4, "room")%string := "hall"%string; ("C0FFEE00", 9, "room")%string := "hall"%string ]} 0)
       (Some "C0FFEE00"%string))
    (Registry.mkState ∅ None (mkDb true ∅ 0)).

Lemma group_state_follows_reports_witness :
  lastEvent room (run (H := alwaysRuns)
    ([ModeCommand room 1; ModeReport 4 1; SetpointReport 9 (mkSetpoint 1 0 1 215); OperatingStateReport 4 1] ++ [ModeReport 9 0])
    hall).1
  = Some (mkGroupState "room" "hall" 2 MODE_MIXED OP_STATE_HEATING 0 (mkSetpoint 1 0 1 215)).
Proof.
  refine (group_state_follows_reports alwaysRuns
    [ModeCommand room 1; ModeReport 4 1; SetpointReport 9 (mkSetpoint 1 0 1 215); OperatingStateReport 4 1]
    (ModeReport 9 0) 9 room "C0FFEE00"%string hall alwaysRuns_reliable _ _ eq_refl _ _ _ _).
  - by split.
  - done.
  - right. by left.
  - by vm_compute.
  - by vm_compute.
  - apply (bool_decide_unpack _). by vm_compute.
Defined.
