(* ===== verification/Multicast.v ===== *)
(** * Security S2 multicast: the group nonce and the sender's rounds

    [zwave-protocol/security/s2/Mpan.cpp] in the Module [MPAN]: the counter-mode
    nonce generator of a multicast group, the table of the groups a node sends to and
    receives from, and the two extension objects that carry a group's state and its
    id.  [MulticastSession.cpp] in the Module [Multicast]: the sender's side of a
    group.  The sources have no receiver; what is shown of the frames is what they are
    to anyone who holds the group's state. *)

From S2P Require Import Prelude S2Codec S2Transport.
From stdpp Require Import gmap.
#[local] Open Scope Z_scope.

Module MPAN.

Definition MPAN_EXTENSION_TYPE : Z := 0x02.
Definition MPAN_EXTENSION_LENGTH : Z := 19.
Definition MPAN_EXTENSION_FLAGS : Z := 0x42.
Definition MGRP_EXTENSION_TYPE : Z := 0x03.
Definition MGRP_EXTENSION_LENGTH : Z := 3.
Definition MGRP_EXTENSION_FLAGS : Z := 0x43.
(** [std::tuple_size_v<InnerState>] *)
Definition INNER_STATE_SIZE : nat := 16.

(** ** The generator *)

Record Generator := mkGenerator { innerState : list Z }.

#[global] Instance Generator_eq_dec : EqDecision Generator.
Proof. solve_decision. Defined.

Definition advance (g : Generator) : Generator := mkGenerator (Span.incrementCounter (innerState g)).

Definition nextNonce `{S2Crypto} (keyMpan : list Z) (g : Generator) : list Z * Generator :=
  let block := aesEcbEncrypt keyMpan (innerState g) in
  (take Encap.CCM_NONCE_SIZE block, advance g).

(** ** The table *)

Inductive EntryState := Free | Used | Mos.

#[global] Instance EntryState_eq_dec : EqDecision EntryState.
Proof. solve_decision. Defined.

Record Entry := mkEntry { owner : Z; groupId : Z; generator : Generator; state : EntryState }.

(** What [operator[]] puts where there was no row. *)
Definition blankEntry : Entry := mkEntry 0 0 (mkGenerator (replicate INNER_STATE_SIZE 0)) Free.

Abbreviation Table := (gmap (Z * Z) Entry).

Definition set (o g : Z) (st : list Z) (t : Table) : Table :=
  <[(o, g) := mkEntry o g (mkGenerator st) Used]> t.

Definition find (o g : Z) (t : Table) : option Generator :=
  match t !! (o, g) with
  | None => None
  | Some e => if negb (bool_decide (state e = Used)) then None else Some (generator e)
  end.

(** A write through the pointer [find] returned. *)
Definition assign (o g : Z) (gen : Generator) (t : Table) : Table :=
  alter (fun e => mkEntry (owner e) (groupId e) gen (state e)) (o, g) t.

Definition contains (o g : Z) (t : Table) : bool :=
  match t !! (o, g) with None => false | Some e => bool_decide (state e = Used) end.

Definition markOutOfSync (o g : Z) (t : Table) : Table :=
  let entry := default blankEntry (t !! (o, g)) in
  <[(o, g) := mkEntry o g (generator entry) Mos]> t.

Definition entryState (o g : Z) (t : Table) : EntryState :=
  match t !! (o, g) with None => Free | Some e => state e end.

Definition remove (o g : Z) (t : Table) : Table := delete (o, g) t.

Definition size_ (t : Table) : nat := size t.

(** ** The extension objects *)

(** The walk of [forEachExtension], with the bytes from [offset] on as its argument;
    [visit] answers the value its caller stores when it returns true.  An object has
    two bytes at least, so the length of the chain bounds the rounds. *)
Fixpoint walk `{Oob} {A} (visit : Z -> list Z -> option A) (fuel : nat) (ext : list Z) : option A :=
  match fuel with
  | O => None
  | S fuel =>
      if (length ext <? 2)%nat then None else
      let len := ext.[0%nat] in
      if (len <? 2) || (zlen ext <? len) then None else
      let flags := ext.[1%nat] in
      match visit flags (slice 2 (Z.to_nat len - 2) ext) with
      | Some found => Some found
      | None =>
          if Z.land flags NonceSync.EXT_MORE_FOLLOW_BIT =? 0 then None
          else walk visit fuel (drop (Z.to_nat len) ext)
      end
  end.

Definition forEachExtension `{Oob} {A} (visit : Z -> list Z -> option A) (ext : list Z) : option A :=
  walk visit (S (length ext)) ext.

Definition encodeMpanExtension (g : Z) (st : list Z) : list Z :=
  [MPAN_EXTENSION_LENGTH; MPAN_EXTENSION_FLAGS; g] ++ st.

Definition findMpanExtension `{Oob} (ext : list Z) : option (Z * list Z) :=
  forEachExtension (fun flags body =>
    if negb (Z.land flags NonceSync.EXT_TYPE_MASK =? MPAN_EXTENSION_TYPE) then None
    else if negb (length body =? 1 + INNER_STATE_SIZE)%nat then None
    else Some (body.[0%nat], slice 1 INNER_STATE_SIZE body)) ext.

Definition encodeMgrpExtension (g : Z) : list Z := [MGRP_EXTENSION_LENGTH; MGRP_EXTENSION_FLAGS; g].

Definition findMgrpExtension `{Oob} (ext : list Z) : option Z :=
  forEachExtension (fun flags body =>
    if negb (Z.land flags NonceSync.EXT_TYPE_MASK =? MGRP_EXTENSION_TYPE) || negb (length body =? 1)%nat
    then None else Some body.[0%nat]) ext.

End MPAN.

(** ** The sender of a group *)

Module Multicast.

Definition ADVANCE_PER_ROUND : nat := 2.

Record Config := mkConfig { groupId : Z; senderNodeId : Z; homeId : list Z; classKeyCcm : list Z }.
Record Session := mkSession { config : Config; generator : MPAN.Generator }.

(** [Session(config, initial)] *)
Definition make (c : Config) (initial : list Z) : Session := mkSession c (MPAN.mkGenerator initial).

Definition innerState (s : Session) : list Z := MPAN.innerState (generator s).

Definition followUpExtension (s : Session) : list Z := MPAN.encodeMgrpExtension (groupId (config s)).

Definition mpanExtension (s : Session) : list Z :=
  MPAN.encodeMpanExtension (groupId (config s)) (MPAN.innerState (generator s)).

Definition context (c : Config) (sequenceNumber : Z) : Encap.Context :=
  Encap.mkContext (senderNodeId c) (groupId c) (homeId c) sequenceNumber.

Definition multicastFrame `{S2Crypto} (inner : list Z) (sequenceNumber : Z) (s : Session) : list Z * Session :=
  let mgrp := followUpExtension s in
  let (nonce, gen) := MPAN.nextNonce (classKeyCcm (config s)) (generator s) in
  let frame := Encap.encrypt inner (context (config s) sequenceNumber)
                 (classKeyCcm (config s)) nonce mgrp [] in
  (frame, mkSession (config s) (Nat.iter (ADVANCE_PER_ROUND - 1) MPAN.advance gen)).

End Multicast.

(** The rounds of a sender. *)
Fixpoint rounds `{S2Crypto} (msgs : list (list Z * Z)) (s : Multicast.Session)
    : list (list Z) * Multicast.Session :=
  match msgs with
  | [] => ([], s)
  | (inner, seq) :: msgs =>
      let (f, s) := Multicast.multicastFrame inner seq s in
      let (fs, s) := rounds msgs s in (f :: fs, s)
  end.

(** * Theorems *)

(** ** The extensions *)

Section Extensions.
Context `{Oob}.

(** A chain whose first object the visitor takes. *)
Lemma walk_first {A} (visit : Z -> list Z -> option A) fuel flags body k (x : A) :
  let len := Z.of_nat (2 + length body) in
  visit flags body = Some x -> MPAN.walk visit (S fuel) ((len :: flags :: body) ++ k) = Some x.
Proof.
  intros len Hv. cbn [MPAN.walk].
  change (((len :: flags :: body) ++ k).[0%nat]) with len.
  change (((len :: flags :: body) ++ k).[1%nat]) with flags.
  assert (Hl : length ((len :: flags :: body) ++ k) = (2 + length body + length k)%nat)
    by (rewrite length_app; cbn; lia).
  rewrite Hl. replace (_ <? 2)%nat with false by (symmetry; apply Nat.ltb_ge; lia).
  replace (_ || _) with false by (symmetry; apply orb_false_intro; apply Z.ltb_ge; unfold len; lia).
  replace (slice 2 (Z.to_nat len - 2) ((len :: flags :: body) ++ k)) with body; [by rewrite Hv|].
  unfold slice, len. rewrite Nat2Z.id. change (drop 2 ((_ :: flags :: body) ++ k)) with (body ++ k).
  by replace (2 + length body - 2)%nat with (length body) by lia; rewrite take_app_length.
Qed.

Lemma mgrp_found g k : MPAN.findMgrpExtension (MPAN.encodeMgrpExtension g ++ k) = Some g.
Proof. by apply (walk_first _ _ MPAN.MGRP_EXTENSION_FLAGS [g] k). Qed.

Lemma mpan_found g st k :
  length st = MPAN.INNER_STATE_SIZE ->
  MPAN.findMpanExtension (MPAN.encodeMpanExtension g st ++ k) = Some (g, st).
Proof.
  intros Hs. unfold MPAN.encodeMpanExtension.
  replace MPAN.MPAN_EXTENSION_LENGTH with (Z.of_nat (2 + length (g :: st)))
    by (cbn [length]; rewrite Hs; done).
  apply (walk_first _ _ MPAN.MPAN_EXTENSION_FLAGS (g :: st) k). cbn [length]. rewrite Hs. cbn -[slice].
  do 2 f_equal. unfold slice. by rewrite skipn_cons, drop_0, take_ge by lia.
Qed.

Lemma mgrp_extensions g : extensions _ (MPAN.encodeMgrpExtension g).
Proof. by right. Qed.

End Extensions.

(** ** The generator *)

Lemma advance_length g :
  length (MPAN.innerState (MPAN.advance g)) = length (MPAN.innerState g).
Proof. apply incrementCounter_length. Qed.

Section Group.
Context `{O : Oob} `{L : S2CryptoLaws}.

Lemma nextNonce_length k g : length (MPAN.nextNonce k g).1 = 13%nat.
Proof. cbn. rewrite length_take, aes_length. done. Qed.

(** The state a sender's round leaves. *)
Lemma multicastFrame_state inner seq s :
  (Multicast.multicastFrame inner seq s).2 =
  Multicast.mkSession (Multicast.config s) (MPAN.advance (MPAN.advance (Multicast.generator s))).
Proof. done. Qed.

Lemma rounds_cons inner seq msgs s :
  rounds ((inner, seq) :: msgs) s =
  let s1 := (Multicast.multicastFrame inner seq s).2 in
  ((Multicast.multicastFrame inner seq s).1 :: (rounds msgs s1).1, (rounds msgs s1).2).
Proof. cbn -[Multicast.multicastFrame]. destruct (Multicast.multicastFrame inner seq s). by destruct (rounds msgs _). Qed.

Lemma rounds_config msgs s : Multicast.config (rounds msgs s).2 = Multicast.config s.
Proof.
  revert s. induction msgs as [|[inner seq] msgs IH]; intros s; [done|].
  rewrite rounds_cons. cbn. by rewrite IH.
Qed.

Lemma rounds_length msgs s : length (Multicast.innerState (rounds msgs s).2) = length (Multicast.innerState s).
Proof.
  revert s. induction msgs as [|[inner seq] msgs IH]; intros s; [done|].
  rewrite rounds_cons. cbn [snd]. rewrite IH, multicastFrame_state.
  unfold Multicast.innerState. cbn [Multicast.generator]. by rewrite !advance_length.
Qed.

Lemma find_set o g st t : MPAN.find o g (MPAN.set o g st t) = Some (MPAN.mkGenerator st).
Proof. unfold MPAN.find, MPAN.set. by rewrite lookup_insert_eq. Qed.

(** The rows of the table: a state that was set is found until the row is marked or
    removed, and a generator that moved on through the pointer stays in the row. *)
Lemma table_rows o g st gen t :
  MPAN.find o g (MPAN.assign o g gen (MPAN.set o g st t)) = Some gen /\
  MPAN.find o g (MPAN.markOutOfSync o g t) = None /\ MPAN.entryState o g (MPAN.markOutOfSync o g t) = MPAN.Mos /\
  MPAN.find o g (MPAN.remove o g t) = None /\ MPAN.entryState o g (MPAN.remove o g t) = MPAN.Free /\
  (MPAN.contains o g t = true <-> is_Some (MPAN.find o g t)).
Proof.
  unfold MPAN.find, MPAN.assign, MPAN.set, MPAN.markOutOfSync, MPAN.remove, MPAN.entryState, MPAN.contains.
  rewrite lookup_alter_eq, !lookup_insert_eq, lookup_delete_eq. split_and!; [done..|].
  destruct (t !! (o, g)) as [e|]; [|split; [done|by intros []]].
  destruct (bool_decide _); cbn; (split; [done || by eexists|done || by intros []]).
Qed.

(** The plain extension of a round's frame names the group, whatever the key. *)
Lemma frame_group inner seq s :
  MPAN.findMgrpExtension (drop Encap.HEADER_SIZE (Multicast.multicastFrame inner seq s).1) =
  Some (Multicast.groupId (Multicast.config s)).
Proof.
  destruct s as [c g]. unfold Multicast.multicastFrame, Multicast.followUpExtension, Encap.encrypt.
  cbn [fst Multicast.config Multicast.generator MPAN.nextNonce].
  apply mgrp_found.
Qed.

(** The [i]-th frame is that of the session after [i] rounds. *)
Lemma rounds_lookup msgs i inner seq s :
  msgs !! i = Some (inner, seq) ->
  (rounds msgs s).1 !! i = Some (Multicast.multicastFrame inner seq (rounds (take i msgs) s).2).1.
Proof.
  revert i s. induction msgs as [|[inner' seq'] msgs IH]; intros [|i] s Hi; [done|done|..];
    rewrite rounds_cons; cbn [take].
  - by injection Hi as -> ->.
  - rewrite rounds_cons. cbn [fst snd]. by apply IH.
Qed.

(** A round's frame opens with the nonce drawn from the state before it. *)
Lemma frame_opens inner seq s :
  zlen inner < 65536 ->
  let c := Multicast.config s in
  Encap.decrypt (Multicast.multicastFrame inner seq s).1 (Multicast.context c seq) (Multicast.classKeyCcm c)
    (MPAN.nextNonce (Multicast.classKeyCcm c) (Multicast.generator s)).1 = Some inner.
Proof.
  intros Hl c. subst c. unfold Multicast.multicastFrame.
  pose proof (nextNonce_length (Multicast.classKeyCcm (Multicast.config s)) (Multicast.generator s)) as Hn.
  destruct (MPAN.nextNonce _ _) as [nonce gen]. cbn [fst] in *.
  apply decrypt_encrypt; [done|done|apply mgrp_extensions|by left|by split_and!].
Qed.

(** The counter after [n] rounds. *)
Lemma rounds_counter msgs s :
  bytes_ok (Multicast.innerState s) -> length (Multicast.innerState s) = MPAN.INNER_STATE_SIZE ->
  beVal (Multicast.innerState (rounds msgs s).2) =
  (beVal (Multicast.innerState s) + 2 * zlen msgs) `mod` 2 ^ 128.
Proof.
  intros Hb Hl. revert s Hb Hl. induction msgs as [|[inner seq] msgs IH]; intros s Hb Hl.
  { cbn [rounds snd length]. rewrite Z.add_0_r, Z.mod_small; [done|].
    rewrite beVal_reverse. pose proof (leVal_range _ (proj2 (Forall_reverse _ _) Hb)) as Hr.
    rewrite length_reverse, Hl in Hr. done. }
  rewrite rounds_cons. cbn [snd]. rewrite multicastFrame_state.
  destruct (incrementCounter_spec _ Hb) as (Hl1&Hb1&Hv1).
  destruct (incrementCounter_spec _ Hb1) as (Hl2&Hb2&Hv2).
  rewrite IH; unfold Multicast.innerState in *; cbn [Multicast.generator MPAN.advance MPAN.innerState] in *;
    [|done|congruence].
  rewrite Hv2, Hl1, Hv1, Hl. change (256 ^ _) with (2 ^ 128).
  rewrite Zplus_mod_idemp_l, <-Z.add_assoc, Zplus_mod_idemp_l. f_equal. cbn [length]. lia.
Qed.

End Group.

(** ** What a group hears *)

Section Rounds.
Context `{O : Oob} `{L : S2CryptoLaws}.

Lemma beVal_range l : bytes_ok l -> 0 <= beVal l < 256 ^ zlen l.
Proof.
  intros Hb. rewrite beVal_reverse. pose proof (leVal_range _ (proj2 (Forall_reverse _ _) Hb)) as Hr.
  by rewrite length_reverse in Hr.
Qed.

(** C19: every frame of a multicast group opens to the command sent for whoever holds the
    state of the group before it, and no state serves twice.  For the [i]-th round of a
    session, its frame names the group in its plain extension; the MPAN extension of the
    session at that point carries the group and a state which, set in a table of groups
    and found there, draws the nonce under which the frame opens to the round's
    command, for this sender, group and home id; and that state is the session's first
    one advanced by two a round, modulo [2^128], so over up to [2^127] rounds no two
    frames have their nonces drawn from the same state. *)
Theorem multicast_frames_open msgs s t i inner seq :
  length (Multicast.innerState s) = MPAN.INNER_STATE_SIZE -> bytes_ok (Multicast.innerState s) ->
  msgs !! i = Some (inner, seq) -> zlen inner < 65536 ->
  let c := Multicast.config s in
  let before k := (rounds (take k msgs) s).2 in
  exists frame st gen,
    (rounds msgs s).1 !! i = Some frame /\
    MPAN.findMgrpExtension (drop 4 frame) = Some (Multicast.groupId c) /\
    MPAN.findMpanExtension (Multicast.mpanExtension (before i)) = Some (Multicast.groupId c, st) /\
    MPAN.find (Multicast.senderNodeId c) (Multicast.groupId c)
      (MPAN.set (Multicast.senderNodeId c) (Multicast.groupId c) st t) = Some gen /\
    Encap.decrypt frame (Encap.mkContext (Multicast.senderNodeId c) (Multicast.groupId c) (Multicast.homeId c) seq)
      (Multicast.classKeyCcm c) (MPAN.nextNonce (Multicast.classKeyCcm c) gen).1 = Some inner /\
    beVal st = (beVal (Multicast.innerState s) + 2 * Z.of_nat i) `mod` 2 ^ 128 /\
    (zlen msgs <= 2 ^ 127 -> forall j st', (j < length msgs)%nat -> j <> i ->
       MPAN.findMpanExtension (Multicast.mpanExtension (before j)) = Some (Multicast.groupId c, st') -> st' <> st).
Proof.
  intros Hl Hb Hi Hs c before. subst c.
  assert (Hpush : forall k, MPAN.findMpanExtension (Multicast.mpanExtension (before k))
    = Some (Multicast.groupId (Multicast.config s), Multicast.innerState (before k))).
  { intros k. unfold Multicast.mpanExtension. rewrite <-(app_nil_r (MPAN.encodeMpanExtension _ _)).
    unfold before at 1. rewrite rounds_config. apply mpan_found. fold (Multicast.innerState (before k)).
    unfold before. by rewrite rounds_length. }
  assert (Hv : forall k, (k < length msgs)%nat -> beVal (Multicast.innerState (before k))
    = (beVal (Multicast.innerState s) + 2 * Z.of_nat k) `mod` 2 ^ 128).
  { intros k Hk. unfold before. rewrite rounds_counter by done. by rewrite length_take_le by lia. }
  pose proof (lookup_lt_Some _ _ _ Hi) as Hlt.
  exists (Multicast.multicastFrame inner seq (before i)).1, (Multicast.innerState (before i)), (Multicast.generator (before i)).
  split_and!; [by apply rounds_lookup| |apply Hpush| | |by apply Hv|].
  - change 4%nat with Encap.HEADER_SIZE. rewrite frame_group. unfold before. by rewrite rounds_config.
  - rewrite find_set. unfold Multicast.innerState. by destruct (Multicast.generator (before i)).
  - pose proof (frame_opens inner seq (before i) Hs) as Ho. cbv zeta in Ho.
    by replace (Multicast.config (before i)) with (Multicast.config s) in Ho by (unfold before; by rewrite rounds_config).
  - intros Hm j st' Hj Hne Hst Heq. rewrite Hpush in Hst. injection Hst as <-.
    pose proof (beVal_range _ Hb) as Hr. rewrite Hl in Hr. change (256 ^ Z.of_nat MPAN.INNER_STATE_SIZE) with (2 ^ 128) in Hr.
    apply (f_equal beVal) in Heq. rewrite !Hv in Heq by done.
    revert Heq Hr. generalize (beVal (Multicast.innerState s)). intros v Heq Hr.
    assert (2 ^ 128 = 2 * 2 ^ 127) as Hp by done. rewrite Hp in *. clear Hv Hpush Hp.
    Z.to_euclidean_division_equations. nia.
Qed.

End Rounds.

Definition toySession : Multicast.Session :=
  Multicast.make (Multicast.mkConfig 3 1 [0xDE; 0xAD; 0xBE; 0xEF] (replicate 16 0x10))
    (replicate 15 0x40 ++ [0xFF]).

Lemma multicast_frames_open_witness :
  let o : Oob := 0 in
  let msgs := [([0x20; 1; 255], 7); ([0x25; 1; 0], 8)] in
  exists frame gen, (rounds (H := Toy.crypto) msgs toySession).1 !! 1%nat = Some frame /\
    Encap.decrypt (H0 := Toy.crypto) frame (Encap.mkContext 1 3 [0xDE; 0xAD; 0xBE; 0xEF] 8) (replicate 16 0x10)
      (MPAN.nextNonce (H := Toy.crypto) (replicate 16 0x10) gen).1 = Some [0x25; 1; 0].
Proof.
  intros o msgs.
  destruct (multicast_frames_open (O := o) (L := Toy.laws) msgs toySession ∅ 1 [0x25; 1; 0] 8)
    as (frame & st & gen & H1 & _ & _ & _ & H5 & _); [reflexivity|by repeat constructor|reflexivity|reflexivity|].
  exists frame, gen. exact (conj H1 H5).
Defined.

(** The toy primitives with a block cipher that tells keys apart. *)
Definition keyedCrypto : S2Crypto := {|
  ccmEncrypt := @ccmEncrypt Toy.crypto; ccmDecrypt := @ccmDecrypt Toy.crypto;
  cmac := @cmac Toy.crypto; aesEcbEncrypt k b := zip_with Z.lxor k b |}.

(** The nonces are drawn under the class's CCM key, not under the KeyMPAN that
    [networkKeyExpand] derives and [nextNonce] is documented to take: a member that
    draws them under KeyMPAN opens nothing. *)
Example mpan_key_unused :
  let o : Oob := 0 in
  let d := KeyDerivation.networkKeyExpand (H := keyedCrypto) (replicate 16 2) in
  let s := Multicast.make (Multicast.mkConfig 3 1 [1; 2; 3; 4] (KeyDerivation.keyCcm d)) (replicate 16 0x40) in
  let frame := (Multicast.multicastFrame (H := keyedCrypto) [0x20; 1; 255] 7 s).1 in
  let opened k := Encap.decrypt (H0 := keyedCrypto) frame (Encap.mkContext 1 3 [1; 2; 3; 4] 7) (KeyDerivation.keyCcm d)
                    (MPAN.nextNonce (H := keyedCrypto) k (Multicast.generator s)).1 in
  opened (KeyDerivation.keyCcm d) = Some [0x20; 1; 255] /\ opened (KeyDerivation.keyMpan d) = None.
Proof. by vm_compute. Qed.
