(* ===== verification/MessageBus.v ===== *)
(** * The message bus

    [message-bus/MessageBusInternal.hpp], [MessageBus.cpp] and the guard of
    [MessageBus.hpp].  The event types are generated from the interface manifest:
    here an index type [K] with [IsRetained] on it, and one type [V] of their values.
    The list of a topic's callbacks is eventpp's [CallbackList], the class
    [CallbackLists] with its laws.  A handler is C++ that may call the bus again: a
    tree of bus calls and changes to the modules' state [W].  The recursive mutex
    makes a top-level call atomic, so that the calls of several threads are a sequence
    of programs run one after the other. *)

From S2P Require Import Prelude.
From stdpp Require Import gmap.
#[local] Open Scope Z_scope.

(** ** eventpp's callback lists

    [append] puts a callback at the end and returns its handle, [remove] takes it
    out.  An invocation visits the handles present when it starts, in the order they
    were appended, and skips those removed by the time they are reached. *)
Class CallbackLists (C : Type) := {
  callbackList : Type;
  handle : Type;
  #[global] handle_eq_dec :: EqDecision handle;
  emptyList : callbackList;
  append : C -> callbackList -> callbackList * handle;
  remove : handle -> callbackList -> callbackList;
  handles : callbackList -> list handle;
  callback : handle -> callbackList -> option C
}.

Class CallbackListLaws (C : Type) `{CallbackLists C} := {
  handles_empty : handles emptyList = [];
  handles_append c l : handles (append c l).1 = handles l ++ [(append c l).2];
  append_fresh c l : (append c l).2 ∉ handles l;
  handles_remove h l : handles (remove h l) = filter (fun h' => h' <> h) (handles l);
  callback_append c l h : callback h (append c l).1 = if decide (h = (append c l).2) then Some c else callback h l;
  callback_remove h h' l : h' ∈ handles (remove h l) -> callback h' (remove h l) = callback h' l;
  callback_handles h l : h ∈ handles l <-> is_Some (callback h l)
}.

(** ** Handlers *)

Definition SubscriptionId : Type := Z.

Section Bus.
Context {K V W : Type} `{EqDecision K} (IsRetained : K -> bool).

Inductive Prog :=
| Return
| Modify (f : W -> W) (next : W -> Prog)
| Publish (k : K) (value : V) (next : Prog)
| Subscribe (k : K) (handler : V -> Prog) (next : SubscriptionId -> Prog)
| Unsubscribe (subscriptionId : SubscriptionId) (next : Prog).

Context `{CL : CallbackLists (V -> Prog)}.

(** ** The bus *)

Record Topic := mkTopic { callbacks : callbackList; retained : option V }.

(** [remover] is the closure [topic<T>().callbacks.remove(handle)], as the type [T] and
    the handle it captured. *)
Record Remover := mkRemover { topicOf : K; captured : handle }.

Record BusState := mkBus {
  topics : K -> Topic; nextId : Z; removers : gmap SubscriptionId Remover }.

Definition newBus : BusState := mkBus (fun _ => mkTopic emptyList None) 1 ∅.

Definition setTopic (k : K) (t : Topic) (b : BusState) : BusState :=
  mkBus (fun k' => if decide (k' = k) then t else topics b k') (nextId b) (removers b).

(** [nextId.fetch_add(1)] on 64 bits. *)
Definition takeId (b : BusState) : SubscriptionId * BusState :=
  (nextId b, mkBus (topics b) ((nextId b + 1) `mod` 2 ^ 64) (removers b)).

(** [unordered_map::emplace]: an id that is there keeps its remover. *)
Definition emplace (i : SubscriptionId) (r : Remover) (b : BusState) : BusState :=
  mkBus (topics b) (nextId b) (match removers b !! i with Some _ => removers b | None => <[i:=r]> (removers b) end).

(** The part of [subscribe] before the replay: the bus, the id, and the retained
    value the handler is given. *)
Definition enroll (k : K) (handler : V -> Prog) (b : BusState) : SubscriptionId * handle * option V * BusState :=
  let (cbs, h) := append handler (callbacks (topics b k)) in
  let b := setTopic k (mkTopic cbs (retained (topics b k))) b in
  let (newId, b) := takeId b in
  let b := emplace newId (mkRemover k h) b in
  (newId, h, if IsRetained k then retained (topics b k) else None, b).

Definition retain (k : K) (value : V) (b : BusState) : BusState :=
  if IsRetained k then setTopic k (mkTopic (callbacks (topics b k)) (Some value)) b else b.

Definition unsubscribe (i : SubscriptionId) (b : BusState) : BusState :=
  match removers b !! i with
  | None => b
  | Some r =>
      let b := mkBus (topics b) (nextId b) (delete i (removers b)) in
      let t := topics b (topicOf r) in
      setTopic (topicOf r) (mkTopic (remove (captured r) (callbacks t)) (retained t)) b
  end.

(** The modules' state, the bus, and the calls of handlers there have been. *)
Record World := mkWorld { modules : W; bus : BusState; calls : list (K * handle * V) }.

Definition note (k : K) (h : handle) (value : V) (s : World) : World :=
  mkWorld (modules s) (bus s) (calls s ++ [(k, h, value)]).
Definition onBus (b : BusState) (s : World) : World := mkWorld (modules s) b (calls s).

(** The invocation [topicRef.callbacks(value)], [run] executing a handler's body. *)
Fixpoint invoke (run : Prog -> World -> option World) (k : K) (value : V) (hs : list handle) (s : World)
    : option World :=
  match hs with
  | [] => Some s
  | h :: hs =>
      match callback h (callbacks (topics (bus s) k)) with
      | None => invoke run k value hs s
      | Some handler =>
          match run (handler value) (note k h value s) with
          | None => None
          | Some s => invoke run k value hs s
          end
      end
  end.

(** [publish] and [subscribe] run handlers before they return, and those may publish
    and subscribe in turn: [fuel] bounds the calls under way and made. *)
Fixpoint exec (fuel : nat) (p : Prog) (s : World) : option World :=
  match fuel with
  | O => None
  | S fuel =>
      match p with
      | Return => Some s
      | Modify f next => exec fuel (next (f (modules s))) (mkWorld (f (modules s)) (bus s) (calls s))
      | Publish k value next =>
          let s := onBus (retain k value (bus s)) s in
          match invoke (exec fuel) k value (handles (callbacks (topics (bus s) k))) s with
          | None => None
          | Some s => exec fuel next s
          end
      | Subscribe k handler next =>
          let '(newId, h, cached, b) := enroll k handler (bus s) in
          let s := onBus b s in
          match cached with
          | None => exec fuel (next newId) s
          | Some value =>
              match exec fuel (handler value) (note k h value s) with
              | None => None
              | Some s => exec fuel (next newId) s
              end
          end
      | Unsubscribe i next => exec fuel next (onBus (unsubscribe i (bus s)) s)
      end
  end.

End Bus.

Arguments Prog : clear implicits.
Arguments Return {K V W}.
Arguments Modify {K V W} _ _.
Arguments Publish {K V W} _ _ _.
Arguments Subscribe {K V W} _ _ _.
Arguments Unsubscribe {K V W} _ _.

(** ** The guard

    [SubscriptionGuard] owns an id, 0 being none: its destructor and its move as
    programs. *)
Module Guard.
Section Guard.
Context {K V W : Type}.

Definition none : SubscriptionId := 0.

(** [~SubscriptionGuard], then what follows. *)
Definition destroy (id_ : SubscriptionId) (next : Prog K V W) : Prog K V W :=
  if negb (id_ =? 0) then Unsubscribe id_ next else next.

(** [operator=(SubscriptionGuard&&)] from another guard: what both hold after it. *)
Definition moveAssign (id_ other : SubscriptionId) (next : SubscriptionId -> SubscriptionId -> Prog K V W)
    : Prog K V W :=
  if negb (id_ =? 0) then Unsubscribe id_ (next other 0) else next other 0.

End Guard.
End Guard.

(** ** A callback list *)

(** Callbacks with their handles; a new one gets a number above them all. *)
Definition assocCallbacks (C : Type) : CallbackLists C := {|
  callbackList := list (nat * C);
  handle := nat;
  handle_eq_dec := Nat.eq_dec;
  emptyList := [];
  append c l := let h := S (list_max (fst <$> l)) in (l ++ [(h, c)], h);
  remove h l := filter (fun p => p.1 <> h) l;
  handles l := fst <$> l;
  callback h l := snd <$> head (filter (fun p => p.1 = h) l)
|}.

Lemma filter_none {A} (P : A -> Prop) `{forall x, Decision (P x)} (l : list A) :
  (forall x, x ∈ l -> ~ P x) -> filter P l = [].
Proof.
  induction l as [|x l IH]; intros Hl; [done|].
  rewrite filter_cons_False by (apply Hl; left). apply IH. intros. apply Hl. by right.
Qed.

Lemma filter_fmap {A B} (f : A -> B) (P : B -> Prop) `{forall x, Decision (P x)} (l : list A) :
  filter P (f <$> l) = f <$> filter (fun x => P (f x)) l.
Proof. induction l as [|x l IH]; [done|]. rewrite fmap_cons, !filter_cons, IH. by case_decide. Qed.

Lemma assocCallbacks_laws (C : Type) : @CallbackListLaws C (assocCallbacks C).
Proof.
  assert (Hfresh : forall l : list (nat * C), S (list_max (fst <$> l)) ∉ fst <$> l).
  { intros l Hin. pose proof (proj1 (list_max_le (fst <$> l) _) (le_n _)) as Hall.
    rewrite List.Forall_forall in Hall. apply list_elem_of_In, Hall in Hin. lia. }
  assert (Hhead : forall (l : list (nat * C)) h, h ∈ fst <$> l -> is_Some (head (filter (fun p => p.1 = h) l))).
  { intros l h Hin. apply list_elem_of_fmap in Hin as [[h' c] [-> Hin]].
    assert (Hin' : (h', c) ∈ filter (fun p => p.1 = h') l) by (by apply list_elem_of_filter).
    cbn [fst]. destruct (filter _ l); [by apply elem_of_nil in Hin'|done]. }
  split; cbn [callbackList handle emptyList append remove handles callback assocCallbacks fst snd].
  - done.
  - intros c l. by rewrite fmap_app.
  - intros c l. apply Hfresh.
  - intros h l. by rewrite filter_fmap.
  - intros c l h. rewrite filter_app. destruct (decide (h = _)) as [->|Hne].
    + rewrite filter_none; [cbn|].
      * by rewrite decide_True by done.
      * intros [h c'] Hin Heq. cbn in Heq. subst h. apply (Hfresh l). apply list_elem_of_fmap. by exists (S (list_max l.*1), c').
    + rewrite (filter_none _ [_]); [by rewrite app_nil_r|].
      intros x ->%list_elem_of_singleton. cbn. congruence.
  - intros h h' l Hin.
    apply list_elem_of_fmap in Hin as [p [-> [Hp _]%list_elem_of_filter]].
    rewrite list_filter_filter_l; [done|]. congruence.
  - intros h l. rewrite fmap_is_Some. split; [apply Hhead|].
    intros [p Hp]. destruct (filter _ l) as [|q fl] eqn:Hf; [done|]. injection Hp as ->.
    assert (Hin : p ∈ filter (fun p => p.1 = h) l) by (rewrite Hf; left).
    apply list_elem_of_filter in Hin as [<- Hin]. apply list_elem_of_fmap. by exists p.
Qed.

(** * Theorems *)

Section Theorems.
Context {K V W : Type} `{EqDecision K} (IsRetained : K -> bool).
Context `{L : CallbackListLaws (V -> Prog K V W)}.

Abbreviation World := (World (K := K) (V := V) (W := W)).
Abbreviation exec := (exec (W := W) IsRetained).

(** ** Ranked traffic

    Handlers publish only events of [A], and of a lower rank than the event they
    handle.  A program may publish events of [Q] below [n]; subscribing to a retained
    event can run its handler at once, so that counts too. *)
Context (rank : K -> nat) (A : K -> Prop).

Fixpoint ranked (Q : K -> Prop) (n : nat) (p : Prog K V W) : Prop :=
  match p with
  | Return => True
  | Modify _ next => forall w, ranked Q n (next w)
  | Publish k _ next => Q k /\ (rank k < n)%nat /\ ranked Q n next
  | Subscribe k handler next =>
      (IsRetained k = true -> (rank k < n)%nat) /\ (forall v, ranked A (rank k) (handler v)) /\
      (forall i, ranked Q n (next i))
  | Unsubscribe _ next => ranked Q n next
  end.

Definition listOf (k : K) (s : World) : callbackList := callbacks (topics (bus s) k).
Definition retainedOf (k : K) (s : World) : option V := retained (topics (bus s) k).

Definition handlersRanked (s : World) : Prop :=
  forall k h handler v, callback h (listOf k s) = Some handler -> ranked A (rank k) (handler v).

(** The values a subscriber was called with. *)
Definition received (k : K) (h : handle) (s : World) : list V :=
  omap (fun c => if decide (c.1 = (k, h)) then Some c.2 else None) (calls s).

(** Every subscriber of [k] was last called with the retained value. *)
Definition current (k : K) (s : World) : Prop :=
  match retainedOf k s with
  | None => forall h, received k h s = []
  | Some v => forall h, h ∈ handles (listOf k s) -> last (received k h s) = Some v
  end.

Lemma received_note k h v k' h' s :
  received k' h' (note k h v s) = received k' h' s ++ (if decide ((k, h) = (k', h')) then [v] else []).
Proof. unfold received. cbn [calls note]. rewrite omap_app. cbn. by case_decide. Qed.

(** ** What a call leaves alone *)

Record frame (k : K) (s s' : World) : Prop := mkFrame {
  frame_retained : retainedOf k s' = retainedOf k s;
  frame_received h : received k h s' = received k h s;
  frame_handles h : h ∈ handles (listOf k s') -> h ∈ handles (listOf k s) }.

#[local] Instance frame_preorder k : PreOrder (frame k).
Proof.
  split; [by intros s|]. intros s1 s2 s3 [? ? H1] [? ? H2].
  split; [congruence..|]. intros h Hh. by apply H1, H2.
Qed.

Lemma frame_current k s s' : frame k s s' -> current k s -> current k s'.
Proof.
  intros [Hr Hv Hh]. unfold current. rewrite Hr.
  destruct (retainedOf k s); intros Hc h; rewrite Hv; [|apply Hc]. intros Hin. by apply Hc, Hh.
Qed.

(** What a call by a program of [Q] below [n] does to the retained events. *)
Record post (Q : K -> Prop) (n : nat) (s s' : World) : Prop := mkPost {
  post_ranked : handlersRanked s';
  post_frame k : IsRetained k = true -> (n <= rank k)%nat -> frame k s s';
  post_current k : IsRetained k = true -> current k s -> current k s';
  post_kept k : ~ Q k -> ~ A k -> retainedOf k s' = retainedOf k s }.

Lemma post_refl Q n s : handlersRanked s -> post Q n s s.
Proof. by split. Qed.

Lemma post_trans Q n s1 s2 s3 : post Q n s1 s2 -> post Q n s2 s3 -> post Q n s1 s3.
Proof.
  intros [_ F1 C1 K1] [R2 F2 C2 K2]. split; [done|..]; intros k Hk.
  - intros Hn. etrans; eauto.
  - eauto.
  - intros HA. rewrite K2, K1; auto.
Qed.

Lemma post_weaken Q n m s s' : post A m s s' -> (m <= n)%nat -> post Q n s s'.
Proof. intros [R F C P] Hm. split; [done|..]; intros k Hk; [intros ?; apply F; [done|lia]|auto|auto]. Qed.

(** A topic that was not touched. *)
Lemma frame_untouched k s s' :
  topics (bus s') k = topics (bus s) k -> calls s' = calls s -> frame k s s'.
Proof. intros Ht Hc. split; unfold retainedOf, received, listOf; rewrite ?Ht, ?Hc; done. Qed.

Lemma setTopic_eq k t b : topics (setTopic k t b) k = t.
Proof. cbn. by rewrite decide_True. Qed.

Lemma setTopic_ne k k' t b : k' <> k -> topics (setTopic k t b) k' = topics b k'.
Proof. intros. cbn. by rewrite decide_False. Qed.

(** ** The steps of the bus *)

Lemma retain_list k k' v b : callbacks (topics (retain IsRetained k v b) k') = callbacks (topics b k').
Proof.
  unfold retain. destruct (IsRetained k); [|done]. destruct (decide (k' = k)) as [->|].
  - by rewrite setTopic_eq.
  - by rewrite setTopic_ne.
Qed.

Lemma retain_other k k' v b : k' <> k -> topics (retain IsRetained k v b) k' = topics b k'.
Proof. intros. unfold retain. destruct (IsRetained k); [by apply setTopic_ne|done]. Qed.

Lemma retain_ranked k v s : handlersRanked s -> handlersRanked (onBus (retain IsRetained k v (bus s)) s).
Proof. intros Hs k' h handler w. unfold listOf. cbn [bus onBus]. rewrite retain_list. apply Hs. Qed.

Lemma unsubscribe_post Q n i s : handlersRanked s -> post Q n s (onBus (unsubscribe i (bus s)) s).
Proof.
  intros Hs. unfold unsubscribe. destruct (removers (bus s) !! i) as [r|]; [|destruct s; by apply post_refl].
  set (s' := onBus _ s).
  assert (Hf : forall k, frame k s s').
  { intros k. destruct (decide (k = topicOf r)) as [->|Hne].
    - split; unfold retainedOf, listOf, s'; cbn [bus onBus]; intros; rewrite ?setTopic_eq in *; cbn in *; try done.
      rewrite handles_remove in *. by eapply list_elem_of_filter.
    - apply frame_untouched; [|done]. unfold s'. cbn [bus onBus]. by rewrite setTopic_ne. }
  split; intros k; [|by intros|by intros ?; apply frame_current|intros; apply Hf].
  intros h handler v. unfold listOf, s'. cbn [bus onBus]. destruct (decide (k = topicOf r)) as [->|Hne].
  - rewrite setTopic_eq. cbn. intros Hc. rewrite callback_remove in Hc; [by eapply Hs|].
    apply callback_handles. by rewrite Hc.
  - rewrite setTopic_ne by done. apply Hs.
Qed.

(** ** One invocation *)

(** What happens between two calls of an invocation for [k] with [v]. *)
Record calling (k : K) (v : V) (s s' : World) : Prop := mkCalling {
  calling_ranked : handlersRanked s';
  calling_frame k' : IsRetained k' = true -> k' <> k -> (rank k <= rank k')%nat -> frame k' s s';
  calling_current k' : IsRetained k' = true -> k' <> k -> current k' s -> current k' s';
  calling_kept k' : ~ A k' -> retainedOf k' s' = retainedOf k' s;
  calling_own : IsRetained k = true -> retainedOf k s' = retainedOf k s /\
    forall h, h ∈ handles (listOf k s') -> h ∈ handles (listOf k s) /\
      (last (received k h s) = Some v -> last (received k h s') = Some v) }.

Lemma calling_refl k v s : handlersRanked s -> calling k v s s.
Proof. by split. Qed.

Lemma calling_trans k v s1 s2 s3 : calling k v s1 s2 -> calling k v s2 s3 -> calling k v s1 s3.
Proof.
  intros [_ F1 C1 K1 O1] [R2 F2 C2 K2 O2]. split; [done|..].
  - intros k' Hk Hne Hr. etrans; eauto.
  - eauto.
  - intros k' HA. rewrite K2, K1; auto.
  - intros Hk. destruct (O1 Hk) as [E1 H1], (O2 Hk) as [E2 H2]. split; [congruence|].
    intros h Hh. destruct (H2 h Hh) as [Hh2 Hl2]. destruct (H1 h Hh2). auto.
Qed.

Lemma frame_note k k' v h s : k' <> k -> frame k' s (note k h v s).
Proof.
  intros Hne. split; [done| |done]. intros h'. rewrite received_note, decide_False by congruence.
  by rewrite app_nil_r.
Qed.

Lemma calling_note k v h s : handlersRanked s -> calling k v s (note k h v s).
Proof.
  intros Hs. split; [done|auto using frame_note|eauto using frame_current, frame_note|done|]. intros _. split; [done|].
  intros h' Hh'. split; [done|]. rewrite received_note. case_decide; [|by rewrite app_nil_r].
  by rewrite last_snoc.
Qed.

Lemma calling_post k v s s' : post A (rank k) s s' -> calling k v s s'.
Proof.
  intros [R F C P]. split; [done|auto|auto|auto|]. intros Hk.
  destruct (F k Hk ltac:(lia)) as [Hr Hv Hh]. split; [done|]. intros h Hin. rewrite Hv. auto.
Qed.

Definition runs_well (run : Prog K V W -> World -> option World) (n : nat) : Prop :=
  forall p s s', run p s = Some s' -> ranked A n p -> handlersRanked s -> post A n s s'.

Lemma invoke_calling run k v hs s s' :
  runs_well run (rank k) -> handlersRanked s -> invoke run k v hs s = Some s' ->
  calling k v s s' /\
  (IsRetained k = true -> forall h, h ∈ hs -> h ∈ handles (listOf k s') -> last (received k h s') = Some v).
Proof.
  intros Hrun. revert s. induction hs as [|h hs IH]; intros s Hs; cbn [invoke].
  { intros [= <-]. split; [by apply calling_refl|]. set_solver. }
  fold (listOf k s). destruct (callback h (listOf k s)) as [handler|] eqn:Hc.
  - destruct (run (handler v) (note k h v s)) as [s1|] eqn:Hr; [|done]. intros Hi.
    pose proof (calling_note k v h s Hs) as Hn.
    assert (H1 : calling k v (note k h v s) s1) by (eapply calling_post, Hrun; eauto).
    destruct (IH s1 (calling_ranked _ _ _ _ H1) Hi) as [H2 Hl]. split.
    + by eapply calling_trans; [|eapply calling_trans].
    + intros Hk h' [->|Hin]%elem_of_cons Hh'; [|by apply Hl].
      destruct (calling_own _ _ _ _ H2 Hk) as [_ O2]. destruct (O2 h Hh') as [Hh1 Hl2].
      destruct (calling_own _ _ _ _ H1 Hk) as [_ O1]. apply Hl2, (O1 h Hh1).
      rewrite received_note, decide_True by done. apply last_snoc.
  - intros Hi. destruct (IH s Hs Hi) as [H2 Hl]. split; [done|].
    intros Hk h' [->|Hin]%elem_of_cons Hh'; [|by apply Hl].
    destruct (calling_own _ _ _ _ H2 Hk) as [_ O2]. destruct (O2 h Hh') as [Hh1 _].
    apply callback_handles in Hh1. rewrite Hc in Hh1. by destruct Hh1.
Qed.

(** A whole publication. *)
Lemma publish_post run Q n k v s s' :
  let s1 := onBus (retain IsRetained k v (bus s)) s in
  runs_well run (rank k) -> handlersRanked s -> Q k -> (rank k < n)%nat ->
  invoke run k v (handles (listOf k s1)) s1 = Some s' -> post Q n s s'.
Proof.
  intros s1 Hrun Hs HQ Hn Hi.
  assert (Hf : forall k', k' <> k -> frame k' s s1).
  { intros k' Hne. apply frame_untouched; [by apply retain_other|done]. }
  pose proof (retain_ranked k v s Hs) as Hs1. fold s1 in Hs1.
  destruct (invoke_calling _ _ _ _ _ _ Hrun Hs1 Hi) as [[R F C P O] Hl]. split.
  - done.
  - intros k' Hk Hr. assert (k' <> k) by (intros ->; lia). etrans; [by apply Hf|]. apply F; [done..|lia].
  - intros k' Hk Hc. destruct (decide (k' = k)) as [->|Hne]; [|eauto using frame_current].
    destruct (O Hk) as [Hr Hh]. unfold current. rewrite Hr. unfold retainedOf, s1, retain. cbn [bus onBus].
    rewrite Hk, setTopic_eq. cbn [retained]. intros h Hin. apply Hl; [done| |done]. by apply Hh.
  - intros k' HQ' HA. rewrite P by done. apply Hf. congruence.
Qed.

(** ** A subscription *)

Lemma enroll_spec k handler b :
  let '(newId, h, cached, b') := enroll IsRetained k handler b in
  h = (append handler (callbacks (topics b k))).2 /\
  callbacks (topics b' k) = (append handler (callbacks (topics b k))).1 /\
  retained (topics b' k) = retained (topics b k) /\
  (forall k', k' <> k -> topics b' k' = topics b k') /\
  cached = (if IsRetained k then retained (topics b k) else None).
Proof.
  unfold enroll. destruct (append handler _) as [cbs h]. cbn.
  rewrite !decide_True by done. split_and!; try done. intros k' Hne. by rewrite decide_False.
Qed.

Lemma enroll_ranked k handler s :
  handlersRanked s -> (forall v, ranked A (rank k) (handler v)) ->
  handlersRanked (onBus (enroll IsRetained k handler (bus s)).2 s).
Proof.
  intros Hs Hh k' h' handler' v. pose proof (enroll_spec k handler (bus s)) as He.
  destruct (enroll _ k handler (bus s)) as [[[newId h] cached] b]. destruct He as (_&Hcb&_&Hoth&_).
  unfold listOf. cbn [bus onBus snd]. destruct (decide (k' = k)) as [->|Hne].
  - rewrite Hcb, callback_append. case_decide; [by intros [= <-]|apply Hs].
  - rewrite Hoth by done. apply Hs.
Qed.

Lemma subscribe_post run Q n k handler s :
  runs_well run (rank k) -> handlersRanked s ->
  (IsRetained k = true -> (rank k < n)%nat) -> (forall v, ranked A (rank k) (handler v)) ->
  let '(_, h, cached, b) := enroll IsRetained k handler (bus s) in
  match cached with
  | None => post Q n s (onBus b s)
  | Some v => forall s', run (handler v) (note k h v (onBus b s)) = Some s' -> post Q n s s'
  end.
Proof.
  intros Hrun Hs Hn Hh. pose proof (enroll_spec k handler (bus s)) as He.
  pose proof (enroll_ranked k handler s Hs Hh) as Hs1.
  destruct (enroll _ k handler (bus s)) as [[[newId h] cached] b]. cbn [snd] in Hs1.
  destruct He as (->&Hcb&Hret&Hoth&->). set (s1 := onBus b s). fold s1 in Hs1. set (h := (append _ _).2).
  assert (Hf : forall k', k' <> k -> frame k' s s1) by (intros; by apply frame_untouched; [apply Hoth|]).
  assert (Hr1 : forall k', retainedOf k' s1 = retainedOf k' s).
  { intros k'. unfold retainedOf, s1. cbn [bus onBus]. destruct (decide (k' = k)) as [->|]; [done|by rewrite Hoth]. }
  destruct (IsRetained k) eqn:Hk; [destruct (retained (topics (bus s) k)) as [v|] eqn:Hv|].
  - intros s' Hrs. pose proof (Hrun _ _ _ Hrs (Hh v) Hs1) as [R F C P].
    assert (Hnf : forall k', k' <> k -> frame k' s (note k h v s1)).
    { intros k' ?. etrans; [by apply Hf|by apply frame_note]. }
    split; [done|..]; intros k' Hk'.
    + intros Hr. assert (k' <> k) by (intros ->; specialize (Hn eq_refl); lia).
      etrans; [by apply Hnf|]. apply F; [done|]. specialize (Hn eq_refl). lia.
    + destruct (decide (k' = k)) as [->|Hne]; [|intros; eauto using frame_current].
      intros Hc. apply C; [done|]. unfold current in *.
      change (retainedOf k (note k h v s1)) with (retainedOf k s1). rewrite Hr1.
      unfold retainedOf in *. rewrite Hv in *. intros h' Hin. rewrite received_note.
      destruct (decide ((k, h) = (k, h'))) as [|Hne]; [apply last_snoc|]. rewrite app_nil_r.
      apply (Hc h'). change (listOf k (note k h v s1)) with (callbacks (topics b k)) in Hin.
      rewrite Hcb, handles_append in Hin. fold h in Hin. apply elem_of_app in Hin as [Hin|Hin%list_elem_of_singleton]; [done|by subst h'; destruct Hne].
    + intros HA. rewrite P by done. apply Hr1.
  - split; [done|..]; intros k' Hk'.
    + intros Hr. apply Hf. intros ->. specialize (Hn eq_refl). lia.
    + destruct (decide (k' = k)) as [->|Hne]; [|intros; eauto using frame_current].
      unfold current. rewrite Hr1. unfold retainedOf. by rewrite Hv.
    + intros _. apply Hr1.
  - split; [done|..]; intros k' Hk'.
    + intros Hr. apply Hf. congruence.
    + apply frame_current, Hf. congruence.
    + intros _. apply Hr1.
Qed.

(** ** Programs *)

Lemma exec_post fuel : forall Q n, 
  forall p s s', exec fuel p s = Some s' -> ranked Q n p -> handlersRanked s -> post Q n s s'.
Proof.
  induction fuel as [|fuel IH]; [done|]. intros Q n [|f next|k v next|k handler next|i next] s s'; cbn [MessageBus.exec ranked].
  - intros [= <-] _. apply post_refl.
  - intros He Hp Hs. eapply post_trans; [|eapply IH; eauto]. by split.
  - destruct (invoke _ _ _ _ _) as [s1|] eqn:Hi; [|done]. intros He (HQ&Hn&Hp) Hs.
    assert (H1 : post Q n s s1) by (eapply publish_post; eauto; intros p ? ? ?; by eapply IH).
    eapply post_trans; [done|]. eapply IH; eauto using post_ranked.
  - intros He (Hn&Hh&Hp) Hs.
    pose proof (subscribe_post (exec fuel) Q n k handler s ltac:(intros p ? ? ?; by eapply IH) Hs Hn Hh) as Hsub.
    destruct (enroll _ k handler (bus s)) as [[[newId h] [v|]] b].
    + destruct (exec fuel (handler v) _) as [s1|] eqn:H1; [|done]. specialize (Hsub _ eq_refl).
      eapply post_trans; [done|]. eapply IH; eauto using post_ranked.
    + eapply post_trans; [done|]. eapply IH; eauto using post_ranked.
  - intros He Hp Hs. pose proof (unsubscribe_post Q n i s Hs) as Hu.
    eapply post_trans; [done|]. eapply IH; eauto using post_ranked.
Qed.

(** ** More fuel, and enough of it *)

Lemma invoke_mono (run run' : Prog K V W -> World -> option World) k v hs s s' :
  (forall p s s', run p s = Some s' -> run' p s = Some s') ->
  invoke run k v hs s = Some s' -> invoke run' k v hs s = Some s'.
Proof.
  intros Hrun. revert s. induction hs as [|h hs IH]; intros s; cbn [invoke]; [done|].
  destruct (callback _ _) as [handler|]; [|apply IH].
  destruct (run _ _) as [s1|] eqn:Hr; [|done]. rewrite (Hrun _ _ _ Hr). apply IH.
Qed.

Lemma exec_mono fuel fuel' p s s' :
  exec fuel p s = Some s' -> (fuel <= fuel')%nat -> exec fuel' p s = Some s'.
Proof.
  revert fuel' p s s'. induction fuel as [|fuel IH]; [done|]. intros [|fuel'] p s s' He Hle; [lia|].
  assert (Hm : forall p s s', exec fuel p s = Some s' -> exec fuel' p s = Some s') by (intros; eapply IH; [done|lia]).
  destruct p as [|f next|k v next|k handler next|i next]; cbn [MessageBus.exec] in *; auto.
  - destruct (invoke (exec fuel) _ _ _ _) as [s1|] eqn:Hi; [|done].
    rewrite (invoke_mono _ _ _ _ _ _ _ Hm Hi). auto.
  - destruct (enroll _ k handler (bus s)) as [[[newId h] [v|]] b]; [|auto].
    destruct (exec fuel (handler v) _) as [s1|] eqn:H1; [|done]. rewrite (Hm _ _ _ H1). auto.
Qed.

Definition returns (p : Prog K V W) (s : World) : Prop := exists fuel s', exec fuel p s = Some s'.

(** The calls of an invocation return together. *)
Lemma invoke_returns k v hs s :
  (forall p s, ranked A (rank k) p -> handlersRanked s -> returns p s) -> handlersRanked s ->
  exists fuel s', invoke (exec fuel) k v hs s = Some s'.
Proof.
  intros Hret. revert s. induction hs as [|h hs IH]; intros s Hs; [by exists 0%nat, s|].
  cbn [invoke]. destruct (callback h _) as [handler|] eqn:Hc; [|by apply IH].
  assert (Hp : ranked A (rank k) (handler v)) by by eapply Hs.
  destruct (Hret _ (note k h v s) Hp Hs) as (f1&s1&H1).
  destruct (IH s1) as (f2&s2&H2).
  { eapply post_ranked, exec_post; [exact H1|done|exact Hs]. }
  exists (f1 `max` f2)%nat, s2.
  rewrite (exec_mono _ (f1 `max` f2) _ _ _ H1) by lia.
  eapply invoke_mono; [|exact H2]. intros. eapply exec_mono; [done|lia].
Qed.

Lemma ranked_returns n : forall Q p s, ranked Q n p -> handlersRanked s -> returns p s.
Proof.
  induction n as [n IHn] using lt_wf_ind. intros Q p.
  assert (Hret : forall k, (rank k < n)%nat -> forall p s, ranked A (rank k) p -> handlersRanked s -> returns p s).
  { intros k Hk p' s' Hp' Hs'. exact (IHn _ Hk A p' s' Hp' Hs'). }
  induction p as [|f next IH|k v next IH|k handler IHh next IH|i next IH]; intros s Hp Hs; cbn [ranked] in Hp.
  - by exists 1%nat, s.
  - edestruct (IH (f (modules s)) (mkWorld (f (modules s)) (bus s) (calls s))) as (fuel&s'&He);
      [apply Hp|apply Hs|]. by exists (S fuel), s'.
  - destruct Hp as (HQ&Hn&Hp). set (s1 := onBus (retain IsRetained k v (bus s)) s).
    pose proof (retain_ranked k v s Hs) as Hs1. fold s1 in Hs1.
    destruct (invoke_returns k v (handles (listOf k s1)) s1 (Hret k Hn) Hs1) as (f1&s2&H1).
    assert (H2 : post Q n s s2) by (eapply publish_post; eauto; intros p ? ? ?; by eapply exec_post).
    destruct (IH s2 Hp (post_ranked _ _ _ _ H2)) as (f2&s3&H3).
    exists (S (f1 `max` f2)), s3. cbn [MessageBus.exec]. fold s1. unfold listOf in H1.
    erewrite invoke_mono; [|intros p ? ? ?; eapply exec_mono; [done|]|exact H1]; [|lia].
    eapply exec_mono; [done|lia].
  - destruct Hp as (Hn&Hh&Hp).
    pose proof (fun fuel => subscribe_post (exec fuel) Q n k handler s
      ltac:(intros p ? ? ?; by eapply exec_post) Hs Hn Hh) as Hsub.
    pose proof (enroll_spec k handler (bus s)) as Hspec. pose proof (enroll_ranked k handler s Hs Hh) as Hs1.
    destruct (enroll _ k handler (bus s)) as [[[newId h] cached] b] eqn:He.
    destruct Hspec as (_&_&_&_&Hcached). cbn [snd] in Hs1.
    destruct cached as [v|].
    + destruct (IsRetained k) eqn:Hk; [|done].
      destruct (Hret k (Hn eq_refl) _ (note k h v (onBus b s)) (Hh v) Hs1) as (f1&s1&H1).
      destruct (IH newId s1 (Hp newId) (post_ranked _ _ _ _ (Hsub f1 _ H1))) as (f2&s2&H2).
      exists (S (f1 `max` f2)), s2. cbn [MessageBus.exec]. rewrite He.
      rewrite (exec_mono _ (f1 `max` f2) _ _ _ H1) by lia. eapply exec_mono; [done|lia].
    + destruct (IH newId (onBus b s) (Hp newId) (post_ranked _ _ _ _ (Hsub 0%nat))) as (f2&s2&H2).
      exists (S f2), s2. cbn [MessageBus.exec]. by rewrite He.
  - destruct (IH (onBus (unsubscribe i (bus s)) s) Hp) as (fuel&s'&He).
    { apply (post_ranked Q n s), unsubscribe_post, Hs. }
    by exists (S fuel), s'.
Qed.

(** ** What the bus promises *)

(** The calls of the threads, one after the other. *)
Fixpoint runs (fuel : nat) (ps : list (Prog K V W)) (s : World) : option World :=
  match ps with
  | [] => Some s
  | p :: ps => match exec fuel p s with None => None | Some s => runs fuel ps s end
  end.

Lemma runs_mono fuel fuel' ps s s' :
  runs fuel ps s = Some s' -> (fuel <= fuel')%nat -> runs fuel' ps s = Some s'.
Proof.
  intros He Hle. revert s He. induction ps as [|p ps IH]; intros s; cbn [runs]; [done|].
  destruct (exec fuel p s) as [s1|] eqn:H1; [|done]. rewrite (exec_mono _ fuel' _ _ _ H1) by done. apply IH.
Qed.

Lemma runs_total Q n ps s :
  Forall (ranked Q n) ps -> handlersRanked s ->
  exists fuel s', runs fuel ps s = Some s' /\ post Q n s s'.
Proof.
  intros Hps. revert s. induction Hps as [|p ps Hp Hps IH]; intros s Hs.
  { exists 0%nat, s. split; [done|by apply post_refl]. }
  destruct (ranked_returns _ _ _ _ Hp Hs) as (f1&s1&H1).
  pose proof (exec_post _ _ _ _ _ _ H1 Hp Hs) as P1.
  destruct (IH s1 (post_ranked _ _ _ _ P1)) as (f2&s2&H2&P2).
  exists (f1 `max` f2)%nat, s2. split; [|by eapply post_trans]. cbn [runs].
  rewrite (exec_mono _ (f1 `max` f2) _ _ _ H1) by lia. eapply runs_mono; [done|lia].
Qed.

Definition start (w : W) : World := mkWorld w newBus [].

Lemma start_ranked w : handlersRanked (start w).
Proof.
  intros k h handler v Hc. assert (Hin : h ∈ handles emptyList) by (apply callback_handles; by eexists).
  rewrite handles_empty in Hin. by apply elem_of_nil in Hin.
Qed.

(** C12: whatever the threads publish and subscribe, if no handler publishes an event
    ranked as high as the one it handles, every call returns, nested dispatches
    included, and then every live subscriber of a retained event, early or late, was
    last called with the value the bus retains; before the first publication nobody
    was called. *)
Theorem subscribers_hold_latest Q n ps w :
  Forall (ranked Q n) ps ->
  exists fuel s, runs fuel ps (start w) = Some s /\
  forall k, IsRetained k = true ->
    match retainedOf k s with
    | None => forall h, received k h s = []
    | Some v => forall h, h ∈ handles (listOf k s) -> last (received k h s) = Some v
    end.
Proof.
  intros Hps. destruct (runs_total Q n ps (start w) Hps (start_ranked w)) as (fuel&s&Hr&P).
  exists fuel, s. split; [done|]. intros k Hk. by apply (post_current _ _ _ _ P k Hk).
Qed.

(** A publisher whose first subscriber publishes the same event again never gets its
    turn: no amount of fuel is enough. *)
Theorem self_publication_hangs k h handler s :
  head (handles (listOf k s)) = Some h -> callback h (listOf k s) = Some handler ->
  (forall v, exists v', handler v = Publish k v' Return) ->
  forall fuel v, exec fuel (Publish k v Return) s = None.
Proof.
  intros Hh Hc Hp fuel. revert s Hh Hc. induction fuel as [fuel IH] using lt_wf_ind. intros s Hh Hc v.
  destruct fuel as [|fuel]; [done|]. cbn [MessageBus.exec]. cbn [bus onBus]. rewrite retain_list.
  fold (listOf k s). destruct (handles (listOf k s)) as [|h' hs] eqn:Hhs; [done|].
  injection Hh as ->. cbn [invoke bus onBus]. rewrite retain_list. fold (listOf k s). rewrite Hc.
  destruct (Hp v) as [v' ->]. rewrite (IH fuel); [done|lia|..]; unfold listOf in *; cbn [bus onBus note];
    rewrite retain_list; [by rewrite Hhs|done].
Qed.

(** A program that publishes one event after the other. *)
Definition publishAll (kvs : list (K * V)) : Prog K V W :=
  foldr (fun kv next => Publish kv.1 kv.2 next) Return kvs.

Lemma publishAll_ranked n kvs :
  Forall (fun kv => (rank kv.1 < n)%nat) kvs -> ranked (fun k => k ∈ kvs.*1) n (publishAll kvs).
Proof.
  assert (Hg : forall Q, (forall kv, kv ∈ kvs -> Q kv.1) -> Forall (fun kv => (rank kv.1 < n)%nat) kvs ->
    ranked Q n (publishAll kvs)).
  { intros Q HQ Hk. induction Hk as [|kv kvs Hkv Hk IH]; cbn [publishAll foldr ranked]; [done|].
    split_and!; [apply HQ; by left|done|]. apply IH. intros. apply HQ. by right. }
  intros Hk. apply Hg; [|done]. intros kv Hin. apply list_elem_of_fmap. eauto.
Qed.

Lemma publishAll_retained n kvs fuel s s' :
  Forall (fun kv => (rank kv.1 < n)%nat) kvs -> NoDup kvs.*1 ->
  handlersRanked s -> exec fuel (publishAll kvs) s = Some s' ->
  Forall (fun kv => IsRetained kv.1 = true -> ~ A kv.1 -> retainedOf kv.1 s' = Some kv.2) kvs.
Proof.
  revert fuel s. induction kvs as [|[k v] kvs IH]; intros fuel s Hk Hn Hs He; [done|].
  apply Forall_cons in Hk as [Hlt Hk]. apply NoDup_cons in Hn as [Hnot Hn].
  destruct fuel as [|fuel]; [done|]. cbn [publishAll foldr fst snd MessageBus.exec] in *.
  destruct (invoke _ _ _ _ _) as [s1|] eqn:Hi; [|done].
  pose proof (retain_ranked k v s Hs) as Hs0.
  assert (Hrun : runs_well (exec fuel) (rank k)) by (intros p ? ? ?; by eapply exec_post).
  destruct (invoke_calling _ _ _ _ _ _ Hrun Hs0 Hi) as [[R _ _ _ O] _].
  apply Forall_cons. split; [|by eapply IH]. cbn [fst snd]. intros Hr HA.
  rewrite (post_kept _ _ _ _ (exec_post _ _ n _ _ _ He (publishAll_ranked n kvs Hk) R)) by done.
  destruct (O Hr) as [-> _]. unfold retainedOf, retain. cbn [bus onBus]. by rewrite Hr, setTopic_eq.
Qed.

Lemma post_any Q n s s' : post Q n s s' -> post (fun _ => True) n s s'.
Proof. intros [R F C P]. split; [done..|]. intros k Hk. by destruct Hk. Qed.

Lemma runs_app fuel ps qs s :
  runs fuel (ps ++ qs) s = match runs fuel ps s with None => None | Some s => runs fuel qs s end.
Proof. revert s. induction ps as [|p ps IH]; intros s; [done|]. cbn. destruct (exec fuel p s); [apply IH|done]. Qed.

(** A program that publishes in between others that leave its events alone. *)
Lemma publishAll_reaches n kvs before after w :
  Forall (ranked A n) (before ++ after) -> Forall (fun kv => (rank kv.1 < n)%nat) kvs -> NoDup kvs.*1 ->
  exists fuel s, runs fuel (before ++ [publishAll kvs] ++ after) (start w) = Some s /\
  Forall (fun kv => IsRetained kv.1 = true -> ~ A kv.1 -> retainedOf kv.1 s = Some kv.2 /\
    forall h, h ∈ handles (listOf kv.1 s) -> last (received kv.1 h s) = Some kv.2) kvs /\
  (forall k, IsRetained k = true -> ~ A k -> k ∉ kvs.*1 -> retainedOf k s = None /\ forall h, received k h s = []).
Proof.
  intros [Hbe Haf]%Forall_app Hk Hn. pose proof (publishAll_ranked n kvs Hk) as Hp.
  destruct (runs_total _ n before (start w) Hbe (start_ranked w)) as (f1&s1&H1&P1).
  destruct (ranked_returns n _ _ s1 Hp (post_ranked _ _ _ _ P1)) as (f2&s2&H2).
  pose proof (exec_post _ _ _ _ _ _ H2 Hp (post_ranked _ _ _ _ P1)) as P2.
  destruct (runs_total _ n after s2 Haf (post_ranked _ _ _ _ P2)) as (f3&s3&H3&P3).
  assert (Hall : post (fun _ => True) n (start w) s3)
    by (eapply post_trans, post_trans; [eapply post_any, P1|eapply post_any, P2|eapply post_any, P3]).
  exists (f1 `max` (f2 `max` f3))%nat, s3. split_and!.
  - rewrite runs_app, (runs_mono _ (f1 `max` (f2 `max` f3)) _ _ _ H1) by lia. cbn [app runs].
    rewrite (exec_mono _ (f1 `max` (f2 `max` f3)) _ _ _ H2) by lia. eapply runs_mono; [done|lia].
  - pose proof (publishAll_retained n kvs f2 s1 s2 Hk Hn (post_ranked _ _ _ _ P1) H2) as Hret.
    eapply Forall_impl; [exact Hret|]. intros [k v] Hkv Hr HA. cbn [fst snd] in *.
    assert (H3v : retainedOf k s3 = Some v) by (rewrite (post_kept _ _ _ _ P3); auto). split; [done|].
    pose proof (post_current _ _ _ _ Hall k Hr ltac:(done)) as Hcur. unfold current in Hcur. by rewrite H3v in Hcur.
  - intros k Hr HA Hnot. assert (H3v : retainedOf k s3 = None).
    { rewrite (post_kept _ _ _ _ P3), (post_kept _ _ _ _ P2), (post_kept _ _ _ _ P1) by done. done. }
    pose proof (post_current _ _ _ _ Hall k Hr ltac:(done)) as Hcur. unfold current in Hcur. by rewrite H3v in Hcur.
Qed.

End Theorems.

(** ** A bus at work *)

Module BusToy.
Section Toy.

(** Two events, [true] retained; a subscriber that does nothing more. *)
Definition observer (_ : Z) : Prog bool Z unit := Return.
Definition republish (v : Z) : Prog bool Z unit := Publish true (v + 1) Return.
Definition once (v : Z) : Prog bool Z unit := if v =? 1 then Publish true 2 Return else Return.

(** An early observer, a relay from the transient event to the retained one, a late
    observer. *)
Definition threads : list (Prog bool Z unit) :=
  [Subscribe true observer (fun _ => Subscribe false republish (fun _ => Return));
   Publish false 6 Return; Subscribe true observer (fun _ => Return)].

#[local] Instance lists : CallbackLists (Z -> Prog bool Z unit) := assocCallbacks _.

Definition at_end (ps : list (Prog bool Z unit)) : option (option Z * list (list Z)) :=
  (fun s => (retainedOf true s, (fun h => received true h s) <$> handles (listOf true s))) <$>
  runs (fun k => k) 10 ps (start tt).

End Toy.
End BusToy.

Lemma subscribers_hold_latest_witness :
  let A (k : bool) := k = true in let rank (k : bool) := if k then 0%nat else 1%nat in
  exists fuel s, runs (H := BusToy.lists) (fun k : bool => k) fuel BusToy.threads (start tt) = Some s /\
  (forall k, k = true -> match retainedOf k s with
   | None => forall h, received k h s = []
   | Some v => forall h, h ∈ handles (listOf k s) -> last (received k h s) = Some v end) /\
  BusToy.at_end BusToy.threads = Some (Some 7, [[7]; [7]]).
Proof.
  intros A rank.
  destruct (subscribers_hold_latest (H := BusToy.lists) (L := assocCallbacks_laws _) (fun k : bool => k) rank A
    (fun _ => True) 2 BusToy.threads tt) as (fuel&s&Hr&Hk).
  { repeat constructor; cbn; auto. }
  exists fuel, s. split; [exact Hr|]. split; [exact Hk|]. by vm_compute.
Defined.

(** The rank matters: a subscriber that publishes the retained event again while it is
    being delivered leaves the subscribers behind it with the older value. *)
Example nested_publication_stale :
  BusToy.at_end [Subscribe true BusToy.once (fun _ => Subscribe true BusToy.observer (fun _ => Return)); Publish true 1 Return] =
  Some (Some 2, [[1; 2]; [2; 1]]).
Proof. by vm_compute. Qed.
