(* ===== verification/Config.v ===== *)
(** * The configuration file

    [config/Config.cpp]: the parser of the INI-flavoured file, the readers of its
    sections and [load], which publishes the settings as retained events.  A
    [std::string] is its list of characters.  The file system and the environment are
    the class [Files]; log output is left out. *)

From Stdlib Require Import String Ascii.
From S2P Require Import Prelude MessageBus.
From stdpp Require Import gmap strings.
#[local] Open Scope Z_scope.

Abbreviation text := (list ascii).
Definition lit (s : string) : text := list_ascii_of_string s.

Module Config.

Definition DEFAULT_PATH : text := lit "/etc/zwaved/zwaved.conf".
Definition PATH_ENV : text := lit "ZWAVED_CONFIG".
Definition LEVEL_DEBUG : Z := 0.
Definition LEVEL_INFO : Z := 1.
Definition LEVEL_WARN : Z := 2.
Definition LEVEL_ERROR : Z := 3.
(** Of [MessageBus::DaemonError]. *)
Definition SEVERITY_WARN : Z := 2.
Definition CODE_CONFIG_LOAD_FAILED : Z := 0x40.

(** ** Characters *)

Definition SPACE : ascii := " "%char.
Definition TAB : ascii := "009"%char.
Definition CR : ascii := "013"%char.
Definition NEWLINE : ascii := "010"%char.
Definition QUOTE : ascii := "034"%char.

Definition frontSpace (c : ascii) : bool := bool_decide (c = SPACE) || bool_decide (c = TAB).
Definition backSpace (c : ascii) : bool := frontSpace c || bool_decide (c = CR).

Fixpoint dropWhile (p : ascii -> bool) (s : text) : text :=
  match s with [] => [] | c :: rest => if p c then dropWhile p rest else s end.

(** The loops of [trim]: prefixes, then suffixes. *)
Definition trim (s : text) : text :=
  reverse (dropWhile backSpace (reverse (dropWhile frontSpace s))).

(** [find(c)] *)
Fixpoint find (c : ascii) (s : text) : option nat :=
  match s with
  | [] => None
  | d :: rest => if bool_decide (d = c) then Some 0%nat else S <$> find c rest
  end.

(** The lines [std::getline] yields: none after a final newline. *)
Fixpoint getlines (line : text) (s : text) : list text :=
  match s with
  | [] => if bool_decide (line = []) then [] else [line]
  | c :: rest => if bool_decide (c = NEWLINE) then line :: getlines [] rest else getlines (line ++ [c]) rest
  end.

(** [size() >= 2 && front() == a && back() == b] *)
Definition wrapped (a b : ascii) (s : text) : bool :=
  (2 <=? length s)%nat && bool_decide (head s = Some a) && bool_decide (last s = Some b).

(** [substr(1, size() - 2)] *)
Definition inside (s : text) : text := take (length s - 2) (drop 1 s).

(** ** The parsed file *)

Abbreviation Section_ := (list (text * text)).
Abbreviation ParsedFile := (gmap text Section_).

(** [result[section].emplace_back(key, value)] *)
Definition emplaceBack (section key value : text) (result : ParsedFile) : ParsedFile :=
  <[section := default [] (result !! section) ++ [(key, value)]]> result.

(** The body of the loop in [parseFile]: the current section and the result. *)
Definition parseLine (line : text) (st : text * ParsedFile) : text * ParsedFile :=
  let '(section, result) := st in
  let trimmed := trim line in
  if bool_decide (trimmed = []) || bool_decide (head trimmed = Some "#"%char) then (section, result) else
  if wrapped "["%char "]"%char trimmed then (inside trimmed, result) else
  match find "="%char trimmed with
  | None => (section, result)
  | Some equalsPos =>
      let key := trim (take equalsPos trimmed) in
      let value := trim (drop (equalsPos + 1) trimmed) in
      let value := if wrapped QUOTE QUOTE value then inside value else value in
      (section, emplaceBack section key value result)
  end.

Definition parseLines (lines : list text) : text * ParsedFile :=
  foldl (fun st line => parseLine line st) ([], ∅) lines.

(** [parseFile] on what opening the path gave. *)
Definition parseFile (input : option text) : option ParsedFile :=
  match input with None => None | Some contents => Some (parseLines (getlines [] contents)).2 end.

Fixpoint firstEntry (key : text) (entries : Section_) : option text :=
  match entries with
  | [] => None
  | (entryKey, entryValue) :: rest => if bool_decide (entryKey = key) then Some entryValue else firstEntry key rest
  end.

Definition firstValue (file : ParsedFile) (section key : text) : option text :=
  match file !! section with None => None | Some entries => firstEntry key entries end.

Definition allValues (file : ParsedFile) (section key : text) : list text :=
  match file !! section with
  | None => []
  | Some entries => snd <$> filter (fun e => e.1 = key) entries
  end.

Definition parseLevel (s : text) : option Z :=
  if bool_decide (s = lit "debug") then Some LEVEL_DEBUG else
  if bool_decide (s = lit "info") then Some LEVEL_INFO else
  if bool_decide (s = lit "warn") then Some LEVEL_WARN else
  if bool_decide (s = lit "error") then Some LEVEL_ERROR else None.

Definition parseBool (s : text) : option bool :=
  if bool_decide (s = lit "true") || bool_decide (s = lit "yes") || bool_decide (s = lit "1") then Some true else
  if bool_decide (s = lit "false") || bool_decide (s = lit "no") || bool_decide (s = lit "0") then Some false
  else None.

Record AcceptedDongleConfig := mkAccepted { vid : text; pid : text; name : text }.

Definition parseAccept (s : text) : option AcceptedDongleConfig :=
  match find ":"%char s with
  | None => None
  | Some first =>
      match find ":"%char (drop (first + 1) s) with
      | None => None
      | Some gap =>
          let second := (first + 1 + gap)%nat in
          let accepted := mkAccepted (trim (take first s))
                            (trim (take (second - first - 1) (drop (first + 1) s)))
                            (trim (drop (second + 1) s)) in
          if bool_decide (vid accepted = []) || bool_decide (pid accepted = []) then None else Some accepted
      end
  end.

(** ** The settings *)

Record Settings := mkSettings {
  minLevel : Z; stateDir : text; s0KeyFile : text; s2KeyDir : text;
  accept : list AcceptedDongleConfig; autoLifeline : bool }.

Definition defaults : Settings :=
  mkSettings LEVEL_INFO [] [] []
    [mkAccepted (lit "0658") (lit "0200") (lit "Aeotec Z-Stick Gen5")] true.

Definition loadLoggerSection (file : ParsedFile) (minLevel : Z) : Z :=
  match firstValue file (lit "logger") (lit "min_level") with
  | None => minLevel
  | Some value => match parseLevel value with Some level => level | None => minLevel end
  end.

Definition loadStorageSection (file : ParsedFile) (stateDir : text) : text :=
  match firstValue file (lit "storage") (lit "state_dir") with Some value => value | None => stateDir end.

Definition loadSecuritySection (file : ParsedFile) (security : text * text) : text * text :=
  (match firstValue file (lit "security") (lit "s0_key_file") with Some value => value | None => security.1 end,
   match firstValue file (lit "security") (lit "s2_key_dir") with Some value => value | None => security.2 end).

Definition loadDonglesSection (file : ParsedFile) (accept : list AcceptedDongleConfig) : list AcceptedDongleConfig :=
  let entries := allValues file (lit "dongles") (lit "accept") in
  if bool_decide (entries = []) then accept else
  let parsedList := omap parseAccept entries in
  match parsedList with [] => accept | _ => parsedList end.

Definition loadBehaviorSection (file : ParsedFile) (autoLifeline : bool) : bool :=
  match firstValue file (lit "behavior") (lit "auto_lifeline") with
  | None => autoLifeline
  | Some value => match parseBool value with Some flag => flag | None => autoLifeline end
  end.

(** ** Loading *)

(** What [getenv] says of the path variable, what exists and what opens. *)
Class Files := { pathEnv : option text; exists_ : text -> bool; contents : text -> option text }.

Definition resolvePath `{Files} : text :=
  match pathEnv with Some (c :: env) => c :: env | _ => DEFAULT_PATH end.

(** The events [load] publishes, among the others [X] of the bus, and their values. *)
Inductive Topic (X : Type) := TLogger | TStorage | TSecurity | TDongles | TBehavior | TError | TOther (x : X).
Inductive Event (Y : Type) :=
| LoggerConfig (minLevel : Z)
| StorageConfig (stateDir : text)
| SecurityConfig (s0KeyFile s2KeyDir : text)
| DonglesConfig (accept : list AcceptedDongleConfig)
| BehaviorConfig (autoLifeline : bool)
| DaemonError (severity : Z) (source : text) (code : Z) (message : text)
| OtherEvent (y : Y).
Arguments TLogger {X}. Arguments TStorage {X}. Arguments TSecurity {X}. Arguments TDongles {X}.
Arguments TBehavior {X}. Arguments TError {X}. Arguments TOther {X} _.
Arguments LoggerConfig {Y} _. Arguments StorageConfig {Y} _. Arguments SecurityConfig {Y} _ _.
Arguments DonglesConfig {Y} _. Arguments BehaviorConfig {Y} _. Arguments DaemonError {Y} _ _ _ _.
Arguments OtherEvent {Y} _.

#[global] Instance Topic_eq_dec X `{EqDecision X} : EqDecision (Topic X).
Proof. solve_decision. Defined.

(** The assignments of [load]: the settings, and whether opening the file failed. *)
Definition read `{Files} : Settings * option text :=
  let path := resolvePath in
  if negb (exists_ path) then (defaults, None) else
  match parseFile (contents path) with
  | None => (defaults, Some path)
  | Some file =>
      let (s0, s2) := loadSecuritySection file (s0KeyFile defaults, s2KeyDir defaults) in
      (mkSettings (loadLoggerSection file (minLevel defaults)) (loadStorageSection file (stateDir defaults)) s0 s2
         (loadDonglesSection file (accept defaults)) (loadBehaviorSection file (autoLifeline defaults)), None)
  end.

Definition loadError {X Y} (path : text) : Topic X * Event Y :=
  (TError, DaemonError SEVERITY_WARN (lit "config") CODE_CONFIG_LOAD_FAILED
             (lit "failed to open config file " ++ path ++ lit "; using defaults")).

Definition events {X Y} (s : Settings) : list (Topic X * Event Y) :=
  [(TLogger, LoggerConfig (minLevel s)); (TStorage, StorageConfig (stateDir s));
   (TSecurity, SecurityConfig (s0KeyFile s) (s2KeyDir s)); (TDongles, DonglesConfig (accept s));
   (TBehavior, BehaviorConfig (autoLifeline s))].

Definition load `{Files} {X Y W} : Prog (Topic X) (Event Y) W :=
  let (settings, failed) := read in
  publishAll (match failed with Some path => [loadError path] | None => [] end ++ events settings).

End Config.

(** ** The language of the file

    A line of a configuration file, with the padding around its parts. *)
Module Spec.
Import Config.

Inductive Line :=
| Blank (pad : text)
| Comment (pad words : text)
| Header (pre name post : text)
| Entry (pre key mid1 mid2 value : text) (quoted : bool) (post : text).

Definition written (value : text) (quoted : bool) : text :=
  if quoted then ["034"%char] ++ value ++ ["034"%char] else value.

Definition render (l : Line) : text :=
  match l with
  | Blank pad => pad
  | Comment pad words => pad ++ ["#"%char] ++ words
  | Header pre name post => pre ++ ["["%char] ++ name ++ ["]"%char] ++ post
  | Entry pre key mid1 mid2 value quoted post =>
      pre ++ key ++ mid1 ++ ["="%char] ++ mid2 ++ written value quoted ++ post
  end.

Definition file (ls : list Line) : text := concat ((fun l => render l ++ ["010"%char]) <$> ls).

(** Padding: blanks and tabs before a word; after it carriage returns, too. *)
Definition leading (s : text) : Prop := Forall (fun c => c ∈ [" "%char; "009"%char]) s.
Definition trailing (s : text) : Prop := Forall (fun c => c ∈ [" "%char; "009"%char; "013"%char]) s.

(** Neither starts nor ends in padding. *)
Definition bare (s : text) : Prop :=
  from_option (fun c => c ∉ [" "%char; "009"%char]) True (head s) /\
  from_option (fun c => c ∉ [" "%char; "009"%char; "013"%char]) True (last s).

Definition line_ok (l : Line) : Prop :=
  ("010"%char ∉ render l) /\
  match l with
  | Blank pad => trailing pad
  | Comment pad _ => leading pad
  | Header pre _ post => leading pre /\ trailing post
  | Entry pre key mid1 mid2 value quoted post =>
      leading pre /\ trailing mid1 /\ leading mid2 /\ trailing post /\
      bare key /\ ("="%char ∉ key) /\ head key <> Some "#"%char /\ head key <> Some "["%char /\
      (quoted = false -> bare value /\ ~ exists inner, value = written inner true)
  end.

(** What the lines say: sections with their keys and values, in order. *)
Fixpoint entries (section : text) (ls : list Line) : list (text * text * text) :=
  match ls with
  | [] => []
  | Header _ name _ :: ls => entries name ls
  | Entry _ key _ _ value _ _ :: ls => (section, key, value) :: entries section ls
  | _ :: ls => entries section ls
  end.

(** The values of a key over all the sections of that name, in order. *)
Definition values (section key : text) (es : list (text * text * text)) : list text :=
  snd <$> filter (fun e => e.1 = (section, key)) es.

(** ** What the values mean *)

Definition levels : list (text * Z) := [(lit "debug", 0); (lit "info", 1); (lit "warn", 2); (lit "error", 3)].
Definition switches : list (text * bool) :=
  [(lit "true", true); (lit "yes", true); (lit "1", true); (lit "false", false); (lit "no", false); (lit "0", false)].

(** The meaning of the word stated, if it has one; else the default. *)
Inductive means {B} (words : list (text * B)) (byDefault : B) : option text -> B -> Prop :=
| means_word w b : (w, b) ∈ words -> means words byDefault (Some w) b
| means_unknown w : w ∉ words.*1 -> means words byDefault (Some w) byDefault
| means_unset : means words byDefault None byDefault.

(** [vid:pid:name], each with padding; the name may hold colons itself. *)
Definition describes (d : AcceptedDongleConfig) (s : text) : Prop :=
  exists p1 p2 p3 p4 p5 p6,
    s = (p1 ++ vid d ++ p2) ++ ":"%char :: (p3 ++ pid d ++ p4) ++ ":"%char :: (p5 ++ name d ++ p6) /\
    (leading p1 /\ leading p3 /\ leading p5) /\ (trailing p2 /\ trailing p4 /\ trailing p6) /\
    (bare (vid d) /\ bare (pid d) /\ bare (name d)) /\
    (":"%char ∉ vid d) /\ (":"%char ∉ pid d) /\ vid d <> [] /\ pid d <> [].

(** The dongles described, those that describe none left out. *)
Inductive dongles : list text -> list AcceptedDongleConfig -> Prop :=
| dongles_none : dongles [] []
| dongles_one d s ss ds : describes d s -> dongles ss ds -> dongles (s :: ss) (d :: ds)
| dongles_skip s ss ds : (forall d, ~ describes d s) -> dongles ss ds -> dongles (s :: ss) ds.

(** The settings: the first value of each key where it means something, every accepted
    dongle; else the default. *)
Record states (es : list (text * text * text)) (S : Settings) : Prop := mkStates {
  states_level : means levels 1 (head (values (lit "logger") (lit "min_level") es)) (minLevel S);
  states_storage : stateDir S = default [] (head (values (lit "storage") (lit "state_dir") es));
  states_s0 : s0KeyFile S = default [] (head (values (lit "security") (lit "s0_key_file") es));
  states_s2 : s2KeyDir S = default [] (head (values (lit "security") (lit "s2_key_dir") es));
  states_dongles : exists ds, dongles (values (lit "dongles") (lit "accept") es) ds /\
    accept S = if decide (ds = []) then [mkAccepted (lit "0658") (lit "0200") (lit "Aeotec Z-Stick Gen5")] else ds;
  states_lifeline : means switches true (head (values (lit "behavior") (lit "auto_lifeline") es)) (autoLifeline S) }.

(** Where the file is: the path of the environment, unless it is unset or empty. *)
Definition path `{Files} : text :=
  match pathEnv with
  | Some p => if decide (p = []) then lit "/etc/zwaved/zwaved.conf" else p
  | None => lit "/etc/zwaved/zwaved.conf"
  end.

(** It is there and cannot be opened. *)
Definition unreadable `{Files} : bool := exists_ path && bool_decide (contents path = None).

(** What is stated by a file of these lines: nothing if it is not there or does not open. *)
Definition stated `{Files} (ls : list Line) : list (text * text * text) :=
  if exists_ path && negb unreadable then entries [] ls else [].

End Spec.

(** * Theorems *)

Import Config Spec.

(** ** Padding, for the parser *)

Definition front (s : text) : Prop := Forall (fun c => frontSpace c = true) s.
Definition back (s : text) : Prop := Forall (fun c => backSpace c = true) s.
Definition clean (s : text) : Prop :=
  from_option (fun c => frontSpace c = false) True (head s) /\
  from_option (fun c => backSpace c = false) True (last s).

Lemma frontSpace_iff c : frontSpace c = true <-> c ∈ [" "%char; "009"%char].
Proof. unfold frontSpace. rewrite orb_true_iff, !bool_decide_eq_true, !elem_of_cons, elem_of_nil. unfold SPACE, TAB. tauto. Qed.
Lemma backSpace_iff c : backSpace c = true <-> c ∈ [" "%char; "009"%char; "013"%char].
Proof. unfold backSpace. rewrite orb_true_iff, frontSpace_iff, bool_decide_eq_true, !elem_of_cons, elem_of_nil. unfold CR. tauto. Qed.

Lemma leading_iff s : leading s <-> front s.
Proof. apply Forall_iff. intros c. symmetry. apply frontSpace_iff. Qed.
Lemma trailing_iff s : trailing s <-> back s.
Proof. apply Forall_iff. intros c. symmetry. apply backSpace_iff. Qed.
Lemma bare_iff s : bare s <-> clean s.
Proof.
  unfold bare, clean. destruct (head s), (last s); cbn [from_option];
    rewrite <- ?frontSpace_iff, <- ?backSpace_iff, <- ?not_true_iff_false; done.
Qed.

(** ** Trimming *)

Section Trim.
Context (p : ascii -> bool).

Lemma dropWhile_all s : Forall (fun c => p c = true) s -> dropWhile p s = [].
Proof. induction 1 as [|c s Hc Hs IH]; [done|]. cbn. by rewrite Hc. Qed.

Lemma dropWhile_skip s t : Forall (fun c => p c = true) s -> dropWhile p (s ++ t) = dropWhile p t.
Proof. induction 1 as [|c s Hc Hs IH]; [done|]. cbn. by rewrite Hc. Qed.

Lemma dropWhile_head s : from_option (fun c => p c = false) True (head s) -> dropWhile p s = s.
Proof. destruct s as [|c s]; [done|]. cbn. by intros ->. Qed.

Lemma dropWhile_first s c t : dropWhile p s = c :: t -> p c = false.
Proof. induction s as [|d s IH]; [done|]. cbn. destruct (p d) eqn:Hd; [done|]. by intros [= <- _]. Qed.

Lemma dropWhile_idem s : dropWhile p (dropWhile p s) = dropWhile p s.
Proof. induction s as [|c s IH]; [done|]. cbn. destruct (p c) eqn:Hc; [done|]. cbn. by rewrite Hc. Qed.

Lemma dropWhile_stop c s t : p c = false -> dropWhile p (s ++ c :: t) = dropWhile p s ++ c :: t.
Proof.
  intros Hc. induction s as [|d s IH]; cbn; [by rewrite Hc|]. by destruct (p d).
Qed.

Lemma dropWhile_split s : exists pre, s = pre ++ dropWhile p s /\ Forall (fun c => p c = true) pre.
Proof.
  induction s as [|c s [pre [E Hp]]]; [by exists []|]. cbn. destruct (p c) eqn:Hc.
  - exists (c :: pre). split; [cbn; congruence|by constructor].
  - by exists [].
Qed.

End Trim.

Definition trimBack (s : text) : text := reverse (dropWhile backSpace (reverse s)).

Lemma trim_alt s : trim s = trimBack (dropWhile frontSpace s).
Proof. done. Qed.

Lemma front_back s : front s -> back s.
Proof. intros Hs. eapply Forall_impl; [exact Hs|]. intros c Hc. unfold backSpace. cbn in *. by rewrite Hc. Qed.

Lemma reverse_back s : back s -> back (reverse s).
Proof. apply Forall_reverse. Qed.

Lemma trimBack_pad s post : back post -> trimBack (s ++ post) = trimBack s.
Proof. intros. unfold trimBack. by rewrite reverse_app, dropWhile_skip by (by apply reverse_back). Qed.

Lemma trimBack_back s : back s -> trimBack s = [].
Proof. intros. unfold trimBack. by rewrite dropWhile_all by (by apply reverse_back). Qed.

Lemma trimBack_clean s : from_option (fun c => backSpace c = false) True (last s) -> trimBack s = s.
Proof.
  intros Hs. unfold trimBack. rewrite dropWhile_head, reverse_involutive; [done|].
  by rewrite head_reverse.
Qed.

(** A character that is not padding, with what is around it. *)
Lemma trim_around c s t :
  backSpace c = false -> trim (s ++ c :: t) = dropWhile frontSpace s ++ c :: trimBack t.
Proof.
  intros Hc. rewrite trim_alt, dropWhile_stop.
  - unfold trimBack. rewrite reverse_app, reverse_cons, <-app_assoc. cbn [app].
    rewrite dropWhile_stop by done. rewrite reverse_app, reverse_cons, reverse_involutive. by rewrite <-app_assoc.
  - unfold backSpace in Hc. by apply orb_false_elim in Hc as [? ?].
Qed.

Lemma clean_cons_inv s : clean s -> s = [] \/ exists c s1 d, frontSpace c = false /\ backSpace d = false /\
  head s = Some c /\ s = s1 ++ [d].
Proof.
  destruct s as [|d s _] using rev_ind; [by left|]. intros [Hf Hb]. right. rewrite last_snoc in Hb. cbn in Hb.
  destruct (head (s ++ [d])) as [c|] eqn:Hh; [|by destruct s]. by exists c, s, d.
Qed.

(** Padding around a clean text is what [trim] removes. *)
Lemma trim_pad pre s post : front pre -> back post -> clean s -> trim (pre ++ s ++ post) = s.
Proof.
  intros Hpre Hpost [Hf Hb]. rewrite trim_alt, dropWhile_skip by done.
  destruct s as [|c s]; cbn [app].
  - destruct (dropWhile_split frontSpace post) as [p [E _]].
    apply trimBack_back. unfold back in *. rewrite E in Hpost. by apply Forall_app in Hpost as [_ ?].
  - rewrite dropWhile_head by done. rewrite app_comm_cons, trimBack_pad by done. by apply trimBack_clean.
Qed.

Lemma trim_clean s : clean s -> trim s = s.
Proof.
  intros Hs. rewrite <-(trim_pad [] s []) at 2; [by rewrite app_nil_r|by constructor..|done].
Qed.

(** Trimming after one side was trimmed. *)
Lemma trim_dropFront s : trim (dropWhile frontSpace s) = trim s.
Proof. by rewrite !trim_alt, dropWhile_idem. Qed.

Lemma trimBack_split s : exists post, s = trimBack s ++ post /\ back post.
Proof.
  destruct (dropWhile_split backSpace (reverse s)) as [p [E Hp]]. exists (reverse p).
  split; [|by apply Forall_reverse]. unfold trimBack. rewrite <-reverse_app, <-E. by rewrite reverse_involutive.
Qed.

Lemma trim_trimBack s : trim (trimBack s) = trim s.
Proof.
  destruct (trimBack_split s) as [post [E Hp]]. rewrite E at 2.
  destruct (decide (back (trimBack s))) as [Hb|Hb].
  - assert (Hall : forall t, back t -> trim t = []).
    { intros t Ht. rewrite <-(trim_pad [] [] t); [done|constructor|done|done]. }
    rewrite !Hall; [done| |done]. by apply Forall_app.
  - assert (Hne : dropWhile frontSpace (trimBack s) <> []).
    { destruct (dropWhile_split frontSpace (trimBack s)) as [p [E' Hp']]. intros H0. rewrite H0, app_nil_r in E'.
      apply Hb. rewrite E'. by apply front_back. }
    rewrite !trim_alt. rewrite <-(trimBack_pad (dropWhile frontSpace (trimBack s)) post) by done. f_equal.
    destruct (dropWhile frontSpace (trimBack s)) as [|c r] eqn:Hd; [done|].
    destruct (dropWhile_split frontSpace (trimBack s)) as [p [E' Hp']]. rewrite Hd in E'. rewrite E'.
    rewrite <-app_assoc, dropWhile_skip by done. cbn [app].
    rewrite dropWhile_head; [done|]. by apply dropWhile_first in Hd.
Qed.

(** ** One line *)

Lemma find_app c s t : c ∉ s -> find c (s ++ c :: t) = Some (length s).
Proof.
  induction s as [|d s IH]; intros Hc; cbn; [by rewrite bool_decide_eq_true_2|].
  apply not_elem_of_cons in Hc as [Hd Hs]. rewrite bool_decide_eq_false_2 by congruence. by rewrite IH.
Qed.

Lemma wrapped_around a b s : wrapped a b ([a] ++ s ++ [b]) = true.
Proof.
  unfold wrapped. rewrite app_assoc, last_snoc, <-app_assoc. cbn [head app].
  rewrite !bool_decide_eq_true_2 by done. cbn. rewrite length_app. cbn. by rewrite Nat.add_1_r.
Qed.

Lemma inside_around a b s : inside ([a] ++ s ++ [b]) = s.
Proof.
  unfold inside. cbn [app drop length]. rewrite drop_0, length_app. cbn [length].
  replace (S (length s + 1) - 2)%nat with (length s) by lia. by rewrite take_app_length.
Qed.

Lemma wrapped_head a b s : head s <> Some a -> wrapped a b s = false.
Proof. intros Hs. unfold wrapped. rewrite (bool_decide_eq_false_2 _ Hs). by rewrite andb_false_r. Qed.

Lemma clean_around a s b : frontSpace a = false -> backSpace b = false -> clean ([a] ++ s ++ [b]).
Proof. intros Ha Hb. split; [done|]. by rewrite app_assoc, last_snoc. Qed.

Lemma clean_written value quoted :
  (quoted = false -> clean value /\ wrapped QUOTE QUOTE value = false) -> clean (written value quoted).
Proof. destruct quoted; intros H; [by apply clean_around|by apply H]. Qed.

Lemma back_not c s : back s -> backSpace c = false -> c ∉ s.
Proof. intros Hs Hc Hin. unfold back in Hs. rewrite Forall_forall in Hs. apply Hs in Hin. congruence. Qed.

(** What is left of the padded key begins neither a comment nor a header. *)
Lemma key_head pre key mid1 t c :
  front pre -> back mid1 -> clean key -> head key <> Some c -> backSpace c = false -> c <> "="%char ->
  head (dropWhile frontSpace (pre ++ key ++ mid1) ++ "="%char :: t) <> Some c.
Proof.
  intros Hpre Hmid [Hf _] Hk Hc Heq. rewrite dropWhile_skip by done.
  destruct key as [|d key]; cbn [app].
  - destruct (dropWhile_split frontSpace mid1) as [p [E _]].
    destruct (dropWhile frontSpace mid1) as [|d r]; cbn; [congruence|]. intros [= ->].
    apply (back_not c mid1 Hmid Hc). rewrite E. set_solver.
  - rewrite dropWhile_head by done. done.
Qed.

Lemma not_elem_dropWhile p c s : c ∉ s -> c ∉ dropWhile p s.
Proof. intros Hc. destruct (dropWhile_split p s) as [q [E _]]. rewrite E in Hc. set_solver. Qed.

Lemma wrapped_inv a b s : wrapped a b s = true -> exists s', s = [a] ++ s' ++ [b].
Proof.
  unfold wrapped. rewrite !andb_true_iff, !bool_decide_eq_true. intros [[Hl%Nat.leb_le Hh] Hb].
  destruct s as [|c s]; [done|]. injection Hh as ->. destruct s as [|d s _] using rev_ind; [cbn in Hl; lia|].
  rewrite app_comm_cons, last_snoc in Hb. injection Hb as ->. by exists s.
Qed.

(** A line of the language, in the parser's terms. *)
Definition line_fit (l : Line) : Prop :=
  (NEWLINE ∉ render l) /\
  match l with
  | Blank pad => back pad
  | Comment pad _ => front pad
  | Header pre _ post => front pre /\ back post
  | Entry pre key mid1 mid2 value quoted post =>
      front pre /\ back mid1 /\ front mid2 /\ back post /\
      clean key /\ ("="%char ∉ key) /\ head key <> Some "#"%char /\ head key <> Some "["%char /\
      (quoted = false -> clean value /\ wrapped QUOTE QUOTE value = false)
  end.

Lemma line_ok_fit l : line_ok l -> line_fit l.
Proof.
  unfold line_ok, line_fit. intros [Hn Hl]. split; [done|].
  destruct l; rewrite ?leading_iff, ?trailing_iff, ?bare_iff in Hl; try done.
  destruct Hl as (?&?&?&?&?&?&?&?&Hv). split_and!; try done. intros Hq. destruct (Hv Hq) as [Hb Hw].
  split; [done|]. apply not_true_iff_false. intros [s E]%wrapped_inv. apply Hw. by exists s.
Qed.

(** What a line adds to the section and the result. *)
Definition meaning (l : Line) (st : text * ParsedFile) : text * ParsedFile :=
  match l with
  | Blank _ | Comment _ _ => st
  | Header _ name _ => (name, st.2)
  | Entry _ key _ _ value _ _ => (st.1, emplaceBack st.1 key value st.2)
  end.

Lemma parseLine_entry pre key mid1 mid2 value quoted post st :
  line_fit (Entry pre key mid1 mid2 value quoted post) ->
  parseLine (render (Entry pre key mid1 mid2 value quoted post)) st =
  (st.1, emplaceBack st.1 key value st.2).
Proof.
  intros [_ (Hpre&Hm1&Hm2&Hpost&Hkey&Heq&Hc&Hh&Hv)]. destruct st as [section result].
  unfold parseLine, render.
  replace (pre ++ key ++ mid1 ++ ["="%char] ++ mid2 ++ written value quoted ++ post)
    with ((pre ++ key ++ mid1) ++ "="%char :: (mid2 ++ written value quoted ++ post)) by by rewrite <-!app_assoc.
  rewrite trim_around by done.
  set (t := dropWhile frontSpace (pre ++ key ++ mid1)). set (b := trimBack _).
  rewrite (bool_decide_eq_false_2 (t ++ _ = [])) by (by destruct t).
  rewrite (bool_decide_eq_false_2 (head _ = _)) by (by apply key_head).
  rewrite wrapped_head by (by apply key_head). cbn [orb].
  assert (Hnot : "="%char ∉ t).
  { apply not_elem_dropWhile. rewrite !not_elem_of_app. split_and!; [|done|by apply back_not].
    by apply back_not; [apply front_back|]. }
  rewrite find_app by done. rewrite take_app_length.
  replace (length t + 1)%nat with (length (t ++ ["="%char])) by (by rewrite length_app).
  change (t ++ "="%char :: b) with (t ++ (["="%char] ++ b)). rewrite app_assoc, drop_app_length.
  unfold t, b. rewrite trim_dropFront, trim_trimBack.
  rewrite !trim_pad by (done || by apply clean_written).
  destruct quoted; cbn [written]; [by rewrite wrapped_around, inside_around|]. by rewrite (proj2 (Hv eq_refl)).
Qed.

Lemma parseLine_render l st : line_fit l -> parseLine (render l) st = meaning l st.
Proof.
  destruct st as [section result], l as [pad|pad words|pre name post|pre key mid1 mid2 value quoted post];
    intros Hok; [| | |by apply parseLine_entry]; destruct Hok as [_ Hok]; cbn [meaning fst snd]; unfold parseLine, render.
  - pose proof (trim_pad [] [] pad) as Ht. cbn [app] in Ht. rewrite Ht; [done|by constructor|done|by split].
  - cbn [app]. rewrite trim_around by done. rewrite (dropWhile_all _ _ Hok). done.
  - destruct Hok as [Hpre Hpost].
    replace (pre ++ ["["%char] ++ name ++ ["]"%char] ++ post)
      with (pre ++ (["["%char] ++ name ++ ["]"%char]) ++ post) by by rewrite <-!app_assoc.
    rewrite trim_pad by (done || by apply clean_around). rewrite wrapped_around, inside_around. done.
Qed.

(** ** The whole file *)

Lemma getlines_line acc s t : NEWLINE ∉ s -> getlines acc (s ++ NEWLINE :: t) = (acc ++ s) :: getlines [] t.
Proof.
  revert acc. induction s as [|c s IH]; intros acc Hs; cbn.
  { by rewrite app_nil_r. }
  apply not_elem_of_cons in Hs as [Hc Hs]. rewrite bool_decide_eq_false_2 by congruence.
  rewrite IH by done. by rewrite <-app_assoc.
Qed.

Lemma getlines_file ls : Forall line_fit ls -> getlines [] (file ls) = render <$> ls.
Proof.
  induction 1 as [|l ls Hl Hls IH]; [done|]. unfold file. rewrite fmap_cons. cbn [concat].
  rewrite <-app_assoc. cbn [app]. rewrite getlines_line by apply Hl. cbn [app]. rewrite fmap_cons. f_equal. exact IH.
Qed.

Lemma parseLines_render ls st :
  Forall line_fit ls ->
  foldl (fun st line => parseLine line st) st (render <$> ls) = foldl (fun st l => meaning l st) st ls.
Proof.
  intros Hls. revert st. induction Hls as [|l ls Hl Hls IH]; intros st; [done|].
  cbn [fmap list_fmap foldl]. by rewrite parseLine_render, IH.
Qed.

Lemma firstEntry_head key es : firstEntry key es = head (snd <$> filter (fun e => e.1 = key) es).
Proof.
  induction es as [|[k v] es IH]; [done|]. cbn [firstEntry]. rewrite filter_cons.
  case_bool_decide; case_decide; done.
Qed.

Lemma firstValue_head f section key : firstValue f section key = head (allValues f section key).
Proof. unfold firstValue, allValues. destruct (f !! section); [apply firstEntry_head|done]. Qed.

Lemma allValues_emplace f s k v s' k' :
  allValues (emplaceBack s k v f) s' k' =
  allValues f s' k' ++ if decide (s = s' /\ k = k') then [v] else [].
Proof.
  unfold allValues, emplaceBack. destruct (decide (s = s')) as [<-|Hne].
  - rewrite lookup_insert_eq, filter_app, fmap_app. f_equal; [by destruct (f !! s)|].
    rewrite filter_cons. cbn [fst snd]. destruct (decide (k = k')) as [->|Hk].
    + by rewrite decide_True by done.
    + by rewrite decide_False by (by intros [_ ?]).
  - rewrite lookup_insert_ne by done. rewrite decide_False by (by intros [? _]). by rewrite app_nil_r.
Qed.

Lemma allValues_entries ls sec f s k :
  allValues (foldl (fun st l => meaning l st) (sec, f) ls).2 s k = allValues f s k ++ values s k (entries sec ls).
Proof.
  revert sec f. induction ls as [|l ls IH]; intros sec f; [by rewrite app_nil_r|].
  destruct l as [pad|pad words|pre name post|pre key mid1 mid2 value quoted post]; cbn [foldl meaning entries fst snd];
    rewrite IH; try done.
  rewrite allValues_emplace, <-app_assoc. f_equal. unfold values. rewrite filter_cons. cbn [fst snd].
  destruct (decide (sec = s /\ key = k)) as [[-> ->]|Hne]; [by rewrite decide_True|].
  by rewrite decide_False by naive_solver.
Qed.

(** What [parseFile] makes of a file in the language. *)
Lemma parseFile_values ls f :
  Forall line_fit ls -> parseFile (Some (file ls)) = Some f ->
  forall s k, allValues f s k = values s k (entries [] ls).
Proof.
  intros Hls. unfold parseFile. rewrite getlines_file by done. intros [= <-] s k. unfold parseLines.
  rewrite parseLines_render by done. rewrite allValues_entries. by unfold allValues; rewrite lookup_empty.
Qed.

(** ** What the values mean *)

Lemma means_parse {B} (words : list (text * B)) byDefault (parse : text -> option B) o :
  (forall w b, parse w = Some b -> (w, b) ∈ words) -> (forall w, parse w = None -> w ∉ words.*1) ->
  means words byDefault o (default byDefault (o ≫= parse)).
Proof.
  intros Hs Hn. destruct o as [w|]; [|constructor]. cbn. destruct (parse w) as [b|] eqn:E;
    [by apply means_word, Hs|by apply means_unknown, Hn].
Qed.

Ltac word :=
  repeat (case_bool_decide; cbn [orb];
          [try done; intros; simplify_eq; cbn; repeat first [apply list_elem_of_here|apply list_elem_of_further]|]);
  try done; intros _; cbn; rewrite !not_elem_of_cons; split_and!; first [done|apply not_elem_of_nil].

Lemma parseLevel_means o : means levels 1 o (default 1 (o ≫= parseLevel)).
Proof. apply means_parse; intros w; unfold parseLevel, levels; word. Qed.

Lemma parseBool_means o : means switches true o (default true (o ≫= parseBool)).
Proof. apply means_parse; intros w; unfold parseBool, switches; word. Qed.

Lemma trim_split s : exists pre post, s = pre ++ trim s ++ post /\ front pre /\ back post /\ clean (trim s).
Proof.
  destruct (dropWhile_split frontSpace s) as [pre [E Hpre]]. set (t := dropWhile frontSpace s) in *.
  destruct (trimBack_split t) as [post [Et Hpost]]. exists pre, post. rewrite trim_alt. fold t.
  split; [by rewrite <-Et|]. split_and!; [done..|]. split.
  - destruct (trimBack t) as [|c r]; [done|]. cbn. eapply (dropWhile_first frontSpace s). fold t. by rewrite Et.
  - unfold trimBack. rewrite last_reverse. destruct (dropWhile backSpace (reverse t)) as [|c r] eqn:Ed; [done|].
    cbn. by eapply dropWhile_first.
Qed.

Lemma find_split c s n : find c s = Some n -> s = take n s ++ c :: drop (n + 1) s /\ c ∉ take n s.
Proof.
  revert n. induction s as [|d s IH]; intros n; [done|]. cbn [find]. case_bool_decide as Hd.
  - intros [= <-]. subst d. split; [done|apply not_elem_of_nil].
  - destruct (find c s) as [m|] eqn:Ef; [|done]. intros [= <-]. destruct (IH m eq_refl) as [E Hn].
    cbn. split; [by rewrite <- E|]. apply not_elem_of_cons. by split; [congruence|].
Qed.

Lemma colon_not s : back s -> ":"%char ∉ s.
Proof. intros Hs. by apply back_not. Qed.

Lemma colonless pre s post : front pre -> back post -> ":"%char ∉ s -> ":"%char ∉ pre ++ s ++ post.
Proof. intros Hp Hs Hn. rewrite !not_elem_of_app. split_and!; [by apply colon_not, front_back|done|by apply colon_not]. Qed.

Lemma skip_colon (c : ascii) s t : drop (length s + 1) (s ++ c :: t) = t.
Proof. induction s as [|d s IH]; [done|exact IH]. Qed.

Lemma parseAccept_iff s d : parseAccept s = Some d <-> describes d s.
Proof.
  unfold parseAccept, describes. split.
  - destruct (find ":"%char s) as [n|] eqn:E1; [|done]. destruct (find ":"%char (drop (n + 1) s)) as [m|] eqn:E2; [|done].
    apply find_split in E1 as [Es H1], E2 as [Et H2]. cbn zeta. intros Hd.
    replace (n + 1 + m - n - 1)%nat with m in Hd by lia. replace (n + 1 + m + 1)%nat with ((n + 1) + (m + 1))%nat in Hd by lia.
    rewrite <- (drop_drop s (m + 1) (n + 1)) in Hd. set (t := drop (n + 1) s) in *.
    destruct (trim_split (take n s)) as (p1&p2&F1&?&?&?), (trim_split (take m t)) as (p3&p4&F2&?&?&?),
      (trim_split (drop (m + 1) t)) as (p5&p6&F3&?&?&?).
    cbn [vid pid] in Hd. case_bool_decide as V; [done|]. case_bool_decide as P; [done|]. injection Hd as <-. cbn [vid pid name].
    exists p1, p2, p3, p4, p5, p6. rewrite !leading_iff, !trailing_iff, !bare_iff, <- F1, <- F2, <- F3. split_and!; try done.
    + by rewrite <- Et.
    + intros Hin. apply H1. rewrite F1. set_solver.
    + intros Hin. apply H2. rewrite F2. set_solver.
  - intros (p1&p2&p3&p4&p5&p6&->&(F1&F3&F5)&(B2&B4&B6)&(Cv&Cp&Cn)&Nv&Np&V&P).
    rewrite leading_iff, trailing_iff, bare_iff in *.
    rewrite find_app by (by apply colonless).
    set (a := p1 ++ vid d ++ p2). set (b := p3 ++ pid d ++ p4). set (c := p5 ++ name d ++ p6).
    rewrite skip_colon, find_app by (by apply colonless). cbn zeta.
    rewrite take_app_length. replace (length a + 1 + length b - length a - 1)%nat with (length b) by lia. rewrite take_app_length.
    replace (length a + 1 + length b + 1)%nat with ((length a + 1) + (length b + 1))%nat by lia.
    rewrite <- (drop_drop _ (length b + 1) (length a + 1)), !skip_colon. unfold a, b, c. rewrite !trim_pad by done.
    cbn [vid pid]. rewrite !bool_decide_eq_false_2 by done. by destruct d.
Qed.

Lemma parseAccept_dongles ss : dongles ss (omap parseAccept ss).
Proof.
  induction ss as [|s ss IH]; [constructor|]. cbn. destruct (parseAccept s) as [d|] eqn:E.
  - constructor; [by apply parseAccept_iff|done].
  - constructor; [|done]. intros d Hd%parseAccept_iff. congruence.
Qed.

(** What the values mean leaves no choice. *)
Lemma means_functional {B} (words : list (text * B)) d o b1 b2 :
  NoDup words.*1 -> means words d o b1 -> means words d o b2 -> b1 = b2.
Proof.
  intros Hn H1 H2. destruct H1 as [w b1 H1|w H1|]; inversion H2 as [w' b2' H2'|w' H2'|]; subst; try done.
  - apply list_elem_of_lookup in H1 as [i Hi], H2' as [j Hj].
    assert (E : i = j); [|congruence]. apply (NoDup_lookup _ i j w Hn); rewrite list_lookup_fmap; [by rewrite Hi|by rewrite Hj].
  - exfalso. apply H2'. by apply (list_elem_of_fmap_2 fst) in H1.
  - exfalso. apply H1. by apply (list_elem_of_fmap_2 fst) in H2'.
Qed.

Lemma dongles_functional ss ds1 : dongles ss ds1 -> forall ds2, dongles ss ds2 -> ds1 = ds2.
Proof.
  induction 1 as [|d s ss ds Hd H IH|s ss ds Hd H IH]; intros ds2 H2; inversion H2 as [|d' s' ss' ds' Hd' H'|s' ss' ds' Hd' H'];
    subst; [done| |by exfalso; apply (Hd' d)|by exfalso; apply (Hd d')|by apply IH].
  f_equal; [|by apply IH]. apply parseAccept_iff in Hd, Hd'. congruence.
Qed.

Lemma states_functional es S1 S2 : states es S1 -> states es S2 -> S1 = S2.
Proof.
  intros [L1 A1 B1 C1 (d1&D1&E1) F1] [L2 A2 B2 C2 (d2&D2&E2) F2]. destruct S1, S2; cbn in *.
  assert (NoDup levels.*1) by (apply (bool_decide_unpack _); by vm_compute).
  assert (NoDup switches.*1) by (apply (bool_decide_unpack _); by vm_compute).
  pose proof (dongles_functional _ _ D1 _ D2). subst d2.
  f_equal; try congruence; (eapply means_functional; [|eassumption|eassumption]; done).
Qed.

(** ** Reading the file *)

Lemma read_file `{Files} ls :
  Forall line_fit ls -> exists_ resolvePath = true -> contents resolvePath = Some (file ls) ->
  exists S, read = (S, None) /\ states (entries [] ls) S.
Proof.
  intros Hls Hex Hc. unfold read. rewrite Hex, Hc. cbn [negb].
  destruct (parseFile (Some (file ls))) as [f|] eqn:Hp; [|done].
  pose proof (parseFile_values ls f Hls Hp) as Hv.
  unfold loadSecuritySection, loadLoggerSection, loadStorageSection, loadDonglesSection, loadBehaviorSection.
  rewrite !firstValue_head, !Hv. eexists. split; [done|]. split; cbn [minLevel stateDir s0KeyFile s2KeyDir accept autoLifeline].
  - pose proof (parseLevel_means (head (values (lit "logger") (lit "min_level") (entries [] ls)))) as Hm.
    destruct (head _) as [v|]; [|exact Hm]. cbn in Hm |- *. by destruct (parseLevel v).
  - by destruct (head _).
  - by destruct (head _).
  - by destruct (head _).
  - eexists. split; [apply parseAccept_dongles|]. case_bool_decide as He; [by rewrite He|].
    by destruct (omap _ _).
  - pose proof (parseBool_means (head (values (lit "behavior") (lit "auto_lifeline") (entries [] ls)))) as Hm.
    destruct (head _) as [v|]; [|exact Hm]. cbn in Hm |- *. by destruct (parseBool v).
Qed.

Lemma states_defaults : states [] defaults.
Proof. split; try done; [constructor|by exists []; split; [constructor|]|constructor]. Qed.

Lemma resolve_path `{Files} : resolvePath = path.
Proof. unfold resolvePath, path. by destruct pathEnv as [[|c p]|]. Qed.

Lemma read_states `{Files} ls :
  Forall line_ok ls -> (forall c, contents path = Some c -> c = file ls) ->
  exists S, read = (S, if unreadable then Some path else None) /\ states (stated ls) S.
Proof.
  intros Hls Hfile. unfold unreadable, stated, unreadable. destruct (exists_ path) eqn:Hex; cbn [andb].
  - destruct (contents path) as [c|] eqn:Hc; cbn [negb].
    + rewrite bool_decide_eq_false_2 by done. cbn [negb]. apply read_file; [|by rewrite resolve_path|].
      * eapply Forall_impl; [exact Hls|]. exact line_ok_fit.
      * rewrite resolve_path, Hc. f_equal. by apply Hfile.
    + rewrite bool_decide_eq_true_2 by done. exists defaults. split; [|exact states_defaults].
      unfold read. by rewrite resolve_path, Hex, Hc.
  - exists defaults. split; [|exact states_defaults]. unfold read. by rewrite resolve_path, Hex.
Qed.

(** ** The settings reach every module *)

Section Modules.
Context {X Y W : Type} `{EqDecision X}.
Context `{F : Files} `{L : CallbackListLaws (Event Y -> Prog (Topic X) (Event Y) W)}.

(** The events of [load]. *)
Definition ofConfig (k : Topic X) : Prop := match k with TOther _ | TError => False | _ => True end.

Definition IsRetained (retainedOther : X -> bool) (k : Topic X) : bool :=
  match k with TOther x => retainedOther x | _ => true end.

(** The bus retains [v] for [k], and each live subscriber was last called with it. *)
Definition inForce (k : Topic X) (v : Event Y) (s : World) : Prop :=
  retainedOf k s = Some v /\ forall h, h ∈ handles (listOf k s) -> last (received k h s) = Some v.

(** C32: the settings a file in the language states, by the meaning the language gives
    its words, and the defaults where it states none, are what every module has in the
    end: whatever the modules' start-up code before and after [load] does, short of
    publishing settings itself or publishing in circles, it all returns, the bus retains
    the five settings, and each live subscriber of a setting, early or late, was last
    called with it.  A file that is not there, or does not open, states nothing; unless
    modules report errors themselves, one that does not open leaves the error that says
    so with every subscriber of errors, early or late, and in any other case nobody is
    told of an error. *)
Theorem settings_reach_modules retainedOther rank A n ls (before after : list (Prog (Topic X) (Event Y) W)) w :
  Forall line_ok ls -> (forall c, contents path = Some c -> c = file ls) ->
  (forall k, ofConfig k \/ k = TError -> (rank k < n)%nat) -> (forall k, A k -> ~ ofConfig k) ->
  Forall (ranked (IsRetained retainedOther) rank A A n) (before ++ after) ->
  exists fuel s S, runs (IsRetained retainedOther) fuel (before ++ [load] ++ after) (start w) = Some s /\
  states (stated ls) S /\
  inForce TLogger (LoggerConfig (minLevel S)) s /\ inForce TStorage (StorageConfig (stateDir S)) s /\
  inForce TSecurity (SecurityConfig (s0KeyFile S) (s2KeyDir S)) s /\ inForce TDongles (DonglesConfig (accept S)) s /\
  inForce TBehavior (BehaviorConfig (autoLifeline S)) s /\
  (~ A TError ->
   if unreadable
   then inForce TError (DaemonError 2 (lit "config") 0x40
          (lit "failed to open config file " ++ path ++ lit "; using defaults")) s
   else retainedOf TError s = None /\ forall h, received TError h s = []).
Proof.
  intros Hls Hfile Hrank HA Hmods. destruct (read_states ls Hls Hfile) as (S & Hread & HS). unfold load. rewrite Hread.
  set (kvs := match (if unreadable then Some path else None) with Some path => [loadError path] | None => [] end ++ events S).
  destruct (publishAll_reaches (IsRetained retainedOther) rank A n kvs before after w) as (fuel&s&Hr&Hkv&Hnone).
  - done.
  - unfold kvs. apply Forall_app. split; [destruct unreadable; repeat constructor; apply Hrank; by right|].
    repeat constructor; apply Hrank; by left.
  - unfold kvs. destruct unreadable; cbn [fmap list_fmap app events fst loadError];
      repeat (apply NoDup_cons; split; [rewrite ?not_elem_of_cons; split_and?; first [done | apply not_elem_of_nil]|]);
      apply NoDup_nil_2.
  - rewrite Forall_forall in Hkv.
    assert (Hof : forall k v, (k, v) ∈ kvs -> ofConfig k -> inForce k v s).
    { intros k v Hin Hk. apply (Hkv (k, v) Hin); [by destruct k|]. intros Ha. by apply (HA k Ha). }
    assert (Hin : forall kv, kv ∈ events S -> kv ∈ kvs) by (intros kv Hkvs; unfold kvs; apply elem_of_app; by right).
    exists fuel, s, S. split; [done|]. split; [done|].
    split_and!; try (apply Hof; [apply Hin; cbn; repeat first [apply list_elem_of_here|apply list_elem_of_further]|done]).
    intros HE. unfold kvs in Hkv, Hnone. destruct unreadable; cbn [app] in *.
    + by apply (Hkv (loadError path)); [left|..].
    + apply Hnone; [done..|]. cbn. rewrite !not_elem_of_cons. split_and!; first [done|apply not_elem_of_nil].
Qed.

End Modules.

(** A file with two sections of the same name, a list, padding and quotes. *)
Definition toyLines : list Line :=
  [Comment [] (lit " zwaved"); Header [] (lit "logger") [];
   Entry [SPACE] (lit "min_level") [SPACE] [SPACE] (lit "warn") false [CR];
   Header [] (lit "dongles") []; Entry [] (lit "accept") [SPACE] [TAB] (lit "0658:0280:Stick: 7") true [];
   Blank []; Header [] (lit "logger") [SPACE]; Entry [] (lit "min_level") [] [] (lit "error") false []].

Definition toyFiles : Files := {|
  pathEnv := Some []; exists_ p := bool_decide (p = DEFAULT_PATH);
  contents p := if bool_decide (p = DEFAULT_PATH) then Some (file toyLines) else None |}.

Definition toySettings : Settings :=
  mkSettings LEVEL_WARN [] [] [] [mkAccepted (lit "0658") (lit "0280") (lit "Stick: 7")] true.

(** A file that is there and does not open. *)
Definition lockedFiles : Files := {| pathEnv := Some (lit "/run/zw.conf"); exists_ _ := true; contents _ := None |}.

Lemma toy_ok : Forall line_ok toyLines.
Proof.
  unfold toyLines. repeat apply Forall_cons_2; try apply Forall_nil_2; (split; [by apply (bool_decide_unpack _)|]);
    cbn; rewrite ?leading_iff, ?trailing_iff, ?bare_iff; split_and?;
    try (by repeat constructor); try done; try (by apply (bool_decide_unpack _)).
  all: intros _; (split; [done|]); by intros [inner E].
Qed.

Lemma toy_states : states (stated (H := toyFiles) toyLines) toySettings.
Proof.
  replace (stated (H := toyFiles) toyLines) with (entries [] toyLines) by by vm_compute.
  split; try by vm_compute.
  - apply means_word. do 2 right. left.
  - exists (accept toySettings). split; [|done]. apply dongles_one; [by apply parseAccept_iff; vm_compute|constructor].
  - apply means_unset.
Qed.

Lemma settings_reach_modules_witness :
  let lists := assocCallbacks (Event unit -> Prog (Topic unit) (Event unit) unit) in
  let early : Prog (Topic unit) (Event unit) unit := Subscribe TLogger (fun _ => Return) (fun _ => Return) in
  let late : Prog (Topic unit) (Event unit) unit := Subscribe TDongles (fun _ => Return) (fun _ => Return) in
  let run := fun files fuel => runs (H := lists) (IsRetained (fun _ : unit => false)) fuel [early; load (H := files); late] (start tt) in
  (exists fuel s, run toyFiles fuel = Some s /\ inForce (H := lists) TLogger (LoggerConfig 2) s /\
     inForce (H := lists) TDongles (DonglesConfig [mkAccepted (lit "0658") (lit "0280") (lit "Stick: 7")]) s /\
     inForce (H := lists) TBehavior (BehaviorConfig true) s /\ retainedOf (H := lists) TError s = None) /\
  (exists fuel s, run lockedFiles fuel = Some s /\
     inForce (H := lists) TError
       (DaemonError 2 (lit "config") 0x40 (lit "failed to open config file /run/zw.conf; using defaults")) s).
Proof.
  intros lists early late run. split.
  - destruct (settings_reach_modules (F := toyFiles) (H := lists) (L := assocCallbacks_laws _) (fun _ => false)
      (fun _ => 0%nat) (fun _ => False) 1 toyLines [early] [late] tt) as (fuel&s&S&Hr&HS&Hl&_&_&Hd&Hb&He);
      [exact toy_ok|by intros c [= <-]|intros; lia|done|by repeat constructor|].
    pose proof (states_functional _ _ _ HS toy_states) as ->. exists fuel, s.
    split_and!; [exact Hr|exact Hl|exact Hd|exact Hb|exact (proj1 (He (fun f => f)))].
  - destruct (settings_reach_modules (F := lockedFiles) (H := lists) (L := assocCallbacks_laws _) (fun _ => false)
      (fun _ => 0%nat) (fun _ => False) 1 toyLines [early] [late] tt) as (fuel&s&S&Hr&_&_&_&_&_&_&He);
      [exact toy_ok|done|intros; lia|done|by repeat constructor|].
    exists fuel, s. split; [exact Hr|]. exact (He (fun f => f)).
Defined.
