(* ===== verification/StoreStartup.v ===== *)
(** * How the stores find and open their database

    Seven stores keep their tables in one file, [nodes.db].  Each has its own copy of
    [resolveDbPath], of the singleton with its [call_once] and of the constructor that
    opens the file: [initIfNeeded] of [NodeRegistry.cpp] and [instance] with the
    constructor in [PendingQueue.cpp], [PolicyRegister.cpp], [NodeMetadata.cpp],
    [SceneStore.cpp], [NodeValues.cpp] and [SpanStore.cpp].  A directory stands for the
    path of the database in it; the tables of the file are those of [Schema].  What
    the system says of directories and files is the class [Os]. *)

From Stdlib Require Import String Ascii.
From S2P Require Import Prelude Sqlite NodeRegistry Schema Config SpanStore.
From stdpp Require Import gmap sets strings.
Import Config.
#[local] Open Scope Z_scope.

Module Startup.

Inductive StoreId := Nodes | Pending | Policies | Tags | Scenes | Values | Spans.

#[global] Instance StoreId_eq_dec : EqDecision StoreId.
Proof. solve_decision. Defined.

(** ** The system

    [ancestors] are the directories a path goes through; [mayCreate] and [mayOpen]
    are the permissions on a directory and on the database in it, [mayRun] whether the
    statements of a store's schema can be written. *)
Class Os := {
  getenv : text -> option text;
  ancestors : text -> gset text;
  mayCreate : text -> bool;
  mayOpen : text -> bool;
  mayRun : StoreId -> bool
}.

Record Disk := mkDisk { directories : gset text; databases : gmap text File }.

Definition database (dir : text) (d : Disk) : File := default emptyFile (databases d !! dir).
Definition setDatabase (dir : text) (f : File) (d : Disk) : Disk := mkDisk (directories d) (<[dir := f]> (databases d)).

(** ** The tables *)

Definition DEFAULT_STATE_DIR : text := lit "/var/lib/zwaved".
Definition STATE_DIR_ENV : text := lit "ZWAVED_STATE_DIR".

Open Scope string_scope.

(** The index the queue creates with its table is not a table of its own. *)
Definition PENDING_SCHEMA_SQL : list Statement :=
  [CreateIfNotExists "pending_commands" ["sequence"; "home_id"; "node_id"; "priority"; "payload"; "enqueued_at"]].
Definition POLICY_SCHEMA_SQL : list Statement :=
  [CreateIfNotExists "device_policies" ["manufacturer_id"; "product_type_id"; "product_id"; "policy"];
   CreateIfNotExists "node_policy_overrides" ["home_id"; "node_id"; "policy"]].
Definition METADATA_SCHEMA_SQL : list Statement :=
  [CreateIfNotExists "node_metadata" ["home_id"; "node_id"; "key"; "value"]].
Definition VALUES_TABLE_SQL : list Statement :=
  [CreateIfNotExists "node_values" ["home_id"; "node_id"; "value_id"; "value"; "updated_at"]].
Definition SPAN_TABLE_SQL : list Statement :=
  [CreateIfNotExists "span_state" ["home_id"; "peer_node_id"; "state"]].

Close Scope string_scope.

Section Stores.
Context `{Os}.

Definition resolveDbPath (configuredStateDir : text) : text :=
  match configuredStateDir with
  | _ :: _ => configuredStateDir
  | [] => match getenv STATE_DIR_ENV with Some (c :: env) => c :: env | _ => DEFAULT_STATE_DIR end
  end.

(** [std::filesystem::create_directories]: the new disk, or the error. *)
Definition create_directories (dir : text) (d : Disk) : option Disk :=
  if decide (dir ∈ directories d) then Some d
  else if mayCreate dir then Some (mkDisk ({[dir]} ∪ ancestors dir ∪ directories d) (databases d))
  else None.

(** [Sqlite::Db(path, tag)]: SQLite makes the file, but not the directory of it. *)
Definition openDb (dir : text) (d : Disk) : option Disk :=
  if decide (dir ∈ directories d) then
    if mayOpen dir then Some (setDatabase dir (database dir d) d) else None
  else None.

(** The statements of a store's schema on the open database. *)
Definition onDatabase (s : StoreId) (script : File -> bool * File) (dir : text) (d : Disk) : bool * Disk :=
  if mayRun s then
    let (ok, f) := script (database dir d) in (ok, setDatabase dir f d)
  else (false, d).

(** ** The constructors

    Each gives whether the handle ends open.  Five make the directory first, and close
    the handle again when their tables cannot be made. *)
Definition Queue (dir : text) (d : Disk) : bool * Disk :=
  match create_directories dir d with
  | None => (false, d)
  | Some d =>
      match openDb dir d with
      | None => (false, d)
      | Some d =>
          let (ok, d) := onDatabase Pending (exec PENDING_SCHEMA_SQL) dir d in
          if negb ok then (false, d) else (true, d)
      end
  end.

Definition Register (dir : text) (d : Disk) : bool * Disk :=
  match create_directories dir d with
  | None => (false, d)
  | Some d =>
      match openDb dir d with
      | None => (false, d)
      | Some d =>
          let (ok, d) := onDatabase Policies (exec POLICY_SCHEMA_SQL) dir d in
          if negb ok then (false, d) else (true, d)
      end
  end.

Definition MetadataStore (dir : text) (d : Disk) : bool * Disk :=
  match create_directories dir d with
  | None => (false, d)
  | Some d =>
      match openDb dir d with
      | None => (false, d)
      | Some d =>
          let (ok, d) := onDatabase Tags (exec METADATA_SCHEMA_SQL) dir d in
          if negb ok then (false, d) else (true, d)
      end
  end.

Definition SceneStore (dir : text) (d : Disk) : bool * Disk :=
  match create_directories dir d with
  | None => (false, d)
  | Some d =>
      match openDb dir d with
      | None => (false, d)
      | Some d =>
          let (ok, d) := onDatabase Scenes runSchema dir d in
          if negb ok then (false, d) else (true, d)
      end
  end.

(** The part of [initIfNeeded] after the subscriptions. *)
Definition openRegistry (dir : text) (d : Disk) : bool * Disk :=
  match create_directories dir d with
  | None => (false, d)
  | Some d =>
      match openDb dir d with
      | None => (false, d)
      | Some d =>
          let (ok, d) := onDatabase Nodes migrateSchema dir d in
          if negb ok then (false, d) else (true, d)
      end
  end.

(** Two neither make the directory nor look whether their table was made. *)
Definition ValuesStore (dir : text) (d : Disk) : bool * Disk :=
  match openDb dir d with
  | None => (false, d)
  | Some d => (true, (onDatabase Values (exec VALUES_TABLE_SQL) dir d).2)
  end.

Definition SpanStateStore (dir : text) (d : Disk) : bool * Disk :=
  match openDb dir d with
  | None => (false, d)
  | Some d => (true, (onDatabase Spans (exec SPAN_TABLE_SQL) dir d).2)
  end.

Definition construct (s : StoreId) : text -> Disk -> bool * Disk :=
  match s with
  | Nodes => openRegistry | Pending => Queue | Policies => Register | Tags => MetadataStore
  | Scenes => SceneStore | Values => ValuesStore | Spans => SpanStateStore
  end.

(** ** The singletons

    [opened] is the directory the handle was opened in, [valid] whether it is open. *)
Record Singleton := mkSingleton { configuredStateDir : text; opened : text; valid : bool }.

(** The disk, the storage configuration the bus retains, and the singletons there are. *)
Record World := mkWorld { disk : Disk; retained : option text; singletons : StoreId -> option Singleton }.

Definition setSingleton (s : StoreId) (g : Singleton) (w : World) : World :=
  mkWorld (disk w) (retained w) (fun s' => if decide (s' = s) then Some g else singletons w s').

(** [instance()], and [initIfNeeded()] of the registry: the subscription replays the
    retained configuration before the path is resolved. *)
Definition instance (s : StoreId) (w : World) : World :=
  match singletons w s with
  | Some _ => w
  | None =>
      let cfg := default [] (retained w) in
      let dir := resolveDbPath cfg in
      let (ok, d) := construct s dir (disk w) in
      setSingleton s (mkSingleton cfg dir ok) (mkWorld d (retained w) (singletons w))
  end.

(** The seven copies of it. *)
Definition NodeRegistry_initIfNeeded : World -> World := instance Nodes.
Definition PendingQueue_instance : World -> World := instance Pending.
Definition PolicyRegister_instance : World -> World := instance Policies.
Definition NodeMetadata_instance : World -> World := instance Tags.
Definition SceneStore_instance : World -> World := instance Scenes.
Definition NodeValues_instance : World -> World := instance Values.
Definition SpanStore_instance : World -> World := instance Spans.

(** [publish(StorageConfig)]: the subscription of every singleton there is. *)
Definition configure (stateDir : text) (w : World) : World :=
  mkWorld (disk w) (Some stateDir)
    (fun s => (fun g => mkSingleton stateDir (opened g) (valid g)) <$> singletons w s).

Inductive Event := Use (s : StoreId) | Configure (stateDir : text).

Definition step (e : Event) (w : World) : World :=
  match e with Use s => instance s w | Configure stateDir => configure stateDir w end.

Definition run (es : list Event) (w : World) : World := foldl (fun w e => step e w) w es.

Definition boot (d : Disk) : World := mkWorld d None (fun _ => None).

End Stores.
End Startup.

(** ** The registry's other subscriptions

    [initIfNeeded] also subscribes the registry to the reports of the interview, which
    the bus does not retain. *)
Module RegistryReports.

Inductive Report :=
| ManufacturerSpecificReport (sourceNodeId manufacturerId productTypeId productId : Z)
| NodeVersionReport (sourceNodeId libraryType protocolVersion protocolSubVersion applicationVersion
    applicationSubVersion : Z)
| MultiChannelEndPointReport (sourceNodeId endpointCount : Z) (dynamic identical : bool)
| ZWavePlusInfoReport (sourceNodeId zwavePlusVersion roleType nodeType installerIconType userIconType : Z).

Definition sourceNodeId (r : Report) : Z :=
  match r with
  | ManufacturerSpecificReport n _ _ _ | NodeVersionReport n _ _ _ _ _
  | MultiChannelEndPointReport n _ _ _ | ZWavePlusInfoReport n _ _ _ _ _ => n
  end.

Section Handlers.
Context `{SqliteEnv}.

Definition onReport (r : Report) : Registry.State -> Registry.State :=
  match r with
  | ManufacturerSpecificReport n mfr typ prod => Registry.setDeviceIdentity n mfr typ prod
  | NodeVersionReport n lib proto protoSub app appSub => Registry.setVersionInfo n lib proto protoSub app appSub
  | MultiChannelEndPointReport n count dynamic identical => Registry.setEndpointInfo n count dynamic identical
  | ZWavePlusInfoReport n ver role ntype icon user => Registry.setZWavePlusInfo n ver role ntype icon user
  end.

(** A report on the bus: the registry hears it once it has been used. *)
Definition publish (w : Startup.World) (r : Report) (st : Registry.State) : Registry.State :=
  match Startup.singletons w Startup.Nodes with None => st | Some _ => onReport r st end.

Definition publishAll (w : Startup.World) (rs : list Report) (st : Registry.State) : Registry.State :=
  foldl (fun st r => publish w r st) st rs.
End Handlers.

(** What a report says of its node, and what is known of a node after reports. *)
Definition revise (i : Registry.NodeInfo) (r : Report) : Registry.NodeInfo :=
  let '(Registry.mkInfo n c ccs scheme ident ver ends plus) := i in
  match r with
  | ManufacturerSpecificReport _ mfr typ prod =>
      Registry.mkInfo n c ccs scheme (Registry.mkIdentity mfr typ prod) ver ends plus
  | NodeVersionReport _ lib proto protoSub app appSub =>
      Registry.mkInfo n c ccs scheme ident (Registry.mkVersion lib proto protoSub app appSub) ends plus
  | MultiChannelEndPointReport _ count dynamic identical =>
      Registry.mkInfo n c ccs scheme ident ver (Registry.mkEndpoints count dynamic identical) plus
  | ZWavePlusInfoReport _ v role ntype icon user =>
      Registry.mkInfo n c ccs scheme ident ver ends (Registry.mkZWavePlus v role ntype icon user)
  end.

Definition concerning (n : Z) (rs : list Report) : list Report := filter (fun r => sourceNodeId r = n) rs.

End RegistryReports.

(** * Theorems *)

Section Reports.
Import Startup RegistryReports.
Context `{SqliteEnv}.

Lemma recordField_nodes n f stmt st :
  Registry.nodes (Registry.recordField n f stmt st) = alter f n (Registry.nodes st).
Proof.
  unfold Registry.recordField. destruct (Registry.nodes st !! n) as [i|] eqn:Hi.
  - assert (<[n := f i]> (Registry.nodes st) = alter f n (Registry.nodes st)) as ->.
    { apply map_eq. intros k. destruct (decide (k = n)) as [->|].
      - by rewrite lookup_insert_eq, lookup_alter_eq, Hi.
      - by rewrite lookup_insert_ne, lookup_alter_ne. }
    destruct (Registry.currentHomeId st); [|done]. by destruct (Sqlite.valid (Registry.db st)).
  - symmetry. apply map_eq. intros k. destruct (decide (k = n)) as [->|].
    + by rewrite lookup_alter_eq, Hi.
    + by rewrite lookup_alter_ne.
Qed.

Lemma onReport_nodes r st :
  Registry.nodes (onReport r st) = alter (fun i => revise i r) (sourceNodeId r) (Registry.nodes st).
Proof.
  destruct r; cbn [onReport sourceNodeId];
    unfold Registry.setDeviceIdentity, Registry.setVersionInfo, Registry.setEndpointInfo, Registry.setZWavePlusInfo;
    rewrite recordField_nodes; apply alter_ext; by intros [] _.
Qed.

(** Once the registry has been used, what it knows of a node after any reports is what
    it knew, revised by the reports of that node in their order; before, reports leave
    nothing behind. *)
Theorem reports_recorded w rs st n :
  Registry.nodes (publishAll w rs st) !! n =
    if bool_decide (is_Some (singletons w Nodes))
    then (fun i => foldl revise i (concerning n rs)) <$> Registry.nodes st !! n
    else Registry.nodes st !! n.
Proof.
  revert st. induction rs as [|r rs IH]; intros st.
  - destruct (bool_decide _); [|done]. unfold publishAll. cbn. by destruct (Registry.nodes st !! n).
  - unfold publishAll, concerning in *. cbn [foldl]. rewrite IH, filter_cons. unfold publish.
    destruct (singletons w Nodes) as [g|].
    2: { by rewrite bool_decide_eq_false_2 by (by intros [? ?]). }
    rewrite bool_decide_eq_true_2, onReport_nodes by eauto.
    destruct (decide (sourceNodeId r = n)) as [<-|Hne].
    + rewrite lookup_alter_eq. by destruct (Registry.nodes st !! _).
    + by rewrite lookup_alter_ne.
Qed.

End Reports.

Import Startup.

Section Theorems.
Context `{Os}.

(** ** The two kinds of constructor *)

Definition schemaOf (s : StoreId) : File -> bool * File :=
  match s with
  | Nodes => migrateSchema | Scenes => runSchema
  | Pending => exec PENDING_SCHEMA_SQL | Policies => exec POLICY_SCHEMA_SQL | Tags => exec METADATA_SCHEMA_SQL
  | Values => exec VALUES_TABLE_SQL | Spans => exec SPAN_TABLE_SQL
  end.

(** The caches: values and generators. *)
Definition cache (s : StoreId) : bool := match s with Values | Spans => true | _ => false end.

Definition constructed (s : StoreId) (dir : text) (d : Disk) : bool * Disk :=
  match (if cache s then Some d else create_directories dir d) with
  | None => (false, d)
  | Some d =>
      match openDb dir d with
      | None => (false, d)
      | Some d => let (ok, d) := onDatabase s (schemaOf s) dir d in (ok || cache s, d)
      end
  end.

Lemma construct_constructed s dir d : construct s dir d = constructed s dir d.
Proof.
  unfold constructed.
  destruct s; cbn [construct cache schemaOf];
    unfold Queue, Register, MetadataStore, Startup.SceneStore, openRegistry, ValuesStore, SpanStateStore;
    try (destruct (create_directories dir d) as [d1|]; [|done]);
    match goal with |- context [openDb dir ?d] => destruct (openDb dir d) as [d2|]; [|done] end;
    match goal with |- context [onDatabase ?s ?f dir ?d] => destruct (onDatabase s f dir d) as [ok d3] end;
    by destruct ok.
Qed.

(** What a constructor does to the disk and its file: directories stay, and the file
    in the directory is the one it found, or that after the store's schema, and then
    the handle of a store that is not a cache is open exactly when the schema was
    applied. *)
Definition afterSchema (s : StoreId) (ok : bool) (f f' : File) : Prop :=
  (f' = f /\ (ok = true -> cache s = true)) \/
  (f' = (schemaOf s f).2 /\ (ok = true -> cache s = true \/ (schemaOf s f).1 = true)).

Lemma create_directories_spec dir d :
  match create_directories dir d with
  | Some d' => directories d ⊆ directories d' /\ dir ∈ directories d' /\ databases d' = databases d
  | None => dir ∉ directories d
  end.
Proof.
  unfold create_directories. destruct (decide _); [done|]. destruct (mayCreate dir); [|done]. cbn. set_solver.
Qed.

Lemma openDb_spec dir d d' :
  openDb dir d = Some d' ->
  directories d' = directories d /\ database dir d' = database dir d /\
  forall dir', dir' <> dir -> database dir' d' = database dir' d.
Proof.
  unfold openDb. destruct (decide _), (mayOpen dir); intros [= <-]. cbn. unfold database, setDatabase. cbn.
  rewrite lookup_insert_eq. split_and!; [done..|]. intros dir' Hne. by rewrite lookup_insert_ne.
Qed.

Lemma onDatabase_spec s script dir d :
  directories (onDatabase s script dir d).2 = directories d /\
  (forall dir', dir' <> dir -> database dir' (onDatabase s script dir d).2 = database dir' d) /\
  (onDatabase s script dir d = (false, d) \/
   (onDatabase s script dir d).1 = (script (database dir d)).1 /\
   database dir (onDatabase s script dir d).2 = (script (database dir d)).2).
Proof.
  unfold onDatabase. destruct (mayRun s); [|by split_and!; auto].
  destruct (script (database dir d)) as [ok f]. cbn. unfold database, setDatabase; cbn.
  split_and!; [done| |right; by rewrite lookup_insert_eq].
  intros. by rewrite lookup_insert_ne.
Qed.

Lemma construct_spec s dir d ok d' :
  construct s dir d = (ok, d') ->
  directories d ⊆ directories d' /\
  (forall dir', dir' <> dir -> database dir' d' = database dir' d) /\
  afterSchema s ok (database dir d) (database dir d').
Proof.
  rewrite construct_constructed. unfold constructed, afterSchema. intros E.
  assert (Hc : match (if cache s then Some d else create_directories dir d) with
               | Some d' => directories d ⊆ directories d' /\ databases d' = databases d | None => True end).
  { destruct (cache s); [done|]. pose proof (create_directories_spec dir d). by destruct (create_directories dir d) as [d1|]; [tauto|]. }
  destruct (if cache s then Some d else create_directories dir d) as [d1|].
  2: { injection E as <- <-. split_and!; [done..|]. by left. }
  destruct Hc as [Hsub Hdb]. assert (Hd : forall dir, database dir d1 = database dir d).
  { intros. unfold database. by rewrite Hdb. }
  destruct (openDb dir d1) as [d2|] eqn:Ho.
  2: { injection E as <- <-. rewrite Hd. split_and!; [done|by intros; rewrite Hd|]. by left. }
  apply openDb_spec in Ho as (Hdirs & Hat & Hne).
  pose proof (onDatabase_spec s (schemaOf s) dir d2) as (Hdirs' & Hne' & Hf).
  destruct (onDatabase s (schemaOf s) dir d2) as [ok' d3]. injection E as <- <-. cbn in *.
  split_and!; [by rewrite Hdirs', Hdirs|intros; by rewrite Hne', Hne, Hd by done|].
  destruct Hf as [[= -> ->]|[-> ->]].
  - left. by rewrite Hat, Hd.
  - right. rewrite Hat, Hd. split; [done|]. by intros [?|?]%orb_true_iff; auto.
Qed.

(** ** A handle, once opened or refused, stays so *)

Lemma startup_run_cons e es w : run (e :: es) w = run es (step e w).
Proof. done. Qed.

Lemma singletons_set s s' g w :
  singletons (setSingleton s g w) s' = if decide (s' = s) then Some g else singletons w s'.
Proof. done. Qed.

Lemma step_keeps s g e w :
  singletons w s = Some g ->
  exists cfg, singletons (step e w) s = Some (mkSingleton cfg (opened g) (valid g)).
Proof.
  intros Hs. destruct e as [s'|cfg]; cbn.
  - exists (configuredStateDir g). unfold instance.
    destruct (singletons w s') eqn:Hs'; [by destruct g|].
    destruct (construct s' _ (disk w)) as [ok d]. rewrite singletons_set.
    destruct (decide (s = s')) as [<-|]; [congruence|]. by destruct g.
  - exists cfg. by rewrite Hs.
Qed.

(** Whatever happens later in the run, another storage configuration included, a store
    keeps the handle its first use gave it: the directory and whether it is open. *)
Theorem opened_for_good s g es w :
  singletons w s = Some g ->
  exists cfg, singletons (run es w) s = Some (mkSingleton cfg (opened g) (valid g)).
Proof.
  revert w g. induction es as [|e es IH]; intros w g Hs; [exists (configuredStateDir g); by destruct g|].
  rewrite startup_run_cons.
  apply (step_keeps s g e) in Hs as [cfg Hs]. by apply IH in Hs.
Qed.

(** ** All open the same file *)

Definition inDirectory (dir : text) (w : World) : Prop := forall s g, singletons w s = Some g -> opened g = dir.

Lemma instance_retained s w : retained (instance s w) = retained w.
Proof. unfold instance. destruct (singletons w s); [done|]. by destruct (construct s _ (disk w)). Qed.

Lemma instance_opens s w :
  inDirectory (resolveDbPath (default [] (retained w))) w ->
  inDirectory (resolveDbPath (default [] (retained w))) (instance s w) /\ is_Some (singletons (instance s w) s).
Proof.
  intros Hw. unfold instance. destruct (singletons w s) eqn:Hs; [by eauto|].
  destruct (construct s _ (disk w)) as [ok d]. split.
  - intros s' g. rewrite singletons_set. destruct (decide (s' = s)); [by intros [= <-]|apply Hw].
  - rewrite singletons_set. by destruct (decide (s = s)).
Qed.

Lemma uses_open ss w :
  inDirectory (resolveDbPath (default [] (retained w))) w ->
  inDirectory (resolveDbPath (default [] (retained w))) (run (Use <$> ss) w) /\
  (forall s, s ∈ ss -> is_Some (singletons (run (Use <$> ss) w) s)).
Proof.
  revert w. induction ss as [|s ss IH]; intros w Hw; [by split; [|intros s ?%elem_of_nil]|].
  cbn [fmap list_fmap]. rewrite startup_run_cons. cbn [step].
  pose proof (instance_opens s w Hw) as [Hi [g Hs]].
  rewrite <-(instance_retained s w) in Hi. destruct (IH _ Hi) as [Hd Hss]. rewrite instance_retained in Hd.
  split; [done|]. intros s' [->|Hin]%elem_of_cons; [|by auto].
  destruct (opened_for_good s g (Use <$> ss) _ Hs) as [cfg E]. by rewrite E.
Qed.

(** After the settings of the configuration file were published, and with the stores
    used in any order, every store used has opened the database in the same directory:
    that of the file, else of the environment, else the built-in one. *)
Theorem stores_share_directory `{Files} ss d :
  let w := run (Configure (stateDir (Config.read).1) :: (Use <$> ss)) (boot d) in
  forall s, s ∈ ss -> exists g, singletons w s = Some g /\ opened g = resolveDbPath (stateDir (Config.read).1).
Proof.
  intros w s Hs. pose proof (uses_open ss (configure (stateDir (Config.read).1) (boot d))) as Hu.
  destruct Hu as [Hd Hss]; [done|]. destruct (Hss s Hs) as [g Hg]. exists g. split; [done|]. by apply Hd in Hg.
Qed.

(** ** Which handles open *)

(** The handle of a store is open when its directory is there or, for the five stores
    that make it, may be made; the file may be opened; and, for those five, their
    tables can be made. *)
Theorem handle_opens s dir d :
  (construct s dir d).1 =
    (bool_decide (dir ∈ directories d) || negb (cache s) && mayCreate dir) && mayOpen dir &&
    (cache s || mayRun s && (schemaOf s (database dir d)).1).
Proof.
  rewrite construct_constructed. unfold constructed, openDb, create_directories, onDatabase.
  destruct (cache s) eqn:Hc; cbn [negb andb orb].
  - destruct (decide (dir ∈ directories d)) as [Hd|Hd];
      [rewrite bool_decide_eq_true_2 by done|by rewrite bool_decide_eq_false_2 by done].
    destruct (mayOpen dir); [|done]. cbn. destruct (mayRun s); [|done]. by destruct (schemaOf s _) as [[] ?].
  - assert (Hin : forall d', dir ∈ directories d' -> databases d' = databases d ->
      (match (if decide (dir ∈ directories d') then
                if mayOpen dir then Some (setDatabase dir (database dir d') d') else None
              else None) with
       | Some d0 =>
           let (ok, d1) := if mayRun s then
             let (ok, f) := schemaOf s (database dir d0) in (ok, setDatabase dir f d0) else (false, d0) in
           (ok || false, d1)
       | None => (false, d') end).1 = mayOpen dir && (mayRun s && (schemaOf s (database dir d)).1)).
    { intros d' Hd Hdb. destruct (decide (dir ∈ directories d')); [|done].
      destruct (mayOpen dir); [|done]. destruct (mayRun s); [|done].
      assert (database dir (setDatabase dir (database dir d') d') = database dir d) as ->.
      { unfold database, setDatabase; cbn. by rewrite lookup_insert_eq, Hdb. }
      destruct (schemaOf s (database dir d)) as [ok f]. cbn. apply orb_false_r. }
    destruct (decide (dir ∈ directories d)) as [Hd|Hd].
    + rewrite bool_decide_eq_true_2 by done. by apply Hin.
    + rewrite bool_decide_eq_false_2 by done. cbn [orb andb]. destruct (mayCreate dir); [|done].
      cbn [andb]. apply (Hin (mkDisk ({[dir]} ∪ ancestors dir ∪ directories d) (databases d))); [cbn; set_solver|done].
Qed.

Lemma instance_first s w :
  singletons w s = None ->
  singletons (instance s w) s =
    Some (mkSingleton (default [] (retained w)) (resolveDbPath (default [] (retained w)))
            (construct s (resolveDbPath (default [] (retained w))) (disk w)).1).
Proof.
  intros Hs. unfold instance. rewrite Hs. destruct (construct s _ (disk w)) as [ok d]. rewrite singletons_set.
  by destruct (decide (s = s)).
Qed.

Lemma step_directories e w : directories (disk w) ⊆ directories (disk (step e w)).
Proof.
  destruct e as [s|cfg]; [|done]. cbn. unfold instance. destruct (singletons w s); [done|].
  destruct (construct s _ (disk w)) as [ok d] eqn:E. by apply construct_spec in E as [? _].
Qed.

Lemma run_directories es w : directories (disk w) ⊆ directories (disk (run es w)).
Proof.
  revert w. induction es as [|e es IH]; intros w; [done|]. rewrite startup_run_cons.
  etrans; [apply (step_directories e)|apply IH].
Qed.

Lemma owned_makes_directory s dir d :
  cache s = false -> mayCreate dir = true -> dir ∈ directories (construct s dir d).2.
Proof.
  intros Hc Hm. rewrite construct_constructed. unfold constructed. rewrite Hc.
  pose proof (create_directories_spec dir d) as Hs.
  destruct (create_directories dir d) as [d1|] eqn:Hd.
  2: { unfold create_directories in Hd. destruct (decide _); [done|]. by rewrite Hm in Hd. }
  destruct Hs as (_ & Hin & _). destruct (openDb dir d1) as [d2|] eqn:Ho; [|done].
  apply openDb_spec in Ho as [Hdirs _]. pose proof (onDatabase_spec s (schemaOf s) dir d2) as [Hdirs' _].
  destruct (onDatabase s (schemaOf s) dir d2) as [ok d3]. cbn in *. congruence.
Qed.

(** The store of the nonce generators is the first to be used.  On a system that
    refuses nothing, but where the directory is not there yet, its handle does not open,
    and nothing is kept of any generator in the whole run, though a store used after it
    makes the directory; at the next start the handle opens. *)
Theorem first_start_keeps_no_generators `{SqliteEnv} cfg s es d :
  let dir := resolveDbPath cfg in
  dir ∉ directories d -> mayCreate dir = true -> mayOpen dir = true -> cache s = false ->
  let w := run (Configure cfg :: Use Spans :: Use s :: es) (boot d) in
  let later := run [Configure cfg; Use Spans] (boot (disk w)) in
  (exists g, singletons w Spans = Some g /\ valid g = false /\
     forall st peer blob, Sqlite.valid (Store.db st) = valid g -> Store.save peer blob st = st) /\
  (exists g, singletons later Spans = Some g /\ valid g = true).
Proof.
  intros dir Hd Hm Ho Hs w later. split.
  - set (w1 := step (Use Spans) (step (Configure cfg) (boot d))).
    assert (Hw1 : singletons w1 Spans = Some (mkSingleton cfg dir false)).
    { unfold w1. cbn [step]. rewrite instance_first by done. cbn [retained configure]. change (default [] (Some cfg)) with cfg.
      fold dir. rewrite handle_opens. cbn [disk configure boot cache negb andb]. by rewrite bool_decide_eq_false_2. }
    destruct (opened_for_good Spans _ (Use s :: es) w1 Hw1) as [cfg' E].
    exists (mkSingleton cfg' dir false). split_and!; [exact E|done|].
    intros st peer blob Hv. unfold Store.save. destruct (Store.homeId st); [|done]. by rewrite Hv.
  - assert (Hin : dir ∈ directories (disk w)).
    { unfold w. rewrite 3!startup_run_cons. apply run_directories. cbn [step].
      set (w1 := instance Spans _). assert (Hr : retained w1 = Some cfg) by (unfold w1; by rewrite instance_retained).
      assert (Hn : singletons w1 s = None).
      { unfold w1, instance. cbn [singletons configure boot fmap option_fmap option_map].
        destruct (construct Spans _ _) as [ok d']. rewrite singletons_set. by destruct (decide (s = Spans)) as [->|]. }
      unfold instance. rewrite Hn, Hr. change (default [] (Some cfg)) with cfg.
      pose proof (owned_makes_directory s dir (disk w1) Hs Hm) as Hin. fold dir. revert Hin.
      by destruct (construct s dir (disk w1)) as [ok d']. }
    eexists. split.
    + unfold later. rewrite 2!startup_run_cons. cbn [step]. by apply instance_first.
    + cbn [valid retained configure]. change (default [] (Some cfg)) with cfg. fold dir. rewrite handle_opens. cbn [disk configure boot cache orb].
      by rewrite bool_decide_eq_true_2, Ho.
Qed.

(** ** One version number for two schemas *)

(** The file untouched by either; by the registry; by the scene store. *)
Definition phase (registryOpen : bool) (f : File) : Prop :=
  (user_version f = 0 /\ tables f !! "nodes"%string = None /\ tables f !! "scene_triggers"%string = None /\
   registryOpen = false) \/
  (user_version f = 5 /\ tables f !! "scene_triggers"%string = None) \/
  (user_version f = 1 /\ tables f !! "nodes"%string = None /\ registryOpen = false).

Lemma execOne_create f t cs t' :
  t <> t' ->
  exists f', execOne (CreateIfNotExists t cs) f = Some f' /\ user_version f' = user_version f /\
    tables f' !! t' = tables f !! t'.
Proof.
  intros Hne. cbn. destruct (tables f !! t); eexists; (split; [done|]); cbn; [done|].
  by rewrite lookup_insert_ne.
Qed.

Definition createsOther (t' : string) (s : Statement) : Prop :=
  match s with CreateIfNotExists t _ => t <> t' | _ => False end.

Lemma exec_creates script f t' :
  Forall (createsOther t') script ->
  (exec script f).1 = true /\
  user_version (exec script f).2 = user_version f /\ tables (exec script f).2 !! t' = tables f !! t'.
Proof.
  intros Hs. revert f. induction Hs as [|s script Ho _ IH]; intros f; [done|].
  destruct s as [t cs| | | | | | |]; try done.
  destruct (execOne_create f t cs t') as (f1 & E & Hv & Ht); [done|]. cbn [exec]. rewrite E.
  destruct (IH f1) as (Hok & Hv' & Ht'). by rewrite Hv', Ht'.
Qed.

(** The other five touch neither the version nor the tables of the two. *)
Lemma schema_other s f t :
  s <> Nodes -> s <> Scenes -> t = "nodes"%string \/ t = "scene_triggers"%string ->
  user_version (schemaOf s f).2 = user_version f /\ tables (schemaOf s f).2 !! t = tables f !! t.
Proof.
  intros Hn Hs Ht.
  destruct s; try done; apply exec_creates; destruct Ht as [-> | ->]; repeat constructor; done.
Qed.

Lemma upgradeNodes_missing f : tables f !! "nodes"%string = None -> upgradeNodes 1 f = (false, f).
Proof. intros Hn. unfold upgradeNodes. cbn. by rewrite Hn. Qed.

Lemma phase_closed r f : phase r f -> phase false f.
Proof. unfold phase. tauto. Qed.

Lemma phase_registry r f :
  phase r f -> phase (r || (migrateSchema f).1) (migrateSchema f).2.
Proof.
  unfold phase. intros [(Hv & Hn & Ht & ->)|[(Hv & Ht)|(Hv & Hn & ->)]];
    unfold migrateSchema, readSchemaVersion; rewrite Hv; cbn.
  - right. left. split; [done|]. rewrite lookup_delete_eq. cbn. by rewrite lookup_insert_ne, lookup_delete_ne.
  - right. left. done.
  - rewrite upgradeNodes_missing by done. right. right. done.
Qed.

Lemma phase_scenes r f : phase r f -> phase r (runSchema f).2.
Proof.
  unfold phase, runSchema.
  destruct (exec_creates SCHEMA_SCENES_SQL f "nodes"%string) as (Hok & Hv1 & Hn1); [by repeat constructor|].
  destruct (exec_creates SCHEMA_SCENES_SQL f "scene_triggers"%string) as (_ & _ & Ht1); [by repeat constructor|].
  destruct (exec SCHEMA_SCENES_SQL f) as [ok f1]. cbn [fst snd] in *. subst ok. cbn [negb].
  rewrite <-Hv1, <-Hn1, <-Ht1. clear Hv1 Hn1 Ht1.
  intros [(Hv & Hn & Ht & ->)|[(Hv & Ht)|(Hv & Hn & ->)]]; rewrite Hv.
  - unfold prepares. rewrite Ht. cbn. rewrite Ht. cbn. right. right. by rewrite lookup_insert_ne.
  - cbn. auto.
  - cbn. auto.
Qed.

Lemma phase_other s r f : s <> Nodes -> s <> Scenes -> phase r f -> phase r (schemaOf s f).2.
Proof.
  intros Hn Hs. unfold phase.
  destruct (schema_other s f "nodes"%string) as [-> ->]; [by auto..|].
  destruct (schema_other s f "scene_triggers"%string) as [_ ->]; by auto.
Qed.

Definition registryOpen (w : World) : bool :=
  match singletons w Nodes with Some g => valid g | None => false end.

Lemma phase_schema s ok r f f' :
  afterSchema s ok f f' -> phase r f -> phase (if decide (s = Nodes) then ok else r) f'.
Proof.
  intros [[-> Hok]|[-> Hok]] Hp.
  - destruct (decide (s = Nodes)) as [->|]; [|done]. destruct ok; [by specialize (Hok eq_refl)|by apply phase_closed in Hp].
  - destruct (decide (s = Nodes)) as [->|Hn].
    + apply phase_registry in Hp. destruct ok; [|by apply phase_closed in Hp].
      destruct Hok as [?|Hok]; [done..|]. cbn [schemaOf] in *. by rewrite Hok, orb_true_r in Hp.
    + destruct (decide (s = Scenes)) as [->|]; [by apply phase_scenes|by apply phase_other].
Qed.

Definition sharedFile (cfg : text) (w : World) : Prop :=
  retained w = Some cfg /\ phase (registryOpen w) (database (resolveDbPath cfg) (disk w)).

Lemma instance_sharedFile cfg s w : sharedFile cfg w -> sharedFile cfg (instance s w).
Proof.
  intros [Hr Hp]. split; [by rewrite instance_retained|]. unfold instance. destruct (singletons w s) eqn:Hs; [done|].
  rewrite Hr. change (default [] (Some cfg)) with cfg.
  destruct (construct s (resolveDbPath cfg) (disk w)) as [ok d] eqn:E.
  apply construct_spec in E as (_ & _ & Ha). cbn [disk setSingleton].
  pose proof (phase_schema _ _ _ _ _ Ha Hp) as Hp'. revert Hp'. unfold registryOpen. rewrite singletons_set.
  destruct (decide (s = Nodes)) as [->|Hn]; [by destruct (decide (Nodes = Nodes))|].
  by destruct (decide (Nodes = s)) as [<-|].
Qed.

(** All the stores in use on one new file, in any order: when the handle of the registry
    is open, the table of the scene triggers is missing from the file. *)
Theorem registry_or_triggers cfg ss d :
  databases d !! resolveDbPath cfg = None ->
  let w := run (Configure cfg :: (Use <$> ss)) (boot d) in
  forall g, singletons w Nodes = Some g -> valid g = true ->
  prepares "scene_triggers" (database (resolveDbPath cfg) (disk w)) = false.
Proof.
  intros Hd w g Hg Hv.
  assert (sharedFile cfg w) as [_ Hp].
  { unfold w. clear g Hg Hv w. rewrite startup_run_cons.
    assert (Hw : sharedFile cfg (step (Configure cfg) (boot d))).
    { split; [done|]. left. cbn. unfold database. rewrite Hd. done. }
    revert Hw. generalize (step (Configure cfg) (boot d)). induction ss as [|s ss IH]; intros w0 Hw; [done|].
    cbn [fmap list_fmap]. rewrite startup_run_cons. by apply IH, instance_sharedFile. }
  unfold registryOpen in Hp. rewrite Hg, Hv in Hp. unfold prepares.
  destruct Hp as [(_ & _ & _ & ?)|[(_ & Ht)|(_ & _ & ?)]]; [done| |done].
  by rewrite bool_decide_eq_false_2 by (rewrite Ht; by intros [? ?]).
Qed.

End Theorems.

(** ** A first and a second start

    A system that allows everything, and the order of a start with a dongle: the
    generators, the registry, the queue, the policies, the metadata, the scenes and the
    values. *)
Definition toyOs : Os := {|
  getenv _ := None; ancestors _ := {[ lit "/var"; lit "/var/lib" ]};
  mayCreate _ := true; mayOpen _ := true; mayRun _ := true |}.

Definition startOrder : list StoreId := [Spans; Nodes; Pending; Policies; Tags; Scenes; Values].

Definition handlesAfter (d : Disk) : list (option bool) * Disk :=
  let w := run (H := toyOs) (Configure [] :: (Use <$> startOrder)) (boot d) in
  ((fun s => valid <$> singletons w s) <$> startOrder, disk w).

Definition newDisk : Disk := mkDisk {[ lit "/var"; lit "/var/lib" ]} ∅.

Example first_and_second_start :
  let (first, d) := handlesAfter newDisk in
  first = [Some false; Some true; Some true; Some true; Some true; Some true; Some true] /\
  (handlesAfter d).1 = [Some true; Some true; Some true; Some true; Some true; Some true; Some true] /\
  prepares "scene_triggers" (database DEFAULT_STATE_DIR (handlesAfter d).2) = false.
Proof. by vm_compute. Qed.

Lemma first_start_keeps_no_generators_witness :
  exists g, singletons (run (H := toyOs) (Configure [] :: Use Spans :: Use Nodes :: []) (boot newDisk)) Spans = Some g /\
  valid g = false /\ forall st peer blob, Sqlite.valid (Store.db st) = valid g -> Store.save (H := alwaysRuns) peer blob st = st.
Proof.
  apply (first_start_keeps_no_generators (H := toyOs) (H0 := alwaysRuns) [] Nodes [] newDisk); [|done..].
  by vm_compute.
Defined.

Lemma registry_or_triggers_witness :
  exists g, singletons (run (H := toyOs) (Configure [] :: (Use <$> startOrder)) (boot newDisk)) Nodes = Some g /\
  valid g = true /\
  prepares "scene_triggers"
    (database DEFAULT_STATE_DIR (disk (run (H := toyOs) (Configure [] :: (Use <$> startOrder)) (boot newDisk)))) = false.
Proof.
  eexists. split; [by vm_compute|]. split; [done|].
  eapply (registry_or_triggers (H := toyOs) [] startOrder newDisk); [done|by vm_compute|done].
Defined.
