(* ===== verification/StoreLocks.v ===== *)
(** * The locks around the stores

    Every thread of the daemon takes three kinds of lock when it uses a store: the
    recursive mutex of the bus, held while handlers run ([MessageBusInternal.hpp]); the
    mutex of each store; and the flag of the store's [call_once], whose function
    subscribes to the bus.  Module [Locks] runs threads of such steps in any
    interleaving; Module [StoreUse] gives the steps of what the daemon does with its
    stores.  What is done under the locks is in the files of the stores. *)

From S2P Require Import Prelude StoreStartup.
From stdpp Require Import sets.
Import Startup(StoreId(..)).

Module Locks.

(** [Flag s]: inside the function of the [call_once] of store [s]. *)
Inductive Lock := Bus | Service | StoreMutex (s : StoreId) | Flag (s : StoreId).

#[global] Instance Lock_eq_dec : EqDecision Lock.
Proof. solve_decision. Defined.

(** [Once s n]: [call_once] with a function that subscribes [n] times. *)
Inductive Act := Take (m : Lock) | Give (m : Lock) | Once (s : StoreId) (n : nat) | Finish (s : StoreId).

Record Thread := mkThread { held : list Lock; todo : list Act }.

Record State := mkState { opened : StoreId -> bool; threads : list Thread }.

(** [MessageBus::subscribe] of a handler that takes no lock when it is given the
    retained value. *)
Definition subscribe : list Act := [Take Bus; Give Bus].

Definition subscriptions (n : nat) : list Act := concat (replicate n subscribe).

Fixpoint release (m : Lock) (held : list Lock) : list Lock :=
  match held with
  | [] => []
  | m' :: held => if decide (m' = m) then held else m' :: release m held
  end.

(** Whether another thread than the [i]-th holds [m]. *)
Definition heldElsewhere (i : nat) (m : Lock) (ts : list Thread) : bool :=
  existsb (fun jt => negb (jt.1 =? i)%nat && bool_decide (m ∈ held jt.2)) (imap pair ts).

(** A mutex can be taken when no other thread has it; the bus's is recursive. *)
Definition mayTake (i : nat) (m : Lock) (t : Thread) (ts : list Thread) : bool :=
  negb (heldElsewhere i m ts) && (bool_decide (m = Bus) || bool_decide (m ∉ held t)).

(** The next step of the [i]-th thread, if it has one and is not blocked. *)
Definition advance (i : nat) (st : State) : option State :=
  match threads st !! i with
  | None => None
  | Some t =>
      let continue held todo := <[i := mkThread held todo]> (threads st) in
      match todo t with
      | [] => None
      | Take m :: p =>
          if mayTake i m t (threads st) then Some (mkState (opened st) (continue (m :: held t) p)) else None
      | Give m :: p => Some (mkState (opened st) (continue (release m (held t)) p))
      | Once s n :: p =>
          if opened st s then Some (mkState (opened st) (continue (held t) p))
          else if mayTake i (Flag s) t (threads st)
          then Some (mkState (opened st) (continue (Flag s :: held t) (subscriptions n ++ Finish s :: p)))
          else None
      | Finish s :: p =>
          Some (mkState (fun s' => if decide (s' = s) then true else opened st s')
                  (continue (release (Flag s) (held t)) p))
      end
  end.

(** The threads scheduled one after the other. *)
Fixpoint run (schedule : list nat) (st : State) : option State :=
  match schedule with
  | [] => Some st
  | i :: schedule => advance i st ≫= run schedule
  end.

Definition finished (st : State) : Prop := Forall (fun t => todo t = []) (threads st).

(** No thread can go on, and not all are done. *)
Definition deadlocked (st : State) : Prop := ~ finished st /\ forall i, advance i st = None.

End Locks.

Module StoreUse.
Import Locks.

Definition locked (m : Lock) (p : list Act) : list Act := Take m :: p ++ [Give m].

(** What [initIfNeeded] or [instance] of each store subscribes to at its first use. *)
Definition subscribed (s : StoreId) : nat := match s with Nodes => 5 | Policies => 2 | _ => 1 end.

Definition instance (s : StoreId) : list Act := [Once s (subscribed s)].

(** What a thread does with a store or the bus: an operation under the store's mutex;
    one that publishes after it; a publication, with what the handlers do; [drain]
    without a database or network, which publishes under the mutex; and the handlers
    of the service that saves and restores the nonce generators. *)
Inductive Op :=
| Access (s : StoreId)
| Update (s : StoreId) (handlers : list Op)
| Publish (handlers : list Op)
| DrainUnbound
| Checkpoint (saves : nat)
| BindAndRestore.

Section OpInduction.
Context (P : Op -> Prop) (access : forall s, P (Access s))
  (update : forall s hs, Forall P hs -> P (Update s hs)) (publication : forall hs, Forall P hs -> P (Publish hs))
  (drain : P DrainUnbound) (checkpoint : forall n, P (Checkpoint n)) (restore : P BindAndRestore).

Definition Op_nested_ind : forall op, P op :=
  fix go op :=
    let fix all hs : Forall P hs :=
      match hs with [] => Forall_nil_2 P | h :: hs => Forall_cons_2 P h hs (go h) (all hs) end in
    match op with
    | Access s => access s
    | Update s hs => update s hs (all hs)
    | Publish hs => publication hs (all hs)
    | DrainUnbound => drain
    | Checkpoint n => checkpoint n
    | BindAndRestore => restore
    end.
End OpInduction.

Fixpoint steps (op : Op) : list Act :=
  match op with
  | Access s => instance s ++ locked (StoreMutex s) []
  | Update s handlers =>
      instance s ++ locked (StoreMutex s) [] ++ locked Bus (flat_map steps handlers)
  | Publish handlers => locked Bus (flat_map steps handlers)
  | DrainUnbound => instance Pending ++ locked (StoreMutex Pending) (locked Bus [])
  | Checkpoint saves =>
      locked Service (concat (replicate saves (instance Spans ++ locked (StoreMutex Spans) [])))
  | BindAndRestore =>
      (instance Spans ++ locked (StoreMutex Spans) []) ++ (instance Spans ++ locked (StoreMutex Spans) []) ++
      locked Service []
  end.

(** A thread that runs the operations in order, and the threads at their start. *)
Definition thread (ops : list Op) : Thread := mkThread [] (flat_map steps ops).
Definition start (opened : StoreId -> bool) (programs : list (list Op)) : State :=
  mkState opened (thread <$> programs).

(** *** Some of the threads *)

(** [emitGetNodeValues], on the thread of the external API. *)
Definition emitGetNodeValues : list Op := [Access Values].

(** [Recorder]'s handlers of a report and of the dongle, and [SpanStoreService]'s. *)
Definition record : list Op := [Access Values; Publish []].
Definition recordDongle : list Op := [Access Values].
Definition restoreDongle : list Op := [BindAndRestore].

(** The stores bound to a network by the protocol thread, when the dongle answered;
    [bound] are the handlers of the list of nodes, and the other handlers of the
    dongle take no store. *)
Definition bindStores : list Op :=
  [Update Nodes []; Access Pending; Access Policies; Access Tags; Access Scenes;
   Publish (restoreDongle ++ recordDongle)].

(** [onWakeUpNotification], with what the handlers of its messages do. *)
Definition onWakeUpNotification (bound : bool) (handlers : list Op) : list Op :=
  [if bound then Update Pending [] else DrainUnbound; Publish handlers].

(** [checkpointLoop], one round. *)
Definition checkpointRound (saves : nat) : list Op := [Publish [Checkpoint saves]].

End StoreUse.

(** * Theorems *)

Import Locks StoreUse.

(** ** An order on the locks *)

Definition rank (m : Lock) : nat :=
  match m with Bus => 0 | Service => 1 | StoreMutex _ => 2 | Flag _ => 3 end.

Definition above (held : list Lock) (m : Lock) : bool := forallb (fun h => (rank h <? rank m)%nat) held.

Section Ordered.
Context (early : StoreId -> bool).

(** The locks held after a step, if the step keeps to the order: a lock is taken only
    above all that are held, the bus also again; the last taken is given back first; and
    the first use of a store that was not opened early happens under the bus. *)
Definition pass (held : list Lock) (a : Act) : option (list Lock) :=
  match a with
  | Take m => if bool_decide (m = Bus) && bool_decide (Bus ∈ held) || above held m then Some (m :: held) else None
  | Once s _ => if early s || bool_decide (Bus ∈ held) && above held (Flag s) then Some held else None
  | Give m => match held with m' :: held => if decide (m' = m) then Some held else None | [] => None end
  | Finish s => match held with m' :: held => if decide (m' = Flag s) then Some held else None | [] => None end
  end.

Fixpoint passes (held : list Lock) (p : list Act) : option (list Lock) :=
  match p with
  | [] => Some held
  | a :: p => pass held a ≫= fun held => passes held p
  end.

Lemma passes_app held p q : passes held (p ++ q) = passes held p ≫= fun held => passes held q.
Proof. revert held. induction p as [|a p IH]; intros held; cbn; [done|]. destruct (pass held a); cbn; auto. Qed.

Lemma passes_concat held ps : Forall (fun p => passes held p = Some held) ps -> passes held (concat ps) = Some held.
Proof. induction 1 as [|p ps Hp _ IH]; [done|]. cbn. by rewrite passes_app, Hp. Qed.

Lemma passes_subscriptions held n : Bus ∈ held -> passes held (subscriptions n) = Some held.
Proof.
  intros Hb. apply passes_concat, Forall_replicate. cbn. rewrite (bool_decide_eq_true_2 (Bus ∈ held)) by done. done.
Qed.

(** ** What stays true while threads run *)

(** A thread keeps to the order until it ends without a lock. *)
Definition orderly (t : Thread) : Prop := passes (held t) (todo t) = Some [].

Definition exclusive (ts : list Thread) : Prop :=
  forall i j t u m, i <> j -> ts !! i = Some t -> ts !! j = Some u -> m ∈ held t -> m ∉ held u.

Record sound (st : State) : Prop := mkSound {
  sound_orderly : forall i t, threads st !! i = Some t -> orderly t;
  sound_exclusive : exclusive (threads st);
  sound_early : forall s, early s = true -> opened st s = true }.

Lemma heldElsewhere_true i m ts :
  heldElsewhere i m ts = true <-> exists j t, ts !! j = Some t /\ j <> i /\ m ∈ held t.
Proof.
  unfold heldElsewhere. rewrite existsb_exists. split.
  - intros ([j t] & Hin & Hj). apply list_elem_of_In, elem_of_lookup_imap_1 in Hin as (k & u & [= -> ->] & Hk).
    apply andb_true_iff in Hj as [Hne Hm]. cbn in Hne. exists k, u. split_and!; [done| |by apply bool_decide_eq_true in Hm].
    intros ->. by rewrite Nat.eqb_refl in Hne.
  - intros (j & t & Hj & Hne & Hm). exists (j, t). split.
    + apply list_elem_of_In. change (j, t) with (pair j t). by apply elem_of_lookup_imap_2.
    + cbn. rewrite bool_decide_eq_true_2 by done. by destruct (Nat.eqb_spec j i).
Qed.

Lemma release_head m held : release m (m :: held) = held.
Proof. cbn. by destruct (decide (m = m)). Qed.

(** A thread that changes keeps the others exclusive when each lock it holds it held
    before, or no other holds. *)
Lemma exclusive_insert ts i t t' :
  exclusive ts -> ts !! i = Some t ->
  (forall m, m ∈ held t' -> m ∈ held t \/ heldElsewhere i m ts = false) ->
  exclusive (<[i := t']> ts).
Proof.
  intros Hex Hi Hheld.
  assert (Hlt : (i < length ts)%nat) by (by apply lookup_lt_is_Some_1).
  assert (Hother : forall j u m, j <> i -> ts !! j = Some u -> m ∈ held t' -> m ∉ held u).
  { intros j u m Hne Hj Hm Hu. destruct (Hheld m Hm) as [Ht|Hf].
    - by apply (Hex i j t u m).
    - assert (heldElsewhere i m ts = true) as Hf'; [|congruence]. apply heldElsewhere_true. by exists j, u. }
  intros j k u v m Hjk Hj Hk Hm.
  destruct (decide (j = i)) as [->|Hji], (decide (k = i)) as [->|Hki]; [done| | |].
  - rewrite list_lookup_insert_eq in Hj by done. injection Hj as <-.
    rewrite list_lookup_insert_ne in Hk by done. by apply (Hother k v).
  - rewrite list_lookup_insert_eq in Hk by done. injection Hk as <-.
    rewrite list_lookup_insert_ne in Hj by done. intros Hv. by apply (Hother j u m).
  - rewrite list_lookup_insert_ne in Hj, Hk by done. by apply (Hex j k u v).
Qed.

Lemma orderly_insert (ts : list Thread) (i : nat) t' :
  (forall j t, ts !! j = Some t -> orderly t) -> orderly t' -> forall j t, <[i := t']> ts !! j = Some t -> orderly t.
Proof.
  intros Hts Ht' j t. destruct (decide (j = i)) as [->|Hne].
  - intros Hj. assert (i < length ts)%nat by (rewrite <-(length_insert ts i t'); by apply lookup_lt_is_Some_1).
    rewrite list_lookup_insert_eq in Hj by done. by injection Hj as <-.
  - rewrite list_lookup_insert_ne by done. apply Hts.
Qed.

Lemma mayTake_true i m t ts :
  mayTake i m t ts = true -> heldElsewhere i m ts = false /\ (m = Bus \/ m ∉ held t).
Proof.
  unfold mayTake. rewrite andb_true_iff, negb_true_iff, orb_true_iff, !bool_decide_eq_true. done.
Qed.

Lemma advance_sound i st st' : sound st -> advance i st = Some st' -> sound st'.
Proof.
  intros [Ho Hx He]. unfold advance. destruct (threads st !! i) as [t|] eqn:Hi; [|done].
  pose proof (Ho i t Hi) as Ht. unfold orderly in Ht. destruct (todo t) as [|a p] eqn:Hp; [done|]. cbn [passes] in Ht.
  destruct (pass (held t) a) as [h|] eqn:Ha; [|done]. cbn in Ht.
  destruct a as [m|m|s n|s]; cbn [pass] in Ha.
  - destruct (mayTake i m t (threads st)) eqn:Hm; [|done]. intros [= <-].
    apply mayTake_true in Hm as [Hm _].
    assert (h = m :: held t) as -> by (destruct (_ || _) in Ha; [by injection Ha as <-|done]).
    split; cbn; [by apply orderly_insert| |done].
    apply (exclusive_insert _ _ t); [done..|]. cbn. intros m' [->|?]%elem_of_cons; auto.
  - intros [= <-]. destruct (held t) as [|m' hs] eqn:Hh; [done|]. destruct (decide (m' = m)) as [->|]; [|done].
    injection Ha as ->. rewrite release_head. split; cbn; [by apply orderly_insert| |done].
    apply (exclusive_insert _ _ t); [done..|]. cbn. intros m' Hm'. left. rewrite Hh. by right.
  - assert (h = held t) as -> by (destruct (_ || _) in Ha; [by injection Ha as <-|done]).
    destruct (opened st s) eqn:Hop.
    { intros [= <-]. split; cbn; [by apply orderly_insert| |done].
      apply (exclusive_insert _ _ t); [done..|]. cbn. auto. }
    destruct (mayTake i (Flag s) t (threads st)) eqn:Hm; [|done]. intros [= <-].
    apply mayTake_true in Hm as [Hm _].
    destruct (early s) eqn:Hs; [by rewrite He in Hop|]. cbn in Ha.
    destruct (bool_decide (Bus ∈ held t)) eqn:Hb; [|done]. apply bool_decide_eq_true in Hb.
    split; cbn; [|apply (exclusive_insert _ _ t); [done..|]; cbn; intros m' [->|?]%elem_of_cons; auto|done].
    apply orderly_insert; [done|]. unfold orderly. cbn [held todo].
    rewrite passes_app, passes_subscriptions by (by right). cbn. by destruct (decide (Flag s = Flag s)).
  - intros [= <-]. destruct (held t) as [|m' hs] eqn:Hh; [done|]. destruct (decide (m' = Flag s)) as [->|]; [|done].
    injection Ha as ->. rewrite release_head. split; cbn; [by apply orderly_insert| |].
    + apply (exclusive_insert _ _ t); [done..|]. cbn. intros m' Hm'. left. rewrite Hh. by right.
    + intros s' Hs'. rewrite He by done. by destruct (decide (s' = s)).
Qed.

Lemma run_sound schedule st st' : sound st -> run schedule st = Some st' -> sound st'.
Proof.
  revert st. induction schedule as [|i schedule IH]; intros st Hs; cbn; [by intros [= <-]|].
  destruct (advance i st) as [st1|] eqn:Hi; [|done]. cbn. apply IH. by eapply advance_sound.
Qed.

(** ** No deadlock

    A blocked thread waits for a lock above all it holds, and a thread that holds it has
    something left to do. *)

Definition stuckBelow (n : nat) (st : State) : Prop :=
  exists i t, threads st !! i = Some t /\ todo t <> [] /\ advance i st = None /\
    forall m, m ∈ held t -> (rank m < n)%nat.

Lemma above_rank held m m' : above held m = true -> m' ∈ held -> (rank m' < rank m)%nat.
Proof.
  unfold above. rewrite forallb_forall. intros Ha Hm. apply list_elem_of_In in Hm. apply Ha in Hm.
  by apply Nat.ltb_lt in Hm.
Qed.

(** The lock a blocked thread waits for: no lock it holds itself. *)
Definition awaits (st : State) (i : nat) (t : Thread) (m : Lock) : Prop :=
  (exists j u, threads st !! j = Some u /\ j <> i /\ m ∈ held u) /\ forall m', m' ∈ held t -> (rank m' < rank m)%nat.

Lemma blocked_awaits st i t :
  sound st -> threads st !! i = Some t -> todo t <> [] -> advance i st = None -> exists m, awaits st i t m.
Proof.
  intros [Ho Hx He] Hi Hne Hadv. pose proof (Ho i t Hi) as Ht. unfold orderly in Ht.
  unfold advance in Hadv. rewrite Hi in Hadv.
  destruct (todo t) as [|a p] eqn:Hp; [done|]. cbn [passes] in Ht.
  destruct (pass (held t) a) as [h|] eqn:Ha; [|done].
  assert (Hwait : forall m, mayTake i m t (threads st) = false ->
    (m = Bus /\ Bus ∈ held t) \/ (forall m', m' ∈ held t -> (rank m' < rank m)%nat) -> awaits st i t m).
  { intros m Hm Hcase.
    assert (Hfree : m = Bus \/ m ∉ held t).
    { destruct Hcase as [[-> _]|Hr]; [by left|right]. intros Hin. specialize (Hr m Hin). lia. }
    assert (Hel : heldElsewhere i m (threads st) = true).
    { unfold mayTake in Hm. destruct (heldElsewhere i m (threads st)); [done|]. exfalso.
      destruct Hfree as [->|Hn]; [by rewrite bool_decide_eq_true_2 in Hm|].
      rewrite (bool_decide_eq_true_2 (m ∉ held t)), orb_true_r in Hm by done. done. }
    apply heldElsewhere_true in Hel as (j & u & Hj & Hji & Hu).
    split; [by exists j, u|]. destruct Hcase as [[-> Hb]|Hr]; [|done].
    exfalso. by apply (Hx i j t u Bus). }
  destruct a as [m|m|s n|s]; cbn [pass] in Ha; [| |destruct (opened st s) eqn:Hop; [done|]|done].
  - destruct (mayTake i m t (threads st)) eqn:Hm; [done|]. exists m. apply Hwait; [done|].
    destruct (bool_decide (m = Bus) && bool_decide (Bus ∈ held t)) eqn:Hb.
    + left. apply andb_true_iff in Hb as [Hb1 Hb2]. by rewrite !bool_decide_eq_true in *.
    + right. cbn in Ha. destruct (above (held t) m) eqn:Hab; [|done]. intros m'. by apply above_rank.
  - done.
  - destruct (mayTake i (Flag s) t (threads st)) eqn:Hm; [done|]. exists (Flag s). apply Hwait; [done|]. right.
    destruct (early s) eqn:Hs; [by rewrite He in Hop|]. cbn in Ha.
    destruct (bool_decide (Bus ∈ held t)); [|done]. cbn in Ha.
    destruct (above (held t) (Flag s)) eqn:Hab; [|done]. intros m'. by apply above_rank.
Qed.

Lemma holder_unfinished st j u m : sound st -> threads st !! j = Some u -> m ∈ held u -> todo u <> [].
Proof.
  intros [Ho _ _] Hj Hm Hu. specialize (Ho j u Hj). unfold orderly in Ho. rewrite Hu in Ho. injection Ho as Ho.
  rewrite Ho in Hm. by apply elem_of_nil in Hm.
Qed.

Lemma rank_le m : (rank m <= 3)%nat.
Proof. destruct m; cbn; lia. Qed.

(** A thread that holds a lock of rank [n] or more can go on, or one above it can. *)
Lemma holder_goes_on st k :
  sound st -> forall n j u m, (3 < n + k)%nat -> threads st !! j = Some u -> m ∈ held u -> (n <= rank m)%nat ->
  exists i st', advance i st = Some st'.
Proof.
  intros Hs. induction k as [|k IH]; intros n j u m Hk Hj Hm Hn; [pose proof (rank_le m); lia|].
  destruct (advance j st) as [st'|] eqn:Hadv; [by exists j, st'|].
  assert (todo u <> []) as Hu by (by eapply holder_unfinished).
  destruct (blocked_awaits st j u Hs Hj Hu Hadv) as (m' & (j' & u' & Hj' & _ & Hm') & Hr).
  apply (IH (S n) j' u' m'); [lia|done..|]. specialize (Hr m Hm). lia.
Qed.

Lemma goes_on st : sound st -> ~ finished st -> exists i st', advance i st = Some st'.
Proof.
  intros Hs Hf. unfold finished in Hf. apply not_Forall_Exists in Hf; [|intros t; by destruct (todo t); [left|right]].
  apply Exists_exists in Hf as (t & Ht & Hne). apply list_elem_of_lookup in Ht as [i Hi].
  destruct (advance i st) as [st'|] eqn:Hadv; [by exists i, st'|].
  destruct (blocked_awaits st i t Hs Hi Hne Hadv) as (m & (j & u & Hj & _ & Hm) & _).
  apply (holder_goes_on st 4 Hs 0 j u m); [lia|done..|lia].
Qed.

End Ordered.

(** ** Every run ends *)

Definition cost (a : Act) : nat := match a with Once _ n => 2 * n + 2 | _ => 1 end.
Definition workOf (t : Thread) : nat := sum_list (cost <$> todo t).
Definition work (st : State) : nat := sum_list (workOf <$> threads st).

Lemma sum_list_insert (ns : list nat) i n n' :
  ns !! i = Some n -> (sum_list (<[i := n']> ns) + n = sum_list ns + n')%nat.
Proof.
  revert i. induction ns as [|m ns IH]; intros [|i]; [done..|by intros [= ->]; simpl; lia|].
  intros Hi. specialize (IH i Hi). simpl in *. lia.
Qed.

Lemma work_insert st i t t' opened' :
  threads st !! i = Some t -> (workOf t' < workOf t)%nat ->
  (work (mkState opened' (<[i := t']> (threads st))) < work st)%nat.
Proof.
  intros Hi Hlt. unfold work. cbn. rewrite list_fmap_insert.
  pose proof (sum_list_insert (workOf <$> threads st) i (workOf t) (workOf t')) as Hs.
  rewrite list_lookup_fmap, Hi in Hs. specialize (Hs eq_refl). lia.
Qed.

Lemma cost_subscriptions n p : sum_list (cost <$> subscriptions n ++ p) = (2 * n + sum_list (cost <$> p))%nat.
Proof. induction n as [|n IH]; [done|]. unfold subscriptions in *. cbn in *. rewrite IH. lia. Qed.

Lemma advance_works i st st' : advance i st = Some st' -> (work st' < work st)%nat.
Proof.
  unfold advance. destruct (threads st !! i) as [t|] eqn:Hi; [|done].
  destruct (todo t) as [|a p] eqn:Hp; [done|].
  assert (Hw : workOf t = (cost a + sum_list (cost <$> p))%nat) by (unfold workOf; by rewrite Hp).
  destruct a as [m|m|s n|s].
  - destruct (mayTake i m t (threads st)); [|done]. intros [= <-].
    eapply work_insert; [done|]. rewrite Hw. unfold workOf. cbn. lia.
  - intros [= <-]. eapply work_insert; [done|]. rewrite Hw. unfold workOf. cbn. lia.
  - destruct (opened st s).
    { intros [= <-]. eapply work_insert; [done|]. rewrite Hw. unfold workOf. cbn. lia. }
    destruct (mayTake i (Flag s) t (threads st)); [|done]. intros [= <-].
    eapply work_insert; [done|]. rewrite Hw. unfold workOf. cbn [todo]. rewrite cost_subscriptions. cbn. lia.
  - intros [= <-]. eapply work_insert; [done|]. rewrite Hw. unfold workOf. cbn. lia.
Qed.

Lemma run_works schedule st st' : run schedule st = Some st' -> (length schedule + work st' <= work st)%nat.
Proof.
  revert st. induction schedule as [|i schedule IH]; intros st; cbn; [by intros [= <-]|].
  destruct (advance i st) as [st1|] eqn:Hi; [|done]. cbn. intros Hr%IH. apply advance_works in Hi. lia.
Qed.

Lemma schedule_app s1 s2 st : run (s1 ++ s2) st = run s1 st ≫= run s2.
Proof. revert st. induction s1 as [|i s1 IH]; intros st; cbn; [done|]. destruct (advance i st); cbn; auto. Qed.

Lemma runs_out early n st :
  sound early st -> (work st <= n)%nat -> exists schedule st', run schedule st = Some st' /\ finished st'.
Proof.
  revert st. induction n as [|n IH]; intros st Hs Hn;
    (destruct (decide (finished st)) as [Hf|Hf]; [by exists [], st|]);
    destruct (goes_on early st Hs Hf) as (i & st1 & Hi); pose proof (advance_works _ _ _ Hi); [lia|].
  destruct (IH st1) as (schedule & st' & Hr & Hf'); [by eapply advance_sound|lia|].
  exists (i :: schedule), st'. cbn. by rewrite Hi.
Qed.

(** ** The operations keep to the order *)

Section Placed.
Context (early : StoreId -> bool).

(** Where an operation is: under the bus's mutex or not.  A store that was not opened
    early is used under it only, and so is the queue without a network drained. *)
Fixpoint placed (underBus : bool) (op : Op) : bool :=
  match op with
  | Access s => early s || underBus
  | Update s handlers => (early s || underBus) && forallb (placed true) handlers
  | Publish handlers => forallb (placed true) handlers
  | DrainUnbound => underBus
  | Checkpoint _ | BindAndRestore => early Spans || underBus
  end.

Definition busOnly (underBus : bool) (held : list Lock) : Prop :=
  Forall (eq Bus) held /\ (underBus = true -> Bus ∈ held).

Lemma above_bus held m : Forall (eq Bus) held -> m <> Bus -> above held m = true.
Proof.
  intros Hh Hm. unfold above. apply forallb_forall. intros h Hin. apply list_elem_of_In in Hin.
  rewrite Forall_forall in Hh. rewrite <-(Hh h Hin). by destruct m.
Qed.

Lemma take_bus held : Forall (eq Bus) held -> pass early held (Take Bus) = Some (Bus :: held).
Proof.
  intros Hh. cbn [pass]. rewrite bool_decide_eq_true_2 by done. destruct held as [|h held]; [done|].
  inversion_clear Hh as [|? ? <-]. rewrite bool_decide_eq_true_2 by left. done.
Qed.

Lemma busOnly_take underBus held : busOnly underBus held -> busOnly true (Bus :: held).
Proof. intros [Hh _]. split; [by constructor|]. by left. Qed.

Lemma pass_locked underBus held m p :
  busOnly underBus held -> (m = Bus \/ above held m = true) ->
  passes early (m :: held) p = Some (m :: held) -> passes early held (locked m p) = Some held.
Proof.
  intros [Hh _] Hm Hp. unfold locked. cbn [passes].
  assert (pass early held (Take m) = Some (m :: held)) as ->.
  { destruct Hm as [->|Hm]; [by apply take_bus|]. cbn [pass]. by rewrite Hm, orb_true_r. }
  cbn. rewrite passes_app, Hp. cbn. by destruct (decide (m = m)).
Qed.

Lemma pass_instance s held :
  early s = true \/ (Bus ∈ held /\ above held (Flag s) = true) -> passes early held (instance s) = Some held.
Proof.
  cbn. intros [->|[Hb ->]]; [done|]. rewrite (bool_decide_eq_true_2 _ Hb). by rewrite orb_true_r.
Qed.

Lemma placed_flag underBus s held :
  busOnly underBus held -> early s || underBus = true ->
  early s = true \/ (Bus ∈ held /\ above held (Flag s) = true).
Proof.
  intros [Hh Hb] [?| ->]%orb_true_iff; [by left|right]. split; [by apply Hb|]. by apply above_bus.
Qed.

Lemma pass_access underBus s held :
  busOnly underBus held -> early s || underBus = true ->
  passes early held (instance s ++ locked (StoreMutex s) []) = Some held.
Proof.
  intros Hh Hs. rewrite passes_app, pass_instance by (by eapply placed_flag). cbn [mbind option_bind].
  apply (pass_locked underBus); [done| |done]. right. by apply above_bus; [apply Hh|].
Qed.

Lemma pass_handlers ops held :
  Forall (fun op => forall underBus held,
    busOnly underBus held -> placed underBus op = true -> passes early held (steps op) = Some held) ops ->
  busOnly true held -> forallb (placed true) ops = true -> passes early held (flat_map steps ops) = Some held.
Proof.
  intros Hops Hh. induction Hops as [|op ops Hop _ IH]; cbn; [done|].
  intros [Hp Hps]%andb_true_iff. rewrite passes_app, (Hop true held Hh Hp). by apply IH.
Qed.

Lemma pass_repeated p n held : passes early held p = Some held -> passes early held (concat (replicate n p)) = Some held.
Proof. intros Hp. by apply passes_concat, Forall_replicate. Qed.

(** In the service, the bus and the service's mutex are held. *)
Lemma pass_save underBus held :
  busOnly underBus held -> early Spans || underBus = true ->
  passes early (Service :: held) (instance Spans ++ locked (StoreMutex Spans) []) = Some (Service :: held).
Proof.
  intros Hh Hs. destruct Hh as [Hh Hb].
  assert (Ha : forall m, (1 < rank m)%nat -> above (Service :: held) m = true).
  { intros m Hm. unfold above. cbn [forallb]. apply andb_true_iff. split; [by apply Nat.ltb_lt|].
    apply (above_bus held m Hh). by destruct m; cbn in Hm; [lia|..]. }
  rewrite passes_app, pass_instance.
  - cbn [mbind option_bind]. unfold locked. cbn [passes app]. cbn [pass]. rewrite Ha by (cbn; lia). by rewrite orb_true_r.
  - apply orb_true_iff in Hs as [?| ->]; [by left|right]. split; [right; by apply Hb|]. apply Ha. cbn; lia.
Qed.

Lemma pass_steps op underBus held :
  busOnly underBus held -> placed underBus op = true -> passes early held (steps op) = Some held.
Proof.
  revert underBus held. induction op as [s|s hs Hhs|hs Hhs| |k|] using Op_nested_ind; intros underBus held Hh Hp; cbn in Hp.
  - by apply (pass_access underBus).
  - apply andb_true_iff in Hp as [Hs Hp]. cbn [steps].
    rewrite app_assoc, passes_app, (pass_access underBus) by done. cbn [mbind option_bind].
    apply (pass_locked underBus); [done|by left|]. apply pass_handlers; [done| |done]. by apply busOnly_take in Hh.
  - cbn [steps]. apply (pass_locked underBus); [done|by left|].
    apply pass_handlers; [done| |done]. by apply busOnly_take in Hh.
  - subst underBus. cbn [steps]. rewrite passes_app, pass_instance by (eapply placed_flag; [done|by rewrite orb_true_r]).
    cbn [mbind option_bind]. apply (pass_locked true); [done|right; by apply above_bus; [apply Hh|]|].
    destruct Hh as [Hh Hb]. unfold locked. cbn [passes app pass].
    rewrite (bool_decide_eq_true_2 (Bus ∈ _)) by (right; by apply Hb). done.
  - cbn [steps]. apply (pass_locked underBus); [done|right; by apply above_bus; [apply Hh|]|].
    apply pass_repeated. by apply (pass_save underBus).
  - cbn [steps]. rewrite passes_app, (pass_access underBus) by done. cbn [mbind option_bind].
    rewrite passes_app, (pass_access underBus) by done. cbn [mbind option_bind].
    apply (pass_locked underBus); [done|right; by apply above_bus; [apply Hh|]|done].
Qed.

Lemma thread_orderly ops : Forall (fun op => placed false op = true) ops -> orderly early (thread ops).
Proof.
  intros Hops. unfold orderly, thread. cbn [held todo].
  induction Hops as [|op ops Hop _ IH]; [done|]. cbn. rewrite passes_app, (pass_steps op false); [done|by split|done].
Qed.

End Placed.

(** C21: as long as every store is opened before the threads start or used only by handlers
    of the bus, and the queue is drained without a network only by handlers, any number
    of threads with any operations on the stores, handlers of handlers included, always
    goes on to its end: whatever was scheduled so far, it can be completed, and no
    schedule is longer than the steps there are. *)
Theorem stores_locked_safely opened programs schedule st :
  Forall (Forall (fun op => placed opened false op = true)) programs ->
  run schedule (start opened programs) = Some st ->
  (length schedule <= work (start opened programs))%nat /\ ~ deadlocked st /\
  exists schedule' st', run (schedule ++ schedule') (start opened programs) = Some st' /\ finished st'.
Proof.
  intros Hp Hr.
  assert (sound opened st) as Hs.
  { eapply run_sound; [|done]. split; [| |done].
    - intros i t Hi. unfold start in Hi. cbn in Hi. apply list_lookup_fmap_Some in Hi as (ops & -> & Hi).
      apply thread_orderly. by eapply Forall_lookup_1 in Hp.
    - intros i j t u m _ Hi _ Hm. unfold start in Hi. cbn in Hi.
      apply list_lookup_fmap_Some in Hi as (ops & -> & _). by apply elem_of_nil in Hm. }
  split_and!.
  - pose proof (run_works _ _ _ Hr). lia.
  - intros [Hf Hd]. destruct (goes_on opened st Hs Hf) as (i & st' & Hi). by rewrite Hd in Hi.
  - destruct (runs_out opened (work st) st Hs) as (schedule' & st' & Hr' & Hf); [lia|].
    exists schedule', st'. by rewrite schedule_app, Hr.
Qed.

(** ** The first use outside the bus *)

(** A first use by a thread that does not hold the bus, and one by a handler, at the same
    time: the first thread is in the [call_once] and waits for the bus to subscribe, the
    second has the bus and waits for the [call_once], and neither ever goes on. *)
Theorem first_use_deadlocks opened s rest handlers rest' :
  opened s = false ->
  exists st, run [1; 0]%nat (start opened [Access s :: rest; Publish (Access s :: handlers) :: rest']) = Some st /\
    deadlocked st.
Proof.
  intros Hs. eexists. split.
  - unfold run, start. cbn -[subscriptions subscribed]. change (mayTake 1 Bus _ _) with true.
    cbn -[subscriptions subscribed]. rewrite Hs. change (mayTake 0 (Flag s) _ _) with true. done.
  - assert (exists p, subscriptions (subscribed s) = Take Bus :: p) as [p Hp] by (destruct s; by eexists).
    rewrite Hp. split.
    + intros Hf. apply Forall_cons in Hf as [Hf _]. done.
    + intros [|[|i]]; unfold advance; cbn -[subscribed]; [done| |done]. rewrite Hs.
      unfold mayTake, heldElsewhere. cbn. by rewrite bool_decide_eq_true_2 by left.
Qed.

(** The same between two threads of the daemon, of whose stores only that of the nonce
    generators is opened before the threads start: a client asks for the values of a
    node for the first time while the dongle answers and its handlers bind the value
    cache to the network.  Opening the stores before, the two always end. *)
Definition openedAtStart (s : StoreId) : bool := match s with Spans => true | _ => false end.

Definition stuck (st : State) : bool :=
  negb (forallb (fun t => match todo t with [] => true | _ => false end) (threads st)) &&
  forallb (fun i => match advance i st with None => true | Some _ => false end) (seq 0 (length (threads st))).

Lemma stuck_deadlocked st : stuck st = true -> deadlocked st.
Proof.
  unfold stuck. rewrite andb_true_iff, negb_true_iff. intros [Hf Ha]. split.
  - intros Hfin. assert (forallb (fun t => match todo t with [] => true | _ => false end) (threads st) = true) as E.
    { apply forallb_forall. intros t Ht. apply list_elem_of_In in Ht. unfold finished in Hfin.
      rewrite Forall_forall in Hfin. by rewrite (Hfin t Ht). }
    congruence.
  - intros i. destruct (decide (i < length (threads st))%nat) as [Hi|Hi].
    + rewrite forallb_forall in Ha. specialize (Ha i). rewrite <-list_elem_of_In, elem_of_seq in Ha.
      specialize (Ha ltac:(lia)). by destruct (advance i st).
    + unfold advance. by rewrite lookup_ge_None_2 by lia.
Qed.

Example client_meets_dongle :
  exists st, run (replicate 48 1 ++ [0; 1; 1; 1])%nat (start openedAtStart [emitGetNodeValues; bindStores]) = Some st /\
    deadlocked st.
Proof. eexists. split; [by vm_compute|]. apply stuck_deadlocked. by vm_compute. Qed.

Lemma stores_locked_safely_witness :
  ~ deadlocked (start (fun _ => true) [emitGetNodeValues; bindStores; checkpointRound 2; onWakeUpNotification true []]) /\
  exists schedule' st',
    run ([1; 1; 0] ++ schedule')%nat (start (fun _ => true)
      [emitGetNodeValues; bindStores; checkpointRound 2; onWakeUpNotification true []]) = Some st' /\ finished st'.
Proof.
  set (programs := [_; _; _; _]).
  assert (Forall (Forall (fun op => placed (fun _ => true) false op = true)) programs) as Hp
    by (unfold programs; by repeat constructor).
  split.
  - by apply (stores_locked_safely (fun _ => true) programs [] _ Hp).
  - by eapply (stores_locked_safely (fun _ => true) programs [1; 1; 0]%nat _ Hp).
Defined.
