(* ===== verification/KeyFiles.v ===== *)
(** * The network key files

    [zwave-protocol/security/s2/NetworkKeys.cpp] with [NetworkKeysService.cpp] in the
    Module [S2Keys] and [zwave-protocol/security/s0/NetworkKey.cpp] with
    [NetworkKeyService.cpp] in the Module [S0Key]: the keys of the network are read
    from their files, or drawn and written once.  The operating system is the class
    [Host], asked once per call; what a call does to the files is written out in
    [Posix].  File modes, the cleansing of memory and log output are left out. *)

From Stdlib Require Import String Ascii.
From S2P Require Import Prelude Config.
From stdpp Require Import gmap strings.
#[local] Open Scope Z_scope.

(** ** The operating system

    The [n]-th call succeeds, fails, or transfers [k] bytes only; [others] is what
    other processes did to the files before it; [entropy] what [RAND_bytes] fills in. *)
Inductive Outcome := Works | Fails | Short (k : nat).

Class Host := {
  outcome : nat -> Outcome;
  others : nat -> gmap text (list Z) -> gmap text (list Z);
  entropy : nat -> option (list Z);
  stateDirEnv : option text
}.

Definition KEY_SIZE : nat := 16.

(** Nobody else removes or rewrites a file, and the generator fills the key. *)
Class HostLaws `{Host} := {
  others_add n fs : fs ⊆ others n fs;
  entropy_length n k : entropy n = Some k -> length k = KEY_SIZE
}.

Record Fs := mkFs { files : gmap text (list Z); clock : nat }.

Module Posix.
Section Posix.
Context `{Host}.

Definition M (A : Type) : Type := Fs -> A * Fs.
Definition ret {A} (x : A) : M A := fun s => (x, s).
Definition bind {A B} (m : M A) (k : A -> M B) : M B := fun s => k (m s).1 (m s).2.

(** One call, on the files as the others left them. *)
Definition call {A} (f : Outcome -> gmap text (list Z) -> A * gmap text (list Z)) : M A :=
  fun s =>
    let r := f (outcome (clock s)) (others (clock s) (files s)) in (r.1, mkFs r.2 (S (clock s))).

Definition fileSize (p : text) : M (option Z) :=
  call (fun o fs => (match o with Fails => None | _ => (fun b => zlen b) <$> fs !! p end, fs)).

(** [open(O_RDONLY)] *)
Definition openRead (p : text) : M bool :=
  call (fun o fs => (match o with Fails => false | _ => bool_decide (is_Some (fs !! p)) end, fs)).

(** [read] of at most [len] bytes from the start; nothing for an error. *)
Definition readBytes (p : text) (len : nat) : M (list Z) :=
  call (fun o fs => (default [] (match o with
                                 | Fails => None
                                 | Short k => take (k `min` len) <$> fs !! p
                                 | Works => take len <$> fs !! p
                                 end), fs)).

(** [open(O_WRONLY | O_CREAT | O_EXCL)] *)
Definition openExclusive (p : text) : M bool :=
  call (fun o fs => match o with
                    | Fails => (false, fs)
                    | _ => if bool_decide (is_Some (fs !! p)) then (false, fs) else (true, <[p := []]> fs)
                    end).

(** [write] to the file just created: how many bytes it took. *)
Definition writeBytes (p : text) (bytes : list Z) : M nat :=
  call (fun o fs => let put := match o with Fails => [] | Short k => take k bytes | Works => bytes end in
                    (length put, <[p := put]> fs)).

Definition removeFile (p : text) : M unit :=
  call (fun o fs => (tt, match o with Fails => fs | _ => delete p fs end)).

(** Directories are not among the files: whether the error code was left clear. *)
Definition createDirectories : M bool :=
  call (fun o fs => (match o with Fails => false | _ => true end, fs)).

Definition randBytes : M (option (list Z)) := fun s => (entropy (clock s), mkFs (files s) (S (clock s))).

End Posix.
End Posix.
Import Posix.

Declare Scope posix_scope.
Delimit Scope posix_scope with posix.
Notation "'let*' x ':=' m 'in' k" := (bind m (fun x => k))
  (at level 10, x name, m at level 100, k at level 200) : posix_scope.

(** [path / name] for a relative name. *)
Definition slash : ascii := "/"%char.
Definition join (p name : text) : text :=
  if bool_decide (p = []) || bool_decide (last p = Some slash) then p ++ name else p ++ [slash] ++ name.

Definition DEFAULT_STATE_DIR : text := lit "/var/lib/zwaved".

(** The fallback both resolvers share: the configured directory, the environment's,
    the built-in one. *)
Definition stateDirOr `{Host} (stateDir : text) : text :=
  match stateDir with
  | [] => match stateDirEnv with Some (c :: env) => c :: env | _ => DEFAULT_STATE_DIR end
  | _ => stateDir
  end.

(** What the services publish. *)
Inductive Published :=
| KeysReady (generated : bool)
| KeysFailed (where_ : text).

(** ** The four class keys *)

Module S2Keys.
Section S2Keys.
Context `{Host}.
Local Open Scope posix_scope.

Inductive Class_ := Unauthenticated | Authenticated | AccessControl | S0Compat.
Definition CLASS_COUNT : nat := 4.
(** [static_cast<Class>(i)] for [i] from 0. *)
Definition classes : list Class_ := [Unauthenticated; Authenticated; AccessControl; S0Compat].

Record OneKey := mkOneKey { key : list Z; generated : bool }.
Record Loaded := mkLoaded { keys : list (list Z); fresh : list bool }.

Definition readKey (p : text) : M (option (list Z)) :=
  let* size := fileSize p in
  if negb (bool_decide (size = Some (Z.of_nat KEY_SIZE))) then ret None else
  let* fd := openRead p in
  if negb fd then ret None else
  let* got := readBytes p KEY_SIZE in
  ret (if bool_decide (length got = KEY_SIZE) then Some got else None).

Definition writeKeyExclusive (p : text) (key : list Z) : M bool :=
  let* fd := openExclusive p in
  if negb fd then ret false else
  let* put := writeBytes p key in
  if negb (bool_decide (put = length key)) then let* unlinked := removeFile p in ret false
  else ret true.

Definition loadOrGenerateOne (p : text) : M (option OneKey) :=
  let* read := readKey p in
  match read with
  | Some k => ret (Some (mkOneKey k false))
  | None =>
      let* drawn := randBytes in
      match drawn with
      | None => ret None
      | Some k =>
          let* written := writeKeyExclusive p k in
          if negb written then
            (let* raced := readKey p in
             ret (match raced with Some k => Some (mkOneKey k false) | None => None end))
          else ret (Some (mkOneKey k true))
      end
  end.

Definition resolveDir (s2KeyDir stateDir : text) : text :=
  match s2KeyDir with
  | [] => join (join (stateDirOr stateDir) (lit "security")) (lit "s2")
  | _ => s2KeyDir
  end.

Definition fileName (c : Class_) : text :=
  match c with
  | Unauthenticated => lit "unauth.key"
  | Authenticated => lit "auth.key"
  | AccessControl => lit "access.key"
  | S0Compat => lit "s0compat.key"
  end.

Definition keyPath (dir : text) (c : Class_) : text := join dir (fileName c).

(** The loop over the classes, [loaded] growing by one entry a round. *)
Fixpoint loadClasses (dir : text) (cs : list Class_) (loaded : Loaded) : M (option Loaded) :=
  match cs with
  | [] => ret (Some loaded)
  | c :: cs =>
      let* one := loadOrGenerateOne (keyPath dir c) in
      match one with
      | None => ret None
      | Some one => loadClasses dir cs (mkLoaded (keys loaded ++ [key one]) (fresh loaded ++ [generated one]))
      end
  end.

Definition loadOrGenerateAll (dir : text) : M (option Loaded) :=
  let* made := createDirectories in
  if negb made then ret None else loadClasses dir classes (mkLoaded [] []).

(** The service: the directories it was told, and the keys of the process. *)
Record State := mkState { stateDir : text; s2KeyDir : text; current : option (list (list Z)) }.

Definition onStorageConfig (dir : text) (st : State) : State := mkState dir (s2KeyDir st) (current st).
Definition onSecurityConfig (dir : text) (st : State) : State := mkState (stateDir st) dir (current st).
Definition setCurrent (ks : list (list Z)) (st : State) : State := mkState (stateDir st) (s2KeyDir st) (Some ks).

Definition loadKeys (st : State) : M (Published * State) :=
  let dir := resolveDir (s2KeyDir st) (stateDir st) in
  let* loaded := loadOrGenerateAll dir in
  ret (match loaded with
       | None => (KeysFailed dir, st)
       | Some loaded => (KeysReady (existsb id (fresh loaded)), setCurrent (keys loaded) st)
       end).

End S2Keys.
End S2Keys.

(** ** The S0 key *)

Module S0Key.
Section S0Key.
Context `{Host}.
Local Open Scope posix_scope.

Record Loaded := mkLoaded { key : list Z; generated : bool }.

Definition readKeyFile (p : text) : M (option (list Z)) :=
  let* size := fileSize p in
  if negb (bool_decide (size = Some (Z.of_nat KEY_SIZE))) then ret None else
  let* fd := openRead p in
  if negb fd then ret None else
  let* got := readBytes p KEY_SIZE in
  ret (if bool_decide (length got = KEY_SIZE) then Some got else None).

Definition writeKeyFileExclusive (p : text) (key : list Z) : M bool :=
  let* fd := openExclusive p in
  if negb fd then ret false else
  let* put := writeBytes p key in
  if negb (bool_decide (put = length key)) then let* unlinked := removeFile p in ret false
  else ret true.

Definition resolvePath (s0KeyFile stateDir : text) : text :=
  match s0KeyFile with
  | [] => join (join (stateDirOr stateDir) (lit "security")) (lit "s0.key")
  | _ => s0KeyFile
  end.

Definition loadOrGenerate (p : text) : M (option Loaded) :=
  let* read := readKeyFile p in
  match read with
  | Some k => ret (Some (mkLoaded k false))
  | None =>
      let* made := createDirectories in
      if negb made then ret None else
      let* drawn := randBytes in
      match drawn with
      | None => ret None
      | Some k =>
          let* written := writeKeyFileExclusive p k in
          if negb written then
            (let* raced := readKeyFile p in
             ret (match raced with Some k => Some (mkLoaded k false) | None => None end))
          else ret (Some (mkLoaded k true))
      end
  end.

(** The service: where the key is, and the key of the process. *)
Record State := mkState { stateDir : text; s0KeyFile : text; current : option (list Z) }.

Definition onStorageConfig (dir : text) (st : State) : State := mkState dir (s0KeyFile st) (current st).
Definition onSecurityConfig (file : text) (st : State) : State := mkState (stateDir st) file (current st).
Definition setCurrent (k : list Z) (st : State) : State := mkState (stateDir st) (s0KeyFile st) (Some k).

Definition loadKey (st : State) : M (Published * State) :=
  let p := resolvePath (s0KeyFile st) (stateDir st) in
  let* loaded := loadOrGenerate p in
  ret (match loaded with
       | None => (KeysFailed p, st)
       | Some loaded => (KeysReady (generated loaded), setCurrent (key loaded) st)
       end).

End S0Key.
End S0Key.

(** * Theorems *)

Section Keys.
Context `{H : Host} `{L : !HostLaws}.

(** The calls from [s] on all work. *)
Definition reliableFrom (s : Fs) : Prop := forall n, (clock s <= n)%nat -> outcome n = Works.

(** Time passes, and nothing that was stored is lost. *)
Definition later (s s' : Fs) : Prop := files s ⊆ files s' /\ (clock s <= clock s')%nat.

#[local] Instance later_preorder : PreOrder later.
Proof.
  split; [by intros s|]. intros s1 s2 s3 [F1 C1] [F2 C2]. split; [by etrans|lia].
Qed.

Lemma later_lookup s s' p b : later s s' -> files s !! p = Some b -> files s' !! p = Some b.
Proof. intros [Hf _] Hb. by eapply lookup_weaken. Qed.

Lemma later_reliable s s' : later s s' -> reliableFrom s -> reliableFrom s'.
Proof. intros [_ Hc] Hr n Hn. apply Hr. lia. Qed.

(** A call that does not change the files. *)
Lemma call_reads {A} (f : Outcome -> gmap text (list Z) -> A * gmap text (list Z)) s :
  (forall o fs, (f o fs).2 = fs) ->
  later s (call f s).2 /\ (call f s).1 = (f (outcome (clock s)) (files (call f s).2)).1.
Proof.
  intros Hf. unfold later, call. cbn. rewrite Hf. split_and!; [apply others_add|lia|done].
Qed.

Lemma others_lookup n fs p b : fs !! p = Some b -> others n fs !! p = Some b.
Proof. intros Hb. eapply lookup_weaken; [done|apply others_add]. Qed.

(** ** Reading a key *)

Lemma readKey_later p s : later s (S2Keys.readKey p s).2.
Proof.
  unfold S2Keys.readKey, bind.
  destruct (call_reads (fun o fs => (match o with Fails => None | _ => (fun b => zlen b) <$> fs !! p end, fs)) s)
    as [H1 _]; [done|]. fold (fileSize p) in H1. set (s1 := (fileSize p s).2) in *.
  destruct (negb _); [done|].
  destruct (call_reads (fun o fs => (match o with Fails => false | _ => bool_decide (is_Some (fs !! p)) end, fs)) s1)
    as [H2 _]; [done|]. fold (openRead p) in H2. set (s2 := (openRead p s1).2) in *.
  destruct (negb _); [by etrans|]. cbn [ret snd]. etrans; [exact H1|]. etrans; [exact H2|].
  apply call_reads. done.
Qed.

(** A key that was read is what the file holds. *)
Lemma readKey_sound p s k :
  (S2Keys.readKey p s).1 = Some k -> files (S2Keys.readKey p s).2 !! p = Some k /\ length k = KEY_SIZE.
Proof.
  unfold S2Keys.readKey, bind, fileSize, openRead, readBytes, call. cbn [fst snd files clock].
  case_bool_decide as Hs; cbn [negb]; [|done].
  destruct (others (clock s) (files s) !! p) as [b|] eqn:Hb; [|by destruct (outcome (clock s))].
  assert (Hl : length b = KEY_SIZE) by (destruct (outcome (clock s)); [|done|]; cbn in Hs; unfold KEY_SIZE in *; injection Hs; lia).
  match goal with |- context [ negb ?c ] => destruct (negb c); [done|] end.
  cbn [ret fst snd files clock].
  set (fs3 := others _ (others _ _)).
  assert (H3 : fs3 !! p = Some b) by (unfold fs3; by do 2 apply others_lookup).
  rewrite H3. case_bool_decide as Hg; [|done]. intros [= <-]. split; [|done].
  destruct (outcome (S (S (clock s)))); cbn in *.
  - by rewrite take_ge by (unfold KEY_SIZE in *; lia).
  - done.
  - rewrite take_ge; [done|]. rewrite length_take in Hg. unfold KEY_SIZE in *. lia.
Qed.

(** A file of another size gives no key. *)
Lemma readKey_damaged p s b :
  files s !! p = Some b -> length b <> KEY_SIZE -> (S2Keys.readKey p s).1 = None.
Proof.
  intros Hb Hl. destruct ((S2Keys.readKey p s).1) as [k|] eqn:Hk; [|done].
  apply readKey_sound in Hk as [Hf Hk]. pose proof (later_lookup _ _ _ _ (readKey_later p s) Hb). congruence.
Qed.

(** A stored key is read when the calls work. *)
Lemma readKey_stored p s k :
  reliableFrom s -> files s !! p = Some k -> length k = KEY_SIZE -> (S2Keys.readKey p s).1 = Some k.
Proof.
  intros Hr Hk Hl. unfold S2Keys.readKey, bind, fileSize, openRead, readBytes, call. cbn [fst snd files clock].
  apply (others_lookup (clock s)) in Hk as H1. apply (others_lookup (S (clock s))) in H1 as H2.
  apply (others_lookup (S (S (clock s)))) in H2 as H3.
  rewrite (Hr (clock s)), H1 by lia. cbn [fmap option_fmap option_map]. rewrite Hl, bool_decide_eq_true_2 by done.
  cbn [negb fst snd files clock]. rewrite (Hr (S (clock s))), H2, bool_decide_eq_true_2 by (done || lia).
  cbn [negb fst snd files clock ret]. rewrite (Hr (S (S (clock s)))), H3 by lia.
  cbn [fmap option_fmap option_map default from_option id]. rewrite take_ge by (rewrite Hl; done).
  by rewrite bool_decide_eq_true_2.
Qed.

(** ** Writing a key *)

(** The files written to are the others' and one that was not there. *)
Lemma insert_new (m m' : gmap text (list Z)) p v : m ⊆ m' -> m !! p = None -> m ⊆ <[p := v]> m'.
Proof. intros. by apply insert_subseteq_r. Qed.

Lemma delete_new (m m' : gmap text (list Z)) p : m ⊆ m' -> m !! p = None -> m ⊆ delete p m'.
Proof.
  intros Hm Hp. apply map_subseteq_spec. intros q b Hq. rewrite lookup_delete_ne by congruence.
  by eapply lookup_weaken.
Qed.

Definition fillNew (p : text) (k : list Z) : M bool :=
  bind (writeBytes p k) (fun put =>
  if negb (bool_decide (put = length k)) then bind (removeFile p) (fun _ => ret false) else ret true).

Lemma fillNew_spec base p k s :
  base ⊆ files s -> base !! p = None ->
  let (written, s') := fillNew p k s in
  base ⊆ files s' /\ (clock s <= clock s')%nat /\ (written = true -> files s' !! p = Some k).
Proof.
  intros Hb Hp. unfold fillNew, bind, writeBytes, removeFile, call. cbn [fst snd files clock].
  set (put := match outcome (clock s) with Works => k | Fails => [] | Short n => take n k end).
  set (fs1 := others _ _). assert (H1 : base ⊆ fs1) by (etrans; [exact Hb|apply others_add]).
  assert (H2 : base ⊆ <[p := put]> fs1) by by apply insert_new.
  case_bool_decide as Hl; cbn [negb ret fst snd files clock]; (split_and!; [|lia|]).
  - done.
  - intros _. rewrite lookup_insert_eq. f_equal. unfold put in *.
    destruct (outcome (clock s)) as [| |n]; [done|by destruct k|].
    apply take_ge. rewrite length_take in Hl. lia.
  - set (fs3 := others _ (<[p := put]> fs1)). assert (H3 : base ⊆ fs3) by (etrans; [exact H2|apply others_add]).
    destruct (outcome (S (clock s))); [by apply delete_new|done|by apply delete_new].
  - done.
Qed.

Lemma write_spec p k s :
  let (written, s') := S2Keys.writeKeyExclusive p k s in
  later s s' /\ (written = true -> files s !! p = None /\ files s' !! p = Some k) /\
  (is_Some (files s !! p) -> written = false).
Proof.
  assert (Hf : S2Keys.writeKeyExclusive p k = bind (openExclusive p) (fun fd => if negb fd then ret false else fillNew p k))
    by done.
  rewrite Hf. unfold bind, openExclusive, call. cbn [fst snd files clock].
  set (fs1 := others (clock s) (files s)). assert (H1 : files s ⊆ fs1) by apply others_add.
  assert (Hfail : later s (mkFs fs1 (S (clock s)))) by (split; [done|cbn; lia]).
  destruct (decide (is_Some (fs1 !! p))) as [Hp|Hp].
  - rewrite !(bool_decide_eq_true_2 _ Hp). destruct (outcome (clock s)); cbn; by split_and!.
  - rewrite !(bool_decide_eq_false_2 _ Hp). apply eq_None_not_Some in Hp.
    assert (Hs : files s !! p = None) by (by eapply lookup_weaken_None).
    assert (Hnew : files s ⊆ <[p := []]> fs1) by by apply insert_new.
    pose proof (fillNew_spec (files s) p k (mkFs (<[p := []]> fs1) (S (clock s))) Hnew Hs) as Hfill.
    destruct (outcome (clock s)); cbn [fst snd negb ret]; [|by split_and!; [|by intros|]|].
    all: destruct (fillNew p k _) as [w s']; destruct Hfill as (Hb&Hc&Hw); cbn in Hc.
    all: split_and!; [split; [done|lia]|by auto|rewrite Hs; by intros [? ?]].
Qed.

(** ** One key *)

Lemma randBytes_later s : later s (randBytes s).2.
Proof. split; cbn; [done|lia]. Qed.

(** What a step that ends with a key promises of the file [p]. *)
Definition yields {A} (mk : list Z -> bool -> A) (p : text) (m : M (option A)) : Prop := forall s,
  let (r, s') := m s in
  later s s' /\
  (forall o, r = Some o -> exists k g, o = mk k g /\ files s' !! p = Some k /\ length k = KEY_SIZE /\
             (g = true -> files s !! p = None)) /\
  (forall b, files s !! p = Some b -> length b <> KEY_SIZE -> r = None).

(** Drawing a key and writing it, or reading what another instance wrote. *)
Definition create {A} (mk : list Z -> bool -> A) (p : text) : M (option A) :=
  bind randBytes (fun drawn =>
  match drawn with
  | None => ret None
  | Some k => bind (S2Keys.writeKeyExclusive p k) (fun written =>
      if negb written then bind (S2Keys.readKey p) (fun raced =>
        ret (match raced with Some k => Some (mk k false) | None => None end))
      else ret (Some (mk k true)))
  end).

Lemma create_yields {A} (mk : list Z -> bool -> A) p : yields mk p (create mk p).
Proof.
  intros s. unfold create, bind. pose proof (randBytes_later s) as H2.
  destruct (randBytes s) as [[k|] s2] eqn:Hrand; cbn [fst snd ret] in *; [|by split_and!].
  pose proof (write_spec p k s2) as Hw. destruct (S2Keys.writeKeyExclusive p k s2) as [[] s3]; cbn [fst snd negb] in *.
  - destruct Hw as (H3&Hw&Hex). destruct (Hw eq_refl) as [Hn Hf].
    assert (Hnone : files s !! p = None).
    { destruct (files s !! p) as [b|] eqn:Hb; [|done]. apply (later_lookup s s2) in Hb; [congruence|done]. }
    cbn. rewrite Hnone. split_and!; [by etrans| |done].
    intros o [= <-]. exists k, true. unfold randBytes in Hrand. injection Hrand as He <-.
    split_and!; [done..|by eapply entropy_length|done].
  - destruct Hw as (H3&_&_). pose proof (readKey_later p s3) as H4. pose proof (readKey_sound p s3) as HS4.
    pose proof (readKey_damaged p s3) as HD4. assert (H03 : later s s3) by by etrans.
    destruct (S2Keys.readKey p s3) as [r s4]; cbn [fst snd ret] in *. split_and!.
    + by etrans.
    + intros o. destruct r as [k4|]; [intros [= <-]|done]. destruct (HS4 k4 eq_refl). by exists k4, false.
    + intros b Hb Hne. by rewrite (HD4 b (later_lookup _ _ _ _ H03 Hb) Hne).
Qed.

(** A failed call that leaves the files alone, then a step. *)
Lemma guarded_yields {A} (mk : list Z -> bool -> A) p m :
  yields mk p m -> yields mk p (bind createDirectories (fun made => if negb made then ret None else m)).
Proof.
  intros Hm s. unfold bind.
  destruct (call_reads (fun o fs => (match o with Fails => false | _ => true end, fs)) s) as [H1 _]; [done|].
  change (call _) with createDirectories in H1. destruct (createDirectories s) as [[] s1]; cbn [fst snd negb ret] in *;
    [|by split_and!].
  specialize (Hm s1). destruct (m s1) as [r s2]. destruct Hm as (H2&Hs&Hd). split_and!; [by etrans| |].
  - intros o Ho. destruct (Hs o Ho) as (k&g&->&Hf&Hl&Hg). exists k, g. split_and!; [done..|]. intros Ht.
    destruct (files s !! p) as [b|] eqn:Hb; [|done]. by rewrite (later_lookup _ _ _ _ H1 Hb) in Hg; specialize (Hg Ht).
  - intros b Hb Hne. by eapply Hd; [eapply later_lookup|].
Qed.

(** Reading first. *)
Lemma load_spec {A} (mk : list Z -> bool -> A) p (m : M (option A)) s :
  yields mk p m ->
  let (r, s') := bind (S2Keys.readKey p) (fun read => match read with Some k => ret (Some (mk k false)) | None => m end) s in
  later s s' /\
  (forall o, r = Some o -> exists k g, o = mk k g /\ files s' !! p = Some k /\ length k = KEY_SIZE /\
             (g = true -> files s !! p = None)) /\
  (forall b, files s !! p = Some b -> length b <> KEY_SIZE -> r = None) /\
  (forall k, reliableFrom s -> files s !! p = Some k -> length k = KEY_SIZE -> r = Some (mk k false)).
Proof.
  intros Hm. unfold bind. pose proof (readKey_later p s) as H1. pose proof (readKey_sound p s) as HS1.
  pose proof (readKey_damaged p s) as HD1. pose proof (readKey_stored p s) as HR1.
  destruct (S2Keys.readKey p s) as [[k|] s1]; cbn [fst snd] in *.
  - cbn. destruct (HS1 k eq_refl) as [Hf Hl]. split_and!; [done| | |].
    + intros o [= <-]. by exists k, false.
    + intros b Hb Hne. by specialize (HD1 b Hb Hne).
    + intros k' Hr Hk Hl'. by injection (HR1 k' Hr Hk Hl') as ->.
  - specialize (Hm s1). destruct (m s1) as [r s2]. destruct Hm as (H2&Hs&Hd). split_and!; [by etrans|..].
    + intros o Ho. destruct (Hs o Ho) as (k&g&->&Hf&Hl&Hg). exists k, g. split_and!; [done..|]. intros Ht.
      destruct (files s !! p) as [b|] eqn:Hb; [|done]. by rewrite (later_lookup _ _ _ _ H1 Hb) in Hg; specialize (Hg Ht).
    + intros b Hb Hne. by eapply Hd; [eapply later_lookup|].
    + intros k Hr Hk Hl. by specialize (HR1 k Hr Hk Hl).
Qed.

Lemma one_spec p s :
  let (r, s') := S2Keys.loadOrGenerateOne p s in
  later s s' /\
  (forall o, r = Some o -> exists k g, o = S2Keys.mkOneKey k g /\ files s' !! p = Some k /\ length k = KEY_SIZE /\
             (g = true -> files s !! p = None)) /\
  (forall b, files s !! p = Some b -> length b <> KEY_SIZE -> r = None) /\
  (forall k, reliableFrom s -> files s !! p = Some k -> length k = KEY_SIZE -> r = Some (S2Keys.mkOneKey k false)).
Proof. exact (load_spec S2Keys.mkOneKey p (create S2Keys.mkOneKey p) s (create_yields _ p)). Qed.

Lemma s0_spec p s :
  let (r, s') := S0Key.loadOrGenerate p s in
  later s s' /\
  (forall o, r = Some o -> exists k g, o = S0Key.mkLoaded k g /\ files s' !! p = Some k /\ length k = KEY_SIZE /\
             (g = true -> files s !! p = None)) /\
  (forall b, files s !! p = Some b -> length b <> KEY_SIZE -> r = None) /\
  (forall k, reliableFrom s -> files s !! p = Some k -> length k = KEY_SIZE -> r = Some (S0Key.mkLoaded k false)).
Proof. exact (load_spec S0Key.mkLoaded p _ s (guarded_yields _ p _ (create_yields _ p))). Qed.

(** ** All the class keys *)

(** The file of a class holds its key. *)
Definition stored (s : Fs) (dir : text) (c : S2Keys.Class_) (k : list Z) : Prop :=
  files s !! S2Keys.keyPath dir c = Some k /\ length k = KEY_SIZE.

Lemma stored_later s s' dir cs ks : later s s' -> Forall2 (stored s dir) cs ks -> Forall2 (stored s' dir) cs ks.
Proof. intros Hl Hk. eapply Forall2_impl; [exact Hk|]. intros c k [Hf ?]. split; [by eapply later_lookup|done]. Qed.

Lemma classes_spec dir cs acc s :
  let (r, s') := S2Keys.loadClasses dir cs acc s in
  later s s' /\
  (forall l, r = Some l -> exists ks gs, l = S2Keys.mkLoaded (S2Keys.keys acc ++ ks) (S2Keys.fresh acc ++ gs) /\
     Forall2 (stored s' dir) cs ks /\
     Forall2 (fun c g => g = true -> files s !! S2Keys.keyPath dir c = None) cs gs) /\
  (forall c b, c ∈ cs -> files s !! S2Keys.keyPath dir c = Some b -> length b <> KEY_SIZE -> r = None) /\
  (forall ks, reliableFrom s -> Forall2 (stored s dir) cs ks ->
     r = Some (S2Keys.mkLoaded (S2Keys.keys acc ++ ks) (S2Keys.fresh acc ++ replicate (length cs) false))).
Proof.
  revert acc s. induction cs as [|c cs IH]; intros acc s; cbn [S2Keys.loadClasses].
  { cbn. split_and!; [done| |by intros c b ?%elem_of_nil|].
    - intros l [= <-]. exists [], []. rewrite !app_nil_r. by destruct acc.
    - intros ks _ Hk%Forall2_nil_inv_l. subst. rewrite !app_nil_r. by destruct acc. }
  unfold bind. pose proof (one_spec (S2Keys.keyPath dir c) s) as Hone.
  destruct (S2Keys.loadOrGenerateOne (S2Keys.keyPath dir c) s) as [[o|] s1]; cbn [fst snd ret];
    destruct Hone as (H1&Hs&Hd&Hr).
  2: { split_and!; [done|done|done|]. intros ks Hrel Hk. apply Forall2_cons_inv_l in Hk as (k&ks'&[Hf Hl]&_&->).
       by specialize (Hr k Hrel Hf Hl). }
  specialize (IH (S2Keys.mkLoaded (S2Keys.keys acc ++ [S2Keys.key o]) (S2Keys.fresh acc ++ [S2Keys.generated o])) s1).
  destruct (S2Keys.loadClasses dir cs _ s1) as [r s2]. destruct IH as (H2&IHs&IHd&IHr).
  destruct (Hs o eq_refl) as (k&g&->&Hf&Hl&Hg). cbn in *. split_and!.
  - by etrans.
  - intros l Hrl. destruct (IHs l Hrl) as (ks&gs&->&Hks&Hgs).
    exists (k :: ks), (g :: gs). cbn. rewrite <-!app_assoc. split_and!; [done| |].
    + constructor; [|done]. split; [by eapply later_lookup|done].
    + constructor; [done|]. eapply Forall2_impl; [exact Hgs|]. intros c' g' Hc' Hg'. specialize (Hc' Hg').
      destruct (files s !! S2Keys.keyPath dir c') as [b|] eqn:Hb; [|done].
      by rewrite (later_lookup _ _ _ _ H1 Hb) in Hc'.
  - intros c' b [->|Hin]%elem_of_cons Hb Hne; [by specialize (Hd b Hb Hne)|].
    by eapply IHd; [|eapply later_lookup|].
  - intros ks Hrel Hk. pose proof (Forall2_cons_inv_l _ _ _ _ Hk) as (k'&ks'&[Hkf Hkl]&Hk'&->).
    specialize (Hr k' Hrel Hkf Hkl). injection Hr as -> ->.
    rewrite (IHr ks'); [|by eapply later_reliable|by eapply stored_later]. cbn. by rewrite <-!app_assoc.
Qed.

Lemma all_spec dir s :
  let (r, s') := S2Keys.loadOrGenerateAll dir s in
  later s s' /\
  (forall l, r = Some l -> Forall2 (stored s' dir) S2Keys.classes (S2Keys.keys l) /\
     (existsb id (S2Keys.fresh l) = true -> exists c, c ∈ S2Keys.classes /\ files s !! S2Keys.keyPath dir c = None)) /\
  (forall c b, c ∈ S2Keys.classes -> files s !! S2Keys.keyPath dir c = Some b -> length b <> KEY_SIZE -> r = None) /\
  (forall ks, reliableFrom s -> Forall2 (stored s dir) S2Keys.classes ks ->
     r = Some (S2Keys.mkLoaded ks (replicate S2Keys.CLASS_COUNT false))).
Proof.
  unfold S2Keys.loadOrGenerateAll, bind.
  destruct (call_reads (fun o fs => (match o with Fails => false | _ => true end, fs)) s) as [H1 E1]; [done|].
  change (call _) with createDirectories in H1, E1.
  destruct (createDirectories s) as [made s1]. cbn [fst snd] in *.
  destruct made; cbn [negb ret]; [|split_and!; try done].
  2: { intros ks Hrel _. rewrite Hrel in E1; done. }
  pose proof (classes_spec dir S2Keys.classes (S2Keys.mkLoaded [] []) s1) as Hc.
  destruct (S2Keys.loadClasses dir _ _ s1) as [r s2]. destruct Hc as (H2&Hs&Hd&Hr). split_and!.
  - by etrans.
  - intros l Hl. destruct (Hs l Hl) as (ks&gs&->&Hks&Hgs). cbn. split; [done|].
    intros (g&Hin%list_elem_of_In&Hg)%existsb_exists. unfold id in Hg. subst g.
    apply list_elem_of_lookup in Hin as [i Hi].
    destruct (Forall2_lookup_r _ _ _ _ _ Hgs Hi) as (c&Hc&Hnone). exists c.
    split; [by eapply list_elem_of_lookup_2|]. specialize (Hnone eq_refl).
    destruct (files s !! S2Keys.keyPath dir c) as [b|] eqn:Hb; [|done].
    by rewrite (later_lookup _ _ _ _ H1 Hb) in Hnone.
  - intros c b Hin Hb Hne. by eapply Hd; [|eapply later_lookup|].
  - intros ks Hrel Hk. apply (Hr ks); [by eapply later_reliable|by eapply stored_later].
Qed.

Lemma stored_unique s dir cs ks ks' :
  Forall2 (stored s dir) cs ks -> Forall2 (stored s dir) cs ks' -> ks' = ks.
Proof.
  intros H1. revert ks'. induction H1 as [|c k cs ks [Hk _] Hks IH]; intros ks' H2; inversion H2 as [|? k' ? ks2 [Hk' _] ?]; subst; [done|].
  f_equal; [congruence|by apply IH].
Qed.

(** ** The keys of the network *)

(** C27: the S2 network keys are written once.  Whatever calls fail or race, a start of
    the daemon loses and changes nothing that was on disk; when it announces the four
    S2 keys they are 16 bytes each and exactly what the files hold,
    announced as new only if a file was missing; and every later start, in the same
    directories, that announces keys announces the same ones, as one whose calls work
    does, as loaded. *)
Theorem network_keys_survive st s g st1 s1 :
  S2Keys.loadKeys st s = ((KeysReady g, st1), s1) ->
  let dir := S2Keys.resolveDir (S2Keys.s2KeyDir st) (S2Keys.stateDir st) in
  later s s1 /\
  exists ks, S2Keys.current st1 = Some ks /\ Forall2 (stored s1 dir) S2Keys.classes ks /\
  (g = true -> exists c, c ∈ S2Keys.classes /\ files s !! S2Keys.keyPath dir c = None) /\
  forall st' s2, later s1 s2 -> S2Keys.resolveDir (S2Keys.s2KeyDir st') (S2Keys.stateDir st') = dir ->
  let '((ev, st2), s3) := S2Keys.loadKeys st' s2 in
  (forall g', ev = KeysReady g' -> S2Keys.current st2 = Some ks) /\
  (reliableFrom s2 -> ev = KeysReady false).
Proof.
  intros Hl dir. unfold S2Keys.loadKeys, bind in Hl. fold dir in Hl.
  pose proof (all_spec dir s) as Ha. destruct (S2Keys.loadOrGenerateAll dir s) as [[l|] s1'];
    cbn [fst snd ret] in *; [|discriminate]. injection Hl as <- <- <-.
  destruct Ha as (Hlt&Hs&_&_). destruct (Hs l eq_refl) as [Hst Hg]. split; [done|].
  exists (S2Keys.keys l). split_and!; [done..|]. intros st' s2 Hlt2 Hdir.
  unfold S2Keys.loadKeys, bind. rewrite Hdir. pose proof (all_spec dir s2) as Hb.
  destruct (S2Keys.loadOrGenerateAll dir s2) as [r s3]. destruct Hb as (Hlt3&Hs2&_&Hr2). cbn [fst snd ret].
  pose proof (stored_later _ _ _ _ _ Hlt2 Hst) as Hst2. specialize (Hr2 (S2Keys.keys l)).
  destruct r as [l2|]; cbn [fst snd]; split.
  - intros g' _. cbn. f_equal. destruct (Hs2 l2 eq_refl) as [Hst3 _].
    by eapply stored_unique; [eapply stored_later, Hst2|].
  - intros Hrel. by injection (Hr2 Hrel Hst2) as ->.
  - done.
  - intros Hrel. by specialize (Hr2 Hrel Hst2).
Qed.

(** A key file of another size is neither used nor replaced.  While it is there,
    whatever else happens, S2 (S0) comes up without keys and reports it, and the file
    stays as it is. *)
Theorem damaged_key_refused s b :
  length b <> KEY_SIZE ->
  (forall st c, let dir := S2Keys.resolveDir (S2Keys.s2KeyDir st) (S2Keys.stateDir st) in
    c ∈ S2Keys.classes -> files s !! S2Keys.keyPath dir c = Some b ->
    let '((ev, st'), s') := S2Keys.loadKeys st s in
    ev = KeysFailed dir /\ st' = st /\ files s' !! S2Keys.keyPath dir c = Some b) /\
  (forall st, let p := S0Key.resolvePath (S0Key.s0KeyFile st) (S0Key.stateDir st) in
    files s !! p = Some b ->
    let '((ev, st'), s') := S0Key.loadKey st s in
    ev = KeysFailed p /\ st' = st /\ files s' !! p = Some b).
Proof.
  intros Hne. split.
  - intros st c dir Hin Hb. unfold S2Keys.loadKeys, bind. fold dir. pose proof (all_spec dir s) as Ha.
    destruct (S2Keys.loadOrGenerateAll dir s) as [r s']. destruct Ha as (Hl&_&Hd&_). cbn.
    rewrite (Hd c b Hin Hb Hne). split_and!; [done..|]. by eapply later_lookup.
  - intros st p Hb. unfold S0Key.loadKey, bind. fold p. pose proof (s0_spec p s) as Ha.
    destruct (S0Key.loadOrGenerate p s) as [r s']. destruct Ha as (Hl&_&Hd&_). cbn.
    rewrite (Hd b Hb Hne). split_and!; [done..|]. by eapply later_lookup.
Qed.

End Keys.

(** ** A host *)

(** Draws keys from the clock; the calls of [faults] go wrong. *)
Definition toyHost (faults : gmap nat Outcome) : Host := {|
  outcome n := default Works (faults !! n); others _ fs := fs;
  entropy n := Some (replicate 16 (Z.of_nat n)); stateDirEnv := None |}.

#[local] Instance toyHost_laws faults : @HostLaws (toyHost faults).
Proof. split; [done|]. by intros n k [= <-]. Qed.

Definition toyState : S2Keys.State := S2Keys.mkState [] [] None.
Definition toyDir : text := lit "/var/lib/zwaved/security/s2".

Definition cutOff : gmap nat Outcome := {[4%nat := Short 3; 5%nat := Fails]}.

(** A start on an empty disk, and the next one. *)
Lemma network_keys_survive_witness :
  let r := S2Keys.loadKeys (H := toyHost ∅) toyState (mkFs ∅ 0) in
  let r2 := S2Keys.loadKeys (H := toyHost ∅) toyState r.2 in
  r.1.1 = KeysReady true /\ S2Keys.current r.1.2 = Some ((fun i => replicate 16 i) <$> [2; 6; 10; 14]) /\
  r2.1.1 = KeysReady false /\
  (forall g, r2.1.1 = KeysReady g -> S2Keys.current r2.1.2 = Some ((fun i => replicate 16 i) <$> [2; 6; 10; 14])).
Proof.
  assert (E : (S2Keys.loadKeys (H := toyHost ∅) toyState (mkFs ∅ 0)).1.1 = KeysReady true) by (vm_compute; reflexivity).
  assert (Ec : S2Keys.current (S2Keys.loadKeys (H := toyHost ∅) toyState (mkFs ∅ 0)).1.2 =
    Some ((fun i => replicate 16 i) <$> [2; 6; 10; 14])) by (vm_compute; reflexivity).
  intros r r2. unfold r2, r in *. clear r r2.
  destruct (S2Keys.loadKeys (H := toyHost ∅) toyState (mkFs ∅ 0)) as [[ev st1] s1] eqn:Hr. cbn [fst snd] in *. subst ev.
  destruct (network_keys_survive (L := toyHost_laws ∅) _ _ _ _ _ Hr) as (_&ks&Hks&_&_&Hlater).
  specialize (Hlater toyState s1 ltac:(by split) eq_refl).
  destruct (S2Keys.loadKeys toyState s1) as [[ev st2] s2]. destruct Hlater as [Hg Hrel]. cbn [fst snd].
  rewrite Hks in Ec. injection Ec as ->. split; [done|]. split; [done|]. split; [|exact Hg]. apply Hrel. intros n _. cbn [outcome toyHost]. by rewrite lookup_empty.
Defined.

(** A write cut short, whose file could not be removed either: S2 is off from then on. *)
Lemma damaged_key_refused_witness :
  let s1 := (S2Keys.loadKeys (H := toyHost cutOff) toyState (mkFs ∅ 0)).2 in
  files s1 !! S2Keys.keyPath toyDir S2Keys.Unauthenticated = Some [2; 2; 2] /\
  (S2Keys.loadKeys (H := toyHost ∅) toyState s1).1.1 = KeysFailed toyDir.
Proof.
  set (s1 := (S2Keys.loadKeys (H := toyHost cutOff) toyState (mkFs ∅ 0)).2).
  assert (Hf : files s1 !! S2Keys.keyPath toyDir S2Keys.Unauthenticated = Some [2; 2; 2]) by by vm_compute.
  split; [exact Hf|].
  destruct (damaged_key_refused (L := toyHost_laws ∅) s1 [2; 2; 2] ltac:(done)) as [H2 _].
  specialize (H2 toyState S2Keys.Unauthenticated ltac:(by left) Hf).
  destruct (S2Keys.loadKeys toyState s1) as [[ev st'] s']. by destruct H2.
Defined.
