(* ===== verification/Logger.v ===== *)
(** * The logger

    [logger/Logger.cpp]: the level gate and the queue the producers push to, the
    consumer thread that drains it in batches, and the readers that turn what the
    process prints into log lines.  The mutex makes each push and each drain one step;
    a run is any interleaving of them.  The rendering of the time stamp and the sinks
    ([syslog], [std::cout]) are left out: an entry that was emitted is in [emitted]. *)

From Stdlib Require Import String Ascii.
From S2P Require Import Prelude Config.
From stdpp Require Import strings relations.
#[local] Open Scope Z_scope.

Module Logger.

Definition QUEUE_DRAIN_BATCH : nat := 64.

(** [Level], and the integer behind it. *)
Inductive Level := Debug | Info | Warn | Error_.
Definition code (l : Level) : Z := match l with Debug => 0 | Info => 1 | Warn => 2 | Error_ => 3 end.

#[global] Instance Level_eq_dec : EqDecision Level.
Proof. solve_decision. Defined.

Record LogEntry := mkEntry { level : Level; message : text }.

Definition levelTag (l : Level) : text :=
  match l with Debug => lit "DEBUG" | Info => lit "INFO " | Warn => lit "WARN " | Error_ => lit "ERROR" end.

(** [syslog]'s priorities: LOG_DEBUG, LOG_INFO, LOG_WARNING, LOG_ERR. *)
Definition levelToSyslog (l : Level) : Z := match l with Debug => 7 | Info => 6 | Warn => 4 | Error_ => 3 end.

(** ** Producers and consumer *)

(** The consumer waits, writes the rest of a batch, or has left its loop. *)
Inductive Consumer := Waiting | Writing (batch : list LogEntry) | Gone.

(** [minLevel] is whatever byte the configuration had, cast to [Level]. *)
Record State := mkState {
  running : bool; minLevel : Z; queue : list LogEntry; consumer : Consumer; emitted : list LogEntry }.

Definition started : State := mkState true (code Info) [] Waiting [].

Definition pushEntry (l : Level) (m : text) (s : State) : State :=
  if code l <? minLevel s then s
  else mkState (running s) (minLevel s) (queue s ++ [mkEntry l m]) (consumer s) (emitted s).

Definition log := pushEntry.
Definition debug := pushEntry Debug.
Definition info := pushEntry Info.
Definition warn := pushEntry Warn.
Definition error := pushEntry Error_.

Definition setMinLevel (l : Z) (s : State) : State :=
  mkState (running s) l (queue s) (consumer s) (emitted s).

(** The destructor's signal. *)
Definition stop (s : State) : State := mkState false (minLevel s) (queue s) (consumer s) (emitted s).

(** The critical section of [loggerThread], once its wait is over. *)
Definition drain (s : State) : State :=
  let take_ := Nat.min (length (queue s)) QUEUE_DRAIN_BATCH in
  let batch := take take_ (queue s) in
  let rest := drop take_ (queue s) in
  if bool_decide (batch = []) && negb (running s)
  then mkState (running s) (minLevel s) rest Gone (emitted s)
  else mkState (running s) (minLevel s) rest (Writing batch) (emitted s).

(** What the consumer does next, [None] while it waits or after it left. *)
Definition consume (s : State) : option State :=
  match consumer s with
  | Waiting => if negb (bool_decide (queue s = [])) || negb (running s) then Some (drain s) else None
  | Writing (e :: batch) => Some (mkState (running s) (minLevel s) (queue s) (Writing batch) (emitted s ++ [e]))
  | Writing [] => Some (mkState (running s) (minLevel s) (queue s) Waiting (emitted s))
  | Gone => None
  end.

(** One step of the process, with the entry it let through the gate. *)
Inductive step : State -> option LogEntry -> State -> Prop :=
| step_push l m s : (code l <? minLevel s) = false -> step s (Some (mkEntry l m)) (pushEntry l m s)
| step_drop l m s : (code l <? minLevel s) = true -> step s None (pushEntry l m s)
| step_level l s : step s None (setMinLevel l s)
| step_stop s : step s None (stop s)
| step_consume s s' : consume s = Some s' -> step s None s'.

(** A run, with the entries let through in order. *)
Inductive run : State -> list LogEntry -> State -> Prop :=
| run_nil s : run s [] s
| run_cons s e s1 es s2 : step s e s1 -> run s1 es s2 -> run s (option_list e ++ es) s2.

(** ** Captured streams *)

Inductive Read := Got (chunk : text) | Eof | Interrupted | Failed.

(** The loop that ships the complete lines of the buffer. *)
Fixpoint ship (fuel : nat) (buffer : text) : list text * text :=
  match fuel with
  | O => ([], buffer)
  | S fuel =>
      match Config.find Config.NEWLINE buffer with
      | None => ([], buffer)
      | Some pos =>
          let line := take pos buffer in
          let (lines, rest) := ship fuel (drop (pos + 1) buffer) in
          (if bool_decide (line = []) then lines else line :: lines, rest)
      end
  end.

(** [captureReaderLoop]: the lines logged. *)
Fixpoint captureReaderLoop (reads : list Read) (buffer : text) : list text :=
  match reads with
  | Got (c :: chunk) :: reads =>
      let buffer := buffer ++ c :: chunk in
      let (lines, rest) := ship (S (length buffer)) buffer in
      lines ++ captureReaderLoop reads rest
  | Interrupted :: reads => captureReaderLoop reads buffer
  | _ => if bool_decide (buffer = []) then [] else [buffer]
  end.

End Logger.

(** * Theorems *)

Import Logger.

(** ** Nothing is lost *)

Definition inHand (s : State) : list LogEntry :=
  emitted s ++ (match consumer s with Writing b => b | _ => [] end) ++ queue s.

(** Once the consumer has left, the daemon has stopped and everything before was
    emitted. *)
Definition sound (s : State) : Prop := consumer s = Gone -> running s = false.

Lemma drain_inHand s : consumer s = Waiting -> inHand (drain s) = inHand s.
Proof.
  unfold inHand, drain. intros ->. set (n := Nat.min _ _).
  destruct (bool_decide (take n (queue s) = []) && negb (running s)) eqn:Hb; cbn.
  - apply andb_prop in Hb as [Ht%bool_decide_eq_true_1 _]. by rewrite <-(take_drop n (queue s)) at 2; rewrite Ht.
  - by rewrite take_drop.
Qed.

Lemma consume_inHand s s' : consume s = Some s' -> inHand s' = inHand s.
Proof.
  unfold consume. destruct (consumer s) as [|[|e batch]|] eqn:Hc; [|intros [= <-]..|done].
  - destruct (_ || _); [|done]. intros [= <-]. by apply drain_inHand.
  - unfold inHand. by rewrite Hc.
  - unfold inHand. rewrite Hc. cbn. by rewrite <-!app_assoc.
Qed.

Lemma step_inHand s e s' : step s e s' -> inHand s' = inHand s ++ option_list e.
Proof.
  intros [l m s1 Hl|l m s1 Hl|l s1|s1|s1 s2 Hc]; cbn [option_list].
  - unfold pushEntry. rewrite Hl. unfold inHand. cbn. by rewrite !app_assoc.
  - unfold pushEntry. rewrite Hl. by rewrite app_nil_r.
  - by rewrite app_nil_r.
  - by rewrite app_nil_r.
  - rewrite app_nil_r. by apply consume_inHand.
Qed.

Lemma run_inHand s es s' : run s es s' -> inHand s' = inHand s ++ es.
Proof.
  induction 1 as [s|s e s1 es s2 Hs Hr IH]; [by rewrite app_nil_r|].
  rewrite IH, (step_inHand _ _ _ Hs). by rewrite <-app_assoc.
Qed.

(** The steps the consumer still has to make once it is told to stop. *)
Fixpoint finish (fuel : nat) (s : State) : State :=
  match fuel with
  | O => s
  | S fuel => match consume s with Some s => finish fuel s | None => s end
  end.

(** Each entry costs at most three steps: a drain, a write and a return to the wait. *)
Definition work (s : State) : nat :=
  (3 * length (queue s) + match consumer s with Writing b => length b + 2 | Waiting => 1 | Gone => 0 end)%nat.

Lemma consume_stopped s :
  running s = false ->
  match consume s with
  | None => consumer s = Gone
  | Some s' => running s' = false /\ (work s' < work s)%nat /\ (consumer s' = Gone -> queue s' = [])
  end.
Proof.
  intros Hr. unfold consume. destruct (consumer s) as [|[|e batch]|] eqn:Hc; [| | |done].
  - rewrite Hr, orb_true_r. unfold drain, work. rewrite Hc, Hr. set (n := Nat.min _ _).
    assert (Hn : (n <= length (queue s) /\ (queue s = [] \/ 0 < n))%nat).
    { unfold n, QUEUE_DRAIN_BATCH. split; [lia|]. destruct (queue s); [by left|right; cbn; lia]. }
    case_bool_decide as Ht; cbn [andb negb running queue consumer].
    + assert (Hq : queue s = []).
      { destruct Hn as [_ [|Hp]]; [done|]. apply (f_equal length) in Ht. rewrite length_take in Ht.
        destruct (queue s); [done|]. cbn in *. lia. }
      rewrite Hq. cbn. destruct n; cbn; split_and!; (done || lia).
    + rewrite length_drop, length_take. split_and!; [done| |done].
      destruct Hn as [? [Hq|]]; [|lia]. destruct Ht. rewrite Hq. by destruct n.
  - cbn. rewrite Hr. unfold work. cbn. rewrite Hc. cbn. split_and!; [done|lia|done].
  - cbn. rewrite Hr. unfold work. cbn. rewrite Hc. cbn. split_and!; [done|lia|done].
Qed.

Lemma finish_gone fuel s :
  running s = false -> (consumer s = Gone -> queue s = []) -> (work s <= fuel)%nat ->
  consumer (finish fuel s) = Gone /\ emitted (finish fuel s) = inHand s.
Proof.
  revert s. induction fuel as [|fuel IH]; intros s Hr Hg Hw; cbn [finish];
    pose proof (consume_stopped s Hr) as Hc; destruct (consume s) as [s'|] eqn:He.
  - lia.
  - unfold inHand. rewrite Hc, Hg by done. by rewrite app_nil_r.
  - destruct Hc as (Hr'&Hlt&Hg'). rewrite <-(consume_inHand _ _ He). apply IH; [done..|lia].
  - unfold inHand. rewrite Hc, Hg by done. by rewrite app_nil_r.
Qed.

(** Whatever the interleaving of producers, level changes and the consumer, what
    was written so far is a prefix of the entries let through the gate, in order; and
    from any point at which the consumer still runs, stopping the daemon ends it
    within a bounded number of its own steps, with every entry written exactly once. *)
Theorem logged_entries_emitted es s :
  run started es s ->
  emitted s `prefix_of` es /\
  (consumer s <> Gone ->
   consumer (finish (work s) (stop s)) = Gone /\ emitted (finish (work s) (stop s)) = es).
Proof.
  intros Hr. pose proof (run_inHand _ _ _ Hr) as Hi. cbn in Hi. split.
  - exists ((match consumer s with Writing b => b | _ => [] end) ++ queue s). by rewrite <-Hi.
  - intros Hc. destruct (finish_gone (work s) (stop s)) as [Hg He]; [done|done|done|].
    split; [done|]. rewrite He. by rewrite <-Hi.
Qed.

Lemma logged_entries_emitted_witness :
  let e1 := mkEntry Warn (lit "a") in let e2 := mkEntry Error_ (lit "b") in
  exists s, run started [e1; e2] s /\ emitted (finish (work s) (stop s)) = [e1; e2].
Proof.
  intros e1 e2.
  assert (Hrun : exists s, consumer s <> Gone /\ run started [e1; e2] s).
  { eexists. split; [|eapply (run_cons _ (Some e1)); [by apply step_push|];
      eapply (run_cons _ None); [by apply step_consume|];
      eapply (run_cons _ None); [by apply (step_level (code Warn))|];
      eapply (run_cons _ None); [by apply (step_drop Info (lit "c"))|];
      eapply (run_cons _ (Some e2)); [by apply step_push|]; apply run_nil]. done. }
  destruct Hrun as (s&Hc&Hr). exists s. split; [exact Hr|]. by apply (logged_entries_emitted _ _ Hr).
Defined.

(** ** Captured lines *)

Abbreviation full := (filter (fun l : text => l <> [])).

Lemma find_spec s :
  match Config.find Config.NEWLINE s with
  | None => Config.NEWLINE ∉ s
  | Some n => s = take n s ++ Config.NEWLINE :: drop (n + 1) s /\ (Config.NEWLINE ∉ take n s)
  end.
Proof.
  induction s as [|c s IH]; [by apply not_elem_of_nil|]. cbn [Config.find]. case_bool_decide as Hc.
  - subst c. cbn. rewrite drop_0. split; [done|apply not_elem_of_nil].
  - destruct (Config.find Config.NEWLINE s) as [n|]; cbn [fmap option_fmap option_map].
    + destruct IH as [E Hn]. cbn. split; [congruence|]. rewrite not_elem_of_cons. split; [congruence|done].
    + rewrite not_elem_of_cons. split; [congruence|done].
Qed.

Lemma full_one (line : text) ls : full (line :: ls) = (if bool_decide (line = []) then [] else [line]) ++ full ls.
Proof. rewrite filter_cons. case_bool_decide; [by rewrite decide_False by (by intros ?)|by rewrite decide_True]. Qed.

(** [ship] takes the complete lines off the front, leaving a partial one. *)
Lemma ship_spec fuel buffer :
  (length buffer < fuel)%nat ->
  let (lines, rest) := ship fuel buffer in
  (Config.NEWLINE ∉ rest) /\
  forall more, full (Config.getlines [] (buffer ++ more)) = lines ++ full (Config.getlines [] (rest ++ more)).
Proof.
  revert buffer. induction fuel as [|fuel IH]; [lia|]. intros buffer Hf. cbn [ship].
  pose proof (find_spec buffer) as Hp. destruct (Config.find _ buffer) as [n|]; [|by split].
  destruct Hp as [E Hn]. specialize (IH (drop (n + 1) buffer)).
  destruct (ship fuel (drop (n + 1) buffer)) as [lines rest].
  destruct IH as [Hr Hm].
  { apply (f_equal length) in E. rewrite length_app, length_cons in E. rewrite length_drop in *. lia. }
  split; [done|]. intros more. rewrite E at 1. rewrite <-app_assoc. cbn [app].
  rewrite getlines_line by done. cbn [app]. rewrite full_one, Hm. case_bool_decide; by rewrite ?app_nil_l.
Qed.

Definition chunksOf (reads : list Read) : text := concat ((fun r => match r with Got c => c | _ => [] end) <$> reads).

Lemma getlines_partial s : Config.NEWLINE ∉ s -> forall acc, Config.getlines acc s = if bool_decide (acc ++ s = []) then [] else [acc ++ s].
Proof.
  induction s as [|c s IH]; intros Hs acc; cbn [Config.getlines]; [by rewrite app_nil_r|].
  apply not_elem_of_cons in Hs as [Hc Hs]. rewrite bool_decide_eq_false_2 by congruence.
  rewrite IH by done. by rewrite <-app_assoc.
Qed.

(** What a captured stream logs are its non-empty lines, the last one with or
    without its newline, however the bytes arrive and however often a read is
    interrupted, until the stream ends or fails. *)
Theorem captured_lines reads last_ :
  Forall (fun r => match r with Got c => c <> [] | Interrupted => True | _ => False end) reads ->
  last_ = Eof \/ last_ = Failed ->
  captureReaderLoop (reads ++ [last_]) [] = full (Config.getlines [] (chunksOf reads)).
Proof.
  intros Hr Hl.
  assert (Hg : forall buffer, Config.NEWLINE ∉ buffer ->
    captureReaderLoop (reads ++ [last_]) buffer = full (Config.getlines [] (buffer ++ chunksOf reads)));
    [|by apply Hg, not_elem_of_nil].
  induction Hr as [|r reads Hr Hrs IH]; intros buffer Hb.
  - unfold chunksOf. cbn. rewrite app_nil_r, (getlines_partial _ Hb). cbn.
    destruct Hl as [-> | ->]; case_bool_decide; try done; by rewrite full_one, bool_decide_eq_false_2.
  - destruct r as [[|c chunk]| | |]; try done; cbn [app captureReaderLoop].
    + pose proof (ship_spec (S (length (buffer ++ c :: chunk))) (buffer ++ c :: chunk) ltac:(lia)) as Hs.
      destruct (ship _ _) as [lines rest]. destruct Hs as [Hrest Hm]. rewrite IH by done.
      rewrite <-Hm. unfold chunksOf. rewrite fmap_cons. cbn [concat]. by rewrite <-app_assoc.
    + by rewrite IH.
Qed.

Lemma captured_lines_witness :
  captureReaderLoop [Got (lit "on"); Interrupted; Got (lit "e" ++ [Config.NEWLINE; Config.NEWLINE] ++ lit "tw"); Got (lit "o"); Eof] [] =
  [lit "one"; lit "two"].
Proof.
  etrans; [apply (captured_lines [Got (lit "on"); Interrupted;
    Got (lit "e" ++ [Config.NEWLINE; Config.NEWLINE] ++ lit "tw"); Got (lit "o")] Eof)|by vm_compute];
    [by repeat constructor|by left].
Defined.
