(* ===== verification/DongleMonitor.v ===== *)
(** * The dongle monitor

    [zwave-dongle/MonitorThread.cpp]: the dongle found at start-up, the udev events
    after it, and the [DongleStatus] the daemon follows.  udev is a parameter: what it
    says of a device is a record, what an enumeration yields a list.  The event loop
    hands over one device after the other; its [select] and log output are left out. *)

From Stdlib Require Import String Ascii.
From S2P Require Import Prelude Config.
From stdpp Require Import strings.
#[local] Open Scope Z_scope.

Module Monitor.

(** A [udev_device]: the values of the functions that may return null. *)
Record Device := mkDevice {
  action : option text; devpath : option text; syspath : option text;
  idVendor : option text; idProduct : option text; devnode : option text }.

(** An entry of an enumeration: its name, and the device opened by it. *)
Record ListEntry := mkListEntry { entryName : option text; opened : option Device }.

(** What udev answers: an enumeration of the ttys, one of the usb devices with a
    vendor and a product, and a device by its path; nothing when the call fails. *)
Class Udev := {
  enumerateTty : option (list ListEntry);
  enumerateUsb : text -> text -> option (list ListEntry);
  newFromSyspath : text -> option Device
}.

Record DongleStatus := mkStatus { connected : bool; ttyPath : text }.

Inductive Published := Status (s : DongleStatus) | UdevInitFailed (message : text).

#[global] Instance DongleStatus_eq_dec : EqDecision DongleStatus.
Proof. solve_decision. Defined.

Section Monitor.
Context (accept : list Config.AcceptedDongleConfig).

Definition isZWaveDongle (dev : Device) : bool :=
  match idVendor dev, idProduct dev with
  | Some v, Some p => existsb (fun entry => bool_decide (Config.vid entry = v) && bool_decide (Config.pid entry = p)) accept
  | _, _ => false
  end.

(** [strncmp(syspath, usbSyspath, strlen(usbSyspath)) == 0] *)
Definition startsWith (prefix s : text) : bool := bool_decide (take (length prefix) s = prefix).

Fixpoint firstTty (usbSyspath : text) (entries : list ListEntry) : text :=
  match entries with
  | [] => []
  | e :: entries =>
      match entryName e with
      | None => firstTty usbSyspath entries
      | Some path =>
          if negb (startsWith usbSyspath path) then firstTty usbSyspath entries else
          match opened e with
          | None => firstTty usbSyspath entries
          | Some tty => default [] (devnode tty)
          end
      end
  end.

Definition findAttachedTtyNode (u : Udev) (usbDevice : Device) : text :=
  match syspath usbDevice with
  | None => []
  | Some path => match enumerateTty with None => [] | Some entries => firstTty path entries end
  end.

Fixpoint firstName (entries : list ListEntry) : option text :=
  match entries with
  | [] => None
  | e :: entries => match entryName e with Some p => Some p | None => firstName entries end
  end.

Fixpoint findAmong (u : Udev) (accepted : list Config.AcceptedDongleConfig) : text :=
  match accepted with
  | [] => []
  | a :: accepted =>
      match enumerateUsb (Config.vid a) (Config.pid a) with
      | None => findAmong u accepted
      | Some entries => match firstName entries with Some p => p | None => findAmong u accepted end
      end
  end.

Definition findAlreadyInsertedZWaveDongleSyspath (u : Udev) : text := findAmong u accept.

Definition openUdevDeviceBySyspath (u : Udev) (path : text) : option Device :=
  match path with [] => None | _ => newFromSyspath path end.

(** What it returns; the rest is log output. *)
Definition logZWaveDongleDetails (usbDevice : Device) : text := default [] (devpath usbDevice).

(** [trackedDevpath] and [trackedTtyNode]. *)
Record Tracked := mkTracked { trackedDevpath : text; trackedTtyNode : text }.

Definition nothing : Tracked := mkTracked [] [].

Definition announce (tty : text) : list Published :=
  if bool_decide (tty = []) then [] else [Status (mkStatus true tty)].

Definition handleDeviceEvent (u : Udev) (dev : Device) (t : Tracked) : list Published * Tracked :=
  match action dev, devpath dev with
  | Some act, Some path =>
      if bool_decide (act = lit "add") then
        if isZWaveDongle dev then
          let t := mkTracked (logZWaveDongleDetails dev) (findAttachedTtyNode u dev) in
          (announce (trackedTtyNode t), t)
        else ([], t)
      else if bool_decide (act = lit "remove") then
        if negb (bool_decide (trackedDevpath t = [])) && bool_decide (trackedDevpath t = path)
        then ([Status (mkStatus false [])], nothing)
        else ([], t)
      else ([], t)
  | _, _ => ([], t)
  end.

(** The start of [zwaveMonitorThread]: [setup] says which of udev's two objects could
    be made; without them the thread ends. *)
Inductive Setup := NoContext | NoMonitor | Ready.

Definition startUp (setup : Setup) (u : Udev) : list Published * option Tracked :=
  match setup with
  | NoContext => ([UdevInitFailed (lit "udev_new() returned NULL")], None)
  | NoMonitor => ([UdevInitFailed (lit "udev_monitor_new_from_netlink() returned NULL")], None)
  | Ready =>
      match openUdevDeviceBySyspath u (findAlreadyInsertedZWaveDongleSyspath u) with
      | None => ([], Some nothing)
      | Some dev =>
          let t := mkTracked (logZWaveDongleDetails dev) (findAttachedTtyNode u dev) in
          (announce (trackedTtyNode t), Some t)
      end
  end.

(** [runMonitorLoop] over the devices it received, each with what udev said then. *)
Fixpoint runMonitorLoop (events : list (Udev * Device)) (t : Tracked) : list Published * Tracked :=
  match events with
  | [] => ([], t)
  | (u, dev) :: events =>
      let (out, t) := handleDeviceEvent u dev t in
      let (outs, t) := runMonitorLoop events t in (out ++ outs, t)
  end.

Definition zwaveMonitorThread (setup : Setup) (u : Udev) (events : list (Udev * Device)) : list Published :=
  let (out, t) := startUp setup u in
  match t with None => out | Some t => out ++ (runMonitorLoop events t).1 end.

End Monitor.
End Monitor.

(** * Theorems *)

Import Monitor.

Section Theorems.
Context (accept : list Config.AcceptedDongleConfig).

(** ** What the daemon should believe *)

(** A dongle is accepted when an entry of the settings has its vendor and its product. *)
Definition accepted (dev : Device) : Prop :=
  Exists (fun a => idVendor dev = Some (Config.vid a) /\ idProduct dev = Some (Config.pid a)) accept.

#[global] Instance accepted_dec dev : Decision (accepted dev).
Proof. unfold accepted. apply _. Defined.

(** The device nodes of the ttys below a path, in udev's order. *)
Definition ttysBelow (path : text) (entries : list ListEntry) : list text :=
  omap (fun e => name ← entryName e;
                 if decide ((path ++ ["/"%char]) `prefix_of` name) then tty ← opened e; devnode tty else None) entries.

Definition ttysOf (u : Udev) (dev : Device) : list text :=
  match syspath dev, enumerateTty with Some path, Some entries => ttysBelow path entries | _, _ => [] end.

Definition ttyOf (u : Udev) (dev : Device) : text := default [] (head (ttysOf u dev)).

(** No tty belongs to a device whose path only begins like this one's ([1-1] and
    [1-10]), and those that can be opened have device nodes. *)
Definition distinct (path : text) (entries : list ListEntry) : Prop :=
  Forall (fun e => forall name, entryName e = Some name -> path `prefix_of` name ->
    (path ++ ["/"%char]) `prefix_of` name /\
    forall tty, opened e = Some tty -> exists node, devnode tty = Some node /\ node <> []) entries.

(** The device has a path and its tty is there. *)
Record attached (u : Udev) (dev : Device) : Prop := mkAttached {
  attached_path : exists path, devpath dev = Some path /\ path <> [];
  attached_distinct : exists path entries, syspath dev = Some path /\ enumerateTty = Some entries /\ distinct path entries;
  attached_tty : ttysOf u dev <> [] }.

(** The dongle in use, as its path and tty: the last accepted one to come, until it goes. *)
Definition follow (e : Udev * Device) (b : option (text * text)) : option (text * text) :=
  let (u, dev) := e in
  if decide (action dev = Some (lit "add") /\ accepted dev) then (fun path => (path, ttyOf u dev)) <$> devpath dev
  else if decide (action dev = Some (lit "remove") /\ devpath dev <> None /\ devpath dev = fst <$> b) then None
  else b.

Definition statusOf (b : option (text * text)) : DongleStatus :=
  match b with Some (_, tty) => mkStatus true tty | None => mkStatus false [] end.

(** An accepted dongle comes with its tty there already. *)
Definition settled (e : Udev * Device) : Prop :=
  let (u, dev) := e in action dev = Some (lit "add") -> accepted dev -> attached u dev.

Definition named (entries : list ListEntry) : list text := omap entryName entries.

(** The accepted dongles there are at the start, in the order of the settings. *)
Definition plugged (u : Udev) : list text :=
  accept ≫= (fun a => default [] (named <$> enumerateUsb (Config.vid a) (Config.pid a))).

(** The first of them. *)
Definition present (u : Udev) : option (text * text) :=
  path ← head (plugged u); dev ← newFromSyspath path; (fun path => (path, ttyOf u dev)) <$> devpath dev.

Definition settledStart (u : Udev) : Prop :=
  forall path dev, head (plugged u) = Some path -> newFromSyspath path = Some dev -> path <> [] /\ attached u dev.

(** ** The code's searches *)

Lemma isZWaveDongle_iff dev : isZWaveDongle accept dev = true <-> accepted dev.
Proof.
  unfold isZWaveDongle, accepted. rewrite Exists_exists. destruct (idVendor dev) as [v|], (idProduct dev) as [p|].
  - rewrite existsb_exists. setoid_rewrite list_elem_of_In. setoid_rewrite andb_true_iff. setoid_rewrite bool_decide_eq_true.
    split; intros (a & Hin & H1 & H2); exists a; split; [done|split; congruence|done|split; congruence].
  - split; [done|]. by intros (a & _ & _ & ?).
  - split; [done|]. by intros (a & _ & ? & _).
  - split; [done|]. by intros (a & _ & ? & _).
Qed.

Lemma startsWith_iff prefix s : startsWith prefix s = true <-> prefix `prefix_of` s.
Proof.
  unfold startsWith. rewrite bool_decide_eq_true. split.
  - intros E. exists (drop (length prefix) s). by rewrite <- E at 1; rewrite take_drop.
  - intros [t ->]. by rewrite take_app_length.
Qed.

Lemma firstTty_below path entries : distinct path entries -> firstTty path entries = default [] (head (ttysBelow path entries)).
Proof.
  induction 1 as [|e entries He _ IH]; [done|]. cbn [firstTty]. unfold ttysBelow. cbn [omap list_omap].
  fold (ttysBelow path entries). destruct (entryName e) as [name|]; cbn [mbind option_bind]; [|done].
  destruct (startsWith path name) eqn:Es; cbn [negb].
  - apply startsWith_iff in Es. destruct (He name eq_refl Es) as [Hb Hn]. rewrite decide_True by done.
    destruct (opened e) as [tty|]; cbn [mbind option_bind]; [|done].
    destruct (Hn tty eq_refl) as (node & -> & _). done.
  - rewrite decide_False; [done|]. intros [t ->]. apply not_true_iff_false in Es. apply Es, startsWith_iff.
    rewrite <- app_assoc. by apply prefix_app_r.
Qed.

Lemma attached_found u dev : attached u dev -> findAttachedTtyNode u dev = ttyOf u dev /\ ttyOf u dev <> [].
Proof.
  intros [_ (path & entries & Hs & He & Hd) Ht]. unfold findAttachedTtyNode, ttyOf, ttysOf in *. rewrite Hs, He in *.
  split; [by apply firstTty_below|]. destruct (ttysBelow path entries) as [|node ns] eqn:E; [done|]. cbn.
  assert (Hin : node ∈ ttysBelow path entries) by (rewrite E; left).
  apply list_elem_of_omap in Hin as (e & Hin & Hnode). unfold distinct in Hd. rewrite Forall_forall in Hd.
  destruct (entryName e) as [name|] eqn:En; [|done]. cbn in Hnode. case_decide as Hp; [|done].
  destruct (Hd e Hin name En) as [_ Hn]; [by etrans; [apply prefix_app_r|]|].
  destruct (opened e) as [tty|]; [|done]. cbn in Hnode. destruct (Hn tty eq_refl) as (n & Hn' & ?). congruence.
Qed.

Lemma firstName_head entries : firstName entries = head (named entries).
Proof. unfold named. induction entries as [|e entries IH]; [done|]. cbn. by destruct (entryName e). Qed.

Lemma findAmong_head u l :
  findAmong u l = default [] (head (l ≫= (fun a => default [] (named <$> enumerateUsb (Config.vid a) (Config.pid a))))).
Proof.
  induction l as [|a l IH]; [done|]. cbn [findAmong]. rewrite bind_cons.
  destruct (enumerateUsb _ _) as [entries|]; [|exact IH]. cbn [fmap option_fmap option_map default from_option].
  rewrite firstName_head. by destruct (named entries).
Qed.

Definition asTracked (b : option (text * text)) : Tracked :=
  match b with Some (path, tty) => mkTracked path tty | None => nothing end.

(** What a client was last told, having been told [s] before. *)
Definition told (out : list Published) (s : DongleStatus) : DongleStatus :=
  default s (last (omap (fun p => match p with Status s => Some s | _ => None end) out)).

Lemma told_app o1 o2 s : told (o1 ++ o2) s = told o2 (told o1 s).
Proof.
  unfold told. rewrite omap_app. set (l1 := omap _ o1). set (l2 := omap _ o2).
  destruct l2 as [|x l2 _] using rev_ind; [by rewrite app_nil_r|]. by rewrite app_assoc, !last_snoc.
Qed.

Lemma event_follows e b :
  settled e -> (forall path tty, b = Some (path, tty) -> path <> []) ->
  let (out, t) := handleDeviceEvent accept e.1 e.2 (asTracked b) in
  t = asTracked (follow e b) /\ told out (statusOf b) = statusOf (follow e b) /\
  (forall path tty, follow e b = Some (path, tty) -> path <> []).
Proof.
  destruct e as [u dev]. intros Hset Hb. unfold handleDeviceEvent, follow, settled in *. cbn [fst snd].
  destruct (action dev) as [act|] eqn:Ha; [|by rewrite !decide_False by naive_solver; split_and!].
  destruct (decide (act = lit "add")) as [->|Hadd].
  - destruct (decide (accepted dev)) as [Hacc|Hacc].
    + rewrite decide_True by done. destruct (Hset eq_refl Hacc) as [(path & Hp & Hne) Hd Ht].
      destruct (attached_found u dev) as [Ef Hf]; [by split; [exists path|..]|]. rewrite Hp. cbn [fmap option_fmap option_map].
      rewrite (bool_decide_eq_true_2 (lit "add" = lit "add")), (proj2 (isZWaveDongle_iff dev)) by done.
      unfold announce, logZWaveDongleDetails. cbn [trackedTtyNode]. rewrite Ef, Hp. cbn [default from_option id].
      rewrite bool_decide_eq_false_2 by done. split_and!; [done..|]. by intros p' t' [= <- <-].
    + rewrite !decide_False by naive_solver. destruct (isZWaveDongle accept dev) eqn:Ei; [by apply isZWaveDongle_iff in Ei|].
      by destruct (devpath dev); rewrite ?bool_decide_eq_true_2 by done; split_and!.
  - rewrite decide_False by naive_solver. destruct (devpath dev) as [path|] eqn:Hp; [|by rewrite decide_False by naive_solver; split_and!].
    rewrite (bool_decide_eq_false_2 (act = lit "add")) by done.
    destruct (decide (act = lit "remove")) as [->|Hrem]; [|rewrite (bool_decide_eq_false_2 _ Hrem), decide_False by naive_solver; by split_and!].
    rewrite (bool_decide_eq_true_2 (lit "remove" = lit "remove")) by done.
    destruct b as [[p t]|]; cbn [asTracked trackedDevpath fmap option_fmap option_map fst].
    + rewrite (bool_decide_eq_false_2 (p = [])) by (by eapply Hb). cbn [negb andb].
      destruct (decide (p = path)) as [->|Hne].
      * rewrite bool_decide_eq_true_2, decide_True by done. by split_and!.
      * rewrite bool_decide_eq_false_2, decide_False by naive_solver. by split_and!.
    + cbn [nothing trackedDevpath]. rewrite (bool_decide_eq_true_2 ([] = [])), decide_False by naive_solver. by split_and!.
Qed.

Lemma loop_follows events b :
  Forall settled events -> (forall path tty, b = Some (path, tty) -> path <> []) ->
  let (out, t) := runMonitorLoop accept events (asTracked b) in
  t = asTracked (foldl (fun b e => follow e b) b events) /\
  told out (statusOf b) = statusOf (foldl (fun b e => follow e b) b events).
Proof.
  intros He. revert b. induction He as [|e events Hset He IH]; intros b Hb; cbn [runMonitorLoop foldl]; [done|].
  destruct e as [u dev]. pose proof (event_follows (u, dev) b Hset Hb) as Hev. cbn [fst snd] in Hev.
  destruct (handleDeviceEvent accept u dev (asTracked b)) as [out t]. destruct Hev as (->&Ht&Hb').
  specialize (IH _ Hb'). destruct (runMonitorLoop accept events _) as [outs t]. destruct IH as [-> Hts].
  split; [done|]. by rewrite told_app, Ht.
Qed.

(** C38: what the daemon was last told is right: connected, at the first tty of the last
    accepted dongle to appear (at the start, of the first accepted one there is), unless
    that very one was removed since; devices of another vendor or product, other removals
    and repeated events change nothing.  Accepted dongles are to have their ttys there
    when udev announces them, ttys are to have device nodes and to be told apart by the
    beginnings of their paths ([distinct]; without it the tty may be a neighbour's,
    [neighbour_tty]). *)
Theorem dongle_status_right u events :
  Forall settled events -> settledStart u ->
  told (zwaveMonitorThread accept Ready u events) (mkStatus false []) =
  statusOf (foldl (fun b e => follow e b) (present u) events).
Proof.
  intros He Hp. unfold zwaveMonitorThread, startUp, findAlreadyInsertedZWaveDongleSyspath, present, settledStart, plugged in *.
  rewrite findAmong_head. destruct (head _) as [path|]; cbn [default from_option id mbind option_bind] in *.
  2: { pose proof (loop_follows events None He ltac:(done)) as Hl. cbn [asTracked openUdevDeviceBySyspath] in *.
       destruct (runMonitorLoop accept events nothing) as [out t]. by destruct Hl as [_ Hl]. }
  specialize (Hp path). destruct (openUdevDeviceBySyspath u path) as [dev|] eqn:Eo.
  - assert (En : newFromSyspath path = Some dev) by by destruct path. rewrite En in *. cbn [mbind option_bind].
    destruct (Hp dev eq_refl eq_refl) as [Hne Hat]. destruct (attached_found u dev Hat) as [Ef Hf].
    destruct Hat as [(dp & Edp & Hdp) _ _]. unfold announce, logZWaveDongleDetails. cbn [trackedTtyNode].
    rewrite Ef, Edp, bool_decide_eq_false_2 by done. cbn [default from_option id fmap option_fmap option_map].
    pose proof (loop_follows events (Some (dp, ttyOf u dev)) He) as Hl.
    cbn [asTracked] in Hl. destruct (runMonitorLoop accept events _) as [out t].
    destruct Hl as [_ Hl]; [by intros ?? [= <- <-]|]. cbn [fst]. by rewrite told_app.
  - assert (En : newFromSyspath path = None).
    { destruct path as [|c path]; [|done]. destruct (newFromSyspath []) as [dev|]; [|done]. by destruct (Hp dev eq_refl eq_refl). }
    rewrite En. cbn [mbind option_bind].
    pose proof (loop_follows events None He ltac:(done)) as Hl. cbn [asTracked] in Hl.
    destruct (runMonitorLoop accept events nothing) as [out t]. by destruct Hl as [_ Hl].
Qed.

End Theorems.

(** ** Devices *)

Definition aeotec (port tty : string) (act : string) : Device :=
  mkDevice (Some (lit act)) (Some (lit port)) (Some (lit ("/sys" ++ port)%string)) (Some (lit "0658")) (Some (lit "0200")) None.
Definition ttyAt (port tty : string) : ListEntry :=
  mkListEntry (Some (lit ("/sys" ++ port ++ "/tty/" ++ tty)%string))
    (Some (mkDevice None None None None None (Some (lit ("/dev/" ++ tty)%string)))).
Definition toyUdev (ttys : list ListEntry) : Udev :=
  {| enumerateTty := Some ttys; enumerateUsb _ _ := Some []; newFromSyspath _ := None |}.

(** A stick of the same vendor that is no dongle. *)
Definition stick (port act : string) : Device :=
  mkDevice (Some (lit act)) (Some (lit port)) (Some (lit ("/sys" ++ port)%string)) (Some (lit "0658")) (Some (lit "0001")) None.

Lemma dongle_status_right_witness :
  let accept := Config.accept Config.defaults in
  let u := toyUdev [ttyAt "/usb1/1-1" "ttyACM0"; ttyAt "/usb1/1-2" "ttyACM1"; ttyAt "/usb1/1-3" "ttyUSB0"] in
  let events := [(u, aeotec "/usb1/1-1" "" "add"); (u, aeotec "/usb1/1-2" "" "add"); (u, stick "/usb1/1-3" "add");
                 (u, aeotec "/usb1/1-1" "" "remove")] in
  told (zwaveMonitorThread accept Ready u events) (mkStatus false []) = mkStatus true (lit "/dev/ttyACM1").
Proof.
  intros accept u events.
  assert (Hat : forall port, port ∈ ["/usb1/1-1"; "/usb1/1-2"]%string -> attached u (aeotec port "" "add")).
  { intros port Hport. split; [exists (lit port); split; [done|]| |].
    - by repeat (apply elem_of_cons in Hport as [->|Hport]; [done|]); apply elem_of_nil in Hport.
    - eexists _, _. split; [done|]. split; [done|].
      repeat (apply elem_of_cons in Hport as [->|Hport]; [|]); [..|by apply elem_of_nil in Hport].
      all: repeat apply Forall_cons_2; try apply Forall_nil_2; intros name [= <-] Hpre;
        first [exfalso; revert Hpre; by apply (bool_decide_unpack _)
              |split; [by apply (bool_decide_unpack _)|intros tty [= <-]; by eexists]].
    - repeat (apply elem_of_cons in Hport as [->|Hport]; [by vm_compute|]). by apply elem_of_nil in Hport. }
  etrans; [apply (dongle_status_right accept u events)|by vm_compute].
  - repeat apply Forall_cons_2; try apply Forall_nil_2; intros Ha Hacc; try done; try (apply Hat; set_solver).
    exfalso. revert Hacc. by apply (bool_decide_unpack (~ _)).
  - intros path dev. done.
Defined.

(** A tty that appears after the usb event is never found: nothing watches for it. *)
Example late_tty_unnoticed :
  let accept := Config.accept Config.defaults in
  let early := toyUdev [] in let late := toyUdev [ttyAt "/usb1/1-1" "ttyACM0"] in
  let tty := mkDevice (Some (lit "add")) (Some (lit "/usb1/1-1/tty/ttyACM0")) None None None (Some (lit "/dev/ttyACM0")) in
  zwaveMonitorThread accept Ready early [(early, aeotec "/usb1/1-1" "" "add"); (late, tty)] = [].
Proof. by vm_compute. Qed.

(** A second dongle without a tty takes over the tracking and leaves the status of
    the first, whose removal then goes unreported. *)
Example removal_unreported :
  let accept := Config.accept Config.defaults in
  let u := toyUdev [ttyAt "/usb1/1-1" "ttyACM0"] in
  zwaveMonitorThread accept Ready u
    [(u, aeotec "/usb1/1-1" "" "add"); (u, aeotec "/usb1/1-2" "" "add"); (u, aeotec "/usb1/1-1" "" "remove")] =
  [Status (mkStatus true (lit "/dev/ttyACM0"))].
Proof. by vm_compute. Qed.

(** The path of the usb device is compared as a prefix without its end: the dongle at
    port 1 is taken to be at the tty of the device at port 10. *)
Example neighbour_tty :
  let accept := Config.accept Config.defaults in
  let u := toyUdev [ttyAt "/usb1/1-10" "ttyUSB7"; ttyAt "/usb1/1-1" "ttyACM0"] in
  zwaveMonitorThread accept Ready u [(u, aeotec "/usb1/1-1" "" "add")] =
  [Status (mkStatus true (lit "/dev/ttyUSB7"))].
Proof. by vm_compute. Qed.
