(* ===== verification/ExternalApi.v ===== *)
(** * The external API

    [external-api/DBusBackend.cpp] and [DBusBackendInternal.hpp]: the state the D-Bus
    backend keeps of the events on the bus, and the handlers of the methods a client
    calls, over the modules whose state they read and change.  A handler runs under
    the locks of what it touches, so that a call is one step.  The table from method
    names to handlers is in [InterfaceManifest.yml]; sdbus-c++ is not modelled. *)

From Stdlib Require Import String.
From S2P Require Import Prelude Sqlite HostApi NodeRegistry PolicyRegister SceneStore NodeStores ProtocolThread ThermostatOrchestrator.
From stdpp Require Import gmap strings sorting.
#[local] Open Scope Z_scope.

Module Dbus.

Definition FLAG_POWER_BIT : Z := 7.
Definition FLAG_NWI_BIT : Z := 6.
Definition FLAG_PROTOCOL_BIT : Z := 5.
Definition FLAG_SFLND_BIT : Z := 4.
Definition FLAG_NWE_BIT : Z := 6.
Definition SEVERITY_INFO : Z := 1.

Definition bitSet (value bit : Z) : bool := negb (Z.land value (u8 (Z.shiftl 1 bit)) =? 0).

(** A [std::array] of four bytes, zero where the vector ends. *)
Definition homeIdFromVector (bytes : list Z) : list Z := (fun i => default 0 (bytes !! i)) <$> seq 0 4.

(** ** State *)

Record DongleStatus := mkDongleStatus { connected : bool; ttyPath : string }.
Record DongleInfo := mkDongleInfo { libraryVersion : string; libraryType : Z; homeId : list Z; controllerNodeId : Z }.
Record InitData := mkInitData { serialApiVersion : Z; capabilities : Z; chipType : Z; chipVersion : Z; nodeIds : list Z }.
Record SessionStatus := mkSessionStatus { active : bool; commandId : Z; sessionId : Z }.
Record DaemonError := mkDaemonError { severity : Z; source : string; code : Z; message : string }.

(** What the backend keeps; [startTime] in nanoseconds. *)
Record Impl := mkImpl {
  lastDongleStatus : DongleStatus;
  lastDongleInfo : DongleInfo;
  lastInitData : InitData;
  lastNodes : list Registry.NodeEntry;
  lastSessionStatus : SessionStatus;
  lastDaemonError : DaemonError;
  lastLogicalThermostat : gmap (string * string) Climate.GroupState;
  startTime : Z }.

Definition newImpl (startTime : Z) : Impl :=
  mkImpl (mkDongleStatus false "") (mkDongleInfo "" 0 [] 0) (mkInitData 0 0 0 0 []) [] (mkSessionStatus false 0 0)
    (mkDaemonError SEVERITY_INFO "" 0 "") ∅ startTime.

(** The events [run] subscribes to. *)
Inductive StateEvent :=
| DongleStatusEvent (status : DongleStatus)
| DongleInfoEvent (info : DongleInfo)
| InitDataEvent (info : InitData)
| NodeListChanged (nodes : list Registry.NodeEntry)
| SessionStatusEvent (status : SessionStatus)
| DaemonErrorEvent (error : DaemonError)
| LogicalThermostatState (state : Climate.GroupState).

(** The subscribers' bodies. *)
Definition keep (e : StateEvent) (i : Impl) : Impl :=
  match e with
  | DongleStatusEvent s =>
      mkImpl s (lastDongleInfo i) (lastInitData i) (lastNodes i) (lastSessionStatus i) (lastDaemonError i)
        (lastLogicalThermostat i) (startTime i)
  | DongleInfoEvent d =>
      mkImpl (lastDongleStatus i) d (lastInitData i) (lastNodes i) (lastSessionStatus i) (lastDaemonError i)
        (lastLogicalThermostat i) (startTime i)
  | InitDataEvent d =>
      mkImpl (lastDongleStatus i) (lastDongleInfo i) d (lastNodes i) (lastSessionStatus i) (lastDaemonError i)
        (lastLogicalThermostat i) (startTime i)
  | NodeListChanged l =>
      mkImpl (lastDongleStatus i) (lastDongleInfo i) (lastInitData i) l (lastSessionStatus i) (lastDaemonError i)
        (lastLogicalThermostat i) (startTime i)
  | SessionStatusEvent s =>
      mkImpl (lastDongleStatus i) (lastDongleInfo i) (lastInitData i) (lastNodes i) s (lastDaemonError i)
        (lastLogicalThermostat i) (startTime i)
  | DaemonErrorEvent e =>
      mkImpl (lastDongleStatus i) (lastDongleInfo i) (lastInitData i) (lastNodes i) (lastSessionStatus i) e
        (lastLogicalThermostat i) (startTime i)
  | LogicalThermostatState s =>
      mkImpl (lastDongleStatus i) (lastDongleInfo i) (lastInitData i) (lastNodes i) (lastSessionStatus i)
        (lastDaemonError i) (<[(Climate.g_key s, Climate.g_value s) := s]> (lastLogicalThermostat i)) (startTime i)
  end.

Record State := mkState {
  impl : Impl;
  registry : Registry.State;
  policies : Register.State;
  metadata : Metadata.State;
  values : Values.State;
  scenes : Scene.State }.

(** What a handler publishes: commands to the protocol thread and to the logical
    thermostats, and what the stores announce. *)
Inductive Published :=
| ToThread (i : ProtocolThread.Input)
| ToClimate (i : Climate.Input)
| FromPolicies (e : Register.Event)
| FromMetadata (e : Metadata.Event).

Definition M (A : Type) : Type := State -> A * list Published * State.
#[global] Instance M_ret : MRet M := fun A a st => (a, [], st).
#[global] Instance M_bind : MBind M := fun A B k m st =>
  let '(a, out, st) := m st in let '(b, out', st) := k a st in (b, out ++ out', st).

Definition publish (p : Published) : M unit := fun st => (tt, [p], st).
Definition cached {A} (f : Impl -> A) : M A := fun st => (f (impl st), [], st).
Definition onPolicies {A} (f : Register.State -> A * Register.State) : M A := fun st =>
  let (a, s) := f (policies st) in
  (a, [], mkState (impl st) (registry st) s (metadata st) (values st) (scenes st)).
Definition changePolicies (f : Register.State -> list Register.Event * Register.State) : M unit := fun st =>
  let (out, s) := f (policies st) in
  (tt, FromPolicies <$> out, mkState (impl st) (registry st) s (metadata st) (values st) (scenes st)).
Definition onMetadata {A} (f : Metadata.State -> A * Metadata.State) : M A := fun st =>
  let (a, s) := f (metadata st) in
  (a, [], mkState (impl st) (registry st) (policies st) s (values st) (scenes st)).
Definition changeMetadata (f : Metadata.State -> list Metadata.Event * Metadata.State) : M unit := fun st =>
  let (out, s) := f (metadata st) in
  (tt, FromMetadata <$> out, mkState (impl st) (registry st) (policies st) s (values st) (scenes st)).
Definition onValues {A} (f : Values.State -> A * Values.State) : M A := fun st =>
  let (a, s) := f (values st) in
  (a, [], mkState (impl st) (registry st) (policies st) (metadata st) s (scenes st)).
Definition onScenes {A} (f : Scene.State -> A * Scene.State) : M A := fun st =>
  let (a, s) := f (scenes st) in
  (a, [], mkState (impl st) (registry st) (policies st) (metadata st) (values st) s).
Definition changeScenes (f : Scene.State -> Scene.State) : M unit := onScenes (fun s => (tt, f s)).

(** ** The tuples on the wire *)

Definition NodeTuple : Type := (Z * Z * Z * Z * list Z)%type.
Definition NodeInfoTuple : Type := (Z * Z * Z * Z * list Z * Z * Z * Z * Z * Z * Z * Z * Z * Z * Z * bool * bool * Z * Z * Z * Z * Z)%type.
Definition DongleInfoTuple : Type := (string * Z * list Z * Z)%type.
Definition InitDataTuple : Type := (Z * Z * list Z * Z * Z)%type.
Definition DaemonVersionTuple : Type := (string * string)%type.
Definition DevicePolicyTuple : Type := (Z * Z * Z * list Z)%type.
Definition NodeMetadataTuple : Type := (string * string)%type.
Definition NodeValueTuple : Type := (string * string * Z)%type.
Definition SceneActionEntry : Type := (Z * list Z)%type.
Definition SceneTriggerEntry : Type := (Z * Z * Z * Z * string)%type.
Definition DaemonErrorTuple : Type := (Z * string * Z * string)%type.
Definition LogicalThermostatStateTuple : Type := (Z * Z * Z * Z * Z * Z * Z * Z)%type.
Definition NetworkStatusTuple : Type := (bool * string * string * Z * Z * bool * Z * Z * Z)%type.

(** The generated [Version.hpp]. *)
Class Version := { SEMVER : string; GIT_DESCRIBE : string }.

Section Handlers.
Context `{Oob} `{SqliteEnv} `{Version}.

(** ** Inclusion and associations *)

Definition emitAddNode (mode flags sessionId : Z) (nwiHomeId authHomeId : list Z) : M unit :=
  publish (ToThread (AddNodeCommand
    {| an_mode := mode;
       an_power := bitSet flags FLAG_POWER_BIT;
       an_nwi := bitSet flags FLAG_NWI_BIT;
       an_protocolLongRange := bitSet flags FLAG_PROTOCOL_BIT;
       an_skipFlNeighbors := bitSet flags FLAG_SFLND_BIT;
       an_sessionId := sessionId;
       an_includeHomeIds := negb (bool_decide (nwiHomeId = [])) || negb (bool_decide (authHomeId = []));
       an_nwiHomeId := homeIdFromVector nwiHomeId;
       an_authHomeId := homeIdFromVector authHomeId |})).

Definition emitRemoveNode (mode flags sessionId : Z) : M unit :=
  publish (ToThread (RemoveNodeCommand
    {| rn_mode := mode;
       rn_power := bitSet flags FLAG_POWER_BIT;
       rn_nwe := bitSet flags FLAG_NWE_BIT;
       rn_sessionId := sessionId |})).

Definition convertEndpointPairs (pairs : list (Z * Z)) : list (Z * Z) := (fun p => (p.1, p.2)) <$> pairs.

Definition emitSetMultichannelAssociation (nodeId groupId : Z) (nodeMembers : list Z)
    (endpointMembers : list (Z * Z)) (callbackId : Z) : M unit :=
  publish (ToThread (Command nodeId callbackId
    (Thread.SetMultichannelAssociationCommand groupId nodeMembers (convertEndpointPairs endpointMembers)))).

Definition emitRemoveMultichannelAssociation (nodeId groupId : Z) (nodeMembers : list Z)
    (endpointMembers : list (Z * Z)) (callbackId : Z) : M unit :=
  publish (ToThread (Command nodeId callbackId
    (Thread.RemoveMultichannelAssociationCommand groupId nodeMembers (convertEndpointPairs endpointMembers)))).

(** ** What the backend keeps *)

Definition nodeTuple (i : Registry.NodeEntry) : NodeTuple :=
  let c := Registry.e_class i in
  (Registry.e_nodeId i, Registry.basicType c, Registry.genericType c, Registry.specificType c, Registry.e_ccs i).

Definition emitGetNodes : M (list NodeTuple) := cached (fun i => nodeTuple <$> lastNodes i).

Definition nodeInfoTuple (i : Registry.NodeInfo) : NodeInfoTuple :=
  let c := Registry.deviceClass i in let d := Registry.identity i in let v := Registry.version i in
  let e := Registry.endpoints i in let z := Registry.zwavePlus i in
  (Registry.nodeId i, Registry.basicType c, Registry.genericType c, Registry.specificType c,
   Registry.commandClasses i, Registry.securityScheme i,
   Registry.manufacturerId d, Registry.productTypeId d, Registry.productId d,
   Registry.libraryType v, Registry.protocolVersion v, Registry.protocolSubVersion v,
   Registry.applicationVersion v, Registry.applicationSubVersion v,
   Registry.endpointCount e, Registry.endpointsDynamic e, Registry.endpointsIdentical e,
   Registry.zwavePlusVersion z, Registry.roleType z, Registry.nodeType z,
   Registry.installerIconType z, Registry.userIconType z).

Definition unknownNode (nodeId : Z) : NodeInfoTuple :=
  (nodeId, 0, 0, 0, [], 0, 0, 0, 0, 0, 0, 0, 0, 0, 0, false, false, 0, 0, 0, 0, 0).

Definition emitGetNodeInfo (nodeId : Z) : M NodeInfoTuple := fun st =>
  (match List.find (fun info => Registry.nodeId info =? nodeId) (Registry.snapshot (registry st)) with
   | Some info => nodeInfoTuple info
   | None => unknownNode nodeId
   end, [], st).

Definition emitGetDongleInfo : M DongleInfoTuple := cached (fun i =>
  let d := lastDongleInfo i in (libraryVersion d, libraryType d, homeId d, controllerNodeId d)).

Definition emitGetInitData : M InitDataTuple := cached (fun i =>
  let d := lastInitData i in (serialApiVersion d, capabilities d, nodeIds d, chipType d, chipVersion d)).

Definition emitGetVersion : M DaemonVersionTuple := mret (SEMVER, GIT_DESCRIBE).

(** [now] is the steady clock, in nanoseconds. *)
Definition emitGetNetworkStatus (now : Z) : M NetworkStatusTuple := cached (fun i =>
  (connected (lastDongleStatus i), ttyPath (lastDongleStatus i), formatHomeId (homeId (lastDongleInfo i)),
   controllerNodeId (lastDongleInfo i), u32 (zlen (lastNodes i)), active (lastSessionStatus i),
   commandId (lastSessionStatus i), sessionId (lastSessionStatus i),
   Climate.u64 ((now - startTime i) `quot` 1000000000))).

Definition emitGetDaemonError : M DaemonErrorTuple := cached (fun i =>
  let e := lastDaemonError i in (severity e, source e, code e, message e)).

(** ** Policies *)

Definition emitSetDevicePolicy (manufacturerId productTypeId productId : Z) (policy : list Z) : M unit :=
  match Policy.deserialize policy with
  | None => mret tt
  | Some decoded =>
      changePolicies (Register.setDevicePolicy (Register.mkDevice manufacturerId productTypeId productId) decoded)
  end.

Definition blobOf (policy : option Policy.t) : list Z :=
  match policy with Some p => Policy.serialize p | None => [] end.

Definition emitGetDevicePolicy (manufacturerId productTypeId productId : Z) : M (list Z) :=
  policy ← onPolicies (Register.devicePolicy (Register.mkDevice manufacturerId productTypeId productId));
  mret (blobOf policy).

Definition emitDeleteDevicePolicy (manufacturerId productTypeId productId : Z) : M unit :=
  changePolicies (Register.deleteDevicePolicy (Register.mkDevice manufacturerId productTypeId productId)).

Definition emitListDevicePolicies : M (list DevicePolicyTuple) :=
  rows ← onPolicies Register.listDevicePolicies;
  mret ((fun row : Register.DeviceId * Policy.t =>
           (Register.manufacturerId row.1, Register.productTypeId row.1, Register.productId row.1,
            Policy.serialize row.2)) <$> rows).

Definition emitSetNodeOverride (nodeId : Z) (policy : list Z) : M unit :=
  match Policy.deserialize policy with
  | None => mret tt
  | Some decoded => changePolicies (Register.setNodeOverride nodeId decoded)
  end.

Definition emitGetNodeOverride (nodeId : Z) : M (list Z) :=
  policy ← onPolicies (Register.nodeOverride nodeId); mret (blobOf policy).

Definition emitDeleteNodeOverride (nodeId : Z) : M unit := changePolicies (Register.deleteNodeOverride nodeId).

Definition emitGetEffectivePolicy (nodeId : Z) : M (list Z) :=
  policy ← onPolicies (Register.effectivePolicy nodeId); mret (Policy.serialize policy).

(** ** Metadata and values *)

Definition emitSetNodeMetadata (nodeId : Z) (key value : string) : M unit :=
  changeMetadata (Metadata.set nodeId key value).

Definition emitGetNodeMetadata (nodeId : Z) : M (list NodeMetadataTuple) :=
  entries ← onMetadata (Metadata.getAll nodeId);
  mret ((fun entry => (Metadata.key entry, Metadata.value entry)) <$> entries).

Definition emitGetNodeValues (nodeId : Z) : M (list NodeValueTuple) :=
  entries ← onValues (Values.getAll nodeId);
  mret ((fun entry => (Values.valueId entry, Values.value entry, Climate.u64 (Values.updatedAt entry))) <$> entries).

Definition emitDeleteNodeMetadata (nodeId : Z) (key : string) : M unit :=
  changeMetadata (Metadata.remove nodeId key).

Definition emitGetNodesByMetadata (key value : string) : M (list Z) := onMetadata (Metadata.nodesWith key value).

(** ** Scenes and their triggers *)

Definition convertSceneActions (wire : list SceneActionEntry) : list Scene.Action :=
  (fun entry => Scene.mkAction entry.1 entry.2) <$> wire.

Definition emitSetScene (sceneId : string) (actions : list SceneActionEntry) : M unit :=
  changeScenes (Scene.setScene sceneId (convertSceneActions actions)).

Definition emitGetScene (sceneId : string) : M (list SceneActionEntry) :=
  actions ← onScenes (Scene.getScene sceneId);
  mret ((fun action => (Scene.targetNodeId action, Scene.ccPayload action)) <$> default [] actions).

Definition emitDeleteScene (sceneId : string) : M unit := changeScenes (Scene.deleteScene sceneId).

Definition emitListScenes : M (list string) := onScenes Scene.listScenes.

Definition emitBindSceneTrigger (source sourceNodeId sceneNumber keyAttribute : Z) (sceneId : string) : M unit :=
  changeScenes (Scene.bindTrigger (Scene.mkKey source sourceNodeId sceneNumber keyAttribute) sceneId).

Definition emitUnbindSceneTrigger (source sourceNodeId sceneNumber keyAttribute : Z) : M unit :=
  changeScenes (Scene.unbindTrigger (Scene.mkKey source sourceNodeId sceneNumber keyAttribute)).

Definition emitListSceneTriggers : M (list SceneTriggerEntry) :=
  triggers ← onScenes Scene.listTriggers;
  mret ((fun t : Scene.Key * string =>
           (Scene.source t.1, Scene.sourceNodeId t.1, Scene.sceneNumber t.1, Scene.keyAttribute t.1, t.2)) <$> triggers).

(** ** Logical thermostats *)

Definition emitSetLogicalThermostatMode (groupKey groupValue : string) (mode : Z) : M unit :=
  publish (ToClimate (Climate.ModeCommand (groupKey, groupValue) mode)).

Definition emitSetLogicalThermostatSetpoint (groupKey groupValue : string)
    (setpointType precision scale value : Z) : M unit :=
  publish (ToClimate (Climate.SetpointCommand (groupKey, groupValue)
    {| Climate.s_type := setpointType; Climate.s_scale := scale; Climate.s_precision := precision;
       Climate.s_value := value |})).

Definition emitGetLogicalThermostatState (groupKey groupValue : string) : M LogicalThermostatStateTuple :=
  cached (fun i =>
    match lastLogicalThermostat i !! (groupKey, groupValue) with
    | None => (0, 0, 0, 0, 0, 0, 0, 0)
    | Some s =>
        let p := Climate.g_setpoint s in
        (Climate.memberCount s, Climate.g_mode s, Climate.g_operatingState s, Climate.g_fanMode s,
         Climate.s_type p, Climate.s_scale p, Climate.s_precision p, Climate.s_value p)
    end).

(** ** The methods *)

(** Those that read and change the stores. *)
Inductive StoreMethod :=
| SetDevicePolicy (device : Register.DeviceId) (policy : list Z)
| GetDevicePolicy (device : Register.DeviceId)
| DeleteDevicePolicy (device : Register.DeviceId)
| ListDevicePolicies
| SetNodeOverride (nodeId : Z) (policy : list Z)
| GetNodeOverride (nodeId : Z)
| DeleteNodeOverride (nodeId : Z)
| GetEffectivePolicy (nodeId : Z)
| SetNodeMetadata (nodeId : Z) (key value : string)
| GetNodeMetadata (nodeId : Z)
| DeleteNodeMetadata (nodeId : Z) (key : string)
| GetNodesByMetadata (key value : string)
| SetScene (sceneId : string) (actions : list SceneActionEntry)
| GetScene (sceneId : string)
| DeleteScene (sceneId : string)
| ListScenes
| BindSceneTrigger (k : Scene.Key) (sceneId : string)
| UnbindSceneTrigger (k : Scene.Key)
| ListSceneTriggers.

(** The others; [Send] stands for the methods that publish a command as it came. *)
Inductive Method :=
| Stored (m : StoreMethod)
| Send (command : ProtocolThread.Input)
| AddNode (mode flags sessionId : Z) (nwiHomeId authHomeId : list Z)
| RemoveNode (mode flags sessionId : Z)
| SetMultichannelAssociation (nodeId groupId : Z) (nodeMembers : list Z) (endpointMembers : list (Z * Z)) (callbackId : Z)
| RemoveMultichannelAssociation (nodeId groupId : Z) (nodeMembers : list Z) (endpointMembers : list (Z * Z)) (callbackId : Z)
| GetNodes
| GetNodeInfo (nodeId : Z)
| GetDongleInfo
| GetInitData
| GetVersion
| GetNetworkStatus (now : Z)
| GetDaemonError
| GetNodeValues (nodeId : Z)
| SetLogicalThermostatMode (groupKey groupValue : string) (mode : Z)
| SetLogicalThermostatSetpoint (groupKey groupValue : string) (setpointType precision scale value : Z)
| GetLogicalThermostatState (groupKey groupValue : string).

Inductive Result :=
| RVoid
| RNodes (l : list NodeTuple) | RNodeInfo (t : NodeInfoTuple) | RDongleInfo (t : DongleInfoTuple)
| RInitData (t : InitDataTuple) | RVersion (t : DaemonVersionTuple) | RStatus (t : NetworkStatusTuple)
| RError (t : DaemonErrorTuple) | RBytes (l : list Z) | RPolicies (l : list DevicePolicyTuple)
| RMetadata (l : list NodeMetadataTuple) | RValues (l : list NodeValueTuple) | RActions (l : list SceneActionEntry)
| RTexts (l : list string) | RTriggers (l : list SceneTriggerEntry) | RThermostat (t : LogicalThermostatStateTuple).

(** The reply of a method with or without results. *)
Definition void (m : M unit) : M Result := _ ← m; mret RVoid.
Definition yields {A} (r : A -> Result) (m : M A) : M Result := a ← m; mret (r a).

Definition callStore (m : StoreMethod) : M Result :=
  match m with
  | SetDevicePolicy d p =>
      void (emitSetDevicePolicy (Register.manufacturerId d) (Register.productTypeId d) (Register.productId d) p)
  | GetDevicePolicy d =>
      yields RBytes (emitGetDevicePolicy (Register.manufacturerId d) (Register.productTypeId d) (Register.productId d))
  | DeleteDevicePolicy d =>
      void (emitDeleteDevicePolicy (Register.manufacturerId d) (Register.productTypeId d) (Register.productId d))
  | ListDevicePolicies => yields RPolicies emitListDevicePolicies
  | SetNodeOverride n p => void (emitSetNodeOverride n p)
  | GetNodeOverride n => yields RBytes (emitGetNodeOverride n)
  | DeleteNodeOverride n => void (emitDeleteNodeOverride n)
  | GetEffectivePolicy n => yields RBytes (emitGetEffectivePolicy n)
  | SetNodeMetadata n k v => void (emitSetNodeMetadata n k v)
  | GetNodeMetadata n => yields RMetadata (emitGetNodeMetadata n)
  | DeleteNodeMetadata n k => void (emitDeleteNodeMetadata n k)
  | GetNodesByMetadata k v => yields RBytes (emitGetNodesByMetadata k v)
  | SetScene s l => void (emitSetScene s l)
  | GetScene s => yields RActions (emitGetScene s)
  | DeleteScene s => void (emitDeleteScene s)
  | ListScenes => yields RTexts emitListScenes
  | BindSceneTrigger k s =>
      void (emitBindSceneTrigger (Scene.source k) (Scene.sourceNodeId k) (Scene.sceneNumber k) (Scene.keyAttribute k) s)
  | UnbindSceneTrigger k =>
      void (emitUnbindSceneTrigger (Scene.source k) (Scene.sourceNodeId k) (Scene.sceneNumber k) (Scene.keyAttribute k))
  | ListSceneTriggers => yields RTriggers emitListSceneTriggers
  end.

Definition call (m : Method) : M Result :=
  match m with
  | Stored m => callStore m
  | Send command => void (publish (ToThread command))
  | AddNode mode flags s nwi auth => void (emitAddNode mode flags s nwi auth)
  | RemoveNode mode flags s => void (emitRemoveNode mode flags s)
  | SetMultichannelAssociation n g ms es cb => void (emitSetMultichannelAssociation n g ms es cb)
  | RemoveMultichannelAssociation n g ms es cb => void (emitRemoveMultichannelAssociation n g ms es cb)
  | GetNodes => yields RNodes emitGetNodes
  | GetNodeInfo n => yields RNodeInfo (emitGetNodeInfo n)
  | GetDongleInfo => yields RDongleInfo emitGetDongleInfo
  | GetInitData => yields RInitData emitGetInitData
  | GetVersion => yields RVersion emitGetVersion
  | GetNetworkStatus now => yields RStatus (emitGetNetworkStatus now)
  | GetDaemonError => yields RError emitGetDaemonError
  | GetNodeValues n => yields RValues (emitGetNodeValues n)
  | SetLogicalThermostatMode k v m => void (emitSetLogicalThermostatMode k v m)
  | SetLogicalThermostatSetpoint k v t p s x => void (emitSetLogicalThermostatSetpoint k v t p s x)
  | GetLogicalThermostatState k v => yields RThermostat (emitGetLogicalThermostatState k v)
  end.

(** ** The daemon around them *)

Definition onImpl (f : Impl -> Impl) (st : State) : State :=
  mkState (f (impl st)) (registry st) (policies st) (metadata st) (values st) (scenes st).

(** A change of the registry, whose announcements the backend hears. *)
Definition onRegistry (f : Registry.State -> list (list Registry.NodeEntry) * Registry.State) (st : State) : State :=
  let (announced, r) := f (registry st) in
  mkState (foldl (fun i l => keep (NodeListChanged l) i) (impl st) announced) r (policies st) (metadata st)
    (values st) (scenes st).

(** The bring-up of a dongle: every store is bound to its network. *)
Definition networkUp (info : DongleInfo) (st : State) : State :=
  let st := onRegistry (Registry.setHomeId (homeId info)) st in
  mkState (keep (DongleInfoEvent info) (impl st)) (registry st) (Register.setHomeId (homeId info) (policies st))
    (Metadata.setHomeId (homeId info) (metadata st)) (Values.setHomeId (homeId info) (values st))
    (Scene.setHomeId (homeId info) (scenes st)).

(** What reaches the daemon: events, changes of the registry, a dongle, the report of
    a node's identity, readings, and calls. *)
Inductive Input :=
| Heard (e : StateEvent)
| RegistryChange (op : Registry.Op)
| NetworkUp (info : DongleInfo)
| IdentityReported (nodeId : Z) (device : Register.DeviceId)
| ValueReported (r : Values.Report) (now : Z)
| Called (m : Method).

Definition step (i : Input) (st : State) : Result * list Published * State :=
  match i with
  | Heard e => (RVoid, [], onImpl (keep e) st)
  | RegistryChange op => (RVoid, [], onRegistry (Registry.step op) st)
  | NetworkUp info => (RVoid, [], networkUp info st)
  | IdentityReported n d =>
      (RVoid, [], mkState (impl st) (registry st) (Register.noteDeviceIdentity n d (policies st)) (metadata st)
                    (values st) (scenes st))
  | ValueReported r now =>
      (RVoid, [], mkState (impl st) (registry st) (policies st) (metadata st)
                    (Values.onInput (Values.Reported r now) (values st)).2 (scenes st))
  | Called m => call m st
  end.

Fixpoint run (ins : list Input) (st : State) : list (Result * list Published) * State :=
  match ins with
  | [] => ([], st)
  | i :: ins => let '(r, out, st) := step i st in let (outs, st) := run ins st in ((r, out) :: outs, st)
  end.
End Handlers.
End Dbus.

Import Dbus.

(** ** The node list and the registry *)

(** The fields of an entry a change of the registry announces. *)
Definition lean (i : Registry.NodeInfo) : Registry.NodeEntry :=
  Registry.mkEntry (Registry.nodeId i) (Registry.deviceClass i) (Registry.commandClasses i).

Lemma lean_insert (m : gmap Z Registry.NodeInfo) n i j :
  m !! n = Some i -> lean j = lean i ->
  lean <$> Registry.inOrder (<[n := j]> m) = lean <$> Registry.inOrder m.
Proof.
  intros Hi Hj. unfold Registry.inOrder. generalize (seqZ 0 256). intros l. induction l as [|x l IH]; [done|].
  cbn [omap list_omap]. destruct (decide (n = x)) as [<-|Hne].
  - rewrite lookup_insert_eq, Hi. cbn. by rewrite Hj, IH.
  - rewrite lookup_insert_ne by done. destruct (m !! x); cbn; by rewrite IH.
Qed.

Section Views.
Context `{Oob} `{SqliteEnv} `{Version}.

(** What the last announcement says, or the old list when there was none. *)
Definition announced (ev : list (list Registry.NodeEntry)) (old : list Registry.NodeEntry) : list Registry.NodeEntry :=
  default old (last ev).

Lemma recordField_view n f stmt st :
  (forall i, lean (f i) = lean i) ->
  Registry.snapshotEvent (Registry.recordField n f stmt st) = Registry.snapshotEvent st.
Proof.
  intros Hf. unfold Registry.recordField. destruct (Registry.nodes st !! n) as [i|] eqn:Hi; [|done].
  pose proof (lean_insert _ n i (f i) Hi (Hf i)) as E. unfold Registry.snapshotEvent. fold lean.
  destruct (Registry.currentHomeId st); [|exact E]. destruct (valid _); exact E.
Qed.

Lemma withBoundHome_seen mutator st :
  (forall h, (mutator h st).1 = false -> (mutator h st).2 = st) ->
  let (ev, st') := Registry.withBoundHome mutator st in
  announced ev (Registry.snapshotEvent st) = Registry.snapshotEvent st'.
Proof.
  intros Hm. unfold Registry.withBoundHome. destruct (Registry.currentHomeId st) as [h|]; [|done].
  specialize (Hm h). destruct (mutator h st) as [[] st']; cbn in *; [done|]. by rewrite Hm.
Qed.

(** Every change of the registry that clients can see is announced. *)
Lemma registry_step_view op st :
  let (ev, st') := Registry.step op st in announced ev (Registry.snapshotEvent st) = Registry.snapshotEvent st'.
Proof.
  destruct op; cbn [Registry.step];
    try (apply withBoundHome_seen; intros h; (by destruct (Registry.nodes st !! _)) || done);
    try (symmetry; by apply recordField_view).
  unfold Registry.setHomeId. case_decide; [done|]. by destruct (valid _); [destruct (Registry.loadNodesForHome _ _)|].
Qed.

(** The backend's list is the registry's. *)
Record viewed (st : State) : Prop := {
  v_nodes : lastNodes (impl st) = Registry.snapshotEvent (registry st);
  v_typed : Registry.well_typed (registry st) }.

Lemma keep_list l i : lastNodes (foldl (fun i l => keep (NodeListChanged l) i) i l) = announced l (lastNodes i).
Proof.
  unfold announced. revert i. induction l as [|x l IH]; intros i; [done|]. cbn [foldl]. rewrite IH, last_cons.
  by destruct (last l).
Qed.

Lemma onRegistry_viewed op st :
  Registry.typed op -> viewed st -> viewed (onRegistry (Registry.step op) st).
Proof.
  intros Ht [Hn Hw]. pose proof (registry_step_view op (registry st)) as E.
  pose proof (Registry.step_well_typed op _ Hw Ht) as Hw'. unfold onRegistry.
  destruct (Registry.step op (registry st)) as [ev r]. split; [|done]. cbn. by rewrite keep_list, Hn.
Qed.

Create HintDb keeps.

(** A program that leaves what is kept and the registry alone. *)
Definition keeps {A} (m : M A) : Prop := forall st, impl (m st).2 = impl st /\ registry (m st).2 = registry st.

Lemma keeps_ret {A} (a : A) : keeps (mret a).
Proof. by intros st. Qed.
Lemma keeps_bind {A B} (m : M A) (k : A -> M B) : keeps m -> (forall a, keeps (k a)) -> keeps (m ≫= k).
Proof.
  intros Hm Hk st. unfold mbind, M_bind. destruct (Hm st) as [E1 E2]. destruct (m st) as [[a out] st'].
  destruct (Hk a st') as [E3 E4]. destruct (k a st') as [[b out'] st'']. cbn in *. by rewrite E3, E4.
Qed.
Lemma keeps_publish p : keeps (publish p).
Proof. by intros st. Qed.
Lemma keeps_cached {A} (f : Impl -> A) : keeps (cached f).
Proof. by intros st. Qed.
Lemma keeps_policies {A} (f : Register.State -> A * Register.State) : keeps (onPolicies f).
Proof. intros st. unfold onPolicies. by destruct (f _). Qed.
Lemma keeps_change_policies f : keeps (changePolicies f).
Proof. intros st. unfold changePolicies. by destruct (f _). Qed.
Lemma keeps_metadata {A} (f : Metadata.State -> A * Metadata.State) : keeps (onMetadata f).
Proof. intros st. unfold onMetadata. by destruct (f _). Qed.
Lemma keeps_change_metadata f : keeps (changeMetadata f).
Proof. intros st. unfold changeMetadata. by destruct (f _). Qed.
Lemma keeps_values {A} (f : Values.State -> A * Values.State) : keeps (onValues f).
Proof. intros st. unfold onValues. by destruct (f _). Qed.
Lemma keeps_scenes {A} (f : Scene.State -> A * Scene.State) : keeps (onScenes f).
Proof. intros st. unfold onScenes. by destruct (f _). Qed.
#[local] Hint Resolve keeps_ret keeps_bind keeps_publish keeps_cached keeps_policies keeps_change_policies
  keeps_metadata keeps_change_metadata keeps_values keeps_scenes : keeps.

Lemma call_keeps m : keeps (call m).
Proof.
  destruct m as [[]| | | | | | | | | | | | | | | |]; try (cbn; unfold void, yields; eauto with keeps; fail).
  - cbn. apply keeps_bind; [|auto with keeps]. unfold emitSetDevicePolicy. case_match; auto with keeps.
  - cbn. apply keeps_bind; [|auto with keeps]. unfold emitSetNodeOverride. case_match; auto with keeps.
  - by intros st.
Qed.

(** Only the registry announces node lists, with arguments of their types. *)
Definition input_typed (i : Input) : Prop :=
  match i with
  | Heard (NodeListChanged _) => False
  | RegistryChange op => Registry.typed op
  | NetworkUp info => bytes_ok (homeId info)
  | _ => True
  end.

Lemma step_viewed i st : input_typed i -> viewed st -> viewed (step i st).2.
Proof.
  destruct i as [e|op|info|n d|r now|m]; intros Ht Hv; cbn [step snd].
  - destruct Hv as [Hn Hw]. by destruct e; split.
  - by apply onRegistry_viewed.
  - destruct (onRegistry_viewed (Registry.Bind (homeId info)) st Ht Hv) as [Hn Hw]. by split.
  - by destruct Hv.
  - by destruct Hv.
  - destruct (call_keeps m st) as [E1 E2], Hv. split; by rewrite ?E1, E2.
Qed.

Lemma run_viewed ins st : Forall input_typed ins -> viewed st -> viewed (run ins st).2.
Proof.
  intros Hi. revert st. induction Hi as [|i ins Hi _ IH]; intros st Hv; [done|]. cbn.
  pose proof (step_viewed i st Hi Hv). destruct (step i st) as [[r out] st']. cbn in *.
  specialize (IH st'). destruct (run ins st'). by apply IH.
Qed.
End Views.

(** A daemon that starts on the tables of its database. *)
Definition starting (t : Registry.Nodes) (ps : Register.Tables) (ms : Metadata.Table) (vs : Values.Table) (ss : Scene.Tables) : State :=
  mkState (newImpl 0) (Registry.fresh t) (Register.mkState (mkDb true ps 0) None ∅) (Metadata.mkState (mkDb true ms 0) None)
    (Values.mkState (mkDb true vs 0) None) (Scene.mkState (mkDb true ss 0) None).

Definition idOf (n : NodeTuple) : Z := n.1.1.1.1.

(** The first five fields of a node's record. *)
Definition identityOf (t : NodeInfoTuple) : NodeTuple :=
  let '(n, b, g, s, ccs, _, _, _, _, _, _, _, _, _, _, _, _, _, _, _, _, _) := t in (n, b, g, s, ccs).

(** Looking a node up in the snapshot is looking it up in the registry. *)
Lemma snapshot_find m n :
  Registry.cache_ok m -> List.find (fun info => Registry.nodeId info =? n) (Registry.inOrder m) = m !! n.
Proof.
  intros Hm. unfold Registry.inOrder.
  assert (Hl : forall l, List.find (fun info => Registry.nodeId info =? n) (omap (fun id => m !! id) l)
                         = if decide (n ∈ l) then m !! n else None).
  { induction l as [|x l IH]; [done|]. cbn [omap list_omap]. destruct (m !! x) as [i|] eqn:Hi.
    - destruct (Hm _ _ Hi) as [_ Hid]. cbn [List.find]. rewrite Hid. destruct (Z.eqb_spec x n) as [<-|Hne].
      + by rewrite decide_True by apply list_elem_of_here.
      + rewrite IH. apply decide_ext. rewrite elem_of_cons. intuition congruence.
    - rewrite IH. destruct (decide (n = x)) as [->|Hne]; [rewrite Hi; by repeat case_decide|].
      apply decide_ext. rewrite elem_of_cons. intuition congruence. }
  rewrite Hl. case_decide as Hin; [done|]. destruct (m !! n) as [i|] eqn:Hi; [|done].
  destruct (Hm _ _ Hi) as [[Hb _] <-]. destruct Hin. apply elem_of_seqZ. unfold byte_ok in Hb. lia.
Qed.

Lemma listed_ids (l : list Registry.NodeInfo) : idOf <$> (nodeTuple <$> (lean <$> l)) = Registry.nodeId <$> l.
Proof. induction l as [|i l IH]; [done|]. cbn. by rewrite IH. Qed.

(** A known node is in the snapshot, under its own id. *)
Lemma elem_of_inOrder m i : Registry.cache_ok m -> i ∈ Registry.inOrder m <-> m !! Registry.nodeId i = Some i.
Proof.
  intros Hm. unfold Registry.inOrder. rewrite list_elem_of_omap. split.
  - intros (k & _ & Hi). by destruct (Hm _ _ Hi) as [_ ->].
  - intros Hi. exists (Registry.nodeId i). split; [|done]. destruct (Hm _ _ Hi) as [[Hb _] _].
    apply elem_of_seqZ. unfold byte_ok in Hb. lia.
Qed.

Lemma inOrder_length m : (length (Registry.inOrder m) <= 256)%nat.
Proof.
  unfold Registry.inOrder. assert (Hl : forall l, (length (omap (fun id => m !! id) l) <= length l)%nat).
  { induction l as [|x l IH]; [done|]. cbn. destruct (m !! x); cbn; lia. }
  eapply Nat.le_trans; [apply Hl|]. rewrite length_seqZ. lia.
Qed.

(** C14: the three views a client has of the nodes agree.  Through any events, changes
    of the registry and of network, readings and calls, and whatever fails in the
    database, [GetNodes] lists each node the registry knows once, in ascending order of
    ids; [GetNodeInfo] of a node starts with the fields its entry has there, and of any
    other node is the zeroed record; and [GetNetworkStatus] gives their number. *)
Theorem node_views_agree `{Oob} (e : SqliteEnv) `{Version} t ps ms vs ss ins :
  Registry.table_ok t -> Forall input_typed ins ->
  let st := (run ins (starting t ps ms vs ss)).2 in
  let nodes : list NodeTuple := (emitGetNodes st).1.1 in
  idOf <$> nodes = filter (fun id => is_Some (Registry.nodes (registry st) !! id)) (seqZ 0 256) /\
  (forall n, n ∈ nodes -> identityOf (emitGetNodeInfo (idOf n) st).1.1 = n) /\
  (forall id, id ∉ idOf <$> nodes -> (emitGetNodeInfo id st).1.1 = unknownNode id) /\
  (forall now, (emitGetNetworkStatus now st).1.1.1.1.1.1.2 = zlen nodes).
Proof.
  intros Ht Hi. cbn zeta.
  assert (viewed (run ins (starting t ps ms vs ss)).2) as [Hn [Hc _]].
  { apply run_viewed; [done|]. split; [done|]. split; [apply map_Forall_empty|done]. }
  revert Hn Hc. generalize (run ins (starting t ps ms vs ss)).2 as st. clear. intros st Hn Hc.
  set (m := Registry.nodes (registry st)) in *.
  assert (Hl : (emitGetNodes st).1.1 = nodeTuple <$> (lean <$> Registry.inOrder m))
    by (unfold emitGetNodes, cached; cbn [fst]; by rewrite Hn).
  assert (Hf : forall n, (emitGetNodeInfo n st).1.1
                         = match m !! n with Some i => nodeInfoTuple i | None => unknownNode n end).
  { intros n. unfold emitGetNodeInfo, Registry.snapshot. cbn [fst]. by rewrite snapshot_find. }
  assert (E : idOf <$> (emitGetNodes st).1.1 = filter (fun id => is_Some (m !! id)) (seqZ 0 256))
    by (by rewrite Hl, listed_ids, Registry.inOrder_ids).
  split_and!; [exact E| | |].
  - intros n Hin. rewrite Hf. rewrite Hl, <-list_fmap_compose, list_elem_of_fmap in Hin.
    destruct Hin as (i & -> & Hi%elem_of_inOrder); [|done].
    change (idOf ((nodeTuple ∘ lean) i)) with (Registry.nodeId i). by rewrite Hi.
  - intros id Hid. rewrite Hf. destruct (m !! id) as [i|] eqn:Hi; [|done].
    destruct Hid. rewrite Hl, listed_ids. apply list_elem_of_fmap.
    destruct (Hc _ _ Hi) as [_ Hk]. exists i. split; [done|]. apply elem_of_inOrder; [done|]. by rewrite Hk.
  - intros now. change (u32 (zlen (lastNodes (impl st))) = zlen (emitGetNodes st).1.1).
    rewrite Hl, Hn. unfold Registry.snapshotEvent. fold m. rewrite !length_fmap. apply u32_id.
    pose proof (inOrder_length m). lia.
Qed.

(** A dongle, two nodes, one of them secure. *)
Definition someInputs : list Input :=
  [NetworkUp (mkDongleInfo "Z-Wave 6.07" 1 [0xC0; 0xFF; 0xEE; 0] 1);
   RegistryChange (Registry.Add (Registry.included 9 (Registry.mkClass 4 16 1) [0x25; 0x86]));
   RegistryChange (Registry.Seed 5); RegistryChange (Registry.SetSecurityScheme 9 3); Called GetNodes].
Definition someDaemon : State :=
  (run (H := 0) (H0 := alwaysRuns) (H1 := Build_Version "1.0" "v1") someInputs
     (starting ∅ (Register.mkTables ∅ ∅) ∅ ∅ (Scene.mkTables ∅ ∅))).2.

Lemma node_views_agree_witness :
  idOf <$> (emitGetNodes someDaemon).1.1 = [5; 9] /\
  forall id, id ∉ idOf <$> (emitGetNodes someDaemon).1.1 -> (emitGetNodeInfo id someDaemon).1.1 = unknownNode id.
Proof.
  split; [by vm_compute|].
  refine (proj1 (proj2 (proj2 (node_views_agree (H := 0) alwaysRuns (H0 := Build_Version "1.0" "v1") ∅
    (Register.mkTables ∅ ∅) ∅ ∅ (Scene.mkTables ∅ ∅) someInputs (map_Forall_empty _) _)))).
  repeat (apply Forall_cons; split); [..|apply Forall_nil_2]; try done; cbn;
    repeat (apply Forall_cons; split); try apply Forall_nil_2;
    unfold Registry.info_ok, Registry.class_ok, Registry.identity_ok, Registry.version_ok, Registry.zwavePlus_ok,
      Registry.word_ok, byte_ok; cbn; lia.
Defined.

(** ** Inclusion requests *)

Lemma modeByte_checked :
  forallb (fun mode => forallb (fun flags =>
    makeFlagByte mode (bitSet flags Dbus.FLAG_POWER_BIT) HostApi.FLAG_NWI_BIT (bitSet flags Dbus.FLAG_NWI_BIT)
      HostApi.FLAG_PROTOCOL_BIT (bitSet flags Dbus.FLAG_PROTOCOL_BIT) HostApi.FLAG_SFLND_BIT (bitSet flags Dbus.FLAG_SFLND_BIT)
    =? Z.lor (Z.land mode 0x0F) (Z.land flags 0xF0)) (seqZ 0 256)) (seqZ 0 256) = true.
Proof. by vm_compute. Qed.

(** A call of [AddNode] reaches the controller as it was made: the request frame has
    the mode in the low and the flags in the high half of its first byte, then the
    session, then the home ids if one was given, cut or filled to four bytes. *)
Theorem add_node_frame `{Oob} `{SqliteEnv} mode flags session nwi auth st :
  byte_ok mode -> byte_ok flags ->
  exists r, (emitAddNode mode flags session nwi auth st).1.2 = [ToThread (AddNodeCommand r)] /\
  addNodePayload r =
    [Z.lor (Z.land mode 0x0F) (Z.land flags 0xF0); session] ++
    (if bool_decide (nwi = []) && bool_decide (auth = []) then []
     else homeIdFromVector nwi ++ (if mode =? ADD_MODE_SMART_START_INCLUDE then homeIdFromVector auth else [])).
Proof.
  intros Hm Hf. eexists. split; [reflexivity|]. unfold addNodePayload.
  cbn [an_mode an_power an_nwi an_protocolLongRange an_skipFlNeighbors an_sessionId an_includeHomeIds an_nwiHomeId an_authHomeId].
  pose proof (range_forall2 (fun mode flags => makeFlagByte mode (bitSet flags Dbus.FLAG_POWER_BIT) HostApi.FLAG_NWI_BIT
      (bitSet flags Dbus.FLAG_NWI_BIT) HostApi.FLAG_PROTOCOL_BIT (bitSet flags Dbus.FLAG_PROTOCOL_BIT) HostApi.FLAG_SFLND_BIT
      (bitSet flags Dbus.FLAG_SFLND_BIT) =? Z.lor (Z.land mode 0x0F) (Z.land flags 0xF0)) 256 256 modeByte_checked mode flags Hm Hf) as E.
  apply Z.eqb_eq in E. rewrite E. cbn [app]. do 2 f_equal.
  by destruct (bool_decide (nwi = [])), (bool_decide (auth = [])).
Qed.
