(* ===== verification/Daemon.v ===== *)
(** * The process: its options, its signals and its main loop

    [main.cpp] and [SignalHandler.cpp].  The signal handlers are registered, and the
    running state set, by a constructor that runs before [main]; a signal may arrive
    between any two steps.  What the other constructors start and the destructors stop
    is in the files of those modules, and the text of the help is left out. *)

From Stdlib Require Import String.
From S2P Require Import Prelude ExternalApi.
From stdpp Require Import strings.
Import Dbus(Version, SEMVER, GIT_DESCRIBE, Build_Version).
#[local] Open Scope string_scope.
#[local] Open Scope list_scope.

Module Daemon.

(** ** The options *)

Section Options.
Context `{Version}.

Definition versionString : string := "zwaved " +:+ SEMVER +:+ " (" +:+ GIT_DESCRIBE +:+ ")".

(** What the loop over the arguments does: print and leave with [_exit], or go on. *)
Inductive Option_ := PrintVersion (text : string) | PrintHelp.

Fixpoint options (args : list string) : option Option_ :=
  match args with
  | [] => None
  | arg :: args =>
      if bool_decide (arg = "--version") || bool_decide (arg = "-V") then Some (PrintVersion versionString)
      else if bool_decide (arg = "--help") || bool_decide (arg = "-h") then Some PrintHelp
      else options args
  end.
End Options.

(** ** Signals *)

Inductive Signal := SIGHUP | SIGTERM | SIGINT.

#[global] Instance Signal_eq_dec : EqDecision Signal.
Proof. solve_decision. Defined.

(** Alive; ended by a signal nobody handles; ended with an exit code. *)
Inductive Life := Alive | Killed (s : Signal) | Exited (code : nat).

(** What is left to do before the loop of [main]. *)
Inductive Step := RegisterHandler (s : Signal) | SetRunning | ReadOptions.

Record Process := mkProcess {
  pending : list Step; handled : list Signal; runningState : bool; life : Life }.

(** [stopApplication] *)
Definition stopApplication (p : Process) : Process := mkProcess (pending p) (handled p) false (life p).

(** The three handlers: the first only prints. *)
Definition handleSignal (s : Signal) (p : Process) : Process :=
  match s with SIGHUP => p | SIGTERM | SIGINT => stopApplication p end.

(** A signal without a handler ends the process. *)
Definition deliver (s : Signal) (p : Process) : Process :=
  if bool_decide (s ∈ handled p) then handleSignal s p
  else mkProcess (pending p) (handled p) (runningState p) (Killed s).

Definition registerHandler (s : Signal) (p : Process) : Process :=
  mkProcess (pending p) (s :: handled p) (runningState p) (life p).

(** The constructor, and the part of [main] before its loop. *)
Definition boot : Process := mkProcess
  [RegisterHandler SIGHUP; RegisterHandler SIGTERM; RegisterHandler SIGINT; SetRunning; ReadOptions] [] false Alive.

Section Run.
Context `{Version} (args : list string).

(** The next step of the main thread; after the start-up, one round of the loop. *)
Definition advance (p : Process) : Process :=
  match pending p with
  | [] => if runningState p then p else mkProcess [] (handled p) (runningState p) (Exited 0)
  | s :: rest =>
      let p := mkProcess rest (handled p) (runningState p) (life p) in
      match s with
      | RegisterHandler s => registerHandler s p
      | SetRunning => mkProcess (pending p) (handled p) true (life p)
      | ReadOptions =>
          match options args with
          | Some _ => mkProcess (pending p) (handled p) (runningState p) (Exited 0)
          | None => p
          end
      end
  end.

Inductive Event := Arrives (s : Signal) | Advances.

Definition step (p : Process) (e : Event) : Process :=
  match life p with
  | Alive => match e with Arrives s => deliver s p | Advances => advance p end
  | _ => p
  end.

Definition run (es : list Event) (p : Process) : Process := foldl step p es.

End Run.
End Daemon.

(** * Theorems *)

Import Daemon.

Section Theorems.
Context `{Version} (args : list string).

(** A request to stop, and whether one was followed by a round of the loop. *)
Definition stops (e : Event) : bool :=
  match e with Arrives SIGTERM | Arrives SIGINT => true | _ => false end.

Fixpoint stopped (asked : bool) (es : list Event) : bool :=
  match es with
  | [] => false
  | Advances :: es => asked || stopped asked es
  | e :: es => stopped (asked || stops e) es
  end.

Lemma run_ended es p : life p <> Alive -> run args es p = p.
Proof.
  intros Hl. induction es as [|e es IH]; [done|]. unfold run in *. cbn [foldl]. unfold step at 2. by destruct (life p).
Qed.

Definition looping (running : bool) : Process := mkProcess [] [SIGINT; SIGTERM; SIGHUP] running Alive.

Lemma loop_life running es :
  life (run args es (looping running)) = if stopped (negb running) es then Exited 0 else Alive.
Proof.
  revert running. induction es as [|e es IH]; intros running; [done|].
  change (run args (e :: es) (looping running)) with (run args es (step args (looping running) e)).
  destruct e as [s|]; cbn [stopped].
  - destruct s; cbn [stops].
    + change (step args (looping running) (Arrives SIGHUP)) with (looping running). rewrite orb_false_r. apply IH.
    + change (step args (looping running) (Arrives SIGTERM)) with (looping false). rewrite orb_true_r. apply (IH false).
    + change (step args (looping running) (Arrives SIGINT)) with (looping false). rewrite orb_true_r. apply (IH false).
  - destruct running; cbn [negb orb].
    + apply (IH true).
    + by rewrite run_ended.
Qed.

Lemma boot_loops k : options args = None -> (5 <= k)%nat -> run args (replicate k Advances) boot = looping true.
Proof.
  intros Ho Hk. replace k with (5 + (k - 5))%nat by lia. generalize (k - 5)%nat as n. clear k Hk.
  intros n. rewrite replicate_add. unfold run. rewrite foldl_app. fold (run args).
  assert (foldl (step args) boot (replicate 5 Advances) = looping true) as ->.
  { cbn. unfold step, advance. cbn. by rewrite Ho. }
  induction n as [|n IH]; [done|]. exact IH.
Qed.

(** Without an option, a process that came through its start-up leaves its main loop,
    with code 0, exactly when a request to stop arrived and the loop then made a round:
    a hang-up does not stop it, and no signal kills it. *)
Theorem main_ends k es :
  options args = None -> (5 <= k)%nat ->
  life (run args (replicate k Advances ++ es) boot) = if stopped false es then Exited 0 else Alive.
Proof.
  intros Ho Hk. unfold run. rewrite foldl_app. fold (run args).
  change (foldl (step args) boot (replicate k Advances)) with (run args (replicate k Advances) boot).
  rewrite boot_loops by done. apply (loop_life true).
Qed.

(** A request to stop that arrives when its handler is registered, but before the
    running state is set, is forgotten: the process goes on until the next one. *)
Theorem early_stop_forgotten s es :
  options args = None -> s = SIGTERM \/ s = SIGINT ->
  life (run args (replicate 3 Advances ++ Arrives s :: replicate 2 Advances ++ es) boot) =
    if stopped false es then Exited 0 else Alive.
Proof.
  intros Ho Hs.
  assert (run args (replicate 3 Advances ++ Arrives s :: replicate 2 Advances) boot = looping true) as E.
  { destruct Hs as [-> | ->]; unfold run; cbn; unfold step, advance; cbn; by rewrite Ho. }
  change (replicate 3 Advances ++ Arrives s :: replicate 2 Advances ++ es)
    with ((replicate 3 Advances ++ Arrives s :: replicate 2 Advances) ++ es)%list.
  unfold run in *. rewrite foldl_app, E. apply (loop_life true).
Qed.

End Theorems.

Example early_stop_forgotten_witness :
  life (run (H := Build_Version "1.0" "g0") [] (replicate 3 Advances ++ Arrives SIGTERM :: replicate 2 Advances ++ [Advances; Arrives SIGHUP]) boot) = Alive /\
  life (run (H := Build_Version "1.0" "g0") [] (replicate 5 Advances ++ [Arrives SIGTERM; Advances]) boot) = Exited 0.
Proof.
  split.
  - by apply (early_stop_forgotten (H := Build_Version "1.0" "g0") [] SIGTERM [Advances; Arrives SIGHUP]); [|left].
  - by apply (main_ends (H := Build_Version "1.0" "g0") [] 5 [Arrives SIGTERM; Advances]); [|lia].
Defined.
