(* ===== verification/ExternalStores.v ===== *)
(** * What a D-Bus client can rely on

    The methods of [DBusBackend.cpp] that read and change the stores, against their
    abstract contract [ApiSpec]: finite maps of policies, metadata, scenes and triggers,
    without blobs, database handles and statements. *)

From Stdlib Require Import String.
From S2P Require Import Prelude Sqlite HostApi NodeRegistry PolicyRegister SceneStore NodeStores ProtocolThread ThermostatOrchestrator ExternalApi.
From stdpp Require Import gmap strings sorting.
#[local] Open Scope Z_scope.

Import Dbus.

Module ApiSpec.

Record State := mkState {
  bound : option string;
  devicePolicies : gmap Register.DeviceId Policy.t;
  nodeOverrides : gmap (string * Z) Policy.t;
  identities : gmap (string * Z) Register.DeviceId;
  tags : gmap (string * Z * string) string;
  scenes : gmap (string * string) (list Scene.Action);
  triggers : gmap (string * Scene.Key) string }.

Definition empty : State := mkState None ∅ ∅ ∅ ∅ ∅ ∅.

Definition setDevices x (s : State) : State :=
  mkState (bound s) x (nodeOverrides s) (identities s) (tags s) (scenes s) (triggers s).
Definition setOverrides x (s : State) : State :=
  mkState (bound s) (devicePolicies s) x (identities s) (tags s) (scenes s) (triggers s).
Definition setTags x (s : State) : State :=
  mkState (bound s) (devicePolicies s) (nodeOverrides s) (identities s) x (scenes s) (triggers s).
Definition setScenes x (s : State) : State :=
  mkState (bound s) (devicePolicies s) (nodeOverrides s) (identities s) (tags s) x (triggers s).
Definition setTriggers x (s : State) : State :=
  mkState (bound s) (devicePolicies s) (nodeOverrides s) (identities s) (tags s) (scenes s) x.

Section Spec.
Context `{Oob}.

(** The policy that applies to a node of the network [h]. *)
Definition inForce (h : string) (n : Z) (s : State) : Policy.t :=
  match identities s !! (h, n) ≫= (fun d => devicePolicies s !! d), nodeOverrides s !! (h, n) with
  | Some d, Some o => Policy.merge d o
  | None, Some o => o
  | Some d, None => d
  | None, None => []
  end.

Definition policyTuple (r : Register.DeviceId * Policy.t) : DevicePolicyTuple :=
  (Register.manufacturerId r.1, Register.productTypeId r.1, Register.productId r.1, Policy.serialize r.2).
Definition actionTuple (a : Scene.Action) : SceneActionEntry := (Scene.targetNodeId a, Scene.ccPayload a).
Definition triggerTuple (t : Scene.Key * string) : SceneTriggerEntry :=
  (Scene.source t.1, Scene.sourceNodeId t.1, Scene.sceneNumber t.1, Scene.keyAttribute t.1, t.2).

(** Nothing but the device policies is there before a network is. *)
Definition call (m : StoreMethod) (s : State) : Result * list Published * State :=
  match m, bound s with
  | SetDevicePolicy d blob, _ =>
      match Policy.deserialize blob with
      | None => (RVoid, [], s)
      | Some p => (RVoid, [FromPolicies (Register.PolicyChanged 0)], setDevices (<[d := p]> (devicePolicies s)) s)
      end
  | GetDevicePolicy d, _ => (RBytes (blobOf (devicePolicies s !! d)), [], s)
  | DeleteDevicePolicy d, _ =>
      (RVoid, [FromPolicies (Register.PolicyChanged 0)], setDevices (delete d (devicePolicies s)) s)
  | ListDevicePolicies, _ => (RPolicies (policyTuple <$> map_to_list (devicePolicies s)), [], s)
  | SetNodeOverride n blob, Some h =>
      match Policy.deserialize blob with
      | None => (RVoid, [], s)
      | Some p => (RVoid, [FromPolicies (Register.PolicyChanged n)], setOverrides (<[(h, n) := p]> (nodeOverrides s)) s)
      end
  | GetNodeOverride n, Some h => (RBytes (blobOf (nodeOverrides s !! (h, n))), [], s)
  | DeleteNodeOverride n, Some h =>
      (RVoid, [FromPolicies (Register.PolicyChanged n)], setOverrides (delete (h, n) (nodeOverrides s)) s)
  | GetEffectivePolicy n, Some h => (RBytes (Policy.serialize (inForce h n s)), [], s)
  | SetNodeMetadata n k v, Some h =>
      (RVoid, [FromMetadata (Metadata.NodeMetadataChanged n)],
       setTags (if bool_decide (v = EmptyString) then delete (h, n, k) (tags s) else <[(h, n, k) := v]> (tags s)) s)
  | GetNodeMetadata n, Some h => (RMetadata (ofNode h n (tags s)), [], s)
  | DeleteNodeMetadata n k, Some h =>
      (RVoid, [FromMetadata (Metadata.NodeMetadataChanged n)], setTags (delete (h, n, k) (tags s)) s)
  | GetNodesByMetadata k v, Some h => (RBytes (Metadata.SELECT_NODES_BY_TAG h k v (tags s)), [], s)
  | SetScene i l, Some h =>
      (RVoid, [], if decide (length l <= 255)%nat
                  then setScenes (<[(h, i) := (fun a => Scene.mkAction a.1 a.2) <$> l]> (scenes s)) s else s)
  | GetScene i, Some h => (RActions (actionTuple <$> default [] (scenes s !! (h, i))), [], s)
  | DeleteScene i, Some h => (RVoid, [], setScenes (delete (h, i) (scenes s)) s)
  | ListScenes, Some h => (RTexts (merge_sort Scene.idLe (Scene.ofHome h (map_to_list (scenes s))).*1), [], s)
  | BindSceneTrigger k i, Some h => (RVoid, [], setTriggers (<[(h, k) := i]> (triggers s)) s)
  | UnbindSceneTrigger k, Some h => (RVoid, [], setTriggers (delete (h, k) (triggers s)) s)
  | ListSceneTriggers, Some h =>
      (RTriggers (triggerTuple <$> merge_sort Scene.keyLe (Scene.ofHome h (map_to_list (triggers s)))), [], s)
  | GetNodeOverride _, None | GetNodesByMetadata _ _, None => (RBytes [], [], s)
  | GetEffectivePolicy _, None => (RBytes (Policy.serialize []), [], s)
  | GetNodeMetadata _, None => (RMetadata [], [], s)
  | GetScene _, None => (RActions [], [], s)
  | ListScenes, None => (RTexts [], [], s)
  | ListSceneTriggers, None => (RTriggers [], [], s)
  | _, None => (RVoid, [], s)
  end.

Definition networkUp (home : list Z) (s : State) : State :=
  mkState (Some (formatHomeId home)) (devicePolicies s) (nodeOverrides s) (identities s) (tags s) (scenes s) (triggers s).

Definition identityReported (n : Z) (d : Register.DeviceId) (s : State) : State :=
  match bound s with
  | None => s
  | Some h => mkState (bound s) (devicePolicies s) (nodeOverrides s) (<[(h, n) := d]> (identities s)) (tags s)
                (scenes s) (triggers s)
  end.
End Spec.
End ApiSpec.

(** The inputs that concern the stores. *)
Inductive StoreInput :=
| Use (m : StoreMethod) | Bound (info : DongleInfo) | Identified (nodeId : Z) (device : Register.DeviceId).

Definition asInput (i : StoreInput) : Input :=
  match i with
  | Use m => Called (Stored m)
  | Bound info => NetworkUp info
  | Identified n d => IdentityReported n d
  end.

Definition specStep `{Oob} (i : StoreInput) (s : ApiSpec.State) : Result * list Published * ApiSpec.State :=
  match i with
  | Use m => ApiSpec.call m s
  | Bound info => (RVoid, [], ApiSpec.networkUp (homeId info) s)
  | Identified n d => (RVoid, [], ApiSpec.identityReported n d s)
  end.

Fixpoint specRun `{Oob} (ins : list StoreInput) (s : ApiSpec.State) : list (Result * list Published) * ApiSpec.State :=
  match ins with
  | [] => ([], s)
  | i :: ins => let '(r, out, s) := specStep i s in let (outs, s) := specRun ins s in ((r, out) :: outs, s)
  end.

(** Arguments of their C++ types; a payload of a scene fits its length byte. *)
Definition device_ok (d : Register.DeviceId) : Prop :=
  Registry.word_ok (Register.manufacturerId d) /\ Registry.word_ok (Register.productTypeId d) /\
  Registry.word_ok (Register.productId d).
Definition key_ok (k : Scene.Key) : Prop :=
  byte_ok (Scene.source k) /\ byte_ok (Scene.sourceNodeId k) /\ byte_ok (Scene.sceneNumber k) /\
  byte_ok (Scene.keyAttribute k).
Definition method_ok (m : StoreMethod) : Prop :=
  match m with
  | SetDevicePolicy d blob => device_ok d /\ bytes_ok blob
  | SetNodeOverride _ blob => bytes_ok blob
  | SetNodeMetadata n _ _ => byte_ok n
  | SetScene _ l => Forall (fun a => (length a.2 <= 255)%nat) l
  | BindSceneTrigger k _ => key_ok k
  | _ => True
  end.
Definition store_ok (i : StoreInput) : Prop := match i with Use m => method_ok m | _ => True end.

#[local] Instance byte_ok_decision z : Decision (byte_ok z).
Proof. unfold byte_ok. apply _. Defined.
#[export] Instance store_ok_decision i : Decision (store_ok i).
Proof. destruct i as [[]| |]; cbn; unfold device_ok, Registry.word_ok, key_ok; apply _. Defined.

(** ** Representation *)

#[local] Arguments Policy.serialize : simpl never.
#[local] Arguments Policy.deserialize : simpl never.

Definition policy_ok (p : Policy.t) : Prop := Forall entry_ok p /\ (length p <= 255)%nat.

(** The stored form of the abstract maps. *)
Record holdsPolicies (r : Register.State) (s : ApiSpec.State) : Prop := {
  hp_open : valid (Register.db r) = true;
  hp_home : Register.currentHomeId r = ApiSpec.bound s;
  hp_devices : Register.devices (table (Register.db r)) = Policy.serialize <$> ApiSpec.devicePolicies s;
  hp_overrides : Register.overrides (table (Register.db r)) = Policy.serialize <$> ApiSpec.nodeOverrides s;
  hp_identities : Register.identityCache r = ApiSpec.identities s;
  hp_devices_ok : map_Forall (fun d p => device_ok d /\ policy_ok p) (ApiSpec.devicePolicies s);
  hp_overrides_ok : map_Forall (fun _ => policy_ok) (ApiSpec.nodeOverrides s) }.

Record holdsTags (m : Metadata.State) (s : ApiSpec.State) : Prop := {
  ht_open : valid (Metadata.db m) = true;
  ht_home : Metadata.currentHomeId m = ApiSpec.bound s;
  ht_table : table (Metadata.db m) = ApiSpec.tags s;
  ht_ok : map_Forall (fun (k : string * Z * string) _ => byte_ok k.1.2) (ApiSpec.tags s) }.

Definition sceneSpec (s : ApiSpec.State) : SceneSpec.State :=
  SceneSpec.mkState (ApiSpec.scenes s) (ApiSpec.triggers s) (ApiSpec.bound s).

Record holdsScenes (c : Scene.State) (s : ApiSpec.State) : Prop := {
  hs_represents : SceneStore.represents c (sceneSpec s);
  hs_keys : map_Forall (fun (k : string * Scene.Key) _ => key_ok k.2) (ApiSpec.triggers s) }.

Record holds (c : Dbus.State) (s : ApiSpec.State) : Prop := {
  h_policies : holdsPolicies (policies c) s;
  h_tags : holdsTags (metadata c) s;
  h_scenes : holdsScenes (scenes c) s }.

Section Refinement.
Context `{Oob} `{e : SqliteEnv} (He : reliable e) `{Version}.

(** Both sides give the same reply and publications, and stay together. *)
Definition matched (x : Result * list Published * Dbus.State) (y : Result * list Published * ApiSpec.State) : Prop :=
  x.1 = y.1 /\ holds x.2 y.2.

Lemma stored_policy p : policy_ok p -> Policy.deserialize (Policy.serialize p) = Some p.
Proof.
  intros [Hp Hl]. rewrite deserialize_serialize, u8_id by (done || unfold byte_ok; lia).
  by rewrite Nat2Z.id, take_ge.
Qed.

Lemma stored_lookup {K} `{Countable K} (m : gmap K Policy.t) (P : K -> Policy.t -> Prop) k :
  map_Forall P m -> (forall k p, P k p -> policy_ok p) ->
  match (Policy.serialize <$> m) !! k with None => None | Some b => Policy.deserialize b end = m !! k.
Proof.
  intros Hm HP. rewrite lookup_fmap. destruct (m !! k) as [p|] eqn:E; [|done]. cbn.
  apply stored_policy. by eapply HP, Hm.
Qed.

(** *** Policies *)

Lemma policies_spent r s : holdsPolicies r s -> holdsPolicies (Register.withDb (spent (Register.db r)) r) s.
Proof. by intros []. Qed.

Lemma holds_policies c s r s' :
  holds c s -> holdsPolicies r s' ->
  ApiSpec.bound s' = ApiSpec.bound s -> ApiSpec.tags s' = ApiSpec.tags s -> ApiSpec.scenes s' = ApiSpec.scenes s ->
  ApiSpec.triggers s' = ApiSpec.triggers s ->
  holds (Dbus.mkState (impl c) (registry c) r (metadata c) (values c) (scenes c)) s'.
Proof.
  intros [_ [? ? ? ?] [Hr Hk]] Hp Eb Et Es Eg. split; [done|split; cbn; rewrite ?Eb, ?Et; done|].
  split; cbn; [unfold sceneSpec in *|]; by rewrite ?Eb, ?Es, ?Eg.
Qed.

Lemma set_device d p r s :
  device_ok d -> policy_ok p -> holdsPolicies r s ->
  (Register.setDevicePolicy d p r).1 = [Register.PolicyChanged 0] /\
  holdsPolicies (Register.setDevicePolicy d p r).2 (ApiSpec.setDevices (<[d := p]> (ApiSpec.devicePolicies s)) s).
Proof.
  intros Hd Hp [Hv Hh Ht Ho Hi H1 H2]. rewrite setDevicePolicy_value by done. split; [done|].
  split; cbn; try done; [by rewrite Ht, fmap_insert|by apply map_Forall_insert_2].
Qed.

Lemma delete_device d r s :
  holdsPolicies r s ->
  (Register.deleteDevicePolicy d r).1 = [Register.PolicyChanged 0] /\
  holdsPolicies (Register.deleteDevicePolicy d r).2 (ApiSpec.setDevices (delete d (ApiSpec.devicePolicies s)) s).
Proof.
  intros [Hv Hh Ht Ho Hi H1 H2]. unfold Register.deleteDevicePolicy. rewrite Hv. cbn [negb].
  rewrite write_reliable by done. split; [done|].
  split; cbn; try done; [by rewrite Ht, fmap_delete|by apply map_Forall_delete].
Qed.

Lemma set_override n p r s h :
  ApiSpec.bound s = Some h -> policy_ok p -> holdsPolicies r s ->
  (Register.setNodeOverride n p r).1 = [Register.PolicyChanged n] /\
  holdsPolicies (Register.setNodeOverride n p r).2 (ApiSpec.setOverrides (<[(h, n) := p]> (ApiSpec.nodeOverrides s)) s).
Proof.
  intros Hb Hp [Hv Hh Ht Ho Hi H1 H2]. rewrite (setNodeOverride_value He _ _ _ h) by (done || by rewrite Hh). split; [done|].
  split; cbn; try done; [by rewrite Ho, fmap_insert|by apply map_Forall_insert_2].
Qed.

Lemma delete_override n r s h :
  ApiSpec.bound s = Some h -> holdsPolicies r s ->
  (Register.deleteNodeOverride n r).1 = [Register.PolicyChanged n] /\
  holdsPolicies (Register.deleteNodeOverride n r).2 (ApiSpec.setOverrides (delete (h, n) (ApiSpec.nodeOverrides s)) s).
Proof.
  intros Hb [Hv Hh Ht Ho Hi H1 H2]. rewrite (deleteNodeOverride_value He _ _ h) by (done || by rewrite Hh). split; [done|].
  split; cbn; try done; [by rewrite Ho, fmap_delete|by apply map_Forall_delete].
Qed.

Lemma get_device d r s :
  holdsPolicies r s ->
  Register.devicePolicy d r = (ApiSpec.devicePolicies s !! d, Register.withDb (spent (Register.db r)) r).
Proof.
  intros [Hv Hh Ht Ho Hi H1 H2]. rewrite devicePolicy_value, Ht by done. f_equal.
  apply (stored_lookup _ _ d H1). tauto.
Qed.

Lemma get_override n r s h :
  ApiSpec.bound s = Some h -> holdsPolicies r s ->
  Register.nodeOverride n r = (ApiSpec.nodeOverrides s !! (h, n), Register.withDb (spent (Register.db r)) r).
Proof.
  intros Hb [Hv Hh Ht Ho Hi H1 H2]. rewrite (nodeOverride_value He _ _ h), Ho by (done || by rewrite Hh). f_equal.
  by apply (stored_lookup _ _ (h, n) H2).
Qed.

Lemma get_effective n r s h :
  ApiSpec.bound s = Some h -> holdsPolicies r s ->
  (Register.effectivePolicy n r).1 = ApiSpec.inForce h n s /\ holdsPolicies (Register.effectivePolicy n r).2 s.
Proof.
  intros Hb Hr. unfold Register.effectivePolicy, Register.cachedIdentity. rewrite (get_override n r s h) by done.
  rewrite (hp_home _ _ Hr), Hb, (hp_identities _ _ Hr). unfold ApiSpec.inForce.
  apply policies_spent in Hr. destruct (ApiSpec.identities s !! (h, n)) as [d|]; cbn [mbind option_bind].
  - rewrite (get_device d _ s) by done. split; [done|]. by apply policies_spent.
  - by split.
Qed.

Lemma list_devices r s :
  holdsPolicies r s ->
  Register.listDevicePolicies r = (map_to_list (ApiSpec.devicePolicies s), Register.withDb (spent (Register.db r)) r).
Proof.
  intros [Hv Hh Ht Ho Hi H1 H2]. unfold Register.listDevicePolicies. rewrite Hv. cbn [negb].
  rewrite select_reliable by done. f_equal. cbn [default]. rewrite Ht, map_to_list_fmap.
  unfold id. rewrite <-list_fmap_compose. etrans; [|apply list_fmap_id]. apply list_fmap_ext. intros i [d p] Hx%list_elem_of_lookup_2. apply elem_of_map_to_list in Hx.
  destruct (H1 _ _ Hx) as [(Ha & Hb & Hc) Hp]. cbn. rewrite !u16_id, stored_policy by done. by destruct d.
Qed.

(** A method that changes the policies, and one that reads them. *)
Lemma change_policies c s f ev s' :
  holds c s -> (f (policies c)).1 = ev /\ holdsPolicies (f (policies c)).2 s' ->
  ApiSpec.bound s' = ApiSpec.bound s -> ApiSpec.tags s' = ApiSpec.tags s -> ApiSpec.scenes s' = ApiSpec.scenes s ->
  ApiSpec.triggers s' = ApiSpec.triggers s ->
  matched (void (changePolicies f) c) (RVoid, FromPolicies <$> ev, s').
Proof.
  intros Hc [E Hp] E1 E2 E3 E4. unfold void, changePolicies, mbind, M_bind, mret, M_ret.
  destruct (f (policies c)) as [ev' r]. cbn in *. subst ev'. rewrite app_nil_r. split; [done|].
  by eapply holds_policies.
Qed.

Lemma read_policies {A B} c s (f : Register.State -> A * Register.State) (g : A -> B) (R : B -> Result) a :
  holds c s -> (f (policies c)).1 = a /\ holdsPolicies (f (policies c)).2 s ->
  matched (yields R (x ← onPolicies f; mret (g x)) c) (R (g a), [], s).
Proof.
  intros Hc [E Hp]. unfold yields, onPolicies, mbind, M_bind, mret, M_ret.
  destruct (f (policies c)) as [a' r]. cbn in *. subst a'. split; [done|]. by eapply holds_policies.
Qed.

Lemma matched_same c s : holds c s -> matched (void (mret tt) c) (RVoid, [], s).
Proof. done. Qed.

Lemma policy_methods c s m :
  match m with
  | SetDevicePolicy _ _ | GetDevicePolicy _ | DeleteDevicePolicy _ | ListDevicePolicies | SetNodeOverride _ _
  | GetNodeOverride _ | DeleteNodeOverride _ | GetEffectivePolicy _ => True
  | _ => False
  end -> method_ok m -> holds c s -> matched (callStore m c) (ApiSpec.call m s).
Proof.
  intros Hm Ho Hc. pose proof (h_policies _ _ Hc) as Hp. pose proof (policies_spent _ _ Hp) as Hp'.
  pose proof (hp_home _ _ Hp) as Hh.
  destruct m as [[mf pt pd] blob|[mf pt pd]|[mf pt pd]| |n blob|n|n|n| | | | | | | | | | |]; try done;
    cbn [callStore ApiSpec.call].
  - destruct Ho as [Hd Hb]. unfold emitSetDevicePolicy. destruct (Policy.deserialize blob) as [p|] eqn:E; [|done].
    apply (change_policies c s _ [Register.PolicyChanged 0]); [done| |done..].
    by apply set_device; [|by eapply policy_parsed|].
  - apply (read_policies c s _ blobOf RBytes); [done|]. by rewrite (get_device _ _ s).
  - apply (change_policies c s _ [Register.PolicyChanged 0]); [done| |done..]. by apply delete_device.
  - apply (read_policies c s Register.listDevicePolicies (fmap (M := list) ApiSpec.policyTuple) RPolicies); [done|].
    by rewrite (list_devices _ s).
  - unfold emitSetNodeOverride. destruct (ApiSpec.bound s) as [h|] eqn:Hb; destruct (Policy.deserialize blob) as [p|] eqn:E; try done.
    + apply (change_policies c s _ [Register.PolicyChanged n]); [done| |done..].
      apply set_override; [done|by eapply policy_parsed|done].
    + apply (change_policies c s _ []); [done| |done..]. unfold Register.setNodeOverride. by rewrite Hh.
  - destruct (ApiSpec.bound s) as [h|] eqn:Hb.
    + apply (read_policies c s _ blobOf RBytes); [done|]. by rewrite (get_override _ _ s h).
    + apply (read_policies c s _ blobOf RBytes None); [done|]. unfold Register.nodeOverride. by rewrite Hh.
  - destruct (ApiSpec.bound s) as [h|] eqn:Hb.
    + apply (change_policies c s _ [Register.PolicyChanged n]); [done| |done..]. by apply delete_override.
    + apply (change_policies c s _ []); [done| |done..]. unfold Register.deleteNodeOverride. by rewrite Hh.
  - destruct (ApiSpec.bound s) as [h|] eqn:Hb.
    + apply (read_policies c s _ Policy.serialize RBytes); [done|]. by apply get_effective.
    + apply (read_policies c s _ Policy.serialize RBytes []); [done|].
      unfold Register.effectivePolicy, Register.cachedIdentity, Register.nodeOverride. by rewrite Hh.
Qed.

(** *** Metadata *)

Lemma holds_tags c s t s' :
  holds c s -> holdsTags t s' ->
  ApiSpec.bound s' = ApiSpec.bound s -> ApiSpec.devicePolicies s' = ApiSpec.devicePolicies s ->
  ApiSpec.nodeOverrides s' = ApiSpec.nodeOverrides s -> ApiSpec.identities s' = ApiSpec.identities s ->
  ApiSpec.scenes s' = ApiSpec.scenes s -> ApiSpec.triggers s' = ApiSpec.triggers s ->
  holds (Dbus.mkState (impl c) (registry c) (policies c) t (values c) (scenes c)) s'.
Proof.
  intros [[? ? ? ? ? ? ?] _ [Hr Hk]] Ht Eb Ed Eo Ei Es Eg. split; [|done|].
  - split; cbn; rewrite ?Eb, ?Ed, ?Eo, ?Ei; done.
  - split; cbn; [unfold sceneSpec in *|]; by rewrite ?Eb, ?Es, ?Eg.
Qed.

Lemma change_tags c s f ev x :
  holds c s -> (f (metadata c)).1 = ev /\ holdsTags (f (metadata c)).2 (ApiSpec.setTags x s) ->
  matched (void (changeMetadata f) c) (RVoid, FromMetadata <$> ev, ApiSpec.setTags x s).
Proof.
  intros Hc [E Hp]. unfold void, changeMetadata, mbind, M_bind, mret, M_ret.
  destruct (f (metadata c)) as [ev' r]. cbn in *. subst ev'. rewrite app_nil_r. split; [done|].
  by apply (holds_tags c s).
Qed.

Lemma idle_tags c s f :
  holds c s -> f (metadata c) = ([], metadata c) -> matched (void (changeMetadata f) c) (RVoid, [], s).
Proof.
  intros Hc E. unfold void, changeMetadata, mbind, M_bind, mret, M_ret. rewrite E. split; [done|]. by destruct c.
Qed.

Lemma read_tags {A} c s (f : Metadata.State -> A * Metadata.State) (R : A -> Result) a :
  holds c s -> (f (metadata c)).1 = a /\ holdsTags (f (metadata c)).2 s ->
  matched (yields R (onMetadata f) c) (R a, [], s).
Proof.
  intros Hc [E Hp]. unfold yields, onMetadata, mbind, M_bind, mret, M_ret.
  destruct (f (metadata c)) as [a' r]. cbn in *. subst a'. split; [done|]. by apply (holds_tags c s).
Qed.

Lemma delete_tag n k t s h :
  ApiSpec.bound s = Some h -> holdsTags t s ->
  (Metadata.remove n k t).1 = [Metadata.NodeMetadataChanged n] /\
  holdsTags (Metadata.remove n k t).2 (ApiSpec.setTags (delete (h, n, k) (ApiSpec.tags s)) s).
Proof.
  intros Hb [Hv Hh Ht Hk]. unfold Metadata.remove. rewrite Hh, Hb, Hv. cbn [negb].
  rewrite write_reliable by done. split; [done|]. split; cbn; [done|by rewrite Hh| |by apply map_Forall_delete].
  unfold Metadata.DELETE. by rewrite Ht.
Qed.

Lemma set_tag n k v t s h :
  byte_ok n -> ApiSpec.bound s = Some h -> holdsTags t s ->
  let x := if bool_decide (v = EmptyString) then delete (h, n, k) (ApiSpec.tags s) else <[(h, n, k) := v]> (ApiSpec.tags s) in
  (Metadata.set n k v t).1 = [Metadata.NodeMetadataChanged n] /\
  holdsTags (Metadata.set n k v t).2 (ApiSpec.setTags x s).
Proof.
  intros Hn Hb Ht. unfold Metadata.set. destruct (bool_decide (v = EmptyString)); [by apply delete_tag|].
  destruct Ht as [Hv Hh Ht Hk]. rewrite Hh, Hb, Hv. cbn [negb].
  rewrite write_reliable by done. split; [done|]. split; cbn; [done|by rewrite Hh| |by apply map_Forall_insert_2].
  unfold Metadata.UPSERT. by rewrite Ht.
Qed.

Lemma tags_spent t s : holdsTags t s -> holdsTags (Metadata.withDb (spent (Metadata.db t)) t) s.
Proof. by intros []. Qed.

Lemma metadata_methods c s m :
  match m with
  | SetNodeMetadata _ _ _ | GetNodeMetadata _ | DeleteNodeMetadata _ _ | GetNodesByMetadata _ _ => True
  | _ => False
  end -> method_ok m -> holds c s -> matched (callStore m c) (ApiSpec.call m s).
Proof.
  intros Hm Ho Hc. pose proof (h_tags _ _ Hc) as Ht. pose proof (tags_spent _ _ Ht) as Ht'.
  pose proof (ht_home _ _ Ht) as Hh. pose proof (ht_open _ _ Ht) as Hv. pose proof (ht_table _ _ Ht) as Hb.
  destruct m as [| | | | | | | |n k v|n|n k|k v| | | | | | |]; try done; cbn [callStore ApiSpec.call];
    destruct (ApiSpec.bound s) as [h|] eqn:Hbound.
  - apply (change_tags c s _ [Metadata.NodeMetadataChanged n]); [done|]. by apply set_tag.
  - apply idle_tags; [done|]. unfold Metadata.set, Metadata.remove. rewrite Hh. by case_bool_decide.
  - unfold emitGetNodeMetadata, yields, onMetadata, mbind, M_bind, mret, M_ret, Metadata.getAll. rewrite Hh, Hv.
    cbn [negb]. rewrite select_reliable by done. unfold Metadata.SELECT_ALL. rewrite Hb. split; [|by apply (holds_tags c s)].
    cbn. do 3 f_equal. rewrite <-list_fmap_compose. etrans; [|apply list_fmap_id]. by apply list_fmap_ext; intros ? [].
  - unfold emitGetNodeMetadata, yields, onMetadata, mbind, M_bind, mret, M_ret, Metadata.getAll. rewrite Hh.
    split; [done|by apply (holds_tags c s)].
  - apply (change_tags c s _ [Metadata.NodeMetadataChanged n]); [done|]. by apply delete_tag.
  - apply idle_tags; [done|]. unfold Metadata.remove. by rewrite Hh.
  - apply (read_tags c s _ RBytes); [done|]. unfold Metadata.nodesWith. rewrite Hh, Hv. cbn [negb].
    rewrite select_reliable by done. cbn. rewrite Hb. split; [|done]. etrans; [|apply list_fmap_id].
    apply list_fmap_ext. intros i n Hn%list_elem_of_lookup_2. apply elem_of_nodesByTag in Hn.
    apply u8_id. exact (ht_ok _ _ Ht _ _ Hn).
  - apply (read_tags c s _ RBytes []); [done|]. unfold Metadata.nodesWith. by rewrite Hh.
Qed.

(** *** Scenes and triggers *)

Lemma holds_scenes c s x s' :
  holds c s -> holdsScenes x s' ->
  ApiSpec.bound s' = ApiSpec.bound s -> ApiSpec.devicePolicies s' = ApiSpec.devicePolicies s ->
  ApiSpec.nodeOverrides s' = ApiSpec.nodeOverrides s -> ApiSpec.identities s' = ApiSpec.identities s ->
  ApiSpec.tags s' = ApiSpec.tags s ->
  holds (Dbus.mkState (impl c) (registry c) (policies c) (metadata c) (values c) x) s'.
Proof.
  intros [[? ? ? ? ? ? ?] [? ? ? ?] _] Hx Eb Ed Eo Ei Et. split; [| |done].
  - split; cbn; rewrite ?Eb, ?Ed, ?Eo, ?Ei; done.
  - split; cbn; rewrite ?Eb, ?Et; done.
Qed.

(** A change is the step of the scene store the abstract scenes refine. *)
Lemma change_scenes c s op s' :
  op_fits op -> holds c s -> (SceneSpec.step op (sceneSpec s)).2 = sceneSpec s' ->
  map_Forall (fun (k : string * Scene.Key) _ => key_ok k.2) (ApiSpec.triggers s') ->
  ApiSpec.bound s' = ApiSpec.bound s -> ApiSpec.devicePolicies s' = ApiSpec.devicePolicies s ->
  ApiSpec.nodeOverrides s' = ApiSpec.nodeOverrides s -> ApiSpec.identities s' = ApiSpec.identities s ->
  ApiSpec.tags s' = ApiSpec.tags s ->
  matched (void (changeScenes (fun st => (Scene.step op st).2)) c) (RVoid, [], s').
Proof.
  intros Ho Hc E Hk. intros. pose proof (proj2 (scene_step_refines He op _ _ Ho (hs_represents _ _ (h_scenes _ _ Hc)))) as Hr.
  rewrite E in Hr. split; [done|]. by apply (holds_scenes c s).
Qed.

Lemma read_scenes {A B} c s (f : Scene.State -> A * Scene.State) (g : A -> B) (R : B -> Result) a :
  holds c s -> f (scenes c) = (a, Scene.withDb (spent (Scene.db (scenes c))) (scenes c)) \/ f (scenes c) = (a, scenes c) ->
  matched (yields R (x ← onScenes f; mret (g x)) c) (R (g a), [], s).
Proof.
  intros Hc E. unfold yields, onScenes, mbind, M_bind, mret, M_ret. destruct (h_scenes _ _ Hc) as [Hr Hk].
  destruct E as [-> | ->]; (split; [done|]); apply (holds_scenes c s); try done. split; [|done].
  by apply represents_spent.
Qed.

Lemma yields_id {A} (R : A -> Result) (m : M A) c y :
  matched (yields R (x ← m; mret (id x)) c) y -> matched (yields R m c) y.
Proof.
  unfold yields, mbind, M_bind, mret, M_ret. destruct (m c) as [[a out] st]. by rewrite !app_nil_r.
Qed.

Lemma list_triggers c s h :
  holds c s -> ApiSpec.bound s = Some h ->
  Scene.listTriggers (scenes c)
  = (merge_sort Scene.keyLe (Scene.ofHome h (map_to_list (ApiSpec.triggers s))),
     Scene.withDb (spent (Scene.db (scenes c))) (scenes c)).
Proof.
  intros Hc Hb. destruct (h_scenes _ _ Hc) as [[Hv Hh Hs Ht Hf] Hk]. cbn in *.
  unfold Scene.listTriggers. rewrite Hh, Hb, Hv. cbn [negb]. rewrite select_reliable by done. cbn [default].
  unfold Scene.LIST_TRIGGERS, id. rewrite Ht. f_equal. etrans; [|apply list_fmap_id]. apply list_fmap_ext.
  intros i [k x] Hx%list_elem_of_lookup_2.
  rewrite merge_sort_Permutation, elem_of_ofHome, elem_of_map_to_list in Hx.
  destruct (Hk _ _ Hx) as (? & ? & ? & ?). cbn in *. rewrite !u8_id by done. by destruct k.
Qed.

Lemma list_scenes c s h :
  holds c s -> ApiSpec.bound s = Some h ->
  Scene.listScenes (scenes c)
  = (merge_sort Scene.idLe (Scene.ofHome h (map_to_list (ApiSpec.scenes s))).*1,
     Scene.withDb (spent (Scene.db (scenes c))) (scenes c)).
Proof.
  intros Hc Hb. destruct (h_scenes _ _ Hc) as [[Hv Hh Hs Ht Hf] Hk]. cbn in *.
  unfold Scene.listScenes. rewrite Hh, Hb, Hv. cbn [negb]. rewrite select_reliable by done. cbn [default].
  unfold Scene.LIST_SCENES, id. rewrite Hs, map_to_list_fmap. do 2 f_equal. unfold Scene.ofHome.
  induction (map_to_list (ApiSpec.scenes s)) as [|[[h' i] l] rows IH]; [done|]. cbn.
  destruct (bool_decide (h' = h)); cbn; by rewrite IH.
Qed.

Lemma scene_methods c s m :
  match m with
  | SetScene _ _ | GetScene _ | DeleteScene _ | ListScenes | BindSceneTrigger _ _ | UnbindSceneTrigger _
  | ListSceneTriggers => True
  | _ => False
  end -> method_ok m -> holds c s -> matched (callStore m c) (ApiSpec.call m s).
Proof.
  intros Hm Ho Hc. destruct (h_scenes _ _ Hc) as [Hr Hk]. pose proof (rep_home _ _ Hr) as Hh.
  pose proof (rep_open _ _ Hr) as Hv. cbn [sceneSpec SceneSpec.home] in Hh.
  assert (Hrun : forall op s', op_fits op -> (SceneSpec.step op (sceneSpec s)).2 = sceneSpec s' ->
    map_Forall (fun (k : string * Scene.Key) _ => key_ok k.2) (ApiSpec.triggers s') ->
    ApiSpec.bound s' = ApiSpec.bound s -> ApiSpec.devicePolicies s' = ApiSpec.devicePolicies s ->
    ApiSpec.nodeOverrides s' = ApiSpec.nodeOverrides s -> ApiSpec.identities s' = ApiSpec.identities s ->
    ApiSpec.tags s' = ApiSpec.tags s -> matched (void (changeScenes (fun st => (Scene.step op st).2)) c) (RVoid, [], s'))
    by (intros op s' ? ? ? ? ? ? ? ?; by apply (change_scenes c s)).
  destruct m as [| | | | | | | | | | | |i l|i|i| |k i|k| ]; try done; cbn [callStore ApiSpec.call];
    destruct (ApiSpec.bound s) as [h|] eqn:Hb.
  - apply (Hrun (Scene.SetScene i (convertSceneActions l))); try (by case_decide).
    + cbn. clear -Ho. induction Ho; by constructor.
    + cbn. rewrite Hb. unfold convertSceneActions, SceneActionEntry. rewrite length_fmap.
      case_decide; unfold sceneSpec; cbn; by rewrite Hb.
  - apply (Hrun (Scene.SetScene i (convertSceneActions l))); try done.
    + cbn. clear -Ho. induction Ho; by constructor.
    + cbn. by rewrite Hb.
  - apply (read_scenes c s (Scene.getScene i) (fun l => ApiSpec.actionTuple <$> default [] l) RActions); [done|]. left.
    rewrite (getScene_value He _ _ h) by done. f_equal. by apply (scene_of _ _ _ _ Hr).
  - refine (read_scenes c s (Scene.getScene i) (fun l => ApiSpec.actionTuple <$> default [] l) RActions None Hc _). right.
    unfold Scene.getScene. by rewrite Hh.
  - apply (Hrun (Scene.DeleteScene i)); try done. cbn. rewrite Hb. unfold sceneSpec. cbn. by rewrite ?Hb.
  - apply (Hrun (Scene.DeleteScene i)); try done. cbn. by rewrite Hb.
  - apply yields_id. eapply (read_scenes c s Scene.listScenes id RTexts); [done|]. left. by apply list_scenes.
  - apply yields_id. refine (read_scenes c s Scene.listScenes id RTexts [] Hc _). right. unfold Scene.listScenes. by rewrite Hh.
  - destruct k as [a b d g]. apply (Hrun (Scene.BindTrigger (Scene.mkKey a b d g) i)); try done.
    + cbn. rewrite Hb. unfold sceneSpec. cbn. by rewrite ?Hb.
    + by apply map_Forall_insert_2.
  - destruct k as [a b d g]. apply (Hrun (Scene.BindTrigger (Scene.mkKey a b d g) i)); try done. cbn. by rewrite Hb.
  - destruct k as [a b d g]. apply (Hrun (Scene.UnbindTrigger (Scene.mkKey a b d g))); try done.
    + cbn. rewrite Hb. unfold sceneSpec. cbn. by rewrite ?Hb.
    + by apply map_Forall_delete.
  - destruct k as [a b d g]. apply (Hrun (Scene.UnbindTrigger (Scene.mkKey a b d g))); try done. cbn. by rewrite Hb.
  - apply (read_scenes c s Scene.listTriggers (fmap (M := list) ApiSpec.triggerTuple) RTriggers); [done|]. left. by apply list_triggers.
  - refine (read_scenes c s Scene.listTriggers (fmap (M := list) ApiSpec.triggerTuple) RTriggers [] Hc _). right.
    unfold Scene.listTriggers. by rewrite Hh.
Qed.

(** *** Every input *)

Lemma store_refines i c s :
  store_ok i -> holds c s -> matched (step (asInput i) c) (specStep i s).
Proof.
  intros Ho Hc. destruct i as [m|info|n d]; cbn [asInput step specStep call].
  - destruct m; (by apply policy_methods) || (by apply metadata_methods) || (by apply scene_methods).
  - split; [done|]. unfold networkUp, onRegistry. destruct (Registry.setHomeId _ _) as [ev r].
    destruct Hc as [[] [] [[] ?]]. by do 2 split.
  - split; [done|]. unfold ApiSpec.identityReported, Register.noteDeviceIdentity.
    destruct (h_policies _ _ Hc) as [Hv Hh Ht Hov Hi H1 H2]. cbn [snd]. rewrite Hh.
    destruct (ApiSpec.bound s) as [h|] eqn:Hb; [|by destruct c].
    apply (holds_policies c s); [done| |by rewrite ?Hb..]. split; cbn; try done. by rewrite Hi.
Qed.

Lemma stores_refine ins c s :
  Forall store_ok ins -> holds c s ->
  (run (asInput <$> ins) c).1 = (specRun ins s).1 /\ holds (run (asInput <$> ins) c).2 (specRun ins s).2.
Proof.
  intros Ho. revert c s. induction Ho as [|i ins Hi _ IH]; intros c s Hc; [done|].
  cbn [fmap list_fmap run specRun]. destruct (store_refines i c s Hi Hc) as [E Hc'].
  destruct (step (asInput i) c) as [[r out] c'], (specStep i s) as [[r' out'] s']. cbn in E, Hc'.
  injection E as -> ->. destruct (IH c' s' Hc') as [E2 H2]. fold (fmap (M := list) asInput ins).
  destruct (run _ c'), (specRun ins s'). cbn in *. by subst.
Qed.

End Refinement.

(** A daemon with empty tables. *)
Definition newDaemon : Dbus.State := starting ∅ (Register.mkTables ∅ ∅) ∅ ∅ (Scene.mkTables ∅ ∅).

Lemma newDaemon_holds : holds newDaemon ApiSpec.empty.
Proof. split; [by split|by split|]. split; [by split|apply map_Forall_empty]. Qed.

(** C9: what a D-Bus client stores is what clients read.  Over any calls that set, read,
    list and delete policies, metadata, scenes and triggers, reports of identities and
    networks, every reply and every announcement is that of plain maps kept per
    network: an effective policy is the merge of the maps' entries, a blob that does
    not parse changes nothing, an empty value removes its key, lists are complete and
    in order.  The payloads of scenes must be of at most 255 bytes. *)
Theorem api_refines `{Oob} (e : SqliteEnv) `{Version} ins :
  reliable e -> Forall store_ok ins ->
  (run (asInput <$> ins) newDaemon).1 = (specRun ins ApiSpec.empty).1.
Proof.
  intros He Ho. apply (stores_refine He ins _ _ Ho newDaemon_holds).
Qed.

(** A device default, an override, a blob that does not parse, a tag and a scene. *)
Definition someCalls : list StoreInput :=
  [Use (ListScenes); Bound (mkDongleInfo "Z-Wave 6.07" 1 [0xC0; 0xFF; 0xEE; 0] 1); Identified 5 (Register.mkDevice 0x86 1 2);
   Use (SetDevicePolicy (Register.mkDevice 0x86 1 2) (Policy.serialize [Policy.WakeUpEntry 60 1; Policy.AssociationEntry 1 [1]]));
   Use (SetNodeOverride 5 (Policy.serialize [Policy.WakeUpEntry 30 1])); Use (SetNodeOverride 5 [1; 9]);
   Use (GetEffectivePolicy 5); Use (SetNodeMetadata 5 "room" "hall"); Use (GetNodesByMetadata "room" "hall");
   Use (SetScene "evening" [(5, [0x25; 1; 0])]); Use (GetScene "evening"); Use ListScenes].

Lemma api_refines_witness :
  (run (H := 0) (H0 := alwaysRuns) (H1 := Build_Version "1.0" "v1") (asInput <$> someCalls) newDaemon).1
  = (specRun (H := 0) someCalls ApiSpec.empty).1 /\
  fst <$> (specRun (H := 0) someCalls ApiSpec.empty).1
  = [RTexts []; RVoid; RVoid; RVoid; RVoid; RVoid; RBytes (Policy.serialize [Policy.WakeUpEntry 30 1; Policy.AssociationEntry 1 [1]]);
     RVoid; RBytes [5]; RVoid; RActions [(5, [0x25; 1; 0])]; RTexts ["evening"%string]].
Proof.
  split; [|by vm_compute]. apply api_refines; [apply alwaysRuns_reliable|].
  apply (bool_decide_unpack _). by vm_compute.
Defined.
