(* ===== verification/BackendRun.v ===== *)
(** * The external API on the bus

    [run] and [stop] of [external-api/DBusBackend.cpp] and the thread of
    [ExternalApiThread.cpp], as programs of the message bus: the subscriptions that
    feed the state of [ExternalApi], and those of the generated signals, whose code
    ([DBusSignals.gen.cpp]) and whose effect on D-Bus are parameters. *)

From Stdlib Require Import String.
From S2P Require Import Prelude Sqlite NodeRegistry ThermostatOrchestrator MessageBus ExternalApi.
From stdpp Require Import gmap strings.
#[local] Open Scope Z_scope.

Import Dbus.

Module Backend.

Definition BUS_NAME : string := "com.tiunda.ZWaved".
Definition SEVERITY_WARN : Z := 2.
Definition SEVERITY_CRITICAL : Z := 4.
Definition CODE_DBUS_BIND_FAILED : Z := 0x30.
Definition CODE_EXTERNAL_API_NO_BACKEND : Z := 0x31.

(** The event types [run] subscribes to; all but the last are retained. *)
Inductive Kind :=
| KDongleStatus | KDongleInfo | KInitData | KNodeList | KSessionStatus | KDaemonError | KThermostat.
#[global] Instance Kind_eq_dec : EqDecision Kind.
Proof. solve_decision. Defined.

Definition kindOf (e : StateEvent) : Kind :=
  match e with
  | DongleStatusEvent _ => KDongleStatus
  | DongleInfoEvent _ => KDongleInfo
  | InitDataEvent _ => KInitData
  | NodeListChanged _ => KNodeList
  | SessionStatusEvent _ => KSessionStatus
  | DaemonErrorEvent _ => KDaemonError
  | LogicalThermostatState _ => KThermostat
  end.

(** Event types of the bus: these, and those of other modules. *)
Inductive Topic := Cached (k : Kind) | Other (n : nat).
#[global] Instance Topic_eq_dec : EqDecision Topic.
Proof. solve_decision. Defined.

(** [IsRetained], [otherRetained] for the other types. *)
Definition retainedTopic (otherRetained : nat -> bool) (t : Topic) : bool :=
  match t with Cached k => negb (bool_decide (k = KThermostat)) | Other n => otherRetained n end.

Section Run.
Context {R X : Type}.

Inductive Value := Event (e : StateEvent) | Else (x : X).

(** [Impl]: the events kept, whether a connection was made and is up, and the
    subscriptions. *)
Record BackendState := mkBackend {
  kept : Impl; connection : bool; connected : bool;
  cacheSubs : list SubscriptionId; generatedSignalSubs : list SubscriptionId }.

(** The backend among the modules of the daemon. *)
Record Modules := mkModules { backend : BackendState; others : R }.

Abbreviation Prog := (MessageBus.Prog Topic Value Modules).

Definition onBackend (f : BackendState -> BackendState) (d : Modules) : Modules := mkModules (f (backend d)) (others d).

Definition keepEvent (e : StateEvent) (b : BackendState) : BackendState :=
  mkBackend (keep e (kept b)) (connection b) (connected b) (cacheSubs b) (generatedSignalSubs b).

(** The subscriber of [k]: events of its type only reach it. *)
Definition cacheHandler (k : Kind) (v : Value) : Prog :=
  match v with
  | Event e => if decide (kindOf e = k) then Modify (onBackend (keepEvent e)) (fun _ => Return) else Return
  | Else _ => Return
  end.

Definition cacheKinds : list Kind :=
  [KDongleStatus; KDongleInfo; KInitData; KNodeList; KSessionStatus; KDaemonError; KThermostat].

Definition addCacheSub (i : SubscriptionId) (b : BackendState) : BackendState :=
  mkBackend (kept b) (connection b) (connected b) (cacheSubs b ++ [i]) (generatedSignalSubs b).
Definition addSignalSub (i : SubscriptionId) (b : BackendState) : BackendState :=
  mkBackend (kept b) (connection b) (connected b) (cacheSubs b) (generatedSignalSubs b ++ [i]).

Fixpoint subscribeCaches (ks : list Kind) (next : Prog) : Prog :=
  match ks with
  | [] => next
  | k :: ks => Subscribe (Cached k) (cacheHandler k) (fun i =>
                 Modify (onBackend (addCacheSub i)) (fun _ => subscribeCaches ks next))
  end.

(** The generated signals: the events they are triggered by, and what emitting them
    does outside. *)
Context (signals : list Topic) (emit : Topic -> Value -> R -> R).

Definition signalHandler (t : Topic) (v : Value) : Prog :=
  Modify (fun d => if connected (backend d) && connection (backend d)
                   then mkModules (backend d) (emit t v (others d)) else d) (fun _ => Return).

Fixpoint subscribeGeneratedSignals (ts : list Topic) (next : Prog) : Prog :=
  match ts with
  | [] => next
  | t :: ts => Subscribe t (signalHandler t) (fun i =>
                 Modify (onBackend (addSignalSub i)) (fun _ => subscribeGeneratedSignals ts next))
  end.

Definition started (now : Z) (b : BackendState) : BackendState :=
  let i := kept b in
  mkBackend (mkImpl (lastDongleStatus i) (lastDongleInfo i) (lastInitData i) (lastNodes i) (lastSessionStatus i)
               (lastDaemonError i) (lastLogicalThermostat i) now)
    (connection b) (connected b) (cacheSubs b) (generatedSignalSubs b).
Definition connect (b : BackendState) : BackendState :=
  mkBackend (kept b) true true (cacheSubs b) (generatedSignalSubs b).
Definition disconnect (b : BackendState) : BackendState :=
  mkBackend (kept b) (connection b) false (cacheSubs b) (generatedSignalSubs b).

(** [run] up to its idle loop: [failure] is what acquiring the bus name threw. *)
Definition run (now : Z) (failure : option string) : Prog :=
  Modify (onBackend (started now)) (fun _ =>
    match failure with
    | Some what =>
        Publish (Cached KDaemonError)
          (Event (DaemonErrorEvent (mkDaemonError SEVERITY_CRITICAL "external-api" CODE_DBUS_BIND_FAILED
             ("failed to acquire system bus name " +:+ BUS_NAME +:+ ": " +:+ what)%string))) Return
    | None =>
        Modify (onBackend connect) (fun _ =>
          subscribeCaches cacheKinds (subscribeGeneratedSignals signals Return))
    end).

(** What follows the loop. *)
Definition leave : Prog := Modify (onBackend disconnect) (fun _ => Return).

Fixpoint unsubscribeAll (ids : list SubscriptionId) (next : Prog) : Prog :=
  match ids with [] => next | i :: ids => Unsubscribe i (unsubscribeAll ids next) end.
Fixpoint destroyGuards (ids : list SubscriptionId) (next : Prog) : Prog :=
  match ids with [] => next | i :: ids => Guard.destroy i (destroyGuards ids next) end.

Definition clearSignalSubs (b : BackendState) : BackendState :=
  mkBackend (kept b) (connection b) (connected b) (cacheSubs b) [].
Definition clearCacheSubs (b : BackendState) : BackendState :=
  mkBackend (kept b) (connection b) (connected b) [] (generatedSignalSubs b).
Definition stopped (b : BackendState) : BackendState := if connected b && connection b then disconnect b else b.

Definition stop : Prog :=
  Modify (fun d => d) (fun d =>
    unsubscribeAll (generatedSignalSubs (backend d)) (Modify (onBackend clearSignalSubs) (fun d =>
      destroyGuards (cacheSubs (backend d)) (Modify (onBackend clearCacheSubs) (fun _ =>
        Modify (onBackend stopped) (fun _ => Return)))))).

(** [externalApiThread], [compiled] being whether there is a backend. *)
Definition externalApiThread (compiled : bool) (now : Z) (failure : option string) : Prog :=
  if compiled then run now failure
  else Publish (Cached KDaemonError)
         (Event (DaemonErrorEvent (mkDaemonError SEVERITY_WARN "external-api" CODE_EXTERNAL_API_NO_BACKEND
            "no external-API backend compiled; thread idling"))) Return.

(** A backend before [run]. *)
Definition newBackend : BackendState := mkBackend (newImpl 0) false false [] [].
End Run.
End Backend.

Import Backend.

(** ** What is kept is what was last published *)

(** The part of the state that an event of kind [k] replaces, as the event. *)
Definition latest (k : Kind) (i : Impl) : option StateEvent :=
  match k with
  | KDongleStatus => Some (DongleStatusEvent (lastDongleStatus i))
  | KDongleInfo => Some (DongleInfoEvent (lastDongleInfo i))
  | KInitData => Some (InitDataEvent (lastInitData i))
  | KNodeList => Some (NodeListChanged (lastNodes i))
  | KSessionStatus => Some (SessionStatusEvent (lastSessionStatus i))
  | KDaemonError => Some (DaemonErrorEvent (lastDaemonError i))
  | KThermostat => None
  end.

Lemma latest_keep e k i :
  latest k (keep e i) = if decide (kindOf e = k) then (if decide (k = KThermostat) then None else Some e) else latest k i.
Proof. destruct e, k; done. Qed.

Section Latest.
Context {R X : Type} (otherRetained : nat -> bool) (signals : list Topic) (emit : Topic -> @Value X -> R -> R).
Abbreviation Prog := (MessageBus.Prog Topic (@Value X) (@Modules R)).
Context `{L : CallbackListLaws (@Value X -> Prog)}.
Abbreviation World := (World (K := Topic) (V := @Value X) (W := @Modules R)).
Abbreviation exec := (exec (W := @Modules R) (retainedTopic otherRetained)).

Definition shown (k : Kind) (d : @Modules R) : option StateEvent := latest k (kept (backend d)).

(** A value of the topic's event type. *)
Definition kinded (t : Topic) (v : @Value X) : Prop :=
  match t, v with Cached k, Event e => kindOf e = k | Cached _, Else _ => False | Other _, _ => True end.

(** Programs of other modules: they leave the kept events alone, publish values of the
    topic's type, and take no subscription back. *)
Fixpoint quiet (p : Prog) : Prop :=
  match p with
  | Return => True
  | Modify f next => (forall d k, shown k (f d) = shown k d) /\ forall d, quiet (next d)
  | Publish t v next => kinded t v /\ quiet next
  | Subscribe _ handler next => (forall v, quiet (handler v)) /\ forall i, quiet (next i)
  | Unsubscribe _ _ => False
  end.

(** [hk] gives the backend's own subscriptions: what is kept is what they were last
    called with, and all others are quiet. *)
Record follows (hk : Kind -> option handle) (s : World) : Prop := mkFollows {
  f_view k : shown k (modules s)
    = match hk k ≫= (fun h => last (received (Cached k) h s)) with Some (Event e) => Some e | _ => latest k (newImpl 0) end;
  f_ours k h : hk k = Some h -> k <> KThermostat /\ callback h (listOf (Cached k) s) = Some (cacheHandler k);
  f_quiet t h f : callback h (listOf t s) = Some f -> (exists k, t = Cached k /\ hk k = Some h) \/ forall v, quiet (f v);
  f_known t h : received t h s <> [] -> h ∈ handles (listOf t s);
  f_kinded t v : retainedOf t s = Some v -> kinded t v }.

Lemma exec_modify fuel f s s' :
  exec fuel (Modify f (fun _ => Return)) s = Some s' -> s' = mkWorld (f (modules s)) (bus s) (calls s).
Proof. destruct fuel as [|[|fuel]]; try done. cbn. by intros [=]. Qed.

Lemma follows_modify hk f s :
  (forall d k, shown k (f d) = shown k d) -> follows hk s -> follows hk (mkWorld (f (modules s)) (bus s) (calls s)).
Proof. intros Hf [V O Q K D]. split; [|exact O|exact Q|exact K|exact D]. intros k. cbn. rewrite Hf. apply V. Qed.

Lemma follows_retain hk t v s :
  kinded t v -> follows hk s -> follows hk (onBus (retain (retainedTopic otherRetained) t v (bus s)) s).
Proof.
  intros Hv [V O Q K D]. split.
  - exact V.
  - intros k h Hk. unfold listOf. cbn. rewrite retain_list. by apply O.
  - intros t' h f. unfold listOf. cbn. rewrite retain_list. apply Q.
  - intros t' h Hr. unfold listOf. cbn. rewrite retain_list. by apply K.
  - intros t' v'. unfold retainedOf. cbn. unfold retain. destruct (retainedTopic otherRetained t); [|apply D].
    destruct (decide (t' = t)) as [->|Hne]; [rewrite setTopic_eq; by intros [= <-]|].
    rewrite setTopic_ne by done. apply D.
Qed.

(** A call of somebody else's subscriber, and of ours. *)
Lemma follows_note hk t h v s :
  h ∈ handles (listOf t s) -> ~ (exists k, t = Cached k /\ hk k = Some h) -> follows hk s -> follows hk (note t h v s).
Proof.
  intros Hh Hno [V O Q K D]. split; [|exact O|exact Q| |exact D].
  - intros k. cbn [modules note]. rewrite V. destruct (hk k) as [h'|] eqn:Hk; [|done]. cbn [mbind option_bind].
    rewrite received_note, decide_False, app_nil_r; [done|]. intros [= -> ->]. eauto.
  - intros t' h'. rewrite received_note. intros Hr. change (h' ∈ handles (listOf t' s)).
    destruct (decide ((t, h) = (t', h'))) as [[= <- <-]|]; [done|]. rewrite app_nil_r in Hr. by apply K.
Qed.

Lemma follows_call hk k h e fuel s s' :
  hk k = Some h -> kindOf e = k -> follows hk s ->
  exec fuel (cacheHandler k (Event e)) (note (Cached k) h (Event e) s) = Some s' -> follows hk s'.
Proof.
  intros Hk He [V O Q K D]. destruct (O _ _ Hk) as [Hth Hc]. unfold cacheHandler. rewrite decide_True by done.
  intros ->%exec_modify.
  match goal with |- follows _ ?s2 =>
    assert (Hrec : forall t' h', received t' h' s2 = received t' h' (note (Cached k) h (Event e) s)) by done;
    set (after := s2) in *
  end.
  split; [|exact O|exact Q| |exact D].
  - intros k'. unfold shown. cbn [modules after note onBackend backend kept keepEvent]. rewrite latest_keep. destruct (decide (kindOf e = k')) as [Heq|Hne].
    + rewrite decide_False by congruence. assert (k' = k) as -> by congruence. rewrite Hk. cbn [mbind option_bind].
      by rewrite Hrec, received_note, decide_True, last_snoc by done.
    + specialize (V k'). unfold shown in V. rewrite V. destruct (hk k') as [h'|] eqn:Hk'; [|done]. cbn [mbind option_bind].
      by rewrite Hrec, received_note, decide_False, app_nil_r by congruence.
  - intros t' h'. rewrite Hrec. intros Hr.
    change (h' ∈ handles (listOf t' s)). rewrite received_note in Hr.
    destruct (decide ((Cached k, h) = (t', h'))) as [[= <- <-]|]; [apply callback_handles; by rewrite Hc|].
    rewrite app_nil_r in Hr. by apply K.
Qed.

Definition ours (hk : Kind -> option handle) (t : Topic) (h : handle) : Prop := exists k, t = Cached k /\ hk k = Some h.

Lemma ours_dec hk t h : ours hk t h \/ ~ ours hk t h.
Proof.
  destruct t as [k|n]; [|right; by intros (k & [=] & _)].
  destruct (decide (hk k = Some h)); [left; by exists k|right]. intros (k' & [= <-] & Hk). done.
Qed.

(** One call of a subscriber. *)
Lemma follows_handler hk fuel t h v f s s' :
  (forall p s s', exec fuel p s = Some s' -> quiet p -> follows hk s -> follows hk s') ->
  kinded t v -> callback h (listOf t s) = Some f -> follows hk s ->
  exec fuel (f v) (note t h v s) = Some s' -> follows hk s'.
Proof.
  intros IH Hv Hf Hs He. destruct (ours_dec hk t h) as [(k & -> & Hk)|Hno].
  - destruct (f_ours _ _ Hs _ _ Hk) as [_ Hc]. rewrite Hc in Hf. injection Hf as <-.
    destruct v as [e|x]; [|done]. by eapply follows_call.
  - destruct (f_quiet _ _ Hs _ _ _ Hf) as [Hyes|Hq]; [by destruct Hno|].
    eapply IH; [exact He|apply Hq|]. apply follows_note; [apply callback_handles; by rewrite Hf|done..].
Qed.

Lemma invoke_follows hk fuel t v hs s s' :
  (forall p s s', exec fuel p s = Some s' -> quiet p -> follows hk s -> follows hk s') ->
  kinded t v -> follows hk s -> invoke (exec fuel) t v hs s = Some s' -> follows hk s'.
Proof.
  intros IH Hv. revert s. induction hs as [|h hs IHhs]; intros s Hs; cbn [invoke]; [by intros [= <-]|].
  destruct (callback h _) as [f|] eqn:Hf; [|by apply IHhs].
  destruct (exec fuel (f v) _) as [s1|] eqn:He; [|done]. apply IHhs. by eapply follows_handler.
Qed.

(** What enrolling a subscriber changes. *)
Lemma enroll_facts t f s :
  let '(newId, h, replayed, b) := enroll (retainedTopic otherRetained) t f (bus s) in
  not (h ∈ handles (listOf t s)) /\
  (forall t' h', callback h' (listOf t' (onBus b s)) = if decide (t' = t /\ h' = h) then Some f else callback h' (listOf t' s)) /\
  (forall t', retainedOf t' (onBus b s) = retainedOf t' s) /\
  replayed = (if retainedTopic otherRetained t then retainedOf t s else None).
Proof.
  pose proof (enroll_spec (retainedTopic otherRetained) t f (bus s)) as Hspec.
  destruct (enroll _ t f (bus s)) as [[[newId h] replayed] b]. destruct Hspec as (-> & Hcb & Hret & Hoth & ->).
  split_and!; [apply append_fresh| | |done].
  - intros t' h'. unfold listOf. cbn [bus onBus]. destruct (decide (t' = t)) as [->|Hne].
    + rewrite Hcb, callback_append. apply decide_ext. tauto.
    + rewrite Hoth, decide_False by tauto. done.
  - intros t'. unfold retainedOf. cbn [bus onBus]. destruct (decide (t' = t)) as [->|Hne]; [done|]. by rewrite Hoth.
Qed.

Lemma ours_not_fresh hk t h s : follows hk s -> h ∉ handles (listOf t s) -> ~ ours hk t h.
Proof.
  intros Hs Hf (k & -> & Hk). apply Hf, callback_handles. destruct (f_ours _ _ Hs _ _ Hk) as [_ ->]. eauto.
Qed.

(** A subscription of somebody else, and one of ours, up to the replay. *)
Lemma enroll_follows hk t f s :
  (forall v, quiet (f v)) -> follows hk s ->
  let '(newId, h, replayed, b) := enroll (retainedTopic otherRetained) t f (bus s) in
  follows hk (onBus b s) /\ callback h (listOf t (onBus b s)) = Some f /\ (forall v, replayed = Some v -> kinded t v).
Proof.
  intros Hf Hs. pose proof (enroll_facts t f s) as Hen.
  destruct (enroll _ t f (bus s)) as [[[newId h] replayed] b]. destruct Hen as (Hfresh & Hlist & Hret & ->).
  pose proof (ours_not_fresh _ _ _ _ Hs Hfresh) as Hno. destruct Hs as [V O Q K D].
  split_and!; [split|by rewrite Hlist, decide_True|].
  - exact V.
  - intros k h' Hk. destruct (O _ _ Hk) as [Hth Hc]. split; [done|]. rewrite Hlist, decide_False; [done|].
    intros [<- ->]. apply Hno. by exists k.
  - intros t' h' f'. rewrite Hlist. case_decide; [intros [= <-]; by right|apply Q].
  - intros t' h' Hr. apply callback_handles. rewrite Hlist. case_decide; [eauto|]. by apply callback_handles, K.
  - intros t' v. rewrite Hret. apply D.
  - intros v. destruct (retainedTopic otherRetained t); [|done]. apply D.
Qed.

Lemma enroll_ours hk k s :
  k <> KThermostat -> hk k = None -> follows hk s ->
  let '(newId, h, replayed, b) := enroll (retainedTopic otherRetained) (Cached k) (cacheHandler k) (bus s) in
  follows (fun k' => if decide (k' = k) then Some h else hk k') (onBus b s) /\
  (forall v, replayed = Some v -> kinded (Cached k) v).
Proof.
  intros Hth Hk Hs. pose proof (enroll_facts (Cached k) (cacheHandler k) s) as Hen.
  destruct (enroll _ _ _ (bus s)) as [[[newId h] replayed] b]. destruct Hen as (Hfresh & Hlist & Hret & ->).
  pose proof (ours_not_fresh _ _ _ _ Hs Hfresh) as Hno. destruct Hs as [V O Q K D].
  split; [split|].
  - intros k'. change (shown k' (modules s) = match ((if decide (k' = k) then Some h else hk k') ≫= (fun h0 =>
      last (received (Cached k') h0 s))) with Some (Event e) => Some e | _ => latest k' (newImpl 0) end).
    rewrite V. destruct (decide (k' = k)) as [->|Hne]; [|done]. rewrite Hk. cbn [mbind option_bind].
    destruct (received (Cached k) h s) eqn:E; [done|]. destruct Hfresh. apply K. by rewrite E.
  - intros k' h'. destruct (decide (k' = k)) as [->|Hne].
    + intros [= <-]. split; [done|]. by rewrite Hlist, decide_True.
    + intros Hk'. destruct (O _ _ Hk') as [Hth' Hc]. split; [done|]. rewrite Hlist, decide_False; [done|]. by intros [[=] _].
  - intros t' h' f'. rewrite Hlist. destruct (decide (t' = Cached k /\ h' = h)) as [[-> ->]|Hne].
    + intros _. left. exists k. by rewrite decide_True.
    + intros Hc. destruct (Q _ _ _ Hc) as [(k' & -> & Hk')|Hq]; [left|by right]. exists k'. split; [done|].
      rewrite decide_False; [done|]. intros ->. by rewrite Hk in Hk'.
  - intros t' h' Hr. apply callback_handles. rewrite Hlist. case_decide; [eauto|]. by apply callback_handles, K.
  - intros t' v. rewrite Hret. apply D.
  - intros v. destruct (retainedTopic otherRetained _); [|done]. apply D.
Qed.

Lemma exec_follows hk fuel p s s' : exec fuel p s = Some s' -> quiet p -> follows hk s -> follows hk s'.
Proof.
  revert p s s'. induction fuel as [|fuel IH]; [done|]. intros p s s' He Hp Hs.
  destruct p as [|f next|t v next|t f next|i next]; cbn [MessageBus.exec quiet] in *.
  - by injection He as <-.
  - destruct Hp as [Hf Hn]. eapply IH; [exact He|apply Hn|]. by apply follows_modify.
  - destruct Hp as [Hv Hn]. destruct (invoke _ _ _ _ _) as [s1|] eqn:Hi; [|done].
    eapply IH; [exact He|done|]. eapply invoke_follows; [exact IH|exact Hv| |exact Hi]. by apply follows_retain.
  - destruct Hp as [Hf Hn]. pose proof (enroll_follows hk t f s Hf Hs) as Hen.
    destruct (enroll _ t f (bus s)) as [[[newId h] replayed] b]. destruct Hen as (Hs1 & Hc & Hv).
    destruct replayed as [v|]; [|eapply IH; [exact He|apply Hn|done]].
    destruct (exec fuel (f v) _) as [s1|] eqn:E1; [|done]. eapply IH; [exact He|apply Hn|].
    eapply follows_handler; [exact IH|by apply Hv|exact Hc|exact Hs1|exact E1].
  - done.
Qed.

(** The backend's subscriptions, one after the other. *)
Lemma subscribe_ours hk fuel k next s s' :
  k <> KThermostat -> hk k = None -> follows hk s ->
  exec fuel (Subscribe (Cached k) (cacheHandler k) next) s = Some s' ->
  exists h i s1 fuel', follows (fun k' => if decide (k' = k) then Some h else hk k') s1 /\ exec fuel' (next i) s1 = Some s'.
Proof.
  intros Hth Hk Hs. destruct fuel as [|fuel]; [done|]. cbn [MessageBus.exec].
  pose proof (enroll_ours hk k s Hth Hk Hs) as Hen.
  destruct (enroll _ _ _ (bus s)) as [[[newId h] replayed] b]. destruct Hen as [Hs1 Hv].
  destruct replayed as [v|]; [|intros He; by exists h, newId, (onBus b s), fuel].
  destruct (exec fuel (cacheHandler k v) _) as [s1|] eqn:E1; [|done]. intros He.
  exists h, newId, s1, fuel. split; [|done]. specialize (Hv v eq_refl). destruct v as [e|x]; [|done].
  eapply follows_call; [|exact Hv|exact Hs1|exact E1]. by rewrite decide_True.
Qed.

Lemma quiet_modify f : (forall d k, shown k (onBackend f d) = shown k d) ->
  forall fuel hk next s s', follows hk s -> exec fuel (Modify (onBackend f) next) s = Some s' ->
  exists s1 d fuel', follows hk s1 /\ exec fuel' (next d) s1 = Some s'.
Proof.
  intros Hf fuel hk next s s' Hs. destruct fuel as [|fuel]; [done|]. cbn [MessageBus.exec]. intros He.
  eexists _, _, fuel. split; [|exact He]. by apply follows_modify.
Qed.

Lemma subscribe_caches ks : NoDup ks -> KThermostat ∉ ks ->
  forall hk fuel next s s', follows hk s -> (forall k, k ∈ ks -> hk k = None) ->
  exec fuel (subscribeCaches ks next) s = Some s' ->
  exists hk' s1 fuel', follows hk' s1 /\ exec fuel' next s1 = Some s' /\
    (forall k, k ∈ ks -> is_Some (hk' k)) /\ (forall k, k ∉ ks -> hk' k = hk k).
Proof.
  induction ks as [|k ks IH]; intros Hnd Hth hk fuel next s s' Hs Hk He.
  { exists hk, s, fuel. split_and!; [done..| |done]. by intros k ?%elem_of_nil. }
  apply NoDup_cons in Hnd as [Hnot Hnd]. apply not_elem_of_cons in Hth as [Hne Hth].
  destruct (subscribe_ours hk fuel k _ s s' (not_eq_sym Hne) (Hk k (list_elem_of_here _ _)) Hs He)
    as (h & i & s1 & f1 & Hs1 & He1).
  destruct (quiet_modify (addCacheSub i) (fun d k => eq_refl) _ _ _ _ _ Hs1 He1) as (s2 & d & f2 & Hs2 & He2).
  assert (Hk2 : forall k', k' ∈ ks -> (if decide (k' = k) then Some h else hk k') = None).
  { intros k' Hk'. rewrite decide_False by (by intros ->). apply Hk. by right. }
  destruct (IH Hnd Hth _ f2 next s2 s' Hs2 Hk2 He2) as (hk' & s3 & f3 & Hs3 & He3 & Hin & Hout).
  exists hk', s3, f3. split_and!; [done|done| |].
  - intros k' [->|Hk']%elem_of_cons; [|by apply Hin]. rewrite Hout, decide_True by done. eauto.
  - intros k' [Hne' Hk']%not_elem_of_cons. by rewrite Hout, decide_False by done.
Qed.

Lemma signals_quiet ts next : quiet next -> quiet (subscribeGeneratedSignals emit ts next).
Proof.
  intros Hn. induction ts as [|t ts IH]; [done|]. cbn. split; [|done]. intros v. split; [|done].
  intros d k. by destruct (connected (backend d) && connection (backend d)).
Qed.

(** The rest of [run]: the thermostats' cache and the signals. *)
Lemma thermostat_quiet v : quiet (cacheHandler KThermostat v).
Proof.
  destruct v as [e|x]; [|done]. unfold cacheHandler. destruct (decide (kindOf e = KThermostat)) as [He|]; [|done].
  split; [|done]. intros d k. unfold shown. cbn [onBackend backend kept keepEvent]. rewrite latest_keep, He.
  destruct (decide (KThermostat = k)) as [<-|]; [by rewrite decide_True|done].
Qed.

Definition retainedKinds : list Kind := [KDongleStatus; KDongleInfo; KInitData; KNodeList; KSessionStatus; KDaemonError].

Lemma run_follows fuel now s s' :
  exec fuel (run signals emit now None) s = Some s' -> follows (fun _ => None) s ->
  exists hk, follows hk s' /\ forall k, k <> KThermostat -> is_Some (hk k).
Proof.
  intros He Hs. destruct (quiet_modify (started now) (fun d k => ltac:(by destruct k)) _ _ _ _ _ Hs He)
    as (s1 & d1 & f1 & Hs1 & He1).
  destruct (quiet_modify connect (fun d k => eq_refl) _ _ _ _ _ Hs1 He1) as (s2 & d2 & f2 & Hs2 & He2).
  change (subscribeCaches cacheKinds (subscribeGeneratedSignals emit signals Return)) with
    (subscribeCaches retainedKinds (subscribeCaches [KThermostat] (subscribeGeneratedSignals emit signals Return))) in He2.
  assert (Hnd : NoDup retainedKinds) by (apply (bool_decide_unpack _); by vm_compute).
  assert (Hth : KThermostat ∉ retainedKinds) by (apply (bool_decide_unpack _); by vm_compute).
  destruct (subscribe_caches _ Hnd Hth _ _ _ _ _ Hs2 (fun _ _ => eq_refl) He2) as (hk & s3 & f3 & Hs3 & He3 & Hin & _).
  exists hk. split.
  - eapply exec_follows; [exact He3| |exact Hs3]. split; [apply thermostat_quiet|]. intros i. split; [done|].
    intros _. by apply signals_quiet.
  - intros k Hk. apply Hin. destruct k; [..|done]; apply (bool_decide_unpack _); by vm_compute.
Qed.

Lemma runs_follow hk fuel ps s s' :
  runs (retainedTopic otherRetained) fuel ps s = Some s' -> Forall quiet ps -> follows hk s -> follows hk s'.
Proof.
  intros He Hq. revert s He. induction Hq as [|p ps Hp Hq IH]; intros s; cbn [runs]; [by intros [= <-]|].
  destruct (exec fuel p s) as [s1|] eqn:E1; [|done]. intros He Hs. eapply IH; [exact He|]. by eapply exec_follows.
Qed.

Lemma start_follows w : backend w = newBackend -> follows (fun _ => None) (start w).
Proof.
  intros Hw. split; try done.
  - intros k. unfold shown. cbn [modules start]. by rewrite Hw.
  - intros t h f Hc. assert (Hin : h ∈ handles emptyList) by (apply callback_handles; by eexists).
    rewrite handles_empty in Hin. by apply elem_of_nil in Hin.
Qed.

(** ** Ranks *)

Context (rank : Topic -> nat) (A : Topic -> Prop).

Lemma run_ranked Q n now :
  (forall k, (rank (Cached k) < n)%nat) -> Forall (fun t => (rank t < n)%nat) signals ->
  ranked (retainedTopic otherRetained) rank A Q n (run signals emit now None).
Proof.
  intros Hk Hsig.
  assert (Hs : ranked (retainedTopic otherRetained) rank A Q n (subscribeGeneratedSignals emit signals Return)).
  { induction Hsig as [|t ts Ht Hts IH]; [done|]. cbn. split_and!; [done|done|]. by intros _ _. }
  assert (Hc : forall ks, ranked (retainedTopic otherRetained) rank A Q n
                 (subscribeCaches ks (subscribeGeneratedSignals emit signals Return))).
  { induction ks as [|k ks IH]; [done|]. cbn [subscribeCaches ranked]. split_and!; [by intros _| |by intros _ _].
    intros [e|x]; [|done]. unfold cacheHandler. by destruct (decide _). }
  unfold run. cbn [ranked]. intros _ _. apply Hc.
Qed.

(** What the backend keeps of the retained events. *)
Definition up_to_date (s : World) : Prop := forall k, k <> KThermostat ->
  shown k (modules s) = match retainedOf (Cached k) s with Some (Event e) => Some e | _ => latest k (newImpl 0) end.

Lemma follows_current hk s :
  follows hk s -> (forall k, k <> KThermostat -> is_Some (hk k)) ->
  (forall k, k <> KThermostat -> current (Cached k) s) -> up_to_date s.
Proof.
  intros Hs Hall Hcur k Hk. destruct (Hall k Hk) as [h Hh]. specialize (Hcur k Hk). unfold current in Hcur.
  rewrite (f_view _ _ Hs k), Hh. cbn [mbind option_bind]. destruct (f_ours _ _ Hs _ _ Hh) as [_ Hc].
  destruct (retainedOf (Cached k) s) as [v|]; [|by rewrite Hcur].
  rewrite (Hcur h); [done|]. apply callback_handles. by rewrite Hc.
Qed.

(** C31: a client that asks late gets the latest.  Whatever other modules publish and
    subscribe, before the backend starts and after, as long as nobody takes a
    subscription back and handlers publish only what is ranked below what they handle:
    every call returns, and then what the backend keeps of each retained event, and
    answers with, is the value last published, or the default when there was none. *)
Theorem backend_up_to_date Q n before now after w :
  Forall (ranked (retainedTopic otherRetained) rank A Q n) (before ++ after) -> Forall quiet (before ++ after) ->
  (forall k, (rank (Cached k) < n)%nat) -> Forall (fun t => (rank t < n)%nat) signals -> backend w = newBackend ->
  exists fuel s, runs (retainedTopic otherRetained) fuel (before ++ [run signals emit now None] ++ after) (start w) = Some s /\
  forall k, k <> KThermostat ->
    latest k (kept (backend (modules s)))
    = match retainedOf (Cached k) s with Some (Event e) => Some e | _ => latest k (newImpl 0) end.
Proof.
  intros [Hrb Hra]%Forall_app [Hqb Hqa]%Forall_app Hrank Hsig Hw.
  assert (Hr : Forall (ranked (retainedTopic otherRetained) rank A Q n) (before ++ [run signals emit now None] ++ after)).
  { apply Forall_app. split; [done|]. constructor; [by apply run_ranked|done]. }
  assert (Hst : handlersRanked (retainedTopic otherRetained) rank A (start w)) by exact (start_ranked (retainedTopic otherRetained) rank A w).
  destruct (runs_total (L := L) (retainedTopic otherRetained) rank A Q n _ (start w) Hr Hst) as (fuel & s & He & P).
  exists fuel, s. split; [done|]. revert He. rewrite runs_app.
  destruct (runs _ fuel before (start w)) as [s1|] eqn:E1; [|done]. cbn [app runs].
  destruct (exec fuel (run signals emit now None) s1) as [s2|] eqn:E2; [|done]. intros E3.
  destruct (run_follows _ _ _ _ E2 (runs_follow _ _ _ _ _ E1 Hqb (start_follows w Hw))) as (hk & Hs2 & Hall).
  pose proof (runs_follow _ _ _ _ _ E3 Hqa Hs2) as Hs. apply (follows_current hk s Hs Hall).
  intros k Hk. apply (post_current _ _ _ _ _ _ _ P (Cached k)); [cbn; by rewrite bool_decide_eq_false_2|]. done.
Qed.
End Latest.

(** ** A backend at work *)

Module BackendToy.
Definition toyLists : CallbackLists (@Value unit -> MessageBus.Prog Topic (@Value unit) (@Modules unit)) := assocCallbacks _.

Definition plugged : StateEvent := DongleStatusEvent (mkDongleStatus true "/dev/ttyACM0").
Definition inclusion : StateEvent := SessionStatusEvent (mkSessionStatus true 0x4A 1).

(** The dongle is plugged in before the backend starts, a session begins after. *)
Definition early : MessageBus.Prog Topic (@Value unit) (@Modules unit) :=
  Publish (Cached KDongleStatus) (Event plugged) Return.
Definition late : MessageBus.Prog Topic (@Value unit) (@Modules unit) :=
  Publish (Cached KSessionStatus) (Event inclusion) Return.
Definition signals : list Topic := [Cached KSessionStatus].
Definition noEmission (_ : Topic) (_ : @Value unit) (u : unit) : unit := u.
Definition idle : @Modules unit := mkModules newBackend tt.
End BackendToy.

Lemma backend_up_to_date_witness :
  exists fuel s, runs (H := BackendToy.toyLists) (retainedTopic (fun _ => false)) fuel
      ([BackendToy.early] ++ [run BackendToy.signals BackendToy.noEmission 0 None] ++ [BackendToy.late]) (start BackendToy.idle) = Some s /\
  forall k, k <> KThermostat -> latest k (kept (backend (modules s)))
    = match retainedOf (Cached k) s with Some (Event e) => Some e | _ => latest k (newImpl 0) end.
Proof.
  apply (backend_up_to_date (H := BackendToy.toyLists) (L := assocCallbacks_laws _) (fun _ => false) BackendToy.signals
    BackendToy.noEmission (fun _ => 0%nat) (fun _ => True) (fun _ => True) 1 [BackendToy.early] 0 [BackendToy.late] BackendToy.idle).
  - repeat constructor; cbn; auto.
  - repeat constructor.
  - intros k. lia.
  - repeat constructor.
  - reflexivity.
Defined.

(** The same run, computed: the early status and the late session are kept, the
    signal's subscription and the seven others are there, and [stop] takes them back. *)
Example backend_session :
  (fun s => (latest KDongleStatus (kept (backend (modules s))), latest KSessionStatus (kept (backend (modules s))),
             cacheSubs (backend (modules s)), generatedSignalSubs (backend (modules s)))) <$>
  runs (H := BackendToy.toyLists) (retainedTopic (fun _ => false)) 60
    [BackendToy.early; run BackendToy.signals BackendToy.noEmission 0 None; BackendToy.late] (start BackendToy.idle)
  = Some (Some BackendToy.plugged, Some BackendToy.inclusion, [1; 2; 3; 4; 5; 6; 7], [8]).
Proof. by vm_compute. Qed.

Example backend_stopped :
  (fun s => (latest KSessionStatus (kept (backend (modules s))), cacheSubs (backend (modules s)),
             connected (backend (modules s)), handles (listOf (Cached KSessionStatus) s))) <$>
  runs (H := BackendToy.toyLists) (retainedTopic (fun _ => false)) 60
    [BackendToy.early; run BackendToy.signals BackendToy.noEmission 0 None; stop; BackendToy.late] (start BackendToy.idle)
  = Some (latest KSessionStatus (newImpl 0), [], false, []).
Proof. by vm_compute. Qed.
