(* ===== verification/TerminalText.v ===== *)
(** * The terminal client: text, to and from numbers

    What [src/utils/zwave-terminal/] uses of the standard library to read what the
    operator types and to compose its lines, written out: [std::from_chars], the
    extraction operators of [std::istringstream], [std::to_string] and the hexadecimal
    manipulators (Module [Text]); and the parsers of [prompts.cpp] built on them
    (Module [Parse]), as functions of the line that was typed. *)

From Stdlib Require Import String Ascii.
From S2P Require Import Prelude Config NodeStores.
From stdpp Require Import strings pretty.
#[local] Open Scope Z_scope.

Module Text.

(** ** Numbers to text *)

(** [std::to_string], and [<<] of an integer under [std::dec]. *)
Definition dec (z : Z) : text := lit (Values.to_string z).

Definition hexDigit (upper : bool) (d : Z) : ascii :=
  ascii_of_nat (Z.to_nat (if d <? 10 then 48 + d else (if upper then 55 else 87) + d)).

(** The digits of [z] in base 16; [fuel] bounds their number. *)
Fixpoint hexDigits (upper : bool) (fuel : nat) (z : Z) : text :=
  match fuel with
  | O => []
  | S fuel => (if z <? 16 then [] else hexDigits upper fuel (z / 16)) ++ [hexDigit upper (z `mod` 16)]
  end.

(** [std::hex << std::setw(w) << std::setfill('0')] of an unsigned of at most 32 bits. *)
Definition hexW (upper : bool) (w : nat) (z : Z) : text :=
  let ds := hexDigits upper 8 z in replicate (w - length ds) "0"%char ++ ds.
Definition hex (w : nat) (z : Z) : text := hexW false w z.

(** A line composed by a stream: text, decimal numbers, and bytes after [0x]. *)
Inductive Chunk := S_ (s : string) | T_ (t : text) | D_ (z : Z) | H_ (w : nat) (z : Z).
Definition chunk (c : Chunk) : text :=
  match c with S_ s => lit s | T_ t => t | D_ z => dec z | H_ w z => hex w z end.
Definition str (cs : list Chunk) : text := concat (chunk <$> cs).

(** A text in double quotes. *)
Definition QUOTE : ascii := ascii_of_nat 34.
Definition quoted (t : text) : text := QUOTE :: t ++ [QUOTE].

(** ** Text to numbers *)

Definition digit (base : Z) (c : ascii) : option Z :=
  let n := Z.of_nat (nat_of_ascii c) in
  let v := if (48 <=? n) && (n <=? 57) then n - 48
           else if (97 <=? n) && (n <=? 122) then n - 87
           else if (65 <=? n) && (n <=? 90) then n - 55 else base in
  if v <? base then Some v else None.

(** The longest prefix of digits, and what follows it. *)
Fixpoint digits (base : Z) (s : text) : list Z * text :=
  match s with
  | [] => ([], [])
  | c :: rest =>
      match digit base c with
      | None => ([], s)
      | Some d => let (ds, rest) := digits base rest in (d :: ds, rest)
      end
  end.

Definition number (base : Z) (ds : list Z) : Z := foldl (fun acc d => acc * base + d) 0 ds.

(** [std::from_chars] into an unsigned type up to [hi]: the value, unless there is no
    digit or it does not fit, and the rest of the text. *)
Definition fromChars (hi base : Z) (s : text) : option Z * text :=
  let (ds, rest) := digits base s in
  match ds with
  | [] => (None, s)
  | _ => (if number base ds <=? hi then Some (number base ds) else None, rest)
  end.

Definition MINUS : ascii := "-"%char.
Definition PLUS : ascii := "+"%char.
Definition INT_MAX : Z := 2147483647.

(** The same into [int], in base 10, with a minus sign. *)
Definition fromCharsInt (s : text) : option Z * text :=
  match s with
  | c :: rest =>
      if bool_decide (c = MINUS) then
        match fromChars (INT_MAX + 1) 10 rest with
        | (Some n, rest) => (Some (- n), rest)
        | (None, rest) => (None, rest)
        end
      else fromChars INT_MAX 10 s
  | [] => (None, [])
  end.

(** [std::isspace] *)
Definition isSpace (c : ascii) : bool :=
  let n := Z.of_nat (nat_of_ascii c) in (n =? 32) || ((9 <=? n) && (n <=? 13)).

(** [stream >> token]: nothing when only white space is left. *)
Fixpoint word (s : text) : text * text :=
  match s with
  | [] => ([], [])
  | c :: rest => if isSpace c then ([], s) else let (w, rest) := word rest in (c :: w, rest)
  end.

Definition extractToken (s : text) : option (text * text) :=
  match Config.dropWhile isSpace s with
  | [] => None
  | s => Some (word s)
  end.

(** [stream >> member] into an [int]: white space, a sign, digits.  The stream is left
    failed when there are none or they do not fit, and at its end ([eof]) when the text
    was read up to it. *)
Record Extracted := mkExtracted { member : option Z; rest : text; eof : bool }.

Definition extractInt (s : text) : Extracted :=
  match Config.dropWhile isSpace s with
  | [] => mkExtracted None [] true
  | c :: s =>
      let negative := bool_decide (c = MINUS) in
      let s := if negative || bool_decide (c = PLUS) then s else c :: s in
      let (ds, rest) := digits 10 s in
      let n := number 10 ds in
      let value := if negative then - n else n in
      let fits := negb (bool_decide (ds = [])) && (- INT_MAX - 1 <=? value) && (value <=? INT_MAX) in
      mkExtracted (if fits then Some value else None) rest (bool_decide (rest = []))
  end.

End Text.

(** ** The parsers of the prompts, on what [getnstr] stored *)

Module Parse.

Definition NODE_ID_MIN : Z := 1.
Definition NODE_ID_MAX : Z := 232.
Definition BYTE_MIN : Z := 0x00.
Definition BYTE_MAX : Z := 0xFF.
Definition U16_MAX : Z := 0xFFFF.
Definition U32_MAX : Z := 0xFFFFFFFF.
Definition DECIMAL_BASE : Z := 10.
Definition HEX_BASE : Z := 16.
Definition COMMA : ascii := ",".
Definition BLANK : ascii := " ".

Definition parseUint (s : text) (maxVal : Z) : option Z :=
  let '(begin_, base) :=
    match s with
    | z :: x :: c :: digits_ =>
        if bool_decide (z = "0"%char) && (bool_decide (x = "x"%char) || bool_decide (x = "X"%char))
        then (c :: digits_, HEX_BASE) else (s, DECIMAL_BASE)
    | _ => (s, DECIMAL_BASE)
    end in
  match Text.fromChars U32_MAX base begin_ with
  | (Some value, []) => if maxVal <? value then None else Some value
  | _ => None
  end.

(** [promptByte] from [got != OK] on. *)
Definition byteIn (minVal maxVal : Z) (line : option text) : option Z :=
  match line with
  | None | Some [] => None
  | Some text =>
      match (Text.fromCharsInt text).1 with
      | Some value => if (value <? minVal) || (maxVal <? value) then None else Some (u8 value)
      | None => None
      end
  end.

(** [promptNodeId], [selected] being the selection it falls back to. *)
Definition nodeId (selected : option Z) (line : option text) : option Z :=
  match default [] line with
  | [] => selected
  | text =>
      match parseUint text NODE_ID_MAX with
      | Some parsed => if parsed <? NODE_ID_MIN then None else Some (u8 parsed)
      | None => None
      end
  end.

Definition int32 (line : option text) : option Z :=
  match line with
  | None | Some [] => None
  | Some text => (Text.fromCharsInt text).1
  end.

(** [promptLine] *)
Definition line (got : option text) : option text :=
  match got with None | Some [] => None | Some text => Some text end.

(** The others go on from what [promptLine] returned. *)
Definition uintIn (maxVal : Z) (text : option text) : option Z :=
  match text with None => None | Some text => parseUint text maxVal end.

Definition charIn (valid : text) (text : option text) : option ascii :=
  match text with
  | Some (chosen :: _) => if bool_decide (chosen ∈ valid) then Some chosen else None
  | _ => None
  end.

Definition commasToBlanks (s : text) : text := (fun c => if bool_decide (c = COMMA) then BLANK else c) <$> s.

(** The loop of [promptNodeList]; each turn consumes a digit. *)
Fixpoint nodes (fuel : nat) (s : text) : option (list Z) :=
  match fuel with
  | O => None
  | S fuel =>
      let e := Text.extractInt s in
      match Text.member e with
      | Some m =>
          if (m <? NODE_ID_MIN) || (NODE_ID_MAX <? m) then None
          else match nodes fuel (Text.rest e) with Some ms => Some (u8 m :: ms) | None => None end
      | None => if Text.eof e then Some [] else None
      end
  end.

Definition nodeList (text : option text) : option (list Z) :=
  match text with
  | None => None
  | Some text =>
      match nodes (S (length text)) (commasToBlanks text) with
      | Some (m :: ms) => Some (m :: ms)
      | _ => None
      end
  end.

(** The loop of [promptByteList]. *)
Fixpoint bytes (fuel : nat) (s : text) : option (list Z) :=
  match fuel with
  | O => None
  | S fuel =>
      match Text.extractToken s with
      | None => Some []
      | Some (token, s) =>
          match parseUint token BYTE_MAX with
          | None => None
          | Some value => match bytes fuel s with Some bs => Some (u8 value :: bs) | None => None end
          end
      end
  end.

Definition byteList (text : option text) : option (list Z) :=
  match text with
  | None => None
  | Some text =>
      match bytes (S (length text)) (commasToBlanks text) with
      | Some (b :: bs) => Some (b :: bs)
      | _ => None
      end
  end.

End Parse.

Example byte_with_junk : Parse.byteIn 0 255 (Some (lit "12abc")) = Some 12.
Proof. reflexivity. Qed.

Example members_lost : Parse.nodeList (Some (lit "5,99999999999")) = Some [5].
Proof. reflexivity. Qed.

Example bytes_typed : Parse.byteList (Some (lit "0x25 1,0xFF")) = Some [0x25; 1; 0xFF].
Proof. reflexivity. Qed.

Example line_composed : Text.str [Text.S_ "node="; Text.D_ 12; Text.S_ " 0x"; Text.H_ 2 10] = lit "node=12 0x0a".
Proof. reflexivity. Qed.

(** ** What is printed is read back *)

Section RoundTrip.
Import Text.

Lemma number_app base ds ds' : number base (ds ++ ds') = number base ds * base ^ zlen ds' + number base ds'.
Proof.
  unfold number. rewrite foldl_app. generalize (foldl (fun acc d => acc * base + d) 0 ds) as a.
  induction ds' as [|d ds' IH] using rev_ind; intros a; [cbn; lia|].
  rewrite !foldl_app, length_app. cbn [foldl length]. rewrite IH.
  rewrite Nat2Z.inj_add, Z.pow_add_r by lia. cbn. lia.
Qed.

Lemma number_snoc base ds d : number base (ds ++ [d]) = number base ds * base + d.
Proof. rewrite number_app. cbn. lia. Qed.

(** A text whose head is no digit ends the number before it. *)
Definition stops (base : Z) (s : text) : Prop := from_option (fun c => digit base c = None) True (head s).

Lemma digits_stop base s : stops base s -> digits base s = ([], s).
Proof. destruct s as [|c s]; cbn; [done|]. by intros ->. Qed.

Lemma pretty_digit x : (x < 10)%N -> digit 10 (pretty_N_char x) = Some (Z.of_N x).
Proof. intros Hx. destruct x as [|p]; [done|]. do 4 (destruct p as [p|p|]; try done; try lia). Qed.

Lemma digits_pretty x : forall s ds r,
  digits 10 (lit s) = (ds, r) ->
  exists pre, digits 10 (lit (pretty_N_go x s)) = (pre ++ ds, r) /\ number 10 pre = Z.of_N x /\
              ((0 < x)%N -> pre <> []).
Proof.
  induction (N.lt_wf_0 x) as [x _ IH]; intros s ds r Hs.
  destruct (decide (0 < x)%N) as [Hx|Hx].
  - rewrite pretty_N_go_step by done.
    destruct (IH (x `div` 10)%N ltac:(apply N.div_lt; lia) (String (pretty_N_char (x `mod` 10)) s)
                (Z.of_N (x `mod` 10) :: ds) r) as (pre & E & Hn & _).
    { unfold lit in *. cbn [list_ascii_of_string digits]. rewrite pretty_digit by (apply N.mod_lt; lia).
      by rewrite Hs. }
    exists (pre ++ [Z.of_N (x `mod` 10)]). rewrite E, <- app_assoc. split_and!; [done| |by destruct pre].
    rewrite number_snoc, Hn. pose proof (N.div_mod x 10). lia.
  - replace x with 0%N by lia. rewrite pretty_N_go_0. exists []. split_and!; [done..|lia].
Qed.

Lemma lit_app s t : lit (s +:+ t) = lit s ++ lit t.
Proof. unfold lit. induction s as [|c s IH]; [done|]. cbn. by rewrite <- IH. Qed.

Lemma lit_of s : lit (string_of_list_ascii s) = s.
Proof. apply list_ascii_of_string_of_list_ascii. Qed.

Lemma pretty_N_go_lit x s : lit (pretty_N_go x s) = lit (pretty_N_go x "") ++ lit s.
Proof.
  revert s. induction (N.lt_wf_0 x) as [x _ IH]; intros s. destruct (decide (0 < x)%N) as [Hx|Hx].
  - rewrite !(pretty_N_go_step x) by done. rewrite (IH (x `div` 10)%N ltac:(apply N.div_lt; lia) (String _ s)).
    rewrite (IH (x `div` 10)%N ltac:(apply N.div_lt; lia) (String _ "")). by rewrite <- app_assoc.
  - replace x with 0%N by lia. by rewrite !pretty_N_go_0.
Qed.

Lemma digits_dec n s : 0 <= n -> stops 10 s ->
  exists ds, digits 10 (dec n ++ s) = (ds, s) /\ number 10 ds = n /\ ds <> [].
Proof.
  intros Hn Hs. unfold dec, Values.to_string, pretty, pretty_Z. destruct n as [|p|p]; [| |lia].
  - exists [0]. cbn. by rewrite digits_stop.
  - unfold pretty, pretty_positive, pretty, pretty_N. destruct (decide _); [done|].
    destruct (digits_pretty (Npos p) (string_of_list_ascii s) [] s) as (ds & E & En & Hne).
    { rewrite lit_of. by apply digits_stop. }
    rewrite pretty_N_go_lit, lit_of, app_nil_r in E. exists ds. split_and!; [done..|apply Hne; lia].
Qed.

Lemma digits_all base s ds : digits base s = (ds, []) -> Forall (fun c => is_Some (digit base c)) s.
Proof.
  revert ds. induction s as [|c s IH]; intros ds H; [constructor|]. cbn in H.
  destruct (digit base c) eqn:E; [|done]. destruct (digits base s) as [ds' r]. simplify_eq. eauto.
Qed.

Lemma dec_digits n : 0 <= n -> Forall (fun c => is_Some (digit 10 c)) (dec n) /\ dec n <> [].
Proof.
  intros Hn. destruct (digits_dec n [] Hn I) as (ds & E & _ & Hne). rewrite app_nil_r in E.
  split; [by apply digits_all in E|]. intros E'. rewrite E' in E. by simplify_eq/=.
Qed.

Lemma dec_neg n : 0 < n -> dec (- n) = MINUS :: dec n.
Proof. by destruct n. Qed.

Lemma fromChars_dec hi n s : 0 <= n <= hi -> stops 10 s -> fromChars hi 10 (dec n ++ s) = (Some n, s).
Proof.
  intros Hn Hs. destruct (digits_dec n s ltac:(lia) Hs) as (ds & E & En & Hne). unfold fromChars.
  rewrite E, En. destruct ds; [done|]. by rewrite (proj2 (Z.leb_le n hi)) by lia.
Qed.

Lemma digit_head c s base : Forall (fun c => is_Some (digit base c)) (c :: s) -> exists d, digit base c = Some d.
Proof. intros [[d Hd] _]%Forall_cons. eauto. Qed.

Lemma fromCharsInt_dec z : - INT_MAX - 1 <= z <= INT_MAX -> fromCharsInt (dec z) = (Some z, []).
Proof.
  intros Hz. unfold fromCharsInt. destruct (decide (z < 0)).
  - replace z with (- (- z)) by lia. rewrite dec_neg by lia. rewrite bool_decide_true by done.
    rewrite <- (app_nil_r (dec (- z))), fromChars_dec by (done || lia). by rewrite Z.opp_involutive.
  - destruct (dec_digits z ltac:(lia)) as [Hd Hne]. destruct (dec z) as [|c s] eqn:E; [done|].
    destruct (digit_head _ _ _ Hd) as [d Hc]. rewrite bool_decide_false by (intros ->; by vm_compute in Hc).
    rewrite <- E, <- (app_nil_r (dec z)). apply fromChars_dec; [lia|done].
Qed.

Lemma parseUint_dec n hi : 0 <= n <= hi -> hi <= Parse.U32_MAX -> Parse.parseUint (dec n) hi = Some n.
Proof.
  intros Hn Hhi. destruct (dec_digits n ltac:(lia)) as [Hd Hne]. unfold Parse.parseUint.
  assert (E : match dec n with
              | z :: x :: c :: digits_ =>
                  if bool_decide (z = "0"%char) && (bool_decide (x = "x"%char) || bool_decide (x = "X"%char))
                  then (c :: digits_, Parse.HEX_BASE) else (dec n, Parse.DECIMAL_BASE)
              | _ => (dec n, Parse.DECIMAL_BASE)
              end = (dec n, Parse.DECIMAL_BASE)).
  { destruct (dec n) as [|z [|x [|c s]]]; try done. apply Forall_cons in Hd as [_ Hd].
    apply Forall_cons in Hd as [[d Hx] _].
    rewrite (bool_decide_false (x = "x"%char)), (bool_decide_false (x = "X"%char)) by (intros ->; by vm_compute in Hx).
    by rewrite andb_false_r. }
  rewrite E. clear E. unfold Parse.DECIMAL_BASE.
  rewrite <- (app_nil_r (dec n)), fromChars_dec by (done || lia).
  by rewrite (proj2 (Z.ltb_ge hi n)) by lia.
Qed.

(** ** Lists of numbers, a blank between them *)

Definition spaced (ns : list Z) : text := concat ((fun n => Parse.BLANK :: dec n) <$> ns).

Lemma digit_noSpace c d : digit 10 c = Some d -> isSpace c = false /\ c <> MINUS /\ c <> PLUS /\ c <> Parse.COMMA.
Proof.
  destruct c as [b0 b1 b2 b3 b4 b5 b6 b7].
  destruct b0, b1, b2, b3, b4, b5, b6, b7; vm_compute; intros H; simplify_eq; by split_and!.
Qed.

Lemma dec_cons n : 0 <= n -> exists c s d, dec n = c :: s /\ digit 10 c = Some d.
Proof.
  intros Hn. destruct (dec_digits n Hn) as [Hd Hne]. destruct (dec n) as [|c s] eqn:E; [done|].
  destruct (digit_head _ _ _ Hd) as [d Hc]. eauto.
Qed.

Lemma spaced_stops ns : stops 10 (spaced ns).
Proof. by destruct ns. Qed.

Lemma extractInt_spaced n ns :
  0 <= n <= INT_MAX -> extractInt (spaced (n :: ns)) = mkExtracted (Some n) (spaced ns) (bool_decide (spaced ns = [])).
Proof.
  intros Hn. destruct (dec_cons n ltac:(lia)) as (c & s & d & E & Hc).
  destruct (digit_noSpace c d Hc) as (Hs & Hm & Hp & _).
  unfold spaced at 1, extractInt. cbn [fmap list_fmap concat app Config.dropWhile]. change (isSpace Parse.BLANK) with true.
  cbn iota. fold (spaced ns). rewrite E. cbn [app Config.dropWhile]. rewrite Hs.
  rewrite (bool_decide_false (c = MINUS)), (bool_decide_false (c = PLUS)) by done. cbn [orb].
  change (c :: s ++ spaced ns) with ((c :: s) ++ spaced ns). rewrite <- E.
  destruct (digits_dec n (spaced ns) ltac:(lia) (spaced_stops ns)) as (ds & -> & En & Hne).
  rewrite En, (bool_decide_false (ds = [])) by done.
  rewrite (proj2 (Z.leb_le (- INT_MAX - 1) n)), (proj2 (Z.leb_le n INT_MAX)) by (unfold INT_MAX in *; lia). done.
Qed.

Lemma spaced_length ns : (length ns <= length (spaced ns))%nat.
Proof. induction ns as [|n ns IH]; unfold spaced in *; cbn in *; rewrite ?length_app; lia. Qed.

Lemma nodes_spaced ns : forall fuel, (length ns < fuel)%nat ->
  Forall (fun n => Parse.NODE_ID_MIN <= n <= Parse.NODE_ID_MAX) ns -> Parse.nodes fuel (spaced ns) = Some ns.
Proof.
  induction ns as [|n ns IH]; intros [|fuel] Hf Hn; try lia; [done|]. apply Forall_cons in Hn as [Hn Hns].
  unfold Parse.NODE_ID_MIN, Parse.NODE_ID_MAX in Hn. cbn [Parse.nodes].
  rewrite extractInt_spaced by (unfold INT_MAX; lia). cbn [member rest].
  unfold Parse.NODE_ID_MIN at 1, Parse.NODE_ID_MAX at 1.
  rewrite (proj2 (Z.ltb_ge n 1)), (proj2 (Z.ltb_ge 232 n)) by lia. cbn [orb].
  rewrite IH; [|cbn in Hf; lia|done]. unfold u8. by rewrite Z.mod_small by lia.
Qed.

Lemma word_dec n s : 0 <= n -> from_option (fun c => isSpace c = true) True (head s) -> word (dec n ++ s) = (dec n, s).
Proof.
  intros Hn Hs. destruct (dec_digits n Hn) as [Hd _]. induction Hd as [|c t [d Hc] _ IH]; cbn.
  - destruct s as [|b s]; [done|]. cbn in Hs. cbn. by rewrite Hs.
  - destruct (digit_noSpace c d Hc) as [-> _]. by rewrite IH.
Qed.

Lemma bytes_spaced ns : forall fuel, (length ns < fuel)%nat ->
  Forall (fun n => 0 <= n <= Parse.BYTE_MAX) ns -> Parse.bytes fuel (spaced ns) = Some ns.
Proof.
  induction ns as [|n ns IH]; intros [|fuel] Hf Hn; try lia; [done|]. apply Forall_cons in Hn as [Hn Hns].
  cbn [Parse.bytes]. unfold extractToken, spaced at 1.
  cbn [fmap list_fmap concat app Config.dropWhile]. change (isSpace Parse.BLANK) with true. cbn iota. fold (spaced ns).
  destruct (dec_cons n ltac:(lia)) as (c & t & d & E & Hc). destruct (digit_noSpace c d Hc) as (Hs & _).
  rewrite E at 1. cbn [app Config.dropWhile]. rewrite Hs.
  change (c :: t ++ spaced ns) with ((c :: t) ++ spaced ns). rewrite <- E, word_dec; [|lia|by destruct ns].
  rewrite parseUint_dec by (done || lia). rewrite IH; [|cbn in Hf; lia|done].
  unfold u8, Parse.BYTE_MAX in *. by rewrite Z.mod_small by lia.
Qed.

(** The line an operator types: the first number, then each behind a comma or a blank. *)
Definition listed (n : Z) (ns : list (ascii * Z)) : text := dec n ++ concat ((fun p => p.1 :: dec p.2) <$> ns).
Definition separators (ns : list (ascii * Z)) : Prop := Forall (fun p => p.1 = Parse.COMMA \/ p.1 = Parse.BLANK) ns.

Lemma commas_dec n : 0 <= n -> Parse.commasToBlanks (dec n) = dec n.
Proof.
  intros Hn. destruct (dec_digits n Hn) as [Hd _]. unfold Parse.commasToBlanks.
  induction Hd as [|c s [d Hc] _ IH]; [done|]. cbn. destruct (digit_noSpace c d Hc) as (_ & _ & _ & Hco).
  rewrite bool_decide_false by done. by f_equal.
Qed.

Lemma commas_listed n ns : separators ns -> 0 <= n -> Forall (fun m => 0 <= m) ns.*2 ->
  Parse.commasToBlanks (listed n ns) = dec n ++ spaced ns.*2.
Proof.
  intros Hs Hn Hns. unfold listed, Parse.commasToBlanks. rewrite fmap_app.
  fold (Parse.commasToBlanks (dec n)). rewrite commas_dec by done. f_equal.
  induction ns as [|[c m] ns IH]; [done|]. apply Forall_cons in Hs as [Hc Hs], Hns as [Hm Hns].
  cbn. rewrite fmap_app. fold (Parse.commasToBlanks (dec m)). rewrite commas_dec by done.
  f_equal; [|f_equal; by apply IH]. cbn in Hc. destruct Hc as [-> | ->]; by vm_compute.
Qed.

Lemma commas_length s : length (Parse.commasToBlanks s) = length s.
Proof. apply length_fmap. Qed.

Lemma listed_lead n ns : 0 <= n ->
  extractInt (dec n ++ spaced ns) = extractInt (spaced (n :: ns)) /\
  extractToken (dec n ++ spaced ns) = extractToken (spaced (n :: ns)).
Proof.
  intros Hn. unfold spaced at 2 4, extractInt, extractToken. cbn [fmap list_fmap concat app Config.dropWhile].
  change (isSpace Parse.BLANK) with true. done.
Qed.

Lemma listed_line n ns : 0 <= n -> Parse.line (Some (listed n ns)) = Some (listed n ns).
Proof. intros Hn. destruct (dec_cons n Hn) as (c & s & d & E & _). unfold listed. by rewrite E. Qed.

Lemma listed_length n ns : 0 <= n -> separators ns -> Forall (fun m => 0 <= m) ns.*2 ->
  length (listed n ns) = length (dec n ++ spaced ns.*2).
Proof. intros Hn Hs Hns. by rewrite <- commas_listed, commas_length. Qed.

(** A list of node ids or of bytes, as typed, is the list that is read. *)
Lemma nodeList_listed n ns : separators ns ->
  Forall (fun m => Parse.NODE_ID_MIN <= m <= Parse.NODE_ID_MAX) (n :: ns.*2) ->
  Parse.nodeList (Some (listed n ns)) = Some (n :: ns.*2).
Proof.
  intros Hs Hr. assert (Hp : Forall (fun m => 0 <= m) (n :: ns.*2)).
  { eapply Forall_impl; [done|]. unfold Parse.NODE_ID_MIN. cbn. lia. }
  pose proof (Forall_inv Hp) as Hn. pose proof (Forall_inv_tail Hp) as Hns. cbn in Hn.
  unfold Parse.nodeList. rewrite commas_listed, listed_length by done.
  cbn [Parse.nodes]. rewrite (proj1 (listed_lead n ns.*2 Hn)).
  pose proof (nodes_spaced (n :: ns.*2) (S (length (dec n ++ spaced ns.*2)))) as E.
  cbn [Parse.nodes] in E. rewrite E; [done| |done].
  rewrite length_app. pose proof (spaced_length ns.*2). destruct (dec_cons n Hn) as (c & s & d & -> & _). cbn. lia.
Qed.

Lemma byteList_listed n ns : separators ns ->
  Forall (fun m => 0 <= m <= Parse.BYTE_MAX) (n :: ns.*2) -> Parse.byteList (Some (listed n ns)) = Some (n :: ns.*2).
Proof.
  intros Hs Hr. assert (Hp : Forall (fun m => 0 <= m) (n :: ns.*2)).
  { eapply Forall_impl; [done|]. cbn. lia. }
  pose proof (Forall_inv Hp) as Hn. pose proof (Forall_inv_tail Hp) as Hns. cbn in Hn.
  unfold Parse.byteList. rewrite commas_listed, listed_length by done.
  cbn [Parse.bytes]. rewrite (proj2 (listed_lead n ns.*2 Hn)).
  pose proof (bytes_spaced (n :: ns.*2) (S (length (dec n ++ spaced ns.*2)))) as E.
  cbn [Parse.bytes] in E. rewrite E; [done| |done].
  rewrite length_app. pose proof (spaced_length ns.*2). destruct (dec_cons n Hn) as (c & s & d & -> & _). cbn. lia.
Qed.

End RoundTrip.
