(* ===== verification/TerminalConsole.v ===== *)
(** * The terminal client: the operator, the daemon and the node list

    The world of [src/utils/zwave-terminal/]: the lines and keys the operator types, the
    replies of the daemon on D-Bus (the class [Daemon]), and the client's own state,
    the activity log of [activity.cpp] and the node list of [nodes.cpp].  Its functions
    are programs of the monad [M]: they may wait for the operator and they may throw.
    [prompts.cpp] is here as programs; its parsers are in [TerminalText]. *)

From Stdlib Require Import String Ascii.
From S2P Require Import Prelude Config TerminalText.
From stdpp Require Import strings.
Export Text.
#[local] Open Scope Z_scope.

(** ** D-Bus *)

Inductive Arg :=
| AByte (z : Z) | AU16 (z : Z) | AU32 (z : Z) | AI32 (z : Z) | ABool (b : bool)
| AText (t : text) | ABytes (l : list Z) | AActions (l : list (Z * list Z)).

Record Call := mkCall { method : text; arguments : list Arg }.

#[global] Instance Arg_eq_dec : EqDecision Arg.
Proof. solve_decision. Defined.
#[global] Instance Call_eq_dec : EqDecision Call.
Proof. solve_decision. Defined.

(** The tuples of the interface, as the client names them. *)
Record NodeTuple := mkNodeTuple { t_id : Z; t_basic : Z; t_generic : Z; t_specific : Z; t_ccs : list Z }.
Record StatusTuple := mkStatusTuple {
  s_connected : bool; s_ttyPath : text; s_homeId : text; s_controller : Z; s_nodeCount : Z;
  s_active : bool; s_commandId : Z; s_sessionId : Z; s_uptime : Z }.
Record DongleInfoTuple := mkDongleInfo { d_version : text; d_type : Z; d_homeId : list Z; d_controller : Z }.
Record InitDataTuple := mkInitData {
  i_api : Z; i_capabilities : Z; i_nodeIds : list Z; i_chipType : Z; i_chipVersion : Z }.
Record NodeInfoTuple := mkNodeInfo {
  n_id : Z; n_basic : Z; n_generic : Z; n_specific : Z; n_ccs : list Z; n_scheme : Z;
  n_manufacturer : Z; n_productType : Z; n_product : Z; n_library : Z; n_proto : Z; n_protoSub : Z;
  n_app : Z; n_appSub : Z; n_endpoints : Z; n_dynamic : bool; n_identical : bool;
  n_zwp : Z; n_role : Z; n_nodeType : Z; n_installerIcon : Z; n_userIcon : Z }.
Record TriggerTuple := mkTrigger { g_source : Z; g_node : Z; g_selector : Z; g_key : Z; g_scene : text }.
Record ThermostatTuple := mkThermostat {
  l_members : Z; l_mode : Z; l_operating : Z; l_fan : Z; l_type : Z; l_scale : Z; l_precision : Z; l_value : Z }.
Record ErrorTuple := mkErrorTuple { e_severity : Z; e_source : text; e_code : Z; e_message : text }.

(** What a call yields: an error, nothing, or a result of the method's type. *)
Inductive Reply :=
| Failed (what : text)
| Nothing
| Nodes (l : list NodeTuple)
| Pairs (l : list (text * text))
| NodeValues (l : list (text * text * Z))
| Blob (l : list Z)
| Status (s : StatusTuple)
| DongleInfo (d : DongleInfoTuple)
| InitData (i : InitDataTuple)
| NodeInfo (n : NodeInfoTuple)
| Policies (l : list (Z * Z * Z * list Z))
| Texts (l : list text)
| Actions (l : list (Z * list Z))
| Triggers (l : list TriggerTuple)
| Thermostat (s : ThermostatTuple)
| Problem (e : ErrorTuple).

(** The daemon, asked once per call: the reply to the [n]-th.  [mismatch] is what
    [storeResultsTo] says of a reply of another type. *)
Class Daemon := { reply : nat -> Call -> Reply; mismatch : text }.

Definition failure (r : Reply) : option text := match r with Failed what => Some what | _ => None end.

(** ** State *)

Record NodeValueRow := mkValueRow { valueId : text; value : text; updatedAt : Z }.
Record NodeRow := mkNodeRow {
  id : Z; basicType : Z; genericType : Z; specificType : Z; commandClasses : list Z;
  name : text; values : list NodeValueRow; state : text }.
Record NodeModel := mkNodeModel { rows : list NodeRow; selected : nat }.

Record DaemonErrorState := mkDaemonError { severity : Z; source : text; code : Z; message : text }.
Record DskPendingState := mkDskPending { dskNode : Z; dsk : text; active : bool }.

Definition MAX_LOG_LINES : nat := 200.

Record ActivityState := mkActivity {
  log : list text; dongleConnected : bool; donglePath : text;
  daemonError : DaemonErrorState; dskPending : DskPendingState; nodesDirty : bool; valuesDirty : bool }.

Definition quiet : ActivityState :=
  mkActivity [] false [] (mkDaemonError 0 [] 0 []) (mkDskPending 0 [] false) false false.

(** What is put on the screen: a text at a row and a column, a bar across a row, one
    character. *)
Inductive Attr := Plain | Reverse | Bold (pair : Z).
Inductive Op := Put (attr : Attr) (row col : Z) (t : text) | HLine (row : Z) | Bar (row col : Z).

(** [prompted] are the labels shown and [screens] the menus and dialogues drawn so far;
    [calls] the calls made. *)
Record World := mkWorld {
  typed : list (option text); keys : list Z;
  sessionCounter : Z; nodeModel : NodeModel; activity : ActivityState;
  prompted : list text; screens : list (list Op); calls : list Call }.

Definition setTyped l (w : World) :=
  mkWorld l (keys w) (sessionCounter w) (nodeModel w) (activity w) (prompted w) (screens w) (calls w).
Definition setKeys l (w : World) :=
  mkWorld (typed w) l (sessionCounter w) (nodeModel w) (activity w) (prompted w) (screens w) (calls w).
Definition setCounter c (w : World) :=
  mkWorld (typed w) (keys w) c (nodeModel w) (activity w) (prompted w) (screens w) (calls w).
Definition setModel m (w : World) :=
  mkWorld (typed w) (keys w) (sessionCounter w) m (activity w) (prompted w) (screens w) (calls w).
Definition setActivity a (w : World) :=
  mkWorld (typed w) (keys w) (sessionCounter w) (nodeModel w) a (prompted w) (screens w) (calls w).
Definition addPrompted t (w : World) :=
  mkWorld (typed w) (keys w) (sessionCounter w) (nodeModel w) (activity w) (prompted w ++ [t]) (screens w) (calls w).
Definition addScreen s (w : World) :=
  mkWorld (typed w) (keys w) (sessionCounter w) (nodeModel w) (activity w) (prompted w) (screens w ++ [s]) (calls w).
Definition addCall c (w : World) :=
  mkWorld (typed w) (keys w) (sessionCounter w) (nodeModel w) (activity w) (prompted w) (screens w) (calls w ++ [c]).

(** ** Programs *)

Inductive Run (A : Type) := Waiting (w : World) | Threw (what : text) (w : World) | Done (a : A) (w : World).
Arguments Waiting {A} _. Arguments Threw {A} _ _. Arguments Done {A} _ _.

Definition worldOf {A} (r : Run A) : World := match r with Waiting w | Threw _ w | Done _ w => w end.

Definition M (A : Type) : Type := World -> Run A.
#[global] Instance M_ret : MRet M := fun A a w => Done a w.
#[global] Instance M_bind : MBind M := fun A B k m w =>
  match m w with Waiting w => Waiting w | Threw e w => Threw e w | Done a w => k a w end.
(** [try { m } catch (const sdbus::Error& err) { h }] *)
Definition catch {A} (m : M A) (h : text -> M A) : M A := fun w =>
  match m w with Threw e w => h e w | r => r end.
Definition get {A} (f : World -> A) : M A := fun w => Done (f w) w.
Definition modify (f : World -> World) : M unit := fun w => Done tt (f w).

Declare Scope console_scope.
Delimit Scope console_scope with console.
(** [x] is the value asked for, or the function returns after [e]. *)
Notation "'ask' x ':=' m 'else_' e 'in' k" := (m ≫= (fun o => match o with None => e | Some x => k end))
  (at level 10, x name, m at level 100, e at level 100, k at level 200) : console_scope.
Notation "'try_' m 'catch_' x '=>' h" := (catch m (fun x => h))
  (at level 10, m at level 100, x name, h at level 200) : console_scope.
#[global] Open Scope console_scope.

Fixpoint each {A} (f : A -> M unit) (l : list A) : M unit :=
  match l with [] => mret tt | a :: l => f a ;; each f l end.

(** *** activity.cpp *)

Definition logged (entry : text) (l : list text) : list text :=
  let l := l ++ [entry] in drop (length l - MAX_LOG_LINES) l.

(** The time stamp before a line is left out. *)
Definition logOn (entry : text) (a : ActivityState) : ActivityState :=
  mkActivity (logged entry (log a)) (dongleConnected a) (donglePath a) (daemonError a) (dskPending a)
    (nodesDirty a) (valuesDirty a).

Definition logLine (entry : text) : M unit := modify (fun w => setActivity (logOn entry (activity w)) w).
Definition say (cs : list Chunk) : M unit := logLine (str cs).

Definition setDaemonError (severity : Z) (source : text) (code : Z) (message : text) (a : ActivityState) : ActivityState :=
  mkActivity (log a) (dongleConnected a) (donglePath a) (mkDaemonError severity source code message) (dskPending a)
    (nodesDirty a) (valuesDirty a).

Definition setDongleStatus (connected : bool) (path : text) (a : ActivityState) : ActivityState :=
  mkActivity (log a) connected path (daemonError a) (dskPending a) (nodesDirty a) (valuesDirty a).

Definition setDskPending (nodeId : Z) (dsk : text) (a : ActivityState) : ActivityState :=
  mkActivity (log a) (dongleConnected a) (donglePath a) (daemonError a)
    (mkDskPending nodeId dsk (negb (bool_decide (dsk = [])))) (nodesDirty a) (valuesDirty a).

Definition setDirty (nodes values : bool) (a : ActivityState) : ActivityState :=
  mkActivity (log a) (dongleConnected a) (donglePath a) (daemonError a) (dskPending a) nodes values.

(** *** Calls *)

Section Console.
Context `{Daemon}.

Definition callMethod (m : string) (args : list Arg) : M Reply := fun w =>
  let c := mkCall (lit m) args in
  let n := length (calls w) in
  let w := addCall c w in
  match failure (reply n c) with Some what => Threw what w | None => Done (reply n c) w end.

(** A call without a result. *)
Definition invoke (m : string) (args : list Arg) : M unit := callMethod m args ;; mret tt.

(** A call with [storeResultsTo]. *)
Definition fetch {A} (m : string) (args : list Arg) (as_ : Reply -> option A) : M A :=
  r ← callMethod m args;
  match as_ r with Some a => mret a | None => fun w => Threw mismatch w end.

(** [++sessionCounter] on 8 bits. *)
Definition bump : M Z :=
  modify (fun w => setCounter (u8 (sessionCounter w + 1)) w) ;; get sessionCounter.

(** *** prompts.cpp *)

Definition NODE_ID_INPUT_BUFFER : nat := 8.
Definition INT_INPUT_BUFFER : nat := 16.
Definition LINE_INPUT_BUFFER : nat := 64.

(** [getnstr] of at most [n] characters, and the text up to the first NUL; [None] when
    it does not yield [OK]. *)
Fixpoint cstring (s : text) : text :=
  match s with
  | [] => []
  | c :: s => if bool_decide (c = "000"%char) then [] else c :: cstring s
  end.

Definition getnstr (n : nat) : M (option text) := fun w =>
  match typed w with
  | [] => Waiting w
  | line :: rest => Done (cstring ∘ take n <$> line) (setTyped rest w)
  end.

Definition prompt (label : text) (buffer : nat) : M (option text) :=
  modify (addPrompted label) ;; getnstr (buffer - 1).

Definition promptByte (label : string) (minVal maxVal : Z) : M (option Z) :=
  got ← prompt (lit label) NODE_ID_INPUT_BUFFER; mret (Parse.byteIn minVal maxVal got).

Definition selectedNodeId (m : NodeModel) : option Z := id <$> rows m !! selected m.

Definition promptNodeId (label : string) : M (option Z) :=
  sel ← get (selectedNodeId ∘ nodeModel);
  let shown := match sel with Some n => str [S_ label; S_ " ["; D_ n; S_ "]"] | None => lit label end in
  got ← prompt shown NODE_ID_INPUT_BUFFER;
  mret (Parse.nodeId sel got).

Definition promptInt32 (label : string) : M (option Z) :=
  got ← prompt (lit label) INT_INPUT_BUFFER; mret (Parse.int32 got).

Definition promptText (label : text) : M (option text) :=
  got ← prompt label LINE_INPUT_BUFFER; mret (Parse.line got).
Definition promptLine (label : string) : M (option text) := promptText (lit label).

Definition promptU16 (label : string) : M (option Z) :=
  text ← promptLine label; mret (Parse.uintIn Parse.U16_MAX text).
Definition promptU32 (label : string) : M (option Z) :=
  text ← promptLine label; mret (Parse.uintIn Parse.U32_MAX text).
Definition promptChar (label valid : string) : M (option ascii) :=
  text ← promptLine label; mret (Parse.charIn (lit valid) text).
Definition promptNodeList (label : string) : M (option (list Z)) :=
  text ← promptLine label; mret (Parse.nodeList text).
Definition promptByteList (label : string) : M (option (list Z)) :=
  text ← promptLine label; mret (Parse.byteList text).

(** [getch] without a time-out. *)
Definition getch : M Z := fun w =>
  match keys w with [] => Waiting w | k :: rest => Done k (setKeys rest w) end.

(** *** nodes.cpp *)

Definition STATE_PRIORITY : list text :=
  lit <$> ["binary_switch"; "multilevel_switch"; "setpoint"; "sensor"; "config"; "battery"]%string.

Definition startsWith (prefix s : text) : bool := bool_decide (take (length prefix) s = prefix).

Fixpoint firstWith (prefix : text) (values : list NodeValueRow) : option text :=
  match values with
  | [] => None
  | v :: values => if startsWith prefix (valueId v) then Some (value v) else firstWith prefix values
  end.

Fixpoint byPriority (prefixes : list text) (values : list NodeValueRow) : option text :=
  match prefixes with
  | [] => None
  | p :: prefixes => match firstWith p values with Some v => Some v | None => byPriority prefixes values end
  end.

Definition headlineState (values : list NodeValueRow) : text :=
  match byPriority STATE_PRIORITY values with
  | Some v => v
  | None => match values with [] => [] | v :: _ => value v end
  end.

(** The name among the metadata: its last entry. *)
Fixpoint nameIn (meta : list (text * text)) (name : text) : text :=
  match meta with
  | [] => name
  | (key, v) :: meta => nameIn meta (if bool_decide (key = lit "name") then v else name)
  end.

Definition as_nodes r := match r with Nodes l => Some l | _ => None end.
Definition as_pairs r := match r with Pairs l => Some l | _ => None end.
Definition as_values r := match r with NodeValues l => Some l | _ => None end.

Definition pushRow (tup : NodeTuple) : M unit :=
  name ← try_ (meta ← fetch "GetNodeMetadata" [AByte (t_id tup)] as_pairs; mret (nameIn meta []))
               catch_ err => mret [];
  let row := mkNodeRow (t_id tup) (t_basic tup) (t_generic tup) (t_specific tup) (t_ccs tup) name [] [] in
  modify (fun w => setModel (mkNodeModel (rows (nodeModel w) ++ [row]) (selected (nodeModel w))) w).

Fixpoint indexOf (nodeId : Z) (rows : list NodeRow) : option nat :=
  match rows with
  | [] => None
  | row :: rows => if id row =? nodeId then Some O else S <$> indexOf nodeId rows
  end.

Definition refreshNodes : M unit :=
  nodes ← try_ (l ← fetch "GetNodes" [] as_nodes; mret (Some l))
                catch_ err => (say [S_ "GetNodes failed: "; T_ err] ;; mret None);
  match nodes with
  | None => mret tt
  | Some nodes =>
      previouslySelected ← get (selectedNodeId ∘ nodeModel);
      modify (fun w => setModel (mkNodeModel [] (selected (nodeModel w))) w) ;;
      each pushRow nodes ;;
      modify (fun w =>
        let m := nodeModel w in
        let at_ := match previouslySelected with None => None | Some n => indexOf n (rows m) end in
        setModel (mkNodeModel (rows m) (default O at_)) w)
  end.

Definition refreshRow (i : nat) : M unit :=
  row ← get (fun w => rows (nodeModel w) !! i);
  match row with
  | None => mret tt
  | Some row =>
      values ← try_ (l ← fetch "GetNodeValues" [AByte (id row)] as_values; mret (Some l))
                     catch_ err => (say [S_ "GetNodeValues failed: "; T_ err] ;; mret None);
      match values with
      | None => mret tt
      | Some l =>
          let vs := (fun '(i, v, u) => mkValueRow i v u) <$> l in
          let row := mkNodeRow (id row) (basicType row) (genericType row) (specificType row)
                       (commandClasses row) (name row) vs (headlineState vs) in
          modify (fun w => setModel (mkNodeModel (<[i:=row]> (rows (nodeModel w))) (selected (nodeModel w))) w)
      end
  end.

Definition refreshValues : M unit :=
  n ← get (fun w => length (rows (nodeModel w))); each refreshRow (seq 0 n).

Definition moveSelection (delta : Z) (m : NodeModel) : NodeModel :=
  match rows m with
  | [] => m
  | _ =>
      let last := zlen (rows m) - 1 in
      let next := Z.min (Z.max (Z.of_nat (selected m) + delta) 0) last in
      mkNodeModel (rows m) (Z.to_nat next)
  end.

End Console.
