(* ===== verification/TerminalFormat.v ===== *)
(** * The terminal client: names and lines

    [src/utils/zwave-terminal/format.cpp]: the names of codes, [None] standing for the
    null pointer, and the rendering of lists of command classes. *)

From Stdlib Require Import String Ascii.
From S2P Require Import Prelude Config TerminalText.
From stdpp Require Import strings.
#[local] Open Scope Z_scope.

Module Format.
Import Text.

(** The status and state codes of [constants.hpp]. *)
Definition STATUS_STARTED : Z := 0x01.
Definition STATUS_NODE_FOUND : Z := 0x02.
Definition STATUS_ONGOING_END : Z := 0x03.
Definition STATUS_ONGOING_CTRL : Z := 0x04.
Definition STATUS_PROTOCOL_DONE : Z := 0x05.
Definition STATUS_COMPLETED : Z := 0x06.
Definition STATUS_FAILED : Z := 0x07.
Definition STATUS_NEIGHBORS_DONE : Z := 0x0B.
Definition STATUS_NOT_PRIMARY : Z := 0x23.
Definition TX_STATUS_OK : Z := 0x00.
Definition TX_STATUS_NO_ACK : Z := 0x01.
Definition TX_STATUS_FAIL : Z := 0x02.
Definition TX_STATUS_NOT_IDLE : Z := 0x03.
Definition TX_STATUS_NO_ROUTE : Z := 0x04.
Definition TX_STATUS_VERIFIED : Z := 0x05.
Definition SWITCH_STATE_OFF : Z := 0x00.
Definition SWITCH_STATE_ON : Z := 0x01.
Definition SWITCH_STATE_UNKNOWN : Z := 0x02.
Definition CC_MARK : Z := 0xEF.

(** [switch] over constant labels. *)
Fixpoint case (v : Z) (labels : list (Z * string)) : option text :=
  match labels with
  | [] => None
  | (label, name) :: labels => if v =? label then Some (lit name) else case v labels
  end.

Definition formatNetworkStatus (v : Z) : text :=
  default (lit "?") (case v
    [(STATUS_STARTED, "Started"); (STATUS_NODE_FOUND, "Node found");
     (STATUS_ONGOING_END, "Ongoing - End Node"); (STATUS_ONGOING_CTRL, "Ongoing - Controller");
     (STATUS_PROTOCOL_DONE, "Protocol complete"); (STATUS_COMPLETED, "Completed");
     (STATUS_FAILED, "Failed"); (STATUS_NEIGHBORS_DONE, "Neighbors discovery done");
     (STATUS_NOT_PRIMARY, "Not primary")]%string).

Definition formatStatusEntry (operation : string) (sessionId status nodeId : Z) : text :=
  str [S_ operation; S_ " session="; D_ sessionId; S_ " status=0x"; H_ 2 status; S_ " (";
       T_ (formatNetworkStatus status); S_ ") node="; D_ nodeId].

Definition formatTxStatus (v : Z) : text :=
  default (lit "?") (case v
    [(TX_STATUS_OK, "OK"); (TX_STATUS_NO_ACK, "No ACK"); (TX_STATUS_FAIL, "Failed");
     (TX_STATUS_NOT_IDLE, "Routing not idle"); (TX_STATUS_NO_ROUTE, "No route");
     (TX_STATUS_VERIFIED, "Verified")]%string).

Definition formatSwitchState (v : Z) : text :=
  default (lit "?") (case v
    [(SWITCH_STATE_OFF, "Off"); (SWITCH_STATE_ON, "On"); (SWITCH_STATE_UNKNOWN, "Unknown")]%string).

Definition sensorTypeName (v : Z) : option text :=
  case v
    [(0x01, "Air temperature"); (0x03, "Luminance"); (0x04, "Power"); (0x05, "Humidity");
     (0x11, "Moisture"); (0x1B, "Ultraviolet")]%string.

Definition sensorUnit (sensorType scale : Z) : text :=
  if sensorType =? 0x01 then lit (if scale =? 0 then "C" else "F")
  else if sensorType =? 0x03 then lit (if scale =? 0 then "%" else "lux")
  else if sensorType =? 0x04 then lit (if scale =? 0 then "W" else "BTU/h")
  else if sensorType =? 0x05 then lit (if scale =? 0 then "%" else "g/m3")
  else [].

Definition meterTypeName (v : Z) : option text :=
  case v
    [(0x01, "electric"); (0x02, "gas"); (0x03, "water")]%string.

Definition meterUnit (meterType scale : Z) : text :=
  if meterType =? 0x01 then
    default [] (case scale [(0, "kWh"); (1, "kVAh"); (2, "W"); (4, "V"); (5, "A")]%string)
  else if (meterType =? 0x02) || (meterType =? 0x03) then lit (if scale =? 0 then "m3" else "")
  else [].

Definition thermostatModeName (v : Z) : option text :=
  case v
    [(0, "off"); (1, "heat"); (2, "cool"); (3, "auto"); (4, "aux heat"); (6, "fan only"); (8, "dry");
     (10, "auto changeover"); (11, "energy-save heat"); (12, "energy-save cool"); (13, "away")]%string.

Definition thermostatOperatingStateName (v : Z) : option text :=
  case v
    [(0, "idle"); (1, "heating"); (2, "cooling"); (3, "fan only"); (4, "pending heat");
     (5, "pending cool"); (6, "vent/economizer")]%string.

Definition thermostatFanModeName (v : Z) : option text :=
  case v
    [(0, "auto low"); (1, "low"); (2, "auto high"); (3, "high"); (4, "auto medium"); (5, "medium")]%string.

Definition colorComponentName (v : Z) : option text :=
  case v
    [(0, "warm white"); (1, "cold white"); (2, "red"); (3, "green"); (4, "blue"); (5, "amber");
     (6, "cyan"); (7, "purple")]%string.

Definition centralSceneKeyName (v : Z) : option text :=
  case v
    [(0, "press 1x"); (1, "release"); (2, "hold"); (3, "press 2x"); (4, "press 3x"); (5, "press 4x");
     (6, "press 5x")]%string.

Definition libraryTypeName (v : Z) : text :=
  default (lit "unknown") (case v
    [(1, "Static Controller"); (2, "Controller"); (3, "Enhanced Slave"); (4, "Slave"); (5, "Installer");
     (6, "Routing Slave"); (7, "Bridge Controller"); (8, "DUT")]%string).

Definition CC_NAMES : list (Z * string) :=
  [(0x20, "Basic"); (0x22, "ApplicationStatus"); (0x25, "SwitchBinary"); (0x26, "SwitchMultilevel");
   (0x27, "SwitchAll"); (0x2B, "SceneActivation"); (0x2C, "SceneActuatorConf");
   (0x2D, "SceneControllerConf"); (0x30, "SensorBinary"); (0x31, "SensorMultilevel"); (0x32, "Meter");
   (0x33, "ColorSwitch"); (0x40, "ThermostatMode"); (0x42, "ThermostatOperatingState");
   (0x43, "ThermostatSetpoint"); (0x44, "ThermostatFanMode"); (0x45, "ThermostatFanState");
   (0x55, "TransportService"); (0x56, "Crc16Encap"); (0x59, "AssociationGrpInfo");
   (0x5A, "DeviceResetLocally"); (0x5B, "CentralScene"); (0x5E, "ZwavePlusInfo"); (0x60, "MultiChannel");
   (0x62, "DoorLock"); (0x63, "UserCode"); (0x6C, "Supervision"); (0x70, "Configuration");
   (0x71, "Notification"); (0x72, "ManufacturerSpecific"); (0x73, "Powerlevel"); (0x75, "Protection");
   (0x77, "NodeNaming"); (0x7A, "FirmwareUpdateMd"); (0x80, "Battery"); (0x81, "Clock"); (0x82, "Hail");
   (0x84, "WakeUp"); (0x85, "Association"); (0x86, "Version"); (0x87, "Indicator");
   (0x8E, "MultiChannelAssociation"); (0x8F, "MultiCmd"); (0x98, "Security"); (0x9F, "Security2")]%string.

Definition commandClassName (commandClass : Z) : option text := case commandClass CC_NAMES.

(** [<< " "] between the items. *)
Fixpoint spacedBy (items : list text) : text :=
  match items with
  | [] => []
  | [item] => item
  | item :: items => item ++ lit " " ++ spacedBy items
  end.

Definition formatCc (cc : Z) : text :=
  str [S_ "0x"; H_ 2 cc] ++ match commandClassName cc with Some name => lit "(" ++ name ++ lit ")" | None => [] end.

Definition formatCcRange (ccs : list Z) : text := lit "[" ++ spacedBy (formatCc <$> ccs) ++ lit "]".

(** [std::find] of the mark: the classes before it and those behind, if it is there. *)
Fixpoint splitMark (ccs : list Z) : list Z * option (list Z) :=
  match ccs with
  | [] => ([], None)
  | cc :: ccs => if cc =? CC_MARK then ([], Some ccs) else let (l, r) := splitMark ccs in (cc :: l, r)
  end.

Definition formatCcList (ccs : list Z) : text :=
  match splitMark ccs with
  | (supported, None) => lit "supports=" ++ formatCcRange supported
  | (supported, Some controlled) =>
      lit "supports=" ++ formatCcRange supported ++ lit " controls=" ++ formatCcRange controlled
  end.

End Format.

Example cc_list : Format.formatCcList [0x25; 0xEF; 0x20; 0x01] =
  lit "supports=[0x25(SwitchBinary)] controls=[0x20(Basic) 0x01]".
Proof. reflexivity. Qed.
