(* ===== verification/TerminalHandlers.v ===== *)
(** * The terminal client: the actions on one node

    The handlers of [src/utils/zwave-terminal/handlers.cpp] that ask for a node and some
    values and make one call: every get and set of the menus, and the removal of a
    failed node.  Each is the program of the function of its name.  [Form] is what such
    an action promises: the fields it asks for, and the call it makes exactly when all of
    them were filled in; every handler refines its form. *)

From Stdlib Require Import String Ascii.
From S2P Require Import Prelude Config TerminalText TerminalConsole.
From stdpp Require Import strings.
#[local] Open Scope Z_scope.

Section Handlers.
Context `{Daemon}.

Definition BYTE_MIN := Parse.BYTE_MIN.
Definition BYTE_MAX := Parse.BYTE_MAX.
Definition NODE_ID_MIN := Parse.NODE_ID_MIN.
Definition NODE_ID_MAX := Parse.NODE_ID_MAX.
Definition GROUP_ID_MIN : Z := 1.
Definition GROUP_ID_MAX : Z := 255.
Definition CONFIG_SIZE_MIN : Z := 1.
Definition CONFIG_SIZE_MAX : Z := 4.
Definition DURATION_DEFAULT : Z := 0xFF.
Definition LIFELINE_GROUP : Z := 1.

(** [logLine(method + " failed: " + err.what())] *)
Definition failed (method : string) (err : text) : M unit := say [S_ method; S_ " failed: "; T_ err].

Definition handleSwitchBinary (turnOn : bool) : M unit :=
  ask nodeId := promptNodeId "Node ID (1-232):" else_ say [S_ "SetSwitchBinary: cancelled or invalid node id"] in
  (counter ← bump;
   invoke "SetSwitchBinary" [AByte nodeId; ABool turnOn; AByte counter] ;;
   say [S_ "SetSwitchBinary node="; D_ nodeId; S_ " "; S_ (if turnOn then "ON" else "OFF");
        S_ " callback="; D_ counter]).

Definition handleSetMultilevelSwitch : M unit :=
  ask nodeId := promptNodeId "Node ID (1-232):"
    else_ say [S_ "SetMultilevelSwitch: cancelled or invalid node id"] in
  ask level := promptByte "Level (0=off, 1-99=dim, 255=restore):" BYTE_MIN BYTE_MAX
    else_ say [S_ "SetMultilevelSwitch: cancelled or invalid level"] in
  ask duration := promptByte "Duration (0=instant, 1-127=sec, 128-254=min, 255=default):" BYTE_MIN BYTE_MAX
    else_ say [S_ "SetMultilevelSwitch: cancelled or invalid duration"] in
  (counter ← bump;
   invoke "SetMultilevelSwitch" [AByte nodeId; AByte level; AByte duration; AByte counter] ;;
   say [S_ "SetMultilevelSwitch node="; D_ nodeId; S_ " level="; D_ level; S_ " duration=0x"; H_ 2 duration;
        S_ " callback="; D_ counter]).

Definition handleGetMultilevelSwitch : M unit :=
  ask nodeId := promptNodeId "Node ID (1-232):"
    else_ say [S_ "GetMultilevelSwitch: cancelled or invalid node id"] in
  (counter ← bump;
   invoke "GetMultilevelSwitch" [AByte nodeId; AByte counter] ;;
   say [S_ "GetMultilevelSwitch node="; D_ nodeId; S_ " callback="; D_ counter]).

Definition handleSimpleGet (method : string) : M unit :=
  ask nodeId := promptNodeId "Node ID (1-232):" else_ say [S_ method; S_ ": cancelled or invalid node id"] in
  (counter ← bump;
   try_ (invoke method [AByte nodeId; AByte counter] ;;
         say [S_ method; S_ " node="; D_ nodeId; S_ " callback="; D_ counter])
   catch_ err => failed method err).

Definition handleGetConfiguration : M unit :=
  ask nodeId := promptNodeId "Node ID (1-232):" else_ say [S_ "GetConfiguration: cancelled or invalid node id"] in
  ask parameter := promptByte "Config parameter (0-255):" BYTE_MIN BYTE_MAX
    else_ say [S_ "GetConfiguration: cancelled or invalid parameter"] in
  (counter ← bump;
   try_ (invoke "GetConfiguration" [AByte nodeId; AByte parameter; AByte counter] ;;
         say [S_ "GetConfiguration node="; D_ nodeId; S_ " param="; D_ parameter; S_ " callback="; D_ counter])
   catch_ err => failed "GetConfiguration" err).

Definition handleGetNotification : M unit :=
  ask nodeId := promptNodeId "Node ID (1-232):" else_ say [S_ "GetNotification: cancelled or invalid node id"] in
  ask notificationType := promptByte "Notification type (0-255):" BYTE_MIN BYTE_MAX
    else_ say [S_ "GetNotification: cancelled or invalid notification type"] in
  (counter ← bump;
   try_ (invoke "GetNotification" [AByte nodeId; AByte notificationType; AByte counter] ;;
         say [S_ "GetNotification node="; D_ nodeId; S_ " type="; S_ "0x"; H_ 0 notificationType;
              S_ " callback="; D_ counter])
   catch_ err => failed "GetNotification" err).

Definition handleGetMeter : M unit :=
  ask nodeId := promptNodeId "Node ID (1-232):" else_ say [S_ "GetMeter: cancelled or invalid node id"] in
  ask scale := promptByte "Meter scale (0=kWh, 2=W, …):" BYTE_MIN BYTE_MAX
    else_ say [S_ "GetMeter: cancelled or invalid scale"] in
  (counter ← bump;
   try_ (invoke "GetMeter" [AByte nodeId; AByte scale; AByte counter] ;;
         say [S_ "GetMeter node="; D_ nodeId; S_ " scale="; D_ scale; S_ " callback="; D_ counter])
   catch_ err => failed "GetMeter" err).

Definition handleGetColorSwitch : M unit :=
  ask nodeId := promptNodeId "Node ID (1-232):" else_ say [S_ "GetColorSwitch: cancelled or invalid node id"] in
  ask componentId := promptByte "Component (2=red, 3=green, 4=blue, …):" BYTE_MIN BYTE_MAX
    else_ say [S_ "GetColorSwitch: cancelled or invalid component"] in
  (counter ← bump;
   try_ (invoke "GetColorSwitch" [AByte nodeId; AByte componentId; AByte counter] ;;
         say [S_ "GetColorSwitch node="; D_ nodeId; S_ " component="; D_ componentId; S_ " callback="; D_ counter])
   catch_ err => failed "GetColorSwitch" err).

Definition handleSetColorSwitch : M unit :=
  nodeId ← promptNodeId "Node ID (1-232):";
  red ← promptByte "Red (0-255):" BYTE_MIN BYTE_MAX;
  green ← promptByte "Green (0-255):" BYTE_MIN BYTE_MAX;
  blue ← promptByte "Blue (0-255):" BYTE_MIN BYTE_MAX;
  match nodeId, red, green, blue with
  | Some nodeId, Some red, Some green, Some blue =>
      let components := [2; red; 3; green; 4; blue] in
      counter ← bump;
      try_ (invoke "SetColorSwitch" [AByte nodeId; ABytes components; AByte DURATION_DEFAULT; AByte counter] ;;
            say [S_ "SetColorSwitch node="; D_ nodeId; S_ " rgb="; D_ red; S_ ","; D_ green; S_ ","; D_ blue;
                 S_ " callback="; D_ counter])
      catch_ err => failed "SetColorSwitch" err
  | _, _, _, _ => say [S_ "SetColorSwitch: cancelled or invalid"]
  end.

Definition handleSetDoorLock : M unit :=
  nodeId ← promptNodeId "Node ID (1-232):";
  mode ← promptByte "Lock mode (0x00 unsecured, 0xFF secured):" BYTE_MIN BYTE_MAX;
  match nodeId, mode with
  | Some nodeId, Some mode =>
      counter ← bump;
      try_ (invoke "SetDoorLock" [AByte nodeId; AByte mode; AByte counter] ;;
            say [S_ "SetDoorLock node="; D_ nodeId; S_ " mode="; D_ mode; S_ " callback="; D_ counter])
      catch_ err => failed "SetDoorLock" err
  | _, _ => say [S_ "SetDoorLock: cancelled or invalid"]
  end.

Definition handleGetUserCode : M unit :=
  ask nodeId := promptNodeId "Node ID (1-232):" else_ say [S_ "GetUserCode: cancelled or invalid node id"] in
  ask slot := promptByte "User code slot (1-255):" BYTE_MIN BYTE_MAX
    else_ say [S_ "GetUserCode: cancelled or invalid slot"] in
  (counter ← bump;
   try_ (invoke "GetUserCode" [AByte nodeId; AByte slot; AByte counter] ;;
         say [S_ "GetUserCode node="; D_ nodeId; S_ " slot="; D_ slot; S_ " callback="; D_ counter])
   catch_ err => failed "GetUserCode" err).

Definition handleSetUserCode : M unit :=
  nodeId ← promptNodeId "Node ID (1-232):";
  slot ← promptByte "User code slot (1-255):" BYTE_MIN BYTE_MAX;
  status ← promptByte "Status (0x00 available/clear, 0x01 enabled):" BYTE_MIN BYTE_MAX;
  code ← promptLine "Code (4-10 digits; blank to clear):";
  match nodeId, slot, status, code with
  | Some nodeId, Some slot, Some status, Some code =>
      let codeBytes := (fun c => Z.of_nat (nat_of_ascii c)) <$> code in
      counter ← bump;
      try_ (invoke "SetUserCode" [AByte nodeId; AByte slot; AByte status; ABytes codeBytes; AByte counter] ;;
            say [S_ "SetUserCode node="; D_ nodeId; S_ " slot="; D_ slot; S_ " codeLen="; D_ (zlen codeBytes);
                 S_ " callback="; D_ counter])
      catch_ err => failed "SetUserCode" err
  | _, _, _, _ => say [S_ "SetUserCode: cancelled or invalid"]
  end.

Definition handleSetIndicator : M unit :=
  nodeId ← promptNodeId "Node ID (1-232):";
  value ← promptByte "Indicator value (0=off, 0xFF=on, 1-99=level):" BYTE_MIN BYTE_MAX;
  match nodeId, value with
  | Some nodeId, Some value =>
      counter ← bump;
      try_ (invoke "SetIndicator" [AByte nodeId; AByte value; AByte counter] ;;
            say [S_ "SetIndicator node="; D_ nodeId; S_ " value="; D_ value; S_ " callback="; D_ counter])
      catch_ err => failed "SetIndicator" err
  | _, _ => say [S_ "SetIndicator: cancelled or invalid"]
  end.

Definition handleGetMultiChannelCapability : M unit :=
  nodeId ← promptNodeId "Node ID (1-232):";
  endpoint ← promptByte "Endpoint (1-127):" 1 BYTE_MAX;
  match nodeId, endpoint with
  | Some nodeId, Some endpoint =>
      counter ← bump;
      try_ (invoke "GetMultiChannelCapability" [AByte nodeId; AByte endpoint; AByte counter] ;;
            say [S_ "GetMultiChannelCapability node="; D_ nodeId; S_ " endpoint="; D_ endpoint;
                 S_ " callback="; D_ counter])
      catch_ err => failed "GetMultiChannelCapability" err
  | _, _ => say [S_ "GetMultiChannelCapability: cancelled or invalid"]
  end.

Definition handleSetBasic : M unit :=
  nodeId ← promptNodeId "Node ID (1-232):";
  value ← promptByte "Basic value (0=off, 0xFF=on, 1-99=level):" BYTE_MIN BYTE_MAX;
  match nodeId, value with
  | Some nodeId, Some value =>
      counter ← bump;
      try_ (invoke "SetBasic" [AByte nodeId; AByte value; AByte counter] ;;
            say [S_ "SetBasic node="; D_ nodeId; S_ " value="; D_ value; S_ " callback="; D_ counter])
      catch_ err => failed "SetBasic" err
  | _, _ => say [S_ "SetBasic: cancelled or invalid"]
  end.

Definition handleSetThermostatMode : M unit :=
  nodeId ← promptNodeId "Node ID (1-232):";
  mode ← promptByte "Thermostat mode (0=off, 1=heat, 2=cool, 3=auto):" BYTE_MIN BYTE_MAX;
  match nodeId, mode with
  | Some nodeId, Some mode =>
      counter ← bump;
      try_ (invoke "SetThermostatMode" [AByte nodeId; AByte mode; AByte counter] ;;
            say [S_ "SetThermostatMode node="; D_ nodeId; S_ " mode="; D_ mode; S_ " callback="; D_ counter])
      catch_ err => failed "SetThermostatMode" err
  | _, _ => say [S_ "SetThermostatMode: cancelled or invalid"]
  end.

Definition handleGetThermostatSetpoint : M unit :=
  ask nodeId := promptNodeId "Node ID (1-232):"
    else_ say [S_ "GetThermostatSetpoint: cancelled or invalid node id"] in
  ask setpointType := promptByte "Setpoint type (1=heating, 2=cooling):" BYTE_MIN BYTE_MAX
    else_ say [S_ "GetThermostatSetpoint: cancelled or invalid setpoint type"] in
  (counter ← bump;
   try_ (invoke "GetThermostatSetpoint" [AByte nodeId; AByte setpointType; AByte counter] ;;
         say [S_ "GetThermostatSetpoint node="; D_ nodeId; S_ " type="; D_ setpointType; S_ " callback="; D_ counter])
   catch_ err => failed "GetThermostatSetpoint" err).

Definition handleSetThermostatSetpoint : M unit :=
  nodeId ← promptNodeId "Node ID (1-232):";
  setpointType ← promptByte "Setpoint type (1=heating, 2=cooling):" BYTE_MIN BYTE_MAX;
  precision ← promptByte "Precision (decimals, e.g. 1):" BYTE_MIN BYTE_MAX;
  scale ← promptByte "Scale (0=C, 1=F):" BYTE_MIN BYTE_MAX;
  value ← promptInt32 "Raw value (e.g. 215 for 21.5 at precision 1):";
  match nodeId, setpointType, precision, scale, value with
  | Some nodeId, Some setpointType, Some precision, Some scale, Some value =>
      counter ← bump;
      try_ (invoke "SetThermostatSetpoint"
              [AByte nodeId; AByte setpointType; AByte precision; AByte scale; AI32 value; AByte counter] ;;
            say [S_ "SetThermostatSetpoint node="; D_ nodeId; S_ " type="; D_ setpointType; S_ " value="; D_ value;
                 S_ " callback="; D_ counter])
      catch_ err => failed "SetThermostatSetpoint" err
  | _, _, _, _, _ => say [S_ "SetThermostatSetpoint: cancelled or invalid"]
  end.

Definition handleSetThermostatFanMode : M unit :=
  nodeId ← promptNodeId "Node ID (1-232):";
  mode ← promptByte "Fan mode (0=auto low, 1=low, 2=auto high, 3=high):" BYTE_MIN BYTE_MAX;
  offVal ← promptByte "Fan off? (0=no, 1=yes):" BYTE_MIN BYTE_MAX;
  match nodeId, mode, offVal with
  | Some nodeId, Some mode, Some offVal =>
      let off := negb (offVal =? 0) in
      counter ← bump;
      try_ (invoke "SetThermostatFanMode" [AByte nodeId; AByte mode; ABool off; AByte counter] ;;
            say [S_ "SetThermostatFanMode node="; D_ nodeId; S_ " mode="; D_ mode; S_ (if off then " off" else "");
                 S_ " callback="; D_ counter])
      catch_ err => failed "SetThermostatFanMode" err
  | _, _, _ => say [S_ "SetThermostatFanMode: cancelled or invalid"]
  end.

Definition handleSetConfiguration : M unit :=
  nodeId ← promptNodeId "Node ID (1-232):";
  parameter ← promptByte "Config parameter (0-255):" BYTE_MIN BYTE_MAX;
  size ← promptByte "Value size bytes (1, 2, or 4):" CONFIG_SIZE_MIN CONFIG_SIZE_MAX;
  value ← promptInt32 "Value (signed int32):";
  match nodeId, parameter, value, size with
  | Some nodeId, Some parameter, Some value, Some size =>
      if negb (size =? 1) && negb (size =? 2) && negb (size =? 4)
      then say [S_ "SetConfiguration: cancelled or invalid (size must be 1/2/4)"] else
      counter ← bump;
      try_ (invoke "SetConfiguration"
              [AByte nodeId; AByte parameter; AByte size; ABool (value <? 0); AI32 value; AByte counter] ;;
            say [S_ "SetConfiguration node="; D_ nodeId; S_ " param="; D_ parameter; S_ " size="; D_ size;
                 S_ " value="; D_ value; S_ " callback="; D_ counter])
      catch_ err => failed "SetConfiguration" err
  | _, _, _, _ => say [S_ "SetConfiguration: cancelled or invalid (size must be 1/2/4)"]
  end.

Definition handleSetWakeUpInterval : M unit :=
  nodeId ← promptNodeId "Node ID (1-232):";
  seconds ← promptU32 "Interval seconds (0..16777215):";
  notify ← promptByte "Notify node id (0=controller):" BYTE_MIN BYTE_MAX;
  match nodeId, seconds, notify with
  | Some nodeId, Some seconds, Some notify =>
      counter ← bump;
      try_ (invoke "SetWakeUpInterval" [AByte nodeId; AU32 seconds; AByte notify; AByte counter] ;;
            say [S_ "SetWakeUpInterval node="; D_ nodeId; S_ " interval="; D_ seconds; S_ "s notify="; D_ notify;
                 S_ " callback="; D_ counter])
      catch_ err => failed "SetWakeUpInterval" err
  | _, _, _ => say [S_ "SetWakeUpInterval: cancelled or invalid"]
  end.

Definition handleAssociationEdit (method : string) : M unit :=
  nodeId ← promptNodeId "Node ID (1-232):";
  groupId ← promptByte "Group id (1-255):" GROUP_ID_MIN GROUP_ID_MAX;
  members ← promptNodeList "Member node ids (space/comma separated):";
  match nodeId, groupId, members with
  | Some nodeId, Some groupId, Some members =>
      counter ← bump;
      try_ (invoke method [AByte nodeId; AByte groupId; ABytes members; AByte counter] ;;
            say [S_ method; S_ " node="; D_ nodeId; S_ " group="; D_ groupId; S_ " members="; D_ (zlen members);
                 S_ " callback="; D_ counter])
      catch_ err => failed method err
  | _, _, _ => say [S_ method; S_ ": cancelled or invalid"]
  end.

Definition handleGetAssociationGroupings : M unit :=
  ask nodeId := promptByte "Node ID (1-232):" NODE_ID_MIN NODE_ID_MAX
    else_ say [S_ "GetAssociationGroupings: cancelled or invalid node id"] in
  (callbackCounter ← bump;
   try_ (invoke "GetAssociationGroupings" [AByte nodeId; AByte callbackCounter] ;;
         say [S_ "GetAssociationGroupings node="; D_ nodeId; S_ " callback="; D_ callbackCounter])
   catch_ err => failed "GetAssociationGroupings" err).

Definition handleGetAssociation : M unit :=
  ask nodeId := promptByte "Node ID (1-232):" NODE_ID_MIN NODE_ID_MAX
    else_ say [S_ "GetAssociation: cancelled or invalid node id"] in
  ask groupId := promptByte "Group ID (1-255):" GROUP_ID_MIN GROUP_ID_MAX
    else_ say [S_ "GetAssociation: cancelled or invalid group id"] in
  (callbackCounter ← bump;
   try_ (invoke "GetAssociation" [AByte nodeId; AByte groupId; AByte callbackCounter] ;;
         say [S_ "GetAssociation node="; D_ nodeId; S_ " group="; D_ groupId; S_ " callback="; D_ callbackCounter])
   catch_ err => failed "GetAssociation" err).

Definition handleRemoveFailedNode : M unit :=
  ask nodeId := promptNodeId "Failed node ID (1-232):"
    else_ say [S_ "RemoveFailedNode: cancelled or invalid node id"] in
  (counter ← bump;
   try_ (invoke "RemoveFailedNode" [AByte nodeId; AByte counter] ;;
         say [S_ "RemoveFailedNode node="; D_ nodeId; S_ " session="; D_ counter])
   catch_ err => failed "RemoveFailedNode" err).

Definition as_dongleInfo r := match r with DongleInfo d => Some d | _ => None end.

Definition fetchControllerNodeId : M (option Z) :=
  info ← try_ (d ← fetch "GetDongleInfo" [] as_dongleInfo; mret (Some d))
         catch_ err => (failed "GetDongleInfo" err ;; mret None);
  mret (match info with
        | None => None
        | Some info => if d_controller info =? 0 then None else Some (d_controller info)
        end).

Definition handleSetLifeline : M unit :=
  ask nodeId := promptNodeId "Node ID (1-232):"
    else_ say [S_ "SetAssociation (lifeline): cancelled or invalid node id"] in
  ask controllerNodeId := fetchControllerNodeId
    else_ say [S_ "SetAssociation (lifeline): controller node id unavailable (no DongleInfo yet)"] in
  (callbackCounter ← bump;
   let members := [controllerNodeId] in
   try_ (invoke "SetAssociation" [AByte nodeId; AByte LIFELINE_GROUP; ABytes members; AByte callbackCounter] ;;
         say [S_ "SetAssociation (lifeline) node="; D_ nodeId; S_ " group=1 members=["; D_ controllerNodeId;
              S_ "] callback="; D_ callbackCounter])
   catch_ err => failed "SetAssociation" err).

End Handlers.

(** ** Forms *)

(** What an action asks for: a node, a number in a range, a signed or an unsigned
    32-bit number, a line, a list of nodes. *)
Inductive Field := FNode | FByte (lo hi : Z) | FInt32 | FU32 | FLine | FNodes.
Inductive Value := VNum (z : Z) | VText (t : text) | VList (l : list Z).

Definition buffer (f : Field) : nat :=
  match f with
  | FNode | FByte _ _ => NODE_ID_INPUT_BUFFER
  | FInt32 => INT_INPUT_BUFFER
  | _ => LINE_INPUT_BUFFER
  end.

(** What a line means for a field, [sel] being the selected node. *)
Definition readField (sel : option Z) (f : Field) (line : option text) : option Value :=
  let got := cstring ∘ take (buffer f - 1) <$> line in
  match f with
  | FNode => VNum <$> Parse.nodeId sel got
  | FByte lo hi => VNum <$> Parse.byteIn lo hi got
  | FInt32 => VNum <$> Parse.int32 got
  | FU32 => VNum <$> Parse.uintIn Parse.U32_MAX (Parse.line got)
  | FLine => VText <$> Parse.line got
  | FNodes => VList <$> Parse.nodeList (Parse.line got)
  end.

(** [early]: the action is left at the first field that is not filled in, else after
    the last; [guarded]: a failing call is caught by the action itself. *)
Record Form := mkForm {
  early : bool; fields : list Field; accept : list Value -> bool; guarded : bool;
  title : string; build : list Value -> list Arg }.

Inductive Filling := Blocked | Refused | Filled (vs : list Value).

Definition cons_filling (v : Value) (r : Filling) : Filling := match r with Filled vs => Filled (v :: vs) | r => r end.
Definition refuse (r : Filling) : Filling := match r with Blocked => Blocked | _ => Refused end.

Fixpoint fill (early : bool) (sel : option Z) (fs : list Field) (typed : list (option text)) : Filling * list (option text) :=
  match fs, typed with
  | [], _ => (Filled [], typed)
  | f :: fs, [] => (Blocked, [])
  | f :: fs, line :: typed =>
      match readField sel f line with
      | None => if early then (Refused, typed) else let (r, rest) := fill early sel fs typed in (refuse r, rest)
      | Some v => let (r, rest) := fill early sel fs typed in (cons_filling v r, rest)
      end
  end.

(** How an action ends, and what can be seen of it then. *)
Inductive Ending := Waits | Throws | Returns.
Record Seen := mkSeen { ending : Ending; left_ : list (option text); counted : Z; called : list Call; shown : NodeModel }.

Definition seen (r : Run unit) : Seen :=
  let w := worldOf r in
  mkSeen (match r with Waiting _ => Waits | Threw _ _ => Throws | Done _ _ => Returns end)
    (typed w) (sessionCounter w) (calls w) (nodeModel w).

Section Promise.
Context `{Daemon}.

(** What is seen of the action once its fields were filled in as [r], [rest] being the
    lines left. *)
Definition expect (f : Form) (r : Filling * list (option text)) (w : World) : Seen :=
  let m := nodeModel w in
  match r with
  | (Blocked, rest) => mkSeen Waits rest (sessionCounter w) (calls w) m
  | (Refused, rest) => mkSeen Returns rest (sessionCounter w) (calls w) m
  | (Filled vs, rest) =>
      if accept f vs then
        let counter := u8 (sessionCounter w + 1) in
        let c := mkCall (lit (title f)) (build f vs ++ [AByte counter]) in
        let e := if guarded f then Returns
                 else match failure (reply (length (calls w)) c) with Some _ => Throws | None => Returns end in
        mkSeen e rest counter (calls w ++ [c]) m
      else mkSeen Returns rest (sessionCounter w) (calls w) m
  end.

Definition promise (f : Form) (w : World) : Seen :=
  expect f (fill (early f) (selectedNodeId (nodeModel w)) (fields f) (typed w)) w.

End Promise.

(** The usual forms: a node and bytes, passed on as they are. *)
Definition numbers (vs : list Value) : list Arg :=
  (fun v => match v with VNum z => AByte z | VText t => AText t | VList l => ABytes l end) <$> vs.
Definition gets (title : string) (fs : list Field) : Form := mkForm true fs (fun _ => true) true title numbers.
Definition sets (title : string) (fs : list Field) (build : list Value -> list Arg) : Form :=
  mkForm false fs (fun _ => true) true title build.

Definition anyByte : Field := FByte BYTE_MIN BYTE_MAX.

(** ** Handlers keep their forms *)

Section Forms.
Context `{Daemon}.

(** [m] asks for the field [f] and yields what the line typed means. *)
Definition asks {A} (m : M (option A)) (f : Field) (inj : A -> Value) : Prop := forall w,
  exists label, let w' := addPrompted label w in
  match typed w with
  | [] => m w = Waiting w'
  | line :: rest =>
      exists o, m w = Done o (setTyped rest w') /\ inj <$> o = readField (selectedNodeId (nodeModel w)) f line
  end.

Lemma prompt_asks {A} (m : M (option A)) f inj (label : World -> text) (parse : option Z -> option text -> option A) :
  (forall w, m w = match typed w with
                   | [] => Waiting (addPrompted (label w) w)
                   | line :: rest => Done (parse (selectedNodeId (nodeModel w)) (cstring ∘ take (buffer f - 1) <$> line))
                                       (setTyped rest (addPrompted (label w) w))
                   end) ->
  (forall sel line, inj <$> parse sel (cstring ∘ take (buffer f - 1) <$> line) = readField sel f line) ->
  asks m f inj.
Proof. intros Hm Hp w. exists (label w). rewrite Hm. destruct (typed w) as [|line rest]; eauto. Qed.

Lemma asks_node label : asks (promptNodeId label) FNode VNum.
Proof.
  apply (prompt_asks _ _ _ (fun w => match selectedNodeId (nodeModel w) with
                                     | Some n => str [S_ label; S_ " ["; D_ n; S_ "]"] | None => lit label end) Parse.nodeId);
    [|done]. by intros [[] ? ? ? ? ? ? ?].
Qed.

Lemma asks_byte label lo hi : asks (promptByte label lo hi) (FByte lo hi) VNum.
Proof. apply (prompt_asks _ _ _ (fun _ => lit label) (fun _ => Parse.byteIn lo hi)); [|done]. by intros [[] ? ? ? ? ? ? ?]. Qed.

Lemma asks_int32 label : asks (promptInt32 label) FInt32 VNum.
Proof. apply (prompt_asks _ _ _ (fun _ => lit label) (fun _ => Parse.int32)); [|done]. by intros [[] ? ? ? ? ? ? ?]. Qed.

Lemma asks_u32 label : asks (promptU32 label) FU32 VNum.
Proof.
  apply (prompt_asks _ _ _ (fun _ => lit label) (fun _ l => Parse.uintIn Parse.U32_MAX (Parse.line l))); [|done].
  by intros [[] ? ? ? ? ? ? ?].
Qed.

Lemma asks_line label : asks (promptLine label) FLine VText.
Proof. apply (prompt_asks _ _ _ (fun _ => lit label) (fun _ => Parse.line)); [|done]. by intros [[] ? ? ? ? ? ? ?]. Qed.

Lemma asks_nodes label : asks (promptNodeList label) FNodes VList.
Proof.
  apply (prompt_asks _ _ _ (fun _ => lit label) (fun _ l => Parse.nodeList (Parse.line l))); [|done].
  by intros [[] ? ? ? ? ? ? ?].
Qed.

Fixpoint collect (acc : list (option Value)) : option (list Value) :=
  match acc with
  | [] => Some []
  | o :: acc => match o, collect acc with Some v, Some vs => Some (v :: vs) | _, _ => None end
  end.

Lemma collect_snoc acc o :
  collect (acc ++ [o]) = match collect acc, o with Some vs, Some v => Some (vs ++ [v]) | _, _ => None end.
Proof.
  induction acc as [|[u|] acc IH]; cbn; [by destruct o| |done].
  rewrite IH. by destruct (collect acc), o.
Qed.

(** What an action promises when the values [acc] are there and the fields [fs] open. *)
Definition add (acc : list (option Value)) (r : Filling) : Filling :=
  match r, collect acc with
  | Filled vs, Some us => Filled (us ++ vs)
  | Filled _, None => Refused
  | r, _ => r
  end.

Definition keeps (F : Form) (fs : list Field) (acc : list (option Value)) (m : M unit) : Prop := forall w,
  seen (m w) = expect F (let (r, rest) := fill (early F) (selectedNodeId (nodeModel w)) fs (typed w) in (add acc r, rest)) w.

Lemma keeps_promise F m : keeps F (fields F) [] m -> forall w, seen (m w) = promise F w.
Proof. intros Hm w. rewrite (Hm w). unfold promise. by destruct (fill _ _ _ _) as [[]]. Qed.

(** [expect] sees a world through its counter, calls and nodes. *)
Lemma expect_frame F r w rest label : expect F r (setTyped rest (addPrompted label w)) = expect F r w.
Proof. by destruct r as [[]]. Qed.

Lemma add_value acc v r : add acc (cons_filling v r) = add (acc ++ [Some v]) r.
Proof.
  unfold add. rewrite collect_snoc. destruct r as [| |vs], (collect acc); cbn; by rewrite <- ?app_assoc.
Qed.

Lemma add_refused acc r : add acc (refuse r) = add (acc ++ [None]) r.
Proof. unfold add. rewrite collect_snoc. by destruct r, (collect acc). Qed.

Lemma keeps_early {A} F f fs acc (p : M (option A)) inj (k : A -> M unit) msg :
  early F = true -> asks p f inj -> (forall v, keeps F fs (acc ++ [Some (inj v)]) (k v)) ->
  keeps F (f :: fs) acc (ask x := p else_ say msg in k x).
Proof.
  intros He Hp Hk w. destruct (Hp w) as [label Hw]. unfold mbind, M_bind. cbn [fill].
  destruct (typed w) as [|line rest] eqn:Et.
  - rewrite Hw. unfold seen. cbn. rewrite Et. reflexivity.
  - destruct Hw as (o & -> & Ho). rewrite <- Ho. destruct o as [v|]; cbn [fmap option_fmap option_map].
    + rewrite Hk, expect_frame. cbn. rewrite He. destruct (fill _ _ fs rest) as [r rest']. by rewrite add_value.
    + by rewrite He.
Qed.

Lemma keeps_late {A} F f fs acc (p : M (option A)) inj (k : option A -> M unit) :
  early F = false -> asks p f inj -> (forall o, keeps F fs (acc ++ [inj <$> o]) (k o)) ->
  keeps F (f :: fs) acc (x ← p; k x).
Proof.
  intros He Hp Hk w. destruct (Hp w) as [label Hw]. unfold mbind, M_bind. cbn [fill].
  destruct (typed w) as [|line rest] eqn:Et.
  - rewrite Hw. unfold seen. cbn. rewrite Et. reflexivity.
  - destruct Hw as (o & -> & Ho). rewrite Hk, expect_frame. cbn. rewrite <- Ho, He.
    destruct (fill _ _ fs rest) as [r rest']. destruct o as [v|]; cbn; [by rewrite add_value|by rewrite add_refused].
Qed.

Lemma keeps_cancelled F acc msg : collect acc = None -> keeps F [] acc (say msg).
Proof. intros Ha [ty ks c m a p s cs]. unfold add. cbn. by rewrite Ha. Qed.

Lemma keeps_rejected F acc vs msg : collect acc = Some vs -> accept F vs = false -> keeps F [] acc (say msg).
Proof. intros Ha Hf [ty ks c m a p s cs]. unfold add. cbn. rewrite Ha, app_nil_r. cbn. by rewrite Hf. Qed.

(** The call and its log line. *)
Lemma keeps_call F acc vs args msg method :
  collect acc = Some vs -> accept F vs = true -> guarded F = true -> title F = method ->
  (forall counter, args counter = build F vs ++ [AByte counter]) ->
  keeps F [] acc (counter ← bump;
                  try_ (invoke method (args counter) ;; say (msg counter)) catch_ err => failed method err).
Proof.
  intros Ha Hf Hg <- Hargs [ty ks c m a p s cs]. unfold add. cbn [fill]. rewrite Ha, app_nil_r. cbn [expect].
  rewrite Hf, Hg. unfold seen, bump, catch, invoke, callMethod, mbind, M_bind. cbn. rewrite Hargs.
  by destruct (failure _).
Qed.

Lemma keeps_plain F acc vs args msg method :
  collect acc = Some vs -> accept F vs = true -> guarded F = false -> title F = method ->
  (forall counter, args counter = build F vs ++ [AByte counter]) ->
  keeps F [] acc (counter ← bump; invoke method (args counter) ;; say (msg counter)).
Proof.
  intros Ha Hf Hg <- Hargs [ty ks c m a p s cs]. unfold add. cbn [fill]. rewrite Ha, app_nil_r. cbn [expect].
  rewrite Hf, Hg. unfold seen, bump, invoke, callMethod, mbind, M_bind. cbn. rewrite Hargs.
  by destruct (failure _).
Qed.

End Forms.

(** ** The forms of the handlers *)

Definition pass (vs : list Value) : list Arg := numbers vs.

(** The arguments that are not the values as they were read. *)
Definition colorArgs (vs : list Value) : list Arg :=
  match vs with
  | [VNum nodeId; VNum red; VNum green; VNum blue] =>
      [AByte nodeId; ABytes [2; red; 3; green; 4; blue]; AByte DURATION_DEFAULT]
  | _ => []
  end.
Definition codeArgs (vs : list Value) : list Arg :=
  match vs with
  | [VNum nodeId; VNum slot; VNum status; VText code] =>
      [AByte nodeId; AByte slot; AByte status; ABytes ((fun c => Z.of_nat (nat_of_ascii c)) <$> code)]
  | _ => []
  end.
Definition setpointArgs (vs : list Value) : list Arg :=
  match vs with
  | [VNum nodeId; VNum type; VNum precision; VNum scale; VNum value] =>
      [AByte nodeId; AByte type; AByte precision; AByte scale; AI32 value]
  | _ => []
  end.
Definition fanArgs (vs : list Value) : list Arg :=
  match vs with
  | [VNum nodeId; VNum mode; VNum off] => [AByte nodeId; AByte mode; ABool (negb (off =? 0))]
  | _ => []
  end.
Definition configSize (vs : list Value) : bool :=
  match vs with [_; _; VNum size; _] => (size =? 1) || (size =? 2) || (size =? 4) | _ => false end.
Definition configArgs (vs : list Value) : list Arg :=
  match vs with
  | [VNum nodeId; VNum parameter; VNum size; VNum value] =>
      [AByte nodeId; AByte parameter; AByte size; ABool (value <? 0); AI32 value]
  | _ => []
  end.
Definition intervalArgs (vs : list Value) : list Arg :=
  match vs with
  | [VNum nodeId; VNum seconds; VNum notify] => [AByte nodeId; AU32 seconds; AByte notify]
  | _ => []
  end.

Definition switchForm (turnOn : bool) : Form :=
  mkForm true [FNode] (fun _ => true) false "SetSwitchBinary" (fun vs => pass vs ++ [ABool turnOn]).
Definition simpleForm (method : string) : Form := gets method [FNode].
Definition multilevelForm : Form :=
  mkForm true [FNode; anyByte; anyByte] (fun _ => true) false "SetMultilevelSwitch" pass.
Definition getMultilevelForm : Form := mkForm true [FNode] (fun _ => true) false "GetMultilevelSwitch" pass.
Definition configurationForm : Form :=
  mkForm false [FNode; anyByte; FByte CONFIG_SIZE_MIN CONFIG_SIZE_MAX; FInt32] configSize true "SetConfiguration" configArgs.
Definition nodeByte : Field := FByte NODE_ID_MIN NODE_ID_MAX.
Definition groupByte : Field := FByte GROUP_ID_MIN GROUP_ID_MAX.

Section Kept.
Context `{Daemon}.

Ltac field :=
  first [apply (keeps_early _ _ _ _ _ VNum); [done|apply asks_node || apply asks_byte|intros ?; cbn [app]]
        |apply (keeps_late _ _ _ _ _ VNum);
           [done|apply asks_node || apply asks_byte || apply asks_int32 || apply asks_u32|intros ?; cbn [app]]
        |apply (keeps_late _ _ _ _ _ VText); [done|apply asks_line|intros ?; cbn [app]]
        |apply (keeps_late _ _ _ _ _ VList); [done|apply asks_nodes|intros ?; cbn [app]]].
Ltac options :=
  repeat match goal with
  | |- keeps _ _ _ ?m =>
      match m with context [match ?o with Some _ => _ | None => _ end] =>
        is_var o; destruct o; cbn iota beta; [|by apply keeps_cancelled] end
  end.

(** Every action on a node, with its form. *)
Definition actions : list (M unit * Form) :=
  ((fun method => (handleSimpleGet method, simpleForm method)) <$>
    ["GetBattery"; "GetNodeVersion"; "GetManufacturerSpecific"; "GetZWavePlusInfo"; "GetSensorMultilevel";
     "GetSensorBinary"; "GetThermostatMode"; "GetThermostatOperatingState"; "GetThermostatFanMode"; "GetDoorLock";
     "GetUserCodeCount"; "GetMultiChannelEndpoints"]%string) ++
  [(handleGetConfiguration, gets "GetConfiguration" [FNode; anyByte]);
   (handleGetMeter, gets "GetMeter" [FNode; anyByte]);
   (handleGetNotification, gets "GetNotification" [FNode; anyByte]);
   (handleGetThermostatSetpoint, gets "GetThermostatSetpoint" [FNode; anyByte]);
   (handleGetMultilevelSwitch, getMultilevelForm);
   (handleGetColorSwitch, gets "GetColorSwitch" [FNode; anyByte]);
   (handleGetUserCode, gets "GetUserCode" [FNode; anyByte]);
   (handleGetAssociation, gets "GetAssociation" [nodeByte; groupByte]);
   (handleGetAssociationGroupings, gets "GetAssociationGroupings" [nodeByte]);
   (handleGetMultiChannelCapability, sets "GetMultiChannelCapability" [FNode; FByte 1 BYTE_MAX] pass);
   (handleSwitchBinary true, switchForm true);
   (handleSwitchBinary false, switchForm false);
   (handleSetMultilevelSwitch, multilevelForm);
   (handleSetBasic, sets "SetBasic" [FNode; anyByte] pass);
   (handleSetIndicator, sets "SetIndicator" [FNode; anyByte] pass);
   (handleSetConfiguration, configurationForm);
   (handleSetThermostatMode, sets "SetThermostatMode" [FNode; anyByte] pass);
   (handleSetThermostatSetpoint,
      sets "SetThermostatSetpoint" [FNode; anyByte; anyByte; anyByte; FInt32] setpointArgs);
   (handleSetThermostatFanMode, sets "SetThermostatFanMode" [FNode; anyByte; anyByte] fanArgs);
   (handleSetColorSwitch, sets "SetColorSwitch" [FNode; anyByte; anyByte; anyByte] colorArgs);
   (handleSetDoorLock, sets "SetDoorLock" [FNode; anyByte] pass);
   (handleSetUserCode, sets "SetUserCode" [FNode; anyByte; anyByte; FLine] codeArgs);
   (handleSetWakeUpInterval, sets "SetWakeUpInterval" [FNode; FU32; anyByte] intervalArgs);
   (handleAssociationEdit "SetAssociation", sets "SetAssociation" [FNode; groupByte; FNodes] pass);
   (handleAssociationEdit "RemoveAssociation", sets "RemoveAssociation" [FNode; groupByte; FNodes] pass);
   (handleRemoveFailedNode, gets "RemoveFailedNode" [FNode])].

Definition kept (p : M unit * Form) : Prop := keeps p.2 (fields p.2) [] p.1.

(** The sizes that are no configuration size end the action without a call. *)
Lemma configuration_kept : kept (handleSetConfiguration, configurationForm).
Proof.
  unfold kept. cbn [fst snd fields configurationForm]. do 4 field. destruct o as [n|]; [|by apply keeps_cancelled].
  destruct o0 as [p|]; [|by apply keeps_cancelled]. destruct o2 as [v|]; [|by apply keeps_cancelled; destruct o1].
  destruct o1 as [s|]; [|by apply keeps_cancelled].
  destruct (s =? 1) eqn:E1, (s =? 2) eqn:E2, (s =? 4) eqn:E4; cbn [negb andb];
    first [eapply keeps_call; [done|by cbn; rewrite ?E1, ?E2, ?E4|done..]
          |eapply keeps_rejected; [done|by cbn; rewrite E1, E2, E4]].
Qed.

(** Every action keeps its form. *)
Lemma actions_kept : Forall kept actions.
Proof.
  unfold actions. cbn [fmap list_fmap app]. repeat apply Forall_cons_2; try apply Forall_nil_2; try exact configuration_kept;
    unfold kept; cbn [fst snd fields gets sets simpleForm switchForm getMultilevelForm multilevelForm];
    repeat field; options; by eapply keeps_call || by eapply keeps_plain.
Qed.

End Kept.

(** ** What is typed is what is called *)

Definition field_ok (f : Field) : Prop := match f with FByte lo hi => 0 <= lo /\ hi <= BYTE_MAX | _ => True end.

(** A value a field may have; [sel] is the node selected. *)
Definition value_ok (sel : option Z) (f : Field) (v : Value) : Prop :=
  match f, v with
  | FNode, VNum n => NODE_ID_MIN <= n <= NODE_ID_MAX \/ sel = Some n
  | FByte lo hi, VNum n => lo <= n <= hi
  | FInt32, VNum z => - INT_MAX - 1 <= z <= INT_MAX
  | FU32, VNum n => 0 <= n <= Parse.U32_MAX
  | FLine, VText t => t <> []
  | FNodes, VList l => l <> [] /\ Forall (fun n => NODE_ID_MIN <= n <= NODE_ID_MAX) l
  | _, _ => False
  end.

(** A line the operator may type for a value: numbers in decimal, a blank line for the
    selected node, lists with commas or blanks. *)
Inductive types (sel : option Z) : Field -> Value -> text -> Prop :=
| types_node n : NODE_ID_MIN <= n <= NODE_ID_MAX -> types sel FNode (VNum n) (dec n)
| types_selected n : sel = Some n -> types sel FNode (VNum n) []
| types_byte lo hi n : lo <= n <= hi -> types sel (FByte lo hi) (VNum n) (dec n)
| types_int z : - INT_MAX - 1 <= z <= INT_MAX -> types sel FInt32 (VNum z) (dec z)
| types_u32 n : 0 <= n <= Parse.U32_MAX -> types sel FU32 (VNum n) (dec n)
| types_line t : t <> [] -> (length t < LINE_INPUT_BUFFER)%nat -> "000"%char ∉ t -> types sel FLine (VText t) t
| types_nodes n ns : separators ns -> Forall (fun m => NODE_ID_MIN <= m <= NODE_ID_MAX) (n :: ns.*2) ->
    (length (listed n ns) < LINE_INPUT_BUFFER)%nat -> types sel FNodes (VList (n :: ns.*2)) (listed n ns).

Lemma cstring_id s : "000"%char ∉ s -> cstring s = s.
Proof.
  induction s as [|c s IH]; [done|]. intros [Hc Hs]%not_elem_of_cons. cbn.
  rewrite bool_decide_false by congruence. by rewrite IH.
Qed.

(** A line that fits the buffer is stored as it is. *)
Lemma buffered n s : "000"%char ∉ s -> (length s <= n)%nat -> (cstring ∘ take n) s = s.
Proof. intros Hs Hn. unfold compose. rewrite take_ge by done. by apply cstring_id. Qed.

Lemma dec_noNul n : "000"%char ∉ dec n.
Proof.
  intros Hin. assert (H : forall m, 0 <= m -> "000"%char ∉ dec m).
  { intros m Hm Hm'. destruct (dec_digits m Hm) as [Hd _]. rewrite Forall_forall in Hd.
    destruct (Hd _ Hm') as [d Hd']. by vm_compute in Hd'. }
  destruct (decide (n < 0)) as [Hn|Hn]; [|by apply (H n ltac:(lia)) in Hin].
  replace n with (- (- n)) in Hin by lia. rewrite dec_neg in Hin by lia.
  apply elem_of_cons in Hin as [?|Hin]; [done|]. by apply (H (- n) ltac:(lia)) in Hin.
Qed.

Lemma lit_length s : length (lit s) = String.length s.
Proof. unfold lit. induction s as [|c s IH]; cbn; congruence. Qed.

Lemma dec_length n p : (0 < p)%nat -> 0 <= n < 10 ^ Z.of_nat p -> (length (dec n) <= p)%nat.
Proof. intros Hp Hn. unfold dec. rewrite lit_length. by apply NodeStores.to_string_length. Qed.

Lemma dec_short n p : (0 < p)%nat -> - 10 ^ Z.of_nat p < n < 10 ^ Z.of_nat p -> (length (dec n) <= S p)%nat.
Proof.
  intros Hp Hn. destruct (decide (n < 0)).
  - replace n with (- (- n)) by lia. rewrite dec_neg by lia. cbn. pose proof (dec_length (- n) p Hp ltac:(lia)). lia.
  - pose proof (dec_length n p Hp ltac:(lia)). lia.
Qed.

Lemma listed_noNul n ns : separators ns -> "000"%char ∉ listed n ns.
Proof.
  intros Hs. unfold listed. rewrite elem_of_app. intros [H|H]; [by apply dec_noNul in H|].
  induction Hs as [|[c m] ns Hc _ IH]; cbn in H; [by apply elem_of_nil in H|].
  apply elem_of_cons in H as [<- | H]; [by destruct Hc as [? | ?]|].
  apply elem_of_app in H as [H|H]; [by apply dec_noNul in H|by apply IH].
Qed.

Lemma line_cons (s : text) : s <> [] -> Parse.line (Some s) = Some s.
Proof. by destruct s. Qed.

Lemma dec_ne n : dec n <> [].
Proof.
  destruct (decide (n < 0)).
  - replace n with (- (- n)) by lia. by rewrite dec_neg by lia.
  - destruct (dec_cons n ltac:(lia)) as (c & s & d & -> & _). done.
Qed.

Lemma byteIn_dec lo hi n : 0 <= lo -> hi <= BYTE_MAX -> lo <= n <= hi -> Parse.byteIn lo hi (Some (dec n)) = Some n.
Proof.
  intros Hlo Hhi Hn. unfold Parse.byteIn. pose proof (dec_ne n). destruct (dec n) as [|c s] eqn:E; [done|].
  unfold BYTE_MAX, Parse.BYTE_MAX in Hhi. rewrite <- E, fromCharsInt_dec by (unfold INT_MAX; lia). cbn [fst].
  rewrite (proj2 (Z.ltb_ge n lo)), (proj2 (Z.ltb_ge hi n)) by lia. cbn. unfold u8. by rewrite Z.mod_small by lia.
Qed.

Lemma nodeId_dec sel n : NODE_ID_MIN <= n <= NODE_ID_MAX -> Parse.nodeId sel (Some (dec n)) = Some n.
Proof.
  unfold NODE_ID_MIN, NODE_ID_MAX, Parse.nodeId, Parse.NODE_ID_MIN, Parse.NODE_ID_MAX. intros Hn.
  pose proof (dec_ne n). destruct (dec n) as [|c s] eqn:E; [done|]. cbn -[Parse.parseUint u8].
  rewrite <- E, parseUint_dec by (unfold Parse.U32_MAX; lia). rewrite (proj2 (Z.ltb_ge n 1)) by lia.
  unfold u8. by rewrite Z.mod_small by lia.
Qed.

Lemma int32_dec z : - INT_MAX - 1 <= z <= INT_MAX -> Parse.int32 (Some (dec z)) = Some z.
Proof.
  intros Hz. unfold Parse.int32. pose proof (dec_ne z). destruct (dec z) as [|c s] eqn:E; [done|].
  by rewrite <- E, fromCharsInt_dec.
Qed.

Lemma fits sel f v line : field_ok f -> types sel f v line ->
  ("000"%char ∉ line) /\ (length line <= buffer f - 1)%nat.
Proof.
  intros Hf Ht. revert Hf. unfold field_ok.
  destruct Ht; intros Hf; unfold NODE_ID_MIN, NODE_ID_MAX, Parse.NODE_ID_MIN, Parse.NODE_ID_MAX, BYTE_MAX,
    Parse.BYTE_MAX, Parse.U32_MAX, INT_MAX, LINE_INPUT_BUFFER in *;
    (split; [done || (by apply dec_noNul) || (by apply not_elem_of_nil) || (by apply listed_noNul)|]);
    cbn in *; try lia.
  - pose proof (dec_short n 3 ltac:(lia) ltac:(cbn; lia)). lia.
  - pose proof (dec_short n 3 ltac:(lia) ltac:(cbn; lia)). lia.
  - pose proof (dec_short z 10 ltac:(lia) ltac:(cbn; lia)). lia.
  - pose proof (dec_short n 10 ltac:(lia) ltac:(cbn; lia)). lia.
Qed.

Lemma typed_read sel f v line : field_ok f -> types sel f v line -> readField sel f (Some line) = Some v.
Proof.
  intros Hf Ht. destruct (fits _ _ _ _ Hf Ht) as [Hn Hl]. unfold readField. cbn [fmap option_fmap option_map].
  rewrite buffered by done. clear Hn Hl. revert Hf.
  destruct Ht as [n Hr|n Hr|lo hi n Hr|z Hr|n Hr|t Hr _ _|n ns Hs Hr _]; intros Hf.
  - by rewrite nodeId_dec.
  - by rewrite Hr.
  - destruct Hf. by rewrite byteIn_dec.
  - by rewrite int32_dec.
  - rewrite line_cons by apply dec_ne. cbn. by rewrite parseUint_dec.
  - by rewrite line_cons.
  - rewrite line_cons, nodeList_listed; [done..|]. unfold listed. pose proof (dec_ne n). by destruct (dec n).
Qed.

Lemma byteIn_range lo hi line n : 0 <= lo -> hi <= BYTE_MAX -> Parse.byteIn lo hi line = Some n -> lo <= n <= hi.
Proof.
  intros Hlo Hhi. unfold Parse.byteIn. destruct line as [[|c s]|]; try done.
  destruct (fromCharsInt (c :: s)).1 as [z|]; [|done].
  destruct (Z.ltb_spec z lo), (Z.ltb_spec hi z); cbn; intros; simplify_eq.
  unfold BYTE_MAX, Parse.BYTE_MAX, u8 in *. rewrite Z.mod_small; lia.
Qed.

Lemma fromChars_range hi base s n r : 0 < base -> fromChars hi base s = (Some n, r) -> 0 <= n <= hi.
Proof.
  intros Hb. unfold fromChars. destruct (digits base s) as [ds r'] eqn:E. destruct ds as [|d ds]; [done|].
  destruct (Z.leb_spec (number base (d :: ds)) hi); intros; simplify_eq. split; [|done].
  assert (Hd : forall s ds r, digits base s = (ds, r) -> Forall (fun d => 0 <= d) ds).
  { intros t. induction t as [|c t IH]; intros es q Ht; cbn in Ht; [simplify_eq; constructor|].
    destruct (digit base c) as [e|] eqn:Ec; [|simplify_eq; constructor].
    destruct (digits base t) as [es' q'] eqn:Et. simplify_eq. constructor; [|by eapply IH].
    unfold digit in Ec. repeat case_match; simplify_eq; zbool; lia. }
  apply Hd in E. unfold number. generalize (d :: ds) E. intros l Hl.
  assert (Ha : forall a, 0 <= a -> 0 <= foldl (fun acc d => acc * base + d) a l); [|by apply Ha].
  induction Hl as [|e l He _ IH]; intros a Ha; cbn; [done|]. apply IH. nia.
Qed.

Lemma parseUint_range s hi n : Parse.parseUint s hi = Some n -> 0 <= n <= hi.
Proof.
  unfold Parse.parseUint. match goal with |- context [let '(_, _) := ?p in _] => destruct p as [t b] eqn:E end.
  assert (Hb : 0 < b). { repeat case_match; simplify_eq; done. }
  destruct (fromChars Parse.U32_MAX b t) as [[m|] [|]] eqn:Ef; try done.
  destruct (Z.ltb_spec hi m); intros; simplify_eq. apply fromChars_range in Ef; [lia|done].
Qed.

Lemma nodes_range fuel : forall s ms, Parse.nodes fuel s = Some ms -> Forall (fun n => NODE_ID_MIN <= n <= NODE_ID_MAX) ms.
Proof.
  induction fuel as [|fuel IH]; intros s ms; [done|]. cbn. destruct (member (extractInt s)) as [m|].
  - destruct (Z.ltb_spec m Parse.NODE_ID_MIN), (Z.ltb_spec Parse.NODE_ID_MAX m); try done. cbn.
    destruct (Parse.nodes _ _) as [ms'|] eqn:E; [|done]. intros; simplify_eq. constructor; [|by eapply IH].
    unfold u8, NODE_ID_MIN, NODE_ID_MAX, Parse.NODE_ID_MIN, Parse.NODE_ID_MAX in *. rewrite Z.mod_small; lia.
  - destruct (eof _); [|done]. intros; simplify_eq. constructor.
Qed.

Lemma fromCharsInt_range s z : (fromCharsInt s).1 = Some z -> - INT_MAX - 1 <= z <= INT_MAX.
Proof.
  unfold fromCharsInt. destruct s as [|c s]; [done|]. case_bool_decide.
  - destruct (fromChars (INT_MAX + 1) 10 s) as [[n|] r] eqn:E; [|done]. intros; simplify_eq/=.
    apply fromChars_range in E; unfold INT_MAX in *; lia.
  - destruct (fromChars INT_MAX 10 (c :: s)) as [[n|] r] eqn:E; [|done]. intros; simplify_eq/=.
    apply fromChars_range in E; unfold INT_MAX in *; lia.
Qed.

(** Whatever is typed, a value that is read is one the field may have. *)
Lemma read_ok sel f v line : field_ok f -> readField sel f line = Some v -> value_ok sel f v.
Proof.
  intros Hf. unfold readField. set (got := _ <$> line). clearbody got.
  destruct f as [|lo hi| | | |]; intros (x & -> & Hx)%fmap_Some || intros (x & Hx & ->)%fmap_Some; cbn.
  - unfold Parse.nodeId in Hx. destruct (default [] got) as [|c s]; [by right|].
    destruct (Parse.parseUint _ _) as [n|] eqn:E; [|done]. apply parseUint_range in E.
    destruct (Z.ltb_spec n Parse.NODE_ID_MIN); [done|]. simplify_eq. left.
    unfold u8, NODE_ID_MIN, NODE_ID_MAX, Parse.NODE_ID_MIN, Parse.NODE_ID_MAX in *. rewrite Z.mod_small; lia.
  - destruct Hf. by eapply byteIn_range.
  - unfold Parse.int32 in Hx. destruct got as [[|]|]; try done. by eapply fromCharsInt_range.
  - unfold Parse.uintIn in Hx. destruct (Parse.line got); [|done]. by eapply parseUint_range.
  - destruct got as [[|]|]; simplify_eq/=. done.
  - unfold Parse.nodeList in Hx. destruct (Parse.line got); [|done].
    destruct (Parse.nodes _ _) as [[|m ms]|] eqn:E; simplify_eq. split; [done|]. by eapply nodes_range.
Qed.

Lemma fill_typed early sel fs vs lines rest : Forall field_ok fs -> Forall3 (types sel) fs vs lines ->
  fill early sel fs ((Some <$> lines) ++ rest) = (Filled vs, rest).
Proof.
  intros Hf Ht. induction Ht as [|f v line fs vs lines Hv _ IH]; [done|].
  apply Forall_cons in Hf as [Hf Hfs]. cbn. by rewrite (typed_read _ _ _ _ Hf Hv), IH.
Qed.

Lemma fill_ok early sel fs : forall lines vs rest, Forall field_ok fs ->
  fill early sel fs lines = (Filled vs, rest) -> Forall2 (value_ok sel) fs vs.
Proof.
  induction fs as [|f fs IH]; intros lines vs rest Hf H; cbn in H; [destruct lines; simplify_eq; constructor|].
  apply Forall_cons in Hf as [Hf Hfs]. destruct lines as [|line lines]; [done|].
  destruct (readField sel f line) as [v|] eqn:E; [|destruct early; [done|by destruct (fill false sel fs lines) as [[] ?]]].
  destruct (fill early sel fs lines) as [[] r] eqn:Er; simplify_eq/=.
  constructor; [by apply (read_ok sel f v line)|by eapply IH].
Qed.

(** An argument that fits its D-Bus type. *)
Definition arg_ok (a : Arg) : Prop :=
  match a with
  | AByte z => byte_ok z
  | AU16 z => 0 <= z < 65536
  | AU32 z => 0 <= z < 4294967296
  | AI32 z => - 2147483648 <= z < 2147483648
  | ABytes l => Forall byte_ok l
  | AActions l => Forall (fun p => byte_ok p.1 /\ Forall byte_ok p.2) l
  | ABool _ | AText _ => True
  end.

Definition form_ok (F : Form) : Prop :=
  Forall field_ok (fields F) /\
  forall sel vs, (forall n, sel = Some n -> byte_ok n) -> Forall2 (value_ok sel) (fields F) vs ->
    Forall arg_ok (build F vs).

Ltac form :=
  split; [repeat constructor; cbn; unfold BYTE_MIN, BYTE_MAX, Parse.BYTE_MIN, Parse.BYTE_MAX, NODE_ID_MIN, NODE_ID_MAX,
            Parse.NODE_ID_MIN, Parse.NODE_ID_MAX, GROUP_ID_MIN, GROUP_ID_MAX, CONFIG_SIZE_MIN, CONFIG_SIZE_MAX; lia|].

Lemma node_byte (sel : option Z) n :
  (forall m, sel = Some m -> byte_ok m) -> NODE_ID_MIN <= n <= NODE_ID_MAX \/ sel = Some n -> byte_ok n.
Proof.
  unfold NODE_ID_MIN, NODE_ID_MAX, Parse.NODE_ID_MIN, Parse.NODE_ID_MAX, byte_ok. intros Hs [?|Hn]; [lia|by apply Hs].
Qed.

Lemma text_bytes (t : text) : Forall byte_ok ((fun c => Z.of_nat (nat_of_ascii c)) <$> t).
Proof.
  apply Forall_fmap, Forall_true. intros c. unfold byte_ok. cbn. pose proof (nat_ascii_bounded c). lia.
Qed.

Lemma nodes_bytes l : Forall (fun n => NODE_ID_MIN <= n <= NODE_ID_MAX) l -> Forall byte_ok l.
Proof.
  intros Hl. eapply Forall_impl; [exact Hl|]. unfold NODE_ID_MIN, NODE_ID_MAX, Parse.NODE_ID_MIN, Parse.NODE_ID_MAX, byte_ok.
  cbn. lia.
Qed.

Lemma actions_ok `{Daemon} : Forall (fun p => form_ok p.2) actions.
Proof.
  unfold actions. cbn [fmap list_fmap app]. repeat apply Forall_cons_2; try apply Forall_nil_2; cbn [snd]; form;
    intros sel vs Hs Hv; cbn in Hv;
    repeat match goal with H : Forall2 _ (_ :: _) _ |- _ => inversion H; clear H; subst end;
    repeat match goal with H : Forall2 _ [] _ |- _ => inversion H; clear H; subst end;
    repeat match goal with H : value_ok _ _ ?v |- _ => is_var v; destruct v; cbn in H; try done end;
    cbn; repeat constructor; cbn; try done; try by apply (node_byte sel).
  all: try apply text_bytes; try (by apply nodes_bytes; apply H4).
  all: unfold byte_ok, BYTE_MIN, BYTE_MAX, Parse.BYTE_MIN, Parse.BYTE_MAX, NODE_ID_MIN, NODE_ID_MAX,
    Parse.NODE_ID_MIN, Parse.NODE_ID_MAX, GROUP_ID_MIN, GROUP_ID_MAX, CONFIG_SIZE_MIN, CONFIG_SIZE_MAX,
    DURATION_DEFAULT, Parse.U32_MAX, INT_MAX in *; try lia.
Qed.

(** ** What the actions do, for the loop that offers them *)

Section Actions.
Context `{Daemon}.

(** The nodes of the list have ids that are bytes, as on D-Bus. *)
Definition ids_ok (m : NodeModel) : Prop := Forall (fun row => byte_ok (id row)) (rows m).

Lemma selected_byte m n : ids_ok m -> selectedNodeId m = Some n -> byte_ok n.
Proof.
  unfold selectedNodeId. intros Hm (row & Hr & ->)%fmap_Some. by apply (Forall_lookup_1 _ _ _ _ Hm Hr).
Qed.

(** Values the fields can have, typed in, are what the one call made carries. *)
Lemma action_typed h F w vs lines rest :
  (h, F) ∈ actions -> Forall3 (types (selectedNodeId (nodeModel w))) (fields F) vs lines -> accept F vs = true ->
  typed w = (Some <$> lines) ++ rest ->
  let counter := u8 (sessionCounter w + 1) in
  let c := mkCall (lit (title F)) (build F vs ++ [AByte counter]) in
  exists e, seen (h w) = mkSeen e rest counter (calls w ++ [c]) (nodeModel w) /\ e <> Waits.
Proof.
  intros Hin Ht Ha Hw. pose proof actions_kept as Hk. pose proof actions_ok as Ho. rewrite Forall_forall in Hk, Ho.
  destruct (Ho _ Hin) as [Hf _]. rewrite (keeps_promise F h (Hk _ Hin)). unfold promise.
  rewrite Hw, (fill_typed _ _ _ vs lines rest Hf Ht). cbn. rewrite Ha. eexists. split; [done|].
  destruct (guarded F); [done|]. by destruct (failure _).
Qed.

(** Whatever is typed, at most one call is made, with arguments that fit its types and
    the counter's new value last; without a call the counter stays. *)
Lemma action_safe h F w :
  (h, F) ∈ actions -> ids_ok (nodeModel w) ->
  let r := seen (h w) in
  shown r = nodeModel w /\
  (called r = calls w /\ counted r = sessionCounter w \/
   counted r = u8 (sessionCounter w + 1) /\
   exists args, called r = calls w ++ [mkCall (lit (title F)) (args ++ [AByte (counted r)])] /\ Forall arg_ok args).
Proof.
  intros Hin Hm. pose proof actions_kept as Hk. pose proof actions_ok as Ho. rewrite Forall_forall in Hk, Ho.
  destruct (Ho _ Hin) as [Hf Hb]. rewrite (keeps_promise F h (Hk _ Hin)). unfold promise. cbn [snd] in *.
  destruct (fill _ _ _ _) as [[| |vs] rest] eqn:E; cbn; [by auto..|].
  destruct (accept F vs); cbn; [|by auto]. split; [done|]. right. split; [done|].
  exists (build F vs). split; [done|]. apply (Hb (selectedNodeId (nodeModel w))); [|by eapply fill_ok].
  intros n Hn. by eapply selected_byte.
Qed.

End Actions.

(** ** Lines read one after the other *)

Section Asked.
Context `{Daemon}.

(** The world after some lines were read, [rest] being left: only lines and labels
    differ. *)
Record after (rest : list (option text)) (w w' : World) : Prop := mkAfter {
  after_typed : typed w' = rest; after_counter : sessionCounter w' = sessionCounter w;
  after_model : nodeModel w' = nodeModel w; after_calls : calls w' = calls w }.

Lemma after_trans r1 r2 w w1 w2 : after r1 w w1 -> after r2 w1 w2 -> after r2 w w2.
Proof. intros [] []. split; congruence. Qed.

(** [m] yields [a] when the next line is one for it, typed after [w]. *)
Lemma asked {A} (m : M (option A)) f inj a line rest w w0 :
  asks m f inj -> (forall x y, inj x = inj y -> x = y) -> field_ok f ->
  types (selectedNodeId (nodeModel w)) f (inj a) line -> after (Some line :: rest) w w0 ->
  exists w', m w0 = Done (Some a) w' /\ after rest w w'.
Proof.
  intros Hm Hi Hf Ht [Hw Hc Hn Hk]. destruct (Hm w0) as [label Hl]. cbn in Hl. rewrite Hw in Hl.
  destruct Hl as (o & E & Ho). rewrite Hn, (typed_read _ _ _ _ Hf Ht) in Ho.
  destruct o as [x|]; simplify_eq/=. apply Hi in Ho. subst x. eexists. by split.
Qed.

Lemma bind_done {A B} (m : M A) (k : A -> M B) w a w' : m w = Done a w' -> (m ≫= k) w = k a w'.
Proof. unfold mbind, M_bind. by intros ->. Qed.

Lemma num_inj x y : VNum x = VNum y -> x = y.
Proof. congruence. Qed.
Lemma text_inj x y : VText x = VText y -> x = y.
Proof. congruence. Qed.
Lemma list_inj x y : VList x = VList y -> x = y.
Proof. congruence. Qed.

(** A line of text that fits its buffer, with what is made of it. *)
Lemma line_asked {A} (label : text) (parse : option text -> A) line rest w w0 :
  "000"%char ∉ line -> (length line < LINE_INPUT_BUFFER)%nat -> after (Some line :: rest) w w0 ->
  exists w', (text ← promptText label; mret (parse text)) w0 = Done (parse (Parse.line (Some line))) w' /\ after rest w w'.
Proof.
  intros H0 Hl [Hw ? ? ?]. destruct w0 as [ty ks ct m a p s cs]. cbn in Hw. subst ty.
  exists (setTyped rest (addPrompted label (mkWorld (Some line :: rest) ks ct m a p s cs))). split; [|by split].
  unfold promptText, prompt, getnstr, modify, mbind, M_bind, mret, M_ret. cbn [setTyped addPrompted typed fmap option_fmap option_map].
  assert (E : (cstring ∘ take (LINE_INPUT_BUFFER - 1)) line = line) by (apply buffered; unfold LINE_INPUT_BUFFER in *; [done|lia]).
  by rewrite E.
Qed.

End Asked.

(** The next prompt of the goal's program is answered by the next line. *)
Ltac answered A :=
  match goal with
  | |- context [(?p ≫= ?k) ?w0] =>
      let E := fresh in
      let B := fresh in
      edestruct (asked p) as (? & E & B);
        [apply asks_node || apply asks_byte || apply asks_int32 || apply asks_u32 || apply asks_line || apply asks_nodes
        |apply num_inj || apply text_inj || apply list_inj|try done|eassumption|exact A|];
      rewrite (bind_done _ _ _ _ _ E); clear A E; rename B into A; cbn iota
  end.

