(* ===== verification/TerminalPolicy.v ===== *)
(** * The terminal client: policies

    The policy menu of [src/utils/zwave-terminal/handlers.cpp], with the prompts and the
    log lines of [policy_blob.cpp] (whose codec is in [PolicyBlob]): viewing, deleting
    and editing the override of a node and the policy of a device.  An edit reads the
    blob from the daemon, changes one entry and writes the blob back. *)

From Stdlib Require Import String Ascii.
From S2P Require Import Prelude Config PolicyRegister PolicyBlob TerminalText TerminalConsole.
From S2P Require Import TerminalFormat TerminalHandlers.
From stdpp Require Import strings.
#[local] Open Scope Z_scope.

Section Policy.
Context `{Daemon} `{Oob}.

Definition entryLine (entry : Blob.PolicyEntry) : text :=
  if Blob.kind entry =? Blob.POLICY_KIND_CONFIG then
    str [S_ "    config param="; D_ (Blob.parameter entry); S_ " size="; D_ (Blob.size entry);
         S_ " value="; D_ (Blob.value entry); S_ (if Blob.isSigned entry then " (signed)" else "")]
  else if Blob.kind entry =? Blob.POLICY_KIND_ASSOC then
    str [S_ "    assoc group="; D_ (Blob.groupId entry); S_ " members=[";
         T_ (Format.spacedBy (dec <$> Blob.members entry)); S_ "]"]
  else if Blob.kind entry =? Blob.POLICY_KIND_WAKEUP then
    str [S_ "    wakeup interval="; D_ (Blob.intervalSeconds entry); S_ "s notify=";
         D_ (Blob.notificationNodeId entry)]
  else [].

Definition logPolicy (header : text) (bytes : list Z) : M unit :=
  logLine header ;;
  match bytes with
  | [] => say [S_ "    (none)"]
  | _ =>
      match Blob.decodePolicy bytes with
      | None => say [S_ "    (undecodable blob, "; D_ (zlen bytes); S_ " bytes)"]
      | Some [] => say [S_ "    (empty)"]
      | Some policy => each (fun entry => logLine (entryLine entry)) policy
      end
  end.

(** [entrySummary] *)
Definition entrySummary (entry : Blob.PolicyEntry) : text :=
  if Blob.kind entry =? Blob.POLICY_KIND_CONFIG then
    str [S_ "config param="; D_ (Blob.parameter entry); S_ " value="; D_ (Blob.value entry)]
  else if Blob.kind entry =? Blob.POLICY_KIND_ASSOC then
    str [S_ "assoc group="; D_ (Blob.groupId entry); S_ " members="; D_ (zlen (Blob.members entry))]
  else str [S_ "wakeup interval="; D_ (Blob.intervalSeconds entry); S_ "s"].

Definition promptPolicyEntry : M (option Blob.PolicyEntry) :=
  ask kind := promptChar "Entry kind: [c]onfiguration  [a]ssociation  [w]ake-up:" "caw"
    else_ (say [S_ "policy entry: cancelled"] ;; mret None) in
  if bool_decide (kind = "c"%char) then
    parameter ← promptByte "Config parameter (0-255):" BYTE_MIN BYTE_MAX;
    size ← promptByte "Value size bytes (1, 2, or 4):" CONFIG_SIZE_MIN CONFIG_SIZE_MAX;
    value ← promptInt32 "Value (signed int32):";
    match parameter, size, value with
    | Some parameter, Some size, Some value =>
        if negb (size =? 1) && negb (size =? 2) && negb (size =? 4)
        then say [S_ "config entry: cancelled or invalid (size must be 1/2/4)"] ;; mret None
        else mret (Some (Blob.configEntry Blob.POLICY_KIND_CONFIG parameter size (value <? 0) value))
    | _, _, _ => say [S_ "config entry: cancelled or invalid (size must be 1/2/4)"] ;; mret None
    end
  else if bool_decide (kind = "a"%char) then
    group ← promptByte "Group id (1-255):" GROUP_ID_MIN GROUP_ID_MAX;
    members ← promptNodeList "Member node ids (space/comma separated):";
    match group, members with
    | Some group, Some members => mret (Some (Blob.assocEntry Blob.POLICY_KIND_ASSOC group members))
    | _, _ => say [S_ "association entry: cancelled or invalid"] ;; mret None
    end
  else
    interval ← promptU32 "Interval seconds (0..16777215):";
    notify ← promptByte "Notify node id (0=controller):" BYTE_MIN BYTE_MAX;
    match interval, notify with
    | Some interval, Some notify => mret (Some (Blob.wakeUpEntry Blob.POLICY_KIND_WAKEUP interval notify))
    | _, _ => say [S_ "wake-up entry: cancelled or invalid"] ;; mret None
    end.

Definition as_blob r := match r with Blob l => Some l | _ => None end.

(** [storeResultsTo(bytes)] in a handler that returns when it throws. *)
Definition readBlob (method : string) (args : list Arg) (what : string) : M (option (list Z)) :=
  try_ (l ← fetch method args as_blob; mret (Some l))
  catch_ err => (say [S_ what; T_ err] ;; mret None).

Definition handleViewEffectivePolicy : M unit :=
  ask nodeId := promptNodeId "Node ID (1-232):" else_ say [S_ "GetEffectivePolicy: cancelled or invalid node id"] in
  ask bytes := readBlob "GetEffectivePolicy" [AByte nodeId] "GetEffectivePolicy failed: " else_ mret tt in
  logPolicy (str [S_ "Effective policy node="; D_ nodeId; S_ ":"]) bytes.

Definition handleViewNodeOverride : M unit :=
  ask nodeId := promptNodeId "Node ID (1-232):" else_ say [S_ "GetNodeOverride: cancelled or invalid node id"] in
  ask bytes := readBlob "GetNodeOverride" [AByte nodeId] "GetNodeOverride failed: " else_ mret tt in
  logPolicy (str [S_ "Node override node="; D_ nodeId; S_ ":"]) bytes.

Definition handleDeleteNodeOverride : M unit :=
  ask nodeId := promptNodeId "Node ID (1-232):" else_ say [S_ "DeleteNodeOverride: cancelled or invalid node id"] in
  try_ (invoke "DeleteNodeOverride" [AByte nodeId] ;; say [S_ "DeleteNodeOverride node="; D_ nodeId])
  catch_ err => failed "DeleteNodeOverride" err.

Definition done (replaced : bool) : Chunk := S_ (if replaced then " (updated)" else " (added)").

Definition handleSetNodeOverrideEntry : M unit :=
  ask nodeId := promptNodeId "Node ID (1-232):" else_ say [S_ "SetNodeOverride: cancelled or invalid node id"] in
  ask entry := promptPolicyEntry else_ mret tt in
  ask existing := readBlob "GetNodeOverride" [AByte nodeId] "SetNodeOverride: read-back failed: " else_ mret tt in
  match Blob.applyEntryToBlob existing entry with
  | None => say [S_ "SetNodeOverride: existing override is undecodable — aborting to avoid overwriting it"]
  | Some (blob, replaced) =>
      try_ (invoke "SetNodeOverride" [AByte nodeId; ABytes blob] ;;
            say [S_ "SetNodeOverride node="; D_ nodeId; S_ " "; T_ (entrySummary entry); done replaced])
      catch_ err => failed "SetNodeOverride" err
  end.

Definition handleDevicePolicyEdit : M unit :=
  ask action := promptChar "Device policy: [s]et entry  [d]elete policy:" "sd" else_ say [S_ "Device policy: cancelled"] in
  (manufacturerId ← promptU16 "Manufacturer id (dec or 0xHEX):";
   productTypeId ← promptU16 "Product type id:";
   productId ← promptU16 "Product id:";
   match manufacturerId, productTypeId, productId with
   | Some manufacturerId, Some productTypeId, Some productId =>
       let device := [AU16 manufacturerId; AU16 productTypeId; AU16 productId] in
       if bool_decide (action = "d"%char) then
         try_ (invoke "DeleteDevicePolicy" device ;; say [S_ "DeleteDevicePolicy mfr="; D_ manufacturerId])
         catch_ err => failed "DeleteDevicePolicy" err
       else
         ask entry := promptPolicyEntry else_ mret tt in
         ask existing := readBlob "GetDevicePolicy" device "SetDevicePolicy: read-back failed: " else_ mret tt in
         match Blob.applyEntryToBlob existing entry with
         | None => say [S_ "SetDevicePolicy: existing policy is undecodable — aborting to avoid overwriting it"]
         | Some (blob, replaced) =>
             try_ (invoke "SetDevicePolicy" (device ++ [ABytes blob]) ;;
                   say [S_ "SetDevicePolicy mfr=0x"; H_ 4 manufacturerId; S_ " "; T_ (entrySummary entry); done replaced])
             catch_ err => failed "SetDevicePolicy" err
         end
   | _, _, _ => say [S_ "Device policy: cancelled or invalid device id"]
   end).

Definition as_policies r := match r with Policies l => Some l | _ => None end.

Definition handleListDevicePolicies : M unit :=
  ask rows := try_ (l ← fetch "ListDevicePolicies" [] as_policies; mret (Some l))
              catch_ err => (failed "ListDevicePolicies" err ;; mret None)
    else_ mret tt in
  match rows with
  | [] => say [S_ "Device policies: (none)"]
  | _ =>
      say [S_ "Device policies ("; D_ (zlen rows); S_ "):"] ;;
      each (fun '(mfr, type, product, bytes) =>
              logPolicy (str [S_ "  device mfr=0x"; H_ 4 mfr; S_ " type=0x"; H_ 4 type; S_ " id=0x"; H_ 4 product; S_ ":"])
                bytes) rows
  end.

End Policy.

(** ** Editing an override *)

Import PolicyRegister.Policy.

Section Edit.
Context `{Daemon} `{Oob}.

(** The lines an operator may type for an entry: its kind, then its fields. *)
Inductive entry_typed (sel : option Z) : Entry -> list text -> Prop :=
| typed_config p s v lp ls lv :
    types sel anyByte (VNum p) lp -> types sel (FByte CONFIG_SIZE_MIN CONFIG_SIZE_MAX) (VNum s) ls ->
    types sel FInt32 (VNum v) lv -> s = 1 \/ s = 2 \/ s = 4 ->
    entry_typed sel (ConfigurationEntry p s (v <? 0) v) [lit "c"; lp; ls; lv]
| typed_assoc g ms lg lm :
    types sel groupByte (VNum g) lg -> types sel FNodes (VList ms) lm ->
    entry_typed sel (AssociationEntry g ms) [lit "a"; lg; lm]
| typed_wakeup i n li ln :
    types sel FU32 (VNum i) li -> types sel anyByte (VNum n) ln -> entry_typed sel (WakeUpEntry i n) [lit "w"; li; ln].

(** The letter of the kind. *)
Lemma letter_asked label valid c rest w w0 :
  bool_decide (c = "000"%char) = false -> bool_decide (c ∈ lit valid) = true -> after (Some [c] :: rest) w w0 ->
  exists w', promptChar label valid w0 = Done (Some c) w' /\ after rest w w'.
Proof.
  intros H0c Hc A. apply bool_decide_eq_false in H0c.
  destruct (line_asked (lit label) (Parse.charIn (lit valid)) [c] rest w w0) as (w' & E & A'); [|unfold LINE_INPUT_BUFFER; cbn; lia|done|].
  - intros Hin%list_elem_of_singleton. by apply H0c.
  - exists w'. split; [|done]. unfold promptChar, promptLine. rewrite E. cbn -[lit]. by rewrite Hc.
Qed.

(** The letter of the kind, the goal's first prompt. *)
Ltac lettered A c :=
  let E := fresh in let B := fresh in
  edestruct (letter_asked "Entry kind: [c]onfiguration  [a]ssociation  [w]ake-up:" "caw" c) as (? & E & B);
    [| |exact A|]; [done..|]; rewrite (bind_done _ _ _ _ _ E); clear A E; rename B into A; cbn iota;
  repeat match goal with
  | |- context [bool_decide (?x = ?y)] =>
      first [rewrite (bool_decide_true (x = y)) by done | rewrite (bool_decide_false (x = y)) by done]; cbn iota
  end.

Lemma entry_asked e lines rest w w0 :
  entry_typed (selectedNodeId (nodeModel w)) e lines -> after ((Some <$> lines) ++ rest) w w0 ->
  exists w', promptPolicyEntry w0 = Done (Some (clientEntry e)) w' /\ after rest w w'.
Proof.
  intros He A. unfold promptPolicyEntry. inversion He; subst e lines; cbn [fmap list_fmap app] in A.
  - lettered A "c"%char. do 3 answered A.
    eexists. split; [|exact A]. by destruct H4 as [-> | [-> | ->]].
  - lettered A "a"%char. do 2 answered A. eexists. by split.
  - lettered A "w"%char. do 2 answered A. eexists. by split.
Qed.

Lemma listed_at_least n ns : separators ns -> (S (length ns) <= length (listed n ns))%nat.
Proof.
  intros Hs. unfold listed. rewrite length_app.
  assert (0 < length (dec n))%nat by (pose proof (dec_ne n); destruct (dec n); [done|cbn; lia]).
  enough (length ns <= length (concat ((fun p => p.1 :: dec p.2) <$> ns)))%nat by lia.
  clear. induction ns as [|[c m] ns IH]; cbn; [done|]. rewrite length_app. lia.
Qed.

(** An entry that was typed is one the daemon's codec carries. *)
Lemma typed_entry_ok sel e lines : entry_typed sel e lines -> entry_ok e.
Proof.
  intros He. destruct He as [p s v lp ls lv Hp Hs Hv _|g ms lg lm Hg Hm|i n li ln Hi Hn].
  all: repeat match goal with H : types _ _ _ _ |- _ => inversion H; clear H; subst end; cbn;
    unfold byte_ok, BYTE_MIN, BYTE_MAX, Parse.BYTE_MIN, Parse.BYTE_MAX, CONFIG_SIZE_MIN, CONFIG_SIZE_MAX,
      GROUP_ID_MIN, GROUP_ID_MAX, Parse.U32_MAX, INT_MAX in *; repeat split; try lia.
  - by apply nodes_bytes.
  - pose proof (listed_at_least n _ H2). unfold LINE_INPUT_BUFFER in *. cbn. rewrite length_fmap. lia.
Qed.
(** What was written back: nothing over a blob that does not parse, else the merge. *)
Definition written (n : Z) (existing : list Z) (e : Entry) : list Call :=
  match stored existing with
  | None => []
  | Some p => [mkCall (lit "SetNodeOverride") [AByte n; ABytes (serialize (merge p [e]))]]
  end.

Lemma readBlob_done method args what existing w :
  reply (length (calls w)) (mkCall (lit method) args) = Blob existing ->
  readBlob method args what w = Done (Some existing) (addCall (mkCall (lit method) args) w).
Proof.
  intros Hr. unfold readBlob, fetch, callMethod, catch, mbind, M_bind. rewrite Hr. reflexivity.
Qed.

(** Editing an override.  When the operator types a node and an entry and the
    daemon sends the stored blob, the blob is read once and written back once, and what
    is written is the stored policy with that one entry merged in, which the daemon
    reads back; over a blob that does not parse nothing is written. *)
Theorem override_edited e n line lines rest existing w :
  types (selectedNodeId (nodeModel w)) FNode (VNum n) line -> entry_typed (selectedNodeId (nodeModel w)) e lines ->
  typed w = Some line :: (Some <$> lines) ++ rest ->
  reply (length (calls w)) (mkCall (lit "GetNodeOverride") [AByte n]) = Blob existing -> bytes_ok existing ->
  let w' := worldOf (handleSetNodeOverrideEntry w) in
  typed w' = rest /\
  calls w' = calls w ++ mkCall (lit "GetNodeOverride") [AByte n] :: written n existing e /\
  (forall p, stored existing = Some p -> slotOf e ∈ slotOf <$> p \/ (length p < 255)%nat ->
     deserialize (serialize (merge p [e])) = Some (merge p [e])).
Proof.
  intros Hn He Hw Hr Hb. cbn zeta. apply and_assoc. split.
  - assert (A : after (Some line :: (Some <$> lines) ++ rest) w w) by by split.
    unfold handleSetNodeOverrideEntry. answered A.
    destruct (entry_asked e lines rest w _ He A) as (w2 & E & [Ht Hc Hm Hk]). rewrite (bind_done _ _ _ _ _ E). cbn iota.
    rewrite <- Hk in Hr. rewrite (bind_done _ _ _ _ _ (readBlob_done _ _ _ existing w2 Hr)). cbn iota.
    rewrite applyEntryToBlob_agrees. unfold written. destruct (stored existing) as [p|]; cbn;
      [unfold catch, invoke, callMethod, mbind, M_bind; cbn; destruct (failure _)|]; cbn; by rewrite Ht, Hk, <-?app_assoc.
  - intros p Hp Hin. destruct (stored_ok existing p Hb Hp). apply merged_read_back; [done..| |done]. by eapply typed_entry_ok.
Qed.

End Edit.

(** A daemon that keeps one override. *)
Definition oneOverride : Daemon := {|
  reply n c := if bool_decide (method c = lit "GetNodeOverride") then Blob (serialize [WakeUpEntry 60 1]) else Nothing;
  mismatch := [] |}.
Definition typing (lines : list string) : World :=
  mkWorld (Some ∘ lit <$> lines) [] 0 (mkNodeModel [] 0) quiet [] [] [].

(** The wake-up entry of node 5 is replaced. *)
Lemma override_edited_witness :
  let w := typing ["5"; "w"; "3600"; "0"]%string in
  typed w = Some (lit "5") :: (Some <$> [lit "w"; lit "3600"; lit "0"]) ++ [] /\
  typed (worldOf (@handleSetNodeOverrideEntry oneOverride 0 w)) = [].
Proof.
  assert (Hb : bytes_ok (serialize [WakeUpEntry 60 1])) by (repeat constructor; vm_compute; (done || congruence)).
  intros w. split; [reflexivity|].
  assert (Hn : types (selectedNodeId (nodeModel w)) FNode (VNum 5) (lit "5")).
  { apply (types_node _ 5). unfold NODE_ID_MIN, NODE_ID_MAX, Parse.NODE_ID_MIN, Parse.NODE_ID_MAX. lia. }
  assert (He : entry_typed (selectedNodeId (nodeModel w)) (WakeUpEntry 3600 0) [lit "w"; lit "3600"; lit "0"]).
  { apply typed_wakeup; [apply (types_u32 _ 3600); unfold Parse.U32_MAX; lia|].
    apply (types_byte _ _ _ 0). unfold BYTE_MIN, BYTE_MAX, Parse.BYTE_MIN, Parse.BYTE_MAX. lia. }
  exact (proj1 (@override_edited oneOverride 0 _ 5 _ _ [] _ w Hn He eq_refl eq_refl Hb)).
Defined.
