(* ===== verification/TerminalRender.v ===== *)
(** * The terminal client: the screen

    [src/utils/zwave-terminal/render.cpp]: the panes of the main screen and the dialogues,
    as the texts they put at each row and column.  [Display] is the terminal, [Clock] the
    time of the drawing. *)

From Stdlib Require Import String Ascii.
From S2P Require Import Prelude Config TerminalText TerminalConsole TerminalFormat.
From stdpp Require Import strings.
#[local] Open Scope Z_scope.

Class Display := { maxX : Z; maxY : Z; hasColors : bool }.
Class Clock := now : Z.

Module Render.

Definition LIST_WIDTH_MAX : Z := 36.
Definition LOG_ROWS : Z := 6.
Definition CC_SECURITY_2 : Z := 0x9F.
Definition CC_SECURITY_0 : Z := 0x98.
Definition SECONDS_PER_MINUTE : Z := 60.
Definition SECONDS_PER_HOUR : Z := SECONDS_PER_MINUTE * 60.
Definition SECONDS_PER_DAY : Z := SECONDS_PER_HOUR * 24.
Definition NAME_COL : Z := 13.
Definition STATE_COL : Z := 8.
Definition VALUE_ID_COL : Z := 18.
Definition VALUE_COL : Z := 10.
Definition SEVERITY_WARN : Z := 2.
Definition SEVERITY_ERROR : Z := 3.
Definition SEVERITY_CRITICAL : Z := 4.
Definition CP_WARN : Z := 1.
Definition CP_ERROR : Z := 2.
Definition CP_CRITICAL : Z := 3.

Definition hex2 (value : Z) : text :=
  [hexDigit true (Z.shiftr value 4); hexDigit true (Z.land value 0x0F)].

Definition securityLabel (ccs : list Z) : string :=
  if bool_decide (CC_SECURITY_2 ∈ ccs) then "S2" else if bool_decide (CC_SECURITY_0 ∈ ccs) then "S0" else "-".

(** [static_cast<std::int64_t>] of an unsigned of 64 bits. *)
Definition int64 (z : Z) : Z := if z <? 2 ^ 63 then z else z - 2 ^ 64.

Section Age.
Context `{Clock}.

Definition age (updatedAt : Z) : Z := Z.max 0 (now - int64 updatedAt).

(** The age in its largest unit. *)
Definition ageIn (updatedAt : Z) : list Chunk :=
  let age := age updatedAt in
  if age <? SECONDS_PER_MINUTE then [D_ age; S_ "s"]
  else if age <? SECONDS_PER_HOUR then [D_ (age / SECONDS_PER_MINUTE); S_ "m"]
  else if age <? SECONDS_PER_DAY then [D_ (age / SECONDS_PER_HOUR); S_ "h"]
  else [D_ (age / SECONDS_PER_DAY); S_ "d"].

Definition renderAge (updatedAt : Z) : text := str (ageIn updatedAt).
End Age.

Definition fit (t : text) (width : Z) : text :=
  if width <=? 0 then []
  else if zlen t <=? width then t
  else if width =? 1 then take 1 t
  else take (Z.to_nat (width - 1)) t ++ lit "~".

Definition padRight (t : text) (width : Z) : text :=
  let cell := fit t width in
  if zlen cell <? width then cell ++ replicate (Z.to_nat width - length cell) " "%char else cell.

Section Panes.
Context `{Display} `{Clock}.

Definition bold (pair : Z) : Attr := if negb (pair =? 0) && hasColors then Bold pair else Plain.

Definition severityLabel (severity : Z) : string * Z :=
  if severity =? SEVERITY_WARN then ("WARN"%string, CP_WARN)
  else if severity =? SEVERITY_ERROR then ("ERROR"%string, CP_ERROR)
  else if severity =? SEVERITY_CRITICAL then ("CRITICAL"%string, CP_CRITICAL)
  else ("INFO"%string, 0).

(** The rows of a pane, one below the other from [row] on. *)
Fixpoint stack (row col : Z) (lines : list (Attr * text)) : list Op :=
  match lines with [] => [] | (a, t) :: lines => Put a row col t :: stack (row + 1) col lines end.

Definition headerLines (a : ActivityState) (m : NodeModel) : list (Attr * text) :=
  [(Plain, str [S_ " zwave-terminal   Dongle: ";
                T_ (if dongleConnected a then lit "* " ++ donglePath a else lit "o disconnected");
                S_ "   "; D_ (zlen (rows m)); S_ " nodes"])] ++
  (let e := daemonError a in
   match message e with
   | [] => []
   | _ => let (label, pair) := severityLabel (severity e) in
          [(bold pair, str [S_ " ! "; S_ label; S_ " ["; T_ (source e); S_ " 0x"; T_ (hexW true 2 (code e)); S_ "]: ";
                            T_ (message e)])]
   end) ++
  (let d := dskPending a in
   if active d then
     [(bold CP_WARN, str [S_ " DSK confirm: node "; D_ (dskNode d); S_ "  "; T_ (dsk d);
                          S_ "  -> press [k] to enter PIN"])]
   else []).

Definition drawHeader (a : ActivityState) (m : NodeModel) : list Op * Z :=
  let lines := headerLines a m in
  (stack 0 0 lines ++ [HLine (zlen lines)], zlen lines + 1).

Definition nodeLine (node : NodeRow) : text :=
  let name := match name node with [] => lit "(unnamed)" | name => name end in
  lit " " ++ padRight (dec (id node)) 3 ++ lit "  " ++ padRight name NAME_COL ++ lit "  " ++
  padRight (state node) STATE_COL ++ lit "  " ++ lit (securityLabel (commandClasses node)).

Definition listHeader : text :=
  lit " " ++ padRight (lit "#") 3 ++ lit "  " ++ padRight (lit "name") NAME_COL ++ lit "  " ++
  padRight (lit "state") STATE_COL ++ lit "  sec".

(** The rows of the list: the whole model from its first node on, cut at [bottom]. *)
Fixpoint drawRows (row bottom width : Z) (i sel : nat) (nodes : list NodeRow) : list Op :=
  match nodes with
  | [] => []
  | node :: nodes =>
      if bottom <? row then []
      else Put (if Nat.eqb i sel then Reverse else Plain) row 0 (fit (nodeLine node) width)
           :: drawRows (row + 1) bottom width (S i) sel nodes
  end.

Definition drawNodeList (m : NodeModel) (top bottom width : Z) : list Op :=
  Put Plain top 0 (lit " Nodes") ::
  if top + 1 <=? bottom then
    Put Plain (top + 1) 0 (fit listHeader width) :: drawRows (top + 2) bottom width 0 (selected m) (rows m)
  else drawRows (top + 1) bottom width 0 (selected m) (rows m).

(** Lines shown while there are rows for them. *)
Fixpoint whileRoom (row bottom left width : Z) (lines : list text) : list Op :=
  match lines with
  | [] => []
  | line :: lines =>
      if bottom <? row then [] else Put Plain row left (fit line width) :: whileRoom (row + 1) bottom left width lines
  end.

Definition valueLine (v : NodeValueRow) : text :=
  lit "  " ++ fit (valueId v) VALUE_ID_COL ++ lit " " ++ fit (value v) VALUE_COL ++ lit " (" ++
  renderAge (updatedAt v) ++ lit ")".

Definition detailLines (node : NodeRow) : list text :=
  [lit "Node " ++ dec (id node) ++ (match name node with [] => [] | name => lit " - " ++ name end);
   lit "class " ++ hex2 (basicType node) ++ lit "/" ++ hex2 (genericType node) ++ lit "/" ++
     hex2 (specificType node) ++ lit "  sec " ++ lit (securityLabel (commandClasses node));
   lit "CC " ++ Format.formatCcList (commandClasses node);
   lit "values:"] ++
  match values node with
  | [] => [lit "  (none reported yet)"]
  | values => valueLine <$> values
  end.

(** The title is put at [top] in any case. *)
Definition drawDetail (m : NodeModel) (top bottom left width : Z) : list Op :=
  match rows m !! selected m with
  | None => [Put Plain top left (fit (lit "(no node selected)") width)]
  | Some node =>
      match detailLines node with
      | [] => []
      | title :: lines => Put Plain top left (fit title width) :: whileRoom (top + 1) bottom left width lines
      end
  end.

Definition drawLog (a : ActivityState) (top bottom : Z) : list Op :=
  let row := top + 1 in
  let available := bottom - row + 1 in
  let start := if (0 <? available) && (available <? zlen (log a)) then (length (log a) - Z.to_nat available)%nat else O in
  HLine top :: whileRoom row bottom 0 maxX (drop start (log a)).

Definition hint (lastSession : Z) : text :=
  str [S_ " up/dn select | [c]ontrol [g]et [f]ail [L]ifeline | [a]dd [x]remove |";
       S_ " [p]olicy [e]scenes [h]vac [l]ist [n]et [i]nfo [r]efresh (s:"; D_ lastSession; S_ ") [q]uit"].

(** The rows and columns of the panes. *)
Record Layout := mkLayout {
  bodyTop : Z; bodyBottom : Z; listWidth : Z; detailLeft : Z; logTop : Z; logBottom : Z; hintRow : Z }.
Definition layout (bodyTop : Z) : Layout :=
  let hintRow := maxY - 1 in
  let logBottom := hintRow - 1 in
  let logTop := logBottom - LOG_ROWS in
  let listWidth := Z.min LIST_WIDTH_MAX (Z.quot maxX 2) in
  mkLayout bodyTop (logTop - 1) listWidth (listWidth + 2) logTop logBottom hintRow.

(** [n] bars in a column. *)
Definition bars (top : Z) (n : nat) (col : Z) : list Op := (fun i => Bar (top + Z.of_nat i) col) <$> seq 0 n.

Definition drawBody (m : NodeModel) (l : Layout) : list Op :=
  if bodyTop l <=? bodyBottom l then
    drawNodeList m (bodyTop l) (bodyBottom l) (listWidth l) ++
    bars (bodyTop l) (Z.to_nat (bodyBottom l - bodyTop l + 1)) (listWidth l) ++
    drawDetail m (bodyTop l) (bodyBottom l) (detailLeft l) (maxX - detailLeft l)
  else [].

Definition draw (lastSession : Z) (a : ActivityState) (m : NodeModel) : list Op :=
  let (header, bodyTop) := drawHeader a m in
  let l := layout bodyTop in
  header ++ drawBody m l ++
  (if (bodyTop <=? logTop l) && (logTop l <? hintRow l) then drawLog a (logTop l) (logBottom l) else []) ++
  [Put Plain (hintRow l) 0 (fit (hint lastSession) maxX)].

(** The lines of a dialogue that fit above its last row. *)
Fixpoint infoLines (row : Z) (lines : list text) : list Op :=
  match lines with
  | [] => []
  | line :: lines =>
      if maxY - 1 <=? row then []
      else Put Plain row 0 (lit " " ++ fit line (maxX - 1)) :: infoLines (row + 1) lines
  end.

Definition infoScreen (title : text) (lines : list text) : list Op :=
  [Put Plain 0 0 (lit " " ++ fit title (maxX - 1)); HLine 1] ++ infoLines 2 lines ++
  [Put Plain (maxY - 1) 0 (fit (lit " press any key to return") maxX)].

End Panes.

(** ** Dialogues *)

Record MenuItem := mkMenuItem { key : ascii; label : text; action : M unit }.

Definition menuScreen (title : string) (items : list MenuItem) : list Op :=
  [Put Plain 0 0 (str [S_ " "; S_ title; S_ "  -  press a key (any other to cancel)"]); HLine 1] ++
  stack 2 0 ((fun item => (Plain, str [S_ "  ["; T_ [key item]; S_ "] "; T_ (label item)])) <$> items).

Fixpoint chosen (k : Z) (items : list MenuItem) : M unit :=
  match items with
  | [] => mret tt
  | item :: items => if Z.of_nat (nat_of_ascii (key item)) =? k then action item else chosen k items
  end.

Definition runActionMenu (title : string) (items : list MenuItem) : M unit :=
  modify (addScreen (menuScreen title items)) ;; k ← getch; chosen k items.

Definition runInfoModal `{Display} (title : text) (lines : list text) : M unit :=
  modify (addScreen (infoScreen title lines)) ;; getch ;; mret tt.

(** ** Where things are *)

Lemma fit_length t width : zlen (fit t width) <= Z.max 0 width.
Proof.
  unfold fit. destruct (Z.leb_spec width 0); [cbn; lia|]. destruct (Z.leb_spec (Z.of_nat (length t)) width); [lia|].
  destruct (Z.eqb_spec width 1); rewrite ?length_app, length_take; [lia|]. change (length (lit "~")) with 1%nat. lia.
Qed.

Lemma fit_short t width : zlen t <= width -> fit t width = t.
Proof.
  intros Ht. unfold fit. destruct (Z.leb_spec width 0); [destruct t; [done|cbn in Ht; lia]|].
  by rewrite (proj2 (Z.leb_le _ _)).
Qed.

Lemma padRight_length t width : 0 <= width -> zlen (padRight t width) = width.
Proof.
  intros Hw. pose proof (fit_length t width) as Hl. unfold padRight.
  destruct (Z.ltb_spec (Z.of_nat (length (fit t width))) width); [|lia]. rewrite length_app, length_replicate. lia.
Qed.

Definition rowOf (o : Op) : Z := match o with Put _ row _ _ | HLine row | Bar row _ => row end.

(** [o] is within these rows, its text within these columns. *)
Definition within (top bottom left right : Z) (o : Op) : Prop :=
  top <= rowOf o <= bottom /\
  match o with Put _ _ col t => left <= col /\ col + zlen t <= right | Bar _ col => col = right | HLine _ => True end.

Section Where.
Context `{Display} `{Clock}.

Lemma drawRows_within bottom width sel nodes : forall row i, 0 <= width ->
  Forall (within row bottom 0 width) (drawRows row bottom width i sel nodes).
Proof.
  induction nodes as [|node nodes IH]; intros row i Hw; cbn [drawRows]; [constructor|]. zcase; constructor.
  - split; [cbn [rowOf]; lia|]. pose proof (fit_length (nodeLine node) width). split; lia.
  - eapply Forall_impl; [by apply IH|]. intros o [? ?]. split; [lia|done].
Qed.

Lemma whileRoom_within bottom left width lines : forall row, 0 <= width ->
  Forall (within row bottom left (left + width)) (whileRoom row bottom left width lines).
Proof.
  induction lines as [|line lines IH]; intros row Hw; cbn [whileRoom]; [constructor|]. zcase; constructor.
  - split; [cbn [rowOf]; lia|]. pose proof (fit_length line width). split; lia.
  - eapply Forall_impl; [by apply IH|]. intros o [? ?]. split; [lia|done].
Qed.

(** The highlighted row, when the list reaches it. *)
Lemma drawRows_selected bottom width sel nodes : forall row i, (i <= sel)%nat ->
  (exists t, Put Reverse (row + Z.of_nat (sel - i)) 0 t ∈ drawRows row bottom width i sel nodes) <->
  (sel - i < length nodes)%nat /\ row + Z.of_nat (sel - i) <= bottom.
Proof.
  induction nodes as [|node nodes IH]; intros row i Hi; cbn [drawRows length].
  { split; [by intros [t Ht%elem_of_nil]|lia]. }
  destruct (Z.ltb_spec bottom row); [split; [by intros [t Ht%elem_of_nil]|lia]|].
  destruct (Nat.eqb_spec i sel) as [->|Hne].
  - rewrite Nat.sub_diag, Z.add_0_r. split; [lia|]. intros _. eexists. by left.
  - specialize (IH (row + 1) (S i) ltac:(lia)). replace (row + 1 + Z.of_nat (sel - S i)) with (row + Z.of_nat (sel - i)) in IH by lia.
    setoid_rewrite elem_of_cons. transitivity ((sel - S i < length nodes)%nat /\ row + Z.of_nat (sel - i) <= bottom); [|lia].
    rewrite <- IH. split; [intros [t [Ht|Ht]]; [done|by exists t]|intros [t Ht]; exists t; by right].
Qed.

Lemma whileRoom_all row bottom left width lines : row + zlen lines - 1 <= bottom ->
  whileRoom row bottom left width lines = stack row left ((fun t => (Plain, fit t width)) <$> lines).
Proof.
  revert row. induction lines as [|line lines IH]; intros row Hr; [done|]. cbn in *.
  rewrite (proj2 (Z.ltb_ge _ _)) by lia. f_equal. apply IH. lia.
Qed.

Lemma headerLines_length a m : 1 <= zlen (headerLines a m) <= 3.
Proof.
  unfold headerLines. destruct (message _); [|destruct (severityLabel _)]; destruct (active _); cbn; lia.
Qed.

Lemma stack_rows lines : forall row col,
  Forall (fun o => row <= rowOf o < row + zlen lines) (stack row col lines).
Proof.
  induction lines as [|[a t] lines IH]; intros row col; [constructor|]. cbn [stack length]. constructor; [cbn [rowOf]; lia|].
  eapply Forall_impl; [apply IH|]. cbn beta. lia.
Qed.

Lemma within_wider top bottom left right top' bottom' o :
  top' <= top -> bottom <= bottom' -> within top bottom left right o -> within top' bottom' left right o.
Proof. intros ? ? [? ?]. split; [lia|done]. Qed.

Lemma list_within m top bottom width : 6 <= width -> top <= bottom ->
  Forall (within top bottom 0 width) (drawNodeList m top bottom width).
Proof.
  intros Hw Ht. unfold drawNodeList. constructor.
  { split; [cbn [rowOf]; lia|]. change (zlen (lit " Nodes")) with 6. lia. }
  pose proof (fit_length listHeader width).
  assert (Hrows : forall row, top <= row -> Forall (within top bottom 0 width) (drawRows row bottom width 0 (selected m) (rows m))).
  { intros row Hr. eapply Forall_impl; [by apply drawRows_within; lia|]. intros o. apply within_wider; lia. }
  destruct (Z.leb_spec (top + 1) bottom); [|apply Hrows; lia]. constructor; [|apply Hrows; lia].
  split; [cbn [rowOf]; lia|]. split; lia.
Qed.

Lemma detail_within m top bottom left width : 0 <= width -> top <= bottom ->
  Forall (within top bottom left (left + width)) (drawDetail m top bottom left width).
Proof.
  intros Hw Ht. unfold drawDetail. assert (Hf : forall t, within top bottom left (left + width) (Put Plain top left (fit t width))).
  { intros t. split; [cbn [rowOf]; lia|]. pose proof (fit_length t width). split; lia. }
  destruct (rows m !! selected m) as [node|]; [|by constructor; [apply Hf|]].
  destruct (detailLines node) as [|title lines]; [constructor|]. constructor; [done|].
  eapply Forall_impl; [by apply whileRoom_within|]. intros o. apply within_wider; lia.
Qed.

(** The node list highlights the selected node exactly when it reaches its row. *)
Lemma list_selected m top bottom width : top < bottom ->
  (exists t, Put Reverse (top + 2 + Z.of_nat (selected m)) 0 t ∈ drawNodeList m top bottom width) <->
  (selected m < length (rows m))%nat /\ top + 2 + Z.of_nat (selected m) <= bottom.
Proof.
  intros Ht. unfold drawNodeList. rewrite (proj2 (Z.leb_le (top + 1) bottom)) by lia.
  pose proof (drawRows_selected bottom width (selected m) (rows m) (top + 2) 0 ltac:(lia)) as Hs.
  rewrite Nat.sub_0_r in Hs. rewrite <- Hs. setoid_rewrite elem_of_cons. setoid_rewrite elem_of_cons.
  split; [intros [t [Ho|[Ho|Ho]]]; [done..|by exists t]|intros [t Ho]; exists t; by do 2 right].
Qed.

(** The newest lines of the log, the newest last. *)
Definition newest {A} (n : nat) (l : list A) : list A := drop (length l - n) l.

Lemma drawLog_newest a top bottom : top < bottom ->
  drawLog a top bottom
  = HLine top :: stack (top + 1) 0 ((fun t => (Plain, fit t maxX)) <$> newest (Z.to_nat (bottom - top)) (log a)).
Proof.
  intros Ht. unfold drawLog, newest. f_equal.
  replace (bottom - (top + 1) + 1) with (bottom - top) by lia. rewrite (proj2 (Z.ltb_lt 0 _)) by lia. cbn [andb].
  assert (E : (if bottom - top <? zlen (log a) then (length (log a) - Z.to_nat (bottom - top))%nat else O)
              = (length (log a) - Z.to_nat (bottom - top))%nat) by (zcase; lia).
  rewrite E. apply whileRoom_all. rewrite length_drop. lia.
Qed.

End Where.

(** The main screen.  On a terminal of at least 12 columns and 14 rows the header
    takes the rows above the body, the node list the left columns of the body and the
    detail the right ones, the newest six lines of the log the rows under the body in
    their order, and the key hints the last row; nothing is put outside of its pane.
    The selected node is highlighted exactly when the list reaches its row: the list
    does not scroll. *)
Theorem panes_apart `{Display} `{Clock} lastSession a m :
  12 <= maxX -> 14 <= maxY ->
  let l := layout (zlen (headerLines a m) + 1) in
  let nodes := drawNodeList m (bodyTop l) (bodyBottom l) (listWidth l) in
  let detail := drawDetail m (bodyTop l) (bodyBottom l) (detailLeft l) (maxX - detailLeft l) in
  let log := HLine (logTop l) ::
    stack (logTop l + 1) 0 ((fun t => (Plain, fit t maxX)) <$> newest 6 (log a)) in
  draw lastSession a m
    = (drawHeader a m).1 ++ nodes ++ bars (bodyTop l) (Z.to_nat (bodyBottom l - bodyTop l + 1)) (listWidth l) ++
      detail ++ log ++ [Put Plain (hintRow l) 0 (fit (hint lastSession) maxX)] /\
  Forall (fun o => 0 <= rowOf o < bodyTop l) (drawHeader a m).1 /\
  Forall (within (bodyTop l) (bodyBottom l) 0 (listWidth l)) nodes /\
  Forall (within (bodyTop l) (bodyBottom l) (detailLeft l) maxX) detail /\
  Forall (fun o => bodyBottom l < rowOf o < hintRow l) log /\
  listWidth l < detailLeft l /\ hintRow l = maxY - 1 /\
  ((exists t, Put Reverse (bodyTop l + 2 + Z.of_nat (selected m)) 0 t ∈ nodes) <->
   (selected m < length (rows m))%nat /\ bodyTop l + 2 + Z.of_nat (selected m) <= bodyBottom l).
Proof.
  intros Hx Hy l. pose proof (headerLines_length a m) as Hh.
  assert (Hw : 6 <= Z.quot maxX 2) by (Z.to_euclidean_division_equations; lia).
  assert (Hd : Z.quot maxX 2 * 2 <= maxX) by (Z.to_euclidean_division_equations; lia).
  assert (Hl : bodyTop l = zlen (headerLines a m) + 1 /\ bodyBottom l = maxY - 9 /\ logTop l = maxY - 8 /\
               logBottom l = maxY - 2 /\ hintRow l = maxY - 1 /\ listWidth l = Z.min 36 (Z.quot maxX 2) /\
               detailLeft l = listWidth l + 2) by (unfold l, layout, LOG_ROWS, LIST_WIDTH_MAX; cbn [bodyTop bodyBottom listWidth detailLeft logTop logBottom hintRow]; repeat split; lia).
  destruct Hl as (E1 & E2 & E3 & E4 & E5 & E6 & E7). intros nodes detail log'.
  split_and!; [| | | | |lia|done|apply list_selected; lia..].
  - unfold draw, drawHeader, drawBody. fold l. cbn [fst].
    rewrite (proj2 (Z.leb_le (bodyTop l) _)), (proj2 (Z.leb_le _ (logTop l))), (proj2 (Z.ltb_lt (logTop l) _)) by lia.
    cbn [andb]. rewrite drawLog_newest by lia. replace (logBottom l - logTop l) with 6 by lia.
    unfold nodes, detail, log'. by rewrite <- !app_assoc.
  - cbn [drawHeader fst]. apply Forall_app. split; [|repeat constructor; cbn [rowOf]; lia].
    eapply Forall_impl; [apply stack_rows|]. cbn beta. lia.
  - apply list_within; lia.
  - replace maxX with (detailLeft l + (maxX - detailLeft l)) at 1 by lia. apply detail_within; lia.
  - unfold log'. constructor; [cbn [rowOf]; lia|].
    eapply Forall_impl; [apply stack_rows|]. cbn beta. rewrite length_fmap. unfold newest. rewrite length_drop. lia.
Qed.

Lemma panes_apart_witness :
  let w80 : Display := {| maxX := 80; maxY := 24; hasColors := true |} in
  12 <= 80 /\ 14 <= 24 /\
  Forall (fun o => 0 <= rowOf o < 2) (@drawHeader w80 quiet (mkNodeModel [] 0)).1.
Proof.
  intros w80. split_and!; [lia..|].
  exact (proj1 (proj2 (@panes_apart w80 (0 : Clock) 1 quiet (mkNodeModel [] 0) ltac:(cbn; lia) ltac:(cbn; lia)))).
Defined.

End Render.
