(* ===== verification/TerminalScenes.v ===== *)
(** * The terminal client: lists, information, scenes and climate groups

    The other handlers of [src/utils/zwave-terminal/handlers.cpp]: the node list with the
    questions it asks of each node, the network and node dialogues, the scenes with their
    triggers, and the logical thermostats. *)

From Stdlib Require Import String Ascii.
From S2P Require Import Prelude Config TerminalText TerminalConsole TerminalFormat TerminalHandlers.
From S2P Require Import TerminalPolicy TerminalRender.
From stdpp Require Import strings.
#[local] Open Scope Z_scope.

Definition CC_ASSOCIATION : Z := 0x85.
Definition CALLBACK_ID_NONE : Z := 0.
Definition CMD_ADD_NODE : Z := 0x4A.
Definition CMD_REMOVE_NODE : Z := 0x4B.
Definition LOGICAL_MODE_MIXED : Z := 0xFF.

(** ** Lists and information *)

Section Information.
Context `{Daemon} `{Display} `{Clock}.

Fixpoint nodeSupportsCc (ccs : list Z) (targetCc : Z) : bool :=
  match ccs with
  | [] => false
  | byte :: ccs =>
      if byte =? Format.CC_MARK then false else if byte =? targetCc then true else nodeSupportsCc ccs targetCc
  end.

Definition listNode (tup : NodeTuple) : M unit :=
  say [S_ "  node="; D_ (t_id tup); S_ " basic=0x"; H_ 2 (t_basic tup); S_ " generic=0x"; H_ 2 (t_generic tup);
       S_ " specific=0x"; H_ 2 (t_specific tup); S_ " "; T_ (Format.formatCcList (t_ccs tup))] ;;
  if nodeSupportsCc (t_ccs tup) CC_ASSOCIATION then
    try_ (invoke "GetAssociationGroupings" [AByte (t_id tup); AByte CALLBACK_ID_NONE])
    catch_ err => say [S_ "auto GetAssociationGroupings failed: "; T_ err]
  else mret tt.

Definition handleListNodes : M unit :=
  ask nodes := try_ (l ← fetch "GetNodes" [] as_nodes; mret (Some l))
               catch_ err => (failed "GetNodes" err ;; mret None)
    else_ mret tt in
  match nodes with
  | [] => say [S_ "Node list: (empty)"]
  | _ => say [S_ "Node list ("; D_ (zlen nodes); S_ "):"] ;; each listNode nodes
  end.

Definition as_status r := match r with Status s => Some s | _ => None end.
Definition as_initData r := match r with InitData i => Some i | _ => None end.
Definition as_nodeInfo r := match r with NodeInfo n => Some n | _ => None end.

Definition statusLines (s : StatusTuple) : list text :=
  let hours := s_uptime s / Render.SECONDS_PER_HOUR in
  let minutes := s_uptime s mod Render.SECONDS_PER_HOUR / Render.SECONDS_PER_MINUTE in
  let seconds := s_uptime s mod Render.SECONDS_PER_MINUTE in
  [lit "dongle: " ++ (if s_connected s then lit "connected " ++ s_ttyPath s else lit "disconnected");
   match s_homeId s with
   | [] => lit "home id: (not yet introspected)"
   | homeId => str [S_ "home id: "; T_ homeId; S_ "  (controller node "; D_ (s_controller s); S_ ")"]
   end;
   str [S_ "nodes: "; D_ (s_nodeCount s)];
   if s_active s then
     let operation := if s_commandId s =? CMD_ADD_NODE then "inclusion"
                      else if s_commandId s =? CMD_REMOVE_NODE then "exclusion" else "?" in
     str [S_ "session: "; S_ operation; S_ " #"; D_ (s_sessionId s)]
   else lit "session: none";
   str [S_ "uptime: "; D_ hours; S_ "h "; D_ minutes; S_ "m "; D_ seconds; S_ "s"]].

Definition libraryLine (d : DongleInfoTuple) : text :=
  if bool_decide (d_version d = []) && (d_type d =? 0)
  then lit "library: (not introspected — connect a dongle first)"
  else str [S_ "library: "; T_ (quoted (d_version d)); S_ "  type "; D_ (d_type d); S_ " (";
            T_ (Format.libraryTypeName (d_type d)); S_ ")"].

Definition initLines (i : InitDataTuple) : list text :=
  [str [S_ "serial API: v"; D_ (i_api i); S_ "  caps 0x"; T_ (hexW true 2 (i_capabilities i)); S_ "  chip ";
        D_ (i_chipType i); S_ "/"; D_ (i_chipVersion i)];
   str [S_ "init bitmap: "; D_ (zlen (i_nodeIds i)); S_ " node(s)"]].

(** The lines of a reply, or that there is none. *)
Definition section {A} (method : string) (as_ : Reply -> option A) (lines : A -> list text) (what : string) : M (list text) :=
  try_ (a ← fetch method [] as_; mret (lines a)) catch_ err => mret [lit what ++ err].

Definition handleNetworkInfo : M unit :=
  status ← section "GetNetworkStatus" as_status statusLines "network status unavailable: ";
  library ← section "GetDongleInfo" as_dongleInfo (fun d => [libraryLine d]) "dongle info unavailable: ";
  init ← section "GetInitData" as_initData initLines "init data unavailable: ";
  Render.runInfoModal (lit "Network") (status ++ [[]] ++ library ++ init).

Definition securitySchemeName (scheme : Z) : string :=
  if scheme =? 1 then "S0" else if scheme =? 2 then "S2 Unauthenticated" else if scheme =? 3 then "S2 Authenticated"
  else if scheme =? 4 then "S2 Access Control" else "none".

Definition valueAge (updatedAt : Z) : text := str (Render.ageIn updatedAt ++ [S_ " ago"]).

Definition hexWord (value : Z) : text := lit "0x" ++ hexW true 4 value.
(** [hexWord(value).substr(2)] *)
Definition bareHex (value : Z) : text := drop 2 (hexWord value).

Fixpoint rowWith (nodeId : Z) (rows : list NodeRow) : option NodeRow :=
  match rows with
  | [] => None
  | row :: rows => if id row =? nodeId then Some row else rowWith nodeId rows
  end.

Definition nodeInfoLines (n : NodeInfoTuple) (values : list NodeValueRow) : list text :=
  [lit "device class: " ++ bareHex (n_basic n) ++ lit " / " ++ bareHex (n_generic n) ++ lit " / " ++ bareHex (n_specific n);
   lit "security: " ++ lit (securitySchemeName (n_scheme n));
   (if negb (n_manufacturer n =? 0) || negb (n_productType n =? 0) || negb (n_product n =? 0)
    then lit "identity: mfr " ++ hexWord (n_manufacturer n) ++ lit "  type " ++ hexWord (n_productType n) ++
         lit "  product " ++ hexWord (n_product n)
    else lit "identity: (not interviewed yet)")] ++
  (if negb (n_library n =? 0) || negb (n_proto n =? 0) || negb (n_app n =? 0)
   then [str [S_ "firmware: lib "; D_ (n_library n); S_ " ("; T_ (Format.libraryTypeName (n_library n)); S_ ")  proto ";
              D_ (n_proto n); S_ "."; D_ (n_protoSub n); S_ "  app "; D_ (n_app n); S_ "."; D_ (n_appSub n)]]
   else []) ++
  (if negb (n_endpoints n =? 0) then
     let flags := (if n_dynamic n then lit "dynamic" else []) ++
                  (if n_identical n then (if n_dynamic n then lit ", identical" else lit "identical") else []) in
     [str [S_ "endpoints: "; D_ (n_endpoints n);
           T_ (match flags with [] => [] | _ => lit " (" ++ flags ++ lit ")" end)]]
   else []) ++
  (if negb (n_zwp n =? 0) || negb (n_role n =? 0) || negb (n_nodeType n =? 0)
   then [str [S_ "z-wave+: v"; D_ (n_zwp n); S_ "  role "; T_ (bareHex (n_role n)); S_ "  nodeType ";
              T_ (bareHex (n_nodeType n)); S_ "  icons "; T_ (hexWord (n_installerIcon n)); S_ "/";
              T_ (hexWord (n_userIcon n))]]
   else []) ++
  [[]; lit "command classes:"; lit "  " ++ Format.formatCcList (n_ccs n); []; lit "last-known values:"] ++
  (match values with [] => [lit "  (none reported yet)"] | _ => [] end) ++
  ((fun v => lit "  " ++ valueId v ++ lit " = " ++ value v ++ lit "  (" ++ valueAge (updatedAt v) ++ lit ")") <$> values).

Definition handleNodeInfo (nodeId : Z) : M unit :=
  ask info := try_ (n ← fetch "GetNodeInfo" [AByte nodeId] as_nodeInfo; mret (Some n))
              catch_ err => (failed "GetNodeInfo" err ;; mret None)
    else_ mret tt in
  (row ← get (rowWith nodeId ∘ rows ∘ nodeModel);
   let name := from_option name [] row in
   let title := str [S_ "Node "; D_ nodeId] ++ (match name with [] => [] | _ => lit "  " ++ quoted name end) in
   Render.runInfoModal title (nodeInfoLines info (from_option values [] row))).

End Information.

(** ** Scenes *)

Section Scenes.
Context `{Daemon}.

Definition SCENE_SOURCE_CENTRAL : Z := 0.
Definition SCENE_SOURCE_BASIC : Z := 1.
Definition SCENE_SOURCE_ACTIVATION : Z := 2.

Definition sceneSourceName (source : Z) : text :=
  default (lit "?") (Format.case source
    [(SCENE_SOURCE_CENTRAL, "central-scene"); (SCENE_SOURCE_BASIC, "basic-set");
     (SCENE_SOURCE_ACTIVATION, "scene-activation")]%string).

Definition sourceOf (chosen : ascii) : option Z :=
  if bool_decide (chosen = "c"%char) then Some SCENE_SOURCE_CENTRAL
  else if bool_decide (chosen = "b"%char) then Some SCENE_SOURCE_BASIC
  else if bool_decide (chosen = "a"%char) then Some SCENE_SOURCE_ACTIVATION else None.

Definition promptSceneSource : M (option Z) :=
  ask chosen := promptChar "Source: [c]entral scene  [b]asic set  [a]ctivation:" "cba" else_ mret None in
  mret (sourceOf chosen).

Definition formatPayloadHex (payload : list Z) : text := Format.spacedBy (hex 2 <$> payload).

Definition plural (n : Z) : string := if n =? 1 then "" else "s".

Definition as_texts r := match r with Texts l => Some l | _ => None end.
Definition as_actions r := match r with Actions l => Some l | _ => None end.
Definition as_triggers r := match r with Triggers l => Some l | _ => None end.

Definition listScene (sceneId : text) : M unit :=
  ask actions := try_ (l ← fetch "GetScene" [AText sceneId] as_actions; mret (Some l))
                 catch_ err => (say [S_ "  "; T_ (quoted sceneId); S_ ": GetScene failed: "; T_ err] ;; mret None)
    else_ mret tt in
  (say [S_ "  "; T_ (quoted sceneId); S_ " ("; D_ (zlen actions); S_ " action"; S_ (plural (zlen actions)); S_ "):"] ;;
   each (fun '(node, payload) => say [S_ "    -> node "; D_ node; S_ ": "; T_ (formatPayloadHex payload)]) actions).

Definition handleListScenes : M unit :=
  ask scenes := try_ (l ← fetch "ListScenes" [] as_texts; mret (Some l))
                catch_ err => (failed "ListScenes" err ;; mret None)
    else_ mret tt in
  match scenes with
  | [] => say [S_ "Scenes: (none)"]
  | _ => say [S_ "Scenes ("; D_ (zlen scenes); S_ "):"] ;; each listScene scenes
  end.

Definition triggerLine (g : TriggerTuple) : text :=
  str [S_ "  ["; T_ (sceneSourceName (g_source g)); S_ "] node "; D_ (g_node g); S_ " sel "; D_ (g_selector g)] ++
  (if g_source g =? SCENE_SOURCE_CENTRAL then
     lit " " ++ match Format.centralSceneKeyName (g_key g) with
                | Some name => name
                | None => lit "key=" ++ dec (g_key g)
                end
   else []) ++
  lit " -> " ++ quoted (g_scene g).

Definition handleListSceneTriggers : M unit :=
  ask triggers := try_ (l ← fetch "ListSceneTriggers" [] as_triggers; mret (Some l))
                  catch_ err => (failed "ListSceneTriggers" err ;; mret None)
    else_ mret tt in
  match triggers with
  | [] => say [S_ "Scene triggers: (none)"]
  | _ => say [S_ "Scene triggers ("; D_ (zlen triggers); S_ "):"] ;; each (logLine ∘ triggerLine) triggers
  end.

(** The [while (true)] of [handleSetScene]; a turn takes a line, so [fuel] above the
    number of lines typed is enough. *)
Fixpoint enterActions (fuel : nat) (actions : list (Z * list Z)) : M (list (Z * list Z)) :=
  match fuel with
  | O => fun w => Waiting w
  | S fuel =>
      ask targetNode := promptNodeId "Action target node (blank to finish):" else_ mret actions in
      ask payload := promptByteList "CC payload bytes (e.g. 0x25 0x01 0xFF):"
        else_ (say [S_ "SetScene: invalid payload — action skipped"] ;; enterActions fuel actions) in
      enterActions fuel (actions ++ [(targetNode, payload)])
  end.

Definition handleSetScene : M unit :=
  ask sceneId := promptLine "Scene id:" else_ say [S_ "SetScene: cancelled or empty scene id"] in
  (fuel ← get (S ∘ length ∘ typed);
   actions ← enterActions fuel [];
   match actions with
   | [] => say [S_ "SetScene: no actions entered — aborted"]
   | _ =>
       try_ (invoke "SetScene" [AText sceneId; AActions actions] ;;
             say [S_ "SetScene "; T_ (quoted sceneId); S_ " with "; D_ (zlen actions); S_ " action";
                  S_ (plural (zlen actions))])
       catch_ err => failed "SetScene" err
   end).

Definition handleDeleteScene : M unit :=
  ask sceneId := promptLine "Scene id to delete:" else_ say [S_ "DeleteScene: cancelled or empty scene id"] in
  try_ (invoke "DeleteScene" [AText sceneId] ;; say [S_ "DeleteScene "; T_ (quoted sceneId)])
  catch_ err => failed "DeleteScene" err.

Definition selectorLabel (source : Z) : string :=
  if source =? SCENE_SOURCE_CENTRAL then "Scene number (1-255):"
  else if source =? SCENE_SOURCE_BASIC then "Basic value (0=off, 255=on, 1-99=level):"
  else if source =? SCENE_SOURCE_ACTIVATION then "Activation scene id (1-255):" else "Selector:".

Definition promptTriggerSelector (source : Z) : M (option (Z * Z)) :=
  ask selector := promptByte (selectorLabel source) 0 BYTE_MAX else_ mret None in
  if source =? SCENE_SOURCE_CENTRAL then
    ask key := promptByte "Key attribute (0=1x,1=release,2=hold,3=2x,4=3x):" 0 BYTE_MAX else_ mret None in
    mret (Some (selector, key))
  else mret (Some (selector, 0)).

Definition handleBindSceneTrigger : M unit :=
  ask source := promptSceneSource else_ say [S_ "BindSceneTrigger: cancelled or invalid source"] in
  ask sourceNode := promptNodeId "Source node (controller that sends the command):"
    else_ say [S_ "BindSceneTrigger: cancelled or invalid node id"] in
  ask selector := promptTriggerSelector source else_ say [S_ "BindSceneTrigger: cancelled or invalid selector"] in
  ask sceneId := promptLine "Scene id to bind to:" else_ say [S_ "BindSceneTrigger: cancelled or empty scene id"] in
  try_ (invoke "BindSceneTrigger" [AByte source; AByte sourceNode; AByte selector.1; AByte selector.2; AText sceneId] ;;
        say [S_ "BindSceneTrigger ["; T_ (sceneSourceName source); S_ "] node="; D_ sourceNode; S_ " sel=";
             D_ selector.1; S_ " -> "; T_ (quoted sceneId)])
  catch_ err => failed "BindSceneTrigger" err.

Definition handleUnbindSceneTrigger : M unit :=
  ask source := promptSceneSource else_ say [S_ "UnbindSceneTrigger: cancelled or invalid source"] in
  ask sourceNode := promptNodeId "Source node:" else_ say [S_ "UnbindSceneTrigger: cancelled or invalid node id"] in
  ask selector := promptTriggerSelector source else_ say [S_ "UnbindSceneTrigger: cancelled or invalid selector"] in
  try_ (invoke "UnbindSceneTrigger" [AByte source; AByte sourceNode; AByte selector.1; AByte selector.2] ;;
        say [S_ "UnbindSceneTrigger ["; T_ (sceneSourceName source); S_ "] node="; D_ sourceNode; S_ " sel=";
             D_ selector.1])
  catch_ err => failed "UnbindSceneTrigger" err.

(** ** Logical thermostats *)

Definition promptGroup : M (option (text * text)) :=
  ask key := promptLine "Group key (e.g. room):" else_ mret None in
  ask value := promptLine "Group value (e.g. Living room):" else_ mret None in
  mret (Some (key, value)).

Definition handleSetLogicalThermostatMode : M unit :=
  ask group := promptGroup else_ say [S_ "SetLogicalThermostatMode: cancelled or empty group"] in
  ask mode := promptByte "Mode (0=off, 1=heat, 2=cool, 3=auto, …):" BYTE_MIN BYTE_MAX
    else_ say [S_ "SetLogicalThermostatMode: cancelled or invalid mode"] in
  try_ (invoke "SetLogicalThermostatMode" [AText group.1; AText group.2; AByte mode] ;;
        say [S_ "SetLogicalThermostatMode "; T_ group.1; S_ "="; T_ group.2; S_ " mode="; D_ mode])
  catch_ err => failed "SetLogicalThermostatMode" err.

Definition handleSetLogicalThermostatSetpoint : M unit :=
  ask group := promptGroup else_ say [S_ "SetLogicalThermostatSetpoint: cancelled or empty group"] in
  (setpointType ← promptByte "Setpoint type (1=heating, 2=cooling):" BYTE_MIN BYTE_MAX;
   precision ← promptByte "Precision (decimals, e.g. 1):" BYTE_MIN BYTE_MAX;
   scale ← promptByte "Scale (0=C, 1=F):" BYTE_MIN BYTE_MAX;
   value ← promptInt32 "Raw value (e.g. 215 for 21.5 at precision 1):";
   match setpointType, precision, scale, value with
   | Some setpointType, Some precision, Some scale, Some value =>
       try_ (invoke "SetLogicalThermostatSetpoint"
               [AText group.1; AText group.2; AByte setpointType; AByte precision; AByte scale; AI32 value] ;;
             say [S_ "SetLogicalThermostatSetpoint "; T_ group.1; S_ "="; T_ group.2; S_ " type="; D_ setpointType;
                  S_ " value="; D_ value])
       catch_ err => failed "SetLogicalThermostatSetpoint" err
   | _, _, _, _ => say [S_ "SetLogicalThermostatSetpoint: cancelled or invalid"]
   end).

Definition as_thermostat r := match r with Thermostat s => Some s | _ => None end.

Definition mixedOr (v : Z) : text := if v =? LOGICAL_MODE_MIXED then lit "mixed" else dec v.

Definition handleGetLogicalThermostatState : M unit :=
  ask group := promptGroup else_ say [S_ "GetLogicalThermostatState: cancelled or empty group"] in
  ask state := try_ (s ← fetch "GetLogicalThermostatState" [AText group.1; AText group.2] as_thermostat; mret (Some s))
               catch_ err => (failed "GetLogicalThermostatState" err ;; mret None)
    else_ mret tt in
  say [S_ "LogicalThermostat "; T_ group.1; S_ "="; T_ group.2; S_ " members="; D_ (l_members state); S_ " mode=";
       T_ (mixedOr (l_mode state)); S_ " op="; D_ (l_operating state); S_ " fan="; T_ (mixedOr (l_fan state));
       S_ " setpoint(type="; D_ (l_type state); S_ " scale="; D_ (l_scale state); S_ " prec="; D_ (l_precision state);
       S_ " raw="; D_ (l_value state); S_ ")"].

End Scenes.

(** ** Entering a scene *)

Section Entering.
Context `{Daemon}.

(** The two lines of an action: its node and its payload. *)
Inductive action_lines (sel : option Z) : Z * list Z -> list text -> Prop :=
| action_lines_intro n line b bs :
    types sel FNode (VNum n) line -> separators bs -> Forall (fun m => 0 <= m <= Parse.BYTE_MAX) (b :: bs.*2) ->
    (length (listed b bs) < LINE_INPUT_BUFFER)%nat -> action_lines sel (n, b :: bs.*2) [line; listed b bs].

Lemma payload_asked label b bs rest w w0 :
  separators bs -> Forall (fun m => 0 <= m <= Parse.BYTE_MAX) (b :: bs.*2) ->
  (length (listed b bs) < LINE_INPUT_BUFFER)%nat -> after (Some (listed b bs) :: rest) w w0 ->
  exists w', promptByteList label w0 = Done (Some (b :: bs.*2)) w' /\ after rest w w'.
Proof.
  intros Hs Hb Hl A.
  destruct (line_asked (lit label) Parse.byteList _ rest w w0 (listed_noNul b bs Hs) Hl A) as (w' & E & A').
  exists w'. split; [|done]. unfold promptByteList, promptLine. rewrite E, listed_line, byteList_listed; [done..|].
  apply Forall_cons in Hb. lia.
Qed.

Lemma actions_entered actions lines stop rest w : forall fuel acc w0,
  Forall2 (action_lines (selectedNodeId (nodeModel w))) actions lines ->
  readField (selectedNodeId (nodeModel w)) FNode stop = None ->
  after ((Some <$> concat lines) ++ stop :: rest) w w0 -> (length (typed w0) < fuel)%nat ->
  exists w', enterActions fuel acc w0 = Done (acc ++ actions) w' /\ after rest w w'.
Proof.
  intros fuel acc w0 Ha. revert fuel acc w0.
  induction Ha as [|action ls actions lines Hl _ IH]; intros [|fuel] acc w0 Hstop A Hf; try lia.
  - destruct A as [Hw Hc Hm Hk]. cbn in Hw. cbn [enterActions].
    destruct (asks_node "Action target node (blank to finish):" w0) as [shown Hn]. rewrite Hw in Hn.
    destruct Hn as (o & E & Ho). rewrite Hm, Hstop in Ho. destruct o; [done|].
    rewrite (bind_done _ _ _ _ _ E). cbn iota. eexists. rewrite app_nil_r. by split.
  - destruct Hl as [n line b bs Hn Hs Hb Hl]. cbn [concat fmap list_fmap app] in A.
    pose proof (after_typed _ _ _ A) as Hw. cbn [enterActions]. answered A.
    destruct (payload_asked "CC payload bytes (e.g. 0x25 0x01 0xFF):" b bs _ w _ Hs Hb Hl A) as (w2 & E & A2).
    rewrite (bind_done _ _ _ _ _ E). cbn iota.
    destruct (IH fuel (acc ++ [(n, b :: bs.*2)]) w2 Hstop A2) as (w3 & E3 & A3).
    { rewrite (after_typed _ _ _ A2). rewrite Hw in Hf. cbn in Hf. lia. }
    exists w3. rewrite E3, <- app_assoc. by split.
Qed.

(** Entering a scene.  A scene id, the node and payload of each action, and a line
    that is no node id: the scene is stored by one call, with exactly those actions in
    that order.  While a node is selected a blank line is that node, so the blank line
    the prompt asks for does not end the list. *)
Theorem scene_entered sceneId actions lines stop rest w :
  types (selectedNodeId (nodeModel w)) FLine (VText sceneId) sceneId ->
  Forall2 (action_lines (selectedNodeId (nodeModel w))) actions lines -> actions <> [] ->
  readField (selectedNodeId (nodeModel w)) FNode stop = None ->
  typed w = Some sceneId :: (Some <$> concat lines) ++ stop :: rest ->
  let w' := worldOf (handleSetScene w) in
  typed w' = rest /\ calls w' = calls w ++ [mkCall (lit "SetScene") [AText sceneId; AActions actions]] /\
  (is_Some (selectedNodeId (nodeModel w)) -> stop <> Some []).
Proof.
  intros Ht Ha Hne Hstop Hw. cbn zeta. apply and_assoc. split.
  - assert (A : after (Some sceneId :: (Some <$> concat lines) ++ stop :: rest) w w) by by split.
    unfold handleSetScene. answered A. pose proof (after_typed _ _ _ A) as Hty.
    match goal with |- context [(get ?f ≫= ?k) ?w1] => rewrite (bind_done (get f) k w1 (f w1) w1 eq_refl) end.
    destruct (actions_entered actions lines stop rest w (S (length (typed x))) [] x Ha Hstop A ltac:(lia))
      as (w2 & E & [Ht2 Hc Hm Hk]).
    unfold compose. rewrite (bind_done _ _ _ _ _ E). cbn [app]. destruct actions as [|action actions]; [done|].
    cbn. unfold catch, invoke, callMethod, mbind, M_bind. cbn. destruct (failure _); cbn; by rewrite Ht2, Hk.
  - intros [n Hsel] ->. by rewrite Hsel in Hstop.
Qed.

End Entering.

Lemma scene_entered_witness :
  let w := typing ["evening"; "5"; "37,1 255"; "x"]%string in
  typed w = Some (lit "evening") :: (Some <$> concat [[lit "5"; lit "37,1 255"]]) ++ Some (lit "x") :: [] /\
  let w' := worldOf (@handleSetScene {| reply _ _ := Nothing; mismatch := [] |} w) in
  typed w' = [] /\ calls w' = [mkCall (lit "SetScene") [AText (lit "evening"); AActions [(5, [37; 1; 255])]]].
Proof.
  intros w. split; [reflexivity|].
  assert (Ht : types (selectedNodeId (nodeModel w)) FLine (VText (lit "evening")) (lit "evening")).
  { apply types_line; [done|unfold LINE_INPUT_BUFFER; cbn; lia|refine (bool_decide_unpack (_ ∉ _) _); by vm_compute]. }
  assert (Ha : Forall2 (action_lines (selectedNodeId (nodeModel w))) [(5, [37; 1; 255])] [[lit "5"; lit "37,1 255"]]).
  { constructor; [|constructor].
    apply (action_lines_intro _ 5 (lit "5") 37 [(Parse.COMMA, 1); (Parse.BLANK, 255)]).
    - apply (types_node _ 5). unfold NODE_ID_MIN, NODE_ID_MAX, Parse.NODE_ID_MIN, Parse.NODE_ID_MAX. lia.
    - constructor; [by left|]. constructor; [by right|]. constructor.
    - unfold Parse.BYTE_MAX. by repeat (apply Forall_cons; split; [cbn; lia|]).
    - unfold LINE_INPUT_BUFFER. apply Nat.ltb_lt. reflexivity. }
  destruct (@scene_entered {| reply _ _ := Nothing; mismatch := [] |} (lit "evening") _ _ (Some (lit "x")) [] w
              Ht Ha ltac:(done) eq_refl eq_refl) as (H1 & H2 & _).
  by split.
Defined.
