(* ===== verification/TerminalSignals.v ===== *)
(** * The terminal client: the daemon's signals

    [registerSignalHandlers] of [src/utils/zwave-terminal/signal_handlers.cpp]: each
    signal of the interface with the arguments it carries, and what its handler does, on
    the event-loop thread: a line in the log, a flag or a banner for the user interface,
    and, for an association groupings report, a question for each group. *)

From Stdlib Require Import String Ascii.
From S2P Require Import Prelude Config NodeStores TerminalText TerminalConsole TerminalFormat.
From S2P Require Import TerminalHandlers TerminalPolicy TerminalRender TerminalScenes.
From stdpp Require Import strings.
#[local] Open Scope Z_scope.

Definition CC_BASIC : Z := 0x20.
Definition CC_SWITCH_BINARY : Z := 0x25.
Definition CMD_SET : Z := 0x01.
Definition CMD_REPORT : Z := 0x03.
Definition WIRE_VALUE_OFF : Z := 0x00.
Definition WIRE_VALUE_UNKNOWN : Z := 0xFE.

Inductive Signal :=
| NodeInclusionStatus (sessionId status nodeId basic generic specific : Z) (ccs : list Z)
| NodeExclusionStatus (sessionId status nodeId basic generic specific : Z) (ccs : list Z)
| DongleStatus (connected : bool) (path : text)
| SendDataStatus (callbackId txStatus : Z)
| RemoveFailedNodeStatus (nodeId sessionId phase status : Z)
| NodeValueChanged (nodeId : Z) (valueId value : text)
| DSKPendingConfirmation (nodeId : Z) (dsk : text)
| SwitchBinaryReport (sourceNodeId state : Z)
| IndicatorReport (sourceNodeId value : Z)
| SupervisionReport (sourceNodeId sessionId : Z) (moreStatusUpdates : bool) (status duration : Z)
| MultiChannelEndPointReport (sourceNodeId endpointCount : Z) (dynamic identical : bool)
| MultiChannelCapabilityReport (sourceNodeId endpoint generic specific : Z) (ccs : list Z)
| SwitchMultilevelReport (sourceNodeId currentValue targetValue duration : Z)
| ColorSwitchReport (sourceNodeId componentId value targetValue duration : Z)
| CentralSceneNotification (sourceNodeId sequenceNumber keyAttribute sceneNumber : Z) (slowRefresh : bool)
| SceneActivated (sourceNodeId sceneNumber keyAttribute : Z) (sceneId : text) (actionCount : Z)
| BasicSetReceived (sourceNodeId value : Z)
| SceneActivationSet (sourceNodeId sceneId dimmingDuration : Z)
| LogicalThermostatStateChanged (groupKey groupValue : text)
    (memberCount mode operatingState fanMode setpointType setpointScale setpointPrecision setpointValue : Z)
| DoorLockOperationReport (sourceNodeId currentMode handlesMode condition lockTimeoutMinutes lockTimeoutSeconds
    targetMode duration : Z)
| UserCodeReport (sourceNodeId userIdentifier userIdStatus : Z) (userCode : list Z)
| UserCodeUsersNumberReport (sourceNodeId supportedUsers : Z)
| BatteryReport (sourceNodeId level : Z) (lowBattery : bool)
| SensorMultilevelReport (sourceNodeId sensorType scale precision value : Z)
| SensorBinaryReport (sourceNodeId sensorType value : Z)
| NotificationReport (sourceNodeId notificationType event status : Z) (parameters : list Z)
| MeterReport (sourceNodeId meterType rateType scale precision value deltaTime previousValue : Z) (hasPrevious : bool)
| ThermostatModeReport (sourceNodeId mode : Z)
| ThermostatOperatingStateReport (sourceNodeId state : Z)
| ThermostatFanModeReport (sourceNodeId mode : Z) (off : bool)
| ThermostatSetpointReport (sourceNodeId setpointType scale precision value : Z)
| ConfigurationReport (sourceNodeId parameter size value : Z)
| ManufacturerSpecificReport (sourceNodeId manufacturerId productTypeId productId : Z)
| NodeVersionReport (sourceNodeId libraryType protocolVersion protocolSubVersion applicationVersion
    applicationSubVersion : Z)
| ZWavePlusInfoReport (sourceNodeId zwavePlusVersion roleType nodeType installerIconType userIconType : Z)
| WakeUpIntervalReport (sourceNodeId seconds controllerNodeId : Z)
| WakeUpNotification (sourceNodeId : Z)
| PendingCommandEnqueued (nodeId sequence priority : Z)
| PendingCommandsDrained (nodeId count : Z)
| WakeUpCycleComplete (nodeId drainedCount : Z)
| ApplicationCommand (rxStatus sourceNodeId : Z) (ccData : list Z)
| AssociationReport (sourceNodeId groupId maxSupported reportsToFollow : Z) (members : list Z)
| AssociationGroupingsReport (sourceNodeId supportedGroupings : Z)
| InitDataSignal (serialApiVersion capabilities : Z) (nodeIds : list Z) (chipType chipVersion : Z)
| DongleInfoSignal (libraryVersion : text) (libraryType : Z) (homeId : list Z) (controllerNodeId : Z)
| DaemonErrorSignal (severity : Z) (source : text) (code : Z) (message : text).

(** A name, or the code in a given form. *)
Definition nameOr (name : option text) (code : list Chunk) : text := default (str code) name.

(** [static_cast<double>(value) / divisor] under [std::fixed] with [precision] decimals,
    the divisor being [10 ^ precision]: for the precisions of three bits that reports
    carry, the double is near enough to print as the exact decimal. *)
Definition reading (value precision : Z) : text := lit (Values.renderScaled value precision).

Definition supervisionLabel (status : Z) : text :=
  default (lit "?") (Format.case status [(0, "no-support"); (1, "working"); (2, "fail"); (0xFF, "success")]%string).

(** [ApplicationCommand]: what is on the wire of an on/off event, [None] otherwise. *)
Definition applicationLine (sourceNodeId : Z) (ccData : list Z) : option text :=
  match ccData with
  | commandClass :: command :: value :: _ =>
      let origin :=
        if (commandClass =? CC_BASIC) && (command =? CMD_SET) then Some "Basic Set"%string
        else if (commandClass =? CC_BASIC) && (command =? CMD_REPORT) then Some "Basic Report"%string
        else if (commandClass =? CC_SWITCH_BINARY) && (command =? CMD_SET) then Some "SwitchBinary Set"%string
        else None in
      let state := if value =? WIRE_VALUE_OFF then "Off"
                   else if value =? WIRE_VALUE_UNKNOWN then "Unknown" else "On" in
      (fun origin => str [S_ origin; S_ " node="; D_ sourceNodeId; S_ " state="; S_ state]) <$> origin
  | _ => None
  end.

(** *** The line each handler logs *)

Definition onNodeInclusionStatus (sessionId status nodeId _ _ _ : Z) (_ : list Z) : option text :=
  Some (Format.formatStatusEntry "Inclusion" sessionId status nodeId).

Definition onNodeExclusionStatus (sessionId status nodeId _ _ _ : Z) (_ : list Z) : option text :=
  Some (Format.formatStatusEntry "Exclusion" sessionId status nodeId).

Definition onDongleStatus (connected : bool) (path : text) : option text :=
  Some (if connected then lit "DongleStatus: connected " ++ path else lit "DongleStatus: disconnected").

Definition onSendDataStatus (callbackId txStatus : Z) : option text :=
  Some (str [S_ "SendDataStatus callback="; D_ callbackId; S_ " status=0x"; H_ 2 txStatus; S_ " (";
             T_ (Format.formatTxStatus txStatus); S_ ")"]).

Definition onRemoveFailedNodeStatus (nodeId sessionId phase status : Z) : option text :=
  Some (str [S_ "RemoveFailedNodeStatus node="; D_ nodeId; S_ " session="; D_ sessionId;
             S_ (if phase =? 0 then " response=" else " result="); S_ "0x"; H_ 2 status]).

Definition onNodeValueChanged (nodeId : Z) (valueId value : text) : option text :=
  Some (str [S_ "value node="; D_ nodeId; S_ " "; T_ valueId; S_ "="; T_ value]).

Definition onDSKPendingConfirmation (nodeId : Z) (dsk : text) : option text :=
  match dsk with
  | [] => None
  | _ => Some (str [S_ "DSK confirm needed: node "; D_ nodeId; S_ " DSK "; T_ dsk; S_ " - press [k] to enter PIN"])
  end.

Definition onSwitchBinaryReport (node state : Z) : option text :=
  Some (str [S_ "SwitchBinaryReport node="; D_ node; S_ " state="; T_ (Format.formatSwitchState state)]).

Definition onIndicatorReport (node value : Z) : option text :=
  Some (str [S_ "IndicatorReport node="; D_ node; S_ " value="; D_ value]).

Definition onSupervisionReport (node sessionId : Z) (more : bool) (status duration : Z) : option text :=
  Some (str [S_ "SupervisionReport node="; D_ node; S_ " session="; D_ sessionId; S_ " status=";
             T_ (supervisionLabel status); S_ " dur="; D_ duration; S_ (if more then " (more)" else "")]).

Definition onMultiChannelEndPointReport (node count : Z) (dynamic identical : bool) : option text :=
  Some (str [S_ "MultiChannelEndPointReport node="; D_ node; S_ " endpoints="; D_ count;
             S_ (if dynamic then " dynamic" else ""); S_ (if identical then " identical" else "")]).

Definition onMultiChannelCapabilityReport (node endpoint generic specific : Z) (ccs : list Z) : option text :=
  Some (str [S_ "MultiChannelCapabilityReport node="; D_ node; S_ " endpoint="; D_ endpoint; S_ " generic=0x";
             H_ 2 generic; S_ " specific=0x"; H_ 2 specific; S_ " ccs="; D_ (zlen ccs)]).

Definition onSwitchMultilevelReport (node current target duration : Z) : option text :=
  Some (str [S_ "SwitchMultilevelReport node="; D_ node; S_ " current="; D_ current; S_ " target="; D_ target;
             S_ " duration=0x"; H_ 2 duration]).

Definition onColorSwitchReport (node component value target duration : Z) : option text :=
  Some (str [S_ "ColorSwitchReport node="; D_ node; S_ " ";
             T_ (nameOr (Format.colorComponentName component) [S_ "component="; D_ component]); S_ "="; D_ value] ++
        (if negb (target =? value) || negb (duration =? 0)
         then str [S_ " (target "; D_ target; S_ ", dur "; D_ duration; S_ ")"] else [])).

Definition onCentralSceneNotification (node sequence key scene : Z) (slow : bool) : option text :=
  Some (str [S_ "CentralSceneNotification node="; D_ node; S_ " scene="; D_ scene; S_ " ";
             T_ (nameOr (Format.centralSceneKeyName key) [S_ "key="; D_ key]); S_ " seq="; D_ sequence;
             S_ (if slow then " (slow-refresh)" else "")]).

Definition onSceneActivated (node scene key : Z) (sceneId : text) (count : Z) : option text :=
  Some (str [S_ "SceneActivated node="; D_ node; S_ " scene="; D_ scene; S_ " ";
             T_ (nameOr (Format.centralSceneKeyName key) [S_ "key="; D_ key]); S_ " -> "; T_ (quoted sceneId);
             S_ " ("; D_ count; S_ " action"; S_ (plural count); S_ ")"]).

Definition onBasicSetReceived (node value : Z) : option text :=
  Some (str [S_ "BasicSetReceived node="; D_ node; S_ " value="; D_ value]).

Definition onSceneActivationSet (node sceneId duration : Z) : option text :=
  Some (str [S_ "SceneActivationSet node="; D_ node; S_ " scene="; D_ sceneId; S_ " duration="; D_ duration]).

Definition onLogicalThermostatStateChanged (key value : text) (members mode operating fan _ _ _ setpoint : Z) : option text :=
  Some (str [S_ "LogicalThermostat "; T_ key; S_ "="; T_ value; S_ " members="; D_ members; S_ " mode=";
             T_ (mixedOr mode); S_ " op="; D_ operating; S_ " fan="; D_ fan; S_ " setpoint="; D_ setpoint]).

Definition onDoorLockOperationReport (node mode _ condition minutes seconds _ _ : Z) : option text :=
  Some (str [S_ "DoorLockOperationReport node="; D_ node; S_ " mode=0x"; H_ 2 mode; S_ " condition=0x";
             H_ 2 condition; S_ " timeout="; D_ minutes; S_ "m"; D_ seconds; S_ "s"]).

Definition onUserCodeReport (node user status : Z) (code : list Z) : option text :=
  Some (str [S_ "UserCodeReport node="; D_ node; S_ " slot="; D_ user; S_ " status=0x"; H_ 2 status;
             S_ " codeLen="; D_ (zlen code)]).

Definition onUserCodeUsersNumberReport (node users : Z) : option text :=
  Some (str [S_ "UserCodeUsersNumberReport node="; D_ node; S_ " slots="; D_ users]).

Definition onBatteryReport (node level : Z) (low : bool) : option text :=
  Some (str ([S_ "BatteryReport node="; D_ node; S_ " level="] ++
             (if level =? BYTE_MAX then [S_ "low(0xFF)"] else [D_ level; S_ "%"]) ++
             (if low then [S_ " [LOW]"] else []))).

Definition onSensorMultilevelReport (node type scale precision value : Z) : option text :=
  Some (str [S_ "SensorMultilevelReport node="; D_ node; S_ " ";
             T_ (nameOr (Format.sensorTypeName type) [S_ "type=0x"; H_ 2 type]); S_ "="; T_ (reading value precision)] ++
        match Format.sensorUnit type scale with [] => [] | unit => lit " " ++ unit end).

Definition onSensorBinaryReport (node type value : Z) : option text :=
  Some (str ([S_ "SensorBinaryReport node="; D_ node] ++
             (if negb (type =? 0) then [S_ " type=0x"; H_ 2 type] else []) ++
             [S_ (if negb (value =? 0) then " active" else " idle")])).

Definition onNotificationReport (node type event status : Z) (parameters : list Z) : option text :=
  Some (str [S_ "NotificationReport node="; D_ node; S_ " type=0x"; H_ 2 type; S_ " event=0x"; H_ 2 event;
             S_ " status=0x"; H_ 2 status] ++
        match parameters with
        | [] => []
        | _ => lit " params=[" ++ Format.spacedBy (hex 2 <$> parameters) ++ lit "]"
        end).

Definition onMeterReport (node type rate scale precision value delta previous : Z) (hasPrevious : bool) : option text :=
  Some (str [S_ "MeterReport node="; D_ node; S_ " ";
             T_ (nameOr (Format.meterTypeName type) [S_ "type=0x"; H_ 2 type]);
             S_ (if rate =? 2 then " (export)" else ""); S_ " "; T_ (reading value precision)] ++
        match Format.meterUnit type scale with [] => [] | unit => lit " " ++ unit end ++
        (if hasPrevious
         then str [S_ " (Δ"; D_ delta; S_ "s, prev "; T_ (reading previous precision); S_ ")"] else [])).

Definition onThermostatModeReport (node mode : Z) : option text :=
  Some (str [S_ "ThermostatModeReport node="; D_ node; S_ " mode=";
             T_ (nameOr (Format.thermostatModeName mode) [S_ "0x"; H_ 2 mode])]).

Definition onThermostatOperatingStateReport (node state : Z) : option text :=
  Some (str [S_ "ThermostatOperatingStateReport node="; D_ node; S_ " state=";
             T_ (nameOr (Format.thermostatOperatingStateName state) [S_ "0x"; H_ 2 state])]).

Definition onThermostatFanModeReport (node mode : Z) (off : bool) : option text :=
  Some (str [S_ "ThermostatFanModeReport node="; D_ node; S_ " mode=";
             T_ (nameOr (Format.thermostatFanModeName mode) [S_ "0x"; H_ 2 mode]);
             S_ (if off then " (fan off)" else "")]).

Definition onThermostatSetpointReport (node type scale precision value : Z) : option text :=
  Some (str [S_ "ThermostatSetpointReport node="; D_ node; S_ " type="; D_ type; S_ " ";
             T_ (reading value precision); S_ (if scale =? 0 then " C" else " F")]).

Definition onConfigurationReport (node parameter size value : Z) : option text :=
  Some (str [S_ "ConfigurationReport node="; D_ node; S_ " param="; D_ parameter; S_ " size="; D_ size;
             S_ " value="; D_ value]).

Definition onManufacturerSpecificReport (node manufacturer type product : Z) : option text :=
  Some (str [S_ "ManufacturerSpecificReport node="; D_ node; S_ " mfr=0x"; H_ 4 manufacturer; S_ " type=0x";
             H_ 4 type; S_ " product=0x"; H_ 4 product]).

Definition onNodeVersionReport (node library protocol protocolSub application applicationSub : Z) : option text :=
  Some (str [S_ "NodeVersionReport node="; D_ node; S_ " lib="; D_ library; S_ " proto="; D_ protocol; S_ ".";
             D_ protocolSub; S_ " app="; D_ application; S_ "."; D_ applicationSub]).

Definition onZWavePlusInfoReport (node version role type installer user : Z) : option text :=
  Some (str [S_ "ZWavePlusInfoReport node="; D_ node; S_ " ver="; D_ version; S_ " role="; D_ role; S_ " nodeType=";
             D_ type; S_ " icons=0x"; H_ 4 installer; S_ "/0x"; H_ 4 user]).

Definition onWakeUpIntervalReport (node seconds controller : Z) : option text :=
  Some (str [S_ "WakeUpIntervalReport node="; D_ node; S_ " interval="; D_ seconds; S_ "s notify="; D_ controller]).

Definition onWakeUpNotification (node : Z) : option text :=
  Some (str [S_ "WakeUpNotification node="; D_ node; S_ " (awake)"]).

Definition onPendingCommandEnqueued (node sequence priority : Z) : option text :=
  Some (str [S_ "PendingCommandEnqueued node="; D_ node; S_ " seq="; D_ sequence; S_ " priority="; D_ priority]).

Definition onPendingCommandsDrained (node count : Z) : option text :=
  Some (str [S_ "PendingCommandsDrained node="; D_ node; S_ " count="; D_ count]).

Definition onWakeUpCycleComplete (node drained : Z) : option text :=
  Some (str [S_ "WakeUpCycleComplete node="; D_ node; S_ " drained="; D_ drained; S_ " (back to sleep)"]).

Definition onApplicationCommand (_ node : Z) (ccData : list Z) : option text :=
  applicationLine node ccData.

Definition onAssociationReport (node group max follow : Z) (members : list Z) : option text :=
  Some (str [S_ "AssociationReport node="; D_ node; S_ " group="; D_ group; S_ " max="; D_ max; S_ " toFollow=";
             D_ follow; S_ " members=["; T_ (Format.spacedBy (dec <$> members)); S_ "]"]).

Definition onAssociationGroupingsReport (node groupings : Z) : option text :=
  Some (str [S_ "AssociationGroupingsReport node="; D_ node; S_ " groupings="; D_ groupings]).

Definition onInitDataSignal (version capabilities : Z) (nodeIds : list Z) (chipType chipVersion : Z) : option text :=
  Some (str [S_ "InitData: serialApiVersion="; D_ version; S_ " capabilities=0x"; H_ 2 capabilities; S_ " chipType=";
             D_ chipType; S_ " chipVer="; D_ chipVersion; S_ " nodes="; D_ (zlen nodeIds)]).

Definition onDongleInfoSignal (version : text) (type : Z) (homeId : list Z) (controller : Z) : option text :=
  Some (str [S_ "DongleInfo: "; T_ (quoted version); S_ " libType="; D_ type; S_ " homeId=";
             T_ (concat (hex 2 <$> homeId)); S_ " controllerNode="; D_ controller]).

Definition onDaemonErrorSignal (_ : Z) (source : text) (code : Z) (message : text) : option text :=
  match message with
  | [] => None
  | _ => Some (str [S_ "DaemonError ["; T_ source; S_ " code="; D_ code; S_ "]: "; T_ message])
  end.

(** The line of the log for a signal, if its handler writes one. *)
Definition signalLine (s : Signal) : option text :=
  match s with
  | NodeInclusionStatus a0 a1 a2 a3 a4 a5 a6 => onNodeInclusionStatus a0 a1 a2 a3 a4 a5 a6
  | NodeExclusionStatus a0 a1 a2 a3 a4 a5 a6 => onNodeExclusionStatus a0 a1 a2 a3 a4 a5 a6
  | DongleStatus a0 a1 => onDongleStatus a0 a1
  | SendDataStatus a0 a1 => onSendDataStatus a0 a1
  | RemoveFailedNodeStatus a0 a1 a2 a3 => onRemoveFailedNodeStatus a0 a1 a2 a3
  | NodeValueChanged a0 a1 a2 => onNodeValueChanged a0 a1 a2
  | DSKPendingConfirmation a0 a1 => onDSKPendingConfirmation a0 a1
  | SwitchBinaryReport a0 a1 => onSwitchBinaryReport a0 a1
  | IndicatorReport a0 a1 => onIndicatorReport a0 a1
  | SupervisionReport a0 a1 a2 a3 a4 => onSupervisionReport a0 a1 a2 a3 a4
  | MultiChannelEndPointReport a0 a1 a2 a3 => onMultiChannelEndPointReport a0 a1 a2 a3
  | MultiChannelCapabilityReport a0 a1 a2 a3 a4 => onMultiChannelCapabilityReport a0 a1 a2 a3 a4
  | SwitchMultilevelReport a0 a1 a2 a3 => onSwitchMultilevelReport a0 a1 a2 a3
  | ColorSwitchReport a0 a1 a2 a3 a4 => onColorSwitchReport a0 a1 a2 a3 a4
  | CentralSceneNotification a0 a1 a2 a3 a4 => onCentralSceneNotification a0 a1 a2 a3 a4
  | SceneActivated a0 a1 a2 a3 a4 => onSceneActivated a0 a1 a2 a3 a4
  | BasicSetReceived a0 a1 => onBasicSetReceived a0 a1
  | SceneActivationSet a0 a1 a2 => onSceneActivationSet a0 a1 a2
  | LogicalThermostatStateChanged a0 a1 a2 a3 a4 a5 a6 a7 a8 a9 => onLogicalThermostatStateChanged a0 a1 a2 a3 a4 a5 a6 a7 a8 a9
  | DoorLockOperationReport a0 a1 a2 a3 a4 a5 a6 a7 => onDoorLockOperationReport a0 a1 a2 a3 a4 a5 a6 a7
  | UserCodeReport a0 a1 a2 a3 => onUserCodeReport a0 a1 a2 a3
  | UserCodeUsersNumberReport a0 a1 => onUserCodeUsersNumberReport a0 a1
  | BatteryReport a0 a1 a2 => onBatteryReport a0 a1 a2
  | SensorMultilevelReport a0 a1 a2 a3 a4 => onSensorMultilevelReport a0 a1 a2 a3 a4
  | SensorBinaryReport a0 a1 a2 => onSensorBinaryReport a0 a1 a2
  | NotificationReport a0 a1 a2 a3 a4 => onNotificationReport a0 a1 a2 a3 a4
  | MeterReport a0 a1 a2 a3 a4 a5 a6 a7 a8 => onMeterReport a0 a1 a2 a3 a4 a5 a6 a7 a8
  | ThermostatModeReport a0 a1 => onThermostatModeReport a0 a1
  | ThermostatOperatingStateReport a0 a1 => onThermostatOperatingStateReport a0 a1
  | ThermostatFanModeReport a0 a1 a2 => onThermostatFanModeReport a0 a1 a2
  | ThermostatSetpointReport a0 a1 a2 a3 a4 => onThermostatSetpointReport a0 a1 a2 a3 a4
  | ConfigurationReport a0 a1 a2 a3 => onConfigurationReport a0 a1 a2 a3
  | ManufacturerSpecificReport a0 a1 a2 a3 => onManufacturerSpecificReport a0 a1 a2 a3
  | NodeVersionReport a0 a1 a2 a3 a4 a5 => onNodeVersionReport a0 a1 a2 a3 a4 a5
  | ZWavePlusInfoReport a0 a1 a2 a3 a4 a5 => onZWavePlusInfoReport a0 a1 a2 a3 a4 a5
  | WakeUpIntervalReport a0 a1 a2 => onWakeUpIntervalReport a0 a1 a2
  | WakeUpNotification a0 => onWakeUpNotification a0
  | PendingCommandEnqueued a0 a1 a2 => onPendingCommandEnqueued a0 a1 a2
  | PendingCommandsDrained a0 a1 => onPendingCommandsDrained a0 a1
  | WakeUpCycleComplete a0 a1 => onWakeUpCycleComplete a0 a1
  | ApplicationCommand a0 a1 a2 => onApplicationCommand a0 a1 a2
  | AssociationReport a0 a1 a2 a3 a4 => onAssociationReport a0 a1 a2 a3 a4
  | AssociationGroupingsReport a0 a1 => onAssociationGroupingsReport a0 a1
  | InitDataSignal a0 a1 a2 a3 a4 => onInitDataSignal a0 a1 a2 a3 a4
  | DongleInfoSignal a0 a1 a2 a3 => onDongleInfoSignal a0 a1 a2 a3
  | DaemonErrorSignal a0 a1 a2 a3 => onDaemonErrorSignal a0 a1 a2 a3
  end.

(** What a signal changes for the user interface, besides the log. *)
Definition markNodes (a : ActivityState) : ActivityState := setDirty true (valuesDirty a) a.
Definition markValues (a : ActivityState) : ActivityState := setDirty (nodesDirty a) true a.

Definition signalEffect (s : Signal) (a : ActivityState) : ActivityState :=
  match s with
  | NodeInclusionStatus _ status _ _ _ _ _ | NodeExclusionStatus _ status _ _ _ _ _ =>
      if status =? Format.STATUS_COMPLETED then markNodes a else a
  | RemoveFailedNodeStatus _ _ phase _ => if negb (phase =? 0) then markNodes a else a
  | NodeValueChanged _ _ _ => markValues a
  | DongleStatus connected path => setDongleStatus connected path a
  | DSKPendingConfirmation nodeId dsk => setDskPending nodeId dsk a
  | DaemonErrorSignal severity source code message => setDaemonError severity source code message a
  | _ => a
  end.

Section Signals.
Context `{Daemon}.

(** The loop over the groups of a report, [group] being of 8 bits: [true] when it has
    ended after [fuel] turns at most. *)
Fixpoint askGroups (fuel : nat) (nodeId supported group : Z) : M bool :=
  match fuel with
  | O => mret false
  | S fuel =>
      if group <=? supported then
        asked ← try_ (invoke "GetAssociation" [AByte nodeId; AByte group; AByte CALLBACK_ID_NONE] ;; mret true)
                catch_ err => (say [S_ "auto GetAssociation failed: "; T_ err] ;; mret false);
        if (asked : bool) then askGroups fuel nodeId supported (u8 (group + 1)) else mret true
      else mret true
  end.

(** Turns of that loop that are enough whenever it ends. *)
Definition GROUP_TURNS : nat := 256.

Definition onSignal (s : Signal) : M unit :=
  modify (fun w => setActivity (signalEffect s (activity w)) w) ;;
  match signalLine s with Some line => logLine line | None => mret tt end ;;
  match s with
  | AssociationGroupingsReport nodeId supported => askGroups GROUP_TURNS nodeId supported 1 ;; mret tt
  | _ => mret tt
  end.

(** ** The groups of a report *)

Definition groupCall (nodeId group : Z) : Call :=
  mkCall (lit "GetAssociation") [AByte nodeId; AByte group; AByte CALLBACK_ID_NONE].

Lemma askGroups_turn fuel nodeId supported group w :
  (forall n c, failure (reply n c) = None) -> group <= supported ->
  askGroups (S fuel) nodeId supported group w
  = askGroups fuel nodeId supported (u8 (group + 1)) (addCall (groupCall nodeId group) w).
Proof.
  intros Hr Hg. cbn [askGroups]. rewrite (proj2 (Z.leb_le group supported)) by done.
  unfold invoke, callMethod, catch, mbind, M_bind. rewrite Hr. reflexivity.
Qed.

Lemma addCall_calls c w : calls (addCall c w) = calls w ++ [c].
Proof. done. Qed.

Lemma askGroups_ends nodeId supported : forall n group fuel w,
  (forall n c, failure (reply n c) = None) -> supported < 255 -> 0 <= group -> Z.of_nat n = supported + 1 - group ->
  (n < fuel)%nat ->
  exists w', askGroups fuel nodeId supported group w = Done true w' /\
    calls w' = calls w ++ (groupCall nodeId <$> seqZ group (Z.of_nat n)).
Proof.
  induction n as [|n IH]; intros group [|fuel] w Hr Hs Hg Hn Hf; try lia.
  - exists w. cbn [askGroups]. rewrite (proj2 (Z.leb_gt group supported)) by lia. rewrite seqZ_nil by lia.
    by rewrite app_nil_r.
  - rewrite askGroups_turn by (done || lia).
    destruct (IH (group + 1) fuel (addCall (groupCall nodeId group) w)) as (w' & E & Hc); [done|lia..|].
    exists w'. unfold u8. rewrite Z.mod_small by lia. split; [done|].
    rewrite Hc, addCall_calls, <- app_assoc, (seqZ_cons group (Z.of_nat (S n))) by lia.
    replace (Z.pred (Z.of_nat (S n))) with (Z.of_nat n) by lia. by replace (Z.succ group) with (group + 1) by lia.
Qed.

Lemma askGroups_forever nodeId : forall fuel group w,
  (forall n c, failure (reply n c) = None) -> byte_ok group ->
  exists w', askGroups fuel nodeId 255 group w = Done false w' /\ length (calls w') = (length (calls w) + fuel)%nat.
Proof.
  induction fuel as [|fuel IH]; intros group w Hr Hg; [exists w; cbn; by rewrite Nat.add_0_r|].
  rewrite askGroups_turn; [|done|unfold byte_ok in Hg; lia].
  destruct (IH (u8 (group + 1)) (addCall (groupCall nodeId group) w) Hr (u8_range _)) as (w' & E & Hc).
  exists w'. split; [done|]. rewrite Hc, addCall_calls, length_app. cbn. lia.
Qed.

(** The groups of a report.  While the daemon answers, a groupings report of less
    than 255 groups makes the client ask for the members of each group once, in order,
    and the handler ends; a report of 255 groups makes it ask for ever: the 8-bit group
    wraps round to 0, so no number of turns ends the loop. *)
Theorem groupings_asked nodeId supported w :
  (forall n c, failure (reply n c) = None) -> 0 <= supported < 255 ->
  (exists w', onSignal (AssociationGroupingsReport nodeId supported) w = Done tt w' /\
     calls w' = calls w ++ (groupCall nodeId <$> seqZ 1 supported)) /\
  (forall fuel, exists w', askGroups fuel nodeId 255 1 w = Done false w' /\
     length (calls w') = (length (calls w) + fuel)%nat).
Proof.
  intros Hr Hs. split.
  - set (w1 := setActivity (logOn (str [S_ "AssociationGroupingsReport node="; D_ nodeId; S_ " groupings="; D_ supported])
                              (activity w)) w).
    destruct (askGroups_ends nodeId supported (Z.to_nat supported) 1 GROUP_TURNS w1) as (w' & E & Hc);
      [done|lia|lia|lia|unfold GROUP_TURNS; lia|].
    exists w'. rewrite Z2Nat.id in Hc by lia. split; [|done].
    change (onSignal (AssociationGroupingsReport nodeId supported) w)
      with ((askGroups GROUP_TURNS nodeId supported 1 ;; mret tt) w1).
    by rewrite (bind_done _ _ _ _ _ E).
  - intros fuel. apply askGroups_forever; [done|unfold byte_ok; lia].
Qed.

End Signals.

Lemma groupings_asked_witness :
  let d : Daemon := {| reply _ _ := Nothing; mismatch := [] |} in
  (forall n c, failure (@reply d n c) = None) /\ 0 <= 2 < 255 /\
  calls (worldOf (@onSignal d (AssociationGroupingsReport 5 2) (typing []))) = [groupCall 5 1; groupCall 5 2].
Proof.
  intros d. split_and!; [done|lia..|].
  destruct (proj1 (@groupings_asked d 5 2 (typing []) ltac:(done) ltac:(lia))) as (w' & -> & Hc). exact Hc.
Defined.
