(* ===== verification/TerminalMain.v ===== *)
(** * The terminal client: its loop

    [run] of [src/utils/zwave-terminal/main.cpp]: the start, the menus, and the turns of
    the loop, in which the screen is drawn, what signals marked is refreshed and one key
    is acted upon.  Signals and turns come in any order ([session]). *)

From Stdlib Require Import String Ascii.
From S2P Require Import Prelude Config TerminalText TerminalConsole TerminalFormat TerminalHandlers.
From S2P Require Import TerminalPolicy TerminalRender TerminalScenes TerminalSignals.
From stdpp Require Import strings.
#[local] Open Scope Z_scope.

(** The codes of [ncurses.h]. *)
Definition ERR : Z := -1.
Definition KEY_DOWN : Z := 258.
Definition KEY_UP : Z := 259.

Definition MODE_CLASSIC : Z := 0x01.
Definition FLAGS_NONE : Z := 0x00.
Definition BUS_NAME : string := "com.tiunda.ZWaved".

Definition code (c : ascii) : Z := Z.of_nat (nat_of_ascii c).
(** [key] is one of these characters. *)
Definition isKey (key : Z) (chars : string) : bool := existsb (fun c => key =? code c) (lit chars).

Record Ui := mkUi { lastSession : Z; lastWasAdd : bool; running : bool }.

Section Loop.
Context `{Daemon} `{Oob} `{Display} `{Clock}.

Definition item (key : ascii) (label : string) (action : M unit) : Render.MenuItem := Render.mkMenuItem key (lit label) action.

(** ** Menus *)

Definition getMenu : list Render.MenuItem :=
  [item "b" "Battery" (handleSimpleGet "GetBattery");
   item "v" "Version" (handleSimpleGet "GetNodeVersion");
   item "m" "Manufacturer-specific" (handleSimpleGet "GetManufacturerSpecific");
   item "z" "Z-Wave Plus info" (handleSimpleGet "GetZWavePlusInfo");
   item "c" "Configuration" handleGetConfiguration;
   item "s" "Sensor multilevel" (handleSimpleGet "GetSensorMultilevel");
   item "i" "Binary sensor" (handleSimpleGet "GetSensorBinary");
   item "e" "Meter" handleGetMeter;
   item "n" "Notification" handleGetNotification;
   item "t" "Thermostat mode" (handleSimpleGet "GetThermostatMode");
   item "p" "Thermostat setpoint" handleGetThermostatSetpoint;
   item "o" "Thermostat operating state" (handleSimpleGet "GetThermostatOperatingState");
   item "f" "Thermostat fan mode" (handleSimpleGet "GetThermostatFanMode");
   item "w" "Multilevel switch" handleGetMultilevelSwitch;
   item "k" "Color switch" handleGetColorSwitch;
   item "d" "Door lock" (handleSimpleGet "GetDoorLock");
   item "u" "User code" handleGetUserCode;
   item "x" "User code slot count" (handleSimpleGet "GetUserCodeCount");
   item "a" "Association members" handleGetAssociation;
   item "r" "Association groupings" handleGetAssociationGroupings;
   item "h" "Multi Channel endpoints" (handleSimpleGet "GetMultiChannelEndpoints");
   item "j" "Multi Channel capability" handleGetMultiChannelCapability].

Definition controlMenu : list Render.MenuItem :=
  [item "o" "Switch binary ON" (handleSwitchBinary true);
   item "f" "Switch binary OFF" (handleSwitchBinary false);
   item "w" "Multilevel switch set" handleSetMultilevelSwitch;
   item "b" "Basic set" handleSetBasic;
   item "i" "Indicator set" handleSetIndicator;
   item "c" "Configuration set" handleSetConfiguration;
   item "t" "Thermostat mode set" handleSetThermostatMode;
   item "p" "Thermostat setpoint set" handleSetThermostatSetpoint;
   item "n" "Thermostat fan mode set" handleSetThermostatFanMode;
   item "l" "Color switch set (RGB)" handleSetColorSwitch;
   item "d" "Door lock set" handleSetDoorLock;
   item "u" "User code set" handleSetUserCode;
   item "k" "Wake-up interval" handleSetWakeUpInterval;
   item "a" "Association add" (handleAssociationEdit "SetAssociation");
   item "r" "Association remove" (handleAssociationEdit "RemoveAssociation")].

Definition policyMenu : list Render.MenuItem :=
  [item "e" "View effective policy" handleViewEffectivePolicy;
   item "o" "View node override" handleViewNodeOverride;
   item "s" "Set node override entry" handleSetNodeOverrideEntry;
   item "d" "Delete node override" handleDeleteNodeOverride;
   item "l" "List device policies" handleListDevicePolicies;
   item "a" "Device policy authoring" handleDevicePolicyEdit].

Definition sceneMenu : list Render.MenuItem :=
  [item "l" "List scenes" handleListScenes;
   item "t" "List triggers" handleListSceneTriggers;
   item "s" "Set / edit scene" handleSetScene;
   item "d" "Delete scene" handleDeleteScene;
   item "b" "Bind trigger (press -> scene)" handleBindSceneTrigger;
   item "u" "Unbind trigger" handleUnbindSceneTrigger].

Definition climateMenu : list Render.MenuItem :=
  [item "m" "Set group mode" handleSetLogicalThermostatMode;
   item "s" "Set group setpoint" handleSetLogicalThermostatSetpoint;
   item "g" "Get group state" handleGetLogicalThermostatState].

(** ** One key *)

Definition handleDsk : M unit :=
  pending ← get (dskPending ∘ activity);
  if negb (active pending) then say [S_ "No DSK confirmation pending"]
  else
    ask pin := promptText (str [S_ "DSK PIN for node "; D_ (dskNode pending); S_ " (5 digits):"]) else_ mret tt in
    (invoke "ConfirmDSK" [AByte (dskNode pending); AText pin] ;;
     say [S_ "ConfirmDSK node="; D_ (dskNode pending); S_ " issued"]).

Definition startAdd (ui : Ui) : M Ui :=
  counter ← bump;
  invoke "AddNode" [AByte MODE_CLASSIC; AByte FLAGS_NONE; AByte counter; ABytes []; ABytes []] ;;
  say [S_ "AddNode (classic, session "; D_ counter; S_ ") issued"] ;;
  mret (mkUi counter true (running ui)).

Definition startRemove (ui : Ui) : M Ui :=
  counter ← bump;
  invoke "RemoveNode" [AByte MODE_CLASSIC; AByte FLAGS_NONE; AByte counter] ;;
  say [S_ "RemoveNode (classic, session "; D_ counter; S_ ") issued"] ;;
  mret (mkUi counter false (running ui)).

Definition stopSession (ui : Ui) : M unit :=
  if lastSession ui =? 0 then say [S_ "No session to stop"]
  else if lastWasAdd ui then
    invoke "StopAddNode" [AByte (lastSession ui)] ;; say [S_ "StopAddNode session "; D_ (lastSession ui); S_ " issued"]
  else
    invoke "StopRemoveNode" [AByte (lastSession ui)] ;;
    say [S_ "StopRemoveNode session "; D_ (lastSession ui); S_ " issued"].

Definition selectedInfo : M unit :=
  sel ← get (selectedNodeId ∘ nodeModel);
  match sel with Some nodeId => handleNodeInfo nodeId | None => say [S_ "No node selected"] end.

(** What a key does that leaves [lastSession] alone. *)
Definition command (key : Z) (ui : Ui) : M unit :=
  if key =? KEY_UP then modify (fun w => setModel (moveSelection (-1) (nodeModel w)) w)
  else if key =? KEY_DOWN then modify (fun w => setModel (moveSelection 1 (nodeModel w)) w)
  else if isKey key "rR" then refreshNodes ;; refreshValues
  else if isKey key "kK" then handleDsk
  else if isKey key "gG" then Render.runActionMenu "Get from node" getMenu
  else if isKey key "cC" then Render.runActionMenu "Control / set on node" controlMenu
  else if isKey key "pP" then Render.runActionMenu "Policy" policyMenu
  else if isKey key "eE" then Render.runActionMenu "Scenes" sceneMenu
  else if isKey key "hH" then Render.runActionMenu "Logical thermostat (climate group)" climateMenu
  else if isKey key "l" then handleListNodes
  else if isKey key "nN" then handleNetworkInfo
  else if isKey key "fF" then handleRemoveFailedNode
  else if isKey key "iI" then selectedInfo
  else if isKey key "L" then handleSetLifeline
  else if isKey key "sS" then stopSession ui
  else mret tt.

Definition press (key : Z) (ui : Ui) : M Ui :=
  if isKey key "qQ" then mret (mkUi (lastSession ui) (lastWasAdd ui) false)
  else if isKey key "1aA" then startAdd ui
  else if isKey key "2xX" then startRemove ui
  else command key ui ;; mret ui.

(** ** Turns *)

(** The flags are taken down before what they stand for is fetched. *)
Definition refreshMarked : M unit :=
  a ← get activity;
  if nodesDirty a then
    modify (fun w => setActivity (setDirty false (valuesDirty (activity w)) (activity w)) w) ;;
    refreshNodes ;; refreshValues
  else if valuesDirty a then
    modify (fun w => setActivity (setDirty (nodesDirty (activity w)) false (activity w)) w) ;; refreshValues
  else mret tt.

Definition turn (key : Z) (ui : Ui) : M Ui :=
  modify (fun w => addScreen (Render.draw (lastSession ui) (activity w) (nodeModel w)) w) ;;
  refreshMarked ;;
  if key =? ERR then mret ui
  else try_ (press key ui) catch_ err => (say [S_ "D-Bus call failed: "; T_ err] ;; mret ui).

Definition as_problem r := match r with Problem e => Some e | _ => None end.

(** [run] up to its loop, the connection being made. *)
Definition start : M Ui :=
  say [S_ "Connected to "; S_ BUS_NAME] ;;
  (try_ (e ← fetch "GetDaemonError" [] as_problem;
         modify (fun w => setActivity (setDaemonError (e_severity e) (e_source e) (e_code e) (e_message e) (activity w)) w))
   catch_ err => failed "GetDaemonError" err) ;;
  refreshNodes ;; refreshValues ;;
  mret (mkUi 0 false true).

(** ** A session *)

Inductive Event := Signalled (s : Signal) | Turn (key : Z).

Fixpoint session (events : list Event) (ui : Ui) : M Ui :=
  match events with
  | [] => mret ui
  | Signalled s :: events => onSignal s ;; session events ui
  | Turn key :: events => if running ui then ui ← turn key ui; session events ui else mret ui
  end.

Definition run (events : list Event) : M Ui := ui ← start; session events ui.

End Loop.
