(* ===== verification/TerminalLogic.v ===== *)
(** * The terminal client: invariants of programs

    A logic of invariants for the programs of [TerminalConsole] ([safe]), with a lemma for
    each way to build a program and the tactics that follow a program's text. *)

From Stdlib Require Import String Ascii.
From S2P Require Import Prelude Config PolicyRegister PolicyBlob TerminalText TerminalConsole.
From S2P Require Import TerminalFormat TerminalHandlers TerminalPolicy TerminalRender TerminalScenes.
From S2P Require Import TerminalSignals TerminalMain.
From stdpp Require Import strings.
#[local] Open Scope Z_scope.

(** ** Invariants *)

Definition call_ok (c : Call) : Prop := Forall arg_ok (arguments c).

(** A reply has the types of its method: ids are bytes. *)
Definition reply_ok (r : Reply) : Prop :=
  match r with
  | Nodes l => Forall (fun t => byte_ok (t_id t)) l
  | Blob l => bytes_ok l
  | DongleInfo d => byte_ok (d_controller d)
  | _ => True
  end.

Record base (w : World) : Prop := mkBase {
  base_ids : ids_ok (nodeModel w);
  base_calls : Forall call_ok (calls w);
  base_counter : byte_ok (sessionCounter w);
  base_dsk : byte_ok (dskNode (dskPending (activity w)));
  base_log : (length (log (activity w)) <= MAX_LOG_LINES)%nat }.

(** The selection is a row of the list, if there are any. *)
Definition selection_ok (m : NodeModel) : Prop := rows m <> [] -> (selected m < length (rows m))%nat.

Definition good (w : World) : Prop := base w /\ selection_ok (nodeModel w).

(** An invariant that does not look at what is typed and drawn, and that calls, log
    lines and the counter keep. *)
Class Stable (I : World -> Prop) := {
  stable_base w : I w -> base w;
  stable_view w w' : sessionCounter w' = sessionCounter w -> nodeModel w' = nodeModel w -> activity w' = activity w ->
    calls w' = calls w -> I w -> I w';
  stable_log e w : I w -> I (setActivity (logOn e (activity w)) w);
  stable_bump w : I w -> I (setCounter (u8 (sessionCounter w + 1)) w);
  stable_call c w : call_ok c -> I w -> I (addCall c w) }.

Lemma logged_length e l : (length l <= MAX_LOG_LINES)%nat -> (length (logged e l) <= MAX_LOG_LINES)%nat.
Proof. unfold logged. rewrite length_drop, length_app. cbn. lia. Qed.

#[global] Instance base_stable : Stable base.
Proof.
  split; [done|..].
  - intros w w' Ec Em Ea Ek []. split; congruence || (rewrite ?Em, ?Ek, ?Ec, ?Ea; done).
  - intros e w []. split; try done. by apply logged_length.
  - intros w []. split; try done. apply u8_range.
  - intros c w Hc []. split; try done. cbn. apply Forall_app. split; [done|]. by constructor.
Qed.

#[global] Instance good_stable : Stable good.
Proof.
  split; unfold good.
  - tauto.
  - intros w w' Ec Em Ea Ek [Hb Hs]. rewrite Em. split; [by eapply stable_view|done].
  - intros e w [Hb Hs]. split; [by apply stable_log|done].
  - intros w [Hb Hs]. split; [by apply stable_bump|done].
  - intros c w Hc [Hb Hs]. split; [by apply stable_call|done].
Qed.

(** ** Programs that keep them *)

Definition safe {A} (I : World -> Prop) (P : A -> Prop) (m : M A) : Prop := forall w, I w ->
  match m w with Done a w' => P a /\ I w' | Threw _ w' | Waiting w' => I w' end.

(** A property of the value asked for, if there is one. *)
Definition opt {A} (P : A -> Prop) (o : option A) : Prop := from_option P True o.
Definition any {A} (a : A) : Prop := True.

Section Rules.
Context (I : World -> Prop) `{!Stable I}.

Lemma safe_ret {A} (P : A -> Prop) (a : A) : P a -> safe I P (mret a).
Proof. intros Ha w Hw. by split. Qed.

Lemma safe_bind {A B} (Q : A -> Prop) (P : B -> Prop) (m : M A) (k : A -> M B) :
  safe I Q m -> (forall a, Q a -> safe I P (k a)) -> safe I P (m ≫= k).
Proof.
  intros Hm Hk w Hw. specialize (Hm w Hw). unfold mbind, M_bind. destruct (m w) as [w'|e w'|a w']; [done..|].
  destruct Hm as [Ha Hw']. by apply Hk.
Qed.

Lemma safe_catch {A} (P : A -> Prop) (m : M A) h : safe I P m -> (forall e, safe I P (h e)) -> safe I P (catch m h).
Proof.
  intros Hm Hh w Hw. specialize (Hm w Hw). unfold catch. destruct (m w) as [w'|e w'|a w']; [done| |done].
  by apply Hh.
Qed.

Lemma safe_weaken {A} (P Q : A -> Prop) m : safe I Q m -> (forall a, Q a -> P a) -> safe I P m.
Proof.
  intros Hm Hq w Hw. specialize (Hm w Hw). destruct (m w); [done..|]. destruct Hm. auto.
Qed.

Lemma safe_get {A} (f : World -> A) (P : A -> Prop) : (forall w, I w -> P (f w)) -> safe I P (get f).
Proof. intros Hf w Hw. split; [by apply Hf|done]. Qed.

Lemma safe_modify f : (forall w, I w -> I (f w)) -> safe I any (modify f).
Proof. intros Hf w Hw. split; [done|by apply Hf]. Qed.

(** A change of what is typed or shown only. *)
Lemma safe_view f : (forall w, let w' := f w in sessionCounter w' = sessionCounter w /\ nodeModel w' = nodeModel w /\
                       activity w' = activity w /\ calls w' = calls w) -> safe I any (modify f).
Proof. intros Hf. apply safe_modify. intros w. destruct (Hf w) as (? & ? & ? & ?). by apply stable_view. Qed.

Lemma safe_logLine e : safe I any (logLine e).
Proof. apply safe_modify. intros w. apply stable_log. Qed.
Lemma safe_say cs : safe I any (say cs).
Proof. apply safe_logLine. Qed.

Lemma safe_bump : safe I byte_ok bump.
Proof.
  apply (safe_bind any); [apply safe_modify, stable_bump|]. intros [] _. apply safe_get. intros w Hw.
  apply (base_counter w), stable_base, Hw.
Qed.

Lemma safe_each {A} (f : A -> M unit) l : (forall a, a ∈ l -> safe I any (f a)) -> safe I any (each f l).
Proof.
  induction l as [|a l IH]; intros Hf; [by apply safe_ret|].
  apply (safe_bind any); [apply Hf; by left|]. intros [] _. apply IH. intros b Hb. apply Hf. by right.
Qed.

Section Calls.
Context `{Daemon} (Hreply : forall n c, reply_ok (reply n c)).

Lemma safe_callMethod m args : Forall arg_ok args -> safe I reply_ok (callMethod m args).
Proof.
  intros Ha w Hw. unfold callMethod. cbn zeta. destruct (failure _); [by apply stable_call|].
  split; [apply Hreply|by apply stable_call].
Qed.

Lemma safe_invoke m args : Forall arg_ok args -> safe I any (invoke m args).
Proof. intros Ha. apply (safe_bind reply_ok); [by apply safe_callMethod|]. intros r _. by apply safe_ret. Qed.

Lemma safe_fetch {A} m args (as_ : Reply -> option A) (P : A -> Prop) :
  Forall arg_ok args -> (forall r a, reply_ok r -> as_ r = Some a -> P a) -> safe I P (fetch m args as_).
Proof.
  intros Ha Hp. apply (safe_bind reply_ok); [by apply safe_callMethod|]. intros r Hr.
  destruct (as_ r) as [a|] eqn:E; [apply safe_ret; by eapply Hp|]. intros w Hw. exact Hw.
Qed.

End Calls.

(** *** Prompts *)

Lemma cstring_length t : (length (cstring t) <= length t)%nat.
Proof. induction t as [|c t IH]; cbn; [done|]. destruct (bool_decide _); cbn; lia. Qed.

(** The text stored fits its buffer. *)
Lemma safe_prompt label n : safe I (opt (fun t => (length t <= n - 1)%nat)) (prompt label n).
Proof.
  apply (safe_bind any); [by apply safe_view|]. intros [] _ w Hw. unfold getnstr.
  destruct (typed w) as [|line rest]; [done|]. split; [|by eapply stable_view; [..|exact Hw]].
  destruct line as [t|]; [|done]. cbn [fmap option_fmap option_map opt from_option]. unfold compose.
  pose proof (cstring_length (take (n - 1) t)). rewrite length_take in *. lia.
Qed.

Lemma safe_parsed {A} (P : A -> Prop) label n (parse : option text -> option A) :
  (forall line a, parse line = Some a -> P a) -> safe I (opt P) (got ← prompt label n; mret (parse got)).
Proof.
  intros Hp. eapply safe_bind; [apply safe_prompt|]. intros got _. apply safe_ret.
  destruct (parse got) eqn:E; [by eapply Hp|done].
Qed.

Lemma safe_promptByte label lo hi : 0 <= lo -> hi <= BYTE_MAX ->
  safe I (opt (fun n => lo <= n <= hi)) (promptByte label lo hi).
Proof. intros Hlo Hhi. apply safe_parsed. intros line n. by apply byteIn_range. Qed.

Lemma safe_promptInt32 label : safe I (opt (fun z => - INT_MAX - 1 <= z <= INT_MAX)) (promptInt32 label).
Proof.
  apply safe_parsed. intros [[|c s]|] z; try done. apply fromCharsInt_range.
Qed.

Lemma safe_promptText label : safe I any (promptText label).
Proof. eapply safe_bind; [apply safe_prompt|]. intros got _. by apply safe_ret. Qed.

Lemma safe_line {A} (P : A -> Prop) label (parse : option text -> option A) :
  (forall line a, parse line = Some a -> P a) -> safe I (opt P) (text ← promptText label; mret (parse text)).
Proof.
  intros Hp. apply (safe_bind any); [apply safe_promptText|]. intros got _. apply safe_ret.
  destruct (parse got) eqn:E; [by eapply Hp|done].
Qed.

Lemma safe_promptLine label : safe I any (promptLine label).
Proof. apply safe_promptText. Qed.

Lemma safe_promptU16 label : safe I (opt (fun n => 0 <= n <= Parse.U16_MAX)) (promptU16 label).
Proof. apply safe_line. intros [line|] n; [|done]. apply parseUint_range. Qed.
Lemma safe_promptU32 label : safe I (opt (fun n => 0 <= n <= Parse.U32_MAX)) (promptU32 label).
Proof. apply safe_line. intros [line|] n; [|done]. apply parseUint_range. Qed.
Lemma safe_promptChar label valid : safe I (opt any) (promptChar label valid).
Proof. by apply safe_line. Qed.

Lemma nodeList_range line l : Parse.nodeList line = Some l -> bytes_ok l.
Proof.
  unfold Parse.nodeList. destruct line; [|done]. destruct (Parse.nodes _ _) as [[|m ms]|] eqn:E; intros; simplify_eq.
  apply nodes_bytes. by eapply nodes_range.
Qed.

Lemma bytes_range fuel : forall s bs, Parse.bytes fuel s = Some bs -> bytes_ok bs.
Proof.
  induction fuel as [|fuel IH]; intros s bs; [done|]. cbn [Parse.bytes].
  destruct (extractToken s) as [[token s']|]; [|intros; simplify_eq; constructor].
  destruct (Parse.parseUint token Parse.BYTE_MAX) as [v|]; [|done].
  destruct (Parse.bytes fuel s') as [bs'|] eqn:E; [|done]. intros; simplify_eq. constructor; [apply u8_range|by eapply IH].
Qed.

Lemma byteList_range line l : Parse.byteList line = Some l -> bytes_ok l.
Proof.
  unfold Parse.byteList. destruct line; [|done]. destruct (Parse.bytes _ _) as [[|m ms]|] eqn:E; intros; simplify_eq.
  by eapply bytes_range.
Qed.

Lemma nodes_length fuel : forall s ms, Parse.nodes fuel s = Some ms -> (length ms <= fuel)%nat.
Proof.
  induction fuel as [|fuel IH]; intros s ms; [done|]. cbn [Parse.nodes]. destruct (member (extractInt s)) as [m|].
  - destruct (_ || _); [done|]. destruct (Parse.nodes _ _) as [ms'|] eqn:E; [|done]. intros; simplify_eq. apply IH in E. cbn. lia.
  - destruct (eof _); [|done]. intros; simplify_eq. cbn. lia.
Qed.

(** A list that is typed is short, too. *)
Lemma safe_promptNodes label : safe I (opt (fun l => bytes_ok l /\ (length l <= 255)%nat)) (promptNodeList label).
Proof.
  eapply safe_bind; [eapply safe_bind; [apply safe_prompt|]|].
  - intros got Hgot. apply (safe_ret (opt (fun t => (length t <= 63)%nat))).
    destruct got as [[|c t]|]; [done|exact Hgot|done].
  - intros [text|] Ht; [|by apply safe_ret]. apply safe_ret. destruct (Parse.nodeList _) as [l|] eqn:E; [|done].
    split; [by eapply nodeList_range|]. unfold Parse.nodeList in E.
    destruct (Parse.nodes _ _) as [[|m ms]|] eqn:En; simplify_eq. apply nodes_length in En.
    cbn [opt from_option] in Ht. lia.
Qed.

Lemma safe_promptNodeList label : safe I (opt bytes_ok) (promptNodeList label).
Proof. apply safe_line, nodeList_range. Qed.
Lemma safe_promptByteList label : safe I (opt bytes_ok) (promptByteList label).
Proof. apply safe_line, byteList_range. Qed.

Lemma safe_promptNodeId label : safe I (opt byte_ok) (promptNodeId label).
Proof.
  apply (safe_bind (opt byte_ok)).
  - apply safe_get. intros w Hw. unfold compose. destruct (selectedNodeId (nodeModel w)) as [n|] eqn:E; [|done].
    eapply selected_byte; [|exact E]. by apply (base_ids w), stable_base.
  - intros sel Hsel. apply (safe_parsed byte_ok _ _ (Parse.nodeId sel)). intros line n Hn.
    assert (Hv : value_ok sel FNode (VNum n)).
    { unfold Parse.nodeId in Hn. destruct (default [] line) as [|c s]; [by right|]. left.
      destruct (Parse.parseUint _ _) as [v|] eqn:E; [|done]. apply parseUint_range in E.
      destruct (Z.ltb_spec v Parse.NODE_ID_MIN); simplify_eq.
      unfold u8, NODE_ID_MIN, NODE_ID_MAX, Parse.NODE_ID_MIN, Parse.NODE_ID_MAX in *. rewrite Z.mod_small; lia. }
    apply (node_byte sel); [|exact Hv]. intros m Hm. by rewrite Hm in Hsel.
Qed.

Lemma safe_getch : safe I any getch.
Proof.
  intros w Hw. unfold getch. destruct (keys w); [done|]. split; [done|]. by eapply stable_view; [..|exact Hw].
Qed.

End Rules.

(** ** Following a program *)

(** What a reply of one kind holds. *)
Definition from {A} (as_ : Reply -> option A) (a : A) : Prop := exists r, reply_ok r /\ as_ r = Some a.

Section Fetched.
Context (I : World -> Prop) `{!Stable I} `{Daemon} (Hreply : forall n c, reply_ok (reply n c)).

Lemma safe_fetched {A} m args (as_ : Reply -> option A) (onError : text -> M unit) :
  Forall arg_ok args -> (forall e, safe I any (onError e)) ->
  safe I (opt (from as_)) (catch (a ← fetch m args as_; mret (Some a)) (fun err => onError err ;; mret None)).
Proof.
  intros Ha He. apply safe_catch.
  - apply (safe_bind I (from as_)); [|intros a Hf; by apply safe_ret].
    apply safe_fetch; [done..|]. intros r a Hr E. by exists r.
  - intros e. apply (safe_bind I any); [apply He|]. intros [] _. by apply safe_ret.
Qed.

Lemma safe_failed method err : safe I any (failed method err).
Proof. by apply safe_say. Qed.

Lemma safe_screen f : safe I any (modify (fun w => addScreen (f w) w)).
Proof. by apply safe_view. Qed.

End Fetched.

Lemma from_blob l : from as_blob l -> bytes_ok l.
Proof. intros ([] & Hr & E); by simplify_eq/=. Qed.
Lemma from_nodes l : from as_nodes l -> Forall (fun t => byte_ok (t_id t)) l.
Proof. intros ([] & Hr & E); by simplify_eq/=. Qed.
Lemma from_dongle d : from as_dongleInfo d -> byte_ok (d_controller d).
Proof. intros ([] & Hr & E); by simplify_eq/=. Qed.

(** A value fits its type. *)
Ltac fits :=
  cbn [arg_ok fst snd];
  first [done | apply text_bytes | by apply u8_range
        |repeat apply Forall_cons_2; try apply Forall_nil_2;
         unfold byte_ok, BYTE_MIN, BYTE_MAX, Parse.BYTE_MIN, Parse.BYTE_MAX, NODE_ID_MIN, NODE_ID_MAX,
           Parse.NODE_ID_MIN, Parse.NODE_ID_MAX, GROUP_ID_MIN, GROUP_ID_MAX, CONFIG_SIZE_MIN, CONFIG_SIZE_MAX,
           DURATION_DEFAULT, LIFELINE_GROUP, CALLBACK_ID_NONE, MODE_CLASSIC, FLAGS_NONE, Parse.U16_MAX, Parse.U32_MAX,
           INT_MAX in *; lia].
Ltac args := repeat (apply Forall_cons_2; [fits|]); apply Forall_nil_2.

Create HintDb safe.
#[export] Hint Resolve base_stable good_stable : safe.
#[export] Hint Resolve safe_say safe_logLine safe_failed safe_bump safe_promptNodeId safe_promptInt32 safe_promptText safe_promptLine
  safe_promptU16 safe_promptU32 safe_promptChar safe_promptNodeList safe_promptByteList safe_getch : safe.

(** One instruction. *)
Ltac atom :=
  first [solve [eauto 2 with safe]
        |apply safe_promptByte; first [exact _|fits]
        |apply safe_invoke; first [assumption|exact _|args]
        |apply safe_fetched; first [assumption|exact _|args|intros; solve [eauto 2 with safe]]
        |apply safe_screen; exact _].

(** The next instruction of the program, or the branches of a choice. *)
Ltac step :=
  lazymatch goal with
  | |- safe _ _ (mret _) => apply safe_ret; done
  | |- safe _ _ (catch _ _) => first [atom|apply safe_catch; [|intros ?]]
  | |- safe _ _ (each _ _) => apply safe_each; try done; intros ? ?
  | |- safe _ _ (_ ≫= _) =>
      first [eapply safe_bind; [atom|intros ? ?; cbv beta]|apply (safe_bind _ any); [|intros [] _; cbv beta]]
  | |- safe _ _ (match ?x with _ => _ end) =>
      first [match goal with Ho : opt _ x |- _ => destruct x; cbn [opt from_option] in Ho end
            |is_var x; destruct x|destruct x eqn:?]
  | |- safe _ _ (match ?x with _ => _ end _) =>
      first [match goal with Ho : opt _ x |- _ => destruct x; cbn [opt from_option] in Ho end|destruct x]; cbv beta
  | |- _ => atom
  end.
Ltac safely := cbv zeta; repeat step.

Import PolicyRegister.Policy.

(** What an encoded policy is made of. *)
Lemma byte_const z : (0 <=? z) && (z <? 256) = true -> byte_ok z.
Proof. intros [?%Z.leb_le ?%Z.ltb_lt]%andb_true_iff. by split. Qed.

Lemma u32Bytes_ok v : 0 <= v < 4294967296 -> bytes_ok (u32Bytes v).
Proof.
  intros Hv. destruct (u32Bytes_be v Hv) as (a & b & c & d & -> & ? & ? & ? & ? & _). by repeat apply Forall_cons_2.
Qed.

Lemma entryBytes_ok e : entry_ok e -> bytes_ok (entryBytes e).
Proof.
  destruct e as [p s g v|g ms|i n]; cbn [entry_ok entryBytes]; unfold appendU32Be.
  - intros (Hp & Hs & Hv). apply Forall_app. split; [|apply u32Bytes_ok, u32_range].
    repeat apply Forall_cons_2; [by apply byte_const|done|done|by destruct g; apply byte_const|apply Forall_nil_2].
  - intros (Hg & Hms & Hl). repeat apply Forall_cons_2; [by apply byte_const|done|apply u8_range|done].
  - intros (Hi & Hn). repeat apply Forall_app_2; [|by apply u32Bytes_ok|by constructor]. constructor; [by apply byte_const|constructor].
Qed.

Lemma serialize_bytes p : Forall entry_ok p -> bytes_ok (serialize p).
Proof.
  intros Hp. unfold serialize. repeat apply Forall_cons_2; [by apply byte_const|apply u8_range|].
  induction Hp as [|e p He _ IH]; [constructor|]. cbn [flat_map]. apply Forall_app. split; [by apply entryBytes_ok|done].
Qed.

(** An entry of the daemon's, in the client's form. *)
Definition proper (pe : Blob.PolicyEntry) : Prop := exists e, entry_ok e /\ pe = clientEntry e.

Lemma applied_bytes `{Oob} bytes pe blob replaced : bytes_ok bytes -> proper pe ->
  Blob.applyEntryToBlob bytes pe = Some (blob, replaced) -> bytes_ok blob.
Proof.
  intros Hb (e & He & ->). rewrite applyEntryToBlob_agrees. destruct (stored bytes) as [p|] eqn:E; [|done].
  cbn. intros; simplify_eq. destruct (stored_ok _ _ Hb E) as [Hp _]. apply serialize_bytes. by apply applyOverride_ok.
Qed.

