(* ===== verification/TerminalNodes.v ===== *)
(** * The terminal client: the node list follows the daemon

    What [refreshNodes], [refreshValues] and [moveSelection] of [nodes.cpp] do to the list
    and its selection, and the list after a signal that marked it. *)

From Stdlib Require Import String Ascii.
From S2P Require Import Prelude Config TerminalText TerminalConsole TerminalFormat TerminalHandlers.
From S2P Require Import TerminalPolicy TerminalRender TerminalScenes TerminalSignals TerminalMain.
From S2P Require Import TerminalLogic.
From stdpp Require Import strings.
#[local] Open Scope Z_scope.

Section NodeList.
Context `{Daemon}.

Definition ids (m : NodeModel) : list Z := id <$> rows m.

Lemma ids_bytes m : ids_ok m <-> Forall byte_ok (ids m).
Proof. unfold ids. by rewrite Forall_fmap. Qed.

(** A call by which the client asks for the nodes, their names or their values. *)
Definition fetching (c : Call) : Prop :=
  method c ∈ [lit "GetNodes"; lit "GetNodeMetadata"; lit "GetNodeValues"].

(** [w'] is [w] after such calls and log lines, its model being [m]. *)
Record moved (m : NodeModel) (w w' : World) : Prop := mkMoved {
  moved_model : nodeModel w' = m;
  moved_counter : sessionCounter w' = sessionCounter w;
  moved_typed : typed w' = typed w /\ keys w' = keys w;
  moved_calls : exists cs, calls w' = calls w ++ cs /\ Forall call_ok cs /\ Forall fetching cs;
  moved_log : exists es, activity w' = foldl (fun a e => logOn e a) (activity w) es }.

Lemma moved_refl w : moved (nodeModel w) w w.
Proof. split; [done..| |]; exists []; [by rewrite app_nil_r|done]. Qed.

Lemma moved_trans m1 m2 w w1 w2 : moved m1 w w1 -> moved m2 w1 w2 -> moved m2 w w2.
Proof.
  intros [_ Hc [Ht Hk] (cs & Ek & Hcs & Hfs) (es & Ea)] [Hm' Hc' [Ht' Hk'] (cs' & Ek' & Hcs' & Hfs') (es' & Ea')].
  split; [done|congruence|split; congruence| |].
  - exists (cs ++ cs'). split; [by rewrite Ek', Ek, app_assoc|by rewrite !Forall_app].
  - exists (es ++ es'). by rewrite foldl_app, <- Ea.
Qed.

Lemma moved_set f w : moved (f (nodeModel w)) w (setModel (f (nodeModel w)) w).
Proof. split; [done..| |]; exists []; [by rewrite app_nil_r|done]. Qed.

Lemma moved_call c w : call_ok c -> fetching c -> moved (nodeModel w) w (addCall c w).
Proof. intros Hc Hf. split; [done..| |]; [exists [c]; by rewrite !Forall_singleton|by exists []]. Qed.

Lemma moved_line e w : moved (nodeModel w) w (setActivity (logOn e (activity w)) w).
Proof. split; [done..| |]; [exists []; by rewrite app_nil_r|by exists [e]]. Qed.

Lemma logged_more es : forall a, (length (log a) <= MAX_LOG_LINES)%nat ->
  (length (log (foldl (fun a e => logOn e a) a es)) <= MAX_LOG_LINES)%nat /\
  dskPending (foldl (fun a e => logOn e a) a es) = dskPending a /\
  nodesDirty (foldl (fun a e => logOn e a) a es) = nodesDirty a.
Proof.
  induction es as [|e es IH]; intros a Ha; [done|]. cbn [foldl]. destruct (IH (logOn e a)) as (? & E & E'); [by apply logged_length|].
  split_and!; [done|by rewrite E|by rewrite E'].
Qed.

Lemma moved_good m w w' : base w -> ids_ok m -> selection_ok m -> moved m w w' -> good w'.
Proof.
  intros [_ Hk Hc Hd Hl] Hi Hs [Em Ec _ (cs & Ek & Hcs & _) (es & Ea)]. destruct (logged_more es (activity w) Hl) as (Hl' & Hd' & _).
  split; [|by rewrite Em]. split; rewrite ?Em, ?Ec, ?Ek, ?Ea, ?Hd'; try done. by apply Forall_app.
Qed.

(** A call whose failure is logged or passed over: its result, if there is one. *)
Definition answer {A} (as_ : Reply -> option A) (r : Reply) : option A :=
  match failure r with Some _ => None | None => as_ r end.

Lemma called_done {A B} method args (as_ : Reply -> option A) (f : A -> B) (cs : text -> list Chunk) (quiet : bool) (b : B) w :
  Forall arg_ok args -> lit method ∈ [lit "GetNodes"; lit "GetNodeMetadata"; lit "GetNodeValues"] ->
  exists w', (try_ (a ← fetch method args as_; mret (f a))
              catch_ err => (if quiet then mret b else say (cs err) ;; mret b)) w
             = Done (default b (f <$> answer as_ (reply (length (calls w)) (mkCall (lit method) args)))) w' /\
    moved (nodeModel w) w w'.
Proof.
  intros Ha Hf. unfold fetch, catch, callMethod, answer, mbind, M_bind. cbn zeta. set (c := mkCall (lit method) args).
  assert (Hm : moved (nodeModel w) w (addCall c w)) by by apply moved_call.
  assert (Hlater : forall e, exists w', (if quiet then mret b else say (cs e) ;; mret b) (addCall c w) = Done b w' /\
                     moved (nodeModel w) w w').
  { intros e. destruct quiet; eexists; (split; [reflexivity|]); [done|].
    eapply moved_trans; [exact Hm|]. exact (moved_line _ (addCall c w)). }
  destruct (failure (reply (length (calls w)) c)) as [what|]; [apply Hlater|].
  destruct (as_ (reply (length (calls w)) c)) as [a|]; [by exists (addCall c w)|apply Hlater].
Qed.

(** A row is added for a tuple. *)
Lemma pushRow_done t w : byte_ok (t_id t) ->
  exists w' row, pushRow t w = Done tt w' /\ id row = t_id t /\
    moved (mkNodeModel (rows (nodeModel w) ++ [row]) (selected (nodeModel w))) w w'.
Proof.
  intros Ht. unfold pushRow.
  destruct (called_done "GetNodeMetadata" [AByte (t_id t)] as_pairs (fun meta => nameIn meta []) (fun _ => []) true [] w)
    as (w1 & E & Hm); [args|set_solver|]. rewrite (bind_done _ _ _ _ _ E). set (name := default [] _). set (row := mkNodeRow (t_id t) (t_basic t) (t_generic t) (t_specific t) (t_ccs t) name [] []).
  eexists _, row. split; [reflexivity|]. split; [done|]. eapply moved_trans; [exact Hm|]. rewrite <- (moved_model _ _ _ Hm).
  exact (moved_set (fun m => mkNodeModel (rows m ++ [row]) (selected m)) w1).
Qed.

Lemma pushRows_done l : forall w, Forall (fun t => byte_ok (t_id t)) l ->
  exists w' new, each pushRow l w = Done tt w' /\ id <$> new = t_id <$> l /\
    moved (mkNodeModel (rows (nodeModel w) ++ new) (selected (nodeModel w))) w w'.
Proof.
  induction l as [|t l IH]; intros w Hl.
  - exists w, []. rewrite app_nil_r. split; [done|]. split; [done|]. pose proof (moved_refl w). by destruct (nodeModel w).
  - apply Forall_cons in Hl as [Ht Hl]. destruct (pushRow_done t w Ht) as (w1 & row & E & Er & Hm).
    destruct (IH w1 Hl) as (w2 & new & E2 & En & Hm2). rewrite (moved_model _ _ _ Hm) in Hm2. cbn in Hm2.
    exists w2, (row :: new). cbn [each]. rewrite (bind_done _ _ _ _ _ E). split; [done|]. split; [cbn; congruence|].
    rewrite <- app_assoc in Hm2. exact (moved_trans _ _ _ _ _ Hm Hm2).
Qed.

Lemma indexOf_spec n rs :
  match indexOf n rs with Some i => id <$> rs !! i = Some n | None => n ∉ (id <$> rs) end.
Proof.
  induction rs as [|r rs IH]; [by apply not_elem_of_nil|]. cbn. destruct (Z.eqb_spec (id r) n) as [<-|Hne]; [done|].
  destruct (indexOf n rs) as [i|]; [done|]. cbn. by apply not_elem_of_cons.
Qed.

(** The list after an answer: its tuples in order; the selected node stays selected if it
    is among them, else the first is. *)
Record refreshed (l : list NodeTuple) (m m' : NodeModel) : Prop := mkRefreshed {
  refreshed_ids : ids m' = t_id <$> l;
  refreshed_kept n : selectedNodeId m = Some n -> n ∈ t_id <$> l -> selectedNodeId m' = Some n;
  refreshed_first : (forall n, selectedNodeId m = Some n -> n ∉ t_id <$> l) -> selected m' = O }.

Lemma refreshNodes_done (Hreply : forall n c, reply_ok (reply n c)) w :
  exists w' m, refreshNodes w = Done tt w' /\ moved m w w' /\
    match answer as_nodes (reply (length (calls w)) (mkCall (lit "GetNodes") [])) with
    | Some l => refreshed l (nodeModel w) m /\ selection_ok m /\ ids_ok m
    | None => m = nodeModel w
    end.
Proof.
  unfold refreshNodes.
  destruct (called_done "GetNodes" [] as_nodes Some (fun err => [S_ "GetNodes failed: "; T_ err]) false None w)
    as (w1 & E & Hm); [args|set_solver|]. rewrite (bind_done _ _ _ _ _ E). clear E.
  destruct (answer _ _) as [l|] eqn:El; [|by exists w1, (nodeModel w)]. cbn [fmap option_fmap option_map default from_option].
  assert (Hl : Forall (fun t => byte_ok (t_id t)) l).
  { unfold answer in El. destruct (failure _); [done|]. apply from_nodes. by eexists. }
  pose proof (moved_set (fun m => mkNodeModel [] (selected m)) w1) as Hm2.
  set (w2 := setModel (mkNodeModel [] (selected (nodeModel w1))) w1) in Hm2.
  destruct (pushRows_done l w2 Hl) as (w3 & new & E & En & Hm3).
  set (sel := selectedNodeId (nodeModel w1)).
  set (m := mkNodeModel (rows (nodeModel w3)) (default O (match sel with None => None | Some n => indexOf n (rows (nodeModel w3)) end))).
  exists (setModel m w3), m. pose proof (moved_trans _ _ _ _ _ (moved_trans _ _ _ _ _ Hm Hm2) Hm3) as H13.
  assert (Er : rows (nodeModel w3) = new) by by rewrite (moved_model _ _ _ Hm3).
  split_and!.
  - change ((each pushRow l ;; modify (fun w => let m := nodeModel w in
              setModel (mkNodeModel (rows m) (default O (match sel with None => None | Some n => indexOf n (rows m) end))) w)) w2
            = Done () (setModel m w3)).
    by rewrite (bind_done _ _ _ _ _ E).
  - eapply moved_trans; [exact H13|]. apply (moved_set (fun _ => m) w3).
  - assert (Es : sel = selectedNodeId (nodeModel w)) by (unfold sel; by rewrite (moved_model _ _ _ Hm)).
    unfold m. rewrite Er. split; rewrite <- ?Es; [done| |]; cbn [selected].
    + intros n -> Hn. unfold selectedNodeId. cbn [rows selected]. rewrite <- En in Hn. pose proof (indexOf_spec n new) as Hi. by destruct (indexOf n new).
    + intros Hn. destruct sel as [n|]; [|done]. specialize (Hn n eq_refl). rewrite <- En in Hn.
      pose proof (indexOf_spec n new) as Hi. destruct (indexOf n new) as [i|]; [|done]. cbn in Hi.
      exfalso. apply Hn. destruct (new !! i) as [r|] eqn:Ei; [|done]. cbn in Hi. injection Hi as <-.
      apply list_elem_of_fmap. exists r. split; [done|]. by eapply list_elem_of_lookup_2.
  - unfold selection_ok, m. cbn [rows selected]. rewrite Er. intros Hne.
    assert (0 < length new)%nat by (destruct new; [done|cbn; lia]). destruct sel as [n|]; [|done].
    pose proof (indexOf_spec n new) as Hi. destruct (indexOf n new) as [i|]; [|done]. cbn.
    apply lookup_lt_is_Some. destruct (new !! i); [done|by cbn in Hi].
  - apply ids_bytes. unfold ids, m. cbn [rows]. rewrite Er, En. by apply Forall_fmap.
Qed.

(** Fetching values leaves the rows and the selection. *)
Lemma refreshRow_done i w : ids_ok (nodeModel w) ->
  exists w' m, refreshRow i w = Done tt w' /\ moved m w w' /\ ids m = ids (nodeModel w) /\
    selected m = selected (nodeModel w).
Proof.
  intros Hi. unfold refreshRow. match goal with |- context [(get ?f ≫= ?k) w] => rewrite (bind_done (get f) k w (f w) w eq_refl) end.
  destruct (rows (nodeModel w) !! i) as [row|] eqn:Er; [|exists w, (nodeModel w); by pose proof (moved_refl w)].
  assert (Hrow : byte_ok (id row)) by by apply (Forall_lookup_1 _ _ _ _ Hi Er).
  destruct (called_done "GetNodeValues" [AByte (id row)] as_values Some (fun err => [S_ "GetNodeValues failed: "; T_ err]) false None w)
    as (w1 & E & Hm); [args|set_solver|]. rewrite (bind_done _ _ _ _ _ E).
  destruct (answer _ _) as [l|]; [|exists w1, (nodeModel w); by split_and!].
  cbn [fmap option_fmap option_map default from_option].
  eexists _, _. split; [reflexivity|]. split; [eapply moved_trans; [exact Hm|apply (moved_set (fun _ => _) w1)]|].
  rewrite (moved_model _ _ _ Hm). split; [|done]. unfold ids. cbn [rows]. rewrite list_fmap_insert. cbn [id].
  apply list_insert_id. by rewrite list_lookup_fmap, Er.
Qed.

Lemma refreshRows_done rs : forall w, ids_ok (nodeModel w) ->
  exists w' m, each refreshRow rs w = Done tt w' /\ moved m w w' /\ ids m = ids (nodeModel w) /\
    selected m = selected (nodeModel w).
Proof.
  induction rs as [|i rs IH]; intros w Hi.
  - exists w, (nodeModel w). pose proof (moved_refl w). done.
  - destruct (refreshRow_done i w Hi) as (w1 & m1 & E1 & Hm1 & Hid1 & Hs1). pose proof (moved_model _ _ _ Hm1) as Em.
    destruct (IH w1) as (w2 & m2 & E2 & Hm2 & Hid2 & Hs2).
    { apply ids_bytes. rewrite Em, Hid1. by apply ids_bytes. }
    exists w2, m2. cbn [each]. rewrite (bind_done _ _ _ _ _ E1). split; [done|]. rewrite Em in *.
    split; [by eapply moved_trans|]. split; congruence.
Qed.

Lemma refreshValues_done w : ids_ok (nodeModel w) ->
  exists w' m, refreshValues w = Done tt w' /\ moved m w w' /\ ids m = ids (nodeModel w) /\
    selected m = selected (nodeModel w).
Proof. apply refreshRows_done. Qed.

Lemma moveSelection_ok delta m : selection_ok m -> selection_ok (moveSelection delta m).
Proof.
  unfold selection_ok, moveSelection. destruct (rows m) as [|r rs] eqn:E; [by rewrite E|]. cbn [rows selected].
  intros Hs _. specialize (Hs ltac:(done)). cbn [length] in *. lia.
Qed.

(** ** After a signal *)

(** The signals after which the list is out of date: a completed inclusion or exclusion
    (status 6), and the result of removing a failed node (any phase but the first). *)
Definition marks (s : Signal) : bool :=
  match s with
  | NodeInclusionStatus _ status _ _ _ _ _ | NodeExclusionStatus _ status _ _ _ _ _ => status =? 6
  | RemoveFailedNodeStatus _ _ phase _ => negb (phase =? 0)
  | _ => false
  end.

Lemma marks_effect s a : marks s = true ->
  signalEffect s a = markNodes a /\ (forall n k, s <> AssociationGroupingsReport n k).
Proof. destruct s; try done; cbn; unfold Format.STATUS_COMPLETED; by intros ->. Qed.

Context `{Oob} `{Display} `{Clock}.

Lemma onSignal_marks s w : marks s = true ->
  exists w', onSignal s w = Done tt w' /\ calls w' = calls w /\ nodeModel w' = nodeModel w /\
    typed w' = typed w /\ keys w' = keys w /\ nodesDirty (activity w') = true.
Proof.
  intros Hs. destruct (marks_effect s (activity w) Hs) as [He Hn]. unfold onSignal, modify, mbind, M_bind. rewrite He.
  destruct (signalLine s) as [line|]; destruct s; try done; eexists; (split; [reflexivity|done]).
Qed.

(** What a turn does with its key, once the screen is drawn and the list refreshed. *)
Definition acted (key : Z) (ui : Ui) : M Ui :=
  if key =? ERR then mret ui
  else try_ (press key ui) catch_ err => (say [S_ "D-Bus call failed: "; T_ err] ;; mret ui).

Lemma moved_fetched l w0 w1 w2 w3 : calls w1 = calls w0 -> typed w1 = typed w0 -> keys w1 = keys w0 ->
  moved (nodeModel w2) w1 w2 -> refreshed l (nodeModel w0) (nodeModel w2) ->
  selection_ok (nodeModel w2) -> ids_ok (nodeModel w2) ->
  moved (nodeModel w3) w2 w3 -> ids (nodeModel w3) = ids (nodeModel w2) ->
  selected (nodeModel w3) = selected (nodeModel w2) ->
  refreshed l (nodeModel w0) (nodeModel w3) /\ selection_ok (nodeModel w3) /\ ids_ok (nodeModel w3) /\
  typed w3 = typed w0 /\ keys w3 = keys w0 /\ calls w0 `prefix_of` calls w3.
Proof.
  intros Ec Et Ek Hm Hf Hs Hi Hm' Eid Esel. destruct (moved_trans _ _ _ _ _ Hm Hm') as [_ _ [Ht Hk] (cs & Hc & _ & _) _].
  assert (Hlen : length (rows (nodeModel w3)) = length (rows (nodeModel w2))).
  { rewrite <- (length_fmap id), <- (length_fmap id (rows (nodeModel w2))). by apply (f_equal length) in Eid. }
  assert (Hsid : selectedNodeId (nodeModel w3) = selectedNodeId (nodeModel w2)).
  { unfold selectedNodeId. rewrite <- !list_lookup_fmap. fold (ids (nodeModel w3)). by rewrite Eid, Esel. }
  split_and!; [|intros Hne; rewrite Esel, Hlen; apply Hs; intros E; apply Hne; by apply nil_length_inv; rewrite Hlen, E
               |apply ids_bytes; rewrite Eid; by apply ids_bytes|congruence..|by exists cs; rewrite Hc, Ec].
  destruct Hf as [Hf1 Hf2 Hf3]. split; rewrite ?Eid, ?Hsid, ?Esel; done.
Qed.

(** C37: the list follows the daemon.  After a signal that a node has joined, has left
    or was removed, the next turn of the loop fetches the nodes before anything else,
    whatever its key is (none, a key of the menus, any other) and whatever is typed
    after it: what the key does, it does to a list that is the daemon's, in its order,
    where the node that was selected is still selected as long as it is there, with all
    that was typed still to be read. *)
Theorem list_follows s key more l ui w :
  (forall n c, reply_ok (reply n c)) -> marks s = true -> running ui = true ->
  reply (length (calls w)) (mkCall (lit "GetNodes") []) = Nodes l ->
  exists w', session (Signalled s :: Turn key :: more) ui w = (ui' ← acted key ui; session more ui') w' /\
    refreshed l (nodeModel w) (nodeModel w') /\ selection_ok (nodeModel w') /\ ids_ok (nodeModel w') /\
    typed w' = typed w /\ keys w' = keys w /\ calls w `prefix_of` calls w'.
Proof.
  intros Hreply Hs Hr Hl. destruct (onSignal_marks s w Hs) as (w1 & E1 & Hc1 & Hm1 & Ht1 & Hk1 & Hd1). cbn [session].
  rewrite (bind_done _ _ _ _ _ E1), Hr. clear E1.
  set (w2 := setActivity (setDirty false (valuesDirty (activity w1)) (activity w1))
               (addScreen (Render.draw (lastSession ui) (activity w1) (nodeModel w1)) w1)).
  destruct (refreshNodes_done Hreply w2) as (w3 & m3 & E3 & Hm3 & Ha).
  change (calls w2) with (calls w1) in Ha. rewrite Hc1, Hl in Ha. cbn [answer failure as_nodes] in Ha.
  change (nodeModel w2) with (nodeModel w1) in Ha. rewrite Hm1 in Ha. destruct Ha as (Hf & Hsel & Hids).
  pose proof (moved_model _ _ _ Hm3) as Em3. subst m3.
  destruct (refreshValues_done w3 Hids) as (w4 & m4 & E4 & Hm4 & Hid4 & Hs4).
  pose proof (moved_model _ _ _ Hm4) as Em4. subst m4.
  exists w4. split; [|by eapply (moved_fetched l w w2 w3)].
  assert (Et : turn key ui w1 = acted key ui w4).
  { change (turn key ui w1) with ((refreshMarked ;; acted key ui) (addScreen (Render.draw (lastSession ui) (activity w1) (nodeModel w1)) w1)).
    rewrite (bind_done refreshMarked _ _ tt w4); [done|]. unfold refreshMarked.
    match goal with |- (get ?f ≫= ?k) ?u = _ => rewrite (bind_done (get f) k u (f u) u eq_refl) end.
    change (activity (addScreen _ w1)) with (activity w1). rewrite Hd1.
    change ((refreshNodes ;; refreshValues) w2 = Done () w4). by rewrite (bind_done _ _ _ _ _ E3). }
  unfold mbind, M_bind. by rewrite Et.
Qed.

End NodeList.

(** The node with id 7 joins while the operator presses the key for one row down: the row
    left is that of node 5, the second one now, and node 7 is selected. *)
Lemma list_follows_witness :
  let node n := mkNodeTuple n 4 16 1 [0x25] in
  let d : Daemon := {| reply _ c := if bool_decide (method c = lit "GetNodes") then Nodes [node 3; node 5; node 7]
                                    else Failed []; mismatch := [] |} in
  let row n := mkNodeRow n 4 16 1 [] [] [] [] in
  let w := setModel (mkNodeModel [row 5] 0) (typing []) in
  let s := NodeInclusionStatus 1 Format.STATUS_COMPLETED 7 4 16 1 [] in
  let ui := mkUi 1 true true in
  marks s = true /\
  (exists w', @session d 0 {| maxX := 80; maxY := 24; hasColors := true |} 0 [Signalled s; Turn KEY_DOWN] ui w
    = (ui' ← @acted d 0 {| maxX := 80; maxY := 24; hasColors := true |} 0 KEY_DOWN ui; mret ui') w' /\
    ids (nodeModel w') = [3; 5; 7] /\ selectedNodeId (nodeModel w') = Some 5) /\
  selectedNodeId (nodeModel (worldOf (@session d 0 {| maxX := 80; maxY := 24; hasColors := true |} 0
    [Signalled s; Turn KEY_DOWN] ui w))) = Some 7.
Proof.
  intros node d row w s ui. split; [reflexivity|]. split; [|vm_compute; reflexivity].
  assert (Hr : forall n c, reply_ok (@reply d n c)).
  { intros n c. cbn. destruct (bool_decide _); [|done]. cbn. repeat apply Forall_cons_2; try apply Forall_nil_2; by apply byte_const. }
  destruct (@list_follows d 0 {| maxX := 80; maxY := 24; hasColors := true |} 0 s KEY_DOWN [] [node 3; node 5; node 7] ui w
              Hr (eq_refl : marks s = true) eq_refl eq_refl)
    as (w' & E & [Hi Hk _] & _).
  exists w'. split; [exact E|]. split; [exact Hi|]. apply Hk; [reflexivity|]. right. left.
Defined.
