(* ===== verification/TerminalSafety.v ===== *)
(** * The terminal client: the actions on one node keep the invariants

    Every handler of [TerminalHandlers] keeps the invariants of [TerminalLogic]. *)

From Stdlib Require Import String Ascii.
From S2P Require Import Prelude Config PolicyRegister PolicyBlob TerminalText TerminalConsole.
From S2P Require Import TerminalFormat TerminalHandlers TerminalPolicy TerminalRender TerminalScenes.
From S2P Require Import TerminalSignals TerminalMain TerminalLogic.
From stdpp Require Import strings.
#[local] Open Scope Z_scope.

Section Programs.
Context (I : World -> Prop) `{!Stable I} `{Daemon} (Hreply : forall n c, reply_ok (reply n c)).

(** *** The actions on one node *)

Lemma safe_handleSwitchBinary b : safe I any (handleSwitchBinary b).
Proof. unfold handleSwitchBinary. safely. Qed.
Lemma safe_handleSetMultilevelSwitch : safe I any handleSetMultilevelSwitch.
Proof. unfold handleSetMultilevelSwitch. safely. Qed.
Lemma safe_handleGetMultilevelSwitch : safe I any handleGetMultilevelSwitch.
Proof. unfold handleGetMultilevelSwitch. safely. Qed.
Lemma safe_handleSimpleGet s : safe I any (handleSimpleGet s).
Proof. unfold handleSimpleGet. safely. Qed.
Lemma safe_handleGetConfiguration : safe I any handleGetConfiguration.
Proof. unfold handleGetConfiguration. safely. Qed.
Lemma safe_handleGetNotification : safe I any handleGetNotification.
Proof. unfold handleGetNotification. safely. Qed.
Lemma safe_handleGetMeter : safe I any handleGetMeter.
Proof. unfold handleGetMeter. safely. Qed.
Lemma safe_handleGetColorSwitch : safe I any handleGetColorSwitch.
Proof. unfold handleGetColorSwitch. safely. Qed.
Lemma safe_handleSetColorSwitch : safe I any handleSetColorSwitch.
Proof. unfold handleSetColorSwitch. safely. Qed.
Lemma safe_handleSetDoorLock : safe I any handleSetDoorLock.
Proof. unfold handleSetDoorLock. safely. Qed.
Lemma safe_handleGetUserCode : safe I any handleGetUserCode.
Proof. unfold handleGetUserCode. safely. Qed.
Lemma safe_handleSetUserCode : safe I any handleSetUserCode.
Proof. unfold handleSetUserCode. safely. Qed.
Lemma safe_handleSetIndicator : safe I any handleSetIndicator.
Proof. unfold handleSetIndicator. safely. Qed.
Lemma safe_handleGetMultiChannelCapability : safe I any handleGetMultiChannelCapability.
Proof. unfold handleGetMultiChannelCapability. safely. Qed.
Lemma safe_handleSetBasic : safe I any handleSetBasic.
Proof. unfold handleSetBasic. safely. Qed.
Lemma safe_handleSetThermostatMode : safe I any handleSetThermostatMode.
Proof. unfold handleSetThermostatMode. safely. Qed.
Lemma safe_handleGetThermostatSetpoint : safe I any handleGetThermostatSetpoint.
Proof. unfold handleGetThermostatSetpoint. safely. Qed.
Lemma safe_handleSetThermostatSetpoint : safe I any handleSetThermostatSetpoint.
Proof. unfold handleSetThermostatSetpoint. safely. Qed.
Lemma safe_handleSetThermostatFanMode : safe I any handleSetThermostatFanMode.
Proof. unfold handleSetThermostatFanMode. safely. Qed.
Lemma safe_handleSetConfiguration : safe I any handleSetConfiguration.
Proof. unfold handleSetConfiguration. safely. Qed.
Lemma safe_handleSetWakeUpInterval : safe I any handleSetWakeUpInterval.
Proof. unfold handleSetWakeUpInterval. safely. Qed.
Lemma safe_handleAssociationEdit s : safe I any (handleAssociationEdit s).
Proof. unfold handleAssociationEdit. safely. Qed.
Lemma safe_handleGetAssociationGroupings : safe I any handleGetAssociationGroupings.
Proof. unfold handleGetAssociationGroupings. safely. Qed.
Lemma safe_handleGetAssociation : safe I any handleGetAssociation.
Proof. unfold handleGetAssociation. safely. Qed.
Lemma safe_handleRemoveFailedNode : safe I any handleRemoveFailedNode.
Proof. unfold handleRemoveFailedNode. safely. Qed.

End Programs.

#[export] Hint Resolve safe_handleSwitchBinary safe_handleSetMultilevelSwitch safe_handleGetMultilevelSwitch safe_handleSimpleGet safe_handleGetConfiguration safe_handleGetNotification safe_handleGetMeter safe_handleGetColorSwitch safe_handleSetColorSwitch safe_handleSetDoorLock safe_handleGetUserCode safe_handleSetUserCode safe_handleSetIndicator safe_handleGetMultiChannelCapability safe_handleSetBasic safe_handleSetThermostatMode safe_handleGetThermostatSetpoint safe_handleSetThermostatSetpoint safe_handleSetThermostatFanMode safe_handleSetConfiguration safe_handleSetWakeUpInterval safe_handleAssociationEdit safe_handleGetAssociationGroupings safe_handleGetAssociation safe_handleRemoveFailedNode : safe.
