(* ===== verification/TerminalMenus.v ===== *)
(** * The terminal client: the other handlers keep the invariants

    The handlers of [TerminalPolicy] and [TerminalScenes] keep the invariants of
    [TerminalLogic]. *)

From Stdlib Require Import String Ascii.
From S2P Require Import Prelude Config PolicyRegister PolicyBlob TerminalText TerminalConsole.
From S2P Require Import TerminalFormat TerminalHandlers TerminalPolicy TerminalRender TerminalScenes.
From S2P Require Import TerminalSignals TerminalMain TerminalLogic.
From stdpp Require Import strings.
#[local] Open Scope Z_scope.

Import PolicyRegister.Policy.

Section Programs.
Context (I : World -> Prop) `{!Stable I} `{Daemon} (Hreply : forall n c, reply_ok (reply n c)).

(** *** Policies *)

Lemma safe_fetchControllerNodeId : safe I (opt byte_ok) fetchControllerNodeId.
Proof.
  unfold fetchControllerNodeId. apply (safe_bind _ (opt (from as_dongleInfo))); [atom|].
  intros [d|] Hd; apply safe_ret; [|done]. destruct (d_controller d =? 0); [done|]. by apply from_dongle.
Qed.
Hint Resolve safe_fetchControllerNodeId : safe.

Lemma safe_handleSetLifeline : safe I any handleSetLifeline.
Proof. unfold handleSetLifeline. safely. Qed.

Context `{Oob}.

Lemma safe_logPolicy header bytes : safe I any (logPolicy header bytes).
Proof. unfold logPolicy. safely. Qed.
Hint Resolve safe_logPolicy : safe.

Lemma safe_readBlob method args what : Forall arg_ok args -> safe I (opt bytes_ok) (readBlob method args what).
Proof.
  intros Ha. eapply safe_weaken; [by apply safe_fetched; [..|intros; apply safe_say]|].
  intros [l|]; [|done]. apply from_blob.
Qed.

Lemma safe_promptPolicyEntry : safe I (opt proper) promptPolicyEntry.
Proof.
  unfold promptPolicyEntry. eapply safe_bind; [atom|]. intros [kind|] _; [|safely]. case_bool_decide; [|case_bool_decide].
  - eapply safe_bind; [atom|]. intros p Hp. eapply safe_bind; [atom|]. intros s Hs. eapply safe_bind; [atom|]. intros v Hv.
    destruct p as [p|], s as [s|], v as [v|]; try safely. apply safe_ret.
    exists (ConfigurationEntry p s (v <? 0) v). split; [|done]. cbn [opt from_option] in *. cbn [entry_ok]. repeat split; fits.
  - eapply safe_bind; [atom|]. intros g Hg. eapply safe_bind; [by apply safe_promptNodes|]. intros ms Hms.
    destruct g as [g|], ms as [ms|]; try safely. apply safe_ret.
    exists (AssociationEntry g ms). split; [|done]. cbn [opt from_option] in *. destruct Hms. cbn [entry_ok]. repeat split; fits.
  - eapply safe_bind; [atom|]. intros i Hi. eapply safe_bind; [atom|]. intros n Hn.
    destruct i as [i|], n as [n|]; try safely. apply safe_ret.
    exists (WakeUpEntry i n). split; [|done]. cbn [opt from_option] in *. cbn [entry_ok]. repeat split; fits.
Qed.
Hint Resolve safe_promptPolicyEntry : safe.
Hint Extern 1 (safe _ _ (readBlob _ _ _)) => (apply safe_readBlob; args) : safe.

Lemma safe_handleViewEffectivePolicy : safe I any handleViewEffectivePolicy.
Proof. unfold handleViewEffectivePolicy. safely. Qed.
Lemma safe_handleViewNodeOverride : safe I any handleViewNodeOverride.
Proof. unfold handleViewNodeOverride. safely. Qed.
Lemma safe_handleDeleteNodeOverride : safe I any handleDeleteNodeOverride.
Proof. unfold handleDeleteNodeOverride. safely. Qed.

(** The edits write an encoded policy. *)
Ltac written :=
  repeat lazymatch goal with
  | |- safe _ _ (match Blob.applyEntryToBlob ?b ?e with _ => _ end) =>
      let E := fresh in destruct (Blob.applyEntryToBlob b e) as [[? ?]|] eqn:E;
      [apply applied_bytes in E; [|done..]|]
  | |- _ => step
  end.

Lemma safe_handleSetNodeOverrideEntry : safe I any handleSetNodeOverrideEntry.
Proof. unfold handleSetNodeOverrideEntry. written. Qed.
Lemma safe_handleDevicePolicyEdit : safe I any handleDevicePolicyEdit.
Proof. unfold handleDevicePolicyEdit. cbv zeta. written. Qed.
Lemma safe_handleListDevicePolicies : safe I any handleListDevicePolicies.
Proof. unfold handleListDevicePolicies. safely. Qed.

(** *** Lists, scenes and climate groups *)

Lemma safe_listNode t : byte_ok (t_id t) -> safe I any (listNode t).
Proof. intros Ht. unfold listNode. safely. Qed.

Lemma safe_handleListNodes : safe I any handleListNodes.
Proof.
  unfold handleListNodes. eapply safe_bind; [atom|]. intros [nodes|] Hn; [|by apply safe_ret].
  apply from_nodes in Hn. rewrite Forall_forall in Hn. cbv beta. destruct nodes as [|n nodes]; [by step|]. step.
  apply safe_each; try done. intros t Ht. apply safe_listNode. by apply Hn.
Qed.

Lemma safe_promptSceneSource : safe I (opt byte_ok) promptSceneSource.
Proof.
  unfold promptSceneSource. eapply safe_bind; [atom|]. intros [c|] _; apply safe_ret; [|done].
  unfold sourceOf. repeat case_bool_decide; cbn; first [done|by apply byte_const].
Qed.

Lemma safe_promptTriggerSelector source :
  safe I (opt (fun s => byte_ok s.1 /\ byte_ok s.2)) (promptTriggerSelector source).
Proof.
  unfold promptTriggerSelector. eapply safe_bind; [atom|]. intros [s|] Hs; [|by apply safe_ret]. cbn [opt from_option] in Hs.
  destruct (source =? SCENE_SOURCE_CENTRAL); [|apply safe_ret; cbn; split; fits].
  eapply safe_bind; [atom|]. intros [k|] Hk; apply safe_ret; [|done]. cbn [opt from_option] in *. cbn. split; fits.
Qed.
Hint Resolve safe_promptSceneSource safe_promptTriggerSelector : safe.

Lemma safe_listScene sceneId : safe I any (listScene sceneId).
Proof. unfold listScene. safely. Qed.
Hint Resolve safe_listScene : safe.
Lemma safe_handleListScenes : safe I any handleListScenes.
Proof. unfold handleListScenes. safely. Qed.
Lemma safe_handleListSceneTriggers : safe I any handleListSceneTriggers.
Proof. unfold handleListSceneTriggers. safely; by apply safe_logLine. Qed.

Lemma safe_enterActions fuel : forall acc, arg_ok (AActions acc) ->
  safe I (fun l => arg_ok (AActions l)) (enterActions fuel acc).
Proof.
  induction fuel as [|fuel IH]; intros acc Ha; [by intros w Hw|]. cbn [enterActions].
  eapply safe_bind; [atom|]. intros [n|] Hn; [|by apply safe_ret]. eapply safe_bind; [atom|]. intros [bs|] Hbs.
  - apply IH. cbn [arg_ok]. apply Forall_app. split; [done|]. by constructor.
  - eapply safe_bind; [atom|]. intros [] _. by apply IH.
Qed.

Lemma safe_handleSetScene : safe I any handleSetScene.
Proof.
  unfold handleSetScene. eapply safe_bind; [atom|]. intros [sceneId|] _; [|atom].
  apply (safe_bind _ any); [by apply safe_get|]. intros fuel _.
  eapply safe_bind; [by apply safe_enterActions; constructor|]. intros actions Ha. destruct actions as [|a actions]; [atom|].
  apply safe_catch; [|intros ?; atom]. safely.
Qed.

Lemma safe_handleDeleteScene : safe I any handleDeleteScene.
Proof. unfold handleDeleteScene. safely. Qed.
Lemma safe_handleBindSceneTrigger : safe I any handleBindSceneTrigger.
Proof. unfold handleBindSceneTrigger. safely. Qed.
Lemma safe_handleUnbindSceneTrigger : safe I any handleUnbindSceneTrigger.
Proof. unfold handleUnbindSceneTrigger. safely. Qed.

Lemma safe_promptGroup : safe I (opt any) promptGroup.
Proof. unfold promptGroup. safely. Qed.
Hint Resolve safe_promptGroup : safe.

Lemma safe_handleSetLogicalThermostatMode : safe I any handleSetLogicalThermostatMode.
Proof. unfold handleSetLogicalThermostatMode. safely. Qed.
Lemma safe_handleSetLogicalThermostatSetpoint : safe I any handleSetLogicalThermostatSetpoint.
Proof. unfold handleSetLogicalThermostatSetpoint. safely. Qed.
Lemma safe_handleGetLogicalThermostatState : safe I any handleGetLogicalThermostatState.
Proof. unfold handleGetLogicalThermostatState. safely. Qed.

(** *** Dialogues *)

Context `{Display} `{Clock}.

Lemma safe_runInfoModal title lines : safe I any (Render.runInfoModal title lines).
Proof. unfold Render.runInfoModal. safely. Qed.
Hint Resolve safe_runInfoModal : safe.

Lemma safe_section {A} method (as_ : Reply -> option A) lines what : safe I any (section method as_ lines what).
Proof.
  unfold section. apply safe_catch; [|intros; by apply safe_ret].
  apply (safe_bind _ any); [|intros; by apply safe_ret]. apply safe_fetch; [done..|constructor|done].
Qed.
Hint Resolve safe_section : safe.

Lemma safe_handleNetworkInfo : safe I any handleNetworkInfo.
Proof. unfold handleNetworkInfo. safely. Qed.

Lemma safe_handleNodeInfo n : byte_ok n -> safe I any (handleNodeInfo n).
Proof.
  intros Hn. unfold handleNodeInfo. eapply safe_bind; [atom|]. intros [info|] _; [|by apply safe_ret].
  apply (safe_bind _ any); [by apply safe_get|]. intros row _. cbv zeta. atom.
Qed.

End Programs.

#[export] Hint Resolve safe_handleSetLifeline safe_handleViewEffectivePolicy safe_handleViewNodeOverride
  safe_handleDeleteNodeOverride safe_handleSetNodeOverrideEntry safe_handleDevicePolicyEdit safe_handleListDevicePolicies
  safe_handleListNodes safe_handleListScenes safe_handleListSceneTriggers safe_handleSetScene safe_handleDeleteScene
  safe_handleBindSceneTrigger safe_handleUnbindSceneTrigger safe_handleSetLogicalThermostatMode
  safe_handleSetLogicalThermostatSetpoint safe_handleGetLogicalThermostatState safe_handleNetworkInfo safe_handleNodeInfo : safe.


