(* ===== verification/TerminalSession.v ===== *)
(** * The terminal client: what holds throughout a session

    The turns of the loop and the signal handlers keep the invariants of [TerminalLogic]:
    whatever is typed and whatever the daemon signals, every call carries arguments that
    fit their D-Bus types, the selection is a row of the list, and the log stays bounded. *)

From Stdlib Require Import String Ascii.
From S2P Require Import Prelude Config TerminalText TerminalConsole TerminalFormat TerminalHandlers.
From S2P Require Import TerminalPolicy TerminalRender TerminalScenes TerminalSignals TerminalMain.
From S2P Require Import TerminalLogic TerminalNodes TerminalSafety TerminalMenus.
From stdpp Require Import strings.
#[local] Open Scope Z_scope.

(** ** The loop *)

Section Loop.
Context `{Daemon} (Hreply : forall n c, reply_ok (reply n c)).
Context `{Oob} `{Display} `{Clock}.

Lemma good_selection m w : good w -> ids_ok m -> selection_ok m -> good (setModel m w).
Proof. intros [[] _] Hi Hs. split; [by split|done]. Qed.

Lemma good_activity f w :
  (forall a, log (f a) = log a /\ (byte_ok (dskNode (dskPending a)) -> byte_ok (dskNode (dskPending (f a))))) ->
  good w -> good (setActivity (f (activity w)) w).
Proof.
  intros Hf [[] Hs]. destruct (Hf (activity w)) as [El Hd]. split; [|done]. split; try done; cbn; [by apply Hd|by rewrite El].
Qed.

Lemma safe_activity f :
  (forall a, log (f a) = log a /\ (byte_ok (dskNode (dskPending a)) -> byte_ok (dskNode (dskPending (f a))))) ->
  safe good any (modify (fun w => setActivity (f (activity w)) w)).
Proof. intros Hf. apply safe_modify. intros w. by apply good_activity. Qed.

Lemma safe_refreshNodes : safe good any refreshNodes.
Proof.
  intros w [Hb Hs]. destruct (refreshNodes_done Hreply w) as (w' & m & -> & Hm & Ha). split; [done|].
  destruct (answer _ _) as [l|]; [destruct Ha as (_ & ? & ?)|subst m; pose proof (base_ids w Hb)]; by eapply moved_good.
Qed.

Lemma safe_refreshValues : safe good any refreshValues.
Proof.
  intros w [Hb Hs]. destruct (refreshValues_done w (base_ids w Hb)) as (w' & m & -> & Hm & Hid & Hsel). split; [done|].
  assert (Hlen : length (rows m) = length (rows (nodeModel w))).
  { rewrite <- (length_fmap id), <- (length_fmap id (rows (nodeModel w))). by apply (f_equal length) in Hid. }
  eapply moved_good; [done| | |exact Hm].
  - apply ids_bytes. rewrite Hid. apply ids_bytes, base_ids, Hb.
  - intros Hne. rewrite Hsel, Hlen. apply Hs. intros E. apply Hne, nil_length_inv. by rewrite Hlen, E.
Qed.
Hint Resolve safe_refreshNodes safe_refreshValues : safe.

Lemma safe_move delta : safe good any (modify (fun w => setModel (moveSelection delta (nodeModel w)) w)).
Proof.
  apply safe_modify. intros w Hw. apply good_selection; [done| |].
  - destruct Hw as [[Hi _ _ _ _] _]. unfold ids_ok, moveSelection in *. by destruct (rows (nodeModel w)) eqn:E; rewrite ?E.
  - apply moveSelection_ok. by destruct Hw.
Qed.
Hint Resolve safe_move : safe.

Lemma safe_handleDsk : safe good any handleDsk.
Proof.
  unfold handleDsk. apply (safe_bind _ (fun d => byte_ok (dskNode d))).
  - apply safe_get. intros w [Hb _]. apply (base_dsk w Hb).
  - intros d Hd. safely.
Qed.

Definition ui_ok (ui : Ui) : Prop := byte_ok (lastSession ui).

Lemma safe_startAdd ui : safe good ui_ok (startAdd ui).
Proof.
  unfold startAdd. eapply safe_bind; [atom|]. intros n Hn. do 2 step. by apply safe_ret.
Qed.
Lemma safe_startRemove ui : safe good ui_ok (startRemove ui).
Proof.
  unfold startRemove. eapply safe_bind; [atom|]. intros n Hn. do 2 step. by apply safe_ret.
Qed.
Lemma safe_stopSession ui : ui_ok ui -> safe good any (stopSession ui).
Proof. unfold ui_ok. intros Hu. unfold stopSession. safely. Qed.

Lemma safe_selectedInfo : safe good any selectedInfo.
Proof.
  unfold selectedInfo. apply (safe_bind _ (opt byte_ok)).
  - apply safe_get. intros w [Hb _]. unfold compose. destruct (selectedNodeId (nodeModel w)) as [n|] eqn:E; [|done].
    eapply selected_byte; [|exact E]. apply (base_ids w Hb).
  - intros [n|] Hn; [|atom]. cbn [opt from_option] in Hn; atom.
Qed.

Lemma safe_runActionMenu title items : Forall (fun i => safe good any (Render.action i)) items ->
  safe good any (Render.runActionMenu title items).
Proof.
  intros Hi. unfold Render.runActionMenu. step. eapply safe_bind; [atom|]. intros k _.
  induction Hi as [|i items Hi _ IH]; [by apply safe_ret|]. cbn [Render.chosen]. by destruct (_ =? k).
Qed.

Ltac menu := apply safe_runActionMenu; repeat apply Forall_cons_2; try apply Forall_nil_2; cbn [Render.action item];
  solve [eauto 2 with safe].

Lemma safe_menus :
  safe good any (Render.runActionMenu "Get from node" getMenu) /\
  safe good any (Render.runActionMenu "Control / set on node" controlMenu) /\
  safe good any (Render.runActionMenu "Policy" policyMenu) /\
  safe good any (Render.runActionMenu "Scenes" sceneMenu) /\
  safe good any (Render.runActionMenu "Logical thermostat (climate group)" climateMenu).
Proof. split_and!; menu. Qed.

Lemma safe_command key ui : ui_ok ui -> safe good any (command key ui).
Proof.
  intros Hu. pose proof safe_menus as (? & ? & ? & ? & ?). pose proof safe_handleDsk. pose proof safe_selectedInfo.
  pose proof (safe_stopSession ui Hu). unfold command.
  repeat match goal with |- safe _ _ (if ?b then _ else _) => destruct b end; try done; try atom; safely.
Qed.

Lemma safe_press key ui : ui_ok ui -> safe good ui_ok (press key ui).
Proof.
  intros Hu. unfold press.
  repeat match goal with |- safe _ _ (if ?b then _ else _) => destruct b end;
    [by apply safe_ret|apply safe_startAdd|apply safe_startRemove|].
  apply (safe_bind _ any); [by apply safe_command|]. intros [] _. by apply safe_ret.
Qed.

Lemma safe_refreshMarked : safe good any refreshMarked.
Proof.
  unfold refreshMarked. apply (safe_bind _ any); [by apply safe_get|]. intros a _.
  destruct (nodesDirty a); [|destruct (valuesDirty a); [|by apply safe_ret]]; (apply (safe_bind _ any); [|intros [] _; safely]).
  - by apply (safe_activity (fun a => setDirty false (valuesDirty a) a)).
  - by apply (safe_activity (fun a => setDirty (nodesDirty a) false a)).
Qed.

Lemma safe_turn key ui : ui_ok ui -> safe good ui_ok (turn key ui).
Proof.
  intros Hu. unfold turn. step. apply (safe_bind _ any); [apply safe_refreshMarked|intros [] _]. destruct (key =? ERR); [by apply safe_ret|].
  apply safe_catch; [by apply safe_press|]. intros e. step. by apply safe_ret.
Qed.

(** A signal has the types of the interface: its node is a byte. *)
Definition signal_ok (s : Signal) : Prop :=
  match s with DSKPendingConfirmation n _ | AssociationGroupingsReport n _ => byte_ok n | _ => True end.

Lemma safe_askGroups fuel n supported : forall group, byte_ok n -> byte_ok group ->
  safe good any (askGroups fuel n supported group).
Proof.
  induction fuel as [|fuel IH]; intros group Hn Hg; [by apply safe_ret|]. cbn [askGroups].
  destruct (group <=? supported); [|by apply safe_ret]. apply (safe_bind _ any).
  - apply safe_catch; [|intros e]; step; by apply safe_ret.
  - intros [] _; [|by apply safe_ret]. apply IH; [done|apply u8_range].
Qed.

Lemma safe_onSignal s : signal_ok s -> safe good any (onSignal s).
Proof.
  intros Hs. unfold onSignal. apply (safe_bind _ any).
  { apply (safe_activity (signalEffect s)). intros a. destruct s; cbn in *; by repeat case_match. }
  intros [] _. apply (safe_bind _ any); [destruct (signalLine s); [atom|by apply safe_ret]|]. intros [] _.
  destruct s; try by apply safe_ret. apply (safe_bind _ any); [|intros; by apply safe_ret]. by apply safe_askGroups.
Qed.

Definition event_ok (e : Event) : Prop := match e with Signalled s => signal_ok s | Turn _ => True end.

Lemma safe_session events : forall ui, Forall event_ok events -> ui_ok ui -> safe good ui_ok (session events ui).
Proof.
  induction events as [|e events IH]; intros ui He Hu; [by apply safe_ret|]. apply Forall_cons in He as [He Hes].
  destruct e as [s|key]; cbn [session].
  - apply (safe_bind _ any); [by apply safe_onSignal|]. intros [] _. by apply IH.
  - destruct (running ui); [|by apply safe_ret]. eapply safe_bind; [by apply safe_turn|]. intros ui' Hu'. by apply IH.
Qed.

Lemma safe_start : safe good ui_ok start.
Proof.
  unfold start. step. apply (safe_bind _ any).
  - apply safe_catch; [|intros e; atom]. apply (safe_bind _ any); [apply safe_fetch; first [exact _|exact Hreply|by apply Forall_nil_2|done]|]. intros e _.
    by apply (safe_activity (setDaemonError (e_severity e) (e_source e) (e_code e) (e_message e))).
  - intros [] _. step. step. apply safe_ret. by apply byte_const.
Qed.

(** The client before it starts, [lines] and [ks] being what will be typed. *)
Definition fresh (lines : list (option text)) (ks : list Z) : World :=
  mkWorld lines ks 0 (mkNodeModel [] 0) quiet [] [] [].

Lemma fresh_good lines ks : good (fresh lines ks).
Proof. split; [split|intros Hne; by destruct Hne]; [apply Forall_nil_2|apply Forall_nil_2|by apply byte_const|by apply byte_const|cbn; lia]. Qed.

(** C30: throughout a session.  Whatever the operator types and presses, whatever the
    daemon signals and in whatever order, every call the client makes carries arguments
    that fit their D-Bus types (ids, levels and counters are bytes, values and intervals
    are of 32 bits, blobs are bytes), the nodes listed have ids that are bytes, the
    selection is a row of the list, and the log never holds more than its 200 lines. *)
Theorem session_well_typed events lines ks :
  Forall event_ok events ->
  let w := worldOf (run events (fresh lines ks)) in
  Forall call_ok (calls w) /\ ids_ok (nodeModel w) /\ selection_ok (nodeModel w) /\
  (length (log (activity w)) <= MAX_LOG_LINES)%nat.
Proof.
  intros He w. assert (Hg : good w); [|destruct Hg as [[] ?]; by split_and!].
  assert (Hs : safe good ui_ok (run events)).
  { unfold run. eapply safe_bind; [apply safe_start|]. intros ui Hu. by apply safe_session. }
  specialize (Hs _ (fresh_good lines ks)). unfold w. destruct (run events (fresh lines ks)); [done..|by destruct Hs].
Qed.

End Loop.

(** A session in which node 5 joins, is switched on and its signals arrive. *)
Lemma session_well_typed_witness :
  let d : Daemon := {| reply _ c := if bool_decide (method c = lit "GetNodes") then Nodes [mkNodeTuple 5 4 16 1 [0x25]]
                                    else Nothing; mismatch := [] |} in
  let w := worldOf (@run d 0 {| maxX := 80; maxY := 24; hasColors := true |} 0
    [Signalled (NodeInclusionStatus 1 Format.STATUS_COMPLETED 5 4 16 1 []); Turn (code "c");
     Signalled (SwitchBinaryReport 5 1)] (fresh [Some []] [code "o"])) in
  In (mkCall (lit "SetSwitchBinary") [AByte 5; ABool true; AByte 1]) (calls w) /\ Forall call_ok (calls w).
Proof.
  intros d w. split; [vm_compute; tauto|].
  assert (Hr : forall n c, reply_ok (@reply d n c)).
  { intros n c. cbn. destruct (bool_decide _); [|done]. cbn. repeat apply Forall_cons_2; try apply Forall_nil_2; by apply byte_const. }
  apply (@session_well_typed d Hr 0 {| maxX := 80; maxY := 24; hasColors := true |} 0). by repeat constructor.
Defined.

(** ** What is chosen and typed is what is called *)

(** The two menus of actions on a node as the operator sees them: the keys that open the
    menu, the key and the label of the action, and what is asked for and called then. *)
Definition offers : list (string * ascii * string * Form) :=
  [("gG", "b"%char, "Battery", simpleForm "GetBattery");
   ("gG", "v"%char, "Version", simpleForm "GetNodeVersion");
   ("gG", "m"%char, "Manufacturer-specific", simpleForm "GetManufacturerSpecific");
   ("gG", "z"%char, "Z-Wave Plus info", simpleForm "GetZWavePlusInfo");
   ("gG", "c"%char, "Configuration", gets "GetConfiguration" [FNode; anyByte]);
   ("gG", "s"%char, "Sensor multilevel", simpleForm "GetSensorMultilevel");
   ("gG", "i"%char, "Binary sensor", simpleForm "GetSensorBinary");
   ("gG", "e"%char, "Meter", gets "GetMeter" [FNode; anyByte]);
   ("gG", "n"%char, "Notification", gets "GetNotification" [FNode; anyByte]);
   ("gG", "t"%char, "Thermostat mode", simpleForm "GetThermostatMode");
   ("gG", "p"%char, "Thermostat setpoint", gets "GetThermostatSetpoint" [FNode; anyByte]);
   ("gG", "o"%char, "Thermostat operating state", simpleForm "GetThermostatOperatingState");
   ("gG", "f"%char, "Thermostat fan mode", simpleForm "GetThermostatFanMode");
   ("gG", "w"%char, "Multilevel switch", getMultilevelForm);
   ("gG", "k"%char, "Color switch", gets "GetColorSwitch" [FNode; anyByte]);
   ("gG", "d"%char, "Door lock", simpleForm "GetDoorLock");
   ("gG", "u"%char, "User code", gets "GetUserCode" [FNode; anyByte]);
   ("gG", "x"%char, "User code slot count", simpleForm "GetUserCodeCount");
   ("gG", "a"%char, "Association members", gets "GetAssociation" [nodeByte; groupByte]);
   ("gG", "r"%char, "Association groupings", gets "GetAssociationGroupings" [nodeByte]);
   ("gG", "h"%char, "Multi Channel endpoints", simpleForm "GetMultiChannelEndpoints");
   ("gG", "j"%char, "Multi Channel capability", sets "GetMultiChannelCapability" [FNode; FByte 1 BYTE_MAX] pass);
   ("cC", "o"%char, "Switch binary ON", switchForm true);
   ("cC", "f"%char, "Switch binary OFF", switchForm false);
   ("cC", "w"%char, "Multilevel switch set", multilevelForm);
   ("cC", "b"%char, "Basic set", sets "SetBasic" [FNode; anyByte] pass);
   ("cC", "i"%char, "Indicator set", sets "SetIndicator" [FNode; anyByte] pass);
   ("cC", "c"%char, "Configuration set", configurationForm);
   ("cC", "t"%char, "Thermostat mode set", sets "SetThermostatMode" [FNode; anyByte] pass);
   ("cC", "p"%char, "Thermostat setpoint set",
     sets "SetThermostatSetpoint" [FNode; anyByte; anyByte; anyByte; FInt32] setpointArgs);
   ("cC", "n"%char, "Thermostat fan mode set", sets "SetThermostatFanMode" [FNode; anyByte; anyByte] fanArgs);
   ("cC", "l"%char, "Color switch set (RGB)", sets "SetColorSwitch" [FNode; anyByte; anyByte; anyByte] colorArgs);
   ("cC", "d"%char, "Door lock set", sets "SetDoorLock" [FNode; anyByte] pass);
   ("cC", "u"%char, "User code set", sets "SetUserCode" [FNode; anyByte; anyByte; FLine] codeArgs);
   ("cC", "k"%char, "Wake-up interval", sets "SetWakeUpInterval" [FNode; FU32; anyByte] intervalArgs);
   ("cC", "a"%char, "Association add", sets "SetAssociation" [FNode; groupByte; FNodes] pass);
   ("cC", "r"%char, "Association remove", sets "RemoveAssociation" [FNode; groupByte; FNodes] pass)]%string.

Section Arrive.
Context `{Daemon} `{Oob} `{Display} `{Clock}.

(** The line of a menu for a key, in the order they have. *)
Definition menuLine (k : ascii) (label : string) (row : Z) : Op :=
  Put Plain row 0 (str [S_ "  ["; T_ [k]; S_ "] "; S_ label]).

(** An action of the table: its menu's screen has its line, and its key runs it. *)
Definition offered (o : string * ascii * string * Form) : Prop :=
  let '(chars, k, label, F) := o in
  exists title items h,
    (forall mk ui, mk ∈ lit chars -> press (code mk) ui = (Render.runActionMenu title items ;; mret ui)) /\
    (exists row, menuLine k label row ∈ Render.menuScreen title items) /\
    Render.chosen (code k) items = h /\ (h, F) ∈ actions.

Lemma opens_get mk ui : mk ∈ lit "gG" -> press (code mk) ui = (Render.runActionMenu "Get from node" getMenu ;; mret ui).
Proof. by intros [->|[->|[]%elem_of_nil]%elem_of_cons]%elem_of_cons. Qed.

Lemma opens_control mk ui :
  mk ∈ lit "cC" -> press (code mk) ui = (Render.runActionMenu "Control / set on node" controlMenu ;; mret ui).
Proof. by intros [->|[->|[]%elem_of_nil]%elem_of_cons]%elem_of_cons. Qed.

Ltac among := repeat first [apply list_elem_of_here|apply list_elem_of_further].

Lemma all_offered : Forall offered offers.
Proof.
  unfold offers. repeat apply Forall_cons_2; try apply Forall_nil_2.
  all: first [exists "Get from node"%string, getMenu; eexists; split; [exact opens_get|]
             |exists "Control / set on node"%string, controlMenu; eexists; split; [exact opens_control|]].
  all: split; [eexists; unfold Render.menuScreen; apply elem_of_app; right; cbn; among|].
  all: split; [reflexivity|]; unfold actions; cbn [fmap list_fmap app]; among.
Qed.

(** What fetching leaves: nothing is read, nothing is asked of the daemon but the nodes,
    their names and values, and nothing at all unless a signal marked something. *)
Record fetched (w w1 : World) : Prop := mkFetched {
  fetched_typed : typed w1 = typed w /\ keys w1 = keys w;
  fetched_counter : sessionCounter w1 = sessionCounter w;
  fetched_calls : exists cs, calls w1 = calls w ++ cs /\ Forall fetching cs;
  fetched_unmarked : nodesDirty (activity w) = false -> valuesDirty (activity w) = false ->
    calls w1 = calls w /\ nodeModel w1 = nodeModel w }.

Lemma moved_fetches m w0 w w1 : typed w = typed w0 -> keys w = keys w0 -> sessionCounter w = sessionCounter w0 ->
  calls w = calls w0 -> nodesDirty (activity w0) = true \/ valuesDirty (activity w0) = true ->
  moved m w w1 -> fetched w0 w1.
Proof.
  intros Et Ek Ec Ea Hd [_ Hc [Ht Hk] (cs & Es & _ & Hf) _].
  split; [split; congruence|congruence|exists cs; by rewrite Es, Ea|]. intros Hn Hv. rewrite Hn, Hv in Hd. by destruct Hd.
Qed.

Lemma refreshMarked_done (Hreply : forall n c, reply_ok (reply n c)) s w : ids_ok (nodeModel w) ->
  exists w1, refreshMarked (addScreen s w) = Done tt w1 /\ fetched w w1.
Proof.
  intros Hi. unfold refreshMarked.
  match goal with |- context [(get ?f ≫= ?k) ?u] => rewrite (bind_done (get f) k u (f u) u eq_refl) end.
  change (activity (addScreen s w)) with (activity w).
  destruct (nodesDirty (activity w)) eqn:En; [|destruct (valuesDirty (activity w)) eqn:Ev].
  - set (w2 := setActivity (setDirty false (valuesDirty (activity w)) (activity w)) (addScreen s w)).
    destruct (refreshNodes_done Hreply w2) as (w3 & m & E3 & Hm3 & Ha).
    destruct (refreshValues_done w3) as (w4 & m4 & E4 & Hm4 & _).
    { rewrite (moved_model _ _ _ Hm3). destruct (answer _ _); [by apply Ha|by rewrite Ha]. }
    exists w4. split; [|eapply (moved_fetches _ _ w2); try done; [auto|by eapply moved_trans]].
    change ((refreshNodes ;; refreshValues) w2 = Done () w4). by rewrite (bind_done _ _ _ _ _ E3).
  - set (w2 := setActivity (setDirty (nodesDirty (activity w)) false (activity w)) (addScreen s w)).
    destruct (refreshValues_done w2 Hi) as (w4 & m4 & E4 & Hm4 & _).
    exists w4. split; [exact E4|]. eapply (moved_fetches _ _ w2); try done; auto.
  - exists (addScreen s w). split; [done|]. split; [done..|exists []; by rewrite app_nil_r|done].
Qed.

Lemma turn_fetched key ui w w1 :
  refreshMarked (addScreen (Render.draw (lastSession ui) (activity w) (nodeModel w)) w) = Done tt w1 ->
  turn key ui w = acted key ui w1.
Proof.
  intros E. unfold turn.
  rewrite (bind_done _ _ w tt (addScreen (Render.draw (lastSession ui) (activity w) (nodeModel w)) w)) by done.
  by rewrite (bind_done _ _ _ _ _ E).
Qed.

Lemma code_range c : 0 <= code c < 256.
Proof. unfold code. pose proof (nat_ascii_bounded c). lia. Qed.

Lemma acted_key mk ui w : acted (code mk) ui w =
  (try_ (press (code mk) ui) catch_ err => (say [S_ "D-Bus call failed: "; T_ err] ;; mret ui)) w.
Proof. unfold acted. by rewrite (proj2 (Z.eqb_neq _ _)) by (pose proof (code_range mk); unfold ERR; lia). Qed.

(** C29: what the operator chooses and types arrives.  For every action of the two node
    menus (the table [offers]: the keys of the menu, the key and the label of the action,
    its D-Bus method and its fields), the menu shows the label at its key, and choosing it
    and typing whatever values its fields can have (numbers in decimal, a blank line for
    the selected node, lists with commas or blanks) makes exactly one call, of the
    action's method, with exactly those values and the next value of the counter; no line
    is taken that is not its own.  If a signal has marked the list or the values, the turn
    first fetches them, by calls that only read, and the node selected is that of the
    list fetched; else the one call is all the turn makes. *)
Theorem typed_values_arrive chars k label F mk vs lines rest ks ui w :
  (forall n c, reply_ok (reply n c)) -> ids_ok (nodeModel w) ->
  (chars, k, label, F) ∈ offers -> mk ∈ lit chars ->
  typed w = (Some <$> lines) ++ rest -> keys w = code k :: ks ->
  (exists title items row, press (code mk) ui = (Render.runActionMenu title items ;; mret ui) /\
     menuLine k label row ∈ Render.menuScreen title items) /\
  exists w1, refreshMarked (addScreen (Render.draw (lastSession ui) (activity w) (nodeModel w)) w) = Done tt w1 /\
    fetched w w1 /\
    (Forall3 (types (selectedNodeId (nodeModel w1))) (fields F) vs lines -> accept F vs = true ->
     let counter := u8 (sessionCounter w + 1) in
     exists w', turn (code mk) ui w = Done ui w' /\ typed w' = rest /\ sessionCounter w' = counter /\
       calls w' = calls w1 ++ [mkCall (lit (title F)) (build F vs ++ [AByte counter])] /\
       nodeModel w' = nodeModel w1).
Proof.
  intros Hreply Hids Ho Hmk Hw Hk. pose proof all_offered as Hall. rewrite Forall_forall in Hall.
  destruct (Hall _ Ho) as (title & items & h & Hp & (row & Hrow) & Hch & HF). split; [by exists title, items, row; rewrite Hp|].
  destruct (refreshMarked_done Hreply (Render.draw (lastSession ui) (activity w) (nodeModel w)) w Hids) as (w1 & E1 & Hf).
  exists w1. split; [done|]. split; [done|]. intros Ht Ha counter. destruct Hf as [[Et Ek] Ec _ _].
  rewrite (turn_fetched _ _ _ _ E1), acted_key, Hp by done. set (w2 := setKeys ks (addScreen (Render.menuScreen title items) w1)).
  destruct (action_typed h F w2 vs lines rest HF Ht Ha) as (e & Es & He); [cbn; congruence|].
  assert (Em : forall r : text -> M Ui, (try_ (Render.runActionMenu title items ;; mret ui) catch_ err => r err) w1
               = match h w2 with Waiting w' => Waiting w' | Threw err w' => r err w' | Done _ w' => Done ui w' end).
  { intros r. unfold Render.runActionMenu, getch, modify, catch, mbind, M_bind. cbn [keys addScreen]. rewrite Ek, Hk, Hch.
    fold w2. by destruct (h w2). }
  rewrite Em. clear Em. unfold seen in Es. change (sessionCounter w2) with (sessionCounter w1) in Es. rewrite Ec in Es.
  injection Es as Ee Et' Ec' Ek' Eo.
  destruct (h w2) as [w'|err w'|[] w']; [by subst e| |]; eexists; (split; [reflexivity|]); by split_and!.
Qed.

End Arrive.

(** Association add on the selected node, group 1, nodes 2 and 3, nothing being marked. *)
Lemma typed_values_arrive_witness :
  let d : Daemon := {| reply _ _ := Nothing; mismatch := [] |} in
  let w := setModel (mkNodeModel [mkNodeRow 7 4 16 1 [] [] [] []] 0)
             (fresh [Some []; Some (lit "1"); Some (lit "2,3")] [code "a"]) in
  exists w', @turn d 0 {| maxX := 80; maxY := 24; hasColors := true |} 0 (code "c") (mkUi 0 false true) w
             = Done (mkUi 0 false true) w' /\
    calls w' = [mkCall (lit "SetAssociation") [AByte 7; AByte 1; ABytes [2; 3]; AByte 1]].
Proof.
  intros d w.
  assert (Ht : Forall3 (types (selectedNodeId (nodeModel w))) [FNode; groupByte; FNodes] [VNum 7; VNum 1; VList [2; 3]]
                 [[]; lit "1"; lit "2,3"]).
  { constructor; [by apply types_selected|].
    constructor; [apply (types_byte _ _ _ 1); unfold GROUP_ID_MIN, GROUP_ID_MAX; lia|].
    constructor; [|constructor]. apply (types_nodes _ 2 [(","%char, 3)]).
    - repeat constructor; by vm_compute.
    - apply (bool_decide_unpack _). by vm_compute.
    - vm_compute. lia. }
  destruct (@typed_values_arrive d 0 {| maxX := 80; maxY := 24; hasColors := true |} 0 "cC" "a" "Association add"
              (sets "SetAssociation" [FNode; groupByte; FNodes] pass) "c" [VNum 7; VNum 1; VList [2; 3]]
              [[]; lit "1"; lit "2,3"] [] [] (mkUi 0 false true) w)
    as (_ & w1 & _ & [_ _ _ Hq] & Hc); [done| | |by left|reflexivity|reflexivity|].
  - apply Forall_cons_2; [by apply byte_const|apply Forall_nil_2].
  - unfold offers. repeat first [apply list_elem_of_here|apply list_elem_of_further].
  - destruct (Hq eq_refl eq_refl) as [Ec Em]. rewrite Em in Hc. destruct (Hc Ht eq_refl) as (w' & E & _ & _ & Ek & _).
    exists w'. split; [exact E|]. rewrite Ek, Ec. reflexivity.
Defined.
