(* ===== verification/TerminalDaemon.v ===== *)
(** * The terminal client on the daemon

    The two ends of the D-Bus interface put together: a call of the client
    ([TerminalConsole]) as a method of the backend ([ExternalApi]), by the names and
    types of [InterfaceManifest.yml], and its result as the client's reply.  What an
    operator edits then comes into force for the node. *)

From Stdlib Require Import String Ascii.
From S2P Require Import Prelude Sqlite Config HostApi NodeRegistry PolicyRegister PolicyBlob SceneStore NodeStores ProtocolThread ThermostatOrchestrator ExternalApi ExternalStores TerminalText TerminalConsole TerminalHandlers TerminalPolicy.
From stdpp Require Import gmap strings.
#[local] Open Scope Z_scope.

Module Wire.

Definition ofText (t : text) : string := string_of_list_ascii t.

(** The method a call names, when its arguments are of the method's types; the
    methods that publish a command as it came are left out, with [GetNetworkStatus],
    whose reply depends on the clock, and [GetVersion], which the client never calls. *)
Definition request (c : TerminalConsole.Call) : option Dbus.Method :=
  let named (name : string) := bool_decide (method c = lit name) in
  match arguments c with
  | [] =>
      if named "GetNodes" then Some Dbus.GetNodes else
      if named "GetDongleInfo" then Some Dbus.GetDongleInfo else
      if named "GetInitData" then Some Dbus.GetInitData else
      if named "GetDaemonError" then Some Dbus.GetDaemonError else
      if named "ListDevicePolicies" then Some (Dbus.Stored Dbus.ListDevicePolicies) else
      if named "ListScenes" then Some (Dbus.Stored Dbus.ListScenes) else
      if named "ListSceneTriggers" then Some (Dbus.Stored Dbus.ListSceneTriggers) else None
  | [AByte n] =>
      if named "GetNodeInfo" then Some (Dbus.GetNodeInfo n) else
      if named "GetNodeValues" then Some (Dbus.GetNodeValues n) else
      if named "GetNodeMetadata" then Some (Dbus.Stored (Dbus.GetNodeMetadata n)) else
      if named "GetNodeOverride" then Some (Dbus.Stored (Dbus.GetNodeOverride n)) else
      if named "DeleteNodeOverride" then Some (Dbus.Stored (Dbus.DeleteNodeOverride n)) else
      if named "GetEffectivePolicy" then Some (Dbus.Stored (Dbus.GetEffectivePolicy n)) else None
  | [AByte n; ABytes policy] =>
      if named "SetNodeOverride" then Some (Dbus.Stored (Dbus.SetNodeOverride n policy)) else None
  | [AU16 m; AU16 t; AU16 p] =>
      if named "GetDevicePolicy" then Some (Dbus.Stored (Dbus.GetDevicePolicy (Register.mkDevice m t p))) else
      if named "DeleteDevicePolicy" then Some (Dbus.Stored (Dbus.DeleteDevicePolicy (Register.mkDevice m t p))) else None
  | [AU16 m; AU16 t; AU16 p; ABytes policy] =>
      if named "SetDevicePolicy" then Some (Dbus.Stored (Dbus.SetDevicePolicy (Register.mkDevice m t p) policy)) else None
  | [AText s] =>
      if named "GetScene" then Some (Dbus.Stored (Dbus.GetScene (ofText s))) else
      if named "DeleteScene" then Some (Dbus.Stored (Dbus.DeleteScene (ofText s))) else None
  | [AText s; AActions l] =>
      if named "SetScene" then Some (Dbus.Stored (Dbus.SetScene (ofText s) l)) else None
  | [AByte src; AByte n; AByte i; AByte k; AText s] =>
      if named "BindSceneTrigger" then Some (Dbus.Stored (Dbus.BindSceneTrigger (Scene.mkKey src n i k) (ofText s))) else None
  | [AByte src; AByte n; AByte i; AByte k] =>
      if named "UnbindSceneTrigger" then Some (Dbus.Stored (Dbus.UnbindSceneTrigger (Scene.mkKey src n i k))) else None
  | [AText k; AText v] =>
      if named "GetLogicalThermostatState" then Some (Dbus.GetLogicalThermostatState (ofText k) (ofText v)) else None
  | [AText k; AText v; AByte m] =>
      if named "SetLogicalThermostatMode" then Some (Dbus.SetLogicalThermostatMode (ofText k) (ofText v) m) else None
  | [AText k; AText v; AByte t; AByte p; AByte s; AI32 x] =>
      if named "SetLogicalThermostatSetpoint"
      then Some (Dbus.SetLogicalThermostatSetpoint (ofText k) (ofText v) t p s x) else None
  | _ => None
  end.

Definition toText (s : string) : text := lit s.

(** A result as the tuple the client stores it to. *)
Definition answer (r : Dbus.Result) : Reply :=
  match r with
  | Dbus.RVoid => Nothing
  | Dbus.RNodes l => Nodes ((fun '(n, b, g, s, ccs) => mkNodeTuple n b g s ccs) <$> l)
  | Dbus.RNodeInfo t =>
      let '(n, b, g, s, ccs, sch, mf, pt, pd, lib, pr, prs, ap, aps, ep, dy, idn, zw, ro, nt, ii, ui) := t in
      NodeInfo (mkNodeInfo n b g s ccs sch mf pt pd lib pr prs ap aps ep dy idn zw ro nt ii ui)
  | Dbus.RDongleInfo (v, t, h, c) => DongleInfo (mkDongleInfo (toText v) t h c)
  | Dbus.RInitData (a, c, ids, t, v) => InitData (mkInitData a c ids t v)
  | Dbus.RVersion _ => Nothing
  | Dbus.RStatus (c, p, h, n, k, a, cm, s, u) => Status (mkStatusTuple c (toText p) (toText h) n k a cm s u)
  | Dbus.RError (s, src, c, m) => Problem (mkErrorTuple s (toText src) c (toText m))
  | Dbus.RBytes l => Blob l
  | Dbus.RPolicies l => Policies l
  | Dbus.RMetadata l => Pairs (prod_map toText toText <$> l)
  | Dbus.RValues l => NodeValues ((fun '(i, v, u) => (toText i, toText v, u)) <$> l)
  | Dbus.RActions l => Actions l
  | Dbus.RTexts l => Texts (toText <$> l)
  | Dbus.RTriggers l => Triggers ((fun '(s, n, i, k, sc) => mkTrigger s n i k (toText sc)) <$> l)
  | Dbus.RThermostat (m, md, op, fan, t, sc, pr, v) => Thermostat (mkThermostat m md op fan t sc pr v)
  end.

Section Serve.
Context `{Oob} `{SqliteEnv} `{Dbus.Version}.

(** A call served: the reply, what was published, the daemon after it. *)
Definition serve (c : TerminalConsole.Call) (st : Dbus.State) : Reply * list Dbus.Published * Dbus.State :=
  match request c with
  | None => (Failed (lit "unknown method"), [], st)
  | Some m => let '(r, out, st) := Dbus.call m st in (answer r, out, st)
  end.

Fixpoint serveAll (cs : list TerminalConsole.Call) (st : Dbus.State) : list Dbus.Published * Dbus.State :=
  match cs with
  | [] => ([], st)
  | c :: cs => let '(_, out, st) := serve c st in let (outs, st) := serveAll cs st in (out ++ outs, st)
  end.

(** The daemon the client talks to is in the state [st]: its next reply is the
    backend's. *)
Definition talksTo (d : Daemon) (w : World) (st : Dbus.State) : Prop :=
  forall c, reply (length (calls w)) c = (serve c st).1.1.
End Serve.
End Wire.

Import PolicyRegister.Policy Wire.

Section Edit.
Context `{d : Daemon} `{Oob} `{e : SqliteEnv} (He : reliable e) `{Dbus.Version}.

Lemma serve_stored c m st s :
  request c = Some (Dbus.Stored m) -> method_ok m -> holds st s ->
  (serve c st).1.1 = answer (ApiSpec.call m s).1.1 /\ (serve c st).1.2 = (ApiSpec.call m s).1.2 /\
  holds (serve c st).2 (ApiSpec.call m s).2.
Proof.
  intros Hr Hm Hh. destruct (store_refines He (Use m) st s Hm Hh) as [E Hst]. unfold serve. rewrite Hr.
  cbn [asInput Dbus.step specStep] in E, Hst. destruct (Dbus.call _ st) as [[r out] st'].
  destruct (ApiSpec.call m s) as [[r' out'] s']. cbn in *. by simplify_eq.
Qed.

(** What the stored blob of an override is read back as. *)
Lemma stored_blob h n st s :
  holds st s -> ApiSpec.bound s = Some h ->
  let old := default [] (ApiSpec.nodeOverrides s !! (h, n)) in
  stored (Dbus.blobOf (ApiSpec.nodeOverrides s !! (h, n))) = Some old /\ policy_ok old.
Proof.
  intros Hh Hb. cbn zeta. destruct (ApiSpec.nodeOverrides s !! (h, n)) as [p|] eqn:E; [|split; [done|split; [constructor|cbn; lia]]].
  pose proof (hp_overrides_ok _ _ (h_policies _ _ Hh) _ _ E) as Hp. split; [exact (stored_policy p Hp)|done].
Qed.

Lemma bytes_stored p : Forall entry_ok p -> bytes_ok (serialize p).
Proof.
  intros Hp. unfold serialize. cbn [app]. constructor; [by unfold byte_ok|]. constructor; [apply u8_range|].
  assert (Hu : forall v, bytes_ok (u32Bytes v)) by (intros v; unfold u32Bytes; repeat constructor; apply u8_range).
  induction Hp as [|en p Hen Hp IH]; [constructor|]. cbn [flat_map]. apply Forall_app. split; [|done].
  destruct en as [q sz g v|g ms|i n]; cbn [entryBytes entry_ok] in *; unfold appendU32Be;
    repeat first [apply Forall_app; split | apply Hu | apply Forall_nil_2 | apply Forall_cons; split];
    try apply Hen; try apply u8_range; unfold byte_ok, KIND_CONFIGURATION, KIND_ASSOCIATION, KIND_WAKEUP; try lia; destruct g; lia.
Qed.

(** The entries of a policy for a slot, and the last of them. *)
Definition entriesFor (sl : Z * Z) (p : Policy.t) : list Entry := filter (fun x => slotOf x = sl) p.

Lemma entryFor_reverse sl p : entryFor sl (reverse p) = last (entriesFor sl p).
Proof.
  unfold entriesFor. induction p as [|x p IH] using rev_ind; [done|]. rewrite reverse_snoc, filter_app, last_app.
  unfold entryFor. cbn [find]. rewrite filter_cons, filter_nil. fold (entryFor sl (reverse p)).
  destruct (bool_decide_reflect (slotOf x = sl)) as [E|E]; [by rewrite decide_True|by rewrite decide_False].
Qed.

(** An entry merged in takes the place of the first for its slot. *)
Lemma entriesFor_merged old en :
  entriesFor (slotOf en) (applyOverride old en) = en :: tail (entriesFor (slotOf en) old).
Proof.
  assert (Hr : forall l', replaceFirst en old = Some l' ->
    entriesFor (slotOf en) l' = en :: tail (entriesFor (slotOf en) old)).
  { unfold entriesFor. induction old as [|x old IH]; intros l'; cbn [replaceFirst]; [done|]. rewrite sameSlot_spec.
    destruct (bool_decide_reflect (slotOf x = slotOf en)) as [E|E].
    - intros [= <-]. by rewrite !filter_cons_True.
    - destruct (replaceFirst en old); [|done]. intros [= <-]. rewrite !filter_cons_False by done. by apply IH. }
  unfold applyOverride. pose proof (replaceFirst_spec en old) as Hs. destruct (replaceFirst en old) as [l'|]; [by apply Hr|].
  unfold entriesFor. rewrite filter_app, filter_cons_True, filter_nil by done.
  replace (filter _ old) with (@nil Entry); [done|]. symmetry. clear Hr.
  induction old as [|x old IH]; [done|]. apply not_elem_of_cons in Hs as [Hx Hs].
  rewrite filter_cons_False by congruence. by apply IH.
Qed.

(** The entry in force for the slot of an edit: the edit; only over a default of the
    device, which takes the last entry of the override, a second entry the override
    already held for the slot comes before it. *)
Definition inForceAfter (h : string) (n : Z) (en : Entry) (s : ApiSpec.State) : Entry :=
  match ApiSpec.identities s !! (h, n) ≫= (fun d => ApiSpec.devicePolicies s !! d) with
  | Some _ => default en (last (tail (entriesFor (slotOf en) (default [] (ApiSpec.nodeOverrides s !! (h, n))))))
  | None => en
  end.

Lemma edit_in_force en h n s :
  let old := default [] (ApiSpec.nodeOverrides s !! (h, n)) in
  entryFor (slotOf en)
    (ApiSpec.inForce h n (ApiSpec.setOverrides (<[(h, n) := merge old [en]]> (ApiSpec.nodeOverrides s)) s))
  = Some (inForceAfter h n en s).
Proof.
  intros old. unfold ApiSpec.inForce, inForceAfter. cbn [ApiSpec.nodeOverrides ApiSpec.setOverrides ApiSpec.identities ApiSpec.devicePolicies].
  rewrite lookup_insert_eq. fold old. change (merge old [en]) with (applyOverride old en).
  destruct (_ ≫= _) as [dp|]; [|by rewrite applyOverride_entryFor, bool_decide_eq_true_2].
  destruct (merge_spec dp (applyOverride old en)) as [-> _]. rewrite entryFor_reverse, entriesFor_merged, last_cons.
  by destruct (last (tail _)).
Qed.

(** Without a second entry for its slot the edit is in force. *)
Lemma entriesFor_single sl p : NoDup (slotOf <$> p) -> tail (entriesFor sl p) = [].
Proof.
  intros Hnd. unfold entriesFor. induction p as [|x p IH]; [done|]. cbn in Hnd. apply NoDup_cons in Hnd as [Hx Hnd].
  rewrite filter_cons. case_decide as E; [|by apply IH]. cbn. rewrite <-E. clear -Hx.
  induction p as [|y p IH]; [done|]. cbn in Hx. apply not_elem_of_cons in Hx as [Hy Hx].
  rewrite filter_cons_False by congruence. by apply IH.
Qed.

Lemma inForceAfter_single h n en s :
  NoDup (slotOf <$> default [] (ApiSpec.nodeOverrides s !! (h, n))) -> inForceAfter h n en s = en.
Proof. intros Hnd. unfold inForceAfter. rewrite (entriesFor_single _ _ Hnd). by destruct (_ ≫= _). Qed.

(** The daemon reads what was written, unless it was the 256th entry. *)
Lemma bytes_merged old en : policy_ok old -> entry_ok en -> bytes_ok (serialize (merge old [en])).
Proof. intros [Hp _] Hen. apply bytes_stored. by apply applyOverride_ok. Qed.

Lemma merged_read old en :
  policy_ok old -> entry_ok en ->
  deserialize (serialize (merge old [en]))
  = Some (if bool_decide (slotOf en ∈ slotOf <$> old \/ (length old < 255)%nat) then merge old [en] else []).
Proof.
  intros [Hp Hl] Hen. case_bool_decide as Hroom; [by apply merged_read_back|].
  change (merge old [en]) with (applyOverride old en). rewrite deserialize_serialize by by apply applyOverride_ok.
  rewrite applyOverride_length. destruct (decide (slotOf en ∈ slotOf <$> old)); [tauto|].
  rewrite bool_decide_eq_false_2 by done. replace (length old) with 255%nat by lia. done.
Qed.

End Edit.

(** C10: an operator's edit comes into force.  The operator types a node and a policy
    entry, the client talks to a daemon that is bound to a network: then the client
    asks once and writes once, the daemon announces the change once and keeps all it
    held but the node's override, which is the old one with the entry merged in, and
    the policy the daemon reports as effective for the node has that entry first in its
    slot.  There are two exceptions, both stated: where the override already held
    several entries for the slot and the device has a default, the last of those stays
    in force; and an entry that would be the 256th of the override leaves it empty. *)
Theorem operator_edit_in_force `{d : Daemon} `{Oob} (e : SqliteEnv) `{Dbus.Version} en n line lines rest w st s h :
  reliable e -> holds st s -> ApiSpec.bound s = Some h -> talksTo d w st ->
  types (selectedNodeId (nodeModel w)) FNode (VNum n) line -> entry_typed (selectedNodeId (nodeModel w)) en lines ->
  typed w = Some line :: (Some <$> lines) ++ rest ->
  let old := default [] (ApiSpec.nodeOverrides s !! (h, n)) in
  let room := bool_decide (slotOf en ∈ slotOf <$> old \/ (length old < 255)%nat) in
  let w' := worldOf (handleSetNodeOverrideEntry w) in
  let '(published, st') := serveAll (drop (length (calls w)) (calls w')) st in
  let s' := ApiSpec.setOverrides (<[(h, n) := if room then merge old [en] else []]> (ApiSpec.nodeOverrides s)) s in
  typed w' = rest /\
  calls w' = calls w ++ [mkCall (lit "GetNodeOverride") [AByte n];
                         mkCall (lit "SetNodeOverride") [AByte n; ABytes (serialize (merge old [en]))]] /\
  published = [Dbus.FromPolicies (Register.PolicyChanged n)] /\ holds st' s' /\
  (serve (mkCall (lit "GetEffectivePolicy") [AByte n]) st').1.1 = Blob (serialize (ApiSpec.inForce h n s')) /\
  (room = true -> entryFor (slotOf en) (ApiSpec.inForce h n s') = Some (inForceAfter h n en s)) /\
  (NoDup (slotOf <$> old) -> inForceAfter h n en s = en).
Proof.
  intros He Hs Hb Htalk Hn Hen Hw old room w'.
  destruct (stored_blob h n st s Hs Hb) as [Hstored Hold]. fold old in Hstored, Hold.
  set (query := mkCall (lit "GetNodeOverride") [AByte n]).
  destruct (serve_stored He query (Dbus.GetNodeOverride n) st s eq_refl I Hs) as (Hr & Hp & Hs1).
  cbn [ApiSpec.call] in Hr, Hp, Hs1. rewrite Hb in Hr, Hp, Hs1. rewrite <-(Htalk query) in Hr.
  assert (Hbytes : bytes_ok (Dbus.blobOf (ApiSpec.nodeOverrides s !! (h, n)))).
  { destruct (ApiSpec.nodeOverrides s !! (h, n)) as [p|] eqn:E; [|constructor].
    apply bytes_stored. by apply (hp_overrides_ok _ _ (h_policies _ _ Hs) _ _ E). }
  destruct (override_edited en n line lines rest _ w Hn Hen Hw Hr Hbytes) as (Ht & Hc & _).
  fold w' query in Ht, Hc. unfold written in Hc. rewrite Hstored in Hc.
  pose proof (typed_entry_ok _ _ _ Hen) as Heok.
  set (update := mkCall (lit "SetNodeOverride") [AByte n; ABytes (serialize (merge old [en]))]) in Hc.
  rewrite Hc, drop_app_length. cbn [serveAll].
  destruct (serve_stored He update (Dbus.SetNodeOverride n (serialize (merge old [en]))) (serve query st).2 s eq_refl
              (bytes_merged old en Hold Heok) Hs1) as (_ & Hp2 & Hs2).
  cbn [ApiSpec.call] in Hp2, Hs2. rewrite Hb, (merged_read old en Hold Heok) in Hp2, Hs2. fold room in Hs2, Hp2.
  destruct (serve query st) as [[r1 out1] st1]. cbn [fst snd] in *.
  destruct (serve update st1) as [[r2 out2] st2]. cbn [fst snd] in *. subst out1 out2. cbn beta iota zeta.
  destruct (serve_stored He (mkCall (lit "GetEffectivePolicy") [AByte n]) (Dbus.GetEffectivePolicy n) st2 _ eq_refl I Hs2)
    as (Heff & _). cbn [ApiSpec.call ApiSpec.bound ApiSpec.setOverrides] in Heff. rewrite Hb in Heff.
  split_and!; [done..| |by apply inForceAfter_single]. intros ->. apply edit_in_force.
Qed.

(** A daemon on a network, with an override of node 5 and a default for its device. *)
Definition setUp : list StoreInput :=
  [Bound (Dbus.mkDongleInfo "Z-Wave 6.07" 1 [0xC0; 0xFF; 0xEE; 0] 1); Identified 5 (Register.mkDevice 0x86 1 2);
   Use (Dbus.SetDevicePolicy (Register.mkDevice 0x86 1 2) (serialize [WakeUpEntry 60 1; AssociationEntry 1 [1]]));
   Use (Dbus.SetNodeOverride 5 (serialize [ConfigurationEntry 3 1 false 7]))].
Definition someVersion : Dbus.Version := Dbus.Build_Version "1.0" "v1".
Definition aDaemon : Dbus.State := (Dbus.run (H := 0) (H0 := alwaysRuns) (H1 := someVersion) (asInput <$> setUp) newDaemon).2.
Definition aSpec : ApiSpec.State := (specRun (H := 0) setUp ApiSpec.empty).2.
Definition talking : Daemon :=
  {| reply n c := (serve (H := 0) (H0 := alwaysRuns) (H1 := someVersion) c aDaemon).1.1; mismatch := [] |}.

Lemma aDaemon_holds : holds aDaemon aSpec.
Proof.
  refine (proj2 (stores_refine (H := 0) alwaysRuns_reliable (H0 := someVersion) setUp newDaemon ApiSpec.empty _ newDaemon_holds)).
  apply (bool_decide_unpack _). by vm_compute.
Qed.

Lemma operator_edit_in_force_witness :
  let w := typing ["5"; "w"; "3600"; "0"]%string in
  let w' := worldOf (@handleSetNodeOverrideEntry talking 0 w) in
  let '(published, st') := serveAll (H := 0) (H0 := alwaysRuns) (H1 := someVersion) (drop (length (calls w)) (calls w')) aDaemon in
  typed w' = [] /\ published = [Dbus.FromPolicies (Register.PolicyChanged 5)] /\
  exists p, (serve (H := 0) (H0 := alwaysRuns) (H1 := someVersion) (mkCall (lit "GetEffectivePolicy") [AByte 5]) st').1.1 = Blob (serialize p) /\
    entryFor (KIND_WAKEUP, 0) p = Some (WakeUpEntry 3600 0).
Proof.
  intros w w'.
  assert (Hn : types (selectedNodeId (nodeModel w)) FNode (VNum 5) (lit "5")).
  { apply (types_node _ 5). unfold NODE_ID_MIN, NODE_ID_MAX, Parse.NODE_ID_MIN, Parse.NODE_ID_MAX. lia. }
  assert (He : entry_typed (selectedNodeId (nodeModel w)) (WakeUpEntry 3600 0) [lit "w"; lit "3600"; lit "0"]).
  { apply typed_wakeup; [apply (types_u32 _ 3600); unfold Parse.U32_MAX; lia|].
    apply (types_byte _ _ _ 0). unfold BYTE_MIN, BYTE_MAX, Parse.BYTE_MIN, Parse.BYTE_MAX. lia. }
  pose proof (operator_edit_in_force (d := talking) (H := 0) alwaysRuns (H0 := someVersion) (WakeUpEntry 3600 0) 5 _ _ [] w
    aDaemon aSpec (formatHomeId [0xC0; 0xFF; 0xEE; 0]) alwaysRuns_reliable aDaemon_holds eq_refl (fun c => eq_refl) Hn He eq_refl) as Hx.
  assert (Hold : default [] (ApiSpec.nodeOverrides aSpec !! (formatHomeId [0xC0; 0xFF; 0xEE; 0], 5)) = [ConfigurationEntry 3 1 false 7])
    by (by vm_compute).
  cbv zeta in Hx. rewrite Hold in Hx.
  rewrite (bool_decide_eq_true_2 (_ \/ _)) in Hx by (right; exact (proj1 (Nat.ltb_lt 1 255) eq_refl)). fold w' in Hx.
  destruct (serveAll _ _) as [published st']. destruct Hx as (H1 & _ & H2 & _ & H4 & H5 & H6).
  rewrite (H6 (NoDup_singleton _)) in H5.
  split; [exact H1|]. split; [exact H2|]. eexists. split; [exact H4|exact (H5 eq_refl)].
Defined.

(** A policy with two entries for one slot, which the daemon accepts: the client
    replaces the first of them, the daemon applies the last over a device default, and
    the edit has no effect. *)
Example edit_of_doubled_slot :
  let old := [WakeUpEntry 30 1; WakeUpEntry 90 1] in
  deserialize (H := 0) (serialize old) = Some old /\
  Blob.applyEntryToBlob (H := 0) (serialize old) (clientEntry (WakeUpEntry 3600 0))
    = Some (serialize [WakeUpEntry 3600 0; WakeUpEntry 90 1], true) /\
  merge [WakeUpEntry 60 1] [WakeUpEntry 3600 0; WakeUpEntry 90 1] = [WakeUpEntry 90 1].
Proof. by vm_compute. Qed.
